(* ===== verification/_CoqProject ===== *)
-Q . S2P
Prelude.v
Mem.v
Bitmap.v
Sha256.v
KTime.v
Calibrate.v
Trace.v
Flightrec.v
Pmm.v
ZAlloc.v
JobGraph.v
Contracts.v
IpcProto.v
SharedHeap.v
Interrupts.v
Ring.v
Ipc.v
Bridge.v
Kheap.v
Vmm.v
Ifr.v
CLib.v
Console.v
Gdt.v
Process.v
UserProcess.v
Episode.v
Sched.v
Keyboard.v
Inject.v
Shell.v
Pci.v
Ivshmem.v
Syscall.v
Boot.v
KAlloc.v
Infer.v
Agent.v
