(* ===== verification/Prelude.v ===== *)
(** * ZENEDGE: a verification library for the kernel's C code

    ZENEDGE is a small kernel for AI workloads: it accounts memory and CPU of
    jobs against contracts, runs job graphs, records what happened in a flight
    recorder, and talks to a Linux process through a shared-memory window.  This
    library models the C of kernel/ and of tools/bridge, and proves what makes each
    part correct.

    The repository builds two kernels: an x86_64 one, started by kmain.c, and parts
    for an i386 one (page tables, segments, processes, system calls) that the
    x86_64 build replaces by stubs.  A file below says which it is of where it
    matters.

    ** Modelling conventions

    - A C integer is a [Z]; wherever the C expression has a width the model cuts
      with [u8], [u16], [u32], [u64] ([x +u y] is 32-bit addition).  A struct is a
      [Record], [s{{ f := v }}] is [s->f = v]; an enum is an inductive with its
      codes given by a function; a fixed array is a list read and written at a
      [Z] index ([zget], [zset]).
    - Memory reached through pointers by layout (the shared window, bitmaps,
      kernel-heap headers, page tables, PCBs, the payloads the allocator zeroes) is
      a byte map ([Mem]) with little-endian fields of 1, 2, 4 and 8 bytes.
      Addresses are those of the build the file is of, NULL is 0.
    - Static variables of a file are the fields of one record, threaded through
      its operations; a component that calls another is written against a class
      ([Trace], [PageAlloc], [Allocator], [Platform]), or as a tree of the calls it
      makes ([Agent]), or holds the callee's record as a field.
    - Hardware is a parameter: ports, device memory, the time-stamp counter, the
      keyboard's bytes.  Where a theorem needs the hardware to behave, its documented
      behaviour is a class of laws ([ConfigMechanism]) or a named hypothesis, with
      an instance or a witness.
    - What runs between two operations (the other side of the window, an interrupt
      that ends a [hlt]) is a function argument, or an explicit list of actions.
    - A [for] loop with a fixed bound is [for_range]; a search loop with an early
      return is [find_range].  A loop whose end depends on data takes fuel and
      returns an [option]; for each such loop there is either a theorem that the
      fuel given is enough or a theorem that no fuel is (the C loop diverges).
    - Output is modelled where it is the point (Console, Shell, the system calls,
      the WebAssembly host functions); elsewhere the messages of [console_write] are
      left out.

    ** Files

    Foundations:
    - [Prelude]: integers at their width, loops, counting, arrays, tactics.
      [Mem]: byte-addressed memory.  [Bitmap]: the bitmap used by two allocators.
    - [Sha256] (lib/sha256.c): streaming hash, proved equal to the padded
      block-by-block specification for every way of cutting the message.
    - [CLib] (lib/string.c, lib/libc.c, lib/divdi3.c): memory and string routines,
      64-bit division proved exact, [strtoul].
    - [KTime] (time/time.c): the clock over a sequence of counter values.
      [Calibrate]: its calibration against the interval timer.

    Recording:
    - [Trace]: the interface of the flight recorder to its clients, with its laws.
      [Flightrec] (trace/flightrec.c): the 256-entry ring, spans, queries, seal;
      discharges the laws.  [Ifr] (trace/ifr.c): the chained inference records.

    Memory:
    - [Pmm] (mm/pmm.c): the page allocator with two simulated NUMA nodes: boot
      from the memory map, single and multi page allocation, release.  Invariant,
      refinement of a specification by page sets, client safety over any sequence
      of operations, and the divergence of the two-node fallback.
    - [ZAlloc] (zenedge_alloc.c): the portable layer over it; instances of
      [PageAlloc] and its laws.
    - [Kheap] (mm/kheap.c): the kernel heap as a list of blocks; [KAlloc]: the
      interface of an allocator to its clients, discharged by it.
    - [Vmm] (mm/vmm.c, i386): page tables as a map from pages to entries.

    Jobs:
    - [JobGraph] (job/job_graph.c): steps, dependencies, tensors, and the
      scheduler's loop over a job.  [Sched] (sched/sched_core.c): the job runner
      that executes the steps over the window, in spans, against the contract.
    - [Contracts] (contracts.c, api/contract_registry.c, api/oracle.c): budgets,
      the enforcement state machine, admission, the registry and the oracle.
    - [Episode] (engine/episode.c, drivers/mock_gpu.c): the tuning engine over an
      actuator and a collector.

    The shared window:
    - [IpcProto] (ipc/ipc_proto.h): C struct layout computed from the fields, the
      regions of the window, payload packing.
    - [SharedHeap] (ipc/heap.c): the blob allocator in the window: first-fit
      bitmap allocation, blob table, header scan, tensors.
    - [Ring]: the rings as bounded queues.  [Ipc] (ipc/ipc.c): the kernel's side;
      [Bridge] (tools/bridge/bridge.c): the Linux side, and the system of both,
      booted as kmain boots it, under any interleaving of whole calls, as a
      refinement of two queues; [Inject] (tools/bridge/inject.c): the program that
      plays the kernel.  The boot lays the mesh table over the heap's bitmap: the
      theorems of [SharedHeap] are of a heap before that, and [heap_wired] is what
      is left of its invariant after it.

    Processes (i386):
    - [Gdt] (arch/gdt.c): segments and task state.  [Process] (sched/sched_core.c,
      arch/switch.s): the context switch by instructions and round robin.
      [UserProcess] (sched/process.c): creation, first entry, destruction.
      [Syscall] (arch/syscall.c): the system calls.

    Devices:
    - [Interrupts] (arch/pic.c, pit.c, idt.c).  [Console] (console.c): screen and
      serial port.  [Keyboard] (arch/keyboard.c) and [Shell] (shell.c).
    - [Pci] (arch/pci.c): scan, base address registers, MSI.  [Ivshmem]
      (drivers/ivshmem.c, arch/x86_64/apic.c, stubs.c): the shared-memory device on
      both platforms.

    On top:
    - [Boot] (kmain.c): the x86_64 boot over all of it.
    - [Infer] and [Agent] (wasm_loader.c, wasm/host_funcs.c, [math_vec_dot] of
      lib/math.c): inference from a blob's weights, what a guest's pointers are
      checked for, and the protocol of running modules, for any interpreter.

    ** Fuel

    - [Pmm]: [mmap_fuel] is the number of 4-byte steps of the memory map (every
      entry is at least 4 bytes); [find_run_fuel] the number of start pages.
    - [SharedHeap]: [heap_get_blob] scans at most [HEAP_MAX_BLOCKS] headers, enough
      whenever no header claims a size near 4 GB ([heap_scan_termination]).
    - [Kheap]: [kheap_fuel], one step per 48 bytes of heap, since a block has a
      header of 48.
    - [Ipc]: the interrupt handler drains at most 1023 responses, all a ring holds
      ([drain_spec]); a poll spins 5000 times, as the code does.
    - [Sched]: [wait_response] is given as many turns as the timeout takes in ticks
      after the polling ([sched_job_ends]).  [Pci]: the capability walk has at most
      255 steps before it repeats ([pci_msi]).
    - [Keyboard], [Shell]: the turns of the interrupt loop are counted by the
      history of key presses.  [Infer]: [print] cuts 512 bytes in 9 chunks.
    - Strings ([CLib], [Syscall]): the length and one more.
    - [Calibrate]: the ticks of the wait, each read of the port being at least one.

    ** Not modelled

    The vendored interpreter lib/wasm3: in [Agent] it answers the loader's calls in
    any way and with any effect (it is built on the kernel's own heap), so nothing is
    said of what a guest does there.  The assembly stubs of boot and interrupts.  The double-precision functions of lib/math.c, which only
    the interpreter calls, and the [printf] family of lib/libc.c, stubs that write
    nothing.  The C++ runtime and kmain64.cpp, which the Makefile does not build.
    Debug dumps that print only.  The caches and reordering of the processor: memory is sequentially
    consistent, and the barriers of the code have no effect. *)

From stdpp Require Export base list numbers option gmap strings.
From coqutil Require Export Datatypes.RecordSetters.
From Stdlib Require Export ZArith Lia.
Export DoubleBraceUpdate.

#[global] Open Scope Z_scope.
#[global] Set Default Goal Selector "!".

Arguments constant {E} newValue / _.
Arguments apply_update {R E} u / _.

(** ** Struct assignment

    [s{{ f := v }}] is the C assignment [s->f = v] on a struct held in a
    [Record].  The record says its fields once, as an [Eta] instance; the setter
    of a field is that expansion with the field's own projection replaced, so a
    read of another field of the result computes to the read of the original. *)

Class Eta (R : Type) : Type := eta_expand : R -> R.

Ltac eta_setter R E getter :=
  let e := constr:(_ : Eta R) in
  let e := eval hnf in e in
  exact (fun (f : E -> E) (r : R) => ltac:(
    let b := eval cbv beta in (e r) in
    let g := constr:(getter r) in
    match b with
    | context C [g] => let b' := context C [f g] in exact b'
    end)).

#[global] Hint Extern 0 (@Setter ?R ?E ?getter) => eta_setter R E getter : typeclass_instances.

(** ** Machine-width integers

    A C value of type [uintN_t] is a [Z]; arithmetic is done in [Z] and cut
    back to the width by the conversions below wherever the C expression has
    that width.  [is_u w x] is the range of the type. *)

Definition u8 (x : Z) : Z := x mod 0x100.
Definition u16 (x : Z) : Z := x mod 0x10000.
Definition u32 (x : Z) : Z := x mod 0x100000000.
Definition u64 (x : Z) : Z := x mod 0x10000000000000000.

(** A [uint32_t] read back as a (32-bit, two's complement) [int]. *)
Definition int_of_u32 (x : Z) : Z :=
  if x <? 0x80000000 then x else x - 0x100000000.

Definition is_u8 (x : Z) : Prop := 0 <= x < 0x100.
Definition is_u16 (x : Z) : Prop := 0 <= x < 0x10000.
Definition is_u32 (x : Z) : Prop := 0 <= x < 0x100000000.
Definition is_u64 (x : Z) : Prop := 0 <= x < 0x10000000000000000.

Declare Scope cint_scope.
Delimit Scope cint_scope with c.
Notation "x +u y" := (u32 (x + y)) (at level 50, left associativity) : cint_scope.
Notation "x -u y" := (u32 (x - y)) (at level 50, left associativity) : cint_scope.
Notation "x *u y" := (u32 (x * y)) (at level 40, left associativity) : cint_scope.
#[global] Open Scope cint_scope.

Create HintDb cint.

(** Unfolds the width conversions and ranges everywhere and calls [lia]. *)
Ltac unfold_cint :=
  unfold u8, u16, u32, u64, int_of_u32, is_u8, is_u16, is_u32, is_u64 in *.
Ltac cint := unfold_cint; Z.div_mod_to_equations; lia.

Lemma is_u8_u8 x : is_u8 (u8 x).
Proof. cint. Qed.
Lemma is_u16_u16 x : is_u16 (u16 x).
Proof. cint. Qed.
Lemma is_u32_u32 x : is_u32 (u32 x).
Proof. cint. Qed.
Lemma is_u64_u64 x : is_u64 (u64 x).
Proof. cint. Qed.

Lemma u8_small x : is_u8 x -> u8 x = x.
Proof. unfold is_u8, u8; intros; by apply Z.mod_small. Qed.
Lemma u16_small x : is_u16 x -> u16 x = x.
Proof. unfold is_u16, u16; intros; by apply Z.mod_small. Qed.
Lemma u32_small x : is_u32 x -> u32 x = x.
Proof. unfold is_u32, u32; intros; by apply Z.mod_small. Qed.
Lemma u64_small x : is_u64 x -> u64 x = x.
Proof. unfold is_u64, u64; intros; by apply Z.mod_small. Qed.

#[export] Hint Resolve is_u8_u8 is_u16_u16 is_u32_u32 is_u64_u64 : cint.

(** ** Loops

    [for_range lo hi body s] is [for (i = lo; i < hi; i++) body(i)] on a state
    [s]; [find_range lo hi p] is the loop that returns the first [i] that
    satisfies [p].  Both stop by themselves: the count [hi - lo] is fixed on
    entry, as in the C loops they stand for (no body writes the bound). *)

Fixpoint loop {S} (n : nat) (i : Z) (body : Z -> S -> S) (s : S) : S :=
  match n with
  | O => s
  | Datatypes.S n' => loop n' (i + 1) body (body i s)
  end.

Definition for_range {S} (lo hi : Z) (body : Z -> S -> S) (s : S) : S :=
  loop (Z.to_nat (hi - lo)) lo body s.

Fixpoint first_from (n : nat) (i : Z) (p : Z -> bool) : option Z :=
  match n with
  | O => None
  | S n' => if p i then Some i else first_from n' (i + 1) p
  end.

Definition find_range (lo hi : Z) (p : Z -> bool) : option Z :=
  first_from (Z.to_nat (hi - lo)) lo p.

(** Conversion compares the bounds and bodies of two loops before it runs them. *)
#[global] Strategy 100 [loop for_range first_from find_range].

Section Loops.
Context {S : Type}.
Implicit Types (s : S) (body : Z -> S -> S) (p : Z -> bool).

Lemma loop_ind (P : Z -> S -> Prop) n i body s :
  P i s ->
  (forall j s', i <= j < i + Z.of_nat n -> P j s' -> P (j + 1) (body j s')) ->
  P (i + Z.of_nat n) (loop n i body s).
Proof.
  revert i s; induction n as [|n IH]; intros i s H0 Hs; cbn.
  - by rewrite Z.add_0_r.
  - replace (i + Z.of_nat (Datatypes.S n)) with ((i + 1) + Z.of_nat n) by lia.
    apply IH.
    + apply Hs; [lia|done].
    + intros j s' Hj. apply Hs. lia.
Qed.

(** Loop invariant rule. *)
Lemma for_range_ind (P : Z -> S -> Prop) lo hi body s :
  lo <= hi ->
  P lo s ->
  (forall j s', lo <= j < hi -> P j s' -> P (j + 1) (body j s')) ->
  P hi (for_range lo hi body s).
Proof.
  intros Hle H0 Hs. unfold for_range.
  replace hi with (lo + Z.of_nat (Z.to_nat (hi - lo))) at 1 by lia.
  apply loop_ind; [done|]. intros j s' Hj. apply Hs. lia.
Qed.

Lemma for_range_empty lo hi body s : hi <= lo -> for_range lo hi body s = s.
Proof. intros. unfold for_range. by rewrite Z2Nat.nonpos by lia. Qed.

Lemma for_range_cons lo hi body s :
  lo < hi -> for_range lo hi body s = for_range (lo + 1) hi body (body lo s).
Proof.
  intros. unfold for_range.
  replace (Z.to_nat (hi - lo)) with (Datatypes.S (Z.to_nat (hi - (lo + 1)))) by lia.
  done.
Qed.

Lemma for_range_ext lo hi body body' s :
  (forall j s', lo <= j < hi -> body j s' = body' j s') ->
  for_range lo hi body s = for_range lo hi body' s.
Proof.
  unfold for_range. intros H.
  assert (Hn : forall k, lo <= k < lo + Z.of_nat (Z.to_nat (hi - lo)) -> lo <= k < hi) by lia.
  revert Hn; generalize (Z.to_nat (hi - lo)) as n. revert s.
  assert (Hgen : forall n i s, (forall k, i <= k < i + Z.of_nat n -> lo <= k < hi) ->
    loop n i body s = loop n i body' s); [|by intros; apply Hgen].
  induction n as [|n IH]; intros i s Hk; [done|]. cbn [loop].
  rewrite H by (apply Hk; lia). apply IH. intros k ?. apply Hk. lia.
Qed.

Lemma first_from_Some n i p k :
  first_from n i p = Some k ->
  i <= k < i + Z.of_nat n /\ p k = true /\ forall j, i <= j < k -> p j = false.
Proof.
  revert i; induction n as [|n IH]; intros i; cbn; [done|].
  destruct (p i) eqn:Hp.
  - intros [= ->]. repeat split; [lia|lia|done|]. intros; lia.
  - intros (Hk & Hpk & Hj)%IH. repeat split; [lia|lia|done|].
    intros j Hj'. destruct (Z.eq_dec j i) as [->|]; [done|]. apply Hj. lia.
Qed.

Lemma first_from_None n i p :
  first_from n i p = None -> forall j, i <= j < i + Z.of_nat n -> p j = false.
Proof.
  revert i; induction n as [|n IH]; intros i; cbn; [intros; lia|].
  destruct (p i) eqn:Hp; [done|].
  intros H j Hj. destruct (Z.eq_dec j i) as [->|]; [done|].
  apply (IH (i + 1)); [done|lia].
Qed.

(** The search loop returns the least index that satisfies the test. *)
Lemma find_range_Some lo hi p k :
  find_range lo hi p = Some k ->
  lo <= k < hi /\ p k = true /\ forall j, lo <= j < k -> p j = false.
Proof.
  intros (H1 & H2 & H3)%first_from_Some. split; [lia|]. split; [done|]. done.
Qed.

Lemma find_range_None lo hi p :
  find_range lo hi p = None -> forall j, lo <= j < hi -> p j = false.
Proof. intros H j Hj. eapply first_from_None; [exact H|lia]. Qed.

Lemma find_range_ext lo hi p q :
  (forall j, lo <= j < hi -> p j = q j) -> find_range lo hi p = find_range lo hi q.
Proof.
  intros H. unfold find_range.
  assert (Hn : forall k, lo <= k < lo + Z.of_nat (Z.to_nat (hi - lo)) -> p k = q k)
    by (intros; apply H; lia).
  revert Hn; generalize (Z.to_nat (hi - lo)) as n. generalize lo as i.
  intros i n; revert i; induction n as [|n IH]; intros i Hn; [done|].
  cbn [first_from]. rewrite Hn by lia. rewrite IH; [done|]. intros; apply Hn; lia.
Qed.

Lemma find_range_intro lo hi p k :
  lo <= k < hi -> p k = true -> (forall j, lo <= j < k -> p j = false) ->
  find_range lo hi p = Some k.
Proof.
  intros Hk Hp Hmin. destruct (find_range lo hi p) as [k'|] eqn:E.
  - apply find_range_Some in E as (Hk' & Hp' & Hmin').
    destruct (Z.lt_trichotomy k k') as [Hlt|[->|Hlt]]; [|done|].
    + by rewrite Hmin' in Hp by lia.
    + by rewrite Hmin in Hp' by lia.
  - by rewrite (find_range_None _ _ _ E) in Hp by lia.
Qed.

Lemma find_range_is_Some lo hi p k :
  lo <= k < hi -> p k = true -> exists k', find_range lo hi p = Some k'.
Proof.
  intros Hk Hp. destruct (find_range lo hi p) as [k'|] eqn:E; [eauto|].
  pose proof (find_range_None _ _ _ E k Hk). congruence.
Qed.
End Loops.

(** ** Counting

    [count_range lo hi p] is the number of [i] in [[lo, hi)] with [p i]. *)

Fixpoint count_from (n : nat) (i : Z) (p : Z -> bool) : Z :=
  match n with
  | O => 0
  | S n' => Z.b2z (p i) + count_from n' (i + 1) p
  end.

Definition count_range (lo hi : Z) (p : Z -> bool) : Z :=
  count_from (Z.to_nat (hi - lo)) lo p.

(** Conversion compares the ranges of two counts before it counts anything. *)
#[global] Strategy 100 [count_from count_range].

Section Counting.
Implicit Types (p q : Z -> bool).

Lemma count_from_ext n i p q :
  (forall j, i <= j < i + Z.of_nat n -> p j = q j) -> count_from n i p = count_from n i q.
Proof.
  revert i; induction n as [|n IH]; intros i H; [done|].
  cbn [count_from]. rewrite (H i) by lia. f_equal. apply IH. intros; apply H. lia.
Qed.

Lemma count_from_app n k i p :
  count_from (n + k) i p = count_from n i p + count_from k (i + Z.of_nat n) p.
Proof.
  revert i; induction n as [|n IH]; intros i; cbn [count_from Nat.add].
  - by rewrite Z.add_0_r.
  - rewrite IH. replace (i + 1 + Z.of_nat n) with (i + Z.of_nat (S n)) by lia. lia.
Qed.

Lemma count_range_ext lo hi p q :
  (forall j, lo <= j < hi -> p j = q j) -> count_range lo hi p = count_range lo hi q.
Proof. intros H. apply count_from_ext. intros; apply H. lia. Qed.

Lemma count_range_empty lo hi p : hi <= lo -> count_range lo hi p = 0.
Proof. intros. unfold count_range. by rewrite Z2Nat.nonpos by lia. Qed.

Lemma count_range_split lo mid hi p :
  lo <= mid <= hi -> count_range lo hi p = count_range lo mid p + count_range mid hi p.
Proof.
  intros H. unfold count_range.
  replace (Z.to_nat (hi - lo)) with (Z.to_nat (mid - lo) + Z.to_nat (hi - mid))%nat by lia.
  rewrite count_from_app. do 2 f_equal. lia.
Qed.

Lemma count_range_one i p : count_range i (i + 1) p = Z.b2z (p i).
Proof.
  unfold count_range. replace (Z.to_nat (i + 1 - i)) with 1%nat by lia.
  cbn [count_from]. lia.
Qed.

Lemma count_range_snoc lo hi p :
  lo <= hi -> count_range lo (hi + 1) p = count_range lo hi p + Z.b2z (p hi).
Proof. intros. rewrite (count_range_split lo hi) by lia. by rewrite count_range_one. Qed.

Lemma count_range_bounds lo hi p : 0 <= count_range lo hi p <= Z.max 0 (hi - lo).
Proof.
  destruct (Z.le_gt_cases hi lo) as [Hle|Hgt].
  - rewrite count_range_empty by done. lia.
  - assert (H : forall n i, 0 <= count_from n i p <= Z.of_nat n).
    { induction n as [|n IH]; intros i; [done|]. cbn [count_from].
      specialize (IH (i + 1)). destruct (p i); cbn [Z.b2z]; lia. }
    specialize (H (Z.to_nat (hi - lo)) lo). unfold count_range. lia.
Qed.

(** Changing the test on a sub-range only changes that sub-range's share. *)
Lemma count_range_update lo a b hi p q :
  lo <= a -> a <= b -> b <= hi ->
  (forall j, lo <= j < hi -> ~ (a <= j < b) -> p j = q j) ->
  count_range lo hi p - count_range a b p = count_range lo hi q - count_range a b q.
Proof.
  intros H1 H2 H3 Heq.
  rewrite !(count_range_split lo a hi), !(count_range_split a b hi) by lia.
  rewrite (count_range_ext lo a p q), (count_range_ext b hi p q);
    [lia| |]; intros; apply Heq; lia.
Qed.

Lemma count_range_pos lo hi p j :
  lo <= j < hi -> p j = true -> 1 <= count_range lo hi p <= hi - lo.
Proof.
  intros Hj Hp. rewrite (count_range_split lo j), (count_range_split j (j + 1)),
    count_range_one, Hp by lia. cbn [Z.b2z].
  pose proof (count_range_bounds lo j p). pose proof (count_range_bounds (j + 1) hi p). lia.
Qed.

Lemma count_range_all lo hi p :
  lo <= hi -> (forall j, lo <= j < hi -> p j = true) -> count_range lo hi p = hi - lo.
Proof.
  intros Hle H.
  assert (E : forall n i, (forall j, i <= j < i + Z.of_nat n -> p j = true) ->
               count_from n i p = Z.of_nat n).
  { induction n as [|n IH]; intros i Hi; [done|]. cbn [count_from].
    rewrite Hi by lia. rewrite IH by (intros; apply Hi; lia). cbn [Z.b2z]. lia. }
  unfold count_range. rewrite E; [lia|]. intros; apply H; lia.
Qed.

Lemma count_range_none lo hi p :
  (forall j, lo <= j < hi -> p j = false) -> count_range lo hi p = 0.
Proof.
  intros H.
  assert (E : forall n i, (forall j, i <= j < i + Z.of_nat n -> p j = false) ->
               count_from n i p = 0).
  { induction n as [|n IH]; intros i Hi; [done|]. cbn [count_from].
    rewrite Hi by lia. rewrite IH by (intros; apply Hi; lia). done. }
  unfold count_range. apply E. intros; apply H; lia.
Qed.
End Counting.

(** ** Arrays

    A C array of records is a list read and written at a [Z] index.  Every use
    is inside the array's bounds in the code; [zset] outside them would do
    nothing. *)

Definition zget {A} `{Inhabited A} (l : list A) (i : Z) : A := l !!! Z.to_nat i.
Definition zset {A} (l : list A) (i : Z) (x : A) : list A := <[Z.to_nat i := x]> l.
Definition zlen {A} (l : list A) : Z := Z.of_nat (length l).

Section Arrays.
Context {A : Type} `{Inhabited A}.
Implicit Types (l : list A) (x : A).

Lemma zget_zset_eq l i x : 0 <= i < zlen l -> zget (zset l i x) i = x.
Proof. intros. apply list_lookup_total_insert_eq. unfold zlen in *. lia. Qed.

Lemma zget_zset_ne l i j x : 0 <= i -> 0 <= j -> i <> j -> zget (zset l i x) j = zget l j.
Proof. intros. apply list_lookup_total_insert_ne. lia. Qed.

Lemma zlen_zset l i x : zlen (zset l i x) = zlen l.
Proof. unfold zlen, zset. by rewrite length_insert. Qed.

Lemma zget_lookup l i x : 0 <= i -> l !! Z.to_nat i = Some x -> zget l i = x.
Proof. intros _ Hl. unfold zget. by apply list_lookup_total_correct. Qed.

Lemma zset_zset l i x y : zset (zset l i x) i y = zset l i y.
Proof. unfold zset. by rewrite list_insert_insert_eq. Qed.
End Arrays.

(** ** Loops over an array

    A loop whose turn [i] looks at the [i]-th element of a list is the fold, or
    the search, of that list. *)

Section ListLoops.
Context {A : Type} `{Inhabited A}.
Implicit Types (l : list A) (x : A).

Lemma zget_app_l l1 l2 i : 0 <= i < zlen l1 -> zget (l1 ++ l2) i = zget l1 i.
Proof. intros. apply lookup_total_app_l. unfold zlen in *. lia. Qed.

Lemma zget_cons x l i : 0 < i -> zget (x :: l) i = zget l (i - 1).
Proof.
  intros. unfold zget. by replace (Z.to_nat i) with (S (Z.to_nat (i - 1))) by lia.
Qed.

Lemma loop_foldl {S} (body : A -> S -> S) (f : Z -> A) l i (s : S) :
  (forall k, 0 <= k < zlen l -> f (i + k) = zget l k) ->
  loop (length l) i (fun j => body (f j)) s = foldl (fun s x => body x s) s l.
Proof.
  revert i s; induction l as [|x l IH]; intros i s Hf; [done|]. cbn [loop length foldl].
  rewrite <- (Z.add_0_r i) at 2. rewrite Hf by (unfold zlen; cbn; lia).
  apply IH. intros k Hk. replace (i + 1 + k) with (i + (k + 1)) by lia.
  unfold zlen in *. rewrite Hf by (cbn [length]; lia). rewrite zget_cons by lia. f_equal. lia.
Qed.

Lemma for_range_foldl {S} (body : A -> S -> S) (f : Z -> A) l (s : S) :
  (forall k, 0 <= k < zlen l -> f k = zget l k) ->
  for_range 0 (zlen l) (fun j => body (f j)) s = foldl (fun s x => body x s) s l.
Proof.
  intros Hf. unfold for_range. rewrite Z.sub_0_r. unfold zlen. rewrite Nat2Z.id.
  by apply loop_foldl.
Qed.

Lemma first_from_find (p : A -> bool) (f : Z -> A) l i :
  (forall k, 0 <= k < zlen l -> f (i + k) = zget l k) ->
  f <$> first_from (length l) i (fun j => p (f j)) = List.find p l.
Proof.
  revert i; induction l as [|x l IH]; intros i Hf; [done|]. cbn [first_from length List.find].
  assert (Hx : f i = x).
  { rewrite <- (Z.add_0_r i). by rewrite Hf by (unfold zlen; cbn; lia). }
  rewrite Hx. destruct (p x); [cbn; by rewrite Hx|].
  apply IH. intros k Hk. replace (i + 1 + k) with (i + (k + 1)) by lia.
  unfold zlen in *. rewrite Hf by (cbn [length]; lia). rewrite zget_cons by lia. f_equal. lia.
Qed.

Lemma find_range_find (p : A -> bool) (f : Z -> A) l :
  (forall k, 0 <= k < zlen l -> f k = zget l k) ->
  f <$> find_range 0 (zlen l) (fun j => p (f j)) = List.find p l.
Proof.
  intros Hf. unfold find_range. rewrite Z.sub_0_r. unfold zlen. rewrite Nat2Z.id.
  by apply first_from_find.
Qed.

(** The last [n] elements. *)
Definition lastn (n : nat) l : list A := drop (length l - n) l.

Lemma lastn_all n l : (length l <= n)%nat -> lastn n l = l.
Proof. intros. unfold lastn. by replace (length l - n)%nat with 0%nat by lia. Qed.

Lemma length_lastn n l : length (lastn n l) = Nat.min n (length l).
Proof. unfold lastn. rewrite length_drop. lia. Qed.

Lemma zget_lastn n l i :
  0 <= i -> zget (lastn n l) i = zget l (Z.max 0 (zlen l - Z.of_nat n) + i).
Proof.
  intros. unfold zget, lastn, zlen. rewrite lookup_total_drop. f_equal. lia.
Qed.

Lemma zget_snoc l x : zget (l ++ [x]) (zlen l) = x.
Proof.
  apply zget_lookup; [unfold zlen; lia|]. unfold zlen. rewrite Nat2Z.id.
  by rewrite lookup_app_r, Nat.sub_diag by lia.
Qed.

Lemma zget_reverse l i : 0 <= i < zlen l -> zget (reverse l) i = zget l (zlen l - 1 - i).
Proof.
  intros. unfold zget, zlen in *. rewrite !list_lookup_total_alt, reverse_lookup by lia.
  do 2 f_equal. lia.
Qed.

Lemma list_eq_zget l1 l2 :
  zlen l1 = zlen l2 -> (forall i, 0 <= i < zlen l1 -> zget l1 i = zget l2 i) -> l1 = l2.
Proof.
  unfold zlen. intros Hl Hi. apply list_eq_same_length with (n := length l1); [lia|lia|].
  intros i x y Hlt Hx Hy. specialize (Hi (Z.of_nat i)). unfold zget in Hi.
  rewrite Nat2Z.id, (list_lookup_total_correct _ _ _ Hx),
    (list_lookup_total_correct _ _ _ Hy) in Hi.
  apply Hi. lia.
Qed.

Lemma lastn_snoc n l x :
  (0 < n)%nat -> lastn n (lastn n l ++ [x]) = lastn n (l ++ [x]).
Proof.
  intros Hn. unfold lastn. rewrite !length_app, !length_drop. cbn [length].
  destruct (Nat.le_gt_cases (length l) n) as [Hle|Hgt].
  - replace (length l - n)%nat with 0%nat by lia. rewrite drop_0. f_equal. lia.
  - replace (length l + 1 - n)%nat with ((length l - n) + 1)%nat by lia.
    rewrite <- drop_drop. rewrite (drop_app_le l) by lia. f_equal. lia.
Qed.

Lemma reverse_lastn n l : reverse (lastn n l) = take n (reverse l).
Proof.
  destruct (Nat.le_gt_cases (length l) n) as [Hle|Hgt].
  - rewrite lastn_all by done. by rewrite take_ge by (rewrite length_reverse; lia).
  - unfold lastn. rewrite <- (take_drop (length l - n) l) at 3. rewrite reverse_app.
    rewrite take_app_le by (rewrite length_reverse, length_drop; lia).
    by rewrite take_ge by (rewrite length_reverse, length_drop; lia).
Qed.
End ListLoops.

Lemma fmap_lastn {A B} (f : A -> B) n l : f <$> lastn n l = lastn n (f <$> l).
Proof. unfold lastn. by rewrite length_fmap, <- fmap_drop. Qed.

(** ** Sums *)

Definition zsum (l : list Z) : Z := foldr Z.add 0 l.

Lemma zsum_app l1 l2 : zsum (l1 ++ l2) = zsum l1 + zsum l2.
Proof. induction l1 as [|x l1 IH]; cbn; [done|]. unfold zsum in *. rewrite IH. lia. Qed.

Definition zmax (l : list Z) : Z := foldr Z.max 0 l.

Lemma zmax_app l1 l2 : zmax (l1 ++ l2) = Z.max (zmax l1) (zmax l2).
Proof.
  assert (0 <= foldr Z.max 0 l2) by (induction l2; cbn; lia).
  unfold zmax. induction l1 as [|x l1 IH]; cbn; lia.
Qed.

Definition zmin (l : list Z) : Z :=
  match l with [] => 0 | x :: l => foldr Z.min x l end.

Lemma zmin_snoc l x : l <> [] -> zmin (l ++ [x]) = Z.min (zmin l) x.
Proof.
  destruct l as [|y l]; [done|]. intros _. cbn. rewrite foldr_app. cbn.
  revert x y; induction l as [|z l IH]; intros; cbn; [lia|]. rewrite IH. lia.
Qed.

Lemma zmin_pos l : l <> [] -> Forall (Z.lt 0) l -> 0 < zmin l.
Proof.
  destruct l as [|y l]; [done|]. intros _ [Hy Hl]%Forall_cons. cbn.
  induction Hl; cbn; lia.
Qed.

Create Rewrite HintDb carray.
#[export] Hint Rewrite @zlen_zset : carray.

(** Case analysis on the boolean tests of the code: turns the tests of the goal
    and the hypotheses into their propositions. *)
Ltac bool_cases :=
  repeat match goal with
  | |- context [?a <? ?b] => destruct (Z.ltb_spec a b)
  | |- context [?a <=? ?b] => destruct (Z.leb_spec a b)
  | |- context [?a =? ?b] => destruct (Z.eqb_spec a b)
  end.

Ltac bool_hyps :=
  repeat match goal with
  | H : (_ <? _) = true |- _ => apply Z.ltb_lt in H
  | H : (_ <? _) = false |- _ => apply Z.ltb_ge in H
  | H : (_ <=? _) = true |- _ => apply Z.leb_le in H
  | H : (_ <=? _) = false |- _ => apply Z.leb_gt in H
  | H : (_ =? _) = true |- _ => apply Z.eqb_eq in H
  | H : (_ =? _) = false |- _ => apply Z.eqb_neq in H
  | H : (_ && _)%bool = true |- _ => apply andb_true_iff in H as [? ?]
  | H : (_ || _)%bool = false |- _ => apply orb_false_iff in H as [? ?]
  | H : negb _ = true |- _ => apply negb_true_iff in H
  | H : negb _ = false |- _ => apply negb_false_iff in H
  end.

(** Replaces a term by a variable for good, in the proof term too. *)
Tactic Notation "forget" constr(t) "as" ident(x) :=
  let E := fresh in remember t as x eqn:E in *; clear E.

(** Splits on the scrutinee of the first [if]/[match] of the goal, remembering
    the equation. *)
Ltac case_if :=
  match goal with
  | |- context [if ?b then _ else _] =>
      lazymatch b with
      | context [if _ then _ else _] => fail
      | _ => let E := fresh "Hif" in destruct b eqn:E
      end
  end.
