(* ===== verification/Mem.v ===== *)
(** Byte-addressed memory: the flat address space the kernel's volatile struct
    pointers reach into (the ivshmem window of kernel/ipc, the page bitmap of
    kernel/mm/pmm.c, the payloads of kernel/mm/kheap.c).

    A memory maps an address to a byte; an address never written reads 0 (BSS
    and a fresh ivshmem window are zero filled).  [ld n m a]/[st n m a v] read
    and write an [n]-byte little-endian field, the way an x86 access to a field
    of that width does; [within] says which bytes a write may change. *)

From S2P Require Import Prelude.

Abbreviation mem := (gmap Z Z).

Definition ldb (m : mem) (a : Z) : Z := default 0 (m !! a).
Definition stb (m : mem) (a v : Z) : mem := <[a := u8 v]> m.

Fixpoint ld (n : nat) (m : mem) (a : Z) : Z :=
  match n with
  | O => 0
  | S n' => ldb m a + 0x100 * ld n' m (a + 1)
  end.

Fixpoint st (n : nat) (m : mem) (a v : Z) : mem :=
  match n with
  | O => m
  | S n' => st n' (stb m a v) (a + 1) (v / 0x100)
  end.

Abbreviation ld8 := (ld 1).
Abbreviation ld16 := (ld 2).
Abbreviation ld32 := (ld 4).
Abbreviation ld64 := (ld 8).
Abbreviation st8 := (st 1).
Abbreviation st16 := (st 2).
Abbreviation st32 := (st 4).
Abbreviation st64 := (st 8).

(** [bytes m a n]: the [n] bytes at [a]. *)
Definition bytes (m : mem) (a : Z) (n : nat) : list Z :=
  (fun i => ldb m (a + Z.of_nat i)) <$> seq 0 n.

(** [store_bytes m a l]: the bytes [l] written from [a] upwards. *)
Fixpoint store_bytes (m : mem) (a : Z) (l : list Z) : mem :=
  match l with
  | [] => m
  | b :: l' => store_bytes (stb m a b) (a + 1) l'
  end.

(** Every stored cell is a byte. *)
Definition mem_ok (m : mem) : Prop := forall a, is_u8 (ldb m a).

(** Two memories agree on the addresses of a region. *)
Definition agree (P : Z -> Prop) (m m' : mem) : Prop :=
  forall a, P a -> ldb m' a = ldb m a.

#[export] Instance agree_equiv P : Equivalence (agree P).
Proof.
  split.
  - intros m a _. done.
  - intros m m' H a Ha. by rewrite H.
  - intros m1 m2 m3 H1 H2 a Ha. by rewrite H2, H1.
Qed.

Section Laws.
Implicit Types (m : mem) (a v : Z) (n k : nat).

Lemma ldb_stb_eq m a v : ldb (stb m a v) a = u8 v.
Proof. unfold ldb, stb. by rewrite lookup_insert_eq. Qed.

Lemma ldb_stb_ne m a b v : a <> b -> ldb (stb m a v) b = ldb m b.
Proof. intros. unfold ldb, stb. by rewrite lookup_insert_ne. Qed.

Lemma ldb_stb m a b v :
  ldb (stb m a v) b = if decide (a = b) then u8 v else ldb m b.
Proof. case_decide; [subst; apply ldb_stb_eq | by apply ldb_stb_ne]. Qed.

Lemma ldb_st_ne n m a b v : b < a \/ a + Z.of_nat n <= b -> ldb (st n m a v) b = ldb m b.
Proof.
  revert m a v; induction n as [|n IH]; intros m a v Hb; [done|].
  cbn [st]. rewrite IH by lia. apply ldb_stb_ne. lia.
Qed.

(** A read of a field not touched by a write. *)
Lemma ld_st_ne n k m a b v :
  b + Z.of_nat n <= a \/ a + Z.of_nat k <= b -> ld n (st k m a v) b = ld n m b.
Proof.
  revert b; induction n as [|n IH]; intros b Hb; [done|].
  cbn [ld]. rewrite ldb_st_ne by lia. by rewrite IH by lia.
Qed.

Lemma ld_stb_ne n m a b v : b + Z.of_nat n <= a \/ a < b -> ld n (stb m a v) b = ld n m b.
Proof. intros. apply (ld_st_ne n 1). lia. Qed.

(** A read of the field just written returns the value cut to its width. *)
Lemma ld_st_mod n m a v : ld n (st n m a v) a = v mod 0x100 ^ Z.of_nat n.
Proof.
  revert m a v; induction n as [|n IH]; intros m a v.
  - cbn. by rewrite Z.mod_1_r.
  - cbn [ld st]. rewrite ldb_st_ne by lia. rewrite ldb_stb_eq, IH.
    rewrite Nat2Z.inj_succ, Z.pow_succ_r by lia.
    rewrite (Z.rem_mul_r v 0x100) by lia. unfold u8. lia.
Qed.

Lemma ld_st_eq n m a v : 0 <= v < 0x100 ^ Z.of_nat n -> ld n (st n m a v) a = v.
Proof. intros. rewrite ld_st_mod. by apply Z.mod_small. Qed.

Lemma ld_range n m a : mem_ok m -> 0 <= ld n m a < 0x100 ^ Z.of_nat n.
Proof.
  intros Hm; revert a; induction n as [|n IH]; intros a; [cbn; lia|].
  cbn [ld]. specialize (IH (a + 1)). pose proof (Hm a) as Hb.
  rewrite Nat2Z.inj_succ, Z.pow_succ_r by lia. unfold is_u8 in Hb. lia.
Qed.

Lemma mem_ok_stb m a v : mem_ok m -> mem_ok (stb m a v).
Proof. intros Hm b. rewrite ldb_stb. case_decide; [apply is_u8_u8|apply Hm]. Qed.

Lemma mem_ok_st n m a v : mem_ok m -> mem_ok (st n m a v).
Proof.
  revert m a v; induction n as [|n IH]; intros m a v Hm; [done|].
  cbn [st]. apply IH. by apply mem_ok_stb.
Qed.

Lemma mem_ok_empty : mem_ok ∅.
Proof. intros a. unfold ldb. rewrite lookup_empty. cbn. cint. Qed.

Lemma ld_agree P n m m' a :
  agree P m m' -> (forall b, a <= b < a + Z.of_nat n -> P b) -> ld n m' a = ld n m a.
Proof.
  intros Hag; revert a; induction n as [|n IH]; intros a HP; [done|].
  cbn [ld]. rewrite (Hag a) by (apply HP; lia). rewrite IH; [done|].
  intros b Hb. apply HP. lia.
Qed.

Lemma agree_st (P : Z -> Prop) n m a v :
  (forall b, a <= b < a + Z.of_nat n -> ~ P b) -> agree P m (st n m a v).
Proof.
  intros HP b Hb. apply ldb_st_ne.
  destruct (decide (a <= b < a + Z.of_nat n)) as [Hin|]; [|lia].
  by destruct (HP b Hin).
Qed.

(** Byte lists *)

Lemma length_bytes m a n : length (bytes m a n) = n.
Proof. unfold bytes. by rewrite length_fmap, length_seq. Qed.

Lemma lookup_bytes m a n i : (i < n)%nat -> bytes m a n !! i = Some (ldb m (a + Z.of_nat i)).
Proof.
  intros. unfold bytes. rewrite list_lookup_fmap, lookup_seq_lt by done. done.
Qed.

Lemma ldb_store_ne m a b l :
  b < a \/ a + Z.of_nat (length l) <= b -> ldb (store_bytes m a l) b = ldb m b.
Proof.
  revert m a; induction l as [|x l IH]; intros m a Hb; [done|].
  cbn [store_bytes]; cbn [length] in Hb. rewrite IH by lia. apply ldb_stb_ne. lia.
Qed.

Lemma ldb_store_eq m a l i x :
  Forall is_u8 l -> l !! i = Some x -> ldb (store_bytes m a l) (a + Z.of_nat i) = x.
Proof.
  intros Hl; revert m a i; induction Hl as [|y l Hy Hl IH]; intros m a i; [done|].
  destruct i as [|i]; cbn [store_bytes lookup list_lookup].
  - intros [= ->]. rewrite Z.add_0_r, ldb_store_ne by lia.
    rewrite ldb_stb_eq. by apply u8_small.
  - intros Hx. rewrite <- (IH (stb m a y) (a + 1) i Hx). f_equal. lia.
Qed.

(** What was stored is read back. *)
Lemma bytes_store m a l : Forall is_u8 l -> bytes (store_bytes m a l) a (length l) = l.
Proof.
  intros Hl. apply list_eq. intros i.
  destruct (decide (i < length l)%nat) as [Hi|Hi].
  - rewrite lookup_bytes by done.
    destruct (lookup_lt_is_Some_2 l i Hi) as [x Hx]. rewrite Hx. f_equal.
    by apply ldb_store_eq.
  - rewrite !lookup_ge_None_2; [done| |]; [lia|rewrite length_bytes; lia].
Qed.

Lemma bytes_is_u8 m a n : mem_ok m -> Forall is_u8 (bytes m a n).
Proof. intros Hm. unfold bytes. apply Forall_fmap, Forall_true. intros; apply Hm. Qed.
End Laws.

#[export] Hint Resolve mem_ok_stb mem_ok_st mem_ok_empty : cint.

(** Evaluates the reads of a memory built by writes: a read of the field just
    written, or a step past a write to other addresses. *)
Ltac mem_simpl :=
  repeat first
    [ rewrite ld_st_ne by lia
    | rewrite ld_stb_ne by lia
    | rewrite ldb_st_ne by lia
    | rewrite ld_st_eq by (cbn [Z.of_nat Pos.of_succ_nat Pos.succ]; unfold_cint; lia) ].

(** ** Footprints

    [within lo hi m m']: [m'] is [m] but for bytes in [[lo, hi)]. *)
Definition within (lo hi : Z) (m m' : mem) : Prop := agree (fun a => ~ (lo <= a < hi)) m m'.

#[export] Instance within_equiv lo hi : Equivalence (within lo hi).
Proof. apply agree_equiv. Qed.

Section Within.
Implicit Types (m : mem) (lo hi a v : Z).

Lemma within_st n m lo hi a v :
  lo <= a -> a + Z.of_nat n <= hi -> within lo hi m (st n m a v).
Proof. intros H1 H2. apply agree_st. lia. Qed.

(** One more write: the form the footprint of a sequence of writes is proved in. *)
Lemma within_st_r n m m' lo hi a v :
  lo <= a -> a + Z.of_nat n <= hi -> within lo hi m m' -> within lo hi m (st n m' a v).
Proof. intros H1 H2 H. transitivity m'; [done|]. by apply within_st. Qed.

Lemma within_mono m m' lo hi lo' hi' :
  lo' <= lo -> hi <= hi' -> within lo hi m m' -> within lo' hi' m m'.
Proof. intros H1 H2 H a Ha. apply H. lia. Qed.

Lemma within_ldb m m' lo hi a : within lo hi m m' -> a < lo \/ hi <= a -> ldb m' a = ldb m a.
Proof. intros H Ha. apply H. lia. Qed.

Lemma within_ld n m m' lo hi a :
  within lo hi m m' -> a + Z.of_nat n <= lo \/ hi <= a -> ld n m' a = ld n m a.
Proof. intros H Ha. apply (ld_agree _ _ _ _ _ H). lia. Qed.
End Within.
