(* ===== verification/Bitmap.v ===== *)
(** The page/block bitmap used twice in the kernel (kernel/mm/pmm.c and
    kernel/ipc/heap.c): one bit per unit, 0 = free, 1 = used, the bits packed
    in bytes from address [base], units at or above [max] out of range.

    [bm_free m b] is the abstract view the allocators reason with; the lemmas
    say how the three bit operations act on it. *)

From S2P Require Import Prelude Mem.

Section Bitmap.
Context (base max : Z).

Definition bm_set (b : Z) (m : mem) : mem :=
  if b <? max
  then stb m (base + b / 8) (Z.lor (ldb m (base + b / 8)) (Z.shiftl 1 (b mod 8)))
  else m.

Definition bm_clear (b : Z) (m : mem) : mem :=
  if b <? max
  then stb m (base + b / 8)
         (Z.land (ldb m (base + b / 8)) (Z.lnot (Z.shiftl 1 (b mod 8))))
  else m.

Definition bm_test (m : mem) (b : Z) : Z :=
  if b <? max
  then Z.land (Z.shiftr (ldb m (base + b / 8)) (b mod 8)) 1
  else 1.

(** The unit [b] is free: the code's [!bitmap_test(b)]. *)
Definition bm_free (m : mem) (b : Z) : bool := bm_test m b =? 0.

(** The bytes of the bitmap. *)
Definition in_bitmap (a : Z) : Prop := base <= a < base + (max + 7) / 8.

Definition bm_bit (m : mem) (b : Z) : bool := Z.testbit (ldb m (base + b / 8)) (b mod 8).

Lemma bm_free_bit m b : bm_free m b = (b <? max) && negb (bm_bit m b).
Proof.
  unfold bm_free, bm_test, bm_bit. destruct (b <? max); [cbn [andb]|done].
  change 1 with (Z.ones 1). rewrite Z.land_ones by lia.
  rewrite <- Z.bit0_mod, Z.shiftr_spec by lia. cbn [Z.add].
  by destruct (Z.testbit _ _).
Qed.

Lemma testbit_u8 x k : 0 <= k < 8 -> Z.testbit (u8 x) k = Z.testbit x k.
Proof. intros. unfold u8. change 0x100 with (2 ^ 8). apply Z.mod_pow2_bits_low. lia. Qed.

Lemma unit_eq b c : b / 8 = c / 8 -> b mod 8 = c mod 8 -> b = c.
Proof. intros. Z.div_mod_to_equations. lia. Qed.

Lemma bm_bit_set m b c : b < max -> bm_bit (bm_set b m) c = (b =? c) || bm_bit m c.
Proof.
  intros Hb. unfold bm_set, bm_bit. replace (b <? max) with true by lia.
  rewrite ldb_stb. pose proof (Z.mod_pos_bound b 8). pose proof (Z.mod_pos_bound c 8).
  case_decide as Hbyte.
  - assert (b / 8 = c / 8) as E by lia.
    rewrite testbit_u8, Z.lor_spec, Z.shiftl_spec, orb_comm by lia. rewrite E.
    destruct (Z.eqb_spec b c) as [->|Hne].
    + by rewrite Z.sub_diag.
    + replace (Z.testbit 1 (c mod 8 - b mod 8)) with false; [done|].
      symmetry. assert (c mod 8 - b mod 8 <> 0).
      { intros Hm. apply Hne. apply unit_eq; lia. }
      destruct (Z.lt_ge_cases (c mod 8 - b mod 8) 0); [by apply Z.testbit_neg_r|].
      apply (Z.bits_above_log2 1); cbn; lia.
  - destruct (Z.eqb_spec b c) as [->|]; [done|]. done.
Qed.

Lemma bm_bit_clear m b c : b < max -> bm_bit (bm_clear b m) c = negb (b =? c) && bm_bit m c.
Proof.
  intros Hb. unfold bm_clear, bm_bit. replace (b <? max) with true by lia.
  rewrite ldb_stb. pose proof (Z.mod_pos_bound b 8). pose proof (Z.mod_pos_bound c 8).
  case_decide as Hbyte.
  - assert (b / 8 = c / 8) as E by lia.
    rewrite testbit_u8, Z.land_spec, Z.lnot_spec, Z.shiftl_spec, andb_comm by lia. rewrite E.
    destruct (Z.eqb_spec b c) as [->|Hne].
    + by rewrite Z.sub_diag.
    + replace (Z.testbit 1 (c mod 8 - b mod 8)) with false; [done|].
      symmetry. assert (c mod 8 - b mod 8 <> 0).
      { intros Hm. apply Hne. apply unit_eq; lia. }
      destruct (Z.lt_ge_cases (c mod 8 - b mod 8) 0); [by apply Z.testbit_neg_r|].
      apply (Z.bits_above_log2 1); cbn; lia.
  - destruct (Z.eqb_spec b c) as [->|]; done.
Qed.

(** The bit operations on the abstract view, in range or not. *)
Lemma bm_free_set m b c : bm_free (bm_set b m) c = bm_free m c && negb (b =? c).
Proof.
  destruct (Z.lt_ge_cases b max) as [Hb|Hb].
  - rewrite !bm_free_bit, bm_bit_set by done.
    by destruct (c <? max), (b =? c), (bm_bit m c).
  - unfold bm_set. replace (b <? max) with false by lia.
    rewrite bm_free_bit. destruct (Z.eqb_spec b c) as [<-|]; [|by rewrite andb_true_r].
    by replace (b <? max) with false by lia.
Qed.

Lemma bm_free_clear m b c :
  bm_free (bm_clear b m) c = bm_free m c || ((b =? c) && (b <? max)).
Proof.
  destruct (Z.lt_ge_cases b max) as [Hb|Hb].
  - rewrite !bm_free_bit, bm_bit_clear by done.
    destruct (Z.eqb_spec b c) as [<-|].
    + replace (b <? max) with true by lia. by destruct (bm_bit m b).
    + destruct (c <? max), (bm_bit m c); done.
  - unfold bm_clear. replace (b <? max) with false by lia.
    by rewrite andb_false_r, orb_false_r.
Qed.

Lemma bm_free_out m b : max <= b -> bm_free m b = false.
Proof. intros. rewrite bm_free_bit. by replace (b <? max) with false by lia. Qed.

(** The operations only write the bitmap. *)
Lemma in_bitmap_unit b : 0 <= b < max -> in_bitmap (base + b / 8).
Proof. intros. unfold in_bitmap. Z.div_mod_to_equations. lia. Qed.

Lemma bm_set_agree b m : 0 <= b -> agree (fun a => ~ in_bitmap a) m (bm_set b m).
Proof.
  intros Hb a Ha. unfold bm_set. destruct (Z.ltb_spec b max); [|done].
  apply ldb_stb_ne. intros <-. apply Ha. by apply in_bitmap_unit.
Qed.

Lemma bm_clear_agree b m : 0 <= b -> agree (fun a => ~ in_bitmap a) m (bm_clear b m).
Proof.
  intros Hb a Ha. unfold bm_clear. destruct (Z.ltb_spec b max); [|done].
  apply ldb_stb_ne. intros <-. apply Ha. by apply in_bitmap_unit.
Qed.

(** The bits depend on the bytes of the bitmap only. *)
Lemma bm_free_agree m m' b :
  0 <= b -> agree in_bitmap m m' -> bm_free m' b = bm_free m b.
Proof.
  intros Hb Hag. rewrite !bm_free_bit. destruct (Z.ltb_spec b max); [cbn [andb]|done].
  unfold bm_bit. by rewrite (Hag (base + b / 8)) by (by apply in_bitmap_unit).
Qed.

(** *** Runs of units: the loops of the multi-unit allocators *)

(** [for (i = 0; i < n; i++) bitmap_set(start + i)] *)
Definition bm_set_run (start n : Z) (m : mem) : mem :=
  for_range 0 n (fun i => bm_set (start + i)) m.

Definition bm_clear_run (start n : Z) (m : mem) : mem :=
  for_range 0 n (fun i => bm_clear (start + i)) m.

Lemma bm_free_set_run m start n c :
  0 <= n ->
  bm_free (bm_set_run start n m) c
  = bm_free m c && negb ((start <=? c) && (c <? start + n)).
Proof.
  intros Hn. unfold bm_set_run.
  apply (for_range_ind (fun k m' => bm_free m' c
    = bm_free m c && negb ((start <=? c) && (c <? start + k)))); [done| |].
  - rewrite Z.add_0_r. replace ((start <=? c) && (c <? start)) with false by lia.
    by rewrite andb_true_r.
  - intros j m' Hj IH. rewrite bm_free_set, IH. rewrite <- andb_assoc. f_equal.
    destruct (Z.leb_spec start c), (Z.ltb_spec c (start + j)),
      (Z.ltb_spec c (start + (j + 1))), (Z.eqb_spec (start + j) c); cbn; lia.
Qed.

Lemma bm_free_clear_run m start n c :
  0 <= n ->
  bm_free (bm_clear_run start n m) c
  = bm_free m c || ((start <=? c) && (c <? start + n) && (c <? max)).
Proof.
  intros Hn. unfold bm_clear_run.
  apply (for_range_ind (fun k m' => bm_free m' c
    = bm_free m c || ((start <=? c) && (c <? start + k) && (c <? max)))); [done| |].
  - rewrite Z.add_0_r. replace ((start <=? c) && (c <? start)) with false by lia.
    by rewrite orb_false_r.
  - intros j m' Hj IH. rewrite bm_free_clear, IH. rewrite <- orb_assoc. f_equal.
    destruct (Z.eqb_spec (start + j) c); [subst c|];
      destruct (Z.leb_spec start (start + j)); bool_cases; cbn; lia.
Qed.

Lemma bm_set_run_agree start n m :
  0 <= start -> 0 <= n -> agree (fun a => ~ in_bitmap a) m (bm_set_run start n m).
Proof.
  intros Hs Hn. unfold bm_set_run.
  apply (for_range_ind (fun _ m' => agree (fun a => ~ in_bitmap a) m m')); [done|done|].
  intros j m' Hj ->. apply bm_set_agree. lia.
Qed.

Lemma bm_clear_run_agree start n m :
  0 <= start -> 0 <= n -> agree (fun a => ~ in_bitmap a) m (bm_clear_run start n m).
Proof.
  intros Hs Hn. unfold bm_clear_run.
  apply (for_range_ind (fun _ m' => agree (fun a => ~ in_bitmap a) m m')); [done|done|].
  intros j m' Hj ->. apply bm_clear_agree. lia.
Qed.

Lemma bm_set_run_one b m : bm_set_run b 1 m = bm_set b m.
Proof.
  unfold bm_set_run, for_range. change (Z.to_nat (1 - 0)) with 1%nat. cbn [loop].
  by rewrite Z.add_0_r.
Qed.

Lemma bm_clear_run_one b m : bm_clear_run b 1 m = bm_clear b m.
Proof.
  unfold bm_clear_run, for_range. change (Z.to_nat (1 - 0)) with 1%nat. cbn [loop].
  by rewrite Z.add_0_r.
Qed.

(** Number of free units in a range, and how a run of sets/clears moves it. *)
Definition free_in (m : mem) (lo hi : Z) : Z := count_range lo hi (bm_free m).

Lemma free_in_set_run m lo hi start n :
  lo <= start -> 0 <= n -> start + n <= hi ->
  (forall j, start <= j < start + n -> bm_free m j = true) ->
  free_in (bm_set_run start n m) lo hi = free_in m lo hi - n.
Proof.
  intros H1 Hn H2 Hfree. unfold free_in.
  pose proof (count_range_update lo start (start + n) hi (bm_free (bm_set_run start n m))
                (bm_free m)) as Hupd.
  rewrite (count_range_none start (start + n)) in Hupd.
  2:{ intros j Hj. rewrite bm_free_set_run by done.
      replace ((start <=? j) && (j <? start + n)) with true by lia. apply andb_false_r. }
  rewrite (count_range_all start (start + n) (bm_free m)) in Hupd by (done || lia).
  cut (count_range lo hi (bm_free (bm_set_run start n m)) - 0
       = count_range lo hi (bm_free m) - (start + n - start)); [lia|].
  apply Hupd; [lia|lia|lia|]. intros j Hj Hout. rewrite bm_free_set_run by done.
  replace ((start <=? j) && (j <? start + n)) with false by lia. apply andb_true_r.
Qed.

Lemma free_in_clear_run m lo hi start n :
  lo <= start -> 0 <= n -> start + n <= hi -> start + n <= max ->
  (forall j, start <= j < start + n -> bm_free m j = false) ->
  free_in (bm_clear_run start n m) lo hi = free_in m lo hi + n.
Proof.
  intros H1 Hn H2 Hmax Hused. unfold free_in.
  pose proof (count_range_update lo start (start + n) hi (bm_free (bm_clear_run start n m))
                (bm_free m)) as Hupd.
  rewrite (count_range_none start (start + n) (bm_free m)) in Hupd by done.
  rewrite (count_range_all start (start + n)) in Hupd; [|lia|].
  2:{ intros j Hj. rewrite bm_free_clear_run by done.
      replace ((start <=? j) && (j <? start + n) && (j <? max)) with true by lia.
      apply orb_true_r. }
  cut (count_range lo hi (bm_free (bm_clear_run start n m)) - (start + n - start)
       = count_range lo hi (bm_free m) - 0); [lia|].
  apply Hupd; [lia|lia|lia|]. intros j Hj Hout. rewrite bm_free_clear_run by done.
  replace ((start <=? j) && (j <? start + n) && (j <? max)) with false by lia.
  apply orb_false_r.
Qed.
End Bitmap.

#[export] Hint Resolve bm_set_run_agree bm_clear_run_agree : cint.
