(* ===== verification/Sha256.v ===== *)
(** kernel/lib/sha256.c and kernel/lib/sha256.h: the streaming SHA-256 the
    flight recorder seals its ring with and the IFR records are chained by.

    The context is the C struct; [sha256_update] consumes one byte at a time
    through the 64-byte buffer exactly as the loop does.  [sha256_spec] is the
    FIPS 180-4 reading (pad the whole message, compress its blocks in order);
    the refinement lemma [sha256_hash_spec] says the streaming code computes it
    for every message the 64-bit length counter can describe. *)

From S2P Require Import Prelude Mem.

Definition ROTRIGHT (a b : Z) : Z := Z.lor (Z.shiftr a b) (u32 (Z.shiftl a (32 - b))).
Definition not32 (x : Z) : Z := u32 (Z.lnot x).
Definition CH (x y z : Z) : Z := Z.lxor (Z.land x y) (Z.land (not32 x) z).
Definition MAJ (x y z : Z) : Z :=
  Z.lxor (Z.lxor (Z.land x y) (Z.land x z)) (Z.land y z).
Definition EP0 (x : Z) : Z := Z.lxor (Z.lxor (ROTRIGHT x 2) (ROTRIGHT x 13)) (ROTRIGHT x 22).
Definition EP1 (x : Z) : Z := Z.lxor (Z.lxor (ROTRIGHT x 6) (ROTRIGHT x 11)) (ROTRIGHT x 25).
Definition SIG0 (x : Z) : Z := Z.lxor (Z.lxor (ROTRIGHT x 7) (ROTRIGHT x 18)) (Z.shiftr x 3).
Definition SIG1 (x : Z) : Z := Z.lxor (Z.lxor (ROTRIGHT x 17) (ROTRIGHT x 19)) (Z.shiftr x 10).

(** The round constants, as the C array's rows of four. *)
Definition k_rows : list (Z * Z * Z * Z) :=
  [(0x428a2f98, 0x71374491, 0xb5c0fbcf, 0xe9b5dba5);
   (0x3956c25b, 0x59f111f1, 0x923f82a4, 0xab1c5ed5);
   (0xd807aa98, 0x12835b01, 0x243185be, 0x550c7dc3);
   (0x72be5d74, 0x80deb1fe, 0x9bdc06a7, 0xc19bf174);
   (0xe49b69c1, 0xefbe4786, 0x0fc19dc6, 0x240ca1cc);
   (0x2de92c6f, 0x4a7484aa, 0x5cb0a9dc, 0x76f988da);
   (0x983e5152, 0xa831c66d, 0xb00327c8, 0xbf597fc7);
   (0xc6e00bf3, 0xd5a79147, 0x06ca6351, 0x14292967);
   (0x27b70a85, 0x2e1b2138, 0x4d2c6dfc, 0x53380d13);
   (0x650a7354, 0x766a0abb, 0x81c2c92e, 0x92722c85);
   (0xa2bfe8a1, 0xa81a664b, 0xc24b8b70, 0xc76c51a3);
   (0xd192e819, 0xd6990624, 0xf40e3585, 0x106aa070);
   (0x19a4c116, 0x1e376c08, 0x2748774c, 0x34b0bcb5);
   (0x391c0cb3, 0x4ed8aa4a, 0x5b9cca4f, 0x682e6ff3);
   (0x748f82ee, 0x78a5636f, 0x84c87814, 0x8cc70208);
   (0x90befffa, 0xa4506ceb, 0xbef9a3f7, 0xc67178f2)].
Definition k : list Z :=
  Eval cbv in concat (map (fun '(w0, w1, w2, w3) => [w0; w1; w2; w3]) k_rows).

Record sha256_ctx_t := Sha256Ctx {
  state : list Z;    (* uint32_t state[8] *)
  bitlen : Z;        (* uint64_t *)
  datalen : Z;       (* uint32_t *)
  data : list Z      (* uint8_t data[64] *)
}.
#[export] Instance sha256_ctx_eta : Eta sha256_ctx_t :=
  fun c => Sha256Ctx (state c) (bitlen c) (datalen c) (data c).

(** The first loop of [sha256_transform]: sixteen big-endian words. *)
Definition be_word (d : list Z) (j : Z) : Z :=
  Z.lor (Z.lor (Z.lor (u32 (Z.shiftl (zget d j) 24)) (u32 (Z.shiftl (zget d (j + 1)) 16)))
               (u32 (Z.shiftl (zget d (j + 2)) 8)))
        (zget d (j + 3)).

(** The two loops that fill [m[64]]. *)
Definition message_schedule (d : list Z) : list Z :=
  let m := for_range 0 16 (fun i m => m ++ [be_word d (4 * i)]) [] in
  for_range 16 64 (fun i m =>
    m ++ [SIG1 (zget m (i - 2)) +u zget m (i - 7) +u SIG0 (zget m (i - 15)) +u zget m (i - 16)])
    m.

Definition working : Type := Z * Z * Z * Z * Z * Z * Z * Z.

(** One turn of the compression loop. *)
Definition sha256_round (m : list Z) (i : Z) (v : working) : working :=
  let '(a, b, c, d, e, f, g, h) := v in
  let t1 := h +u EP1 e +u CH e f g +u zget k i +u zget m i in
  let t2 := EP0 a +u MAJ a b c in
  (t1 +u t2, a, b, c, d +u t1, e, f, g).

Definition sha256_transform (st : list Z) (d : list Z) : list Z :=
  let m := message_schedule d in
  let v := (zget st 0, zget st 1, zget st 2, zget st 3,
            zget st 4, zget st 5, zget st 6, zget st 7) in
  let '(a, b, c, d', e, f, g, h) := for_range 0 64 (sha256_round m) v in
  [zget st 0 +u a; zget st 1 +u b; zget st 2 +u c; zget st 3 +u d';
   zget st 4 +u e; zget st 5 +u f; zget st 6 +u g; zget st 7 +u h].

Definition sha256_iv : list Z :=
  [0x6a09e667; 0xbb67ae85; 0x3c6ef372; 0xa54ff53a;
   0x510e527f; 0x9b05688c; 0x1f83d9ab; 0x5be0cd19].

(** The buffer [data] is left as it was on the stack. *)
Definition sha256_init (ctx : sha256_ctx_t) : sha256_ctx_t :=
  ctx{{ datalen := 0; bitlen := 0; state := sha256_iv }}.

(** The body of the loop of [sha256_update]. *)
Definition sha256_update_byte (ctx : sha256_ctx_t) (b : Z) : sha256_ctx_t :=
  let ctx := ctx{{ data := zset (data ctx) (datalen ctx) b; datalen := datalen ctx +u 1 }} in
  if datalen ctx =? 64
  then ctx{{ state := sha256_transform (state ctx) (data ctx);
             bitlen := u64 (bitlen ctx + 512);
             datalen := 0 }}
  else ctx.

Definition sha256_update (ctx : sha256_ctx_t) (l : list Z) : sha256_ctx_t :=
  fold_left sha256_update_byte l ctx.

(** Writes [v] at the indices [[lo, hi)] of a buffer. *)
Definition fill_buf (lo hi v : Z) (d : list Z) : list Z :=
  for_range lo hi (fun i d => zset d i v) d.

(** The eight big-endian digest stores of the last loop. *)
Definition be_bytes (w : Z) : list Z :=
  [u8 (Z.shiftr w 24); u8 (Z.shiftr w 16); u8 (Z.shiftr w 8); u8 w].

(** The length bytes [data[56..63]]. *)
Definition put_bitlen (bl : Z) (d : list Z) : list Z :=
  let d := zset d 63 (u8 bl) in
  let d := zset d 62 (u8 (Z.shiftr bl 8)) in
  let d := zset d 61 (u8 (Z.shiftr bl 16)) in
  let d := zset d 60 (u8 (Z.shiftr bl 24)) in
  let d := zset d 59 (u8 (Z.shiftr bl 32)) in
  let d := zset d 58 (u8 (Z.shiftr bl 40)) in
  let d := zset d 57 (u8 (Z.shiftr bl 48)) in
  zset d 56 (u8 (Z.shiftr bl 56)).

(** Returns the context it leaves behind and the digest. *)
Definition sha256_final (ctx : sha256_ctx_t) : sha256_ctx_t * list Z :=
  let i := datalen ctx in
  let ctx1 :=
    if datalen ctx <? 56
    then ctx{{ data := fill_buf (i + 1) 56 0x00 (zset (data ctx) i 0x80) }}
    else
      let d := fill_buf (i + 1) 64 0x00 (zset (data ctx) i 0x80) in
      ctx{{ state := sha256_transform (state ctx) d; data := fill_buf 0 56 0x00 d }} in
  let ctx2 := ctx1{{ bitlen := u64 (bitlen ctx1 + u32 (datalen ctx1 * 8)) }} in
  let ctx3 := ctx2{{ data := put_bitlen (bitlen ctx2) (data ctx2) }} in
  let ctx4 := ctx3{{ state := sha256_transform (state ctx3) (data ctx3) }} in
  (ctx4, concat (be_bytes <$> state ctx4)).

(** The stack context of [sha256_hash] before [sha256_init]; its contents do
    not matter (see [sha256_hash_spec]), zero is what the model starts from. *)
Definition ctx0 : sha256_ctx_t := Sha256Ctx (repeat 0 8) 0 0 (repeat 0 64).

Definition sha256_hash (l : list Z) : list Z :=
  snd (sha256_final (sha256_update (sha256_init ctx0) l)).

Arguments sha256_transform : simpl never.
Arguments fill_buf : simpl never.
Arguments put_bitlen : simpl never.
Arguments be_bytes : simpl never.

(** ** Specification *)

Definition be64 (v : Z) : list Z :=
  [u8 (Z.shiftr v 56); u8 (Z.shiftr v 48); u8 (Z.shiftr v 40); u8 (Z.shiftr v 32);
   u8 (Z.shiftr v 24); u8 (Z.shiftr v 16); u8 (Z.shiftr v 8); u8 v].

(** Append the bit 1, then the least number of zero bits that brings the length
    to 448 modulo 512, then the 64-bit message length in bits. *)
Definition sha256_pad (msg : list Z) : list Z :=
  msg ++ [0x80] ++ repeat 0 (Z.to_nat ((55 - zlen msg) mod 64)) ++ be64 (8 * zlen msg).

Fixpoint blocks64 (n : nat) (l : list Z) : list (list Z) :=
  match n with
  | O => []
  | S n' => take 64 l :: blocks64 n' (drop 64 l)
  end.

Definition sha256_spec (msg : list Z) : list Z :=
  let p := sha256_pad msg in
  concat (be_bytes <$> fold_left sha256_transform (blocks64 (length p / 64) p) sha256_iv).

Arguments sha256_pad : simpl never.
Arguments sha256_spec : simpl never.
Arguments be64 : simpl never.

(** ** Buffer lemmas *)

Lemma zset_split (d : list Z) i v :
  0 <= i < zlen d ->
  zset d i v = take (Z.to_nat i) d ++ v :: drop (S (Z.to_nat i)) d.
Proof. intros. unfold zset. apply insert_take_drop. unfold zlen in *. lia. Qed.

Lemma fill_buf_split lo hi v d :
  0 <= lo <= hi -> hi <= zlen d ->
  fill_buf lo hi v d
  = take (Z.to_nat lo) d ++ repeat v (Z.to_nat (hi - lo)) ++ drop (Z.to_nat hi) d.
Proof.
  intros Hlo Hhi. unfold fill_buf.
  enough (zlen (for_range lo hi (fun i d => zset d i v) d) = zlen d /\
    for_range lo hi (fun i d => zset d i v) d
    = take (Z.to_nat lo) d ++ repeat v (Z.to_nat (hi - lo)) ++ drop (Z.to_nat hi) d) by easy.
  apply (for_range_ind (fun j d' => zlen d' = zlen d /\
    d' = take (Z.to_nat lo) d ++ repeat v (Z.to_nat (j - lo)) ++ drop (Z.to_nat j) d)); [lia| |].
  - split; [done|]. rewrite Z.sub_diag, Z2Nat.inj_0. cbn [repeat app]. by rewrite take_drop.
  - intros j d' Hj [Hlen ->]. split; [by rewrite zlen_zset|].
    assert (Hj' : (Z.to_nat j < length d)%nat) by (unfold zlen in *; lia).
    destruct (lookup_lt_is_Some_2 d _ Hj') as [x Hx].
    rewrite (drop_S d x) by done.
    unfold zset. rewrite app_assoc.
    replace (Z.to_nat j)
      with (length (take (Z.to_nat lo) d ++ repeat v (Z.to_nat (j - lo))) + 0)%nat at 1
      by (rewrite length_app, length_take, repeat_length; lia).
    rewrite insert_app_r. cbn [insert list_insert].
    rewrite <- app_assoc. f_equal.
    replace (Z.to_nat (j + 1 - lo)) with (Z.to_nat (j - lo) + 1)%nat by lia.
    rewrite repeat_app, <- app_assoc. cbn [repeat app]. do 3 f_equal. lia.
Qed.

Lemma put_bitlen_split bl d : length d = 64%nat -> put_bitlen bl d = take 56 d ++ be64 bl.
Proof.
  intros Hlen. do 64 (destruct d as [|? d]; [done|]). by destruct d.
Qed.

Lemma concat_blocks64 (bl : list (list Z)) :
  Forall (fun b => length b = 64%nat) bl -> blocks64 (length bl) (concat bl) = bl.
Proof.
  induction 1 as [|b bl Hb _ IH]; [done|]. cbn [length blocks64 concat].
  rewrite take_app_length', drop_app_length' by done. by rewrite IH.
Qed.

Lemma length_concat64 (bl : list (list Z)) :
  Forall (fun b => length b = 64%nat) bl -> length (concat bl) = (64 * length bl)%nat.
Proof.
  induction 1 as [|b bl Hb _ IH]; [done|]. cbn [length concat].
  rewrite length_app, IH, Hb. lia.
Qed.

(** ** The streaming invariant

    [ctx_repr ctx bl rest]: the context has compressed the whole blocks [bl]
    and buffers the [rest]. *)

Record ctx_repr (ctx : sha256_ctx_t) (bl : list (list Z)) (rest : list Z) : Prop := {
  cr_blocks : Forall (fun b => length b = 64%nat) bl;
  cr_rest : (length rest < 64)%nat;
  cr_state : state ctx = fold_left sha256_transform bl sha256_iv;
  cr_data : length (data ctx) = 64%nat;
  cr_prefix : take (length rest) (data ctx) = rest;
  cr_datalen : datalen ctx = zlen rest;
  cr_bitlen : bitlen ctx = u64 (512 * zlen bl)
}.

Lemma ctx_repr_init c0 : length (data c0) = 64%nat -> ctx_repr (sha256_init c0) [] [].
Proof. intros. split; cbn; (done || lia). Qed.

Lemma ctx_repr_byte ctx bl rest b :
  ctx_repr ctx bl rest ->
  exists bl' rest', ctx_repr (sha256_update_byte ctx b) bl' rest' /\
    concat bl' ++ rest' = concat bl ++ rest ++ [b].
Proof.
  intros [Hbl Hr Hst Hd Hp Hdl Hbit].
  assert (Hins : zset (data ctx) (datalen ctx) b
                 = rest ++ b :: drop (S (length rest)) (data ctx)).
  { rewrite zset_split by (rewrite Hdl; unfold zlen; lia).
    rewrite Hdl. unfold zlen. rewrite Nat2Z.id. by rewrite Hp. }
  assert (Hdl' : u32 (datalen ctx + 1) = zlen rest + 1).
  { rewrite Hdl. apply u32_small. unfold zlen, is_u32. lia. }
  unfold sha256_update_byte; cbn. rewrite Hins, Hdl'.
  destruct (Z.eqb_spec (zlen rest + 1) 64) as [E|E].
  - assert (Hblk : rest ++ b :: drop (S (length rest)) (data ctx) = rest ++ [b]).
    { f_equal. rewrite drop_ge by (unfold zlen in E; lia). done. }
    exists (bl ++ [rest ++ [b]]), []. split.
    + split; cbn; rewrite ?Hblk.
      * apply Forall_app. split; [done|]. apply Forall_singleton.
        rewrite length_app. cbn. unfold zlen in E. lia.
      * lia.
      * rewrite fold_left_app, Hst. cbn [fold_left]. reflexivity.
      * rewrite length_app. cbn. unfold zlen in E. lia.
      * done.
      * done.
      * rewrite Hbit. unfold zlen. rewrite length_app. cbn [length]. cint.
    + rewrite concat_app. cbn. by rewrite !app_nil_r.
  - exists bl, (rest ++ [b]). split; [|done].
    split; cbn; rewrite ?length_app; cbn.
    + done.
    + unfold zlen in E. lia.
    + done.
    + rewrite length_drop. lia.
    + replace (rest ++ b :: drop (S (length rest)) (data ctx))
        with ((rest ++ [b]) ++ drop (S (length rest)) (data ctx)) by (by rewrite <- app_assoc).
      rewrite take_app_length' by (rewrite length_app; cbn; lia). done.
    + unfold zlen. rewrite length_app. cbn. lia.
    + done.
Qed.

Lemma ctx_repr_update ctx bl rest l :
  ctx_repr ctx bl rest ->
  exists bl' rest', ctx_repr (sha256_update ctx l) bl' rest' /\
    concat bl' ++ rest' = concat bl ++ rest ++ l.
Proof.
  unfold sha256_update. revert ctx bl rest; induction l as [|b l IH]; intros ctx bl rest H.
  - exists bl, rest. by rewrite app_nil_r.
  - destruct (ctx_repr_byte ctx bl rest b H) as (bl1 & rest1 & H1 & E1).
    destruct (IH _ _ _ H1) as (bl2 & rest2 & H2 & E2).
    exists bl2, rest2. split; [done|]. rewrite E2, app_assoc, E1, <- !app_assoc. done.
Qed.

(** The blocks of the padded message, given the whole blocks of the message. *)
Lemma spec_blocks (bl bl' : list (list Z)) rest :
  Forall (fun b => length b = 64%nat) (bl ++ bl') ->
  sha256_pad (concat bl ++ rest) = concat bl ++ concat bl' ->
  sha256_spec (concat bl ++ rest)
  = concat (be_bytes <$> fold_left sha256_transform (bl ++ bl') sha256_iv).
Proof.
  intros Hall E. unfold sha256_spec. rewrite E, <- concat_app.
  rewrite length_concat64 by done.
  rewrite Nat.mul_comm, Nat.div_mul by lia.
  by rewrite concat_blocks64.
Qed.

Lemma pad_tail bl rest :
  Forall (fun b => length b = 64%nat) bl ->
  sha256_pad (concat bl ++ rest)
  = concat bl ++ rest ++ [0x80] ++ repeat 0 (Z.to_nat ((55 - zlen rest) mod 64))
    ++ be64 (8 * (64 * zlen bl + zlen rest)).
Proof.
  intros Hbl. unfold sha256_pad. rewrite <- app_assoc. do 4 f_equal.
  - f_equal. f_equal. unfold zlen. rewrite length_app, length_concat64 by done.
    rewrite Nat2Z.inj_add, Nat2Z.inj_mul. Z.div_mod_to_equations. lia.
  - unfold zlen. rewrite length_app, length_concat64 by done. f_equal. lia.
Qed.

Lemma length_be64 v : length (be64 v) = 8%nat.
Proof. done. Qed.

(** The buffer [sha256_final] compresses last. *)
Lemma final_lastblock (d rest : list Z) bl n :
  length d = 64%nat -> take (length rest) d = rest -> (length rest < 56)%nat ->
  n = zlen rest ->
  put_bitlen bl (fill_buf (n + 1) 56 0 (zset d n 0x80))
  = rest ++ [0x80] ++ repeat 0 (55 - length rest) ++ be64 bl.
Proof.
  intros Hd Hp Hr ->.
  assert (Hins : zset d (zlen rest) 0x80 = (rest ++ [0x80]) ++ drop (S (length rest)) d).
  { rewrite zset_split by (unfold zlen; lia). unfold zlen. rewrite Nat2Z.id, Hp.
    by rewrite <- app_assoc. }
  assert (Hlen1 : length (rest ++ [0x80]) = S (length rest)) by (rewrite length_app; cbn; lia).
  rewrite Hins, fill_buf_split by
    (unfold zlen; rewrite ?length_app, ?length_drop; cbn; lia).
  rewrite take_app_length' by (rewrite Hlen1; unfold zlen; lia).
  rewrite put_bitlen_split by
    (rewrite !length_app, repeat_length, !length_drop, !length_app, length_drop;
     unfold zlen; cbn; lia).
  rewrite app_assoc.
  rewrite take_app_length' by (rewrite length_app, Hlen1, repeat_length; unfold zlen; lia).
  rewrite <- !app_assoc. do 4 f_equal. unfold zlen. lia.
Qed.

Lemma final_fullblock (d rest : list Z) n :
  length d = 64%nat -> take (length rest) d = rest -> (length rest < 64)%nat ->
  n = zlen rest ->
  fill_buf (n + 1) 64 0 (zset d n 0x80) = rest ++ [0x80] ++ repeat 0 (63 - length rest).
Proof.
  intros Hd Hp Hr ->.
  assert (Hins : zset d (zlen rest) 0x80 = (rest ++ [0x80]) ++ drop (S (length rest)) d).
  { rewrite zset_split by (unfold zlen; lia). unfold zlen. rewrite Nat2Z.id, Hp.
    by rewrite <- app_assoc. }
  assert (Hlen1 : length (rest ++ [0x80]) = S (length rest)) by (rewrite length_app; cbn; lia).
  rewrite Hins, fill_buf_split by
    (unfold zlen; rewrite ?length_app, ?length_drop; cbn; lia).
  rewrite take_app_length' by (rewrite Hlen1; unfold zlen; lia).
  rewrite drop_ge by (rewrite !length_app, length_drop; cbn; lia).
  rewrite app_nil_r, <- app_assoc. do 3 f_equal. unfold zlen. lia.
Qed.

Lemma final_zeroblock (d : list Z) bl :
  length d = 64%nat -> put_bitlen bl (fill_buf 0 56 0 d) = repeat 0 56 ++ be64 bl.
Proof.
  intros Hd. rewrite fill_buf_split by (unfold zlen; lia).
  rewrite put_bitlen_split by
    (rewrite !length_app, length_take, repeat_length, length_drop; lia).
  rewrite take_0. cbn [app]. rewrite take_app_length' by (by rewrite repeat_length). done.
Qed.

Lemma sha256_final_repr ctx bl rest :
  ctx_repr ctx bl rest ->
  8 * (64 * zlen bl + zlen rest) < 0x10000000000000000 ->
  snd (sha256_final ctx) = sha256_spec (concat bl ++ rest).
Proof.
  intros [Hbl Hr Hst Hd Hp Hdl Hbit] Hsmall.
  assert (Hbits : forall s d, u64 (bitlen ctx + u32 (datalen ctx{{ state := s; data := d }} * 8))
                  = 8 * (64 * zlen bl + zlen rest)).
  { intros. cbn. rewrite Hbit, Hdl. rewrite (u32_small (zlen rest * 8))
      by (unfold is_u32, zlen in *; lia). unfold zlen in *. cint. }
  unfold sha256_final. destruct (Z.ltb_spec (datalen ctx) 56) as [Hlt|Hge]; cbn [snd].
  - cbn. pose proof (Hbits (state ctx) (data ctx)) as Hb; cbn in Hb. rewrite Hb.
    rewrite (final_lastblock _ rest) by (done || (unfold zlen in *; lia)).
    rewrite (spec_blocks bl [rest ++ [0x80] ++ repeat 0 (55 - length rest)
                             ++ be64 (8 * (64 * zlen bl + zlen rest))]).
    + rewrite fold_left_app, <- Hst. cbn [fold_left]. reflexivity.
    + apply Forall_app. split; [done|]. apply Forall_singleton.
      rewrite !length_app, repeat_length, length_be64. cbn. unfold zlen in *. lia.
    + rewrite pad_tail by done. cbn [concat]. rewrite app_nil_r. do 4 f_equal.
      f_equal. unfold zlen in *. rewrite Z.mod_small; lia.
  - cbn. pose proof (Hbits (state ctx) (data ctx)) as Hb; cbn in Hb. rewrite Hb.
    rewrite (final_fullblock _ rest) by (done || (unfold zlen in *; lia)).
    rewrite final_zeroblock by
      (rewrite !length_app, repeat_length; cbn; unfold zlen in *; lia).
    rewrite (spec_blocks bl [rest ++ [0x80] ++ repeat 0 (63 - length rest);
                             repeat 0 56 ++ be64 (8 * (64 * zlen bl + zlen rest))]).
    + rewrite fold_left_app, <- Hst. cbn [fold_left]. reflexivity.
    + apply Forall_app. split; [done|]. repeat constructor;
        rewrite !length_app, repeat_length, ?length_be64; cbn; unfold zlen in *; lia.
    + rewrite pad_tail by done. cbn [concat]. rewrite app_nil_r, <- !app_assoc.
      do 3 f_equal. rewrite app_assoc, <- repeat_app. do 2 f_equal.
      unfold zlen in *. Z.div_mod_to_equations. lia.
Qed.

(** ** Refinement *)

(** Whatever the stack context held, hashing a message through the streaming
    interface gives the digest of the padded message. *)
Lemma sha256_stream_spec c0 l :
  length (data c0) = 64%nat -> 8 * zlen l < 0x10000000000000000 ->
  snd (sha256_final (sha256_update (sha256_init c0) l)) = sha256_spec l.
Proof.
  intros Hc Hl.
  destruct (ctx_repr_update _ _ _ l (ctx_repr_init c0 Hc)) as (bl & rest & Hr & E).
  cbn in E. rewrite <- E in Hl.
  transitivity (sha256_spec (concat bl ++ rest)); [|by rewrite E].
  apply sha256_final_repr; [done|].
  unfold zlen in *. rewrite length_app, length_concat64 in Hl by apply Hr. lia.
Qed.

Lemma sha256_hash_spec l :
  8 * zlen l < 0x10000000000000000 -> sha256_hash l = sha256_spec l.
Proof. intros. by apply sha256_stream_spec. Qed.

(** Feeding a message in pieces is feeding it whole. *)
Lemma sha256_update_app ctx l1 l2 :
  sha256_update ctx (l1 ++ l2) = sha256_update (sha256_update ctx l1) l2.
Proof. apply fold_left_app. Qed.

Lemma length_sha256_transform st d : length (sha256_transform st d) = 8%nat.
Proof.
  unfold sha256_transform.
  destruct (for_range 0 64 _ _) as [[[[[[[? ?] ?] ?] ?] ?] ?] ?]. done.
Qed.

Lemma be_bytes_u8 w : Forall is_u8 (be_bytes w).
Proof. repeat constructor; apply is_u8_u8. Qed.

(** A digest is 32 bytes. *)
Lemma length_sha256_final ctx : length (snd (sha256_final ctx)) = 32%nat.
Proof.
  unfold sha256_final; cbn [snd]. 
  match goal with |- context [be_bytes <$> ?s] => set (st := s) end.
  assert (H : length st = 8%nat) by (subst st; cbn; apply length_sha256_transform).
  clearbody st. do 8 (destruct st as [|? st]; [done|]). by destruct st.
Qed.

Lemma length_sha256_hash l : length (sha256_hash l) = 32%nat.
Proof. apply length_sha256_final. Qed.

Lemma sha256_final_u8 ctx : Forall is_u8 (snd (sha256_final ctx)).
Proof.
  unfold sha256_final; cbn [snd]. apply Forall_concat, Forall_fmap, Forall_true.
  intros; apply be_bytes_u8.
Qed.

Lemma sha256_hash_u8 l : Forall is_u8 (sha256_hash l).
Proof. apply sha256_final_u8. Qed.

Definition update_all (cs : list (list Z)) (ctx : sha256_ctx_t) : sha256_ctx_t :=
  foldl sha256_update ctx cs.

Lemma update_all_concat cs ctx : update_all cs ctx = sha256_update ctx (concat cs).
Proof.
  unfold update_all. revert ctx; induction cs as [|x cs IH]; intros ctx; [done|].
  cbn [foldl concat]. by rewrite IH, sha256_update_app.
Qed.

(** C36: the streaming hash is SHA-256. From any stale context, initialising it
    and feeding a message in pieces, however it is cut (a piece may be empty,
    shorter or longer than the 64-byte buffer), gives the digest of the padded
    message block by block, 32 bytes; the specification gives the published
    digests of the empty message and of "abc". *)
Theorem sha256_streaming (c0 : sha256_ctx_t) (cs : list (list Z)) :
  length (data c0) = 64%nat -> 8 * zlen (concat cs) < 0x10000000000000000 ->
  snd (sha256_final (update_all cs (sha256_init c0))) = sha256_spec (concat cs) /\
  length (sha256_spec (concat cs)) = 32%nat /\ Forall is_u8 (sha256_spec (concat cs)) /\
  sha256_spec [] =
    [0xe3; 0xb0; 0xc4; 0x42; 0x98; 0xfc; 0x1c; 0x14; 0x9a; 0xfb; 0xf4; 0xc8; 0x99; 0x6f; 0xb9; 0x24;
     0x27; 0xae; 0x41; 0xe4; 0x64; 0x9b; 0x93; 0x4c; 0xa4; 0x95; 0x99; 0x1b; 0x78; 0x52; 0xb8; 0x55] /\
  sha256_spec [0x61; 0x62; 0x63] =
    [0xba; 0x78; 0x16; 0xbf; 0x8f; 0x01; 0xcf; 0xea; 0x41; 0x41; 0x40; 0xde; 0x5d; 0xae; 0x22; 0x23;
     0xb0; 0x03; 0x61; 0xa3; 0x96; 0x17; 0x7a; 0x9c; 0xb4; 0x10; 0xff; 0x61; 0xf2; 0x00; 0x15; 0xad].
Proof.
  intros Hd Hl. rewrite <- (sha256_stream_spec c0) by done.
  split; [by rewrite update_all_concat|].
  split; [apply length_sha256_final|]. split; [apply sha256_final_u8|].
  split; vm_compute; reflexivity.
Qed.

Lemma sha256_streaming_witness :
  snd (sha256_final (update_all [[0x61]; []; [0x62; 0x63]] (sha256_init ctx0)))
  = sha256_spec [0x61; 0x62; 0x63].
Proof.
  apply (sha256_streaming ctx0 [[0x61]; []; [0x62; 0x63]]); [reflexivity|vm_compute; reflexivity].
Defined.
