(* ===== verification/KTime.v ===== *)
(** kernel/time/time.c and kernel/time/time.h: the TSC clock.

    The cycle counter is hardware: the machine hands the kernel one value per
    [rdtsc], so a clock holds the sequence of values the instruction returns and
    how many have been read.  Everything the code does with them (the boot
    offset, the 1000 cycles per microsecond assumed by [time_init], the 64-bit
    wrap of the difference) is as written.  [tsc_monotone] is the hardware's
    documented behaviour (an invariant TSC, read on one CPU, never goes back). *)

From S2P Require Import Prelude.

Record clock := Clock {
  tsc : nat -> Z;            (* the values rdtsc returns, in order *)
  reads : nat;               (* how many were read *)
  cpu_mhz : Z;
  cycles_per_usec : Z;
  boot_tsc : Z
}.
#[export] Instance clock_eta : Eta clock :=
  fun c => Clock (tsc c) (reads c) (cpu_mhz c) (cycles_per_usec c) (boot_tsc c).

Definition rdtsc (c : clock) : Z * clock := (tsc c (reads c), c{{ reads ::= S }}).

Definition time_init (c : clock) : clock :=
  let '(t, c) := rdtsc c in
  c{{ boot_tsc := t; cycles_per_usec := 1000; cpu_mhz := 1000 }}.

Definition time_cycles (c : clock) : Z * clock := rdtsc c.

Definition time_usec (c : clock) : Z * clock :=
  if cycles_per_usec c =? 0 then (0, c)
  else
    let '(t, c) := rdtsc c in
    (u64 (t - boot_tsc c) / cycles_per_usec c, c).

Definition cycles_to_usec (c : clock) (cycles : Z) : Z :=
  if cycles_per_usec c =? 0 then 0 else cycles / cycles_per_usec c.

Definition usec_to_cycles (c : clock) (usec : Z) : Z := u64 (usec * cycles_per_usec c).

Definition time_get_cpu_mhz (c : clock) : Z := cpu_mhz c.

Definition time_elapsed_cycles (c : clock) (start : Z) : Z * clock :=
  let '(t, c) := time_cycles c in (u64 (t - start), c).

Definition time_elapsed_usec (c : clock) (start : Z) : Z * clock :=
  let '(d, c) := time_elapsed_cycles c start in (cycles_to_usec c d, c).

(** The hardware's promise. *)
Definition tsc_monotone (c : clock) : Prop :=
  forall i j, (i <= j)%nat -> 0 <= tsc c i <= tsc c j /\ tsc c j < 0x10000000000000000.

(** A clock in use: calibrated, and booted no later than the next reading. *)
Record clock_ok (c : clock) : Prop := {
  ck_tsc : tsc_monotone c;
  ck_rate : 0 < cycles_per_usec c < 0x100000000;
  ck_boot : 0 <= boot_tsc c <= tsc c (reads c)
}.

Lemma clock_ok_read c : clock_ok c -> clock_ok (snd (rdtsc c)).
Proof.
  intros [Hm Hr Hb]. split; [done|done|]. cbn.
  pose proof (Hm (reads c) (S (reads c))). lia.
Qed.

Lemma clock_ok_usec c : clock_ok c -> clock_ok (snd (time_usec c)).
Proof.
  intros H. unfold time_usec. destruct (_ =? 0); [done|]. by apply (clock_ok_read c).
Qed.

Lemma clock_ok_init c : tsc_monotone c -> clock_ok (time_init c).
Proof.
  intros Hm. split; cbn; [done|lia|].
  pose proof (Hm (reads c) (S (reads c))). lia.
Qed.

Lemma time_usec_value c :
  clock_ok c -> fst (time_usec c) = (tsc c (reads c) - boot_tsc c) / cycles_per_usec c.
Proof.
  intros [Hm Hr Hb]. unfold time_usec. replace (_ =? 0) with false by lia. cbn.
  rewrite u64_small; [done|]. pose proof (Hm (reads c) (reads c)). unfold is_u64. lia.
Qed.

(** Reading the time twice never goes back. *)
Lemma time_usec_mono c :
  clock_ok c -> fst (time_usec c) <= fst (time_usec (snd (time_usec c))).
Proof.
  intros H. rewrite (time_usec_value _ (clock_ok_usec c H)), time_usec_value by done.
  unfold time_usec. replace (_ =? 0) with false by (destruct H; lia). cbn.
  destruct H as [Hm Hr Hb]. apply Z.div_le_mono; [lia|].
  pose proof (Hm (reads c) (S (reads c))). lia.
Qed.

(** Converting microseconds to cycles and back is exact while it fits. *)
Lemma usec_cycles_roundtrip c u :
  cycles_per_usec c <> 0 -> is_u64 (u * cycles_per_usec c) ->
  cycles_to_usec c (usec_to_cycles c u) = u.
Proof.
  intros Hr Hu. unfold cycles_to_usec, usec_to_cycles. replace (_ =? 0) with false by lia.
  rewrite u64_small by done. by apply Z.div_mul.
Qed.

(** The kernel's clock. After [time_init] on a monotone counter, a reading is
    the microseconds since boot at 1000 cycles each, a later reading is never
    smaller, readings leave the calibration alone, and microseconds converted to
    cycles convert back exactly while they fit 64 bits. *)
Theorem time_clock (c : clock) :
  tsc_monotone c ->
  let c0 := time_init c in
  let '(t1, c1) := time_usec c0 in
  let '(t2, c2) := time_usec c1 in
  t1 = (tsc c (S (reads c)) - tsc c (reads c)) / 1000 /\ t1 <= t2 /\ clock_ok c2 /\
  forall u, 0 <= u -> u * 1000 < 0x10000000000000000 ->
    cycles_to_usec c2 (usec_to_cycles c2 u) = u.
Proof.
  intros Hm. pose proof (clock_ok_init c Hm) as H0. pose proof (clock_ok_usec _ H0) as H1.
  pose proof (time_usec_value _ H0) as Hv. pose proof (time_usec_mono _ H0) as Hle.
  pose proof (clock_ok_usec _ H1) as H2. cbv zeta.
  destruct (time_usec (time_init c)) as [t1 c1] eqn:E1. cbn [fst snd] in *.
  destruct (time_usec c1) as [t2 c2] eqn:E2. cbn [fst snd] in *.
  assert (Hr : cycles_per_usec c2 = 1000).
  { unfold time_usec in E1, E2. injection E1 as <- <-. by injection E2 as <- <-. }
  split; [done|]. split; [done|]. split; [done|].
  intros u Hu1 Hu2. apply usec_cycles_roundtrip; rewrite Hr; [lia|]. unfold is_u64. lia.
Qed.

Lemma time_clock_witness :
  let c := Clock (fun n => 5000 * Z.min 1000 (Z.of_nat n)) 0 0 0 0 in
  fst (time_usec (time_init c)) = 5 /\
  fst (time_usec (time_init c)) <= fst (time_usec (snd (time_usec (time_init c)))).
Proof.
  split; [reflexivity|].
  pose proof (time_clock (Clock (fun n => 5000 * Z.min 1000 (Z.of_nat n)) 0 0 0 0)) as H.
  apply H. intros i j Hij. cbn. lia.
Defined.
