(* ===== verification/Calibrate.v ===== *)
(** kernel/time/time.c, the calibration of the time-stamp counter against channel 2
    of the interval timer.  [time_init] does not call it (a TODO says it will again).

    The ports are hardware ([BytePorts]); [pit2] is channel 2 as the 8254's data
    sheet has it, as far as this code uses it: mode 0 counts down from the value
    loaded, low byte first, while the gate is up, and raises the output at zero.

    The theorem: on such a timer the calibration ends, 10 ms of the timer after it
    began, and takes the rate from the counter; without one it never ends. *)

From S2P Require Import Prelude KTime.

Class BytePorts (H : Type) := {
  outb8 : Z -> Z -> H -> H;
  inb8 : Z -> H -> Z * H
}.

Definition PIT_CHANNEL_2 : Z := 0x42.
Definition PIT_COMMAND : Z := 0x43.
Definition PIT_GATE : Z := 0x61.
Definition PIT_FREQ_HZ : Z := 1193182.
Definition CALIBRATION_MS : Z := 10.
Definition CALIBRATION_PIT_TICKS : Z := PIT_FREQ_HZ * CALIBRATION_MS / 1000.

Section Code.
Context {H : Type} `{BytePorts H}.
Implicit Types (h : H).

(** [while ((inb(PIT_GATE) & 0x20) == 0)] *)
Fixpoint pit_spin (fuel : nat) h : option H :=
  let '(v, h) := inb8 PIT_GATE h in
  if Z.land v 0x20 =? 0 then
    match fuel with
    | O => None
    | S fuel => pit_spin fuel h
    end
  else Some h.

Definition pit_start (count : Z) h : H :=
  let '(tmp, h) := inb8 PIT_GATE h in
  let tmp := Z.lor (Z.land tmp 0xFC) 0x01 in
  let h := outb8 PIT_GATE tmp h in
  let h := outb8 PIT_COMMAND 0xB0 h in
  let h := outb8 PIT_CHANNEL_2 (Z.land count 0xFF) h in
  let h := outb8 PIT_CHANNEL_2 (Z.land (Z.shiftr count 8) 0xFF) h in
  let '(tmp, h) := inb8 PIT_GATE h in
  let tmp := Z.land tmp 0xFE in
  let h := outb8 PIT_GATE tmp h in
  let tmp := Z.lor tmp 0x01 in
  outb8 PIT_GATE tmp h.

Definition pit_wait (fuel : nat) (count : Z) h : option H := pit_spin fuel (pit_start count h).

Definition calibrate_tsc (fuel : nat) (c : clock) h : option (clock * H) :=
  let '(start, c) := rdtsc c in
  h ← pit_wait fuel (u16 CALIBRATION_PIT_TICKS) h;
  let '(end_, c) := rdtsc c in
  let elapsed := u64 (end_ - start) in
  let c := c{{ cycles_per_usec := u32 (elapsed / (CALIBRATION_MS * 1000)) }} in
  Some (c{{ cpu_mhz := cycles_per_usec c }}, h).
End Code.

(** ** Channel 2 *)

(** [p_gate] are the bits written to port 0x61, [p_low] the byte the next one
    completes, [p_count] the count, [p_pace] the ticks that pass at a read. *)
Record pit2 := Pit2 { p_gate : Z; p_mode : Z; p_low : option Z; p_count : Z; p_pace : Z }.
#[export] Instance pit2_eta : Eta pit2 := fun p => Pit2 (p_gate p) (p_mode p) (p_low p) (p_count p) (p_pace p).

Definition pit2_out (port v : Z) (p : pit2) : pit2 :=
  if port =? 0x61 then p{{ p_gate := Z.land v 0x03 }}
  else if port =? 0x43 then p{{ p_mode := v; p_low := None }}
  else if port =? 0x42 then
    match p_low p with
    | None => p{{ p_low := Some v }}
    | Some low => p{{ p_low := None; p_count := low + 0x100 * v }}
    end
  else p.

Definition pit2_in (port : Z) (p : pit2) : Z * pit2 :=
  if port =? 0x61 then
    let p' := if Z.testbit (p_gate p) 0 then p{{ p_count ::= fun n => n - p_pace p }} else p in
    (Z.lor (p_gate p) (if p_count p <=? 0 then 0x20 else 0), p')
  else (0, p).

#[export] Instance pit2_ports : BytePorts pit2 := { outb8 := pit2_out; inb8 := pit2_in }.

(** ** Properties *)

(** Mode 0, binary, both bytes, the count loaded, the speaker off and the gate up;
    the count runs while the gate is read. *)
Lemma pit_start_state (p : pit2) :
  0 <= p_gate p < 4 ->
  pit_start (u16 CALIBRATION_PIT_TICKS) p = Pit2 1 0xB0 None (11931 - p_pace p) (p_pace p).
Proof.
  intros Hg. assert (Hc : p_gate p = 0 \/ p_gate p = 1 \/ p_gate p = 2 \/ p_gate p = 3) by lia.
  destruct p as [g md low n pace]. cbn [p_gate p_pace] in *.
  destruct Hc as [->|[->|[->| ->]]]; destruct n, low; vm_compute; reflexivity.
Qed.

Lemma pit_spin_ends (fuel : nat) (md n pace : Z) :
  0 < pace -> n <= pace * Z.of_nat fuel ->
  exists n', pit_spin fuel (Pit2 1 md None n pace) = Some (Pit2 1 md None n' pace) /\ n' <= 0.
Proof.
  intros Hp. revert n; induction fuel as [|fuel IH]; intros n Hn; cbn -[Z.leb Z.sub].
  - rewrite (proj2 (Z.leb_le n 0)) by lia. exists (n - pace). split; [done|lia].
  - destruct (Z.leb_spec n 0); [exists (n - pace); split; [done|lia]|]. apply IH. lia.
Qed.

(** On a timer that moves, 11931 turns of the wait are enough; the rate is the
    cycles of the wait over 10,000 microseconds, and the clock can be used when at
    least one cycle passes in each. *)
Theorem calibration (c : clock) (p : pit2) :
  tsc_monotone c -> 0 <= p_gate p < 4 -> 0 < p_pace p ->
  let start := tsc c (reads c) in
  let end_ := tsc c (S (reads c)) in
  exists c' p', calibrate_tsc (Z.to_nat 11931) c p = Some (c', p') /\
    cycles_per_usec c' = u32 ((end_ - start) / 10000) /\ cpu_mhz c' = cycles_per_usec c' /\
    p_mode p' = 0xB0 /\ p_gate p' = 1 /\ p_count p' <= 0 /\
    (10000 <= end_ - start < 10000 * 0x100000000 -> 0 <= boot_tsc c <= start -> clock_ok c').
Proof.
  intros Hm Hg Hp start end_. unfold calibrate_tsc, pit_wait, rdtsc. rewrite pit_start_state by done.
  destruct (pit_spin_ends (Z.to_nat 11931) 0xB0 (11931 - p_pace p) (p_pace p) Hp) as (n' & E & Hn'); [lia|].
  rewrite E. cbn [mbind option_bind].
  pose proof (Hm (reads c) (S (reads c))) as Ht. fold start end_ in Ht.
  change (tsc (c{{ reads ::= S }}) (reads (c{{ reads ::= S }}))) with end_. fold start.
  rewrite (u64_small (end_ - start)) by (unfold is_u64; lia).
  eexists _, _. split; [reflexivity|]. do 4 (split; [reflexivity|]). split; [exact Hn'|].
  intros Hr Hb. split; [exact Hm| |].
  - match goal with |- 0 < ?x < _ => change x with (u32 ((end_ - start) / 10000)) end.
    rewrite u32_small; unfold is_u32; (split; [|Z.div_mod_to_equations; lia]); [apply Z.div_str_pos|apply Z.div_pos]; lia.
  - cbn. pose proof (Hm (S (reads c)) (S (S (reads c)))). fold end_ in H. lia.
Qed.

Lemma calibration_witness :
  let c := Clock (fun n => 30000000 * Z.min 1000 (Z.of_nat n)) 0 0 0 0 in
  exists c' p', calibrate_tsc (Z.to_nat 11931) c (Pit2 2 0 None 7 100) = Some (c', p') /\ cycles_per_usec c' = 3000.
Proof.
  intros c. destruct (calibration c (Pit2 2 0 None 7 100)) as (c' & p' & E & Er & _).
  - intros i j Hij. cbn. lia.
  - cbn. lia.
  - cbn. lia.
  - exists c', p'. split; [exact E|]. rewrite Er. reflexivity.
Defined.

(** Where the output never rises, no number of turns is enough. *)
Theorem calibration_hangs {H} `{BytePorts H} (c : clock) (h : H) (fuel : nat) :
  (forall h, Z.land (fst (inb8 PIT_GATE h)) 0x20 = 0) -> calibrate_tsc fuel c h = None.
Proof.
  intros Hl. unfold calibrate_tsc, pit_wait, rdtsc.
  assert (Hs : forall n x, pit_spin n x = None).
  { induction n as [|n IH]; intros x; cbn [pit_spin]; specialize (Hl x);
      destruct (inb8 PIT_GATE x) as [v x']; cbn [fst] in Hl; rewrite Hl; [reflexivity|apply IH]. }
  by rewrite Hs.
Qed.
