(* ===== verification/Trace.v ===== *)
(** What the flight recorder promises the rest of the kernel.

    kernel/mm/pmm.c, kernel/contracts.c and kernel/sched log through
    [flightrec_log] and never look inside the recorder, so their models are
    written against the class [Trace] below and their theorems against its laws
    [TraceLaws].  Flightrec.v discharges the laws for the real 256-entry ring;
    the unbounded log [list trace_rec] is the second instance, the one the
    examples evaluate on.

    The event codes are those of [trace_event_type_t] in
    kernel/trace/flightrec.h. *)

From S2P Require Import Prelude.

Inductive trace_event_type :=
  | TRACE_EVT_SCHED_TICK | TRACE_EVT_JOB_SUBMIT | TRACE_EVT_JOB_COMPLETE
  | TRACE_EVT_STEP_START | TRACE_EVT_STEP_END | TRACE_EVT_STEP_PREEMPT
  | TRACE_EVT_JOB_ADMIT | TRACE_EVT_JOB_REJECT
  | TRACE_EVT_CONTRACT_APPLY | TRACE_EVT_CONTRACT_BUDGET_WARN
  | TRACE_EVT_CONTRACT_BUDGET_EXCEED | TRACE_EVT_CONTRACT_VIOLATION
  | TRACE_EVT_CONTRACT_STATE_CHANGE | TRACE_EVT_CONTRACT_SAFE_MODE
  | TRACE_EVT_MEM_ALLOC | TRACE_EVT_MEM_FREE | TRACE_EVT_MEM_ALLOC_FAIL
  | TRACE_EVT_MEM_LOCALITY_MISS | TRACE_EVT_MEM_CONTRACT_EXCEED
  | TRACE_EVT_MEM_NODE_UNSUPPORTED
  | TRACE_EVT_IO_SUBMIT | TRACE_EVT_IO_COMPLETE | TRACE_EVT_IO_STALL
  | TRACE_EVT_ACCEL_SUBMIT | TRACE_EVT_ACCEL_COMPLETE | TRACE_EVT_ACCEL_THROTTLE
  | TRACE_EVT_THERMAL_WARN | TRACE_EVT_POWER_CAP
  | TRACE_EVT_BOOT | TRACE_EVT_HALT | TRACE_EVT_PANIC.

Definition trace_code (t : trace_event_type) : Z :=
  match t with
  | TRACE_EVT_SCHED_TICK => 0x00
  | TRACE_EVT_JOB_SUBMIT => 0x01
  | TRACE_EVT_JOB_COMPLETE => 0x02
  | TRACE_EVT_STEP_START => 0x03
  | TRACE_EVT_STEP_END => 0x04
  | TRACE_EVT_STEP_PREEMPT => 0x05
  | TRACE_EVT_JOB_ADMIT => 0x06
  | TRACE_EVT_JOB_REJECT => 0x07
  | TRACE_EVT_CONTRACT_APPLY => 0x10
  | TRACE_EVT_CONTRACT_BUDGET_WARN => 0x11
  | TRACE_EVT_CONTRACT_BUDGET_EXCEED => 0x12
  | TRACE_EVT_CONTRACT_VIOLATION => 0x13
  | TRACE_EVT_CONTRACT_STATE_CHANGE => 0x14
  | TRACE_EVT_CONTRACT_SAFE_MODE => 0x15
  | TRACE_EVT_MEM_ALLOC => 0x20
  | TRACE_EVT_MEM_FREE => 0x21
  | TRACE_EVT_MEM_ALLOC_FAIL => 0x22
  | TRACE_EVT_MEM_LOCALITY_MISS => 0x23
  | TRACE_EVT_MEM_CONTRACT_EXCEED => 0x24
  | TRACE_EVT_MEM_NODE_UNSUPPORTED => 0x25
  | TRACE_EVT_IO_SUBMIT => 0x30
  | TRACE_EVT_IO_COMPLETE => 0x31
  | TRACE_EVT_IO_STALL => 0x32
  | TRACE_EVT_ACCEL_SUBMIT => 0x40
  | TRACE_EVT_ACCEL_COMPLETE => 0x41
  | TRACE_EVT_ACCEL_THROTTLE => 0x42
  | TRACE_EVT_THERMAL_WARN => 0x50
  | TRACE_EVT_POWER_CAP => 0x51
  | TRACE_EVT_BOOT => 0xF0
  | TRACE_EVT_HALT => 0xF1
  | TRACE_EVT_PANIC => 0xFF
  end.

#[export] Instance trace_event_type_eq : EqDecision trace_event_type.
Proof. solve_decision. Defined.

(** What a logged event says, its timestamps aside. *)
Record trace_rec := TraceRec {
  tr_type : Z;
  tr_job : Z;
  tr_step : Z;
  tr_extra : Z
}.

#[export] Instance trace_rec_eq : EqDecision trace_rec.
Proof. solve_decision. Defined.

Definition TRACE_BUF_SIZE : Z := 256.

Class Trace (W : Type) := {
  trace_log : trace_event_type -> Z -> Z -> Z -> W -> W;
  (** the events a reader of the recorder can still see, newest first *)
  trace_recent : W -> list trace_rec;
  (** how many more events may be logged before the recorder's counter wraps *)
  trace_room : W -> Z
}.

Class TraceLaws (W : Type) `{Trace W} := {
  trace_log_recent ty job step extra w :
    0 < trace_room w ->
    trace_recent (trace_log ty job step extra w)
    = take (Z.to_nat TRACE_BUF_SIZE)
        (TraceRec (trace_code ty) job step extra :: trace_recent w);
  trace_log_room ty job step extra w :
    0 < trace_room w -> trace_room w - 1 <= trace_room (trace_log ty job step extra w)
}.

(** The unbounded log, seen through the recorder's window. *)
#[export] Instance list_trace : Trace (list trace_rec) := {
  trace_log ty job step extra w := TraceRec (trace_code ty) job step extra :: w;
  trace_recent w := take (Z.to_nat TRACE_BUF_SIZE) w;
  trace_room _ := 1
}.

#[export] Instance list_trace_laws : TraceLaws (list trace_rec).
Proof.
  split; [|cbn; lia]. intros. cbn [trace_log trace_recent list_trace].
  change (Z.to_nat TRACE_BUF_SIZE) with 256%nat.
  cbn [take]. f_equal. rewrite take_take. f_equal. 
Qed.

(** An event just logged is the newest one. *)
Lemma trace_log_head {W} `{TraceLaws W} ty job step extra (w : W) :
  0 < trace_room w ->
  head (trace_recent (trace_log ty job step extra w))
  = Some (TraceRec (trace_code ty) job step extra).
Proof. intros. by rewrite trace_log_recent. Qed.
