(* ===== verification/Flightrec.v ===== *)
(** kernel/trace/flightrec.c: the flight recorder.

    The static state of the file ([buf], [head], [initialized], [spans]) is the
    record [recorder]; it carries the clock the file reads through
    kernel/time/time.c.  Every operation that changes state is modelled, with
    its reads of the clock in order; the console dumps are not (they only
    print), except the name table they print from.

    The refinement [fr_abs] relates the ring to the list of all events logged:
    the ring holds the last 256 of them, [contents] lists those oldest first,
    and the queries ([flightrec_last_duration], [flightrec_get_job_stats],
    [flightrec_seal_hash]) are functions of [contents]. *)

From S2P Require Import Prelude Mem Sha256 KTime Trace.

Definition TRACE_BUF_MASK : Z := TRACE_BUF_SIZE - 1.
Definition MAX_ACTIVE_SPANS : Z := 16.

Record trace_event_t := TraceEvent {
  ts_usec : Z;
  ts_cycles : Z;
  ev_type : Z;
  ev_flags : Z;
  cpu_id : Z;
  ev_job_id : Z;
  ev_step_id : Z;
  extra : Z;
  tpm_signature : list Z
}.
#[export] Instance trace_event_eta : Eta trace_event_t := fun e =>
  TraceEvent (ts_usec e) (ts_cycles e) (ev_type e) (ev_flags e) (cpu_id e)
    (ev_job_id e) (ev_step_id e) (extra e) (tpm_signature e).
#[export] Instance trace_event_inhabited : Inhabited trace_event_t :=
  populate (TraceEvent 0 0 0 0 0 0 0 0 (repeat 0 256)).

Record active_span_t := ActiveSpan {
  active : Z;
  sp_job_id : Z;
  sp_step_id : Z;
  start_cycles : Z;
  start_type : Z
}.
#[export] Instance active_span_eta : Eta active_span_t := fun s =>
  ActiveSpan (active s) (sp_job_id s) (sp_step_id s) (start_cycles s) (start_type s).
#[export] Instance active_span_inhabited : Inhabited active_span_t :=
  populate (ActiveSpan 0 0 0 0 0).

Record recorder := Recorder {
  fr_clock : clock;
  fr_buf : list trace_event_t;      (* buf[TRACE_BUF_SIZE] *)
  fr_head : Z;
  initialized : Z;
  spans : list active_span_t;       (* spans[MAX_ACTIVE_SPANS] *)
  next_span_handle : Z
}.
#[export] Instance recorder_eta : Eta recorder := fun r =>
  Recorder (fr_clock r) (fr_buf r) (fr_head r) (initialized r) (spans r) (next_span_handle r).

Record trace_job_stats_t := TraceJobStats {
  js_job_id : Z;
  steps_completed : Z;
  total_cpu_usec : Z;
  total_wall_usec : Z;
  violations : Z
}.
#[export] Instance trace_job_stats_eta : Eta trace_job_stats_t := fun s =>
  TraceJobStats (js_job_id s) (steps_completed s) (total_cpu_usec s) (total_wall_usec s)
    (violations s).

(** The statics at load time: zero. *)
Definition recorder_bss (c : clock) : recorder :=
  Recorder c (repeat inhabitant 256) 0 0 (repeat inhabitant 16) 1.

Definition seal_episode (ep : trace_event_t) : trace_event_t :=
  ep{{ tpm_signature := repeat 0 256 }}.

Definition flightrec_log (type : trace_event_type) (job_id step_id ex : Z) (r : recorder)
  : recorder :=
  if initialized r =? 0 then r
  else
    let idx := Z.land (fr_head r) TRACE_BUF_MASK in
    let '(cyc, c1) := time_cycles (fr_clock r) in
    let '(us, c2) := time_usec c1 in
    let e := (zget (fr_buf r) idx)
               {{ ts_cycles := cyc; ts_usec := us; ev_type := u8 (trace_code type);
                  ev_flags := 0; cpu_id := 0; ev_job_id := job_id;
                  ev_step_id := step_id; extra := ex }} in
    r{{ fr_clock := c2;
        fr_buf := zset (fr_buf r) idx (seal_episode e);
        fr_head := fr_head r +u 1 }}.

Definition flightrec_init (r : recorder) : recorder :=
  let r := r{{ fr_head := 0; initialized := 1 }} in
  let r := for_range 0 MAX_ACTIVE_SPANS
             (fun i r => r{{ spans := zset (spans r) i ((zget (spans r) i){{ active := 0 }}) }})
             r in
  let r := r{{ next_span_handle := 1 }} in
  flightrec_log TRACE_EVT_BOOT 0 0 0 r.

(** Number of events held and the counter value of the oldest. *)
Definition fr_count (r : recorder) : Z :=
  if TRACE_BUF_SIZE <? fr_head r then TRACE_BUF_SIZE else fr_head r.
Definition fr_start (r : recorder) : Z :=
  if TRACE_BUF_SIZE <? fr_head r then fr_head r - TRACE_BUF_SIZE else 0.

(** The visible events, oldest first: the loop of the dumps and of the hash. *)
Definition contents (r : recorder) : list trace_event_t :=
  (fun i => zget (fr_buf r) (Z.land (fr_start r +u Z.of_nat i) TRACE_BUF_MASK))
    <$> seq 0 (Z.to_nat (fr_count r)).

(** The packed 288-byte image of an event. *)
Fixpoint le_bytes (n : nat) (v : Z) : list Z :=
  match n with
  | O => []
  | S n' => u8 v :: le_bytes n' (v / 0x100)
  end.

Definition event_bytes (e : trace_event_t) : list Z :=
  le_bytes 8 (ts_usec e) ++ le_bytes 8 (ts_cycles e) ++ le_bytes 1 (ev_type e)
  ++ le_bytes 1 (ev_flags e) ++ le_bytes 2 (cpu_id e) ++ le_bytes 4 (ev_job_id e)
  ++ le_bytes 4 (ev_step_id e) ++ le_bytes 4 (extra e) ++ tpm_signature e.

Definition flightrec_seal_hash (r : recorder) : list Z :=
  let ctx := sha256_init ctx0 in
  let ctx := sha256_update ctx (le_bytes 4 (fr_head r)) in
  let ctx := for_range 0 (fr_count r) (fun i ctx =>
    sha256_update ctx
      (event_bytes (zget (fr_buf r) (Z.land (fr_start r +u i) TRACE_BUF_MASK)))) ctx in
  snd (sha256_final ctx).

Definition flightrec_begin_span (type : trace_event_type) (job_id step_id : Z) (r : recorder)
  : Z * recorder :=
  if initialized r =? 0 then (0, r)
  else
    match find_range 0 MAX_ACTIVE_SPANS (fun i => active (zget (spans r) i) =? 0) with
    | None => (0, flightrec_log TRACE_EVT_CONTRACT_VIOLATION job_id step_id 0xDEAD r)
    | Some slot =>
        let '(cyc, c) := time_cycles (fr_clock r) in
        let r := r{{ fr_clock := c;
                     spans := zset (spans r) slot
                       (ActiveSpan 1 job_id step_id cyc (u8 (trace_code type))) }} in
        (slot + 1, flightrec_log type job_id step_id 0 r)
    end.

Definition flightrec_end_span (span : Z) (type : trace_event_type) (r : recorder) : recorder :=
  if (initialized r =? 0) || (span =? 0) then r
  else
    let slot := int_of_u32 span - 1 in
    if (slot <? 0) || (MAX_ACTIVE_SPANS <=? slot) || (active (zget (spans r) slot) =? 0)
    then r
    else
      let '(end_cycles, c) := time_cycles (fr_clock r) in
      let elapsed := u64 (end_cycles - start_cycles (zget (spans r) slot)) in
      let duration := cycles_to_usec c elapsed in
      let r := flightrec_log type (sp_job_id (zget (spans r) slot))
                 (sp_step_id (zget (spans r) slot)) (u32 duration) r{{ fr_clock := c }} in
      r{{ spans := zset (spans r) slot ((zget (spans r) slot){{ active := 0 }}) }}.

Definition is_step_end (job_id step_id : Z) (e : trace_event_t) : bool :=
  (ev_type e =? trace_code TRACE_EVT_STEP_END) && (ev_job_id e =? job_id)
  && (ev_step_id e =? step_id).

(** Scans the ring backwards. *)
Definition flightrec_last_duration (job_id step_id : Z) (r : recorder) : Z :=
  match find_range 0 (fr_count r) (fun i =>
          is_step_end job_id step_id
            (zget (fr_buf r) (Z.land (u32 (fr_head r - 1 - i)) TRACE_BUF_MASK))) with
  | Some i => extra (zget (fr_buf r) (Z.land (u32 (fr_head r - 1 - i)) TRACE_BUF_MASK))
  | None => 0
  end.

(** One turn of the loop of [flightrec_get_job_stats]. *)
Definition job_stats_step (job_id : Z) (e : trace_event_t) (s : trace_job_stats_t * Z * Z)
  : trace_job_stats_t * Z * Z :=
  let '(out, first_ts, last_ts) := s in
  if negb (ev_job_id e =? job_id) then s
  else
    let first_ts := if (first_ts =? 0) || (ts_usec e <? first_ts) then ts_usec e else first_ts in
    let last_ts := if last_ts <? ts_usec e then ts_usec e else last_ts in
    let out :=
      if ev_type e =? trace_code TRACE_EVT_STEP_END
      then out{{ steps_completed := steps_completed out +u 1;
                 total_cpu_usec := u64 (total_cpu_usec out + extra e) }}
      else if (ev_type e =? trace_code TRACE_EVT_CONTRACT_VIOLATION)
              || (ev_type e =? trace_code TRACE_EVT_CONTRACT_BUDGET_EXCEED)
      then out{{ violations := violations out +u 1 }}
      else out in
    (out, first_ts, last_ts).

Definition flightrec_get_job_stats (job_id : Z) (r : recorder) : trace_job_stats_t :=
  let '(out, first_ts, last_ts) :=
    for_range 0 (fr_count r) (fun i s =>
      let idx := if TRACE_BUF_SIZE <? fr_head r
                 then Z.land (u32 (fr_head r - TRACE_BUF_SIZE + i)) TRACE_BUF_MASK
                 else i in
      job_stats_step job_id (zget (fr_buf r) idx) s)
      (TraceJobStats job_id 0 0 0 0, 0, 0) in
  out{{ total_wall_usec := u64 (last_ts - first_ts) }}.

Definition event_type_name (type : Z) : string :=
  let eqt t := type =? trace_code t in
  if eqt TRACE_EVT_SCHED_TICK then "SCHED_TICK"
  else if eqt TRACE_EVT_JOB_SUBMIT then "JOB_SUBMIT"
  else if eqt TRACE_EVT_JOB_COMPLETE then "JOB_COMPLETE"
  else if eqt TRACE_EVT_STEP_START then "STEP_START"
  else if eqt TRACE_EVT_STEP_END then "STEP_END"
  else if eqt TRACE_EVT_STEP_PREEMPT then "STEP_PREEMPT"
  else if eqt TRACE_EVT_CONTRACT_APPLY then "CONTRACT_APPLY"
  else if eqt TRACE_EVT_CONTRACT_BUDGET_WARN then "BUDGET_WARN"
  else if eqt TRACE_EVT_CONTRACT_BUDGET_EXCEED then "BUDGET_EXCEED"
  else if eqt TRACE_EVT_CONTRACT_VIOLATION then "VIOLATION"
  else if eqt TRACE_EVT_CONTRACT_STATE_CHANGE then "STATE_CHANGE"
  else if eqt TRACE_EVT_CONTRACT_SAFE_MODE then "SAFE_MODE"
  else if eqt TRACE_EVT_BOOT then "BOOT"
  else if eqt TRACE_EVT_HALT then "HALT"
  else if eqt TRACE_EVT_PANIC then "PANIC"
  else if eqt TRACE_EVT_MEM_ALLOC then "MEM_ALLOC"
  else if eqt TRACE_EVT_MEM_FREE then "MEM_FREE"
  else if eqt TRACE_EVT_MEM_ALLOC_FAIL then "MEM_ALLOC_FAIL"
  else if eqt TRACE_EVT_MEM_LOCALITY_MISS then "LOCALITY_MISS"
  else if eqt TRACE_EVT_MEM_CONTRACT_EXCEED then "MEM_EXCEED"
  else if eqt TRACE_EVT_MEM_NODE_UNSUPPORTED then "NODE_UNSUP"
  else "UNKNOWN".

(** The counter and the number of events behind the raw buffer. *)
Definition flightrec_get_buffer (r : recorder) : list trace_event_t * Z * Z :=
  (fr_buf r, fr_head r, fr_count r).

(** ** The ring is a window on the log

    [fr_wf] is the invariant of the recorder; under it [contents] of a recorder
    that logs one more event is the last 256 of the old contents and the new
    event. *)

Record fr_wf (r : recorder) : Prop := {
  wf_on : initialized r <> 0;
  wf_buf : zlen (fr_buf r) = TRACE_BUF_SIZE;
  wf_spans : zlen (spans r) = MAX_ACTIVE_SPANS;
  wf_head : 0 <= fr_head r < 0x100000000
}.

Lemma land_mask i : Z.land i TRACE_BUF_MASK = i mod 256.
Proof. change TRACE_BUF_MASK with (Z.ones 8). by rewrite Z.land_ones by lia. Qed.

Lemma trace_code_u8 t : u8 (trace_code t) = trace_code t.
Proof. by destruct t. Qed.

(** The event [flightrec_log] writes. *)
Definition logged (type : trace_event_type) (job_id step_id ex : Z) (r : recorder)
  : trace_event_t :=
  let '(cyc, c1) := time_cycles (fr_clock r) in
  TraceEvent (fst (time_usec c1)) cyc (trace_code type) 0 0 job_id step_id ex (repeat 0 256).

Lemma flightrec_log_eq type job_id step_id ex r :
  initialized r <> 0 ->
  exists c, flightrec_log type job_id step_id ex r
  = r{{ fr_clock := c;
        fr_buf := zset (fr_buf r) (fr_head r mod 256) (logged type job_id step_id ex r);
        fr_head := fr_head r +u 1 }}.
Proof.
  intros Hi. unfold flightrec_log, logged. rewrite (proj2 (Z.eqb_neq _ 0)) by done.
  destruct (time_cycles (fr_clock r)) as [cyc c1]. destruct (time_usec c1) as [us c2].
  exists c2. cbn -[zget zset u32 Z.add repeat TRACE_BUF_MASK]. by rewrite land_mask, trace_code_u8.
Qed.

Lemma fr_wf_log type job_id step_id ex r :
  fr_wf r -> fr_wf (flightrec_log type job_id step_id ex r).
Proof.
  intros [Hi Hb Hs Hh]. destruct (flightrec_log_eq type job_id step_id ex r Hi) as [c ->].
  split; cbn -[zset Z.add]; rewrite ?zlen_zset; try done. cint.
Qed.

Lemma fr_wf_handle r h : fr_wf r -> fr_wf r{{ next_span_handle := h }}.
Proof. intros []. by split. Qed.

Lemma fr_wf_init r :
  zlen (fr_buf r) = TRACE_BUF_SIZE -> zlen (spans r) = MAX_ACTIVE_SPANS ->
  fr_wf (flightrec_init r).
Proof.
  intros Hb Hs. unfold flightrec_init. cbv zeta. apply fr_wf_log, fr_wf_handle.
  apply (for_range_ind (fun _ r => fr_wf r)); [done| |].
  - by split; cbn; try done; lia.
  - intros j s' _ []. split; cbn -[zset zget]; rewrite ?zlen_zset; done.
Qed.

(** The window of the ring: the counters of the events it still holds. *)
Lemma fr_window r :
  fr_count r = Z.min 256 (fr_head r) /\ fr_start r = Z.max 0 (fr_head r - 256).
Proof. unfold fr_count, fr_start, TRACE_BUF_SIZE. case_if; bool_hyps; lia. Qed.

Lemma zlen_contents r : fr_wf r -> zlen (contents r) = Z.min 256 (fr_head r).
Proof.
  intros []. unfold zlen, contents. rewrite length_fmap, length_seq.
  rewrite (proj1 (fr_window r)). lia.
Qed.

Lemma zget_contents r i :
  fr_wf r -> 0 <= i < Z.min 256 (fr_head r) ->
  zget (contents r) i = zget (fr_buf r) ((Z.max 0 (fr_head r - 256) + i) mod 256).
Proof.
  intros Hw Hi. destruct (fr_window r) as [Hc Hs]. pose proof (wf_head r Hw).
  apply zget_lookup; [lia|]. unfold contents.
  rewrite list_lookup_fmap, lookup_seq_lt by lia. cbn [fmap option_fmap option_map].
  rewrite Nat.add_0_l, Z2Nat.id, land_mask, Hs by lia. do 3 f_equal. apply u32_small. cint.
Qed.

(** Logging one more event slides the window. *)
Lemma contents_log type job_id step_id ex r :
  fr_wf r -> fr_head r + 1 < 0x100000000 ->
  contents (flightrec_log type job_id step_id ex r)
  = lastn 256 (contents r ++ [logged type job_id step_id ex r]).
Proof.
  intros Hw Hroom. pose proof (fr_wf_log type job_id step_id ex r Hw) as Hw'.
  pose proof (zlen_contents _ Hw) as Hlen. pose proof (wf_head r Hw). pose proof (wf_buf r Hw).
  destruct (flightrec_log_eq type job_id step_id ex r (wf_on r Hw)) as [c Heq].
  rewrite Heq in *. set (e := logged type job_id step_id ex r) in *.
  set (r' := r{{ fr_clock := _; fr_buf := _; fr_head := _ }}) in *.
  assert (Hh : fr_head r' = fr_head r + 1) by (subst r'; cbn -[Z.add]; rewrite u32_small; cint).
  assert (Hb : fr_buf r' = zset (fr_buf r) (fr_head r mod 256) e) by done.
  clearbody r'. unfold TRACE_BUF_SIZE in *.
  assert (Hl : zlen (contents r') = zlen (lastn 256 (contents r ++ [e]))).
  { rewrite zlen_contents by done. unfold zlen in *. rewrite length_lastn, length_app.
    cbn [length]. lia. }
  apply list_eq_zget; [done|]. intros i Hi. rewrite zlen_contents in Hi by done.
  rewrite zget_contents, Hb, Hh, zget_lastn by (done || lia).
  assert (Hs : zlen (contents r ++ [e]) = zlen (contents r) + 1)
    by (unfold zlen; rewrite length_app; cbn [length]; lia).
  rewrite Hs. destruct (Z.eq_dec (Z.max 0 (fr_head r + 1 - 256) + i) (fr_head r)) as [E|E].
  - rewrite E, zget_zset_eq by (Z.div_mod_to_equations; lia).
    rewrite <- (zget_snoc (contents r) e) at 1. f_equal. lia.
  - rewrite zget_zset_ne by (Z.div_mod_to_equations; lia).
    rewrite zget_app_l by lia. rewrite zget_contents by (done || lia). do 2 f_equal. lia.
Qed.

(** ** The recorder as an implementation of [Trace] *)

Definition rec_of (e : trace_event_t) : trace_rec :=
  TraceRec (ev_type e) (ev_job_id e) (ev_step_id e) (extra e).

Definition fr_wfb (r : recorder) : bool :=
  negb (initialized r =? 0) && (zlen (fr_buf r) =? TRACE_BUF_SIZE)
  && (zlen (spans r) =? MAX_ACTIVE_SPANS) && (0 <=? fr_head r).

#[export] Instance recorder_trace : Trace recorder := {
  trace_log := flightrec_log;
  trace_recent r := reverse (rec_of <$> contents r);
  trace_room r := if fr_wfb r then 0xffffffff - fr_head r else 0
}.

Lemma fr_room_wf r :
  0 < trace_room r -> fr_wf r /\ trace_room r = 0xffffffff - fr_head r.
Proof.
  cbn. unfold fr_wfb. case_if; [|lia]. bool_hyps. intros. split; [|done]. split; (done || lia).
Qed.

Lemma fr_wf_room r : fr_wf r -> trace_room r = 0xffffffff - fr_head r.
Proof.
  intros [Hi Hb Hs Hh]. cbn. unfold fr_wfb. rewrite Hb, Hs, (proj2 (Z.eqb_neq _ 0)) by done.
  rewrite (proj2 (Z.leb_le 0 _)) by lia. reflexivity.
Qed.

Lemma rec_of_logged type job_id step_id ex r :
  rec_of (logged type job_id step_id ex r) = TraceRec (trace_code type) job_id step_id ex.
Proof. done. Qed.

Lemma recent_log type job_id step_id ex r :
  fr_wf r -> fr_head r + 1 < 0x100000000 ->
  rec_of <$> contents (flightrec_log type job_id step_id ex r)
  = lastn 256 ((rec_of <$> contents r) ++ [TraceRec (trace_code type) job_id step_id ex]).
Proof.
  intros. rewrite contents_log by done. by rewrite fmap_lastn, fmap_app.
Qed.

#[export] Instance recorder_trace_laws : TraceLaws recorder.
Proof.
  split; intros ty job step ex w Hroom; apply fr_room_wf in Hroom as Hwf; destruct Hwf as [Hw E].
  - rewrite E in Hroom. cbn [trace_log trace_recent recorder_trace].
    rewrite recent_log by (done || lia). by rewrite reverse_lastn, reverse_snoc.
  - rewrite E in *. cbn [trace_log recorder_trace]. rewrite fr_wf_room by by apply fr_wf_log.
    destruct (flightrec_log_eq ty job step ex w (wf_on w Hw)) as [c ->]. cbn -[Z.add].
    destruct Hw. rewrite u32_small by cint. lia.
Qed.

(** A call of [flightrec_log], and a run of them. *)
Definition log_call : Type := trace_event_type * Z * Z * Z.

Definition log_one (c : log_call) (r : recorder) : recorder :=
  let '(type, job_id, step_id, ex) := c in flightrec_log type job_id step_id ex r.

Definition log_all (l : list log_call) (r : recorder) : recorder :=
  foldl (fun r c => log_one c r) r l.

Definition call_rec (c : log_call) : trace_rec :=
  let '(type, job_id, step_id, ex) := c in TraceRec (trace_code type) job_id step_id ex.

Lemma fr_head_init r :
  zlen (fr_buf r) = TRACE_BUF_SIZE -> zlen (spans r) = MAX_ACTIVE_SPANS ->
  fr_head (flightrec_init r) = 1 /\
  rec_of <$> contents (flightrec_init r) = [call_rec (TRACE_EVT_BOOT, 0, 0, 0)].
Proof.
  intros Hb Hs. unfold flightrec_init. cbv zeta.
  match goal with |- context [for_range 0 ?n ?b ?s] =>
    assert (H : fr_wf (for_range 0 n b s) /\ fr_head (for_range 0 n b s) = 0);
    [|generalize dependent (for_range 0 n b s)] end.
  - apply (for_range_ind (fun _ r => fr_wf r /\ fr_head r = 0)); [done| |].
    + split; [|done]. by split; cbn; try done; lia.
    + intros j s' _ [[] ?]. split; [|done]. split; cbn -[zset zget]; rewrite ?zlen_zset; done.
  - intros r1 [Hw Hh]. apply (fr_wf_handle _ 1) in Hw. revert Hw.
    set (r2 := r1{{ next_span_handle := 1 }}). intros Hw.
    assert (Hh2 : fr_head r2 = 0) by done. clearbody r2. split.
    + destruct (flightrec_log_eq TRACE_EVT_BOOT 0 0 0 r2 (wf_on _ Hw)) as [c ->].
      cbn -[u32]. by rewrite Hh2.
    + rewrite recent_log by (done || lia). 
      assert (Hc : contents r2 = []).
      { apply length_zero_iff_nil. pose proof (zlen_contents r2 Hw). unfold zlen in *. lia. }
      by rewrite Hc.
Qed.

Lemma log_all_window l r :
  fr_wf r -> fr_head r + zlen l < 0x100000000 ->
  fr_wf (log_all l r) /\ fr_head (log_all l r) = fr_head r + zlen l /\
  rec_of <$> contents (log_all l r) = lastn 256 ((rec_of <$> contents r) ++ (call_rec <$> l)).
Proof.
  induction l as [|[[[ty j] s] x] l IH] using rev_ind; intros Hw Hr.
  - split; [done|]. split; [cbn; unfold zlen; cbn; lia|]. rewrite app_nil_r, lastn_all; [done|].
    pose proof (zlen_contents r Hw). unfold zlen in *. rewrite length_fmap. lia.
  - unfold zlen in *. rewrite length_app in *. cbn [length] in *.
    destruct IH as (Hw1 & Hh1 & IH); [done|lia|].
    unfold log_all in *. rewrite foldl_app. cbn [foldl log_one].
    set (r1 := foldl _ r l) in *. clearbody r1.
    destruct (flightrec_log_eq ty j s x r1 (wf_on _ Hw1)) as [c Heq].
    pose proof (wf_head r Hw). split; [by apply fr_wf_log|]. split.
    + rewrite Heq. cbn -[u32 Z.add]. rewrite u32_small by cint. lia.
    + rewrite recent_log, IH by (done || lia). rewrite fmap_app, app_assoc. cbn [fmap list_fmap].
      by apply lastn_snoc; lia.
Qed.

(** ** Queries as functions of the visible events *)

Lemma zget_contents_rev r i :
  fr_wf r -> 0 <= i < zlen (contents r) ->
  zget (fr_buf r) (Z.land (u32 (fr_head r - 1 - i)) TRACE_BUF_MASK)
  = zget (reverse (contents r)) i.
Proof.
  intros Hw Hi. pose proof (zlen_contents r Hw) as Hl. pose proof (wf_head r Hw).
  rewrite zget_reverse by done.
  rewrite zget_contents by (done || lia). rewrite land_mask. f_equal.
  rewrite u32_small by (unfold is_u32; lia).
  destruct (Z.le_gt_cases (fr_head r) 256).
  - f_equal. lia.
  - replace (fr_head r - 1 - i)
      with (Z.max 0 (fr_head r - 256) + (zlen (contents r) - 1 - i)) by lia. done.
Qed.

Lemma fr_count_contents r : fr_wf r -> fr_count r = zlen (contents r).
Proof. intros. by rewrite zlen_contents, (proj1 (fr_window r)). Qed.

(** The scan backwards finds the newest visible match. *)
Lemma last_duration_find job_id step_id r :
  fr_wf r ->
  flightrec_last_duration job_id step_id r
  = from_option extra 0 (List.find (is_step_end job_id step_id) (reverse (contents r))).
Proof.
  intros Hw. unfold flightrec_last_duration. rewrite fr_count_contents by done.
  set (f := fun i => zget (fr_buf r) (Z.land (u32 (fr_head r - 1 - i)) TRACE_BUF_MASK)).
  assert (Hz : zlen (contents r) = zlen (reverse (contents r)))
    by (unfold zlen; by rewrite length_reverse).
  rewrite <- (find_range_find (is_step_end job_id step_id) f (reverse (contents r))).
  - rewrite <- Hz. change (zget (fr_buf r) (Z.land (u32 (fr_head r - 1 - ?i)) TRACE_BUF_MASK)) with (f i).
    by destruct (find_range _ _ _).
  - intros k Hk. apply zget_contents_rev; [done|lia].
Qed.

(** The counters [flightrec_get_job_stats] computes from a list of events. *)
Definition stats_of (job_id : Z) (es : list trace_event_t) : trace_job_stats_t * Z * Z :=
  let es := List.filter (fun e => ev_job_id e =? job_id) es in
  let ends := List.filter (fun e => ev_type e =? trace_code TRACE_EVT_STEP_END) es in
  let viol := List.filter (fun e =>
    (ev_type e =? trace_code TRACE_EVT_CONTRACT_VIOLATION)
    || (ev_type e =? trace_code TRACE_EVT_CONTRACT_BUDGET_EXCEED)) es in
  (TraceJobStats job_id (u32 (zlen ends)) (u64 (zsum (extra <$> ends))) 0 (u32 (zlen viol)),
   zmin (ts_usec <$> es), zmax (ts_usec <$> es)).

Lemma job_stats_fold job_id es :
  Forall (fun e => 0 < ts_usec e) es ->
  foldl (fun s e => job_stats_step job_id e s) (TraceJobStats job_id 0 0 0 0, 0, 0) es
  = stats_of job_id es.
Proof.
  induction es as [|e es IH] using rev_ind; [done|]. intros [Hes He%Forall_inv]%Forall_app.
  rewrite foldl_app, IH by done. cbn [foldl]. unfold stats_of, job_stats_step.
  rewrite !List.filter_app. cbn [List.filter].
  destruct (ev_job_id e =? job_id); cbn [negb]; [|by rewrite !app_nil_r].
  set (l := List.filter (fun e => ev_job_id e =? job_id) es).
  rewrite !fmap_app, zmax_app. cbn [List.filter fmap list_fmap].
  assert (Hmin : (if (zmin (ts_usec <$> l) =? 0) || (ts_usec e <? zmin (ts_usec <$> l))
                  then ts_usec e else zmin (ts_usec <$> l)) = zmin ((ts_usec <$> l) ++ [ts_usec e])).
  { destruct (decide (l = [])) as [E|E]; [by rewrite E|].
    assert (Hl : (ts_usec <$> l) <> []) by (by destruct l).
    rewrite zmin_snoc by done. assert (Hpos : 0 < zmin (ts_usec <$> l)).
    { apply zmin_pos; [done|]. apply Forall_fmap. apply Forall_forall. intros x Hx.
      rewrite Forall_forall in Hes. apply Hes. apply list_elem_of_In.
      by apply list_elem_of_In, List.filter_In in Hx as [? _]. }
    bool_cases; cbn [orb]; lia. }
  assert (Hmax : (if zmax (ts_usec <$> l) <? ts_usec e then ts_usec e else zmax (ts_usec <$> l))
                 = Z.max (zmax (ts_usec <$> l)) (zmax [ts_usec e])).
  { cbn [zmax foldr]. bool_cases; lia. }
  rewrite Hmin, Hmax. apply (f_equal (fun x => (x, _, _))). unfold zlen.
  destruct (ev_type e =? trace_code TRACE_EVT_STEP_END) eqn:E1.
  - apply Z.eqb_eq in E1. rewrite E1. cbn -[u32 u64 Z.add].
    rewrite !app_nil_r, zsum_app, length_app. cbn -[u32 u64 Z.add zsum]. change (zsum [?x]) with (x + 0).
    f_equal; cint.
  - destruct ((ev_type e =? trace_code TRACE_EVT_CONTRACT_VIOLATION)
              || (ev_type e =? trace_code TRACE_EVT_CONTRACT_BUDGET_EXCEED));
      cbn -[u32 u64 Z.add]; rewrite ?app_nil_r, ?length_app; [|done].
    cbn [length]. f_equal. cint.
Qed.

Lemma job_stats_contents job_id r :
  fr_wf r -> Forall (fun e => 0 < ts_usec e) (contents r) ->
  flightrec_get_job_stats job_id r
  = let '(out, first_ts, last_ts) := stats_of job_id (contents r) in
    out{{ total_wall_usec := u64 (last_ts - first_ts) }}.
Proof.
  intros Hw Hts. unfold flightrec_get_job_stats. rewrite fr_count_contents by done.
  rewrite <- job_stats_fold by done.
  rewrite <- (for_range_foldl (job_stats_step job_id) (fun i => zget (fr_buf r)
    (if TRACE_BUF_SIZE <? fr_head r
     then Z.land (u32 (fr_head r - TRACE_BUF_SIZE + i)) TRACE_BUF_MASK else i))); [done|].
  intros k Hk. pose proof (wf_head r Hw). rewrite zlen_contents in Hk by done.
  rewrite zget_contents by done. f_equal. unfold TRACE_BUF_SIZE. case_if; bool_hyps.
  - rewrite land_mask, u32_small by (unfold is_u32; lia). do 2 f_equal. lia.
  - rewrite Z.mod_small; lia.
Qed.

(** The seal is the digest of the counter and the visible events in order. *)
Definition seal_image (r : recorder) : list Z :=
  le_bytes 4 (fr_head r) ++ concat (event_bytes <$> contents r).

Lemma seal_hash_image r :
  fr_wf r -> 8 * zlen (seal_image r) < 0x10000000000000000 ->
  flightrec_seal_hash r = sha256_spec (seal_image r).
Proof.
  intros Hw Hlen. unfold flightrec_seal_hash. rewrite fr_count_contents by done.
  rewrite (for_range_foldl (fun e ctx => sha256_update ctx (event_bytes e))
    (fun i => zget (fr_buf r) (Z.land (fr_start r +u i) TRACE_BUF_MASK))).
  - rewrite <- (sha256_stream_spec ctx0) by done. do 2 f_equal. unfold seal_image.
    rewrite sha256_update_app. generalize (sha256_update (sha256_init ctx0) (le_bytes 4 (fr_head r))).
    generalize (contents r). induction l as [|e l IH]; intros c; [done|].
    cbn [foldl fmap list_fmap concat]. by rewrite IH, sha256_update_app.
  - intros k Hk. rewrite zlen_contents in Hk by done. pose proof (wf_head r Hw).
    rewrite zget_contents, land_mask, (proj2 (fr_window r)) by done. do 2 f_equal.
    apply u32_small. unfold is_u32. lia.
Qed.

(** ** Spans *)

Lemma log_spans type job_id step_id ex r :
  spans (flightrec_log type job_id step_id ex r) = spans r.
Proof.
  unfold flightrec_log. case_if; [done|].
  destruct (time_cycles _) as [? c1]. by destruct (time_usec c1).
Qed.

Lemma fr_head_log type job_id step_id ex r :
  initialized r <> 0 -> fr_head (flightrec_log type job_id step_id ex r) = fr_head r +u 1.
Proof.
  intros Hi. by destruct (flightrec_log_eq type job_id step_id ex r Hi) as [c ->].
Qed.

Lemma log_all_spans l r : spans (log_all l r) = spans r.
Proof.
  unfold log_all. revert r; induction l as [|[[[? ?] ?] ?] l IH]; intros r; [done|].
  cbn [foldl log_one]. by rewrite IH, log_spans.
Qed.

Lemma log_head_recent ty job step ex r :
  fr_wf r -> fr_head r + 1 < 0x100000000 ->
  head (trace_recent (flightrec_log ty job step ex r))
  = Some (TraceRec (trace_code ty) job step ex).
Proof.
  intros Hw Hh. change (flightrec_log ty job step ex r) with (trace_log ty job step ex r).
  apply trace_log_head. rewrite fr_wf_room by done. lia.
Qed.

Lemma fr_wf_set_span c sp r :
  fr_wf r -> zlen sp = MAX_ACTIVE_SPANS -> fr_wf r{{ fr_clock := c; spans := sp }}.
Proof. intros [] ?. by split. Qed.

Lemma fr_wf_set_clock c r : fr_wf r -> fr_wf r{{ fr_clock := c }}.
Proof. intros []. by split. Qed.

(** A span begun in the lowest free slot; no other slot changes. *)
Lemma begin_span_slot type job_id step_id r slot :
  fr_wf r ->
  find_range 0 MAX_ACTIVE_SPANS (fun i => active (zget (spans r) i) =? 0) = Some slot ->
  let '(h, r') := flightrec_begin_span type job_id step_id r in
  h = slot + 1 /\ fr_wf r' /\ fr_head r' = u32 (fr_head r + 1) /\
  spans r' = zset (spans r) slot
    (ActiveSpan 1 job_id step_id (tsc (fr_clock r) (reads (fr_clock r))) (trace_code type)).
Proof.
  intros Hw Hs. unfold flightrec_begin_span.
  rewrite (proj2 (Z.eqb_neq _ 0)) by apply Hw. rewrite Hs. cbn -[flightrec_log u8 zset].
  set (c1 := (fr_clock r){{ reads ::= S }}). set (sp := ActiveSpan _ _ _ _ _).
  assert (Hw1 : fr_wf r{{ fr_clock := c1; spans := zset (spans r) slot sp }})
    by (apply fr_wf_set_span; [done|]; rewrite zlen_zset; apply Hw).
  split; [done|]. split; [by apply fr_wf_log|]. rewrite log_spans. split.
  - by rewrite fr_head_log by apply Hw1.
  - subst sp. by rewrite trace_code_u8.
Qed.

Lemma end_span_logs h type r :
  fr_wf r -> fr_head r + 1 < 0x100000000 -> 1 <= h <= MAX_ACTIVE_SPANS ->
  active (zget (spans r) (h - 1)) <> 0 ->
  let sp := zget (spans r) (h - 1) in
  let c := fr_clock r in
  head (trace_recent (flightrec_end_span h type r))
  = Some (TraceRec (trace_code type) (sp_job_id sp) (sp_step_id sp)
            (u32 (cycles_to_usec c (u64 (tsc c (reads c) - start_cycles sp))))) /\
  spans (flightrec_end_span h type r) = zset (spans r) (h - 1) (sp{{ active := 0 }}).
Proof.
  intros Hw Hh Hr Ha sp c. unfold flightrec_end_span, MAX_ACTIVE_SPANS in *.
  rewrite !(proj2 (Z.eqb_neq _ 0)) by (apply Hw || lia). cbn [orb].
  unfold int_of_u32. rewrite (proj2 (Z.ltb_lt _ 0x80000000)) by lia.
  rewrite (proj2 (Z.ltb_ge _ 0)), (proj2 (Z.leb_gt _ _)) by lia. cbn [orb].
  rewrite (proj2 (Z.eqb_neq _ 0)) by done. fold sp.
  cbn -[flightrec_log trace_recent u32 u64 zset zget Z.sub cycles_to_usec].
  set (c1 := c{{ reads ::= S }}). fold c1.
  set (r1 := r{{ fr_clock := c1 }}). fold r1.
  assert (Hw1 : fr_wf r1) by by apply fr_wf_set_clock.
  split; [|by rewrite log_spans].
  rewrite <- (log_head_recent type _ _ _ r1) by done. reflexivity.
Qed.

(** ** Properties *)

(** C38: after [flightrec_init] and any run of [flightrec_log] calls shorter than
    the 32-bit counter, the events a reader sees in the ring, oldest first, are
    exactly the last 256 of the boot event followed by the events logged, with
    the type, job, step and extra word each call gave. *)
Theorem flightrec_ring_window (l : list log_call) (r : recorder) :
  zlen (fr_buf r) = TRACE_BUF_SIZE -> zlen (spans r) = MAX_ACTIVE_SPANS ->
  1 + zlen l < 0x100000000 ->
  rec_of <$> contents (log_all l (flightrec_init r))
  = lastn 256 (call_rec <$> (TRACE_EVT_BOOT, 0, 0, 0) :: l).
Proof.
  intros Hb Hs Hl. destruct (fr_head_init r Hb Hs) as [Hh Hc].
  destruct (log_all_window l (flightrec_init r)) as (_ & _ & ->).
  - by apply fr_wf_init.
  - by rewrite Hh.
  - by rewrite Hc.
Qed.

(** A booted clock that ticks 1500 cycles between readings. *)
Definition demo_clock : clock := time_init (Clock (fun n => 1500 * Z.of_nat n) 0 0 0 0).
Definition demo_recorder : recorder := recorder_bss demo_clock.

Lemma demo_wf : fr_wf (flightrec_init demo_recorder).
Proof. apply fr_wf_init; vm_compute; reflexivity. Qed.

Lemma flightrec_ring_window_witness :
  rec_of <$> contents (log_all [(TRACE_EVT_JOB_SUBMIT, 7, 0, 0); (TRACE_EVT_STEP_END, 7, 1, 42)]
                        (flightrec_init demo_recorder))
  = [TraceRec 0xF0 0 0 0; TraceRec 0x01 7 0 0; TraceRec 0x04 7 1 42].
Proof. apply flightrec_ring_window; reflexivity. Defined.

(** The queries look at the visible window only: the last duration of a
    step is the extra word of its newest visible STEP_END event (0 if there is
    none), and the job statistics count the visible STEP_END and violation
    events of the job, sum the durations, and span its first to its last
    timestamp. *)
Theorem flightrec_queries (job_id step_id : Z) (r : recorder) :
  fr_wf r -> Forall (fun e => 0 < ts_usec e) (contents r) ->
  flightrec_last_duration job_id step_id r
  = from_option extra 0 (List.find (is_step_end job_id step_id) (reverse (contents r))) /\
  flightrec_get_job_stats job_id r
  = let '(out, first_ts, last_ts) := stats_of job_id (contents r) in
    out{{ total_wall_usec := u64 (last_ts - first_ts) }}.
Proof. intros Hw Hts. split; [by apply last_duration_find|by apply job_stats_contents]. Qed.

Lemma flightrec_queries_witness :
  let r := log_all [(TRACE_EVT_STEP_END, 7, 1, 42); (TRACE_EVT_STEP_END, 7, 1, 50)]
             (flightrec_init demo_recorder) in
  flightrec_last_duration 7 1 r = 50 /\
  flightrec_get_job_stats 7 r = TraceJobStats 7 2 92 3 0.
Proof.
  intros r.
  destruct (flightrec_queries 7 1 r) as [H1 H2].
  - unfold r, log_all. cbn [foldl log_one].
    do 2 apply fr_wf_log. apply demo_wf.
  - vm_compute. repeat constructor.
  - split; [rewrite H1|rewrite H2]; vm_compute; reflexivity.
Defined.

(** A span measures the time between its begin and its end, whatever is
    logged in between: the newest event after [flightrec_end_span] carries the
    job and step of [flightrec_begin_span] and, as its duration, the cycles
    between the two clock readings in microseconds; its slot is free again and
    every other slot is as it was. *)
Theorem flightrec_span_duration type1 type2 job_id step_id (l : list log_call) (r : recorder) slot :
  fr_wf r -> fr_head r + zlen l + 2 < 0x100000000 ->
  find_range 0 MAX_ACTIVE_SPANS (fun i => active (zget (spans r) i) =? 0) = Some slot ->
  let '(h, r1) := flightrec_begin_span type1 job_id step_id r in
  let r2 := log_all l r1 in
  let r3 := flightrec_end_span h type2 r2 in
  let start_c := tsc (fr_clock r) (reads (fr_clock r)) in
  let end_c := tsc (fr_clock r2) (reads (fr_clock r2)) in
  head (trace_recent r3)
  = Some (TraceRec (trace_code type2) job_id step_id
            (u32 (cycles_to_usec (fr_clock r2) (u64 (end_c - start_c))))) /\
  spans r3 = zset (spans r) slot (ActiveSpan 0 job_id step_id start_c (trace_code type1)).
Proof.
  intros Hw Hh Hs. pose proof (begin_span_slot type1 job_id step_id r slot Hw Hs) as Hbeg.
  destruct (flightrec_begin_span _ _ _ _) as [h r1]. destruct Hbeg as (-> & Hw1 & Hh1 & Hsp).
  apply find_range_Some in Hs as (Hslot & _ & _). pose proof (wf_spans r Hw).
  pose proof (wf_head r Hw). unfold zlen in Hh. rewrite u32_small in Hh1 by (unfold is_u32; lia).
  destruct (log_all_window l r1) as (Hw2 & Hh2 & _); [done|unfold zlen; lia|].
  pose proof (log_all_spans l r1) as Hsp2. intros r2 r3 start_c end_c. fold r2 in Hw2, Hh2, Hsp2.
  assert (Hsl : zget (spans r2) (slot + 1 - 1)
                = ActiveSpan 1 job_id step_id start_c (trace_code type1)).
  { rewrite Hsp2, Hsp. replace (slot + 1 - 1) with slot by lia. apply zget_zset_eq. lia. }
  unfold MAX_ACTIVE_SPANS in *.
  destruct (end_span_logs (slot + 1) type2 r2) as [E1 E2];
    [done|unfold zlen in *; lia|unfold MAX_ACTIVE_SPANS; lia|by rewrite Hsl|].
  rewrite Hsl in E1, E2. split; [exact E1|].
  unfold r3. rewrite E2, Hsp2, Hsp. replace (slot + 1 - 1) with slot by lia. apply zset_zset.
Qed.

Lemma flightrec_span_duration_witness :
  let r := flightrec_init demo_recorder in
  let '(h, r1) := flightrec_begin_span TRACE_EVT_STEP_START 7 1 r in
  let r2 := log_all [(TRACE_EVT_MEM_ALLOC, 7, 1, 0)] r1 in
  let r3 := flightrec_end_span h TRACE_EVT_STEP_END r2 in
  let start_c := tsc (fr_clock r) (reads (fr_clock r)) in
  let end_c := tsc (fr_clock r2) (reads (fr_clock r2)) in
  start_c = 1500 * 3 /\
  head (trace_recent r3)
  = Some (TraceRec 0x04 7 1 (u32 (cycles_to_usec (fr_clock r2) (u64 (end_c - start_c))))).
Proof.
  assert (Hw : fr_wf (flightrec_init demo_recorder)) by apply demo_wf.
  pose proof (flightrec_span_duration TRACE_EVT_STEP_START TRACE_EVT_STEP_END 7 1
    [(TRACE_EVT_MEM_ALLOC, 7, 1, 0)] (flightrec_init demo_recorder) 0 Hw
    ltac:(vm_compute; reflexivity) ltac:(vm_compute; reflexivity)) as H.
  assert (E : tsc (fr_clock (flightrec_init demo_recorder))
                (reads (fr_clock (flightrec_init demo_recorder))) = 1500 * 3)
    by (vm_compute; reflexivity).
  cbv zeta in *. destruct (flightrec_begin_span TRACE_EVT_STEP_START 7 1 _) as [h r1].
  split; [exact E|exact (proj1 H)].
Defined.

(** The seal of the flight recorder is the SHA-256 of its counter followed
    by the packed images of the visible events in chronological order, however
    the ring has wrapped. *)
Theorem flightrec_seal_is_digest (r : recorder) :
  fr_wf r -> 8 * zlen (seal_image r) < 0x10000000000000000 ->
  flightrec_seal_hash r = sha256_spec (seal_image r).
Proof. apply seal_hash_image. Qed.

Lemma flightrec_seal_is_digest_witness :
  flightrec_seal_hash (flightrec_init demo_recorder)
  = sha256_spec (seal_image (flightrec_init demo_recorder)).
Proof.
  apply flightrec_seal_is_digest.
  - apply demo_wf.
  - vm_compute. reflexivity.
Defined.
