(* ===== verification/Pmm.v ===== *)
(** kernel/mm/pmm.c and pmm.h: the physical page allocator.

    The file's statics are the record [pmm]: the page bitmap (as memory, at
    offset 0), the region table, the two simulated NUMA nodes and the global
    counters, with the flight recorder it logs to as an abstract [Trace].  The
    boot loader's memory map is read from a memory; the kernel's physical extent
    comes from the linker and is a pair of arguments.

    [pmm_wf] is the allocator's invariant: the counters of each node and the
    global one are the numbers of free bits they stand for, and nothing outside
    the two nodes is free.  Initialisation establishes it, allocation preserves
    it and freeing a page of a node preserves it. *)

From S2P Require Import Prelude Mem Bitmap Trace.

Definition PAGE_SIZE : Z := 4096.
Definition PAGE_SHIFT : Z := 12.
Definition PMM_MAX_PAGES : Z := 65536.
Definition BITMAP_SIZE : Z := PMM_MAX_PAGES / 8.
Definition MAX_MEM_REGIONS : Z := 32.
Definition NUMA_NODE_LOCAL : Z := 0.
Definition NUMA_NODE_REMOTE : Z := 1.
Definition NUMA_NODE_ANY : Z := 0xFF.
Definition MEM_REGION_AVAILABLE : Z := 1.
Definition MULTIBOOT_FLAG_MEM : Z := 1.
Definition MULTIBOOT_FLAG_MMAP : Z := 64.

Record mem_region_t := MemRegion { mr_base : Z; mr_length : Z; mr_type : Z }.
#[export] Instance mem_region_inhabited : Inhabited mem_region_t := populate (MemRegion 0 0 0).

Record numa_node_t := NumaNode {
  node_id : Z;
  base_addr : Z;
  start_pfn : Z;
  end_pfn : Z;
  n_total_pages : Z;
  n_free_pages : Z;
  n_used_pages : Z
}.
#[export] Instance numa_node_eta : Eta numa_node_t := fun n =>
  NumaNode (node_id n) (base_addr n) (start_pfn n) (end_pfn n) (n_total_pages n)
    (n_free_pages n) (n_used_pages n).
#[export] Instance numa_node_inhabited : Inhabited numa_node_t :=
  populate (NumaNode 0 0 0 0 0 0 0).

Record multiboot_info_t := MultibootInfo {
  mb_flags : Z;
  mem_lower : Z;
  mem_upper : Z;
  mmap_length : Z;
  mmap_addr : Z
}.

Record pmm_stats_t := PmmStats {
  total_memory_kb : Z;
  free_memory_kb : Z;
  used_memory_kb : Z;
  reserved_memory_kb : Z;
  st_total_pages : Z;
  st_free_pages : Z;
  st_num_regions : Z;
  st_num_nodes : Z
}.

Record pmm (W : Type) := Pmm {
  page_bitmap : mem;                   (* page_bitmap[BITMAP_SIZE] *)
  mem_regions : list mem_region_t;     (* mem_regions[MAX_MEM_REGIONS] *)
  num_regions : Z;
  numa_nodes : list numa_node_t;       (* numa_nodes[NUMA_MAX_NODES] *)
  numa_node_count : Z;
  total_pages : Z;
  free_pages : Z;
  highest_page : Z;
  node_boundary_pfn : Z;
  pm_trace : W                         (* the flight recorder *)
}.
Arguments Pmm {W}.
Arguments page_bitmap {W}.
Arguments mem_regions {W}.
Arguments num_regions {W}.
Arguments numa_nodes {W}.
Arguments numa_node_count {W}.
Arguments total_pages {W}.
Arguments free_pages {W}.
Arguments highest_page {W}.
Arguments node_boundary_pfn {W}.
Arguments pm_trace {W}.
#[export] Instance pmm_eta W : Eta (pmm W) := fun s =>
  Pmm (page_bitmap s) (mem_regions s) (num_regions s) (numa_nodes s) (numa_node_count s)
    (total_pages s) (free_pages s) (highest_page s) (node_boundary_pfn s) (pm_trace s).

Definition bitmap_set : Z -> mem -> mem := bm_set 0 PMM_MAX_PAGES.
Definition bitmap_clear : Z -> mem -> mem := bm_clear 0 PMM_MAX_PAGES.
Definition bitmap_test : mem -> Z -> Z := bm_test 0 PMM_MAX_PAGES.

Definition addr_to_pfn (addr : Z) : Z := Z.shiftr addr PAGE_SHIFT.
Definition pfn_to_addr (pfn : Z) : Z := u32 (Z.shiftl pfn PAGE_SHIFT).
Definition page_align_down (addr : Z) : Z := Z.land addr 0xFFFFF000.
Definition page_align_up (addr : Z) : Z := Z.land (addr +u PAGE_SIZE -u 1) 0xFFFFF000.

Section Pmm.
Context {W : Type} `{Trace W}.
Implicit Types s : pmm W.

(** The statics at load time. *)
Definition pmm_bss (w : W) : pmm W :=
  Pmm ∅ (repeat inhabitant 32) 0 (repeat inhabitant 2) 0 0 0 0 0 w.

Definition pmm_log (ty : trace_event_type) (job_id step_id ex : Z) (s : pmm W) : pmm W :=
  s{{ pm_trace ::= trace_log ty job_id step_id ex }}.

Definition set_region (i : Z) (r : mem_region_t) (s : pmm W) : pmm W :=
  s{{ mem_regions ::= fun l => zset l i r }}.

(** One entry of the boot loader's memory map, at [entry]. *)
Definition mmap_entry (boot : mem) (entry : Z) (s : pmm W) : pmm W :=
  let e_base := ld64 boot (entry + 4) in
  if e_base <? 0x100000000
  then
    let len := ld64 boot (entry + 12) in
    let len := if 0x100000000 <? u64 (e_base + len) then 0x100000000 - e_base else len in
    (set_region (num_regions s)
       (MemRegion (u32 e_base) (u32 len) (ld32 boot (entry + 20))) s)
      {{ num_regions ::= fun n => n +u 1 }}
  else s.

(** The walk of the map: an entry's size field does not count itself. *)
Fixpoint mmap_loop (fuel : nat) (boot : mem) (entry end_ : Z) (s : pmm W) : option (pmm W) :=
  if (entry <? end_) && (num_regions s <? MAX_MEM_REGIONS) then
    match fuel with
    | O => None
    | S fuel =>
        mmap_loop fuel boot (entry + ld32 boot entry + 4) end_ (mmap_entry boot entry s)
    end
  else Some s.

(** Every entry is at least 4 bytes long. *)
Definition mmap_fuel (entry end_ : Z) : nat := Z.to_nat ((end_ - entry + 3) / 4).

Definition parse_mmap (boot : mem) (mboot : multiboot_info_t) (s : pmm W) : option (pmm W) :=
  if Z.land (mb_flags mboot) MULTIBOOT_FLAG_MMAP =? 0 then
    if Z.land (mb_flags mboot) MULTIBOOT_FLAG_MEM =? 0 then Some s
    else
      let s := set_region 0 (MemRegion 0 (mem_lower mboot *u 1024) MEM_REGION_AVAILABLE) s in
      let s := set_region 1
                 (MemRegion 0x100000 (mem_upper mboot *u 1024) MEM_REGION_AVAILABLE) s in
      Some s{{ num_regions := 2 }}
  else
    let end_ := mmap_addr mboot +u mmap_length mboot in
    mmap_loop (mmap_fuel (mmap_addr mboot) end_) boot (mmap_addr mboot) end_ s.

(** One page of an available region. *)
Definition init_page (pfn : Z) (s : pmm W) : pmm W :=
  let s := s{{ page_bitmap ::= bitmap_clear pfn; free_pages ::= fun n => n +u 1 }} in
  if highest_page s <? pfn then s{{ highest_page := pfn }} else s.

Definition init_region (r : mem_region_t) (s : pmm W) : pmm W :=
  if negb (mr_type r =? MEM_REGION_AVAILABLE) then s
  else
    let base := page_align_up (mr_base r) in
    let end_ := page_align_down (mr_base r +u mr_length r) in
    if end_ <=? base then s
    else
      let start_pfn := addr_to_pfn base in
      let end_pfn := addr_to_pfn end_ in
      let end_pfn := if PMM_MAX_PAGES <? end_pfn then PMM_MAX_PAGES else end_pfn in
      for_range start_pfn end_pfn init_page s.

Definition init_bitmap (s : pmm W) : pmm W :=
  let s := s{{ page_bitmap ::= for_range 0 BITMAP_SIZE (fun i m => stb m i 0xFF) }} in
  let s := for_range 0 (num_regions s) (fun r s => init_region (zget (mem_regions s) r) s) s in
  s{{ total_pages := highest_page s +u 1 }}.

Definition reserve_page (pfn : Z) (s : pmm W) : pmm W :=
  if bitmap_test (page_bitmap s) pfn =? 0
  then s{{ page_bitmap ::= bitmap_set pfn; free_pages ::= fun n => n -u 1 }}
  else s.

Definition pmm_reserve_range (base length : Z) (s : pmm W) : pmm W :=
  let start := page_align_down base in
  let end_ := page_align_up (base +u length) in
  let start_pfn := addr_to_pfn start in
  let end_pfn := addr_to_pfn end_ in
  let end_pfn := if PMM_MAX_PAGES <? end_pfn then PMM_MAX_PAGES else end_pfn in
  for_range start_pfn end_pfn reserve_page s.

Definition reserve_kernel (kernel_start kernel_end : Z) (s : pmm W) : pmm W :=
  pmm_reserve_range kernel_start (kernel_end -u kernel_start)
    (pmm_reserve_range 0 0x100000 s).

Definition upd_node (i : Z) (f : numa_node_t -> numa_node_t) (s : pmm W) : pmm W :=
  s{{ numa_nodes ::= fun l => zset l i (f (zget l i)) }}.

(** Counts the page [pfn] in its node if it is free. *)
Definition count_page (pfn : Z) (s : pmm W) : pmm W :=
  if bitmap_test (page_bitmap s) pfn =? 0
  then upd_node (if pfn <? node_boundary_pfn s then 0 else 1)
         (fun n => n{{ n_free_pages ::= fun x => x +u 1 }}) s
  else s.

Definition node_used (n : numa_node_t) : numa_node_t :=
  n{{ n_used_pages := n_total_pages n -u n_free_pages n }}.

Definition setup_numa_nodes (s : pmm W) : pmm W :=
  let usable_start_pfn := 256 in
  let usable_pages := highest_page s -u usable_start_pfn +u 1 in
  let b := usable_start_pfn +u (usable_pages / 2) in
  let s := s{{ node_boundary_pfn := b }} in
  let s := upd_node 0 (fun _ => NumaNode 0 (pfn_to_addr usable_start_pfn) usable_start_pfn b
                                  (b -u usable_start_pfn) 0 0) s in
  let s := upd_node 1 (fun _ => NumaNode 1 (pfn_to_addr b) b (highest_page s +u 1)
                                  (highest_page s +u 1 -u b) 0 0) s in
  let s := s{{ numa_node_count := 2 }} in
  let s := for_range usable_start_pfn (highest_page s + 1) count_page s in
  upd_node 1 node_used (upd_node 0 node_used s).

Definition pmm_init (boot : mem) (kernel_start kernel_end : Z)
    (mboot : option multiboot_info_t) (s : pmm W) : option (pmm W) :=
  s ← match mboot with
      | Some mboot => parse_mmap boot mboot s
      | None =>
          let s := set_region 0 (MemRegion 0 (640 * 1024) MEM_REGION_AVAILABLE) s in
          let s := set_region 1 (MemRegion 0x100000 (128 * 1024 * 1024 - 0x100000)
                                   MEM_REGION_AVAILABLE) s in
          Some s{{ num_regions := 2 }}
      end;
  let s := init_bitmap s in
  let s := reserve_kernel kernel_start kernel_end s in
  let s := setup_numa_nodes s in
  Some (pmm_log TRACE_EVT_BOOT 0 0 (free_pages s) s).

(** Takes [count] pages from the counters of a node. *)
Definition node_take (count : Z) (n : numa_node_t) : numa_node_t :=
  n{{ n_free_pages ::= fun x => x -u count; n_used_pages ::= fun x => x +u count }}.

Definition alloc_from_node (node : Z) (s : pmm W) : Z * pmm W :=
  if numa_node_count s <=? node then (0, s)
  else
    let n := zget (numa_nodes s) node in
    match find_range (start_pfn n) (end_pfn n)
            (fun pfn => bitmap_test (page_bitmap s) pfn =? 0) with
    | Some pfn =>
        (pfn_to_addr pfn,
         upd_node node (node_take 1)
           s{{ page_bitmap ::= bitmap_set pfn; free_pages ::= fun x => x -u 1 }})
    | None => (0, s)
    end.

(** [for (i = 0; i < numa_node_count; i++)] over the nodes other than [node],
    up to the first that has a page; [None] when none has. *)
Fixpoint try_other_nodes (n : nat) (i node : Z) (s : pmm W) : option (Z * pmm W) :=
  match n with
  | O => None
  | S n =>
      if i =? node then try_other_nodes n (i + 1) node s
      else
        let '(addr, s) := alloc_from_node i s in
        if addr =? 0 then try_other_nodes n (i + 1) node s
        else Some (addr, pmm_log TRACE_EVT_MEM_LOCALITY_MISS 0 node i s)
  end.

Definition pmm_alloc_page (node : Z) (s : pmm W) : Z * pmm W :=
  if node =? NUMA_NODE_ANY then
    let '(addr, s) := alloc_from_node 0 s in
    if negb (addr =? 0) then (addr, s)
    else
      let '(addr, s) := alloc_from_node 1 s in
      (addr, if negb (addr =? 0) then pmm_log TRACE_EVT_MEM_LOCALITY_MISS 0 0 1 s else s)
  else
    let '(node, s) :=
      if numa_node_count s <=? node
      then (0, pmm_log TRACE_EVT_MEM_NODE_UNSUPPORTED 0 0 node s)
      else (node, s) in
    let '(addr, s) := alloc_from_node node s in
    if negb (addr =? 0) then (addr, s)
    else
      match try_other_nodes (Z.to_nat (numa_node_count s)) 0 node s with
      | Some r => r
      | None => (0, pmm_log TRACE_EVT_MEM_ALLOC_FAIL 0 node 1 s)
      end.

Definition pmm_addr_to_node (s : pmm W) (addr : Z) : Z :=
  let pfn := addr_to_pfn addr in
  match find_range 0 (numa_node_count s) (fun i =>
          (start_pfn (zget (numa_nodes s) i) <=? pfn)
          && (pfn <? end_pfn (zget (numa_nodes s) i))) with
  | Some i => i
  | None => 0
  end.

(** The search of [pmm_alloc_pages] for [count] free pages in a row. *)
Fixpoint find_run (fuel : nat) (m : mem) (start_pfn count search_end : Z) : option (option Z) :=
  if (start_pfn +u count) <=? search_end then
    match fuel with
    | O => None
    | S fuel =>
        match find_range 0 count (fun i => negb (bitmap_test m (start_pfn +u i) =? 0)) with
        | Some i => find_run fuel m (start_pfn +u i +u 1) count search_end
        | None => Some (Some start_pfn)
        end
    end
  else Some None.

Definition find_run_fuel (search_start search_end : Z) : nat :=
  Z.to_nat (search_start + search_end + 2).

Definition take_run (start_pfn count node : Z) (s : pmm W) : Z * pmm W :=
  let s := s{{ page_bitmap ::= for_range 0 count (fun i => bitmap_set (start_pfn +u i));
               free_pages ::= fun x => x -u count }} in
  let target_node := if node =? NUMA_NODE_ANY
                     then pmm_addr_to_node s (pfn_to_addr start_pfn) else node in
  (pfn_to_addr start_pfn, upd_node target_node (node_take count) s).

(** [None]: the recursion, or a search loop, is still running when the fuel is
    gone. *)
Fixpoint pmm_alloc_pages (fuel : nat) (count node : Z) (s : pmm W) : option (Z * pmm W) :=
  match fuel with
  | O => None
  | S fuel =>
      if count =? 0 then Some (0, s)
      else if count =? 1 then Some (pmm_alloc_page node s)
      else
        let '(node, s) :=
          if negb (node =? NUMA_NODE_ANY) && (numa_node_count s <=? node)
          then (0, pmm_log TRACE_EVT_MEM_NODE_UNSUPPORTED 0 0 node s)
          else (node, s) in
        let '(search_start, search_end) :=
          if node =? NUMA_NODE_ANY then (256, highest_page s +u 1)
          else (start_pfn (zget (numa_nodes s) node), end_pfn (zget (numa_nodes s) node)) in
        let failed s := Some (0, pmm_log TRACE_EVT_MEM_ALLOC_FAIL 0 node count s) in
        run ← find_run (find_run_fuel search_start search_end) (page_bitmap s)
                search_start count search_end;
        match run with
        | Some start => Some (take_run start count node s)
        | None =>
            if negb (node =? NUMA_NODE_ANY) then
              (fix try n i s :=
                 match n with
                 | O => failed s
                 | S n =>
                     if i =? node then try n (i + 1) s
                     else
                       '(addr, s) ← pmm_alloc_pages fuel count i s;
                       if addr =? 0 then try n (i + 1) s
                       else Some (addr, pmm_log TRACE_EVT_MEM_LOCALITY_MISS 0 node i s)
                 end) (Z.to_nat (numa_node_count s)) 0 s
            else failed s
        end
  end.

Definition node_give (n : numa_node_t) : numa_node_t :=
  n{{ n_free_pages ::= fun x => x +u 1; n_used_pages ::= fun x => x -u 1 }}.

Definition pmm_free_page (addr : Z) (s : pmm W) : pmm W :=
  let pfn := addr_to_pfn addr in
  if highest_page s <? pfn then s
  else if bitmap_test (page_bitmap s) pfn =? 0 then s
  else
    let s := s{{ page_bitmap ::= bitmap_clear pfn; free_pages ::= fun x => x +u 1 }} in
    let node := pmm_addr_to_node s addr in
    if node <? numa_node_count s then upd_node node node_give s else s.

Definition pmm_free_pages (addr count : Z) (s : pmm W) : pmm W :=
  for_range 0 count (fun i => pmm_free_page (u32 (addr + u32 (i * PAGE_SIZE)))) s.

Definition pmm_get_stats (s : pmm W) : pmm_stats_t :=
  let total := (highest_page s +u 1) *u 4 in
  let free := free_pages s *u 4 in
  PmmStats total free (total -u free) 0 (total_pages s) (free_pages s) (num_regions s)
    (numa_node_count s).

Definition pmm_get_node (s : pmm W) (i : Z) : option numa_node_t :=
  if i <? numa_node_count s then Some (zget (numa_nodes s) i) else None.

Definition pmm_get_node_count (s : pmm W) : Z := numa_node_count s.
End Pmm.

(** ** The allocator's invariant *)

Definition page_free {W} (s : pmm W) (pfn : Z) : bool :=
  bm_free 0 PMM_MAX_PAGES (page_bitmap s) pfn.
Definition pages_free {W} (s : pmm W) (lo hi : Z) : Z :=
  free_in 0 PMM_MAX_PAGES (page_bitmap s) lo hi.

(** The page range of a node. *)
Definition node_lo {W} (s : pmm W) (node : Z) : Z :=
  if node =? 0 then 256 else node_boundary_pfn s.
Definition node_hi {W} (s : pmm W) (node : Z) : Z :=
  if node =? 0 then node_boundary_pfn s else highest_page s + 1.

Record node_ok {W} (s : pmm W) (node : Z) : Prop := {
  nk_start : start_pfn (zget (numa_nodes s) node) = node_lo s node;
  nk_end : end_pfn (zget (numa_nodes s) node) = node_hi s node;
  nk_total : n_total_pages (zget (numa_nodes s) node) = node_hi s node - node_lo s node;
  nk_free : n_free_pages (zget (numa_nodes s) node)
            = pages_free s (node_lo s node) (node_hi s node);
  nk_used : n_used_pages (zget (numa_nodes s) node)
            = node_hi s node - node_lo s node - pages_free s (node_lo s node) (node_hi s node)
}.

Record pmm_wf {W} (s : pmm W) : Prop := {
  pw_count : numa_node_count s = 2;
  pw_nodes : zlen (numa_nodes s) = 2;
  pw_boundary : 256 <= node_boundary_pfn s <= highest_page s + 1;
  pw_highest : highest_page s < PMM_MAX_PAGES;
  pw_node : forall i, 0 <= i < 2 -> node_ok s i;
  pw_free : free_pages s = pages_free s 256 (highest_page s + 1);
  pw_out : forall p, 0 <= p -> page_free s p = true -> 256 <= p <= highest_page s
}.

Section PmmFacts.
Context {W : Type} `{Trace W}.
Implicit Types s : pmm W.

Lemma pfn_addr pfn : 0 <= pfn < PMM_MAX_PAGES -> pfn_to_addr pfn = 4096 * pfn.
Proof.
  intros. unfold pfn_to_addr, PAGE_SHIFT, PMM_MAX_PAGES in *.
  rewrite Z.shiftl_mul_pow2 by lia. rewrite u32_small; [lia|]. unfold is_u32. lia.
Qed.

Lemma addr_pfn pfn : 0 <= pfn < PMM_MAX_PAGES -> addr_to_pfn (pfn_to_addr pfn) = pfn.
Proof.
  intros. rewrite pfn_addr by done. unfold addr_to_pfn, PAGE_SHIFT.
  rewrite Z.shiftr_div_pow2 by lia. change (2 ^ 12) with 4096. Z.div_mod_to_equations. lia.
Qed.

Lemma pages_free_bounds s lo hi : lo <= hi -> 0 <= pages_free s lo hi <= hi - lo.
Proof.
  intros. unfold pages_free, free_in.
  pose proof (count_range_bounds lo hi (bm_free 0 PMM_MAX_PAGES (page_bitmap s))). lia.
Qed.

(** The counters of the nodes add up to the global one. *)
Lemma pages_free_split s :
  pmm_wf s ->
  pages_free s 256 (highest_page s + 1)
  = pages_free s (node_lo s 0) (node_hi s 0) + pages_free s (node_lo s 1) (node_hi s 1).
Proof. intros []. cbn. apply count_range_split. lia. Qed.

Lemma node_range_ok s node :
  pmm_wf s -> 0 <= node < 2 ->
  256 <= node_lo s node /\ node_lo s node <= node_hi s node /\
  node_hi s node <= highest_page s + 1.
Proof. intros []. unfold node_lo, node_hi. destruct (Z.eqb_spec node 0); lia. Qed.

Lemma count_other_node m m' s node i p c :
  pmm_wf s -> 0 <= node < 2 -> 0 <= i < 2 -> i <> node ->
  node_lo s node <= p -> p + c <= node_hi s node ->
  (forall j, ~ (p <= j < p + c) -> bm_free 0 PMM_MAX_PAGES m' j = bm_free 0 PMM_MAX_PAGES m j) ->
  free_in 0 PMM_MAX_PAGES m' (node_lo s i) (node_hi s i)
  = free_in 0 PMM_MAX_PAGES m (node_lo s i) (node_hi s i).
Proof.
  intros Hw Hn Hi Hne Hlo Hhi Hm. apply count_range_ext. intros j Hj. apply Hm.
  destruct Hw. unfold node_lo, node_hi in *.
  destruct (Z.eqb_spec node 0), (Z.eqb_spec i 0); lia.
Qed.

(** Moving [d] pages of [[p, p + c)] in a node between used and free, in the
    bitmap and in every counter, keeps the invariant. *)
Lemma shift_wf s node p c d m' w :
  pmm_wf s -> 0 <= node < 2 -> node_lo s node <= p -> p + c <= node_hi s node -> 0 <= c ->
  (forall lo hi, lo <= p -> p + c <= hi -> hi <= PMM_MAX_PAGES ->
     free_in 0 PMM_MAX_PAGES m' lo hi = pages_free s lo hi + d) ->
  (forall j, ~ (p <= j < p + c) ->
     bm_free 0 PMM_MAX_PAGES m' j = bm_free 0 PMM_MAX_PAGES (page_bitmap s) j) ->
  pmm_wf (upd_node node
            (fun n => n{{ n_free_pages := u32 (n_free_pages n + d);
                          n_used_pages := u32 (n_used_pages n - d) }})
            s{{ page_bitmap := m'; free_pages := u32 (free_pages s + d); pm_trace := w }}).
Proof.
  intros Hw Hn Hlo Hhi Hc Hrun Hout. pose proof (node_range_ok s node Hw Hn) as (Hr1 & Hr2 & Hr3).
  assert (HM : PMM_MAX_PAGES = 65536) by done. pose proof (pw_highest s Hw).
  pose proof (pages_free_bounds s (node_lo s node) (node_hi s node) Hr2).
  pose proof (count_range_bounds (node_lo s node) (node_hi s node) (bm_free 0 PMM_MAX_PAGES m')) as Hb.
  change (count_range _ _ _) with (free_in 0 PMM_MAX_PAGES m' (node_lo s node) (node_hi s node)) in Hb.
  rewrite Hrun in Hb by lia.
  split; try apply Hw; cbn -[zset zget u32 Z.sub Z.add].
  - rewrite zlen_zset. apply Hw.
  - intros i Hi. pose proof (pw_node s Hw i Hi) as [N1 N2 N3 N4 N5].
    destruct (Z.eq_dec i node) as [->|Hne].
    + split; cbn -[zset zget u32 Z.sub Z.add]; rewrite zget_zset_eq by (rewrite (pw_nodes s Hw); lia);
        cbn -[u32 Z.sub Z.add]; try done; unfold pages_free at 1; cbn [page_bitmap];
        change (node_lo _ node) with (node_lo s node); change (node_hi _ node) with (node_hi s node);
        rewrite Hrun by lia; rewrite ?N4, ?N5; cint.
    + split; cbn -[zset zget u32 Z.sub Z.add]; rewrite zget_zset_ne by lia; try done.
      * rewrite N4. symmetry. apply (count_other_node _ _ s node i p c); done.
      * rewrite N5. f_equal. symmetry. apply (count_other_node _ _ s node i p c); done.
  - unfold pages_free. cbn [page_bitmap]. pose proof (pw_boundary s Hw).
    rewrite Hrun by lia. rewrite (pw_free s Hw). apply u32_small.
    pose proof (pages_free_split s Hw).
    destruct (node_range_ok s 0 Hw ltac:(lia)) as (_ & R0 & _).
    destruct (node_range_ok s 1 Hw ltac:(lia)) as (_ & R1 & _).
    pose proof (pages_free_bounds s _ _ R0). pose proof (pages_free_bounds s _ _ R1).
    unfold is_u32. assert (E0 : node_lo s 0 = 256) by done.
    assert (E1 : node_hi s 1 = highest_page s + 1) by done.
    assert (E2 : node_hi s 0 = node_lo s 1) by done.
    assert (node = 0 \/ node = 1) as [-> | ->] by lia; lia.
  - intros j Hj0 Hj. destruct (Z.le_gt_cases p j), (Z.lt_ge_cases j (p + c)); [lia| | |];
      (apply (pw_out s Hw); [done|]; unfold page_free in *; rewrite <- Hout; [done|lia]).
Qed.

(** The state after taking [c] pages from [p] on. *)
Definition taken (node p c : Z) s : pmm W :=
  upd_node node (node_take c)
    s{{ page_bitmap := bm_set_run 0 PMM_MAX_PAGES p c (page_bitmap s);
        free_pages := free_pages s -u c }}.

Lemma taken_wf s node p c :
  pmm_wf s -> 0 <= node < 2 -> 0 <= c ->
  node_lo s node <= p -> p + c <= node_hi s node ->
  (forall j, p <= j < p + c -> page_free s j = true) -> pmm_wf (taken node p c s).
Proof.
  intros Hw Hn Hc Hlo Hhi Hfree.
  replace (taken node p c s) with (upd_node node
    (fun n => n{{ n_free_pages := u32 (n_free_pages n + - c);
                  n_used_pages := u32 (n_used_pages n - - c) }})
    s{{ page_bitmap := bm_set_run 0 PMM_MAX_PAGES p c (page_bitmap s);
        free_pages := u32 (free_pages s + - c); pm_trace := pm_trace s }}).
  - apply (shift_wf s node p c); try done.
    + intros lo hi L1 L2 _. unfold pages_free. rewrite free_in_set_run by done. lia.
    + intros j Hj. rewrite bm_free_set_run by done.
      replace ((p <=? j) && (j <? p + c)) with false by lia. apply andb_true_r.
  - unfold taken, upd_node, node_take. cbn -[zset zget u32 Z.sub Z.add Z.opp].
    rewrite Z.sub_opp_r. done.
Qed.

Definition given (node p : Z) s : pmm W :=
  upd_node node node_give
    s{{ page_bitmap := bm_clear_run 0 PMM_MAX_PAGES p 1 (page_bitmap s);
        free_pages := free_pages s +u 1 }}.

Lemma given_wf s node p :
  pmm_wf s -> 0 <= node < 2 -> node_lo s node <= p < node_hi s node ->
  page_free s p = false -> pmm_wf (given node p s).
Proof.
  intros Hw Hn Hp Hused. apply (shift_wf s node p 1 1 (bm_clear_run 0 PMM_MAX_PAGES p 1 (page_bitmap s)) (pm_trace s)); try (done || lia).
  - pose proof (node_range_ok s node Hw Hn). pose proof (pw_highest s Hw).
    intros lo hi L1 L2 Hm. unfold pages_free. rewrite free_in_clear_run; try (done || lia).
    intros j Hj. by replace j with p by lia.
  - intros j Hj. rewrite bm_free_clear_run by done.
    replace ((p <=? j) && (j <? p + 1)) with false by lia. apply orb_false_r.
Qed.

Lemma page_free_taken s node p c j :
  0 <= c -> page_free (taken node p c s) j
  = page_free s j && negb ((p <=? j) && (j <? p + c)).
Proof. intros. unfold page_free. cbn [page_bitmap]. by apply bm_free_set_run. Qed.

Lemma page_free_given s node p j :
  p < PMM_MAX_PAGES -> page_free (given node p s) j = page_free s j || (p =? j).
Proof.
  intros. etransitivity; [apply (bm_free_clear_run 0 PMM_MAX_PAGES (page_bitmap s) p 1 j); lia|].
  f_equal. destruct (Z.eqb_spec p j), (Z.leb_spec p j), (Z.ltb_spec j (p + 1)),
    (Z.ltb_spec j PMM_MAX_PAGES); cbn; lia.
Qed.

Lemma node_of_pfn s p :
  pmm_wf s -> 256 <= p <= highest_page s ->
  exists node, 0 <= node < 2 /\ node_lo s node <= p < node_hi s node.
Proof.
  intros Hw Hp. destruct (Z.lt_ge_cases p (node_boundary_pfn s)).
  - exists 0. unfold node_lo, node_hi. cbn. lia.
  - exists 1. unfold node_lo, node_hi. cbn. lia.
Qed.

Lemma addr_to_node_spec s node p :
  pmm_wf s -> 0 <= node < 2 -> node_lo s node <= p < node_hi s node ->
  pmm_addr_to_node s (pfn_to_addr p) = node.
Proof.
  intros Hw Hn Hp. pose proof (node_range_ok s node Hw Hn). pose proof (pw_highest s Hw).
  unfold pmm_addr_to_node. rewrite addr_pfn by lia. rewrite (pw_count s Hw).
  destruct (find_range 0 2 _) as [i|] eqn:E.
  - apply find_range_Some in E as (Hi & Ht & _). bool_hyps.
    rewrite (nk_start s i (pw_node s Hw i Hi)), (nk_end s i (pw_node s Hw i Hi)) in *.
    unfold node_lo, node_hi in *. destruct (Z.eqb_spec i 0), (Z.eqb_spec node 0); lia.
  - pose proof (find_range_None _ _ _ E node Hn) as Hf. cbn beta in Hf.
    rewrite (nk_start s node (pw_node s Hw node Hn)), (nk_end s node (pw_node s Hw node Hn)) in Hf.
    apply andb_false_iff in Hf as [Hf|Hf]; bool_hyps; lia.
Qed.
End PmmFacts.

(** ** The operations against their specification *)

(** The lowest free page of a node. *)
Definition lowest_free {W} (s : pmm W) (node : Z) : option Z :=
  find_range (node_lo s node) (node_hi s node) (page_free s).

(** What [pmm_alloc_page] promises: the lowest free page of the preferred node,
    else the lowest free page of the other one; [NUMA_NODE_ANY] and unsupported
    nodes prefer node 0. *)
Definition pmm_alloc_page_ref {W} `{Trace W} (node : Z) (s : pmm W) : Z * pmm W :=
  let any := node =? NUMA_NODE_ANY in
  let s0 := if any || (node <? 2) then s
            else pmm_log TRACE_EVT_MEM_NODE_UNSUPPORTED 0 0 node s in
  let pref := if node <? 2 then node else 0 in
  match lowest_free s pref, lowest_free s (1 - pref) with
  | Some p, _ => (pfn_to_addr p, taken pref p 1 s0)
  | None, Some p =>
      (pfn_to_addr p, pmm_log TRACE_EVT_MEM_LOCALITY_MISS 0 pref (1 - pref)
                        (taken (1 - pref) p 1 s0))
  | None, None =>
      (0, if any then s0 else pmm_log TRACE_EVT_MEM_ALLOC_FAIL 0 pref 1 s0)
  end.

Section PmmOps.
Context {W : Type} `{Trace W}.
Implicit Types s : pmm W.

Lemma pmm_log_wf ty j st x s : pmm_wf s -> pmm_wf (pmm_log ty j st x s).
Proof.
  intros Hw. split; try apply Hw. intros i Hi. destruct (pw_node s Hw i Hi). by split.
Qed.

Lemma lowest_free_log ty j st x s node :
  lowest_free (pmm_log ty j st x s) node = lowest_free s node.
Proof. done. Qed.

Lemma alloc_from_node_eq node s :
  pmm_wf s -> 0 <= node < 2 ->
  alloc_from_node node s
  = match lowest_free s node with
    | Some p => (pfn_to_addr p, taken node p 1 s)
    | None => (0, s)
    end.
Proof.
  intros Hw Hn. unfold alloc_from_node. rewrite (pw_count s Hw).
  rewrite (proj2 (Z.leb_gt _ _)) by lia.
  rewrite (nk_start s node (pw_node s Hw node Hn)), (nk_end s node (pw_node s Hw node Hn)).
  change (fun pfn => bitmap_test (page_bitmap s) pfn =? 0) with (page_free s).
  unfold lowest_free. destruct (find_range _ _ _) as [p|]; [|done].
  unfold taken. by rewrite bm_set_run_one.
Qed.

Lemma lowest_free_addr s node p :
  pmm_wf s -> 0 <= node < 2 -> lowest_free s node = Some p ->
  256 <= p < PMM_MAX_PAGES /\ pfn_to_addr p <> 0.
Proof.
  intros Hw Hn (Hp & _)%find_range_Some. pose proof (node_range_ok s node Hw Hn).
  pose proof (pw_highest s Hw). split; [lia|]. rewrite pfn_addr by lia. lia.
Qed.

Lemma try_other_eq s node :
  pmm_wf s -> 0 <= node < 2 ->
  try_other_nodes 2 0 node s
  = match lowest_free s (1 - node) with
    | Some p => Some (pfn_to_addr p, pmm_log TRACE_EVT_MEM_LOCALITY_MISS 0 node (1 - node)
                                       (taken (1 - node) p 1 s))
    | None => None
    end.
Proof.
  intros Hw Hn. assert (node = 0 \/ node = 1) as [-> | ->] by lia; cbn [try_other_nodes];
    change (0 + 1) with 1; change (1 - 0) with 1; change (1 - 1) with 0; cbn [Z.eqb Pos.eqb];
    rewrite alloc_from_node_eq by (done || lia);
    destruct (lowest_free s _) as [p|] eqn:E; try done;
    apply lowest_free_addr in E as [_ Hne]; try (done || lia);
    by rewrite (proj2 (Z.eqb_neq _ 0)).
Qed.

Lemma pmm_alloc_page_eq node s :
  pmm_wf s -> 0 <= node -> pmm_alloc_page node s = pmm_alloc_page_ref node s.
Proof.
  intros Hw Hn. unfold pmm_alloc_page, pmm_alloc_page_ref, NUMA_NODE_ANY.
  destruct (Z.eqb_spec node 0xFF) as [->|Hany]; cbn [orb].
  - change (255 <? 2) with false. cbv zeta iota. change (1 - 0) with 1.
    rewrite alloc_from_node_eq by (done || lia).
    destruct (lowest_free s 0) as [p|] eqn:E.
    + destruct (lowest_free_addr s 0 p Hw ltac:(lia) E) as [_ Hne].
      by rewrite (proj2 (Z.eqb_neq _ 0)).
    + cbn [Z.eqb negb]. rewrite alloc_from_node_eq by (done || lia).
      destruct (lowest_free s 1) as [p|] eqn:E1; [|done].
      destruct (lowest_free_addr s 1 p Hw ltac:(lia) E1) as [_ Hne].
      by rewrite (proj2 (Z.eqb_neq _ 0)).
  - rewrite (pw_count s Hw). set (pref := if node <? 2 then node else 0).
    set (s0 := if node <? 2 then s else _).
    assert (Heq : (if 2 <=? node then (0, pmm_log TRACE_EVT_MEM_NODE_UNSUPPORTED 0 0 node s)
                   else (node, s)) = (pref, s0)).
    { subst pref s0. destruct (Z.leb_spec 2 node), (Z.ltb_spec node 2); (done || lia). }
    assert (Hp : 0 <= pref < 2) by (subst pref; destruct (Z.ltb_spec node 2); lia).
    assert (Hw0 : pmm_wf s0) by (subst s0; destruct (node <? 2); [done|by apply pmm_log_wf]).
    assert (Hl : forall i, lowest_free s0 i = lowest_free s i)
      by (intros; subst s0; by destruct (node <? 2)).
    rewrite Heq. clearbody pref s0. clear Heq.
    rewrite alloc_from_node_eq, !Hl by done. destruct (lowest_free s pref) as [p|] eqn:E.
    + rewrite <- Hl in E. destruct (lowest_free_addr s0 pref p Hw0 Hp E) as [_ Hne].
      by rewrite (proj2 (Z.eqb_neq _ 0)).
    + cbn [Z.eqb negb]. rewrite (pw_count s0 Hw0).
      change (Z.to_nat 2) with 2%nat. rewrite try_other_eq, Hl by done.
      by destruct (lowest_free s (1 - pref)).
Qed.

Lemma free_pages_pos s p :
  pmm_wf s -> 0 <= p -> page_free s p = true -> 1 <= free_pages s <= PMM_MAX_PAGES.
Proof.
  intros Hw Hp Hf. pose proof (pw_out s Hw p Hp Hf). pose proof (pw_highest s Hw).
  rewrite (pw_free s Hw).
  pose proof (count_range_pos 256 (highest_page s + 1) (page_free s) p ltac:(lia) Hf) as Hc.
  change (count_range _ _ _) with (pages_free s 256 (highest_page s + 1)) in Hc. lia.
Qed.

(** Taking the lowest free page of a node, in a state that differs from the
    one searched by logged events only. *)
Lemma taken_lowest s s0 i p :
  pmm_wf s -> pmm_wf s0 ->
  page_bitmap s0 = page_bitmap s -> free_pages s0 = free_pages s ->
  highest_page s0 = highest_page s -> node_boundary_pfn s0 = node_boundary_pfn s ->
  0 <= i < 2 -> lowest_free s i = Some p ->
  pmm_wf (taken i p 1 s0) /\
  pfn_to_addr p = pfn_to_addr p /\ pfn_to_addr p <> 0 /\ 256 <= p <= highest_page s /\
  page_free s p = true /\ free_pages (taken i p 1 s0) = free_pages s - 1 /\
  forall q, page_free (taken i p 1 s0) q = page_free s q && negb (p =? q).
Proof.
  intros Hw Hw0 Hbm Hfp Hhp Hnb Hi Hl.
  pose proof (lowest_free_addr s i p Hw Hi Hl) as [_ Hne].
  apply find_range_Some in Hl as (Hr & Hf & _). pose proof (node_range_ok s i Hw Hi).
  assert (E : node_lo s0 i = node_lo s i /\ node_hi s0 i = node_hi s i)
    by (unfold node_lo, node_hi; by rewrite Hnb, Hhp). destruct E as [E1 E2].
  assert (Hpf : forall q, page_free s0 q = page_free s q)
    by (intros; unfold page_free; by rewrite Hbm).
  pose proof (free_pages_pos s p Hw ltac:(lia) Hf) as Hpos. unfold PMM_MAX_PAGES in Hpos.
  split_and!; try (done || lia).
  - apply taken_wf; try (done || lia). intros j Hj. rewrite Hpf. by replace j with p by lia.
  - cbn -[u32]. rewrite Hfp. apply u32_small. unfold is_u32. lia.
  - intros q. rewrite page_free_taken, Hpf by lia. f_equal. f_equal.
    destruct (Z.eqb_spec p q), (Z.leb_spec p q), (Z.ltb_spec q (p + 1)); cbn; lia.
Qed.

(** The page an allocation takes, if any, and the state it leaves, up to the
    recorder. *)
Lemma pmm_alloc_page_cases node s :
  pmm_wf s -> 0 <= node ->
  let '(addr, s') := pmm_alloc_page node s in
  pmm_wf s' /\ highest_page s' = highest_page s /\
  ((addr = 0 /\ page_bitmap s' = page_bitmap s /\ free_pages s' = free_pages s /\
    forall p, 0 <= p -> page_free s p = false) \/
   (exists p, addr = pfn_to_addr p /\ addr <> 0 /\ 256 <= p <= highest_page s /\
      page_free s p = true /\ free_pages s' = free_pages s - 1 /\
      forall q, page_free s' q = page_free s q && negb (p =? q))).
Proof.
  intros Hw Hn. rewrite pmm_alloc_page_eq by done. unfold pmm_alloc_page_ref.
  set (s0 := if _ || _ then s else _). set (pref := if node <? 2 then node else 0).
  assert (Hp : 0 <= pref < 2) by (subst pref; destruct (Z.ltb_spec node 2); lia).
  assert (Hw0 : pmm_wf s0) by (subst s0; case_match; [done|by apply pmm_log_wf]).
  assert (Hs0 : page_bitmap s0 = page_bitmap s /\ free_pages s0 = free_pages s /\
    highest_page s0 = highest_page s /\ node_boundary_pfn s0 = node_boundary_pfn s)
    by (subst s0; by case_match).
  destruct Hs0 as (Hbm & Hfp & Hhp & Hnb). clearbody s0 pref.
  destruct (lowest_free s pref) as [p|] eqn:E; [|destruct (lowest_free s (1 - pref)) as [p|] eqn:E1].
  - destruct (taken_lowest s s0 pref p) as (Hwt & Hrest); try (done || lia).
    split; [done|]. split; [exact Hhp|]. right. by exists p.
  - destruct (taken_lowest s s0 (1 - pref) p) as (Hwt & Hrest); try (done || lia).
    split; [by apply pmm_log_wf|]. split; [exact Hhp|]. right. by exists p.
  - assert (Hnone : forall p, 0 <= p -> page_free s p = false).
    { intros p Hp0. destruct (page_free s p) eqn:Hf; [|done].
      destruct (node_of_pfn s p Hw (pw_out s Hw p Hp0 Hf)) as (i & Hi & Hr).
      assert (i = pref \/ i = 1 - pref) as [-> | ->] by lia;
        [pose proof (find_range_None _ _ _ E p Hr)|pose proof (find_range_None _ _ _ E1 p Hr)];
        congruence. }
    destruct (node =? NUMA_NODE_ANY); (split; [by try apply pmm_log_wf|]);
      (split; [exact Hhp|]); left; (split; [done|]); (split; [exact Hbm|]); by split.
Qed.

(** Freeing an allocated page of a node. *)
Lemma pmm_free_page_eq s node p :
  pmm_wf s -> 0 <= node < 2 -> node_lo s node <= p < node_hi s node ->
  page_free s p = false -> pmm_free_page (pfn_to_addr p) s = given node p s.
Proof.
  intros Hw Hn Hp Hf. pose proof (node_range_ok s node Hw Hn). pose proof (pw_highest s Hw).
  unfold pmm_free_page. rewrite addr_pfn by lia.
  rewrite (proj2 (Z.ltb_ge _ _)) by lia.
  change (bitmap_test (page_bitmap s) p =? 0) with (page_free s p). rewrite Hf.
  cbv zeta. set (s1 := s{{ page_bitmap ::= _; free_pages ::= _ }}).
  assert (Ha : pmm_addr_to_node s1 (pfn_to_addr p) = pmm_addr_to_node s (pfn_to_addr p)) by done.
  rewrite Ha, (addr_to_node_spec s node) by done.
  assert (Hc : numa_node_count s1 = 2) by apply (pw_count s Hw).
  rewrite Hc, (proj2 (Z.ltb_lt _ _)) by lia.
  unfold given. by rewrite bm_clear_run_one.
Qed.
End PmmOps.

(** ** Runs of pages *)

(** [count] free pages from [p] on, inside [[lo, hi)]. *)
Definition run_at {W} (s : pmm W) (count lo hi p : Z) : Prop :=
  lo <= p /\ p + count <= hi /\ forall j, p <= j < p + count -> page_free s j = true.

(** The start of [pmm_alloc_pages] for a valid node and at least two pages: up
    to the search of the node's range. *)
Ltac alloc_pages_start s node count Hw Hn :=
  cbn [pmm_alloc_pages]; rewrite !(proj2 (Z.eqb_neq count _)) by lia;
  unfold NUMA_NODE_ANY; rewrite (proj2 (Z.eqb_neq node _)) by lia;
  rewrite (pw_count s Hw), (proj2 (Z.leb_gt _ _)) by lia; cbn [negb andb];
  rewrite !(proj2 (Z.eqb_neq node _)) by lia; cbn [negb andb];
  rewrite (nk_start s node (pw_node s Hw node Hn)), (nk_end s node (pw_node s Hw node Hn)).

Section PmmRuns.
Context {W : Type} `{Trace W}.
Implicit Types s : pmm W.

(** The search terminates and returns the lowest run, if there is one. *)
Lemma find_run_spec s count hi fuel lo :
  2 <= count < 0x40000000 -> 0 <= lo -> hi <= PMM_MAX_PAGES -> lo <= PMM_MAX_PAGES ->
  hi - lo < Z.of_nat fuel ->
  exists r, find_run fuel (page_bitmap s) lo count hi = Some r /\
  match r with
  | Some p => run_at s count lo hi p /\ forall q, q < p -> ~ run_at s count lo hi q
  | None => forall q, ~ run_at s count lo hi q
  end.
Proof.
  intros Hc. revert lo; induction fuel as [|fuel IH]; intros lo Hlo Hhi Hm Hfuel;
    cbn [find_run]; unfold PMM_MAX_PAGES in *; rewrite (u32_small (lo + count)) by (unfold is_u32; lia).
  - rewrite (proj2 (Z.leb_gt _ _)) by lia. exists None. split; [done|].
    intros q (? & ? & _). lia.
  - destruct (Z.leb_spec (lo + count) hi) as [Hle|Hgt].
    2:{ exists None. split; [done|]. intros q (? & ? & _). lia. }
    assert (Hidx : forall i, 0 <= i < count -> u32 (lo + i) = lo + i)
      by (intros; apply u32_small; unfold is_u32; lia).
    destruct (find_range 0 count _) as [i|] eqn:E.
    + apply find_range_Some in E as (Hi & Ht & Hmin). rewrite Hidx in * by done.
      rewrite (u32_small (lo + i + 1)) by (unfold is_u32; lia).
      destruct (IH (lo + i + 1)) as (r & -> & Hr); [lia|lia|lia|lia|].
      exists r. split; [done|]. apply negb_true_iff in Ht.
      change (bitmap_test (page_bitmap s) (lo + i) =? 0) with (page_free s (lo + i)) in Ht.
      assert (Hskip : forall q, run_at s count lo hi q -> lo + i + 1 <= q).
      { intros q (H1 & H2 & H3). destruct (Z.le_gt_cases (lo + i + 1) q); [done|].
        rewrite H3 in Ht by lia. done. }
      destruct r as [p|].
      * destruct Hr as [(H1 & H2 & H3) Hlow]. split; [split; [lia|done]|].
        intros q Hq Hrun. apply (Hlow q Hq). destruct (Hrun) as (? & ? & ?).
        split; [|done]. by apply Hskip.
      * intros q Hrun. apply (Hr q). destruct (Hrun) as (? & ? & ?). split; [|done]. by apply Hskip.
    + exists (Some lo). split; [done|]. split; [|intros q Hq (? & _); lia].
      split; [lia|]. split; [lia|]. intros j Hj.
      pose proof (find_range_None _ _ _ E (j - lo) ltac:(lia)) as Hf. cbn beta in Hf.
      rewrite Hidx in Hf by lia. replace (lo + (j - lo)) with j in Hf by lia.
      by apply negb_false_iff in Hf.
Qed.

Lemma take_run_eq s node p count :
  pmm_wf s -> 0 <= node < 2 -> 0 <= count -> node_lo s node <= p -> p + count <= node_hi s node ->
  take_run p count node s = (pfn_to_addr p, taken node p count s).
Proof.
  intros Hw Hn Hc Hlo Hhi. pose proof (node_range_ok s node Hw Hn). pose proof (pw_highest s Hw).
  unfold take_run, taken. unfold NUMA_NODE_ANY. rewrite (proj2 (Z.eqb_neq node _)) by lia.
  cbn -[upd_node u32 Z.sub for_range]. unfold PMM_MAX_PAGES in *.
  erewrite for_range_ext; [done|].
  intros j m Hj. cbn beta. rewrite u32_small by (unfold is_u32; lia). done.
Qed.

(** A run in the node asked for is found and taken, the lowest first. *)
Lemma alloc_pages_hit s node count fuel :
  pmm_wf s -> 0 <= node < 2 -> 2 <= count < 0x40000000 ->
  (exists q, run_at s count (node_lo s node) (node_hi s node) q) ->
  exists p, run_at s count (node_lo s node) (node_hi s node) p /\
    (forall q, q < p -> ~ run_at s count (node_lo s node) (node_hi s node) q) /\
    pmm_alloc_pages (S fuel) count node s = Some (pfn_to_addr p, taken node p count s).
Proof.
  intros Hw Hn Hc [q Hq]. pose proof (node_range_ok s node Hw Hn). pose proof (pw_highest s Hw).
  destruct (find_run_spec s count (node_hi s node)
    (find_run_fuel (node_lo s node) (node_hi s node)) (node_lo s node)) as (r & Hr & Hspec);
    [done|lia|lia|lia|unfold find_run_fuel; lia|].
  destruct r as [p|]; [|by destruct (Hspec q)].
  exists p. destruct Hspec as [Hrun Hlow]. split; [done|]. split; [done|].
  alloc_pages_start s node count Hw Hn. rewrite Hr. cbn [mbind option_bind]. destruct Hrun as (? & ? & _).
  by rewrite take_run_eq by (done || lia).
Qed.

Lemma alloc_pages_miss s node count fuel :
  pmm_wf s -> 0 <= node < 2 -> 2 <= count < 0x40000000 ->
  (forall q, ~ run_at s count (node_lo s node) (node_hi s node) q) ->
  pmm_alloc_pages (S fuel) count node s
  = '(addr, s') ← pmm_alloc_pages fuel count (1 - node) s;
    Some (if addr =? 0 then (0, pmm_log TRACE_EVT_MEM_ALLOC_FAIL 0 node count s')
          else (addr, pmm_log TRACE_EVT_MEM_LOCALITY_MISS 0 node (1 - node) s')).
Proof.
  intros Hw Hn Hc Hno. pose proof (node_range_ok s node Hw Hn). pose proof (pw_highest s Hw).
  destruct (find_run_spec s count (node_hi s node)
    (find_run_fuel (node_lo s node) (node_hi s node)) (node_lo s node)) as (r & Hr & Hspec);
    [done|lia|lia|lia|unfold find_run_fuel; lia|].
  destruct r as [p|]; [by destruct (Hno p); destruct Hspec|].
  alloc_pages_start s node count Hw Hn. rewrite Hr. rewrite (pw_count s Hw). change (Z.to_nat 2) with 2%nat.
  assert (node = 0 \/ node = 1) as [-> | ->] by lia;
    cbn [Z.eqb]; change (0 + 1) with 1; change (1 - 0) with 1; change (1 - 1) with 0; cbn [Z.eqb Pos.eqb];
    destruct (pmm_alloc_pages fuel count _ s) as [[addr s1]|]; try done; cbn [mbind option_bind];
    by destruct (addr =? 0).
Qed.

(** No run anywhere: the two nodes fall back on each other for ever. *)
Lemma alloc_pages_loops s count :
  pmm_wf s -> 2 <= count < 0x40000000 ->
  (forall node q, 0 <= node < 2 -> ~ run_at s count (node_lo s node) (node_hi s node) q) ->
  forall fuel node, 0 <= node < 2 -> pmm_alloc_pages fuel count node s = None.
Proof.
  intros Hw Hc Hno. induction fuel as [|fuel IH]; intros node Hn; [done|].
  rewrite alloc_pages_miss by (try done; intros q; by apply Hno). by rewrite IH by lia.
Qed.

(** The fallback takes the lowest run of the other node. *)
Lemma alloc_pages_other s node count fuel :
  pmm_wf s -> 0 <= node < 2 -> 2 <= count < 0x40000000 ->
  (forall q, ~ run_at s count (node_lo s node) (node_hi s node) q) ->
  (exists q, run_at s count (node_lo s (1 - node)) (node_hi s (1 - node)) q) ->
  exists p, run_at s count (node_lo s (1 - node)) (node_hi s (1 - node)) p /\
    (forall q, q < p -> ~ run_at s count (node_lo s (1 - node)) (node_hi s (1 - node)) q) /\
    pmm_alloc_pages (S (S fuel)) count node s
    = Some (pfn_to_addr p, pmm_log TRACE_EVT_MEM_LOCALITY_MISS 0 node (1 - node)
                             (taken (1 - node) p count s)).
Proof.
  intros Hw Hn Hc Hno Hq.
  destruct (alloc_pages_hit s (1 - node) count fuel Hw ltac:(lia) Hc Hq) as (p & Hrun & Hlow & E).
  exists p. split; [done|]. split; [done|]. rewrite alloc_pages_miss, E by done.
  cbn [mbind option_bind]. destruct Hrun as (H1 & H2 & _).
  pose proof (node_range_ok s (1 - node) Hw ltac:(lia)). pose proof (pw_highest s Hw).
  rewrite pfn_addr by lia. by rewrite (proj2 (Z.eqb_neq _ 0)) by lia.
Qed.
End PmmRuns.

(** ** Initialisation *)

Section PmmInit.
Context {W : Type} `{Trace W}.
Implicit Types s : pmm W.

(** What the loops of the initialisation keep besides the bitmap and counters. *)
Definition same_tables s s' : Prop :=
  mem_regions s' = mem_regions s /\ num_regions s' = num_regions s /\
  numa_nodes s' = numa_nodes s /\ pm_trace s' = pm_trace s.

Lemma init_pages_run s lo hi :
  0 <= lo < hi -> hi <= PMM_MAX_PAGES -> is_u32 (free_pages s) ->
  let s' := for_range lo hi init_page s in
  (forall p, page_free s' p = page_free s p || ((lo <=? p) && (p <? hi))) /\
  free_pages s' = u32 (free_pages s + (hi - lo)).
Proof.
  intros Hlo Hhi Hu. apply (for_range_ind (fun k s' =>
    (forall p, page_free s' p = page_free s p || ((lo <=? p) && (p <? k))) /\
    free_pages s' = u32 (free_pages s + (k - lo)))); [lia| |].
  - split; [|by rewrite Z.sub_diag, Z.add_0_r, u32_small].
    intros p. replace ((lo <=? p) && (p <? lo)) with false by lia. by rewrite orb_false_r.
  - intros j s' Hj [IHf IHc]. unfold init_page. split.
    + intros p. transitivity (page_free s' p || ((j =? p) && (j <? PMM_MAX_PAGES))).
      { destruct (_ <? j); exact (bm_free_clear 0 PMM_MAX_PAGES (page_bitmap s') j p). }
      rewrite IHf, <- orb_assoc. f_equal. bool_cases; cbn; lia.
    + transitivity (free_pages s' +u 1); [by destruct (_ <? j)|]. rewrite IHc. cint.
Qed.

Lemma init_pages_frame s lo hi :
  0 <= lo < hi -> hi <= PMM_MAX_PAGES ->
  let s' := for_range lo hi init_page s in
  same_tables s s' /\ highest_page s' = Z.max (highest_page s) (hi - 1).
Proof.
  intros Hlo Hhi s'.
  assert (Hx : same_tables s s' /\ highest_page s' = if lo <? hi
               then Z.max (highest_page s) (hi - 1) else highest_page s);
    [|by rewrite (proj2 (Z.ltb_lt lo hi)) in Hx by lia].
  apply (for_range_ind (fun k s' => same_tables s s' /\ highest_page s' =
    if lo <? k then Z.max (highest_page s) (k - 1) else highest_page s)); [lia| |].
  - rewrite Z.ltb_irrefl. by split.
  - intros j s1 Hj [(E1 & E2 & E3 & E4) IHh]. rewrite (proj2 (Z.ltb_lt lo (j + 1))) by lia.
    assert (Hp : same_tables s1 (init_page j s1) /\
                 highest_page (init_page j s1) = Z.max (highest_page s1) j).
    { unfold init_page. cbv zeta. change (highest_page s1{{ page_bitmap ::= _; free_pages ::= _ }})
        with (highest_page s1). destruct (Z.ltb_spec (highest_page s1) j); (split; [done|]);
        cbn; lia. }
    destruct Hp as [(F1 & F2 & F3 & F4) Hp]. split; [by split_and!; etransitivity|].
    rewrite Hp, IHh. destruct (Z.ltb_spec lo j); lia.
Qed.

Lemma reserve_pages s lo hi :
  0 <= lo -> 0 <= free_pages s < 0x100000000 ->
  free_pages s = pages_free s 0 PMM_MAX_PAGES ->
  let s' := for_range lo hi reserve_page s in
  (forall p, page_free s' p = page_free s p && negb ((lo <=? p) && (p <? hi))) /\
  free_pages s' = pages_free s' 0 PMM_MAX_PAGES /\ same_tables s s' /\
  highest_page s' = highest_page s.
Proof.
  intros Hlo Hu Hfp. destruct (Z.le_gt_cases lo hi) as [Hle|Hgt].
  2:{ rewrite for_range_empty by lia. split; [|by split_and!]. intros p.
      replace ((lo <=? p) && (p <? hi)) with false by lia. by rewrite andb_true_r. }
  apply (for_range_ind (fun k s' =>
    (forall p, page_free s' p = page_free s p && negb ((lo <=? p) && (p <? k))) /\
    free_pages s' = pages_free s' 0 PMM_MAX_PAGES /\ same_tables s s' /\
    highest_page s' = highest_page s)); [lia| |].
  - split; [|by split_and!]. intros p.
    replace ((lo <=? p) && (p <? lo)) with false by lia. by rewrite andb_true_r.
  - intros j s' Hj (IHf & IHc & (E1 & E2 & E3 & E4) & E5). unfold reserve_page.
    change (bitmap_test (page_bitmap s') j =? 0) with (page_free s' j).
    destruct (page_free s' j) eqn:Hfj.
    + split_and!; try done.
      * intros p. transitivity (page_free s' p && negb (j =? p));
          [exact (bm_free_set 0 PMM_MAX_PAGES (page_bitmap s') j p)|].
        rewrite IHf, <- andb_assoc. f_equal. bool_cases; cbn; lia.
      * assert (Hjm : j < PMM_MAX_PAGES).
        { destruct (Z.lt_ge_cases j PMM_MAX_PAGES); [done|].
          unfold page_free in Hfj. by rewrite bm_free_out in Hfj. }
        change (free_pages s' -u 1 = free_in 0 PMM_MAX_PAGES
          (bm_set 0 PMM_MAX_PAGES j (page_bitmap s')) 0 PMM_MAX_PAGES).
        rewrite <- bm_set_run_one.
        rewrite free_in_set_run; [|lia|lia|lia|].
        -- assert (Hfi := IHc). unfold pages_free in Hfi. rewrite <- Hfi.
           apply u32_small.
           assert (Hcp : 1 <= pages_free s' 0 PMM_MAX_PAGES <= PMM_MAX_PAGES - 0)
             by (apply (count_range_pos _ _ _ j); [lia|exact Hfj]).
           unfold is_u32, PMM_MAX_PAGES in *. lia.
        -- intros i Hi. by replace i with j by lia.
    + split_and!; try done. intros p. rewrite IHf.
      destruct (Z.eq_dec p j) as [->|Hne].
      * rewrite IHf in Hfj. replace ((lo <=? j) && (j <? j)) with false in Hfj by lia.
        rewrite andb_true_r in Hfj. by rewrite Hfj.
      * do 2 f_equal. bool_cases; cbn; lia.
Qed.
End PmmInit.

Section PmmBoot.
Context {W : Type} `{Trace W}.
Implicit Types s : pmm W.

Lemma filled_used m p :
  0 <= p ->
  bm_free 0 PMM_MAX_PAGES (for_range 0 BITMAP_SIZE (fun i m => stb m i 0xFF) m) p = false.
Proof.
  intros Hp. rewrite bm_free_bit. destruct (Z.ltb_spec p PMM_MAX_PAGES); [cbn [andb]|done].
  assert (Hb : forall a, 0 <= a < BITMAP_SIZE ->
    ldb (for_range 0 BITMAP_SIZE (fun i m => stb m i 0xFF) m) a = 0xFF).
  { apply (for_range_ind (fun k m' => forall a, 0 <= a < k -> ldb m' a = 0xFF)); [done|lia|].
    intros j m' Hj IH a Ha. rewrite ldb_stb. case_decide; [done|]. apply IH. lia. }
  unfold bm_bit. rewrite Hb.
  - change 0xFF with (Z.ones 8). rewrite Z.ones_spec_low; [done|]. apply Z.mod_pos_bound. lia.
  - unfold BITMAP_SIZE, PMM_MAX_PAGES in *. Z.div_mod_to_equations. lia.
Qed.

Lemma upd_node_same i f s :
  0 <= i < zlen (numa_nodes s) ->
  zget (numa_nodes (upd_node i f s)) i = f (zget (numa_nodes s) i).
Proof. intros. by apply zget_zset_eq. Qed.

Lemma upd_node_other i j f s :
  0 <= i -> 0 <= j -> i <> j -> zget (numa_nodes (upd_node i f s)) j = zget (numa_nodes s) j.
Proof. intros. by apply zget_zset_ne. Qed.

(** Counting the pages of the nodes. *)
Lemma count_pages_loop s k :
  zlen (numa_nodes s) = 2 -> 256 <= node_boundary_pfn s <= highest_page s + 1 ->
  highest_page s < PMM_MAX_PAGES -> 256 <= k <= highest_page s + 1 ->
  (forall i, 0 <= i < 2 -> n_free_pages (zget (numa_nodes s) i) = 0) ->
  let b := node_boundary_pfn s in
  let s' := for_range 256 k count_page s in
  s' = s{{ numa_nodes := numa_nodes s' }} /\ zlen (numa_nodes s') = 2 /\
  zget (numa_nodes s') 0
  = (zget (numa_nodes s) 0){{ n_free_pages := pages_free s 256 (Z.min k b) }} /\
  zget (numa_nodes s') 1
  = (zget (numa_nodes s) 1){{ n_free_pages := pages_free s b (Z.max k b) }}.
Proof.
  intros Hl Hb Hm Hk Hz b.
  apply (for_range_ind (fun k s' =>
    s' = s{{ numa_nodes := numa_nodes s' }} /\ zlen (numa_nodes s') = 2 /\
    zget (numa_nodes s') 0
    = (zget (numa_nodes s) 0){{ n_free_pages := pages_free s 256 (Z.min k b) }} /\
    zget (numa_nodes s') 1
    = (zget (numa_nodes s) 1){{ n_free_pages := pages_free s b (Z.max k b) }})); [lia| |].
  - unfold pages_free, free_in. rewrite !count_range_empty by lia.
    assert (Hz0 : forall i, 0 <= i < 2 ->
      zget (numa_nodes s) i = (zget (numa_nodes s) i){{ n_free_pages := 0 }}).
    { intros i Hi. pose proof (Hz i Hi) as E. destruct (zget (numa_nodes s) i). cbn in *. by subst. }
    split; [by destruct s|]. split; [done|]. split; apply Hz0; lia.
  - intros j s1 Hj (E & Hl1 & H0 & H1). unfold count_page.
    assert (Ebm : page_bitmap s1 = page_bitmap s) by by rewrite E.
    assert (Enb : node_boundary_pfn s1 = b) by by rewrite E. rewrite Ebm, Enb.
    change (bitmap_test (page_bitmap s) j =? 0) with (page_free s j).
    assert (Hc : forall lo, lo <= j -> pages_free s lo (j + 1) = pages_free s lo j + Z.b2z (page_free s j))
      by (intros; by apply count_range_snoc).
    assert (Hu : forall lo hi, 256 <= lo -> hi <= highest_page s + 1 -> u32 (pages_free s lo hi + 1) = pages_free s lo hi + 1).
    { intros lo hi Hlo Hhi. apply u32_small. unfold PMM_MAX_PAGES in *.
      pose proof (count_range_bounds lo hi (bm_free 0 PMM_MAX_PAGES (page_bitmap s))).
      unfold is_u32, pages_free, free_in. lia. }
    destruct (page_free s j) eqn:Hf; cbn [Z.b2z] in Hc.
    + destruct (Z.ltb_spec j b).
      * split; [by rewrite E|]. cbn -[zget zset Z.add u32]. rewrite zlen_zset. split; [done|].
        rewrite zget_zset_eq, zget_zset_ne, H0, H1 by lia. cbn -[Z.add u32].
        replace (Z.min (j + 1) b) with (j + 1) by lia. replace (Z.min j b) with j by lia.
        replace (Z.max (j + 1) b) with (Z.max j b) by lia. by rewrite Hu, Hc by lia.
      * split; [by rewrite E|]. cbn -[zget zset Z.add u32]. rewrite zlen_zset. split; [done|].
        rewrite zget_zset_eq, zget_zset_ne, H0, H1 by lia. cbn -[Z.add u32].
        replace (Z.max (j + 1) b) with (j + 1) by lia. replace (Z.max j b) with j by lia.
        replace (Z.min (j + 1) b) with (Z.min j b) by lia. by rewrite Hu, Hc by lia.
    + split; [done|]. split; [done|]. rewrite H0, H1. split; do 2 f_equal.
      * destruct (Z.lt_ge_cases j b); [|do 2 f_equal; lia].
        replace (Z.min (j + 1) b) with (j + 1) by lia. replace (Z.min j b) with j by lia.
        rewrite Hc by lia. by rewrite Z.add_0_r.
      * destruct (Z.lt_ge_cases j b); [do 2 f_equal; lia|].
        replace (Z.max (j + 1) b) with (j + 1) by lia. replace (Z.max j b) with j by lia.
        rewrite Hc by lia. by rewrite Z.add_0_r.
Qed.

(** Splitting the memory in nodes establishes the invariant. *)
Lemma setup_numa_wf s :
  zlen (numa_nodes s) = 2 -> 255 <= highest_page s < PMM_MAX_PAGES ->
  free_pages s = pages_free s 256 (highest_page s + 1) ->
  (forall p, 0 <= p -> page_free s p = true -> 256 <= p <= highest_page s) ->
  let s' := setup_numa_nodes s in
  pmm_wf s' /\ page_bitmap s' = page_bitmap s /\ highest_page s' = highest_page s /\
  node_boundary_pfn s' = 256 +u ((highest_page s -u 256 +u 1) / 2).
Proof.
  intros Hl Hh Hf Hout. unfold setup_numa_nodes, PMM_MAX_PAGES in *. cbv zeta.
  set (b := 256 +u _).
  assert (Hb : 256 <= b <= highest_page s + 1)
    by (subst b; unfold u32; Z.div_mod_to_equations; lia).
  set (s1 := (upd_node 1 _ _){{ numa_node_count := 2 }}).
  assert (Hs1 : node_boundary_pfn s1 = b /\ highest_page s1 = highest_page s /\
    page_bitmap s1 = page_bitmap s /\ free_pages s1 = free_pages s /\ numa_node_count s1 = 2)
    by done. destruct Hs1 as (B1 & B2 & B3 & B4 & B5).
  assert (Hl1 : zlen (numa_nodes s1) = 2) by (cbn -[zset]; by rewrite !zlen_zset).
  assert (N0 : zget (numa_nodes s1) 0 = NumaNode 0 (pfn_to_addr 256) 256 b (b -u 256) 0 0).
  { cbn -[zget zset u32 Z.sub]. rewrite zget_zset_ne by lia. by rewrite zget_zset_eq by lia. }
  assert (N1 : zget (numa_nodes s1) 1 = NumaNode 1 (pfn_to_addr b) b (highest_page s +u 1)
                                          (highest_page s +u 1 -u b) 0 0).
  { cbn -[zget zset u32 Z.sub]. by rewrite zget_zset_eq by (rewrite zlen_zset; lia). }
  destruct (count_pages_loop s1 (highest_page s1 + 1)) as (E & Hl2 & F0 & F1).
  { done. } { lia. } { unfold PMM_MAX_PAGES. lia. } { lia. }
  { intros i Hi. assert (i = 0 \/ i = 1) as [-> | ->] by lia; by rewrite ?N0, ?N1. }
  rewrite B2 in *. set (s2 := for_range 256 _ _ s1) in *. clearbody s2.
  assert (C : page_bitmap s2 = page_bitmap s /\ highest_page s2 = highest_page s /\
    node_boundary_pfn s2 = b /\ free_pages s2 = free_pages s /\ numa_node_count s2 = 2)
    by (rewrite E; cbn; by rewrite <- B1). destruct C as (C1 & C2 & C3 & C4 & C5).
  rewrite B1 in *. replace (Z.min _ b) with b in F0 by lia.
  replace (Z.max _ b) with (highest_page s + 1) in F1 by lia.
  assert (Hpf : forall lo hi, pages_free s1 lo hi = pages_free s lo hi)
    by (intros; unfold pages_free; by rewrite B3).
  rewrite N0, Hpf in F0. rewrite N1, Hpf in F1. clearbody s1. clear E N0 N1.
  assert (Bd0 := pages_free_bounds s 256 b ltac:(lia)).
  assert (Bd1 := pages_free_bounds s b (highest_page s + 1) ltac:(lia)).
  set (s3 := upd_node 1 _ _).
  assert (U0 : zget (numa_nodes s3) 0 = node_used (zget (numa_nodes s2) 0))
    by (subst s3; by rewrite upd_node_other, upd_node_same by (cbn -[zset]; rewrite ?zlen_zset; lia)).
  assert (U1 : zget (numa_nodes s3) 1 = node_used (zget (numa_nodes s2) 1))
    by (subst s3; by rewrite upd_node_same, upd_node_other by (cbn -[zset]; rewrite ?zlen_zset; lia)).
  assert (Hl3 : zlen (numa_nodes s3) = 2) by (cbn -[zset zget]; by rewrite !zlen_zset).
  assert (D : page_bitmap s3 = page_bitmap s /\ highest_page s3 = highest_page s /\
    node_boundary_pfn s3 = b /\ free_pages s3 = free_pages s /\ numa_node_count s3 = 2)
    by done. destruct D as (D1 & D2 & D3 & D4 & D5). rewrite F0 in U0. rewrite F1 in U1.
  clearbody s3. cbn -[u32 Z.add Z.sub] in U0, U1. split; [|done].
  assert (Hn : forall lo hi, pages_free s3 lo hi = pages_free s lo hi)
    by (intros; unfold pages_free; by rewrite D1).
  split; rewrite ?D2, ?D3, ?D4, ?D5; unfold PMM_MAX_PAGES; try (done || lia).
  - intros i Hi. assert (i = 0 \/ i = 1) as [-> | ->] by lia; split;
      unfold node_lo, node_hi; cbn [Z.eqb]; rewrite ?D2, ?D3, ?Hn, ?U0, ?U1;
      cbn -[u32 Z.add Z.sub]; try done; cint.
  - by rewrite Hn.
  - intros p Hp. unfold page_free. rewrite D1. by apply Hout.
Qed.
End PmmBoot.

Section PmmStart.
Context {W : Type} `{Trace W}.
Implicit Types s : pmm W.

(** The walk of the boot loader's map ends within its fuel. *)
Lemma mmap_loop_total boot end_ fuel entry s :
  mem_ok boot -> end_ - entry <= 4 * Z.of_nat fuel ->
  exists s', mmap_loop fuel boot entry end_ s = Some s'.
Proof.
  intros Hm. revert entry s; induction fuel as [|fuel IH]; intros entry s Hf; cbn [mmap_loop].
  - rewrite (proj2 (Z.ltb_ge _ _)) by lia. eauto.
  - destruct (_ && _) eqn:E; [|eauto]. apply IH.
    pose proof (ld_range 4 boot entry Hm) as Hr. lia.
Qed.

Lemma parse_mmap_total boot mboot s :
  mem_ok boot -> exists s', parse_mmap boot mboot s = Some s'.
Proof.
  intros Hm.     unfold parse_mmap. destruct (_ =? 0); [destruct (_ =? 0); eauto|].
  apply mmap_loop_total; [done|]. unfold mmap_fuel. Z.div_mod_to_equations. lia.
Qed.

(** The first and the last page frame (exclusive) of a physical range. *)
Definition first_pfn (base : Z) : Z := addr_to_pfn (page_align_down base).
Definition past_pfn (base length : Z) : Z := addr_to_pfn (page_align_up (base +u length)).

Lemma first_pfn_nonneg base : 0 <= base -> 0 <= first_pfn base.
Proof.
  intros. unfold first_pfn, addr_to_pfn, page_align_down. apply Z.shiftr_nonneg.
  apply Z.land_nonneg. lia.
Qed.

Lemma reserve_range_spec base length s :
  0 <= base -> 0 <= free_pages s < 0x100000000 ->
  free_pages s = pages_free s 0 PMM_MAX_PAGES ->
  let s' := pmm_reserve_range base length s in
  (forall p, p < PMM_MAX_PAGES -> page_free s' p
     = page_free s p && negb ((first_pfn base <=? p) && (p <? past_pfn base length))) /\
  free_pages s' = pages_free s' 0 PMM_MAX_PAGES /\ same_tables s s' /\
  highest_page s' = highest_page s.
Proof.
  intros Hb Hu Hf. unfold pmm_reserve_range. fold (first_pfn base) (past_pfn base length).
  destruct (reserve_pages s (first_pfn base)
    (if PMM_MAX_PAGES <? past_pfn base length then PMM_MAX_PAGES else past_pfn base length))
    as (R1 & R2); [by apply first_pfn_nonneg|done|done|].
  split; [|exact R2]. intros p Hp. rewrite R1. do 2 f_equal.
  destruct (Z.ltb_spec PMM_MAX_PAGES (past_pfn base length)); [|done].
  by rewrite !(proj2 (Z.ltb_lt p _)) by lia.
Qed.

(** A region of the table, seen as page frames. *)
Lemma init_region_frames r lo hi s :
  mr_type r = MEM_REGION_AVAILABLE ->
  addr_to_pfn (page_align_up (mr_base r)) = lo ->
  addr_to_pfn (page_align_down (mr_base r +u mr_length r)) = hi ->
  page_align_up (mr_base r) < page_align_down (mr_base r +u mr_length r) ->
  hi <= PMM_MAX_PAGES ->
  init_region r s = for_range lo hi init_page s.
Proof.
  intros Ht <- <- Hlt Hhi. unfold init_region. rewrite Ht. cbn [negb Z.eqb].
  rewrite (proj2 (Z.leb_gt _ _)) by done. by rewrite (proj2 (Z.ltb_ge _ _)) by done.
Qed.

(** With no boot information: 640 KB at 0 and 127 MB at 1 MB. *)
Definition default_regions (s : pmm W) : pmm W :=
  (set_region 1 (MemRegion 0x100000 (128 * 1024 * 1024 - 0x100000) MEM_REGION_AVAILABLE)
     (set_region 0 (MemRegion 0 (640 * 1024) MEM_REGION_AVAILABLE) s)){{ num_regions := 2 }}.

Lemma init_bitmap_default (w : W) :
  let s' := init_bitmap (default_regions (pmm_bss w)) in
  (forall p, 0 <= p -> page_free s' p = (p <? 160) || ((256 <=? p) && (p <? 32768))) /\
  free_pages s' = 32672 /\ highest_page s' = 32767 /\ zlen (numa_nodes s') = 2.
Proof.
  cbv zeta. unfold init_bitmap. cbv zeta.
  set (s1 := (default_regions (pmm_bss w)){{ page_bitmap ::= _ }}).
  assert (F : num_regions s1 = 2 /\ free_pages s1 = 0 /\ highest_page s1 = 0 /\
    zlen (numa_nodes s1) = 2 /\
    zget (mem_regions s1) 0 = MemRegion 0 (640 * 1024) MEM_REGION_AVAILABLE /\
    zget (mem_regions s1) 1
    = MemRegion 0x100000 (128 * 1024 * 1024 - 0x100000) MEM_REGION_AVAILABLE) by done.
  assert (Hused : forall p, 0 <= p -> page_free s1 p = false) by (intros; by apply filled_used).
  revert F Hused. generalize s1. clear s1. intros s1 (F1 & F2 & F3 & F4 & F5 & F6) Hused. rewrite F1.
  assert (Htwo : forall body, for_range 0 2 body s1 = body 1 (body 0 s1)) by (intros; reflexivity).
  rewrite Htwo, F5.
  rewrite (init_region_frames (MemRegion 0 (640 * 1024) MEM_REGION_AVAILABLE) 0 160) by (vm_compute; congruence).
  destruct (init_pages_run s1 0 160) as (P1 & C1); [lia|done|rewrite F2; done|].
  destruct (init_pages_frame s1 0 160) as ((T1 & T2 & T3 & T4) & H1); [lia|done|].
  forget (for_range 0 160 init_page s1) as s2. rewrite T1, F6.
  rewrite (init_region_frames _ 256 32768) by (vm_compute; congruence).
  rewrite F2 in C1. rewrite F3 in H1. change (u32 _) with 160 in C1. change (Z.max _ _) with 159 in H1.
  destruct (init_pages_run s2 256 32768) as (P2 & C2); [lia|done|rewrite C1; done|].
  destruct (init_pages_frame s2 256 32768) as ((_ & _ & T3' & _) & H2); [lia|done|].
  forget (for_range 256 32768 init_page s2) as s3.
  rewrite C1 in C2. rewrite H1 in H2. split; [|split; [exact C2|split; [exact H2|]]].
  - intros p Hp. transitivity (page_free s3 p); [done|]. rewrite P2, P1, Hused by done.
    by rewrite (proj2 (Z.leb_le 0 p)).
  - change (zlen (numa_nodes s3) = 2). by rewrite T3', T3.
Qed.

Lemma default_count s :
  (forall p, 0 <= p -> page_free s p = (p <? 160) || ((256 <=? p) && (p <? 32768))) ->
  pages_free s 0 PMM_MAX_PAGES = 32672.
Proof.
  intros Hf. unfold page_free in Hf. unfold pages_free, free_in.
  assert (HM : PMM_MAX_PAGES = 65536) by done.
  rewrite (count_range_split 0 160), (count_range_split 160 256), (count_range_split 256 32768) by lia.
  rewrite (count_range_all 0 160), (count_range_none 160 256), (count_range_all 256 32768),
    (count_range_none 32768); try lia; intros j Hj; rewrite Hf by lia; bool_cases; cbn; (done || lia).
Qed.

Lemma pmm_log_frame ty job step ex s :
  page_bitmap (pmm_log ty job step ex s) = page_bitmap s /\
  highest_page (pmm_log ty job step ex s) = highest_page s /\
  node_boundary_pfn (pmm_log ty job step ex s) = node_boundary_pfn s.
Proof. done. Qed.

Lemma page_free_ext s s' p : page_bitmap s = page_bitmap s' -> page_free s p = page_free s' p.
Proof. intros E. unfold page_free. by rewrite E. Qed.

Lemma pmm_init_none boot kernel_start kernel_end s :
  pmm_init boot kernel_start kernel_end None s
  = Some (let s := setup_numa_nodes (reserve_kernel kernel_start kernel_end
                     (init_bitmap (default_regions s))) in
          pmm_log TRACE_EVT_BOOT 0 0 (free_pages s) s).
Proof. reflexivity. Qed.

(** The allocator after [pmm_init(NULL)]. *)
Lemma pmm_init_default boot kernel_start kernel_end w :
  0 <= kernel_start ->
  exists s', pmm_init boot kernel_start kernel_end None (pmm_bss w) = Some s' /\
    pmm_wf s' /\ highest_page s' = 32767 /\ node_boundary_pfn s' = 16512 /\
    (forall p, 0 <= p -> page_free s' p = (256 <=? p) && (p <? 32768)
       && negb ((first_pfn kernel_start <=? p)
                && (p <? past_pfn kernel_start (kernel_end -u kernel_start)))).
Proof.
  intros Hk. rewrite pmm_init_none.
  destruct (init_bitmap_default w) as (P & C & Hh & Hl).
  forget (init_bitmap (default_regions (pmm_bss w))) as s1.
  assert (HM : PMM_MAX_PAGES = 65536) by done.
  assert (C' : free_pages s1 = pages_free s1 0 PMM_MAX_PAGES)
    by (by rewrite C, default_count).
  unfold reserve_kernel.
  destruct (reserve_range_spec 0 0x100000 s1) as (P2 & C2 & (_ & _ & T2 & _) & H2); [lia|lia|done|].
  forget (pmm_reserve_range 0 0x100000 s1) as s2.
  change (first_pfn 0) with 0 in P2. change (past_pfn 0 0x100000) with 256 in P2.
  assert (U2 : 0 <= free_pages s2 < 0x100000000).
  { rewrite C2. pose proof (pages_free_bounds s2 0 PMM_MAX_PAGES). lia. }
  destruct (reserve_range_spec kernel_start (kernel_end -u kernel_start) s2)
    as (P3 & C3 & (_ & _ & T3 & _) & H3); [done|done|done|].
  forget (pmm_reserve_range kernel_start (kernel_end -u kernel_start) s2) as s3.
  assert (Pf : forall p, 0 <= p -> page_free s3 p = (256 <=? p) && (p <? 32768)
     && negb ((first_pfn kernel_start <=? p)
              && (p <? past_pfn kernel_start (kernel_end -u kernel_start)))).
  { intros p Hp. destruct (Z.lt_ge_cases p PMM_MAX_PAGES) as [Hlt|Hge].
    - rewrite P3, P2, P by done. f_equal. bool_cases; cbn; lia.
    - unfold page_free. rewrite bm_free_out by done. by rewrite (proj2 (Z.ltb_ge p 32768)), andb_false_r by lia. }
  assert (Hout : forall p, 0 <= p -> page_free s3 p = true -> 256 <= p <= highest_page s3).
  { intros p Hp Hf. rewrite Pf in Hf by done. bool_hyps. rewrite H3, H2, Hh. lia. }
  destruct (setup_numa_wf s3) as (Hw & Hb & Hhp & Hnb).
  - by rewrite T3, T2.
  - rewrite H3, H2, Hh. lia.
  - rewrite C3, H3, H2, Hh. unfold pages_free, free_in.
    rewrite (count_range_split 0 256), (count_range_split 256 (32767 + 1) PMM_MAX_PAGES) by lia.
    rewrite (count_range_none 0 256), (count_range_none (32767 + 1)); [lia| |];
      intros j Hj; change (bm_free _ _ _ j) with (page_free s3 j);
      rewrite Pf by lia; bool_cases; cbn; (done || lia).
  - done.
  - eexists. split; [reflexivity|]. split; [by apply pmm_log_wf|].
    cbv zeta. destruct (pmm_log_frame TRACE_EVT_BOOT 0 0 (free_pages (setup_numa_nodes s3))
                         (setup_numa_nodes s3)) as (L1 & L2 & L3).
    rewrite L2, L3. split; [by rewrite Hhp, H3, H2|].
    split; [rewrite Hnb, H3, H2, Hh; reflexivity|].
    intros p Hp. rewrite <- Pf by done. apply page_free_ext. by rewrite L1, Hb.
Qed.
End PmmStart.

(** ** Clients of the allocator

    A client that frees only pages it holds.  The second component of the state
    is the set of page frames handed out and not yet given back. *)

Inductive pmm_step {W} `{Trace W} : pmm W * gset Z -> pmm W * gset Z -> Prop :=
  | step_alloc s own node addr s' :
      0 <= node ->
      pmm_alloc_page node s = (addr, s') ->
      pmm_step (s, own)
        (s', if addr =? 0 then own else {[ addr_to_pfn addr ]} ∪ own)
  | step_free s own p :
      p ∈ own -> pmm_step (s, own) (pmm_free_page (pfn_to_addr p) s, own ∖ {[ p ]}).

Record client_ok {W} (s : pmm W) (own : gset Z) : Prop := {
  co_wf : pmm_wf s;
  co_used : forall p, p ∈ own -> 256 <= p <= highest_page s /\ page_free s p = false
}.

Section PmmClients.
Context {W : Type} `{Trace W}.
Implicit Types s : pmm W.

Lemma alloc_addr_pfn node s addr s' :
  pmm_wf s -> 0 <= node -> pmm_alloc_page node s = (addr, s') -> addr <> 0 ->
  256 <= addr_to_pfn addr <= highest_page s /\ page_free s (addr_to_pfn addr) = true /\
  addr = pfn_to_addr (addr_to_pfn addr).
Proof.
  intros Hw Hn E Ha. pose proof (pmm_alloc_page_cases node s Hw Hn) as Hc. rewrite E in Hc.
  pose proof (pw_highest s Hw).
  destruct Hc as (_ & _ & [(? & _)|(p & -> & _ & Hp & Hf & _)]); [done|].
  by rewrite addr_pfn by lia.
Qed.

Lemma pmm_step_ok s own s' own' :
  client_ok s own -> pmm_step (s, own) (s', own') ->
  client_ok s' own' /\ highest_page s' = highest_page s /\
  free_pages s' + Z.of_nat (size own') = free_pages s + Z.of_nat (size own).
Proof.
  intros [Hw Hu] Hs. inversion Hs as [s1 o1 node addr s2 Hn E Es Eo|s1 o1 p Hp Es Eo]; subst; clear Hs.
  - pose proof (pmm_alloc_page_cases node s Hw Hn) as Hc. rewrite E in Hc.
    pose proof (pw_highest s Hw).
    destruct Hc as (Hw' & Hh & [(-> & Hb & Hf & _)|(p & -> & Ha & Hp & Hf & Hc & Hq)]).
    + cbn [Z.eqb]. split; [|by rewrite Hf]. split; [done|]. intros q Hq.
      rewrite Hh, (page_free_ext s' s) by done. by apply Hu.
    + rewrite (proj2 (Z.eqb_neq _ 0)), addr_pfn by (done || lia).
      assert (Hnew : p ∉ own) by (intros Hin; destruct (Hu p Hin); congruence).
      split; [|split; [done|]].
      * split; [done|]. intros q Hin. rewrite Hh, Hq. apply elem_of_union in Hin as [Hin|Hin].
        -- apply elem_of_singleton in Hin as ->. split; [done|]. by rewrite Z.eqb_refl, andb_false_r.
        -- destruct (Hu q Hin) as [? Hfq]. by rewrite Hfq.
      * rewrite size_union, size_singleton by set_solver. lia.
  - destruct (Hu p Hp) as [Hr Hf]. destruct (node_of_pfn s p Hw Hr) as (i & Hi & Hpi).
    rewrite (pmm_free_page_eq s i p) by done. pose proof (pw_highest s Hw).
    split; [|split; [done|]].
    + split; [by apply given_wf|]. intros q [Hq Hne]%elem_of_difference.
      destruct (Hu q Hq) as [? Hfq]. split; [done|]. rewrite page_free_given by lia.
      rewrite Hfq. apply Z.eqb_neq. set_solver.
    + rewrite size_difference, size_singleton by set_solver.
      assert (size own <> 0%nat) by (intros E%size_empty_inv; set_solver).
      assert (Hfp : free_pages (given i p s) = free_pages s + 1); [|lia].
      change (free_pages s +u 1 = free_pages s + 1). apply u32_small.
      rewrite (pw_free s Hw). pose proof (pages_free_bounds s 256 (highest_page s + 1)).
      unfold is_u32, PMM_MAX_PAGES in *. lia.
Qed.

(** The pages that are free or held never change. *)
Definition managed s (own : gset Z) (p : Z) : bool := page_free s p || bool_decide (p ∈ own).

Lemma pmm_step_managed s own s' own' p :
  client_ok s own -> pmm_step (s, own) (s', own') -> 0 <= p ->
  managed s' own' p = managed s own p.
Proof.
  intros [Hw Hu] Hs Hp0. unfold managed.
  inversion Hs as [s1 o1 node addr s2 Hn E Es Eo|s1 o1 q Hq Es Eo]; subst; clear Hs.
  - pose proof (pmm_alloc_page_cases node s Hw Hn) as Hc. rewrite E in Hc.
    pose proof (pw_highest s Hw).
    destruct Hc as (_ & _ & [(-> & Hb & _)|(q & -> & Ha & Hq & Hf & _ & Hfq)]).
    + by rewrite (page_free_ext s' s).
    + rewrite (proj2 (Z.eqb_neq _ 0)), addr_pfn, Hfq by (done || lia).
      destruct (Z.eqb_spec q p) as [<-|Hne].
      * rewrite Hf, bool_decide_eq_true_2 by set_solver. done.
      * rewrite andb_true_r. f_equal. apply bool_decide_ext. set_solver.
  - destruct (Hu q Hq) as [Hr Hf]. destruct (node_of_pfn s q Hw Hr) as (i & Hi & Hpi).
    rewrite (pmm_free_page_eq s i q) by done. pose proof (pw_highest s Hw).
    rewrite page_free_given by lia. destruct (Z.eqb_spec q p) as [<-|Hne].
    + rewrite Hf, (bool_decide_eq_true_2 (q ∈ own)) by done. done.
    + rewrite orb_false_r. f_equal. apply bool_decide_ext. set_solver.
Qed.

Lemma pmm_run_ok s own s' own' :
  client_ok s own -> rtc pmm_step (s, own) (s', own') ->
  client_ok s' own' /\ highest_page s' = highest_page s /\
  free_pages s' + Z.of_nat (size own') = free_pages s + Z.of_nat (size own) /\
  forall p, 0 <= p -> managed s' own' p = managed s own p.
Proof.
  intros Hok Hrun. remember (s, own) as x eqn:Ex. remember (s', own') as y eqn:Ey.
  revert s own Ex Hok. induction Hrun as [x|x [s1 o1] y Hstep _ IH]; intros s own -> Hok.
  - injection Ey as -> ->. done.
  - destruct (pmm_step_ok _ _ _ _ Hok Hstep) as (Hok1 & Hh & Hc).
    destruct (IH Ey s1 o1 eq_refl Hok1) as (? & Hh' & Hc' & Hm). split; [done|].
    split; [lia|]. split; [lia|]. intros p Hp. rewrite Hm by done. by eapply pmm_step_managed.
Qed.

(** Allocating a page and giving it back restores the allocator. *)
Lemma alloc_free_restore node s addr s' :
  pmm_wf s -> 0 <= node -> pmm_alloc_page node s = (addr, s') -> addr <> 0 ->
  let s2 := pmm_free_page addr s' in
  pmm_wf s2 /\ free_pages s2 = free_pages s /\ forall p, page_free s2 p = page_free s p.
Proof.
  intros Hw Hn E Ha. pose proof (pmm_alloc_page_cases node s Hw Hn) as Hc. rewrite E in Hc.
  pose proof (pw_highest s Hw).
  destruct Hc as (Hw' & Hh & [(-> & _)|(p & -> & _ & Hp & Hf & Hc & Hq)]); [done|].
  assert (Hused : page_free s' p = false) by (by rewrite Hq, Z.eqb_refl, andb_false_r).
  assert (Hp' : 256 <= p <= highest_page s') by lia.
  destruct (node_of_pfn s' p Hw' Hp') as (i & Hi & Hpi).
  cbv zeta. rewrite (pmm_free_page_eq s' i p) by done.
  split; [by apply given_wf|]. split.
  - change (free_pages s' +u 1 = free_pages s). rewrite Hc.
    pose proof (free_pages_pos s p Hw ltac:(lia) Hf). unfold PMM_MAX_PAGES in *.
    rewrite u32_small; [lia|]. unfold is_u32. lia.
  - intros q. rewrite page_free_given, Hq by lia.
    destruct (Z.eqb_spec p q) as [<-|]; [by rewrite Hf|]. by rewrite andb_true_r, orb_false_r.
Qed.
End PmmClients.

(** ** Properties *)

(** C2: an allocated page is never handed out again before it is freed.  From
    any allocator that satisfies the invariant, after any sequence of
    allocations and of frees of held pages: the invariant holds, the free count
    and the pages held add up to the initial free count, the pages that are free
    or held are exactly those that were free at the start, no held page is
    marked free, and the next page allocated is not one of them and was free at
    the start. *)
Theorem pmm_client_safety {W} `{Trace W} (s0 s : pmm W) (own : gset Z) :
  pmm_wf s0 -> rtc pmm_step (s0, ∅) (s, own) ->
  pmm_wf s /\ free_pages s + Z.of_nat (size own) = free_pages s0 /\
  (forall p, 0 <= p -> page_free s0 p = page_free s p || bool_decide (p ∈ own)) /\
  (forall p, p ∈ own -> page_free s p = false) /\
  (forall node addr s', 0 <= node -> pmm_alloc_page node s = (addr, s') -> addr <> 0 ->
     addr_to_pfn addr ∉ own /\ page_free s0 (addr_to_pfn addr) = true).
Proof.
  intros Hw Hrun. assert (Hok : client_ok s0 ∅) by (split; [done|set_solver]).
  destruct (pmm_run_ok _ _ _ _ Hok Hrun) as ([Hw' Hu] & Hh & Hc & Hm).
  assert (Hm0 : forall p, 0 <= p -> page_free s0 p = managed s own p).
  { intros p Hp. rewrite Hm by done. unfold managed.
    by rewrite bool_decide_eq_false_2, orb_false_r by set_solver. }
  split; [done|]. split; [rewrite Hc, size_empty; lia|]. split; [done|].
  split; [intros p Hp; by apply Hu|]. intros node addr s' Hn E Ha.
  destruct (alloc_addr_pfn node s addr s' Hw' Hn E Ha) as (Hr & Hf & _). split.
  - intros Hin. destruct (Hu _ Hin). congruence.
  - rewrite Hm0 by lia. unfold managed. by rewrite Hf.
Qed.

(** The allocator the examples run on: 128 MB, the kernel at 1 MB to 2 MB. *)
Lemma demo_pmm :
  exists s : pmm (list trace_rec),
    pmm_init ∅ 0x100000 0x200000 None (pmm_bss []) = Some s /\ pmm_wf s /\
    highest_page s = 32767 /\ page_free s 512 = true.
Proof.
  destruct (pmm_init_default (W := list trace_rec) ∅ 0x100000 0x200000 [] ltac:(done))
    as (s & E & Hw & Hh & _ & Hf).
  exists s. split; [exact E|]. split; [exact Hw|]. split; [exact Hh|].
  rewrite Hf by done. vm_compute. reflexivity.
Qed.

Lemma pmm_client_safety_witness :
  exists (s0 s : pmm (list trace_rec)) (own : gset Z),
    rtc pmm_step (s0, ∅) (s, own) /\ free_pages s + Z.of_nat (size own) = free_pages s0.
Proof.
  destruct demo_pmm as (s0 & _ & Hw & _).
  destruct (pmm_alloc_page 0 s0) as [addr s1] eqn:E.
  exists s0, s1, (if addr =? 0 then ∅ else {[ addr_to_pfn addr ]} ∪ ∅).
  assert (Hrun : rtc pmm_step (s0, ∅) (s1, if addr =? 0 then ∅ else {[ addr_to_pfn addr ]} ∪ ∅))
    by (apply rtc_once; by apply (step_alloc s0 ∅ 0)).
  split; [exact Hrun|]. apply (pmm_client_safety s0 s1 _ Hw Hrun).
Defined.

(** C3: [pmm_alloc_page] is its specification: the lowest free page of the
    preferred node, then the lowest free page of the other node with a
    locality-miss event, then failure with an event; unsupported nodes are
    logged and served as node 0, [NUMA_NODE_ANY] prefers node 0 and logs no
    failure.  Every counter and every other bit of the bitmap is as the
    specification says. *)
Theorem pmm_alloc_page_refines {W} `{Trace W} (node : Z) (s : pmm W) :
  pmm_wf s -> 0 <= node -> pmm_alloc_page node s = pmm_alloc_page_ref node s.
Proof. apply pmm_alloc_page_eq. Qed.

Lemma pmm_alloc_page_refines_witness :
  exists s : pmm (list trace_rec), pmm_wf s /\ pmm_alloc_page 7 s = pmm_alloc_page_ref 7 s.
Proof.
  destruct demo_pmm as (s & _ & Hw & _). exists s. split; [exact Hw|].
  apply (pmm_alloc_page_refines 7 s Hw). lia.
Defined.

(** Freeing a page just allocated restores the allocator: the invariant,
    the free count and every bit of the bitmap. *)
Theorem pmm_alloc_free_roundtrip {W} `{Trace W} (node : Z) (s : pmm W) addr s' :
  pmm_wf s -> 0 <= node -> pmm_alloc_page node s = (addr, s') -> addr <> 0 ->
  let s2 := pmm_free_page addr s' in
  pmm_wf s2 /\ free_pages s2 = free_pages s /\ forall p, page_free s2 p = page_free s p.
Proof. apply alloc_free_restore. Qed.

Lemma pmm_alloc_free_roundtrip_witness :
  exists (s : pmm (list trace_rec)) addr s', pmm_alloc_page 0 s = (addr, s') /\ addr <> 0 /\
    free_pages (pmm_free_page addr s') = free_pages s.
Proof.
  destruct demo_pmm as (s & _ & Hw & Hh & Hf).
  destruct (pmm_alloc_page 0 s) as [addr s'] eqn:E. exists s, addr, s'.
  assert (Ha : addr <> 0).
  { pose proof (pmm_alloc_page_cases 0 s Hw ltac:(lia)) as Hc. rewrite E in Hc.
    destruct Hc as (_ & _ & [(_ & _ & _ & Hno)|(p & _ & Ha & _)]); [|exact Ha].
    rewrite Hno in Hf by lia. discriminate. }
  split; [exact E|]. split; [exact Ha|].
  apply (pmm_alloc_free_roundtrip 0 s addr s' Hw ltac:(lia) E Ha).
Defined.

(** A multi-page allocation takes the lowest run of free pages of the node
    asked for; when that node has none, the lowest run of the other node, with a
    locality-miss event; in both cases the allocator's invariant is kept. *)
Theorem pmm_alloc_pages_run {W} `{Trace W} (s : pmm W) node count fuel :
  pmm_wf s -> 0 <= node < 2 -> 2 <= count < 0x40000000 ->
  let has i := exists q, run_at s count (node_lo s i) (node_hi s i) q in
  let lowest i p := run_at s count (node_lo s i) (node_hi s i) p /\
                    (forall q, q < p -> ~ run_at s count (node_lo s i) (node_hi s i) q) in
  (has node -> exists p, lowest node p /\ pmm_wf (taken node p count s) /\
     pmm_alloc_pages (S fuel) count node s = Some (pfn_to_addr p, taken node p count s)) /\
  (~ has node -> has (1 - node) -> exists p,
     lowest (1 - node) p /\ pmm_wf (taken (1 - node) p count s) /\
     pmm_alloc_pages (S (S fuel)) count node s
     = Some (pfn_to_addr p, pmm_log TRACE_EVT_MEM_LOCALITY_MISS 0 node (1 - node)
                              (taken (1 - node) p count s))).
Proof.
  intros Hw Hn Hc has lowest. split.
  - intros Hhas. destruct (alloc_pages_hit s node count fuel Hw Hn Hc Hhas) as (p & Hr & Hl & E).
    exists p. split; [done|]. split; [|done]. destruct Hr as (? & ? & ?).
    apply taken_wf; (done || lia).
  - intros Hno Hhas.
    destruct (alloc_pages_other s node count fuel Hw Hn Hc) as (p & Hr & Hl & E);
      [intros q Hq; apply Hno; by exists q|done|].
    exists p. split; [done|]. split; [|done]. destruct Hr as (? & ? & ?).
    apply taken_wf; (done || lia).
Qed.

Lemma pmm_alloc_pages_run_witness :
  exists (s : pmm (list trace_rec)) p,
    pmm_alloc_pages 1 2 0 s = Some (pfn_to_addr p, taken 0 p 2 s).
Proof.
  destruct (pmm_init_default (W := list trace_rec) ∅ 0x100000 0x200000 [] ltac:(done))
    as (s & _ & Hw & _ & Hb & Hf).
  exists s. destruct (pmm_alloc_pages_run s 0 2 0 Hw ltac:(lia) ltac:(lia)) as [Hhit _].
  destruct Hhit as (p & _ & _ & E); [|by exists p].
  exists 512. split; [done|].
  split; [change (node_hi s 0) with (node_boundary_pfn s); rewrite Hb; done|].
  intros j Hj. rewrite Hf by lia.
  assert (j = 512 \/ j = 513) as [-> | ->] by lia; vm_compute; reflexivity.
Defined.

(** When no node has a run of [count] free pages, [pmm_alloc_pages] for a
    given node does not return: each node's fallback calls the other node's, so
    no amount of fuel is enough, and the failure event is never logged. *)
Theorem pmm_alloc_pages_diverges {W} `{Trace W} (s : pmm W) count :
  pmm_wf s -> 2 <= count < 0x40000000 ->
  (forall node q, 0 <= node < 2 -> ~ run_at s count (node_lo s node) (node_hi s node) q) ->
  forall fuel node, 0 <= node < 2 -> pmm_alloc_pages fuel count node s = None.
Proof. apply alloc_pages_loops. Qed.

Lemma pmm_alloc_pages_diverges_witness :
  exists s : pmm (list trace_rec), pmm_wf s /\ forall fuel, pmm_alloc_pages fuel 17000 0 s = None.
Proof.
  destruct (pmm_init_default (W := list trace_rec) ∅ 0x100000 0x200000 [] ltac:(done))
    as (s & _ & Hw & Hh & Hb & _).
  exists s. split; [exact Hw|]. intros fuel.
  apply (pmm_alloc_pages_diverges s 17000 Hw ltac:(lia)); [|lia].
  intros node q Hn (H1 & H2 & _). revert H1 H2. unfold node_lo, node_hi.
  rewrite Hh, Hb. destruct (node =? 0); lia.
Defined.

(** Booted without boot information, for any kernel extent, the allocator
    satisfies its invariant, and the free pages are exactly those of the 127 MB
    above 1 MB that the kernel image does not touch. *)
Theorem pmm_init_establishes {W} `{Trace W} boot kernel_start kernel_end (w : W) :
  0 <= kernel_start ->
  exists s', pmm_init boot kernel_start kernel_end None (pmm_bss w) = Some s' /\
    pmm_wf s' /\ highest_page s' = 32767 /\ node_boundary_pfn s' = 16512 /\
    (forall p, 0 <= p -> page_free s' p = (256 <=? p) && (p <? 32768)
       && negb ((first_pfn kernel_start <=? p)
                && (p <? past_pfn kernel_start (kernel_end -u kernel_start)))).
Proof. apply pmm_init_default. Qed.

Lemma pmm_init_establishes_witness :
  exists s' : pmm (list trace_rec),
    pmm_init ∅ 0x100000 0x200000 None (pmm_bss []) = Some s' /\ pmm_wf s'.
Proof.
  destruct (pmm_init_establishes (W := list trace_rec) ∅ 0x100000 0x200000 [] ltac:(lia))
    as (s & E & Hw & _).
  exists s. split; [exact E|exact Hw].
Defined.
