(* ===== verification/ZAlloc.v ===== *)
(** kernel/zenedge_alloc.c and zenedge_alloc.h: the portable allocation layer
    over the page allocator, and the class [PageAlloc] through which
    kernel/contracts.c sees it.

    The state is the allocator of Pmm.v, the two statistics counters and the
    memory the layer clears for [ZALLOC_ZERO] (physical addresses seen through
    the kernel's mapping at 0xC0000000). *)

From S2P Require Import Prelude Mem Bitmap Trace Pmm.

Definition ZNODE_LOCAL : Z := 0.
Definition ZNODE_REMOTE : Z := 1.
Definition ZNODE_ANY : Z := 0xFF.
Definition ZALLOC_ZERO : Z := 1.
Definition ZALLOC_CONTIGUOUS : Z := 2.

Record zalloc_result_t := ZallocResult { r_addr : Z; r_node : Z; r_size_bytes : Z }.
Record zalloc_request_t := ZallocRequest {
  rq_size_bytes : Z;
  rq_node_pref : Z;
  rq_tier : Z;
  rq_flags : Z;
  rq_alignment : Z
}.
Record zalloc_stats_t := ZallocStats { total_bytes : Z; free_bytes : Z; num_nodes : Z }.

Record zalloc (W : Type) := Zalloc {
  za_pmm : pmm W;
  total_allocated : Z;
  total_freed : Z;
  za_mem : mem
}.
Arguments Zalloc {W}.
Arguments za_pmm {W}.
Arguments total_allocated {W}.
Arguments total_freed {W}.
Arguments za_mem {W}.
#[export] Instance zalloc_eta W : Eta (zalloc W) := fun z =>
  Zalloc (za_pmm z) (total_allocated z) (total_freed z) (za_mem z).

(** What the contracts need of an allocator. *)
Class PageAlloc (A : Type) := {
  alloc_page : Z -> A -> zalloc_result_t * A;
  free_page : Z -> A -> A;
  get_node : A -> Z -> Z
}.

(** Addresses fit the 32-bit [paddr_t] that contract.c returns. *)
Class PageAllocLaws (A : Type) `{PageAlloc A} := {
  alloc_page_addr node a : is_u32 (r_addr (fst (alloc_page node a)))
}.

Section ZAlloc.
Context {W : Type} `{Trace W}.
Implicit Types z : zalloc W.

Definition zenedge_alloc_init (z : zalloc W) : zalloc W :=
  z{{ total_allocated := 0; total_freed := 0 }}.

(** The portable node preference as a PMM node. *)
Definition pmm_node (node_pref : Z) : Z :=
  if node_pref =? ZNODE_LOCAL then NUMA_NODE_LOCAL
  else if node_pref =? ZNODE_REMOTE then NUMA_NODE_REMOTE
  else NUMA_NODE_ANY.

Definition zenedge_platform_alloc_page (node_pref : Z) (z : zalloc W) : Z * zalloc W :=
  let '(addr, p) := pmm_alloc_page (pmm_node node_pref) (za_pmm z) in
  (addr, z{{ za_pmm := p }}).

Definition zenedge_platform_free_page (addr : Z) (z : zalloc W) : zalloc W :=
  z{{ za_pmm ::= pmm_free_page (u32 addr) }}.

Definition zenedge_platform_get_node (z : zalloc W) (addr : Z) : Z :=
  pmm_addr_to_node (za_pmm z) (u32 addr).

Definition zenedge_platform_get_stats (z : zalloc W) : zalloc_stats_t :=
  let st := pmm_get_stats (za_pmm z) in
  ZallocStats (u64 (total_memory_kb st * 1024)) (u64 (free_memory_kb st * 1024))
    (st_num_nodes st).

Definition zenedge_alloc_page (node_pref : Z) (z : zalloc W) : zalloc_result_t * zalloc W :=
  let '(addr, z) := zenedge_platform_alloc_page node_pref z in
  if negb (addr =? 0)
  then (ZallocResult addr (zenedge_platform_get_node z addr) PAGE_SIZE,
        z{{ total_allocated ::= fun t => u64 (t + PAGE_SIZE) }})
  else (ZallocResult addr 0 0, z).

(** [None]: [pmm_alloc_pages] did not return within the fuel. *)
Definition zenedge_alloc_pages (fuel : nat) (count node_pref : Z) (z : zalloc W)
  : option (zalloc_result_t * zalloc W) :=
  '(addr, p) ← pmm_alloc_pages fuel count (pmm_node node_pref) (za_pmm z);
  let z := z{{ za_pmm := p }} in
  Some
    (if negb (addr =? 0)
     then
       let size := count *u PAGE_SIZE in
       (ZallocResult addr (zenedge_platform_get_node z addr) size,
        z{{ total_allocated ::= fun t => u64 (t + size) }})
     else (ZallocResult 0 0 0, z)).

(** Clears [size] bytes at the kernel's mapping of [addr]. *)
Definition zero_block (addr size : Z) (m : mem) : mem :=
  for_range 0 size (fun i m => stb m (u64 (addr + 0xC0000000) + i) 0) m.

Definition zenedge_alloc (fuel : nat) (req : option zalloc_request_t) (z : zalloc W)
  : option (zalloc_result_t * zalloc W) :=
  match req with
  | None => Some (ZallocResult 0 0 0, z)
  | Some req =>
      if rq_size_bytes req =? 0 then Some (ZallocResult 0 0 0, z)
      else
        let pages := (rq_size_bytes req +u PAGE_SIZE -u 1) / PAGE_SIZE in
        '(result, z) ←
          (if pages =? 1 then Some (zenedge_alloc_page (rq_node_pref req) z)
           else zenedge_alloc_pages fuel pages (rq_node_pref req) z);
        Some (result,
          if negb (r_addr result =? 0) && negb (Z.land (rq_flags req) ZALLOC_ZERO =? 0)
          then z{{ za_mem ::= zero_block (r_addr result) (r_size_bytes result) }}
          else z)
  end.

Definition zenedge_free_page (addr : Z) (z : zalloc W) : zalloc W :=
  if negb (addr =? 0)
  then (zenedge_platform_free_page addr z)
         {{ total_freed ::= fun t => u64 (t + PAGE_SIZE) }}
  else z.

Definition zenedge_free_pages (addr count : Z) (z : zalloc W) : zalloc W :=
  if negb (addr =? 0) && (0 <? count)
  then z{{ za_pmm ::= pmm_free_pages (u32 addr) count;
           total_freed ::= fun t => u64 (t + (count *u PAGE_SIZE)) }}
  else z.

Definition zenedge_get_node (z : zalloc W) (addr : Z) : Z := zenedge_platform_get_node z addr.

Definition zenedge_alloc_stats (z : zalloc W) : zalloc_stats_t := zenedge_platform_get_stats z.

#[export] Instance zalloc_trace : Trace (zalloc W) := {
  trace_log ty job step ex z :=
    z{{ za_pmm := (za_pmm z){{ pm_trace ::= trace_log ty job step ex }} }};
  trace_recent z := trace_recent (pm_trace (za_pmm z));
  trace_room z := trace_room (pm_trace (za_pmm z))
}.

#[export] Instance zalloc_trace_laws `{!TraceLaws W} : TraceLaws (zalloc W).
Proof.
  split; intros ty job step ex z Hr; cbn in *.
  - by rewrite trace_log_recent.
  - by apply trace_log_room.
Qed.

#[export] Instance zalloc_page_alloc : PageAlloc (zalloc W) := {
  alloc_page := zenedge_alloc_page;
  free_page := zenedge_free_page;
  get_node := zenedge_get_node
}.

Lemma alloc_from_node_u32 node (s : pmm W) : is_u32 (fst (alloc_from_node node s)).
Proof.
  unfold alloc_from_node. destruct (_ <=? _); [cbn; cint|].
  destruct (find_range _ _ _); cbn [fst]; [apply is_u32_u32|cint].
Qed.

Lemma try_other_u32 n i node (s : pmm W) r :
  try_other_nodes n i node s = Some r -> is_u32 (fst r).
Proof.
  revert i s; induction n as [|n IH]; intros i s; cbn [try_other_nodes]; [done|].
  destruct (i =? node); [by apply IH|]. pose proof (alloc_from_node_u32 i s) as Hu.
  destruct (alloc_from_node i s) as [addr s1]. destruct (addr =? 0); [by apply IH|].
  by intros [= <-].
Qed.

Lemma pmm_alloc_page_u32 node (s : pmm W) : is_u32 (fst (pmm_alloc_page node s)).
Proof.
  unfold pmm_alloc_page. destruct (node =? NUMA_NODE_ANY).
  - pose proof (alloc_from_node_u32 0 s) as H0. destruct (alloc_from_node 0 s) as [addr s1].
    destruct (negb _); [done|]. pose proof (alloc_from_node_u32 1 s1) as H1.
    by destruct (alloc_from_node 1 s1).
  - destruct (if numa_node_count s <=? node then _ else _) as [nd s0].
    pose proof (alloc_from_node_u32 nd s0) as H0. destruct (alloc_from_node nd s0) as [addr s1].
    destruct (negb _); [done|]. destruct (try_other_nodes _ _ _ _) as [r|] eqn:E; [|cbn; cint].
    by eapply try_other_u32.
Qed.

#[export] Instance zalloc_page_alloc_laws : PageAllocLaws (zalloc W).
Proof.
  split. intros node z. cbn. unfold zenedge_alloc_page, zenedge_platform_alloc_page.
  pose proof (pmm_alloc_page_u32 (pmm_node node) (za_pmm z)) as Hu.
  destruct (pmm_alloc_page _ _) as [addr p]. by destruct (negb (addr =? 0)).
Qed.

(** ** Facts *)

Lemma zero_block_spec addr size m :
  0 <= size ->
  let v := u64 (addr + 0xC0000000) in
  (forall a, v <= a < v + size -> ldb (zero_block addr size m) a = 0) /\
  agree (fun a => ~ (v <= a < v + size)) m (zero_block addr size m).
Proof.
  intros Hs v. unfold zero_block. fold v.
  apply (for_range_ind (fun k m' =>
    (forall a, v <= a < v + k -> ldb m' a = 0) /\ agree (fun a => ~ (v <= a < v + k)) m m')); [lia| |].
  - split; [lia|]. by intros a _.
  - intros j m' Hj [IHz IHa]. split.
    + intros a Ha. rewrite ldb_stb. case_decide; [done|]. apply IHz. lia.
    + intros a Ha. rewrite ldb_stb_ne by lia. apply IHa. lia.
Qed.

Lemma alloc_page_frame z node :
  za_mem (snd (zenedge_alloc_page node z)) = za_mem z.
Proof.
  unfold zenedge_alloc_page, zenedge_platform_alloc_page.
  destruct (pmm_alloc_page _ _) as [addr p]. by destruct (negb (addr =? 0)).
Qed.

Lemma alloc_pages_frame fuel count z node r z' :
  zenedge_alloc_pages fuel count node z = Some (r, z') ->
  za_mem z' = za_mem z /\ (r_addr r <> 0 -> r_size_bytes r = count *u PAGE_SIZE).
Proof.
  unfold zenedge_alloc_pages. destruct (pmm_alloc_pages _ _ _ _) as [[addr p]|]; [|done].
  cbn [mbind option_bind]. destruct (addr =? 0); intros [= <- <-]; done.
Qed.

Lemma alloc_page_size z node :
  r_addr (fst (zenedge_alloc_page node z)) <> 0 ->
  r_size_bytes (fst (zenedge_alloc_page node z)) = PAGE_SIZE.
Proof.
  unfold zenedge_alloc_page, zenedge_platform_alloc_page.
  destruct (pmm_alloc_page _ _) as [addr p]. destruct (Z.eqb_spec addr 0); cbn; done.
Qed.

Lemma alloc_size_fits z fuel req r z' :
  0 < rq_size_bytes req <= 0xFFFFF000 ->
  zenedge_alloc fuel (Some req) z = Some (r, z') -> r_addr r <> 0 ->
  rq_size_bytes req <= r_size_bytes r < rq_size_bytes req + PAGE_SIZE /\
  exists z1, za_mem z1 = za_mem z /\
    za_mem z' = if negb (Z.land (rq_flags req) ZALLOC_ZERO =? 0)
                then zero_block (r_addr r) (r_size_bytes r) (za_mem z1) else za_mem z1.
Proof.
  intros Hsz Halloc Ha. unfold zenedge_alloc, PAGE_SIZE in *.
  rewrite (proj2 (Z.eqb_neq _ 0)) in Halloc by lia.
  set (n := rq_size_bytes req) in *.
  assert (E : (n +u 4096 -u 1) / 4096 = (n + 4095) / 4096 /\ (n + 4095) / 4096 <= 0xFFFFF).
  { destruct (Z.eq_dec n 0xFFFFF000) as [->|]; [vm_compute; done|].
    rewrite (u32_small (n + 4096)) by (unfold is_u32; lia).
    rewrite u32_small by (unfold is_u32; lia). replace (n + 4096 - 1) with (n + 4095) by lia.
    split; [done|]. Z.div_mod_to_equations. lia. }
  destruct E as [E Hp]. cbv zeta in Halloc. rewrite E in Halloc. clear E.
  destruct (Z.eqb_spec ((n + 4095) / 4096) 1) as [E1|E1].
  - cbn [mbind option_bind] in Halloc. destruct (zenedge_alloc_page _ z) as [r1 z1] eqn:Ea.
    injection Halloc as -> <-. pose proof (alloc_page_size z (rq_node_pref req)) as Hs.
    rewrite Ea in Hs. specialize (Hs Ha). cbn in Hs. unfold PAGE_SIZE in Hs. rewrite Hs.
    split; [Z.div_mod_to_equations; lia|]. exists z1.
    pose proof (alloc_page_frame z (rq_node_pref req)) as Hf. rewrite Ea in Hf.
    split; [done|]. rewrite (proj2 (Z.eqb_neq _ 0)) by done. cbn [negb andb].
    by destruct (negb _).
  - destruct (zenedge_alloc_pages fuel _ _ z) as [[r1 z1]|] eqn:Ea; [|done].
    cbn [mbind option_bind] in Halloc. injection Halloc as -> <-.
    destruct (alloc_pages_frame _ _ _ _ _ _ Ea) as [Hf Hs]. rewrite (Hs Ha). unfold PAGE_SIZE.
    rewrite u32_small by (unfold is_u32; Z.div_mod_to_equations; lia).
    split; [Z.div_mod_to_equations; lia|]. exists z1. split; [done|].
    rewrite (proj2 (Z.eqb_neq _ 0)) by done. cbn [negb andb]. by destruct (negb _).
Qed.
End ZAlloc.

(** A successful [zenedge_alloc] returns at least the bytes asked for and
    less than a page more; with [ZALLOC_ZERO] every byte of the block, at the
    kernel's mapping of it, is zero and no other byte of memory changes; without
    it no memory changes at all. *)
Theorem zenedge_alloc_zeroed {W} `{Trace W} (z z' : zalloc W) fuel req r :
  0 < rq_size_bytes req <= 0xFFFFF000 ->
  zenedge_alloc fuel (Some req) z = Some (r, z') -> r_addr r <> 0 ->
  let v := u64 (r_addr r + 0xC0000000) in
  rq_size_bytes req <= r_size_bytes r < rq_size_bytes req + PAGE_SIZE /\
  (Z.land (rq_flags req) ZALLOC_ZERO <> 0 ->
     (forall a, v <= a < v + r_size_bytes r -> ldb (za_mem z') a = 0) /\
     agree (fun a => ~ (v <= a < v + r_size_bytes r)) (za_mem z) (za_mem z')) /\
  (Z.land (rq_flags req) ZALLOC_ZERO = 0 -> za_mem z' = za_mem z).
Proof.
  intros Hsz Halloc Ha v. destruct (alloc_size_fits z fuel req r z' Hsz Halloc Ha) as (Hs & z1 & E1 & E2).
  split; [done|]. split.
  - intros Hz. rewrite (proj2 (Z.eqb_neq _ 0)) in E2 by done. cbn [negb] in E2. rewrite E2, E1.
    apply zero_block_spec. lia.
  - intros Hz. rewrite Hz in E2. cbn in E2. by rewrite E2.
Qed.

Lemma zenedge_alloc_zeroed_witness :
  exists (z z' : zalloc (list trace_rec)) r,
    zenedge_alloc 1 (Some (ZallocRequest 100 0 0 ZALLOC_ZERO 0)) z = Some (r, z') /\
    r_addr r <> 0 /\ 100 <= r_size_bytes r.
Proof.
  destruct demo_pmm as (s & _ & Hw & Hh & Hf).
  set (z := Zalloc s 0 0 ∅). set (req := ZallocRequest 100 0 0 ZALLOC_ZERO 0).
  destruct (zenedge_alloc 1 (Some req) z) as [[r z']|] eqn:E.
  2:{ exfalso. revert E. unfold zenedge_alloc. cbn [rq_size_bytes req].
      change ((100 +u PAGE_SIZE -u 1) / PAGE_SIZE =? 1) with true. cbn [Z.eqb].
      destruct (zenedge_alloc_page _ z). discriminate. }
  assert (Ha : r_addr r <> 0).
  { revert E. unfold zenedge_alloc. cbn [rq_size_bytes req Z.eqb].
    change ((100 +u PAGE_SIZE -u 1) / PAGE_SIZE =? 1) with true. cbv iota.
    unfold zenedge_alloc_page, zenedge_platform_alloc_page.
    change (pmm_node (rq_node_pref req)) with 0. cbn [za_pmm z].
    pose proof (pmm_alloc_page_cases 0 s Hw ltac:(lia)) as Hc.
    destruct (pmm_alloc_page 0 s) as [addr p]. destruct Hc as (_ & _ & [(_ & _ & _ & Hno)|(q & _ & Ha & _)]).
    - rewrite Hno in Hf by lia. discriminate.
    - rewrite (proj2 (Z.eqb_neq addr 0) Ha). cbn [negb mbind option_bind]. intros [= <- _]. exact Ha. }
  exists z, z', r. split; [exact E|]. split; [exact Ha|].
  destruct (zenedge_alloc_zeroed z z' 1 req r) as (Hs & _); [cbn; lia|exact E|exact Ha|].
  cbn in Hs. lia.
Defined.
