(* ===== verification/JobGraph.v ===== *)
(** kernel/job/job_graph.c and job_graph.h: jobs as graphs of steps over
    tensors.

    A job is the C struct: fixed tables of 32 steps and 64 tensors with their
    counts, each step with its tables of 4 dependencies, 4 inputs and 2 outputs.
    Pointers into the tables ([find_step], [find_tensor]) are indices.

    The invariant [job_wf] says that a step marked ready has all its
    dependencies completed; [run_loop] is the loop of the scheduler, which asks
    for a ready step and marks it completed, and the theorems say what order it
    runs the steps in and that it runs all of an acyclic job. *)

From S2P Require Import Prelude.

Inductive step_type_t := STEP_TYPE_COMPUTE | STEP_TYPE_COLLECTIVE | STEP_TYPE_IO | STEP_TYPE_CONTROL.
Inductive tensor_dtype_t :=
  TENSOR_DTYPE_FP32 | TENSOR_DTYPE_FP16 | TENSOR_DTYPE_BF16 | TENSOR_DTYPE_INT8 | TENSOR_DTYPE_INT32.

Definition MAX_STEP_INPUTS : Z := 4.
Definition MAX_STEP_OUTPUTS : Z := 2.
Definition MAX_STEP_DEPS : Z := 4.
Definition MAX_JOB_STEPS : Z := 32.
Definition MAX_JOB_TENSORS : Z := 64.

Record tensor_desc_t := TensorDesc {
  t_id : Z;
  dtype : tensor_dtype_t;
  num_elements : Z;
  size_bytes : Z;
  pinned : Z;
  node_affinity : Z
}.
#[export] Instance tensor_desc_inhabited : Inhabited tensor_desc_t :=
  populate (TensorDesc 0 TENSOR_DTYPE_FP32 0 0 0 0).

Record job_step_t := JobStep {
  s_id : Z;
  s_type : step_type_t;
  num_deps : Z;
  deps : list Z;             (* deps[MAX_STEP_DEPS] *)
  num_inputs : Z;
  inputs : list Z;           (* inputs[MAX_STEP_INPUTS] *)
  num_outputs : Z;
  outputs : list Z;          (* outputs[MAX_STEP_OUTPUTS] *)
  s_peak_memory_kb : Z;
  working_set_kb : Z;
  ready : Z;
  completed : Z
}.
#[export] Instance job_step_eta : Eta job_step_t := fun s =>
  JobStep (s_id s) (s_type s) (num_deps s) (deps s) (num_inputs s) (inputs s) (num_outputs s)
    (outputs s) (s_peak_memory_kb s) (working_set_kb s) (ready s) (completed s).
#[export] Instance job_step_inhabited : Inhabited job_step_t :=
  populate (JobStep 0 STEP_TYPE_COMPUTE 0 (repeat 0 4) 0 (repeat 0 4) 0 (repeat 0 2) 0 0 0 0).

Record job_graph_t := JobGraph {
  j_id : Z;
  num_steps : Z;
  steps : list job_step_t;        (* steps[MAX_JOB_STEPS] *)
  num_tensors : Z;
  tensors : list tensor_desc_t;   (* tensors[MAX_JOB_TENSORS] *)
  total_memory_kb : Z;
  peak_memory_kb : Z;
  pinned_memory_kb : Z
}.
#[export] Instance job_graph_eta : Eta job_graph_t := fun j =>
  JobGraph (j_id j) (num_steps j) (steps j) (num_tensors j) (tensors j) (total_memory_kb j)
    (peak_memory_kb j) (pinned_memory_kb j).

Definition tensor_size_bytes (dtype : tensor_dtype_t) (elements : Z) : Z :=
  let elem_size := match dtype with
                   | TENSOR_DTYPE_FP32 => 4
                   | TENSOR_DTYPE_FP16 => 2
                   | TENSOR_DTYPE_BF16 => 2
                   | TENSOR_DTYPE_INT8 => 1
                   | TENSOR_DTYPE_INT32 => 4
                   end in
  elements *u elem_size.

Definition job_graph_init (id : Z) (job : job_graph_t) : job_graph_t :=
  job{{ j_id := id; num_steps := 0; num_tensors := 0; total_memory_kb := 0;
        peak_memory_kb := 0; pinned_memory_kb := 0 }}.

Definition find_step (job : job_graph_t) (id : Z) : option Z :=
  find_range 0 (num_steps job) (fun i => s_id (zget (steps job) i) =? id).

Definition upd_step (i : Z) (f : job_step_t -> job_step_t) (job : job_graph_t) : job_graph_t :=
  job{{ steps ::= fun l => zset l i (f (zget l i)) }}.

Definition job_graph_add_step (id : Z) (type : step_type_t) (job : job_graph_t)
  : Z * job_graph_t :=
  if MAX_JOB_STEPS <=? num_steps job then (-1, job)
  else
    let i := num_steps job in
    (0, upd_step i (fun s => s{{ s_id := id; s_type := type; num_deps := 0; ready := 1;
                                 completed := 0; num_inputs := 0; num_outputs := 0;
                                 s_peak_memory_kb := 0; working_set_kb := 0 }})
          job{{ num_steps := u8 (i + 1) }}).

Definition job_graph_add_dep (step depends_on : Z) (job : job_graph_t) : Z * job_graph_t :=
  match find_step job step, find_step job depends_on with
  | Some i, Some _ =>
      let s := zget (steps job) i in
      if MAX_STEP_DEPS <=? num_deps s then (-1, job)
      else
        (0, upd_step i (fun s => s{{ deps := zset (deps s) (num_deps s) depends_on;
                                     num_deps := u8 (num_deps s + 1); ready := 0 }}) job)
  | _, _ => (-1, job)
  end.

(** The dependency test of [job_graph_mark_completed]. *)
Definition dep_done (job : job_graph_t) (id : Z) : bool :=
  match find_step job id with
  | Some k => negb (completed (zget (steps job) k) =? 0)
  | None => false
  end.

Definition all_done (job : job_graph_t) (t : job_step_t) : bool :=
  match find_range 0 (num_deps t) (fun d => negb (dep_done job (zget (deps t) d))) with
  | Some _ => false
  | None => true
  end.

Definition refresh_step (i : Z) (job : job_graph_t) : job_graph_t :=
  let t := zget (steps job) i in
  if negb (completed t =? 0) then job
  else if all_done job t then upd_step i (fun t => t{{ ready := 1 }}) job
  else job.

Definition job_graph_mark_completed (step : Z) (job : job_graph_t) : job_graph_t :=
  match find_step job step with
  | None => job
  | Some k =>
      let job := upd_step k (fun s => s{{ completed := 1 }}) job in
      for_range 0 (num_steps job) refresh_step job
  end.

Definition is_ready (job : job_graph_t) (i : Z) : bool :=
  negb (ready (zget (steps job) i) =? 0) && (completed (zget (steps job) i) =? 0).

Definition job_graph_next_ready (job : job_graph_t) : Z :=
  match find_range 0 (num_steps job) (is_ready job) with
  | Some i => int_of_u32 (s_id (zget (steps job) i))
  | None => -1
  end.

Definition find_tensor (job : job_graph_t) (id : Z) : option Z :=
  find_range 0 (num_tensors job) (fun i => t_id (zget (tensors job) i) =? id).

Definition job_graph_add_tensor (id : Z) (dt : tensor_dtype_t) (n pin affinity : Z)
    (job : job_graph_t) : Z * job_graph_t :=
  if MAX_JOB_TENSORS <=? num_tensors job then (-1, job)
  else
    match find_tensor job id with
    | Some _ => (-1, job)
    | None =>
        let i := num_tensors job in
        (0, job{{ num_tensors := u8 (i + 1);
                  tensors := zset (tensors job) i
                    (TensorDesc id dt n (tensor_size_bytes dt n) pin affinity) }})
    end.

Definition job_graph_step_add_input (step_id tensor_id : Z) (job : job_graph_t)
  : Z * job_graph_t :=
  match find_step job step_id with
  | None => (-1, job)
  | Some i =>
      match find_tensor job tensor_id with
      | None => (-1, job)
      | Some _ =>
          if MAX_STEP_INPUTS <=? num_inputs (zget (steps job) i) then (-1, job)
          else
            (0, upd_step i (fun s => s{{ inputs := zset (inputs s) (num_inputs s) tensor_id;
                                         num_inputs := u8 (num_inputs s + 1) }}) job)
      end
  end.

Definition job_graph_step_add_output (step_id tensor_id : Z) (job : job_graph_t)
  : Z * job_graph_t :=
  match find_step job step_id with
  | None => (-1, job)
  | Some i =>
      match find_tensor job tensor_id with
      | None => (-1, job)
      | Some _ =>
          if MAX_STEP_OUTPUTS <=? num_outputs (zget (steps job) i) then (-1, job)
          else
            (0, upd_step i (fun s => s{{ outputs := zset (outputs s) (num_outputs s) tensor_id;
                                         num_outputs := u8 (num_outputs s + 1) }}) job)
      end
  end.

Definition size_kb (t : tensor_desc_t) : Z := (size_bytes t +u 1023) / 1024.

(** Adds the size of the tensor [id], if it is registered. *)
Definition add_tensor_kb (job : job_graph_t) (id : Z) (mem : Z) : Z :=
  match find_tensor job id with
  | Some k => mem +u size_kb (zget (tensors job) k)
  | None => mem
  end.

Definition step_mem (job : job_graph_t) (s : job_step_t) : Z :=
  let m := for_range 0 (num_inputs s) (fun j => add_tensor_kb job (zget (inputs s) j)) 0 in
  for_range 0 (num_outputs s) (fun j => add_tensor_kb job (zget (outputs s) j)) m.

(** One turn of the second loop of [job_graph_compute_memory]. *)
Definition measure_step (i : Z) (st : job_graph_t * Z) : job_graph_t * Z :=
  let '(job, peak) := st in
  let m := step_mem job (zget (steps job) i) in
  (upd_step i (fun s => s{{ working_set_kb := m; s_peak_memory_kb := m }}) job,
   if peak <? m then m else peak).

Definition job_graph_compute_memory (job : job_graph_t) : job_graph_t :=
  let '(total, pin) :=
    for_range 0 (num_tensors job) (fun i '(total, pin) =>
      let t := zget (tensors job) i in
      (total +u size_kb t, if negb (pinned t =? 0) then pin +u size_kb t else pin)) (0, 0) in
  let '(job, peak) := for_range 0 (num_steps job) measure_step (job, 0) in
  job{{ total_memory_kb := total; pinned_memory_kb := pin; peak_memory_kb := peak }}.

Definition job_graph_get_tensor (job : job_graph_t) (id : Z) : option Z := find_tensor job id.
Definition job_graph_get_step (job : job_graph_t) (id : Z) : option Z := find_step job id.

(** ** The scheduler's loop over a job

    [sched_run_job] of kernel/sched/sched_core.c repeats: ask for a ready step,
    run it, mark it completed.  [run_loop] keeps the part of it that acts on the
    job and returns the ids in the order they run; [None] is fuel exhausted. *)
Fixpoint run_loop (fuel : nat) (job : job_graph_t) : option (list Z * job_graph_t) :=
  let sid := job_graph_next_ready job in
  if sid <? 0 then Some ([], job)
  else
    match fuel with
    | O => None
    | S fuel =>
        match find_step job (u32 sid) with
        | None => Some ([], job)
        | Some _ =>
            '(l, job') ← run_loop fuel (job_graph_mark_completed (u32 sid) job);
            Some (sid :: l, job')
        end
    end.

(** ** The invariant *)

Definition step_at (job : job_graph_t) (i : Z) : job_step_t := zget (steps job) i.

(** The dependencies of a step, in the order they were added. *)
Definition deps_of (s : job_step_t) : list Z := take (Z.to_nat (num_deps s)) (deps s).

Record job_wf (job : job_graph_t) : Prop := {
  jw_len : zlen (steps job) = MAX_JOB_STEPS;
  jw_num : 0 <= num_steps job <= MAX_JOB_STEPS;
  jw_ids : forall i j, 0 <= i < num_steps job -> 0 <= j < num_steps job ->
    s_id (step_at job i) = s_id (step_at job j) -> i = j;
  jw_int : forall i, 0 <= i < num_steps job -> 0 <= s_id (step_at job i) < 0x80000000;
  jw_deps : forall i, 0 <= i < num_steps job ->
    0 <= num_deps (step_at job i) <= MAX_STEP_DEPS;
  jw_tables : forall i, 0 <= i < MAX_JOB_STEPS -> zlen (deps (step_at job i)) = MAX_STEP_DEPS;
  jw_known : forall i id, 0 <= i < num_steps job -> id ∈ deps_of (step_at job i) ->
    is_Some (find_step job id);
  jw_ready : forall i, 0 <= i < num_steps job -> is_ready job i = true ->
    all_done job (step_at job i) = true
}.

(** Every step that could run is marked ready. *)
Definition settled (job : job_graph_t) : Prop :=
  forall i, 0 <= i < num_steps job -> completed (step_at job i) = 0 ->
    all_done job (step_at job i) = true -> ready (step_at job i) <> 0.

(** Jobs that differ in flags only. *)
Record same_graph (job job' : job_graph_t) : Prop := {
  sg_num : num_steps job' = num_steps job;
  sg_len : zlen (steps job') = zlen (steps job);
  sg_id : forall i, 0 <= i < num_steps job -> s_id (step_at job' i) = s_id (step_at job i);
  sg_ndeps : forall i, 0 <= i < num_steps job ->
    num_deps (step_at job' i) = num_deps (step_at job i);
  sg_deps : forall i, 0 <= i -> deps (step_at job' i) = deps (step_at job i)
}.

Lemma same_graph_refl job : same_graph job job.
Proof. by split. Qed.

Lemma same_graph_trans j1 j2 j3 : same_graph j1 j2 -> same_graph j2 j3 -> same_graph j1 j3.
Proof.
  intros [A1 A2 A3 A4 A5] [B1 B2 B3 B4 B5]. rewrite A1 in *.
  split; [lia|lia| | |]; intros i Hi; [rewrite B3|rewrite B4|rewrite B5]; auto.
Qed.

Lemma find_step_same job job' id : same_graph job job' -> find_step job' id = find_step job id.
Proof.
  intros Hs. unfold find_step. rewrite (sg_num _ _ Hs). apply find_range_ext. intros i Hi.
  change (zget (steps ?j) i) with (step_at j i). by rewrite (sg_id _ _ Hs).
Qed.

Lemma find_step_Some job id k :
  find_step job id = Some k -> 0 <= k < num_steps job /\ s_id (step_at job k) = id.
Proof. intros (Hk & He & _)%find_range_Some. apply Z.eqb_eq in He. done. Qed.

Lemma find_step_at job k :
  job_wf job -> 0 <= k < num_steps job -> find_step job (s_id (step_at job k)) = Some k.
Proof.
  intros Hw Hk. apply find_range_intro; [done|apply Z.eqb_refl|].
  intros j Hj. apply Z.eqb_neq. intros E. apply (jw_ids job Hw) in E; lia.
Qed.

Lemma upd_step_at job k f i :
  0 <= k < zlen (steps job) -> 0 <= i ->
  step_at (upd_step k f job) i = if i =? k then f (step_at job k) else step_at job i.
Proof.
  intros Hk Hi. unfold step_at, upd_step. cbn. destruct (Z.eqb_spec i k) as [->|].
  - by apply zget_zset_eq.
  - by apply zget_zset_ne; lia.
Qed.

Lemma same_graph_upd job k f :
  0 <= k < zlen (steps job) ->
  (forall s, s_id (f s) = s_id s /\ num_deps (f s) = num_deps s /\ deps (f s) = deps s) ->
  same_graph job (upd_step k f job).
Proof.
  intros Hk Hf. split; [done|by apply zlen_zset| | |];
    intros i Hi; rewrite upd_step_at by lia; destruct (Z.eqb_spec i k) as [->|]; try done; apply Hf.
Qed.

(** [all_done] looks at the dependencies, the ids and the completed flags only. *)
Lemma all_done_same job job' s s' :
  same_graph job job' ->
  (forall i, 0 <= i < num_steps job -> (completed (step_at job' i) =? 0) = (completed (step_at job i) =? 0)) ->
  num_deps s' = num_deps s -> deps s' = deps s ->
  all_done job' s' = all_done job s.
Proof.
  intros Hs Hc Hn Hd. unfold all_done. rewrite Hn, Hd.
  erewrite find_range_ext; [done|]. intros d _. cbn beta. f_equal. unfold dep_done.
  rewrite (find_step_same _ _ _ Hs). destruct (find_step job _) as [k|] eqn:E; [|done].
  apply find_step_Some in E as [Hk _]. f_equal. apply Hc. done.
Qed.

Lemma all_done_true job s :
  0 <= num_deps s <= zlen (deps s) ->
  all_done job s = true <-> forall id, id ∈ deps_of s -> dep_done job id = true.
Proof.
  intros Hn. unfold all_done, deps_of. split.
  - destruct (find_range _ _ _) eqn:E; [done|]. intros _ id Hid.
    apply list_elem_of_lookup in Hid as [i Hi]. apply lookup_take_Some in Hi as [Hi Hlt].
    pose proof (find_range_None _ _ _ E (Z.of_nat i) ltac:(lia)) as Hf. cbn beta in Hf.
    unfold zget in Hf. rewrite Nat2Z.id, (list_lookup_total_correct _ _ _ Hi) in Hf.
    by apply negb_false_iff in Hf.
  - intros Hall. destruct (find_range _ _ _) as [d|] eqn:E; [|done].
    apply find_range_Some in E as (Hd & Hf & _). rewrite Hall in Hf; [done|].
    apply list_elem_of_lookup. exists (Z.to_nat d). apply lookup_take_Some. split; [|lia].
    apply list_lookup_lookup_total_lt. unfold zlen in *. lia.
Qed.

(** Completing more steps keeps what was done done. *)
Lemma all_done_mono job job' s s' :
  same_graph job job' ->
  (forall i, 0 <= i < num_steps job -> completed (step_at job i) <> 0 -> completed (step_at job' i) <> 0) ->
  num_deps s' = num_deps s -> deps s' = deps s ->
  all_done job s = true -> all_done job' s' = true.
Proof.
  intros Hs Hc Hn Hd. unfold all_done. rewrite Hn, Hd.
  destruct (find_range 0 (num_deps s) _) eqn:E; [done|]. intros _.
  match goal with |- context [find_range ?a ?b ?c] => destruct (find_range a b c) as [d|] eqn:E' end;
    [|done].
  apply find_range_Some in E' as (Hd' & Hf & _). exfalso.
  pose proof (find_range_None _ _ _ E d Hd') as H. cbn beta in H. apply negb_false_iff in H.
  apply negb_true_iff in Hf. revert H Hf. unfold dep_done. rewrite (find_step_same _ _ _ Hs).
  destruct (find_step job _) as [k|] eqn:Ek; [|done]. apply find_step_Some in Ek as [Hk _].
  intros H Hf. bool_hyps. by apply (Hc k Hk).
Qed.

(** The rescan of [job_graph_mark_completed] marks ready exactly the steps that
    can run, and changes nothing else. *)
Lemma refresh_loop j1 :
  zlen (steps j1) = MAX_JOB_STEPS -> 0 <= num_steps j1 <= MAX_JOB_STEPS ->
  let can i := (completed (step_at j1 i) =? 0) && all_done j1 (step_at j1 i) in
  let j2 := for_range 0 (num_steps j1) refresh_step j1 in
  same_graph j1 j2 /\
  forall i, 0 <= i < num_steps j1 -> completed (step_at j2 i) = completed (step_at j1 i) /\
    ready (step_at j2 i) = if can i then 1 else ready (step_at j1 i).
Proof.
  intros Hl Hnum can j2. unfold MAX_JOB_STEPS in *.
  assert (HP : same_graph j1 j2 /\ forall i, 0 <= i < num_steps j1 ->
    completed (step_at j2 i) = completed (step_at j1 i) /\
    ready (step_at j2 i) = if (i <? num_steps j1) && can i then 1 else ready (step_at j1 i)).
  2:{ destruct HP as [Hs HP]. split; [done|]. intros i Hi. destruct (HP i Hi) as [? E].
      by rewrite (proj2 (Z.ltb_lt i _)) in E by lia. }
  apply (for_range_ind (fun n j2 => same_graph j1 j2 /\ forall i, 0 <= i < num_steps j1 ->
    completed (step_at j2 i) = completed (step_at j1 i) /\
    ready (step_at j2 i) = if (i <? n) && can i then 1 else ready (step_at j1 i))); [lia| |].
  - split; [apply same_graph_refl|]. intros i Hi. by rewrite (proj2 (Z.ltb_ge i 0)) by lia.
  - clear j2. intros n j2 Hnn [IHs IH]. unfold refresh_step.
    change (zget (steps j2) n) with (step_at j2 n). rewrite (proj1 (IH n Hnn)).
    rewrite (all_done_same j1 j2 (step_at j1 n)) by
      (try done; try (apply IHs; lia); intros i Hi; by rewrite (proj1 (IH i Hi))).
    assert (Hout : forall i, 0 <= i < num_steps j1 -> can n = false \/ i <> n ->
              (i <? n + 1) && can i = (i <? n) && can i).
    { intros i Hi [Hcn|Hne]; destruct (Z.ltb_spec i (n + 1)), (Z.ltb_spec i n); try done; try lia.
      by replace i with n by lia. }
    assert (Hcan : can n = (completed (step_at j1 n) =? 0) && all_done j1 (step_at j1 n)) by done.
    destruct (completed (step_at j1 n) =? 0); cbn [negb];
      [destruct (all_done j1 (step_at j1 n))|]; cbn [andb] in Hcan;
      [split|split; [done|]; intros i Hi; rewrite Hout by (done || by left); by apply IH..].
    + eapply same_graph_trans; [exact IHs|]. apply same_graph_upd; [|done].
      rewrite (sg_len _ _ IHs). lia.
    + intros i Hi. rewrite upd_step_at by (rewrite ?(sg_len _ _ IHs); lia).
      destruct (Z.eqb_spec i n) as [->|Hne].
      * cbn [completed ready]. rewrite Hcan, (proj2 (Z.ltb_lt n (n + 1))) by lia.
        split; [|done]. by apply IH.
      * rewrite Hout by (done || by right). by apply IH.
Qed.

(** The effect of completing step [k]: flags only. *)
Lemma mark_completed_spec job id k :
  job_wf job -> find_step job id = Some k ->
  let job' := job_graph_mark_completed id job in
  same_graph job job' /\
  (forall i, 0 <= i < num_steps job ->
     completed (step_at job' i) = if i =? k then 1 else completed (step_at job i)) /\
  (forall i, 0 <= i < num_steps job -> is_ready job' i = true ->
     all_done job' (step_at job' i) = true) /\
  settled job'.
Proof.
  intros Hw Hf. pose proof (find_step_Some _ _ _ Hf) as [Hk _]. pose proof (jw_len job Hw) as Hl.
  pose proof (jw_num job Hw) as Hn. unfold MAX_JOB_STEPS in *.
  unfold job_graph_mark_completed. rewrite Hf. cbv zeta.
  set (f := fun s : job_step_t => s{{ completed := 1 }}).
  assert (Hs1 : same_graph job (upd_step k f job)) by (apply same_graph_upd; [lia|done]).
  assert (H1 : forall i, 0 <= i < num_steps job ->
    completed (step_at (upd_step k f job) i) = (if i =? k then 1 else completed (step_at job i)) /\
    ready (step_at (upd_step k f job) i) = ready (step_at job i)).
  { intros i Hi. rewrite upd_step_at by lia. destruct (Z.eqb_spec i k); [by subst|done]. }
  destruct (refresh_loop (upd_step k f job)) as [Hs2 H2]; [by rewrite (sg_len _ _ Hs1)|done|].
  change (num_steps (upd_step k f job)) with (num_steps job) in *.
  forget (for_range 0 (num_steps job) refresh_step (upd_step k f job)) as j2.
  forget (upd_step k f job) as j1.
  assert (Hall : forall i, 0 <= i < num_steps job ->
    all_done j2 (step_at j2 i) = all_done j1 (step_at j1 i)).
  { intros i Hi. pose proof (sg_num _ _ Hs1). apply all_done_same; [done| |apply Hs2; lia|apply Hs2; lia].
    intros j Hj. rewrite (proj1 (H2 j ltac:(lia))). done. }
  split; [by eapply same_graph_trans|].
  split; [intros i Hi; by rewrite (proj1 (H2 i Hi)), (proj1 (H1 i Hi))|].
  split.
  - intros i Hi Hr. unfold is_ready in Hr. change (zget (steps j2) i) with (step_at j2 i) in Hr.
    destruct (H2 i Hi) as [Ec Er], (H1 i Hi) as [Ec1 Er1]. rewrite Ec, Er in Hr. rewrite Hall by done.
    destruct (all_done j1 (step_at j1 i)) eqn:Ea; [done|]. rewrite andb_false_r in Hr.
    rewrite Er1, Ec1 in Hr. destruct (Z.eqb_spec i k); [by rewrite andb_false_r in Hr|].
    rewrite <- Ea. apply (all_done_mono job j1 (step_at job i)); try done; try (apply Hs1; lia).
    + intros j Hj Hc. rewrite (proj1 (H1 j Hj)). by destruct (j =? k).
    + by apply (jw_ready job Hw).
  - intros i Hi Hc0 Ha. rewrite (sg_num _ _ Hs2), (sg_num _ _ Hs1) in Hi.
    destruct (H2 i Hi) as [Ec Er]. rewrite Er. rewrite Ec in Hc0. rewrite Hall in Ha by done.
    by rewrite Hc0, Ha.
Qed.

Lemma deps_of_same job job' i :
  same_graph job job' -> 0 <= i < num_steps job ->
  deps_of (step_at job' i) = deps_of (step_at job i).
Proof. intros Hs Hi. unfold deps_of. by rewrite (sg_ndeps _ _ Hs), (sg_deps _ _ Hs) by lia. Qed.

(** Completing a step keeps the invariant. *)
Lemma mark_completed_wf job id :
  job_wf job -> job_wf (job_graph_mark_completed id job).
Proof.
  intros Hw. destruct (find_step job id) as [k|] eqn:Hf.
  2:{ unfold job_graph_mark_completed. by rewrite Hf. }
  destruct (mark_completed_spec job id k Hw Hf) as (Hs & _ & Hr & _).
  forget (job_graph_mark_completed id job) as job'. pose proof (sg_num _ _ Hs) as Hn.
  split; rewrite ?Hn.
  - rewrite (sg_len _ _ Hs). apply Hw.
  - apply Hw.
  - intros i j Hi Hj. rewrite !(sg_id _ _ Hs) by done. by apply Hw.
  - intros i Hi. rewrite (sg_id _ _ Hs) by done. by apply Hw.
  - intros i Hi. rewrite (sg_ndeps _ _ Hs) by done. by apply Hw.
  - intros i Hi. rewrite (sg_deps _ _ Hs) by lia. by apply (jw_tables job Hw).
  - intros i id' Hi. rewrite (deps_of_same job job'), (find_step_same _ _ _ Hs) by done. by apply Hw.
  - exact Hr.
Qed.

(** ** Building a job keeps the invariant *)

Lemma find_step_None job id i :
  find_step job id = None -> 0 <= i < num_steps job -> s_id (step_at job i) <> id.
Proof. intros H Hi. pose proof (find_range_None _ _ _ H i Hi) as E. by apply Z.eqb_neq in E. Qed.

Lemma all_done_ext job job' s :
  (forall id, id ∈ deps_of s -> dep_done job' id = dep_done job id) ->
  0 <= num_deps s <= zlen (deps s) -> all_done job' s = all_done job s.
Proof.
  intros He Hn. apply eq_true_iff_eq. rewrite !all_done_true by done.
  split; intros H id Hid; [rewrite <- He|rewrite He]; auto.
Qed.

Lemma add_step_spec job id ty :
  job_wf job -> num_steps job < MAX_JOB_STEPS -> find_step job id = None -> 0 <= id < 0x80000000 ->
  let job' := snd (job_graph_add_step id ty job) in
  fst (job_graph_add_step id ty job) = 0 /\ job_wf job' /\ num_steps job' = num_steps job + 1 /\
  (forall i, 0 <= i < num_steps job -> step_at job' i = step_at job i) /\
  (settled job -> settled job').
Proof.
  intros Hw Hlt Hf Hid. pose proof (jw_num job Hw) as Hn. pose proof (jw_len job Hw) as Hl.
  unfold job_graph_add_step, MAX_JOB_STEPS in *. rewrite (proj2 (Z.leb_gt _ _)) by lia. cbn [fst snd].
  set (g := fun s : job_step_t => _). set (n := num_steps job) in *.
  rewrite (u8_small (n + 1)) by (unfold is_u8; lia).
  set (job' := upd_step n g job{{ num_steps := n + 1 }}).
  assert (Hat : forall i, 0 <= i -> step_at job' i = if i =? n then g (step_at job n) else step_at job i).
  { intros i Hi. unfold job'. by rewrite upd_step_at by (cbn; lia). }
  assert (Hnum : num_steps job' = n + 1) by done.
  assert (Hlen : zlen (steps job') = 32) by (cbn; by rewrite zlen_zset).
  assert (Hold : forall i, 0 <= i < n -> step_at job' i = step_at job i).
  { intros i Hi. rewrite Hat by lia. by rewrite (proj2 (Z.eqb_neq i n)) by lia. }
  assert (Hnew : step_at job' n = g (step_at job n)) by (rewrite Hat by lia; by rewrite Z.eqb_refl).
  assert (Htab : forall i, 0 <= i -> deps (step_at job' i) = deps (step_at job i)).
  { intros i Hi. rewrite Hat by done. destruct (Z.eqb_spec i n); [by subst|done]. }
  clearbody job'. clear Hat.
  assert (Hfs : forall x k, find_step job x = Some k -> find_step job' x = Some k).
  { intros x k Hx. apply find_range_Some in Hx as (Hk & Hx & Hmin).
    apply find_range_intro; [lia| |].
    - change (zget (steps job') k) with (step_at job' k). by rewrite Hold.
    - intros j Hj. change (zget (steps job') j) with (step_at job' j). rewrite Hold by lia. by apply Hmin. }
  assert (Hdd : forall i d, 0 <= i < n -> d ∈ deps_of (step_at job i) -> dep_done job' d = dep_done job d).
  { intros i d Hi Hd. destruct (jw_known job Hw i d Hi Hd) as [k Hk]. unfold dep_done.
    rewrite Hk, (Hfs d k Hk). apply find_step_Some in Hk as [Hk _].
    change (zget (steps job') k) with (step_at job' k). by rewrite Hold. }
  assert (Had : forall i, 0 <= i < n -> all_done job' (step_at job' i) = all_done job (step_at job i)).
  { intros i Hi. rewrite Hold by done. apply all_done_ext; [by intros; eapply Hdd|].
    rewrite (jw_tables job Hw) by (unfold MAX_JOB_STEPS; lia). by apply (jw_deps job Hw). }
  split; [done|]. split; [|split; [done|split; [done|]]].
  - split; rewrite ?Hnum; unfold MAX_JOB_STEPS; try (done || lia).
    + intros i j Hi Hj. assert (Hne : forall k, 0 <= k < n -> s_id (step_at job k) <> id)
        by (intros; by eapply find_step_None).
      destruct (Z.eq_dec i n) as [->|Hin], (Z.eq_dec j n) as [->|Hjn]; try done;
        rewrite ?Hnew, ?Hold by lia; cbn.
      * intros E. destruct (Hne j); (lia || done).
      * intros E. destruct (Hne i); (lia || done).
      * apply Hw; lia.
    + intros i Hi. destruct (Z.eq_dec i n) as [->|Hin]; [by rewrite Hnew|].
      rewrite Hold by lia. apply Hw; lia.
    + intros i Hi. destruct (Z.eq_dec i n) as [->|Hin]; [by rewrite Hnew|].
      rewrite Hold by lia. apply Hw; lia.
    + intros i Hi. rewrite Htab by lia. by apply (jw_tables job Hw).
    + intros i x Hi. destruct (Z.eq_dec i n) as [->|Hin]; [rewrite Hnew|rewrite Hold by lia].
      * unfold deps_of. cbn. intros Hx. by apply elem_of_nil in Hx.
      * intros Hx. destruct (jw_known job Hw i x) as [k Hk]; [lia|done|]. exists k. by apply Hfs.
    + intros i Hi. destruct (Z.eq_dec i n) as [->|Hin].
      * intros _. by rewrite Hnew.
      * rewrite Had by lia. unfold is_ready. change (zget (steps job') i) with (step_at job' i).
        rewrite Hold by lia. apply (jw_ready job Hw). lia.
  - intros Hset i Hi. rewrite Hnum in Hi. destruct (Z.eq_dec i n) as [->|Hin]; [by rewrite Hnew|].
    rewrite Had, Hold by lia. apply Hset. lia.
Qed.

Lemma add_dep_spec job step d :
  job_wf job ->
  let '(r, job') := job_graph_add_dep step d job in
  job_wf job' /\ num_steps job' = num_steps job /\
  (r = -1 /\ job' = job \/
   r = 0 /\ exists k, find_step job step = Some k /\ is_Some (find_step job d) /\
     num_deps (step_at job k) < MAX_STEP_DEPS /\
     deps_of (step_at job' k) = deps_of (step_at job k) ++ [d] /\
     (forall i, 0 <= i < num_steps job -> i <> k -> step_at job' i = step_at job i) /\
     s_id (step_at job' k) = s_id (step_at job k) /\
     completed (step_at job' k) = completed (step_at job k)).
Proof.
  intros Hw. unfold job_graph_add_dep.
  destruct (find_step job step) as [k|] eqn:Hk; [|by split; [|split; [|left]]].
  destruct (find_step job d) as [kd|] eqn:Hkd; [|by split; [|split; [|left]]].
  change (zget (steps job) k) with (step_at job k).
  destruct (Z.leb_spec MAX_STEP_DEPS (num_deps (step_at job k))) as [Hfull|Hroom];
    [by split; [|split; [|left]]|].
  pose proof (find_step_Some _ _ _ Hk) as [Hkr _]. pose proof (jw_num job Hw) as Hn.
  pose proof (jw_len job Hw) as Hl. pose proof (jw_deps job Hw k Hkr) as Hd.
  pose proof (jw_tables job Hw k) as Ht. unfold MAX_JOB_STEPS, MAX_STEP_DEPS in *.
  set (g := fun s : job_step_t => _).
  assert (Hat : forall i, 0 <= i -> step_at (upd_step k g job) i = if i =? k then g (step_at job k) else step_at job i)
    by (intros; apply upd_step_at; lia).
  assert (Hgd : deps_of (g (step_at job k)) = deps_of (step_at job k) ++ [d]).
  { unfold deps_of, g. cbn -[u8 Z.add]. rewrite u8_small by (unfold is_u8; lia).
    unfold zset. replace (Z.to_nat (num_deps (step_at job k) + 1))
      with (S (Z.to_nat (num_deps (step_at job k)))) by lia.
    apply list_eq. intros j. unfold zlen in Ht. destruct (decide (j < Z.to_nat (num_deps (step_at job k)))%nat).
    - rewrite lookup_take_lt, list_lookup_insert_ne by lia.
      rewrite lookup_app_l by (rewrite length_take; lia). by rewrite lookup_take_lt.
    - destruct (decide (j = Z.to_nat (num_deps (step_at job k)))) as [->|].
      + rewrite lookup_take_lt, list_lookup_insert_eq by lia.
        rewrite lookup_app_r by (rewrite length_take; lia).
        rewrite length_take. by replace (_ - _)%nat with 0%nat by lia.
      + rewrite lookup_take_ge by lia. symmetry. apply lookup_ge_None. rewrite length_app, length_take.
        cbn. lia. }
  assert (Hgn : num_deps (g (step_at job k)) = num_deps (step_at job k) + 1)
    by (cbn -[u8 Z.add]; rewrite u8_small; unfold is_u8; lia).
  assert (Hgx : s_id (g (step_at job k)) = s_id (step_at job k) /\
    completed (g (step_at job k)) = completed (step_at job k) /\ ready (g (step_at job k)) = 0 /\
    zlen (deps (g (step_at job k))) = zlen (deps (step_at job k)))
    by (cbn -[zset]; by rewrite zlen_zset).
  destruct Hgx as (G1 & G2 & G3 & G4). clearbody g.
  set (job' := upd_step k g job) in *.
  assert (Hnum : num_steps job' = num_steps job) by done.
  assert (Hlen : zlen (steps job') = 32) by (cbn; by rewrite zlen_zset). clearbody job'.
  assert (Hid : forall i, 0 <= i -> s_id (step_at job' i) = s_id (step_at job i) /\
    completed (step_at job' i) = completed (step_at job i)).
  { intros i Hi. rewrite Hat by done. destruct (Z.eqb_spec i k); [by subst|done]. }
  assert (Hfs : forall x, find_step job' x = find_step job x).
  { intros x. unfold find_step. rewrite Hnum. apply find_range_ext. intros i Hi.
    change (zget (steps ?j) i) with (step_at j i). by rewrite (proj1 (Hid i ltac:(lia))). }
  assert (Hdd : forall x, dep_done job' x = dep_done job x).
  { intros x. unfold dep_done. rewrite Hfs. destruct (find_step job x) as [j|] eqn:Hj; [|done].
    apply find_step_Some in Hj as [Hj _]. change (zget (steps ?j') j) with (step_at j' j).
    by rewrite (proj2 (Hid j ltac:(lia))). }
  split; [|split; [done|right; split; [done|exists k]]].
  - split; rewrite ?Hnum; unfold MAX_JOB_STEPS, MAX_STEP_DEPS; try (done || lia).
    + intros i j Hi Hj. rewrite (proj1 (Hid i ltac:(lia))), (proj1 (Hid j ltac:(lia))). by apply Hw.
    + intros i Hi. rewrite (proj1 (Hid i ltac:(lia))). by apply Hw.
    + intros i Hi. rewrite Hat by lia. destruct (Z.eqb_spec i k) as [->|]; [lia|].
      by apply (jw_deps job Hw).
    + intros i Hi. rewrite Hat by lia. destruct (Z.eqb_spec i k) as [->|]; [rewrite G4|];
        by apply (jw_tables job Hw).
    + intros i x Hi. rewrite Hfs, Hat by lia. destruct (Z.eqb_spec i k) as [->|].
      * rewrite Hgd. intros [Hx|Hx%list_elem_of_singleton]%elem_of_app; [|subst x; by eexists].
        by apply (jw_known job Hw k x).
      * by apply (jw_known job Hw).
    + intros i Hi. unfold is_ready. change (zget (steps job') i) with (step_at job' i).
      rewrite Hat by lia. destruct (Z.eqb_spec i k) as [->|Hne]; [by rewrite G3|].
      intros Hr. rewrite (all_done_ext job job' (step_at job i)).
      * by apply (jw_ready job Hw).
      * done.
      * rewrite (jw_tables job Hw) by (unfold MAX_JOB_STEPS; lia). by apply (jw_deps job Hw).
  - split; [done|]. split; [by eexists|]. split; [done|].
    rewrite (Hat k), Z.eqb_refl by lia. split; [done|]. split; [|done].
    intros i Hi Hne. rewrite Hat by lia. by rewrite (proj2 (Z.eqb_neq i k)).
Qed.

(** ** The order the scheduler runs the steps in *)

(** Number of steps still to run. *)
Definition todo (job : job_graph_t) : Z :=
  count_range 0 (num_steps job) (fun i => completed (step_at job i) =? 0).

Lemma int_of_u32_small x : 0 <= x < 0x80000000 -> int_of_u32 x = x /\ u32 x = x.
Proof. intros. unfold int_of_u32. rewrite (proj2 (Z.ltb_lt _ _)) by lia. split; [done|]. cint. Qed.

Lemma next_ready_spec job :
  job_wf job ->
  job_graph_next_ready job = -1 /\ (forall i, 0 <= i < num_steps job -> is_ready job i = false) \/
  exists i, 0 <= i < num_steps job /\ is_ready job i = true /\
    0 <= s_id (step_at job i) < 0x80000000 /\
    job_graph_next_ready job = s_id (step_at job i).
Proof.
  intros Hw. unfold job_graph_next_ready. destruct (find_range _ _ _) as [i|] eqn:E.
  - right. apply find_range_Some in E as (Hi & Hr & _). exists i.
    pose proof (jw_int job Hw i Hi) as Hint. split; [done|]. split; [done|]. split; [done|].
    by apply int_of_u32_small.
  - left. split; [done|]. intros i Hi. by apply (find_range_None _ _ _ E).
Qed.

Lemma mark_completed_todo job k :
  job_wf job -> 0 <= k < num_steps job -> completed (step_at job k) = 0 ->
  todo (job_graph_mark_completed (s_id (step_at job k)) job) = todo job - 1.
Proof.
  intros Hw Hk Hc. destruct (mark_completed_spec job _ k Hw (find_step_at job k Hw Hk)) as (Hs & Hc' & _).
  forget (job_graph_mark_completed (s_id (step_at job k)) job) as job'. unfold todo. rewrite (sg_num _ _ Hs).
  pose proof (count_range_update 0 k (k + 1) (num_steps job)
    (fun i => completed (step_at job' i) =? 0) (fun i => completed (step_at job i) =? 0)) as Hu.
  rewrite !count_range_one in Hu. rewrite Hc', Hc, Z.eqb_refl in Hu by done. cbn [Z.b2z Z.eqb] in Hu.
  cut (forall a b : Z, a - 0 = b - 1 -> a = b - 1); [intros Hcut; apply Hcut, Hu|]; try lia.
  intros j Hj Hne. rewrite Hc' by done. by rewrite (proj2 (Z.eqb_neq j k)) by lia.
Qed.

(** What a run of the loop over [job] that ends in [job'] has done. *)
Record run_ok (job job' : job_graph_t) (l : list Z) : Prop := {
  ro_wf : job_wf job';
  ro_graph : same_graph job job';
  ro_stuck : forall i, 0 <= i < num_steps job -> is_ready job' i = false;
  ro_once : NoDup l;
  ro_done : forall id, id ∈ l <-> dep_done job id = false /\ dep_done job' id = true;
  ro_keep : forall id, dep_done job id = true -> dep_done job' id = true;
  ro_order : forall l1 x l2, l = l1 ++ x :: l2 ->
    exists i, find_step job x = Some i /\
      forall d, d ∈ deps_of (step_at job i) -> d ∈ l1 \/ dep_done job d = true;
  ro_settled : settled job -> settled job'
}.

Lemma dep_done_mark job k x :
  job_wf job -> 0 <= k < num_steps job ->
  dep_done (job_graph_mark_completed (s_id (step_at job k)) job) x
  = dep_done job x || (x =? s_id (step_at job k)).
Proof.
  intros Hw Hk. destruct (mark_completed_spec job _ k Hw (find_step_at job k Hw Hk)) as (Hs & Hc & _).
  forget (job_graph_mark_completed (s_id (step_at job k)) job) as job'. unfold dep_done.
  rewrite (find_step_same _ _ _ Hs). destruct (find_step job x) as [i|] eqn:E.
  - apply find_step_Some in E as [Hi <-]. change (zget (steps ?j) i) with (step_at j i).
    rewrite Hc by done. destruct (Z.eqb_spec i k) as [->|Hne].
    + by rewrite Z.eqb_refl, orb_true_r.
    + rewrite (proj2 (Z.eqb_neq (s_id _) _)), orb_false_r; [done|].
      intros Eid. by apply (jw_ids job Hw) in Eid.
  - destruct (Z.eqb_spec x (s_id (step_at job k))) as [->|]; [|done].
    by rewrite find_step_at in E.
Qed.

Lemma dep_done_at job k :
  job_wf job -> 0 <= k < num_steps job ->
  dep_done job (s_id (step_at job k)) = negb (completed (step_at job k) =? 0).
Proof. intros Hw Hk. unfold dep_done. by rewrite find_step_at. Qed.

Lemma run_loop_ok n job :
  job_wf job -> todo job <= Z.of_nat n ->
  exists l job', run_loop n job = Some (l, job') /\ run_ok job job' l.
Proof.
  revert job; induction n as [|n IH]; intros job Hw Ht; cbn [run_loop];
    destruct (next_ready_spec job Hw) as [[E Hno]|(k & Hk & Hr & Hint & E)]; rewrite E.
  1,3: (exists [], job; split; [done|]; split; try done; try apply same_graph_refl; try apply NoDup_nil_2;
        [intros id; split; [by intros ?%elem_of_nil|intros [? ?]; congruence]
        |intros l1 x l2 Hl; by destruct l1]).
  - exfalso. apply andb_true_iff in Hr as [_ Hr].
    assert (1 <= todo job <= num_steps job - 0) by (apply (count_range_pos _ _ _ k); done). lia.
  - rewrite (proj2 (Z.ltb_ge _ 0)) by lia.
    destruct (int_of_u32_small _ Hint) as [_ ->]. rewrite find_step_at by done.
    pose proof Hr as Hr'. apply andb_true_iff in Hr' as [_ Hc%Z.eqb_eq].
    change (zget (steps job) k) with (step_at job k) in Hc.
    set (id := s_id (step_at job k)) in *.
    pose proof (mark_completed_todo job k Hw Hk Hc) as Ht'. fold id in Ht'.
    pose proof (dep_done_mark job k) as Hdm. fold id in Hdm.
    destruct (mark_completed_spec job id k Hw (find_step_at job k Hw Hk)) as (Hs & _ & _ & Hset).
    destruct (IH (job_graph_mark_completed id job)) as (l & job' & -> & [R1 R2 R3 R4 R5 R6 R7 R8]);
      [by apply mark_completed_wf|lia|]. clear IH.
    assert (Hdid : dep_done job id = false) by (unfold id; by rewrite dep_done_at, Hc).
    assert (Hdm' : forall x, dep_done (job_graph_mark_completed id job) x = dep_done job x || (x =? id))
      by (intros; by apply Hdm). clear Hdm.
    forget (job_graph_mark_completed id job) as j1.
    exists (id :: l), job'. split; [done|]. split.
    + done.
    + by eapply same_graph_trans.
    + by rewrite (sg_num _ _ Hs) in R3.
    + apply NoDup_cons. split; [|done]. rewrite R5, Hdm', Z.eqb_refl, orb_true_r. by intros [? _].
    + intros x. rewrite elem_of_cons, R5, Hdm'. destruct (Z.eqb_spec x id) as [->|Hne].
      * rewrite orb_true_r, Hdid. split; [|by left]. intros _. split; [done|].
        apply R6. by rewrite Hdm', Z.eqb_refl, orb_true_r.
      * rewrite orb_false_r. split; [intros [?|?]; done|by right].
    + intros x Hx. apply R6. by rewrite Hdm', Hx.
    + intros l1 x l2 Hl. destruct l1 as [|y l1]; injection Hl as <- Hl.
      * exists k. split; [by apply find_step_at|]. intros d Hd. right.
        pose proof (jw_ready job Hw k Hk Hr) as Had. revert d Hd. apply all_done_true; [|done].
        rewrite (jw_tables job Hw) by (pose proof (jw_num job Hw); lia). by apply (jw_deps job Hw).
      * destruct (R7 l1 x l2 Hl) as (i & Hi & Hdeps). rewrite (find_step_same _ _ _ Hs) in Hi.
        exists i. split; [done|]. intros d Hd. apply find_step_Some in Hi as [Hi _].
        rewrite <- (deps_of_same job j1) in Hd by done. destruct (Hdeps d Hd) as [?|Hx].
        -- left. by apply elem_of_cons; right.
        -- rewrite Hdm' in Hx. apply orb_true_iff in Hx as [?|Hx%Z.eqb_eq]; [by right|].
           left. subst. apply elem_of_cons. by left.
    + intros _. by apply R8.
Qed.

(** No cycle: some rank decreases along every dependency. *)
Definition acyclic (job : job_graph_t) (rank : Z -> nat) : Prop :=
  forall i d, 0 <= i < num_steps job -> d ∈ deps_of (step_at job i) ->
    (rank d < rank (s_id (step_at job i)))%nat.

Lemma stuck_done job job' l rank :
  run_ok job job' l -> settled job -> acyclic job rank ->
  forall i, 0 <= i < num_steps job -> completed (step_at job' i) <> 0.
Proof.
  intros Hro Hset Hac. pose proof (ro_wf _ _ _ Hro) as Hw'. pose proof (ro_graph _ _ _ Hro) as Hs.
  assert (Hind : forall n i, 0 <= i < num_steps job -> (rank (s_id (step_at job i)) < n)%nat ->
                 completed (step_at job' i) <> 0).
  2:{ intros i Hi. apply (Hind (S (rank (s_id (step_at job i)))) i Hi). lia. }
  induction n as [|n IH]; intros i Hi Hn; [lia|]. intros Hc.
  pose proof (sg_num _ _ Hs) as Hnum. assert (Hi' : 0 <= i < num_steps job') by lia.
  destruct (all_done job' (step_at job' i)) eqn:Ea.
  - pose proof (ro_settled _ _ _ Hro Hset i Hi' Hc Ea) as Hr.
    pose proof (ro_stuck _ _ _ Hro i Hi) as Hst. unfold is_ready in Hst.
    change (zget (steps job') i) with (step_at job' i) in Hst.
    by rewrite (proj2 (Z.eqb_neq _ 0) Hr), Hc in Hst.
  - revert Ea. apply not_false_iff_true. apply all_done_true.
    { rewrite (jw_tables _ Hw') by (pose proof (jw_num _ Hw'); lia). by apply (jw_deps _ Hw'). }
    intros d Hd. destruct (jw_known _ Hw' i d Hi' Hd) as [k Hk]. pose proof (find_step_Some _ _ _ Hk) as [Hkr Hkid].
    rewrite <- Hkid, dep_done_at by done. apply negb_true_iff, Z.eqb_neq. rewrite Hnum in Hkr.
    apply IH; [done|]. rewrite (deps_of_same job job') in Hd by done.
    rewrite <- (sg_id _ _ Hs), Hkid by done. pose proof (Hac i d Hi Hd). lia.
Qed.

(** ** Memory metrics *)

Lemma add_tensor_kb_same job job' id m :
  tensors job' = tensors job -> num_tensors job' = num_tensors job ->
  add_tensor_kb job' id m = add_tensor_kb job id m.
Proof. intros Ht Hn. unfold add_tensor_kb, find_tensor. by rewrite Ht, Hn. Qed.

Lemma step_mem_same job job' s s' :
  tensors job' = tensors job -> num_tensors job' = num_tensors job ->
  num_inputs s' = num_inputs s -> inputs s' = inputs s ->
  num_outputs s' = num_outputs s -> outputs s' = outputs s ->
  step_mem job' s' = step_mem job s.
Proof.
  intros Ht Hn H1 H2 H3 H4. unfold step_mem. rewrite H1, H2, H3, H4.
  rewrite (for_range_ext 0 (num_outputs s) _ (fun j => add_tensor_kb job (zget (outputs s) j)))
    by (intros; by apply add_tensor_kb_same).
  f_equal. apply for_range_ext. intros. by apply add_tensor_kb_same.
Qed.

Lemma measure_loop job :
  zlen (steps job) = MAX_JOB_STEPS -> 0 <= num_steps job <= MAX_JOB_STEPS ->
  let '(job', peak) := for_range 0 (num_steps job) measure_step (job, 0) in
  num_steps job' = num_steps job /\
  (forall i, 0 <= i < num_steps job ->
     working_set_kb (step_at job' i) = step_mem job (step_at job i) /\
     step_mem job (step_at job i) <= peak) /\
  (peak = 0 \/ exists i, 0 <= i < num_steps job /\ peak = step_mem job (step_at job i)).
Proof.
  intros Hl Hn. unfold MAX_JOB_STEPS in *.
  set (P := fun k (st : job_graph_t * Z) => let '(job', peak) := st in
    tensors job' = tensors job /\ num_tensors job' = num_tensors job /\
    num_steps job' = num_steps job /\ zlen (steps job') = 32 /\
    (forall i, k <= i -> step_at job' i = step_at job i) /\
    (forall i, 0 <= i < k -> working_set_kb (step_at job' i) = step_mem job (step_at job i) /\
       step_mem job (step_at job i) <= peak) /\
    (peak = 0 \/ exists i, 0 <= i < k /\ peak = step_mem job (step_at job i))).
  assert (HP : P (num_steps job) (for_range 0 (num_steps job) measure_step (job, 0))).
  { apply for_range_ind; [lia| |].
    - unfold P. do 4 (split; [done|]). split; [done|]. split; [lia|by left].
    - intros k [j' peak] Hk (T & N & M & L & Hrest & Hdone & Hpk). unfold measure_step.
      change (zget (steps j') k) with (step_at j' k). rewrite Hrest by lia.
      rewrite (step_mem_same job j' (step_at job k) (step_at job k)) by done.
      set (m := step_mem job (step_at job k)). unfold P.
      split; [done|]. split; [done|]. split; [done|]. split; [cbn; by rewrite zlen_zset|].
      split; [|split].
      + intros i Hi. rewrite upd_step_at by lia. rewrite (proj2 (Z.eqb_neq i k)) by lia. apply Hrest. lia.
      + intros i Hi. rewrite upd_step_at by lia. destruct (Z.eqb_spec i k) as [->|].
        * split; [done|]. destruct (Z.ltb_spec peak m); lia.
        * destruct (Hdone i ltac:(lia)) as [E Hle]. split; [done|]. destruct (Z.ltb_spec peak m); lia.
      + destruct (Z.ltb_spec peak m); [right; exists k; split; [lia|done]|].
        destruct Hpk as [?|(i & Hi & E)]; [by left|right; exists i; split; [lia|done]]. }
  destruct (for_range 0 (num_steps job) measure_step (job, 0)) as [j' peak].
  destruct HP as (_ & _ & M & _ & _ & Hd & Hp). done.
Qed.

Lemma totals_loop job k :
  0 <= k <= zlen (tensors job) ->
  for_range 0 k (fun i '(total, pin) =>
    let t := zget (tensors job) i in
    (total +u size_kb t, if negb (pinned t =? 0) then pin +u size_kb t else pin)) (0, 0)
  = (u32 (zsum (size_kb <$> take (Z.to_nat k) (tensors job))),
     u32 (zsum (size_kb <$> List.filter (fun t => negb (pinned t =? 0))
                              (take (Z.to_nat k) (tensors job))))).
Proof.
  intros Hk. apply (for_range_ind (fun k st => st
    = (u32 (zsum (size_kb <$> take (Z.to_nat k) (tensors job))),
       u32 (zsum (size_kb <$> List.filter (fun t => negb (pinned t =? 0))
                                (take (Z.to_nat k) (tensors job))))))); [lia|done|].
  intros j st Hj ->. unfold zlen in *.
  assert (Hlt : (Z.to_nat j < length (tensors job))%nat) by lia.
  replace (Z.to_nat (j + 1)) with (S (Z.to_nat j)) by lia.
  erewrite take_S_r by (by apply list_lookup_lookup_total_lt).
  change (tensors job !!! Z.to_nat j) with (zget (tensors job) j).
  rewrite List.filter_app, !fmap_app, !zsum_app. cbn [List.filter fmap list_fmap].
  destruct (negb (pinned (zget (tensors job) j) =? 0)); cbn [fmap list_fmap zsum foldr]; f_equal; cint.
Qed.

(** ** Properties *)

(** Building a job keeps its invariant: adding a fresh step and adding any
    dependency preserve [job_wf]; a refused call changes nothing; a dependency
    accepted is the last of the step's list and only that step changes. *)
Theorem job_graph_build_wf (job : job_graph_t) :
  job_wf job ->
  (forall id ty, num_steps job < MAX_JOB_STEPS -> find_step job id = None -> 0 <= id < 0x80000000 ->
     let '(r, job') := job_graph_add_step id ty job in
     r = 0 /\ job_wf job' /\ num_steps job' = num_steps job + 1 /\ (settled job -> settled job')) /\
  (forall step d,
     let '(r, job') := job_graph_add_dep step d job in
     job_wf job' /\
     (r = -1 /\ job' = job \/
      r = 0 /\ exists k, find_step job step = Some k /\ is_Some (find_step job d) /\
        deps_of (step_at job' k) = deps_of (step_at job k) ++ [d] /\
        (forall i, 0 <= i < num_steps job -> i <> k -> step_at job' i = step_at job i))).
Proof.
  intros Hw. split.
  - intros id ty Hn Hf Hid. destruct (add_step_spec job id ty Hw Hn Hf Hid) as (H1 & H2 & H3 & _ & H5).
    by destruct (job_graph_add_step id ty job).
  - intros step d. pose proof (add_dep_spec job step d Hw) as Hd.
    destruct (job_graph_add_dep step d job) as [r job'].
    destruct Hd as (H1 & _ & [?|(-> & k & Hk & Hd & _ & Hl & Ho & _)]); split; try done; [by left|].
    right. split; [done|]. by exists k.
Qed.

(** An empty job and the diamond 1 -> {2, 3} -> 4. *)
Definition empty_job : job_graph_t :=
  job_graph_init 9 (JobGraph 0 0 (repeat inhabitant 32) 0 (repeat inhabitant 64) 0 0 0).

Definition diamond : job_graph_t :=
  let add id ty job := snd (job_graph_add_step id ty job) in
  let dep a b job := snd (job_graph_add_dep a b job) in
  dep 4 3 (dep 4 2 (dep 3 1 (dep 2 1
    (add 4 STEP_TYPE_CONTROL (add 1 STEP_TYPE_IO (add 3 STEP_TYPE_COMPUTE
      (add 2 STEP_TYPE_COMPUTE empty_job))))))).

Lemma empty_job_wf : job_wf empty_job.
Proof.
  split.
  6: { intros i Hi. unfold step_at, zget. change (steps empty_job) with (repeat (A := job_step_t) inhabitant 32).
       rewrite list_lookup_total_alt. destruct (repeat _ _ !! _) as [x|] eqn:E; [|reflexivity].
       apply list_elem_of_lookup_2, list_elem_of_In, repeat_spec in E. by subst x. }
  all: try (intros i; intros; change (num_steps empty_job) with 0 in *; lia).
  - reflexivity.
  - change (num_steps empty_job) with 0. unfold MAX_JOB_STEPS. lia.
Qed.

Lemma job_graph_build_wf_witness :
  job_wf (snd (job_graph_add_step 2 STEP_TYPE_COMPUTE empty_job)) /\
  fst (job_graph_add_step 2 STEP_TYPE_COMPUTE empty_job) = 0.
Proof.
  destruct (job_graph_build_wf empty_job empty_job_wf) as [Hadd _].
  specialize (Hadd 2 STEP_TYPE_COMPUTE ltac:(vm_compute; reflexivity) ltac:(vm_compute; reflexivity)
                ltac:(lia)).
  destruct (job_graph_add_step 2 STEP_TYPE_COMPUTE empty_job) as [r job'].
  destruct Hadd as (-> & Hw & _). split; [exact Hw|reflexivity].
Defined.

Lemma add_step_wf job id ty :
  job_wf job -> (num_steps job <? MAX_JOB_STEPS) = true -> find_step job id = None ->
  0 <= id < 0x80000000 -> job_wf (snd (job_graph_add_step id ty job)).
Proof. intros Hw Hn%Z.ltb_lt Hf Hid. by apply add_step_spec. Qed.

Lemma add_dep_wf job step d : job_wf job -> job_wf (snd (job_graph_add_dep step d job)).
Proof.
  intros Hw. pose proof (add_dep_spec job step d Hw) as Hd.
  destruct (job_graph_add_dep step d job). by destruct Hd.
Qed.

(** A check of [settled]. *)
Definition settledb (job : job_graph_t) : bool :=
  forallb (fun i => negb (completed (step_at job i) =? 0) || negb (all_done job (step_at job i))
                    || negb (ready (step_at job i) =? 0)) (seqZ 0 (num_steps job)).

Lemma settledb_ok job : settledb job = true -> settled job.
Proof.
  unfold settledb. rewrite forallb_forall. intros H i Hi Hc Ha.
  specialize (H i ltac:(apply list_elem_of_In, elem_of_seqZ; lia)).
  rewrite Hc, Ha in H. cbn in H. by apply negb_true_iff, Z.eqb_neq in H.
Qed.

Definition acyclicb (job : job_graph_t) (rank : Z -> nat) : bool :=
  forallb (fun i => forallb (fun d => Nat.ltb (rank d) (rank (s_id (step_at job i))))
                      (deps_of (step_at job i))) (seqZ 0 (num_steps job)).

Lemma acyclicb_ok job rank : acyclicb job rank = true -> acyclic job rank.
Proof.
  unfold acyclicb. rewrite forallb_forall. intros H i d Hi Hd.
  specialize (H i ltac:(apply list_elem_of_In, elem_of_seqZ; lia)).
  rewrite forallb_forall in H. apply Nat.ltb_lt, H. by apply list_elem_of_In.
Qed.

Lemma diamond_wf : job_wf diamond /\ settled diamond.
Proof.
  split; [|apply settledb_ok; vm_compute; reflexivity].
  unfold diamond. do 4 apply add_dep_wf.
  do 4 (apply add_step_wf; [|vm_compute; reflexivity|vm_compute; reflexivity|lia]).
  apply empty_job_wf.
Qed.

(** C4: the scheduler's loop over any well-formed job ends within 32 turns, one
    per step.  It runs each step at most once, after all of its dependencies, and
    completes exactly the steps it runs; if moreover the job is settled (a step not
    completed and with no dependency left is ready) and its dependencies have no
    cycle, it completes every step. *)
Theorem job_run_complete (job : job_graph_t) :
  job_wf job ->
  exists l job', run_loop 32 job = Some (l, job') /\ NoDup l /\ same_graph job job' /\
    (forall id, id ∈ l <-> dep_done job id = false /\ dep_done job' id = true) /\
    (forall l1 x l2, l = l1 ++ x :: l2 ->
       exists i, find_step job x = Some i /\
         forall d, d ∈ deps_of (step_at job i) -> d ∈ l1 \/ dep_done job d = true) /\
    (settled job -> forall rank, acyclic job rank ->
       forall i, 0 <= i < num_steps job -> completed (step_at job' i) <> 0).
Proof.
  intros Hw. destruct (run_loop_ok 32 job Hw) as (l & job' & E & Hro).
  { unfold todo. pose proof (count_range_bounds 0 (num_steps job) (fun i => completed (step_at job i) =? 0)).
    pose proof (jw_num job Hw). unfold MAX_JOB_STEPS in *. lia. }
  exists l, job'. split; [done|]. split; [apply Hro|]. split; [apply Hro|].
  split; [apply (ro_done _ _ _ Hro)|]. split; [apply (ro_order _ _ _ Hro)|].
  intros Hset rank Hac. by apply (stuck_done job job' l rank).
Qed.

Lemma job_run_complete_witness :
  exists job', run_loop 32 diamond = Some ([1; 2; 3; 4], job') /\
    forall i, 0 <= i < 4 -> completed (step_at job' i) <> 0.
Proof.
  destruct diamond_wf as [Hw Hset].
  destruct (job_run_complete diamond Hw) as (l & job' & E & _ & _ & _ & _ & Hall).
  exists job'. split.
  - assert (El : l = [1; 2; 3; 4]); [|rewrite <- El; exact E].
    transitivity (from_option fst [] (run_loop 32 diamond)); [by rewrite E|vm_compute; reflexivity].
  - apply (Hall Hset (fun id => if id =? 1 then 0%nat else if id =? 4 then 2%nat else 1%nat)).
    apply acyclicb_ok. vm_compute. reflexivity.
Defined.

(** Two steps that share the id 5: [job_graph_add_step] accepts both. *)
Definition twins : job_graph_t :=
  snd (job_graph_add_step 5 STEP_TYPE_IO (snd (job_graph_add_step 5 STEP_TYPE_IO empty_job))).

(** With two steps of one id the loop never ends: the second is always
    ready and the first is the one marked completed. *)
Theorem job_duplicate_ids_diverge : forall fuel, run_loop fuel twins = None.
Proof.
  set (j1 := job_graph_mark_completed 5 twins).
  assert (H1 : forall fuel, run_loop fuel j1 = None).
  { assert (N : job_graph_next_ready j1 = 5) by (vm_compute; reflexivity).
    assert (F : find_step j1 (u32 5) = Some 0) by (vm_compute; reflexivity).
    assert (M : job_graph_mark_completed (u32 5) j1 = j1) by (vm_compute; reflexivity).
    induction fuel as [|fuel IH]; cbn [run_loop]; rewrite N; [done|].
    rewrite F, M, IH. done. }
  assert (N : job_graph_next_ready twins = 5) by (vm_compute; reflexivity).
  assert (F : find_step twins (u32 5) = Some 0) by (vm_compute; reflexivity).
  intros [|fuel]; cbn [run_loop]; rewrite N; [done|]. rewrite F.
  change (job_graph_mark_completed (u32 5) twins) with j1. by rewrite H1.
Qed.

(** The memory metrics: the totals are the (32-bit) sums of the tensor
    sizes in KB, all tensors and pinned ones; each step's working set is the sum
    of its registered inputs and outputs; the peak is the largest working set. *)
Theorem job_memory_metrics (job : job_graph_t) :
  zlen (steps job) = MAX_JOB_STEPS -> 0 <= num_steps job <= MAX_JOB_STEPS ->
  0 <= num_tensors job <= zlen (tensors job) ->
  let job' := job_graph_compute_memory job in
  let ts := take (Z.to_nat (num_tensors job)) (tensors job) in
  total_memory_kb job' = u32 (zsum (size_kb <$> ts)) /\
  pinned_memory_kb job'
  = u32 (zsum (size_kb <$> List.filter (fun t => negb (pinned t =? 0)) ts)) /\
  (forall i, 0 <= i < num_steps job ->
     working_set_kb (step_at job' i) = step_mem job (step_at job i) /\
     step_mem job (step_at job i) <= peak_memory_kb job') /\
  (peak_memory_kb job' = 0 \/
   exists i, 0 <= i < num_steps job /\ peak_memory_kb job' = step_mem job (step_at job i)).
Proof.
  intros Hl Hn Ht. unfold job_graph_compute_memory. rewrite totals_loop by done.
  pose proof (measure_loop job Hl Hn) as Hm.
  destruct (for_range 0 (num_steps job) measure_step (job, 0)) as [j' peak].
  destruct Hm as (_ & H1 & H2). done.
Qed.

Lemma job_memory_metrics_witness :
  let job := snd (job_graph_step_add_input 2 7
    (snd (job_graph_add_tensor 7 TENSOR_DTYPE_FP16 1000 1 0 diamond))) in
  let job' := job_graph_compute_memory job in
  total_memory_kb job' = 2 /\ pinned_memory_kb job' = 2 /\ peak_memory_kb job' = 2.
Proof.
  intros job job'.
  destruct (job_memory_metrics job) as (H1 & H2 & _);
    [vm_compute; reflexivity|split; vm_compute; discriminate|split; vm_compute; discriminate|].
  split; [unfold job'; rewrite H1; vm_compute; reflexivity|].
  split; [unfold job'; rewrite H2; vm_compute; reflexivity|vm_compute; reflexivity].
Defined.
