(* ===== verification/Contracts.v ===== *)
(** kernel/contracts.c and contracts.h, kernel/api/contract_registry.c and
    kernel/api/oracle.c: resource contracts.

    A contract is the C struct; the operations take it together with the rest
    of the kernel [A], of which they use the flight recorder ([Trace]) and the
    page allocator ([PageAlloc]).  The registry holds pointers to contracts: the
    structs live in a store [contracts] by address, the registry is a table of
    addresses, and [on_contract] runs an operation on the struct an address
    points to, so that a charge is seen by a later lookup. *)

From S2P Require Import Prelude Mem Trace Pmm ZAlloc JobGraph.

Inductive contract_priority_t :=
  CONTRACT_PRIORITY_LOW | CONTRACT_PRIORITY_NORMAL | CONTRACT_PRIORITY_HIGH | CONTRACT_PRIORITY_REALTIME.
Inductive contract_state_t := CONTRACT_STATE_OK | CONTRACT_STATE_WARNED | CONTRACT_STATE_SAFE_MODE.
Inductive admit_result_t :=
  ADMIT_OK | ADMIT_REJECT_MEMORY | ADMIT_REJECT_CPU | ADMIT_REJECT_PRIORITY | ADMIT_REJECT_NO_RESOURCES.
Inductive verdict_t := VERDICT_PASS | VERDICT_THROTTLE | VERDICT_KILL.

#[export] Instance contract_state_eq : EqDecision contract_state_t.
Proof. solve_decision. Defined.

Definition state_code (s : contract_state_t) : Z :=
  match s with CONTRACT_STATE_OK => 0 | CONTRACT_STATE_WARNED => 1 | CONTRACT_STATE_SAFE_MODE => 2 end.
Definition admit_code (r : admit_result_t) : Z :=
  match r with
  | ADMIT_OK => 0 | ADMIT_REJECT_MEMORY => 1 | ADMIT_REJECT_CPU => 2
  | ADMIT_REJECT_PRIORITY => 3 | ADMIT_REJECT_NO_RESOURCES => 4
  end.

Record task_contract_t := TaskContract {
  cpu_budget_us : Z;
  memory_kb : Z;
  accel_slots : Z;
  prio : contract_priority_t;
  preferred_node : Z;
  tier_hint : Z;
  cpu_used_us : Z;
  mem_used_kb : Z;
  cpu_violations : Z;
  mem_violations : Z;
  c_state : contract_state_t;
  c_job_id : Z
}.
#[export] Instance task_contract_eta : Eta task_contract_t := fun c =>
  TaskContract (cpu_budget_us c) (memory_kb c) (accel_slots c) (prio c) (preferred_node c)
    (tier_hint c) (cpu_used_us c) (mem_used_kb c) (cpu_violations c) (mem_violations c)
    (c_state c) (c_job_id c).

Definition contract_state_name (s : contract_state_t) : string :=
  match s with
  | CONTRACT_STATE_OK => "OK"
  | CONTRACT_STATE_WARNED => "WARNED"
  | CONTRACT_STATE_SAFE_MODE => "SAFE_MODE"
  end.

Definition admit_result_name (r : admit_result_t) : string :=
  match r with
  | ADMIT_OK => "OK"
  | ADMIT_REJECT_MEMORY => "REJECT_MEMORY"
  | ADMIT_REJECT_CPU => "REJECT_CPU"
  | ADMIT_REJECT_PRIORITY => "REJECT_PRIORITY"
  | ADMIT_REJECT_NO_RESOURCES => "REJECT_NO_RESOURCES"
  end.

Section Contracts.
Context {A : Type} `{Trace A} `{PageAlloc A}.
Implicit Types (c : task_contract_t) (a : A).

Definition contract_set_state (new : contract_state_t) (c : task_contract_t) (a : A)
  : task_contract_t * A :=
  if decide (c_state c = new) then (c, a)
  else
    let old := c_state c in
    let c := c{{ c_state := new }} in
    let a := trace_log TRACE_EVT_CONTRACT_STATE_CHANGE (c_job_id c) (state_code old)
               (state_code new) a in
    let a := if decide (new = CONTRACT_STATE_SAFE_MODE)
             then trace_log TRACE_EVT_CONTRACT_SAFE_MODE (c_job_id c) 0
                    (cpu_violations c +u mem_violations c) a
             else a in
    (c, a).

(** The state machine of the three places that detect a violation: [count]
    violations so far, [limit] to enter safe mode. *)
Definition contract_escalate (count limit : Z) (c : task_contract_t) (a : A)
  : task_contract_t * A :=
  match c_state c with
  | CONTRACT_STATE_OK => contract_set_state CONTRACT_STATE_WARNED c a
  | CONTRACT_STATE_WARNED =>
      if limit <=? count then contract_set_state CONTRACT_STATE_SAFE_MODE c a else (c, a)
  | CONTRACT_STATE_SAFE_MODE => (c, a)
  end.

Definition contract_charge_cpu (usec : Z) (c : task_contract_t) (a : A)
  : Z * (task_contract_t * A) :=
  let c := c{{ cpu_used_us ::= fun x => x +u usec }} in
  if cpu_budget_us c <? cpu_used_us c then
    let c := c{{ cpu_violations ::= fun x => x +u 1 }} in
    let a := trace_log TRACE_EVT_CONTRACT_BUDGET_EXCEED (c_job_id c) 0 (cpu_used_us c) a in
    (1, contract_escalate (cpu_violations c) 3 c a)
  else (0, (c, a)).

Definition contract_charge_memory (kb : Z) (c : task_contract_t) (a : A)
  : Z * (task_contract_t * A) :=
  let c := c{{ mem_used_kb ::= fun x => x +u kb }} in
  if memory_kb c <? mem_used_kb c then
    let c := c{{ mem_violations ::= fun x => x +u 1 }} in
    let a := trace_log TRACE_EVT_MEM_CONTRACT_EXCEED (c_job_id c) 0 (mem_used_kb c) a in
    (1, contract_escalate (mem_violations c) 2 c a)
  else (0, (c, a)).

Definition page_kb : Z := PAGE_SIZE / 1024.

Definition node_pref (preferred : Z) : Z :=
  if preferred =? NUMA_NODE_LOCAL then ZNODE_LOCAL
  else if preferred =? NUMA_NODE_REMOTE then ZNODE_REMOTE
  else ZNODE_ANY.

Definition contract_alloc_page (c : task_contract_t) (a : A) : Z * (task_contract_t * A) :=
  if decide (c_state c = CONTRACT_STATE_SAFE_MODE) then
    (0, (c, trace_log TRACE_EVT_MEM_ALLOC_FAIL (c_job_id c) 0 0 a))
  else if memory_kb c <? (mem_used_kb c +u page_kb) then
    let c := c{{ mem_violations ::= fun x => x +u 1 }} in
    let a := trace_log TRACE_EVT_MEM_CONTRACT_EXCEED (c_job_id c) 0 (mem_used_kb c +u page_kb) a in
    (0, contract_escalate (mem_violations c) 2 c a)
  else
    let '(result, a) := alloc_page (node_pref (preferred_node c)) a in
    if negb (r_addr result =? 0) then
      let c := c{{ mem_used_kb ::= fun x => x +u page_kb }} in
      (u32 (r_addr result),
       (c, trace_log TRACE_EVT_MEM_ALLOC (c_job_id c) (r_node result) 1 a))
    else (u32 (r_addr result), (c, a)).

Definition contract_free_page (addr : Z) (c : task_contract_t) (a : A) : task_contract_t * A :=
  if addr =? 0 then (c, a)
  else
    let node := get_node a addr in
    let a := free_page addr a in
    let c := if page_kb <=? mem_used_kb c then c{{ mem_used_kb ::= fun x => x -u page_kb }} else c in
    (c, trace_log TRACE_EVT_MEM_FREE (c_job_id c) node 1 a).

Definition contract_can_continue (c : task_contract_t) : Z :=
  if decide (c_state c = CONTRACT_STATE_SAFE_MODE) then 0 else 1.

(** The CPU estimate of a step. *)
Definition step_cost (ty : step_type_t) : Z :=
  match ty with
  | STEP_TYPE_COMPUTE => 1000
  | STEP_TYPE_COLLECTIVE => 3000
  | STEP_TYPE_IO => 2000
  | STEP_TYPE_CONTROL => 100
  end.

Definition estimated_cpu_us (jg : job_graph_t) : Z :=
  for_range 0 (num_steps jg) (fun i e => e +u step_cost (s_type (zget (steps jg) i))) 0.

Definition contract_admit_job (c : task_contract_t) (jg : job_graph_t) (a : A)
  : admit_result_t * A :=
  if memory_kb c <? peak_memory_kb jg then
    (ADMIT_REJECT_MEMORY,
     trace_log TRACE_EVT_JOB_REJECT (j_id jg) (admit_code ADMIT_REJECT_MEMORY)
       (peak_memory_kb jg) a)
  else if memory_kb c <? pinned_memory_kb jg then
    (ADMIT_REJECT_MEMORY,
     trace_log TRACE_EVT_JOB_REJECT (j_id jg) (admit_code ADMIT_REJECT_MEMORY)
       (pinned_memory_kb jg) a)
  else
    let available_kb := memory_kb c -u mem_used_kb c in
    if available_kb <? peak_memory_kb jg then
      (ADMIT_REJECT_NO_RESOURCES,
       trace_log TRACE_EVT_JOB_REJECT (j_id jg) (admit_code ADMIT_REJECT_NO_RESOURCES)
         available_kb a)
    else
      let est := estimated_cpu_us jg in
      let a := if cpu_budget_us c <? est
               then trace_log TRACE_EVT_CONTRACT_BUDGET_WARN (j_id jg) 0 est a else a in
      (ADMIT_OK, trace_log TRACE_EVT_JOB_ADMIT (j_id jg) (peak_memory_kb jg) est a).
End Contracts.

(** ** The registry *)

Definition CONTRACT_REGISTRY_MAX : Z := 64.

(** The contracts in memory by address, the registry's table of addresses (0 is
    NULL), and the rest of the kernel. *)
Record cworld (A : Type) := CWorld {
  contracts : gmap Z task_contract_t;
  contract_registry : list Z;
  contract_registry_count : Z;
  cw_kernel : A
}.
Arguments CWorld {A}.
Arguments contracts {A}.
Arguments contract_registry {A}.
Arguments contract_registry_count {A}.
Arguments cw_kernel {A}.
#[export] Instance cworld_eta A : Eta (cworld A) := fun w =>
  CWorld (contracts w) (contract_registry w) (contract_registry_count w) (cw_kernel w).

Section Registry.
Context {A : Type} `{Trace A}.
Implicit Types w : cworld A.

(** Runs an operation on the struct at [p]; [None] is a bad pointer. *)
Definition on_contract {R} (p : Z) (f : task_contract_t -> A -> R * (task_contract_t * A))
    (w : cworld A) : option (R * cworld A) :=
  c ← contracts w !! p;
  let '(r, (c, a)) := f c (cw_kernel w) in
  Some (r, w{{ contracts ::= fun m => <[p := c]> m; cw_kernel := a }}).

Definition job_of (w : cworld A) (p : Z) : option Z := c_job_id <$> contracts w !! p.

(** Is slot [i] of the registry a contract of job [id]? *)
Definition slot_has (w : cworld A) (id i : Z) : bool :=
  let p := zget (contract_registry w) i in
  negb (p =? 0) && bool_decide (job_of w p = Some id).

Definition contract_register (p : Z) (w : cworld A) : cworld A :=
  match contracts w !! p with
  | None => w    (* NULL *)
  | Some c =>
      match find_range 0 (contract_registry_count w) (slot_has w (c_job_id c)) with
      | Some i => w{{ contract_registry ::= fun l => zset l i p }}
      | None =>
          if contract_registry_count w <? CONTRACT_REGISTRY_MAX
          then w{{ contract_registry ::= fun l => zset l (contract_registry_count w) p;
                   contract_registry_count ::= fun n => n +u 1 }}
          else w
      end
  end.

Definition contract_lookup (w : cworld A) (job_id : Z) : option Z :=
  match find_range 0 (contract_registry_count w) (slot_has w job_id) with
  | Some i => Some (zget (contract_registry w) i)
  | None => None
  end.

Definition contract_apply (p : Z) (w : cworld A) : option (cworld A) :=
  c ← contracts w !! p;
  let c := c{{ cpu_used_us := 0; mem_used_kb := 0; cpu_violations := 0; mem_violations := 0;
               c_state := CONTRACT_STATE_OK }} in
  let w := contract_register p w{{ contracts ::= fun m => <[p := c]> m }} in
  let c := c{{ preferred_node := match prio c with
                                 | CONTRACT_PRIORITY_REALTIME => NUMA_NODE_LOCAL
                                 | _ => NUMA_NODE_REMOTE
                                 end }} in
  Some w{{ contracts ::= fun m => <[p := c]> m;
           cw_kernel ::= trace_log TRACE_EVT_CONTRACT_APPLY (c_job_id c) 0 (cpu_budget_us c) }}.

Definition get_job_verdict (w : cworld A) (job_id : Z) : verdict_t :=
  match contract_lookup w (u32 job_id) with
  | None => VERDICT_PASS
  | Some p =>
      match c_state <$> contracts w !! p with
      | Some CONTRACT_STATE_OK => VERDICT_PASS
      | Some CONTRACT_STATE_WARNED => VERDICT_THROTTLE
      | _ => VERDICT_KILL
      end
  end.
End Registry.

(** ** The state machine *)

(** The operations of a running contract, as one relation. *)
Inductive contract_step {A} `{Trace A} `{PageAlloc A}
  : task_contract_t * A -> task_contract_t * A -> Prop :=
  | cs_cpu usec c a : contract_step (c, a) (snd (contract_charge_cpu usec c a))
  | cs_memory kb c a : contract_step (c, a) (snd (contract_charge_memory kb c a))
  | cs_alloc c a : contract_step (c, a) (snd (contract_alloc_page c a))
  | cs_free addr c a : contract_step (c, a) (contract_free_page addr c a).

Section ContractFacts.
Context {A : Type} `{Trace A} `{PageAlloc A}.
Implicit Types (c : task_contract_t) (a : A).

(** What a contract asks for, as the job's author set it and the placement chose. *)
Definition budgets c := (cpu_budget_us c, memory_kb c, accel_slots c, prio c, preferred_node c, tier_hint c).

(** What no operation changes, and how the state may move. *)
Record advances c c' : Prop := {
  av_job : c_job_id c' = c_job_id c;
  av_budgets : budgets c' = budgets c;
  av_state : state_code (c_state c) <= state_code (c_state c');
  av_one : state_code (c_state c') <= state_code (c_state c) + 1
}.

Lemma advances_refl c : advances c c.
Proof. split; try done; lia. Qed.

Lemma set_state_eq new c a :
  fst (contract_set_state new c a) = c{{ c_state := new }}.
Proof. unfold contract_set_state. destruct (decide (c_state c = new)) as [E|]; [|done]. destruct c; cbn in *. by subst. Qed.

Lemma escalate_state count limit c a :
  let c' := fst (contract_escalate count limit c a) in
  c' = c{{ c_state := match c_state c with
                      | CONTRACT_STATE_OK => CONTRACT_STATE_WARNED
                      | CONTRACT_STATE_WARNED =>
                          if limit <=? count then CONTRACT_STATE_SAFE_MODE else CONTRACT_STATE_WARNED
                      | CONTRACT_STATE_SAFE_MODE => CONTRACT_STATE_SAFE_MODE
                      end }}.
Proof.
  unfold contract_escalate. destruct (c_state c) eqn:E; rewrite ?set_state_eq; try done;
    [destruct (limit <=? count); rewrite ?set_state_eq; [done|]|]; destruct c; cbn in *; by subst.
Qed.

Lemma escalate_advances count limit c0 c a :
  advances c0 c -> c_state c = c_state c0 -> advances c0 (fst (contract_escalate count limit c a)).
Proof.
  intros [J B S O] E. rewrite escalate_state. split; [exact J|exact B| |];
    cbn [c_state]; rewrite E; destruct (c_state c0); try (destruct (_ <=? _)); cbn; lia.
Qed.

Lemma escalate_pair count limit c0 c a c' a' :
  advances c0 c -> c_state c = c_state c0 ->
  contract_escalate count limit c a = (c', a') -> advances c0 c'.
Proof.
  intros Ha Hs E. pose proof (escalate_advances count limit c0 c a Ha Hs) as Hx. by rewrite E in Hx.
Qed.

Lemma step_advances c a c' a' : contract_step (c, a) (c', a') -> advances c c'.
Proof.
  intros Hs. remember (c, a) as x eqn:Ex. remember (c', a') as y eqn:Ey.
  destruct Hs as [usec c0 a0|kb c0 a0|c0 a0|addr c0 a0]; injection Ex as -> ->;
    revert Ey; unfold contract_charge_cpu, contract_charge_memory, contract_alloc_page, contract_free_page.
  - destruct (_ <? _); cbn [snd].
    + apply escalate_pair; [split; cbn; (done || lia)|done].
    + intros [= <- _]. split; cbn; (done || lia).
  - destruct (_ <? _); cbn [snd].
    + apply escalate_pair; [split; cbn; (done || lia)|done].
    + intros [= <- _]. split; cbn; (done || lia).
  - destruct (decide _); [intros [= <- _]; apply advances_refl|].
    destruct (_ <? _); cbn [snd].
    + apply escalate_pair; [split; cbn; (done || lia)|done].
    + destruct (alloc_page _ a) as [r a1]. destruct (negb _); intros [= <- _];
        [split; cbn; (done || lia)|apply advances_refl].
  - destruct (addr =? 0); [intros [= <- _]; apply advances_refl|].
    destruct (_ <=? _); intros [= <- _]; [split; cbn; (done || lia)|apply advances_refl].
Qed.

Lemma run_monotone c a c' a' :
  rtc contract_step (c, a) (c', a') ->
  c_job_id c' = c_job_id c /\ budgets c' = budgets c /\
  state_code (c_state c) <= state_code (c_state c').
Proof.
  intros Hr. remember (c, a) as x eqn:Ex. remember (c', a') as y eqn:Ey. revert c a Ex.
  induction Hr as [x|x [c1 a1] y Hs _ IH]; intros c a ->; [injection Ey as -> _; split; [done|]; split; [done|lia]|].
  destruct (IH Ey c1 a1 eq_refl) as (J & M & S). apply step_advances in Hs as [J1 M1 S1 _].
  split; [congruence|]. split; [congruence|lia].
Qed.

(** ** Memory accounting *)

Lemma alloc_page_cases c a :
  0 <= mem_used_kb c -> mem_used_kb c <= memory_kb c -> memory_kb c <= 0xFFFFFFF0 ->
  let '(addr, (c', a')) := contract_alloc_page c a in
  mem_used_kb c' = mem_used_kb c /\
    (c_state c = CONTRACT_STATE_SAFE_MODE \/ memory_kb c < mem_used_kb c + 4 \/
     r_addr (fst (alloc_page (node_pref (preferred_node c)) a)) = 0) /\ addr = 0 \/
  mem_used_kb c' = mem_used_kb c + 4 /\ mem_used_kb c' <= memory_kb c /\
    addr = u32 (r_addr (fst (alloc_page (node_pref (preferred_node c)) a))) /\
    r_addr (fst (alloc_page (node_pref (preferred_node c)) a)) <> 0.
Proof.
  intros H1 H2 H3. unfold contract_alloc_page.
  destruct (decide _) as [E|E]; [left; split; [done|]; split; [by left|done]|].
  change page_kb with 4. rewrite (u32_small (mem_used_kb c + 4)) by (unfold is_u32; lia).
  destruct (Z.ltb_spec (memory_kb c) (mem_used_kb c + 4)).
  - match goal with |- context [contract_escalate ?n ?l ?d ?b] =>
      pose proof (escalate_state n l d b) as Hc; destruct (contract_escalate n l d b) as [c' a'] end.
    cbn [fst] in Hc. rewrite Hc. left. split; [done|]. split; [right; by left|done].
  - destruct (alloc_page _ a) as [r a1] eqn:Ea. cbn [fst]. destruct (Z.eqb_spec (r_addr r) 0) as [Er|Er].
    + cbn [negb]. left. split; [done|]. split; [by right; right|]. by rewrite Er.
    + cbn [negb]. right. cbn -[u32 Z.add]. rewrite u32_small by (unfold is_u32; lia).
      split; [done|]. split; [lia|done].
Qed.
End ContractFacts.

(** ** The registry finds what was registered *)

Record registry_ok {A} (w : cworld A) : Prop := {
  rg_len : zlen (contract_registry w) = CONTRACT_REGISTRY_MAX;
  rg_count : 0 <= contract_registry_count w <= CONTRACT_REGISTRY_MAX
}.

Section RegistryFacts.
Context {A : Type} `{Trace A}.
Implicit Types w : cworld A.

Lemma register_lookup w p c :
  registry_ok w -> p <> 0 -> contracts w !! p = Some c ->
  contract_registry_count w < CONTRACT_REGISTRY_MAX \/ is_Some (contract_lookup w (c_job_id c)) ->
  let w' := contract_register p w in
  registry_ok w' /\ contracts w' = contracts w /\ cw_kernel w' = cw_kernel w /\
  contract_lookup w' (c_job_id c) = Some p.
Proof.
  intros [Hl Hn] Hp Hc Hroom. unfold contract_register, CONTRACT_REGISTRY_MAX in *. rewrite Hc.
  assert (Hself : forall r n, slot_has (CWorld (contracts w) r n (cw_kernel w)) (c_job_id c) =
    fun i => negb (zget r i =? 0) && bool_decide (job_of w (zget r i) = Some (c_job_id c))) by done.
  assert (Hjob : bool_decide (job_of w p = Some (c_job_id c)) = true)
    by (apply bool_decide_eq_true_2; unfold job_of; by rewrite Hc).
  destruct (find_range 0 (contract_registry_count w) (slot_has w (c_job_id c))) as [i|] eqn:E.
  - apply find_range_Some in E as (Hi & _ & Hmin). cbv zeta.
    split; [split; cbn; rewrite ?zlen_zset; done|]. split; [done|]. split; [done|].
    unfold contract_lookup. cbn -[u32 Z.add zget zset find_range].
    rewrite (find_range_intro 0 (contract_registry_count w) _ i); [by rewrite zget_zset_eq by lia|done| |].
    + rewrite Hself, zget_zset_eq by lia. by rewrite (proj2 (Z.eqb_neq p 0)), Hjob.
    + intros j Hj. rewrite Hself, zget_zset_ne by lia. by apply Hmin.
  - destruct Hroom as [Hroom|[q Hq]].
    2:{ unfold contract_lookup in Hq. by rewrite E in Hq. }
    rewrite (proj2 (Z.ltb_lt _ _)) by done. cbv zeta.
    assert (Hu : contract_registry_count w +u 1 = contract_registry_count w + 1)
      by (apply u32_small; unfold is_u32; lia).
    split; [split; cbn -[u32 Z.add]; rewrite ?zlen_zset, ?Hu; unfold CONTRACT_REGISTRY_MAX; lia|].
    split; [done|]. split; [done|].
    unfold contract_lookup. cbn -[u32 Z.add zget zset find_range]. rewrite Hu.
    rewrite (find_range_intro 0 _ _ (contract_registry_count w)); [by rewrite zget_zset_eq by lia|lia| |].
    + rewrite Hself, zget_zset_eq by lia. by rewrite (proj2 (Z.eqb_neq p 0)), Hjob.
    + intros j Hj. rewrite Hself, zget_zset_ne by lia. by apply (find_range_None _ _ _ E).
Qed.

(** Rewriting a contract in place keeps every job id. *)
Lemma job_of_insert w w' p c c' q :
  contracts w !! p = Some c -> c_job_id c' = c_job_id c ->
  contracts w' = <[p := c']> (contracts w) -> job_of w' q = job_of w q.
Proof.
  intros Hc Hj Hw. unfold job_of. rewrite Hw. destruct (decide (q = p)) as [->|].
  - rewrite lookup_insert_eq, Hc. cbn. by rewrite Hj.
  - by rewrite lookup_insert_ne.
Qed.

(** Lookups depend on the job ids only. *)
Lemma lookup_same_jobs w w' id :
  contract_registry w' = contract_registry w ->
  contract_registry_count w' = contract_registry_count w ->
  (forall p, job_of w' p = job_of w p) ->
  contract_lookup w' id = contract_lookup w id.
Proof.
  intros Hr Hn Hj. unfold contract_lookup. rewrite Hr, Hn.
  erewrite find_range_ext; [done|]. intros i _. unfold slot_has. by rewrite Hr, Hj.
Qed.

Lemma apply_registers w w1 p c :
  registry_ok w -> p <> 0 -> contracts w !! p = Some c ->
  contract_registry_count w < CONTRACT_REGISTRY_MAX \/ is_Some (contract_lookup w (c_job_id c)) ->
  contract_apply p w = Some w1 ->
  exists c1, contracts w1 !! p = Some c1 /\ c_job_id c1 = c_job_id c /\
    c_state c1 = CONTRACT_STATE_OK /\ contract_lookup w1 (c_job_id c) = Some p.
Proof.
  intros Hok Hp Hc Hroom Happ. unfold contract_apply in Happ. rewrite Hc in Happ.
  cbn [mbind option_bind] in Happ. set (c0 := c{{ cpu_used_us := 0; mem_used_kb := 0;
    cpu_violations := 0; mem_violations := 0; c_state := CONTRACT_STATE_OK }}) in *.
  set (w0 := w{{ contracts ::= fun m => <[p := c0]> m }}) in *.
  assert (Hj0 : forall q, job_of w0 q = job_of w q) by (intros q; by apply (job_of_insert w w0 p c c0)).
  assert (Hc0 : contracts w0 !! p = Some c0) by apply lookup_insert_eq.
  destruct (register_lookup w0 p c0) as (_ & Hc1 & _ & Hl1); [by destruct Hok|done|done| |].
  { destruct Hroom as [?|Hr]; [by left|right]. by rewrite (lookup_same_jobs w w0). }
  forget (contract_register p w0) as wr. injection Happ as <-.
  eexists. split; [apply lookup_insert_eq|]. split; [done|]. split; [done|].
  rewrite (lookup_same_jobs wr); [exact Hl1|done|done|].
  intros q. eapply job_of_insert; [rewrite Hc1; exact Hc0| |reflexivity]. done.
Qed.
End RegistryFacts.

(** ** Properties *)

(** C37: over any sequence of charges, allocations and frees the enforcement state
    only rises, one level per operation: OK, WARNED, SAFE_MODE is the only way
    through.  The job and what the contract asks for never change: its CPU and
    memory budgets, accelerator slots, priority, node and tier.  Safe mode is final,
    and in it every allocation is refused without reaching the allocator and
    execution may not continue. *)
Theorem contract_state_machine {A} `{Trace A} `{PageAlloc A} (c c' : task_contract_t) (a a' : A) :
  rtc contract_step (c, a) (c', a') ->
  (c_job_id c' = c_job_id c /\ budgets c' = budgets c /\
   state_code (c_state c) <= state_code (c_state c')) /\
  (forall c2 a2, contract_step (c', a') (c2, a2) ->
     state_code (c_state c2) <= state_code (c_state c') + 1) /\
  (c_state c = CONTRACT_STATE_SAFE_MODE ->
   c_state c' = CONTRACT_STATE_SAFE_MODE /\ contract_can_continue c' = 0 /\
   contract_alloc_page c' a'
   = (0, (c', trace_log TRACE_EVT_MEM_ALLOC_FAIL (c_job_id c) 0 0 a'))).
Proof.
  intros Hr. destruct (run_monotone _ _ _ _ Hr) as (J & M & S). split; [done|].
  split; [intros c2 a2 Hs; by apply step_advances in Hs as []|].
  intros Hsafe. rewrite Hsafe in S.
  assert (E : c_state c' = CONTRACT_STATE_SAFE_MODE) by (destruct (c_state c'); cbn in S; lia || done).
  split; [done|]. unfold contract_can_continue, contract_alloc_page. rewrite E, J.
  by rewrite !decide_True.
Qed.

(** A contract of 8 KB and 100 us, over the unbounded log and no memory. *)
Definition demo_contract : task_contract_t :=
  TaskContract 100 8 0 CONTRACT_PRIORITY_NORMAL 1 0 0 0 0 0 CONTRACT_STATE_OK 7.
Definition demo_kernel : zalloc (list trace_rec) := Zalloc (pmm_bss []) 0 0 ∅.

Lemma contract_state_machine_witness :
  let '(c1, a1) := snd (contract_charge_cpu 500 demo_contract demo_kernel) in
  rtc contract_step (demo_contract, demo_kernel) (c1, a1) /\
  c_state c1 = CONTRACT_STATE_WARNED /\ memory_kb c1 = 8.
Proof.
  destruct (snd (contract_charge_cpu 500 demo_contract demo_kernel)) as [c1 a1] eqn:E.
  assert (Hr : rtc contract_step (demo_contract, demo_kernel) (c1, a1))
    by (rewrite <- E; apply rtc_once, cs_cpu).
  split; [exact Hr|]. split; [injection E as <- _; reflexivity|].
  destruct (contract_state_machine demo_contract c1 demo_kernel a1 Hr) as ((_ & Hb & _) & _). by injection Hb.
Defined.

(** Allocations and frees of a contract, with the number of pages it holds. *)
Inductive page_step {A} `{Trace A} `{PageAlloc A}
  : task_contract_t * A * Z -> task_contract_t * A * Z -> Prop :=
  | ps_alloc c a n addr c' a' :
      contract_alloc_page c a = (addr, (c', a')) ->
      page_step (c, a, n) (c', a', if addr =? 0 then n else n + 1)
  | ps_free c a n addr c' a' :
      0 < n -> addr <> 0 -> contract_free_page addr c a = (c', a') ->
      page_step (c, a, n) (c', a', n - 1).

Lemma page_step_ok {A} `{Trace A} `{PageAllocLaws A} c a n c' a' n' :
  mem_used_kb c = 4 * n -> 0 <= n -> 4 * n <= memory_kb c -> memory_kb c <= 0xFFFFFFF0 ->
  page_step (A := A) (c, a, n) (c', a', n') ->
  mem_used_kb c' = 4 * n' /\ 0 <= n' /\ 4 * n' <= memory_kb c' /\ memory_kb c' = memory_kb c.
Proof.
  intros Hu Hn Hm Hmax Hs. inversion Hs as [? ? ? addr ? ? E|? ? ? addr ? ? Hn' Ha E]; subst; clear Hs.
  - pose proof (alloc_page_cases c a ltac:(lia) ltac:(lia) Hmax) as Hc. rewrite E in Hc.
    assert (Hk : memory_kb c' = memory_kb c).
    { assert (Hst : contract_step (c, a) (c', a'))
        by (pose proof (cs_alloc c a) as Hx; by rewrite E in Hx).
      apply step_advances in Hst as [_ Hbud _ _]. by injection Hbud. }
    destruct Hc as [(Hmu & _ & ->)|(Hmu & Hle & Haddr & Hne)].
    + cbn. lia.
    + assert (addr <> 0); [|rewrite (proj2 (Z.eqb_neq addr 0)) by done; cbv iota; lia].
      rewrite Haddr, u32_small; [done|]. apply alloc_page_addr.
  - revert E. unfold contract_free_page. rewrite (proj2 (Z.eqb_neq addr 0)) by done.
    change page_kb with 4. rewrite (proj2 (Z.leb_le 4 _)) by lia. intros [= <- _].
    cbn -[u32 Z.sub Z.mul]. rewrite u32_small by (unfold is_u32; lia). lia.
Qed.

(** A contract that only allocates and frees pages is charged exactly 4 KB
    for each page it holds and never holds more than its memory budget. *)
Theorem contract_page_accounting {A} `{Trace A} `{PageAllocLaws A} c a c' a' n :
  mem_used_kb c = 0 -> 0 <= memory_kb c <= 0xFFFFFFF0 ->
  rtc (page_step (A := A)) (c, a, 0) (c', a', n) ->
  mem_used_kb c' = 4 * n /\ 4 * n <= memory_kb c.
Proof.
  intros Hu Hm Hr. remember (c, a, 0) as x eqn:Ex. remember (c', a', n) as y eqn:Ey.
  assert (Hinv : forall c0 a0 n0, x = (c0, a0, n0) -> mem_used_kb c0 = 4 * n0 -> 0 <= n0 ->
            4 * n0 <= memory_kb c0 -> memory_kb c0 = memory_kb c ->
            mem_used_kb c' = 4 * n /\ 4 * n <= memory_kb c).
  2:{ by apply (Hinv c a 0 Ex); lia. }
  clear Ex. induction Hr as [x|x [[c1 a1] n1] y Hs _ IH]; intros c0 a0 n0 -> H1' H2' H3' H4'.
  - injection Ey as -> -> ->. lia.
  - destruct (page_step_ok _ _ _ _ _ _ H1' H2' H3' ltac:(lia) Hs) as (E1 & E2 & E3 & E4).
    apply (IH Ey c1 a1 n1); (done || lia).
Qed.

Lemma contract_page_accounting_witness :
  exists c' a' n, rtc (page_step (A := zalloc (list trace_rec)))
    (demo_contract, demo_kernel, 0) (c', a', n) /\ mem_used_kb c' = 4 * n.
Proof.
  destruct (contract_alloc_page demo_contract demo_kernel) as [addr [c' a']] eqn:E.
  assert (Hr : rtc page_step (demo_contract, demo_kernel, 0) (c', a', if addr =? 0 then 0 else 0 + 1))
    by (apply rtc_once; by apply ps_alloc).
  exists c', a', (if addr =? 0 then 0 else 0 + 1). split; [exact Hr|].
  apply (contract_page_accounting demo_contract demo_kernel c' a' _ eq_refl ltac:(cbn; lia) Hr).
Defined.

(** C40: admission control: a job is admitted iff its peak and its pinned memory
    fit the budget and its peak fits what the 32-bit subtraction leaves of it.
    Within budget that is the memory still free; a contract already over its
    memory budget admits every job that would fit an unused one, because the
    subtraction wraps. *)
Theorem contract_admission {A} `{Trace A} (c : task_contract_t) (jg : job_graph_t) (a : A) :
  is_u32 (memory_kb c) -> is_u32 (mem_used_kb c) ->
  let fits := peak_memory_kb jg <= memory_kb c /\ pinned_memory_kb jg <= memory_kb c in
  (mem_used_kb c <= memory_kb c ->
     (fst (contract_admit_job c jg a) = ADMIT_OK <->
      fits /\ peak_memory_kb jg <= memory_kb c - mem_used_kb c)) /\
  (memory_kb c < mem_used_kb c -> (fst (contract_admit_job c jg a) = ADMIT_OK <-> fits)).
Proof.
  intros Hm Hu fits. unfold is_u32 in *. unfold contract_admit_job, fits.
  destruct (Z.ltb_spec (memory_kb c) (peak_memory_kb jg)); [cbn; split; (split; [done|lia])|].
  destruct (Z.ltb_spec (memory_kb c) (pinned_memory_kb jg)); [cbn; split; (split; [done|lia])|].
  split; intros Hrel.
  - rewrite u32_small by (unfold is_u32; lia).
    destruct (Z.ltb_spec (memory_kb c - mem_used_kb c) (peak_memory_kb jg)); cbn; (split; [done|lia]) || (split; [|done]); intros _; lia.
  - assert (E : memory_kb c -u mem_used_kb c = memory_kb c - mem_used_kb c + 0x100000000)
      by (unfold u32; symmetry; apply Z.mod_unique with (-1); lia).
    rewrite E. rewrite (proj2 (Z.ltb_ge _ _)) by lia. cbn. split; [|done]. intros _. lia.
Qed.

Lemma contract_admission_witness :
  fst (contract_admit_job (demo_contract{{ mem_used_kb := 4 }}) diamond ([] : list trace_rec)) = ADMIT_OK.
Proof.
  destruct (contract_admission (demo_contract{{ mem_used_kb := 4 }}) diamond ([] : list trace_rec))
    as [H1 _]; [vm_compute; split; [discriminate|reflexivity]|vm_compute; split; [discriminate|reflexivity]|].
  apply H1; [vm_compute; discriminate|]. split; [split|]; vm_compute; discriminate.
Defined.

(** The verdict a state means. *)
Definition verdict_of (s : contract_state_t) : verdict_t :=
  match s with
  | CONTRACT_STATE_OK => VERDICT_PASS
  | CONTRACT_STATE_WARNED => VERDICT_THROTTLE
  | CONTRACT_STATE_SAFE_MODE => VERDICT_KILL
  end.

(** The oracle follows the contract.  Once [contract_apply] has registered a
    contract (the registry has room, or knows the job), the verdict for its job
    is the one its current state means: PASS when applied, and after any
    operation on it, through the registry's pointer, THROTTLE or KILL as soon as
    the operation moves the state. *)
Theorem oracle_follows_contract {A} `{Trace A} {R} (w w1 w2 : cworld A) (p : Z) (c c2 : task_contract_t)
    (f : task_contract_t -> A -> R * (task_contract_t * A)) (r : R) :
  registry_ok w -> p <> 0 -> contracts w !! p = Some c -> is_u32 (c_job_id c) ->
  contract_registry_count w < CONTRACT_REGISTRY_MAX \/ is_Some (contract_lookup w (c_job_id c)) ->
  contract_apply p w = Some w1 ->
  on_contract p f w1 = Some (r, w2) -> contracts w2 !! p = Some c2 -> c_job_id c2 = c_job_id c ->
  get_job_verdict w1 (c_job_id c) = VERDICT_PASS /\
  get_job_verdict w2 (c_job_id c) = verdict_of (c_state c2).
Proof.
  intros Hok Hp Hc Hj Hroom Happ Hop Hc2 Hj2.
  destruct (apply_registers w w1 p c Hok Hp Hc Hroom Happ) as (c1 & Hw1 & Hj1 & Hs1 & Hl).
  unfold get_job_verdict. rewrite (u32_small _ Hj), Hl, Hw1. cbn [fmap option_fmap option_map].
  rewrite Hs1. split; [done|].
  unfold on_contract in Hop. rewrite Hw1 in Hop. cbn [mbind option_bind] in Hop.
  destruct (f c1 (cw_kernel w1)) as [r' [c2' a2]]. injection Hop as _ <-.
  assert (E : c2' = c2) by (cbn in Hc2; rewrite lookup_insert_eq in Hc2; congruence). subst c2'.
  rewrite (lookup_same_jobs w1), Hl by
    (done || (intros q; by apply (job_of_insert w1 _ p c1 c2); [|congruence|])).
  cbn. rewrite lookup_insert_eq. cbn. by destruct (c_state c2).
Qed.

Lemma oracle_follows_contract_witness :
  let w := CWorld {[ 0x1000 := demo_contract ]} (repeat 0 64) 0 ([] : list trace_rec) in
  exists w1 r w2, contract_apply 0x1000 w = Some w1 /\
    on_contract 0x1000 (contract_charge_cpu 500) w1 = Some (r, w2) /\
    get_job_verdict w2 7 = VERDICT_THROTTLE.
Proof.
  intros w. destruct (contract_apply 0x1000 w) as [w1|] eqn:E1; [|discriminate].
  destruct (on_contract 0x1000 (contract_charge_cpu 500) w1) as [[r w2]|] eqn:E2.
  2:{ injection E1 as <-. discriminate. }
  exists w1, r, w2. split; [reflexivity|]. split; [exact E2|].
  destruct (contracts w2 !! 0x1000) as [c2|] eqn:E3.
  2:{ injection E1 as <-. injection E2 as _ <-. vm_compute in E3. discriminate. }
  assert (Hs : c_state c2 = CONTRACT_STATE_WARNED /\ c_job_id c2 = 7).
  { injection E1 as <-. injection E2 as _ <-. vm_compute in E3. injection E3 as <-. split; reflexivity. }
  destruct Hs as [Hs Hj].
  destruct (oracle_follows_contract w w1 w2 0x1000 demo_contract c2 (contract_charge_cpu 500) r)
    as [_ Hv]; try assumption; try reflexivity.
  - split; [reflexivity|split; vm_compute; discriminate].
  - discriminate.
  - split; vm_compute; congruence.
  - left. reflexivity.
  - rewrite Hs in Hv. exact Hv.
Defined.
