(* ===== verification/IpcProto.v ===== *)
(** kernel/ipc/ipc_proto.h: the layout of the shared memory between the kernel
    and the Linux bridge.

    A C struct is its list of fields (name, width, array length); [offsetof] and
    [sizeof] compute the layout the x86_64 ABI gives it (natural alignment).
    The constants below name the offsets the models of kernel/ipc read and write
    at, and the [_layout] lemmas check them against the structs. *)

From S2P Require Import Prelude Mem.

(** ** C struct layout *)

Definition cfield : Type := string * (Z * Z).       (* name, width, elements *)
Definition cstruct : Type := list cfield.

Definition f8 (n : string) : cfield := (n, (1, 1)).
Definition f16 (n : string) : cfield := (n, (2, 1)).
Definition f32 (n : string) : cfield := (n, (4, 1)).
Definition f64 (n : string) : cfield := (n, (8, 1)).
Definition arr (k : Z) (f : cfield) : cfield := let '(n, (w, _)) := f in (n, (w, k)).

Definition align (w a : Z) : Z := (a + w - 1) / w * w.

(** The offset of each field, in order, the first one at or after [at]. *)
Fixpoint offsets (s : cstruct) (at_ : Z) : list Z :=
  match s with
  | [] => []
  | (_, (w, k)) :: s' => align w at_ :: offsets s' (align w at_ + w * k)
  end.

Fixpoint size_from (s : cstruct) (at_ : Z) : Z :=
  match s with
  | [] => at_
  | (_, (w, k)) :: s' => size_from s' (align w at_ + w * k)
  end.

Definition sizeof (s : cstruct) : Z :=
  align (foldr (fun '(_, (w, _)) => Z.max w) 1 s) (size_from s 0).

(** ** Magic numbers and sizes *)

Abbreviation IPC_MAGIC := 0x51DECA9E.
Abbreviation IPC_RSP_MAGIC := 0x52535030.
Abbreviation IPC_HEAP_MAGIC := 0x48454150.
Abbreviation IPC_STREAM_MAGIC := 0x5354524D.
Abbreviation IPC_DOORBELL_MAGIC := 0x444F4F52.
Abbreviation BLOB_MAGIC := 0x424C4F42.
Abbreviation MESH_MAGIC := 0x4D455348.
Abbreviation IPC_RING_SIZE := 1024.

Abbreviation IPC_CMD_RING_OFFSET := 0x00000.
Abbreviation IPC_RSP_RING_OFFSET := 0x08000.
Abbreviation IPC_DOORBELL_OFFSET := 0x10000.
Abbreviation IPC_HEAP_CTL_OFFSET := 0x10100.
Abbreviation IPC_HEAP_DATA_OFFSET := 0x11000.
Abbreviation IPC_HEAP_DATA_SIZE := 0xED000.
Abbreviation IPC_OBS_RING_BYTES := 0x1000.
Abbreviation IPC_ACT_RING_BYTES := 0x1000.
Abbreviation IPC_OBS_RING_OFFSET := 0xFE000.
Abbreviation IPC_ACT_RING_OFFSET := 0xFF000.
Abbreviation IPC_OBS_RING_SIZE := 64.
Abbreviation IPC_ACT_RING_SIZE := 64.
Abbreviation IPC_MESH_OFFSET := 0x10800.
Abbreviation MES_MAX_NODES := 8.

Lemma ring_offsets :
  IPC_OBS_RING_OFFSET = IPC_HEAP_DATA_OFFSET + IPC_HEAP_DATA_SIZE /\
  IPC_ACT_RING_OFFSET = IPC_OBS_RING_OFFSET + IPC_OBS_RING_BYTES.
Proof. done. Qed.

Abbreviation HEAP_BLOCK_SIZE := 64.
Abbreviation HEAP_MAX_BLOCKS := 15168.
Abbreviation HEAP_BITMAP_SIZE := 1896.

Lemma heap_sizes :
  HEAP_BLOCK_SIZE = Z.shiftl 1 6 /\
  HEAP_MAX_BLOCKS = IPC_HEAP_DATA_SIZE / HEAP_BLOCK_SIZE /\
  HEAP_BITMAP_SIZE = (HEAP_MAX_BLOCKS + 7) / 8.
Proof. done. Qed.

(** ** Commands, responses, flags *)

Abbreviation CMD_PING := 0x0001.
Abbreviation CMD_PRINT := 0x0002.
Abbreviation CMD_RUN_MODEL := 0x0010.
Abbreviation CMD_ENV_RESET := 0x0100.
Abbreviation CMD_ENV_STEP := 0x0101.
Abbreviation CMD_IFR_PERSIST := 0x0200.
Abbreviation CMD_ARB_EPISODE := 0x0201.
Abbreviation CMD_TELEMETRY_POLL := 0x0300.
Abbreviation RSP_OK := 0x8000.
Abbreviation RSP_ERROR := 0x8001.
Abbreviation RSP_BUSY := 0x8002.
Abbreviation DOORBELL_FLAG_IRQ_ENABLED := 0x01.
Abbreviation DOORBELL_FLAG_PENDING := 0x02.
Abbreviation BLOB_TYPE_RAW := 0x00.
Abbreviation BLOB_TYPE_TENSOR := 0x01.
Abbreviation BLOB_TYPE_MODEL_REF := 0x02.
Abbreviation BLOB_TYPE_RESULT := 0x03.
Abbreviation NODE_STATUS_OFFLINE := 0x00.
Abbreviation NODE_STATUS_ALIVE := 0x01.
Abbreviation NODE_STATUS_BUSY := 0x02.

Inductive dtype := DTYPE_FLOAT32 | DTYPE_FLOAT16 | DTYPE_INT32 | DTYPE_INT16 | DTYPE_INT8 | DTYPE_UINT8.

Definition dtype_code (d : dtype) : Z :=
  match d with
  | DTYPE_FLOAT32 => 0 | DTYPE_FLOAT16 => 1 | DTYPE_INT32 => 2
  | DTYPE_INT16 => 3 | DTYPE_INT8 => 4 | DTYPE_UINT8 => 5
  end.

(** ** The structs *)

Definition doorbell_ctl_t : cstruct :=
  [f32 "magic"; f32 "version"; f32 "cmd_doorbell"; f32 "cmd_flags"; f32 "cmd_irq_count";
   f32 "rsp_doorbell"; f32 "rsp_flags"; f32 "rsp_irq_count"; f32 "cmd_writes"; f32 "rsp_writes";
   arr 54 (f32 "reserved")].

Definition ipc_packet_t : cstruct := [f16 "cmd"; f16 "flags"; f32 "payload_id"; f64 "timestamp"].

Definition ipc_response_t : cstruct := [f16 "status"; f16 "orig_cmd"; f32 "result"; f64 "timestamp"].

(** [data[]] is a flexible array member: it adds nothing to the size. *)
Definition ipc_ring_t : cstruct :=
  [f32 "magic"; f32 "head"; f32 "tail"; f32 "size"; arr 4 (f32 "reserved"); arr 0 (f64 "data")].

Definition ipc_rsp_ring_t : cstruct :=
  [f32 "magic"; f32 "head"; f32 "tail"; f32 "size"; arr 4 (f32 "reserved"); arr 0 (f64 "data")].

Definition stream_ring_t : cstruct :=
  [f32 "magic"; f32 "head"; f32 "tail"; f32 "size"; arr 4 (f32 "reserved")].

Definition obs_entry_t : cstruct :=
  [f32 "seq"; arr 4 (f32 "obs"); f32 "reward"; f32 "done"; f32 "model_id"].

Definition action_entry_t : cstruct :=
  [f32 "seq"; f16 "action"; f16 "flags"; f32 "ack_seq"; f32 "reserved"].

Definition heap_blob_t : cstruct :=
  [f32 "magic"; f16 "blob_id"; f8 "type"; f8 "flags"; f32 "size"; f32 "offset"; f32 "checksum";
   arr 3 (f32 "reserved")].

Definition tensor_header_t : cstruct :=
  [f8 "dtype"; f8 "ndim"; f16 "reserved"; arr 4 (f32 "shape"); arr 4 (f32 "strides")].

Definition heap_ctl_t : cstruct :=
  [f32 "magic"; f32 "version"; f32 "total_blocks"; f32 "free_blocks"; f32 "next_blob_id";
   arr 3 (f32 "reserved"); arr 0 (f8 "bitmap")].

Definition mesh_node_t : cstruct :=
  [f32 "node_id"; f32 "status"; f32 "cpu_load"; f64 "heartbeat"; f64 "jobs_completed";
   arr 4 (f32 "reserved")].

Definition mesh_table_t : cstruct :=
  [f32 "magic"; f32 "version"; f32 "active_nodes"; arr 5 (f32 "reserved"); arr 0 (f64 "nodes")].

(** ** The offsets the models use *)

Abbreviation DB_magic := 0.
Abbreviation DB_version := 4.
Abbreviation DB_cmd_doorbell := 8.
Abbreviation DB_cmd_flags := 12.
Abbreviation DB_cmd_irq_count := 16.
Abbreviation DB_rsp_doorbell := 20.
Abbreviation DB_rsp_flags := 24.
Abbreviation DB_rsp_irq_count := 28.
Abbreviation DB_cmd_writes := 32.
Abbreviation DB_rsp_writes := 36.

Abbreviation RING_magic := 0.
Abbreviation RING_head := 4.
Abbreviation RING_tail := 8.
Abbreviation RING_size := 12.
Abbreviation RING_data := 32.

Abbreviation BLOB_magic := 0.
Abbreviation BLOB_blob_id := 4.
Abbreviation BLOB_type := 6.
Abbreviation BLOB_flags := 7.
Abbreviation BLOB_size := 8.
Abbreviation BLOB_offset := 12.
Abbreviation BLOB_checksum := 16.
Abbreviation SIZEOF_heap_blob_t := 32.

Abbreviation TH_dtype := 0.
Abbreviation TH_ndim := 1.
Abbreviation TH_reserved := 2.
Abbreviation TH_shape := 4.
Abbreviation TH_strides := 20.
Abbreviation SIZEOF_tensor_header_t := 36.

Abbreviation HC_magic := 0.
Abbreviation HC_version := 4.
Abbreviation HC_total_blocks := 8.
Abbreviation HC_free_blocks := 12.
Abbreviation HC_next_blob_id := 16.
Abbreviation HC_bitmap := 32.

Abbreviation MT_magic := 0.
Abbreviation MT_version := 4.
Abbreviation MT_active_nodes := 8.
Abbreviation MT_nodes := 32.
Abbreviation MN_node_id := 0.
Abbreviation MN_status := 4.
Abbreviation MN_cpu_load := 8.
Abbreviation MN_heartbeat := 16.
Abbreviation SIZEOF_mesh_node_t := 48.

Lemma doorbell_layout :
  take 10 (offsets doorbell_ctl_t 0)
  = [DB_magic; DB_version; DB_cmd_doorbell; DB_cmd_flags; DB_cmd_irq_count; DB_rsp_doorbell;
     DB_rsp_flags; DB_rsp_irq_count; DB_cmd_writes; DB_rsp_writes].
Proof. reflexivity. Qed.

Lemma ring_layout :
  offsets ipc_ring_t 0 = [RING_magic; RING_head; RING_tail; RING_size; 16; RING_data] /\
  offsets ipc_rsp_ring_t 0 = [RING_magic; RING_head; RING_tail; RING_size; 16; RING_data] /\
  offsets stream_ring_t 0 = [RING_magic; RING_head; RING_tail; RING_size; 16] /\
  sizeof stream_ring_t = RING_data /\
  offsets ipc_packet_t 0 = [0; 2; 4; 8] /\ offsets ipc_response_t 0 = [0; 2; 4; 8].
Proof. repeat split; reflexivity. Qed.

Lemma blob_layout :
  offsets heap_blob_t 0
  = [BLOB_magic; BLOB_blob_id; BLOB_type; BLOB_flags; BLOB_size; BLOB_offset; BLOB_checksum; 20] /\
  sizeof heap_blob_t = SIZEOF_heap_blob_t /\
  offsets tensor_header_t 0 = [TH_dtype; TH_ndim; TH_reserved; TH_shape; TH_strides] /\
  sizeof tensor_header_t = SIZEOF_tensor_header_t /\
  offsets heap_ctl_t 0
  = [HC_magic; HC_version; HC_total_blocks; HC_free_blocks; HC_next_blob_id; 20; HC_bitmap].
Proof. repeat split; reflexivity. Qed.

Lemma mesh_layout :
  offsets mesh_node_t 0 = [MN_node_id; MN_status; MN_cpu_load; MN_heartbeat; 24; 32] /\
  sizeof mesh_node_t = SIZEOF_mesh_node_t /\
  offsets mesh_table_t 0 = [MT_magic; MT_version; MT_active_nodes; 12; MT_nodes].
Proof. repeat split; reflexivity. Qed.

(** ** The regions of the shared memory

    The bytes each user of the window touches: a struct at its offset and the
    array that follows it. *)

Record region := Region { rg_name : string; rg_lo : Z; rg_len : Z }.

Definition ipc_regions : list region :=
  [Region "cmd ring" IPC_CMD_RING_OFFSET (sizeof ipc_ring_t + IPC_RING_SIZE * sizeof ipc_packet_t);
   Region "rsp ring" IPC_RSP_RING_OFFSET
     (sizeof ipc_rsp_ring_t + IPC_RING_SIZE * sizeof ipc_response_t);
   Region "doorbell" IPC_DOORBELL_OFFSET (sizeof doorbell_ctl_t);
   Region "heap ctl" IPC_HEAP_CTL_OFFSET (sizeof heap_ctl_t + HEAP_BITMAP_SIZE);
   Region "mesh" IPC_MESH_OFFSET (sizeof mesh_table_t + MES_MAX_NODES * sizeof mesh_node_t);
   Region "heap data" IPC_HEAP_DATA_OFFSET IPC_HEAP_DATA_SIZE;
   Region "obs ring" IPC_OBS_RING_OFFSET
     (sizeof stream_ring_t + IPC_OBS_RING_SIZE * sizeof obs_entry_t);
   Region "act ring" IPC_ACT_RING_OFFSET
     (sizeof stream_ring_t + IPC_ACT_RING_SIZE * sizeof action_entry_t)].

Definition IPC_SHARED_MEM_SIZE : Z := 0x100000.

Definition in_region (r : region) (a : Z) : Prop := rg_lo r <= a < rg_lo r + rg_len r.

(** ** ENV_STEP payloads *)

Definition ENV_STEP_PACK (action ack_id : Z) : Z :=
  Z.lor (u32 (Z.shiftl (u32 ack_id) 16)) (Z.land (u32 action) 0xFFFF).
Definition ENV_STEP_UNPACK_ACTION (payload : Z) : Z := u16 (Z.land payload 0xFFFF).
Definition ENV_STEP_UNPACK_ACK (payload : Z) : Z := u16 (Z.shiftr payload 16).

(** ** Theorems *)

Lemma ipc_regions_eq :
  ipc_regions =
  [Region "cmd ring" 0 0x4020; Region "rsp ring" 0x8000 0x4020; Region "doorbell" 0x10000 0x100;
   Region "heap ctl" 0x10100 0x788; Region "mesh" 0x10800 0x1A0;
   Region "heap data" 0x11000 0xED000; Region "obs ring" 0xFE000 0x820;
   Region "act ring" 0xFF000 0x420].
Proof. reflexivity. Qed.

(** Every region of the protocol lies inside the 1 MB window, and two
    distinct regions share no byte, with exactly one exception: the mesh table
    and the heap control block, whose allocation bitmap runs to 0x10888, past
    the mesh table's offset 0x10800. *)
Theorem ipc_regions_layout :
  (forall r a, In r ipc_regions -> in_region r a -> 0 <= a < IPC_SHARED_MEM_SIZE) /\
  (forall r1 r2 a, In r1 ipc_regions -> In r2 ipc_regions -> rg_name r1 <> rg_name r2 ->
     in_region r1 a -> in_region r2 a ->
     (rg_name r1 = "heap ctl"%string /\ rg_name r2 = "mesh"%string \/
      rg_name r1 = "mesh"%string /\ rg_name r2 = "heap ctl"%string) /\
     0x10800 <= a < 0x10888) /\
  (forall a, 0x10800 <= a < 0x10888 ->
     exists r1 r2, In r1 ipc_regions /\ In r2 ipc_regions /\ rg_name r1 <> rg_name r2 /\
       in_region r1 a /\ in_region r2 a).
Proof.
  rewrite ipc_regions_eq. unfold in_region, IPC_SHARED_MEM_SIZE. split; [|split].
  - intros r a Hr Ha. cbn in Hr. repeat destruct Hr as [<-|Hr]; cbn in Ha; done || lia.
  - intros r1 r2 a H1 H2 Hne Ha1 Ha2. cbn in H1, H2.
    repeat destruct H1 as [<-|H1]; try done;
      repeat destruct H2 as [<-|H2]; try done; cbn in Ha1, Ha2;
      first [by destruct Hne | lia | split; [cbn; tauto|lia]].
  - intros a Ha. do 2 eexists.
    split; [do 3 right; left; reflexivity|]. split; [do 4 right; left; reflexivity|].
    cbn. split; [done|lia].
Qed.

Lemma ENV_STEP_PACK_eq action ack_id : ENV_STEP_PACK action ack_id = u16 ack_id * 0x10000 + u16 action.
Proof.
  unfold ENV_STEP_PACK, u16, u32. change 0xFFFF with (Z.ones 16). rewrite Z.land_ones by lia.
  rewrite Z.shiftl_mul_pow2 by lia. change (2 ^ 16) with 0x10000.
  replace (ack_id mod 4294967296 * 65536 mod 4294967296) with (ack_id mod 65536 * 65536)
    by (Z.div_mod_to_equations; lia).
  replace (action mod 4294967296 mod 65536) with (action mod 65536)
    by (Z.div_mod_to_equations; lia).
  set (k := ack_id mod 65536). set (x := action mod 65536).
  assert (Hx : 0 <= x < 2 ^ 16) by (subst x; apply Z.mod_pos_bound; lia).
  rewrite <- Z.add_lor_land.
  replace (Z.land (k * 65536) x) with 0; [lia|]. symmetry.
  apply Z.bits_inj'. intros n Hn. rewrite Z.land_spec, Z.bits_0.
  change 65536 with (2 ^ 16). rewrite Z.mul_pow2_bits by lia.
  destruct (Z.lt_ge_cases n 16) as [Hlt|Hge].
  - by rewrite Z.testbit_neg_r by lia.
  - rewrite <- (Z.mod_small x (2 ^ 16)), Z.mod_pow2_bits_high by lia. apply andb_false_r.
Qed.

(** The command payload of CMD_ENV_STEP carries a 16-bit action and a
    16-bit blob id: unpacking a packed payload returns both (cut to 16 bits),
    packing what was unpacked from a 32-bit payload returns the payload, and no
    payload is wider than 32 bits. *)
Theorem env_step_payload :
  (forall action ack_id,
     ENV_STEP_UNPACK_ACTION (ENV_STEP_PACK action ack_id) = u16 action /\
     ENV_STEP_UNPACK_ACK (ENV_STEP_PACK action ack_id) = u16 ack_id /\
     is_u32 (ENV_STEP_PACK action ack_id)) /\
  (forall p, is_u32 p ->
     ENV_STEP_PACK (ENV_STEP_UNPACK_ACTION p) (ENV_STEP_UNPACK_ACK p) = p).
Proof.
  unfold ENV_STEP_UNPACK_ACTION, ENV_STEP_UNPACK_ACK.
  split; [intros action ack_id|intros p Hp]; rewrite ENV_STEP_PACK_eq;
    change 0xFFFF with (Z.ones 16); rewrite Z.land_ones, Z.shiftr_div_pow2 by lia;
    change (2 ^ 16) with 0x10000; [split; [|split]|]; cint.
Qed.

Lemma env_step_payload_witness :
  let p := 0xBEEF0003 in
  ENV_STEP_UNPACK_ACTION p = 3 /\ ENV_STEP_PACK 3 0xBEEF = p /\
  ENV_STEP_PACK (ENV_STEP_UNPACK_ACTION p) (ENV_STEP_UNPACK_ACK p) = p.
Proof.
  split; [reflexivity|]. split; [reflexivity|]. apply env_step_payload. unfold is_u32. lia.
Defined.
