(* ===== verification/SharedHeap.v ===== *)
(** kernel/ipc/heap.c: the shared heap, the blob allocator in the ivshmem window
    that passes tensors and records between the kernel and the Linux bridge.

    The control block, the bitmap, the blob headers and the payloads live in the
    shared window, a [mem]; the file's static variables (the two pointers and the
    blob table) are the other fields of [heap].  Addresses are the kernel's, so
    NULL is 0; pointer arithmetic is not cut (the window is far from the end of
    the 64-bit space).  [heap_get_blob] scans the window by headers the other
    side can write, and need not return: its result is [None] when the scan is
    still running after [HEAP_MAX_BLOCKS] headers, more than there are. *)

From S2P Require Import Prelude Mem Bitmap IpcProto.

Abbreviation MAX_BLOBS := 256.

(** An entry of [blob_table]. *)
Record blob_entry := BlobEntry { be_blob_id : Z; be_offset : Z; be_blocks : Z }.
#[export] Instance blob_entry_eta : Eta blob_entry := fun e =>
  BlobEntry (be_blob_id e) (be_offset e) (be_blocks e).
#[export] Instance blob_entry_inhabited : Inhabited blob_entry := populate (BlobEntry 0 0 0).

Record heap := Heap {
  shm : mem;
  heap_ctl : Z;
  heap_data : Z;
  blob_table : list blob_entry;
  blob_count : Z
}.
#[export] Instance heap_eta : Eta heap := fun h =>
  Heap (shm h) (heap_ctl h) (heap_data h) (blob_table h) (blob_count h).

Record heap_stats_t := HeapStats {
  hs_total_bytes : Z;
  hs_free_bytes : Z;
  hs_used_bytes : Z;
  hs_total_blocks : Z;
  hs_free_blocks : Z;
  hs_blob_count : Z
}.

(** The statics before [heap_init], over whatever the window holds. *)
Definition heap_bss (m : mem) : heap := Heap m 0 0 (replicate (Z.to_nat MAX_BLOBS) inhabitant) 0.

Definition ctl_field (h : heap) (f : Z) : Z := ld32 (shm h) (heap_ctl h + f).
Definition set_ctl_field (f v : Z) (h : heap) : heap :=
  h{{ shm ::= fun m => st32 m (heap_ctl h + f) v }}.

Definition bitmap_set (h : heap) (block : Z) (m : mem) : mem :=
  bm_set (heap_ctl h + HC_bitmap) HEAP_MAX_BLOCKS block m.
Definition bitmap_clear (h : heap) (block : Z) (m : mem) : mem :=
  bm_clear (heap_ctl h + HC_bitmap) HEAP_MAX_BLOCKS block m.
Definition bitmap_test (h : heap) (block : Z) : Z :=
  bm_test (heap_ctl h + HC_bitmap) HEAP_MAX_BLOCKS (shm h) block.

(** The loop of [find_free_blocks] from block [i], [n] blocks to go. *)
Fixpoint scan_free (test : Z -> Z) (count : Z) (n : nat) (i start run : Z) : Z :=
  match n with
  | O => u32 (-1)
  | S n' =>
      if test i =? 0 then
        let start := if run =? 0 then i else start in
        let run := run +u 1 in
        if count <=? run then start else scan_free test count n' (i + 1) start run
      else scan_free test count n' (i + 1) start 0
  end.

Definition find_free_blocks (h : heap) (count : Z) : Z :=
  scan_free (bitmap_test h) count (Z.to_nat HEAP_MAX_BLOCKS) 0 0 0.

Definition compute_checksum (data : list Z) : Z :=
  foldl (fun sum b => Z.lxor (Z.lor (u32 (Z.shiftl sum 1)) (Z.shiftr sum 31)) b) 0 data.

Definition clear_bitmap (h : heap) : heap :=
  h{{ shm ::= for_range 0 HEAP_BITMAP_SIZE (fun i m => stb m (heap_ctl h + HC_bitmap + i) 0) }}.

Definition clear_table (t : list blob_entry) : list blob_entry :=
  for_range 0 MAX_BLOBS (fun i t => zset t i (zget t i){{ be_blob_id := 0 }}) t.

Definition heap_init (heap_base : Z) (h : heap) : heap :=
  if heap_base =? 0 then h
  else
    let h := h{{ heap_ctl := heap_base;
                 heap_data := heap_base + (IPC_HEAP_DATA_OFFSET - IPC_HEAP_CTL_OFFSET) }} in
    let h := set_ctl_field HC_magic IPC_HEAP_MAGIC h in
    let h := set_ctl_field HC_version 1 h in
    let h := set_ctl_field HC_total_blocks HEAP_MAX_BLOCKS h in
    let h := set_ctl_field HC_free_blocks HEAP_MAX_BLOCKS h in
    let h := set_ctl_field HC_next_blob_id 1 h in
    let h := clear_bitmap h in
    h{{ blob_count := 0; blob_table ::= clear_table }}.

Definition heap_down (h : heap) : bool :=
  (heap_ctl h =? 0) || negb (ctl_field h HC_magic =? IPC_HEAP_MAGIC).

(** [(size + sizeof(heap_blob_t) + HEAP_BLOCK_SIZE - 1) / HEAP_BLOCK_SIZE] *)
Definition blocks_for (size : Z) : Z :=
  (size +u SIZEOF_heap_blob_t +u HEAP_BLOCK_SIZE -u 1) / HEAP_BLOCK_SIZE.

Definition add_blob (blob_id offset blocks : Z) (h : heap) : heap :=
  if blob_count h <? MAX_BLOBS
  then h{{ blob_table := zset (blob_table h) (blob_count h) (BlobEntry blob_id offset blocks);
           blob_count := blob_count h +u 1 }}
  else h.

Definition write_header (blob blob_id type size offset : Z) (m : mem) : mem :=
  let m := st32 m (blob + BLOB_magic) BLOB_MAGIC in
  let m := st16 m (blob + BLOB_blob_id) blob_id in
  let m := st8 m (blob + BLOB_type) type in
  let m := st8 m (blob + BLOB_flags) 0 in
  let m := st32 m (blob + BLOB_size) size in
  let m := st32 m (blob + BLOB_offset) (offset +u SIZEOF_heap_blob_t) in
  st32 m (blob + BLOB_checksum) 0.

(** [blob_id = heap_ctl->next_blob_id++; if (heap_ctl->next_blob_id == 0) ...]:
    the counter is 32 bits wide, the id it is stored to 16. *)
Definition take_blob_id (h : heap) : Z * heap :=
  let id := u16 (ctl_field h HC_next_blob_id) in
  let h := set_ctl_field HC_next_blob_id (ctl_field h HC_next_blob_id +u 1) h in
  (id, if ctl_field h HC_next_blob_id =? 0 then set_ctl_field HC_next_blob_id 1 h else h).

(** [for (i = 0; i < blocks; i++) bitmap_set(start + i)], and the loop of
    [heap_free] that clears. *)
Definition mark_blocks (start blocks : Z) (h : heap) : heap :=
  h{{ shm ::= for_range 0 blocks (fun i => bitmap_set h (start +u i)) }}.
Definition clear_blocks (start blocks : Z) (h : heap) : heap :=
  h{{ shm ::= for_range 0 blocks (fun j => bitmap_clear h (start +u j)) }}.

Definition heap_alloc (size type : Z) (h : heap) : Z * heap :=
  if heap_down h then (0, h)
  else
    let blocks := blocks_for size in
    let start := find_free_blocks h blocks in
    if start =? u32 (-1) then (0, h)
    else
      let h := mark_blocks start blocks h in
      let h := set_ctl_field HC_free_blocks (ctl_field h HC_free_blocks -u blocks) h in
      let '(blob_id, h) := take_blob_id h in
      let offset := start *u HEAP_BLOCK_SIZE in
      let h := add_blob blob_id offset blocks h in
      (blob_id, h{{ shm ::= write_header (heap_data h + offset) blob_id type size offset }}).

Definition heap_free (blob_id : Z) (h : heap) : heap :=
  if (heap_ctl h =? 0) || (blob_id =? 0) then h
  else
    match find_range 0 (blob_count h)
            (fun i => be_blob_id (zget (blob_table h) i) =? blob_id) with
    | Some i =>
        let start := be_offset (zget (blob_table h) i) / HEAP_BLOCK_SIZE in
        let blocks := be_blocks (zget (blob_table h) i) in
        let h := clear_blocks start blocks h in
        let h := set_ctl_field HC_free_blocks (ctl_field h HC_free_blocks +u blocks) h in
        h{{ blob_table := zset (blob_table h) i (zget (blob_table h) (blob_count h -u 1));
            blob_count := blob_count h -u 1 }}
    | None => h
    end.

Definition blob_magic (h : heap) (blob : Z) : Z := ld32 (shm h) (blob + BLOB_magic).
Definition blob_id_of (h : heap) (blob : Z) : Z := ld16 (shm h) (blob + BLOB_blob_id).
Definition blob_type_of (h : heap) (blob : Z) : Z := ld8 (shm h) (blob + BLOB_type).
Definition blob_size_of (h : heap) (blob : Z) : Z := ld32 (shm h) (blob + BLOB_size).
Definition blob_offset_of (h : heap) (blob : Z) : Z := ld32 (shm h) (blob + BLOB_offset).

(** The slow path's loop over the headers.  [Some None] is the loop's end. *)
Fixpoint scan_heap (h : heap) (blob_id : Z) (fuel : nat) (offset : Z) : option (option Z) :=
  if offset <? IPC_HEAP_DATA_SIZE then
    match fuel with
    | O => None
    | S fuel =>
        let blob := heap_data h + offset in
        if blob_magic h blob =? BLOB_MAGIC then
          if blob_id_of h blob =? blob_id then Some (Some offset)
          else
            let blocks := blocks_for (blob_size_of h blob) in
            let offset := if 1 <? blocks then offset +u (blocks -u 1) *u HEAP_BLOCK_SIZE else offset in
            scan_heap h blob_id fuel (offset +u HEAP_BLOCK_SIZE)
        else scan_heap h blob_id fuel (offset +u HEAP_BLOCK_SIZE)
    end
  else Some None.

Definition cached (h : heap) (blob_id i : Z) : bool :=
  let e := zget (blob_table h) i in
  let blob := heap_data h + be_offset e in
  (be_blob_id e =? blob_id) && (blob_magic h blob =? BLOB_MAGIC) && (blob_id_of h blob =? blob_id).

Definition heap_get_blob (blob_id : Z) (h : heap) : option (Z * heap) :=
  if (heap_ctl h =? 0) || (blob_id =? 0) then Some (0, h)
  else
    match find_range 0 (blob_count h) (cached h blob_id) with
    | Some i => Some (heap_data h + be_offset (zget (blob_table h) i), h)
    | None =>
        r ← scan_heap h blob_id (Z.to_nat HEAP_MAX_BLOCKS) 0;
        match r with
        | Some offset =>
            let blob := heap_data h + offset in
            Some (blob, add_blob blob_id offset (blocks_for (blob_size_of h blob)) h)
        | None => Some (0, h)
        end
    end.

Definition heap_get_data (blob_id : Z) (h : heap) : option (Z * heap) :=
  '(blob, h) ← heap_get_blob blob_id h;
  Some (if blob =? 0 then (0, h) else (heap_data h + blob_offset_of h blob, h)).

Definition heap_get_stats (h : heap) : heap_stats_t :=
  if heap_down h then HeapStats 0 0 0 0 0 0
  else
    let total := ctl_field h HC_total_blocks in
    let free := ctl_field h HC_free_blocks in
    HeapStats (total *u HEAP_BLOCK_SIZE) (free *u HEAP_BLOCK_SIZE)
      (total *u HEAP_BLOCK_SIZE -u free *u HEAP_BLOCK_SIZE) total free (blob_count h).

Definition dtype_size (d : Z) : Z :=
  if d =? dtype_code DTYPE_FLOAT32 then 4
  else if d =? dtype_code DTYPE_FLOAT16 then 2
  else if d =? dtype_code DTYPE_INT32 then 4
  else if d =? dtype_code DTYPE_INT16 then 2
  else if d =? dtype_code DTYPE_INT8 then 1
  else if d =? dtype_code DTYPE_UINT8 then 1
  else 1.

(** [nelems]: the product of the first [ndim] dimensions, [shape i] the i-th. *)
Definition nelems (ndim : Z) (shape : Z -> Z) : Z :=
  for_range 0 ndim (fun i n => n *u shape i) 1.

(** The loop [for (i = ndim - 1; i >= 0; i--)] over the shape and strides, its
    [k]-th turn at [i = ndim - 1 - k], and the clearing of the rest. *)
Definition write_dims (ndim elem_size hdr : Z) (shape : Z -> Z) (m : mem) : mem :=
  let '(m, _) :=
    for_range 0 ndim (fun k '(m, stride) =>
      let i := ndim - 1 - k in
      let m := st32 m (hdr + TH_shape + 4 * i) (shape i) in
      let m := st32 m (hdr + TH_strides + 4 * i) stride in
      (m, stride *u shape i)) (m, elem_size) in
  for_range ndim 4 (fun i m =>
    let m := st32 m (hdr + TH_shape + 4 * i) 0 in
    st32 m (hdr + TH_strides + 4 * i) 0) m.

Definition write_tensor_header (dtype ndim hdr : Z) (shape : Z -> Z) (m : mem) : mem :=
  let m := st8 m (hdr + TH_dtype) dtype in
  let m := st8 m (hdr + TH_ndim) ndim in
  let m := st16 m (hdr + TH_reserved) 0 in
  write_dims ndim (dtype_size dtype) hdr shape m.

Definition tensor_bytes (dtype ndim : Z) (shape : Z -> Z) : Z :=
  SIZEOF_tensor_header_t +u nelems ndim shape *u dtype_size dtype.

(** [shape] is [None] for a NULL pointer. *)
Definition heap_alloc_tensor (dtype ndim : Z) (shape : option (Z -> Z)) (h : heap)
  : option (Z * heap) :=
  match shape with
  | None => Some (0, h)
  | Some shape =>
      if (ndim =? 0) || (4 <? ndim) then Some (0, h)
      else
        let '(blob_id, h) := heap_alloc (tensor_bytes dtype ndim shape) BLOB_TYPE_TENSOR h in
        if blob_id =? 0 then Some (0, h)
        else
          '(hdr, h) ← heap_get_data blob_id h;
          Some (blob_id, h{{ shm ::= write_tensor_header dtype ndim hdr shape }})
  end.

Definition th_dtype (h : heap) (hdr : Z) : Z := ld8 (shm h) (hdr + TH_dtype).
Definition th_ndim (h : heap) (hdr : Z) : Z := ld8 (shm h) (hdr + TH_ndim).
Definition th_shape (h : heap) (hdr i : Z) : Z := ld32 (shm h) (hdr + TH_shape + 4 * i).
Definition th_strides (h : heap) (hdr i : Z) : Z := ld32 (shm h) (hdr + TH_strides + 4 * i).

Definition heap_get_tensor_data (blob_id : Z) (h : heap) : option (Z * heap) :=
  '(blob, h) ← heap_get_blob blob_id h;
  if (blob =? 0) || negb (blob_type_of h blob =? BLOB_TYPE_TENSOR) then Some (0, h)
  else if negb (blob_magic h blob =? BLOB_MAGIC) then Some (0, h)
  else if IPC_HEAP_DATA_SIZE <? blob_offset_of h blob +u blob_size_of h blob then Some (0, h)
  else
    '(data, h) ← heap_get_data blob_id h;
    Some (
      if data =? 0 then (0, h)
      else if blob_size_of h blob <? SIZEOF_tensor_header_t then (0, h)
      else if 4 <? th_ndim h data then (0, h)
      else if blob_size_of h blob <?
                SIZEOF_tensor_header_t
                +u nelems (th_ndim h data) (th_shape h data) *u dtype_size (th_dtype h data)
      then (0, h)
      else (data + SIZEOF_tensor_header_t, h)).

(** [vmm_virt_to_phys] is the page-table walk of kernel/mm/vmm.c on the
    pointer cut to 32 bits. *)
Definition heap_get_blob_phys (vmm_virt_to_phys : Z -> Z) (blob_id : Z) (h : heap)
  : option (Z * heap) :=
  '(blob, h) ← heap_get_blob blob_id h;
  Some (if blob =? 0 then (0, h)
        else (vmm_virt_to_phys (u32 (heap_data h + blob_offset_of h blob)), h)).

Definition heap_get_blob_size (blob_id : Z) (h : heap) : option (Z * heap) :=
  '(blob, h) ← heap_get_blob blob_id h;
  Some (if blob =? 0 then (0, h) else (blob_size_of h blob, h)).

(** ** The search for free blocks *)

(** No run of [count] units fits below [hi]. *)
Definition no_run (test : Z -> Z) (count lo hi : Z) : Prop :=
  forall s, lo <= s -> s + count <= hi -> exists b, s <= b < s + count /\ test b <> 0.

Lemma scan_free_spec test count n i start run :
  0 <= run <= i -> run < count -> i + Z.of_nat n < 0x80000000 ->
  (0 < run -> start = i - run) ->
  (forall b, i - run <= b < i -> test b = 0) ->
  (0 < i - run -> test (i - run - 1) <> 0) ->
  no_run test count 0 i ->
  let r := scan_free test count n i start run in
  (0 <= r /\ r + count <= i + Z.of_nat n /\ (forall b, r <= b < r + count -> test b = 0) /\
   no_run test count 0 (r + count - 1)) \/
  (r = u32 (-1) /\ no_run test count 0 (i + Z.of_nat n)).
Proof.
  revert i start run; induction n as [|n IH]; intros i start run Hrun Hc Hi Hst Hfree Hb Hno r;
    subst r; cbn [scan_free].
  - right. rewrite Z.add_0_r. done.
  - destruct (Z.eqb_spec (test i) 0) as [Ht|Ht].
    + rewrite (u32_small (run + 1)) by (unfold is_u32; lia).
      assert (Hst' : (if run =? 0 then i else start) = i - run)
        by (destruct (Z.eqb_spec run 0); lia).
      rewrite Hst'. destruct (Z.leb_spec count (run + 1)) as [Hle|Hlt].
      * left. split; [lia|]. split; [lia|]. split.
        -- intros b ?. destruct (decide (b = i)) as [->|]; [done|]. apply Hfree. lia.
        -- intros s Hs1 Hs2. apply Hno; lia.
      * replace (i + Z.of_nat (S n)) with ((i + 1) + Z.of_nat n) by lia.
        apply IH; [lia|lia|lia|lia| |..].
        -- intros b ?. destruct (decide (b = i)) as [->|]; [done|]. apply Hfree. lia.
        -- replace (i + 1 - (run + 1) - 1) with (i - run - 1) by lia. intros. apply Hb. lia.
        -- intros s Hs1 Hs2. destruct (Z.le_gt_cases (s + count) i); [by apply Hno|].
           exists (i - run - 1). split; [lia|]. apply Hb. lia.
    + replace (i + Z.of_nat (S n)) with ((i + 1) + Z.of_nat n) by lia.
      apply IH; [lia|lia|lia|lia|lia| |].
      * intros _. by replace (i + 1 - 0 - 1) with i by lia.
      * intros s Hs1 Hs2. destruct (Z.le_gt_cases (s + count) i); [by apply Hno|].
        exists i. split; [lia|done].
Qed.

Definition blk_free (h : heap) (b : Z) : bool :=
  bm_free (heap_ctl h + HC_bitmap) HEAP_MAX_BLOCKS (shm h) b.

Lemma blk_free_test h b : blk_free h b = (bitmap_test h b =? 0).
Proof. reflexivity. Qed.

(** The first run of [count] free blocks. *)
Definition first_run (h : heap) (count r : Z) : Prop :=
  0 <= r /\ r + count <= HEAP_MAX_BLOCKS /\
  (forall b, r <= b < r + count -> blk_free h b = true) /\
  (forall s, 0 <= s < r -> exists b, s <= b < s + count /\ blk_free h b = false).

Definition no_space (h : heap) (count : Z) : Prop :=
  forall s, 0 <= s -> s + count <= HEAP_MAX_BLOCKS ->
    exists b, s <= b < s + count /\ blk_free h b = false.

Lemma run_not_no_space h count r : 1 <= count -> first_run h count r -> ~ no_space h count.
Proof.
  intros Hc (H0 & H1 & Hf & _) Hno. destruct (Hno r H0 H1) as (b & Hb & E).
  by rewrite (Hf b Hb) in E.
Qed.

Lemma find_free_blocks_spec h count :
  0 < count ->
  (first_run h count (find_free_blocks h count) /\
   (find_free_blocks h count =? u32 (-1)) = false) \/
  (find_free_blocks h count = u32 (-1) /\ no_space h count).
Proof.
  intros Hc. unfold find_free_blocks.
  destruct (scan_free_spec (bitmap_test h) count (Z.to_nat HEAP_MAX_BLOCKS) 0 0 0)
    as [(H0 & H1 & H2 & H3)|[H1 H2]]; try (intros; lia).
  - intros s Hs1 Hs2. lia.
  - left. split.
    + split; [done|]. split; [lia|]. split.
      * intros b Hb. by rewrite blk_free_test, (H2 b Hb).
      * intros s Hs. destruct (H3 s) as (b & Hb & Ht); [lia|lia|].
        exists b. split; [done|]. rewrite blk_free_test. by apply Z.eqb_neq.
    + apply Z.eqb_neq. change (u32 (-1)) with 0xFFFFFFFF. lia.
  - right. split; [done|]. intros s Hs1 Hs2. destruct (H2 s) as (b & Hb & Ht); [lia|lia|].
    exists b. split; [done|]. rewrite blk_free_test. by apply Z.eqb_neq.
Qed.

(** ** The invariant *)

Definition ent (h : heap) (i : Z) : blob_entry := zget (blob_table h) i.
Definition be_start (e : blob_entry) : Z := be_offset e / HEAP_BLOCK_SIZE.
Definition covers (e : blob_entry) (b : Z) : Prop := be_start e <= b < be_start e + be_blocks e.

(** A table entry names blocks in use that start with the blob's header. *)
Record entry_ok (h : heap) (e : blob_entry) : Prop := {
  e_id : 1 <= be_blob_id e < ctl_field h HC_next_blob_id;
  e_off : 0 <= be_start e /\ be_offset e = HEAP_BLOCK_SIZE * be_start e;
  e_blocks : 1 <= be_blocks e /\ be_start e + be_blocks e <= HEAP_MAX_BLOCKS;
  e_used b : covers e b -> blk_free h b = false;
  e_magic : blob_magic h (heap_data h + be_offset e) = BLOB_MAGIC;
  e_hid : blob_id_of h (heap_data h + be_offset e) = be_blob_id e;
  e_size : blob_size_of h (heap_data h + be_offset e) + 96 < 0x100000000;
  e_len : be_blocks e = blocks_for (blob_size_of h (heap_data h + be_offset e));
  e_data : blob_offset_of h (heap_data h + be_offset e) = be_offset e + SIZEOF_heap_blob_t
}.

Definition entries_sep (e1 e2 : blob_entry) : Prop :=
  be_blob_id e1 <> be_blob_id e2 /\
  (be_start e1 + be_blocks e1 <= be_start e2 \/ be_start e2 + be_blocks e2 <= be_start e1).

Record heap_ok (h : heap) : Prop := {
  ok_mem : mem_ok (shm h);
  ok_ctl : 0 < heap_ctl h;
  ok_data : heap_data h = heap_ctl h + 0xF00;
  ok_magic : ctl_field h HC_magic = IPC_HEAP_MAGIC;
  ok_total : ctl_field h HC_total_blocks = HEAP_MAX_BLOCKS;
  ok_next : 1 <= ctl_field h HC_next_blob_id <= 0x10000;
  ok_len : zlen (blob_table h) = MAX_BLOBS;
  ok_count : 0 <= blob_count h <= MAX_BLOBS;
  ok_entry i : 0 <= i < blob_count h -> entry_ok h (ent h i);
  ok_sep i j : 0 <= i < blob_count h -> 0 <= j < blob_count h -> i <> j ->
               entries_sep (ent h i) (ent h j);
  ok_used b : 0 <= b < HEAP_MAX_BLOCKS -> blk_free h b = false ->
              exists i, 0 <= i < blob_count h /\ covers (ent h i) b;
  ok_free : ctl_field h HC_free_blocks = count_range 0 HEAP_MAX_BLOCKS (blk_free h)
}.

Lemma blocks_for_small size :
  0 <= size -> size + 96 < 0x100000000 ->
  blocks_for size = (size + 95) / 64 /\ 1 <= blocks_for size.
Proof.
  intros H0 H1. unfold blocks_for.
  rewrite (u32_small (size + 32)) by (unfold is_u32; lia).
  rewrite (u32_small (size + 32 + 64)) by (unfold is_u32; lia).
  rewrite (u32_small (size + 32 + 64 - 1)) by (unfold is_u32; lia).
  replace (size + 32 + 64 - 1) with (size + 95) by lia.
  split; [done|]. Z.div_mod_to_equations; lia.
Qed.

(** Two heaps over the same window that agree on a blob's blocks. *)
Definition blob_bytes (h : heap) (e : blob_entry) (a : Z) : Prop :=
  heap_data h + HEAP_BLOCK_SIZE * be_start e <= a
  < heap_data h + HEAP_BLOCK_SIZE * (be_start e + be_blocks e).

Lemma header_agree h h' e :
  heap_data h' = heap_data h -> be_offset e = HEAP_BLOCK_SIZE * be_start e -> 1 <= be_blocks e ->
  agree (blob_bytes h e) (shm h) (shm h') ->
  let b := heap_data h + be_offset e in
  blob_magic h' b = blob_magic h b /\ blob_id_of h' b = blob_id_of h b /\
  blob_size_of h' b = blob_size_of h b /\ blob_offset_of h' b = blob_offset_of h b.
Proof.
  intros Hd Ho Hb Hag b. subst b.
  unfold blob_magic, blob_id_of, blob_size_of, blob_offset_of.
  repeat split; eapply ld_agree; try done; unfold blob_bytes; intros; cbn in *; lia.
Qed.

(** An entry stays good when its blocks' bytes and bits do. *)
Lemma entry_ok_frame h h' e :
  heap_data h' = heap_data h -> agree (blob_bytes h e) (shm h) (shm h') ->
  ctl_field h HC_next_blob_id <= ctl_field h' HC_next_blob_id ->
  (forall b, covers e b -> blk_free h' b = blk_free h b) ->
  entry_ok h e -> entry_ok h' e.
Proof.
  intros Hd Hag Hn Hf [].
  destruct (header_agree h h' e) as (E1 & E2 & E3 & E4); [done|tauto|tauto|done|].
  split; rewrite ?Hd, ?E1, ?E2, ?E3, ?E4; try done; [lia|].
  intros b Hb. rewrite Hf by done. auto.
Qed.

(** ** The control block *)

Lemma agree_bitmap_ld base n m m' a :
  agree (fun a => ~ in_bitmap base HEAP_MAX_BLOCKS a) m m' ->
  a + Z.of_nat n <= base \/ base + HEAP_BITMAP_SIZE <= a -> ld n m' a = ld n m a.
Proof.
  intros Hag Ha. eapply ld_agree; [exact Hag|]. intros b Hb. unfold in_bitmap.
  change ((HEAP_MAX_BLOCKS + 7) / 8) with HEAP_BITMAP_SIZE. lia.
Qed.

(** The fields of the control block before the bitmap. *)
Definition ctl_off (f : Z) : Prop := 0 <= f /\ f + 4 <= HC_bitmap.

Lemma ctl_set_eq f v h : is_u32 v -> ctl_field (set_ctl_field f v h) f = v.
Proof.
  intros Hv. change (ld32 (st32 (shm h) (heap_ctl h + f) v) (heap_ctl h + f) = v).
  by apply ld_st_eq.
Qed.

Lemma ctl_set_ne f g v h :
  g + 4 <= f \/ f + 4 <= g -> ctl_field (set_ctl_field f v h) g = ctl_field h g.
Proof. intros Hv. unfold ctl_field. apply ld_st_ne. cbn. lia. Qed.

Lemma blk_free_set_ctl f v h b :
  0 <= b -> ctl_off f -> blk_free (set_ctl_field f v h) b = blk_free h b.
Proof.
  intros Hb Hf. unfold blk_free. apply bm_free_agree; [done|].
  apply agree_st. unfold in_bitmap, ctl_off in *. intros a ?. cbn. lia.
Qed.

Lemma mark_blocks_shm h start n :
  0 <= start -> start + n <= HEAP_MAX_BLOCKS ->
  shm (mark_blocks start n h) = bm_set_run (heap_ctl h + HC_bitmap) HEAP_MAX_BLOCKS start n (shm h).
Proof.
  intros H0 H1. apply for_range_ext. intros j s Hj. unfold bitmap_set.
  by rewrite u32_small by (unfold is_u32; lia).
Qed.

Lemma clear_blocks_shm h start n :
  0 <= start -> start + n <= HEAP_MAX_BLOCKS ->
  shm (clear_blocks start n h)
  = bm_clear_run (heap_ctl h + HC_bitmap) HEAP_MAX_BLOCKS start n (shm h).
Proof.
  intros H0 H1. apply for_range_ext. intros j s Hj. unfold bitmap_clear.
  by rewrite u32_small by (unfold is_u32; lia).
Qed.

(** The bytes of the bitmap of [h]. *)
Abbreviation in_bits h := (in_bitmap (heap_ctl h + HC_bitmap) HEAP_MAX_BLOCKS).

Lemma mark_blocks_agree h start n :
  0 <= start -> 0 <= n -> start + n <= HEAP_MAX_BLOCKS ->
  agree (fun a => ~ in_bits h a) (shm h) (shm (mark_blocks start n h)).
Proof. intros. rewrite mark_blocks_shm by lia. by apply bm_set_run_agree. Qed.

Lemma clear_blocks_agree h start n :
  0 <= start -> 0 <= n -> start + n <= HEAP_MAX_BLOCKS ->
  agree (fun a => ~ in_bits h a) (shm h) (shm (clear_blocks start n h)).
Proof. intros. rewrite clear_blocks_shm by lia. by apply bm_clear_run_agree. Qed.

Lemma ctl_mark h start n f :
  0 <= start -> 0 <= n -> start + n <= HEAP_MAX_BLOCKS -> ctl_off f ->
  ctl_field (mark_blocks start n h) f = ctl_field h f.
Proof.
  intros H0 H1 H2 [Hf1 Hf2]. unfold ctl_field.
  eapply agree_bitmap_ld; [by apply mark_blocks_agree|]. cbn. lia.
Qed.

Lemma ctl_clear h start n f :
  0 <= start -> 0 <= n -> start + n <= HEAP_MAX_BLOCKS -> ctl_off f ->
  ctl_field (clear_blocks start n h) f = ctl_field h f.
Proof.
  intros H0 H1 H2 [Hf1 Hf2]. unfold ctl_field.
  eapply agree_bitmap_ld; [by apply clear_blocks_agree|]. cbn. lia.
Qed.

Lemma blk_free_mark h start n b :
  0 <= start -> 0 <= n -> start + n <= HEAP_MAX_BLOCKS ->
  blk_free (mark_blocks start n h) b
  = blk_free h b && negb ((start <=? b) && (b <? start + n)).
Proof.
  intros. unfold blk_free. rewrite mark_blocks_shm by lia. by apply bm_free_set_run.
Qed.

Lemma blk_free_clear h start n b :
  0 <= start -> 0 <= n -> start + n <= HEAP_MAX_BLOCKS ->
  blk_free (clear_blocks start n h) b
  = blk_free h b || ((start <=? b) && (b <? start + n)).
Proof.
  intros. unfold blk_free. rewrite clear_blocks_shm by lia.
  etrans; [by apply bm_free_clear_run|]. f_equal.
  destruct (Z.leb_spec start b), (Z.ltb_spec b (start + n)), (Z.ltb_spec b HEAP_MAX_BLOCKS);
    cbn; lia.
Qed.

(** ** Allocation *)

Lemma first_run_free h n r :
  0 < n -> first_run h n r -> n <= count_range 0 HEAP_MAX_BLOCKS (blk_free h) <= HEAP_MAX_BLOCKS.
Proof.
  intros Hn (H0 & H1 & H2 & _). split; [|pose proof (count_range_bounds 0 HEAP_MAX_BLOCKS (blk_free h)); lia].
  rewrite (count_range_split 0 r), (count_range_split r (r + n)) by lia.
  rewrite (count_range_all r (r + n)) by (lia || done).
  pose proof (count_range_bounds 0 r (blk_free h)).
  pose proof (count_range_bounds (r + n) HEAP_MAX_BLOCKS (blk_free h)). lia.
Qed.

Lemma heap_up h : heap_ok h -> heap_down h = false.
Proof.
  intros H. unfold heap_down. rewrite (ok_magic h H). pose proof (ok_ctl h H).
  by replace (heap_ctl h =? 0) with false by lia.
Qed.

(** The heap after an allocation of [blocks_for size] blocks at [start]. *)
Definition alloc_state (size type start : Z) (h : heap) : heap :=
  let blocks := blocks_for size in
  let id := u16 (ctl_field h HC_next_blob_id) in
  let h1 := mark_blocks start blocks h in
  let h2 := set_ctl_field HC_free_blocks (ctl_field h HC_free_blocks - blocks) h1 in
  let h3 := set_ctl_field HC_next_blob_id (ctl_field h HC_next_blob_id + 1) h2 in
  let h4 := add_blob id (HEAP_BLOCK_SIZE * start) blocks h3 in
  h4{{ shm ::= write_header (heap_data h + HEAP_BLOCK_SIZE * start) id type size
                 (HEAP_BLOCK_SIZE * start) }}.

Lemma add_blob_data id off n h : heap_data (add_blob id off n h) = heap_data h.
Proof. unfold add_blob. by destruct (_ <? _). Qed.

(** [heap_alloc] as a whole. *)
Lemma heap_alloc_eq size type h :
  heap_ok h -> 0 <= size -> size + 96 < 0x100000000 ->
  let blocks := blocks_for size in
  (exists start, first_run h blocks start /\
     heap_alloc size type h = (u16 (ctl_field h HC_next_blob_id), alloc_state size type start h)) \/
  (no_space h blocks /\ heap_alloc size type h = (0, h)).
Proof.
  intros H Hs0 Hs blocks. destruct (blocks_for_small size) as [_ Hb]; [done..|].
  unfold heap_alloc. rewrite heap_up by done. fold blocks in Hb |- *.
  destruct (find_free_blocks_spec h blocks) as [[Hr ->]|[-> Hno]]; [lia| |by right].
  left. set (start := find_free_blocks h blocks) in *. exists start. split; [done|].
  destruct (first_run_free h blocks start) as [Hf1 Hf2]; [lia|done|].
  pose proof Hr as (Hr0 & Hr1 & _). pose proof (ok_next h H) as Hn.
  rewrite <- (ok_free h H) in Hf1, Hf2.
  cbv zeta. unfold take_blob_id, alloc_state. fold blocks. cbv zeta.
  rewrite (ctl_mark h start blocks HC_free_blocks) by (unfold ctl_off; lia).
  rewrite (u32_small (_ - blocks)) by (unfold is_u32; lia).
  rewrite !(ctl_set_ne HC_free_blocks HC_next_blob_id) by lia.
  rewrite (ctl_mark h start blocks HC_next_blob_id) by (unfold ctl_off; lia).
  rewrite (u32_small (_ + 1)) by (unfold is_u32; lia).
  rewrite ctl_set_eq by (unfold is_u32; lia).
  replace (ctl_field h HC_next_blob_id + 1 =? 0) with false by lia.
  rewrite (u32_small (start * HEAP_BLOCK_SIZE)) by (unfold is_u32; lia).
  rewrite add_blob_data. by replace (start * HEAP_BLOCK_SIZE) with (HEAP_BLOCK_SIZE * start) by lia.
Qed.

Lemma write_header_agree blob id type size off m :
  agree (fun a => ~ (blob <= a < blob + SIZEOF_heap_blob_t)) m
    (write_header blob id type size off m).
Proof.
  unfold write_header.
  repeat (etrans; [|apply agree_st; intros; lia]). done.
Qed.

Lemma write_header_fields blob id type size off m :
  is_u16 id -> is_u8 type -> is_u32 size -> 0 <= off -> off + 32 < 0x100000000 ->
  let m' := write_header blob id type size off m in
  ld32 m' (blob + BLOB_magic) = BLOB_MAGIC /\ ld16 m' (blob + BLOB_blob_id) = id /\
  ld8 m' (blob + BLOB_type) = type /\ ld32 m' (blob + BLOB_size) = size /\
  ld32 m' (blob + BLOB_offset) = off + SIZEOF_heap_blob_t.
Proof.
  unfold is_u16, is_u8, is_u32. intros Hi Ht Hs Ho1 Ho2. cbv zeta. unfold write_header.
  rewrite (u32_small (off + 32)) by (unfold is_u32; lia).
  repeat split; mem_simpl; done.
Qed.

Lemma write_header_ok blob id type size off m :
  mem_ok m -> mem_ok (write_header blob id type size off m).
Proof. intros. unfold write_header. by repeat apply mem_ok_st. Qed.

(** What an allocation at a free run writes, and what it does not. *)
Section AllocState.
Context (h : heap) (size type start : Z).
Context (Hok : heap_ok h) (Hsize : 0 <= size) (Hsize' : size + 96 < 0x100000000).
Context (Htype : is_u8 type) (Hrun : first_run h (blocks_for size) start).
Local Abbreviation h' := (alloc_state size type start h).
Local Abbreviation blocks := (blocks_for size).

Lemma alloc_bounds : 1 <= blocks /\ 0 <= start /\ start + blocks <= HEAP_MAX_BLOCKS.
Proof. destruct Hrun as (? & ? & _), (blocks_for_small size) as [_ ?]; lia. Qed.

Definition touched (a : Z) : Prop :=
  in_bits h a \/ heap_ctl h + HC_free_blocks <= a < heap_ctl h + HC_next_blob_id + 4 \/
  heap_data h + HEAP_BLOCK_SIZE * start <= a
  < heap_data h + HEAP_BLOCK_SIZE * start + SIZEOF_heap_blob_t.

Definition alloc_mid : heap :=
  set_ctl_field HC_next_blob_id (ctl_field h HC_next_blob_id + 1)
    (set_ctl_field HC_free_blocks (ctl_field h HC_free_blocks - blocks)
       (mark_blocks start blocks h)).

Lemma alloc_shm :
  shm h' = write_header (heap_data h + HEAP_BLOCK_SIZE * start)
             (u16 (ctl_field h HC_next_blob_id)) type size (HEAP_BLOCK_SIZE * start)
             (shm alloc_mid).
Proof. unfold alloc_state. cbv zeta. fold alloc_mid. unfold add_blob. by destruct (_ <? _). Qed.

Lemma alloc_frame a : ~ touched a -> ldb (shm h') a = ldb (shm h) a.
Proof.
  intros Ha. pose proof alloc_bounds. unfold touched in Ha. rewrite alloc_shm.
  rewrite (write_header_agree _ _ _ _ _ _ a) by (cbn in *; lia).
  unfold alloc_mid. cbn [shm set_ctl_field].
  etrans; [apply ldb_st_ne; cbn in *; lia|].
  etrans; [apply ldb_st_ne; cbn in *; lia|].
  apply (mark_blocks_agree h start blocks); [lia|lia|lia|tauto].
Qed.

Lemma alloc_ptrs : heap_ctl h' = heap_ctl h /\ heap_data h' = heap_data h.
Proof. unfold alloc_state, add_blob. by destruct (_ <? _). Qed.

Lemma alloc_mid_eq f : ctl_off f -> ctl_field h' f = ctl_field alloc_mid f.
Proof.
  intros Hf. unfold ctl_field. rewrite (proj1 alloc_ptrs), alloc_shm.
  eapply ld_agree; [apply write_header_agree|]. pose proof alloc_bounds.
  destruct Hok. unfold ctl_off in Hf. cbn in *. intros. lia.
Qed.

Lemma alloc_ctl :
  ctl_field h' HC_magic = ctl_field h HC_magic /\
  ctl_field h' HC_total_blocks = ctl_field h HC_total_blocks /\
  ctl_field h' HC_free_blocks = ctl_field h HC_free_blocks - blocks /\
  ctl_field h' HC_next_blob_id = ctl_field h HC_next_blob_id + 1.
Proof.
  pose proof alloc_bounds. pose proof (ok_next h Hok).
  destruct (first_run_free h blocks start) as [Hf1 Hf2]; [lia|done|].
  rewrite <- (ok_free h Hok) in Hf1, Hf2.
  rewrite !alloc_mid_eq by (unfold ctl_off; lia). unfold alloc_mid.
  rewrite !(ctl_set_ne HC_next_blob_id) by lia.
  rewrite !(ctl_set_ne HC_free_blocks) by lia.
  rewrite !ctl_mark by (unfold ctl_off; lia).
  rewrite !ctl_set_eq by (unfold is_u32; lia). done.
Qed.

Lemma alloc_blk_free b :
  0 <= b -> blk_free h' b = blk_free h b && negb ((start <=? b) && (b <? start + blocks)).
Proof.
  intros Hb. pose proof alloc_bounds. rewrite <- (blk_free_mark h start blocks b) by lia.
  transitivity (blk_free alloc_mid b);
    [|unfold alloc_mid; by rewrite !blk_free_set_ctl by (unfold ctl_off; lia)].
  unfold blk_free. rewrite (proj1 alloc_ptrs), alloc_shm.
  apply bm_free_agree; [done|]. intros a Ha. apply write_header_agree.
  unfold in_bitmap in Ha. change ((HEAP_MAX_BLOCKS + 7) / 8) with HEAP_BITMAP_SIZE in Ha.
  destruct Hok. cbn in *. lia.
Qed.

Lemma alloc_table :
  blob_count h < MAX_BLOBS ->
  blob_count h' = blob_count h + 1 /\ zlen (blob_table h') = MAX_BLOBS /\
  ent h' (blob_count h)
  = BlobEntry (u16 (ctl_field h HC_next_blob_id)) (HEAP_BLOCK_SIZE * start) blocks /\
  forall i, 0 <= i < blob_count h -> ent h' i = ent h i.
Proof.
  intros Hc. destruct Hok.
  unfold alloc_state, add_blob, ent.
  replace (blob_count _ <? MAX_BLOBS) with true by (symmetry; apply Z.ltb_lt; exact Hc).
  cbn [blob_count blob_table]. split; [apply u32_small; unfold is_u32; cbn; lia|].
  split; [etrans; [apply zlen_zset|done]|].
  split; [apply zget_zset_eq; cbn in *; lia|].
  intros i Hi. apply zget_zset_ne; cbn; lia.
Qed.

Lemma alloc_header :
  let b := heap_data h' + HEAP_BLOCK_SIZE * start in
  blob_magic h' b = BLOB_MAGIC /\ blob_id_of h' b = u16 (ctl_field h HC_next_blob_id) /\
  blob_type_of h' b = type /\ blob_size_of h' b = size /\
  blob_offset_of h' b = HEAP_BLOCK_SIZE * start + SIZEOF_heap_blob_t.
Proof.
  pose proof alloc_bounds.
  unfold blob_magic, blob_id_of, blob_type_of, blob_size_of, blob_offset_of.
  rewrite (proj2 alloc_ptrs), alloc_shm. cbv zeta.
  apply write_header_fields; [apply is_u16_u16|done|unfold is_u32; lia|lia|lia].
Qed.
End AllocState.

(** The entries the table holds. *)
Definition live (h : heap) (e : blob_entry) : Prop :=
  exists i, 0 <= i < blob_count h /\ ent h i = e.

Lemma live_ok h e : heap_ok h -> live h e -> entry_ok h e.
Proof. intros H (i & Hi & <-). by apply (ok_entry h H). Qed.

(** Blocks in use are apart from a free run. *)
Lemma used_free_apart h e start n :
  entry_ok h e -> 0 < n -> (forall b, start <= b < start + n -> blk_free h b = true) ->
  be_start e + be_blocks e <= start \/ start + n <= be_start e.
Proof.
  intros He Hn Hfree. destruct (e_blocks h e He) as [Hb _].
  destruct (Z.le_gt_cases (be_start e + be_blocks e) start); [by left|].
  destruct (Z.le_gt_cases (start + n) (be_start e)); [by right|].
  exfalso. assert (Hin : covers e (Z.max start (be_start e))) by (unfold covers; lia).
  pose proof (e_used h e He _ Hin) as Hu. rewrite Hfree in Hu by lia. done.
Qed.

(** A blob's bytes lie past the control block. *)
Lemma blob_bytes_data h e a :
  heap_ok h -> entry_ok h e -> blob_bytes h e a ->
  heap_ctl h + 0xF00 <= a < heap_data h + IPC_HEAP_DATA_SIZE /\ ~ in_bits h a.
Proof.
  intros H He Ha. destruct (e_blocks h e He), (e_off h e He). pose proof (ok_data h H).
  unfold blob_bytes, in_bitmap in *. change ((HEAP_MAX_BLOCKS + 7) / 8) with HEAP_BITMAP_SIZE.
  cbn in *. lia.
Qed.

Section AllocOk.
Context (h : heap) (size type start : Z).
Context (Hok : heap_ok h) (Hsize : 0 <= size) (Hsize' : size + 96 < 0x100000000).
Context (Htype : is_u8 type) (Hrun : first_run h (blocks_for size) start).
Local Abbreviation h' := (alloc_state size type start h).
Local Abbreviation blocks := (blocks_for size).

Lemma alloc_agree e : live h e -> agree (blob_bytes h e) (shm h) (shm h').
Proof.
  intros He a Ha. destruct (alloc_bounds h size start) as (Hb & Hs1 & Hs2); [done..|].
  assert (Hap : be_start e + be_blocks e <= start \/ start + blocks <= be_start e).
  { apply (used_free_apart h); [by apply live_ok|lia|apply Hrun]. }
  destruct (blob_bytes_data h e a) as [Hd Hn]; [done|by apply live_ok|done|].
  apply alloc_frame; [done..|]. unfold touched. pose proof (ok_data h Hok).
  destruct (blocks_for_small size) as [Hbl _]; [done..|].
  intros [Hi|[Hi|Hi]]; [done|lia|]. unfold blob_bytes in Ha. lia.
Qed.

Lemma alloc_entry_frame e : live h e -> entry_ok h' e.
Proof.
  intros He. assert (Heo : entry_ok h e) by by apply live_ok.
  destruct (alloc_bounds h size start) as (Hb & Hs1 & Hs2); [done..|].
  destruct (alloc_ptrs h size type start) as [Hp1 Hp2].
  destruct (alloc_ctl h size type start) as (_ & _ & _ & Hn); [done..|].
  apply (entry_ok_frame h); [done|by apply alloc_agree|lia| |done].
  intros b Hb'. rewrite alloc_blk_free; [|done..|].
  - pose proof (used_free_apart h e start blocks Heo ltac:(lia) (proj1 (proj2 (proj2 Hrun)))).
    unfold covers in Hb'. replace ((start <=? b) && (b <? start + blocks)) with false by lia.
    apply andb_true_r.
  - destruct (e_off h e Heo). unfold covers in Hb'. lia.
Qed.

Definition new_entry : blob_entry :=
  BlobEntry (ctl_field h HC_next_blob_id) (HEAP_BLOCK_SIZE * start) blocks.

Context (Hcount : blob_count h < MAX_BLOBS) (Hnext : ctl_field h HC_next_blob_id < 0x10000).

Lemma alloc_id : u16 (ctl_field h HC_next_blob_id) = ctl_field h HC_next_blob_id.
Proof. pose proof (ok_next h Hok). apply u16_small. unfold is_u16. lia. Qed.

Lemma alloc_new_entry : ent h' (blob_count h) = new_entry /\ entry_ok h' new_entry.
Proof.
  destruct (alloc_bounds h size start) as (Hb & Hs1 & Hs2); [done..|].
  destruct (alloc_table h size type start) as (_ & _ & He & _); [done..|].
  destruct (alloc_ctl h size type start) as (_ & _ & _ & Hn); [done..|].
  destruct (alloc_header h size type start) as (Hm & Hi & _ & Hz & Ho); [done..|].
  pose proof (ok_next h Hok). rewrite alloc_id in *. split; [done|].
  assert (Hst : be_start new_entry = start).
  { unfold be_start, new_entry. cbn [be_offset]. rewrite Z.mul_comm. apply Z.div_mul. lia. }
  split; rewrite ?Hst; cbn [be_blob_id be_offset be_blocks new_entry]; rewrite ?Hz; try done; try lia.
  unfold covers. rewrite Hst. cbn [be_blocks new_entry]. intros b Hb'.
  rewrite alloc_blk_free by (done || lia).
  replace ((start <=? b) && (b <? start + blocks)) with true by lia. apply andb_false_r.
Qed.

Lemma alloc_sep e : live h e -> entries_sep e new_entry.
Proof.
  intros He. assert (Heo : entry_ok h e) by by apply live_ok.
  destruct (alloc_bounds h size start) as (Hb & Hs1 & Hs2); [done..|].
  assert (Hst : be_start new_entry = start).
  { unfold be_start, new_entry. cbn [be_offset]. rewrite Z.mul_comm. apply Z.div_mul. lia. }
  split.
  - pose proof (e_id h e Heo). cbn [be_blob_id new_entry]. lia.
  - rewrite Hst. cbn [be_blocks new_entry].
    apply (used_free_apart h); [done|lia|apply Hrun].
Qed.

(** An entry of the new table is the new one or an old one. *)
Lemma alloc_ent i :
  0 <= i < blob_count h' -> (i = blob_count h /\ ent h' i = new_entry) \/
                            (0 <= i < blob_count h /\ ent h' i = ent h i).
Proof.
  intros Hi. destruct (alloc_table h size type start) as (Hc & _ & He & Hr); [done..|].
  rewrite Hc in Hi. destruct (decide (i = blob_count h)) as [->|].
  - left. split; [done|]. apply alloc_new_entry.
  - right. split; [lia|]. apply Hr. lia.
Qed.

Lemma alloc_live e : live h' e <-> e = new_entry \/ live h e.
Proof.
  destruct (alloc_table h size type start) as (Hc & _ & He & Hr); [done..|].
  pose proof (ok_count h Hok). split.
  - intros (i & Hi & <-). destruct (alloc_ent i Hi) as [[_ ->]|[Hi' ->]]; [by left|].
    right. by exists i.
  - intros [->|(i & Hi & <-)].
    + exists (blob_count h). split; [lia|]. apply alloc_new_entry.
    + exists i. split; [lia|by apply Hr].
Qed.

Lemma alloc_mem_ok : mem_ok (shm h').
Proof.
  rewrite alloc_shm. apply write_header_ok. unfold alloc_mid.
  cbn [shm set_ctl_field]. apply mem_ok_st, mem_ok_st.
  destruct (alloc_bounds h size start) as (Hb & Hs1 & Hs2); [done..|].
  rewrite mark_blocks_shm by lia. unfold bm_set_run.
  apply (for_range_ind (fun _ m => mem_ok m)); [lia|apply Hok|].
  intros j m _ Hm. unfold bm_set. destruct (_ <? _); [by apply mem_ok_stb|done].
Qed.

Lemma alloc_ok : heap_ok h'.
Proof.
  destruct (alloc_bounds h size start) as (Hb & Hs1 & Hs2); [done..|].
  destruct (alloc_table h size type start) as (Hc & Hl & _); [done..|].
  destruct (alloc_ctl h size type start) as (Hm & Ht & Hf & Hn); [done..|].
  destruct (alloc_ptrs h size type start) as [Hp1 Hp2].
  pose proof (ok_count h Hok). pose proof (ok_next h Hok).
  split; rewrite ?Hp1, ?Hp2, ?Hm, ?Ht, ?Hf, ?Hn, ?Hc, ?Hl; try apply Hok; try done; try lia.
  - apply alloc_mem_ok.
  - intros i Hi. rewrite <- Hc in Hi. destruct (alloc_ent i Hi) as [[_ ->]|[Hi' ->]].
    + apply alloc_new_entry.
    + apply alloc_entry_frame. by exists i.
  - intros i j Hi Hj Hne. rewrite <- Hc in Hi, Hj.
    destruct (alloc_ent i Hi) as [[-> ->]|[Hi' ->]], (alloc_ent j Hj) as [[-> ->]|[Hj' ->]].
    + done.
    + destruct (alloc_sep (ent h j)) as [? ?]; [by exists j|]. split; [done|tauto].
    + apply alloc_sep. by exists i.
    + by apply (ok_sep h Hok).
  - intros b Hb'. rewrite alloc_blk_free by (done || lia). intros Hbf.
    destruct (blk_free h b) eqn:Eb.
    + exists (blob_count h). split; [lia|]. rewrite (proj1 alloc_new_entry).
      unfold covers, be_start. cbn [be_offset be_blocks new_entry].
      rewrite Z.mul_comm, Z.div_mul by lia. cbn in Hbf. lia.
    + destruct (ok_used h Hok b Hb' Eb) as (i & Hi & Hcv). exists i. split; [lia|].
      destruct (alloc_ent i) as [[? _]|[_ ->]]; [lia|lia|done].
  - rewrite (ok_free h Hok).
    pose proof (free_in_set_run (heap_ctl h + HC_bitmap) HEAP_MAX_BLOCKS (shm h) 0 HEAP_MAX_BLOCKS
                  start blocks ltac:(lia) ltac:(lia) ltac:(lia) (proj1 (proj2 (proj2 Hrun)))) as Hcnt.
    unfold free_in in Hcnt. etrans; [symmetry; exact Hcnt|].
    apply count_range_ext. intros j Hj. rewrite alloc_blk_free by (done || lia).
    apply bm_free_set_run. lia.
Qed.
End AllocOk.

(** ** Initialisation *)

Lemma clear_bitmap_ldb h a :
  ldb (shm (clear_bitmap h)) a
  = if decide (in_bits h a) then 0 else ldb (shm h) a.
Proof.
  set (body := fun i (m : mem) => stb m (heap_ctl h + HC_bitmap + i) 0).
  change (shm (clear_bitmap h)) with (for_range 0 HEAP_BITMAP_SIZE body (shm h)).
  set (inb := fun k => (heap_ctl h + HC_bitmap <=? a) && (a <? heap_ctl h + HC_bitmap + k)).
  transitivity (if inb HEAP_BITMAP_SIZE then 0 else ldb (shm h) a).
  - apply (for_range_ind (fun k m => ldb m a = if inb k then 0 else ldb (shm h) a)); [lia| |].
    + subst inb. cbn beta. by replace (_ && _) with false by lia.
    + intros j m Hj Hm. unfold body. rewrite ldb_stb, Hm. subst inb. cbn beta.
      case_decide; [by replace (_ && _) with true by lia|].
      by replace (a <? _ + (j + 1)) with (a <? heap_ctl h + HC_bitmap + j) by lia.
  - subst inb. cbn beta. unfold in_bitmap. change ((HEAP_MAX_BLOCKS + 7) / 8) with HEAP_BITMAP_SIZE.
    case_decide; [by replace (_ && _) with true by lia|by replace (_ && _) with false by lia].
Qed.

Lemma clear_bitmap_agree h : agree (fun a => ~ in_bits h a) (shm h) (shm (clear_bitmap h)).
Proof. intros a Ha. rewrite clear_bitmap_ldb. by case_decide. Qed.

Lemma clear_bitmap_free h b :
  0 <= b < HEAP_MAX_BLOCKS -> blk_free (clear_bitmap h) b = true.
Proof.
  intros Hb. unfold blk_free. rewrite bm_free_bit. replace (b <? HEAP_MAX_BLOCKS) with true by lia.
  unfold bm_bit. change (heap_ctl (clear_bitmap h)) with (heap_ctl h). rewrite clear_bitmap_ldb.
  pose proof (in_bitmap_unit (heap_ctl h + HC_bitmap) HEAP_MAX_BLOCKS b Hb).
  case_decide; [by rewrite Z.bits_0|done].
Qed.

Lemma ctl_clear_bitmap h f : ctl_off f -> ctl_field (clear_bitmap h) f = ctl_field h f.
Proof.
  intros [Hf1 Hf2]. unfold ctl_field. change (heap_ctl (clear_bitmap h)) with (heap_ctl h).
  apply (agree_bitmap_ld (heap_ctl h + HC_bitmap)); [apply clear_bitmap_agree|].
  change (Z.of_nat 4) with 4. lia.
Qed.

Lemma clear_table_len t : zlen (clear_table t) = zlen t.
Proof.
  apply (for_range_ind (fun _ t' => zlen t' = zlen t)); [lia|reflexivity|].
  intros j t' _ Ht. by rewrite zlen_zset.
Qed.

(** The control block as [heap_init] writes it, the bitmap aside. *)
Definition init_ctl (base : Z) (h : heap) : heap :=
  set_ctl_field HC_next_blob_id 1 (set_ctl_field HC_free_blocks HEAP_MAX_BLOCKS
    (set_ctl_field HC_total_blocks HEAP_MAX_BLOCKS (set_ctl_field HC_version 1
      (set_ctl_field HC_magic IPC_HEAP_MAGIC (h{{ heap_ctl := base; heap_data := base + 0xF00 }}))))).

Lemma heap_init_eq base h :
  0 < base ->
  heap_init base h
  = (clear_bitmap (init_ctl base h)){{ blob_count := 0; blob_table ::= clear_table }}.
Proof. intros Hb. unfold heap_init. by replace (base =? 0) with false by lia. Qed.

Lemma ctl_field_table h n g f :
  ctl_field (h{{ blob_count := n; blob_table ::= g }}) f = ctl_field h f.
Proof. reflexivity. Qed.

Section Init.
Context (base : Z) (h : heap) (Hbase : 0 < base).
Local Abbreviation h' := (heap_init base h).

Lemma init_ptrs : heap_ctl h' = base /\ heap_data h' = base + 0xF00 /\ blob_count h' = 0.
Proof. rewrite heap_init_eq by done. split; [|split]; reflexivity. Qed.

Lemma init_ctl_field f : ctl_off f -> ctl_field h' f = ctl_field (init_ctl base h) f.
Proof.
  intros Hf. rewrite heap_init_eq by done. by rewrite ctl_field_table, ctl_clear_bitmap.
Qed.

Lemma init_free b : 0 <= b < HEAP_MAX_BLOCKS -> blk_free h' b = true.
Proof. intros Hb. rewrite heap_init_eq by done. by apply (clear_bitmap_free (init_ctl base h)). Qed.

Lemma init_ctls :
  ctl_field h' HC_magic = IPC_HEAP_MAGIC /\ ctl_field h' HC_total_blocks = HEAP_MAX_BLOCKS /\
  ctl_field h' HC_free_blocks = HEAP_MAX_BLOCKS /\ ctl_field h' HC_next_blob_id = 1.
Proof.
  rewrite !init_ctl_field by (unfold ctl_off; lia). unfold init_ctl.
  rewrite !(ctl_set_ne HC_next_blob_id), !(ctl_set_ne HC_free_blocks),
    !(ctl_set_ne HC_total_blocks), !(ctl_set_ne HC_version) by lia.
  rewrite !ctl_set_eq by (unfold is_u32; lia). done.
Qed.

Lemma init_mem_ok : mem_ok (shm h) -> mem_ok (shm h').
Proof.
  intros Hm. rewrite heap_init_eq by done. intros a.
  change (is_u8 (ldb (shm (clear_bitmap (init_ctl base h))) a)). rewrite clear_bitmap_ldb.
  case_decide; [unfold is_u8; lia|]. unfold init_ctl. cbn [shm set_ctl_field].
  by repeat apply mem_ok_st.
Qed.

Lemma heap_init_ok : mem_ok (shm h) -> zlen (blob_table h) = MAX_BLOBS -> heap_ok h'.
Proof.
  intros Hm Hl. destruct init_ptrs as (E1 & E2 & E3), init_ctls as (C1 & C2 & C3 & C4).
  split; rewrite ?E1, ?E2, ?E3, ?C1, ?C2, ?C3, ?C4; try (intros; lia).
  - by apply init_mem_ok.
  - rewrite heap_init_eq by done. rewrite <- Hl. apply (clear_table_len (blob_table h)).
  - intros b Hb' Hf. by rewrite init_free in Hf.
  - rewrite count_range_all; [lia|lia|]. intros; by apply init_free.
Qed.
End Init.

(** ** Release *)

Definition free_state (i : Z) (h : heap) : heap :=
  let e := ent h i in
  let h1 := clear_blocks (be_start e) (be_blocks e) h in
  let h2 := set_ctl_field HC_free_blocks (ctl_field h HC_free_blocks + be_blocks e) h1 in
  h2{{ blob_table := zset (blob_table h) i (ent h (blob_count h - 1));
       blob_count := blob_count h - 1 }}.

Lemma find_entry h i :
  heap_ok h -> 0 <= i < blob_count h ->
  find_range 0 (blob_count h) (fun j => be_blob_id (zget (blob_table h) j) =? be_blob_id (ent h i))
  = Some i.
Proof.
  intros H Hi. apply find_range_intro; [lia|apply Z.eqb_refl|].
  intros j Hj. apply Z.eqb_neq. destruct (ok_sep h H j i) as [Hne _]; [lia|lia|lia|done].
Qed.

Section Free.
Context (h : heap) (i : Z) (Hok : heap_ok h) (Hi : 0 <= i < blob_count h).
Local Abbreviation e := (ent h i).
Local Abbreviation h' := (free_state i h).

Lemma ent_bounds :
  entry_ok h e /\ 0 <= be_start e /\ 1 <= be_blocks e /\ be_start e + be_blocks e <= HEAP_MAX_BLOCKS.
Proof.
  assert (He : entry_ok h e) by by apply (ok_entry h Hok).
  destruct (e_blocks h e He), (e_off h e He). split; [done|lia].
Qed.

Lemma free_room :
  0 <= ctl_field h HC_free_blocks /\
  ctl_field h HC_free_blocks + be_blocks e <= HEAP_MAX_BLOCKS.
Proof.
  destruct ent_bounds as (He & H1 & H2 & H3). rewrite (ok_free h Hok).
  rewrite (count_range_split 0 (be_start e)), (count_range_split (be_start e) (be_start e + be_blocks e))
    by lia.
  rewrite (count_range_none (be_start e)) by (apply (e_used h e He)).
  pose proof (count_range_bounds 0 (be_start e) (blk_free h)).
  pose proof (count_range_bounds (be_start e + be_blocks e) HEAP_MAX_BLOCKS (blk_free h)). lia.
Qed.

Lemma heap_free_eq : heap_free (be_blob_id e) h = h'.
Proof.
  destruct ent_bounds as (He & H1 & H2 & H3), free_room. pose proof (ok_ctl h Hok).
  pose proof (ok_count h Hok). pose proof (e_id h e He).
  unfold heap_free. replace (heap_ctl h =? 0) with false by lia.
  replace (be_blob_id e =? 0) with false by lia. cbn [orb]. rewrite find_entry by done.
  fold (ent h i). fold (be_start e). cbv zeta. unfold free_state. cbv zeta.
  rewrite ctl_clear by (unfold ctl_off; lia).
  rewrite (u32_small (_ + _)) by (unfold is_u32; lia).
  change (blob_count (set_ctl_field _ _ _)) with (blob_count h).
  by rewrite (u32_small (_ - 1)) by (unfold is_u32; lia).
Qed.

Lemma free_ctl f : ctl_off f -> f <> HC_free_blocks -> f + 4 <= HC_free_blocks \/ HC_free_blocks + 4 <= f ->
  ctl_field h' f = ctl_field h f.
Proof.
  intros Hf Hne Hd. destruct ent_bounds as (He & H1 & H2 & H3).
  change (ctl_field h' f) with (ctl_field (set_ctl_field HC_free_blocks
    (ctl_field h HC_free_blocks + be_blocks e) (clear_blocks (be_start e) (be_blocks e) h)) f).
  rewrite ctl_set_ne by lia. by rewrite ctl_clear by (done || lia).
Qed.

Lemma free_ctl_free : ctl_field h' HC_free_blocks = ctl_field h HC_free_blocks + be_blocks e.
Proof.
  destruct ent_bounds as (He & H1 & H2 & H3), free_room.
  change (ctl_field h' HC_free_blocks) with (ctl_field (set_ctl_field HC_free_blocks
    (ctl_field h HC_free_blocks + be_blocks e) (clear_blocks (be_start e) (be_blocks e) h))
    HC_free_blocks).
  apply ctl_set_eq. unfold is_u32. lia.
Qed.

Lemma free_blk_free b :
  0 <= b -> blk_free h' b = blk_free h b || bool_decide (covers e b).
Proof.
  intros Hb. destruct ent_bounds as (He & H1 & H2 & H3).
  change (blk_free h' b) with (blk_free (set_ctl_field HC_free_blocks
    (ctl_field h HC_free_blocks + be_blocks e) (clear_blocks (be_start e) (be_blocks e) h)) b).
  rewrite blk_free_set_ctl, blk_free_clear by (unfold ctl_off; lia). f_equal.
  unfold covers. case_bool_decide; lia.
Qed.

(** Only the bitmap and the free count are written. *)
Lemma free_frame a :
  ~ in_bits h a -> ~ (heap_ctl h + HC_free_blocks <= a < heap_ctl h + HC_free_blocks + 4) ->
  ldb (shm h') a = ldb (shm h) a.
Proof.
  intros Ha1 Ha2. destruct ent_bounds as (He & H1 & H2 & H3).
  etrans; [apply (ldb_st_ne 4); cbn in *; lia|].
  apply (clear_blocks_agree h (be_start e) (be_blocks e)); [lia|lia|lia|tauto].
Qed.
End Free.

Section FreeOk.
Context (h : heap) (i : Z) (Hok : heap_ok h) (Hi : 0 <= i < blob_count h).
Local Abbreviation e := (ent h i).
Local Abbreviation h' := (free_state i h).

(** Where the [j]-th entry of the shortened table comes from. *)
Definition moved (j : Z) : Z := if j =? i then blob_count h - 1 else j.

Lemma free_ent j : 0 <= j < blob_count h - 1 ->
  ent h' j = ent h (moved j) /\ 0 <= moved j < blob_count h /\ moved j <> i.
Proof.
  intros Hj. pose proof (ok_len h Hok). pose proof (ok_count h Hok). unfold moved.
  destruct (Z.eqb_spec j i) as [->|Hne]; (split; [|lia]).
  - apply (zget_zset_eq (blob_table h)). lia.
  - apply (zget_zset_ne (blob_table h)); lia.
Qed.

Lemma moved_inj j k : 0 <= j < blob_count h - 1 -> 0 <= k < blob_count h - 1 ->
  j <> k -> moved j <> moved k.
Proof. unfold moved. intros. destruct (Z.eqb_spec j i), (Z.eqb_spec k i); lia. Qed.

Lemma free_other j : 0 <= j < blob_count h -> j <> i ->
  exists k, 0 <= k < blob_count h - 1 /\ ent h' k = ent h j.
Proof.
  intros Hj Hne. destruct (decide (j = blob_count h - 1)) as [->|].
  - exists i. assert (Hi' : 0 <= i < blob_count h - 1) by lia. split; [done|].
    destruct (free_ent i Hi') as [-> _]. unfold moved. by rewrite Z.eqb_refl.
  - exists j. assert (Hj' : 0 <= j < blob_count h - 1) by lia. split; [done|].
    destruct (free_ent j Hj') as [-> _]. unfold moved. by replace (j =? i) with false by lia.
Qed.

Lemma free_live x : live h' x <-> live h x /\ x <> e.
Proof.
  split.
  - intros (j & Hj & <-). change (blob_count h') with (blob_count h - 1) in Hj.
    destruct (free_ent j Hj) as (-> & Hm & Hne). split; [by exists (moved j)|].
    intros Heq. destruct (ok_sep h Hok (moved j) i) as [Hs _]; [done|done|done|].
    by rewrite Heq in Hs.
  - intros ((j & Hj & <-) & Hne). destruct (free_other j Hj) as (k & Hk & <-).
    { intros ->. done. }
    by exists k.
Qed.

Lemma free_agree j : 0 <= j < blob_count h -> agree (blob_bytes h (ent h j)) (shm h) (shm h').
Proof.
  intros Hj a Ha. assert (He : entry_ok h (ent h j)) by by apply (ok_entry h Hok).
  destruct (blob_bytes_data h (ent h j) a) as [Hd Hn]; [done..|].
  apply (free_frame h i); [done|done|done|lia].
Qed.

Lemma free_entry_frame j : 0 <= j < blob_count h -> j <> i -> entry_ok h' (ent h j).
Proof.
  intros Hj Hne. assert (He : entry_ok h (ent h j)) by by apply (ok_entry h Hok).
  apply (entry_ok_frame h); [reflexivity|by apply free_agree| | |done].
  - rewrite (free_ctl h i) by (done || unfold ctl_off; lia). lia.
  - intros b Hb. destruct (e_off h _ He). unfold covers in Hb.
    rewrite (free_blk_free h i) by (done || lia).
    destruct (ok_sep h Hok i j) as [_ Hs]; [done|done|done|].
    rewrite bool_decide_false; [apply orb_false_r|]. unfold covers. lia.
Qed.

Lemma free_mem_ok : mem_ok (shm h').
Proof.
  destruct (ent_bounds h i Hok Hi) as (He & H1 & H2 & H3).
  apply (mem_ok_st 4). rewrite clear_blocks_shm by lia. unfold bm_clear_run.
  apply (for_range_ind (fun _ m => mem_ok m)); [lia|apply Hok|].
  intros j m _ Hm. unfold bm_clear. destruct (_ <? _); [by apply mem_ok_stb|done].
Qed.

Lemma free_ok : heap_ok h'.
Proof.
  destruct (ent_bounds h i Hok Hi) as (He & H1 & H2 & H3).
  pose proof (ok_count h Hok). pose proof (ok_len h Hok).
  split; try apply Hok.
  - apply free_mem_ok.
  - rewrite (free_ctl h i) by (done || unfold ctl_off; lia). apply Hok.
  - rewrite (free_ctl h i) by (done || unfold ctl_off; lia). apply Hok.
  - rewrite (free_ctl h i) by (done || unfold ctl_off; lia). apply Hok.
  - etrans; [apply zlen_zset|done].
  - change (blob_count h') with (blob_count h - 1). lia.
  - change (blob_count h') with (blob_count h - 1). intros j Hj.
    destruct (free_ent j Hj) as (-> & Hm & Hne). by apply free_entry_frame.
  - change (blob_count h') with (blob_count h - 1). intros j k Hj Hk Hne.
    pose proof (moved_inj j k Hj Hk Hne).
    destruct (free_ent j Hj) as (-> & ? & _), (free_ent k Hk) as (-> & ? & _).
    by apply (ok_sep h Hok).
  - intros b Hb. rewrite (free_blk_free h i) by (done || lia).
    intros [Hu Hc]%orb_false_iff. destruct (ok_used h Hok b Hb Hu) as (j & Hj & Hcv).
    apply bool_decide_eq_false in Hc.
    destruct (free_other j Hj) as (k & Hk & Hek); [by intros ->|].
    exists k. split; [done|]. by rewrite Hek.
  - rewrite (free_ctl_free h i), (ok_free h Hok) by done.
    pose proof (free_in_clear_run (heap_ctl h + HC_bitmap) HEAP_MAX_BLOCKS (shm h) 0 HEAP_MAX_BLOCKS
                  (be_start e) (be_blocks e) ltac:(lia) ltac:(lia) ltac:(lia) ltac:(lia)
                  (e_used h e He)) as Hcnt.
    unfold free_in in Hcnt. etrans; [symmetry; exact Hcnt|].
    apply count_range_ext. intros b Hb. rewrite (free_blk_free h i) by (done || lia).
    transitivity (blk_free h b || ((be_start e <=? b) && (b <? be_start e + be_blocks e)));
      [|f_equal; unfold covers; case_bool_decide; lia].
    rewrite <- (blk_free_clear h (be_start e) (be_blocks e) b) by lia.
    unfold blk_free. by rewrite clear_blocks_shm by lia.
Qed.
End FreeOk.

(** ** Look-up *)

Lemma heap_get_live h e :
  heap_ok h -> live h e -> heap_get_blob (be_blob_id e) h = Some (heap_data h + be_offset e, h).
Proof.
  intros H (i & Hi & <-). assert (He : entry_ok h (ent h i)) by by apply (ok_entry h H).
  pose proof (ok_ctl h H). pose proof (e_id h _ He).
  unfold heap_get_blob. replace (heap_ctl h =? 0) with false by lia.
  replace (be_blob_id (ent h i) =? 0) with false by lia. cbn [orb].
  rewrite (find_range_intro 0 (blob_count h) _ i); [reflexivity|done| |].
  - unfold cached. cbv zeta. fold (ent h i).
    rewrite (e_magic h _ He), (e_hid h _ He), !Z.eqb_refl. done.
  - intros j Hj. unfold cached. cbv zeta. fold (ent h j).
    destruct (ok_sep h H j i) as [Hne _]; [lia|lia|lia|].
    by replace (be_blob_id (ent h j) =? be_blob_id (ent h i)) with false by lia.
Qed.

Lemma heap_get_data_live h e :
  heap_ok h -> live h e ->
  heap_get_data (be_blob_id e) h = Some (heap_data h + be_offset e + SIZEOF_heap_blob_t, h).
Proof.
  intros H He. assert (Heo : entry_ok h e) by by apply live_ok.
  unfold heap_get_data. rewrite heap_get_live by done. cbn [mbind option_bind].
  pose proof (ok_ctl h H). pose proof (ok_data h H). destruct (e_off h e Heo).
  replace (heap_data h + be_offset e =? 0) with false by lia.
  rewrite (e_data h e Heo). by rewrite Z.add_assoc.
Qed.

Lemma alloc_heap_ok h size type :
  heap_ok h -> blob_count h < MAX_BLOBS -> ctl_field h HC_next_blob_id < 0x10000 -> 0 <= size -> size + 96 < 0x100000000 -> is_u8 type ->
  heap_ok (snd (heap_alloc size type h)).
Proof.
  intros Hok Hc Hn H0 H1 Ht. destruct (heap_alloc_eq size type h Hok H0 H1) as [(start & Hr & ->)|[_ ->]]; [|done].
  by apply alloc_ok.
Qed.

(** ** Theorems *)

(** C34: [heap_alloc] of [size] bytes, [size + 96 < 2^32], on a well-formed heap
    with a table slot and a 16-bit id left takes the first run of free 64-byte
    blocks that fits the header and [size] bytes, gives the blob a fresh id,
    accounts for the blocks, keeps the heap well formed and touches no byte of any
    other blob; for such a size it fails, with no effect, exactly when no run of
    free blocks is long enough.  A larger size is outside the statement: there
    the rounding wraps. *)
Theorem heap_alloc_spec h size type :
  heap_ok h -> blob_count h < MAX_BLOBS -> ctl_field h HC_next_blob_id < 0x10000 ->
  0 <= size -> size + 96 < 0x100000000 -> is_u8 type ->
  let '(id, h') := heap_alloc size type h in
  let blocks := (size + 95) / 64 in
  (exists start, let e := BlobEntry id (64 * start) blocks in
     id <> 0 /\ first_run h blocks start /\ heap_ok h' /\
     (forall x, live h x -> be_blob_id x <> id) /\
     (forall x, live h' x <-> x = e \/ live h x) /\
     (forall x, live h x -> agree (blob_bytes h x) (shm h) (shm h')) /\
     blob_size_of h' (heap_data h' + 64 * start) = size /\
     blob_type_of h' (heap_data h' + 64 * start) = type /\
     ctl_field h' HC_free_blocks = ctl_field h HC_free_blocks - blocks) \/
  (id = 0 /\ h' = h /\ no_space h blocks).
Proof.
  intros H Hc Hn Hs0 Hs Ht. destruct (blocks_for_small size Hs0 Hs) as [Hb _].
  destruct (heap_alloc_eq size type h H Hs0 Hs) as [(start & Hr & ->)|[Hno ->]].
  - left. exists start. cbv zeta. rewrite <- Hb. rewrite (alloc_id h H Hn).
    destruct (alloc_header h size type start) as (_ & _ & Hty & Hsz & _); [done..|].
    destruct (alloc_ctl h size type start) as (_ & _ & Hf & _); [done..|].
    pose proof (ok_next h H). split; [lia|]. split; [done|]. split; [by apply alloc_ok|].
    split; [intros x Hx; pose proof (e_id h x (live_ok h x H Hx)); lia|].
    split; [intros x; by apply alloc_live|].
    split; [intros x Hx; by apply alloc_agree|]. done.
  - right. by rewrite <- Hb.
Qed.

(** A fresh heap on a zero-filled window, as [ipc_init] sets it up at 0. *)
Definition demo_heap : heap := heap_init 0x10100 (heap_bss ∅).

Lemma demo_heap_ok : heap_ok demo_heap.
Proof. apply heap_init_ok; [lia|apply mem_ok_empty|reflexivity]. Qed.

Lemma heap_alloc_spec_witness :
  exists id h', heap_alloc 100 BLOB_TYPE_TENSOR demo_heap = (id, h') /\ id = 1 /\ heap_ok h'.
Proof.
  pose proof (heap_alloc_spec demo_heap 100 BLOB_TYPE_TENSOR demo_heap_ok) as H.
  assert (E : fst (heap_alloc 100 BLOB_TYPE_TENSOR demo_heap) = 1) by (vm_compute; reflexivity).
  destruct (heap_alloc 100 BLOB_TYPE_TENSOR demo_heap) as [id h'].
  exists id, h'. split; [reflexivity|]. cbn [fst] in E. subst id. split; [reflexivity|].
  destruct H as [(start & _ & _ & Hok & _)|(H & _)].
  - vm_compute. reflexivity.
  - vm_compute. reflexivity.
  - lia.
  - lia.
  - unfold is_u8. lia.
  - exact Hok.
  - lia.
Defined.

(** C35: [heap_free] of a live blob releases exactly its blocks: the bitmap and
    the free count gain them, the blob leaves the table, every other blob stays
    with its bytes, and the heap stays well formed; an id that names no blob
    changes nothing. *)
Theorem heap_free_spec h id :
  heap_ok h ->
  (forall e, live h e -> be_blob_id e = id ->
     let h' := heap_free id h in
     heap_ok h' /\ (forall x, live h' x <-> live h x /\ x <> e) /\
     (forall b, 0 <= b -> blk_free h' b = blk_free h b || bool_decide (covers e b)) /\
     (forall x, live h x -> agree (blob_bytes h x) (shm h) (shm h')) /\
     ctl_field h' HC_free_blocks = ctl_field h HC_free_blocks + be_blocks e) /\
  ((forall e, live h e -> be_blob_id e <> id) -> heap_free id h = h).
Proof.
  intros H. split.
  - intros e (i & Hi & <-) <-. cbv zeta. rewrite heap_free_eq by done.
    split; [by apply free_ok|]. split; [intros x; by apply free_live|].
    split; [intros b Hb; by apply free_blk_free|].
    split; [intros x (j & Hj & <-); by apply free_agree|by apply free_ctl_free].
  - intros Hno. unfold heap_free. destruct (_ || _); [done|].
    destruct (find_range _ _ _) as [i|] eqn:E; [|done].
    apply find_range_Some in E as (Hi & He & _). apply Z.eqb_eq in He.
    destruct (Hno (ent h i)); [by exists i|done].
Qed.

(** The heap after one allocation, its entry and its invariant. *)
Lemma demo_alloc :
  let h := snd (heap_alloc 100 BLOB_TYPE_TENSOR demo_heap) in
  heap_ok h /\ live h (BlobEntry 1 0 3).
Proof.
  pose proof (heap_alloc_spec demo_heap 100 BLOB_TYPE_TENSOR demo_heap_ok) as H.
  assert (E : fst (heap_alloc 100 BLOB_TYPE_TENSOR demo_heap) = 1) by (vm_compute; reflexivity).
  assert (E2 : ent (snd (heap_alloc 100 BLOB_TYPE_TENSOR demo_heap)) 0 = BlobEntry 1 0 3)
    by (vm_compute; reflexivity).
  assert (E3 : blob_count (snd (heap_alloc 100 BLOB_TYPE_TENSOR demo_heap)) = 1)
    by (vm_compute; reflexivity).
  destruct (heap_alloc 100 BLOB_TYPE_TENSOR demo_heap) as [id h']. cbn [fst snd] in *.
  destruct H as [(start & _ & _ & Hok & _)|(H & _)]; try (vm_compute; reflexivity); try lia.
  - unfold is_u8. lia.
  - split; [done|]. exists 0. split; [lia|done].
Qed.

Lemma heap_free_spec_witness :
  let h := snd (heap_alloc 100 BLOB_TYPE_TENSOR demo_heap) in
  heap_ok (heap_free 1 h) /\ ctl_field (heap_free 1 h) HC_free_blocks = HEAP_MAX_BLOCKS.
Proof.
  cbv zeta. destruct demo_alloc as [Hok Hl].
  destruct (heap_free_spec (snd (heap_alloc 100 BLOB_TYPE_TENSOR demo_heap)) 1 Hok) as [Hf _].
  destruct (Hf _ Hl) as (Hok' & _ & _ & _ & Hfree); [reflexivity|].
  split; [exact Hok'|]. etransitivity; [exact Hfree|vm_compute; reflexivity].
Defined.

(** Freeing a blob just allocated gives back the heap as it was to its
    clients: the same blobs, the same free blocks, the same free count; only the
    next id has moved on. *)
Theorem heap_alloc_free_roundtrip h size type :
  heap_ok h -> blob_count h < MAX_BLOBS -> ctl_field h HC_next_blob_id < 0x10000 ->
  0 <= size -> size + 96 < 0x100000000 -> is_u8 type ->
  let '(id, h1) := heap_alloc size type h in
  id <> 0 ->
  let h2 := heap_free id h1 in
  heap_ok h2 /\ (forall x, live h2 x <-> live h x) /\
  (forall b, 0 <= b -> blk_free h2 b = blk_free h b) /\
  ctl_field h2 HC_free_blocks = ctl_field h HC_free_blocks.
Proof.
  intros H Hc Hn Hs0 Hs Ht. pose proof (blocks_for_small size Hs0 Hs) as [Hb Hb1].
  destruct (heap_alloc_eq size type h H Hs0 Hs) as [(start & Hr & ->)|[_ ->]]; [|done].
  intros _. cbv zeta. rewrite (alloc_id h H Hn).
  set (e := BlobEntry (ctl_field h HC_next_blob_id) (HEAP_BLOCK_SIZE * start) (blocks_for size)).
  set (h1 := alloc_state size type start h).
  destruct (alloc_new_entry h size type start) as [Hent _]; [done..|].
  destruct (alloc_table h size type start) as (Hcnt & _); [done..|].
  destruct (alloc_ctl h size type start) as (_ & _ & Hf & _); [done..|].
  pose proof (ok_count h H). pose proof (alloc_bounds h size start Hs0 Hs Hr) as (_ & Hst & _).
  assert (Hok1 : heap_ok h1) by by apply alloc_ok.
  change (ctl_field h HC_next_blob_id) with (be_blob_id e).
  assert (Hi : 0 <= blob_count h < blob_count h1) by (unfold h1; lia).
  replace (be_blob_id e) with (be_blob_id (ent h1 (blob_count h))) by (unfold h1; by rewrite Hent).
  rewrite heap_free_eq by done.
  assert (Hent' : ent h1 (blob_count h) = e) by done.
  split; [by apply free_ok|]. split; [|split].
  - intros x. rewrite free_live by done. rewrite Hent'. unfold h1. rewrite alloc_live by done.
    split; [tauto|]. intros Hx. split; [by right|]. intros ->.
    pose proof (e_id h e (live_ok h e H Hx)). cbn [be_blob_id e] in *. lia.
  - intros b Hb'. rewrite free_blk_free by done. rewrite Hent'.
    unfold h1. rewrite alloc_blk_free by done.
    assert (Hcov : covers e b <-> start <= b < start + blocks_for size).
    { unfold covers, be_start. cbn [e be_offset be_blocks]. rewrite Z.mul_comm, Z.div_mul by lia. done. }
    destruct Hr as (_ & _ & Hfr & _). specialize (Hfr b).
    case_bool_decide as Hd; rewrite Hcov in Hd.
    + rewrite orb_true_r. symmetry. by apply Hfr.
    + replace ((start <=? b) && (b <? start + blocks_for size)) with false by lia.
      by rewrite andb_true_r, orb_false_r.
  - rewrite free_ctl_free by done. rewrite Hent'. unfold h1. rewrite Hf. cbn [be_blocks e]. lia.
Qed.

Lemma heap_alloc_free_roundtrip_witness :
  let '(id, h1) := heap_alloc 100 BLOB_TYPE_TENSOR demo_heap in
  id = 1 /\ heap_ok (heap_free id h1).
Proof.
  pose proof (heap_alloc_free_roundtrip demo_heap 100 BLOB_TYPE_TENSOR demo_heap_ok) as H.
  assert (E : fst (heap_alloc 100 BLOB_TYPE_TENSOR demo_heap) = 1) by (vm_compute; reflexivity).
  destruct (heap_alloc 100 BLOB_TYPE_TENSOR demo_heap) as [id h1]. cbn [fst] in E. subst id.
  split; [reflexivity|].
  apply H; [vm_compute; reflexivity|vm_compute; reflexivity|lia|lia|unfold is_u8; lia|lia].
Defined.

(** A live blob is found where it was put, without a scan and without any
    change: its header, its payload 32 bytes further, its size. *)
Theorem heap_lookup_live h e :
  heap_ok h -> live h e ->
  let id := be_blob_id e in
  let blob := heap_data h + be_offset e in
  heap_get_blob id h = Some (blob, h) /\
  heap_get_data id h = Some (blob + SIZEOF_heap_blob_t, h) /\
  heap_get_blob_size id h = Some (blob_size_of h blob, h) /\
  heap_data h <= blob /\
  blob + SIZEOF_heap_blob_t + blob_size_of h blob <= heap_data h + IPC_HEAP_DATA_SIZE.
Proof.
  intros H He. cbv zeta. assert (Heo : entry_ok h e) by by apply live_ok.
  split; [by apply heap_get_live|]. split; [by apply heap_get_data_live|].
  destruct (e_off h e Heo), (e_blocks h e Heo). pose proof (ok_ctl h H). pose proof (ok_data h H).
  split.
  - unfold heap_get_blob_size. rewrite heap_get_live by done. cbn [mbind option_bind].
    by replace (heap_data h + be_offset e =? 0) with false by lia.
  - split; [lia|]. pose proof (e_size h e Heo).
    assert (0 <= blob_size_of h (heap_data h + be_offset e))
      by (apply (ld_range 4); apply (ok_mem h H)).
    destruct (blocks_for_small (blob_size_of h (heap_data h + be_offset e))) as [Hb _]; [done..|].
    rewrite <- (e_len h e Heo) in Hb. Z.div_mod_to_equations. lia.
Qed.

Lemma heap_lookup_live_witness :
  let h := snd (heap_alloc 100 BLOB_TYPE_TENSOR demo_heap) in
  heap_get_data 1 h = Some (0x11000 + 32, h).
Proof.
  cbv zeta. destruct demo_alloc as [Hok Hl].
  destruct (heap_lookup_live _ _ Hok Hl) as (_ & Hd & _). etransitivity; [exact Hd|].
  f_equal.
Defined.

(** ** The scan of the slow path *)

(** No block starts with header-like bytes that claim a size whose rounding or
    skip would wrap. *)
Definition sizes_sane (h : heap) : Prop :=
  forall off, 0 <= off < IPC_HEAP_DATA_SIZE -> off mod HEAP_BLOCK_SIZE = 0 ->
    blob_magic h (heap_data h + off) = BLOB_MAGIC ->
    blob_size_of h (heap_data h + off) + IPC_HEAP_DATA_SIZE + 160 < 0x100000000.

Lemma scan_heap_total h id n off :
  mem_ok (shm h) -> sizes_sane h -> 0 <= off -> off mod HEAP_BLOCK_SIZE = 0 ->
  off < 0x100000000 -> IPC_HEAP_DATA_SIZE <= off + 64 * Z.of_nat n ->
  exists r, scan_heap h id n off = Some r.
Proof.
  assert (Hmod : forall a b, a mod 64 = 0 -> (a + b * 64 + 64) mod 64 = 0)
    by (intros; Z.div_mod_to_equations; lia).
  intros Hm Hs. revert off. induction n as [|n IH]; intros off H0 Hd Ho Hn; cbn [scan_heap].
  - replace (off <? _) with false by lia. eauto.
  - destruct (Z.ltb_spec off IPC_HEAP_DATA_SIZE) as [Hlt|]; [|eauto].
    pose proof (Hs off (conj H0 Hlt) Hd) as Hsz.
    assert (0 <= blob_size_of h (heap_data h + off)) by (by apply (ld_range 4)).
    destruct (Z.eqb_spec (blob_magic h (heap_data h + off)) BLOB_MAGIC) as [Hb|].
    + specialize (Hsz Hb). destruct (blob_id_of h _ =? id); [eauto|].
      destruct (blocks_for_small (blob_size_of h (heap_data h + off))) as [Hbl Hb1]; [lia|lia|].
      assert (64 * blocks_for (blob_size_of h (heap_data h + off))
              <= blob_size_of h (heap_data h + off) + 95)
        by (rewrite Hbl; Z.div_mod_to_equations; lia).
      forget (blocks_for (blob_size_of h (heap_data h + off))) as blocks.
      destruct (Z.ltb_spec 1 blocks).
      * rewrite (u32_small (blocks - 1)) by (unfold is_u32; lia).
        rewrite (u32_small ((blocks - 1) * 64)) by (unfold is_u32; lia).
        rewrite (u32_small (off + _)) by (unfold is_u32; lia).
        rewrite u32_small by (unfold is_u32; lia). apply IH; [lia|by apply Hmod|lia|lia].
      * rewrite u32_small by (unfold is_u32; lia). apply IH; [lia| |lia|lia].
        specialize (Hmod off 0 Hd). by rewrite Z.add_0_r in Hmod.
    + rewrite u32_small by (unfold is_u32; lia). apply IH; [lia| |lia|lia].
      specialize (Hmod off 0 Hd). by rewrite Z.add_0_r in Hmod.
Qed.

(** A header at offset 64 whose size makes the skip wrap to 0. *)
Lemma scan_heap_wraps h id n :
  blob_magic h (heap_data h) <> BLOB_MAGIC ->
  blob_magic h (heap_data h + 64) = BLOB_MAGIC ->
  blob_id_of h (heap_data h + 64) <> id ->
  blob_size_of h (heap_data h + 64) = 0xFFFFFFA0 ->
  scan_heap h id n 0 = None /\ scan_heap h id n 64 = None.
Proof.
  intros H0 H1 H2 H3. induction n as [|n [IH0 IH1]]; [done|]. cbn [scan_heap].
  change (0 <? IPC_HEAP_DATA_SIZE) with true. change (64 <? IPC_HEAP_DATA_SIZE) with true.
  cbv iota zeta. rewrite Z.add_0_r, H1, H3. apply Z.eqb_neq in H0, H2. rewrite H0, H2, Z.eqb_refl.
  cbv iota. change (0 +u HEAP_BLOCK_SIZE) with 64. split; [done|].
  replace (_ +u HEAP_BLOCK_SIZE) with 0 by reflexivity. done.
Qed.

(** [heap_get_blob] always returns as long as no bytes that look like a
    header claim a size near 4 GB, whatever else the window holds; one such
    header, which the other side of the window can write, makes the 32-bit
    offset of its scan wrap to 0, and the look-up of any blob that is not
    cached never returns. *)
Theorem heap_scan_termination h id :
  (mem_ok (shm h) -> sizes_sane h -> exists blob h', heap_get_blob id h = Some (blob, h')) /\
  (heap_ctl h <> 0 -> id <> 0 -> (forall i, 0 <= i < blob_count h -> cached h id i = false) ->
   blob_magic h (heap_data h) <> BLOB_MAGIC ->
   blob_magic h (heap_data h + 64) = BLOB_MAGIC ->
   blob_id_of h (heap_data h + 64) <> id ->
   blob_size_of h (heap_data h + 64) = 0xFFFFFFA0 ->
   heap_get_blob id h = None /\ forall fuel, scan_heap h id fuel 0 = None).
Proof.
  split.
  - intros Hm Hs. unfold heap_get_blob. destruct (_ || _); [eauto|].
    destruct (find_range _ _ _); [eauto|].
    destruct (scan_heap_total h id (Z.to_nat HEAP_MAX_BLOCKS) 0) as [r ->]; [done|done|lia|done|lia|lia|].
    cbn [mbind option_bind]. destruct r; eauto.
  - intros Hc Hid Hca H0 H1 H2 H3. split; [|intros; by apply scan_heap_wraps].
    unfold heap_get_blob. apply Z.eqb_neq in Hc, Hid. rewrite Hc, Hid. cbn [orb].
    destruct (find_range _ _ _) as [i|] eqn:E.
    + apply find_range_Some in E as (Hi & Ht & _). by rewrite Hca in Ht by lia.
    + by destruct (scan_heap_wraps h id (Z.to_nat HEAP_MAX_BLOCKS) H0 H1 H2 H3) as [-> _].
Qed.

(** The fresh heap with the 12 bytes of a header written by the other side. *)
Definition wrapping_header : heap :=
  demo_heap{{ shm ::= fun m => st32 (st32 m (0x11000 + 64 + BLOB_magic) BLOB_MAGIC)
                                 (0x11000 + 64 + BLOB_size) 0xFFFFFFA0 }}.

Lemma heap_scan_termination_witness :
  (exists blob h', heap_get_blob 7 (heap_bss ∅) = Some (blob, h')) /\
  heap_get_blob 7 wrapping_header = None.
Proof.
  split.
  - apply heap_scan_termination; [apply mem_ok_empty|].
    intros off _ _ Hm. unfold blob_magic in Hm. cbn [shm heap_bss] in Hm.
    assert (E : ld32 ∅ (heap_data (heap_bss ∅) + off + 0) = 0); [|congruence].
    unfold ld, ldb. rewrite !lookup_empty. reflexivity.
  - assert (Hc : blob_count wrapping_header = 0) by (vm_compute; reflexivity).
    destruct (heap_scan_termination wrapping_header 7) as [_ H].
    apply H; [vm_compute; congruence|lia| |vm_compute; congruence|vm_compute; reflexivity|
              vm_compute; congruence|vm_compute; reflexivity].
    intros i Hi. rewrite Hc in Hi. lia.
Defined.

(** ** Blobs after release *)

(** With an empty table the look-up is the scan, which starts at offset 0. *)
Lemma scan_heap_hit h id n :
  (0 < n)%nat -> blob_magic h (heap_data h) = BLOB_MAGIC -> blob_id_of h (heap_data h) = id ->
  scan_heap h id n 0 = Some (Some 0).
Proof.
  destruct n as [|n]; [lia|]. intros _ Hm Hi. cbn [scan_heap].
  change (0 <? IPC_HEAP_DATA_SIZE) with true. cbv iota zeta.
  by rewrite Z.add_0_r, Hm, Hi, !Z.eqb_refl.
Qed.

Lemma get_blob_scan_hit h :
  heap_ctl h <> 0 -> blob_count h = 0 -> blob_magic h (heap_data h) = BLOB_MAGIC ->
  blob_id_of h (heap_data h) = 1 ->
  heap_get_blob 1 h = Some (heap_data h, add_blob 1 0 (blocks_for (blob_size_of h (heap_data h))) h).
Proof.
  intros Hctl Hc Hm Hi. unfold heap_get_blob. rewrite Hc.
  replace (heap_ctl h =? 0) with false by lia. change (1 =? 0) with false. cbn [orb].
  rewrite (scan_heap_hit h 1) by (done || lia). unfold find_range.
  replace (Z.to_nat (0 - 0)) with 0%nat by lia. cbn [first_from mbind option_bind].
  by rewrite Z.add_0_r.
Qed.

Lemma free_first_entry h n :
  heap_ctl h <> 0 -> blob_count h = 1 -> ent h 0 = BlobEntry 1 0 n -> 1 <= n <= HEAP_MAX_BLOCKS ->
  ctl_field (heap_free 1 h) HC_free_blocks = ctl_field h HC_free_blocks +u n.
Proof.
  intros Hctl Hc He Hn. unfold heap_free. rewrite Hc.
  replace (heap_ctl h =? 0) with false by lia. change (1 =? 0) with false. cbn [orb].
  rewrite (find_range_intro 0 1 _ 0); [|lia| |intros; lia].
  2:{ fold (ent h 0). by rewrite He. }
  fold (ent h 0). rewrite He. cbn [be_offset be_blocks]. change (0 / 64) with 0. cbv zeta.
  rewrite ctl_clear by (unfold ctl_off; lia). forget (clear_blocks 0 n h) as h'.
  apply (ctl_set_eq HC_free_blocks _ h'), is_u32_u32.
Qed.

Lemma add_blob_first h n :
  blob_count h = 0 -> zlen (blob_table h) = MAX_BLOBS ->
  let h' := add_blob 1 0 n h in
  ent h' 0 = BlobEntry 1 0 n /\ blob_count h' = 1 /\ shm h' = shm h /\ heap_ctl h' = heap_ctl h.
Proof.
  intros Hc Hl. unfold add_blob, ent. rewrite Hc. change (0 <? MAX_BLOBS) with true. cbv zeta iota.
  split; [apply zget_zset_eq; lia|]. split; [|split]; reflexivity.
Qed.

Section Stale.
Context (base : Z) (m : mem) (size type : Z).
Context (Hbase : 0 < base) (Hm : mem_ok m) (Hs0 : 0 <= size) (Hs : size + 96 < IPC_HEAP_DATA_SIZE).
Context (Htype : is_u8 type).
Local Abbreviation h0 := (heap_init base (heap_bss m)).
Local Abbreviation h1 := (alloc_state size type 0 h0).
Local Abbreviation h2 := (free_state 0 h1).
Local Abbreviation blocks := (blocks_for size).
Local Abbreviation e0 := (BlobEntry 1 0 blocks).

Lemma fresh_ok : heap_ok h0.
Proof. by apply heap_init_ok. Qed.

Lemma fresh_blocks : 1 <= blocks <= HEAP_MAX_BLOCKS.
Proof.
  destruct (blocks_for_small size) as [E H1]; [lia|lia|]. split; [done|]. rewrite E.
  Z.div_mod_to_equations. lia.
Qed.

Lemma fresh_run : first_run h0 blocks 0.
Proof.
  pose proof fresh_blocks. split; [lia|]. split; [lia|]. split; [|intros; lia].
  intros b Hb. apply init_free; [done|lia].
Qed.

Lemma fresh_alloc : heap_alloc size type h0 = (1, h1).
Proof.
  pose proof fresh_blocks. destruct (init_ctls base (heap_bss m) Hbase) as (_ & _ & _ & Hn).
  destruct (heap_alloc_eq size type h0 fresh_ok) as [(start & Hr & ->)|[Hno _]]; [lia|lia| |].
  - rewrite Hn. assert (start = 0) as ->; [|done].
    destruct Hr as (Hr0 & Hr1 & _ & Hmin). destruct (decide (start = 0)) as [|Hne]; [done|].
    destruct (Hmin 0) as (b & Hb & Hf); [lia|].
    by rewrite init_free in Hf by (done || lia).
  - destruct (Hno 0) as (b & Hb & Hf); [lia|lia|].
    by rewrite init_free in Hf by (done || lia).
Qed.

Lemma fresh_h1 :
  heap_ok h1 /\ blob_count h1 = 1 /\ ent h1 0 = e0 /\ heap_data h1 = base + 0xF00 /\
  blob_size_of h1 (heap_data h1) = size /\
  ctl_field h1 HC_free_blocks = HEAP_MAX_BLOCKS - blocks /\
  forall b, 0 <= b < HEAP_MAX_BLOCKS -> blk_free h1 b = negb (b <? blocks).
Proof.
  pose proof fresh_run as Hr. pose proof fresh_ok as Hok.
  destruct (init_ptrs base (heap_bss m) Hbase) as (E1 & E2 & E3).
  destruct (init_ctls base (heap_bss m) Hbase) as (_ & _ & Hf & Hn).
  destruct (alloc_new_entry h0 size type 0) as [He _]; try done; try lia.
  destruct (alloc_table h0 size type 0) as (Hc & _); try done; try lia.
  destruct (alloc_ctl h0 size type 0) as (_ & _ & Hf' & _); try done; try lia.
  destruct (alloc_header h0 size type 0) as (_ & _ & _ & Hz & _); try done; try lia.
  destruct (alloc_ptrs h0 size type 0) as [_ Hd].
  rewrite E3 in *. rewrite Z.mul_0_r, Z.add_0_r in Hz.
  split; [apply alloc_ok; try done; try lia|]. split; [lia|].
  split; [etransitivity; [exact He|]; unfold new_entry; by rewrite Hn|].
  split; [by rewrite Hd|]. split; [exact Hz|]. split; [lia|].
  intros b Hb. rewrite alloc_blk_free by (done || lia). rewrite init_free by (done || lia).
  cbn [andb]. f_equal. replace (0 <=? b) with true by lia. done.
Qed.

Lemma fresh_h2 :
  heap_free 1 h1 = h2 /\ blob_count h2 = 0 /\ zlen (blob_table h2) = MAX_BLOBS /\
  ctl_field h2 HC_free_blocks = HEAP_MAX_BLOCKS /\
  (forall b, 0 <= b < HEAP_MAX_BLOCKS -> blk_free h2 b = true) /\
  blob_magic h2 (heap_data h2) = BLOB_MAGIC /\ blob_id_of h2 (heap_data h2) = 1 /\
  blob_size_of h2 (heap_data h2) = size /\ heap_ctl h2 = base /\ heap_data h2 = base + 0xF00.
Proof.
  destruct fresh_h1 as (Hok & Hc & He & Hd & Hz & Hf & Hb).
  assert (Hi : 0 <= 0 < blob_count h1) by lia.
  pose proof (ok_entry h1 Hok 0 Hi) as Heo. rewrite He in Heo.
  destruct (header_agree h1 h2 e0) as (E1 & E2 & E3 & _).
  { reflexivity. }
  { apply Heo. }
  { apply Heo. }
  { rewrite <- He. by apply free_agree. }
  cbn [be_offset] in E1, E2, E3.
  pose proof (e_magic h1 _ Heo) as M1. pose proof (e_hid h1 _ Heo) as M2.
  cbn [be_offset be_blob_id] in M1, M2. rewrite Z.add_0_r in *.
  change (heap_data h2) with (heap_data h1). rewrite E1, E2, E3.
  split; [by rewrite <- (heap_free_eq h1 0 Hok Hi), He|].
  split; [change (blob_count h2) with (blob_count h1 - 1); lia|].
  split; [etransitivity; [apply zlen_zset|apply Hok]|].
  split; [rewrite free_ctl_free, He by done; cbn [be_blocks]; lia|].
  split.
  - intros b Hb'. rewrite free_blk_free by (done || lia). rewrite He, Hb by done.
    destruct (Z.ltb_spec b blocks); [|done]. cbn [negb orb]. apply bool_decide_eq_true_2.
    unfold covers, be_start. cbn [be_offset be_blocks]. change (0 / 64) with 0. lia.
  - split; [done|]. split; [done|]. split; [done|].
    destruct (alloc_ptrs h0 size type 0) as [Hp _]. destruct (init_ptrs base (heap_bss m) Hbase) as (Ep & _).
    split; [|done]. change (heap_ctl h2) with (heap_ctl h1). by rewrite Hp.
Qed.

Local Abbreviation h3 := (add_blob 1 0 blocks h2).

Lemma fresh_get : heap_get_blob 1 h2 = Some (heap_data h2, h3).
Proof.
  destruct fresh_h2 as (_ & Hc & _ & _ & _ & M1 & M2 & M3 & Hp & Hd).
  rewrite (get_blob_scan_hit h2) by (done || lia). by rewrite M3.
Qed.

Lemma fresh_h3 :
  ent h3 0 = e0 /\ blob_count h3 = 1 /\ shm h3 = shm h2 /\ heap_ctl h3 = heap_ctl h2.
Proof. destruct fresh_h2 as (_ & Hc & Hl & _). by apply add_blob_first. Qed.

Lemma fresh_double_free : ctl_field (heap_free 1 h3) HC_free_blocks = HEAP_MAX_BLOCKS + blocks.
Proof.
  destruct fresh_h3 as (He & Hc & Hsh & Hp). destruct fresh_h2 as (_ & _ & _ & Hf & _ & _ & _ & _ & Hb & _).
  pose proof fresh_blocks.
  rewrite (free_first_entry h3 blocks) by (done || lia).
  change (ctl_field h3 HC_free_blocks) with (ld32 (shm h3) (heap_ctl h3 + HC_free_blocks)).
  rewrite Hsh, Hp. unfold ctl_field in Hf. rewrite Hf. apply u32_small. unfold is_u32. lia.
Qed.
End Stale.

(** Freeing does not clear the header, so a freed blob comes back. On a fresh
    heap, after [heap_alloc] and [heap_free], [heap_get_blob] of the freed id
    still finds the blob and re-enters it in the table over free blocks; the
    next [heap_free] of it is accepted and the free count exceeds the number of
    blocks of the heap. *)
Theorem heap_stale_blob base m size type :
  0 < base -> mem_ok m -> 0 <= size -> size + 96 < IPC_HEAP_DATA_SIZE -> is_u8 type ->
  let '(id, h1) := heap_alloc size type (heap_init base (heap_bss m)) in
  let h2 := heap_free id h1 in
  id = 1 /\
  exists h3, heap_get_blob id h2 = Some (heap_data h2, h3) /\
    live h3 (BlobEntry 1 0 ((size + 95) / 64)) /\
    (forall b, 0 <= b < HEAP_MAX_BLOCKS -> blk_free h3 b = true) /\
    ctl_field (heap_free id h3) HC_free_blocks = HEAP_MAX_BLOCKS + (size + 95) / 64.
Proof.
  intros Hb Hm Hs0 Hs Ht. rewrite fresh_alloc by done. split; [done|].
  destruct (fresh_h2 base m size type) as (-> & _ & _ & _ & Hf & _); [done..|].
  destruct (fresh_h3 base m size type) as (He & Hc & Hsh & Hp); [done..|].
  destruct (blocks_for_small size) as [<- _]; [lia|lia|].
  exists (add_blob 1 0 (blocks_for size) (free_state 0 (alloc_state size type 0 (heap_init base (heap_bss m))))).
  split; [by apply fresh_get|]. split; [exists 0; split; [lia|done]|]. split.
  - intros b Hb'. unfold blk_free. rewrite Hsh, Hp. by apply Hf.
  - by apply fresh_double_free.
Qed.

Lemma heap_stale_blob_witness :
  let '(id, h1) := heap_alloc 100 BLOB_TYPE_RAW (heap_init 0x10100 (heap_bss ∅)) in
  exists h3, heap_get_blob id (heap_free id h1) = Some (heap_data (heap_free id h1), h3) /\
    ctl_field (heap_free id h3) HC_free_blocks = HEAP_MAX_BLOCKS + 3.
Proof.
  pose proof (heap_stale_blob 0x10100 ∅ 100 BLOB_TYPE_RAW ltac:(lia) mem_ok_empty ltac:(lia)
                ltac:(lia)) as H.
  destruct (heap_alloc 100 BLOB_TYPE_RAW (heap_init 0x10100 (heap_bss ∅))) as [id h1].
  destruct H as (_ & h3 & Hg & _ & _ & Hf); [unfold is_u8; lia|].
  exists h3. split; [exact Hg|exact Hf].
Defined.

(** ** The end of the ids *)

Lemma heap_ok_next h n :
  heap_ok h -> ctl_field h HC_next_blob_id <= n <= 0x10000 ->
  heap_ok (set_ctl_field HC_next_blob_id n h).
Proof.
  intros H Hn. pose proof (ok_next h H). set (h' := set_ctl_field HC_next_blob_id n h).
  assert (En : ctl_field h' HC_next_blob_id = n) by (apply ctl_set_eq; unfold is_u32; lia).
  assert (Ec : forall f, f + 4 <= HC_next_blob_id -> ctl_field h' f = ctl_field h f)
    by (intros; apply ctl_set_ne; lia).
  assert (Ef : forall b, 0 <= b -> blk_free h' b = blk_free h b)
    by (intros; apply blk_free_set_ctl; [done|unfold ctl_off; lia]).
  split; try apply H; rewrite ?En, ?Ec by lia; try apply H; try lia.
  - apply (mem_ok_st 4). apply H.
  - intros i Hi. pose proof (ok_entry h H i Hi) as He. apply (entry_ok_frame h); [done| |lia| |done].
    + intros a Ha. destruct (blob_bytes_data h (ent h i) a H He Ha) as [Hd _].
      apply (ldb_st_ne 4). change (Z.of_nat 4) with 4. lia.
    + intros b Hb. apply Ef. change (covers (ent h i) b) in Hb. destruct (e_off h _ He).
      unfold covers in Hb. lia.
  - intros b Hb. rewrite Ef by lia. apply (ok_used h H b Hb).
  - rewrite (ok_free h H). apply count_range_ext. intros j Hj. symmetry. apply Ef. lia.
Qed.

(** The id counter is 32 bits wide and only its low half is handed out. On the
    65536th allocation of a heap's life the id is 0, which is the failure value:
    the call reports failure, yet the blocks are taken, and no call frees them. *)
Theorem heap_id_exhaustion h size type :
  heap_ok h -> blob_count h < MAX_BLOBS -> ctl_field h HC_next_blob_id = 0x10000 ->
  0 <= size -> size + 96 < 0x100000000 -> is_u8 type ->
  ~ no_space h ((size + 95) / 64) ->
  let '(id, h') := heap_alloc size type h in
  id = 0 /\
  ctl_field h' HC_free_blocks = ctl_field h HC_free_blocks - (size + 95) / 64 /\
  heap_free id h' = h'.
Proof.
  intros H Hc Hn Hs0 Hs Ht Hsp. destruct (blocks_for_small size Hs0 Hs) as [Hb _].
  rewrite <- Hb in *.
  destruct (heap_alloc_eq size type h H Hs0 Hs) as [(start & Hr & ->)|[Hno _]]; [|done].
  rewrite Hn. destruct (alloc_ctl h size type start) as (_ & _ & Hf & _); [done..|].
  split; [done|]. split; [done|]. unfold heap_free. change (u16 0x10000 =? 0) with true.
  by rewrite orb_true_r.
Qed.

Lemma heap_id_exhaustion_witness :
  let h := set_ctl_field HC_next_blob_id 0x10000 demo_heap in
  let '(id, h') := heap_alloc 100 BLOB_TYPE_RAW h in
  id = 0 /\ ctl_field h' HC_free_blocks = HEAP_MAX_BLOCKS - 3.
Proof.
  assert (Hok : heap_ok (set_ctl_field HC_next_blob_id 0x10000 demo_heap)).
  { apply heap_ok_next; [apply demo_heap_ok|]. split; [vm_compute; congruence|lia]. }
  pose proof (heap_id_exhaustion _ 100 BLOB_TYPE_RAW Hok) as H. cbv zeta.
  destruct (heap_alloc 100 BLOB_TYPE_RAW _) as [id h'].
  destruct H as (Hid & Hf & _); [vm_compute; reflexivity|vm_compute; reflexivity|lia|lia|
    unfold is_u8; lia| |].
  - intros Hno. destruct (Hno 0) as (b & Hb & Hf); [lia|vm_compute; congruence|].
    change ((100 + 95) / 64) with 3 in Hb.
    assert (Hcase : b = 0 \/ b = 1 \/ b = 2) by lia.
    destruct Hcase as [E|[E|E]]; subst b; vm_compute in Hf; congruence.
  - split; [exact Hid|]. etransitivity; [exact Hf|vm_compute; reflexivity].
Defined.

(** ** Client writes *)

(** The bytes of a blob after its header. *)
Definition payload (h : heap) (e : blob_entry) (a : Z) : Prop :=
  heap_data h + be_offset e + SIZEOF_heap_blob_t <= a
  < heap_data h + HEAP_BLOCK_SIZE * (be_start e + be_blocks e).

(** Writing a live blob's payload, whatever is written, keeps the heap well
    formed with the same blobs. *)
Section PayloadWrite.
Context (h : heap) (e : blob_entry) (m' : mem).
Context (Hok : heap_ok h) (He : live h e) (Hm' : mem_ok m').
Context (Hag : agree (fun a => ~ payload h e a) (shm h) m').
Local Abbreviation h' := (h{{ shm := m' }}).

Lemma payload_data a : payload h e a -> heap_ctl h + 0xF00 <= a.
Proof.
  intros Ha. pose proof (live_ok h e Hok He) as Heo. destruct (e_off h e Heo).
  pose proof (ok_data h Hok). unfold payload in Ha. lia.
Qed.

Lemma payload_ctl f : ctl_off f -> ctl_field h' f = ctl_field h f.
Proof.
  intros [Hf1 Hf2]. eapply ld_agree; [exact Hag|]. intros b Hb Hp.
  apply payload_data in Hp. cbn in *. lia.
Qed.

Lemma payload_blk_free b : 0 <= b -> blk_free h' b = blk_free h b.
Proof.
  intros Hb. apply bm_free_agree; [done|]. intros a Ha. apply Hag. intros Hp.
  apply payload_data in Hp. unfold in_bitmap in Ha.
  change ((HEAP_MAX_BLOCKS + 7) / 8) with HEAP_BITMAP_SIZE in Ha. lia.
Qed.

(** No header is touched: the blob's own lies before its payload, the others'
    in other blocks. *)
Lemma payload_header x a :
  live h x -> heap_data h + be_offset x <= a < heap_data h + be_offset x + SIZEOF_heap_blob_t ->
  ldb m' a = ldb (shm h) a.
Proof.
  intros Hx Ha. apply Hag. unfold payload. destruct He as (i & Hi & <-), Hx as (j & Hj & <-).
  destruct (decide (i = j)) as [->|Hne]; [lia|].
  destruct (ok_sep h Hok i j) as [_ Hs]; [done..|].
  destruct (e_off h _ (ok_entry h Hok i Hi)), (e_off h _ (ok_entry h Hok j Hj)).
  destruct (e_blocks h _ (ok_entry h Hok i Hi)), (e_blocks h _ (ok_entry h Hok j Hj)). lia.
Qed.

Lemma payload_entry x : live h x -> entry_ok h' x.
Proof.
  intros Hx. pose proof (live_ok h x Hok Hx) as Hxo.
  assert (Hld : forall n f, 0 <= f -> f + Z.of_nat n <= SIZEOF_heap_blob_t ->
    ld n m' (heap_data h + be_offset x + f) = ld n (shm h) (heap_data h + be_offset x + f)).
  { intros n f Hf1 Hf2. apply (ld_agree (fun a => heap_data h + be_offset x <= a
      < heap_data h + be_offset x + SIZEOF_heap_blob_t)); [intros a Ha; by apply (payload_header x)|].
    intros; lia. }
  destruct Hxo. unfold blob_magic, blob_id_of, blob_size_of, blob_offset_of in *.
  split; cbn [heap_data shm]; unfold blob_magic, blob_id_of, blob_size_of, blob_offset_of;
    cbn [shm]; rewrite ?Hld by (cbn; lia); try done.
  - rewrite payload_ctl by (unfold ctl_off; lia). lia.
  - intros b Hb. rewrite payload_blk_free; [auto|]. unfold covers in Hb. lia.
Qed.

Lemma payload_ok : heap_ok h'.
Proof.
  split; try apply Hok; rewrite ?payload_ctl by (unfold ctl_off; lia); try apply Hok.
  - exact Hm'.
  - intros i Hi. apply payload_entry. by exists i.
  - intros b Hb. rewrite payload_blk_free by lia. apply (ok_used h Hok b Hb).
  - rewrite (ok_free h Hok). apply count_range_ext. intros j Hj. symmetry.
    apply payload_blk_free. lia.
Qed.

Lemma payload_live x : live h' x <-> live h x.
Proof. done. Qed.
End PayloadWrite.

(** ** Tensors *)

(** The product of the dimensions [lo .. hi-1]. *)
Definition prodz (lo hi : Z) (f : Z -> Z) : Z := for_range lo hi (fun i n => n * f i) 1.

Lemma u32_mul_l a b : u32 (u32 a * b) = u32 (a * b).
Proof. unfold u32. by rewrite Z.mul_mod_idemp_l. Qed.

Lemma nelems_prodz ndim shape : 0 <= ndim -> u32 1 = 1 -> nelems ndim shape = u32 (prodz 0 ndim shape).
Proof.
  intros Hn _. unfold nelems, prodz, for_range. rewrite Z.sub_0_r.
  assert (H : forall n i x, loop n i (fun i n => n *u shape i) (u32 x)
                          = u32 (loop n i (fun i n => n * shape i) x)).
  { induction n as [|n IH]; intros i x; [done|]. cbn [loop]. by rewrite u32_mul_l, IH. }
  apply (H _ 0 1).
Qed.

Lemma nelems_ext ndim f g :
  (forall i, 0 <= i < ndim -> f i = g i) -> nelems ndim f = nelems ndim g.
Proof. intros H. apply for_range_ext. intros j s Hj. by rewrite H. Qed.

(** [ndim] is 1, 2, 3 or 4. *)
Ltac cases_dims ndim :=
  let E := fresh in
  assert (E : ndim = 1 \/ ndim = 2 \/ ndim = 3 \/ ndim = 4) by lia;
  destruct E as [E|[E|[E|E]]]; subst ndim.

(** Unrolls the loops over at most four dimensions. *)
Ltac unroll_dims :=
  unfold write_dims, prodz, for_range;
  repeat match goal with
  | |- context [Z.to_nat (?a - ?b)] =>
      let n := eval vm_compute in (Z.to_nat (a - b)) in change (Z.to_nat (a - b)) with n
  end; cbn [loop].

Lemma write_dims_agree ndim es hdr shape m :
  1 <= ndim <= 4 ->
  agree (fun a => ~ (hdr + TH_shape <= a < hdr + SIZEOF_tensor_header_t)) m
    (write_dims ndim es hdr shape m).
Proof.
  intros Hn. cases_dims ndim; unroll_dims;
    repeat (etrans; [|apply agree_st; intros; lia]); reflexivity.
Qed.

Lemma write_dims_ok ndim es hdr shape m :
  1 <= ndim <= 4 -> mem_ok m -> mem_ok (write_dims ndim es hdr shape m).
Proof. intros Hn Hm. cases_dims ndim; unroll_dims; by repeat apply mem_ok_st. Qed.

(** Each dimension and its row-major stride. *)
Lemma write_dims_read ndim es hdr shape m i :
  1 <= ndim <= 4 -> (forall j, is_u32 (shape j)) -> is_u32 es -> 0 <= i < ndim ->
  let m' := write_dims ndim es hdr shape m in
  ld32 m' (hdr + TH_shape + 4 * i) = shape i /\
  ld32 m' (hdr + TH_strides + 4 * i) = u32 (es * prodz (i + 1) ndim shape).
Proof.
  intros Hn Hs He Hi. cbv zeta.
  assert (Hu : forall x, 0 <= u32 x < 0x100 ^ Z.of_nat 4) by (intros; apply is_u32_u32).
  unfold is_u32 in Hs, He.
  assert (Ei : i = 0 \/ i = 1 \/ i = 2 \/ i = 3) by lia.
  destruct Ei as [Ei|[Ei|[Ei|Ei]]]; subst i; cases_dims ndim; try lia; unroll_dims;
    (split; repeat (rewrite ld_st_ne by lia); rewrite ld_st_eq by (apply Hs || apply He || apply Hu);
     [reflexivity|]); rewrite ?u32_mul_l, ?Z.mul_1_r, ?Z.mul_1_l; try (by rewrite u32_small);
    repeat match goal with
    | |- context [shape ?x] => let v := eval vm_compute in x in progress change x with v
    end; repeat rewrite <- Z.mul_assoc, u32_mul_l; apply (f_equal u32); ring.
Qed.

Lemma write_tensor_header_read dt ndim hdr shape m :
  1 <= ndim <= 4 -> is_u8 dt -> (forall j, is_u32 (shape j)) ->
  let m' := write_tensor_header dt ndim hdr shape m in
  ld8 m' (hdr + TH_dtype) = dt /\ ld8 m' (hdr + TH_ndim) = ndim /\
  (forall i, 0 <= i < ndim ->
     ld32 m' (hdr + TH_shape + 4 * i) = shape i /\
     ld32 m' (hdr + TH_strides + 4 * i) = u32 (dtype_size dt * prodz (i + 1) ndim shape)) /\
  agree (fun a => ~ (hdr <= a < hdr + SIZEOF_tensor_header_t)) m m' /\
  (mem_ok m -> mem_ok m').
Proof.
  intros Hn Hd Hs. cbv zeta. unfold write_tensor_header.
  assert (He : is_u32 (dtype_size dt)) by (unfold dtype_size, is_u32; repeat case_if; lia).
  set (m1 := st16 (st8 (st8 m (hdr + TH_dtype) dt) (hdr + TH_ndim) ndim) (hdr + TH_reserved) 0).
  pose proof (write_dims_agree ndim (dtype_size dt) hdr shape m1 Hn) as Hag.
  unfold is_u8 in Hd.
  split; [|split; [|split; [|split]]].
  - rewrite (ld_agree _ 1 _ _ _ Hag) by (cbn; lia). unfold m1. by mem_simpl.
  - rewrite (ld_agree _ 1 _ _ _ Hag) by (cbn; lia). unfold m1. by mem_simpl.
  - intros i Hi. by apply write_dims_read.
  - intros a Ha. rewrite Hag by lia. unfold m1.
    rewrite !ldb_st_ne by (cbn; lia). done.
  - intros Hm. apply write_dims_ok; [done|]. unfold m1. by repeat apply mem_ok_st.
Qed.

(** The checks of [heap_get_tensor_data] on a live blob that holds a tensor. *)
Lemma heap_get_tensor_live h e dt ndim shape :
  let blob := heap_data h + be_offset e in
  let hdr := blob + SIZEOF_heap_blob_t in
  heap_ok h -> live h e -> blob_type_of h blob = BLOB_TYPE_TENSOR ->
  blob_size_of h blob = SIZEOF_tensor_header_t + prodz 0 ndim shape * dtype_size dt ->
  1 <= ndim <= 4 -> th_dtype h hdr = dt -> th_ndim h hdr = ndim ->
  (forall i, 0 <= i < ndim -> th_shape h hdr i = shape i) ->
  0 <= prodz 0 ndim shape -> 1 <= dtype_size dt ->
  prodz 0 ndim shape * dtype_size dt < IPC_HEAP_DATA_SIZE ->
  heap_get_tensor_data (be_blob_id e) h = Some (hdr + SIZEOF_tensor_header_t, h).
Proof.
  cbv zeta. intros H He Hty Hsz Hn Hdt Hnd Hsh Hp0 Hes Hp.
  destruct (heap_lookup_live h e H He) as (Hg & Hd & _ & Hlo & Hhi). cbv zeta in *.
  pose proof (live_ok h e H He) as Heo. destruct (e_off h e Heo) as [Ho1 Ho2].
  pose proof (ok_ctl h H). pose proof (ok_data h H). pose proof (e_magic h e Heo) as Hm.
  pose proof (e_data h e Heo) as Hof.
  unfold heap_get_tensor_data. rewrite Hg. cbn [mbind option_bind].
  set (blob := heap_data h + be_offset e) in *. rewrite Hty, Hm, Hof, Hsz, Hd.
  assert (Hne : prodz 0 ndim shape < 0x100000000) by nia.
  replace (blob =? 0) with false by lia. rewrite !Z.eqb_refl. cbn [negb orb].
  rewrite u32_small by (unfold is_u32; lia).
  replace (IPC_HEAP_DATA_SIZE <? _) with false by lia. cbn [mbind option_bind].
  rewrite Hsz. replace (blob + 32 =? 0) with false by lia.
  replace (SIZEOF_tensor_header_t + prodz 0 ndim shape * dtype_size dt <? SIZEOF_tensor_header_t)
    with false by nia.
  rewrite Hnd, Hdt. replace (4 <? ndim) with false by lia.
  rewrite (nelems_ext ndim _ shape Hsh), nelems_prodz by (done || lia).
  rewrite (u32_small (prodz 0 ndim shape)) by (unfold is_u32; lia).
  rewrite (u32_small (prodz 0 ndim shape * _)) by (unfold is_u32; nia).
  rewrite u32_small by (unfold is_u32; nia).
  by rewrite Z.ltb_irrefl.
Qed.

(** The size of a tensor's blob, when its elements fit the heap. *)
Lemma tensor_bytes_exact dt ndim shape :
  1 <= ndim <= 4 -> 0 <= prodz 0 ndim shape -> 1 <= dtype_size dt ->
  prodz 0 ndim shape * dtype_size dt < IPC_HEAP_DATA_SIZE ->
  tensor_bytes dt ndim shape = SIZEOF_tensor_header_t + prodz 0 ndim shape * dtype_size dt.
Proof.
  intros Hnd Hp0 Hes Hp. unfold tensor_bytes. rewrite nelems_prodz by (done || lia).
  rewrite (u32_small (prodz 0 ndim shape)) by (unfold is_u32; nia).
  rewrite (u32_small (prodz 0 ndim shape * _)) by (unfold is_u32; nia).
  apply u32_small. unfold is_u32. nia.
Qed.

(** A fresh blob of [size] bytes at [start], and its tensor header written. *)
Section FreshTensor.
Context (h : heap) (size start dt ndim : Z) (shape : Z -> Z).
Context (H : heap_ok h) (Hc : blob_count h < MAX_BLOBS) (Hn : ctl_field h HC_next_blob_id < 0x10000).
Context (Hs0 : 36 <= size) (Hs1 : size + 96 < 0x100000000) (Hr : first_run h (blocks_for size) start).
Context (Hnd : 1 <= ndim <= 4) (Hdt : is_u8 dt) (Hsh : forall i, is_u32 (shape i)).
Local Abbreviation h1 := (alloc_state size BLOB_TYPE_TENSOR start h).
Local Abbreviation e := (new_entry h size start).
Local Abbreviation hdr := (heap_data h1 + be_offset e + 32).
Local Abbreviation m' := (write_tensor_header dt ndim hdr shape (shm h1)).

Lemma tensor_entry : heap_ok h1 /\ live h1 e.
Proof using H Hc Hn Hs0 Hs1 Hr.
  split; [apply alloc_ok; try done; try lia|apply alloc_live; try done; try lia; by left].
Qed.

Lemma tensor_bounds :
  be_start e = start /\ hdr = heap_data h + 64 * start + 32 /\ be_blocks e = (size + 95) / 64.
Proof using H Hs0 Hs1 Hr.
  destruct (alloc_ptrs h size BLOB_TYPE_TENSOR start) as [_ Hdat]; try done; try lia.
  destruct (blocks_for_small size) as [Hbl _]; [lia|done|].
  split; [|split; [by rewrite Hdat|exact Hbl]].
  unfold be_start, new_entry. cbn [be_offset]. rewrite Z.mul_comm. apply Z.div_mul. lia.
Qed.

Lemma tensor_agree : mem_ok m' /\ agree (fun a => ~ payload h1 e a) (shm h1) m'.
Proof using All.
  destruct (write_tensor_header_read dt ndim hdr shape (shm h1) Hnd Hdt Hsh) as (_ & _ & _ & Hag & Hmok).
  split; [apply Hmok; exact (ok_mem _ (proj1 tensor_entry))|]. intros a Ha. apply Hag. intros Hin. apply Ha.
  destruct tensor_bounds as (Hst & _ & Hbl). unfold payload. rewrite Hst, Hbl.
  change (be_offset e) with (64 * start) in Hin |- *. Z.div_mod_to_equations. lia.
Qed.

(** The other blobs keep their bytes. *)
Lemma tensor_others x : live h x -> live h1 x /\ agree (blob_bytes h x) (shm h) m'.
Proof using All.
  intros Hx. split; [apply alloc_live; try done; try lia; by right|]. destruct tensor_agree as [_ Hag].
  intros a Ha. rewrite Hag.
  - assert (Hall : agree (blob_bytes h x) (shm h) (shm h1)) by (apply alloc_agree; done || lia).
    by apply Hall.
  - destruct (alloc_sep h size start H) with (e := x) as [_ Hsep]; try done; try lia.
    destruct tensor_bounds as (Hst & _ & _). destruct (alloc_ptrs h size BLOB_TYPE_TENSOR start) as [_ Hdat]; try done; try lia.
    destruct (e_off h x (live_ok h x H Hx)). unfold blob_bytes in Ha. unfold payload. rewrite Hdat.
    change (be_offset e) with (64 * start). rewrite Hst in *. lia.
Qed.

(** The tensor is found, and holds what was written. *)
Lemma tensor_found :
  size = 36 + prodz 0 ndim shape * dtype_size dt -> 0 <= prodz 0 ndim shape -> 1 <= dtype_size dt ->
  prodz 0 ndim shape * dtype_size dt < IPC_HEAP_DATA_SIZE -> let h2 := h1{{ shm := m' }} in
  heap_get_tensor_data (be_blob_id e) h2 = Some (hdr + 36, h2) /\
  th_dtype h2 hdr = dt /\ th_ndim h2 hdr = ndim /\
  forall i, 0 <= i < ndim ->
    th_shape h2 hdr i = shape i /\ th_strides h2 hdr i = u32 (dtype_size dt * prodz (i + 1) ndim shape).
Proof using All.
  intros Esize Hp0 Hes Hp h2. destruct tensor_entry as [Hok1 He1]. destruct tensor_agree as [Hm' Hag'].
  destruct (write_tensor_header_read dt ndim hdr shape (shm h1) Hnd Hdt Hsh) as (Hrd & Hrn & Hrs & Hag & _).
  split; [|split; [exact Hrd|split; [exact Hrn|exact Hrs]]].
  destruct (alloc_header h size BLOB_TYPE_TENSOR start) as (_ & _ & Hty & Hsz & _); try done; try lia.
  assert (Hld : forall n f, 0 <= f -> f + Z.of_nat n <= 32 ->
    ld n m' (heap_data h1 + be_offset e + f) = ld n (shm h1) (heap_data h1 + be_offset e + f)).
  { intros n f Hf1 Hf2. apply (ld_agree _ n _ _ _ Hag). intros b Hb. lia. }
  pose proof (payload_ok h1 e m' Hok1 He1 Hm' Hag') as Hok'.
  apply (heap_get_tensor_live h2 e dt ndim shape); try done.
  - unfold blob_type_of in *. etransitivity; [apply (Hld 1%nat); cbn; lia|exact Hty].
  - unfold blob_size_of in *. etransitivity; [etransitivity; [apply (Hld 4%nat); cbn; lia|exact Hsz]|exact Esize].
  - intros i Hi. by apply Hrs.
Qed.
End FreshTensor.

(** C39: a tensor blob is allocated, described and found again. For 1 to 4
    dimensions whose elements fit the heap, with a table slot and a 16-bit id
    left, [heap_alloc_tensor] returns 0 exactly when no run of free blocks holds
    the blob's header, the tensor's header and the elements, and then changes
    nothing; otherwise it gives a blob whose header holds the shape and the
    row-major strides, on a heap that stays well formed with every other blob's
    bytes as they were; [heap_get_tensor_data] then accepts it and returns the
    address past the tensor's header, with room for every element inside the
    heap. *)
Theorem heap_tensor_roundtrip h dt ndim shape :
  heap_ok h -> blob_count h < MAX_BLOBS -> ctl_field h HC_next_blob_id < 0x10000 ->
  1 <= ndim <= 4 -> is_u8 dt -> (forall i, is_u32 (shape i)) ->
  0 <= prodz 0 ndim shape -> prodz 0 ndim shape * dtype_size dt < IPC_HEAP_DATA_SIZE ->
  exists id h', heap_alloc_tensor dt ndim (Some shape) h = Some (id, h') /\
    (id = 0 <-> no_space h ((36 + prodz 0 ndim shape * dtype_size dt + 95) / 64)) /\
    (id = 0 -> h' = h) /\
    (id <> 0 ->
     heap_ok h' /\
     (forall x, live h x -> live h' x /\ agree (blob_bytes h x) (shm h) (shm h')) /\
     exists data, heap_get_tensor_data id h' = Some (data, h') /\
       heap_data h + 32 + 36 <= data /\
       data + prodz 0 ndim shape * dtype_size dt <= heap_data h + IPC_HEAP_DATA_SIZE /\
       th_dtype h' (data - 36) = dt /\ th_ndim h' (data - 36) = ndim /\
       forall i, 0 <= i < ndim ->
         th_shape h' (data - 36) i = shape i /\
         th_strides h' (data - 36) i = u32 (dtype_size dt * prodz (i + 1) ndim shape)).
Proof.
  intros H Hc Hn Hnd Hdt Hsh Hp0 Hp.
  assert (Hes : 1 <= dtype_size dt) by (unfold dtype_size; repeat case_if; lia).
  pose proof (tensor_bytes_exact dt ndim shape Hnd Hp0 Hes Hp) as Hsize.
  set (size := 36 + prodz 0 ndim shape * dtype_size dt) in Hsize.
  assert (Hs0 : 36 <= size) by nia. assert (Hs1 : size + 96 < 0x100000000) by lia.
  unfold heap_alloc_tensor. replace (ndim =? 0) with false by lia.
  replace (4 <? ndim) with false by lia. cbn [orb]. rewrite Hsize.
  destruct (blocks_for_small size) as [Eb Hb1]; [lia|done|]. fold size. rewrite <- Eb.
  destruct (heap_alloc_eq size BLOB_TYPE_TENSOR h H) as [(start & Hr & ->)|[Hno ->]]; [lia|done| |].
  2:{ exists 0, h. by split. }
  pose proof (run_not_no_space h _ start Hb1 Hr) as Hspace. pose proof (ok_next h H). rewrite (alloc_id h H Hn).
  replace (ctl_field h HC_next_blob_id =? 0) with false by lia.
  destruct (tensor_entry h size start H Hc Hn Hs0 Hs1 Hr) as [Hok1 He1].
  destruct (tensor_agree h size start dt ndim shape H Hc Hn Hs0 Hs1 Hr Hnd Hdt Hsh) as [Hm' Hag'].
  pose proof (tensor_others h size start dt ndim shape H Hc Hn Hs0 Hs1 Hr Hnd Hdt Hsh) as Hother.
  destruct (tensor_found h size start dt ndim shape H Hc Hn Hs0 Hs1 Hr Hnd Hdt Hsh) as (Hf & Hfd & Hfn & Hfs); try done.
  destruct (tensor_bounds h size start H Hs0 Hs1 Hr) as (_ & Eh & Hbl).
  change (ctl_field h HC_next_blob_id) with (be_blob_id (new_entry h size start)).
  rewrite (heap_get_data_live _ _ Hok1 He1). cbn [mbind option_bind].
  eexists _, _. split; [reflexivity|].
  assert (Hid : be_blob_id (new_entry h size start) <> 0) by (cbn [be_blob_id new_entry]; lia).
  split; [by split|]. split; [done|]. intros _.
  split; [exact (payload_ok _ _ _ Hok1 He1 Hm' Hag')|]. split; [exact Hother|].
  eexists. split; [exact Hf|]. destruct Hr as (Hr0 & Hr1 & _).
  change (be_blocks (new_entry h size start)) with (blocks_for size) in Hbl. rewrite Hbl in Hr1.
  rewrite Z.add_simpl_r. rewrite Eh at 1 2.
  split; [lia|]. split; [Z.div_mod_to_equations; lia|]. done.
Qed.

Lemma heap_tensor_roundtrip_witness :
  let shape i := if i =? 0 then 3 else if i =? 1 then 5 else 0 in
  exists id h', heap_alloc_tensor 0 2 (Some shape) demo_heap = Some (id, h') /\ id = 1 /\
    heap_ok h' /\ exists data, heap_get_tensor_data id h' = Some (data, h') /\
      th_strides h' (data - 36) 0 = 20.
Proof.
  cbv zeta. set (shape i := if i =? 0 then 3 else if i =? 1 then 5 else 0).
  destruct (heap_tensor_roundtrip demo_heap 0 2 shape demo_heap_ok) as (id & h' & E & _ & _ & H).
  - vm_compute. reflexivity.
  - vm_compute. reflexivity.
  - lia.
  - unfold is_u8. lia.
  - intros i. unfold shape, is_u32. repeat case_if; lia.
  - vm_compute. congruence.
  - vm_compute. reflexivity.
  - assert (Eid : option_map fst (heap_alloc_tensor 0 2 (Some shape) demo_heap) = Some 1)
      by (vm_compute; reflexivity).
    rewrite E in Eid. cbn [option_map fst] in Eid. injection Eid as ->.
    exists 1, h'. split; [exact E|]. split; [reflexivity|].
    destruct H as (Hok & _ & data & Hg & _ & _ & _ & _ & Hs); [lia|].
    split; [exact Hok|]. exists data. split; [exact Hg|].
    destruct (Hs 0 ltac:(lia)) as [_ ->]. vm_compute. reflexivity.
Defined.

(** ** The heap and the rest of the window

    The heap's bytes are its control block, bitmap and data; its operations
    write nowhere else, and writes elsewhere leave it as it is. *)

Section Elsewhere.
Context (h : heap) (m' : mem) (Hok : heap_ok h) (Hm : mem_ok m').
Context (Hag : agree (fun a => heap_ctl h <= a < heap_data h + IPC_HEAP_DATA_SIZE) (shm h) m').
Local Abbreviation h' := (h{{ shm := m' }}).

Lemma elsewhere_ctl f : ctl_off f -> ctl_field h' f = ctl_field h f.
Proof using Hag Hok.
  intros [Hf1 Hf2]. eapply ld_agree; [exact Hag|]. intros b Hb. pose proof (ok_data h Hok).
  cbn in *. lia.
Qed.

Lemma elsewhere_free b : 0 <= b -> blk_free h' b = blk_free h b.
Proof using Hag Hok.
  intros Hb. apply bm_free_agree; [done|]. intros a Ha. apply Hag.
  unfold in_bitmap in Ha. change ((HEAP_MAX_BLOCKS + 7) / 8) with HEAP_BITMAP_SIZE in Ha.
  pose proof (ok_data h Hok). lia.
Qed.

Lemma elsewhere_entry i : 0 <= i < blob_count h -> entry_ok h' (ent h i).
Proof using Hag Hok.
  intros Hi. pose proof (ok_entry h Hok i Hi) as He. destruct (e_off h _ He), (e_blocks h _ He).
  apply (entry_ok_frame h); [done| | | |done].
  - intros a Ha. apply Hag. unfold blob_bytes in Ha. pose proof (ok_data h Hok). lia.
  - rewrite elsewhere_ctl by (unfold ctl_off; lia). lia.
  - intros b Hb. unfold covers in Hb. apply elsewhere_free. lia.
Qed.

Lemma heap_ok_elsewhere : heap_ok h'.
Proof using Hag Hok Hm.
  split; try apply Hok; try exact Hm.
  - rewrite elsewhere_ctl by (unfold ctl_off; lia). apply Hok.
  - rewrite elsewhere_ctl by (unfold ctl_off; lia). apply Hok.
  - rewrite elsewhere_ctl by (unfold ctl_off; lia). apply Hok.
  - apply elsewhere_entry.
  - intros b Hb Hf. rewrite elsewhere_free in Hf by lia. by apply (ok_used h Hok b).
  - rewrite elsewhere_ctl by (unfold ctl_off; lia). rewrite (ok_free h Hok).
    apply count_range_ext. intros b Hb. symmetry. apply elsewhere_free. lia.
Qed.
End Elsewhere.

Definition heap_region (h : heap) (m m' : mem) : Prop :=
  within (heap_ctl h) (heap_data h + IPC_HEAP_DATA_SIZE) m m'.

(** Allocation while the table and the ids last keeps the heap well formed and
    writes in the heap's region only. *)
Lemma heap_alloc_region h size type :
  heap_ok h -> blob_count h < MAX_BLOBS -> ctl_field h HC_next_blob_id < 0x10000 ->
  0 <= size -> size + 96 < 0x100000000 -> is_u8 type ->
  let h' := snd (heap_alloc size type h) in
  heap_ok h' /\ heap_ctl h' = heap_ctl h /\ heap_region h (shm h) (shm h').
Proof.
  intros H Hc Hn Hs0 Hs Ht. cbv zeta. pose proof (ok_data h H) as Hd.
  destruct (heap_alloc_eq size type h H Hs0 Hs) as [(start & Hr & ->)|[_ ->]]; [|done].
  cbn [snd]. split; [by apply alloc_ok|]. split; [apply (alloc_ptrs h size type start)|].
  intros a Ha. apply (alloc_frame h size type start); [done..|].
  destruct (alloc_bounds h size start) as (Hb & H1 & H2); [done..|].
  unfold touched, in_bits, in_bitmap. change ((HEAP_MAX_BLOCKS + 7) / 8) with HEAP_BITMAP_SIZE. lia.
Qed.

Lemma heap_free_region h id :
  heap_ok h -> let h' := heap_free id h in
  heap_ok h' /\ heap_ctl h' = heap_ctl h /\ heap_region h (shm h) (shm h').
Proof.
  intros H. cbv zeta. pose proof (ok_data h H) as Hd.
  destruct (find_range 0 (blob_count h) (fun i => be_blob_id (zget (blob_table h) i) =? id)) as [i|] eqn:E.
  - apply find_range_Some in E as (Hi & Eid & _). apply Z.eqb_eq in Eid. subst id.
    change (zget (blob_table h) i) with (ent h i). rewrite (heap_free_eq h i H Hi).
    split; [by apply free_ok|split; [reflexivity|]].
    intros a Ha. apply (free_frame h i H Hi); unfold in_bits, in_bitmap;
      change ((HEAP_MAX_BLOCKS + 7) / 8) with HEAP_BITMAP_SIZE; lia.
  - assert (Eh : heap_free id h = h) by (unfold heap_free; rewrite E; by destruct (_ || _)).
    rewrite Eh. done.
Qed.

Lemma heap_init_region base h :
  0 < base -> within base (base + HC_bitmap + HEAP_BITMAP_SIZE) (shm h) (shm (heap_init base h)).
Proof.
  intros Hb. rewrite heap_init_eq by done. intros a Ha.
  change (ldb (shm (clear_bitmap (init_ctl base h))) a = ldb (shm h) a).
  rewrite clear_bitmap_agree by (unfold in_bits, in_bitmap;
    change ((HEAP_MAX_BLOCKS + 7) / 8) with HEAP_BITMAP_SIZE; change (heap_ctl (init_ctl base h)) with base; lia).
  unfold init_ctl. cbn [shm set_ctl_field].
  repeat (etrans; [apply ldb_st_ne; change (Z.of_nat 4) with 4; cbn -[Z.add]; lia|]). done.
Qed.

(** ** The heap with any bitmap

    [ipc_mesh_init] writes its table over the bitmap, so from boot on [heap_ok]
    cannot be relied on.  What the operations keep whatever the bitmap says: the
    pointers, the length of the table and its count, and that the scan of the
    headers ends; and they write the heap's region alone. *)

Record heap_wired (h : heap) : Prop := {
  wd_ctl : 0 < heap_ctl h;
  wd_data : heap_data h = heap_ctl h + (IPC_HEAP_DATA_OFFSET - IPC_HEAP_CTL_OFFSET);
  wd_mem : mem_ok (shm h);
  wd_table : zlen (blob_table h) = MAX_BLOBS;
  wd_count : 0 <= blob_count h <= MAX_BLOBS;
  wd_sane : sizes_sane h
}.

Lemma heap_ok_wired h : heap_ok h -> sizes_sane h -> heap_wired h.
Proof.
  intros H Hs. pose proof (ok_data h H). split; try apply H; try done; lia.
Qed.

Lemma sizes_sane_agree h h' :
  heap_data h' = heap_data h ->
  agree (fun a => heap_data h <= a < heap_data h + IPC_HEAP_DATA_SIZE) (shm h) (shm h') ->
  sizes_sane h -> sizes_sane h'.
Proof.
  intros Ed Hag Hs off Hoff Hmod.
  assert (Hld : forall f, 0 <= f -> f + 4 <= 64 ->
    ld32 (shm h') (heap_data h' + off + f) = ld32 (shm h) (heap_data h + off + f)).
  { intros f Hf1 Hf2. rewrite Ed. apply (ld_agree _ 4 _ _ _ Hag). intros a Ha. Z.div_mod_to_equations; lia. }
  unfold blob_magic, blob_size_of. rewrite !Hld by (cbn; lia). by apply Hs.
Qed.

(** A change of the control block and the bitmap alone. *)
Record ctl_change (h h' : heap) : Prop := {
  cc_ctl : heap_ctl h' = heap_ctl h;
  cc_data : heap_data h' = heap_data h;
  cc_table : blob_table h' = blob_table h;
  cc_count : blob_count h' = blob_count h;
  cc_mem : mem_ok (shm h) -> mem_ok (shm h');
  cc_within : within (heap_ctl h) (heap_ctl h + 0xF00) (shm h) (shm h')
}.

#[export] Instance ctl_change_preorder : PreOrder ctl_change.
Proof.
  split; [by intros h|]. intros h1 h2 h3 [A1 A2 A3 A4 A5 A6] [B1 B2 B3 B4 B5 B6].
  split; [congruence..|by eauto|]. rewrite A1 in B6. by etransitivity.
Qed.

Lemma set_ctl_change f v h : 0 <= f -> f + 4 <= 0xF00 -> ctl_change h (set_ctl_field f v h).
Proof.
  intros H0 H1. split; try done; [intros; by apply mem_ok_st|].
  apply within_st; [lia|change (Z.of_nat 4) with 4; lia].
Qed.

Section Marks.
Context (set : Z -> mem -> mem) (h : heap).
Context (Hset : forall b m, 0 <= b -> (mem_ok m -> mem_ok (set b m)) /\ agree (fun a => ~ in_bits h a) m (set b m)).

Lemma marks_change start n : ctl_change h h{{ shm ::= for_range 0 n (fun i => set (start +u i)) }}.
Proof using Hset.
  assert (Hb : forall i, 0 <= start +u i) by (intros; apply is_u32_u32).
  destruct (Z.le_gt_cases n 0) as [Hn|Hn].
  { assert (E : h{{ shm ::= for_range 0 n (fun i => set (start +u i)) }} = h)
      by (destruct h; cbn; f_equal; unfold for_range; by replace (Z.to_nat (n - 0)) with O by lia).
    by rewrite E. }
  split; try done; cbn [shm].
  - intros Hm. apply (for_range_ind (fun _ m => mem_ok m)); [lia|done|]. intros j m _. by apply Hset.
  - apply (for_range_ind (fun _ m => within (heap_ctl h) (heap_ctl h + 0xF00) (shm h) m)); [lia|done|].
    intros j m _ Hw a Ha. rewrite (proj2 (Hset (start +u j) m (Hb j))); [by apply Hw|].
    unfold in_bitmap. change ((HEAP_MAX_BLOCKS + 7) / 8) with HEAP_BITMAP_SIZE. lia.
Qed.
End Marks.

Lemma mark_change start n h : ctl_change h (mark_blocks start n h).
Proof.
  apply (marks_change (bitmap_set h)). intros b m Hb.
  split; [|by apply bm_set_agree]. intros Hm. unfold bitmap_set, bm_set. case_match; [by apply mem_ok_stb|done].
Qed.

Lemma clear_change start n h : ctl_change h (clear_blocks start n h).
Proof.
  apply (marks_change (bitmap_clear h)). intros b m Hb.
  split; [|by apply bm_clear_agree]. intros Hm. unfold bitmap_clear, bm_clear. case_match; [by apply mem_ok_stb|done].
Qed.

Lemma take_id_change h : ctl_change h (snd (take_blob_id h)).
Proof.
  unfold take_blob_id. cbn [snd]. set (h1 := set_ctl_field _ _ _).
  assert (H1 : ctl_change h h1) by (apply set_ctl_change; lia).
  destruct (_ =? 0); [|done]. etransitivity; [exact H1|]. apply set_ctl_change; lia.
Qed.

Lemma wired_ctl_change h h' : heap_wired h -> ctl_change h h' -> heap_wired h'.
Proof.
  intros [W1 W2 W3 W4 W5 W6] [C1 C2 C3 C4 C5 C6]. split; [by rewrite C1|by rewrite C1, C2|by apply C5|congruence..|].
  apply (sizes_sane_agree h); [done| |done]. intros a Ha. apply C6. lia.
Qed.

Lemma wired_add_blob id off n h :
  heap_wired h -> heap_wired (add_blob id off n h) /\ heap_ctl (add_blob id off n h) = heap_ctl h /\
  shm (add_blob id off n h) = shm h /\ heap_data (add_blob id off n h) = heap_data h.
Proof.
  intros [W1 W2 W3 W4 W5 W6]. unfold add_blob. destruct (Z.ltb_spec (blob_count h) MAX_BLOBS); [|done].
  split; [|done]. split; try done.
  - change (zlen (zset (blob_table h) (blob_count h) (BlobEntry id off n)) = MAX_BLOBS). by rewrite zlen_zset.
  - change (0 <= blob_count h +u 1 <= MAX_BLOBS). rewrite u32_small by (unfold is_u32; lia). lia.
Qed.

(** A header written at a block, its size small. *)
Lemma wired_header h id type size start :
  heap_wired h -> 0 <= start < HEAP_MAX_BLOCKS -> 0 <= size < IPC_HEAP_DATA_SIZE ->
  let off := start * HEAP_BLOCK_SIZE in
  let m' := write_header (heap_data h + off) id type size off (shm h) in
  heap_wired h{{ shm := m' }} /\ within (heap_data h) (heap_data h + IPC_HEAP_DATA_SIZE) (shm h) m'.
Proof.
  intros [W1 W2 W3 W4 W5 W6] Hst Hsz off m'.
  pose proof (write_header_agree (heap_data h + off) id type size off (shm h)) as Hag. fold m' in Hag.
  assert (Hm' : mem_ok m') by (by apply write_header_ok).
  split; [|intros a Ha; apply Hag; unfold off in *; lia]. split; try done.
  intros o Ho Hmod. change (heap_data h{{ shm := m' }}) with (heap_data h).
  change (blob_magic h{{ shm := m' }} (heap_data h + o)) with (ld32 m' (heap_data h + o + BLOB_magic)).
  change (blob_size_of h{{ shm := m' }} (heap_data h + o)) with (ld32 m' (heap_data h + o + BLOB_size)).
  destruct (Z.eq_dec o off) as [->|Hne].
  - intros _. assert (E : ld32 m' (heap_data h + off + BLOB_size) = size)
      by (unfold m', write_header; mem_simpl; reflexivity). rewrite E. lia.
  - assert (Hld : forall f, 0 <= f -> f + 4 <= 32 -> ld32 m' (heap_data h + o + f) = ld32 (shm h) (heap_data h + o + f)).
    { intros f Hf1 Hf2. apply (ld_agree _ 4 _ _ _ Hag). intros a Ha. unfold off in *. Z.div_mod_to_equations; lia. }
    rewrite !Hld by (cbn; lia). by apply W6.
Qed.

(** Allocation, the bitmap being what it may. *)
Lemma heap_alloc_wired size type h :
  heap_wired h -> 0 <= size -> size + 96 < 0x100000000 ->
  let h' := snd (heap_alloc size type h) in
  heap_wired h' /\ heap_ctl h' = heap_ctl h /\ heap_region h (shm h) (shm h').
Proof.
  intros Hw Hs0 Hs. cbv zeta. pose proof (wd_data h Hw) as Hd. unfold heap_alloc.
  destruct (heap_down h); [done|]. destruct (blocks_for_small size Hs0 Hs) as [Eb Hb].
  destruct (find_free_blocks_spec h (blocks_for size)) as [[Hr ->]|[-> Hno]]; [lia| |done].
  set (start := find_free_blocks h (blocks_for size)) in *. destruct Hr as (Hr0 & Hr1 & _).
  forget (blocks_for size) as blocks. set (h1 := set_ctl_field _ _ _).
  assert (C1 : ctl_change h h1) by (etransitivity; [apply mark_change|apply set_ctl_change; lia]).
  destruct (take_blob_id h1) as [id h2] eqn:E2.
  assert (C2 : ctl_change h h2) by (etransitivity; [exact C1|]; pose proof (take_id_change h1) as C; by rewrite E2 in C).
  pose proof (wired_ctl_change h h2 Hw C2) as W2.
  rewrite (u32_small (start * HEAP_BLOCK_SIZE)) by (unfold is_u32; lia).
  destruct (wired_add_blob id (start * HEAP_BLOCK_SIZE) blocks h2 W2) as (W3 & A1 & A2 & A3).
  set (h3 := add_blob _ _ _ _) in *.
  assert (Hsz : 0 <= size < IPC_HEAP_DATA_SIZE) by (split; [lia|]; Z.div_mod_to_equations; lia).
  destruct (wired_header h3 id type size start W3 ltac:(lia) Hsz) as [W4 I4].
  destruct C2 as [C3 C4 _ _ _ C5]. split; [exact W4|]. split; [etransitivity; [exact A1|exact C3]|].
  cbn [snd]. unfold heap_region. transitivity (shm h2).
  - eapply within_mono; [| |exact C5]; lia.
  - rewrite <- A2. eapply within_mono; [| |exact I4]; rewrite A3, C4; lia.
Qed.

Lemma heap_free_wired id h :
  heap_wired h ->
  let h' := heap_free id h in
  heap_wired h' /\ heap_ctl h' = heap_ctl h /\ heap_region h (shm h) (shm h').
Proof.
  intros Hw. cbv zeta. pose proof (wd_data h Hw) as Hd. unfold heap_free. destruct (_ || _); [done|].
  destruct (find_range _ _ _) as [i|] eqn:E; [|done]. apply find_range_Some in E as (Hi & _).
  set (h1 := set_ctl_field _ _ _).
  assert (C1 : ctl_change h h1) by (etransitivity; [apply clear_change|apply set_ctl_change; lia]).
  pose proof (wired_ctl_change h h1 Hw C1) as [W1 W2 W3 W4 W5 W6]. destruct C1 as [C1 C2 C3 C4 C5 C6].
  split; [|split; [exact C1|]].
  - rewrite C4. split; try done.
    + change (zlen (zset (blob_table h1) i (zget (blob_table h1) (blob_count h -u 1))) = MAX_BLOBS). by rewrite zlen_zset.
    + change (0 <= blob_count h -u 1 <= MAX_BLOBS). rewrite C4 in W5. rewrite u32_small by (unfold is_u32; lia). lia.
  - eapply within_mono; [| |exact C6]; lia.
Qed.

(** The look-up returns, and changes the table alone. *)
Lemma heap_get_blob_wired id h :
  heap_wired h -> exists blob h', heap_get_blob id h = Some (blob, h') /\ heap_wired h' /\
    heap_ctl h' = heap_ctl h /\ shm h' = shm h.
Proof.
  intros Hw. unfold heap_get_blob. destruct (_ || _); [by eexists _, _|].
  destruct (find_range _ _ _); [by eexists _, _|].
  destruct (scan_heap_total h id (Z.to_nat HEAP_MAX_BLOCKS) 0) as [r ->]; [apply Hw|apply Hw|lia|done|lia|lia|].
  cbn [mbind option_bind]. destruct r as [off|]; [|by eexists _, _].
  destruct (wired_add_blob id off (blocks_for (blob_size_of h (heap_data h + off))) h Hw) as (W & E1 & E2 & _).
  eexists _, _. split; [reflexivity|]. done.
Qed.

(** Writes outside the heap's data. *)
Lemma wired_elsewhere h m' lo hi :
  heap_wired h -> mem_ok m' -> within lo hi (shm h) m' ->
  hi <= heap_data h \/ heap_data h + IPC_HEAP_DATA_SIZE <= lo -> heap_wired h{{ shm := m' }}.
Proof.
  intros [W1 W2 W3 W4 W5 W6] Hm Hin Hout. split; try done.
  apply (sizes_sane_agree h); [done| |done]. intros a Ha. apply Hin. lia.
Qed.
