(* ===== verification/Interrupts.v ===== *)
(** kernel/arch/pic.c, kernel/arch/idt.c and kernel/arch/pit.c (the i386 build):
    the two 8259 interrupt controllers, the descriptor table and the tick.

    Ports are hardware.  The machine answers a read of a port as a function of
    all the port accesses before it ([ports]); the files' statics are the other
    fields of [pic] and [idt_state].  A handler is a function pointer, a [Z] with
    0 for NULL; a dispatcher returns the handler it ends by calling.
    [pic8259] is the documented behaviour of the controllers the masks rely on:
    once its four initialisation words are written, the data port holds the
    interrupt mask and reads back what was written last. *)

From S2P Require Import Prelude.

(** ** Port accesses *)

Inductive io := Out (port val : Z) | In (port : Z).

Record pic := Pic {
  ports : list io -> Z -> Z;    (* the machine: accesses so far, newest first; port *)
  io_log : list io;
  irq_handlers : list Z;
  timer_ticks : Z;
  tick_rate_hz : Z
}.
#[export] Instance pic_eta : Eta pic := fun p =>
  Pic (ports p) (io_log p) (irq_handlers p) (timer_ticks p) (tick_rate_hz p).

Definition outb (port val : Z) (p : pic) : pic := p{{ io_log ::= cons (Out port (u8 val)) }}.
Definition inb (port : Z) (p : pic) : Z * pic :=
  (u8 (ports p (io_log p) port), p{{ io_log ::= cons (In port) }}).
Definition io_wait (p : pic) : pic := outb 0x80 0 p.

Definition PIC1_CMD : Z := 0x20.
Definition PIC1_DATA : Z := 0x21.
Definition PIC2_CMD : Z := 0xA0.
Definition PIC2_DATA : Z := 0xA1.
Definition PIC_EOI : Z := 0x20.
Definition ICW1_ICW4 : Z := 0x01.
Definition ICW1_INIT : Z := 0x10.
Definition ICW4_8086 : Z := 0x01.
Definition PIC1_OFFSET : Z := 32.
Definition PIC2_OFFSET : Z := 40.

(** ** kernel/arch/pic.c *)

Definition irq_register_handler (irq handler : Z) (p : pic) : pic :=
  if irq <? 16 then p{{ irq_handlers ::= fun l => zset l irq handler }} else p.

Definition pic_send_eoi (irq : Z) (p : pic) : pic :=
  let p := if 8 <=? irq then outb PIC2_CMD PIC_EOI p else p in
  outb PIC1_CMD PIC_EOI p.

Definition pic_mask_irq (irq : Z) (p : pic) : pic :=
  let '(port, irq) := if irq <? 8 then (PIC1_DATA, irq) else (PIC2_DATA, irq - 8) in
  let '(mask, p) := inb port p in
  outb port (Z.lor mask (Z.shiftl 1 irq)) p.

Definition pic_unmask_irq (irq : Z) (p : pic) : pic :=
  let '(port, irq, p) :=
    if irq <? 8 then (PIC1_DATA, irq, p)
    else
      let '(mask, p) := inb PIC1_DATA p in
      (PIC2_DATA, irq - 8, outb PIC1_DATA (Z.land mask (Z.lnot (Z.shiftl 1 2))) p) in
  let '(mask, p) := inb port p in
  outb port (Z.land mask (Z.lnot (Z.shiftl 1 irq))) p.

Definition pic_disable (p : pic) : pic := outb PIC2_DATA 0xFF (outb PIC1_DATA 0xFF p).

Definition pic_read_reg (cmd : Z) (p : pic) : Z * pic :=
  let p := outb PIC1_CMD cmd p in
  let p := outb PIC2_CMD cmd p in
  let '(hi, p) := inb PIC2_CMD p in
  let '(lo, p) := inb PIC1_CMD p in
  (Z.lor (Z.shiftl hi 8) lo, p).
Definition pic_get_isr : pic -> Z * pic := pic_read_reg 0x0B.
Definition pic_get_irr : pic -> Z * pic := pic_read_reg 0x0A.

Definition timer_handler (schedule : pic -> pic) (p : pic) : pic :=
  schedule p{{ timer_ticks := timer_ticks p +u 1 }}.

(** The result is the handler called last, if any. *)
Definition irq_handler (int_no : Z) (p : pic) : option Z * pic :=
  let irq := u8 (int_no - PIC1_OFFSET) in
  let dispatch p :=
    let p := pic_send_eoi irq p in
    let h := zget (irq_handlers p) irq in
    (if h =? 0 then None else Some h, p) in
  if irq =? 7 then
    let '(isr, p) := pic_get_isr p in
    if Z.land isr (Z.shiftl 1 7) =? 0 then (None, p) else dispatch p
  else if irq =? 15 then
    let '(isr, p) := pic_get_isr p in
    if Z.land isr (Z.shiftl 1 15) =? 0 then (None, outb PIC1_CMD PIC_EOI p) else dispatch p
  else dispatch p.

Definition clear_irq_handlers (l : list Z) : list Z := for_range 0 16 (fun i l => zset l i 0) l.

(** [timer] is the address of [timer_handler]. *)
Definition pic_init (timer : Z) (p : pic) : pic :=
  let '(_, p) := inb PIC1_DATA p in
  let '(_, p) := inb PIC2_DATA p in
  let p := io_wait (outb PIC1_CMD (Z.lor ICW1_INIT ICW1_ICW4) p) in
  let p := io_wait (outb PIC2_CMD (Z.lor ICW1_INIT ICW1_ICW4) p) in
  let p := io_wait (outb PIC1_DATA PIC1_OFFSET p) in
  let p := io_wait (outb PIC2_DATA PIC2_OFFSET p) in
  let p := io_wait (outb PIC1_DATA 0x04 p) in
  let p := io_wait (outb PIC2_DATA 0x02 p) in
  let p := io_wait (outb PIC1_DATA ICW4_8086 p) in
  let p := io_wait (outb PIC2_DATA ICW4_8086 p) in
  let p := outb PIC1_DATA 0xFF p in
  let p := outb PIC2_DATA 0xFF p in
  let p := p{{ irq_handlers ::= clear_irq_handlers }} in
  p{{ irq_handlers ::= fun l => zset l 0 timer }}.

Definition timer_get_ticks (p : pic) : Z := timer_ticks p.

(** ** kernel/arch/pit.c *)

Definition PIT_BASE_FREQ : Z := 1193182.
Definition PIT_CMD : Z := 0x43.
Definition PIT_CHANNEL0 : Z := 0x40.

(** [PIT_BASE_FREQ / frequency], clamped to 1..65535.  The division by a
    frequency of 0 faults; [None]. *)
Definition pit_divisor (frequency : Z) : option Z :=
  if frequency =? 0 then None
  else
    let divisor := PIT_BASE_FREQ / frequency in
    let divisor := if 65535 <? divisor then 65535 else divisor in
    Some (if divisor <? 1 then 1 else divisor).

Definition pit_init (frequency : Z) (p : pic) : option pic :=
  divisor ← pit_divisor frequency;
  let p := p{{ tick_rate_hz := PIT_BASE_FREQ / divisor }} in
  let p := outb PIT_CMD (Z.lor (Z.lor (Z.shiftl 0 6) (Z.shiftl 3 4)) (Z.shiftl 2 1)) p in
  let p := outb PIT_CHANNEL0 (Z.land divisor 0xFF) p in
  let p := outb PIT_CHANNEL0 (Z.land (Z.shiftr divisor 8) 0xFF) p in
  Some (pic_unmask_irq 0 p).

Definition pit_get_ticks : pic -> Z := timer_get_ticks.

(** Each [hlt] ends with an interrupt; [wake] is what its handler did. *)
Fixpoint sleep_loop (wake : pic -> pic) (start ticks : Z) (fuel : nat) (p : pic) : option pic :=
  if u32 (timer_get_ticks p - start) <? ticks then
    match fuel with
    | O => None
    | S fuel => sleep_loop wake start ticks fuel (wake p)
    end
  else Some p.

Definition pit_sleep_ms (wake : pic -> pic) (fuel : nat) (ms : Z) (p : pic) : option pic :=
  if tick_rate_hz p =? 0 then Some p
  else
    let ticks := ms *u tick_rate_hz p / 1000 in
    let ticks := if ticks =? 0 then 1 else ticks in
    sleep_loop wake (timer_get_ticks p) ticks fuel p.

(** ** kernel/arch/idt.c *)

Definition IDT_ENTRIES : Z := 256.
Definition IDT_GATE_INT32 : Z := 0x0E.
Definition IDT_GATE_TRAP32 : Z := 0x0F.
Definition IDT_ATTR_PRESENT : Z := Z.shiftl 1 7.
Definition IDT_ATTR_RING0 : Z := Z.shiftl 0 5.
Definition IDT_ATTR_RING3 : Z := Z.shiftl 3 5.
Definition INT_SYSCALL : Z := 0x80.
Definition GDT_KERNEL_CODE_SEG : Z := 0x08.

Record idt_entry_t := IdtEntry {
  offset_low : Z;
  selector : Z;
  zero : Z;
  type_attr : Z;
  offset_high : Z
}.
#[export] Instance idt_entry_inhabited : Inhabited idt_entry_t := populate (IdtEntry 0 0 0 0 0).

Record idt_state := IdtState {
  idt : list idt_entry_t;
  handlers : list Z;
  idt_limit : Z;
  loaded : bool            (* lidt was executed *)
}.
#[export] Instance idt_eta : Eta idt_state := fun s =>
  IdtState (idt s) (handlers s) (idt_limit s) (loaded s).

Definition idt_set_entry (index handler selector type_attr : Z) (s : idt_state) : idt_state :=
  s{{ idt ::= fun l => zset l index
        (IdtEntry (Z.land handler 0xFFFF) selector 0 type_attr
           (Z.land (Z.shiftr handler 16) 0xFFFF)) }}.

Definition idt_register_handler (vector handler : Z) (s : idt_state) : idt_state :=
  s{{ handlers ::= fun l => zset l vector handler }}.

(** What the dispatcher does with a vector: run a handler, panic, or nothing. *)
Inductive isr_action := IsrCall (handler : Z) | IsrPanic | IsrIgnore.

Definition isr_handler (int_no : Z) (s : idt_state) : isr_action :=
  if negb (zget (handlers s) int_no =? 0) then IsrCall (zget (handlers s) int_no)
  else if int_no <? 32 then IsrPanic else IsrIgnore.

(** [isr k] and [irq k] are the addresses of the assembly stubs. *)
Definition idt_init (isr irq : Z -> Z) (s : idt_state) : idt_state :=
  let s := s{{ idt_limit := 8 * IDT_ENTRIES - 1 }} in
  let s := for_range 0 IDT_ENTRIES (fun i s => s{{ handlers ::= fun l => zset l i 0 }}) s in
  let attr := Z.lor (Z.lor IDT_ATTR_PRESENT IDT_ATTR_RING0) IDT_GATE_INT32 in
  let s := for_range 0 32 (fun i => idt_set_entry i (isr i) GDT_KERNEL_CODE_SEG attr) s in
  let s := for_range 32 48 (fun i => idt_set_entry i (irq (i - 32)) GDT_KERNEL_CODE_SEG attr) s in
  let syscall_attr := Z.lor (Z.lor IDT_ATTR_PRESENT IDT_ATTR_RING3) IDT_GATE_TRAP32 in
  let s := idt_set_entry INT_SYSCALL (isr INT_SYSCALL) GDT_KERNEL_CODE_SEG syscall_attr s in
  s{{ loaded := true }}.

(** ** The masks *)

(** The words written to a controller's data port since its last ICW1, newest
    first. *)
Fixpoint words (data : Z) (log : list io) : option (list Z) :=
  match log with
  | [] => None
  | Out port v :: log =>
      if port =? data then cons v <$> words data log
      else if (port =? data - 1) && Z.testbit v 4 then Some []
      else words data log
  | In _ :: log => words data log
  end.

Definition data_port (irq : Z) : Z := if irq <? 8 then PIC1_DATA else PIC2_DATA.

(** The 8259: after ICW2, ICW3 and ICW4 the data port is the mask register. *)
Definition pic8259 (device : list io -> Z -> Z) : Prop :=
  forall irq log v w, words (data_port irq) log = Some (v :: w) -> 3 <= zlen w ->
    device log (data_port irq) = v.

(** The mask register [v] of the controller of a line. *)
Definition has_mask (p : pic) (irq v : Z) : Prop :=
  0 <= v < 0x100 /\
  exists w, words (data_port irq) (io_log p) = Some (v :: w) /\ 3 <= zlen w.

(** Line [irq] is masked exactly when [b]. *)
Definition masks (p : pic) (s : Z -> bool) : Prop :=
  pic8259 (ports p) /\
  (exists v, has_mask p 0 v /\ forall i, 0 <= i < 8 -> Z.testbit v i = s i) /\
  (exists v, has_mask p 8 v /\ forall i, 0 <= i < 8 -> Z.testbit v i = s (8 + i)).

Lemma has_mask_out p irq v :
  (irq = 0 \/ irq = 8) -> 0 <= v < 0x100 ->
  (exists v0, has_mask p irq v0) -> has_mask (outb (data_port irq) v p) irq v.
Proof.
  intros Hirq Hv (v0 & _ & w & Hw & Hl). split; [done|]. exists (v0 :: w).
  change (io_log (outb (data_port irq) v p)) with (Out (data_port irq) (u8 v) :: io_log p). cbn [words].
  rewrite Z.eqb_refl, Hw, u8_small by done. split; [done|]. unfold zlen in *. cbn [length]. lia.
Qed.

Lemma has_mask_other p irq port v v0 :
  port <> data_port irq -> (port <> data_port irq - 1 \/ Z.testbit (u8 v) 4 = false) ->
  has_mask p irq v0 -> has_mask (outb port v p) irq v0.
Proof.
  intros Hne Hc (Hv & w & Hw & Hl). split; [done|]. exists w. split; [|done].
  change (io_log (outb port v p)) with (Out port (u8 v) :: io_log p). cbn [words].
  rewrite (proj2 (Z.eqb_neq _ _) Hne).
  destruct Hc as [Hc|Hc]; [by rewrite (proj2 (Z.eqb_neq _ _) Hc)|by rewrite Hc, andb_false_r].
Qed.

Lemma has_mask_in p irq v : pic8259 (ports p) -> has_mask p irq v ->
  inb (data_port irq) p = (v, p{{ io_log ::= cons (In (data_port irq)) }}) /\
  has_mask p{{ io_log ::= cons (In (data_port irq)) }} irq v.
Proof.
  intros Hd (Hv & w & Hw & Hl). split; [|by split; [|exists w]].
  unfold inb. by rewrite (Hd irq _ v w Hw Hl), u8_small.
Qed.

Lemma has_mask_log_in p irq port v :
  has_mask p{{ io_log ::= cons (In port) }} irq v <-> has_mask p irq v.
Proof. done. Qed.

Definition upd (s : Z -> bool) (irq : Z) (b : bool) (i : Z) : bool :=
  if i =? irq then b else s i.

(** The read-modify-write of one mask register. *)
Definition set_mask (f : Z -> Z) (irq : Z) (p : pic) : pic :=
  let '(mask, p) := inb (data_port irq) p in outb (data_port irq) (f mask) p.

Lemma set_mask_masks f irq b p s :
  0 <= irq < 16 -> masks p s ->
  (forall v, 0 <= v < 0x100 -> 0 <= f v < 0x100 /\
     forall i, 0 <= i < 8 -> Z.testbit (f v) i = if i =? irq mod 8 then b else Z.testbit v i) ->
  masks (set_mask f irq p) (upd s irq b).
Proof.
  intros Hirq (Hd & (v1 & H1 & E1) & (v2 & H2 & E2)) Hf. unfold set_mask.
  destruct (Z.ltb_spec irq 8) as [Hlt|Hge].
  - replace (data_port irq) with (data_port 0) by (unfold data_port; by replace (irq <? 8) with true by lia).
    destruct (has_mask_in p 0 v1 Hd H1) as [-> H1']. destruct (Hf v1 (proj1 H1)) as [Hr Hb].
    split; [done|]. split.
    + exists (f v1). split; [apply has_mask_out; [by left|done|by exists v1]|].
      intros i Hi. rewrite Hb, (Z.mod_small irq) by lia. unfold upd. by rewrite E1 by done.
    + exists v2. split; [by apply has_mask_other; [|left|]|]. intros i Hi. rewrite E2 by done.
      unfold upd. by rewrite (proj2 (Z.eqb_neq _ _)) by lia.
  - replace (data_port irq) with (data_port 8) by (unfold data_port; by replace (irq <? 8) with false by lia).
    destruct (has_mask_in p 8 v2 Hd H2) as [-> H2']. destruct (Hf v2 (proj1 H2)) as [Hr Hb].
    split; [done|]. split.
    + exists v1. split; [by apply has_mask_other; [|left|]|]. intros i Hi. rewrite E1 by done.
      unfold upd. by rewrite (proj2 (Z.eqb_neq _ _)) by lia.
    + exists (f v2). split; [apply has_mask_out; [by right|done|by exists v2]|].
      intros i Hi. rewrite Hb, E2 by done. unfold upd.
      replace (irq mod 8) with (irq - 8) by (Z.div_mod_to_equations; lia).
      destruct (Z.eqb_spec i (irq - 8)), (Z.eqb_spec (8 + i) irq); lia || done.
Qed.

Definition or_bit (k v : Z) : Z := Z.lor v (Z.shiftl 1 k).
Definition clear_bit (k v : Z) : Z := Z.land v (Z.lnot (Z.shiftl 1 k)).

Lemma testbit_one k i : 0 <= k -> 0 <= i -> Z.testbit (Z.shiftl 1 k) i = (i =? k).
Proof. intros. rewrite Z.shiftl_1_l. by rewrite Z.pow2_bits_eqb, Z.eqb_sym by lia. Qed.

Lemma byte_bits v : 0 <= v -> (forall i, 8 <= i -> Z.testbit v i = false) -> v < 0x100.
Proof.
  intros H0 Hb. destruct (Z.eq_dec v 0) as [->|]; [done|].
  assert (H := Z.bit_log2 v). assert (Z.log2 v < 8).
  { destruct (Z.lt_ge_cases (Z.log2 v) 8); [done|]. rewrite Hb in H by done. assert (0 < v) by lia. by discriminate H. }
  pose proof (Z.log2_spec v). apply Z.lt_le_trans with (2 ^ Z.succ (Z.log2 v)); [lia|].
  change 0x100 with (2 ^ 8). apply Z.pow_le_mono_r; lia.
Qed.

Lemma byte_testbit v i : 0 <= v < 0x100 -> 8 <= i -> Z.testbit v i = false.
Proof.
  intros Hv Hi. rewrite <- (Z.mod_small v (2 ^ 8)) by (cbn; lia). apply Z.mod_pow2_bits_high. lia.
Qed.

Lemma or_bit_spec k v : 0 <= k < 8 -> 0 <= v < 0x100 -> 0 <= or_bit k v < 0x100 /\
  forall i, 0 <= i < 8 -> Z.testbit (or_bit k v) i = if i =? k then true else Z.testbit v i.
Proof.
  intros Hk Hv. unfold or_bit.
  assert (H0 : 0 <= Z.lor v (Z.shiftl 1 k)) by (apply Z.lor_nonneg; split; [lia|apply Z.shiftl_nonneg; lia]).
  split; [split; [done|apply byte_bits; [done|]]|].
  - intros i Hi. rewrite Z.lor_spec, testbit_one, byte_testbit by lia. cbn. lia.
  - intros i Hi. rewrite Z.lor_spec, testbit_one by lia. destruct (i =? k); [apply orb_true_r|apply orb_false_r].
Qed.

Lemma clear_bit_spec k v : 0 <= k < 8 -> 0 <= v < 0x100 -> 0 <= clear_bit k v < 0x100 /\
  forall i, 0 <= i < 8 -> Z.testbit (clear_bit k v) i = if i =? k then false else Z.testbit v i.
Proof.
  intros Hk Hv. unfold clear_bit.
  assert (H0 : 0 <= Z.land v (Z.lnot (Z.shiftl 1 k))) by (apply Z.land_nonneg; lia).
  split; [split; [done|apply byte_bits; [done|]]|].
  - intros i Hi. by rewrite Z.land_spec, byte_testbit by lia.
  - intros i Hi. rewrite Z.land_spec, Z.lnot_spec, testbit_one by lia.
    destruct (i =? k); [apply andb_false_r|apply andb_true_r].
Qed.

Lemma irq_index irq : 0 <= irq < 16 -> (if irq <? 8 then irq else irq - 8) = irq mod 8.
Proof. intros. destruct (Z.ltb_spec irq 8); Z.div_mod_to_equations; lia. Qed.

Lemma pic_mask_irq_eq irq p : 0 <= irq < 16 -> pic_mask_irq irq p = set_mask (or_bit (irq mod 8)) irq p.
Proof.
  intros Hirq. rewrite <- irq_index by done. unfold pic_mask_irq, set_mask, data_port, or_bit.
  by destruct (irq <? 8).
Qed.

Lemma pic_unmask_irq_eq irq p : 0 <= irq < 16 ->
  pic_unmask_irq irq p
  = set_mask (clear_bit (irq mod 8)) irq (if irq <? 8 then p else set_mask (clear_bit 2) 2 p).
Proof.
  intros Hirq. rewrite <- irq_index by done. unfold pic_unmask_irq, set_mask, data_port, clear_bit.
  by destruct (irq <? 8).
Qed.

Lemma pic_mask_masks irq p s : 0 <= irq < 16 -> masks p s -> masks (pic_mask_irq irq p) (upd s irq true).
Proof.
  intros Hirq Hm. rewrite pic_mask_irq_eq by done. apply set_mask_masks; [done|done|].
  intros v. apply or_bit_spec. Z.div_mod_to_equations; lia.
Qed.

Lemma pic_unmask_masks irq p s : 0 <= irq < 16 -> masks p s ->
  masks (pic_unmask_irq irq p) (upd (if irq <? 8 then s else upd s 2 false) irq false).
Proof.
  intros Hirq Hm. rewrite pic_unmask_irq_eq by done. apply set_mask_masks; [done| |].
  - destruct (irq <? 8); [done|]. apply set_mask_masks; [lia|done|]. intros v. by apply clear_bit_spec.
  - intros v. apply clear_bit_spec. Z.div_mod_to_equations; lia.
Qed.

Lemma pic_disable_masks p s : masks p s -> masks (pic_disable p) (fun _ => true).
Proof.
  intros (Hd & (v1 & H1 & _) & (v2 & H2 & _)). unfold pic_disable. split; [done|]. split.
  - exists 0xFF. split.
    + apply has_mask_other; [done|by left|]. apply (has_mask_out p 0); [by left|done|by exists v1].
    + intros i Hi. change 0xFF with (Z.ones 8). by apply Z.ones_spec_low.
  - exists 0xFF. split.
    + apply (has_mask_out _ 8); [by right|done|]. exists v2. by apply has_mask_other; [|left|].
    + intros i Hi. change 0xFF with (Z.ones 8). by apply Z.ones_spec_low.
Qed.

Lemma pic_init_masks timer p : pic8259 (ports p) -> masks (pic_init timer p) (fun _ => true).
Proof.
  intros Hd. split; [done|]. split.
  - exists 0xFF. split; [|intros i Hi; change 0xFF with (Z.ones 8); by apply Z.ones_spec_low].
    split; [done|]. exists [1; 4; 32]. done.
  - exists 0xFF. split; [|intros i Hi; change 0xFF with (Z.ones 8); by apply Z.ones_spec_low].
    split; [done|]. exists [1; 2; 40]. done.
Qed.

(** The operations of the rest of the kernel on the masks. *)
Inductive mask_op := Mask (irq : Z) | Unmask (irq : Z) | Disable | Eoi (irq : Z).

Definition run_mask_op (p : pic) (o : mask_op) : pic :=
  match o with
  | Mask irq => pic_mask_irq irq p
  | Unmask irq => pic_unmask_irq irq p
  | Disable => pic_disable p
  | Eoi irq => pic_send_eoi irq p
  end.

Definition mask_op_ok (o : mask_op) : Prop :=
  match o with Mask irq | Unmask irq | Eoi irq => 0 <= irq < 16 | Disable => True end.

(** What they should do to the set of masked lines. *)
Definition mask_spec (s : Z -> bool) (o : mask_op) : Z -> bool :=
  match o with
  | Mask irq => upd s irq true
  | Unmask irq => upd (if irq <? 8 then s else upd s 2 false) irq false
  | Disable => fun _ => true
  | Eoi _ => s
  end.

Lemma eoi_masks irq p s : masks p s -> masks (pic_send_eoi irq p) s.
Proof.
  intros (Hd & (v1 & H1 & E1) & (v2 & H2 & E2)). unfold pic_send_eoi.
  destruct (8 <=? irq); (split; [done|]; split;
    [exists v1; split; [|done]|exists v2; split; [|done]]; repeat (apply has_mask_other; [done|by right|]); done).
Qed.

(** The interrupt masks. On 8259 controllers, after [pic_init] every line
    is masked, and any sequence of masking, unmasking, disabling and
    end-of-interrupt calls leaves exactly the lines masked that the sequence
    says: masking or unmasking a line changes that line only, except that
    unmasking one of the lines 8 to 15 also unmasks the cascade line 2. *)
Theorem pic_irq_masks (timer : Z) (p : pic) (ops : list mask_op) :
  pic8259 (ports p) -> Forall mask_op_ok ops ->
  masks (foldl run_mask_op (pic_init timer p) ops) (foldl mask_spec (fun _ => true) ops).
Proof.
  intros Hd Hok. pose proof (pic_init_masks timer p Hd) as Hm. revert Hm.
  generalize (pic_init timer p) as q. generalize (fun _ : Z => true) as s.
  induction Hok as [|o ops Ho Hok IH]; intros s q Hm; [done|]. cbn [foldl]. apply IH.
  destruct o; cbn [run_mask_op mask_spec].
  - by apply pic_mask_masks.
  - by apply pic_unmask_masks.
  - by apply pic_disable_masks with s.
  - by apply eoi_masks.
Qed.

(** A pair of controllers that remember their masks. *)
Definition demo_8259 (log : list io) (port : Z) : Z :=
  match words port log with Some (v :: _) => v | _ => 0 end.

Lemma pic_irq_masks_witness :
  exists s, masks (foldl run_mask_op (pic_init 0xC0100000 (Pic demo_8259 [] [] 0 0)) [Unmask 10; Mask 3]) s /\
    s 10 = false /\ s 2 = false /\ s 1 = true /\ s 3 = true.
Proof.
  eexists. split.
  - apply (pic_irq_masks 0xC0100000 (Pic demo_8259 [] [] 0 0) [Unmask 10; Mask 3]).
    + intros irq log v w Hw _. cbn. unfold demo_8259. by rewrite Hw.
    + repeat constructor; cbn; lia.
  - done.
Defined.

(** ** Dispatch *)

(** An interrupt on line [irq] acknowledges the controllers it came through
    before its handler is called: nothing but the end-of-interrupt commands is
    written, and the handler is the registered one. *)
Lemma irq_dispatch irq p :
  0 <= irq < 16 -> irq <> 7 -> irq <> 15 ->
  irq_handler (PIC1_OFFSET + irq) p
  = (if zget (irq_handlers p) irq =? 0 then None else Some (zget (irq_handlers p) irq),
     pic_send_eoi irq p).
Proof.
  intros H H7 H15. unfold irq_handler.
  replace (PIC1_OFFSET + irq - PIC1_OFFSET) with irq by lia. rewrite u8_small by (unfold is_u8; lia).
  rewrite (proj2 (Z.eqb_neq _ _) H7), (proj2 (Z.eqb_neq _ _) H15).
  unfold pic_send_eoi. by destruct (8 <=? irq).
Qed.

Lemma irq_register_dispatch irq h p :
  0 <= irq < 16 -> irq <> 7 -> irq <> 15 -> h <> 0 -> zlen (irq_handlers p) = 16 ->
  fst (irq_handler (PIC1_OFFSET + irq) (irq_register_handler irq h p)) = Some h.
Proof.
  intros H H7 H15 Hh Hl. rewrite irq_dispatch by done. unfold irq_register_handler.
  replace (irq <? 16) with true by lia. cbn. rewrite zget_zset_eq by lia.
  by rewrite (proj2 (Z.eqb_neq _ _) Hh).
Qed.

(** ** The descriptor table *)

Definition gate (handler attr : Z) : idt_entry_t :=
  IdtEntry (Z.land handler 0xFFFF) GDT_KERNEL_CODE_SEG 0 attr (Z.land (Z.shiftr handler 16) 0xFFFF).

(** The address the CPU jumps to. *)
Definition gate_target (e : idt_entry_t) : Z := offset_low e + 0x10000 * offset_high e.

Lemma gate_target_gate handler attr : is_u32 handler -> gate_target (gate handler attr) = handler.
Proof.
  unfold gate_target, gate, is_u32. cbn [offset_low offset_high]. intros Hh.
  change 0xFFFF with (Z.ones 16). rewrite !Z.land_ones, Z.shiftr_div_pow2 by lia.
  change (2 ^ 16) with 0x10000. Z.div_mod_to_equations. lia.
Qed.

Lemma set_entries lo hi (f : Z -> Z) attr s :
  0 <= lo <= hi -> hi <= zlen (idt s) ->
  let s' := for_range lo hi (fun i => idt_set_entry i (f i) GDT_KERNEL_CODE_SEG attr) s in
  zlen (idt s') = zlen (idt s) /\ handlers s' = handlers s /\
  forall k, 0 <= k -> zget (idt s') k = if (lo <=? k) && (k <? hi) then gate (f k) attr else zget (idt s) k.
Proof.
  intros Hlo Hhi. cbv zeta.
  apply (for_range_ind (fun j s' => zlen (idt s') = zlen (idt s) /\ handlers s' = handlers s /\
    forall k, 0 <= k -> zget (idt s') k = if (lo <=? k) && (k <? j) then gate (f k) attr else zget (idt s) k)).
  - lia.
  - split; [done|]. split; [done|]. intros k Hk. replace ((lo <=? k) && (k <? lo)) with false by lia. done.
  - intros j s' Hj (Hl & Hh & He). unfold idt_set_entry. cbn -[zset zget Z.land].
    rewrite zlen_zset. split; [done|]. split; [done|]. intros k Hk.
    destruct (Z.eq_dec k j) as [->|Hne].
    + rewrite zget_zset_eq by lia. by replace ((lo <=? j) && (j <? j + 1)) with true by lia.
    + rewrite zget_zset_ne, He by lia.
      by replace ((lo <=? k) && (k <? j + 1)) with ((lo <=? k) && (k <? j)) by lia.
Qed.

Lemma clear_handlers_idt n s :
  idt (for_range 0 n (fun i s => s{{ handlers ::= fun l => zset l i 0 }}) s) = idt s.
Proof.
  destruct (Z.le_gt_cases 0 n); [|by rewrite for_range_empty by lia].
  apply (for_range_ind (fun _ s' => idt s' = idt s)); done.
Qed.

Lemma clear_handlers_zero n s :
  0 <= n <= zlen (handlers s) ->
  let s' := for_range 0 n (fun i s => s{{ handlers ::= fun l => zset l i 0 }}) s in
  zlen (handlers s') = zlen (handlers s) /\ forall k, 0 <= k < n -> zget (handlers s') k = 0.
Proof.
  intros Hn. apply (for_range_ind (fun j s' => zlen (handlers s') = zlen (handlers s) /\
    forall k, 0 <= k < j -> zget (handlers s') k = 0)); [lia|split; [done|lia]|].
  intros j s' Hj [Hl Hz]. cbn -[zset zget]. rewrite zlen_zset. split; [done|]. intros k Hk.
  destruct (Z.eq_dec k j) as [->|]; [by rewrite zget_zset_eq by lia|].
  rewrite zget_zset_ne by lia. apply Hz. lia.
Qed.

(** After [idt_init] each exception, IRQ line and the system call vector has a
    present gate to its stub (the system call's alone open to ring 3), no
    handler is registered, and so an exception panics. *)
Theorem idt_init_gates (isr irq : Z -> Z) (s : idt_state) :
  (forall k, is_u32 (isr k)) -> (forall k, is_u32 (irq k)) ->
  zlen (idt s) = IDT_ENTRIES -> zlen (handlers s) = IDT_ENTRIES ->
  let s' := idt_init isr irq s in
  (forall v, 0 <= v < 48 ->
     let stub := if v <? 32 then isr v else irq (v - 32) in
     zget (idt s') v = gate stub 0x8E /\ gate_target (zget (idt s') v) = stub) /\
  zget (idt s') INT_SYSCALL = gate (isr INT_SYSCALL) 0xEF /\
  gate_target (zget (idt s') INT_SYSCALL) = isr INT_SYSCALL /\
  (forall v, 48 <= v < IDT_ENTRIES -> v <> INT_SYSCALL -> zget (idt s') v = zget (idt s) v) /\
  forall v, 0 <= v < IDT_ENTRIES -> isr_handler v s' = if v <? 32 then IsrPanic else IsrIgnore.
Proof.
  intros Hisr Hirq Hl Hh s'. unfold IDT_ENTRIES, INT_SYSCALL in *.
  set (s0 := for_range 0 256 (fun i s => s{{ handlers ::= fun l => zset l i 0 }}) s{{ idt_limit := 8 * 256 - 1 }}).
  assert (E0 : idt s0 = idt s) by (etransitivity; [apply clear_handlers_idt|reflexivity]).
  destruct (clear_handlers_zero 256 s{{ idt_limit := 8 * 256 - 1 }}) as [Hz0 Hz];
    [change (handlers s{{ idt_limit := 8 * 256 - 1 }}) with (handlers s); lia|]. fold s0 in Hz0, Hz.
  change (handlers s{{ idt_limit := 8 * 256 - 1 }}) with (handlers s) in Hz0.
  destruct (set_entries 0 32 isr 0x8E s0) as (Hl1 & Hh1 & Hg1); [lia|rewrite E0; lia|].
  set (s1 := for_range 0 32 _ s0) in *.
  destruct (set_entries 32 48 (fun i => irq (i - 32)) 0x8E s1) as (Hl2 & Hh2 & Hg2); [lia|rewrite Hl1, E0; lia|].
  set (s2 := for_range 32 48 _ s1) in *.
  assert (Es : s' = (idt_set_entry 0x80 (isr 0x80) GDT_KERNEL_CODE_SEG 0xEF s2){{ loaded := true }}) by reflexivity.
  assert (Ei : idt s' = zset (idt s2) 0x80 (gate (isr 0x80) 0xEF)) by (rewrite Es; reflexivity).
  assert (Eh : handlers s' = handlers s0) by (rewrite Es, <- Hh1, <- Hh2; reflexivity).
  clearbody s' s0 s1 s2. rewrite Ei. rewrite Hl1, E0 in Hl2.
  split; [|split; [|split; [|split]]].
  - intros v Hv. set (stub := if v <? 32 then isr v else irq (v - 32)). rewrite zget_zset_ne, Hg2, Hg1 by lia.
    assert (Eg : (if (32 <=? v) && (v <? 48) then gate (irq (v - 32)) 142
      else if (0 <=? v) && (v <? 32) then gate (isr v) 142 else zget (idt s0) v) = gate stub 142).
    { unfold stub. destruct (Z.ltb_spec v 32).
      - replace (32 <=? v) with false by lia. by replace (0 <=? v) with true by lia.
      - replace (32 <=? v) with true by lia. by replace (v <? 48) with true by lia. }
    rewrite Eg. split; [done|]. apply gate_target_gate. unfold stub. by destruct (v <? 32).
  - by rewrite zget_zset_eq by lia.
  - rewrite zget_zset_eq by lia. by apply gate_target_gate.
  - intros v Hv Hne. rewrite zget_zset_ne, Hg2, Hg1, E0 by lia.
    replace (v <? 48) with false by lia. replace (v <? 32) with false by lia. by rewrite !andb_false_r.
  - intros v Hv. unfold isr_handler. rewrite Eh, Hz by lia. done.
Qed.
