(* ===== verification/Ring.v ===== *)
(** The ring buffers of the shared window (ipc_ring_t, ipc_rsp_ring_t and
    stream_ring_t of kernel/ipc/ipc_proto.h), as kernel/ipc/ipc.c and
    tools/bridge/bridge.c use them: a header with [head], [tail] and [size], then
    an array of entries of [esz] bytes.  The producer writes the entry at [head]
    and then moves [head]; the consumer reads the entry at [tail] and then moves
    [tail]; one slot stays empty.

    [ring_queue] is the list of entries between [tail] and [head], oldest first;
    the lemmas say how the two moves act on it and that writes elsewhere do not. *)

From S2P Require Import Prelude Mem IpcProto.

Definition ring_magic (m : mem) (r : Z) : Z := ld32 m (r + RING_magic).
Definition ring_head (m : mem) (r : Z) : Z := ld32 m (r + RING_head).
Definition ring_tail (m : mem) (r : Z) : Z := ld32 m (r + RING_tail).
Definition ring_size (m : mem) (r : Z) : Z := ld32 m (r + RING_size).

(** [(i + 1) % ring->size] *)
Definition ring_next (m : mem) (r i : Z) : Z := (i +u 1) mod ring_size m r.

(** [&ring->data[i]] *)
Definition ring_slot (esz r i : Z) : Z := r + RING_data + esz * i.

Lemma mod_diff n h t :
  0 <= h < n -> 0 <= t < n -> (h - t) mod n = if t <=? h then h - t else h - t + n.
Proof.
  intros Hh Ht. destruct (Z.leb_spec t h).
  - apply Z.mod_small. lia.
  - rewrite <- (Z_mod_plus_full _ 1), Z.mul_1_l. apply Z.mod_small. lia.
Qed.

Lemma mod_sum n h k :
  0 <= h < n -> 0 <= k <= n -> (h + k) mod n = if h + k <? n then h + k else h + k - n.
Proof.
  intros Hh Hk. destruct (Z.ltb_spec (h + k) n).
  - apply Z.mod_small. lia.
  - rewrite <- (Z_mod_plus_full _ (-1)). replace (h + k + -1 * n) with (h + k - n) by lia.
    apply Z.mod_small. lia.
Qed.

Section Ring.
Context (esz n r : Z) (Hesz : 0 < esz) (Hn : 1 < n < 0x80000000).

(** The ring's bytes. *)
Definition in_ring (a : Z) : Prop := r <= a < r + RING_data + esz * n.

Record ring_ok (m : mem) : Prop := {
  rk_size : ring_size m r = n;
  rk_head : 0 <= ring_head m r < n;
  rk_tail : 0 <= ring_tail m r < n
}.

Definition ring_count (m : mem) : Z := (ring_head m r - ring_tail m r) mod n.

Definition ring_index (m : mem) (k : Z) : Z := (ring_tail m r + k) mod n.

(** The addresses of the pending entries, oldest first. *)
Definition ring_slots (m : mem) : list Z :=
  (fun k => ring_slot esz r (ring_index m (Z.of_nat k))) <$> seq 0 (Z.to_nat (ring_count m)).

Context {E : Type} (rd : mem -> Z -> E).

(** What an entry reads depends on its own bytes only. *)
Definition entry_local : Prop := forall m m' a,
  (forall b, a <= b < a + esz -> ldb m' b = ldb m b) -> rd m' a = rd m a.

Definition ring_queue (m : mem) : list E := rd m <$> ring_slots m.

Lemma ring_count_range m : 0 <= ring_count m < n.
Proof using Hn. apply Z.mod_pos_bound. lia. Qed.

Lemma length_ring_queue m : length (ring_queue m) = Z.to_nat (ring_count m).
Proof using. unfold ring_queue, ring_slots. by rewrite !length_fmap, length_seq. Qed.

Lemma ring_empty m :
  ring_ok m -> ring_head m r = ring_tail m r <-> ring_queue m = [].
Proof using Hn.
  intros [_ Hh Ht]. split.
  - intros E0. apply length_zero_iff_nil. rewrite length_ring_queue. unfold ring_count.
    by rewrite E0, Z.sub_diag, Zmod_0_l.
  - intros E0%length_zero_iff_nil. rewrite length_ring_queue in E0.
    pose proof (ring_count_range m). unfold ring_count in *.
    rewrite mod_diff in * by done. destruct (_ <=? _) eqn:?; lia.
Qed.

Lemma ring_next_ok m i :
  ring_ok m -> 0 <= i < n -> ring_next m r i = (i + 1) mod n /\ 0 <= ring_next m r i < n.
Proof using Hn.
  intros Hok Hi. unfold ring_next. rewrite (rk_size m Hok).
  rewrite u32_small by (unfold is_u32; lia). split; [done|]. apply Z.mod_pos_bound. lia.
Qed.

(** The producer's test for a full ring. *)
Lemma ring_full m :
  ring_ok m ->
  (ring_next m r (ring_head m r) =? ring_tail m r) = (ring_count m =? n - 1).
Proof using Hn.
  intros Hok. destruct (ring_next_ok m (ring_head m r) Hok (rk_head m Hok)) as [-> _].
  destruct Hok as [_ Hh Ht]. unfold ring_count. rewrite mod_diff, mod_sum by lia.
  destruct (Z.leb_spec (ring_tail m r) (ring_head m r)), (Z.ltb_spec (ring_head m r + 1) n); lia.
Qed.

Lemma slot_in_ring i a :
  0 <= i < n -> ring_slot esz r i <= a < ring_slot esz r i + esz ->
  in_ring a /\ r + RING_data <= a.
Proof using Hesz. clear Hn. unfold in_ring, ring_slot. nia. Qed.

Lemma slots_disjoint i j a b :
  i <> j -> ring_slot esz r i <= a < ring_slot esz r i + esz ->
  ring_slot esz r j <= b < ring_slot esz r j + esz -> a <> b.
Proof using Hesz. clear Hn. unfold ring_slot. nia. Qed.

(** A memory that agrees on the ring's bytes shows the same ring. *)
Section Agree.
Context (m m' : mem) (Hag : forall a, in_ring a -> ldb m' a = ldb m a).

Lemma ring_field_agree f : 0 <= f -> f + 4 <= RING_data -> ld32 m' (r + f) = ld32 m (r + f).
Proof using Hag Hesz Hn.
  intros. apply (ld_agree in_ring); [done|]. intros b Hb. unfold in_ring. cbn in Hb. nia.
Qed.

Lemma ring_ok_agree : ring_ok m -> ring_ok m'.
Proof using Hag Hesz Hn.
  intros [H1 H2 H3]. split; unfold ring_size, ring_head, ring_tail in *;
    rewrite ring_field_agree by lia; done.
Qed.

Lemma ring_slots_agree : ring_slots m' = ring_slots m.
Proof using Hag Hesz Hn.
  unfold ring_slots, ring_index, ring_count, ring_head, ring_tail.
  by rewrite !ring_field_agree by lia.
Qed.

Lemma ring_queue_agree : entry_local -> ring_queue m' = ring_queue m.
Proof using Hag Hesz Hn.
  intros Hl. unfold ring_queue. rewrite ring_slots_agree.
  apply list_fmap_ext. intros k a Ha. apply Hl. intros b Hb. apply Hag.
  unfold ring_slots in Ha. rewrite list_lookup_fmap in Ha.
  apply fmap_Some in Ha as (x & _ & ->). apply (slot_in_ring _ b) in Hb; [apply Hb|].
  apply Z.mod_pos_bound. lia.
Qed.
End Agree.

(** ** The producer *)

(** [m1] is [m] with the entry at [head] written, [m2] is [m1] with [head] moved. *)
Lemma ring_push m m1 :
  ring_ok m -> entry_local -> ring_count m <> n - 1 ->
  (forall a, in_ring a ->
     ~ (ring_slot esz r (ring_head m r) <= a < ring_slot esz r (ring_head m r) + esz) ->
     ldb m1 a = ldb m a) ->
  let m2 := st32 m1 (r + RING_head) (ring_next m r (ring_head m r)) in
  ring_ok m2 /\ ring_queue m2 = ring_queue m ++ [rd m1 (ring_slot esz r (ring_head m r))].
Proof using Hesz Hn.
  intros Hok Hl Hfull Hag m2. pose proof (ring_next_ok m _ Hok (rk_head m Hok)) as [En Hnx].
  pose proof Hok as [Hs Hh Ht]. pose proof (ring_count_range m) as Hc.
  assert (Hf : forall f, 0 <= f -> f + 4 <= RING_data -> ld32 m1 (r + f) = ld32 m (r + f)).
  { intros f H0 H1. apply (ld_agree (fun a => r <= a < r + RING_data)); [|cbn; lia].
    intros a Ha. assert (0 < esz * n) by nia. assert (0 <= esz * ring_head m r) by nia.
    apply Hag; unfold in_ring, ring_slot, Z.sub in *; [split|intros [? _]]; lia. }
  assert (Hh2 : ring_head m2 r = (ring_head m r + 1) mod n).
  { unfold m2, ring_head at 1. rewrite ld_st_eq; [exact En|].
    change (0x100 ^ Z.of_nat 4) with 0x100000000. lia. }
  assert (Ht2 : ring_tail m2 r = ring_tail m r).
  { unfold m2, ring_tail. rewrite ld_st_ne by lia. apply Hf; lia. }
  assert (Hs2 : ring_size m2 r = n).
  { unfold m2, ring_size. rewrite ld_st_ne by lia. rewrite Hf by lia. done. }
  split; [split; [done|rewrite Hh2; apply Z.mod_pos_bound; lia|by rewrite Ht2]|].
  assert (Hc2 : ring_count m2 = ring_count m + 1).
  { unfold ring_count. rewrite Hh2, Ht2. rewrite Zminus_mod_idemp_l.
    unfold ring_count in *.
    replace (ring_head m r + 1 - ring_tail m r) with (ring_head m r - ring_tail m r + 1) by lia.
    rewrite <- Zplus_mod_idemp_l. apply Z.mod_small. lia. }
  unfold ring_queue, ring_slots. rewrite Hc2.
  replace (Z.to_nat (ring_count m + 1)) with (S (Z.to_nat (ring_count m))) by lia.
  rewrite seq_S, !fmap_app. unfold ring_index. rewrite Ht2. f_equal.
  - rewrite <- !list_fmap_compose. apply list_fmap_ext. intros i k Hk.
    apply lookup_seq in Hk as [-> Hk]. unfold compose. rewrite Nat.add_0_l. apply Hl. intros b Hb.
    assert (Hix : 0 <= (ring_tail m r + Z.of_nat i) mod n < n) by (apply Z.mod_pos_bound; lia).
    destruct (slot_in_ring _ _ Hix Hb) as [Hin Hlo].
    unfold m2. rewrite ldb_st_ne by (cbn; lia). apply Hag; [done|].
    intros Hb'. refine (slots_disjoint _ _ b b _ Hb Hb' eq_refl).
    rewrite mod_sum by lia. unfold ring_count in *. rewrite mod_diff in * by done.
    destruct (Z.leb_spec (ring_tail m r) (ring_head m r)), (Z.ltb_spec (ring_tail m r + Z.of_nat i) n);
      lia.
  - cbn [fmap list_fmap]. rewrite Nat.add_0_l, Z2Nat.id by lia. f_equal.
    assert (Ei : (ring_tail m r + ring_count m) mod n = ring_head m r).
    { unfold ring_count. rewrite Zplus_mod_idemp_r. rewrite Zplus_minus. by apply Z.mod_small. }
    rewrite Ei. apply Hl. intros b Hb. destruct (slot_in_ring _ _ Hh Hb) as [_ Hlo].
    unfold m2. rewrite ldb_st_ne by (cbn; lia). done.
Qed.

(** ** The consumer *)

Lemma ring_pop m :
  ring_ok m -> entry_local -> ring_head m r <> ring_tail m r ->
  let m2 := st32 m (r + RING_tail) (ring_next m r (ring_tail m r)) in
  ring_ok m2 /\ ring_queue m = rd m (ring_slot esz r (ring_tail m r)) :: ring_queue m2.
Proof using Hesz Hn.
  intros Hok Hl Hne m2. pose proof (ring_next_ok m _ Hok (rk_tail m Hok)) as [En Hnx].
  pose proof Hok as [Hs Hh Ht]. pose proof (ring_count_range m) as Hc.
  assert (Ht2 : ring_tail m2 r = (ring_tail m r + 1) mod n).
  { unfold m2, ring_tail at 1. rewrite ld_st_eq; [exact En|].
    change (0x100 ^ Z.of_nat 4) with 0x100000000. lia. }
  assert (Hh2 : ring_head m2 r = ring_head m r) by (unfold m2, ring_head; by rewrite ld_st_ne by lia).
  assert (Hs2 : ring_size m2 r = n) by (unfold m2, ring_size; by rewrite ld_st_ne by lia).
  split; [split; [done|by rewrite Hh2|rewrite Ht2; apply Z.mod_pos_bound; lia]|].
  assert (Hc0 : 0 < ring_count m).
  { unfold ring_count. rewrite mod_diff by done. destruct (Z.leb_spec (ring_tail m r) (ring_head m r)); lia. }
  assert (Hc2 : ring_count m2 = ring_count m - 1).
  { unfold ring_count. rewrite Hh2, Ht2, Zminus_mod_idemp_r. unfold ring_count in *.
    replace (ring_head m r - (ring_tail m r + 1)) with (ring_head m r - ring_tail m r + -1) by lia.
    rewrite <- Zplus_mod_idemp_l. apply Z.mod_small. lia. }
  unfold ring_queue at 1, ring_slots at 1.
  replace (Z.to_nat (ring_count m)) with (S (Z.to_nat (ring_count m2))) by lia.
  cbn [seq fmap list_fmap]. unfold ring_index at 1. rewrite Z.add_0_r, (Z.mod_small (ring_tail m r)) by lia.
  f_equal. unfold ring_queue, ring_slots. rewrite <- fmap_S_seq, <- !list_fmap_compose.
  apply list_fmap_ext. intros i k Hk. apply lookup_seq in Hk as [-> Hk]. unfold compose. rewrite Nat.add_0_l.
  unfold ring_index. rewrite Ht2, Zplus_mod_idemp_l.
  replace (ring_tail m r + 1 + Z.of_nat i) with (ring_tail m r + Z.of_nat (S i)) by lia.
  symmetry. apply Hl. intros b Hb.
  assert (Hix : 0 <= (ring_tail m r + Z.of_nat (S i)) mod n < n) by (apply Z.mod_pos_bound; lia).
  destruct (slot_in_ring _ _ Hix Hb) as [_ Hlo]. unfold m2. by rewrite ldb_st_ne by (cbn; lia).
Qed.
End Ring.

(** ** Writes elsewhere *)

Section Elsewhere.
Context (esz n r : Z) (Hesz : 0 < esz) (Hn : 1 < n < 0x80000000).
Context (lo hi : Z) (Hout : hi <= r \/ r + RING_data + esz * n <= lo).
Context (m m' : mem) (Hw : within lo hi m m').

Lemma elsewhere_agree a : in_ring esz n r a -> ldb m' a = ldb m a.
Proof using Hw Hout. unfold in_ring. intros Ha. apply (within_ldb _ _ _ _ _ Hw). lia. Qed.

Lemma elsewhere_ok : ring_ok n r m -> ring_ok n r m'.
Proof using Hesz Hn Hw Hout.
  intros Hok. exact (ring_ok_agree esz n r Hesz Hn m m' elsewhere_agree Hok).
Qed.

Lemma elsewhere_queue {E} (rd : mem -> Z -> E) :
  entry_local esz rd -> ring_queue esz n r rd m' = ring_queue esz n r rd m.
Proof using Hesz Hn Hw Hout.
  intros Hl. exact (ring_queue_agree esz n r Hesz Hn rd m m' elsewhere_agree Hl).
Qed.
End Elsewhere.
