(* ===== verification/Ipc.v ===== *)
(** kernel/ipc/ipc.c: the kernel's side of the shared window: the command ring it
    produces and the response ring it consumes, the doorbell, the streaming rings
    and the mesh table.

    The window is the memory of the shared heap's state ([shm]); the file's
    static pointers are addresses (0 for NULL).  [ipc_poll_response] spins on
    volatile fields the bridge writes, so it takes what the bridge does between
    two reads ([env]); [None] is the divide fault of [% ring->size] when the
    other side set the size to 0.  Console output is left out. *)

From S2P Require Import Prelude Mem IpcProto KTime Bitmap SharedHeap Interrupts Ring.

Record packet := Packet { pk_cmd : Z; pk_flags : Z; pk_payload : Z; pk_timestamp : Z }.
Record response := Response { rs_status : Z; rs_orig_cmd : Z; rs_result : Z; rs_timestamp : Z }.

(** An observation: its eight 32-bit words (the floats are not interpreted). *)
Record obs_entry := ObsEntry {
  ob_seq : Z; ob_obs0 : Z; ob_obs1 : Z; ob_obs2 : Z; ob_obs3 : Z;
  ob_reward : Z; ob_done : Z; ob_model_id : Z
}.
Record action_entry := ActionEntry {
  ac_seq : Z; ac_action : Z; ac_flags : Z; ac_ack_seq : Z; ac_reserved : Z
}.

#[export] Instance packet_eq : EqDecision packet.
Proof. solve_decision. Defined.
#[export] Instance response_eq : EqDecision response.
Proof. solve_decision. Defined.

Abbreviation ENTRY_SIZE := 16.        (* ipc_packet_t, ipc_response_t, action_entry_t *)
Abbreviation OBS_SIZE := 32.          (* obs_entry_t *)

Definition read_packet (m : mem) (a : Z) : packet :=
  Packet (ld16 m a) (ld16 m (a + 2)) (ld32 m (a + 4)) (ld64 m (a + 8)).
Definition write_packet (a : Z) (p : packet) (m : mem) : mem :=
  let m := st16 m a (pk_cmd p) in
  let m := st16 m (a + 2) (pk_flags p) in
  let m := st32 m (a + 4) (pk_payload p) in
  st64 m (a + 8) (pk_timestamp p).
Definition read_response (m : mem) (a : Z) : response :=
  Response (ld16 m a) (ld16 m (a + 2)) (ld32 m (a + 4)) (ld64 m (a + 8)).
Definition write_response (a : Z) (r : response) (m : mem) : mem :=
  let m := st16 m a (rs_status r) in
  let m := st16 m (a + 2) (rs_orig_cmd r) in
  let m := st32 m (a + 4) (rs_result r) in
  st64 m (a + 8) (rs_timestamp r).
Definition read_obs (m : mem) (a : Z) : obs_entry :=
  ObsEntry (ld32 m a) (ld32 m (a + 4)) (ld32 m (a + 8)) (ld32 m (a + 12)) (ld32 m (a + 16))
    (ld32 m (a + 20)) (ld32 m (a + 24)) (ld32 m (a + 28)).
Definition read_action (m : mem) (a : Z) : action_entry :=
  ActionEntry (ld32 m a) (ld16 m (a + 4)) (ld16 m (a + 6)) (ld32 m (a + 8)) (ld32 m (a + 12)).
Definition write_action (a : Z) (e : action_entry) (m : mem) : mem :=
  let m := st32 m a (ac_seq e) in
  let m := st16 m (a + 4) (ac_action e) in
  let m := st16 m (a + 6) (ac_flags e) in
  let m := st32 m (a + 8) (ac_ack_seq e) in
  st32 m (a + 12) (ac_reserved e).

Record ipc := Ipc {
  ip_heap : heap;
  ip_clock : clock;
  ip_pic : pic;
  ipc_shmem_base : Z;
  cmd_ring : Z;
  rsp_ring : Z;
  doorbell : Z;
  obs_ring : Z;
  act_ring : Z;
  obs_entries : Z;
  act_entries : Z;
  irq_count : Z;
  mesh_table : Z;
  local_node_id : Z
}.
#[export] Instance ipc_eta : Eta ipc := fun s =>
  Ipc (ip_heap s) (ip_clock s) (ip_pic s) (ipc_shmem_base s) (cmd_ring s) (rsp_ring s)
    (doorbell s) (obs_ring s) (act_ring s) (obs_entries s) (act_entries s) (irq_count s)
    (mesh_table s) (local_node_id s).

(** The statics at load time. *)
Definition ipc_bss (h : heap) (c : clock) (p : pic) : ipc := Ipc h c p 0 0 0 0 0 0 0 0 0 0 (-1).

Definition win (s : ipc) : mem := shm (ip_heap s).
Definition on_win (f : mem -> mem) (s : ipc) : ipc :=
  s{{ ip_heap ::= fun h => h{{ shm ::= f }} }}.

(** ** Initialisation *)

Definition init_rings (cmd rsp : Z) (m : mem) : mem :=
  let m := st32 m (cmd + RING_head) 0 in
  let m := st32 m (cmd + RING_tail) 0 in
  let m := st32 m (cmd + RING_size) IPC_RING_SIZE in
  let m := st32 m (cmd + RING_magic) IPC_MAGIC in
  let m := st32 m (rsp + RING_magic) IPC_RSP_MAGIC in
  let m := st32 m (rsp + RING_head) 0 in
  let m := st32 m (rsp + RING_tail) 0 in
  st32 m (rsp + RING_size) IPC_RING_SIZE.

Definition init_doorbell (db : Z) (m : mem) : mem :=
  let m := st32 m (db + DB_magic) IPC_DOORBELL_MAGIC in
  let m := st32 m (db + DB_version) 1 in
  let m := st32 m (db + DB_cmd_doorbell) 0 in
  let m := st32 m (db + DB_cmd_flags) 0 in
  let m := st32 m (db + DB_cmd_irq_count) 0 in
  let m := st32 m (db + DB_rsp_doorbell) 0 in
  let m := st32 m (db + DB_rsp_flags) DOORBELL_FLAG_IRQ_ENABLED in
  let m := st32 m (db + DB_rsp_irq_count) 0 in
  let m := st32 m (db + DB_cmd_writes) 0 in
  st32 m (db + DB_rsp_writes) 0.

Definition init_stream (r size : Z) (m : mem) : mem :=
  if ring_magic m r =? IPC_STREAM_MAGIC then m
  else
    let m := st32 m (r + RING_magic) IPC_STREAM_MAGIC in
    let m := st32 m (r + RING_head) 0 in
    let m := st32 m (r + RING_tail) 0 in
    st32 m (r + RING_size) size.

Definition ipc_stream_init (s : ipc) : ipc :=
  if ipc_shmem_base s =? 0 then s
  else
    let base := ipc_shmem_base s in
    let obs := base + IPC_OBS_RING_OFFSET in
    let act := base + IPC_ACT_RING_OFFSET in
    let s := s{{ obs_ring := obs; act_ring := act;
                 obs_entries := obs + RING_data; act_entries := act + RING_data }} in
    let s := on_win (init_stream obs IPC_OBS_RING_SIZE) s in
    on_win (init_stream act IPC_ACT_RING_SIZE) s.

(** [handler] is the address of [ipc_irq_handler]. *)
Definition ipc_init (handler base_addr irq : Z) (s : ipc) : ipc :=
  if base_addr =? 0 then s
  else
    let s := s{{ ipc_shmem_base := base_addr;
                 cmd_ring := base_addr + IPC_CMD_RING_OFFSET;
                 rsp_ring := base_addr + IPC_RSP_RING_OFFSET;
                 doorbell := base_addr + IPC_DOORBELL_OFFSET }} in
    let s := on_win (init_rings (cmd_ring s) (rsp_ring s)) s in
    let s := on_win (init_doorbell (doorbell s)) s in
    let s := s{{ ip_heap ::= heap_init (base_addr + IPC_HEAP_CTL_OFFSET) }} in
    let s := ipc_stream_init s in
    if (0 <? irq) && (irq <? 16)
    then s{{ ip_pic ::= fun p => pic_unmask_irq irq (irq_register_handler irq handler p) }}
    else s.

(** ** Streaming rings *)

Definition ipc_stream_ready (s : ipc) : Z :=
  Z.b2z (negb (obs_ring s =? 0) && negb (act_ring s =? 0)
         && (ring_magic (win s) (obs_ring s) =? IPC_STREAM_MAGIC)
         && (ring_magic (win s) (act_ring s) =? IPC_STREAM_MAGIC)).

Definition ipc_stream_action_push (seq action ack_seq : Z) (s : ipc) : option (Z * ipc) :=
  let r := act_ring s in
  if (r =? 0) || (act_entries s =? 0) || negb (ring_magic (win s) r =? IPC_STREAM_MAGIC)
  then Some (-1, s)
  else if ring_size (win s) r =? 0 then None
  else
    let head := ring_head (win s) r in
    let next := ring_next (win s) r head in
    if next =? ring_tail (win s) r then Some (-1, s)
    else
      let s := on_win (write_action (act_entries s + ENTRY_SIZE * head)
                         (ActionEntry seq action 0 ack_seq 0)) s in
      Some (0, on_win (fun m => st32 m (r + RING_head) next) s).

(** [out] is a pointer the caller gives: the entry popped is the result. *)
Definition ipc_stream_obs_pop (s : ipc) : option (option obs_entry * ipc) :=
  let r := obs_ring s in
  if (r =? 0) || (obs_entries s =? 0) || negb (ring_magic (win s) r =? IPC_STREAM_MAGIC)
  then Some (None, s)
  else
    let tail := ring_tail (win s) r in
    if tail =? ring_head (win s) r then Some (None, s)
    else if ring_size (win s) r =? 0 then None
    else
      let out := read_obs (win s) (obs_entries s + OBS_SIZE * tail) in
      Some (Some out, on_win (fun m => st32 m (r + RING_tail) (ring_next m r tail)) s).

(** ** Commands and responses *)

(** Sets the pending flag and counts an interrupt if the other side wants one. *)
Definition db_notify (flags irqs : Z) (m : mem) : mem :=
  if Z.land (ld32 m flags) DOORBELL_FLAG_IRQ_ENABLED =? 0 then m
  else
    let m := st32 m flags (Z.lor (ld32 m flags) DOORBELL_FLAG_PENDING) in
    st32 m irqs (ld32 m irqs +u 1).

Definition ring_cmd_doorbell (db head : Z) (m : mem) : mem :=
  if db =? 0 then m
  else
    let m := st32 m (db + DB_cmd_doorbell) head in
    let m := st32 m (db + DB_cmd_writes) (ld32 m (db + DB_cmd_writes) +u 1) in
    db_notify (db + DB_cmd_flags) (db + DB_cmd_irq_count) m.

Definition ipc_send_flags (cmd payload flags : Z) (s : ipc) : option (Z * ipc) :=
  let r := cmd_ring s in
  if r =? 0 then Some (-1, s)
  else if ring_size (win s) r =? 0 then None
  else
    let head := ring_head (win s) r in
    let next_head := ring_next (win s) r head in
    if next_head =? ring_tail (win s) r then Some (-1, s)
    else
      let '(now, c) := time_usec (ip_clock s) in
      let s := s{{ ip_clock := c }} in
      let s := on_win (write_packet (ring_slot ENTRY_SIZE r head) (Packet cmd flags payload now)) s in
      let s := on_win (fun m => st32 m (r + RING_head) next_head) s in
      Some (0, on_win (ring_cmd_doorbell (doorbell s) next_head) s).

Definition ipc_send (cmd payload : Z) (s : ipc) : option (Z * ipc) := ipc_send_flags cmd payload 0 s.

Definition ipc_has_response (s : ipc) : Z :=
  let r := rsp_ring s in
  if (r =? 0) || negb (ring_magic (win s) r =? IPC_RSP_MAGIC) then 0
  else Z.b2z (negb (ring_head (win s) r =? ring_tail (win s) r)).

(** The spin: up to [n] reads, the other side moving between them. *)
Fixpoint spin_wait (env : Z -> mem -> mem) (r : Z) (n : nat) (i : Z) (m : mem) : mem :=
  match n with
  | O => m
  | S n => if negb (ring_head m r =? ring_tail m r) then m
           else spin_wait env r n (i + 1) (env i m)
  end.

Definition POLL_SPINS : nat := Z.to_nat 5000.

Definition ipc_poll_response (env : Z -> mem -> mem) (s : ipc) : option (option response * ipc) :=
  let r := rsp_ring s in
  if (r =? 0) || negb (ring_magic (win s) r =? IPC_RSP_MAGIC) then Some (None, s)
  else
    let s := on_win (spin_wait env r POLL_SPINS 0) s in
    let head := ring_head (win s) r in
    let tail := ring_tail (win s) r in
    if head =? tail then Some (None, s)
    else if ring_size (win s) r =? 0 then None
    else
      let rsp := read_response (win s) (ring_slot ENTRY_SIZE r tail) in
      Some (Some rsp, on_win (fun m => st32 m (r + RING_tail) (ring_next m r tail)) s).

Definition MOCK_RESULT : Z := 0x12345678.

Definition ring_rsp_doorbell (db head : Z) (m : mem) : mem :=
  let m := st32 m (db + DB_rsp_doorbell) head in
  let m := st32 m (db + DB_rsp_writes) (ld32 m (db + DB_rsp_writes) +u 1) in
  db_notify (db + DB_rsp_flags) (db + DB_rsp_irq_count) m.

(** The mock response of [ipc_consume_one]. *)
Definition mock_response (orig_cmd : Z) (s : ipc) : option ipc :=
  let r := rsp_ring s in
  if (r =? 0) || negb (ring_magic (win s) r =? IPC_RSP_MAGIC) then Some s
  else if ring_size (win s) r =? 0 then None
  else
    let rsp_head := ring_head (win s) r in
    let next_rsp_head := ring_next (win s) r rsp_head in
    if next_rsp_head =? ring_tail (win s) r then Some s
    else
      let '(now, c) := time_usec (ip_clock s) in
      let s := s{{ ip_clock := c }} in
      let s := on_win (write_response (ring_slot ENTRY_SIZE r rsp_head)
                         (Response RSP_OK orig_cmd MOCK_RESULT now)) s in
      let s := on_win (fun m => st32 m (r + RING_head) next_rsp_head) s in
      Some (if doorbell s =? 0 then s
            else on_win (ring_rsp_doorbell (doorbell s) next_rsp_head) s).

Definition ipc_consume_one (s : ipc) : option ipc :=
  let r := cmd_ring s in
  if r =? 0 then Some s
  else
    let head := ring_head (win s) r in
    let tail := ring_tail (win s) r in
    if head =? tail then Some s
    else if ring_size (win s) r =? 0 then None
    else
      let orig_cmd := pk_cmd (read_packet (win s) (ring_slot ENTRY_SIZE r tail)) in
      let s := on_win (fun m => st32 m (r + RING_tail) (ring_next m r tail)) s in
      mock_response orig_cmd s.

Definition ipc_enable_irq (enable : Z) (s : ipc) : ipc :=
  if doorbell s =? 0 then s
  else
    let a := doorbell s + DB_rsp_flags in
    on_win (fun m => st32 m a
      (if enable =? 0 then Z.land (ld32 m a) (Z.lnot DOORBELL_FLAG_IRQ_ENABLED)
       else Z.lor (ld32 m a) DOORBELL_FLAG_IRQ_ENABLED)) s.

(** [while (ipc_poll_response(&rsp)) {}]: the responses drained, in order. *)
Fixpoint drain (env : Z -> mem -> mem) (fuel : nat) (s : ipc) : option (list response * ipc) :=
  '(r, s) ← ipc_poll_response env s;
  match r, fuel with
  | None, _ => Some ([], s)
  | Some _, O => None
  | Some rsp, S fuel => '(l, s) ← drain env fuel s; Some (rsp :: l, s)
  end.

Definition ipc_irq_handler (env : Z -> mem -> mem) (fuel : nat) (s : ipc)
  : option (list response * ipc) :=
  let s := s{{ irq_count := irq_count s +u 1 }} in
  let s := if doorbell s =? 0 then s
           else let a := doorbell s + DB_rsp_flags in
                on_win (fun m => st32 m a (Z.land (ld32 m a) (Z.lnot DOORBELL_FLAG_PENDING))) s in
  drain env fuel s.

(** ** The mesh *)

Definition mesh_node (table i : Z) : Z := table + MT_nodes + SIZEOF_mesh_node_t * i.
Definition node_status (m : mem) (table i : Z) : Z := ld32 m (mesh_node table i + MN_status).

Definition init_mesh (table : Z) (m : mem) : mem :=
  if ld32 m (table + MT_magic) =? MESH_MAGIC then m
  else
    let m := st32 m (table + MT_magic) MESH_MAGIC in
    let m := st32 m (table + MT_version) 1 in
    let m := st32 m (table + MT_active_nodes) 0 in
    for_range 0 MES_MAX_NODES (fun i m =>
      st32 m (mesh_node table i + MN_status) NODE_STATUS_OFFLINE) m.

Definition claim_node (table i : Z) (m : mem) : mem :=
  let n := mesh_node table i in
  let m := st32 m (n + MN_status) NODE_STATUS_ALIVE in
  let m := st32 m (n + MN_node_id) i in
  let m := st32 m (n + MN_cpu_load) 0 in
  let m := st64 m (n + MN_heartbeat) 0 in
  st32 m (table + MT_active_nodes) (ld32 m (table + MT_active_nodes) +u 1).

Definition ipc_mesh_init (s : ipc) : ipc :=
  if ipc_shmem_base s =? 0 then s
  else
    let table := ipc_shmem_base s + IPC_MESH_OFFSET in
    let s := s{{ mesh_table := table }} in
    let s := on_win (init_mesh table) s in
    match find_range 0 MES_MAX_NODES (fun i => node_status (win s) table i =? NODE_STATUS_OFFLINE) with
    | Some i => (on_win (claim_node table i) s){{ local_node_id := i }}
    | None => s
    end.

Definition ipc_mesh_update (s : ipc) : ipc :=
  if (local_node_id s <? 0) || (mesh_table s =? 0) then s
  else
    let a := mesh_node (mesh_table s) (local_node_id s) + MN_heartbeat in
    on_win (fun m => st64 m a (u64 (ld64 m a + 1))) s.

(** ** Entries in memory *)

Tactic Notation "solve_local" hyp(H) constr(a) constr(n) :=
  f_equal; apply (ld_agree (fun b => a <= b < a + n)); first [exact H|cbn; lia].

Lemma packet_local : entry_local ENTRY_SIZE read_packet.
Proof. intros m m' a H. unfold read_packet. solve_local H a ENTRY_SIZE. Qed.
Lemma response_local : entry_local ENTRY_SIZE read_response.
Proof. intros m m' a H. unfold read_response. solve_local H a ENTRY_SIZE. Qed.
Lemma action_local : entry_local ENTRY_SIZE read_action.
Proof. intros m m' a H. unfold read_action. solve_local H a ENTRY_SIZE. Qed.
Lemma obs_local : entry_local OBS_SIZE read_obs.
Proof. intros m m' a H. unfold read_obs. solve_local H a OBS_SIZE. Qed.

Definition packet_fits (p : packet) : Prop :=
  is_u16 (pk_cmd p) /\ is_u16 (pk_flags p) /\ is_u32 (pk_payload p) /\ is_u64 (pk_timestamp p).
Definition response_fits (r : response) : Prop :=
  is_u16 (rs_status r) /\ is_u16 (rs_orig_cmd r) /\ is_u32 (rs_result r) /\ is_u64 (rs_timestamp r).

Ltac solve_read_write := mem_simpl; reflexivity.

Lemma read_write_packet a p m : packet_fits p -> read_packet (write_packet a p m) a = p.
Proof.
  intros (H1 & H2 & H3 & H4). destruct p as [c f x t]. cbn [pk_cmd pk_flags pk_payload pk_timestamp] in *.
  unfold read_packet, write_packet. cbn [pk_cmd pk_flags pk_payload pk_timestamp]. solve_read_write.
Qed.

Lemma read_write_response a r m : response_fits r -> read_response (write_response a r m) a = r.
Proof.
  intros (H1 & H2 & H3 & H4). destruct r as [c f x t]. cbn [rs_status rs_orig_cmd rs_result rs_timestamp] in *.
  unfold read_response, write_response. cbn [rs_status rs_orig_cmd rs_result rs_timestamp]. solve_read_write.
Qed.

Definition action_fits (e : action_entry) : Prop :=
  is_u32 (ac_seq e) /\ is_u16 (ac_action e) /\ is_u16 (ac_flags e) /\ is_u32 (ac_ack_seq e) /\
  is_u32 (ac_reserved e).

Lemma read_write_action a e m : action_fits e -> read_action (write_action a e m) a = e.
Proof.
  intros (H1 & H2 & H3 & H4 & H5). destruct e as [c f x t z].
  cbn [ac_seq ac_action ac_flags ac_ack_seq ac_reserved] in *.
  unfold read_action, write_action. cbn [ac_seq ac_action ac_flags ac_ack_seq ac_reserved]. solve_read_write.
Qed.

Lemma write_action_within a e m : within a (a + ENTRY_SIZE) m (write_action a e m).
Proof. unfold write_action. repeat (apply within_st_r; [lia|cbn; lia|]). done. Qed.

Lemma write_packet_within a p m : within a (a + ENTRY_SIZE) m (write_packet a p m).
Proof. unfold write_packet. repeat (apply within_st_r; [lia|cbn; lia|]). done. Qed.

Lemma write_response_within a r m : within a (a + ENTRY_SIZE) m (write_response a r m).
Proof. unfold write_response. repeat (apply within_st_r; [lia|cbn; lia|]). done. Qed.

Lemma write_packet_ok a p m : mem_ok m -> mem_ok (write_packet a p m).
Proof. intros. by repeat apply mem_ok_st. Qed.
Lemma write_response_ok a r m : mem_ok m -> mem_ok (write_response a r m).
Proof. intros. by repeat apply mem_ok_st. Qed.

(** ** The doorbell *)

Abbreviation SIZEOF_doorbell := 0x100.

Lemma db_notify_within db flags irqs m :
  4 <= flags -> flags + 4 <= SIZEOF_doorbell -> 4 <= irqs -> irqs + 4 <= SIZEOF_doorbell ->
  within (db + 4) (db + SIZEOF_doorbell) m (db_notify (db + flags) (db + irqs) m).
Proof.
  intros. unfold db_notify. destruct (_ =? 0); [done|].
  repeat (apply within_st_r; [lia|change (Z.of_nat 4) with 4; lia|]). done.
Qed.

Lemma ring_cmd_doorbell_within db head m :
  within (db + 4) (db + SIZEOF_doorbell) m (ring_cmd_doorbell db head m).
Proof.
  unfold ring_cmd_doorbell. destruct (_ =? 0); [done|].
  etransitivity; [|apply db_notify_within; lia].
  repeat (apply within_st_r; [lia|cbn; lia|]). done.
Qed.

Lemma ring_rsp_doorbell_within db head m :
  within (db + 4) (db + SIZEOF_doorbell) m (ring_rsp_doorbell db head m).
Proof.
  unfold ring_rsp_doorbell. etransitivity; [|apply db_notify_within; lia].
  repeat (apply within_st_r; [lia|cbn; lia|]). done.
Qed.

Lemma db_notify_ok flags irqs m : mem_ok m -> mem_ok (db_notify flags irqs m).
Proof. intros. unfold db_notify. destruct (_ =? 0); [done|]. by repeat apply mem_ok_st. Qed.

Lemma ring_cmd_doorbell_ok db head m : mem_ok m -> mem_ok (ring_cmd_doorbell db head m).
Proof.
  intros. unfold ring_cmd_doorbell. destruct (_ =? 0); [done|]. by apply db_notify_ok, mem_ok_st, mem_ok_st.
Qed.

Lemma ring_rsp_doorbell_ok db head m : mem_ok m -> mem_ok (ring_rsp_doorbell db head m).
Proof. intros. by apply db_notify_ok, mem_ok_st, mem_ok_st. Qed.

(** ** The window *)

(** The two command queues, oldest entry first. *)
Definition cmd_queue (base : Z) (m : mem) : list packet :=
  ring_queue ENTRY_SIZE IPC_RING_SIZE (base + IPC_CMD_RING_OFFSET) read_packet m.
Definition rsp_queue (base : Z) (m : mem) : list response :=
  ring_queue ENTRY_SIZE IPC_RING_SIZE (base + IPC_RSP_RING_OFFSET) read_response m.

(** The window carries both rings, both with valid indices, and a doorbell. *)
Record window_ok (base : Z) (m : mem) : Prop := {
  wn_mem : mem_ok m;
  wn_cmd : ring_ok IPC_RING_SIZE (base + IPC_CMD_RING_OFFSET) m;
  wn_rsp : ring_ok IPC_RING_SIZE (base + IPC_RSP_RING_OFFSET) m;
  wn_cmd_magic : ring_magic m (base + IPC_CMD_RING_OFFSET) = IPC_MAGIC;
  wn_rsp_magic : ring_magic m (base + IPC_RSP_RING_OFFSET) = IPC_RSP_MAGIC;
  wn_db_magic : ld32 m (base + IPC_DOORBELL_OFFSET + DB_magic) = IPC_DOORBELL_MAGIC
}.

(** The two queues are [cq] and [rq]. *)
Definition window_has (base : Z) (m : mem) (cq : list packet) (rq : list response) : Prop :=
  window_ok base m /\ cmd_queue base m = cq /\ rsp_queue base m = rq.

(** What the two sides do to the window: a change of the two queues that leaves
    the heap and what follows it alone. *)
Definition window_step (base : Z) (m m' : mem) (cq' : list packet) (rq' : list response) : Prop :=
  window_has base m' cq' rq' /\ within base (base + IPC_HEAP_CTL_OFFSET) m m'.

Lemma ring_params : 0 < ENTRY_SIZE /\ 1 < IPC_RING_SIZE < 0x80000000.
Proof. lia. Qed.

Section Window.
Context (base : Z) (m : mem) (Hok : window_ok base m).

(** Writes outside the rings and the doorbell's magic change nothing here. *)
Lemma window_other m' lo hi :
  within lo hi m m' -> mem_ok m' ->
  hi <= base \/ (base + 0x4020 <= lo /\ hi <= base + 0x8000) \/
  (base + 0xC020 <= lo /\ hi <= base + 0x10000) \/ base + 0x10004 <= lo ->
  window_has base m' (cmd_queue base m) (rsp_queue base m).
Proof using Hok.
  intros Hw Hm Hout. destruct Hok as [_ H1 H2 H3 H4 H5].
  split; [split|split].
  - done.
  - eapply (elsewhere_ok ENTRY_SIZE) with (lo := lo) (hi := hi); [lia|lia|lia|exact Hw|done].
  - eapply (elsewhere_ok ENTRY_SIZE) with (lo := lo) (hi := hi); [lia|lia|lia|exact Hw|done].
  - unfold ring_magic. rewrite (within_ld _ _ _ _ _ _ Hw); [done|cbn; lia].
  - unfold ring_magic. rewrite (within_ld _ _ _ _ _ _ Hw); [done|cbn; lia].
  - rewrite (within_ld _ _ _ _ _ _ Hw); [done|cbn; lia].
  - eapply (elsewhere_queue ENTRY_SIZE) with (lo := lo) (hi := hi); [lia|lia|lia|exact Hw|apply packet_local].
  - eapply (elsewhere_queue ENTRY_SIZE) with (lo := lo) (hi := hi); [lia|lia|lia|exact Hw|apply response_local].
Qed.
End Window.

Lemma window_step_trans base m m1 m2 c1 r1 c2 r2 :
  window_step base m m1 c1 r1 -> window_step base m1 m2 c2 r2 -> window_step base m m2 c2 r2.
Proof. intros [_ H1] [H2 H3]. split; [done|]. by etransitivity. Qed.

Section Channels.
Context (base : Z) (m : mem) (Hok : window_ok base m).
Local Abbreviation cmd := (base + IPC_CMD_RING_OFFSET).
Local Abbreviation rsp := (base + IPC_RSP_RING_OFFSET).

Lemma window_cmd_change m' :
  within (cmd + RING_head) (base + 0x4020) m m' -> mem_ok m' -> ring_ok IPC_RING_SIZE cmd m' ->
  window_step base m m' (cmd_queue base m') (rsp_queue base m).
Proof using Hok.
  intros Hw Hm Hr. split; [|eapply within_mono; [| |exact Hw]; lia].
  destruct Hok as [_ H1 H2 H3 H4 H5]. split; [split|split].
  - done.
  - done.
  - eapply (elsewhere_ok ENTRY_SIZE); [lia|lia| |exact Hw|done]. lia.
  - unfold ring_magic. rewrite (within_ld _ _ _ _ _ _ Hw); [done|cbn; lia].
  - unfold ring_magic. rewrite (within_ld _ _ _ _ _ _ Hw); [done|cbn; lia].
  - rewrite (within_ld _ _ _ _ _ _ Hw); [done|cbn; lia].
  - done.
  - eapply (elsewhere_queue ENTRY_SIZE); [lia|lia| |exact Hw|apply response_local]. lia.
Qed.

Lemma window_rsp_change m' :
  within (rsp + RING_head) (base + 0xC020) m m' -> mem_ok m' -> ring_ok IPC_RING_SIZE rsp m' ->
  window_step base m m' (cmd_queue base m) (rsp_queue base m').
Proof using Hok.
  intros Hw Hm Hr. split; [|eapply within_mono; [| |exact Hw]; lia].
  destruct Hok as [_ H1 H2 H3 H4 H5]. split; [split|split].
  - done.
  - eapply (elsewhere_ok ENTRY_SIZE); [lia|lia| |exact Hw|done]. lia.
  - done.
  - unfold ring_magic. rewrite (within_ld _ _ _ _ _ _ Hw); [done|cbn; lia].
  - unfold ring_magic. rewrite (within_ld _ _ _ _ _ _ Hw); [done|cbn; lia].
  - rewrite (within_ld _ _ _ _ _ _ Hw); [done|cbn; lia].
  - eapply (elsewhere_queue ENTRY_SIZE); [lia|lia| |exact Hw|apply packet_local]. lia.
  - done.
Qed.

(** An entry written at [head] and published, and one consumed. *)
Definition publish (r : Z) (m : mem) (m1 : mem) : mem :=
  st32 m1 (r + RING_head) (ring_next m r (ring_head m r)).
Definition consume (r : Z) (m : mem) : mem :=
  st32 m (r + RING_tail) (ring_next m r (ring_tail m r)).

Lemma slot_range r i : 0 <= i < IPC_RING_SIZE ->
  r + RING_data <= ring_slot ENTRY_SIZE r i /\ ring_slot ENTRY_SIZE r i + ENTRY_SIZE <= r + 0x4020.
Proof using. unfold ring_slot. lia. Qed.

Lemma window_push_cmd p :
  packet_fits p -> (ring_next m cmd (ring_head m cmd) =? ring_tail m cmd) = false ->
  window_step base m
    (publish cmd m (write_packet (ring_slot ENTRY_SIZE cmd (ring_head m cmd)) p m))
    (cmd_queue base m ++ [p]) (rsp_queue base m).
Proof using Hok.
  intros Hp Hfull. pose proof (wn_cmd _ _ Hok) as Hr.
  rewrite (ring_full IPC_RING_SIZE cmd) in Hfull by (lia || done). apply Z.eqb_neq in Hfull.
  set (h := ring_head m cmd). pose proof (slot_range cmd h (rk_head _ _ _ Hr)) as Hs.
  pose proof (write_packet_within (ring_slot ENTRY_SIZE cmd h) p m) as Hw.
  destruct (ring_push ENTRY_SIZE IPC_RING_SIZE cmd ltac:(lia) ltac:(lia) read_packet m
    (write_packet (ring_slot ENTRY_SIZE cmd h) p m) Hr packet_local Hfull) as [H1 H2].
  { intros a _ Ha. apply Hw. exact Ha. }
  fold h in H1, H2. rewrite read_write_packet in H2 by done.
  destruct (window_cmd_change (publish cmd m (write_packet (ring_slot ENTRY_SIZE cmd h) p m)))
    as [(H3 & H4 & H5) H6].
  - apply within_st_r; [lia|change (Z.of_nat 4) with 4; lia|].
    eapply within_mono; [| |exact Hw]; lia.
  - by apply mem_ok_st, write_packet_ok, (wn_mem _ _ Hok).
  - exact H1.
  - split; [|exact H6]. split; [exact H3|]. split; [exact H2|exact H5].
Qed.

Lemma window_push_rsp r :
  response_fits r -> (ring_next m rsp (ring_head m rsp) =? ring_tail m rsp) = false ->
  window_step base m
    (publish rsp m (write_response (ring_slot ENTRY_SIZE rsp (ring_head m rsp)) r m))
    (cmd_queue base m) (rsp_queue base m ++ [r]).
Proof using Hok.
  intros Hp Hfull. pose proof (wn_rsp _ _ Hok) as Hr.
  rewrite (ring_full IPC_RING_SIZE rsp) in Hfull by (lia || done). apply Z.eqb_neq in Hfull.
  set (h := ring_head m rsp). pose proof (slot_range rsp h (rk_head _ _ _ Hr)) as Hs.
  pose proof (write_response_within (ring_slot ENTRY_SIZE rsp h) r m) as Hw.
  destruct (ring_push ENTRY_SIZE IPC_RING_SIZE rsp ltac:(lia) ltac:(lia) read_response m
    (write_response (ring_slot ENTRY_SIZE rsp h) r m) Hr response_local Hfull) as [H1 H2].
  { intros a _ Ha. apply Hw. exact Ha. }
  fold h in H1, H2. rewrite read_write_response in H2 by done.
  destruct (window_rsp_change (publish rsp m (write_response (ring_slot ENTRY_SIZE rsp h) r m)))
    as [(H3 & H4 & H5) H6].
  - apply within_st_r; [lia|change (Z.of_nat 4) with 4; lia|].
    eapply within_mono; [| |exact Hw]; lia.
  - by apply mem_ok_st, write_response_ok, (wn_mem _ _ Hok).
  - exact H1.
  - split; [|exact H6]. split; [exact H3|]. split; [exact H4|exact H2].
Qed.

Lemma window_pop_cmd :
  ring_head m cmd <> ring_tail m cmd ->
  exists q, cmd_queue base m = read_packet m (ring_slot ENTRY_SIZE cmd (ring_tail m cmd)) :: q /\
    window_step base m (consume cmd m) q (rsp_queue base m).
Proof using Hok.
  intros Hne. pose proof (wn_cmd _ _ Hok) as Hr.
  destruct (ring_pop ENTRY_SIZE IPC_RING_SIZE cmd ltac:(lia) ltac:(lia) read_packet m Hr
    packet_local Hne) as [H1 H2].
  exists (cmd_queue base (consume cmd m)). split; [exact H2|].
  apply window_cmd_change; [|by apply mem_ok_st, (wn_mem _ _ Hok)|exact H1].
  apply within_st; [lia|change (Z.of_nat 4) with 4; lia].
Qed.

Lemma window_pop_rsp :
  ring_head m rsp <> ring_tail m rsp ->
  exists q, rsp_queue base m = read_response m (ring_slot ENTRY_SIZE rsp (ring_tail m rsp)) :: q /\
    window_step base m (consume rsp m) (cmd_queue base m) q.
Proof using Hok.
  intros Hne. pose proof (wn_rsp _ _ Hok) as Hr.
  destruct (ring_pop ENTRY_SIZE IPC_RING_SIZE rsp ltac:(lia) ltac:(lia) read_response m Hr
    response_local Hne) as [H1 H2].
  exists (rsp_queue base (consume rsp m)). split; [exact H2|].
  apply window_rsp_change; [|by apply mem_ok_st, (wn_mem _ _ Hok)|exact H1].
  apply within_st; [lia|change (Z.of_nat 4) with 4; lia].
Qed.

(** The doorbell block past its magic is outside both rings. *)
Lemma window_doorbell m' :
  within (base + IPC_DOORBELL_OFFSET + 4) (base + IPC_DOORBELL_OFFSET + SIZEOF_doorbell) m m' ->
  mem_ok m' -> window_step base m m' (cmd_queue base m) (rsp_queue base m).
Proof using Hok.
  intros Hw Hm. split; [eapply window_other; [done|exact Hw|done|lia]|].
  eapply within_mono; [| |exact Hw]; lia.
Qed.

Lemma cmd_full :
  (ring_next m cmd (ring_head m cmd) =? ring_tail m cmd) = (zlen (cmd_queue base m) =? 1023).
Proof using Hok.
  rewrite (ring_full IPC_RING_SIZE cmd) by (lia || apply Hok). unfold zlen, cmd_queue.
  rewrite length_ring_queue. f_equal. pose proof (ring_count_range IPC_RING_SIZE cmd ltac:(lia) m). lia.
Qed.

Lemma rsp_full :
  (ring_next m rsp (ring_head m rsp) =? ring_tail m rsp) = (zlen (rsp_queue base m) =? 1023).
Proof using Hok.
  rewrite (ring_full IPC_RING_SIZE rsp) by (lia || apply Hok). unfold zlen, rsp_queue.
  rewrite length_ring_queue. f_equal. pose proof (ring_count_range IPC_RING_SIZE rsp ltac:(lia) m). lia.
Qed.
End Channels.

(** ** The kernel's operations on the channels *)

Record ipc_ok (base : Z) (s : ipc) : Prop := {
  io_base : 0 < base;
  io_shmem : ipc_shmem_base s = base;
  io_cmd : cmd_ring s = base + IPC_CMD_RING_OFFSET;
  io_rsp : rsp_ring s = base + IPC_RSP_RING_OFFSET;
  io_db : doorbell s = base + IPC_DOORBELL_OFFSET;
  io_win : window_ok base (win s);
  io_clock : clock_ok (ip_clock s)
}.

Definition cmds (base : Z) (s : ipc) : list packet := cmd_queue base (win s).
Definition rsps (base : Z) (s : ipc) : list response := rsp_queue base (win s).

(** The heap's state in [s'] is that in [s], over a window in which only the
    rings and the doorbell changed; the kernel's place in the mesh is too. *)
Definition same_heap (base : Z) (s s' : ipc) : Prop :=
  ip_heap s' = (ip_heap s){{ shm := win s' }} /\
  within base (base + IPC_HEAP_CTL_OFFSET) (win s) (win s') /\
  mesh_table s' = mesh_table s /\ local_node_id s' = local_node_id s.

#[export] Instance same_heap_preorder base : PreOrder (same_heap base).
Proof.
  split.
  - intros s. split; [|done]. unfold win. by destruct (ip_heap s).
  - intros s1 s2 s3 (E1 & W1 & M1 & N1) (E2 & W2 & M2 & N2).
    split; [|split; [by etransitivity|split; congruence]]. rewrite E2, E1. by destruct (ip_heap s1).
Qed.

(** A state whose window and clock alone changed. *)
Lemma ipc_ok_on_win base s f cq rq :
  ipc_ok base s -> window_step base (win s) (f (win s)) cq rq ->
  ipc_ok base (on_win f s) /\ same_heap base s (on_win f s) /\
  cmds base (on_win f s) = cq /\ rsps base (on_win f s) = rq.
Proof. intros [] [(H1 & H2 & H3) H4]. split; [by split|]. split; [by split|]. done. Qed.

Lemma ipc_ok_clock base s c :
  ipc_ok base s -> clock_ok c -> ipc_ok base s{{ ip_clock := c }}.
Proof. intros [] ?. by split. Qed.

Lemma time_usec_u64 c : clock_ok c -> is_u64 (fst (time_usec c)).
Proof.
  intros Hc. rewrite time_usec_value by done. destruct Hc as [Hm Hr Hb].
  pose proof (Hm (reads c) (reads c)). unfold is_u64. split.
  - apply Z.div_pos; lia.
  - apply Z.le_lt_trans with (tsc c (reads c) - boot_tsc c); [|lia].
    apply Z.div_le_upper_bound; nia.
Qed.

Lemma ring_size_nonzero r m : ring_ok IPC_RING_SIZE r m -> (ring_size m r =? 0) = false.
Proof. intros H. by rewrite (rk_size _ _ _ H). Qed.

Lemma ipc_send_spec base s cmd payload flags :
  ipc_ok base s -> is_u16 cmd -> is_u32 payload -> is_u16 flags ->
  let p := Packet cmd flags payload (fst (time_usec (ip_clock s))) in
  exists r s', ipc_send_flags cmd payload flags s = Some (r, s') /\ ipc_ok base s' /\
    same_heap base s s' /\
    ((zlen (cmds base s) = 1023 /\ r = -1 /\ s' = s) \/
     (zlen (cmds base s) <> 1023 /\ r = 0 /\
      cmds base s' = cmds base s ++ [p] /\ rsps base s' = rsps base s)).
Proof.
  intros Hok Hc Hp Hf p. unfold ipc_send_flags. pose proof (io_win _ _ Hok) as Hw.
  rewrite (io_cmd _ _ Hok). pose proof (io_base _ _ Hok).
  rewrite (proj2 (Z.eqb_neq _ 0)) by lia. rewrite (ring_size_nonzero _ _ (wn_cmd _ _ Hw)).
  rewrite (cmd_full base (win s) Hw). fold (cmds base s).
  destruct (Z.eqb_spec (zlen (cmds base s)) 1023) as [Efull|Efull].
  { exists (-1), s. split; [done|]. split; [done|]. split; [done|]. by left. }
  pose proof (time_usec_u64 _ (io_clock _ _ Hok)) as Hu.
  pose proof (clock_ok_usec _ (io_clock _ _ Hok)) as Hck.
  destruct (time_usec (ip_clock s)) as [now c] eqn:Et. cbn [fst snd] in *.
  set (s1 := s{{ ip_clock := c }}). assert (Hok1 : ipc_ok base s1) by (by apply ipc_ok_clock).
  assert (Hnf : (ring_next (win s1) (base + IPC_CMD_RING_OFFSET)
                   (ring_head (win s1) (base + IPC_CMD_RING_OFFSET))
                 =? ring_tail (win s1) (base + IPC_CMD_RING_OFFSET)) = false).
  { rewrite (cmd_full base (win s1) (io_win _ _ Hok1)). by apply Z.eqb_neq. }
  set (f := fun m => publish (base + IPC_CMD_RING_OFFSET) m (write_packet
    (ring_slot ENTRY_SIZE (base + IPC_CMD_RING_OFFSET) (ring_head m (base + IPC_CMD_RING_OFFSET))) p m)).
  destruct (ipc_ok_on_win base s1 f _ _ Hok1
    (window_push_cmd base (win s1) (io_win _ _ Hok1) p (conj Hc (conj Hf (conj Hp Hu))) Hnf)) as (Hok2 & S2 & E1 & E2).
  set (s2 := on_win f s1) in *.
  set (h := ring_next (win s1) (base + IPC_CMD_RING_OFFSET) (ring_head (win s1) (base + IPC_CMD_RING_OFFSET))).
  destruct (ipc_ok_on_win base s2 (ring_cmd_doorbell (base + IPC_DOORBELL_OFFSET) h) _ _ Hok2
    (window_doorbell base (win s2) (io_win _ _ Hok2) _
      (ring_cmd_doorbell_within (base + IPC_DOORBELL_OFFSET) h (win s2))
      (ring_cmd_doorbell_ok _ _ _ (wn_mem _ _ (io_win _ _ Hok2))))) as (Hok3 & S3 & E3 & E4).
  exists 0, (on_win (ring_cmd_doorbell (base + IPC_DOORBELL_OFFSET) h) s2).
  split; [|split; [done|split; [|right; split; [done|split; [done|]]]]].
  - rewrite <- (io_db _ _ Hok). reflexivity.
  - etransitivity; [exact S2|exact S3].
  - rewrite E3, E4. exact (conj E1 E2).
Qed.

(** The spin, when the other side leaves the window alone. *)
Lemma spin_idle r n i m : spin_wait (fun _ m => m) r n i m = m.
Proof. revert i; induction n as [|n IH]; intros i; [done|]. cbn [spin_wait]. by destruct (negb _). Qed.


Lemma ipc_poll_spec base s :
  ipc_ok base s ->
  exists r s', ipc_poll_response (fun _ m => m) s = Some (r, s') /\ ipc_ok base s' /\
    same_heap base s s' /\ cmds base s' = cmds base s /\ rsps base s = option_list r ++ rsps base s' /\
    (r = None -> rsps base s = []).
Proof.
  intros Hok. unfold ipc_poll_response. pose proof (io_win _ _ Hok) as Hw.
  pose proof (io_base _ _ Hok). rewrite (io_rsp _ _ Hok), (wn_rsp_magic _ _ Hw).
  rewrite (proj2 (Z.eqb_neq _ 0)) by lia. rewrite Z.eqb_refl. cbn [negb orb].
  assert (Es : on_win (spin_wait (fun _ m => m) (base + IPC_RSP_RING_OFFSET) POLL_SPINS 0) s = s).
  { destruct s as [hp]; unfold on_win. cbn -[spin_wait POLL_SPINS]. destruct hp.
    cbn -[spin_wait POLL_SPINS]. by rewrite spin_idle. }
  rewrite Es. set (r := base + IPC_RSP_RING_OFFSET). pose proof (wn_rsp _ _ Hw) as Hr. fold r in Hr.
  destruct (Z.eqb_spec (ring_head (win s) r) (ring_tail (win s) r)) as [E|E].
  - exists None, s. split; [done|]. split; [done|]. split; [done|]. split; [done|]. split; [done|]. intros _.
    by apply (ring_empty ENTRY_SIZE IPC_RING_SIZE r ltac:(lia) read_response).
  - rewrite (ring_size_nonzero _ _ Hr).
    destruct (window_pop_rsp base (win s) Hw E) as (q & Eq & Hst).
    destruct (ipc_ok_on_win base s (consume r) _ _ Hok Hst) as (Hok' & S1 & E1 & E2).
    eexists _, _. split; [reflexivity|]. split; [exact Hok'|]. split; [exact S1|].
    split; [exact E1|].     split; [|done]. unfold rsps at 1. rewrite Eq. f_equal. by rewrite <- E2.
Qed.

(** Draining takes the whole response queue and stops. *)
Lemma drain_spec base fuel s :
  ipc_ok base s -> (length (rsps base s) <= fuel)%nat ->
  exists s', drain (fun _ m => m) fuel s = Some (rsps base s, s') /\ ipc_ok base s' /\
    same_heap base s s' /\ cmds base s' = cmds base s /\ rsps base s' = [].
Proof.
  revert s; induction fuel as [|fuel IH]; intros s Hok Hl; cbn [drain];
    destruct (ipc_poll_spec base s Hok) as (r & s1 & -> & Hok1 & S1 & E1 & E2 & E3); cbn [mbind option_bind].
  - destruct r as [r|]; [rewrite E2 in Hl; cbn in Hl; lia|].
    rewrite (E3 eq_refl) in E2 |- *. exists s1. done.
  - destruct r as [r|].
    + change (option_list (Some r)) with [r] in E2. rewrite E2 in Hl |- *. cbn [app length] in Hl |- *.
      destruct (IH s1) as (s' & -> & Hok' & S' & E4 & E5); [done|lia|].
      exists s'. cbn [mbind option_bind]. rewrite E4. split; [done|]. split; [done|].
      split; [by etransitivity|done].
    + rewrite (E3 eq_refl) in E2 |- *. exists s1. done.
Qed.

Lemma ipc_irq_spec base s :
  ipc_ok base s ->
  exists s', ipc_irq_handler (fun _ m => m) 1023 s = Some (rsps base s, s') /\ ipc_ok base s' /\
    same_heap base s s' /\ cmds base s' = cmds base s /\ rsps base s' = [].
Proof.
  intros Hok. unfold ipc_irq_handler. pose proof (io_base _ _ Hok).
  set (s1 := s{{ irq_count := irq_count s +u 1 }}).
  assert (Hok1 : ipc_ok base s1) by (by destruct Hok).
  rewrite (io_db _ _ Hok1). rewrite (proj2 (Z.eqb_neq _ 0)) by lia.
  set (f := fun m => st32 m _ _). pose proof (io_win _ _ Hok1) as Hw1.
  destruct (ipc_ok_on_win base s1 f (cmds base s1) (rsps base s1) Hok1) as (Hok2 & S2 & E1 & E2).
  { apply window_doorbell; [done| |by apply mem_ok_st, (wn_mem _ _ Hw1)].
    apply within_st; [lia|change (Z.of_nat 4) with 4; lia]. }
  destruct (drain_spec base 1023 (on_win f s1) Hok2) as (s' & E3 & Hok' & S' & E4 & E5).
  { rewrite E2. unfold rsps, rsp_queue. rewrite length_ring_queue.
    pose proof (ring_count_range IPC_RING_SIZE (base + IPC_RSP_RING_OFFSET) ltac:(lia) (win s1)). lia. }
  exists s'. rewrite E3, E2, E4, E1. split; [done|]. split; [done|].
  split; [by transitivity (on_win f s1)|done].
Qed.

Lemma ipc_enable_irq_spec base s enable :
  ipc_ok base s ->
  ipc_ok base (ipc_enable_irq enable s) /\ same_heap base s (ipc_enable_irq enable s) /\
  cmds base (ipc_enable_irq enable s) = cmds base s /\
  rsps base (ipc_enable_irq enable s) = rsps base s.
Proof.
  intros Hok. unfold ipc_enable_irq. destruct (_ =? 0); [done|]. apply ipc_ok_on_win; [done|].
  pose proof (io_win _ _ Hok) as Hw. rewrite (io_db _ _ Hok).
  apply window_doorbell; [done| |by apply mem_ok_st, (wn_mem _ _ Hw)].
  apply within_st; [lia|change (Z.of_nat 4) with 4; lia].
Qed.

(** ** The mock consumer *)

Section Consumer.
Context (base : Z).

Lemma mock_response_spec orig s :
  ipc_ok base s -> is_u16 orig ->
  exists s', mock_response orig s = Some s' /\ ipc_ok base s' /\ same_heap base s s' /\ cmds base s' = cmds base s /\
    rsps base s' = rsps base s ++
      (if zlen (rsps base s) =? 1023 then [] else [Response RSP_OK orig MOCK_RESULT (fst (time_usec (ip_clock s)))]).
Proof.
  intros Hok Ho. pose proof (io_win _ _ Hok) as Hw. pose proof (io_base _ _ Hok). unfold mock_response.
  rewrite (io_rsp _ _ Hok), (wn_rsp_magic _ _ Hw), (ring_size_nonzero _ _ (wn_rsp _ _ Hw)), (rsp_full base (win s) Hw).
  rewrite (proj2 (Z.eqb_neq (base + IPC_RSP_RING_OFFSET) 0)), Z.eqb_refl by lia. cbn [negb orb]. fold (rsps base s).
  destruct (Z.eqb_spec (zlen (rsps base s)) 1023) as [Ef|Ef]; [exists s; by rewrite app_nil_r|].
  pose proof (time_usec_u64 _ (io_clock _ _ Hok)) as Hu. pose proof (clock_ok_usec _ (io_clock _ _ Hok)) as Hck.
  destruct (time_usec (ip_clock s)) as [now c]. cbn [fst snd] in *.
  set (s1 := s{{ ip_clock := c }}). assert (Hok1 : ipc_ok base s1) by (by apply ipc_ok_clock).
  set (rsp := base + IPC_RSP_RING_OFFSET) in *.
  assert (Hnf : (ring_next (win s1) rsp (ring_head (win s1) rsp) =? ring_tail (win s1) rsp) = false).
  { unfold rsp. rewrite (rsp_full base (win s1) (io_win _ _ Hok1)). by apply Z.eqb_neq. }
  set (r := Response RSP_OK orig MOCK_RESULT now). assert (Hfit : response_fits r) by (by split).
  set (f := fun m => publish rsp m (write_response (ring_slot ENTRY_SIZE rsp (ring_head m rsp)) r m)).
  destruct (ipc_ok_on_win base s1 f _ _ Hok1 (window_push_rsp base (win s1) (io_win _ _ Hok1) r Hfit Hnf)) as (Hok2 & S2 & E1 & E2).
  set (s2 := on_win f s1) in *. set (h := ring_next (win s1) rsp (ring_head (win s1) rsp)).
  destruct (ipc_ok_on_win base s2 (ring_rsp_doorbell (base + IPC_DOORBELL_OFFSET) h) _ _ Hok2
    (window_doorbell base (win s2) (io_win _ _ Hok2) _ (ring_rsp_doorbell_within (base + IPC_DOORBELL_OFFSET) h (win s2))
      (ring_rsp_doorbell_ok _ _ _ (wn_mem _ _ (io_win _ _ Hok2))))) as (Hok3 & S3 & E3 & E4).
  exists (on_win (ring_rsp_doorbell (base + IPC_DOORBELL_OFFSET) h) s2). split.
  - f_equal. rewrite <- (io_db _ _ Hok). pose proof (io_db _ _ Hok) as Hdb.
    change (doorbell (on_win _ (on_win _ s1))) with (doorbell s). rewrite (proj2 (Z.eqb_neq (doorbell s) 0)) by lia. reflexivity.
  - split; [done|]. split; [by transitivity s2|]. rewrite E3, E4. exact (conj E1 E2).
Qed.

(** What the consumer finds: the oldest command of the ring. *)
Definition oldest (s : ipc) : option packet :=
  let r := cmd_ring s in
  if ring_head (win s) r =? ring_tail (win s) r then None
  else Some (read_packet (win s) (ring_slot ENTRY_SIZE r (ring_tail (win s) r))).

Lemma oldest_head s : ipc_ok base s -> oldest s = head (cmds base s).
Proof.
  intros Hok. pose proof (io_win _ _ Hok) as Hw. unfold oldest. rewrite (io_cmd _ _ Hok).
  set (cmd := base + IPC_CMD_RING_OFFSET).
  destruct (Z.eqb_spec (ring_head (win s) cmd) (ring_tail (win s) cmd)) as [E|E].
  - apply (ring_empty ENTRY_SIZE IPC_RING_SIZE cmd ltac:(lia) read_packet (win s) (wn_cmd _ _ Hw)) in E.
    unfold cmds, cmd_queue. fold cmd. by rewrite E.
  - destruct (window_pop_cmd base (win s) Hw E) as (q & Eq & _). unfold cmds. by rewrite Eq.
Qed.

(** The consumer takes the oldest command and answers it, if there is room. *)
Lemma ipc_consume_spec s :
  ipc_ok base s ->
  exists s', ipc_consume_one s = Some s' /\ ipc_ok base s' /\ same_heap base s s' /\
    cmds base s' = tail (cmds base s) /\
    rsps base s' = rsps base s ++
      match cmds base s with
      | [] => []
      | p :: _ => if zlen (rsps base s) =? 1023 then []
                  else [Response RSP_OK (pk_cmd p) MOCK_RESULT (fst (time_usec (ip_clock s)))]
      end.
Proof.
  intros Hok. unfold ipc_consume_one. pose proof (io_win _ _ Hok) as Hw. pose proof (io_base _ _ Hok). rewrite (io_cmd _ _ Hok).
  rewrite (proj2 (Z.eqb_neq _ 0)), (ring_size_nonzero _ _ (wn_cmd _ _ Hw)) by lia. set (cmd := base + IPC_CMD_RING_OFFSET).
  destruct (Z.eqb_spec (ring_head (win s) cmd) (ring_tail (win s) cmd)) as [E|E].
  - exists s. split; [done|]. split; [done|]. split; [done|].
    apply (ring_empty ENTRY_SIZE IPC_RING_SIZE cmd ltac:(lia) read_packet (win s) (wn_cmd _ _ Hw)) in E.
    unfold cmds, cmd_queue. fold cmd. by rewrite E, app_nil_r.
  - destruct (window_pop_cmd base (win s) Hw E) as (q & Eq & Hst). fold cmd in Eq, Hst.
    cbv zeta. change (on_win (fun m => st32 m (cmd + RING_tail) (ring_next m cmd (ring_tail (win s) cmd))) s) with (on_win (consume cmd) s).
    destruct (ipc_ok_on_win base s (consume cmd) _ _ Hok Hst) as (Hok' & S1 & E1 & E2).
    destruct (mock_response_spec (pk_cmd (read_packet (win s) (ring_slot ENTRY_SIZE cmd (ring_tail (win s) cmd)))) _ Hok')
      as (s' & -> & Hok2 & S2 & E3 & E4).
    { exact (ld_range 2 (win s) _ (wn_mem _ _ Hw)). }
    exists s'. split; [done|]. split; [done|]. split; [by transitivity (on_win (consume cmd) s)|].
    rewrite E3, E1, E4, E2. unfold cmds. by rewrite Eq.
Qed.
End Consumer.

(** ** Initialisation *)

Lemma init_rings_has base m :
  mem_ok m ->
  let m' := init_doorbell (base + IPC_DOORBELL_OFFSET)
              (init_rings (base + IPC_CMD_RING_OFFSET) (base + IPC_RSP_RING_OFFSET) m) in
  window_has base m' [] [].
Proof.
  intros Hm. cbv zeta.
  set (m' := init_doorbell _ _).
  assert (Hm' : mem_ok m') by (repeat apply mem_ok_st; done).
  assert (Hc : ring_head m' (base + IPC_CMD_RING_OFFSET) = 0 /\ ring_tail m' (base + IPC_CMD_RING_OFFSET) = 0
    /\ ring_size m' (base + IPC_CMD_RING_OFFSET) = IPC_RING_SIZE
    /\ ring_magic m' (base + IPC_CMD_RING_OFFSET) = IPC_MAGIC).
  { unfold ring_head, ring_tail, ring_size, ring_magic, m', init_doorbell, init_rings.
    split; [|split; [|split]]; mem_simpl; reflexivity. }
  assert (Hr : ring_head m' (base + IPC_RSP_RING_OFFSET) = 0 /\ ring_tail m' (base + IPC_RSP_RING_OFFSET) = 0
    /\ ring_size m' (base + IPC_RSP_RING_OFFSET) = IPC_RING_SIZE
    /\ ring_magic m' (base + IPC_RSP_RING_OFFSET) = IPC_RSP_MAGIC).
  { unfold ring_head, ring_tail, ring_size, ring_magic, m', init_doorbell, init_rings.
    split; [|split; [|split]]; mem_simpl; reflexivity. }
  assert (Hd : ld32 m' (base + IPC_DOORBELL_OFFSET + DB_magic) = IPC_DOORBELL_MAGIC).
  { unfold m', init_doorbell. mem_simpl. reflexivity. }
  clearbody m'. destruct Hc as (C1 & C2 & C3 & C4), Hr as (R1 & R2 & R3 & R4).
  assert (Hw : window_ok base m').
  { split; try done; (split; [done|lia|lia]). }
  split; [done|]. split.
  - apply (ring_empty ENTRY_SIZE IPC_RING_SIZE _ ltac:(lia) read_packet m' (wn_cmd _ _ Hw)). lia.
  - apply (ring_empty ENTRY_SIZE IPC_RING_SIZE _ ltac:(lia) read_response m' (wn_rsp _ _ Hw)). lia.
Qed.

Lemma window_has_other base m m' lo hi cq rq :
  window_has base m cq rq -> within lo hi m m' -> mem_ok m' -> base + 0x10004 <= lo ->
  window_has base m' cq rq.
Proof.
  intros (Hok & <- & <-) Hw Hm Hlo. apply (window_other base m Hok m' lo hi); [done|done|lia].
Qed.

Lemma init_stream_within r size m : within r (r + RING_data) m (init_stream r size m).
Proof.
  unfold init_stream. destruct (_ =? _); [done|].
  repeat (apply within_st_r; [lia|change (Z.of_nat 4) with 4; lia|]). done.
Qed.

Lemma init_stream_ok r size m : mem_ok m -> mem_ok (init_stream r size m).
Proof. intros. unfold init_stream. destruct (_ =? _); [done|]. by repeat apply mem_ok_st. Qed.

Lemma init_stream_magic r size m : ring_magic (init_stream r size m) r = IPC_STREAM_MAGIC.
Proof.
  unfold init_stream. destruct (Z.eqb_spec (ring_magic m r) IPC_STREAM_MAGIC); [done|].
  unfold ring_magic. mem_simpl. reflexivity.
Qed.

(** The heap as [ipc_init] leaves it. *)
Definition heap_at (base : Z) (h : heap) : Prop :=
  heap_ok h /\ heap_ctl h = base + IPC_HEAP_CTL_OFFSET.

Lemma heap_at_elsewhere base h m lo hi :
  heap_at base h -> mem_ok m -> within lo hi (shm h) m ->
  hi <= base + IPC_HEAP_CTL_OFFSET \/ base + IPC_OBS_RING_OFFSET <= lo -> heap_at base h{{ shm := m }}.
Proof.
  intros [Hok Hc] Hm Hw Hout. split; [|done]. apply heap_ok_elsewhere; [done|done|].
  intros a Ha. apply Hw. pose proof (ok_data h Hok). lia.
Qed.

(** The window and the heap after [ipc_init], in the order the code sets them up. *)
Section IpcInit.
Context (handler base irq : Z) (s : ipc) (Hbase : 0 < base).
Context (Hm : mem_ok (win s)) (Hl : zlen (blob_table (ip_heap s)) = MAX_BLOBS).

Local Abbreviation obs := (base + IPC_OBS_RING_OFFSET).
Local Abbreviation actr := (base + IPC_ACT_RING_OFFSET).

Definition init1 : heap :=
  (ip_heap s){{ shm ::= fun m => init_doorbell (base + IPC_DOORBELL_OFFSET)
    (init_rings (base + IPC_CMD_RING_OFFSET) (base + IPC_RSP_RING_OFFSET) m) }}.
Definition init2 : heap := heap_init (base + IPC_HEAP_CTL_OFFSET) init1.
Definition init3 : heap := init2{{ shm ::= init_stream obs IPC_OBS_RING_SIZE }}.
Definition init4 : heap := init3{{ shm ::= init_stream actr IPC_ACT_RING_SIZE }}.

Lemma init_heap_eq : ip_heap (ipc_init handler base irq s) = init4.
Proof using Hbase.
  unfold ipc_init. rewrite (proj2 (Z.eqb_neq base 0)) by lia. cbv zeta.
  assert (E : forall (c : bool) (x : ipc) f, ip_heap (if c then x{{ ip_pic ::= f }} else x) = ip_heap x)
    by (intros [] **; reflexivity).
  rewrite E. unfold ipc_stream_init. cbn -[init_rings init_doorbell heap_init init_stream Z.eqb Z.add].
  rewrite (proj2 (Z.eqb_neq base 0)) by lia. reflexivity.
Qed.

Lemma init2_has : window_has base (shm init2) [] [] /\ heap_at base init2 /\ mem_ok (shm init2).
Proof using Hbase Hm Hl.
  assert (H1 : window_has base (shm init1) [] []) by (by apply init_rings_has).
  pose proof (wn_mem _ _ (proj1 H1)) as Hm1.
  assert (Hm2 : mem_ok (shm init2)) by (apply init_mem_ok; [lia|done]).
  split; [|split; [split|done]].
  - eapply window_has_other; [exact H1|apply heap_init_region; lia|done|lia].
  - apply heap_init_ok; [lia|done|done].
  - apply (init_ptrs (base + IPC_HEAP_CTL_OFFSET) init1). lia.
Qed.

Lemma init4_has : window_has base (shm init4) [] [] /\ heap_at base init4 /\
  ring_magic (shm init4) obs = IPC_STREAM_MAGIC /\ ring_magic (shm init4) actr = IPC_STREAM_MAGIC.
Proof using Hbase Hm Hl.
  destruct init2_has as (H2 & Hh2 & Hm2).
  pose proof (init_stream_within obs IPC_OBS_RING_SIZE (shm init2)) as W3.
  pose proof (init_stream_ok obs IPC_OBS_RING_SIZE _ Hm2) as Hm3.
  pose proof (init_stream_within actr IPC_ACT_RING_SIZE (shm init3)) as W4.
  pose proof (init_stream_ok actr IPC_ACT_RING_SIZE _ Hm3) as Hm4.
  split; [|split; [|split]].
  - eapply window_has_other; [|exact W4|exact Hm4|lia].
    eapply window_has_other; [exact H2|exact W3|exact Hm3|lia].
  - eapply heap_at_elsewhere; [|exact Hm4|exact W4|lia].
    eapply heap_at_elsewhere; [exact Hh2|exact Hm3|exact W3|lia].
  - unfold ring_magic. etransitivity; [eapply (within_ld 4); [exact W4|cbn; lia]|].
    apply (init_stream_magic obs).
  - apply init_stream_magic.
Qed.

Lemma init4_free b : 0 <= b < HEAP_MAX_BLOCKS -> blk_free init4 b = true.
Proof using Hbase Hm Hl.
  intros Hb. destruct init2_has as (_ & [Hk2 Hc2] & Hm2). pose proof (ok_data _ Hk2) as Hd.
  pose proof (init_stream_ok obs IPC_OBS_RING_SIZE _ Hm2) as Hm3.
  assert (Hk3 : heap_ok init3).
  { apply (heap_ok_elsewhere init2); [done|exact Hm3|]. intros a Ha. apply init_stream_within. lia. }
  etransitivity; [apply (elsewhere_free init3); [done| |lia]|].
  { intros a Ha. apply init_stream_within. change (heap_ctl init3) with (heap_ctl init2) in Ha.
    change (heap_data init3) with (heap_data init2) in Ha. lia. }
  etransitivity; [apply (elsewhere_free init2); [done| |lia]|].
  { intros a Ha. apply init_stream_within. lia. }
  apply init_free; lia.
Qed.
End IpcInit.

Lemma ipc_init_pic handler base irq s :
  0 < base ->
  ip_pic (ipc_init handler base irq s)
  = if (0 <? irq) && (irq <? 16) then pic_unmask_irq irq (irq_register_handler irq handler (ip_pic s))
    else ip_pic s.
Proof.
  intros Hb. unfold ipc_init. rewrite (proj2 (Z.eqb_neq base 0)) by lia. cbv zeta.
  assert (E : forall x, ip_pic (ipc_stream_init x) = ip_pic x)
    by (intros x; unfold ipc_stream_init; destruct (_ =? 0); reflexivity).
  destruct (_ && _); [|by rewrite E].
  match goal with |- context [(?x{{ ip_pic ::= ?f }})] =>
    change (ip_pic (x{{ ip_pic ::= f }})) with (f (ip_pic x)) end.
  by rewrite E.
Qed.

Lemma ipc_init_rest handler base irq s :
  0 < base ->
  let s' := ipc_init handler base irq s in
  ipc_shmem_base s' = base /\ cmd_ring s' = base + IPC_CMD_RING_OFFSET /\
  rsp_ring s' = base + IPC_RSP_RING_OFFSET /\ doorbell s' = base + IPC_DOORBELL_OFFSET /\
  obs_ring s' = base + IPC_OBS_RING_OFFSET /\ act_ring s' = base + IPC_ACT_RING_OFFSET /\
  ip_clock s' = ip_clock s.
Proof.
  intros Hb s'. subst s'. unfold ipc_init. rewrite (proj2 (Z.eqb_neq base 0)) by lia. cbv zeta.
  unfold ipc_stream_init. cbn -[init_rings init_doorbell heap_init init_stream Z.eqb Z.add Z.ltb andb].
  rewrite (proj2 (Z.eqb_neq base 0)) by lia. destruct (_ && _); repeat (split; [reflexivity|]); reflexivity.
Qed.

Lemma ipc_init_node handler base irq s :
  0 < base -> local_node_id (ipc_init handler base irq s) = local_node_id s.
Proof.
  intros Hb. unfold ipc_init. rewrite (proj2 (Z.eqb_neq base 0)) by lia. cbv zeta.
  assert (E : forall x, local_node_id (ipc_stream_init x) = local_node_id x)
    by (intros x; unfold ipc_stream_init; destruct (_ =? 0); reflexivity).
  destruct (_ && _); [|by rewrite E].
  assert (Ep : forall f x, local_node_id (x{{ ip_pic ::= f }}) = local_node_id x) by reflexivity.
  by rewrite Ep, E.
Qed.

Lemma ipc_init_ok handler base irq s :
  0 < base -> mem_ok (win s) -> zlen (blob_table (ip_heap s)) = MAX_BLOBS -> clock_ok (ip_clock s) ->
  let s' := ipc_init handler base irq s in
  ipc_ok base s' /\ heap_at base (ip_heap s') /\ cmds base s' = [] /\ rsps base s' = [].
Proof.
  intros Hb Hm Hl Hc s'. destruct (init4_has base s Hb Hm Hl) as ((Hw & Ec & Er) & Hh & _).
  pose proof (init_heap_eq handler base irq s Hb) as Eh. fold s' in Eh. rewrite <- Eh in Hw, Ec, Er, Hh.
  destruct (ipc_init_rest handler base irq s Hb) as (E1 & E2 & E3 & E4 & E5 & E6 & E7).
  fold s' in E1, E2, E3, E4, E5, E6, E7. split; [|done]. split; try done. by rewrite E7.
Qed.

(** A heap region no block of which starts with bytes the scan trips over. *)
Definition region_sane (base : Z) (m : mem) : Prop :=
  sizes_sane (Heap m (base + IPC_HEAP_CTL_OFFSET) (base + IPC_HEAP_DATA_OFFSET) [] 0).

Lemma init_rings_within base m :
  within base (base + IPC_HEAP_CTL_OFFSET) m
    (init_doorbell (base + IPC_DOORBELL_OFFSET)
       (init_rings (base + IPC_CMD_RING_OFFSET) (base + IPC_RSP_RING_OFFSET) m)).
Proof.
  unfold init_doorbell, init_rings. repeat (apply within_st_r; [lia|change (Z.of_nat 4) with 4; cbn -[Z.add]; lia|]). done.
Qed.

Lemma ipc_init_wired handler base irq s :
  0 < base -> mem_ok (win s) -> zlen (blob_table (ip_heap s)) = MAX_BLOBS -> region_sane base (win s) ->
  heap_wired (ip_heap (ipc_init handler base irq s)) /\
  heap_ctl (ip_heap (ipc_init handler base irq s)) = base + IPC_HEAP_CTL_OFFSET.
Proof.
  intros Hb Hm Hl Hs. destruct (init4_has base s Hb Hm Hl) as (_ & [Hok Hc] & _).
  rewrite <- (init_heap_eq handler base irq s Hb) in Hok, Hc. split; [|exact Hc].
  apply heap_ok_wired; [exact Hok|]. pose proof (ok_data _ Hok) as Hd.
  eapply sizes_sane_agree; [|intros a Ha|exact Hs]; cbn [heap_data shm] in *; [lia|].
  rewrite (init_heap_eq handler base irq s Hb).
  etransitivity; [apply init_stream_within; lia|]. etransitivity; [apply init_stream_within; lia|].
  etransitivity; [apply heap_init_region; lia|]. apply init_rings_within. lia.
Qed.

(** [ipc_init] on any window with the heap's table in place sets up the whole
    protocol: both rings are empty and well formed, the doorbell carries its
    magic, the shared heap satisfies its invariant with every block free, the
    streaming rings are ready, and for an IRQ line in 1..15 (and for no other)
    the handler is registered and the line, and the cascade for lines 8 to 15,
    unmasked; no other line changes. *)
Theorem ipc_init_establishes (handler base irq : Z) (s : ipc) (masked : Z -> bool) :
  0 < base -> mem_ok (win s) -> zlen (blob_table (ip_heap s)) = MAX_BLOBS -> clock_ok (ip_clock s) ->
  0 <= irq < 0x100 -> masks (ip_pic s) masked -> zlen (irq_handlers (ip_pic s)) = 16 ->
  let s' := ipc_init handler base irq s in
  ipc_ok base s' /\ cmds base s' = [] /\ rsps base s' = [] /\
  heap_ok (ip_heap s') /\
  (forall b, 0 <= b < HEAP_MAX_BLOCKS -> blk_free (ip_heap s') b = true) /\
  ipc_stream_ready s' = 1 /\
  if (0 <? irq) && (irq <? 16) then
    zget (irq_handlers (ip_pic s')) irq = handler /\
    masks (ip_pic s') (upd (if irq <? 8 then masked else upd masked 2 false) irq false)
  else ip_pic s' = ip_pic s.
Proof.
  intros Hb Hm Hl Hc Hirq Hmask Hh16 s'.
  destruct (ipc_init_ok handler base irq s Hb Hm Hl Hc) as (H1 & [H2 H2'] & H3 & H4).
  split; [done|]. split; [done|]. split; [done|]. split; [done|]. split; [|split].
  - intros b. subst s'. rewrite init_heap_eq by done. by apply init4_free.
  - unfold ipc_stream_ready. destruct (ipc_init_rest handler base irq s Hb) as (_ & _ & _ & _ & E5 & E6 & _).
    fold s' in E5, E6. rewrite E5, E6, !(proj2 (Z.eqb_neq _ 0)) by lia. cbn [negb andb].
    destruct (init4_has base s Hb Hm Hl) as (_ & _ & S1 & S2).
    unfold win. subst s'. by rewrite init_heap_eq, S1, S2.
  - subst s'. rewrite ipc_init_pic by done. destruct ((0 <? irq) && (irq <? 16)) eqn:E; [|done].
    apply andb_true_iff in E as [E1%Z.ltb_lt E2%Z.ltb_lt].
    assert (Er : irq_register_handler irq handler (ip_pic s)
      = (ip_pic s){{ irq_handlers ::= fun l => zset l irq handler }}).
    { unfold irq_register_handler. by rewrite (proj2 (Z.ltb_lt _ _) E2). }
    split.
    + rewrite pic_unmask_irq_eq, Er by lia.
      assert (Es : forall f i p, irq_handlers (set_mask f i p) = irq_handlers p) by reflexivity.
      rewrite Es. destruct (irq <? 8); rewrite ?Es; apply zget_zset_eq; lia.
    + apply pic_unmask_masks; [lia|]. by rewrite Er.
Qed.

Definition demo_clock : clock := Clock (fun n => 1000 * Z.min 1000000 (Z.of_nat n)) 0 0 1000 0.
Definition demo_pic : pic := pic_init 0xC0100000 (Pic demo_8259 [] (replicate 16 0) 0 0).
Definition demo_ipc : ipc := ipc_bss (heap_bss ∅) demo_clock demo_pic.

Lemma demo_clock_ok : clock_ok demo_clock.
Proof.
  assert (Ht : forall i, tsc demo_clock i = 1000 * Z.min 1000000 (Z.of_nat i)) by reflexivity.
  split; [|cbn; lia|cbn; lia]. intros i j Hij. rewrite !Ht. lia.
Qed.

Lemma demo_masks : masks demo_pic (fun _ => true).
Proof. apply pic_init_masks. intros irq log v w Hw _. cbn. unfold demo_8259. by rewrite Hw. Qed.

Lemma ipc_init_establishes_witness :
  let s := ipc_init 0xC0101000 0xE0000000 10 demo_ipc in
  ipc_ok 0xE0000000 s /\ heap_ok (ip_heap s) /\ zget (irq_handlers (ip_pic s)) 10 = 0xC0101000.
Proof.
  pose proof (ipc_init_establishes 0xC0101000 0xE0000000 10 demo_ipc (fun _ => true)) as H.
  destruct H as (H1 & _ & _ & H2 & _ & _ & H3 & _);
    [lia|exact mem_ok_empty|reflexivity|exact demo_clock_ok|lia|exact demo_masks|reflexivity|].
  split; [exact H1|]. split; [exact H2|exact H3].
Defined.

(** ** The mesh table and the heap *)

Lemma init_mesh_within t m : within t (t + 0x1A0) m (init_mesh t m).
Proof.
  unfold init_mesh. destruct (_ =? _); [done|]. apply (for_range_ind (fun _ => within t (t + 0x1A0) m)).
  - lia.
  - repeat (apply within_st_r; [lia|change (Z.of_nat 4) with 4; lia|]). done.
  - intros j m' Hj Hw. apply within_st_r; [unfold mesh_node; lia|unfold mesh_node; change (Z.of_nat 4) with 4; lia|done].
Qed.

Lemma claim_node_within t i m :
  0 <= i < MES_MAX_NODES -> within t (t + 0x1A0) m (claim_node t i m).
Proof.
  intros Hi. unfold claim_node, mesh_node.
  repeat (apply within_st_r; [lia|cbn; lia|]). done.
Qed.

Lemma init_mesh_ok t m : mem_ok m -> mem_ok (init_mesh t m).
Proof.
  intros Hm. unfold init_mesh. destruct (_ =? _); [done|]. apply (for_range_ind (fun _ => mem_ok)).
  - lia.
  - by repeat apply mem_ok_st.
  - intros. by apply mem_ok_st.
Qed.

Lemma claim_node_ok t i m : mem_ok m -> mem_ok (claim_node t i m).
Proof. intros Hm. by repeat apply mem_ok_st. Qed.

(** A fresh table: every node offline, the magic in place. *)
Lemma init_mesh_fresh t m :
  ld32 m (t + MT_magic) <> MESH_MAGIC ->
  ld32 (init_mesh t m) (t + MT_magic) = MESH_MAGIC /\
  node_status (init_mesh t m) t 0 = NODE_STATUS_OFFLINE.
Proof.
  intros Hne. unfold init_mesh. rewrite (proj2 (Z.eqb_neq _ _) Hne).
  set (m0 := st32 (st32 _ _ _) _ _).
  destruct (for_range_ind (fun j m' => ld32 m' (t + MT_magic) = MESH_MAGIC /\
    (0 < j -> node_status m' t 0 = NODE_STATUS_OFFLINE)) 0 MES_MAX_NODES
    (fun i m => st32 m (mesh_node t i + MN_status) NODE_STATUS_OFFLINE) m0) as [H1 H2];
    [lia| | |by split; [|apply H2; lia]].
  - split; [|lia]. unfold m0. mem_simpl. reflexivity.
  - intros j m' Hj [H1 H2]. unfold node_status, mesh_node in *. split.
    + rewrite ld_st_ne by lia. done.
    + intros _. destruct (Z.eq_dec j 0) as [->|Hj0].
      * by apply ld_st_eq.
      * rewrite ld_st_ne by lia. apply H2. lia.
Qed.

Lemma ldb_ld32 m a : mem_ok m -> ldb m a = ld32 m a mod 0x100.
Proof.
  intros Hm. pose proof (Hm a) as Ha. unfold is_u8 in Ha.
  change (ld32 m a) with (ldb m a + 0x100 * ld 3 m (a + 1)).
  rewrite (Z.mul_comm 0x100), Z_mod_plus_full. symmetry. by apply Z.mod_small.
Qed.

(** The kernel's place in the mesh: a slot of the table, or none. *)
Definition mesh_at (base : Z) (s : ipc) : Prop :=
  (mesh_table s = 0 \/ mesh_table s = base + IPC_MESH_OFFSET) /\ local_node_id s < MES_MAX_NODES.

(** A change of the mesh's table alone leaves both rings as they were. *)
Lemma mesh_change base s m' :
  ipc_ok base s -> mem_ok m' ->
  within (base + IPC_MESH_OFFSET) (base + IPC_MESH_OFFSET + 0x1A0) (win s) m' ->
  let s' := on_win (fun _ => m') s in
  ipc_ok base s' /\ cmds base s' = cmds base s /\ rsps base s' = rsps base s.
Proof.
  intros Hk Hm Hin s'.
  destruct (window_has_other base (win s) m' (base + IPC_MESH_OFFSET) (base + IPC_MESH_OFFSET + 0x1A0)
    (cmds base s) (rsps base s)) as (Hw & E1 & E2);
    [by split; [apply Hk|]|exact Hin|done|lia|].
  destruct Hk. by split.
Qed.

Lemma ipc_mesh_init_spec base s :
  ipc_ok base s -> local_node_id s < MES_MAX_NODES ->
  let s' := ipc_mesh_init s in
  ipc_ok base s' /\ mesh_at base s' /\ cmds base s' = cmds base s /\ rsps base s' = rsps base s /\
  ip_heap s' = (ip_heap s){{ shm := win s' }} /\
  within (base + IPC_MESH_OFFSET) (base + IPC_MESH_OFFSET + 0x1A0) (win s) (win s').
Proof.
  intros Hk Hn s'. pose proof (io_base _ _ Hk) as Hb. pose proof (wn_mem _ _ (io_win _ _ Hk)) as Hm.
  subst s'. unfold ipc_mesh_init. rewrite (io_shmem _ _ Hk), (proj2 (Z.eqb_neq base 0)) by lia. cbv zeta.
  set (t := base + IPC_MESH_OFFSET). set (s1 := on_win (init_mesh t) s{{ mesh_table := t }}).
  destruct (mesh_change base s (init_mesh t (win s)) Hk (init_mesh_ok t _ Hm) (init_mesh_within t _)) as (K1 & C1 & R1).
  assert (Hk1 : ipc_ok base s1) by (destruct K1; by split).
  destruct (find_range _ _ _) as [i|] eqn:E.
  - apply find_range_Some in E as (Hi & _).
    pose proof (wn_mem _ _ (io_win _ _ Hk1)) as Hm1.
    destruct (mesh_change base s1 (claim_node t i (win s1)) Hk1 (claim_node_ok t i _ Hm1) (claim_node_within t i _ Hi))
      as (K2 & C2 & R2).
    split; [destruct K2; by split|]. split; [split; [by right|]; cbn; lia|].
    split; [etransitivity; [exact C2|exact C1]|]. split; [etransitivity; [exact R2|exact R1]|]. split; [done|].
    transitivity (win s1); [apply init_mesh_within|by apply claim_node_within].
  - split; [done|]. split; [split; [by right|exact Hn]|]. split; [exact C1|]. split; [exact R1|]. split; [done|].
    apply init_mesh_within.
Qed.

Lemma ipc_mesh_update_spec base s :
  ipc_ok base s -> mesh_at base s ->
  let s' := ipc_mesh_update s in
  ipc_ok base s' /\ mesh_at base s' /\ cmds base s' = cmds base s /\ rsps base s' = rsps base s /\
  ip_heap s' = (ip_heap s){{ shm := win s' }} /\
  within (base + IPC_MESH_OFFSET) (base + IPC_MESH_OFFSET + 0x1A0) (win s) (win s').
Proof.
  intros Hk Ha s'. pose proof (wn_mem _ _ (io_win _ _ Hk)) as Hm. subst s'. unfold ipc_mesh_update.
  destruct (Z.ltb_spec (local_node_id s) 0); cbn [orb];
    [split; [done|]; split; [done|]; split; [done|]; split; [done|]; split; [unfold win; by destruct (ip_heap s)|done]|].
  destruct (Z.eqb_spec (mesh_table s) 0) as [|Hne];
    [split; [done|]; split; [done|]; split; [done|]; split; [done|]; split; [unfold win; by destruct (ip_heap s)|done]|].
  pose proof Ha as [[?| ->] Hn]; [done|]. set (a := mesh_node _ _ + _).
  set (m' := st64 (win s) a (u64 (ld64 (win s) a + 1))).
  assert (Hin : within (base + IPC_MESH_OFFSET) (base + IPC_MESH_OFFSET + 0x1A0) (win s) m')
    by (apply within_st; unfold a, mesh_node; [lia|change (Z.of_nat 8) with 8; lia]).
  destruct (mesh_change base s m' Hk (mem_ok_st _ _ _ _ Hm) Hin) as (K & C & R).
  split; [exact K|]. split; [exact Ha|]. split; [exact C|]. split; [exact R|]. by split.
Qed.

(** Block 14083's bit is bit 3 of the table's first byte, and of its magic. *)
Definition mesh_block : Z := 14083.

Lemma mesh_block_bit base h :
  heap_at base h -> mem_ok (shm h) ->
  blk_free h mesh_block
  = negb (Z.testbit (ld32 (shm h) (base + IPC_MESH_OFFSET + MT_magic) mod 0x100) 3).
Proof.
  intros [Hok Hc] Hm. unfold blk_free. rewrite bm_free_bit. unfold bm_bit.
  change (mesh_block <? HEAP_MAX_BLOCKS) with true. change (mesh_block / 8) with 1760.
  change (mesh_block mod 8) with 3. cbn [andb]. rewrite Hc, <- ldb_ld32 by done. do 3 f_equal. lia.
Qed.

(** [ipc_mesh_init] on a booted kernel whose heap has block 14083 free joins
    the mesh as node 0 and leaves both rings as they were, but the table it
    writes lies over the heap's allocation bitmap: the block is marked used,
    though no blob owns it and the free count still counts it, so the heap's
    invariant is lost and the block is never given out again. *)
Theorem mesh_init_breaks_heap (base : Z) (s : ipc) :
  ipc_ok base s -> heap_at base (ip_heap s) -> blk_free (ip_heap s) mesh_block = true ->
  let s' := ipc_mesh_init s in
  ipc_ok base s' /\ local_node_id s' = 0 /\ cmds base s' = cmds base s /\ rsps base s' = rsps base s /\
  ctl_field (ip_heap s') HC_free_blocks = ctl_field (ip_heap s) HC_free_blocks /\
  blk_free (ip_heap s') mesh_block = false /\
  (forall e, live (ip_heap s') e <-> live (ip_heap s) e) /\
  (forall e, live (ip_heap s') e -> ~ covers e mesh_block) /\
  ~ heap_ok (ip_heap s').
Proof.
  intros Hk [Hh Hc] Hf s'. pose proof (io_win _ _ Hk) as Hw. pose proof (wn_mem _ _ Hw) as Hm.
  pose proof (io_base _ _ Hk) as Hb. set (t := base + IPC_MESH_OFFSET).
  rewrite (mesh_block_bit base) in Hf by done. fold t in Hf.
  assert (Hne : ld32 (win s) (t + MT_magic) <> MESH_MAGIC).
  { intros E. change (shm (ip_heap s)) with (win s) in Hf. by rewrite E in Hf. }
  destruct (init_mesh_fresh t (win s) Hne) as [Hmag Hoff].
  set (m' := claim_node t 0 (init_mesh t (win s))).
  assert (Es : s' = (on_win (fun _ => m') s){{ mesh_table := t; local_node_id := 0 }}).
  { subst s'. unfold ipc_mesh_init. rewrite (io_shmem _ _ Hk). rewrite (proj2 (Z.eqb_neq base 0)) by lia.
    cbv zeta. fold t. change (win (on_win ?f ?x)) with (f (win x)).
    change (win s{{ mesh_table := t }}) with (win s).
    rewrite (find_range_intro 0 MES_MAX_NODES _ 0); [reflexivity|lia|by apply Z.eqb_eq|lia]. }
  assert (Hm' : mem_ok m') by (by apply claim_node_ok, init_mesh_ok).
  assert (Hin : within t (t + 0x1A0) (win s) m').
  { etransitivity; [apply init_mesh_within|by apply claim_node_within]. }
  assert (Eh : ip_heap s' = (ip_heap s){{ shm := m' }}) by (rewrite Es; reflexivity).
  assert (Hmag' : ld32 m' (t + MT_magic) = MESH_MAGIC).
  { rewrite <- Hmag. unfold m', claim_node, mesh_node. by rewrite !ld_st_ne by lia. }
  assert (Hused : blk_free (ip_heap s') mesh_block = false).
  { rewrite Eh. unfold blk_free. rewrite bm_free_bit. unfold bm_bit.
    change (mesh_block <? HEAP_MAX_BLOCKS) with true. change (mesh_block / 8) with 1760.
    change (mesh_block mod 8) with 3. cbn [andb]. change (heap_ctl (ip_heap s){{ shm := m' }}) with (heap_ctl (ip_heap s)).
    rewrite Hc. replace (base + IPC_HEAP_CTL_OFFSET + HC_bitmap + 1760) with (t + MT_magic) by lia.
    change (shm (ip_heap s){{ shm := m' }}) with m'. by rewrite ldb_ld32, Hmag' by done. }
  destruct (window_has_other base (win s) m' t (t + 0x1A0) (cmds base s) (rsps base s))
    as (Hw' & E1 & E2); [by split|done|done|lia|].
  assert (Hlive : forall e, live (ip_heap s') e <-> live (ip_heap s) e) by (rewrite Eh; done).
  assert (Hcov : forall e, live (ip_heap s') e -> ~ covers e mesh_block).
  { intros e (i & Hi & <-)%Hlive Hcv. rewrite <- (mesh_block_bit base) in Hf by done.
    by rewrite (e_used _ _ (ok_entry _ Hh i Hi) _ Hcv) in Hf. }
  split; [rewrite Es; by split; try apply Hk|]. split; [by rewrite Es|]. split; [by rewrite Es|].
  split; [by rewrite Es|]. split.
  { rewrite Eh. unfold ctl_field. change (heap_ctl (ip_heap s){{ shm := m' }}) with (heap_ctl (ip_heap s)).
    rewrite Hc. eapply (within_ld 4); [exact Hin|cbn; lia]. }
  split; [done|]. split; [done|]. split; [done|]. intros Hok'.
  destruct (ok_used _ Hok' mesh_block) as (i & Hi & Hcv); [unfold mesh_block; lia|done|].
  apply (Hcov (ent (ip_heap s') i)); [by exists i|done].
Qed.

Lemma mesh_init_breaks_heap_witness :
  let s := ipc_init 0xC0101000 0xE0000000 10 demo_ipc in
  heap_ok (ip_heap s) /\ ~ heap_ok (ip_heap (ipc_mesh_init s)).
Proof.
  cbv zeta. destruct (ipc_init_ok 0xC0101000 0xE0000000 10 demo_ipc) as (Hk & Hh & _);
    [lia|exact mem_ok_empty|reflexivity|exact demo_clock_ok|].
  split; [exact (proj1 Hh)|].
  apply (mesh_init_breaks_heap 0xE0000000 _ Hk Hh).
  rewrite (init_heap_eq 0xC0101000 0xE0000000 10 demo_ipc) by lia.
  apply init4_free; [lia|exact mem_ok_empty|reflexivity|unfold mesh_block; lia].
Defined.
