(* ===== verification/Bridge.v ===== *)
(** tools/bridge/bridge.c, the Linux side of the shared window, and the system
    the kernel and the bridge form.

    The bridge consumes commands and produces responses; its statics and the
    local of its polling loop are the record [bridge], the window is the memory
    it shares with the kernel (both name its bytes by the kernel's addresses).
    [clock_gettime] is the machine's: a sequence of (seconds, nanoseconds).

    [system] joins the two, booted as kmain boots it: [ipc_init], then
    [ipc_mesh_init], whose table lies over the heap's bitmap.  An [action] is one
    whole call of either side; any interleaving of actions is a list.
    [chan_step] is the specification: two bounded queues that lose nothing but the
    responses to a full queue.  The heap's [heap_ok] does not survive the boot;
    what does is [SharedHeap.heap_wired], and that is enough for the heap's calls
    to return and to stay away from the rings. *)

From S2P Require Import Prelude Mem IpcProto KTime Bitmap SharedHeap Interrupts Ring Ipc.

Record bridge := Bridge {
  gettime : nat -> Z * Z;
  gettime_calls : nat;
  running : bool;
  shm_base : Z;
  b_cmd_ring : Z;
  b_rsp_ring : Z;
  b_doorbell : Z;
  packets_received : Z;
  packets_processed : Z;
  responses_sent : Z;
  doorbell_rings : Z;
  errors : Z;
  last_doorbell : Z
}.
#[export] Instance bridge_eta : Eta bridge := fun b =>
  Bridge (gettime b) (gettime_calls b) (running b) (shm_base b) (b_cmd_ring b) (b_rsp_ring b)
    (b_doorbell b) (packets_received b) (packets_processed b) (responses_sent b)
    (doorbell_rings b) (errors b) (last_doorbell b).

(** The statics at load time. *)
Definition bridge_bss (t : nat -> Z * Z) : bridge := Bridge t 0 true 0 0 0 0 0 0 0 0 0 0.

Definition signal_handler (b : bridge) : bridge := b{{ running := false }}.

Definition bridge_time_usec (b : bridge) : Z * bridge :=
  let '(sec, nsec) := gettime b (gettime_calls b) in
  (u64 (u64 (u64 sec * 1000000) + u64 (nsec / 1000)), b{{ gettime_calls ::= S }}).

(** [open], [ftruncate] and [mmap] are the system's; [mapped] is the address
    they yield, [None] when one of them fails. *)
Definition init_shm_file (mapped : option Z) (b : bridge) : Z * bridge :=
  match mapped with
  | None => (-1, b)
  | Some base =>
      (0, b{{ shm_base := base;
              b_cmd_ring := base + IPC_CMD_RING_OFFSET;
              b_rsp_ring := base + IPC_RSP_RING_OFFSET;
              b_doorbell := base + IPC_DOORBELL_OFFSET }})
  end.
Definition init_shm_devmem : option Z -> bridge -> Z * bridge := init_shm_file.

Definition bridge_ring_rsp_doorbell (head : Z) (b : bridge) (m : mem) : bridge * mem :=
  let db := b_doorbell b in
  if (db =? 0) || negb (ld32 m (db + DB_magic) =? IPC_DOORBELL_MAGIC) then (b, m)
  else (b{{ doorbell_rings ::= fun n => u64 (n + 1) }}, ring_rsp_doorbell db head m).

(** [None] is the fault of [% rsp_ring->size]. *)
Definition send_response (status orig_cmd result : Z) (b : bridge) (m : mem)
  : option (Z * bridge * mem) :=
  let r := b_rsp_ring b in
  if (r =? 0) || negb (ring_magic m r =? IPC_RSP_MAGIC) then Some (-1, b, m)
  else if ring_size m r =? 0 then None
  else
    let head := ring_head m r in
    let next_head := ring_next m r head in
    if next_head =? ring_tail m r then Some (-1, b, m)
    else
      let '(now, b) := bridge_time_usec b in
      let m := write_response (ring_slot ENTRY_SIZE r head) (Response status orig_cmd result now) m in
      let m := st32 m (r + RING_head) next_head in
      let b := b{{ responses_sent ::= fun n => u64 (n + 1) }} in
      let '(b, m) := bridge_ring_rsp_doorbell next_head b m in
      Some (0, b, m).

(** The [switch] of [process_packet]: status, result, and whether it is an error. *)
Definition reply (cmd payload : Z) : Z * Z * bool :=
  if cmd =? CMD_PING then (RSP_OK, 0x504F4E47, false)
  else if cmd =? CMD_PRINT then (RSP_OK, payload, false)
  else if cmd =? CMD_RUN_MODEL then (RSP_OK, 0x12345678, false)
  else (RSP_ERROR, cmd, true).

Definition process_packet (pkt : packet) (b : bridge) (m : mem) : option (bridge * mem) :=
  let b := b{{ packets_received ::= fun n => u64 (n + 1) }} in
  let '(status, result, err) := reply (pk_cmd pkt) (pk_payload pkt) in
  let b := if err then b{{ errors ::= fun n => u64 (n + 1) }} else b in
  let b := b{{ packets_processed ::= fun n => u64 (n + 1) }} in
  '(_, b, m) ← send_response status (pk_cmd pkt) result b m;
  Some (b, m).

(** The fast path: a new doorbell value clears the pending flag. *)
Definition check_doorbell (b : bridge) (m : mem) : bridge * mem :=
  let db := b_doorbell b in
  if (db =? 0) || negb (ld32 m (db + DB_magic) =? IPC_DOORBELL_MAGIC) then (b, m)
  else
    let db_val := ld32 m (db + DB_cmd_doorbell) in
    if db_val =? last_doorbell b then (b, m)
    else
      let a := db + DB_cmd_flags in
      (b{{ last_doorbell := db_val }}, st32 m a (Z.land (ld32 m a) (Z.lnot DOORBELL_FLAG_PENDING))).

(** One turn of [poll_loop]; the packet served, if any. *)
Definition poll_turn (b : bridge) (m : mem) : option (option packet * bridge * mem) :=
  let r := b_cmd_ring b in
  if negb (ring_magic m r =? IPC_MAGIC) then Some (None, b, m)
  else
    let '(b, m) := check_doorbell b m in
    let head := ring_head m r in
    let tail := ring_tail m r in
    if head =? tail then Some (None, b, m)
    else
      let local_pkt := read_packet m (ring_slot ENTRY_SIZE r tail) in
      '(b, m) ← process_packet local_pkt b m;
      if ring_size m r =? 0 then None
      else Some (Some local_pkt, b, st32 m (r + RING_tail) (ring_next m r tail)).

(** [poll_loop] while [running], [n] turns of it at most; the packets served. *)
Fixpoint poll_loop (n : nat) (b : bridge) (m : mem) : option (list packet * bridge * mem) :=
  match n with
  | O => Some ([], b, m)
  | S n =>
      if running b then
        '(p, b, m) ← poll_turn b m;
        '(l, b, m) ← poll_loop n b m;
        Some (option_list p ++ l, b, m)
      else Some ([], b, m)
  end.

(** ** The system *)

Record system := System { sy_kernel : ipc; sy_bridge : bridge }.

(** One call of the kernel, or, for [Serve], one turn of the bridge's loop. *)
Inductive action :=
  | Send (cmd payload flags : Z)
  | Poll
  | Irq
  | EnableIrq (enable : Z)
  | Consume
  | MeshUpdate
  | Alloc (size type : Z)
  | Free (blob_id : Z)
  | GetBlob (blob_id : Z)
  | Serve.

(** Both sides serve commands: the bridge, and the kernel's mock consumer. *)
Inductive server := Linux | Kernel.

(** What an action shows. *)
Inductive event :=
  | Sent (p : packet)
  | Refused
  | Served (w : server) (p : packet)
  | Got (l : list response)
  | Allocated (blob_id : Z)
  | Found (blob : Z)
  | Idle
  | Quiet.

Definition served (w : server) (p : option packet) : event :=
  match p with Some p => Served w p | None => Idle end.

Definition act (a : action) (s : system) : option (event * system) :=
  let k := sy_kernel s in
  let b := sy_bridge s in
  match a with
  | Send cmd payload flags =>
      let p := Packet cmd flags payload (fst (time_usec (ip_clock k))) in
      '(r, k) ← ipc_send_flags cmd payload flags k;
      Some (if r =? 0 then Sent p else Refused, System k b)
  | Poll =>
      '(r, k) ← ipc_poll_response (fun _ m => m) k;
      Some (Got (option_list r), System k b)
  | Irq =>
      '(l, k) ← ipc_irq_handler (fun _ m => m) 1023 k;
      Some (Got l, System k b)
  | EnableIrq enable => Some (Quiet, System (ipc_enable_irq enable k) b)
  | Consume =>
      let p := oldest k in
      k ← ipc_consume_one k;
      Some (served Kernel p, System k b)
  | MeshUpdate => Some (Quiet, System (ipc_mesh_update k) b)
  | Alloc size type =>
      let '(id, h) := heap_alloc size type (ip_heap k) in
      Some (Allocated id, System k{{ ip_heap := h }} b)
  | Free blob_id => Some (Quiet, System k{{ ip_heap ::= heap_free blob_id }} b)
  | GetBlob blob_id =>
      '(blob, h) ← heap_get_blob blob_id (ip_heap k);
      Some (Found blob, System k{{ ip_heap := h }} b)
  | Serve =>
      '(p, b, m) ← poll_turn b (win k);
      Some (served Linux p, System (on_win (fun _ => m) k) b)
  end.

Fixpoint run (l : list action) (s : system) : option (list event * system) :=
  match l with
  | [] => Some ([], s)
  | a :: l =>
      '(e, s) ← act a s;
      '(es, s) ← run l s;
      Some (e :: es, s)
  end.

(** ** The specification *)

(** What a side answers to a command; the time is its own. *)
Definition answers (c : server * packet) (r : response) : Prop :=
  let '(w, p) := c in
  let '(status, result) :=
    match w with
    | Linux => fst (reply (pk_cmd p) (pk_payload p))
    | Kernel => (RSP_OK, MOCK_RESULT)
    end in
  rs_status r = status /\ rs_orig_cmd r = pk_cmd p /\ rs_result r = result.

Definition CHAN_MAX : Z := IPC_RING_SIZE - 1.

Definition chan : Type := list packet * list response.

(** Two queues.  A command is refused when 1023 are pending; the answer to a
    command served while 1023 responses are pending is lost; nothing else is. *)
Inductive chan_step : chan -> event -> chan -> Prop :=
  | chan_send cq rq p : zlen cq < CHAN_MAX -> chan_step (cq, rq) (Sent p) (cq ++ [p], rq)
  | chan_refuse cq rq : zlen cq = CHAN_MAX -> chan_step (cq, rq) Refused (cq, rq)
  | chan_serve w p cq rq r :
      zlen rq < CHAN_MAX -> answers (w, p) r -> chan_step (p :: cq, rq) (Served w p) (cq, rq ++ [r])
  | chan_drop w p cq rq : zlen rq = CHAN_MAX -> chan_step (p :: cq, rq) (Served w p) (cq, rq)
  | chan_idle rq : chan_step ([], rq) Idle ([], rq)
  | chan_got cq l rq : (l = [] -> rq = []) -> chan_step (cq, l ++ rq) (Got l) (cq, rq)
  | chan_alloc c id : chan_step c (Allocated id) c
  | chan_found c blob : chan_step c (Found blob) c
  | chan_quiet c : chan_step c Quiet c.

Inductive chan_run : chan -> list event -> chan -> Prop :=
  | chan_nil c : chan_run c [] c
  | chan_cons c e c' l c'' : chan_step c e c' -> chan_run c' l c'' -> chan_run c (e :: l) c''.

(** ** The bridge's turn *)

Record bridge_ok (base : Z) (b : bridge) : Prop := {
  br_cmd : b_cmd_ring b = base + IPC_CMD_RING_OFFSET;
  br_rsp : b_rsp_ring b = base + IPC_RSP_RING_OFFSET;
  br_db : b_doorbell b = base + IPC_DOORBELL_OFFSET
}.

Lemma reply_fits cmd payload :
  is_u16 cmd -> is_u32 payload ->
  let '(status, result, _) := reply cmd payload in is_u16 status /\ is_u32 result.
Proof.
  intros Hc Hp. unfold reply, is_u16, is_u32 in *.
  destruct (_ =? CMD_PING); [lia|]. destruct (_ =? CMD_PRINT); [lia|].
  destruct (_ =? CMD_RUN_MODEL); [lia|]. lia.
Qed.

Section Turn.
Context (base : Z) (Hbase : 0 < base).

Lemma send_response_spec status orig_cmd result b m :
  bridge_ok base b -> window_ok base m -> is_u16 status -> is_u16 orig_cmd -> is_u32 result ->
  exists r b' m' rq', send_response status orig_cmd result b m = Some (r, b', m') /\
    bridge_ok base b' /\ window_step base m m' (cmd_queue base m) rq' /\
    within (base + IPC_RSP_RING_OFFSET) (base + IPC_HEAP_CTL_OFFSET) m m' /\
    ((zlen (rsp_queue base m) = CHAN_MAX /\ rq' = rsp_queue base m) \/
     (zlen (rsp_queue base m) < CHAN_MAX /\
      exists t, rq' = rsp_queue base m ++ [Response status orig_cmd result t])).
Proof using Hbase.
  intros Hb Hw Hs Ho Hr. pose proof Hb as [E1 E2 E3]. unfold send_response.
  rewrite E2, (wn_rsp_magic _ _ Hw), (ring_size_nonzero _ _ (wn_rsp _ _ Hw)), (rsp_full base m Hw).
  rewrite (proj2 (Z.eqb_neq _ 0)), Z.eqb_refl by lia. cbn [negb orb].
  destruct (Z.eqb_spec (zlen (rsp_queue base m)) 1023) as [Efull|Efull].
  { exists (-1), b, m, (rsp_queue base m). split; [done|]. split; [done|]. split; [by split|]. split; [done|]. by left. }
  assert (Hlt : zlen (rsp_queue base m) < CHAN_MAX).
  { unfold CHAN_MAX, zlen, rsp_queue in *. rewrite length_ring_queue in *.
    pose proof (ring_count_range IPC_RING_SIZE (base + IPC_RSP_RING_OFFSET) ltac:(lia) m). lia. }
  destruct (bridge_time_usec b) as [now b1] eqn:Et.
  assert (Hnow : is_u64 now /\ bridge_ok base b1).
  { unfold bridge_time_usec in Et. destruct (gettime b _). injection Et as <- <-.
    split; [apply is_u64_u64|by split]. }
  set (rsp := base + IPC_RSP_RING_OFFSET).
  set (r := Response status orig_cmd result now).
  assert (Hnf : (ring_next m rsp (ring_head m rsp) =? ring_tail m rsp) = false).
  { unfold rsp. rewrite (rsp_full base m Hw). by apply Z.eqb_neq. }
  pose proof (window_push_rsp base m Hw r (conj Hs (conj Ho (conj Hr (proj1 Hnow)))) Hnf) as Hpush.
  fold rsp in Hpush. unfold publish in Hpush.
  set (m1 := st32 (write_response _ _ _) _ _) in *.
  destruct Hnow as [Hnow [F1 F2 F3]]. unfold bridge_ring_rsp_doorbell.
  change (b_doorbell b1{{ responses_sent ::= fun n => u64 (n + 1) }}) with (b_doorbell b1).
  rewrite F3, (wn_db_magic _ _ (proj1 (proj1 Hpush))), (proj2 (Z.eqb_neq _ 0)), Z.eqb_refl by lia.
  cbn [negb orb]. eexists _, _, _, (rsp_queue base m ++ [r]). split; [reflexivity|].
  split; [by split|]. split; [|split; [|right; split; [done|by exists now]]].
  - destruct Hpush as [(Hw1 & Ec & Er) Hin]. rewrite <- Ec, <- Er. eapply window_step_trans.
    { split; [split; [exact Hw1|done]|exact Hin]. }
    apply window_doorbell; [done|apply ring_rsp_doorbell_within|apply ring_rsp_doorbell_ok, Hw1].
  - transitivity m1.
    + pose proof (slot_range rsp (ring_head m rsp) (rk_head _ _ _ (wn_rsp _ _ Hw))).
      apply within_st_r; [lia|change (Z.of_nat 4) with 4; lia|].
      eapply within_mono; [| |apply write_response_within]; lia.
    + eapply within_mono; [| |apply ring_rsp_doorbell_within]; lia.
Qed.

Lemma process_packet_spec p b m :
  bridge_ok base b -> window_ok base m -> is_u16 (pk_cmd p) -> is_u32 (pk_payload p) ->
  exists b' m' rq', process_packet p b m = Some (b', m') /\
    bridge_ok base b' /\ window_step base m m' (cmd_queue base m) rq' /\
    within (base + IPC_RSP_RING_OFFSET) (base + IPC_HEAP_CTL_OFFSET) m m' /\
    ((zlen (rsp_queue base m) = CHAN_MAX /\ rq' = rsp_queue base m) \/
     (zlen (rsp_queue base m) < CHAN_MAX /\ exists r, answers (Linux, p) r /\ rq' = rsp_queue base m ++ [r])).
Proof using Hbase.
  intros Hb Hw Hc Hp. unfold process_packet, answers. pose proof (reply_fits _ _ Hc Hp) as Hfit.
  destruct (reply (pk_cmd p) (pk_payload p)) as [[status result] err] eqn:Er.
  destruct Hfit as [Hs Hr].
  match goal with |- context [send_response _ _ _ ?x m] => set (b1 := x) end.
  assert (Hb1 : bridge_ok base b1) by (unfold b1; destruct Hb, err; by split).
  destruct (send_response_spec status (pk_cmd p) result b1 m Hb1 Hw Hs Hc Hr)
    as (x & b' & m' & rq' & E & Hb' & Hst & Hin & Hcase).
  exists b', m', rq'. rewrite E. split; [done|]. split; [done|]. split; [done|]. split; [done|].
  destruct Hcase as [?|[Hlt [t ->]]]; [by left|right]. split; [done|].
  by exists (Response status (pk_cmd p) result t).
Qed.

Lemma check_doorbell_spec b m :
  bridge_ok base b -> window_ok base m ->
  let '(b', m') := check_doorbell b m in
  bridge_ok base b' /\ window_step base m m' (cmd_queue base m) (rsp_queue base m).
Proof using Hbase.
  intros Hb Hw. pose proof Hb as [E1 E2 E3]. unfold check_doorbell.
  assert (H0 : window_step base m m (cmd_queue base m) (rsp_queue base m)) by by split.
  destruct (_ || _); [done|]. destruct (_ =? _); [done|]. split; [by split|]. rewrite E3.
  apply window_doorbell; [done| |by apply mem_ok_st, (wn_mem _ _ Hw)].
  apply within_st; [lia|change (Z.of_nat 4) with 4; lia].
Qed.

Lemma read_packet_fits m a :
  mem_ok m -> is_u16 (pk_cmd (read_packet m a)) /\ is_u32 (pk_payload (read_packet m a)).
Proof.
  intros Hm. split; [exact (ld_range 2 m a Hm)|exact (ld_range 4 m (a + 4) Hm)].
Qed.

Lemma poll_turn_spec b m :
  bridge_ok base b -> window_ok base m ->
  exists p b' m' c', poll_turn b m = Some (p, b', m') /\ bridge_ok base b' /\
    window_step base m m' (fst c') (snd c') /\
    chan_step (cmd_queue base m, rsp_queue base m)
      (served Linux p) c'.
Proof using Hbase.
  intros Hb Hw. unfold poll_turn. pose proof (br_cmd _ _ Hb) as E1.
  rewrite E1, (wn_cmd_magic _ _ Hw), Z.eqb_refl. cbn [negb].
  pose proof (check_doorbell_spec b m Hb Hw) as Hck.
  destruct (check_doorbell b m) as [b1 m1]. destruct Hck as [Hb1 Hst1].
  pose proof Hst1 as [(Hw1 & Ec1 & Er1) _]. set (cmd := base + IPC_CMD_RING_OFFSET) in *.
  destruct (Z.eqb_spec (ring_head m1 cmd) (ring_tail m1 cmd)) as [Ee|Ee].
  - assert (Eq : cmd_queue base m1 = [])
      by (by apply (ring_empty ENTRY_SIZE IPC_RING_SIZE cmd ltac:(lia) read_packet m1 (wn_cmd _ _ Hw1))).
    eexists None, b1, m1, (cmd_queue base m, rsp_queue base m). split; [done|]. split; [done|].
    split; [exact Hst1|]. rewrite <- Ec1, Eq. apply chan_idle.
  - set (p := read_packet m1 _). destruct (read_packet_fits m1 (ring_slot ENTRY_SIZE cmd (ring_tail m1 cmd))
      (wn_mem _ _ Hw1)) as [Hc Hp]. fold p in Hc, Hp.
    destruct (process_packet_spec p b1 m1 Hb1 Hw1 Hc Hp) as (b2 & m2 & rq & E2 & Hb2 & Hst2 & Hin2 & Hcase).
    rewrite E2. cbn [mbind option_bind]. pose proof Hst2 as [(Hw2 & Ec2 & Er2) _].
    rewrite (ring_size_nonzero cmd _ (wn_cmd _ _ Hw2)).
    assert (Ef : forall n a, a + Z.of_nat n <= base + IPC_RSP_RING_OFFSET -> ld n m2 a = ld n m1 a)
      by (intros; eapply within_ld; [exact Hin2|lia]).
    pose proof (slot_range cmd (ring_tail m1 cmd) (rk_tail _ _ _ (wn_cmd _ _ Hw1))) as Hslot.
    assert (Et : ring_tail m2 cmd = ring_tail m1 cmd) by (apply Ef; cbn; lia).
    assert (Eh : ring_head m2 cmd = ring_head m1 cmd) by (apply Ef; cbn; lia).
    assert (Ep : read_packet m2 (ring_slot ENTRY_SIZE cmd (ring_tail m2 cmd)) = p).
    { rewrite Et. unfold p, read_packet. f_equal; apply Ef; cbn in *; lia. }
    destruct (window_pop_cmd base m2 Hw2) as (q & Eq & Hst3); [fold cmd; congruence|].
    fold cmd in Eq, Hst3. rewrite Ep, Ec2, Ec1 in Eq. unfold consume in Hst3. rewrite Et in Hst3.
    rewrite Er1 in Hcase. rewrite Er2 in Hst3.
    eexists (Some p), b2, _, (q, rq). split; [reflexivity|]. split; [done|]. split.
    + eapply window_step_trans; [exact Hst1|]. eapply window_step_trans; [exact Hst2|exact Hst3].
    + rewrite Eq. destruct Hcase as [[Hfull ->]|[Hlt (r & Hr & ->)]].
      * by apply chan_drop.
      * by apply chan_serve.
Qed.
End Turn.

(** ** Every interleaving *)

Record sys_ok (base : Z) (s : system) : Prop := {
  so_kernel : ipc_ok base (sy_kernel s);
  so_heap : heap_wired (ip_heap (sy_kernel s));
  so_ctl : heap_ctl (ip_heap (sy_kernel s)) = base + IPC_HEAP_CTL_OFFSET;
  so_mesh : mesh_at base (sy_kernel s);
  so_bridge : bridge_ok base (sy_bridge s)
}.

Definition abs (base : Z) (s : system) : chan :=
  (cmds base (sy_kernel s), rsps base (sy_kernel s)).

Definition action_ok (a : action) : Prop :=
  match a with
  | Send cmd payload flags => is_u16 cmd /\ is_u32 payload /\ is_u16 flags
  | Alloc size _ => 0 <= size /\ size + 96 < 0x100000000
  | _ => True
  end.

(** A call of the kernel that leaves the heap and the mesh alone. *)
Lemma sys_same base k k' b b' :
  sys_ok base (System k b) -> ipc_ok base k' -> same_heap base k k' -> bridge_ok base b' ->
  sys_ok base (System k' b').
Proof.
  intros [Hk Hw Hc Hm Hb] Hk' (E & W & M & N) Hb'. cbn [sy_kernel sy_bridge] in *.
  split; cbn [sy_kernel sy_bridge]; [done| | | |done].
  - rewrite E. eapply wired_elsewhere; [done|apply (io_win _ _ Hk')|exact W|].
    left. rewrite (wd_data _ Hw). lia.
  - by rewrite E.
  - unfold mesh_at. by rewrite M, N.
Qed.

(** A change of the heap alone. *)
Lemma heap_change base k b h :
  sys_ok base (System k b) ->
  heap_wired h /\ heap_ctl h = heap_ctl (ip_heap k) /\ heap_region (ip_heap k) (win k) (shm h) ->
  let k' := k{{ ip_heap := h }} in
  sys_ok base (System k' b) /\ cmds base k' = cmds base k /\ rsps base k' = rsps base k.
Proof.
  intros [Hk Hw Hc Hm Hb] (Hh & Ec & Hr) k'. cbn [sy_kernel sy_bridge] in *.
  destruct (window_has_other base (win k) (shm h) (heap_ctl (ip_heap k))
    (heap_data (ip_heap k) + IPC_HEAP_DATA_SIZE) (cmds base k) (rsps base k))
    as (Hwin & E1 & E2); [|exact Hr|apply (wd_mem _ Hh)|lia|].
  - split; [apply Hk|done].
  - split; [|done]. destruct Hk. split; cbn [sy_kernel sy_bridge]; [by split|done| |done|done].
    etransitivity; [exact Ec|exact Hc].
Qed.

Lemma cmds_bound base s : ipc_ok base s -> zlen (cmds base s) <= CHAN_MAX.
Proof.
  intros _. unfold CHAN_MAX, zlen, cmds, cmd_queue. rewrite length_ring_queue.
  pose proof (ring_count_range IPC_RING_SIZE (base + IPC_CMD_RING_OFFSET) ltac:(lia) (win s)). lia.
Qed.

Lemma rsps_bound base s : ipc_ok base s -> zlen (rsps base s) <= CHAN_MAX.
Proof.
  intros _. unfold CHAN_MAX, zlen, rsps, rsp_queue. rewrite length_ring_queue.
  pose proof (ring_count_range IPC_RING_SIZE (base + IPC_RSP_RING_OFFSET) ltac:(lia) (win s)). lia.
Qed.

(** One action is one step of the two queues: first the kernel's calls on the
    channels, then those on the mesh and the heap. *)
Definition steps (base : Z) (s : system) (r : option (event * system)) : Prop :=
  exists e s', r = Some (e, s') /\ sys_ok base s' /\ chan_step (abs base s) e (abs base s').

Lemma send_steps base s cmd payload flags :
  sys_ok base s -> action_ok (Send cmd payload flags) -> steps base s (act (Send cmd payload flags) s).
Proof.
  intros Hs (H1 & H2 & H3). destruct s as [k b]. cbn [act sy_kernel sy_bridge].
  pose proof (so_kernel _ _ Hs) as Hk. cbn [sy_kernel] in Hk.
  destruct (ipc_send_spec base k cmd payload flags Hk H1 H2 H3) as (r & k' & -> & Hk' & Hsame & Hcase).
  cbn [mbind option_bind]. eexists _, _. split; [reflexivity|].
  split; [by eapply sys_same; [exact Hs|exact Hk'|exact Hsame|apply Hs]|]. unfold abs. cbn [sy_kernel].
  pose proof (cmds_bound base k Hk). destruct Hcase as [(E & -> & ->)|(E & -> & -> & ->)].
  - by apply chan_refuse.
  - apply chan_send. unfold CHAN_MAX in *. lia.
Qed.

Lemma poll_steps base s : sys_ok base s -> steps base s (act Poll s).
Proof.
  intros Hs. destruct s as [k b]. cbn [act sy_kernel sy_bridge].
  destruct (ipc_poll_spec base k (so_kernel _ _ Hs)) as (r & k' & -> & Hk' & Hsame & E1 & E2 & E3).
  cbn [mbind option_bind]. eexists _, _. split; [reflexivity|].
  split; [by eapply sys_same; [exact Hs|exact Hk'|exact Hsame|apply Hs]|]. unfold abs. cbn [sy_kernel]. rewrite E1, E2.
  apply chan_got. destruct r; [done|]. intros _. rewrite (E3 eq_refl) in E2. by rewrite E2.
Qed.

Lemma irq_steps base s : sys_ok base s -> steps base s (act Irq s).
Proof.
  intros Hs. destruct s as [k b]. cbn [act sy_kernel sy_bridge].
  destruct (ipc_irq_spec base k (so_kernel _ _ Hs)) as (k' & -> & Hk' & Hsame & E1 & E2).
  cbn [mbind option_bind]. eexists _, _. split; [reflexivity|].
  split; [by eapply sys_same; [exact Hs|exact Hk'|exact Hsame|apply Hs]|]. unfold abs. cbn [sy_kernel]. rewrite E1, E2.
  rewrite <- (app_nil_r (rsps base k)) at 1. by apply chan_got.
Qed.

Lemma consume_steps base s : sys_ok base s -> steps base s (act Consume s).
Proof.
  intros Hs. destruct s as [k b]. cbn [act sy_kernel sy_bridge].
  pose proof (so_kernel _ _ Hs) as Hk. cbn [sy_kernel] in Hk. rewrite (oldest_head base k Hk).
  destruct (ipc_consume_spec base k Hk) as (k' & -> & Hk' & Hsame & E1 & E2).
  cbn [mbind option_bind]. eexists _, _. split; [reflexivity|].
  split; [by eapply sys_same; [exact Hs|exact Hk'|exact Hsame|apply Hs]|]. unfold abs. cbn [sy_kernel].
  pose proof (rsps_bound base k Hk) as Hb. rewrite E1, E2.
  destruct (cmds base k) as [|p q]; cbn [head tail served]; [rewrite app_nil_r; apply chan_idle|].
  destruct (Z.eqb_spec (zlen (rsps base k)) 1023) as [Ef|Ef].
  - rewrite app_nil_r. by apply chan_drop.
  - apply chan_serve; [unfold CHAN_MAX in *; lia|done].
Qed.

Lemma serve_steps base s : sys_ok base s -> steps base s (act Serve s).
Proof.
  intros Hs. destruct s as [k b]. cbn [act sy_kernel sy_bridge].
  pose proof (so_kernel _ _ Hs) as Hk. cbn [sy_kernel] in Hk.
  destruct (poll_turn_spec base (io_base _ _ Hk) b (win k) (so_bridge _ _ Hs) (io_win _ _ Hk))
    as (p & b' & m' & c' & -> & Hb' & Hst & Hc).
  cbn [mbind option_bind]. eexists _, _. split; [reflexivity|].
  destruct (ipc_ok_on_win base k (fun _ => m') _ _ Hk Hst) as (Hk' & Hsame & E1 & E2).
  split; [by eapply sys_same|]. unfold abs. cbn [sy_kernel]. rewrite E1, E2. by destruct c'.
Qed.

Lemma mesh_steps base s : sys_ok base s -> steps base s (act MeshUpdate s).
Proof.
  intros [Hk Hw Hc Hm Hb]. destruct s as [k b]. cbn [sy_kernel sy_bridge act] in *.
  destruct (ipc_mesh_update_spec base k Hk Hm) as (Hk' & Hm' & E1 & E2 & Eh & Hin).
  eexists _, _. split; [reflexivity|]. split; [|unfold abs; cbn [sy_kernel]; rewrite E1, E2; apply chan_quiet].
  split; cbn [sy_kernel sy_bridge]; [done| |by rewrite Eh|done|done].
  rewrite Eh. eapply wired_elsewhere; [done|apply (io_win _ _ Hk')|exact Hin|].
  left. rewrite (wd_data _ Hw). lia.
Qed.

(** One action is one step of the two queues. *)
Lemma act_refines base s a : sys_ok base s -> action_ok a -> steps base s (act a s).
Proof.
  intros Hs Ha. destruct a as [cmd payload flags| | |enable| | |size type|id|id|].
  - by apply send_steps.
  - by apply poll_steps.
  - by apply irq_steps.
  - destruct s as [k b]. destruct (ipc_enable_irq_spec base k enable (so_kernel _ _ Hs)) as (Hk' & Hsame & E1 & E2).
    eexists _, _. split; [reflexivity|].
    split; [by eapply sys_same; [exact Hs|exact Hk'|exact Hsame|apply Hs]|].
    unfold abs. cbn [sy_kernel]. rewrite E1, E2. apply chan_quiet.
  - by apply consume_steps.
  - by apply mesh_steps.
  - destruct s as [k b], Ha as [H0 H1]. cbn [act sy_kernel sy_bridge].
    pose proof (heap_alloc_wired size type _ (so_heap _ _ Hs) H0 H1) as Hr. cbn [sy_kernel] in Hr.
    destruct (heap_alloc size type (ip_heap k)) as [i h]. destruct (heap_change base k b h Hs Hr) as (Hs' & E1 & E2).
    eexists _, _. split; [reflexivity|]. split; [done|]. unfold abs. cbn [sy_kernel]. rewrite E1, E2. apply chan_alloc.
  - destruct s as [k b]. destruct (heap_change base k b _ Hs (heap_free_wired id _ (so_heap _ _ Hs))) as (Hs' & E1 & E2).
    eexists _, _. split; [reflexivity|]. split; [exact Hs'|]. unfold abs. cbn [sy_kernel] in *.
    change (chan_step (cmds base k, rsps base k) Quiet
      (cmds base k{{ ip_heap := heap_free id (ip_heap k) }}, rsps base k{{ ip_heap := heap_free id (ip_heap k) }})).
    rewrite E1, E2. apply chan_quiet.
  - destruct s as [k b]. cbn [act sy_kernel sy_bridge].
    destruct (heap_get_blob_wired id _ (so_heap _ _ Hs)) as (blob & h & E & Hw & Ec & Em). cbn [sy_kernel] in *.
    rewrite E. cbn [mbind option_bind].
    destruct (heap_change base k b h Hs) as (Hs' & E1 & E2).
    { split; [done|]. split; [done|]. unfold win. by rewrite Em. }
    eexists _, _. split; [reflexivity|]. split; [exact Hs'|]. unfold abs. cbn [sy_kernel]. rewrite E1, E2. apply chan_found.
  - by apply serve_steps.
Qed.

(** Whatever the interleaving, every call returns, the window stays well formed
    and what is observed is a run of the two queues. *)
Lemma run_refines base l s :
  sys_ok base s -> Forall action_ok l ->
  exists es s', run l s = Some (es, s') /\ sys_ok base s' /\ chan_run (abs base s) es (abs base s').
Proof.
  intros Hs Hl. revert s Hs. induction Hl as [|a l Ha Hl IH]; intros s Hs; cbn [run].
  - eexists _, _. split; [reflexivity|]. split; [done|]. constructor.
  - destruct (act_refines base s a Hs Ha) as (e & s1 & -> & Hs1 & Hstep). cbn [mbind option_bind].
    destruct (IH s1 Hs1) as (es & s' & -> & Hs' & Hrun). cbn [mbind option_bind].
    eexists _, _. split; [reflexivity|]. split; [done|]. by econstructor.
Qed.

(** ** What it means for the two sides *)

Definition sents (es : list event) : list packet :=
  es ≫= fun e => match e with Sent p => [p] | _ => [] end.
Definition serveds (es : list event) : list (server * packet) :=
  es ≫= fun e => match e with Served w p => [(w, p)] | _ => [] end.
Definition gots (es : list event) : list response :=
  es ≫= fun e => match e with Got l => l | _ => [] end.

(** What a run of the queues has done: the responses so far answer, in order,
    the commands [kept] of those served. *)
Record accounted (c0 c : chan) (es : list event) (kept : list (server * packet)) : Prop := {
  ac_cmds : fst c0 ++ sents es = (snd <$> serveds es) ++ fst c;
  ac_kept : kept `sublist_of` serveds es;
  ac_rsps : exists l, snd c0 ++ l = gots es ++ snd c /\ Forall2 answers kept l;
  ac_all : zlen (snd c0) + zlen (serveds es) <= CHAN_MAX -> kept = serveds es
}.

Lemma chan_run_accounted c0 es c : chan_run c0 es c -> exists kept, accounted c0 c es kept.
Proof.
  induction 1 as [c|c e c' l0 c'' Hstep Hrun (kept & [A1 A2 (l & A3 & A4) A5])].
  - exists []. split; cbn; try done.
    + by rewrite app_nil_r.
    + exists []. by rewrite app_nil_r.
  - destruct Hstep as [cq rq p Hlt|cq rq Hfull|w p cq rq r Hlt Ha|w p cq rq Hfull|rq|cq g rq Hg|c id|c blob|c];
      cbn [fst snd] in *; try (exists kept; split; cbn [sents serveds gots mbind list_bind fst snd app]; by eauto).
    + exists kept. split; try by eauto. change (cq ++ [p] ++ sents l0 = (snd <$> serveds l0) ++ fst c'').
      by rewrite <- A1, <- app_assoc.
    + exists ((w, p) :: kept). split; cbn [fst snd].
      * change (p :: (cq ++ sents l0) = p :: ((snd <$> serveds l0) ++ fst c'')). by rewrite <- A1.
      * by apply sublist_skip.
      * exists (r :: l). split; [|by constructor]. change (rq ++ [r] ++ l = gots l0 ++ snd c'').
        by rewrite <- A3, <- app_assoc.
      * change (serveds (Served w p :: l0)) with ((w, p) :: serveds l0). intros Hb. f_equal. apply A5.
        unfold zlen in *. rewrite length_app. cbn [length] in *. lia.
    + exists kept. split; cbn [fst snd].
      * change (p :: (cq ++ sents l0) = p :: ((snd <$> serveds l0) ++ fst c'')). by rewrite <- A1.
      * by apply sublist_cons.
      * by eauto.
      * change (serveds (Served w p :: l0)) with ((w, p) :: serveds l0). intros Hb.
        unfold zlen in *. cbn [length] in Hb. lia.
    + exists kept. split; cbn [fst snd]; [done|done| |].
      * exists l. change (gots (Got g :: l0)) with (g ++ gots l0). split; [|done].
        by rewrite <- !app_assoc, A3.
      * intros Hb. apply A5. change (serveds (Got g :: l0)) with (serveds l0) in Hb.
        unfold zlen in *. rewrite length_app in Hb. lia.
Qed.

Lemma chan_run_bounds c0 es c :
  chan_run c0 es c -> zlen (fst c0) <= CHAN_MAX -> zlen (snd c0) <= CHAN_MAX ->
  zlen (fst c) <= CHAN_MAX /\ zlen (snd c) <= CHAN_MAX.
Proof.
  induction 1 as [c|c e c' es c'' Hstep Hrun IH]; [done|]. intros H1 H2.
  apply IH; destruct Hstep; cbn [fst snd] in *; unfold zlen in *; rewrite ?length_app in *;
    cbn [length] in *; lia.
Qed.

(** The kernel booted on a window as kmain does it, and the bridge attached to
    it. *)
Definition boot (handler base irq : Z) (k : ipc) (b : bridge) : system :=
  System (ipc_mesh_init (ipc_init handler base irq k)) (snd (init_shm_file (Some base) b)).

Lemma boot_ok handler base irq k b :
  0 < base -> mem_ok (win k) -> zlen (blob_table (ip_heap k)) = MAX_BLOBS -> clock_ok (ip_clock k) ->
  region_sane base (win k) -> local_node_id k < MES_MAX_NODES ->
  sys_ok base (boot handler base irq k b) /\ abs base (boot handler base irq k b) = ([], []).
Proof.
  intros Hb Hm Hl Hc Hs Hn. destruct (ipc_init_ok handler base irq k Hb Hm Hl Hc) as (Hk & _ & E1 & E2).
  destruct (ipc_init_wired handler base irq k Hb Hm Hl Hs) as [Hw Ec].
  assert (Hn' : local_node_id (ipc_init handler base irq k) < MES_MAX_NODES) by (by rewrite ipc_init_node).
  destruct (ipc_mesh_init_spec base _ Hk Hn') as (Hk' & Hm' & F1 & F2 & Eh & Hin).
  split; [|unfold abs; cbn [boot sy_kernel]; by rewrite F1, F2, E1, E2].
  split; cbn [boot sy_kernel sy_bridge]; [done| |by rewrite Eh|done|by split].
  rewrite Eh. eapply wired_elsewhere; [done|apply (io_win _ _ Hk')|exact Hin|].
  left. rewrite (wd_data _ Hw). lia.
Qed.

(** C1: end to end, from the boot of kmain ([ipc_init], then [ipc_mesh_init]),
    for every interleaving of whole calls: [ipc_send_flags], [ipc_poll_response],
    [ipc_irq_handler], [ipc_enable_irq], [ipc_consume_one], [ipc_mesh_update],
    [heap_alloc] of less than 2^32 - 96 bytes, [heap_free], [heap_get_blob], and
    turns of the bridge's loop.  Every call returns.  What is observed is a run of
    two queues of 1023: the commands accepted are exactly those served, by the
    bridge or the mock consumer, followed by those still in the ring, in order;
    the responses delivered and those still in the ring are, in order, the
    servers' answers, none lost while at most 1023 were served.  Of the heap,
    whose invariant the mesh's table breaks at boot, the pointers, the bound on
    its table and the end of its scan are kept.  At boot the counter's clock is sane,
    the kernel's node is one of the mesh's eight, and no block of the heap region
    already starts with a header that would make the scan wrap. *)
Theorem ipc_exchange (handler base irq : Z) (k : ipc) (b : bridge) (l : list action) :
  0 < base -> mem_ok (win k) -> zlen (blob_table (ip_heap k)) = MAX_BLOBS -> clock_ok (ip_clock k) ->
  region_sane base (win k) -> local_node_id k < MES_MAX_NODES ->
  Forall action_ok l ->
  exists es s' kept, run l (boot handler base irq k b) = Some (es, s') /\
    let k' := sy_kernel s' in
    chan_run ([], []) es (cmds base k', rsps base k') /\
    sents es = (snd <$> serveds es) ++ cmds base k' /\
    kept `sublist_of` serveds es /\ Forall2 answers kept (gots es ++ rsps base k') /\
    (zlen (serveds es) <= CHAN_MAX -> kept = serveds es) /\
    zlen (cmds base k') <= CHAN_MAX /\ zlen (rsps base k') <= CHAN_MAX /\
    heap_wired (ip_heap k').
Proof.
  intros Hb Hm Hl Hc Hs Hn Hok. destruct (boot_ok handler base irq k b Hb Hm Hl Hc Hs Hn) as [Hsys Ea].
  destruct (run_refines base l _ Hsys Hok) as (es & s' & E & Hs' & Hr). rewrite Ea in Hr.
  destruct (chan_run_accounted _ _ _ Hr) as (kept & [A1 A2 (r & A3 & A4) A5]).
  exists es, s', kept. split; [exact E|]. split; [exact Hr|]. cbn [fst snd abs app] in *.
  split; [done|]. split; [done|]. split; [by rewrite <- A3|]. split; [intros H; by apply A5|].
  split; [apply cmds_bound, Hs'|]. split; [apply rsps_bound, Hs'|apply Hs'].
Qed.

Definition demo_bridge : bridge := bridge_bss (fun i => (Z.of_nat i, 500)).
Definition demo_system : system := boot 0xC0101000 0xE0000000 10 demo_ipc demo_bridge.
Definition demo_actions : list action :=
  [Send CMD_PING 0 0; Send CMD_RUN_MODEL 7 0; Serve; Alloc 100 BLOB_TYPE_RAW; MeshUpdate; GetBlob 1; Poll; Consume;
   Send 4 1 0; Serve].

Lemma demo_actions_ok : Forall action_ok demo_actions.
Proof. unfold demo_actions. repeat constructor; cbn; unfold is_u8, is_u16, is_u32; lia. Qed.

Lemma demo_sane : region_sane 0xE0000000 (win demo_ipc).
Proof.
  intros off _ _ Hm. unfold blob_magic in Hm. cbn [shm] in Hm.
  assert (E : forall a, ld32 (win demo_ipc) a = 0) by (intros; unfold ld, ldb, win; cbn; by rewrite !lookup_empty).
  by rewrite E in Hm.
Qed.

Lemma ipc_exchange_witness :
  exists es s' kept, run demo_actions demo_system = Some (es, s') /\
    sents es = (snd <$> serveds es) ++ cmds 0xE0000000 (sy_kernel s') /\
    Forall2 answers kept (gots es ++ rsps 0xE0000000 (sy_kernel s')) /\ heap_wired (ip_heap (sy_kernel s')).
Proof.
  destruct (ipc_exchange 0xC0101000 0xE0000000 10 demo_ipc demo_bridge demo_actions)
    as (es & s' & kept & E & _ & H1 & H2 & H3 & H4 & _ & _ & H5);
    [lia|exact mem_ok_empty|reflexivity|exact demo_clock_ok|exact demo_sane|cbn; lia|exact demo_actions_ok|].
  exists es, s', kept. split; [exact E|]. split; [exact H1|]. split; [exact H3|exact H5].
Defined.
