(* ===== verification/Kheap.v ===== *)
(** kernel/mm/kheap.c: the kernel heap (the x86_64 layout: 48-byte headers).

    Blocks are chained by headers in memory; the model walks the same headers,
    so a corrupt chain is a state like any other and the walks take fuel ([None]
    when it runs out).  [kheap_ok] says the chain is a list of adjacent blocks
    that covers the heap with no two free neighbours; under it the fuel given is
    enough and every operation acts on that list as the specifications say. *)

From S2P Require Import Prelude Mem.

Abbreviation HEAP_MAGIC := 0xC0FFEE42.
Abbreviation HDR := 48.               (* sizeof(block_header_t) *)
Abbreviation BH_magic := 0.
Abbreviation BH_is_free := 4.
Abbreviation BH_size := 8.
Abbreviation BH_next := 16.
Abbreviation BH_prev := 24.

Record kheap := Kheap { kmem : mem; heap_start : Z; heap_base : Z; heap_end : Z }.
#[export] Instance kheap_eta : Eta kheap := fun h =>
  Kheap (kmem h) (heap_start h) (heap_base h) (heap_end h).

Definition ALIGN_UP (x a : Z) : Z := Z.land (u64 (x + (a - 1))) (Z.lnot (a - 1)).
Definition ALIGN_DOWN (x a : Z) : Z := Z.land x (Z.lnot (a - 1)).

Definition bh_magic (h : kheap) (b : Z) : Z := ld32 (kmem h) (b + BH_magic).
Definition bh_is_free (h : kheap) (b : Z) : Z := ld32 (kmem h) (b + BH_is_free).
Definition bh_size (h : kheap) (b : Z) : Z := ld64 (kmem h) (b + BH_size).
Definition bh_next (h : kheap) (b : Z) : Z := ld64 (kmem h) (b + BH_next).
Definition bh_prev (h : kheap) (b : Z) : Z := ld64 (kmem h) (b + BH_prev).
Definition set32 (b f v : Z) (h : kheap) : kheap := h{{ kmem ::= fun m => st32 m (b + f) v }}.
Definition set64 (b f v : Z) (h : kheap) : kheap := h{{ kmem ::= fun m => st64 m (b + f) v }}.

Definition ptr_in_heap (h : kheap) (u : Z) : bool := (heap_base h <=? u) && (u <? heap_end h).

Definition kheap_init (start_addr size : Z) (h : kheap) : kheap :=
  if start_addr =? 0 then h
  else
    let base := ALIGN_UP start_addr 16 in
    let end_ := ALIGN_DOWN (u64 (start_addr + size)) 16 in
    if end_ <=? u64 (u64 (base + HDR) + 16) then h
    else
      let h := h{{ heap_base := base; heap_end := end_; heap_start := base }} in
      let h := set32 base BH_magic HEAP_MAGIC h in
      let h := set64 base BH_size (u64 (end_ - base - HDR)) h in
      let h := set64 base BH_next 0 h in
      let h := set64 base BH_prev 0 h in
      set32 base BH_is_free 1 h.

Definition split_block (b want : Z) (h : kheap) : kheap :=
  let remaining := u64 (bh_size h b - want) in
  if remaining <=? HDR + 16 then h
  else
    let nb := u64 (b + HDR + want) in
    let h := set32 nb BH_magic HEAP_MAGIC h in
    let h := set32 nb BH_is_free 1 h in
    let b_payload_end := u64 (b + HDR + bh_size h b) in
    let new_size := u64 (b_payload_end - nb - HDR) in
    let h := set64 nb BH_size new_size h in
    let h := set64 nb BH_next (bh_next h b) h in
    let h := set64 nb BH_prev b h in
    let h := if bh_next h b =? 0 then h else set64 (bh_next h b) BH_prev nb h in
    let h := set64 b BH_next nb h in
    set64 b BH_size want h.

(** The first-fit walk from [cur]. *)
Fixpoint kmalloc_walk (fuel : nat) (want cur : Z) (h : kheap) : option (Z * kheap) :=
  if cur =? 0 then Some (0, h)
  else if negb (bh_magic h cur =? HEAP_MAGIC) then Some (0, h)
  else if negb (bh_is_free h cur =? 0) && (want <=? bh_size h cur) then
    Some (cur + HDR, set32 cur BH_is_free 0 (split_block cur want h))
  else
    match fuel with
    | O => None
    | S fuel => kmalloc_walk fuel want (bh_next h cur) h
    end.

(** More blocks than the heap can hold. *)
Definition kheap_fuel (h : kheap) : nat := Z.to_nat ((heap_end h - heap_base h) / HDR).

Definition kmalloc (size : Z) (h : kheap) : option (Z * kheap) :=
  if (heap_start h =? 0) || (size =? 0) then Some (0, h)
  else kmalloc_walk (kheap_fuel h) (ALIGN_UP size 16) (heap_start h) h.

(** A block that a merge may absorb: [p && p->is_free && p->magic == HEAP_MAGIC] *)
Definition mergeable (h : kheap) (p : Z) : bool :=
  negb (p =? 0) && negb (bh_is_free h p =? 0) && (bh_magic h p =? HEAP_MAGIC).

Fixpoint walk_back (fuel : nat) (h : kheap) (b : Z) : option Z :=
  if mergeable h (bh_prev h b) then
    match fuel with
    | O => None
    | S fuel => walk_back fuel h (bh_prev h b)
    end
  else Some b.

Fixpoint merge_forward (fuel : nat) (b : Z) (h : kheap) : option kheap :=
  if mergeable h (bh_next h b) then
    match fuel with
    | O => None
    | S fuel =>
        let n := bh_next h b in
        let payload_start := u64 (b + HDR) in
        let next_end := u64 (n + HDR + bh_size h n) in
        if (next_end <=? payload_start) || (heap_end h <? next_end) then Some h
        else
          let h := set64 b BH_size (u64 (next_end - payload_start)) h in
          let h := set64 b BH_next (bh_next h n) h in
          let h := if bh_next h b =? 0 then h else set64 (bh_next h b) BH_prev b h in
          merge_forward fuel b h
    end
  else Some h.

Definition coalesce (b : Z) (h : kheap) : option kheap :=
  if b =? 0 then Some h
  else if negb (ptr_in_heap h b) || negb (bh_magic h b =? HEAP_MAGIC) then Some h
  else
    b ← (if bh_is_free h b =? 0 then Some b else walk_back (kheap_fuel h) h b);
    merge_forward (kheap_fuel h) b h.

Definition kfree (ptr : Z) (h : kheap) : option kheap :=
  if ptr =? 0 then Some h
  else if negb (ptr_in_heap h ptr) then Some h
  else
    let b := u64 (ptr - HDR) in
    if negb (ptr_in_heap h b) || negb (bh_magic h b =? HEAP_MAGIC) then Some h
    else if negb (bh_is_free h b =? 0) then Some h
    else coalesce b (set32 b BH_is_free 1 h).

Definition copy_bytes (d s n : Z) (h : kheap) : kheap :=
  h{{ kmem ::= for_range 0 n (fun i m => stb m (d + i) (ldb m (s + i))) }}.

(** The growth of a block into the free block after it. *)
Definition grow_in_place (b want : Z) (h : kheap) : option (Z * kheap) :=
  if mergeable h (bh_next h b) then
    h ← coalesce b h;
    Some (if want <=? bh_size h b
          then (b + HDR, set32 b BH_is_free 0 (split_block b want h)) else (0, h))
  else Some (0, h).

Definition krealloc (ptr new_size : Z) (h : kheap) : option (Z * kheap) :=
  if ptr =? 0 then kmalloc new_size h
  else if new_size =? 0 then h ← kfree ptr h; Some (0, h)
  else
    let b := u64 (ptr - HDR) in
    if negb (bh_magic h b =? HEAP_MAGIC) then Some (0, h)
    else
      let want := ALIGN_UP new_size 16 in
      if want <=? bh_size h b then Some (ptr, h)
      else
        '(p, h) ← grow_in_place b want h;
        if negb (p =? 0) then Some (p, h)
        else
          '(np, h) ← kmalloc want h;
          if np =? 0 then Some (0, h)
          else
            let h := copy_bytes np ptr (bh_size h b) h in
            h ← kfree ptr h; Some (np, h).

(** The sum is a [size_t]. *)
Fixpoint free_walk (fuel : nat) (h : kheap) (cur total : Z) : option Z :=
  if (cur =? 0) || negb (bh_magic h cur =? HEAP_MAGIC) then Some total
  else
    match fuel with
    | O => None
    | S fuel =>
        free_walk fuel h (bh_next h cur)
          (if bh_is_free h cur =? 0 then total else u64 (total + bh_size h cur))
    end.
Definition kheap_free_size (h : kheap) : option Z := free_walk (kheap_fuel h) h (heap_start h) 0.

(** ** The chain as a list of blocks *)

Record block := Block { bsize : Z; bfree : bool }.

(** The address after the blocks [l] laid out from [a], and the address of the
    last of them ([p] if there is none). *)
Fixpoint end_of (a : Z) (l : list block) : Z :=
  match l with [] => a | x :: l => end_of (a + HDR + bsize x) l end.
Fixpoint last_of (p a : Z) (l : list block) : Z :=
  match l with [] => p | x :: l => last_of a (a + HDR + bsize x) l end.

Definition size_ok (x : block) : Prop := 0 <= bsize x /\ bsize x mod 16 = 0.

Record header (m : mem) (a : Z) (x : block) (prev next : Z) : Prop := {
  hd_magic : ld32 m (a + BH_magic) = HEAP_MAGIC;
  hd_free : ld32 m (a + BH_is_free) = Z.b2z (bfree x);
  hd_size : ld64 m (a + BH_size) = bsize x;
  hd_next : ld64 m (a + BH_next) = next;
  hd_prev : ld64 m (a + BH_prev) = prev
}.

(** The blocks [l] are laid out from [a]: [prev] is the block before them, [q]
    the one after. *)
Fixpoint seg (m : mem) (prev a : Z) (l : list block) (q : Z) : Prop :=
  match l with
  | [] => True
  | x :: l =>
      header m a x prev (match l with [] => q | _ => a + HDR + bsize x end) /\ size_ok x /\
      seg m a (a + HDR + bsize x) l q
  end.

(** No two neighbours are free. *)
Fixpoint coalesced (l : list block) : Prop :=
  match l with
  | x :: ((y :: _) as l') => bfree x && bfree y = false /\ coalesced l'
  | _ => True
  end.

(** The heap is tiled by the blocks [l]. *)
Record kheap_wf (h : kheap) (l : list block) : Prop := {
  kh_start : heap_start h = heap_base h;
  kh_base : 0 < heap_base h /\ heap_base h mod 16 = 0;
  kh_some : l <> [];
  kh_seg : seg (kmem h) 0 (heap_base h) l 0;
  kh_end : end_of (heap_base h) l = heap_end h;
  kh_top : heap_end h + HDR + 16 < 0x10000000000000000
}.

Definition kheap_ok (h : kheap) (l : list block) : Prop := kheap_wf h l /\ coalesced l.

(** ** Layout *)

Section Layout.
Implicit Types (l : list block) (x : block) (a p q : Z) (m : mem).

Lemma end_of_app a l1 l2 : end_of a (l1 ++ l2) = end_of (end_of a l1) l2.
Proof. revert a; induction l1 as [|x l1 IH]; intros a; [done|apply IH]. Qed.

Lemma last_of_app p a l1 l2 : last_of p a (l1 ++ l2) = last_of (last_of p a l1) (end_of a l1) l2.
Proof. revert p a; induction l1 as [|x l1 IH]; intros p a; [done|apply IH]. Qed.

Lemma end_of_ge a l : Forall size_ok l -> a + HDR * zlen l <= end_of a l.
Proof.
  intros Hl; revert a; induction Hl as [|x l [Hx _] Hl IH]; intros a; [unfold zlen; cbn; lia|].
  cbn [end_of]. specialize (IH (a + HDR + bsize x)). unfold zlen in *. cbn [length]. lia.
Qed.

Lemma end_of_mod a l : Forall size_ok l -> end_of a l mod 16 = a mod 16.
Proof.
  intros Hl; revert a; induction Hl as [|x l [_ Hx] Hl IH]; intros a; [done|].
  cbn [end_of]. rewrite IH. Z.div_mod_to_equations. lia.
Qed.

Definition q_of (l : list block) (a q : Z) : Z := match l with [] => q | _ => a end.

Lemma seg_app m p a l1 l2 q :
  seg m p a (l1 ++ l2) q <->
  seg m p a l1 (q_of l2 (end_of a l1) q) /\ seg m (last_of p a l1) (end_of a l1) l2 q.
Proof.
  revert p a; induction l1 as [|x l1 IH]; intros p a; cbn [seg app end_of last_of]; [tauto|].
  rewrite IH.
  assert (E : match l1 ++ l2 with [] => q | _ => a + HDR + bsize x end
    = match l1 with [] => q_of l2 (end_of (a + HDR + bsize x) l1) q | _ => a + HDR + bsize x end)
    by (destruct l1; [by destruct l2|done]).
  rewrite E. tauto.
Qed.

Lemma seg_sizes m p a l q : seg m p a l q -> Forall size_ok l.
Proof.
  revert p a; induction l as [|x l IH]; intros p a; [done|]. intros (_ & Hx & Hl).
  constructor; [done|by eapply IH].
Qed.

Lemma header_within m m' lo hi a x p q :
  within lo hi m m' -> hi <= a \/ a + 32 <= lo -> header m a x p q -> header m' a x p q.
Proof.
  intros Hw Ho []. split; (etransitivity; [eapply within_ld; [exact Hw|cbn; lia]|done]).
Qed.

Lemma seg_within m m' lo hi p a l q :
  within lo hi m m' -> hi <= a \/ end_of a l <= lo -> seg m p a l q -> seg m' p a l q.
Proof.
  intros Hw; revert p a; induction l as [|x l IH]; intros p a Ho Hs; [done|].
  pose proof (seg_sizes _ _ _ _ _ Hs) as [[Hx _] Hl]%Forall_cons. destruct Hs as (Hh & Hsz & Hl').
  pose proof (end_of_ge (a + HDR + bsize x) l Hl). unfold zlen in *. cbn [end_of] in Ho.
  split; [eapply header_within; [exact Hw|lia|done]|]. split; [done|].
  apply IH; [lia|done].
Qed.

(** The block at the join of [l1] and [x :: l2]. *)
Lemma seg_at m p a l1 x l2 q :
  seg m p a (l1 ++ x :: l2) q ->
  header m (end_of a l1) x (last_of p a l1) (q_of l2 (end_of a l1 + HDR + bsize x) q) /\ size_ok x.
Proof. intros [_ (H & Hx & _)]%seg_app. by destruct l2. Qed.

(** The first block's [prev] rewritten. *)
Lemma seg_set_prev m p a l q p' :
  is_u64 p' -> seg m p a l q -> seg (if decide (l = []) then m else st64 m (a + BH_prev) p') p' a l q.
Proof.
  intros Hp Hs. destruct l as [|x l]; [done|]. cbn [decide]. rewrite decide_False by done.
  assert (Hw : within (a + BH_prev) (a + 32) m (st64 m (a + BH_prev) p'))
    by (apply within_st; [lia|change (Z.of_nat 8) with 8; lia]).
  destruct Hs as ([H1 H2 H3 H4 H5] & [Hx Hx'] & Hl). split; [|split; [done|]].
  - split; try (by rewrite ld_st_ne by lia). apply ld_st_eq. unfold is_u64 in Hp. cbn. lia.
  - eapply seg_within; [exact Hw|lia|done].
Qed.

(** The first block's own fields rewritten. *)
Lemma seg_head m m' p a x x' l q p' :
  header m' a x' p' (q_of l (a + HDR + bsize x) q) -> size_ok x' -> bsize x' = bsize x ->
  within a (a + HDR) m m' -> seg m p a (x :: l) q -> seg m' p' a (x' :: l) q.
Proof.
  intros Hh Hx E Hw (_ & [Hs _] & Hl). split; [by rewrite E|]. split; [done|]. rewrite E.
  eapply seg_within; [exact Hw|lia|]. by destruct l.
Qed.
End Layout.

(** ** Payloads *)

(** [a] is a byte of an allocated block's payload. *)
Definition owned (base : Z) (l : list block) (a : Z) : Prop :=
  exists l1 x l2, l = l1 ++ x :: l2 /\ bfree x = false /\
    end_of base l1 + HDR <= a < end_of base l1 + HDR + bsize x.

Lemma owned_cons base x l a :
  owned base (x :: l) a <->
  (bfree x = false /\ base + HDR <= a < base + HDR + bsize x) \/ owned (base + HDR + bsize x) l a.
Proof.
  split.
  - intros (l1 & y & l2 & E & Hf & Ha). destruct l1 as [|z l1]; injection E as -> ->; [by left|].
    right. by exists l1, y, l2.
  - intros [[Hf Ha]|(l1 & y & l2 & -> & Hf & Ha)].
    + by exists [], x, l.
    + by exists (x :: l1), y, l2.
Qed.

Lemma owned_app base l1 l2 a :
  owned base (l1 ++ l2) a <-> owned base l1 a \/ owned (end_of base l1) l2 a.
Proof.
  revert base; induction l1 as [|x l1 IH]; intros base; cbn [app end_of].
  - split; [by right|]. intros [(l1 & y & l3 & E & _)|H]; [by destruct l1|done].
  - rewrite !owned_cons, IH. tauto.
Qed.

Lemma owned_bounds base l a : Forall size_ok l -> owned base l a -> base + HDR <= a < end_of base l.
Proof.
  intros Hl; revert base; induction Hl as [|x l [Hx _] Hl IH]; intros base.
  - intros (l1 & y & l3 & E & _). by destruct l1.
  - rewrite owned_cons. cbn [end_of]. pose proof (end_of_ge (base + HDR + bsize x) l Hl).
    unfold zlen in *. intros [?|Ho%IH]; lia.
Qed.

(** A header is no payload. *)
Lemma owned_header base l1 l2 a :
  Forall size_ok l1 -> Forall size_ok l2 ->
  end_of base l1 <= a < end_of base l1 + HDR -> ~ owned base (l1 ++ l2) a.
Proof.
  intros H1 H2 Ha [Ho|Ho]%owned_app.
  - apply owned_bounds in Ho; [lia|done].
  - apply owned_bounds in Ho; [lia|done].
Qed.

(** ** Splitting *)

Definition pieces (x : block) (want : Z) : list block :=
  if bsize x - want <=? HDR + 16 then [x]
  else [Block want (bfree x); Block (bsize x - want - HDR) true].

Definition same_bounds (h h' : kheap) : Prop :=
  heap_start h' = heap_start h /\ heap_base h' = heap_base h /\ heap_end h' = heap_end h.

Lemma pieces_end a x want : end_of a (pieces x want) = a + HDR + bsize x.
Proof. unfold pieces. destruct (_ <=? _); cbn; lia. Qed.

Lemma pieces_sizes x want :
  size_ok x -> 0 <= want <= bsize x -> want mod 16 = 0 -> Forall size_ok (pieces x want).
Proof.
  intros [Hx Hx'] Hw Hm. unfold pieces. destruct (Z.leb_spec (bsize x - want) (HDR + 16)).
  - by repeat constructor.
  - repeat constructor; cbn; try lia. Z.div_mod_to_equations. lia.
Qed.

(** The writes of a split at [b], [nb] the new block, in three stages. *)
Definition split_new (b nb size next : Z) (m : mem) : mem :=
  let m := st32 m (nb + BH_magic) HEAP_MAGIC in
  let m := st32 m (nb + BH_is_free) 1 in
  let m := st64 m (nb + BH_size) size in
  let m := st64 m (nb + BH_next) next in
  st64 m (nb + BH_prev) b.
Definition split_link (nb next : Z) (m : mem) : mem :=
  if next =? 0 then m else st64 m (next + BH_prev) nb.
Definition split_old (b nb want : Z) (m : mem) : mem :=
  let m := st64 m (b + BH_next) nb in st64 m (b + BH_size) want.

Section Split.
Context (m : mem) (p b want : Z) (x : block) (l2 : list block).
Context (Hseg : seg m p b (x :: l2) 0) (Hb : 0 < b).
Context (Hw : 0 <= want) (Hm16 : want mod 16 = 0).
Context (Hbig : HDR + 16 < bsize x - want) (Htop : end_of b (x :: l2) + HDR + 16 < 0x10000000000000000).
Local Abbreviation nb := (b + HDR + want).
Local Abbreviation y := (Block (bsize x - want - HDR) true).
Local Abbreviation next := (q_of l2 (b + HDR + bsize x) 0).
Local Abbreviation m1 := (split_new b nb (bsize y) next m).
Local Abbreviation m2 := (split_link nb next m1).
Local Abbreviation m3 := (split_old b nb want m2).

Lemma split_top : b + HDR + bsize x + HDR + 16 < 0x10000000000000000.
Proof using Hseg Htop.
  destruct Hseg as (_ & _ & Hl). pose proof (end_of_ge (b + HDR + bsize x) l2 (seg_sizes _ _ _ _ _ Hl)).
  cbn [end_of] in Htop. unfold zlen in *. lia.
Qed.

Lemma split_new_within : within nb (nb + 32) m m1.
Proof using. clear. unfold split_new. repeat (apply within_st_r; [lia|cbn; lia|]). done. Qed.

Lemma split_link_within : within (b + HDR + bsize x) (b + HDR + bsize x + 32) m1 m2.
Proof using.
  clear.
  unfold split_link. destruct l2; cbn [q_of]; [done|]. destruct (_ =? 0); [done|].
  apply within_st; [lia|cbn; lia].
Qed.

Lemma split_old_within : within (b + BH_size) (b + BH_prev) m2 m3.
Proof using. clear. unfold split_old. repeat (apply within_st_r; [lia|cbn; lia|]). done. Qed.

Lemma next_range : 0 <= next < 0x10000000000000000.
Proof using Hseg Htop Hb Hw Hbig. pose proof split_top. destruct l2; cbn [q_of]; lia. Qed.

Lemma split_seg : seg m3 p b (Block want (bfree x) :: y :: l2) 0.
Proof using Hseg Hb Hw Hm16 Hbig Htop.
  pose proof split_top as Ht. pose proof next_range as Hn.
  pose proof Hseg as (Hhx & [Hx Hx'] & Hl).
  pose proof split_new_within as W1. pose proof split_link_within as W2.
  pose proof split_old_within as W3.
  assert (Hy : header m1 nb y b next).
  { split; unfold split_new; cbn [bsize bfree Z.b2z] in *; mem_simpl; reflexivity. }
  assert (Hl2 : seg m2 nb (b + HDR + bsize x) l2 0).
  { assert (Hl1 : seg m1 b (b + HDR + bsize x) l2 0) by (eapply seg_within; [exact W1|lia|done]).
    apply (seg_set_prev _ _ _ _ _ nb) in Hl1; [|unfold is_u64; lia].
    unfold split_link. destruct l2 as [|z l]; [done|]. cbn [q_of].
    rewrite decide_False in Hl1 by done. by rewrite (proj2 (Z.eqb_neq _ 0)) by lia. }
  assert (Hx2 : header m2 b x p next).
  { apply (header_within m1 m2 _ _ _ _ _ _ W2); [lia|].
    apply (header_within m m1 _ _ _ _ _ _ W1); [lia|]. by destruct l2. }
  split; [|split; [done|split; [|split]]].
  - destruct Hx2 as [H1 H2 H3 H4 H5]. unfold split_old. split; mem_simpl; try done; reflexivity.
  - apply (header_within m2 m3 _ _ _ _ _ _ W3); [cbn; lia|].
    apply (header_within m1 m2 _ _ _ _ _ _ W2); [cbn; lia|]. cbn [bsize] in *.
    replace (b + HDR + want + HDR + (bsize x - want - HDR)) with (b + HDR + bsize x) by lia.
    by destruct l2.
  - split; cbn [bsize]; [lia|]. Z.div_mod_to_equations. lia.
  - cbn [bsize]. replace (b + HDR + want + HDR + (bsize x - want - HDR)) with (b + HDR + bsize x) by lia.
    eapply seg_within; [exact W3|cbn; lia|done].
Qed.
End Split.

(** ** Blocks of a heap *)

Lemma kmem_set32 a f v h : kmem (set32 a f v h) = st32 (kmem h) (a + f) v.
Proof. done. Qed.
Lemma kmem_set64 a f v h : kmem (set64 a f v h) = st64 (kmem h) (a + f) v.
Proof. done. Qed.

(** Reads a header field through the writes of other fields. *)
Ltac bh_simpl :=
  unfold bh_magic, bh_is_free, bh_size, bh_next, bh_prev; 
  repeat first [rewrite kmem_set32 | rewrite kmem_set64]; repeat rewrite ld_st_ne by lia.

(** Replacing the blocks [ys] by the blocks [xs] of the same extent, in memory and
    in the list. *)
Lemma wf_replace h l1 ys l2 m' xs :
  let b := end_of (heap_base h) l1 in
  kheap_wf h (l1 ++ ys ++ l2) -> ys <> [] -> xs <> [] -> end_of b xs = end_of b ys ->
  seg m' (last_of 0 (heap_base h) l1) b (xs ++ l2) 0 -> within b (heap_end h) (kmem h) m' ->
  kheap_wf h{{ kmem := m' }} (l1 ++ xs ++ l2).
Proof.
  intros b [K1 K2 K3 K4 K5 K6] Hy Hne He Hs Hw. split; try done.
  - intros E. apply app_nil in E as [_ E]. apply app_nil in E as [E _]. done.
  - change (seg m' 0 (heap_base h) (l1 ++ xs ++ l2) 0). apply seg_app. split.
    + apply seg_app in K4 as [K4 _]. fold b in K4 |- *.
      replace (q_of (xs ++ l2) b 0) with (q_of (ys ++ l2) b 0) by (by destruct xs, ys).
      eapply seg_within; [exact Hw|unfold b; lia|exact K4].
    + exact Hs.
  - change (heap_end h{{ kmem := m' }}) with (heap_end h). rewrite <- K5.
    change (heap_base h{{ kmem := m' }}) with (heap_base h). rewrite !end_of_app. fold b. by rewrite He.
Qed.

Section At.
Context (h : kheap) (l1 : list block) (x : block) (l2 : list block).
Context (Hwf : kheap_wf h (l1 ++ x :: l2)).
Local Abbreviation base := (heap_base h).
Local Abbreviation b := (end_of base l1).
Local Abbreviation next := (q_of l2 (b + HDR + bsize x) 0).

Lemma at_header : header (kmem h) b x (last_of 0 base l1) next /\ size_ok x.
Proof using Hwf. exact (seg_at _ _ _ _ _ _ _ (kh_seg _ _ Hwf)). Qed.

Lemma at_sizes : Forall size_ok l1 /\ Forall size_ok l2.
Proof using Hwf.
  pose proof (seg_sizes _ _ _ _ _ (kh_seg _ _ Hwf)) as H.
  apply Forall_app in H as [H1 H2]. by apply Forall_cons in H2 as [_ H2].
Qed.

Lemma at_bounds :
  0 < base <= b /\ b mod 16 = 0 /\ 0 <= bsize x /\
  b + HDR + bsize x + HDR * zlen l2 <= heap_end h /\ heap_end h + HDR + 16 < 0x10000000000000000.
Proof using Hwf.
  destruct at_sizes as [H1 H2], at_header as [_ [Hx _]], (kh_base _ _ Hwf) as [Hb Hb'].
  pose proof (end_of_ge base l1 H1). pose proof (end_of_mod base l1 H1).
  pose proof (end_of_ge (b + HDR + bsize x) l2 H2). pose proof (kh_end _ _ Hwf) as He.
  rewrite end_of_app in He. cbn [end_of] in He. pose proof (kh_top _ _ Hwf). unfold zlen in *. lia.
Qed.

Lemma at_fields :
  bh_magic h b = HEAP_MAGIC /\ bh_is_free h b = Z.b2z (bfree x) /\ bh_size h b = bsize x /\
  bh_next h b = next /\ bh_prev h b = last_of 0 base l1.
Proof using Hwf. destruct at_header as [[] _]. done. Qed.

Lemma at_replace m' xs :
  xs <> [] -> end_of b xs = b + HDR + bsize x ->
  seg m' (last_of 0 base l1) b (xs ++ l2) 0 -> within b (heap_end h) (kmem h) m' ->
  kheap_wf h{{ kmem := m' }} (l1 ++ xs ++ l2).
Proof using Hwf. by apply (wf_replace h l1 [x] l2). Qed.

Lemma at_seg : seg (kmem h) (last_of 0 base l1) b (x :: l2) 0.
Proof using Hwf. pose proof (kh_seg _ _ Hwf) as H. by apply seg_app in H as [_ H]. Qed.

Lemma at_end : end_of b (x :: l2) = heap_end h.
Proof using Hwf. rewrite <- (kh_end _ _ Hwf), end_of_app. done. Qed.

(** Marking the block. *)
Lemma set_free_wf f :
  let h' := set32 b BH_is_free (Z.b2z f) h in
  kheap_wf h' (l1 ++ Block (bsize x) f :: l2) /\
  within b (b + HDR) (kmem h) (kmem h').
Proof using Hwf.
  pose proof at_bounds as (Hb & _ & Hx & He & _). pose proof at_seg as Hs. cbv zeta.
  assert (Hw : within b (b + HDR) (kmem h) (st32 (kmem h) (b + BH_is_free) (Z.b2z f)))
    by (apply within_st; [lia|change (Z.of_nat 4) with 4; lia]).
  split; [|exact Hw].
  apply (at_replace (st32 (kmem h) (b + BH_is_free) (Z.b2z f)) [Block (bsize x) f]); [done|done| |].
  - destruct at_header as [[H1 H2 H3 H4 H5] Hsz].
    apply (seg_head (kmem h) _ (last_of 0 base l1) b x); [|exact Hsz|reflexivity|exact Hw|exact Hs].
    split; try (by rewrite ld_st_ne by lia). apply ld_st_eq. cbn [bfree]. destruct f; cbn; lia.
  - unfold zlen in *. eapply within_mono; [| |exact Hw]; lia.
Qed.

(** Splitting it. *)
Lemma split_block_wf want :
  0 <= want <= bsize x -> want mod 16 = 0 ->
  let h' := split_block b want h in
  kheap_wf h' (l1 ++ pieces x want ++ l2) /\ same_bounds h h' /\
  agree (owned base (l1 ++ pieces x want ++ l2)) (kmem h) (kmem h').
Proof using Hwf.
  intros Hw Hm. pose proof at_bounds as (Hb & Hb16 & Hx & He & Ht). pose proof at_seg as Hs.
  destruct at_fields as (_ & _ & Es & En & _). pose proof at_sizes as [S1 S2].
  assert (0 <= zlen l2) by (unfold zlen; lia).
  unfold split_block, pieces. cbv zeta. rewrite Es.
  rewrite (u64_small (bsize x - want)) by (unfold is_u64; lia).
  destruct (Z.leb_spec (bsize x - want) (HDR + 16)) as [Hle|Hgt]; [done|].
  rewrite (u64_small (b + HDR + want)) by (unfold is_u64; lia). set (nb := b + HDR + want).
  assert (Hs1 : bh_size (set32 nb BH_is_free 1 (set32 nb BH_magic HEAP_MAGIC h)) b = bsize x)
    by (rewrite <- Es; unfold nb; bh_simpl; reflexivity).
  rewrite Hs1. rewrite (u64_small (b + HDR + bsize x)) by (unfold is_u64; lia).
  rewrite (u64_small (b + HDR + bsize x - nb - HDR)) by (unfold is_u64, nb; lia).
  replace (b + HDR + bsize x - nb - HDR) with (bsize x - want - HDR) by (unfold nb; lia).
  set (h1 := set64 nb BH_size _ _).
  assert (Hn1 : bh_next h1 b = next) by (rewrite <- En; unfold h1, nb; bh_simpl; reflexivity).
  rewrite Hn1. set (h2 := set64 nb BH_prev b (set64 nb BH_next next h1)).
  assert (Hn2 : bh_next h2 b = next) by (rewrite <- Hn1; unfold h2, nb; bh_simpl; reflexivity).
  rewrite Hn2.
  set (m1 := split_new b nb (bsize x - want - HDR) next (kmem h)).
  assert (E2 : h2 = h{{ kmem := m1 }}) by reflexivity.
  set (m3 := split_old b nb want (split_link nb next m1)).
  assert (E3 : set64 b BH_size want (set64 b BH_next nb
      (if next =? 0 then h2 else set64 next BH_prev nb h2)) = h{{ kmem := m3 }}).
  { unfold m3, split_link. rewrite E2. by destruct (next =? 0). }
  rewrite E3. pose proof at_end as Hend.
  assert (Htop : end_of b (x :: l2) + HDR + 16 < 0x10000000000000000) by (rewrite Hend; lia).
  pose proof (split_seg (kmem h) (last_of 0 base l1) b want x l2 Hs ltac:(lia) ltac:(lia) Hm ltac:(lia) Htop) as Hs3.
  fold nb m1 m3 in Hs3. clear E2 E3 Hs1 Hn1 Hn2. clear h2 h1.
  assert (W1 : within nb (nb + 32) (kmem h) m1) by (unfold m1, nb; apply (split_new_within (kmem h) b want x l2)).
  assert (W3 : within (b + BH_size) (b + BH_prev) (split_link nb next m1) m3)
    by (unfold m3, m1, nb; apply (split_old_within (kmem h) b want x l2)).
  assert (W2 : within (b + HDR + bsize x) (b + HDR + bsize x + 32) m1 (split_link nb next m1))
    by (unfold m1, nb; apply (split_link_within (kmem h) b want x l2)).
  assert (W2' : within (b + HDR) (heap_end h) m1 (split_link nb next m1)).
  { destruct l2 as [|z l]; [done|]. unfold zlen in He. cbn [length] in He.
    eapply within_mono; [| |exact W2]; lia. }
  split; [|split; [done|]].
  - apply (at_replace m3 [Block want (bfree x); Block (bsize x - want - HDR) true]); [done|cbn; lia|exact Hs3|].
    transitivity (split_link nb next m1); [|eapply within_mono; [| |exact W3]; lia].
    transitivity m1; [eapply within_mono; [| |exact W1]; unfold nb; lia|].
    eapply within_mono; [| |exact W2']; lia.
  - set (lx := [Block want (bfree x); Block (bsize x - want - HDR) true]).
    assert (Sx : Forall size_ok lx).
    { pose proof at_header as [_ Hx2]. pose proof (pieces_sizes x want Hx2 Hw Hm) as Hp. unfold pieces in Hp.
      by rewrite (proj2 (Z.leb_gt _ _) Hgt) in Hp. }
    intros a Ha. change (ldb m3 a = ldb (kmem h) a). etransitivity; [apply W3|etransitivity; [apply W2|apply W1]].
    + intros Hr. apply (owned_header base l1 (lx ++ l2) a) in Ha; [done|done|by apply Forall_app|lia].
    + intros Hr. rewrite app_assoc in Ha. apply (owned_header base (l1 ++ lx) l2 a) in Ha; try done.
      * by apply Forall_app.
      * rewrite end_of_app. cbn. lia.
    + intros Hr. apply (owned_header base (l1 ++ [Block want (bfree x)]) (Block (bsize x - want - HDR) true :: l2) a).
      * apply Forall_app. split; [done|]. apply Forall_cons in Sx as [? _]. by constructor.
      * apply Forall_cons in Sx as [_ [? _]%Forall_cons]. by constructor.
      * rewrite end_of_app. cbn. unfold nb in Hr. lia.
      * by rewrite <- app_assoc.
Qed.
End At.

(** ** Allocation *)

Definition fits (want : Z) (x : block) : bool := bfree x && (want <=? bsize x).

Lemma fuel_enough h l : kheap_wf h l -> (length l <= kheap_fuel h)%nat.
Proof.
  intros H. pose proof (end_of_ge (heap_base h) l (seg_sizes _ _ _ _ _ (kh_seg _ _ H))).
  rewrite (kh_end _ _ H) in *. unfold kheap_fuel, zlen in *.
  assert (Z.of_nat (length l) <= (heap_end h - heap_base h) / HDR); [|lia].
  apply Z.div_le_lower_bound; lia.
Qed.

Lemma b2z_eqb f : (Z.b2z f =? 0) = negb f.
Proof. by destruct f. Qed.

Lemma kmalloc_walk_spec want h l1 l2 fuel :
  kheap_wf h (l1 ++ l2) -> (length l2 <= fuel)%nat ->
  let r := kmalloc_walk fuel want (q_of l2 (end_of (heap_base h) l1) 0) h in
  (Forall (fun x => fits want x = false) l2 /\ r = Some (0, h)) \/
  exists l3 x l4, l2 = l3 ++ x :: l4 /\ Forall (fun x => fits want x = false) l3 /\
    fits want x = true /\
    let b := end_of (heap_base h) (l1 ++ l3) in
    r = Some (b + HDR, set32 b BH_is_free 0 (split_block b want h)).
Proof.
  revert l1 l2; induction fuel as [|fuel IH]; intros l1 l2 Hwf Hl; cbv zeta.
  { destruct l2; [|cbn in Hl; lia]. by left. }
  destruct l2 as [|x l2]; [by left|]. cbn [q_of kmalloc_walk].
  destruct (at_fields h l1 x l2 Hwf) as (E1 & E2 & E3 & E4 & _).
  pose proof (at_bounds h l1 x l2 Hwf) as (Hb & _).
  rewrite E1, E2, E3, E4, Z.eqb_refl, b2z_eqb, negb_involutive, (proj2 (Z.eqb_neq _ 0)) by lia.
  fold (fits want x). cbn [negb]. destruct (fits want x) eqn:Ef.
  - right. exists [], x, l2. rewrite app_nil_r. done.
  - replace (l1 ++ x :: l2) with ((l1 ++ [x]) ++ l2) in Hwf by (by rewrite <- app_assoc).
    cbn [length] in Hl. specialize (IH (l1 ++ [x]) l2 Hwf ltac:(lia)). cbv zeta in IH.
    rewrite end_of_app in IH. cbn [end_of] in IH.
    destruct IH as [[Hn ->]|(l3 & y & l4 & -> & Hn & Hy & ->)].
    + left. by split; [constructor|].
    + right. exists (x :: l3), y, l4. split; [done|]. split; [by constructor|]. split; [done|].
      by rewrite <- app_assoc.
Qed.

Lemma ALIGN_UP_16 x : 0 <= x -> x + 15 < 0x10000000000000000 ->
  ALIGN_UP x 16 = (x + 15) / 16 * 16.
Proof.
  intros H0 H1. unfold ALIGN_UP. rewrite u64_small by (unfold is_u64; lia).
  change (16 - 1) with (Z.ones 4). rewrite <- Z.ldiff_land, Z.ldiff_ones_r by lia.
  rewrite Z.shiftl_mul_pow2, Z.shiftr_div_pow2 by lia. done.
Qed.

Definition join_ok (l1 l2 : list block) : Prop :=
  match last l1, head l2 with Some x, Some y => bfree x && bfree y = false | _, _ => True end.

Lemma coalesced_app l1 l2 :
  coalesced (l1 ++ l2) <-> coalesced l1 /\ coalesced l2 /\ join_ok l1 l2.
Proof.
  unfold join_ok. induction l1 as [|x l1 IH]; cbn [app].
  - cbn. tauto.
  - destruct l1 as [|y l1]; cbn [app].
    + destruct l2; cbn; tauto.
    + change (last (x :: y :: l1)) with (last (y :: l1)). cbn [coalesced app] in IH |- *. tauto.
Qed.

Lemma join_ok_head l1 x x' l2 : bfree x = bfree x' -> join_ok l1 (x :: l2) <-> join_ok l1 (x' :: l2).
Proof. unfold join_ok. cbn. intros ->. done. Qed.

(** What allocation leaves of the block it takes. *)
Definition taken (x : block) (want : Z) : list block :=
  if bsize x - want <=? HDR + 16 then [Block (bsize x) false]
  else [Block want false; Block (bsize x - want - HDR) true].

Lemma taken_coalesced l1 x l2 want :
  coalesced (l1 ++ x :: l2) -> bfree x = true -> coalesced (l1 ++ taken x want ++ l2).
Proof.
  intros (H1 & H2 & H3)%coalesced_app Hx. unfold taken.
  assert (Hj : forall y l, bfree y = false -> join_ok l1 (y :: l)).
  { intros y l Hy. unfold join_ok. cbn. rewrite Hy. destruct (last l1); [apply andb_false_r|done]. }
  destruct (_ <=? _); apply coalesced_app; (split; [done|split; [|by apply Hj]]); cbn [app].
  - destruct l2; [done|]. cbn in *. tauto.
  - cbn [coalesced bfree]. split; [done|]. destruct l2 as [|y l2]; [done|]. cbn in *.
    rewrite Hx in H2. tauto.
Qed.

Lemma owned_mid base l1 xs ys l2 a :
  end_of (end_of base l1) xs = end_of (end_of base l1) ys ->
  (forall a, owned (end_of base l1) xs a -> owned (end_of base l1) ys a) ->
  owned base (l1 ++ xs ++ l2) a -> owned base (l1 ++ ys ++ l2) a.
Proof. rewrite !owned_app. intros -> H. pose proof (H a). tauto. Qed.

Lemma kmalloc_take h l1 x l2 want :
  kheap_ok h (l1 ++ x :: l2) -> bfree x = true -> 0 <= want <= bsize x -> want mod 16 = 0 ->
  let b := end_of (heap_base h) l1 in
  let h' := set32 b BH_is_free 0 (split_block b want h) in
  kheap_ok h' (l1 ++ taken x want ++ l2) /\ same_bounds h h' /\
  agree (owned (heap_base h) (l1 ++ x :: l2)) (kmem h) (kmem h').
Proof.
  intros [Hwf Hco] Hx Hw Hm b h'.
  destruct (split_block_wf h l1 x l2 Hwf want Hw Hm) as (Hwf1 & Hsb & Hag). fold b in Hwf1, Hsb, Hag.
  pose proof (at_header h l1 x l2 Hwf) as [_ Hxs]. pose proof (pieces_sizes x want Hxs Hw Hm) as Hps.
  pose proof (at_sizes h l1 x l2 Hwf) as [S1 S2].
  assert (Ep : exists y r, pieces x want = y :: r /\ taken x want = Block (bsize y) false :: r).
  { unfold pieces, taken. destruct (_ <=? _); eauto. }
  destruct Ep as (y & r & Ey & Et). rewrite Ey in Hwf1.
  change ((y :: r) ++ l2) with (y :: (r ++ l2)) in Hwf1.
  pose proof (set_free_wf _ l1 y (r ++ l2) Hwf1 false) as [Hwf2 Hw2].
  destruct Hsb as (B1 & B2 & B3). rewrite B2 in Hwf2, Hw2. cbn [Z.b2z] in Hwf2, Hw2. fold b h' in Hwf2, Hw2.
  rewrite Et. split; [split|split].
  - exact Hwf2.
  - rewrite <- Et. by apply taken_coalesced.
  - done.
  - intros a Ha. etransitivity; [apply Hw2|apply Hag].
    + intros Hr. apply (owned_header (heap_base h) l1 (x :: l2) a) in Ha; try done; by constructor.
    + change (x :: l2) with ([x] ++ l2) in Ha. revert Ha. apply owned_mid.
      * by rewrite pieces_end.
      * intros c Hc. apply owned_cons in Hc as [[Hf _]|(l' & z & l'' & E & _)]; [congruence|by destruct l'].
Qed.

(** The block [kmalloc] takes, as an address. *)
Lemma kmalloc_eq h l size :
  kheap_ok h l -> 0 < size -> size + 15 < 0x10000000000000000 ->
  let want := (size + 15) / 16 * 16 in
  (Forall (fun y => fits want y = false) l /\ kmalloc size h = Some (0, h)) \/
  exists l1 x l2, l = l1 ++ x :: l2 /\ Forall (fun y => fits want y = false) l1 /\
    bfree x = true /\ want <= bsize x /\
    let b := end_of (heap_base h) l1 in
    kmalloc size h = Some (b + HDR, set32 b BH_is_free 0 (split_block b want h)).
Proof.
  intros [Hwf _] Hs Hs2 want. pose proof (fuel_enough h l Hwf) as Hf.
  unfold kmalloc. rewrite (kh_start _ _ Hwf), ALIGN_UP_16 by lia. fold want.
  destruct (kh_base _ _ Hwf) as [Hb _]. rewrite !(proj2 (Z.eqb_neq _ 0)) by lia. cbn [orb].
  pose proof (kmalloc_walk_spec want h [] l (kheap_fuel h) Hwf Hf) as Hwalk. cbv zeta in Hwalk.
  replace (q_of l (end_of (heap_base h) []) 0) with (heap_base h) in Hwalk
    by (pose proof (kh_some _ _ Hwf); by destruct l).
  destruct Hwalk as [[Hn ->]|(l1 & x & l2 & -> & Hn & Hx & ->)]; [by left|right].
  pose proof Hx as [Hfx Hle%Z.leb_le]%andb_true_iff. by exists l1, x, l2.
Qed.

(** C5: first-fit allocation.  On a well-formed heap [kmalloc] of [size] bytes,
    [0 < size] and [size + 15 < 2^64], always returns.  (For the 15 larger sizes,
    which the statement leaves out, the rounding wraps to 0.)  If some free block
    holds the request rounded up to 16 bytes, it takes the first one: the result is that block's payload, aligned to 16 and inside the
    heap, the block is split when more than 64 bytes would be left over, the
    rest of the heap keeps its blocks, no byte of any allocated payload changes,
    and no two neighbours are free.  Otherwise it returns NULL and changes
    nothing. *)
Theorem kmalloc_first_fit (h : kheap) (l : list block) (size : Z) :
  kheap_ok h l -> 0 < size -> size + 15 < 0x10000000000000000 ->
  let want := (size + 15) / 16 * 16 in
  (exists l1 x l2 p h', l = l1 ++ x :: l2 /\ Forall (fun y => fits want y = false) l1 /\
     fits want x = true /\ kmalloc size h = Some (p, h') /\
     p = end_of (heap_base h) l1 + HDR /\ p mod 16 = 0 /\ heap_base h < p /\
     p + size <= p + bsize x <= heap_end h /\
     kheap_ok h' (l1 ++ taken x want ++ l2) /\ same_bounds h h' /\
     agree (owned (heap_base h) l) (kmem h) (kmem h')) \/
  (Forall (fun y => fits want y = false) l /\ kmalloc size h = Some (0, h)).
Proof.
  intros Hok Hs Hs2 want. pose proof Hok as [Hwf _].
  destruct (kmalloc_eq h l size Hok Hs Hs2) as [?|(l1 & x & l2 & -> & Hn & Hfx & Hle & ->)]; [by right|left].
  fold want in Hn, Hle |- *.
  assert (Hw : size <= want /\ want mod 16 = 0) by (unfold want; Z.div_mod_to_equations; lia).
  destruct (kmalloc_take h l1 x l2 want Hok Hfx ltac:(lia) ltac:(lia)) as (H1 & H2 & H3).
  destruct (at_bounds h l1 x l2 Hwf) as (B1 & B2 & B3 & B4 & B5). unfold zlen in *.
  eexists l1, x, l2, _, _. split; [done|]. split; [done|].
  split; [unfold fits; rewrite Hfx; by apply Z.leb_le|]. split; [reflexivity|].
  split; [done|]. split; [Z.div_mod_to_equations; lia|]. split; [lia|]. split; [lia|]. done.
Qed.

(** ** Release *)

Definition join (x y : block) : block := Block (bsize x + HDR + bsize y) (bfree x).

Fixpoint absorb (x : block) (l : list block) : list block :=
  match l with
  | y :: r => if bfree y then absorb (join x y) r else x :: l
  | [] => [x]
  end.

Lemma join_size x y : size_ok x -> size_ok y -> size_ok (join x y).
Proof. intros [? ?] [? ?]. split; cbn; [lia|]. Z.div_mod_to_equations. lia. Qed.

(** The blocks around a join. *)
Lemma at_mergeable h l1 x l2 :
  kheap_wf h (l1 ++ x :: l2) ->
  mergeable h (bh_next h (end_of (heap_base h) l1)) = match l2 with [] => false | y :: _ => bfree y end.
Proof.
  intros Hwf. destruct (at_fields h l1 x l2 Hwf) as (_ & _ & _ & -> & _). unfold mergeable.
  destruct l2 as [|y l2]; [done|]. cbn [q_of].
  replace (l1 ++ x :: y :: l2) with ((l1 ++ [x]) ++ y :: l2) in Hwf by (by rewrite <- app_assoc).
  pose proof (at_bounds h _ y l2 Hwf) as (Hb & _).
  destruct (at_fields h _ y l2 Hwf) as (E1 & E2 & _). rewrite end_of_app in E1, E2, Hb. cbn [end_of] in E1, E2, Hb.
  rewrite E1, E2, b2z_eqb, negb_involutive, Z.eqb_refl, (proj2 (Z.eqb_neq _ 0)) by lia.
  cbn [negb andb]. apply andb_true_r.
Qed.

(** One turn of the merging loop. *)
Definition merge_mem (b size next : Z) (m : mem) : mem :=
  let m := st64 m (b + BH_size) size in
  let m := st64 m (b + BH_next) next in
  if next =? 0 then m else st64 m (next + BH_prev) b.

Section Merge.
Context (h : kheap) (l1 : list block) (x y : block) (l2 : list block).
Context (Hwf : kheap_wf h (l1 ++ x :: y :: l2)).
Local Abbreviation base := (heap_base h).
Local Abbreviation b := (end_of base l1).
Local Abbreviation n := (b + HDR + bsize x).
Local Abbreviation e := (n + HDR + bsize y).
Local Abbreviation nx := (q_of l2 e 0).
Local Abbreviation m' := (merge_mem b (bsize (join x y)) nx (kmem h)).

Lemma wf_second : kheap_wf h ((l1 ++ [x]) ++ y :: l2).
Proof using Hwf. by rewrite <- app_assoc. Qed.

Lemma merge_bounds :
  0 < b /\ 0 <= bsize x /\ 0 <= bsize y /\ e + HDR * zlen l2 <= heap_end h /\
  heap_end h + HDR + 16 < 0x10000000000000000 /\ (nx = 0 -> l2 = []) /\ (l2 <> [] -> nx = e).
Proof using Hwf.
  pose proof (at_bounds h l1 x _ Hwf) as (B1 & _ & B2 & _).
  pose proof (at_bounds h _ y _ wf_second) as (C1 & _ & C2 & C3 & C4).
  rewrite end_of_app in C1, C3. cbn [end_of] in C1, C3.
  repeat split; try lia.
  - intros E. destruct l2; [done|]. cbn in E. lia.
  - intros E. by destruct l2.
Qed.

Lemma merge_within : within b (b + HDR) (kmem h) m' \/
  (l2 <> [] /\ exists m1, within b (b + HDR) (kmem h) m1 /\ within e (e + HDR) m1 m').
Proof using Hwf.
  destruct merge_bounds as (_ & _ & _ & _ & _ & H1 & H2). unfold merge_mem.
  destruct (Z.eqb_spec nx 0) as [E|E].
  - left. repeat (apply within_st_r; [lia|cbn; lia|]). done.
  - right. assert (Hl : l2 <> []) by (intros ->; done). split; [done|]. rewrite (H2 Hl).
    exists (st64 (st64 (kmem h) (b + BH_size) (bsize (join x y))) (b + BH_next) e). split.
    + by repeat (apply within_st_r; [lia|cbn; lia|]).
    + apply within_st; [lia|cbn; lia].
Qed.

Lemma merge_wf : kheap_wf h{{ kmem := m' }} (l1 ++ join x y :: l2).
Proof using Hwf.
  destruct merge_bounds as (B1 & B2 & B3 & B4 & B5 & B6 & B7).
  pose proof (at_seg h l1 x _ Hwf) as Hs. destruct Hs as (Hx & Hsx & Hy & Hsy & Hl2).
  apply (wf_replace h l1 [x; y] l2 _ [join x y]); [done|done|done|cbn; lia| |].
  - assert (Ee : b + HDR + bsize (join x y) = e) by (cbn [join bsize]; lia).
    set (m1 := st64 (st64 (kmem h) (b + BH_size) (bsize (join x y))) (b + BH_next) nx).
    assert (W1 : within b (b + HDR) (kmem h) m1)
      by (unfold m1; repeat (apply within_st_r; [lia|cbn; lia|]); done).
    assert (Hl1 : seg m1 n e l2 0) by (eapply seg_within; [exact W1|lia|exact Hl2]).
    apply (seg_set_prev _ _ _ _ _ b) in Hl1; [|unfold is_u64, zlen in *; lia].
    assert (Em : m' = if decide (l2 = []) then m1 else st64 m1 (e + BH_prev) b).
    { unfold merge_mem. fold m1. destruct (decide (l2 = [])) as [->|Hne]; [done|].
      by rewrite (B7 Hne), (proj2 (Z.eqb_neq _ 0)) by lia. }
    rewrite <- Em in Hl1. split; [|split].
    + assert (W2 : within e (e + HDR) m1 m').
      { rewrite Em. destruct (decide (l2 = [])); [done|]. apply within_st; [lia|cbn; lia]. }
      apply (header_within m1 m' _ _ _ _ _ _ W2); [lia|]. cbn [app].
      replace (match l2 with [] => 0 | _ => b + HDR + bsize (join x y) end) with nx by (rewrite Ee; by destruct l2).
      destruct Hx as [H1 H2 H3 H4 H5]. unfold m1. split; try (by rewrite !ld_st_ne by lia).
      * rewrite ld_st_ne by lia. apply ld_st_eq. cbn [join bsize]. unfold zlen in *. cbn. lia.
      * apply ld_st_eq. destruct l2; cbn [q_of]; unfold zlen in *; cbn; lia.
    + by apply join_size.
    + rewrite Ee. exact Hl1.
  - assert (0 <= zlen l2) by (unfold zlen; lia).
    destruct merge_within as [W|(Hne & m1 & W1 & W2)].
    + eapply within_mono; [| |exact W]; lia.
    + destruct l2 as [|z l]; [done|]. unfold zlen in B4. cbn [length] in B4.
      transitivity m1; [eapply within_mono; [| |exact W1]; lia|eapply within_mono; [| |exact W2]; lia].
Qed.

(** Only headers are written. *)
Lemma merge_agree : agree (owned base (l1 ++ x :: y :: l2)) (kmem h) m'.
Proof using Hwf.
  pose proof (at_sizes h l1 x _ Hwf) as [S1 S2]. pose proof S2 as [Sy Sl2]%Forall_cons.
  pose proof (at_header h l1 x _ Hwf) as [_ Sx].
  assert (Hb : forall a, b <= a < b + HDR -> ~ owned base (l1 ++ x :: y :: l2) a)
    by (intros a; apply owned_header; [done|by constructor]).
  assert (He : forall a, e <= a < e + HDR -> ~ owned base (l1 ++ x :: y :: l2) a).
  { intros a Ha. replace (l1 ++ x :: y :: l2) with ((l1 ++ [x; y]) ++ l2) by (by rewrite <- app_assoc).
    apply owned_header; [apply Forall_app; split; [done|constructor; [exact Sx|constructor; [exact Sy|constructor]]]|done|].
    rewrite end_of_app. exact Ha. }
  destruct merge_within as [W|(_ & m1 & W1 & W2)]; intros a Ha.
  - apply W. intros Hr. by apply (Hb a).
  - rewrite W2, W1; [done| |]; intros Hr; [by apply (Hb a)|by apply (He a)].
Qed.
End Merge.

(** The turn of the loop is [merge_mem]. *)
Lemma merge_forward_turn fuel h l1 x y l2 :
  kheap_wf h (l1 ++ x :: y :: l2) -> bfree y = true ->
  let b := end_of (heap_base h) l1 in
  let e := b + HDR + bsize x + HDR + bsize y in
  merge_forward (S fuel) b h =
  merge_forward fuel b h{{ kmem := merge_mem b (bsize (join x y)) (q_of l2 e 0) (kmem h) }}.
Proof.
  intros Hwf Hy b e. cbn [merge_forward]. unfold b at 1. rewrite at_mergeable with (1 := Hwf), Hy. fold b.
  destruct (merge_bounds h l1 x y l2 Hwf) as (B1 & B2 & B3 & B4 & B5 & _). fold b e in B1, B4.
  destruct (at_fields h l1 x _ Hwf) as (_ & _ & _ & En & _). fold b in En. cbn [q_of] in En.
  destruct (at_fields h _ y l2 (wf_second h l1 x y l2 Hwf)) as (_ & _ & Es & En2 & _).
  rewrite end_of_app in Es, En2. cbn [end_of] in Es, En2. fold b in Es, En2. fold e in En2.
  assert (0 <= zlen l2) by (unfold zlen; lia).
  rewrite En, Es, (u64_small (b + HDR)) by (unfold is_u64; lia).
  rewrite (u64_small (b + HDR + bsize x + HDR + bsize y)) by (unfold is_u64; lia). fold e.
  rewrite (proj2 (Z.leb_gt e (b + HDR))) by lia. rewrite (proj2 (Z.ltb_ge (heap_end h) e)) by lia. cbn [orb].
  rewrite (u64_small (e - (b + HDR))) by (unfold is_u64; lia).
  replace (e - (b + HDR)) with (bsize (join x y)) by (unfold e; cbn; lia).
  set (h1 := set64 b BH_size _ h).
  assert (E1 : bh_next h1 (b + HDR + bsize x) = q_of l2 e 0)
    by (rewrite <- En2; unfold h1; bh_simpl; reflexivity).
  rewrite E1. set (nx := q_of l2 e 0). set (h2 := set64 b BH_next nx h1).
  assert (E2 : bh_next h2 b = nx).
  { unfold h2, bh_next. rewrite kmem_set64. apply ld_st_eq. unfold nx. destruct l2; cbn; lia. }
  rewrite E2. unfold merge_mem. by destruct (nx =? 0).
Qed.

Lemma agree_step (P Q : Z -> Prop) m m1 m2 :
  agree P m m1 -> (forall a, P a -> Q a) -> agree Q m1 m2 -> agree P m m2.
Proof. intros H1 H H2 a Ha. rewrite H2 by auto. by apply H1. Qed.

Lemma join_owned base l1 x y l2 a :
  size_ok x -> size_ok y -> bfree y = true ->
  owned base (l1 ++ x :: y :: l2) a -> owned base (l1 ++ join x y :: l2) a.
Proof.
  intros [Hx _] [Hsy _] Hy. apply (owned_mid base l1 [x; y] [join x y]); [cbn; lia|].
  intros c. rewrite !owned_cons. cbn [join bfree bsize]. rewrite Hy.
  intros [[Hf Hc]|[[Hf _]|(l' & z & l'' & E & _)]]; [left; split; [done|lia]|done|by destruct l'].
Qed.

Lemma merge_forward_spec fuel h l1 x l2 :
  kheap_wf h (l1 ++ x :: l2) -> (length l2 <= fuel)%nat ->
  exists h', merge_forward fuel (end_of (heap_base h) l1) h = Some h' /\
    kheap_wf h' (l1 ++ absorb x l2) /\ same_bounds h h' /\
    agree (owned (heap_base h) (l1 ++ x :: l2)) (kmem h) (kmem h').
Proof.
  revert h x l2; induction fuel as [|fuel IH]; intros h x l2 Hwf Hl.
  { destruct l2; [|cbn in Hl; lia]. exists h. cbn [merge_forward absorb].
    by rewrite at_mergeable with (1 := Hwf). }
  destruct l2 as [|y l2].
  { exists h. cbn [merge_forward absorb]. by rewrite at_mergeable with (1 := Hwf). }
  cbn [absorb]. destruct (bfree y) eqn:Hy.
  - rewrite merge_forward_turn with (1 := Hwf) by done.
    set (h1 := h{{ kmem := merge_mem _ _ _ _ }}).
    pose proof (merge_wf h l1 x y l2 Hwf) as Hwf1. fold h1 in Hwf1. cbn [length] in Hl.
    destruct (IH h1 (join x y) l2 Hwf1 ltac:(lia)) as (h' & E & W & (B1 & B2 & B3) & A).
    exists h'. split; [exact E|]. split; [exact W|]. split; [done|].
    eapply agree_step; [exact (merge_agree h l1 x y l2 Hwf)| |exact A].
    intros a. apply join_owned; [exact (proj2 (at_header h l1 x _ Hwf))| |done].
    exact (proj2 (at_header h _ y l2 (wf_second h l1 x y l2 Hwf))).
  - exists h. cbn [merge_forward]. rewrite at_mergeable with (1 := Hwf), Hy. done.
Qed.

(** The backward walk stops at the first block of the run of free blocks. *)
Lemma walk_back_spec fuel h l0 zs x l2 :
  kheap_wf h ((l0 ++ zs) ++ x :: l2) -> Forall (fun z => bfree z = true) zs ->
  match last l0 with Some z => bfree z = false | None => True end -> (length zs <= fuel)%nat ->
  walk_back fuel h (end_of (heap_base h) (l0 ++ zs)) = Some (end_of (heap_base h) l0).
Proof.
  revert fuel x l2; induction zs as [|z zs IH] using rev_ind; intros fuel x l2 Hwf Hz Hlast Hl.
  - rewrite app_nil_r in *.
    assert (E : mergeable h (bh_prev h (end_of (heap_base h) l0)) = false).
    { destruct (at_fields h l0 x l2 Hwf) as (_ & _ & _ & _ & ->).
      destruct l0 as [|w l0 _] using rev_ind; [done|]. rewrite last_snoc in Hlast.
      rewrite last_of_app. cbn [last_of]. rewrite <- app_assoc in Hwf. cbn [app] in Hwf.
      destruct (at_fields h l0 w _ Hwf) as (_ & E & _). unfold mergeable. rewrite E, Hlast. cbn.
      by rewrite andb_false_r. }
    destruct fuel; cbn [walk_back]; by rewrite E.
  - rewrite length_app in Hl. cbn [length] in Hl. destruct fuel as [|fuel]; [lia|].
    apply Forall_app in Hz as [Hz Hz1]. apply Forall_cons in Hz1 as [Hz1 _].
    rewrite app_assoc in *. destruct (at_fields h _ x l2 Hwf) as (_ & _ & _ & _ & Ep).
    rewrite <- app_assoc in Hwf. cbn [app] in Hwf.
    destruct (at_fields h _ z _ Hwf) as (E1 & E2 & _). pose proof (at_bounds h _ z _ Hwf) as (Hb & _).
    rewrite last_of_app in Ep. cbn [last_of] in Ep.
    cbn [walk_back]. rewrite Ep. unfold mergeable.
    rewrite E1, E2, Hz1, Z.eqb_refl, b2z_eqb, (proj2 (Z.eqb_neq (end_of (heap_base h) (l0 ++ zs)) 0)) by lia.
    cbn [negb andb]. apply (IH fuel z _ Hwf); [done|done|lia].
Qed.

Definition all_free (l : list block) : Prop := Forall (fun z => bfree z = true) l.
Definition starts_used (l : list block) : Prop := match l with z :: _ => bfree z = false | [] => True end.
Definition ends_used (l : list block) : Prop := match last l with Some z => bfree z = false | None => True end.

Lemma free_prefix l : exists ys l3, l = ys ++ l3 /\ all_free ys /\ starts_used l3.
Proof.
  induction l as [|x l (ys & l3 & -> & Hy & H3)]; [by exists [], []; repeat constructor|].
  destruct (bfree x) eqn:E; [|by exists [], (x :: ys ++ l3); repeat constructor].
  exists (x :: ys), l3. split; [done|]. split; [by constructor|done].
Qed.

Lemma free_suffix l : exists l0 zs, l = l0 ++ zs /\ all_free zs /\ ends_used l0.
Proof.
  induction l as [|x l (l0 & zs & -> & Hz & H0)] using rev_ind; [by exists [], []; repeat constructor|].
  destruct (bfree x) eqn:E.
  - exists l0, (zs ++ [x]). split; [by rewrite app_assoc|]. split; [|done].
    apply Forall_app. split; [done|by constructor].
  - exists ((l0 ++ zs) ++ [x]), []. split; [by rewrite app_nil_r|]. split; [constructor|].
    unfold ends_used. by rewrite last_snoc.
Qed.

Lemma absorb_free x ys l3 :
  all_free ys -> starts_used l3 ->
  absorb x (ys ++ l3) = Block (end_of 0 (x :: ys) - HDR) (bfree x) :: l3.
Proof.
  intros Hy H3. revert x; induction Hy as [|y ys Hf _ IH]; intros x; cbn [app].
  - assert (E : Block (end_of 0 [x] - HDR) (bfree x) = x) by (destruct x; cbn [end_of bsize bfree]; f_equal; lia).
    rewrite E. destruct l3 as [|z l3]; [done|]. cbn in *. by rewrite H3.
  - cbn [absorb]. rewrite Hf, IH. cbn [join bfree end_of bsize].
    by replace (0 + HDR + (bsize x + HDR + bsize y)) with (0 + HDR + bsize x + HDR + bsize y) by lia.
Qed.

Lemma coalesced_around l0 l3 n :
  coalesced l0 -> coalesced l3 -> ends_used l0 -> starts_used l3 ->
  coalesced (l0 ++ Block n true :: l3).
Proof.
  intros H0 H3 He Hs. apply coalesced_app. split; [done|]. split.
  - destruct l3; [done|]. by split.
  - unfold join_ok. unfold ends_used in He. cbn. destruct (last l0); [by rewrite (He : bfree _ = false)|done].
Qed.

(** The guards of [kfree] and [coalesce] on a block of the heap. *)
Lemma in_heap_at h l1 x l2 :
  kheap_wf h (l1 ++ x :: l2) ->
  let b := end_of (heap_base h) l1 in ptr_in_heap h b = true /\ (0 < bsize x -> ptr_in_heap h (b + HDR) = true).
Proof.
  intros Hwf b. pose proof (at_bounds h l1 x l2 Hwf) as (Hb & _ & Hx & He & _). unfold zlen in *.
  fold b in Hb, He. unfold ptr_in_heap.
  split; intros; apply andb_true_iff; split; [apply Z.leb_le|apply Z.ltb_lt|apply Z.leb_le|apply Z.ltb_lt]; lia.
Qed.

Lemma coalesce_spec h l0 zs x ys l3 :
  kheap_wf h ((l0 ++ zs) ++ x :: ys ++ l3) -> bfree x = true ->
  all_free zs -> ends_used l0 -> all_free ys -> starts_used l3 ->
  exists h', coalesce (end_of (heap_base h) (l0 ++ zs)) h = Some h' /\
    kheap_wf h' (l0 ++ Block (end_of 0 (zs ++ x :: ys) - HDR) true :: l3) /\ same_bounds h h' /\
    agree (owned (heap_base h) ((l0 ++ zs) ++ x :: ys ++ l3)) (kmem h) (kmem h').
Proof.
  intros Hwf Hx Hz H0 Hy H3. pose proof (fuel_enough _ _ Hwf) as Hfuel.
  destruct (in_heap_at _ _ _ _ Hwf) as [Hin _]. destruct (at_fields h _ x _ Hwf) as (E1 & E2 & _).
  pose proof (at_bounds h _ x _ Hwf) as (Hb & _).
  unfold coalesce. rewrite Hin, E1, E2, Hx, Z.eqb_refl, (proj2 (Z.eqb_neq (end_of _ _) 0)) by lia.
  cbn [negb orb Z.b2z Z.eqb].
  rewrite walk_back_spec with (1 := Hwf) by (try done; rewrite !length_app in Hfuel; lia). cbn [mbind option_bind].
  assert (Hl : exists w r, zs ++ x :: ys = w :: r /\ bfree w = true /\ all_free r).
  { assert (Ha : all_free (zs ++ x :: ys)) by (apply Forall_app; split; [done|by constructor]).
    destruct (zs ++ x :: ys) as [|w r] eqn:E; [by destruct zs|]. apply Forall_cons in Ha. by exists w, r. }
  destruct Hl as (w & r & El & Hw & Hr).
  assert (Ell : (l0 ++ zs) ++ x :: ys ++ l3 = l0 ++ w :: r ++ l3).
  { rewrite <- app_assoc. f_equal. change (x :: ys ++ l3) with ((x :: ys) ++ l3). by rewrite app_assoc, El. }
  rewrite Ell in *. rewrite El.
  destruct (merge_forward_spec (kheap_fuel h) h l0 w (r ++ l3) Hwf) as (h' & E & W & B & A).
  { rewrite length_app in Hfuel. cbn [length] in Hfuel. lia. }
  exists h'. split; [exact E|]. by rewrite absorb_free, Hw in W.
Qed.

Lemma coalesced_parts l1 x l2 : coalesced (l1 ++ x :: l2) -> coalesced l1 /\ coalesced l2.
Proof.
  intros (H1 & H2 & _)%coalesced_app. split; [done|]. destruct l2; [done|]. by destruct H2.
Qed.

(** Up to the merge. *)
Lemma kfree_eq h l1 x l2 :
  kheap_wf h (l1 ++ x :: l2) -> 0 < bsize x ->
  let b := end_of (heap_base h) l1 in
  kfree (b + HDR) h = if bfree x then Some h else coalesce b (set32 b BH_is_free 1 h).
Proof.
  intros Hwf Hx b. destruct (in_heap_at _ _ _ _ Hwf) as [Hin Hin2]. fold b in Hin, Hin2.
  pose proof (at_bounds h _ x _ Hwf) as (Hb & _ & _ & He & Ht). fold b in Hb, He.
  destruct (at_fields h _ x _ Hwf) as (E1 & E2 & _). fold b in E1, E2.
  assert (0 <= zlen l2) by (unfold zlen; lia).
  unfold kfree. rewrite Hin2 by done. replace (b + HDR - HDR) with b by lia.
  rewrite u64_small by (unfold is_u64; lia).
  rewrite Hin, E1, E2, Z.eqb_refl, b2z_eqb, negb_involutive, (proj2 (Z.eqb_neq (b + HDR) 0)) by lia.
  by destruct (bfree x).
Qed.

Lemma kfree_spec h l0 zs x ys l3 :
  kheap_ok h ((l0 ++ zs) ++ x :: ys ++ l3) -> 0 < bsize x -> bfree x = false ->
  all_free zs -> ends_used l0 -> all_free ys -> starts_used l3 ->
  exists h', kfree (end_of (heap_base h) (l0 ++ zs) + HDR) h = Some h' /\
    kheap_ok h' (l0 ++ Block (end_of 0 (zs ++ x :: ys) - HDR) true :: l3) /\ same_bounds h h' /\
    agree (owned (heap_base h) ((l0 ++ zs) ++ Block (bsize x) true :: ys ++ l3)) (kmem h) (kmem h').
Proof.
  intros [Hwf Hco] Hx Hf Hz H0 Hy H3. rewrite (kfree_eq h (l0 ++ zs) x (ys ++ l3)) by done. rewrite Hf.
  destruct (set_free_wf h _ x _ Hwf true) as [Hwf1 Hw1]. cbn [Z.b2z] in Hwf1, Hw1.
  set (h1 := set32 _ BH_is_free 1 h) in *.
  destruct (coalesced_parts _ _ _ Hco) as [C1 C2].
  pose proof (at_sizes h _ x _ Hwf) as [S1 S2].
  destruct (coalesce_spec h1 l0 zs (Block (bsize x) true) ys l3 Hwf1) as (h' & E & W & B & A); try done.
  exists h'. split; [exact E|]. split; [split|split; [exact B|]].
  - assert (Ee : end_of 0 (zs ++ Block (bsize x) true :: ys) = end_of 0 (zs ++ x :: ys))
      by (rewrite !end_of_app; reflexivity).
    by rewrite Ee in W.
  - apply coalesced_app in C1 as (C1 & _), C2 as (_ & C2 & _). by apply coalesced_around.
  - intros a Ha. rewrite (A a) by exact Ha. apply Hw1. intros Hr.
    apply (owned_header (heap_base h) (l0 ++ zs) (Block (bsize x) true :: ys ++ l3) a) in Ha; [done|done| |exact Hr].
    constructor; [|done]. exact (proj2 (at_header h _ x _ Hwf)).
Qed.

(** C6: release.  On a well-formed heap [kfree] of the payload of an allocated
    block always returns: the block and the free blocks on both sides of it become
    one free block of their whole extent (headers included), the other blocks
    stay, no two neighbours are free, and no byte of another allocated block's
    payload changes.  [kfree] of a block that is already free does nothing. *)
Theorem kfree_merges (h : kheap) (l1 : list block) (x : block) (l2 : list block) :
  kheap_ok h (l1 ++ x :: l2) -> 0 < bsize x ->
  let p := end_of (heap_base h) l1 + HDR in
  if bfree x then kfree p h = Some h
  else exists l0 zs ys l3 h', l1 = l0 ++ zs /\ l2 = ys ++ l3 /\ all_free zs /\ all_free ys /\
    kfree p h = Some h' /\
    kheap_ok h' (l0 ++ Block (end_of 0 (zs ++ x :: ys) - HDR) true :: l3) /\ same_bounds h h' /\
    agree (owned (heap_base h) (l1 ++ Block (bsize x) true :: l2)) (kmem h) (kmem h').
Proof.
  intros Hok Hx p. pose proof Hok as [Hwf _]. destruct (bfree x) eqn:Hf.
  - unfold p. by rewrite (kfree_eq h l1 x l2 Hwf Hx), Hf.
  - destruct (free_suffix l1) as (l0 & zs & -> & Hz & H0), (free_prefix l2) as (ys & l3 & -> & Hy & H3).
    destruct (kfree_spec h l0 zs x ys l3 Hok Hx Hf Hz H0 Hy H3) as (h' & H).
    by exists l0, zs, ys, l3, h'.
Qed.

Lemma end_of_shift a l : end_of a l = a + end_of 0 l.
Proof.
  revert a; induction l as [|x l IH]; intros a; cbn [end_of]; [lia|].
  rewrite IH, (IH (0 + HDR + bsize x)). lia.
Qed.

Lemma coalesced_around_free l1 x l2 :
  coalesced (l1 ++ x :: l2) -> bfree x = true -> ends_used l1 /\ starts_used l2.
Proof.
  intros (_ & H2 & H3)%coalesced_app Hx. split.
  - unfold ends_used, join_ok in *. cbn in H3. destruct (last l1); [|done].
    rewrite Hx, andb_true_r in H3. done.
  - destruct l2; [done|]. cbn in H2 |- *. rewrite Hx in H2. tauto.
Qed.

(** [kmalloc] then [kfree] gives back the list of blocks. *)
Theorem kmalloc_kfree (h : kheap) (l : list block) (size p : Z) (h1 : kheap) :
  kheap_ok h l -> 0 < size -> size + 15 < 0x10000000000000000 ->
  kmalloc size h = Some (p, h1) -> p <> 0 ->
  exists h2, kfree p h1 = Some h2 /\ kheap_ok h2 l /\ agree (owned (heap_base h) l) (kmem h) (kmem h2).
Proof.
  intros Hok Hs Hs2 E Hp. pose proof Hok as [Hwf Hco].
  destruct (kmalloc_eq h l size Hok Hs Hs2) as [[_ E']|(l1 & x & l2 & -> & _ & Hx & Hle & E')];
    [congruence|]. rewrite E' in E. injection E as <- <-. clear E' Hp.
  set (want := (size + 15) / 16 * 16) in *.
  assert (Hw : 0 < want /\ want mod 16 = 0) by (unfold want; Z.div_mod_to_equations; lia).
  destruct (kmalloc_take h l1 x l2 want Hok Hx ltac:(lia) ltac:(lia)) as (Hok1 & (_ & Eb & _) & A1).
  set (h1 := set32 _ _ 0 _) in *. destruct (coalesced_around_free _ _ _ Hco Hx) as [Hu1 Hu2].
  assert (Hxe : Block (bsize x) true = x) by (destruct x; cbn in Hx |- *; by rewrite Hx).
  assert (Hout : forall ys, all_free ys -> end_of 0 ys = HDR + bsize x -> forall a,
      owned (heap_base h) (l1 ++ x :: l2) a -> owned (heap_base h) (l1 ++ ys ++ l2) a).
  { intros ys Hy He a. apply (owned_mid _ l1 [x] ys).
    - rewrite (end_of_shift _ ys), He. cbn. lia.
    - intros c [[Hf _]|(l' & z & l'' & E & _)]%owned_cons; [congruence|by destruct l']. }
  unfold taken in Hok1. destruct (Z.leb_spec (bsize x - want) (HDR + 16)).
  - destruct (kfree_spec h1 l1 [] (Block (bsize x) false) [] l2) as (h2 & E2 & W2 & _ & A2); try done; try (by repeat constructor).
    { by rewrite app_nil_r. } { cbn. lia. }
    rewrite app_nil_r, Eb in *. exists h2. split; [exact E2|]. cbn [app end_of bsize] in W2, A2.
    replace (0 + HDR + bsize x - HDR) with (bsize x) in W2 by lia. rewrite Hxe in *.
    split; [exact W2|]. by eapply agree_step; [exact A1| |exact A2].
  - set (r := Block (bsize x - want - HDR) true) in *.
    destruct (kfree_spec h1 l1 [] (Block want false) [r] l2) as (h2 & E2 & W2 & _ & A2); try done; try (by repeat constructor).
    { by rewrite app_nil_r. } { cbn. lia. }
    rewrite app_nil_r, Eb in *. exists h2. split; [exact E2|]. cbn [app end_of bsize r] in W2, A2.
    replace (0 + HDR + want + HDR + (bsize x - want - HDR) - HDR) with (bsize x) in W2 by lia.
    rewrite Hxe in W2. split; [exact W2|]. eapply agree_step; [exact A1| |exact A2].
    apply (Hout [Block want true; r]); [by repeat constructor|cbn; lia].
Qed.

(** ** Initialisation and accounting *)

Lemma ALIGN_DOWN_16 x : 0 <= x -> ALIGN_DOWN x 16 = x / 16 * 16.
Proof.
  intros H. unfold ALIGN_DOWN. change (16 - 1) with (Z.ones 4).
  rewrite <- Z.ldiff_land, Z.ldiff_ones_r by lia. by rewrite Z.shiftl_mul_pow2, Z.shiftr_div_pow2 by lia.
Qed.

Lemma kheap_init_ok h start size :
  0 < start -> 0 <= size -> start + size + HDR + 16 < 0x10000000000000000 ->
  let base := (start + 15) / 16 * 16 in
  let end_ := (start + size) / 16 * 16 in
  base + HDR + 16 < end_ ->
  kheap_ok (kheap_init start size h) [Block (end_ - base - HDR) true] /\
  heap_base (kheap_init start size h) = base /\ heap_end (kheap_init start size h) = end_.
Proof.
  intros H1 H2 H3 base end_ H4. unfold kheap_init.
  rewrite (proj2 (Z.eqb_neq start 0)), ALIGN_UP_16 by lia.
  rewrite (u64_small (start + size)) by (unfold is_u64; lia). rewrite ALIGN_DOWN_16 by lia.
  fold base end_. assert (Hb : 0 < base /\ base mod 16 = 0 /\ end_ <= start + size /\ end_ mod 16 = 0)
    by (unfold base, end_; Z.div_mod_to_equations; lia).
  rewrite (u64_small (base + HDR)) by (unfold is_u64; lia).
  rewrite (u64_small (base + HDR + 16)) by (unfold is_u64; lia).
  rewrite (proj2 (Z.leb_gt end_ _)) by lia. rewrite (u64_small (end_ - base - HDR)) by (unfold is_u64; lia).
  split; [|done]. split; [|done]. split; try done.
  - change (0 < base /\ base mod 16 = 0). lia.
  - cbn [seg]. split; [|split; [|done]].
    + match goal with |- header _ ?a _ _ _ => change a with base end. split; repeat first [rewrite kmem_set32 | rewrite kmem_set64]; cbn [bsize bfree Z.b2z]; mem_simpl; reflexivity.
    + split; cbn [bsize]; [lia|]. Z.div_mod_to_equations. lia.
  - cbn [end_of bsize]. change (base + HDR + (end_ - base - HDR) = end_). lia.
  - change (end_ + HDR + 16 < 0x10000000000000000). lia.
Qed.



Definition free_bytes (l : list block) : Z := zsum (map (fun x => if bfree x then bsize x else 0) l).

Lemma free_bytes_le a l : Forall size_ok l -> 0 <= free_bytes l <= end_of a l - a.
Proof.
  intros Hl; revert a; induction Hl as [|x l [Hx _] Hl IH]; intros a; [cbn; lia|].
  unfold free_bytes in *. cbn [map end_of]. change (zsum (?z :: ?l)) with (z + zsum l).
  specialize (IH (a + HDR + bsize x)). destruct (bfree x); lia.
Qed.

Lemma free_walk_spec fuel h l1 l2 total :
  kheap_wf h (l1 ++ l2) -> (length l2 <= fuel)%nat -> 0 <= total ->
  total + free_bytes l2 < 0x10000000000000000 ->
  free_walk fuel h (q_of l2 (end_of (heap_base h) l1) 0) total = Some (total + free_bytes l2).
Proof.
  revert l1 l2 total; induction fuel as [|fuel IH]; intros l1 l2 total Hwf Hl Ht Hs.
  { destruct l2; [|cbn in Hl; lia]. cbn. by rewrite Z.add_0_r. }
  destruct l2 as [|x l2]; [cbn; by rewrite Z.add_0_r|].
  destruct (at_fields h l1 x l2 Hwf) as (E1 & E2 & E3 & E4 & _).
  pose proof (at_bounds h l1 x l2 Hwf) as (Hb & _ & Hx & _).
  pose proof (at_sizes h l1 x l2 Hwf) as [_ S2]. pose proof (free_bytes_le 0 l2 S2) as Hf2.
  replace (l1 ++ x :: l2) with ((l1 ++ [x]) ++ l2) in Hwf by (by rewrite <- app_assoc).
  unfold free_bytes in *. cbn [map] in Hs |- *. change (zsum (?z :: ?l)) with (z + zsum l) in Hs |- *.
  cbn [q_of free_walk length] in Hl |- *.
  rewrite E1, E2, E3, E4, Z.eqb_refl, b2z_eqb, (proj2 (Z.eqb_neq (end_of _ _) 0)) by lia. cbn [negb orb].
  specialize (IH (l1 ++ [x]) l2). rewrite end_of_app in IH. cbn [end_of] in IH.
  rewrite IH; [| |lia| |].
  - f_equal. destruct (bfree x); cbn [negb]; [rewrite u64_small by (unfold is_u64; lia)|]; lia.
  - exact Hwf.
  - destruct (bfree x); cbn [negb]; [rewrite u64_small by (unfold is_u64; lia)|]; lia.
  - destruct (bfree x); cbn [negb]; [rewrite u64_small by (unfold is_u64; lia)|]; lia.
Qed.

Theorem kheap_free_size_ok h l : kheap_wf h l -> kheap_free_size h = Some (free_bytes l).
Proof.
  intros Hwf. pose proof (fuel_enough h l Hwf) as Hf. pose proof (seg_sizes _ _ _ _ _ (kh_seg _ _ Hwf)) as Hs.
  pose proof (free_bytes_le (heap_base h) l Hs) as Hb. rewrite (kh_end _ _ Hwf) in Hb.
  pose proof (kh_top _ _ Hwf). pose proof (kh_base _ _ Hwf).
  pose proof (free_walk_spec (kheap_fuel h) h [] l 0 Hwf Hf ltac:(lia) ltac:(lia)) as E.
  unfold kheap_free_size. rewrite (kh_start _ _ Hwf).
  replace (q_of l (end_of (heap_base h) []) 0) with (heap_base h) in E
    by (pose proof (kh_some _ _ Hwf); by destruct l).
  exact E.
Qed.

Lemma first_split {A} (P : A -> bool) l1 x l2 l3 y l4 :
  Forall (fun z => P z = false) l1 -> P x = true -> Forall (fun z => P z = false) l3 -> P y = true ->
  l1 ++ x :: l2 = l3 ++ y :: l4 -> l3 = l1 /\ y = x /\ l4 = l2.
Proof.
  intros H1 Hx; revert l3; induction H1 as [|z l1 Hz H1 IH]; intros l3 H3 Hy E.
  - destruct l3 as [|w l3]; [by injection E as -> ->|]. injection E as <- _.
    apply Forall_cons in H3 as [H3 _]. congruence.
  - destruct H3 as [|w l3 Hw H3]; injection E as E1 E; [congruence|].
    destruct (IH l3 H3 Hy E) as (-> & -> & ->). by subst.
Qed.

Lemma heap_base_set32 a f v h : heap_base (set32 a f v h) = heap_base h.
Proof. done. Qed.

(** A request within 14 bytes of [SIZE_MAX] rounds up to 0: instead of failing,
    [kmalloc] hands out the first free block cut down to an empty payload. *)
Lemma kmalloc_wraps h l1 x l2 size :
  kheap_wf h (l1 ++ x :: l2) -> Forall (fun y => bfree y = false) l1 -> bfree x = true ->
  0x10000000000000000 - 15 <= size < 0x10000000000000000 ->
  exists h', kmalloc size h = Some (end_of (heap_base h) l1 + HDR, h') /\
    (HDR + 16 < bsize x -> bh_size h' (end_of (heap_base h) l1) = 0).
Proof.
  intros Hwf Hl1 Hx Hs. pose proof (fuel_enough _ _ Hwf) as Hf.
  assert (Ea : ALIGN_UP size 16 = 0).
  { unfold ALIGN_UP. replace (u64 (size + (16 - 1))) with (size + 15 - 0x10000000000000000).
    - change (16 - 1) with (Z.ones 4). rewrite <- Z.ldiff_land, Z.ldiff_ones_r by lia.
      rewrite Z.shiftl_mul_pow2, Z.shiftr_div_pow2 by lia. rewrite (Z.div_small _ (2 ^ 4)) by (cbn; lia). done.
    - unfold u64. Z.div_mod_to_equations. lia. }
  unfold kmalloc. rewrite (kh_start _ _ Hwf), Ea. destruct (kh_base _ _ Hwf) as [Hb _].
  rewrite !(proj2 (Z.eqb_neq _ 0)) by lia. cbn [orb].
  pose proof (kmalloc_walk_spec 0 h [] (l1 ++ x :: l2) (kheap_fuel h) Hwf Hf) as Hwalk. cbv zeta in Hwalk.
  replace (q_of (l1 ++ x :: l2) (end_of (heap_base h) []) 0) with (heap_base h) in Hwalk by (by destruct l1).
  pose proof (at_bounds h l1 x l2 Hwf) as (Hb1 & _ & Hx0 & He & Ht).
  assert (Hfit : fits 0 x = true) by (unfold fits; rewrite Hx; cbn; by apply Z.leb_le).
  destruct Hwalk as [[Hn _]|(l3 & y & l4 & El & Hn & Hy & ->)].
  { apply Forall_app in Hn as [_ [Hn _]%Forall_cons]. congruence. }
  destruct (first_split (fits 0) l1 x l2 l3 y l4) as (-> & -> & ->); [|done|done|done|done|].
  { eapply Forall_impl; [exact Hl1|]. intros z Hz. unfold fits. by rewrite Hz. }
  cbn [app]. eexists. split; [reflexivity|]. intros Hbig.
  destruct (split_block_wf h l1 x l2 Hwf 0 ltac:(lia) eq_refl) as (Hwf1 & (_ & Eb & _) & _).
  unfold pieces in Hwf1. rewrite (proj2 (Z.leb_gt _ _)) in Hwf1 by lia.
  destruct (set_free_wf _ l1 (Block 0 (bfree x)) (Block (bsize x - 0 - HDR) true :: l2) Hwf1 false) as [Hwf2 _].
  rewrite Eb in Hwf2. destruct (at_fields _ _ _ _ Hwf2) as (_ & _ & E & _).
  rewrite heap_base_set32, Eb in E. exact E.
Qed.

(** ** Witnesses *)

(** A heap of 64 KiB less 1, at an address that is not aligned. *)
Definition witness_heap : kheap := kheap_init 0x200001 0xffff (Kheap ∅ 0 0 0).
Lemma witness_heap_ok :
  kheap_ok witness_heap [Block 65472 true] /\ heap_base witness_heap = 0x200010 /\
  heap_end witness_heap = 0x210000.
Proof. exact (kheap_init_ok (Kheap ∅ 0 0 0) 0x200001 0xffff eq_refl ltac:(lia) eq_refl eq_refl). Qed.

(** After one allocation of 100 bytes there. *)
Definition witness_heap1 : kheap :=
  set32 0x200010 BH_is_free 0 (split_block 0x200010 112 witness_heap).
Lemma witness_heap1_ok :
  kheap_ok witness_heap1 [Block 112 false; Block 65312 true] /\ heap_base witness_heap1 = 0x200010.
Proof.
  destruct witness_heap_ok as (Hok & Eb & _).
  destruct (kmalloc_take witness_heap [] (Block 65472 true) [] 112 Hok eq_refl) as (H & (_ & E & _) & _);
    [cbn; lia|reflexivity|].
  cbn [end_of] in H, E. rewrite Eb in H, E. unfold taken in H. cbn in H. by split.
Qed.

Lemma kmalloc_first_fit_witness :
  (exists p h', kmalloc 100 witness_heap = Some (p, h')).
Proof.
  destruct (kmalloc_first_fit witness_heap [Block 65472 true] 100 (proj1 witness_heap_ok) ltac:(lia) eq_refl)
    as [(l1 & x & l2 & p & h' & _ & _ & _ & E & _)|[_ E]]; eauto.
Defined.

Lemma kfree_merges_witness :
  exists h', kfree 0x200040 witness_heap1 = Some h' /\ kheap_ok h' [Block 65472 true].
Proof.
  destruct witness_heap1_ok as [Hok Eb].
  pose proof (kfree_merges witness_heap1 [] (Block 112 false) [Block 65312 true] Hok ltac:(reflexivity)) as H.
  cbv zeta in H. cbn [bfree end_of] in H. rewrite Eb in H.
  destruct H as (l0 & zs & ys & l3 & h' & E1 & E2 & Hz & Hy & E & W & _).
  symmetry in E1. apply app_nil in E1 as [-> ->]. exists h'. split; [exact E|].
  destruct ys as [|y ys].
  - cbn in E2. subst l3. destruct W as [_ [Hf _]]. done.
  - injection E2 as <- E3. symmetry in E3. apply app_nil in E3 as [-> ->]. exact W.
Defined.
