(* ===== verification/Vmm.v ===== *)
(** kernel/mm/vmm.c and vmm.h: the two-level page tables of the 32-bit kernel.

    Page directories and tables are words of memory, reached as the code reaches
    them, through the kernel's mapping of physical memory at 0xC0000000; the page
    tables come from the allocator of Pmm.v.  [walk] is the translation the
    processor makes of a directory (4 KB pages through a table, 4 MB pages in the
    directory itself); the operations are proved to act on it as on a map from
    pages to entries.  The model's memory is the kernel's view: a program that
    unmaps the kernel's own window is outside it. *)

From S2P Require Import Prelude Mem Bitmap Trace Pmm.

Definition KERNEL_VBASE : Z := 0xC0000000.
Definition KERNEL_VBASE_PDE : Z := Z.shiftr KERNEL_VBASE 22.
Definition PAGE_ENTRIES : Z := 1024.
Definition PDE_INDEX (va : Z) : Z := Z.land (Z.shiftr va 22) 0x3FF.
Definition PTE_INDEX (va : Z) : Z := Z.land (Z.shiftr va 12) 0x3FF.
Definition PAGE_OFFSET (va : Z) : Z := Z.land va 0xFFF.

Definition PTE_PRESENT : Z := 0x1.
Definition PTE_WRITABLE : Z := 0x2.
Definition PTE_USER : Z := 0x4.
Definition PTE_PSE : Z := 0x80.
Definition PTE_GLOBAL : Z := 0x100.
Definition PTE_USER_RW : Z := Z.lor (Z.lor PTE_PRESENT PTE_WRITABLE) PTE_USER.

Definition PTE_ADDR (entry : Z) : Z := Z.land entry 0xFFFFF000.
Definition MAKE_PTE (paddr flags : Z) : Z := Z.lor (Z.land paddr 0xFFFFF000) flags.

Definition phys_to_virt (paddr : Z) : Z := paddr +u KERNEL_VBASE.
Definition virt_to_phys (vaddr : Z) : Z := vaddr -u KERNEL_VBASE.

(** What the code asks of the processor, newest first. *)
Inductive cpu_op := Invlpg (vaddr : Z) | WriteCr3 (paddr : Z).

Record vmm (W : Type) := Vmm {
  v_pmm : pmm W;
  v_mem : mem;                 (* the kernel's mapping of physical memory *)
  cr3 : Z;
  current_pd_phys : Z;
  cpu_ops : list cpu_op
}.
Arguments Vmm {W}.
Arguments v_pmm {W}.
Arguments v_mem {W}.
Arguments cr3 {W}.
Arguments current_pd_phys {W}.
Arguments cpu_ops {W}.
#[export] Instance vmm_eta W : Eta (vmm W) := fun s =>
  Vmm (v_pmm s) (v_mem s) (cr3 s) (current_pd_phys s) (cpu_ops s).

(** [entries[i]] of the table or directory at a virtual address. *)
Definition entry (m : mem) (tab i : Z) : Z := ld32 m (tab + 4 * i).
Definition set_entry (tab i v : Z) (m : mem) : mem := st32 m (tab + 4 * i) v.

Definition has (e flag : Z) : bool := negb (Z.land e flag =? 0).

Section Vmm.
Context {W : Type} `{Trace W}.
Implicit Types s : vmm W.

Definition read_cr3 (s : vmm W) : Z := cr3 s.
Definition write_cr3 (v : Z) (s : vmm W) : vmm W := s{{ cr3 := v; cpu_ops ::= cons (WriteCr3 v) }}.
Definition vmm_invlpg (vaddr : Z) (s : vmm W) : vmm W := s{{ cpu_ops ::= cons (Invlpg vaddr) }}.
Definition vmm_flush_tlb (s : vmm W) : vmm W := write_cr3 (read_cr3 s) s.

Definition vmm_init (s : vmm W) : vmm W :=
  let s := s{{ current_pd_phys := Z.land (read_cr3 s) 0xFFFFF000 }} in
  let pd := phys_to_virt (current_pd_phys s) in
  let s := s{{ v_mem ::= for_range 0 32 (fun i =>
      set_entry pd (KERNEL_VBASE_PDE + i)
        (MAKE_PTE (i *u 0x400000) (Z.lor (Z.lor (Z.lor PTE_PRESENT PTE_WRITABLE) PTE_PSE) PTE_GLOBAL))) }} in
  s{{ v_pmm ::= pmm_log TRACE_EVT_BOOT 0 0 0xC0DE }}.

Definition vmm_get_current_pd (s : vmm W) : Z := current_pd_phys s.

Definition vmm_switch_pd (pd_phys : Z) (s : vmm W) : vmm W :=
  write_cr3 pd_phys s{{ current_pd_phys := pd_phys }}.

(** The directory [map], [unmap] and [virt_to_phys] work on. *)
Definition active_pd (s : vmm W) : Z := phys_to_virt (Z.land (read_cr3 s) 0xFFFFF000).

(** The page table for a directory entry, made if there is none: [false] when the
    allocator has no page left. *)
Definition ensure_table (pde_idx : Z) (s : vmm W) : bool * vmm W :=
  let pd := active_pd s in
  if has (entry (v_mem s) pd pde_idx) PTE_PRESENT then (true, s)
  else
    let '(pt_phys, p) := pmm_alloc_page NUMA_NODE_LOCAL (v_pmm s) in
    let s := s{{ v_pmm := p }} in
    if pt_phys =? 0 then (false, s)
    else
      let pt := phys_to_virt pt_phys in
      let s := s{{ v_mem ::= for_range 0 PAGE_ENTRIES (fun i => set_entry pt i 0) }} in
      (true, s{{ v_mem ::= set_entry pd pde_idx
               (MAKE_PTE pt_phys (Z.lor (Z.lor PTE_PRESENT PTE_WRITABLE) PTE_USER)) }}).

(** Replacing a mapping of the page and making a new one are the same writes; the
    code tells them apart for a warning on the console. *)
Definition vmm_map_page (vaddr paddr flags : Z) (s : vmm W) : Z * vmm W :=
  let pde_idx := PDE_INDEX vaddr in
  let pte_idx := PTE_INDEX vaddr in
  let pd := active_pd s in
  let '(ok, s) := ensure_table pde_idx s in
  if negb ok then (-1, s)
  else
    let pt := phys_to_virt (PTE_ADDR (entry (v_mem s) pd pde_idx)) in
    let old := entry (v_mem s) pt pte_idx in
    if has old PTE_PRESENT && (PTE_ADDR old =? Z.land paddr 0xFFFFF000)
    then (0, vmm_invlpg vaddr s{{ v_mem ::= set_entry pt pte_idx (MAKE_PTE paddr flags) }})
    else (0, vmm_invlpg vaddr s{{ v_mem ::= set_entry pt pte_idx (MAKE_PTE paddr flags) }}).

Fixpoint map_pages (n : nat) (va pa flags : Z) (s : vmm W) : Z * vmm W :=
  match n with
  | O => (0, s)
  | S n =>
      let '(r, s) := vmm_map_page va pa flags s in
      if negb (r =? 0) then (-1, s)
      else map_pages n (va +u PAGE_SIZE) (pa +u PAGE_SIZE) flags s
  end.

Definition vmm_map_range (vaddr paddr size flags : Z) (s : vmm W) : Z * vmm W :=
  let va := Z.land vaddr (u32 (Z.lnot (PAGE_SIZE - 1))) in
  let pa := Z.land paddr (u32 (Z.lnot (PAGE_SIZE - 1))) in
  let pages := (size +u PAGE_SIZE -u 1) / PAGE_SIZE in
  map_pages (Z.to_nat pages) va pa flags s.

Definition vmm_unmap_page (vaddr : Z) (s : vmm W) : Z * vmm W :=
  let pd := active_pd s in
  let pde := entry (v_mem s) pd (PDE_INDEX vaddr) in
  if negb (has pde PTE_PRESENT) then (0, s)
  else
    let pt := phys_to_virt (PTE_ADDR pde) in
    let pte := entry (v_mem s) pt (PTE_INDEX vaddr) in
    if negb (has pte PTE_PRESENT) then (0, s)
    else (PTE_ADDR pte, vmm_invlpg vaddr s{{ v_mem ::= set_entry pt (PTE_INDEX vaddr) 0 }}).

Definition vmm_virt_to_phys (vaddr : Z) (s : vmm W) : Z :=
  let pde := entry (v_mem s) (active_pd s) (PDE_INDEX vaddr) in
  if negb (has pde PTE_PRESENT) then 0
  else
    let pte := entry (v_mem s) (phys_to_virt (PTE_ADDR pde)) (PTE_INDEX vaddr) in
    if negb (has pte PTE_PRESENT) then 0
    else Z.lor (PTE_ADDR pte) (PAGE_OFFSET vaddr).

Definition vmm_is_mapped (vaddr : Z) (s : vmm W) : bool := negb (vmm_virt_to_phys vaddr s =? 0).

Definition vmm_create_user_pd (s : vmm W) : Z * vmm W :=
  let '(pd_phys, p) := pmm_alloc_page NUMA_NODE_LOCAL (v_pmm s) in
  let s := s{{ v_pmm := p }} in
  if pd_phys =? 0 then (0, s)
  else
    let new_pd := phys_to_virt pd_phys in
    let kernel_pd := phys_to_virt (current_pd_phys s) in
    let copy i m := set_entry new_pd i (entry m kernel_pd i) m in
    let s := s{{ v_mem ::= for_range 1 KERNEL_VBASE_PDE (fun i => set_entry new_pd i 0) }} in
    let s := s{{ v_mem ::= copy 0 }} in
    let s := s{{ v_mem ::= for_range KERNEL_VBASE_PDE PAGE_ENTRIES copy }} in
    (pd_phys, s).

(** The pages a table maps, then the table, go back to the allocator. *)
Definition free_table (m : mem) (pt_phys : Z) (p : pmm W) : pmm W :=
  let pt := phys_to_virt pt_phys in
  let p := for_range 0 PAGE_ENTRIES (fun i p =>
    if has (entry m pt i) PTE_PRESENT then pmm_free_page (PTE_ADDR (entry m pt i)) p else p) p in
  pmm_free_page pt_phys p.

Definition vmm_destroy_user_pd (pd_phys : Z) (s : vmm W) : vmm W :=
  let pd := phys_to_virt pd_phys in
  let m := v_mem s in
  let s := s{{ v_pmm ::= for_range 0 KERNEL_VBASE_PDE (fun i p =>
    let pde := entry m pd i in
    if has pde PTE_PRESENT && negb (has pde PTE_PSE) then free_table m (PTE_ADDR pde) p else p) }} in
  s{{ v_pmm ::= pmm_free_page pd_phys }}.
End Vmm.

(** ** Entries *)

Lemma PTE_ADDR_eq e : is_u32 e -> PTE_ADDR e = 4096 * (e / 4096).
Proof.
  intros He. unfold PTE_ADDR. change 0xFFFFF000 with (Z.ldiff (Z.ones 32) (Z.ones 12)).
  rewrite Z.ldiff_land, Z.land_assoc, Z.land_ones by lia. unfold is_u32 in He.
  rewrite (Z.mod_small e) by (cbn; lia). rewrite <- Z.ldiff_land, Z.ldiff_ones_r by lia.
  rewrite Z.shiftl_mul_pow2, Z.shiftr_div_pow2 by lia. apply Z.mul_comm.
Qed.

Lemma high_low a b : 0 <= b < 4096 -> Z.land (4096 * a) b = 0.
Proof.
  intros Hb. change 4096 with (2 ^ 12). rewrite Z.mul_comm, <- Z.shiftl_mul_pow2 by lia.
  apply Z.bits_inj'. intros k Hk. rewrite Z.land_spec, Z.bits_0, Z.shiftl_spec by lia.
  destruct (Z.ltb_spec k 12); [by rewrite (Z.testbit_neg_r a) by lia|].
  rewrite <- (Z.mod_small b (2 ^ 12)) by (cbn; lia). rewrite Z.mod_pow2_bits_high by lia. apply andb_false_r.
Qed.

Lemma lor_low a b : 0 <= b < 4096 -> Z.lor (4096 * a) b = 4096 * a + b.
Proof.
  intros Hb. rewrite Z.add_nocarry_lxor, Z.lxor_lor by (by apply high_low). done.
Qed.

Lemma MAKE_PTE_eq p fl : is_u32 p -> 0 <= fl < 4096 -> MAKE_PTE p fl = 4096 * (p / 4096) + fl.
Proof.
  intros Hp Hf. unfold MAKE_PTE. fold (PTE_ADDR p). rewrite PTE_ADDR_eq by done. by apply lor_low.
Qed.

Lemma has_low e k : 0 <= k < 12 -> has e (2 ^ k) = has (e mod 4096) (2 ^ k).
Proof.
  intros Hk. unfold has. do 2 f_equal. apply Z.bits_inj'. intros j Hj. rewrite !Z.land_spec.
  rewrite Z.pow2_bits_eqb by lia. destruct (Z.eqb_spec k j) as [<-|]; [|by rewrite !andb_false_r].
  rewrite !andb_true_r. change 4096 with (2 ^ 12). by rewrite Z.mod_pow2_bits_low by lia.
Qed.

Lemma has_make p fl k : is_u32 p -> 0 <= fl < 4096 -> 0 <= k < 12 -> has (MAKE_PTE p fl) (2 ^ k) = has fl (2 ^ k).
Proof.
  intros Hp Hf Hk. rewrite MAKE_PTE_eq by done. rewrite has_low by done.
  f_equal. rewrite Z.add_comm, Z.mul_comm, Z.mod_add by lia. apply Z.mod_small. lia.
Qed.

Lemma make_u32 p fl : is_u32 p -> 0 <= fl < 4096 -> is_u32 (MAKE_PTE p fl).
Proof. intros Hp Hf. rewrite MAKE_PTE_eq by done. unfold is_u32 in *. Z.div_mod_to_equations. lia. Qed.

Lemma make_frame p fl : is_u32 p -> 0 <= fl < 4096 -> MAKE_PTE p fl / 4096 = p / 4096.
Proof. intros Hp Hf. rewrite MAKE_PTE_eq by done. Z.div_mod_to_equations. lia. Qed.

Lemma PDE_INDEX_eq va : is_u32 va -> PDE_INDEX va = va / 0x400000.
Proof.
  intros Hv. unfold PDE_INDEX. rewrite Z.shiftr_div_pow2 by lia. change 0x3FF with (Z.ones 10).
  rewrite Z.land_ones by lia. apply Z.mod_small. unfold is_u32 in Hv. Z.div_mod_to_equations. lia.
Qed.

Lemma PTE_INDEX_eq va : PTE_INDEX va = va / 4096 mod 1024.
Proof.
  unfold PTE_INDEX. rewrite Z.shiftr_div_pow2 by lia. change 0x3FF with (Z.ones 10).
  by rewrite Z.land_ones by lia.
Qed.

Lemma PAGE_OFFSET_eq va : PAGE_OFFSET va = va mod 4096.
Proof. unfold PAGE_OFFSET. change 0xFFF with (Z.ones 12). by rewrite Z.land_ones by lia. Qed.

(** Two addresses are in one page when their indices agree. *)
Lemma same_page va va' : is_u32 va -> is_u32 va' ->
  va / 4096 = va' / 4096 <-> PDE_INDEX va = PDE_INDEX va' /\ PTE_INDEX va = PTE_INDEX va'.
Proof.
  intros H1 H2. rewrite !PDE_INDEX_eq, !PTE_INDEX_eq by done. unfold is_u32 in *.
  Z.div_mod_to_equations. lia.
Qed.

Lemma index_range va : is_u32 va -> 0 <= PDE_INDEX va < 1024 /\ 0 <= PTE_INDEX va < 1024.
Proof.
  intros H. rewrite PDE_INDEX_eq, PTE_INDEX_eq by done. unfold is_u32 in *. Z.div_mod_to_equations. lia.
Qed.

(** ** Frames seen through the kernel's mapping *)

Definition frame_at (f : Z) : Z := 0xC0000000 + 4096 * f.

Lemma phys_frame f : 0 <= f < PMM_MAX_PAGES -> phys_to_virt (4096 * f) = frame_at f.
Proof.
  intros Hf. unfold phys_to_virt, KERNEL_VBASE, frame_at, PMM_MAX_PAGES in *. rewrite u32_small; [lia|].
  unfold is_u32. lia.
Qed.

Lemma entry_set f j v m f' j' :
  0 <= j < 1024 -> 0 <= j' < 1024 -> is_u32 v ->
  entry (set_entry (frame_at f) j v m) (frame_at f') j' =
  if decide (f = f' /\ j = j') then v else entry m (frame_at f') j'.
Proof.
  intros Hj Hj' Hv. unfold entry, set_entry, frame_at. case_decide as E.
  - destruct E as [-> ->]. apply ld_st_eq. unfold is_u32 in Hv. cbn. lia.
  - apply ld_st_ne. cbn. lia.
Qed.

Lemma entry_u32 m t i : mem_ok m -> is_u32 (entry m t i).
Proof. intros Hm. pose proof (ld_range 4 m (t + 4 * i) Hm) as Hr. change (0x100 ^ Z.of_nat 4) with 0x100000000 in Hr. exact Hr. Qed.

(** The frame [f] holds only words written by [body]. *)
Definition only_frame (f : Z) (m m' : mem) : Prop := within (frame_at f) (frame_at (f + 1)) m m'.

Lemma set_entry_frame f j v m : 0 <= j < 1024 -> only_frame f m (set_entry (frame_at f) j v m).
Proof. intros Hj. unfold only_frame, set_entry, frame_at. apply within_st; [lia|change (Z.of_nat 4) with 4; lia]. Qed.

Lemma only_frame_entry f m m' f' j :
  only_frame f m m' -> f' <> f -> 0 <= j < 1024 -> entry m' (frame_at f') j = entry m (frame_at f') j.
Proof. intros Ho Hf Hj. unfold entry. apply (within_ld _ _ _ _ _ _ Ho). change (Z.of_nat 4) with 4. unfold frame_at. lia. Qed.

(** A loop that writes the entries [lo, hi) of a frame. *)
Lemma fill_entries f lo hi (g : Z -> mem -> Z) m :
  0 <= lo <= hi -> hi <= 1024 ->
  (forall i m', lo <= i < hi -> only_frame f m m' -> is_u32 (g i m) /\ g i m' = g i m) ->
  let m' := for_range lo hi (fun i m => set_entry (frame_at f) i (g i m) m) m in
  only_frame f m m' /\ (mem_ok m -> mem_ok m') /\
  forall j, 0 <= j < 1024 ->
    entry m' (frame_at f) j = if decide (lo <= j < hi) then g j m else entry m (frame_at f) j.
Proof.
  intros Hlo Hhi Hg. cbv zeta.
  set (P := fun k m' => only_frame f m m' /\ (mem_ok m -> mem_ok m') /\
    forall j, 0 <= j < 1024 ->
      entry m' (frame_at f) j = if decide (lo <= j < k) then g j m else entry m (frame_at f) j).
  apply (for_range_ind P); [lia| |]; unfold P.
  - split; [done|]. split; [done|]. intros j Hj. by rewrite decide_False by lia.
  - intros i m' Hi (Ho & Hok & He). destruct (Hg i m' Hi Ho) as [Hu Hgi]. split; [|split].
    + transitivity m'; [done|]. apply set_entry_frame. lia.
    + intros Hm. apply mem_ok_st. auto.
    + intros j Hj. rewrite entry_set by (rewrite ?Hgi; (done || lia)). rewrite He by done.
      repeat case_decide; try lia; try done.
      destruct_and?; subst. by rewrite Hgi.
Qed.

(** ** Translation *)

Inductive translation := Unmapped | Small (pte : Z) | Large (pde : Z).

(** What a directory (its physical address [pd]) says of the page with the given
    indices, and of a virtual address. *)
Definition walk_at (m : mem) (pd i j : Z) : translation :=
  let pde := entry m (phys_to_virt pd) i in
  if negb (has pde PTE_PRESENT) then Unmapped
  else if has pde PTE_PSE then Large pde
  else
    let pte := entry m (phys_to_virt (PTE_ADDR pde)) j in
    if has pte PTE_PRESENT then Small pte else Unmapped.

Definition walk (m : mem) (pd va : Z) : translation := walk_at m pd (PDE_INDEX va) (PTE_INDEX va).

(** Entry [i] of the directory in frame [d] points to a page table, in the frame
    [table_of]. *)
Definition small (m : mem) (d i : Z) : bool :=
  has (entry m (frame_at d) i) PTE_PRESENT && negb (has (entry m (frame_at d) i) PTE_PSE).
Definition table_of (m : mem) (d i : Z) : Z := entry m (frame_at d) i / 4096.

(** The directory in frame [d] and its tables are pages in use, all different. *)
Record tables_ok {W} (p : pmm W) (m : mem) (d : Z) : Prop := {
  to_dir : 0 <= d < PMM_MAX_PAGES /\ page_free p d = false;
  to_tab : forall i, 0 <= i < 1024 -> small m d i = true ->
    table_of m d i < PMM_MAX_PAGES /\ page_free p (table_of m d i) = false /\ table_of m d i <> d;
  to_inj : forall i j, 0 <= i < 1024 -> 0 <= j < 1024 -> small m d i = true -> small m d j = true ->
    table_of m d i = table_of m d j -> i = j
}.

Record vmm_wf {W} (s : vmm W) (d : Z) : Prop := {
  vw_pmm : pmm_wf (v_pmm s);
  vw_mem : mem_ok (v_mem s);
  vw_cr3 : is_u32 (cr3 s) /\ cr3 s / 4096 = d;
  vw_tab : tables_ok (v_pmm s) (v_mem s) d
}.

(** Bytes of the pages in use other than those of the frames [fs]. *)
Definition other_pages {W} (p : pmm W) (fs : list Z) (a : Z) : Prop :=
  exists f, page_free p f = false /\ (f ∉ fs) /\ frame_at f <= a < frame_at (f + 1).

Lemma only_frame_other {W} (p : pmm W) f fs m m' :
  only_frame f m m' -> f ∈ fs -> agree (other_pages p fs) m m'.
Proof.
  intros Ho Hf a (g & _ & Hg & Ha). apply Ho. unfold frame_at in *. intros Hr.
  assert (g = f) as -> by lia. done.
Qed.

Section Walk.
Context {W : Type} `{Trace W}.
Implicit Types (s : vmm W) (p : pmm W).

Lemma table_nonneg m d i : mem_ok m -> 0 <= table_of m d i.
Proof. intros Hm. pose proof (entry_u32 m (frame_at d) i Hm) as Hu. unfold table_of, is_u32 in *. Z.div_mod_to_equations. lia. Qed.

Lemma table_addr p m d i :
  mem_ok m -> tables_ok p m d -> 0 <= i < 1024 -> small m d i = true ->
  phys_to_virt (PTE_ADDR (entry m (frame_at d) i)) = frame_at (table_of m d i).
Proof.
  intros Hm Hok Hi Hs. pose proof (entry_u32 m (frame_at d) i Hm) as Hu.
  destruct (to_tab _ _ _ Hok i Hi Hs) as (Hb & _). pose proof (table_nonneg m d i Hm).
  rewrite PTE_ADDR_eq by done. fold (table_of m d i). apply phys_frame. lia.
Qed.

Lemma walk_small p m d i j :
  mem_ok m -> tables_ok p m d -> 0 <= i < 1024 -> small m d i = true ->
  walk_at m (4096 * d) i j =
  let pte := entry m (frame_at (table_of m d i)) j in if has pte PTE_PRESENT then Small pte else Unmapped.
Proof.
  intros Hm Hok Hi Hs. pose proof (to_dir _ _ _ Hok) as [Hd _]. unfold walk_at.
  rewrite phys_frame, (table_addr p) by done. unfold small in Hs.
  apply andb_true_iff in Hs as [H1 H2%negb_true_iff]. by rewrite H1, H2.
Qed.

Lemma walk_not_small m d i j :
  0 <= d < PMM_MAX_PAGES -> small m d i = false ->
  walk_at m (4096 * d) i j =
  let pde := entry m (frame_at d) i in if has pde PTE_PRESENT then Large pde else Unmapped.
Proof.
  intros Hd Hs. unfold walk_at. rewrite phys_frame by done. unfold small in Hs. cbv zeta.
  destruct (has (entry m (frame_at d) i) PTE_PRESENT); [|done]. cbn in Hs |- *.
  apply negb_false_iff in Hs. by rewrite Hs.
Qed.

(** Two memories that agree on the directory and the tables translate alike. *)
Lemma walk_ext p m m' d i j :
  mem_ok m -> mem_ok m' -> tables_ok p m d -> tables_ok p m' d -> 0 <= i < 1024 ->
  entry m' (frame_at d) i = entry m (frame_at d) i ->
  (small m d i = true -> entry m' (frame_at (table_of m d i)) j = entry m (frame_at (table_of m d i)) j) ->
  walk_at m' (4096 * d) i j = walk_at m (4096 * d) i j.
Proof.
  intros Hm Hm' Hok Hok' Hi He Ht. pose proof (to_dir _ _ _ Hok) as [Hd _].
  assert (Hs : small m' d i = small m d i) by (unfold small; by rewrite He).
  destruct (small m d i) eqn:E.
  - rewrite (walk_small p m), (walk_small p m') by done. unfold table_of in *. rewrite He.
    by rewrite Ht.
  - rewrite !walk_not_small by done. by rewrite He.
Qed.

(** A table entry rewritten. *)
Lemma set_pte_ok p m d i j v :
  mem_ok m -> tables_ok p m d -> 0 <= i < 1024 -> 0 <= j < 1024 -> small m d i = true -> is_u32 v ->
  let m' := set_entry (frame_at (table_of m d i)) j v m in
  mem_ok m' /\ tables_ok p m' d /\
  (forall k, 0 <= k < 1024 -> entry m' (frame_at d) k = entry m (frame_at d) k) /\
  forall i' j', 0 <= i' < 1024 -> 0 <= j' < 1024 ->
    walk_at m' (4096 * d) i' j' =
    if decide (i = i' /\ j = j') then (if has v PTE_PRESENT then Small v else Unmapped)
    else walk_at m (4096 * d) i' j'.
Proof.
  intros Hm Hok Hi Hj Hs Hv m'. destruct (to_tab _ _ _ Hok i Hi Hs) as (_ & _ & Hne).
  set (f := table_of m d i) in *.
  assert (Hm' : mem_ok m') by (by apply mem_ok_st).
  assert (Hd : forall k, 0 <= k < 1024 -> entry m' (frame_at d) k = entry m (frame_at d) k).
  { intros k Hk. unfold m'. rewrite entry_set by done. by rewrite decide_False by (intros [? ?]; congruence). }
  assert (Hsm : forall k, 0 <= k < 1024 -> small m' d k = small m d k /\ table_of m' d k = table_of m d k)
    by (intros k Hk; unfold small, table_of; by rewrite Hd).
  assert (Hok' : tables_ok p m' d).
  { split.
    - apply (to_dir _ _ _ Hok).
    - intros k Hk. destruct (Hsm k Hk) as [-> ->]. by apply (to_tab _ _ _ Hok).
    - intros k l Hk Hl. destruct (Hsm k Hk) as [-> ->], (Hsm l Hl) as [-> ->]. by apply (to_inj _ _ _ Hok). }
  split; [done|]. split; [done|]. split; [done|]. intros i' j' Hi' Hj'.
  destruct (decide (i = i')) as [<-|Hi''].
  - destruct (Hsm i Hi) as [Es Et]. rewrite (walk_small p m') by (done || by rewrite Es).
    rewrite Et. fold f. unfold m'. rewrite entry_set by done. destruct (decide (j = j')) as [<-|Hj''].
    + by rewrite !decide_True by done.
    + rewrite !decide_False by (intros [? ?]; congruence). by rewrite (walk_small p m) by done.
  - rewrite decide_False by (intros [? ?]; congruence). apply (walk_ext p m); try done; [by apply Hd|].
    intros Hs'. unfold m'. rewrite entry_set by done. rewrite decide_False; [done|].
    intros [E _]. apply Hi''. by apply (to_inj _ _ _ Hok).
Qed.

Lemma tables_ok_pmm p p' m d :
  tables_ok p m d -> (forall f, page_free p f = false -> page_free p' f = false) -> tables_ok p' m d.
Proof.
  intros [H1 H2 H3] Hf. split; [by destruct H1; auto| |done]. intros i Hi Hs. destruct (H2 i Hi Hs) as (? & ? & ?). auto.
Qed.
End Walk.

(** ** Mapping *)

Section Map.
Context {W : Type} `{Trace W}.
Implicit Types (s : vmm W) (p : pmm W).

Lemma active_pd_eq s d : vmm_wf s d -> active_pd s = frame_at d.
Proof.
  intros [_ _ [Hu <-] Hok]. unfold active_pd, read_cr3. fold (PTE_ADDR (cr3 s)).
  rewrite PTE_ADDR_eq by done. apply phys_frame. apply (to_dir _ _ _ Hok).
Qed.

(** A new, empty table [f] put in the empty entry [i]. *)
Lemma new_table_ok p m m1 d i f :
  mem_ok m -> tables_ok p m d -> 0 <= i < 1024 -> has (entry m (frame_at d) i) PTE_PRESENT = false ->
  page_free p f = false -> 0 <= f < PMM_MAX_PAGES -> f <> d ->
  (forall k, 0 <= k < 1024 -> small m d k = true -> table_of m d k <> f) ->
  mem_ok m1 -> only_frame f m m1 -> (forall j, 0 <= j < 1024 -> entry m1 (frame_at f) j = 0) ->
  let m' := set_entry (frame_at d) i (MAKE_PTE (4096 * f) 7) m1 in
  mem_ok m' /\ tables_ok p m' d /\ small m' d i = true /\ table_of m' d i = f /\
  (forall k, 0 <= k < 1024 -> k <> i -> entry m' (frame_at d) k = entry m (frame_at d) k) /\
  forall i' j', 0 <= i' < 1024 -> 0 <= j' < 1024 ->
    walk_at m' (4096 * d) i' j' = walk_at m (4096 * d) i' j'.
Proof.
  intros Hm Hok Hi Hne Hf Hr Hfd Hnew Hm1 Ho Hz m'. pose proof (to_dir _ _ _ Hok) as [Hd _].
  assert (Hu : is_u32 (4096 * f)) by (unfold is_u32, PMM_MAX_PAGES in *; lia).
  set (v := MAKE_PTE (4096 * f) 7) in *.
  assert (Hv : is_u32 v /\ has v PTE_PRESENT = true /\ has v PTE_PSE = false /\ v / 4096 = f).
  { split; [apply make_u32; [done|lia]|].
    split; [change PTE_PRESENT with (2 ^ 0); unfold v; by rewrite has_make by (done || lia)|].
    split; [change PTE_PSE with (2 ^ 7); unfold v; by rewrite has_make by (done || lia)|].
    unfold v. rewrite make_frame by (done || lia). by rewrite Z.mul_comm, Z.div_mul by lia. }
  destruct Hv as (Hv & Hp & Hps & Hvf).
  assert (Hm' : mem_ok m') by (by apply mem_ok_st).
  assert (Hei : entry m' (frame_at d) i = v) by (unfold m'; rewrite entry_set by done; by rewrite decide_True by done).
  assert (Hek : forall k, 0 <= k < 1024 -> k <> i -> entry m' (frame_at d) k = entry m (frame_at d) k).
  { intros k Hk Hki. unfold m'. rewrite entry_set by done. rewrite decide_False by (intros [_ ?]; congruence).
    by apply (only_frame_entry f). }
  assert (Hsi : small m' d i = true /\ table_of m' d i = f)
    by (unfold small, table_of; rewrite Hei, Hp, Hps; done).
  destruct Hsi as [Hsi Hti].
  assert (Hsm : forall k, 0 <= k < 1024 -> k <> i -> small m' d k = small m d k /\ table_of m' d k = table_of m d k)
    by (intros k Hk Hki; unfold small, table_of; by rewrite Hek).
  assert (Hok' : tables_ok p m' d).
  { split; [apply (to_dir _ _ _ Hok)| |].
    - intros k Hk. destruct (decide (k = i)) as [->|Hki]; [rewrite Hti; intros _; by split; [lia|]|].
      destruct (Hsm k Hk Hki) as [-> ->]. by apply (to_tab _ _ _ Hok).
    - intros k l Hk Hl. destruct (decide (k = i)) as [->|Hki], (decide (l = i)) as [->|Hli]; [done| | |].
      + destruct (Hsm l Hl Hli) as [-> ->]. rewrite Hti. intros _ Hs E. by destruct (Hnew l Hl Hs).
      + destruct (Hsm k Hk Hki) as [-> ->]. rewrite Hti. intros Hs _ E. by destruct (Hnew k Hk Hs).
      + destruct (Hsm k Hk Hki) as [-> ->], (Hsm l Hl Hli) as [-> ->]. by apply (to_inj _ _ _ Hok). }
  repeat (split; [done|]). intros i' j' Hi' Hj'. destruct (decide (i' = i)) as [->|Hne'].
  - rewrite (walk_small p m') by done. rewrite Hti. unfold m'. rewrite entry_set by done.
    rewrite decide_False by (intros [? _]; congruence). rewrite Hz by done. cbn.
    unfold walk_at. rewrite phys_frame by done. by rewrite Hne.
  - apply (walk_ext p m); try done; [by apply Hek|]. intros Hs.
    destruct (to_tab _ _ _ Hok i' Hi' Hs) as (_ & _ & Hnd). pose proof (Hnew i' Hi' Hs).
    unfold m'. rewrite entry_set by done. rewrite decide_False by (intros [? _]; congruence).
    by apply (only_frame_entry f).
Qed.

Lemma ensure_table_spec s d i :
  vmm_wf s d -> 0 <= i < 1024 ->
  (has (entry (v_mem s) (frame_at d) i) PTE_PRESENT = true -> small (v_mem s) d i = true) ->
  let '(ok, s') := ensure_table i s in
  vmm_wf s' d /\ cr3 s' = cr3 s /\ current_pd_phys s' = current_pd_phys s /\ cpu_ops s' = cpu_ops s /\
  (forall f, page_free (v_pmm s) f = false -> page_free (v_pmm s') f = false) /\
  (forall i' j', 0 <= i' < 1024 -> 0 <= j' < 1024 ->
     walk_at (v_mem s') (4096 * d) i' j' = walk_at (v_mem s) (4096 * d) i' j') /\
  agree (other_pages (v_pmm s) [d]) (v_mem s) (v_mem s') /\
  if ok then small (v_mem s') d i = true /\
    (small (v_mem s) d i = false -> page_free (v_pmm s) (table_of (v_mem s') d i) = true) /\
    (forall k, 0 <= k < 1024 -> k <> i -> entry (v_mem s') (frame_at d) k = entry (v_mem s) (frame_at d) k)
  else v_mem s' = v_mem s /\ forall f, 0 <= f -> page_free (v_pmm s) f = false.
Proof.
  intros Hwf Hi Hsm. pose proof (active_pd_eq s d Hwf) as Hpd. pose proof Hwf as [Hp Hm Hc Hok].
  unfold ensure_table. cbv zeta. rewrite Hpd.
  destruct (has (entry (v_mem s) (frame_at d) i) PTE_PRESENT) eqn:E.
  { split; [exact Hwf|]. do 3 (split; [done|]). split; [done|]. split; [done|].
    split; [reflexivity|]. rewrite Hsm by done. by split. }
  pose proof (pmm_alloc_page_cases NUMA_NODE_LOCAL (v_pmm s) Hp ltac:(done)) as Hca.
  destruct (pmm_alloc_page NUMA_NODE_LOCAL (v_pmm s)) as [addr p'].
  destruct Hca as (Hp' & Hh & [(-> & Hb & _ & Hnone)|(f & -> & Hnz & Hr & Hff & _ & Hq)]).
  - cbn [Z.eqb]. assert (Hfr : forall f, page_free (v_pmm s) f = false -> page_free p' f = false)
      by (intros f; by rewrite (page_free_ext p' (v_pmm s))).
    split; [split; [done|done|done|]; by apply (tables_ok_pmm (v_pmm s))|].
    do 3 (split; [done|]). split; [done|]. split; [done|]. split; [reflexivity|done].
  - rewrite (proj2 (Z.eqb_neq _ 0)) by done. pose proof (pw_highest _ Hp).
    rewrite pfn_addr, phys_frame by lia.
    assert (Hfr : forall g, page_free (v_pmm s) g = false -> page_free p' g = false)
      by (intros g Hg; by rewrite Hq, Hg).
    assert (Hff' : page_free p' f = false) by (by rewrite Hq, Z.eqb_refl, andb_false_r).
    destruct (fill_entries f 0 1024 (fun _ _ => 0) (v_mem s)) as (Ho & Hm1 & Hz); [lia|lia|done|].
    set (m1 := for_range 0 1024 (fun i m => set_entry (frame_at f) i 0 m) (v_mem s)) in *.
    destruct (to_dir _ _ _ Hok) as [Hd Hdf].
    assert (Hok1 : tables_ok p' (v_mem s) d) by (by apply (tables_ok_pmm (v_pmm s))).
    assert (Hfd : f <> d) by (intros ->; congruence).
    assert (Hnew : forall k, 0 <= k < 1024 -> small (v_mem s) d k = true -> table_of (v_mem s) d k <> f).
    { intros k Hk Hs Ek. destruct (to_tab _ _ _ Hok k Hk Hs) as (_ & Hfk & _). rewrite Ek in Hfk. congruence. }
    assert (Hz1 : forall j, 0 <= j < 1024 -> entry m1 (frame_at f) j = 0)
      by (intros j Hj; by rewrite Hz, decide_True by done).
    assert (Hfr1 : 0 <= f < PMM_MAX_PAGES) by lia.
    destruct (new_table_ok p' (v_mem s) m1 d i f Hm Hok1 Hi E Hff' Hfr1 Hfd Hnew (Hm1 Hm) Ho Hz1)
      as (A1 & A2 & A3 & A4 & A5 & A6).
    match goal with |- vmm_wf ?s' d /\ _ =>
      change s' with (Vmm p' (set_entry (frame_at d) i (MAKE_PTE (4096 * f) 7) m1) (cr3 s) (current_pd_phys s) (cpu_ops s))
    end. clearbody m1. cbn [v_pmm v_mem cr3 current_pd_phys cpu_ops].
    split; [by split|]. do 3 (split; [done|]). split; [done|]. split; [exact A6|].
    split; [|split; [exact A3|split; [intros _; by rewrite A4|exact A5]]]. transitivity m1.
    + intros a (g & Hg & _ & Ha). apply Ho. unfold frame_at in *. intros Hra.
        assert (g = f) as -> by lia. congruence.
    + eapply only_frame_other; [by apply set_entry_frame|by left].
Qed.
End Map.

(** The translation in force. *)
Definition translate {W} (s : vmm W) (va : Z) : translation := walk (v_mem s) (Z.land (cr3 s) 0xFFFFF000) va.

Definition is_large (t : translation) : bool := match t with Large _ => true | _ => false end.

(** The invariant, with the directory of [cr3]. *)
Definition vmm_ok {W} (s : vmm W) : Prop := vmm_wf s (cr3 s / 4096).

Section MapOps.
Context {W : Type} `{Trace W}.
Implicit Types (s : vmm W) (p : pmm W).

Lemma translate_eq s d va : vmm_wf s d -> translate s va = walk_at (v_mem s) (4096 * d) (PDE_INDEX va) (PTE_INDEX va).
Proof.
  intros [_ _ [Hu <-] _]. unfold translate, walk. fold (PTE_ADDR (cr3 s)). by rewrite PTE_ADDR_eq.
Qed.

Lemma vmm_wf_ok s d : vmm_wf s d -> vmm_ok s.
Proof. intros Hw. pose proof Hw as [_ _ [_ E] _]. unfold vmm_ok. by rewrite E. Qed.

(** The directory entry of an address that is not in a 4 MB page. *)
Lemma not_large_entry s d va :
  vmm_wf s d -> is_large (translate s va) = false ->
  let e := entry (v_mem s) (frame_at d) (PDE_INDEX va) in
  small (v_mem s) d (PDE_INDEX va) = has e PTE_PRESENT.
Proof.
  intros Hw Hl e. rewrite (translate_eq s d) in Hl by done. destruct Hw as [_ _ _ Hok].
  destruct (to_dir _ _ _ Hok) as [Hd _]. unfold walk_at in Hl. rewrite phys_frame in Hl by done. fold e in Hl.
  unfold small. fold e. destruct (has e PTE_PRESENT); [|done]. cbn [negb] in Hl. by destruct (has e PTE_PSE).
Qed.

Lemma map_page_eq s d va pa flags :
  vmm_wf s d -> is_u32 va -> is_u32 pa -> 0 <= flags < 4096 -> is_large (translate s va) = false ->
  let '(r, s') := vmm_map_page va pa flags s in
  vmm_wf s' d /\ cr3 s' = cr3 s /\ current_pd_phys s' = current_pd_phys s /\
  (forall f, page_free (v_pmm s) f = false -> page_free (v_pmm s') f = false) /\
  agree (other_pages (v_pmm s) [d; table_of (v_mem s') d (PDE_INDEX va)]) (v_mem s) (v_mem s') /\
  (r = 0 /\ cpu_ops s' = Invlpg va :: cpu_ops s /\
   (forall va', is_u32 va' -> translate s' va' =
      if decide (va / 4096 = va' / 4096)
      then (if has flags PTE_PRESENT then Small (MAKE_PTE pa flags) else Unmapped)
      else translate s va') /\
   (small (v_mem s) d (PDE_INDEX va) = false ->
    page_free (v_pmm s) (table_of (v_mem s') d (PDE_INDEX va)) = true) /\
   (forall k, 0 <= k < 1024 -> k <> PDE_INDEX va ->
    entry (v_mem s') (frame_at d) k = entry (v_mem s) (frame_at d) k) \/
   r = -1 /\ cpu_ops s' = cpu_ops s /\ (forall va', is_u32 va' -> translate s' va' = translate s va') /\
   forall f, 0 <= f -> page_free (v_pmm s) f = false).
Proof.
  intros Hw Hva Hpa Hfl Hl. destruct (index_range va Hva) as [Hi Hj].
  pose proof (not_large_entry s d va Hw Hl) as Hsm. cbv zeta in Hsm.
  pose proof (ensure_table_spec s d (PDE_INDEX va) Hw Hi ltac:(by rewrite Hsm)) as He.
  unfold vmm_map_page. rewrite (active_pd_eq s d) by done.
  destruct (ensure_table (PDE_INDEX va) s) as [ok s1].
  destruct He as (Hw1 & Ec & Ep & Eo & Hfr & Hwk & Hag & Hres).
  destruct ok; cbn [negb].
  - destruct Hres as (Hres & Hnewt & Hkeep). pose proof Hw1 as [Hp1 Hm1 Hc1 Hok1].
    rewrite (table_addr (v_pmm s1) (v_mem s1) d (PDE_INDEX va)) by done.
    destruct (set_pte_ok (v_pmm s1) (v_mem s1) d (PDE_INDEX va) (PTE_INDEX va) (MAKE_PTE pa flags))
      as (Hm2 & Hok2 & Hd2 & Hwk2); try done; [by apply make_u32|].
    set (m2 := set_entry _ _ _ (v_mem s1)) in *.
    assert (Et : table_of m2 d (PDE_INDEX va) = table_of (v_mem s1) d (PDE_INDEX va))
      by (unfold table_of; by rewrite Hd2).
    set (s2 := vmm_invlpg va s1{{ v_mem ::= _ }}).
    assert (Hw2 : vmm_wf s2 d) by (by split).
    assert (Hall : vmm_wf s2 d /\ cr3 s2 = cr3 s /\ current_pd_phys s2 = current_pd_phys s /\
      (forall f, page_free (v_pmm s) f = false -> page_free (v_pmm s2) f = false) /\
      agree (other_pages (v_pmm s) [d; table_of m2 d (PDE_INDEX va)]) (v_mem s) m2 /\
      cpu_ops s2 = Invlpg va :: cpu_ops s /\
      forall va', is_u32 va' -> translate s2 va' =
        if decide (va / 4096 = va' / 4096)
        then (if has flags PTE_PRESENT then Small (MAKE_PTE pa flags) else Unmapped)
        else translate s va').
    { split; [done|]. split; [done|]. split; [done|]. split; [done|]. split; [|split].
      - rewrite Et. transitivity (v_mem s1).
        + intros a (f & Hf & Hnin & Ha). apply Hag. exists f. split; [done|]. split; [|done].
          intros ->%list_elem_of_singleton. apply Hnin. left.
        + intros a (f & Hf & Hnin & Ha).
          apply (only_frame_other (v_pmm s) (table_of (v_mem s1) d (PDE_INDEX va))
                   [d; table_of (v_mem s1) d (PDE_INDEX va)]); [by apply set_entry_frame|by right; left|].
          by exists f.
      - change (Invlpg va :: cpu_ops s1 = Invlpg va :: cpu_ops s). by rewrite Eo.
      - intros va' Hva'. destruct (index_range va' Hva') as [Hi' Hj'].
        rewrite (translate_eq s2 d), (translate_eq s d) by done.
        change (v_mem s2) with m2. rewrite Hwk2, Hwk by done.
        change PTE_PRESENT with (2 ^ 0). rewrite has_make by (done || lia).
        rewrite (decide_ext _ _ _ _ (same_page va va' Hva Hva')). done. }
    destruct Hall as (A1 & A2 & A3 & A4 & A5 & A6 & A7).
    match goal with |- context [if ?b then _ else _] => destruct b end;
      (split; [exact A1|]; split; [exact A2|]; split; [exact A3|]; split; [exact A4|];
       split; [exact A5|]; left; split; [done|]; split; [exact A6|]; split; [exact A7|];
       change (v_mem s2) with m2; rewrite Et; split; [exact Hnewt|];
       intros k Hk Hne; rewrite Hd2 by done; by apply Hkeep).
  - destruct Hres as [Em Hnone]. split; [done|]. do 2 (split; [done|]). split; [done|].
    split; [by rewrite Em|]. right. split; [done|]. split; [done|]. split; [|done].
    intros va' Hva'. destruct (index_range va' Hva'). rewrite !(translate_eq _ d) by done. by apply Hwk.
Qed.

Lemma unmap_page_eq s d va :
  vmm_wf s d -> is_u32 va -> is_large (translate s va) = false ->
  let '(r, s') := vmm_unmap_page va s in
  vmm_wf s' d /\ cr3 s' = cr3 s /\ v_pmm s' = v_pmm s /\
  only_frame (table_of (v_mem s) d (PDE_INDEX va)) (v_mem s) (v_mem s') /\
  (forall va', is_u32 va' -> translate s' va' =
     if decide (va / 4096 = va' / 4096) then Unmapped else translate s va') /\
  match translate s va with
  | Small pte => r = PTE_ADDR pte /\ cpu_ops s' = Invlpg va :: cpu_ops s
  | _ => r = 0 /\ s' = s
  end.
Proof.
  intros Hw Hva Hl. destruct (index_range va Hva) as [Hi Hj].
  pose proof (not_large_entry s d va Hw Hl) as Hsm. cbv zeta in Hsm.
  pose proof Hw as [Hp Hm Hc Hok]. unfold vmm_unmap_page. rewrite (active_pd_eq s d) by done.
  assert (Hsame : translate s va = Unmapped -> forall va', is_u32 va' ->
    translate s va' = if decide (va / 4096 = va' / 4096) then Unmapped else translate s va').
  { intros Hu va' Hva'. case_decide as E; [|done]. rewrite <- Hu.
    unfold translate, walk. by destruct (proj1 (same_page va va' Hva Hva') E) as [-> ->]. }
  pose proof (translate_eq s d va Hw) as Ht. cbv zeta.
  destruct (has (entry (v_mem s) (frame_at d) (PDE_INDEX va)) PTE_PRESENT) eqn:E; cbn [negb].
  2: { rewrite walk_not_small in Ht by (apply Hok || done). cbv zeta in Ht. rewrite E in Ht.
       rewrite Ht. split; [done|]. do 3 (split; [done|]). split; [by apply Hsame|done]. }
  rewrite (walk_small (v_pmm s)) in Ht by done. cbv zeta in Ht.
  rewrite (table_addr (v_pmm s)) by done.
  set (f := table_of (v_mem s) d (PDE_INDEX va)) in *.
  destruct (has (entry (v_mem s) (frame_at f) (PTE_INDEX va)) PTE_PRESENT) eqn:E2; cbn [negb];
    [|rewrite Ht; split; [done|]; do 3 (split; [done|]); split; [by apply Hsame|done]].
  destruct (set_pte_ok (v_pmm s) (v_mem s) d (PDE_INDEX va) (PTE_INDEX va) 0) as (Hm2 & Hok2 & Hd2 & Hwk2);
    try done. fold f in Hm2, Hok2, Hd2, Hwk2. rewrite Ht.
  set (s2 := vmm_invlpg va _). assert (Hw2 : vmm_wf s2 d) by (by split).
  split; [done|]. split; [done|]. split; [done|]. split; [by apply set_entry_frame|]. split; [|done].
  intros va' Hva'. destruct (index_range va' Hva') as [Hi' Hj'].
  rewrite (translate_eq s2 d), (translate_eq s d va') by done.
  change (v_mem s2) with (set_entry (frame_at f) (PTE_INDEX va) 0 (v_mem s)). rewrite Hwk2 by done.
  by rewrite (decide_ext _ _ _ _ (same_page va va' Hva Hva')).
Qed.

Lemma virt_to_phys_eq s d va :
  vmm_wf s d -> is_u32 va -> is_large (translate s va) = false ->
  vmm_virt_to_phys va s = match translate s va with Small pte => 4096 * (pte / 4096) + va mod 4096 | _ => 0 end.
Proof.
  intros Hw Hva Hl. destruct (index_range va Hva) as [Hi Hj].
  pose proof (not_large_entry s d va Hw Hl) as Hsm. cbv zeta in Hsm. pose proof (translate_eq s d va Hw) as Ht.
  pose proof Hw as [Hp Hm Hc Hok]. unfold vmm_virt_to_phys. rewrite (active_pd_eq s d) by done. cbv zeta.
  destruct (has (entry (v_mem s) (frame_at d) (PDE_INDEX va)) PTE_PRESENT) eqn:E; cbn [negb].
  2: { rewrite walk_not_small in Ht by (apply Hok || done). cbv zeta in Ht. rewrite E in Ht. by rewrite Ht. }
  rewrite (walk_small (v_pmm s)) in Ht by done. cbv zeta in Ht. rewrite (table_addr (v_pmm s)) by done. rewrite Ht.
  case_match; [|done]. cbn [negb]. rewrite PTE_ADDR_eq, PAGE_OFFSET_eq by (by apply entry_u32).
  apply lor_low. apply Z.mod_pos_bound. lia.
Qed.
End MapOps.

(** ** User directories *)

(** The items [c i], [i] in [[lo, hi)], one after the other. *)
Fixpoint collect_from {A} (n : nat) (i : Z) (c : Z -> list A) : list A :=
  match n with O => [] | S n => c i ++ collect_from n (i + 1) c end.
Definition collect {A} (lo hi : Z) (c : Z -> list A) : list A := collect_from (Z.to_nat (hi - lo)) lo c.

Lemma for_range_collect {A S} lo hi (c : Z -> list A) (F : A -> S -> S) (body : Z -> S -> S) s :
  (forall i s, body i s = foldl (fun s a => F a s) s (c i)) ->
  for_range lo hi body s = foldl (fun s a => F a s) s (collect lo hi c).
Proof.
  intros Hb. unfold for_range, collect. generalize (Z.to_nat (hi - lo)) as n.
  intros n; revert lo s; induction n as [|n IH]; intros lo s; [done|].
  cbn [loop collect_from]. by rewrite IH, Hb, foldl_app.
Qed.

(** The pages a table maps, and those under the user half of a directory: what
    each table maps, then the table. *)
Definition table_pages (m : mem) (pt : Z) : list Z :=
  collect 0 PAGE_ENTRIES (fun j =>
    let pte := entry m (phys_to_virt pt) j in if has pte PTE_PRESENT then [PTE_ADDR pte] else []).
Definition user_pages (m : mem) (pd : Z) : list Z :=
  collect 0 KERNEL_VBASE_PDE (fun i =>
    let pde := entry m (phys_to_virt pd) i in
    if has pde PTE_PRESENT && negb (has pde PTE_PSE)
    then table_pages m (PTE_ADDR pde) ++ [PTE_ADDR pde] else []).

Definition free_all {W} `{Trace W} (p : pmm W) (l : list Z) : pmm W := foldl (fun p a => pmm_free_page a p) p l.

Section UserPd.
Context {W : Type} `{Trace W}.
Implicit Types (s : vmm W) (p : pmm W).

Lemma free_table_eq m pt p : free_table m pt p = free_all p (table_pages m pt ++ [pt]).
Proof.
  unfold free_table, free_all. cbv zeta. rewrite foldl_app. cbn [foldl]. unfold table_pages.
  rewrite <- (for_range_collect 0 PAGE_ENTRIES _ pmm_free_page (fun i p =>
    if has (entry m (phys_to_virt pt) i) PTE_PRESENT
    then pmm_free_page (PTE_ADDR (entry m (phys_to_virt pt) i)) p else p)); [done|].
  intros i q. cbv zeta. by destruct (has (entry m (phys_to_virt pt) i) PTE_PRESENT).
Qed.

(** Destroying a directory frees the pages of its user half, in order, then its own. *)
Lemma destroy_eq pd s :
  vmm_destroy_user_pd pd s = s{{ v_pmm := free_all (v_pmm s) (user_pages (v_mem s) pd ++ [pd]) }}.
Proof.
  unfold vmm_destroy_user_pd, free_all, user_pages. rewrite foldl_app. cbn [foldl].
  rewrite <- (for_range_collect 0 KERNEL_VBASE_PDE _ pmm_free_page (fun i p =>
    if has (entry (v_mem s) (phys_to_virt pd) i) PTE_PRESENT && negb (has (entry (v_mem s) (phys_to_virt pd) i) PTE_PSE)
    then free_table (v_mem s) (PTE_ADDR (entry (v_mem s) (phys_to_virt pd) i)) p else p)); [done|].
  intros i q. destruct (_ && _); [|done]. apply (free_table_eq (v_mem s)).
Qed.

(** Giving back pages that are held, each once. *)
Lemma free_all_ok p own l :
  client_ok p own -> NoDup l -> (forall a, a ∈ l -> addr_to_pfn a ∈ own /\ a = pfn_to_addr (addr_to_pfn a)) ->
  let p' := free_all p l in
  client_ok p' (own ∖ list_to_set (addr_to_pfn <$> l)) /\ free_pages p' = free_pages p + zlen l /\
  highest_page p' = highest_page p.
Proof.
  revert p own; induction l as [|a l IH]; intros p own Hok Hnd Hl.
  - cbv zeta. cbn [free_all foldl fmap list_fmap list_to_set]. rewrite difference_empty_L.
    split; [done|]. split; [unfold zlen; cbn; lia|done].
  - apply NoDup_cons in Hnd as [Ha Hnd]. destruct (Hl a) as [Hin Ea]; [by left|].
    pose proof (step_free p own (addr_to_pfn a) Hin) as Hs. rewrite <- Ea in Hs.
    destruct (pmm_step_ok _ _ _ _ Hok Hs) as (Hok1 & Hh & Hc).
    rewrite size_difference, size_singleton in Hc by (by apply singleton_subseteq_l).
    assert (size own <> 0%nat) by (intros E%size_empty_iff%leibniz_equiv; by rewrite E in Hin).
    destruct (IH (pmm_free_page a p) (own ∖ {[ addr_to_pfn a ]}) Hok1 Hnd) as (Hok2 & Hf2 & Hh2).
    { intros b Hb. destruct (Hl b) as [Hbo Eb]; [by right|]. split; [|done].
      apply elem_of_difference. split; [done|]. intros E%elem_of_singleton.
      apply Ha. by rewrite Ea, <- E, <- Eb. }
    cbv zeta. unfold free_all in *. cbn [foldl]. split; [|split].
    + cbn [fmap list_fmap list_to_set]. by rewrite <- difference_difference_l_L.
    + rewrite Hf2. unfold zlen in *. cbn [length]. lia.
    + by rewrite Hh2.
Qed.

(** The contents of a new directory [f]: a copy of entry 0 and of the kernel's half
    of [d]. *)
Lemma copy_directory m d f :
  mem_ok m -> d <> f ->
  let src j m := entry m (frame_at d) j in
  let m1 := for_range 1 768 (fun i => set_entry (frame_at f) i 0) m in
  let m2 := set_entry (frame_at f) 0 (src 0 m1) m1 in
  let m3 := for_range 768 1024 (fun i m => set_entry (frame_at f) i (src i m) m) m2 in
  only_frame f m m3 /\ mem_ok m3 /\
  forall i, 0 <= i < 1024 ->
    entry m3 (frame_at f) i = if decide (i = 0 \/ 768 <= i) then entry m (frame_at d) i else 0.
Proof.
  intros Hm Hdf src m1 m2 m3.
  destruct (fill_entries f 1 768 (fun _ _ => 0) m) as (Ho1 & Hm1 & He1); [lia|lia|done|]. fold m1 in Ho1, Hm1, He1.
  assert (Ho2 : only_frame f m m2) by (transitivity m1; [done|by apply set_entry_frame]).
  assert (Hm2 : mem_ok m2) by (apply mem_ok_st; auto).
  assert (Hsrc : forall j m', 0 <= j < 1024 -> only_frame f m m' -> src j m' = src j m)
    by (intros j m' Hj Ho; by apply (only_frame_entry f)).
  destruct (fill_entries f 768 1024 src m2) as (Ho3 & Hm3 & He3); [lia|lia| |].
  { intros i m' Hi Ho. split; [by apply entry_u32|]. rewrite (Hsrc i m'), (Hsrc i m2); [done|lia|done|lia|by transitivity m2]. }
  fold m3 in Ho3, Hm3, He3.
  split; [by transitivity m2|]. split; [by apply Hm3|]. intros i Hi. rewrite He3 by done.
  rewrite Hsrc by done. fold (src i m).
  destruct (decide (768 <= i < 1024)); [by rewrite decide_True by lia|].
  unfold m2. rewrite entry_set by (done || by apply entry_u32; auto). rewrite Hsrc by done.
  destruct (decide (i = 0)) as [->|]; [by rewrite !decide_True by auto|].
  rewrite !decide_False by lia. rewrite He1 by done. by rewrite decide_True by lia.
Qed.

Lemma create_user_pd_eq s d :
  pmm_wf (v_pmm s) -> mem_ok (v_mem s) -> current_pd_phys s = 4096 * d -> tables_ok (v_pmm s) (v_mem s) d ->
  let '(pd, s') := vmm_create_user_pd s in
  pmm_wf (v_pmm s') /\ mem_ok (v_mem s') /\ cr3 s' = cr3 s /\ current_pd_phys s' = current_pd_phys s /\
  cpu_ops s' = cpu_ops s /\
  (forall f, page_free (v_pmm s) f = false -> page_free (v_pmm s') f = false) /\
  agree (other_pages (v_pmm s) []) (v_mem s) (v_mem s') /\
  (pd = 0 /\ v_mem s' = v_mem s /\ (forall f, 0 <= f -> page_free (v_pmm s) f = false) \/
   exists f, pd = 4096 * f /\ page_free (v_pmm s) f = true /\ tables_ok (v_pmm s') (v_mem s') f /\
     (forall i j, 0 <= i < 1024 -> 0 <= j < 1024 ->
       walk_at (v_mem s') pd i j =
       if decide (i = 0 \/ KERNEL_VBASE_PDE <= i) then walk_at (v_mem s) (4096 * d) i j else Unmapped) /\
     forall i, 0 <= i < 1024 ->
       entry (v_mem s') (frame_at f) i =
       if decide (i = 0 \/ KERNEL_VBASE_PDE <= i) then entry (v_mem s) (frame_at d) i else 0).
Proof.
  intros Hp Hm Hcur Hok. unfold vmm_create_user_pd.
  pose proof (pmm_alloc_page_cases NUMA_NODE_LOCAL (v_pmm s) Hp ltac:(done)) as Hca.
  destruct (pmm_alloc_page NUMA_NODE_LOCAL (v_pmm s)) as [addr p'].
  destruct Hca as (Hp' & Hh & [(-> & Hb & _ & Hnone)|(f & -> & Hnz & Hr & Hff & _ & Hq)]).
  - cbn [Z.eqb]. split; [done|]. split; [done|]. do 3 (split; [done|]).
    split; [intros f; by rewrite (page_free_ext p' (v_pmm s))|]. split; [reflexivity|]. by left.
  - rewrite (proj2 (Z.eqb_neq _ 0)) by done. pose proof (pw_highest _ Hp). cbv zeta.
    destruct (to_dir _ _ _ Hok) as [Hd Hdf].
    assert (Hfr : forall g, page_free (v_pmm s) g = false -> page_free p' g = false)
      by (intros g Hg; by rewrite Hq, Hg).
    assert (Hff' : page_free p' f = false) by (by rewrite Hq, Z.eqb_refl, andb_false_r).
    assert (Hfd : d <> f) by (intros ->; congruence).
    rewrite pfn_addr, phys_frame by lia.
    match goal with |- context [phys_to_virt (current_pd_phys ?x)] => change (current_pd_phys x) with (current_pd_phys s) end.
    rewrite Hcur, (phys_frame d) by done.
    set (src := fun j m => entry m (frame_at d) j).
    set (m1 := for_range 1 768 (fun i => set_entry (frame_at f) i 0) (v_mem s)).
    set (m2 := set_entry (frame_at f) 0 (src 0 m1) m1).
    set (m3 := for_range 768 1024 (fun i m => set_entry (frame_at f) i (src i m) m) m2).
    match goal with |- pmm_wf (v_pmm ?s') /\ _ => change s' with (Vmm p' m3 (cr3 s) (current_pd_phys s) (cpu_ops s)) end.
    assert (Hcd : only_frame f (v_mem s) m3 /\ mem_ok m3 /\ forall i, 0 <= i < 1024 ->
      entry m3 (frame_at f) i = if decide (i = 0 \/ 768 <= i) then entry (v_mem s) (frame_at d) i else 0)
      by exact (copy_directory (v_mem s) d f Hm Hfd).
    destruct Hcd as (Ho & Hm3 & He).
    clearbody m3. clear m1 m2 src. cbn [v_pmm v_mem cr3 current_pd_phys cpu_ops].
    assert (Hsm : forall i, 0 <= i < 1024 -> small m3 f i = true ->
      (i = 0 \/ 768 <= i) /\ small (v_mem s) d i = true /\ table_of m3 f i = table_of (v_mem s) d i).
    { intros i Hi. unfold small, table_of. rewrite He by done. case_decide; [done|by cbn]. }
    assert (Hok3 : tables_ok p' m3 f).
    { split; [by split; [lia|]| |].
      - intros i Hi Hs. destruct (Hsm i Hi Hs) as (_ & Hs' & ->).
        destruct (to_tab _ _ _ Hok i Hi Hs') as (? & Hfi & _). split; [done|]. split; [by apply Hfr|].
        intros E. rewrite E in Hfi. congruence.
      - intros i j Hi Hj Hs1 Hs2. destruct (Hsm i Hi Hs1) as (_ & ? & ->), (Hsm j Hj Hs2) as (_ & ? & ->).
        by apply (to_inj _ _ _ Hok). }
    split; [done|]. split; [done|]. do 3 (split; [done|]). split; [done|]. split.
    { intros a (g & Hg & _ & Ha). apply Ho. unfold frame_at in *. intros Hra.
      assert (g = f) as -> by lia. congruence. }
    right. exists f. split; [done|]. split; [done|]. split; [done|]. split; [|exact He]. intros i j Hi Hj.
    change KERNEL_VBASE_PDE with 768. destruct (small m3 f i) eqn:Es.
    + destruct (Hsm i Hi Es) as (Hk & Hs' & Et). rewrite decide_True by done.
      rewrite (walk_small p' m3), (walk_small (v_pmm s) (v_mem s)) by done. rewrite Et.
      rewrite (only_frame_entry f (v_mem s) m3); [done|done| |done].
      intros E. destruct (to_tab _ _ _ Hok i Hi Hs') as (_ & Hfi & _). rewrite E in Hfi. congruence.
    + rewrite walk_not_small by (done || lia). cbv zeta. rewrite He by done. case_decide; [|done].
      rewrite walk_not_small; [done|done|]. unfold small in Es |- *. rewrite He in Es by done.
      by rewrite decide_True in Es by done.
Qed.
End UserPd.

(** ** Ranges and large pages *)

Section Ranges.
Context {W : Type} `{Trace W}.
Implicit Types (s : vmm W).

(** [n] pages from aligned addresses: in order, until the allocator runs out;
    [k] of them are mapped. *)
Lemma map_pages_eq n s d va pa flags :
  vmm_wf s d -> 0 <= va -> va mod 4096 = 0 -> va + 4096 * Z.of_nat n <= 0x100000000 ->
  0 <= pa -> pa + 4096 * Z.of_nat n <= 0x100000000 -> 0 <= flags < 4096 -> has flags PTE_PRESENT = true ->
  (forall k, 0 <= k < Z.of_nat n -> is_large (translate s (va + 4096 * k)) = false) ->
  let '(r, s') := map_pages n va pa flags s in
  vmm_wf s' d /\ cr3 s' = cr3 s /\ exists k,
  (r = 0 /\ k = Z.of_nat n \/
   r = -1 /\ 0 <= k < Z.of_nat n /\ forall f, 0 <= f -> page_free (v_pmm s') f = false) /\
  forall va', is_u32 va' -> translate s' va' =
    let j := va' / 4096 - va / 4096 in
    if decide (0 <= j < k) then Small (MAKE_PTE (pa + 4096 * j) flags) else translate s va'.
Proof.
  revert s va pa; induction n as [|n IH]; intros s va pa Hw H0 Hva H1 H2 H3 Hfl Hpr Hl.
  { split; [done|]. split; [done|]. exists 0. split; [by left|]. intros va' _. cbv zeta. by rewrite decide_False by lia. }
  rewrite Nat2Z.inj_succ in H1, H3, Hl. assert (Hu : is_u32 va /\ is_u32 pa) by (unfold is_u32; lia).
  destruct Hu as [Hu Hup]. cbn [map_pages].
  pose proof (map_page_eq s d va pa flags Hw Hu Hup Hfl) as Hm.
  specialize (Hl 0 ltac:(lia)) as Hl0. rewrite Z.mul_0_r, Z.add_0_r in Hl0. specialize (Hm Hl0).
  destruct (vmm_map_page va pa flags s) as [r s1].
  destruct Hm as (Hw1 & Ec & Ep & Hfr & _ & [(-> & _ & Ht & _)|(-> & _ & Ht & Hnone)]); cbn [Z.eqb negb].
  2: { split; [done|]. split; [done|]. exists 0. split.
       - right. split; [done|]. split; [lia|]. intros f Hf. apply Hfr. by apply Hnone.
       - intros va' Hva'. cbv zeta. rewrite decide_False by lia. by apply Ht. }
  rewrite Hpr in Ht. destruct n as [|n].
  { split; [done|]. split; [done|]. exists 1. split; [by left|]. intros va' Hva'. cbv zeta. rewrite Ht by done.
    destruct (decide (va / 4096 = va' / 4096)) as [E|E].
    - rewrite decide_True by lia. replace (va' / 4096 - va / 4096) with 0 by lia. by rewrite Z.mul_0_r, Z.add_0_r.
    - by rewrite decide_False by lia. }
  change PAGE_SIZE with 4096.
  rewrite (u32_small (va + 4096)), (u32_small (pa + 4096)) by (unfold is_u32; lia).
  assert (Ev : (va + 4096) / 4096 = va / 4096 + 1) by (Z.div_mod_to_equations; lia).
  specialize (IH s1 (va + 4096) (pa + 4096) Hw1).
  destruct (map_pages (S n) (va + 4096) (pa + 4096) flags s1) as [r s2].
  destruct IH as (Hw2 & Ec2 & k & Hk & Ht2); try done; try lia.
  { Z.div_mod_to_equations. lia. }
  { intros k Hk. replace (va + 4096 + 4096 * k) with (va + 4096 * (k + 1)) by lia.
    rewrite Ht by (unfold is_u32; lia). rewrite decide_False; [apply Hl; lia|]. Z.div_mod_to_equations. lia. }
  split; [done|]. split; [by rewrite Ec2|]. exists (k + 1). split.
  { destruct Hk as [[-> ->]|(-> & Hk & Hf)]; [left|right]; (split; [done|]); [lia|]. split; [lia|done]. }
  intros va' Hva'. cbv zeta in Ht2 |- *. rewrite Ht2, Ev by done. rewrite Ht by done.
  assert (0 <= k) by lia.
  destruct (decide (va / 4096 = va' / 4096)) as [E|E].
  - rewrite decide_False by lia. rewrite decide_True by lia.
    replace (va' / 4096 - va / 4096) with 0 by lia. by rewrite Z.mul_0_r, Z.add_0_r.
  - destruct (decide (0 <= va' / 4096 - (va / 4096 + 1) < k)).
    + rewrite decide_True by lia. do 2 f_equal. lia.
    + by rewrite decide_False by lia.
Qed.

Lemma page_mask x : is_u32 x -> Z.land x (u32 (Z.lnot (PAGE_SIZE - 1))) = 4096 * (x / 4096).
Proof. exact (PTE_ADDR_eq x). Qed.

(** [vmm_map_range]: the pages the addresses are in, [k] of them before the
    allocator runs out.  The offset of the address in its page takes no part in
    their number. *)
Lemma map_range_eq s va pa size flags :
  let n := (size + 4095) / 4096 in
  let va0 := 4096 * (va / 4096) in
  let pa0 := 4096 * (pa / 4096) in
  vmm_ok s -> is_u32 va -> is_u32 pa -> 0 <= size < 0xFFFFF000 ->
  va0 + 4096 * n <= 0x100000000 -> pa0 + 4096 * n <= 0x100000000 -> 0 <= flags < 4096 -> has flags PTE_PRESENT = true ->
  (forall k, 0 <= k < n -> is_large (translate s (va0 + 4096 * k)) = false) ->
  let '(r, s') := vmm_map_range va pa size flags s in
  vmm_ok s' /\ cr3 s' = cr3 s /\ exists k,
  (r = 0 /\ k = n \/ r = -1 /\ 0 <= k < n /\ forall f, 0 <= f -> page_free (v_pmm s') f = false) /\
  forall va', is_u32 va' -> translate s' va' =
    if decide (va0 <= va' < va0 + 4096 * k) then Small (MAKE_PTE (pa0 + 4096 * ((va' - va0) / 4096)) flags)
    else translate s va'.
Proof.
  intros n va0 pa0 Hv H0 H1 Hs Ha Hb Hf Hp Hl. unfold vmm_map_range. rewrite !page_mask by done. fold va0 pa0.
  assert (Hn : 0 <= n) by (apply Z.div_pos; lia).
  assert (Ep : (size +u PAGE_SIZE -u 1) / PAGE_SIZE = n).
  { change PAGE_SIZE with 4096. rewrite (u32_small (size + 4096)) by (unfold is_u32; lia). rewrite u32_small by (unfold is_u32; lia).
    unfold n. f_equal. lia. }
  assert (Hva : 0 <= va0 /\ va0 mod 4096 = 0 /\ 0 <= pa0) by (unfold va0, pa0, is_u32 in *; Z.div_mod_to_equations; lia).
  rewrite Ep. pose proof (map_pages_eq (Z.to_nat n) s (cr3 s / 4096) va0 pa0 flags Hv) as E. rewrite Z2Nat.id in E by done.
  destruct Hva as (Hva0 & Hva & Hpa0). specialize (E Hva0 Hva Ha Hpa0 Hb Hf Hp Hl).
  clearbody n va0 pa0. destruct (map_pages _ _ _ _ s) as [r s']. destruct E as (Hw & Ec & k & Hk & Ht).
  split; [by apply (vmm_wf_ok s' (cr3 s / 4096))|]. split; [done|]. exists k. split; [exact Hk|].
  intros va' Hu. rewrite (Ht va' Hu).
  assert (Ed : (va' - va0) / 4096 = va' / 4096 - va0 / 4096).
  { replace (va' - va0) with (va' + - (va0 / 4096) * 4096) by (clear - Hva; Z.div_mod_to_equations; lia). rewrite Z.div_add by lia. lia. }
  rewrite Ed. clear - Hu Hva. unfold is_u32 in Hu. cbv zeta. repeat case_decide; try done; exfalso; Z.div_mod_to_equations; lia.
Qed.

(** A range of whole pages that is in no 4 MB page. *)
Lemma map_range_pages s va pa n flags :
  vmm_ok s -> 0 <= va -> va mod 4096 = 0 -> 0 <= pa -> pa mod 4096 = 0 -> 0 < n ->
  va + 4096 * n <= 0x100000000 -> pa + 4096 * n <= 0x100000000 -> 4096 * n < 0xFFFFF000 -> 0 <= flags < 4096 -> has flags PTE_PRESENT = true ->
  (forall k, 0 <= k < n -> is_large (translate s (va + 4096 * k)) = false) ->
  let '(r, s') := vmm_map_range va pa (4096 * n) flags s in
  vmm_ok s' /\ cr3 s' = cr3 s /\
  (r = 0 /\ (forall va', is_u32 va' -> translate s' va' =
     if decide (va <= va' < va + 4096 * n) then Small (MAKE_PTE (pa + 4096 * ((va' - va) / 4096)) flags) else translate s va') \/
   r = -1 /\ forall f, 0 <= f -> page_free (v_pmm s') f = false).
Proof.
  intros Hv H0 Hva H1 Hpa Hn Ha Hb Hc Hf Hp Hl. pose proof (map_range_eq s va pa (4096 * n) flags) as E. cbv zeta in E.
  replace ((4096 * n + 4095) / 4096) with n in E by (apply (Z.div_unique _ _ _ 4095); lia).
  replace (4096 * (va / 4096)) with va in E by (Z.div_mod_to_equations; lia). replace (4096 * (pa / 4096)) with pa in E by (Z.div_mod_to_equations; lia).
  specialize (E Hv ltac:(unfold is_u32; lia) ltac:(unfold is_u32; lia) ltac:(lia) Ha Hb Hf Hp Hl).
  destruct (vmm_map_range va pa (4096 * n) flags s) as [r s']. destruct E as (Hw & Ec & k & Hk & Ht).
  split; [done|]. split; [done|]. destruct Hk as [[-> ->]|(-> & _ & Hfree)]; [by left|by right].
Qed.

(** What the operations do inside a 4 MB page, whose directory entry they take for
    a page table: [vmm_map_page] overwrites a word of the page, [vmm_virt_to_phys]
    reads one as a page table entry. *)
Theorem vmm_large_pages s d va pa flags pde :
  vmm_wf s d -> is_u32 va -> translate s va = Large pde ->
  let word := phys_to_virt (PTE_ADDR pde) + 4 * PTE_INDEX va in
  vmm_map_page va pa flags s =
    (0, s{{ v_mem := st32 (v_mem s) word (MAKE_PTE pa flags); cpu_ops ::= cons (Invlpg va) }}) /\
  vmm_virt_to_phys va s =
    if has (ld32 (v_mem s) word) PTE_PRESENT
    then Z.lor (PTE_ADDR (ld32 (v_mem s) word)) (PAGE_OFFSET va) else 0.
Proof.
  intros Hw Hva Hl word. rewrite (translate_eq s d) in Hl by done.
  destruct (to_dir _ _ _ (vw_tab _ _ Hw)) as [Hd _]. unfold walk_at in Hl. rewrite phys_frame in Hl by done.
  destruct (has (entry (v_mem s) (frame_at d) (PDE_INDEX va)) PTE_PRESENT) eqn:E; [|done]. cbn [negb] in Hl.
  case_match; [|by case_match]. injection Hl as <-.
  unfold vmm_map_page, ensure_table, vmm_virt_to_phys. cbv zeta.
  rewrite (active_pd_eq s d) by done. rewrite E. cbn [negb].
  split.
  - by case_match.
  - change (entry (v_mem s) (phys_to_virt (PTE_ADDR (entry (v_mem s) (frame_at d) (PDE_INDEX va)))) (PTE_INDEX va))
      with (ld32 (v_mem s) word). by destruct (has (ld32 (v_mem s) word) PTE_PRESENT).
Qed.

(** After boot the first 128 MB of physical memory are seen at 0xC0000000, through
    4 MB pages. *)
Theorem vmm_init_window s d va :
  vmm_wf s d -> 0xC0000000 <= va < 0xC8000000 ->
  exists pde, translate (vmm_init s) va = Large pde /\
    4096 * (pde / 4096) + va mod 0x400000 = va - 0xC0000000.
Proof.
  intros Hw Hva. pose proof Hw as [_ _ [Hc Hcd] Hok]. destruct (to_dir _ _ _ Hok) as [Hd _].
  set (g := fun i => MAKE_PTE (i *u 0x400000) 0x183).
  set (m' := for_range 0 32 (fun i => set_entry (frame_at d) (768 + i) (g i)) (v_mem s)).
  assert (Hm : v_mem (vmm_init s) = m').
  { unfold vmm_init. cbv zeta. change (phys_to_virt (Z.land (read_cr3 s) 0xFFFFF000)) with (active_pd s).
    cbn [v_mem current_pd_phys]. match goal with |- context [phys_to_virt ?x] => change (phys_to_virt x) with (active_pd s) end.
    rewrite (active_pd_eq s d) by done. reflexivity. }
  assert (Hg : forall i, 0 <= i < 32 -> is_u32 (i * 0x400000)) by (intros i Hi; unfold is_u32; lia).
  assert (He : forall j, 0 <= j < 32 -> entry m' (frame_at d) (768 + j) = g j).
  { apply (for_range_ind (fun k m => forall j, 0 <= j < k -> entry m (frame_at d) (768 + j) = g j)); [lia|lia|].
    intros i m Hi IH j Hj. assert (Hu : is_u32 (g i)).
    { unfold g. apply make_u32; [rewrite u32_small by auto; auto|lia]. }
    rewrite entry_set by (done || lia). case_decide as E; [f_equal; lia|]. apply IH. lia. }
  set (i := va / 0x400000 - 768). assert (Hi : 0 <= i < 32) by (unfold i; Z.div_mod_to_equations; lia).
  assert (Hva' : is_u32 va) by (unfold is_u32; lia).
  exists (g i). split.
  - unfold translate, walk, walk_at. change (cr3 (vmm_init s)) with (cr3 s). fold (PTE_ADDR (cr3 s)).
    rewrite PTE_ADDR_eq, Hcd, phys_frame, Hm, PDE_INDEX_eq by done.
    replace (va / 0x400000) with (768 + i) by (unfold i; lia). rewrite He by done.
    change PTE_PRESENT with (2 ^ 0). change PTE_PSE with (2 ^ 7). unfold g.
    rewrite u32_small, !has_make by (auto || lia). done.
  - unfold g. rewrite u32_small, make_frame by (auto || lia). unfold i. Z.div_mod_to_equations. lia.
Qed.
End Ranges.

(** ** Properties *)

(** C31: the page tables are a map from pages to entries.  On tables that satisfy
    the invariant (directory and tables in use, all different), for an address
    outside the 4 MB pages: [vmm_map_page] either sets the entry of that one page,
    making a page table if there is none and invalidating the address, or fails
    because no page is free and changes no translation; [vmm_unmap_page] returns
    the frame that was mapped and empties that one page; [vmm_virt_to_phys] is
    the lookup.  Every other page of the address space keeps its translation and
    the invariant holds again.  Mapping writes no byte of any page in use other than
    the directory and that page's table; unmapping writes no byte outside that
    table. *)
Theorem vmm_page_map {W} `{Trace W} (s : vmm W) (va pa flags : Z) :
  vmm_ok s -> is_u32 va -> is_u32 pa -> 0 <= flags < 4096 -> is_large (translate s va) = false ->
  (let '(r, s') := vmm_map_page va pa flags s in
   vmm_ok s' /\ cr3 s' = cr3 s /\
   agree (other_pages (v_pmm s) [cr3 s / 4096; table_of (v_mem s') (cr3 s / 4096) (PDE_INDEX va)])
     (v_mem s) (v_mem s') /\
   (r = 0 /\ cpu_ops s' = Invlpg va :: cpu_ops s /\
    (forall va', is_u32 va' -> translate s' va' =
       if decide (va / 4096 = va' / 4096)
       then (if has flags PTE_PRESENT then Small (MAKE_PTE pa flags) else Unmapped)
       else translate s va') \/
    r = -1 /\ cpu_ops s' = cpu_ops s /\ (forall va', is_u32 va' -> translate s' va' = translate s va') /\
    forall f, 0 <= f -> page_free (v_pmm s) f = false)) /\
  (let '(r, s') := vmm_unmap_page va s in
   vmm_ok s' /\ cr3 s' = cr3 s /\ v_pmm s' = v_pmm s /\
   only_frame (table_of (v_mem s) (cr3 s / 4096) (PDE_INDEX va)) (v_mem s) (v_mem s') /\
   (forall va', is_u32 va' -> translate s' va' =
      if decide (va / 4096 = va' / 4096) then Unmapped else translate s va') /\
   match translate s va with
   | Small pte => r = PTE_ADDR pte /\ cpu_ops s' = Invlpg va :: cpu_ops s
   | _ => r = 0 /\ s' = s
   end) /\
  vmm_virt_to_phys va s =
    match translate s va with Small pte => 4096 * (pte / 4096) + va mod 4096 | _ => 0 end.
Proof.
  intros Hw Hva Hpa Hfl Hl. split; [|split].
  - pose proof (map_page_eq s _ va pa flags Hw Hva Hpa Hfl Hl) as Hm.
    destruct (vmm_map_page va pa flags s) as [r s']. destruct Hm as (Hw' & Ec & _ & _ & Ha & Hr).
    split; [by apply (vmm_wf_ok s' (cr3 s / 4096))|]. split; [done|]. split; [done|].
    destruct Hr as [(? & ? & ? & _)|?]; [by left|by right].
  - pose proof (unmap_page_eq s _ va Hw Hva Hl) as Hm.
    destruct (vmm_unmap_page va s) as [r s']. destruct Hm as (Hw' & Ec & Ha & Hr).
    split; [by apply (vmm_wf_ok s' (cr3 s / 4096))|]. done.
  - by apply (virt_to_phys_eq s (cr3 s / 4096)).
Qed.

(** A directory with no tables, in page 1. *)
Lemma demo_vmm :
  exists s : vmm (list trace_rec), vmm_ok s /\ page_free (v_pmm s) 512 = true /\ cr3 s = 4096 /\
    current_pd_phys s = 4096 /\ v_mem s = ∅.
Proof.
  destruct demo_pmm as (p & _ & Hp & _ & Hf). exists (Vmm p ∅ 4096 4096 []).
  split; [|done]. split; [done|apply mem_ok_empty|by split|]. split.
  - split; [done|]. destruct (page_free p 1) eqn:E; [|done]. pose proof (pw_out p Hp 1 ltac:(lia) E). lia.
  - intros i _. done.
  - intros i j _ _. done.
Qed.

Lemma vmm_page_map_witness :
  exists s s' : vmm (list trace_rec), vmm_map_page 0x40000000 0x200000 7 s = (0, s') /\
    translate s' 0x40000000 = Small 0x200007 /\ translate s' 0x40001000 = Unmapped.
Proof.
  destruct demo_vmm as (s & Hw & Hf & Hc & _ & Hm).
  assert (Hempty : forall va, translate s va = Unmapped) by (intros va; unfold translate; by rewrite Hm).
  pose proof (vmm_page_map s 0x40000000 0x200000 7 Hw ltac:(done) ltac:(done) ltac:(lia)
                ltac:(by rewrite Hempty)) as [H _].
  destruct (vmm_map_page 0x40000000 0x200000 7 s) as [r s'] eqn:E.
  destruct H as (_ & _ & _ & [(-> & _ & Ht)|(_ & _ & _ & Hnone)]).
  - exists s, s'. split; [done|]. rewrite !Ht by done. by split; [|rewrite decide_False, Hempty].
  - exfalso. specialize (Hnone 512 ltac:(lia)). congruence.
Defined.

(** A user directory from creation to destruction.  [vmm_create_user_pd]
    either fails, when no page is free, or returns a page that was free: it
    translates entry 0 and the kernel's half like the current directory and
    nothing else, and no byte of a page in use changed.  [vmm_destroy_user_pd]
    changes the allocator only; if the pages its user half maps, its tables and
    the directory are all held and all different, exactly those are given back. *)
Theorem vmm_user_directory {W} `{Trace W} (s : vmm W) (d : Z) (own : gset Z) :
  pmm_wf (v_pmm s) -> mem_ok (v_mem s) -> current_pd_phys s = 4096 * d -> tables_ok (v_pmm s) (v_mem s) d ->
  (let '(pd, s') := vmm_create_user_pd s in
   pmm_wf (v_pmm s') /\ agree (other_pages (v_pmm s) []) (v_mem s) (v_mem s') /\
   (pd = 0 /\ v_mem s' = v_mem s /\ (forall f, 0 <= f -> page_free (v_pmm s) f = false) \/
    exists f, pd = 4096 * f /\ page_free (v_pmm s) f = true /\ tables_ok (v_pmm s') (v_mem s') f /\
      forall va, is_u32 va -> walk (v_mem s') pd va =
        if decide (va < 0x400000 \/ 0xC0000000 <= va) then walk (v_mem s) (4096 * d) va else Unmapped)) /\
  (forall pd, let l := user_pages (v_mem s) pd ++ [pd] in
   client_ok (v_pmm s) own -> NoDup l ->
   (forall a, a ∈ l -> addr_to_pfn a ∈ own /\ a = pfn_to_addr (addr_to_pfn a)) ->
   let s' := vmm_destroy_user_pd pd s in
   client_ok (v_pmm s') (own ∖ list_to_set (addr_to_pfn <$> l)) /\
   free_pages (v_pmm s') = free_pages (v_pmm s) + zlen l /\
   v_mem s' = v_mem s /\ cr3 s' = cr3 s).
Proof.
  intros Hp Hm Hcur Hok. split.
  - pose proof (create_user_pd_eq s d Hp Hm Hcur Hok) as Hc. destruct (vmm_create_user_pd s) as [pd s'].
    destruct Hc as (Hp' & _ & _ & _ & _ & _ & Ha & Hr). split; [done|]. split; [done|].
    destruct Hr as [?|(f & -> & Hf & Hok' & Hw & _)]; [by left|right]. exists f. do 3 (split; [done|]).
    intros va Hva. destruct (index_range va Hva). unfold walk. rewrite Hw by done.
    apply decide_ext. change KERNEL_VBASE_PDE with 768. rewrite PDE_INDEX_eq by done.
    unfold is_u32 in Hva. Z.div_mod_to_equations. lia.
  - intros pd l Hok' Hnd Hl. cbv zeta. rewrite destroy_eq.
    destruct (free_all_ok (v_pmm s) own l Hok' Hnd Hl) as (A & B & _). done.
Qed.

Lemma vmm_user_directory_witness :
  exists (s s' : vmm (list trace_rec)) pd, vmm_create_user_pd s = (pd, s') /\ pd <> 0 /\
    walk (v_mem s') pd 0x40000000 = Unmapped.
Proof.
  destruct demo_vmm as (s & Hw & Hf & Hc & Hcur & Hm). pose proof Hw as [Hp Hmem _ Hok].
  unfold vmm_ok in Hok. rewrite Hc in Hok. change (4096 / 4096) with 1 in Hok.
  pose proof (vmm_user_directory s 1 ∅ Hp Hmem Hcur Hok) as [H _].
  destruct (vmm_create_user_pd s) as [pd s'] eqn:E. destruct H as (_ & _ & [(_ & _ & Hnone)|(f & -> & Hff & _ & Hwk)]).
  - exfalso. specialize (Hnone 512 ltac:(lia)). congruence.
  - exists s, s', (4096 * f). split; [done|]. split; [|by rewrite Hwk].
    intros E0. assert (f = 0) as -> by lia. pose proof (pw_out _ Hp 0 ltac:(lia) Hff). lia.
Defined.
