(* ===== verification/Ifr.v ===== *)
(** kernel/trace/ifr.c and ifr.h: inference flight records, hashed (version 2) and
    chained (version 3).

    A record is the packed struct; [record_bytes] and [record_bytes_v3] are its
    bytes up to the hash, in the order of the fields, little-endian.  A float is
    its bit pattern: the code copies it and never computes with it.  The digests
    are those of Sha256.v; the theorems speak of collisions of [sha256_spec]
    instead of assuming that there are none. *)

From S2P Require Import Prelude Mem Sha256 KTime Trace Flightrec IpcProto SharedHeap.

Definition IFR_MAGIC : Z := 0x30465249.
Definition IFR_VERSION_V2 : Z := 2.
Definition IFR_VERSION_V3 : Z := 3.
Definition IFR_PROFILE_MAX : Z := 16.
Definition IFR_RECORD_SIZE : Z := 136.
Definition IFR_V3_RECORD_SIZE : Z := 324.
Definition IFR_FLAG_SIG_UNAVAILABLE : Z := 0x1.
Definition IFR_FLAG_MODEL_DIGEST_MISSING : Z := 0x2.
Definition IFR_FLAG_POLICY_DIGEST_PLACEHOLDER : Z := 0x4.

Record ifr_record_t := IfrRecord {
  i_magic : Z;
  i_version : Z;
  i_flags : Z;
  i_job_id : Z;
  i_episode_id : Z;
  i_model_id : Z;
  i_record_size : Z;
  i_ts_usec : Z;
  i_goodput : Z;
  i_profile_len : Z;
  i_reserved : Z;
  i_profile : list Z;          (* profile[IFR_PROFILE_MAX] *)
  i_hash : list Z              (* hash[32] *)
}.
#[export] Instance ifr_record_eta : Eta ifr_record_t := fun r =>
  IfrRecord (i_magic r) (i_version r) (i_flags r) (i_job_id r) (i_episode_id r) (i_model_id r)
    (i_record_size r) (i_ts_usec r) (i_goodput r) (i_profile_len r) (i_reserved r) (i_profile r) (i_hash r).

Record ifr_record_v3_t := IfrRecordV3 {
  v_magic : Z;
  v_version : Z;
  v_flags : Z;
  v_record_size : Z;
  v_job_id : Z;
  v_episode_id : Z;
  v_model_id : Z;
  v_ts_usec : Z;
  v_goodput : Z;
  nonce : list Z;
  model_digest : list Z;
  policy_digest : list Z;
  seal_hash : list Z;          (* flightrec_seal_hash *)
  prev_chain_hash : list Z;
  ifr_hash : list Z;
  chain_hash : list Z;
  sig_classical : list Z       (* sig_classical[64] *)
}.
#[export] Instance ifr_record_v3_eta : Eta ifr_record_v3_t := fun r =>
  IfrRecordV3 (v_magic r) (v_version r) (v_flags r) (v_record_size r) (v_job_id r) (v_episode_id r)
    (v_model_id r) (v_ts_usec r) (v_goodput r) (nonce r) (model_digest r) (policy_digest r)
    (seal_hash r) (prev_chain_hash r) (ifr_hash r) (chain_hash r) (sig_classical r).

(** The bytes [[0, offsetof(hash))] of the structs. *)
Definition record_bytes (r : ifr_record_t) : list Z :=
  le_bytes 4 (i_magic r) ++ le_bytes 2 (i_version r) ++ le_bytes 2 (i_flags r) ++
  le_bytes 4 (i_job_id r) ++ le_bytes 4 (i_episode_id r) ++ le_bytes 4 (i_model_id r) ++
  le_bytes 4 (i_record_size r) ++ le_bytes 8 (i_ts_usec r) ++ le_bytes 4 (i_goodput r) ++
  le_bytes 2 (i_profile_len r) ++ le_bytes 2 (i_reserved r) ++ concat (le_bytes 4 <$> i_profile r).

Definition record_bytes_v3 (r : ifr_record_v3_t) : list Z :=
  le_bytes 4 (v_magic r) ++ le_bytes 2 (v_version r) ++ le_bytes 2 (v_flags r) ++
  le_bytes 4 (v_record_size r) ++ le_bytes 4 (v_job_id r) ++ le_bytes 4 (v_episode_id r) ++
  le_bytes 4 (v_model_id r) ++ le_bytes 8 (v_ts_usec r) ++ le_bytes 4 (v_goodput r) ++
  nonce r ++ model_digest r ++ policy_digest r ++ seal_hash r ++ prev_chain_hash r.

Definition zeros (n : nat) : list Z := repeat 0 n.
Definition zero_record : ifr_record_t := IfrRecord 0 0 0 0 0 0 0 0 0 0 0 (zeros 16) (zeros 32).
Definition zero_record_v3 : ifr_record_v3_t :=
  IfrRecordV3 0 0 0 0 0 0 0 0 0 (zeros 32) (zeros 32) (zeros 32) (zeros 32) (zeros 32) (zeros 32)
    (zeros 32) (zeros 64).

(** What the records are built from: the recorder with its clock, and the heap of
    the shared window. *)
Record ifr_world := IfrWorld { w_rec : recorder; w_heap : heap }.
#[export] Instance ifr_world_eta : Eta ifr_world := fun w => IfrWorld (w_rec w) (w_heap w).

Definition read_usec (w : ifr_world) : Z * ifr_world :=
  let '(t, c) := time_usec (fr_clock (w_rec w)) in (t, w{{ w_rec := (w_rec w){{ fr_clock := c }} }}).
Definition read_cycles (w : ifr_world) : Z * ifr_world :=
  let '(t, c) := time_cycles (fr_clock (w_rec w)) in (t, w{{ w_rec := (w_rec w){{ fr_clock := c }} }}).

(** A null [out] is [None]; a null [profile] is [None]. *)
Definition ifr_build (out : option ifr_record_t) (job_id episode_id model_id : Z)
    (profile : option (list Z)) (profile_len goodput : Z) (w : ifr_world)
  : option ifr_record_t * ifr_world :=
  match out with
  | None => (None, w)
  | Some _ =>
      let out := zero_record{{ i_magic := IFR_MAGIC; i_version := IFR_VERSION_V2; i_flags := 0;
        i_job_id := job_id; i_episode_id := episode_id; i_model_id := model_id;
        i_record_size := IFR_RECORD_SIZE }} in
      let '(t, w) := read_usec w in
      let out := out{{ i_ts_usec := t; i_goodput := goodput }} in
      let out :=
        match profile with
        | Some profile =>
            if 0 <? profile_len then
              let profile_len := if IFR_PROFILE_MAX <? profile_len then IFR_PROFILE_MAX else profile_len in
              out{{ i_profile_len := profile_len;
                    i_profile ::= for_range 0 profile_len (fun i p => zset p i (zget profile i)) }}
            else out
        | None => out
        end in
      (Some out{{ i_hash := sha256_hash (record_bytes out) }}, w)
  end.

Definition ifr_verify (rec : option ifr_record_t) : Z :=
  match rec with
  | None => 0
  | Some rec =>
      if negb (i_magic rec =? IFR_MAGIC) then 0
      else if negb (i_version rec =? IFR_VERSION_V2) then 0
      else if negb (i_record_size rec =? IFR_RECORD_SIZE) then 0
      else if IFR_PROFILE_MAX <? i_profile_len rec then 0
      else if decide (sha256_hash (record_bytes rec) = i_hash rec) then 1 else 0
  end.

Definition fill_nonce (w : ifr_world) : list Z * ifr_world :=
  let ctx := sha256_init ctx0 in
  let '(t, w) := read_usec w in
  let '(c, w) := read_cycles w in
  let ctx := sha256_update ctx (le_bytes 8 t) in
  let ctx := sha256_update ctx (le_bytes 8 c) in
  (snd (sha256_final ctx), w).

(** The digest and the flags; [None] when the heap's scan does not end. *)
Definition compute_model_digest (model_id flags : Z) (w : ifr_world)
  : option (list Z * Z * ifr_world) :=
  '(data, h) ← heap_get_data (u16 model_id) (w_heap w);
  '(size, h) ← heap_get_blob_size (u16 model_id) h;
  let w := w{{ w_heap := h }} in
  Some
    (if (data =? 0) || (size =? 0)
     then (zeros 32, Z.lor flags IFR_FLAG_MODEL_DIGEST_MISSING, w)
     else (sha256_hash (bytes (shm h) data (Z.to_nat size)), flags, w)).

Definition policy : list Z := Z.of_N ∘ Ascii.N_of_ascii <$> String.list_ascii_of_string "zenedge-policy-v1".

Definition compute_policy_digest (flags : Z) : list Z * Z :=
  (sha256_hash policy, Z.lor flags IFR_FLAG_POLICY_DIGEST_PLACEHOLDER).

(** The digest that links a record to the one before it. *)
Definition chain_digest (r : ifr_record_v3_t) : list Z :=
  let ctx := sha256_init ctx0 in
  let ctx := sha256_update ctx (prev_chain_hash r) in
  let ctx := sha256_update ctx (ifr_hash r) in
  let ctx := sha256_update ctx (seal_hash r) in
  let ctx := sha256_update ctx (nonce r) in
  let ctx := sha256_update ctx (model_digest r) in
  let ctx := sha256_update ctx (policy_digest r) in
  snd (sha256_final ctx).

Definition ifr_build_v3 (out : option ifr_record_v3_t) (prev : option (list Z))
    (job_id episode_id model_id goodput : Z) (w : ifr_world)
  : option (option ifr_record_v3_t * ifr_world) :=
  match out with
  | None => Some (None, w)
  | Some _ =>
      let out := zero_record_v3{{ v_magic := IFR_MAGIC; v_version := IFR_VERSION_V3; v_flags := 0;
        v_record_size := IFR_V3_RECORD_SIZE; v_job_id := job_id; v_episode_id := episode_id;
        v_model_id := model_id }} in
      let '(t, w) := read_usec w in
      let out := out{{ v_ts_usec := t; v_goodput := goodput }} in
      let '(n, w) := fill_nonce w in
      let out := out{{ nonce := n }} in
      '(md, flags, w) ← compute_model_digest model_id (v_flags out) w;
      let '(pd, flags) := compute_policy_digest flags in
      let out := out{{ model_digest := md; policy_digest := pd; v_flags := flags }} in
      let out := match prev with Some p => out{{ prev_chain_hash := take 32 p }} | None => out end in
      let out := out{{ seal_hash := flightrec_seal_hash (w_rec w) }} in
      let out := out{{ ifr_hash := sha256_hash (record_bytes_v3 out) }} in
      let out := out{{ chain_hash := chain_digest out }} in
      let out := out{{ sig_classical := zeros 64 }} in
      Some (Some out{{ v_flags := Z.lor (v_flags out) IFR_FLAG_SIG_UNAVAILABLE }}, w)
  end.

Definition ifr_verify_v3 (rec : option ifr_record_v3_t) : Z :=
  match rec with
  | None => 0
  | Some rec =>
      if negb (v_magic rec =? IFR_MAGIC) then 0
      else if negb (v_version rec =? IFR_VERSION_V3) then 0
      else if negb (v_record_size rec =? IFR_V3_RECORD_SIZE) then 0
      else if decide (sha256_hash (record_bytes_v3 rec) <> ifr_hash rec) then 0
      else if decide (chain_digest rec = chain_hash rec) then 1 else 0
  end.

(** ** Serialisation *)

Lemma length_le_bytes n v : length (le_bytes n v) = n.
Proof. revert v; induction n as [|n IH]; intros v; [done|]. cbn [le_bytes length]. by rewrite IH. Qed.

Lemma le_bytes_u8 n v : Forall is_u8 (le_bytes n v).
Proof. revert v; induction n as [|n IH]; intros v; constructor; [apply is_u8_u8|apply IH]. Qed.

Lemma words_u8 l : Forall is_u8 (concat (le_bytes 4 <$> l)).
Proof. apply Forall_concat, Forall_fmap, Forall_true. intros x. apply le_bytes_u8. Qed.

Lemma le_bytes_inj n v v' :
  0 <= v < 0x100 ^ Z.of_nat n -> 0 <= v' < 0x100 ^ Z.of_nat n -> le_bytes n v = le_bytes n v' -> v = v'.
Proof.
  revert v v'; induction n as [|n IH]; intros v v' Hv Hv' E; [cbn in Hv, Hv'; lia|].
  rewrite Nat2Z.inj_succ, Z.pow_succ_r in Hv, Hv' by lia. cbn [le_bytes] in E. injection E as E0 E.
  apply IH in E; [|Z.div_mod_to_equations; lia|Z.div_mod_to_equations; lia].
  unfold u8 in E0. Z.div_mod_to_equations. lia.
Qed.

Lemma words_inj l l' :
  Forall is_u32 l -> Forall is_u32 l' -> length l = length l' ->
  concat (le_bytes 4 <$> l) = concat (le_bytes 4 <$> l') -> l = l'.
Proof.
  intros Hl; revert l'; induction Hl as [|x l Hx Hl IH]; intros l' Hl' Hlen E; [by destruct l'|].
  destruct Hl' as [|y l' Hy Hl']; [done|]. cbn [fmap list_fmap concat] in E.
  apply app_inj_1 in E as [E1 E2]; [|by rewrite !length_le_bytes].
  apply le_bytes_inj in E1; [|exact Hx|exact Hy]. subst. f_equal. apply IH; [done|by injection Hlen|done].
Qed.

Lemma length_words l : length (concat (le_bytes 4 <$> l)) = (4 * length l)%nat.
Proof.
  induction l as [|x l IH]; [done|]. rewrite fmap_cons. cbn [concat length].
  rewrite length_app, length_le_bytes, IH. lia.
Qed.

(** Fields within their types. *)
Record record_ok (r : ifr_record_t) : Prop := {
  ro_u32 : Forall is_u32 [i_magic r; i_job_id r; i_episode_id r; i_model_id r; i_record_size r; i_goodput r];
  ro_u16 : Forall is_u16 [i_version r; i_flags r; i_profile_len r; i_reserved r];
  ro_u64 : is_u64 (i_ts_usec r);
  ro_profile : length (i_profile r) = 16%nat /\ Forall is_u32 (i_profile r)
}.
(** The 32 bytes of a digest. *)
Definition is_digest (l : list Z) : Prop := length l = 32%nat /\ Forall is_u8 l.

Lemma digest_hash l : is_digest (sha256_hash l).
Proof. split; [apply length_sha256_hash|apply sha256_hash_u8]. Qed.

Lemma digest_final ctx : is_digest (snd (sha256_final ctx)).
Proof. split; [apply length_sha256_final|apply sha256_final_u8]. Qed.

Lemma digest_zeros : is_digest (zeros 32).
Proof. split; [done|]. by repeat constructor. Qed.

Record record_v3_ok (r : ifr_record_v3_t) : Prop := {
  vo_u32 : Forall is_u32 [v_magic r; v_record_size r; v_job_id r; v_episode_id r; v_model_id r; v_goodput r];
  vo_u16 : Forall is_u16 [v_version r; v_flags r];
  vo_u64 : is_u64 (v_ts_usec r);
  vo_bytes : Forall is_digest [nonce r; model_digest r; policy_digest r; seal_hash r; prev_chain_hash r]
}.

(** Cuts an equation between concatenations of fields of equal lengths, and reads
    the integers back. *)
Ltac cut_fields E :=
  repeat (apply app_inj_1 in E; [|rewrite ?length_le_bytes; congruence]; let F := fresh "F" in destruct E as [F E]).
Ltac field_inj :=
  repeat match goal with
  | F : le_bytes _ _ = le_bytes _ _ |- _ => apply le_bytes_inj in F; [|assumption|assumption]
  end.
Ltac split_Forall :=
  repeat match goal with
  | H : Forall _ (_ :: _) |- _ => apply Forall_cons in H as [? H]
  | H : is_digest _ |- _ => destruct H
  end.

Lemma record_bytes_inj r r' :
  record_ok r -> record_ok r' -> record_bytes r = record_bytes r' -> i_hash r = i_hash r' -> r = r'.
Proof.
  intros [Ha Hb Hc [Hl Hp]] [Ha' Hb' Hc' [Hl' Hp']] E Eh. unfold record_bytes in E. cut_fields E.
  split_Forall. apply words_inj in E; [|done|done|congruence]. field_inj.
  destruct r, r'. simpl in *. by subst.
Qed.

Lemma record_bytes_v3_inj r r' :
  record_v3_ok r -> record_v3_ok r' -> record_bytes_v3 r = record_bytes_v3 r' ->
  r = r'{{ ifr_hash := ifr_hash r; chain_hash := chain_hash r; sig_classical := sig_classical r }}.
Proof.
  intros [Ha Hb Hc Hd] [Ha' Hb' Hc' Hd'] E. unfold record_bytes_v3 in E. split_Forall. cut_fields E. field_inj.
  destruct r, r'. simpl in *. by subst.
Qed.

Lemma length_record_bytes r : length (i_profile r) = 16%nat -> length (record_bytes r) = 104%nat.
Proof. intros Hl. unfold record_bytes. rewrite !length_app, !length_le_bytes, length_words, Hl. done. Qed.

Lemma length_record_bytes_v3 r : record_v3_ok r -> length (record_bytes_v3 r) = 196%nat.
Proof.
  intros [_ _ _ Hd]. split_Forall. unfold record_bytes_v3. rewrite !length_app, !length_le_bytes. lia.
Qed.

Lemma record_bytes_u8 r : Forall is_u8 (record_bytes r).
Proof.
  unfold record_bytes. repeat (apply Forall_app_2; [apply le_bytes_u8|]). apply words_u8.
Qed.

Lemma record_bytes_v3_u8 r : record_v3_ok r -> Forall is_u8 (record_bytes_v3 r).
Proof.
  intros [_ _ _ Hd]. split_Forall. unfold record_bytes_v3.
  repeat (apply Forall_app_2; [apply le_bytes_u8 || assumption|]). assumption.
Qed.

(** Two strings of bytes with one digest. *)
Record collides (m m' : list Z) : Prop := {
  cl_ne : m <> m';
  cl_bytes : Forall is_u8 m /\ Forall is_u8 m';
  cl_hash : sha256_spec m = sha256_spec m'
}.

Lemma collides_intro m m' :
  m <> m' -> Forall is_u8 m -> Forall is_u8 m' -> (length m < 1000)%nat -> (length m' < 1000)%nat ->
  sha256_hash m = sha256_hash m' -> collides m m'.
Proof.
  intros Hne Hm Hm' Hl Hl' E. constructor; [exact Hne|exact (conj Hm Hm')|].
  rewrite <- !sha256_hash_spec by (unfold zlen; lia). exact E.
Qed.

Lemma hash_eq_or_collision m m' :
  Forall is_u8 m -> Forall is_u8 m' -> (length m < 1000)%nat -> (length m' < 1000)%nat ->
  sha256_hash m = sha256_hash m' -> m = m' \/ collides m m'.
Proof.
  intros H1 H2 H3 H4 E. destruct (decide (m = m')) as [?|Hne]; [left; assumption|right].
  exact (collides_intro _ _ Hne H1 H2 H3 H4 E).
Qed.

#[local] Opaque sha256_hash sha256_final sha256_update.

(** ** Verification *)

(** A guard of a verifier. *)
Lemma guard_eq x c y : (if negb (x =? c) then 0 else y) = 1 <-> x = c /\ y = 1.
Proof. destruct (Z.eqb_spec x c); cbn [negb]; intuition (discriminate || congruence). Qed.
Lemma guard_lt c x y : (if c <? x then 0 else y) = 1 <-> x <= c /\ y = 1.
Proof. destruct (Z.ltb_spec c x); intuition (discriminate || lia). Qed.
Lemma guard_decide P `{Decision P} : (if decide P then 1 else 0) = 1 <-> P.
Proof. case_decide; intuition discriminate. Qed.
Lemma guard_not P `{Decision P} y : (if decide (~ P) then 0 else y) = 1 <-> P /\ y = 1.
Proof. case_decide as E; intuition discriminate. Qed.

Lemma ifr_verify_spec r :
  ifr_verify (Some r) = 1 <->
  i_magic r = IFR_MAGIC /\ i_version r = IFR_VERSION_V2 /\ i_record_size r = IFR_RECORD_SIZE /\
  i_profile_len r <= IFR_PROFILE_MAX /\ sha256_hash (record_bytes r) = i_hash r.
Proof. unfold ifr_verify. by rewrite !guard_eq, guard_lt, guard_decide. Qed.

Lemma ifr_verify_v3_spec r :
  ifr_verify_v3 (Some r) = 1 <->
  v_magic r = IFR_MAGIC /\ v_version r = IFR_VERSION_V3 /\ v_record_size r = IFR_V3_RECORD_SIZE /\
  sha256_hash (record_bytes_v3 r) = ifr_hash r /\ chain_digest r = chain_hash r.
Proof. unfold ifr_verify_v3. by rewrite !guard_eq, guard_not, guard_decide. Qed.

Lemma chain_digest_hash r :
  chain_digest r =
  sha256_hash (prev_chain_hash r ++ ifr_hash r ++ seal_hash r ++ nonce r ++ model_digest r ++ policy_digest r).
Proof. unfold chain_digest. Transparent sha256_hash. unfold sha256_hash. by rewrite !sha256_update_app. Qed.
#[local] Opaque sha256_hash.

(** ** Building *)

Lemma read_usec_u64 w : 0 <= cycles_per_usec (fr_clock (w_rec w)) -> is_u64 (fst (read_usec w)).
Proof.
  intros Hc. unfold read_usec, time_usec, rdtsc.
  destruct (Z.eqb_spec (cycles_per_usec (fr_clock (w_rec w))) 0); cbn; [unfold is_u64; lia|].
  unfold is_u64, u64. split; [apply Z.div_pos; [apply Z.mod_pos_bound|]; lia|].
  apply Z.div_lt_upper_bound; [lia|].
  match goal with |- ?x mod ?y < _ => pose proof (Z.mod_pos_bound x y ltac:(lia)) end. nia.
Qed.

Lemma zeros_u32 n : Forall is_u32 (zeros n).
Proof. apply List.Forall_forall. intros x ->%List.repeat_spec. unfold is_u32. lia. Qed.

(** The profile copy. *)
Lemma copy_profile (p : list Z) n :
  0 <= n <= 16 -> Forall is_u32 p -> n <= zlen p ->
  let q := for_range 0 n (fun i q => zset q i (zget p i)) (zeros 16) in
  length q = 16%nat /\ Forall is_u32 q /\
  forall i, 0 <= i < 16 -> zget q i = if decide (i < n) then zget p i else 0.
Proof.
  intros Hn Hp Hlen. cbv zeta.
  set (P := fun k q => length q = 16%nat /\ Forall is_u32 q /\
    forall i, 0 <= i < 16 -> zget q i = if decide (i < k) then zget p i else 0).
  enough (P n (for_range 0 n (fun i q => zset q i (zget p i)) (zeros 16))) by done.
  apply for_range_ind; [lia| |]; unfold P.
  - split; [done|]. split; [apply zeros_u32|]. intros i Hi. rewrite decide_False by lia.
    assert (E : exists k, (k < 16)%nat /\ i = Z.of_nat k) by (exists (Z.to_nat i); lia).
    destruct E as (k & Hk & ->). unfold zget. rewrite Nat2Z.id. do 16 (destruct k as [|k]; [done|]). lia.
  - intros j q Hj (Hl & Hu & Hg).
    assert (Hzl : zlen q = 16) by (unfold zlen; lia).
    split; [|split].
    + pose proof (zlen_zset q j (zget p j)) as E. unfold zlen in *. lia.
    + unfold zset. apply Forall_insert; [done|]. unfold zget, zlen in *.
      destruct (lookup_lt_is_Some_2 p (Z.to_nat j)) as [x Hx]; [lia|].
      rewrite (list_lookup_total_correct _ _ _ Hx). exact (Forall_lookup_1 is_u32 p _ x Hp Hx).
    + intros i Hi. destruct (decide (i = j)) as [->|Hne].
      * rewrite zget_zset_eq by lia. by rewrite decide_True by lia.
      * rewrite zget_zset_ne by lia. rewrite Hg by done. by repeat case_decide; try lia.
Qed.

(** The arguments of the builders. *)
Record args_ok (w : ifr_world) (job_id episode_id model_id goodput : Z) : Prop := {
  ao_u32 : Forall is_u32 [job_id; episode_id; model_id; goodput];
  ao_clock : 0 <= cycles_per_usec (fr_clock (w_rec w))
}.

(** What the caller's profile array leaves in the record. *)
Definition profile_of (profile : option (list Z)) (profile_len : Z) : Z * (list Z) :=
  match profile with
  | Some p =>
      if 0 <? profile_len then
        let n := Z.min profile_len IFR_PROFILE_MAX in
        (n, for_range 0 n (fun i q => zset q i (zget p i)) (zeros 16))
      else (0, zeros 16)
  | None => (0, zeros 16)
  end.

Definition profile_ok (profile : option (list Z)) (profile_len : Z) : Prop :=
  is_u16 profile_len /\
  match profile with Some p => Forall is_u32 p /\ Z.min profile_len IFR_PROFILE_MAX <= zlen p | None => True end.

Lemma profile_of_ok profile len :
  profile_ok profile len ->
  let '(n, q) := profile_of profile len in
  0 <= n <= 16 /\ length q = 16%nat /\ Forall is_u32 q /\
  forall i, 0 <= i < 16 -> zget q i = if decide (i < n) then zget (default [] profile) i else 0.
Proof.
  intros [Hl Hp]. unfold profile_of.
  assert (Hzero : 0 <= 0 <= 16 /\ length (zeros 16) = 16%nat /\ Forall is_u32 (zeros 16) /\
    forall i, 0 <= i < 16 -> zget (zeros 16) i = if decide (i < 0) then zget (default [] profile) i else 0).
  { split; [lia|]. split; [done|]. split; [apply zeros_u32|]. intros i Hi. rewrite decide_False by lia.
    destruct (copy_profile [] 0 ltac:(lia) (Forall_nil_2 _) ltac:(done)) as (_ & _ & H).
    rewrite for_range_empty in H by lia. rewrite H by done. by rewrite decide_False by lia. }
  destruct profile as [p|]; [|exact Hzero]. destruct (Z.ltb_spec 0 len); [|exact Hzero].
  destruct Hp as [Hp Hn]. unfold IFR_PROFILE_MAX in *. cbn [default].
  destruct (copy_profile p (Z.min len 16) ltac:(lia) Hp Hn) as (A & B & C). split; [lia|]. done.
Qed.

(** The record before its hash is stored. *)
Definition built (job_id episode_id model_id goodput t : Z) (nq : Z * list Z) : ifr_record_t :=
  IfrRecord IFR_MAGIC IFR_VERSION_V2 0 job_id episode_id model_id IFR_RECORD_SIZE t goodput (fst nq) 0 (snd nq) (zeros 32).

Lemma ifr_build_eq o job ep model profile len gp w :
  ifr_build (Some o) job ep model profile len gp w =
  let '(t, w') := read_usec w in
  let r := built job ep model gp t (profile_of profile len) in
  (Some r{{ i_hash := sha256_hash (record_bytes r) }}, w').
Proof.
  unfold ifr_build. destruct (read_usec w) as [t w']. unfold profile_of.
  destruct profile as [p|]; [|done]. destruct (0 <? len) eqn:E; [|done].
  assert (En : (if IFR_PROFILE_MAX <? len then IFR_PROFILE_MAX else len) = Z.min len IFR_PROFILE_MAX)
    by (destruct (Z.ltb_spec IFR_PROFILE_MAX len); lia).
  cbv zeta. by rewrite En.
Qed.

Lemma built_ok w job ep model gp t nq :
  args_ok w job ep model gp -> is_u64 t -> 0 <= fst nq <= 16 -> length (snd nq) = 16%nat -> Forall is_u32 (snd nq) ->
  record_ok (built job ep model gp t nq).
Proof.
  intros [Ha _] Ht Hn Hl Hp. split_Forall. destruct nq as [n q]. cbn [fst snd built] in *.
  split; cbn [built i_magic i_version i_flags i_job_id i_episode_id i_model_id i_record_size i_ts_usec i_goodput
    i_profile_len i_reserved i_profile fst snd]; [| |done|done].
  - repeat (constructor; [done || (unfold is_u32; cbv; done)|]). constructor.
  - repeat (constructor; [unfold is_u16, IFR_VERSION_V2; lia|]). constructor.
Qed.

(** ** Version 3 *)

(** A heap the scan of [heap_get_blob] goes through. *)
Definition heap_scans (h : heap) : Prop := mem_ok (shm h) /\ sizes_sane h.

Lemma get_blob_scans id h :
  heap_scans h -> exists blob h', heap_get_blob id h = Some (blob, h') /\ heap_scans h'.
Proof.
  intros [Hm Hs]. unfold heap_get_blob. destruct (_ || _); [by eexists _, _|].
  destruct (find_range _ _ _); [by eexists _, _|].
  destruct (scan_heap_total h id (Z.to_nat HEAP_MAX_BLOCKS) 0) as [r ->]; [done|done|lia|done|lia|lia|].
  cbn [mbind option_bind]. destruct r as [off|]; [|by eexists _, _].
  eexists _, _. split; [reflexivity|]. unfold add_blob. by case_match.
Qed.

Lemma model_digest_total model flags w :
  heap_scans (w_heap w) -> exists md fl w', compute_model_digest model flags w = Some (md, fl, w') /\
    is_digest md /\ (fl = flags \/ fl = Z.lor flags IFR_FLAG_MODEL_DIGEST_MISSING) /\
    w_rec w' = w_rec w.
Proof.
  intros Hs. unfold compute_model_digest, heap_get_data, heap_get_blob_size.
  destruct (get_blob_scans (u16 model) (w_heap w) Hs) as (blob & h & E & Hs1).
  rewrite E. cbn [mbind option_bind].
  assert (Hd : exists data, (if blob =? 0 then (0, h) else (heap_data h + blob_offset_of h blob, h)) = (data, h))
    by (destruct (blob =? 0); eauto).
  destruct Hd as [data ->]. cbv beta iota.
  destruct (get_blob_scans (u16 model) h Hs1) as (blob2 & h2 & E2 & Hs2). rewrite E2. cbn [mbind option_bind].
  assert (Hd : exists size, (if blob2 =? 0 then (0, h2) else (blob_size_of h2 blob2, h2)) = (size, h2))
    by (destruct (blob2 =? 0); eauto).
  destruct Hd as [size ->]. cbv beta iota zeta.
  destruct (_ || _); eexists _, _, _; (split; [reflexivity|]); (split; [|split; [by auto|reflexivity]]).
  - apply digest_zeros.
  - apply digest_hash.
Qed.

(** The two hashes stored. *)
Definition hashed (r : ifr_record_v3_t) : ifr_record_v3_t :=
  let r := r{{ ifr_hash := sha256_hash (record_bytes_v3 r) }} in
  r{{ chain_hash := chain_digest r }}.

Lemma hashed_bytes r : record_bytes_v3 (hashed r) = record_bytes_v3 r.
Proof. by destruct r. Qed.

Lemma hashed_hashes r :
  sha256_hash (record_bytes_v3 (hashed r)) = ifr_hash (hashed r) /\ chain_digest (hashed r) = chain_hash (hashed r).
Proof.
  rewrite hashed_bytes. unfold hashed. generalize (sha256_hash (record_bytes_v3 r)) as x. intros x.
  split; [by destruct r|]. unfold chain_digest. by destruct r.
Qed.

(** The record at the moment it is hashed. *)
Lemma ifr_build_v3_eq o prev job ep model gp w :
  args_ok w job ep model gp -> heap_scans (w_heap w) ->
  match prev with Some p => is_digest p | None => True end ->
  exists r0 w', ifr_build_v3 (Some o) prev job ep model gp w =
      Some (Some r0{{ v_flags := Z.lor (v_flags r0) IFR_FLAG_SIG_UNAVAILABLE }}, w') /\
    record_v3_ok r0 /\ (v_flags r0 = 4 \/ v_flags r0 = 6) /\
    v_magic r0 = IFR_MAGIC /\ v_version r0 = IFR_VERSION_V3 /\ v_record_size r0 = IFR_V3_RECORD_SIZE /\
    v_job_id r0 = job /\ v_episode_id r0 = ep /\ v_model_id r0 = model /\ v_goodput r0 = gp /\
    prev_chain_hash r0 = default (zeros 32) prev /\ policy_digest r0 = sha256_hash policy /\
    sha256_hash (record_bytes_v3 r0) = ifr_hash r0 /\ chain_digest r0 = chain_hash r0.
Proof.
  intros Ha Hs Hp. pose proof (read_usec_u64 w (ao_clock _ _ _ _ _ Ha)) as Ht.
  unfold ifr_build_v3. cbv zeta.
  assert (Ew : w_heap (snd (read_usec w)) = w_heap w) by (unfold read_usec; by destruct (time_usec _)).
  destruct (read_usec w) as [t w1]. cbn [fst snd] in Ht, Ew.
  assert (En : is_digest (fst (fill_nonce w1)) /\ w_heap (snd (fill_nonce w1)) = w_heap w1).
  { unfold fill_nonce, read_usec, read_cycles. destruct (time_usec _) as [a c]. destruct (time_cycles _) as [b c'].
    split; [apply digest_final|reflexivity]. }
  destruct (fill_nonce w1) as [n w2]. cbn [fst snd] in En. destruct En as [Hn Ew2].
  destruct (model_digest_total model 0 w2) as (md & fl & w3 & Em & Hmd & Hfl & Ew3); [by rewrite Ew2, Ew|].
  match goal with |- context [compute_model_digest ?m ?f ?x] =>
    change (compute_model_digest m f x) with (compute_model_digest m 0 x) end.
  rewrite Em. cbn [mbind option_bind compute_policy_digest].
  set (r := IfrRecordV3 IFR_MAGIC IFR_VERSION_V3 (Z.lor fl IFR_FLAG_POLICY_DIGEST_PLACEHOLDER)
    IFR_V3_RECORD_SIZE job ep model t gp n md (sha256_hash policy) (flightrec_seal_hash (w_rec w3))
    (default (zeros 32) prev) (zeros 32) (zeros 32) (zeros 64)).
  exists (hashed r), w3. split.
  { assert (Et : forall p, prev = Some p -> take 32 p = p) by (intros p ->; destruct Hp; apply take_ge; lia).
    unfold r, hashed. clear -Et. destruct prev as [p|]; [rewrite (Et p eq_refl)|];
      cbv -[sha256_hash record_bytes_v3 chain_digest flightrec_seal_hash Z.lor policy zeros w_rec]; reflexivity. }
  assert (Hlen : is_digest (default (zeros 32) prev)) by (destruct prev; [exact Hp|apply digest_zeros]).
  split.
  { destruct Ha as [Ha _]. split_Forall. split;
      cbn [hashed r v_magic v_version v_flags v_record_size v_job_id v_episode_id v_model_id v_ts_usec v_goodput
           nonce model_digest policy_digest seal_hash prev_chain_hash].
    - repeat (constructor; [done || (unfold is_u32; cbv; done)|]). constructor.
    - constructor; [by cbv|]. constructor; [|constructor]. destruct Hfl as [-> | ->]; by cbv.
    - done.
    - constructor; [done|]. constructor; [done|]. constructor; [apply digest_hash|].
      constructor; [apply digest_final|]. by constructor. }
  split; [destruct Hfl as [-> | ->]; [by left|by right]|].
  do 9 (split; [reflexivity|]). apply hashed_hashes.
Qed.

Lemma bytes_flags r r' :
  record_v3_ok r -> record_v3_ok r' -> record_bytes_v3 r = record_bytes_v3 r' -> v_flags r = v_flags r'.
Proof. intros Hr Hr' E. rewrite (record_bytes_v3_inj r r' Hr Hr' E). by destruct r'. Qed.

Lemma set_flags r f : v_flags r{{ v_flags := f }} = f.
Proof. by destruct r. Qed.

(** A record that verifies, its fields within their types. *)
Record verified (r : ifr_record_v3_t) : Prop := {
  vf_ok : record_v3_ok r;
  vf_hash : is_digest (ifr_hash r);
  vf_verify : ifr_verify_v3 (Some r) = 1
}.

Lemma flags_ok r f : record_v3_ok r -> is_u16 f -> record_v3_ok r{{ v_flags := f }}.
Proof.
  intros [A B C D] Hf. split; [exact A| |exact C|exact D]. apply Forall_cons in B as [B1 B2].
  constructor; [exact B1|]. constructor; [exact Hf|constructor].
Qed.

Lemma verify_v3_bool r : ifr_verify_v3 (Some r) <> 1 -> ifr_verify_v3 (Some r) = 0.
Proof. unfold ifr_verify_v3. repeat case_match; intros H'; (reflexivity || contradiction (H' eq_refl)). Qed.

(** Equal up to the signature, which no hash covers. *)
Definition same_record (r r' : ifr_record_v3_t) : Prop := r = r'{{ sig_classical := sig_classical r }}.

(** What [chain_digest] hashes. *)
Definition chain_input (r : ifr_record_v3_t) : list Z :=
  prev_chain_hash r ++ ifr_hash r ++ seal_hash r ++ nonce r ++ model_digest r ++ policy_digest r.

Lemma chain_input_bytes r :
  verified r -> Forall is_u8 (chain_input r) /\ length (chain_input r) = 192%nat /\ sha256_hash (chain_input r) = chain_hash r.
Proof.
  intros [[_ _ _ Hd] Hh Hv]. apply ifr_verify_v3_spec in Hv as (_ & _ & _ & _ & Hc). rewrite chain_digest_hash in Hc.
  split_Forall. unfold chain_input. split; [|split; [rewrite !length_app; lia|exact Hc]].
  repeat (apply Forall_app_2; [assumption|]). assumption.
Qed.

(** The two records' own bytes, or what their chain hashes are made of. *)
Definition records_collide (r r' : ifr_record_v3_t) : Prop :=
  collides (record_bytes_v3 r) (record_bytes_v3 r') \/ collides (chain_input r) (chain_input r').

Lemma chain_hash_commits r r' :
  verified r -> verified r' -> chain_hash r = chain_hash r' -> same_record r r' \/ records_collide r r'.
Proof.
  intros Hvr Hvr' E. destruct (chain_input_bytes r Hvr) as (Hu & Hlc & Hc), (chain_input_bytes r' Hvr') as (Hu' & Hlc' & Hc').
  destruct Hvr as [Hr Hh Hv], Hvr' as [Hr' Hh' Hv'].
  apply ifr_verify_v3_spec in Hv as (_ & _ & _ & Hi & _), Hv' as (_ & _ & _ & Hi' & _).
  pose proof (length_record_bytes_v3 r Hr) as Hb. pose proof (length_record_bytes_v3 r' Hr') as Hb'.
  pose proof (record_bytes_v3_u8 r Hr). pose proof (record_bytes_v3_u8 r' Hr').
  assert (Em : sha256_hash (chain_input r) = sha256_hash (chain_input r')) by congruence.
  apply hash_eq_or_collision in Em as [Em|?]; [|by right; right|done|done|lia|lia].
  pose proof Hr as [_ _ _ Hl]. pose proof Hr' as [_ _ _ Hl']. split_Forall. unfold chain_input in Em.
  apply app_inj_1 in Em as [_ Em]; [|congruence]. apply app_inj_1 in Em as [Ei _]; [|congruence].
  rewrite <- Hi, <- Hi' in Ei.
  apply hash_eq_or_collision in Ei as [Ei|?]; [|by right; left|done|done|lia|lia]. left.
  pose proof (record_bytes_v3_inj r r' Hr Hr' Ei) as Er. unfold same_record.
  assert (Eh : ifr_hash r = ifr_hash r') by (rewrite <- Hi, <- Hi'; by rewrite Ei).
  clear -Er E Eh. destruct r, r'. simpl in *. by subst.
Qed.

(** Newest first: each record carries the chain hash of the one before it. *)
Fixpoint linked (l : list ifr_record_v3_t) : Prop :=
  match l with
  | r :: ((r' :: _) as l') => prev_chain_hash r = chain_hash r' /\ linked l'
  | _ => True
  end.

Definition has_sig_flag (r : ifr_record_v3_t) : Prop := Z.land (v_flags r) IFR_FLAG_SIG_UNAVAILABLE <> 0.

Lemma sig_flag_facts f :
  f = 4 \/ f = 6 ->
  is_u16 (Z.lor f IFR_FLAG_SIG_UNAVAILABLE) /\
  Z.land (Z.lor f IFR_FLAG_SIG_UNAVAILABLE) IFR_FLAG_SIG_UNAVAILABLE <> 0 /\
  Z.land (Z.lor f IFR_FLAG_SIG_UNAVAILABLE) (Z.lnot IFR_FLAG_SIG_UNAVAILABLE) = f /\
  Z.lor f IFR_FLAG_SIG_UNAVAILABLE <> f.
Proof. by intros [-> | ->]. Qed.

(** ** Properties *)

(** Version 2 records.  [ifr_build] fills in a record that [ifr_verify]
    accepts, with the caller's job, episode, model and goodput and the first
    min(profile_len, 16) words of the profile, zeros after them; and two records
    that verify with the same hash are the same record, unless their own bytes are a
    SHA-256 collision. *)
Theorem ifr_record_integrity :
  (forall o job ep model profile len gp w,
     args_ok w job ep model gp -> profile_ok profile len ->
     exists r w', ifr_build (Some o) job ep model profile len gp w = (Some r, w') /\
       record_ok r /\ ifr_verify (Some r) = 1 /\
       i_job_id r = job /\ i_episode_id r = ep /\ i_model_id r = model /\ i_goodput r = gp /\
       i_profile_len r = (if profile is Some _ then Z.min len 16 else 0) /\
       forall i, 0 <= i < 16 ->
         zget (i_profile r) i = if decide (i < i_profile_len r) then zget (default [] profile) i else 0) /\
  (forall r r', record_ok r -> record_ok r' -> ifr_verify (Some r) = 1 -> ifr_verify (Some r') = 1 ->
     i_hash r = i_hash r' -> r = r' \/ collides (record_bytes r) (record_bytes r')).
Proof.
  split.
  - intros o job ep model profile len gp w Ha Hp. pose proof (read_usec_u64 w (ao_clock _ _ _ _ _ Ha)) as Ht.
    rewrite ifr_build_eq. destruct (read_usec w) as [t w']. cbn [fst] in Ht. cbv zeta.
    pose proof (profile_of_ok profile len Hp) as Hpo.
    assert (En : fst (profile_of profile len) = if profile is Some _ then Z.min len 16 else 0).
    { destruct Hp as [Hl _]. unfold is_u16 in Hl. unfold profile_of. destruct profile; [|done].
      destruct (Z.ltb_spec 0 len); cbn [fst]; unfold IFR_PROFILE_MAX; lia. }
    destruct (profile_of profile len) as [n q]. destruct Hpo as (Hn & Hq & Hu & Hg). cbn [fst] in En.
    pose proof (built_ok w job ep model gp t (n, q) Ha Ht Hn Hq Hu) as [B1 B2 B3 B4].
    set (r := built job ep model gp t (n, q)) in *.
    exists r{{ i_hash := sha256_hash (record_bytes r) }}, w'. split; [reflexivity|]. split; [by split|].
    split.
    { apply ifr_verify_spec. do 3 (split; [reflexivity|]). split; [|reflexivity].
      change (n <= IFR_PROFILE_MAX). unfold IFR_PROFILE_MAX. lia. }
    do 4 (split; [reflexivity|]). split; [exact En|]. exact Hg.
  - intros r r' Hr Hr' Hv Hv' E. apply ifr_verify_spec in Hv as (_ & _ & _ & _ & Hh), Hv' as (_ & _ & _ & _ & Hh').
    rewrite <- Hh, <- Hh' in E.
    pose proof (length_record_bytes r (proj1 (ro_profile _ Hr))) as Hl.
    pose proof (length_record_bytes r' (proj1 (ro_profile _ Hr'))) as Hl'.
    apply hash_eq_or_collision in E as [E|?]; [|by right|apply record_bytes_u8|apply record_bytes_u8|lia|lia]. left.
    apply record_bytes_inj; [done|done|done|]. by rewrite <- Hh, <- Hh', E.
Qed.

(** C33: a record fresh from [ifr_build_v3] does not verify.  The builder hashes
    the record and then sets [IFR_FLAG_SIG_UNAVAILABLE] in its flags, so the bytes
    [ifr_verify_v3] hashes differ from those the stored hash is of: it accepts the
    record exactly when these two strings of bytes happen to have one SHA-256 digest.
    With the flag cleared the record verifies.  The builder always returns, provided
    the scan of the shared heap does. *)
Theorem ifr_fresh_v3_rejected o prev job ep model gp w :
  args_ok w job ep model gp -> heap_scans (w_heap w) ->
  match prev with Some p => is_digest p | None => True end ->
  exists r w', ifr_build_v3 (Some o) prev job ep model gp w = Some (Some r, w') /\
    has_sig_flag r /\ prev_chain_hash r = default (zeros 32) prev /\
    let cleared := r{{ v_flags ::= fun f => Z.land f (Z.lnot IFR_FLAG_SIG_UNAVAILABLE) }} in
    verified cleared /\ record_bytes_v3 r <> record_bytes_v3 cleared /\
    (ifr_verify_v3 (Some r) = 1 <-> collides (record_bytes_v3 r) (record_bytes_v3 cleared)) /\
    (ifr_verify_v3 (Some r) <> 1 -> ifr_verify_v3 (Some r) = 0).
Proof.
  intros Ha Hs Hp. destruct (ifr_build_v3_eq o prev job ep model gp w Ha Hs Hp)
    as (r0 & w' & E & Hok & Hfl & Hm & Hver & Hsz & _ & _ & _ & _ & Hprev & _ & Hh & Hc).
  set (r := r0{{ v_flags := Z.lor (v_flags r0) IFR_FLAG_SIG_UNAVAILABLE }}) in *.
  destruct (sig_flag_facts _ Hfl) as (Hu16 & Hne & Hback & Hdiff).
  assert (Er : r{{ v_flags ::= fun f => Z.land f (Z.lnot IFR_FLAG_SIG_UNAVAILABLE) }} = r0).
  { clear -Hback. subst r. destruct r0. simpl in Hback |- *. by rewrite Hback. }
  assert (Hr : record_v3_ok r) by (apply flags_ok; [exact Hok|exact Hu16]).
  exists r, w'. split; [exact E|]. split; [|split; [exact Hprev|cbv zeta; rewrite Er]].
  { unfold has_sig_flag, r. rewrite set_flags. exact Hne. }
  assert (Hb : record_bytes_v3 r <> record_bytes_v3 r0).
  { intros Hi. pose proof (bytes_flags r r0 Hr Hok Hi) as Ef0. unfold r in Ef0. rewrite set_flags in Ef0. exact (Hdiff Ef0). }
  split; [|split; [exact Hb|split; [|apply verify_v3_bool]]].
  - split; [exact Hok|rewrite <- Hh; apply digest_hash|]. apply ifr_verify_v3_spec.
    exact (conj Hm (conj Hver (conj Hsz (conj Hh Hc)))).
  - pose proof (length_record_bytes_v3 r0 Hok). pose proof (length_record_bytes_v3 r Hr).
    rewrite ifr_verify_v3_spec. split.
    + intros (_ & _ & _ & Hi & _). change (ifr_hash r) with (ifr_hash r0) in Hi. rewrite <- Hh in Hi.
      apply collides_intro; [exact Hb|by apply record_bytes_v3_u8|by apply record_bytes_v3_u8|lia|lia|exact Hi].
    + intros [_ _ Hi]. rewrite <- !sha256_hash_spec in Hi by (unfold zlen; lia). rewrite Hh in Hi.
      exact (conj Hm (conj Hver (conj Hsz (conj Hi Hc)))).
Qed.

(** C32: the chain commits to its history.  Take two chains of the same length of
    records that verify, each record carrying the chain hash of the one before it,
    whose newest records have the same chain hash.  Either they are the same chain
    record by record (up to the signatures, which no hash covers), or they agree
    down to some depth where the two records' own bytes, or the bytes their chain
    hashes are made of, are two different strings with one SHA-256 digest. *)
Theorem ifr_chain_commits (l l' : list ifr_record_v3_t) :
  length l = length l' -> linked l -> linked l' -> Forall verified l -> Forall verified l' ->
  chain_hash <$> head l = chain_hash <$> head l' ->
  Forall2 same_record l l' \/
  exists i r r', l !! i = Some r /\ l' !! i = Some r' /\
    Forall2 same_record (take i l) (take i l') /\ records_collide r r'.
Proof.
  revert l'; induction l as [|r l IH]; intros [|r' l'] Hlen Hk Hk' Hv Hv' E; try done; [by left; constructor|].
  apply Forall_cons in Hv as [Hr Hv], Hv' as [Hr' Hv']. cbn in E. injection E as E.
  destruct (chain_hash_commits r r' Hr Hr' E) as [Hs|Hcol];
    [|right; exists O, r, r'; exact (conj eq_refl (conj eq_refl (conj (List.Forall2_nil _) Hcol)))].
  injection Hlen as Hlen.
  assert (Hnext : linked l /\ linked l' /\ chain_hash <$> head l = chain_hash <$> head l').
  { destruct l as [|r2 l], l' as [|r2' l']; try done. destruct Hk as [Hp Hk], Hk' as [Hp' Hk'].
    split; [done|]. split; [done|]. cbn. rewrite <- Hp, <- Hp'. rewrite Hs. by destruct r, r'. }
  destruct Hnext as (? & ? & ?). destruct (IH l') as [?|(i & x & x' & Ex & Ex' & Ht & Hcol)]; try done.
  - left. constructor; assumption.
  - right. exists (S i), x, x'. exact (conj Ex (conj Ex' (conj (List.Forall2_cons _ _ Hs Ht) Hcol))).
Qed.

(** A machine with an empty window and a recorder just started. *)
Definition demo_world : ifr_world := IfrWorld (flightrec_init demo_recorder) (heap_bss ∅).

Lemma demo_scans : heap_scans (w_heap demo_world).
Proof.
  split; [apply mem_ok_empty|]. intros off _ _ E. exfalso. unfold blob_magic in E. cbn [shm w_heap demo_world heap_bss] in E.
  unfold ld, ldb in E. rewrite !lookup_empty in E. discriminate E.
Qed.

Lemma demo_args : args_ok demo_world 1 2 3 0.
Proof. split; [repeat (constructor; [by cbv|]); constructor|by vm_compute]. Qed.

Lemma demo_verified : exists r, verified r.
Proof.
  destruct (ifr_build_v3_eq zero_record_v3 None 1 2 3 0 demo_world demo_args demo_scans I)
    as (r0 & w' & _ & Hok & _ & Hm & Hver & Hsz & _ & _ & _ & _ & _ & _ & Hh & Hc).
  exists r0. split; [exact Hok|rewrite <- Hh; apply digest_hash|]. apply ifr_verify_v3_spec.
  exact (conj Hm (conj Hver (conj Hsz (conj Hh Hc)))).
Qed.

Lemma ifr_record_integrity_witness :
  exists r w', ifr_build (Some zero_record) 1 2 3 (Some [7; 8]) 2 0 demo_world = (Some r, w') /\
    ifr_verify (Some r) = 1.
Proof.
  destruct ifr_record_integrity as [H _].
  destruct (H zero_record 1 2 3 (Some [7; 8]) 2 0 demo_world demo_args) as (r & w' & E & _ & Hv & _).
  - split; [by cbv|]. split; [repeat (constructor; [by cbv|]); constructor|by cbv].
  - by exists r, w'.
Defined.

(** This one is refused: the two digests are computed. *)
Lemma ifr_fresh_v3_rejected_witness :
  exists r w', ifr_build_v3 (Some zero_record_v3) None 1 2 3 0 demo_world = Some (Some r, w') /\ has_sig_flag r /\
    ifr_verify_v3 (Some r) = 0.
Proof.
  destruct (ifr_fresh_v3_rejected zero_record_v3 None 1 2 3 0 demo_world demo_args demo_scans I)
    as (r & w' & E & Hf & _).
  assert (Hv : ('(x, _) ← ifr_build_v3 (Some zero_record_v3) None 1 2 3 0 demo_world; Some (ifr_verify_v3 x)) = Some 0)
    by (vm_compute; reflexivity).
  rewrite E in Hv. injection Hv as Hv. exists r, w'. exact (conj E (conj Hf Hv)).
Defined.

Lemma ifr_chain_commits_witness :
  exists r, verified r /\ linked [r] /\
    (Forall2 same_record [r] [r] \/ exists i x x', [r] !! i = Some x /\ [r] !! i = Some x' /\
      Forall2 same_record (take i [r]) (take i [r]) /\ records_collide x x').
Proof.
  destruct demo_verified as [r Hr]. exists r.
  assert (Hf : Forall verified [r]) by (constructor; [exact Hr|constructor]).
  split; [exact Hr|]. split; [exact I|]. exact (ifr_chain_commits [r] [r] eq_refl I I Hf Hf eq_refl).
Defined.
