(* ===== verification/CLib.v ===== *)
(** kernel/lib/string.c, kernel/lib/divdi3.c and the parts of kernel/lib/libc.c
    that compute: the freestanding C library.

    Pointers are addresses of a byte memory ([Mem.v]).  A [while (n--)] loop is a
    [for_range] of [n] turns.  The string routines run to a NUL and take fuel:
    [is_cstr m a l] says that the string [l] and its NUL are stored at [a], and
    the theorems say that more than [length l] turns are enough. *)

From S2P Require Import Prelude Mem.

(** ** string.c *)

Definition memcpy (dest src n : Z) (m : mem) : mem :=
  for_range 0 n (fun i m => stb m (dest + i) (ldb m (src + i))) m.

Definition memset (s c n : Z) (m : mem) : mem :=
  for_range 0 n (fun i m => stb m (s + i) c) m.

Definition memmove (dest src n : Z) (m : mem) : mem :=
  if dest <? src then for_range 0 n (fun i m => stb m (dest + i) (ldb m (src + i))) m
  else for_range 0 n (fun i m => let k := n - 1 - i in stb m (dest + k) (ldb m (src + k))) m.

Fixpoint strlen_from (fuel : nat) (m : mem) (s len : Z) : option Z :=
  match fuel with
  | O => None
  | S fuel => if ldb m s =? 0 then Some len else strlen_from fuel m (s + 1) (len + 1)
  end.
Definition strlen (fuel : nat) (m : mem) (s : Z) : option Z := strlen_from fuel m s 0.

Fixpoint memcmp_from (n : nat) (m : mem) (p1 p2 : Z) : Z :=
  match n with
  | O => 0
  | S n =>
      if negb (ldb m p1 =? ldb m p2) then ldb m p1 - ldb m p2
      else memcmp_from n m (p1 + 1) (p2 + 1)
  end.
Definition memcmp (m : mem) (s1 s2 n : Z) : Z := memcmp_from (Z.to_nat n) m s1 s2.

Fixpoint strcmp (fuel : nat) (m : mem) (s1 s2 : Z) : option Z :=
  match fuel with
  | O => None
  | S fuel =>
      if negb (ldb m s1 =? 0) && (ldb m s1 =? ldb m s2) then strcmp fuel m (s1 + 1) (s2 + 1)
      else Some (ldb m s1 - ldb m s2)
  end.

Fixpoint strcpy_from (fuel : nat) (d s : Z) (m : mem) : option mem :=
  match fuel with
  | O => None
  | S fuel =>
      let c := ldb m s in
      let m := stb m d c in
      if c =? 0 then Some m else strcpy_from fuel (d + 1) (s + 1) m
  end.
Definition strcpy (fuel : nat) (dest src : Z) (m : mem) : option mem := strcpy_from fuel dest src m.

(** ** divdi3.c *)

(** [(d & (d - 1)) == 0] on a 32-bit value. *)
Definition is_pow2 (d32 : Z) : bool := Z.land d32 (d32 -u 1) =? 0.

(** The least [shift] with [(d32 >> shift) == 1]. *)
Definition pow2_shift (d32 : Z) : option Z := find_range 0 32 (fun shift => Z.shiftr d32 shift =? 1).

(** One turn of the long division: bit [i] of [n] comes down. *)
Definition bring_down (n i r : Z) : Z := Z.lor (u64 (Z.shiftl r 1)) (Z.land (Z.shiftr n i) 1).

Definition div_turn (n d i : Z) (qr : Z * Z) : Z * Z :=
  let '(q, r) := qr in
  let r := bring_down n i r in
  if d <=? r then (Z.lor q (u64 (Z.shiftl 1 i)), u64 (r - d)) else (q, r).

Definition mod_turn (n d i r : Z) : Z :=
  let r := bring_down n i r in
  if d <=? r then u64 (r - d) else r.

Definition udivdi3 (n d : Z) : Z :=
  if d =? 0 then 0
  else
    match (if (d <=? 0xFFFFFFFF) && is_pow2 (u32 d) then pow2_shift (u32 d) else None) with
    | Some shift => Z.shiftr n shift
    | None => fst (for_range 0 64 (fun k => div_turn n d (63 - k)) (0, 0))
    end.

Definition umoddi3 (n d : Z) : Z :=
  if d =? 0 then 0
  else if (d <=? 0xFFFFFFFF) && is_pow2 (u32 d) then Z.land n (u64 (d - 1))
  else for_range 0 64 (fun k => mod_turn n d (63 - k)) 0.

(** Quotient, and what [*rem] gets. *)
Definition udivmoddi4 (n d : Z) : Z * Z :=
  let q := udivdi3 n d in (q, u64 (n - u64 (q * d))).

(** A 64-bit pattern read as [int64_t]. *)
Definition s64 (x : Z) : Z :=
  let x := u64 x in if x <? 0x8000000000000000 then x else x - 0x10000000000000000.

Definition divdi3 (n d : Z) : Z :=
  let n_neg := n <? 0 in
  let d_neg := d <? 0 in
  let abs_n := u64 (if n_neg then s64 (- n) else n) in
  let abs_d := u64 (if d_neg then s64 (- d) else d) in
  let q := udivdi3 abs_n abs_d in
  if xorb n_neg d_neg then s64 (- s64 q) else s64 q.

Definition moddi3 (n d : Z) : Z :=
  let n_neg := n <? 0 in
  let d_neg := d <? 0 in
  let abs_n := u64 (if n_neg then s64 (- n) else n) in
  let abs_d := u64 (if d_neg then s64 (- d) else d) in
  let r := umoddi3 abs_n abs_d in
  if n_neg then s64 (- s64 r) else s64 r.

(** ** libc.c *)

Definition abs_int (j : Z) : Z := if j <? 0 then int_of_u32 (u32 (- j)) else j.

(** The value of a character as a digit, if it is alphanumeric. *)
Definition digit_of (c : Z) : option Z :=
  if (48 <=? c) && (c <=? 57) then Some (c - 48)
  else if (97 <=? c) && (c <=? 122) then Some (c - 97 + 10)
  else if (65 <=? c) && (c <=? 90) then Some (c - 65 + 10)
  else None.

(** The number read and where reading stopped. *)
Fixpoint strtoul_from (fuel : nat) (m : mem) (p base result : Z) : option (Z * Z) :=
  match fuel with
  | O => None
  | S fuel =>
      if ldb m p =? 0 then Some (result, p)
      else
        match digit_of (ldb m p) with
        | None => Some (result, p)
        | Some digit =>
            if base <=? digit then Some (result, p)
            else strtoul_from fuel m (p + 1) base (u64 (result * base + digit))
        end
  end.
Definition strtoul (fuel : nat) (m : mem) (nptr base : Z) : option (Z * Z) :=
  strtoul_from fuel m nptr base 0.

(** [calloc] over a given [malloc] (the Makefile defines it as [kmalloc]). *)
Definition calloc {S} (malloc : Z -> S -> option (Z * S)) (upd : (mem -> mem) -> S -> S)
    (nmemb size : Z) (s : S) : option (Z * S) :=
  let total := u64 (nmemb * size) in
  match malloc total s with
  | None => None
  | Some (ptr, s) => Some (ptr, if negb (ptr =? 0) then upd (memset ptr 0 total) s else s)
  end.

(** ** Copies *)

(** What a copy of [n] bytes does: the destination holds what the source held, and
    nothing else changed. *)
Definition copied (d s n : Z) (m m' : mem) : Prop :=
  within d (d + n) m m' /\ forall i, 0 <= i < n -> ldb m' (d + i) = ldb m (s + i).

Section Copies.
Implicit Types (m : mem) (d s n : Z).

Lemma u8_ldb m a : mem_ok m -> u8 (ldb m a) = ldb m a.
Proof. intros Hm. apply u8_small, Hm. Qed.

Lemma within_stb m m' lo hi a v : within lo hi m m' -> lo <= a < hi -> within lo hi m (stb m' a v).
Proof. intros H Ha. apply (within_st_r 1); [lia|lia|done]. Qed.

(** The two loops: upwards it is right unless the destination starts inside the
    source, downwards unless the source starts inside the destination. *)
Lemma copy_up d s n m :
  mem_ok m -> 0 <= n -> d <= s \/ s + n <= d ->
  copied d s n m (for_range 0 n (fun i m => stb m (d + i) (ldb m (s + i))) m).
Proof.
  intros Hm Hn Hds.
  pose (P := fun k m' => within d (d + k) m m' /\ forall i, 0 <= i < k -> ldb m' (d + i) = ldb m (s + i)).
  apply (for_range_ind P); [lia|split; [reflexivity|lia]|].
  intros k m' Hk [Hw He]. split.
  - apply within_stb; [|lia]. apply (within_mono m m' d (d + k)); [lia|lia|done].
  - intros i Hi. rewrite ldb_stb. case_decide as E.
    + assert (i = k) as -> by lia. rewrite (within_ldb m m' d (d + k)) by (done || lia). by apply u8_ldb.
    + apply He. lia.
Qed.

Lemma copy_down d s n m :
  mem_ok m -> 0 <= n -> s <= d \/ d + n <= s ->
  copied d s n m (for_range 0 n (fun i m => let k := n - 1 - i in stb m (d + k) (ldb m (s + k))) m).
Proof.
  intros Hm Hn Hds.
  pose (P := fun j m' => within (d + n - j) (d + n) m m' /\
    forall i, n - j <= i < n -> ldb m' (d + i) = ldb m (s + i)).
  assert (HP : P n (for_range 0 n (fun i m => let k := n - 1 - i in stb m (d + k) (ldb m (s + k))) m)).
  { apply (for_range_ind P); [lia|split; [reflexivity|lia]|].
    intros j m' Hj [Hw He]. cbv zeta. split.
    - apply within_stb; [|lia]. apply (within_mono m m' (d + n - j) (d + n)); [lia|lia|done].
    - intros i Hi. rewrite ldb_stb. case_decide as E.
      + assert (i = n - 1 - j) as -> by lia. rewrite (within_ldb m m' (d + n - j) (d + n)) by (done || lia).
        by apply u8_ldb.
      + apply He. lia. }
  destruct HP as [Hw He]. split.
  - apply (within_mono m _ (d + n - n) (d + n)); [lia|lia|done].
  - intros i Hi. apply He. lia.
Qed.

Lemma memcpy_copied d s n m :
  mem_ok m -> 0 <= n -> d <= s \/ s + n <= d -> copied d s n m (memcpy d s n m).
Proof. apply copy_up. Qed.

Lemma memmove_copied d s n m : mem_ok m -> 0 <= n -> copied d s n m (memmove d s n m).
Proof.
  intros Hm Hn. unfold memmove. destruct (Z.ltb_spec d s).
  - apply copy_up; [done|done|lia].
  - apply copy_down; [done|done|lia].
Qed.

(** [memcpy] upwards into its own source repeats the bytes in front. *)
Lemma memcpy_repeats d s n m :
  mem_ok m -> s < d -> 0 <= n ->
  forall i, 0 <= i < n -> ldb (memcpy d s n m) (d + i) = ldb m (s + i mod (d - s)).
Proof.
  intros Hm Hds Hn. unfold memcpy.
  pose (P := fun k m' => within d (d + k) m m' /\
    forall i, 0 <= i < k -> ldb m' (d + i) = ldb m (s + i mod (d - s))).
  apply (for_range_ind P); [lia|split; [reflexivity|lia]|].
  intros k m' Hk [Hw He]. split.
  - apply within_stb; [|lia]. apply (within_mono m m' d (d + k)); [lia|lia|done].
  - intros i Hi. rewrite ldb_stb. case_decide as E; [|apply He; lia].
    assert (i = k) as -> by lia. destruct (Z.lt_ge_cases k (d - s)).
    + rewrite (within_ldb m m' d (d + k)), Z.mod_small by (done || lia). by apply u8_ldb.
    + replace (s + k) with (d + (k - (d - s))) by lia. rewrite He by lia.
      replace (k mod (d - s)) with ((k - (d - s)) mod (d - s)); [by apply u8_ldb|].
      rewrite <- (Z.mod_add k (-1) (d - s)) by lia. f_equal; lia.
Qed.

Lemma memset_spec s c n m :
  0 <= n ->
  within s (s + n) m (memset s c n m) /\ (mem_ok m -> mem_ok (memset s c n m)) /\
  forall i, 0 <= i < n -> ldb (memset s c n m) (s + i) = u8 c.
Proof.
  intros Hn. unfold memset.
  pose (P := fun k m' => within s (s + k) m m' /\ (mem_ok m -> mem_ok m') /\
    forall i, 0 <= i < k -> ldb m' (s + i) = u8 c).
  apply (for_range_ind P); [lia|split; [reflexivity|split; [done|lia]]|].
  intros k m' Hk (Hw & Hok & He). split; [|split].
  - apply within_stb; [|lia]. apply (within_mono m m' s (s + k)); [lia|lia|done].
  - intros Hm. apply mem_ok_stb. auto.
  - intros i Hi. rewrite ldb_stb. case_decide; [done|]. apply He. lia.
Qed.
End Copies.

(** ** Strings *)

Fixpoint is_cstr (m : mem) (a : Z) (l : list Z) : Prop :=
  match l with
  | [] => ldb m a = 0
  | c :: l => ldb m a = c /\ c <> 0 /\ is_cstr m (a + 1) l
  end.

(** The first place two byte strings differ, the end of a string counting as 0. *)
Fixpoint byte_diff (l1 l2 : list Z) : Z :=
  match l1, l2 with
  | x :: l1, y :: l2 => if x =? y then byte_diff l1 l2 else x - y
  | x :: _, [] => x
  | [], y :: _ => - y
  | [], [] => 0
  end.

Section Strings.
Implicit Types (m : mem) (a : Z) (l : list Z).

Lemma is_cstr_agree m m' a l :
  (forall b, a <= b <= a + zlen l -> ldb m' b = ldb m b) -> is_cstr m a l -> is_cstr m' a l.
Proof.
  unfold zlen. revert a; induction l as [|c l IH]; intros a Hag; cbn [is_cstr length] in *.
  - intros <-. apply Hag. lia.
  - intros (<- & Hc & Hl). split; [apply Hag; lia|]. split; [done|].
    apply IH; [|done]. intros b Hb. apply Hag. lia.
Qed.

Lemma strlen_spec m a l fuel : is_cstr m a l -> (length l < fuel)%nat -> strlen fuel m a = Some (zlen l).
Proof.
  intros Hs Hf. unfold strlen. replace (zlen l) with (0 + zlen l) by lia. generalize 0 as k. unfold zlen.
  revert a fuel Hs Hf; induction l as [|c l IH]; intros a [|fuel] Hs Hf k; cbn [length] in Hf; try lia;
    cbn [strlen_from is_cstr length] in *.
  - rewrite Hs. cbn [Z.eqb]. f_equal; lia.
  - destruct Hs as (-> & Hc & Hl). rewrite (proj2 (Z.eqb_neq c 0)), IH by (done || lia). f_equal; lia.
Qed.

Lemma strcmp_spec m a1 a2 l1 l2 fuel :
  is_cstr m a1 l1 -> is_cstr m a2 l2 -> (length l1 < fuel)%nat -> strcmp fuel m a1 a2 = Some (byte_diff l1 l2).
Proof.
  revert a1 a2 l2 fuel; induction l1 as [|x l1 IH]; intros a1 a2 l2 [|fuel] H1 H2 Hf;
    cbn [length] in Hf; try lia; cbn [is_cstr strcmp] in *.
  - rewrite H1. cbn [Z.eqb negb andb]. destruct l2 as [|y l2]; cbn [is_cstr byte_diff] in *.
    + by rewrite H2.
    + destruct H2 as (-> & _). f_equal; lia.
  - destruct H1 as (-> & Hx & H1). rewrite (proj2 (Z.eqb_neq x 0)) by done. cbn [negb andb].
    destruct l2 as [|y l2]; cbn [is_cstr byte_diff] in *.
    + rewrite H2, (proj2 (Z.eqb_neq x 0)) by done. f_equal; lia.
    + destruct H2 as (-> & Hy & H2). destruct (x =? y); [|done]. apply IH; [done|done|lia].
Qed.

Lemma byte_diff_zero m a1 a2 l1 l2 :
  is_cstr m a1 l1 -> is_cstr m a2 l2 -> byte_diff l1 l2 = 0 <-> l1 = l2.
Proof.
  revert a1 a2 l2; induction l1 as [|x l1 IH]; intros a1 a2 [|y l2] H1 H2; cbn [is_cstr byte_diff] in *.
  - done.
  - destruct H2 as (_ & Hy & _). split; [lia|done].
  - destruct H1 as (_ & Hx & _). split; [lia|done].
  - destruct H1 as (_ & Hx & H1), H2 as (_ & Hy & H2). destruct (Z.eqb_spec x y) as [->|Hne].
    + rewrite (IH _ _ _ H1 H2). split; congruence.
    + split; [lia|congruence].
Qed.

Lemma memcmp_spec m a1 a2 n :
  memcmp m a1 a2 (Z.of_nat n) = byte_diff (bytes m a1 n) (bytes m a2 n).
Proof.
  unfold memcmp. rewrite Nat2Z.id. revert a1 a2; induction n as [|n IH]; intros a1 a2; [done|].
  assert (Hb : forall a, bytes m a (S n) = ldb m a :: bytes m (a + 1) n).
  { intros a. unfold bytes. cbn [seq fmap list_fmap]. rewrite Z.add_0_r. f_equal.
    rewrite <- fmap_S_seq, <- list_fmap_compose. apply list_fmap_ext. intros i k _. cbn. f_equal; lia. }
  rewrite !Hb. cbn [memcmp_from byte_diff]. rewrite IH. by destruct (_ =? _).
Qed.

Lemma strcpy_from_spec d s l m fuel :
  mem_ok m -> is_cstr m s l -> (length l < fuel)%nat -> d + zlen l < s \/ s + zlen l < d ->
  exists m', strcpy_from fuel d s m = Some m' /\ within d (d + zlen l + 1) m m' /\ is_cstr m' d l /\ mem_ok m'.
Proof.
  unfold zlen. revert d s m fuel; induction l as [|c l IH]; intros d s m [|fuel] Hm Hs Hf Hd;
    cbn [length] in Hf, Hd; try lia; cbn [is_cstr strcpy_from] in *.
  - rewrite Hs. cbn [Z.eqb]. eexists. split; [done|]. cbn [length]. split.
    + apply within_stb; [reflexivity|lia].
    + split; [by rewrite ldb_stb_eq|by apply mem_ok_stb].
  - destruct Hs as (Ec & Hc & Hs). rewrite Ec, (proj2 (Z.eqb_neq c 0)) by done.
    assert (Hu : u8 c = c) by (rewrite <- Ec; by apply u8_ldb).
    destruct (IH (d + 1) (s + 1) (stb m d c) fuel) as (m' & E & Hw & Hl & Hm'); [by apply mem_ok_stb| |lia|lia|].
    + apply (is_cstr_agree m); [|done]. unfold zlen. intros b Hb. apply ldb_stb_ne. lia.
    + rewrite E. exists m'. split; [done|]. cbn [length]. split; [|split; [|done]].
      * transitivity (stb m d c); [apply within_stb; [reflexivity|lia]|].
        apply (within_mono _ _ (d + 1) (d + 1 + Z.of_nat (length l) + 1)); [lia|lia|done].
      * split; [|split; [done|done]].
        rewrite (within_ldb _ _ _ _ d Hw) by lia. by rewrite ldb_stb_eq.
Qed.
End Strings.

(** ** Division *)

Section Division.
Implicit Types (n d q r i k : Z).

Lemma bring_down_eq n i r :
  0 <= i -> 0 <= r < 2 ^ 63 -> bring_down n i r = 2 * r + (n / 2 ^ i) mod 2.
Proof.
  intros Hi Hr. unfold bring_down. rewrite Z.shiftr_div_pow2, Z.shiftl_mul_pow2 by lia.
  rewrite (Z.land_ones _ 1) by lia. change (2 ^ 1) with 2.
  pose proof (Z.mod_pos_bound (n / 2 ^ i) 2 ltac:(lia)) as Hb. set (b := (n / 2 ^ i) mod 2) in *. clearbody b.
  rewrite u64_small by (unfold is_u64; lia). rewrite (Z.mul_comm r 2).
  assert (E : Z.land (2 * r) b = 0).
  { apply Z.bits_inj'. intros j Hj. rewrite Z.land_spec, Z.bits_0.
    destruct (Z.eq_dec j 0) as [->|Hne]; [by rewrite Z.testbit_even_0|].
    destruct (Z.eq_dec b 0) as [->|]; [by rewrite Z.bits_0, andb_false_r|].
    replace b with 1 by lia. rewrite (Z.bits_above_log2 1 j), andb_false_r by (cbn; lia). done. }
  rewrite <- Z.lxor_lor, <- Z.add_nocarry_lxor by done. done.
Qed.

Lemma half_step n i : 0 <= i -> n / 2 ^ i = 2 * (n / 2 ^ (i + 1)) + (n / 2 ^ i) mod 2.
Proof.
  intros Hi. replace (n / 2 ^ (i + 1)) with (n / 2 ^ i / 2);
    [pose proof (Z.div_mod (n / 2 ^ i) 2); lia|].
  rewrite Z.pow_add_r by lia. change (2 ^ 1) with 2. rewrite Z.div_div; [done|lia|lia].
Qed.

(** After the bits above [e] came down: quotient and remainder of that prefix. *)
Definition prefix_div (n d e q r : Z) : Prop :=
  q mod 2 ^ e = 0 /\ q / 2 ^ e * d + r = n / 2 ^ e /\ 0 <= r < d /\ 0 <= q.

Lemma prefix_small n d e q r :
  is_u64 n -> 0 < d -> 0 < e <= 64 -> prefix_div n d e q r -> 0 <= r < 2 ^ 63.
Proof.
  intros Hn Hd He (_ & E & Hr & Hq). unfold is_u64 in Hn. split; [lia|].
  assert (0 <= q / 2 ^ e) by (apply Z.div_pos; lia).
  assert (n / 2 ^ e < 2 ^ 63); [|nia].
  apply Z.div_lt_upper_bound; [lia|]. rewrite <- Z.pow_add_r by lia.
  apply Z.lt_le_trans with (2 ^ 64); [lia|]. apply Z.pow_le_mono_r; lia.
Qed.

Lemma lor_pow2 q i : 0 <= i -> 0 <= q -> q mod 2 ^ (i + 1) = 0 -> Z.lor q (2 ^ i) = q + 2 ^ i.
Proof.
  intros Hi Hq Hm. assert (E : Z.land q (2 ^ i) = 0).
  { apply Z.bits_inj'. intros j Hj. rewrite Z.land_spec, Z.bits_0, Z.pow2_bits_eqb by done.
    destruct (Z.eqb_spec i j) as [<-|]; [|apply andb_false_r]. rewrite andb_true_r.
    rewrite <- (Z.mod_pow2_bits_low q (i + 1) i) by lia. by rewrite Hm, Z.bits_0. }
  rewrite <- Z.lxor_lor, <- Z.add_nocarry_lxor by done. done.
Qed.

Lemma div_turn_ok n d i q r :
  is_u64 n -> is_u64 d -> 0 < d -> 0 <= i < 64 -> prefix_div n d (i + 1) q r ->
  prefix_div n d i (fst (div_turn n d i (q, r))) (snd (div_turn n d i (q, r))).
Proof.
  intros Hn Hdu Hd Hi Hp. pose proof (prefix_small n d (i + 1) q r Hn Hd ltac:(lia) Hp) as Hr.
  destruct Hp as (Hm & E & Hrd & Hq). unfold div_turn. rewrite bring_down_eq by lia.
  pose proof (half_step n i ltac:(lia)) as Hh. pose proof (Z.mod_pos_bound (n / 2 ^ i) 2 ltac:(lia)) as Hb.
  set (b := (n / 2 ^ i) mod 2) in *. set (P := 2 ^ i) in *.
  assert (HP : 0 < P) by (unfold P; lia). assert (HP2 : 2 ^ (i + 1) = 2 * P)
    by (unfold P; rewrite Z.pow_add_r by lia; lia). rewrite HP2 in *.
  apply Z.div_exact in Hm; [|lia]. set (Q := q / (2 * P)) in *.
  assert (EQ : q / P = 2 * Q) by (rewrite Hm; replace (2 * P * Q) with (2 * Q * P) by lia; apply Z.div_mul; lia).
  assert (HQ : 0 <= Q) by (apply Z.div_pos; lia).
  unfold is_u64 in *. unfold prefix_div.
  destruct (Z.leb_spec d (2 * r + b)); cbn [fst snd].
  - rewrite Z.shiftl_1_l. fold P.
    assert (P < 2 ^ 64) by (unfold P; apply Z.pow_lt_mono_r; lia). rewrite (u64_small P) by (unfold is_u64; lia).
    assert (El : Z.lor q P = q + P).
    { apply (lor_pow2 q i); [lia|done|]. rewrite HP2, Hm. replace (2 * P * Q) with (Q * (2 * P)) by lia. apply Z.mod_mul. lia. }
    rewrite El.
    rewrite u64_small by (unfold is_u64; lia).
    replace (q + P) with ((2 * Q + 1) * P) by (rewrite Hm; lia).
    rewrite Z.mod_mul, Z.div_mul by lia. split; [done|]. rewrite Hh. fold P. split; [|split; [lia|nia]]. lia.
  - replace q with (2 * Q * P) by (rewrite Hm; lia). rewrite Z.mod_mul, Z.div_mul by lia.
    split; [done|]. fold P. rewrite Hh. fold P. split; [lia|]. split; [lia|nia].
Qed.

Lemma div_loop n d :
  is_u64 n -> is_u64 d -> 0 < d ->
  for_range 0 64 (fun k => div_turn n d (63 - k)) (0, 0) = (n / d, n mod d).
Proof.
  intros Hn Hdu Hd.
  pose (P := fun k (qr : Z * Z) => prefix_div n d (64 - k) (fst qr) (snd qr)).
  assert (HP : P 64 (for_range 0 64 (fun k => div_turn n d (63 - k)) (0, 0))).
  { apply (for_range_ind P); [lia| |].
    - unfold P, prefix_div. cbn [fst snd]. change (2 ^ (64 - 0)) with 0x10000000000000000.
      rewrite (Z.div_small n) by exact Hn. rewrite Z.mod_0_l, Z.div_0_l by lia. lia.
    - intros k [q r] Hk Hq. unfold P in *. cbn [fst snd] in Hq. replace (64 - (k + 1)) with (63 - k) by lia.
      apply div_turn_ok; [done|done|done|lia|]. by replace (63 - k + 1) with (64 - k) by lia. }
  destruct (for_range 0 64 _ (0, 0)) as [q r]. unfold P, prefix_div in HP. cbn [fst snd] in HP.
  change (2 ^ (64 - 64)) with 1 in HP. rewrite !Z.div_1_r in HP. destruct HP as (_ & E & Hr & _).
  f_equal; [apply (Z.div_unique n d q r)|apply (Z.mod_unique n d q r)]; lia.
Qed.

(** The loop of the remainder is that of the division without its quotient. *)
Lemma mod_loop n d :
  is_u64 n -> is_u64 d -> 0 < d -> for_range 0 64 (fun k => mod_turn n d (63 - k)) 0 = n mod d.
Proof.
  intros Hn Hdu Hd. pose proof (div_loop n d Hn Hdu Hd) as E.
  assert (H : forall c k s, snd (loop c k (fun k => div_turn n d (63 - k)) s) =
    loop c k (fun k => mod_turn n d (63 - k)) (snd s)).
  { induction c as [|c IH]; intros k s; [done|]. cbn [loop]. rewrite IH. f_equal. destruct s as [q r].
    unfold div_turn, mod_turn. cbn [snd]. by destruct (d <=? _). }
  unfold for_range in *. rewrite <- (H _ _ (0, 0)), E. done.
Qed.

(** The power-of-two test, and the shift it stands for. *)
Lemma is_pow2_spec d : 0 < d <= 0xFFFFFFFF -> is_pow2 d = true -> exists k, 0 <= k < 32 /\ d = 2 ^ k.
Proof.
  intros Hd Hp. unfold is_pow2 in Hp. apply Z.eqb_eq in Hp. rewrite u32_small in Hp by (unfold is_u32; lia).
  exists (Z.log2 d). pose proof (Z.log2_spec d ltac:(lia)) as [Hl Hh]. pose proof (Z.log2_nonneg d).
  split; [split; [done|]; apply Z.log2_lt_pow2; lia|].
  destruct (Z.eq_dec d (2 ^ Z.log2 d)) as [|Hne]; [done|exfalso].
  assert (Hb : Z.testbit (Z.land d (d - 1)) (Z.log2 d) = true); [|by rewrite Hp, Z.bits_0 in Hb].
  rewrite Z.land_spec, Z.bit_log2 by lia. cbn [andb].
  assert (E : Z.log2 (d - 1) = Z.log2 d) by (apply Z.log2_unique; lia).
  rewrite <- E. apply Z.bit_log2. pose proof (Z.pow_pos_nonneg 2 (Z.log2 d)). lia.
Qed.

Lemma pow2_shift_spec k : 0 <= k < 32 -> pow2_shift (2 ^ k) = Some k.
Proof.
  intros Hk. unfold pow2_shift.
  assert (E : forall j, 0 <= j <= k -> Z.shiftr (2 ^ k) j = 2 ^ (k - j))
    by (intros j Hj; rewrite Z.shiftr_div_pow2, <- Z.pow_sub_r by lia; done).
  apply find_range_intro; [lia| |].
  - rewrite E by lia. by rewrite Z.sub_diag.
  - intros j Hj. rewrite E by lia. apply Z.eqb_neq. pose proof (Z.pow_gt_1 2 (k - j) ltac:(lia)). lia.
Qed.

Lemma udivdi3_eq n d : is_u64 n -> is_u64 d -> 0 < d -> udivdi3 n d = n / d.
Proof.
  intros Hn Hdu Hd. unfold udivdi3. rewrite (proj2 (Z.eqb_neq d 0)) by lia.
  destruct ((d <=? 0xFFFFFFFF) && is_pow2 (u32 d)) eqn:E; [|by rewrite div_loop].
  apply andb_true_iff in E as [Hle Hp]. apply Z.leb_le in Hle.
  rewrite u32_small in * by (unfold is_u32; lia). destruct (is_pow2_spec d) as (k & Hk & ->); [lia|done|].
  rewrite pow2_shift_spec, Z.shiftr_div_pow2 by lia. done.
Qed.

Lemma umoddi3_eq n d : is_u64 n -> is_u64 d -> 0 < d -> umoddi3 n d = n mod d.
Proof.
  intros Hn Hdu Hd. unfold umoddi3. rewrite (proj2 (Z.eqb_neq d 0)) by lia.
  destruct ((d <=? 0xFFFFFFFF) && is_pow2 (u32 d)) eqn:E; [|by apply mod_loop].
  apply andb_true_iff in E as [Hle Hp]. apply Z.leb_le in Hle.
  rewrite u32_small in * by (unfold is_u32; lia). destruct (is_pow2_spec d) as (k & Hk & ->); [lia|done|].
  rewrite u64_small by (unfold is_u64 in *; lia).
  replace (2 ^ k - 1) with (Z.ones k) by (rewrite Z.ones_equiv; lia). apply Z.land_ones. lia.
Qed.

Definition is_s64 (x : Z) : Prop := -0x8000000000000000 <= x < 0x8000000000000000.

Lemma s64_small x : is_s64 x -> s64 x = x.
Proof. unfold is_s64, s64. intros Hx. case_match; bool_hyps; cint. Qed.

(** The magnitude the signed routines divide. *)
Lemma magnitude x : is_s64 x -> u64 (if x <? 0 then s64 (- x) else x) = Z.abs x.
Proof.
  unfold is_s64, s64. intros Hx. destruct (Z.ltb_spec x 0); [|cint].
  case_match; bool_hyps; cint.
Qed.

Lemma s64_neg q : 0 <= q <= 0x8000000000000000 -> s64 (- s64 q) = - q.
Proof.
  intros Hq. assert (q = 0x8000000000000000 \/ q < 0x8000000000000000) as [->|Hlt] by lia; [done|].
  rewrite (s64_small q), s64_small by (unfold is_s64; lia). done.
Qed.

(** A magnitude [q] with the sign of a product, as the routines put it back. *)
Lemma signed_result n d q :
  n <> 0 -> d <> 0 -> 0 <= q <= 0x8000000000000000 ->
  (q = 0x8000000000000000 -> xorb (n <? 0) (d <? 0) = true) ->
  (if xorb (n <? 0) (d <? 0) then s64 (- s64 q) else s64 q) = Z.sgn n * Z.sgn d * q.
Proof.
  intros Hn Hd Hq Htop.
  assert (q = 0x8000000000000000 \/ is_s64 q) as [E|E] by (unfold is_s64; lia).
  - specialize (Htop E). rewrite Htop, s64_neg by done.
    destruct (Z.ltb_spec n 0), (Z.ltb_spec d 0); try done; lia.
  - rewrite s64_neg, (s64_small q) by done.
    destruct (Z.ltb_spec n 0), (Z.ltb_spec d 0); cbn [xorb]; lia.
Qed.

Lemma magnitude_ok x : is_s64 x -> x <> 0 -> is_u64 (Z.abs x) /\ 0 < Z.abs x <= 0x8000000000000000.
Proof. unfold is_s64, is_u64. lia. Qed.

(** The one quotient of magnitude 2^63 or more. *)
Lemma top_quotient a b : 0 <= a <= 0x8000000000000000 -> 0 < b -> a / b = 0x8000000000000000 ->
  a = 0x8000000000000000 /\ b = 1.
Proof.
  intros Ha Hb E. assert (b = 1 \/ 2 <= b) as [->|Hb2] by lia; [rewrite Z.div_1_r in E; lia|].
  pose proof (Z.div_le_compat_l a 2 b ltac:(lia) ltac:(lia)). pose proof (Z.div_lt_upper_bound a 2 0x8000000000000000). lia.
Qed.

Lemma divdi3_eq n d :
  is_s64 n -> is_s64 d ->
  divdi3 n d = if d =? 0 then 0 else if (n =? -0x8000000000000000) && (d =? -1) then n else Z.quot n d.
Proof.
  intros Hn Hd. unfold divdi3. rewrite !magnitude by done. destruct (Z.eqb_spec d 0) as [->|Hd0].
  { unfold udivdi3. cbn [Z.abs Z.eqb]. by destruct (n <? 0). }
  destruct (Z.eqb_spec n 0) as [->|Hn0].
  { rewrite udivdi3_eq by (apply (magnitude_ok d Hd Hd0) || done). change (Z.abs 0) with 0.
    rewrite Z.div_0_l, Z.quot_0_l by lia. by destruct (d <? 0). }
  destruct (magnitude_ok n Hn Hn0) as [Ha Ha'], (magnitude_ok d Hd Hd0) as [Hb Hb'].
  rewrite udivdi3_eq, Z.quot_div by (done || lia).
  assert (Hq : 0 <= Z.abs n / Z.abs d <= 0x8000000000000000).
  { split; [apply Z.div_pos; lia|]. apply Z.div_le_upper_bound; nia. }
  destruct ((n =? -0x8000000000000000) && (d =? -1)) eqn:E.
  { apply andb_true_iff in E as [->%Z.eqb_eq ->%Z.eqb_eq]. done. }
  apply signed_result; [done|done|done|]. intros Et.
  apply top_quotient in Et as [E1 E2]; [|lia|lia]. apply andb_false_iff in E as [E|E]; apply Z.eqb_neq in E;
    unfold is_s64 in *; destruct (Z.ltb_spec n 0), (Z.ltb_spec d 0); cbn; lia.
Qed.

Lemma moddi3_eq n d : is_s64 n -> is_s64 d -> moddi3 n d = if d =? 0 then 0 else Z.rem n d.
Proof.
  intros Hn Hd. unfold moddi3. rewrite !magnitude by done. destruct (Z.eqb_spec d 0) as [->|Hd0].
  { unfold umoddi3. cbn [Z.abs Z.eqb]. by destruct (n <? 0). }
  destruct (magnitude_ok d Hd Hd0) as [Hb Hb']. destruct (Z.eqb_spec n 0) as [->|Hn0].
  { rewrite umoddi3_eq by (lia || done). change (Z.abs 0) with 0. by rewrite Z.mod_0_l, Z.rem_0_l by lia. }
  destruct (magnitude_ok n Hn Hn0) as [Ha Ha'].
  rewrite umoddi3_eq, Z.rem_mod by (done || lia).
  pose proof (Z.mod_pos_bound (Z.abs n) (Z.abs d) ltac:(lia)) as Hm.
  pose proof (signed_result n 1 (Z.abs n mod Z.abs d) Hn0 ltac:(done) ltac:(lia)) as Hs.
  change (1 <? 0) with false in Hs. rewrite xorb_false_r in Hs. change (Z.sgn 1) with 1 in Hs.
  rewrite Z.mul_1_r in Hs. apply Hs. lia.
Qed.
End Division.

(** ** Numbers in text *)

(** [l] is a numeral in [base], and the number it stands for. *)
Definition digit_in (base c : Z) : bool :=
  negb (c =? 0) && match digit_of c with Some dg => dg <? base | None => false end.
Definition numeral_value (base : Z) (l : list Z) : Z :=
  foldl (fun r c => r * base + default 0 (digit_of c)) 0 l.

Section Strtoul.
Implicit Types (m : mem) (l : list Z).

Lemma strtoul_stop fuel m p base r : digit_in base (ldb m p) = false -> strtoul_from (S fuel) m p base r = Some (r, p).
Proof.
  unfold digit_in. cbn [strtoul_from]. destruct (ldb m p =? 0); [done|]. cbn [negb andb].
  destruct (digit_of (ldb m p)) as [dg|]; [|done]. intros Hb%Z.ltb_ge. by rewrite (proj2 (Z.leb_le base dg)).
Qed.

Lemma strtoul_digit fuel m p base r :
  digit_in base (ldb m p) = true ->
  strtoul_from (S fuel) m p base r = strtoul_from fuel m (p + 1) base (u64 (r * base + default 0 (digit_of (ldb m p)))).
Proof.
  unfold digit_in. cbn [strtoul_from]. intros [Hz Hd]%andb_true_iff. apply negb_true_iff in Hz. rewrite Hz.
  destruct (digit_of (ldb m p)) as [dg|]; [|done]. apply Z.ltb_lt in Hd. by rewrite (proj2 (Z.leb_gt base dg)).
Qed.

Lemma strtoul_from_spec m base p l fuel r :
  bytes m p (length l) = l -> Forall (fun c => digit_in base c = true) l ->
  digit_in base (ldb m (p + zlen l)) = false -> (length l < fuel)%nat ->
  strtoul_from fuel m p base (u64 r) =
    Some (u64 (foldl (fun r c => r * base + default 0 (digit_of c)) r l), p + zlen l).
Proof.
  unfold zlen. revert p fuel r; induction l as [|c l IH]; intros p [|fuel] r Hb Hl Hs Hf; cbn [length] in Hf; try lia.
  - cbn [length] in Hs. rewrite strtoul_stop by (by rewrite Z.add_0_r in Hs). cbn [length foldl]. by rewrite Z.add_0_r.
  - apply Forall_cons in Hl as [Hc Hl].
    assert (Ec : ldb m p = c /\ bytes m (p + 1) (length l) = l).
    { unfold bytes in Hb |- *. cbn [length seq fmap list_fmap] in Hb. injection Hb as E1 E2. rewrite Z.add_0_r in E1.
      split; [done|]. rewrite <- E2 at 2. rewrite <- fmap_S_seq, <- list_fmap_compose.
      apply list_fmap_ext. intros i k _. cbn. f_equal; lia. }
    destruct Ec as [Ec Eb]. rewrite strtoul_digit by (by rewrite Ec). rewrite Ec.
    replace (u64 (u64 r * base + default 0 (digit_of c))) with (u64 (r * base + default 0 (digit_of c))).
    2: { unfold u64. rewrite <- Zplus_mod_idemp_l, <- (Zplus_mod_idemp_l (_ mod _ * _)).
         by rewrite Zmult_mod_idemp_l. }
    cbn [length] in Hs. rewrite (IH (p + 1)); [|done|done| |lia].
    + cbn [foldl length]. do 2 f_equal. lia.
    + replace (p + 1 + Z.of_nat (length l)) with (p + Z.of_nat (S (length l))) by lia. done.
Qed.
End Strtoul.

(** ** Properties *)

(** C29: the 64-bit division the compiler calls.  The unsigned routines give the
    quotient and remainder of any two 64-bit operands, by the shift for powers of
    two and by the long division of 64 turns otherwise; a divisor of 0 gives 0.
    The signed routines truncate towards zero; the one quotient that does not fit,
    that of the least number by -1, wraps to the least number. *)
Theorem division_exact (n d : Z) :
  (is_u64 n -> is_u64 d ->
   udivdi3 n d = (if d =? 0 then 0 else n / d) /\ umoddi3 n d = (if d =? 0 then 0 else n mod d) /\
   udivmoddi4 n d = (if d =? 0 then (0, n) else (n / d, n mod d))) /\
  (is_s64 n -> is_s64 d ->
   divdi3 n d = (if d =? 0 then 0 else if (n =? -0x8000000000000000) && (d =? -1) then n else Z.quot n d) /\
   moddi3 n d = (if d =? 0 then 0 else Z.rem n d)).
Proof.
  split.
  - intros Hn Hd. unfold udivmoddi4. destruct (Z.eqb_spec d 0) as [->|Hne].
    + unfold udivdi3, umoddi3. cbn [Z.eqb]. split; [done|]. split; [done|]. rewrite Z.mul_0_l, (u64_small 0) by done.
      by rewrite Z.sub_0_r, u64_small.
    + assert (Hpos : 0 < d) by (unfold is_u64 in Hd; lia). rewrite udivdi3_eq, umoddi3_eq by done.
      split; [done|]. split; [done|]. f_equal.
      assert (n / d * d <= n) by (rewrite Z.mul_comm; apply Z.mul_div_le; lia).
      assert (0 <= n / d * d) by (apply Z.mul_nonneg_nonneg; [apply Z.div_pos; unfold is_u64 in Hn|]; lia).
      rewrite (u64_small (n / d * d)) by (unfold is_u64 in *; lia).
      rewrite Z.mod_eq, (Z.mul_comm d) by lia. apply u64_small. unfold is_u64 in *. lia.
  - intros Hn Hd. split; [by apply divdi3_eq|by apply moddi3_eq].
Qed.

Lemma division_exact_witness :
  divdi3 (-7) 2 = -3 /\ moddi3 (-7) 2 = -1 /\ udivdi3 0xFFFFFFFFFFFFFFFF 3 = 0x5555555555555555.
Proof.
  pose proof (division_exact (-7) 2) as [_ H]. destruct H as [H1 H2]; [unfold is_s64; lia|unfold is_s64; lia|].
  pose proof (division_exact 0xFFFFFFFFFFFFFFFF 3) as [H _]. destruct H as [H3 _]; [unfold is_u64; lia|unfold is_u64; lia|].
  split; [exact H1|]. split; [exact H2|exact H3].
Defined.

(** Copying and comparing memory and strings.  [memmove] is right for every
    overlap; [memcpy] is right unless the destination starts inside the source,
    where it repeats the bytes in front of it; [memset] fills and touches nothing
    else.  [memcmp] and [strcmp] return the difference of the first bytes that
    differ, 0 exactly for equal strings; [strlen] counts to the NUL; [strcpy]
    copies the string and its NUL and nothing else. *)
Theorem string_routines (m : mem) (d s n : Z) (a b : Z) (la lb : list Z) (fuel : nat) :
  mem_ok m -> 0 <= n -> is_cstr m a la -> is_cstr m b lb -> (length la < fuel)%nat ->
  copied d s n m (memmove d s n m) /\
  (d <= s \/ s + n <= d -> copied d s n m (memcpy d s n m)) /\
  (s < d -> forall i, 0 <= i < n -> ldb (memcpy d s n m) (d + i) = ldb m (s + i mod (d - s))) /\
  (forall c, within s (s + n) m (memset s c n m) /\
     forall i, 0 <= i < n -> ldb (memset s c n m) (s + i) = u8 c) /\
  memcmp m d s n = byte_diff (bytes m d (Z.to_nat n)) (bytes m s (Z.to_nat n)) /\
  strlen fuel m a = Some (zlen la) /\
  (exists r, strcmp fuel m a b = Some r /\ r = byte_diff la lb /\ (r = 0 <-> la = lb)) /\
  (b + zlen la < a \/ a + zlen la < b ->
   exists m', strcpy fuel b a m = Some m' /\ within b (b + zlen la + 1) m m' /\ is_cstr m' b la).
Proof.
  intros Hm Hn Ha Hb Hf. split; [by apply memmove_copied|]. split; [by apply memcpy_copied|].
  split; [intros; by apply memcpy_repeats|]. split.
  { intros c. destruct (memset_spec s c n m Hn) as (H1 & _ & H2). done. }
  split; [by rewrite <- memcmp_spec, Z2Nat.id|]. split; [by apply strlen_spec|]. split.
  - exists (byte_diff la lb). split; [by apply strcmp_spec|]. split; [done|]. by apply (byte_diff_zero m a b).
  - intros Hd. destruct (strcpy_from_spec b a la m fuel Hm Ha Hf Hd) as (m' & E & Hw & Hl & _). by exists m'.
Qed.

Lemma string_routines_witness :
  let m := stb (stb (stb ∅ 16 104) 17 105) 32 104 in
  copied 17 16 2 m (memmove 17 16 2 m) /\ strcmp 4 m 16 32 = Some 105 /\ is_cstr (memcpy 48 16 3 m) 48 [104; 105].
Proof.
  intros m. destruct (string_routines m 17 16 2 16 32 [104; 105] [104] 4) as (H1 & _ & _ & _ & _ & _ & H2 & _).
  - unfold m. auto with cint.
  - lia.
  - done.
  - done.
  - cbn. lia.
  - split; [exact H1|]. split; [|done]. destruct H2 as (r & E & -> & _). exact E.
Defined.

(** [strtoul]: the longest prefix of digits of the base, cut to 64 bits; a number
    that does not fit wraps, and no sign or space is taken. *)
Theorem strtoul_numeral (m : mem) (base p : Z) (l : list Z) (fuel : nat) :
  bytes m p (length l) = l -> Forall (fun c => digit_in base c = true) l ->
  digit_in base (ldb m (p + zlen l)) = false -> (length l < fuel)%nat ->
  strtoul fuel m p base = Some (u64 (numeral_value base l), p + zlen l).
Proof. intros Hb Hl Hs Hf. exact (strtoul_from_spec m base p l fuel 0 Hb Hl Hs Hf). Qed.

(** [calloc] does not check the product: with an allocator that succeeds, 2^61
    objects of 8 bytes are a block of 0 bytes. *)
Theorem calloc_wraps {S} (malloc : Z -> S -> option (Z * S)) upd (s s' : S) ptr :
  malloc 0 s = Some (ptr, s') -> (forall m, upd (fun m' : mem => m') m = m) ->
  (forall f g m, (forall x : mem, f x = g x) -> upd f m = upd g m) ->
  calloc malloc upd 0x2000000000000000 8 s = Some (ptr, s').
Proof.
  intros E Hid Hext. unfold calloc. change (u64 (0x2000000000000000 * 8)) with 0. rewrite E.
  do 2 f_equal. destruct (negb (ptr =? 0)); [|done]. rewrite <- (Hid s') at 2. by apply Hext.
Qed.
