(* ===== verification/Console.v ===== *)
(** kernel/console.c: the text console.  The VGA text buffer with its cursor, the
    copy of the output on the serial port, and the number printers every
    component logs with.

    A [char] is its signed value.  [ports] lists the port writes, the last first;
    the wait for the UART before each byte is hardware and not modelled.  The
    theorems: the cursor and every cell written stay inside the buffer for any
    output; what one character does to the screen; and that printed numbers read
    back as the numbers. *)

From S2P Require Import Prelude Mem CLib.

Abbreviation SERIAL_PORT := 0x3F8.
Abbreviation VGA_WIDTH := 80.
Abbreviation VGA_HEIGHT := 25.
Abbreviation default_color := 0x0F.

Record console := Console {
  serial_enabled : bool;
  ports : list (Z * Z);
  VGA_BUFFER : list Z;
  cursor_row : Z;
  cursor_col : Z
}.
#[export] Instance console_eta : Eta console := fun s =>
  Console (serial_enabled s) (ports s) (VGA_BUFFER s) (cursor_row s) (cursor_col s).

Implicit Types s : console.

Definition outb (port val : Z) (s : console) : console := s{{ ports ::= cons (port, u8 val) }}.

Definition serial_init (s : console) : console :=
  let s := outb (SERIAL_PORT + 1) 0x00 s in
  let s := outb (SERIAL_PORT + 3) 0x80 s in
  let s := outb (SERIAL_PORT + 0) 0x03 s in
  let s := outb (SERIAL_PORT + 1) 0x00 s in
  let s := outb (SERIAL_PORT + 3) 0x03 s in
  let s := outb (SERIAL_PORT + 2) 0xC7 s in
  let s := outb (SERIAL_PORT + 4) 0x0B s in
  s{{ serial_enabled := true }}.

Definition serial_putc (c : Z) (s : console) : console :=
  if negb (serial_enabled s) then s else outb SERIAL_PORT c s.

Definition vga_entry (c color : Z) : Z := Z.lor (u16 c) (u16 (Z.shiftl color 8)).

Definition set_cell (y x v : Z) (s : console) : console :=
  s{{ VGA_BUFFER ::= fun l => zset l (y * VGA_WIDTH + x) v }}.
Definition cell (s : console) (y x : Z) : Z := zget (VGA_BUFFER s) (y * VGA_WIDTH + x).

Definition console_cls (s : console) : console :=
  let s := if negb (serial_enabled s) then serial_init s else s in
  let s := for_range 0 VGA_HEIGHT (fun y => for_range 0 VGA_WIDTH (fun x s =>
    set_cell y x (vga_entry 32 default_color) s)) s in
  s{{ cursor_row := 0; cursor_col := 0 }}.

Definition console_scroll (s : console) : console :=
  let s := for_range 0 (VGA_HEIGHT - 1) (fun y => for_range 0 VGA_WIDTH (fun x s =>
    set_cell y x (cell s (y + 1) x) s)) s in
  for_range 0 VGA_WIDTH (fun x s => set_cell (VGA_HEIGHT - 1) x (vga_entry 32 default_color) s) s.

Definition console_putc (c : Z) (s : console) : console :=
  let s := if c =? 10 then serial_putc 13 s else s in
  let s := serial_putc c s in
  if c =? 8 then
    let s :=
      if 0 <? cursor_col s then s{{ cursor_col ::= fun x => x - 1 }}
      else if 0 <? cursor_row s then s{{ cursor_row ::= fun y => y - 1; cursor_col := VGA_WIDTH - 1 }}
      else s in
    set_cell (cursor_row s) (cursor_col s) (vga_entry 32 default_color) s
  else
    let s :=
      if c =? 10 then s{{ cursor_col := 0; cursor_row ::= fun y => y + 1 }}
      else if 32 <=? c then
        let s := set_cell (cursor_row s) (cursor_col s) (vga_entry c default_color) s in
        let s := s{{ cursor_col ::= fun x => x + 1 }} in
        if VGA_WIDTH <=? cursor_col s then s{{ cursor_col := 0; cursor_row ::= fun y => y + 1 }} else s
      else s in
    if VGA_HEIGHT <=? cursor_row s then (console_scroll s){{ cursor_row := VGA_HEIGHT - 1 }} else s.

Definition console_write (str : list Z) (s : console) : console := foldl (fun s c => console_putc c s) s str.

(** The characters [buf[i + 1 .. 10]] when the loop ends: at most 11 turns, since
    [i] starts at 10. *)
Fixpoint uint_digits (turns : nat) (val : Z) (buf : list Z) : list Z :=
  match turns with
  | O => buf
  | S turns => if 0 <? val then uint_digits turns (val / 10) ((48 + val mod 10) :: buf) else buf
  end.
Definition uint_text (val : Z) : list Z := if val =? 0 then [48] else uint_digits 11 val [].
Definition print_uint (val : Z) (s : console) : console := console_write (uint_text val) s.

Definition hex_digit (d : Z) : Z := if d <? 10 then 48 + d else 65 + (d - 10).
Definition hex_text (n : nat) (val : Z) : list Z :=
  (fun i => hex_digit (Z.land (Z.shiftr val (4 * (Z.of_nat n - 1) - Z.of_nat i * 4)) 0xF)) <$> seq 0 n.
Definition print_hex32 (val : Z) (s : console) : console := console_write ([48; 120] ++ hex_text 8 val) s.
Definition print_hex64 (val : Z) (s : console) : console := console_write ([48; 120] ++ hex_text 16 val) s.

(** The cursor is on the screen. *)
Record console_ok s : Prop := {
  cs_row : 0 <= cursor_row s < VGA_HEIGHT;
  cs_col : 0 <= cursor_col s < VGA_WIDTH;
  cs_buf : zlen (VGA_BUFFER s) = VGA_HEIGHT * VGA_WIDTH
}.

Definition blank : Z := vga_entry 32 default_color.
Definition on_screen (y x : Z) : Prop := 0 <= y < VGA_HEIGHT /\ 0 <= x < VGA_WIDTH.

Section Screen.

Lemma cell_set s y x v y' x' :
  zlen (VGA_BUFFER s) = 2000 -> on_screen y x -> on_screen y' x' ->
  cell (set_cell y x v s) y' x' = if decide (y = y' /\ x = x') then v else cell s y' x'.
Proof.
  intros Hl [Hy Hx] [Hy' Hx']. unfold cell, set_cell. cbn [VGA_BUFFER]. case_decide as E.
  - destruct E as [-> ->]. apply zget_zset_eq. lia.
  - apply zget_zset_ne; lia.
Qed.

Lemma len_set s y x v : zlen (VGA_BUFFER (set_cell y x v s)) = zlen (VGA_BUFFER s).
Proof. apply zlen_zset. Qed.

(** The same screen but for the cells [P], and the same cursor and ports. *)
Definition same_rest s s' : Prop :=
  cursor_row s' = cursor_row s /\ cursor_col s' = cursor_col s /\ ports s' = ports s /\
  serial_enabled s' = serial_enabled s /\ zlen (VGA_BUFFER s') = zlen (VGA_BUFFER s).

(** One row filled from left to right. *)
Lemma row_loop s y (g : console -> Z -> Z) :
  zlen (VGA_BUFFER s) = 2000 -> 0 <= y < 25 ->
  (forall s' x, 0 <= x < 80 -> (forall y' x', on_screen y' x' -> y' <> y -> cell s' y' x' = cell s y' x') -> g s' x = g s x) ->
  let s' := for_range 0 80 (fun x s => set_cell y x (g s x) s) s in
  same_rest s s' /\
  forall y' x', on_screen y' x' -> cell s' y' x' = if decide (y' = y) then g s x' else cell s y' x'.
Proof.
  intros Hl Hy Hg. cbv zeta.
  pose (P := fun k s' => same_rest s s' /\
    forall y' x', on_screen y' x' -> cell s' y' x' = if decide (y' = y /\ x' < k) then g s x' else cell s y' x').
  assert (HP : P 80 (for_range 0 80 (fun x s => set_cell y x (g s x) s) s)).
  { apply (for_range_ind P); [lia| |].
    - split; [done|]. intros y' x' [_ ?]. by rewrite decide_False by lia.
    - intros k s' Hk ((E1 & E2 & E3 & E4 & E5) & He). split.
      + repeat split; try done. by rewrite len_set.
      + intros y' x' Ho. rewrite cell_set by (done || congruence || (split; lia)).
        rewrite He by done. rewrite Hg; [|lia|].
        * repeat case_decide; try done; try lia. destruct_and?; subst. done.
        * intros y2 x2 Ho2 Hne. rewrite He by done. by rewrite decide_False by lia. }
  destruct HP as [Hr He]. split; [done|]. intros y' x' Ho. rewrite He by done.
  apply decide_ext. destruct Ho. lia.
Qed.

Lemma scroll_spec s :
  zlen (VGA_BUFFER s) = 2000 ->
  same_rest s (console_scroll s) /\
  forall y x, on_screen y x -> cell (console_scroll s) y x = if decide (y = 24) then blank else cell s (y + 1) x.
Proof.
  intros Hl. unfold console_scroll.
  set (s1 := for_range 0 (25 - 1) _ s).
  pose (P := fun k s' => same_rest s s' /\ forall y x, on_screen y x ->
    cell s' y x = if decide (y < k) then cell s (y + 1) x else cell s y x).
  assert (HP : P 24 s1).
  { apply (for_range_ind P); [lia| |].
    - split; [done|]. intros y x [? _]. by rewrite decide_False by lia.
    - intros k s' Hk ((E1 & E2 & E3 & E4 & E5) & He).
      assert (Hr := row_loop s' k (fun s x => cell s (k + 1) x) ltac:(congruence) ltac:(lia)
        (fun s2 x Hx Hs2 => Hs2 (k + 1) x ltac:(split; lia) ltac:(lia))).
      cbv beta zeta in Hr. destruct Hr as ((F1 & F2 & F3 & F4 & F5) & Hc).
      split; [repeat split; congruence|]. intros y x Ho. rewrite Hc by done. destruct Ho as [Hy Hx].
      repeat case_decide; try lia.
      + subst y. rewrite He by (split; lia). by rewrite decide_False by lia.
      + rewrite He by (split; lia). by rewrite decide_True by lia.
      + rewrite He by (split; lia). by rewrite decide_False by lia. }
  destruct HP as ((E1 & E2 & E3 & E4 & E5) & He).
  assert (Hr := row_loop s1 24 (fun _ _ => blank) ltac:(congruence) ltac:(lia) ltac:(done)).
  cbv beta zeta in Hr. destruct Hr as ((F1 & F2 & F3 & F4 & F5) & Hc).
  change (25 - 1) with 24. fold blank.
  split; [repeat split; congruence|]. intros y x Ho. rewrite Hc by done. case_decide; [done|].
  rewrite He by done. destruct Ho. by rewrite decide_True by lia.
Qed.
End Screen.

(** ** The screen as a terminal

    A terminal is the sequence of the 2000 cells and the place of the cursor in it:
    a character goes to the cursor; past the last cell the sequence moves up by a
    line. *)

Definition term : Type := list Z * Z.

Definition term_of s : term := (VGA_BUFFER s, cursor_row s * VGA_WIDTH + cursor_col s).

(** Up one line if the cursor left the screen. *)
Definition term_scroll (t : term) : term :=
  let '(l, p) := t in
  if VGA_HEIGHT * VGA_WIDTH <=? p then (drop 80 l ++ replicate 80 blank, p - VGA_WIDTH) else t.

Definition term_putc (c : Z) (t : term) : term :=
  let '(l, p) := t in
  if c =? 8 then (zset l (Z.max 0 (p - 1)) blank, Z.max 0 (p - 1))
  else if c =? 10 then term_scroll (l, (p / VGA_WIDTH + 1) * VGA_WIDTH)
  else if 32 <=? c then term_scroll (zset l p (vga_entry c default_color), p + 1)
  else t.

Definition serial_of (str : list Z) : list (Z * Z) :=
  mjoin ((fun c : Z => (if c =? 10 then [(SERIAL_PORT, 13)] else []) ++ [(SERIAL_PORT, u8 c)]) <$> str).

(** Evaluates the fields of an updated console. *)
Ltac con_simpl := cbn [apply_update constant cursor_row cursor_col VGA_BUFFER ports serial_enabled].

Section Terminal.

Lemma scroll_list s :
  zlen (VGA_BUFFER s) = 2000 -> VGA_BUFFER (console_scroll s) = drop 80 (VGA_BUFFER s) ++ replicate 80 blank.
Proof.
  intros Hl. destruct (scroll_spec s Hl) as ((_ & _ & _ & _ & El) & Hc).
  assert (Hlen : zlen (drop 80 (VGA_BUFFER s)) = 1920)
    by (unfold zlen in *; rewrite length_drop; lia).
  apply list_eq_zget.
  - rewrite El, Hl. unfold zlen in *. rewrite length_app, length_replicate. lia.
  - intros i Hi. rewrite El, Hl in Hi. pose proof (Z.div_mod i 80 ltac:(lia)) as E.
    pose proof (Z.mod_pos_bound i 80 ltac:(lia)) as Hm.
    specialize (Hc (i / 80) (i mod 80) ltac:(split; [Z.div_mod_to_equations; lia|lia])).
    unfold cell in Hc. replace (i / 80 * 80 + i mod 80) with i in Hc by lia. rewrite Hc.
    case_decide as Ed.
    + unfold zget. rewrite lookup_total_app_r by (unfold zlen in *; lia).
      symmetry. apply list_lookup_total_correct. rewrite lookup_replicate_2; [done|]. unfold zlen in *. lia.
    + rewrite zget_app_l by lia. unfold zget. rewrite lookup_total_drop. f_equal; lia.
Qed.

Lemma term_scroll_in l p : p < 2000 -> term_scroll (l, p) = (l, p).
Proof. intros Hp. unfold term_scroll. by rewrite (proj2 (Z.leb_gt _ _)) by lia. Qed.

Lemma scrolled_term s t :
  cursor_row s = 25 -> cursor_col s = 0 -> zlen (VGA_BUFFER s) = 2000 -> same_rest s t ->
  VGA_BUFFER t = drop 80 (VGA_BUFFER s) ++ replicate 80 blank ->
  let s' := t{{ cursor_row := VGA_HEIGHT - 1 }} in
  console_ok s' /\ term_of s' = term_scroll (term_of s) /\ ports s' = ports s /\ serial_enabled s' = serial_enabled s.
Proof.
  intros Hr Hc Hl (E1 & E2 & E3 & E4 & El) Hs. cbv zeta. split; [|split; [|split]].
  - split; con_simpl; lia.
  - unfold term_of. con_simpl. rewrite Hs, E2, Hr, Hc. unfold term_scroll.
    rewrite (proj2 (Z.leb_le _ _)) by lia. f_equal; lia.
  - exact E3.
  - exact E4.
Qed.

(** The end of [console_putc]: the scroll, when the cursor is on the row below. *)
Lemma putc_scroll s :
  0 <= cursor_row s <= 25 -> 0 <= cursor_col s < 80 -> (cursor_row s = 25 -> cursor_col s = 0) ->
  zlen (VGA_BUFFER s) = 2000 ->
  let s' := if VGA_HEIGHT <=? cursor_row s then (console_scroll s){{ cursor_row := VGA_HEIGHT - 1 }} else s in
  console_ok s' /\ term_of s' = term_scroll (term_of s) /\ ports s' = ports s /\ serial_enabled s' = serial_enabled s.
Proof.
  intros Hr Hc Hrc Hl. cbv zeta. destruct (Z.leb_spec 25 (cursor_row s)) as [Hge|Hlt].
  - assert (Hrow : cursor_row s = 25) by lia.
    exact (scrolled_term s (console_scroll s) Hrow (Hrc Hrow) Hl (proj1 (scroll_spec s Hl)) (scroll_list s Hl)).
  - split; [by split; lia|]. split; [|done]. unfold term_of. rewrite term_scroll_in; [done|lia].
Qed.

Lemma serial_putc_eq c s :
  serial_putc c s = s{{ ports := if serial_enabled s then (SERIAL_PORT, u8 c) :: ports s else ports s }}.
Proof. unfold serial_putc. destruct s as [[] ? ? ? ?]; done. Qed.

Lemma console_putc_spec c s :
  console_ok s ->
  let s' := console_putc c s in
  console_ok s' /\ term_of s' = term_putc c (term_of s) /\ serial_enabled s' = serial_enabled s /\
  ports s' = if serial_enabled s then reverse (serial_of [c]) ++ ports s else ports s.
Proof.
  intros [Hr Hc Hb]. unfold console_putc.
  set (s1 := serial_putc c _).
  assert (Es : console_ok s1 /\ term_of s1 = term_of s /\ serial_enabled s1 = serial_enabled s /\
    ports s1 = (if serial_enabled s then reverse (serial_of [c]) ++ ports s else ports s) /\
    cursor_row s1 = cursor_row s /\ cursor_col s1 = cursor_col s).
  { subst s1. unfold serial_of. cbn [fmap list_fmap mjoin list_join]. rewrite app_nil_r.
    rewrite !serial_putc_eq. destruct (c =? 10); rewrite ?serial_putc_eq;
      (split; [by split|]); destruct s as [[] ? ? ? ?]; done. }
  destruct Es as ([Hr1 Hc1 Hb1] & Et & Ese & Ep & Er & Ec). clearbody s1. rewrite <- Ep, <- Et, <- Ese.
  clear s Hr Hc Hb Et Ese Ep Er Ec. change (25 * 80) with 2000 in Hb1.
  unfold term_of at 2. unfold term_putc. destruct (Z.eqb_spec c 8) as [->|H8].
  - cbv zeta. set (s2 := if 0 <? cursor_col s1 then _ else _).
    assert (E2 : VGA_BUFFER s2 = VGA_BUFFER s1 /\ ports s2 = ports s1 /\ serial_enabled s2 = serial_enabled s1 /\
      0 <= cursor_row s2 < 25 /\ 0 <= cursor_col s2 < 80 /\
      cursor_row s2 * 80 + cursor_col s2 = Z.max 0 (cursor_row s1 * 80 + cursor_col s1 - 1)).
    { subst s2. destruct (Z.ltb_spec 0 (cursor_col s1)); [|destruct (Z.ltb_spec 0 (cursor_row s1))];
        con_simpl; do 3 (split; [done|]); lia. }
    destruct E2 as (F1 & F2 & F3 & F4 & F5 & F6). clearbody s2.
    split; [|split; [|done]].
    + split; [done|done|]. rewrite len_set, F1. lia.
    + unfold term_of, set_cell. con_simpl. by rewrite F1, F6.
  - cbv zeta. destruct (Z.eqb_spec c 10) as [->|H10].
    + set (s2 := s1{{ cursor_col := 0; cursor_row ::= fun y => y + 1 }}).
      destruct (putc_scroll s2) as (H1 & H2 & H3 & H4); try (subst s2; con_simpl; lia).
      cbv zeta in H2. split; [exact H1|]. split; [|by split]. rewrite H2. subst s2. unfold term_of. con_simpl.
      do 2 f_equal. Z.div_mod_to_equations. lia.
    + destruct (Z.leb_spec 32 c).
      * set (s2 := set_cell (cursor_row s1) (cursor_col s1) (vga_entry c default_color) s1).
        set (s3 := if VGA_WIDTH <=? _ then _ else _).
        assert (E3 : VGA_BUFFER s3 = VGA_BUFFER s2 /\ ports s3 = ports s1 /\ serial_enabled s3 = serial_enabled s1 /\
          0 <= cursor_row s3 <= 25 /\ 0 <= cursor_col s3 < 80 /\ (cursor_row s3 = 25 -> cursor_col s3 = 0) /\
          cursor_row s3 * 80 + cursor_col s3 = cursor_row s1 * 80 + cursor_col s1 + 1).
        { subst s3. con_simpl. change (cursor_col s2) with (cursor_col s1).
          destruct (Z.leb_spec 80 (cursor_col s1 + 1)); con_simpl;
            change (cursor_row s2) with (cursor_row s1); change (cursor_col s2) with (cursor_col s1); do 3 (split; [done|]); lia. }
        destruct E3 as (F1 & F2 & F3 & F4 & F5 & F6 & F7). clearbody s3.
        destruct (putc_scroll s3) as (H1 & H2 & H3 & H4); [done|done|done|rewrite F1; unfold s2; by rewrite len_set|].
        cbv zeta in H2. split; [exact H1|]. split; [|split; congruence]. rewrite H2. unfold term_of. by rewrite F1, F7.
      * rewrite (proj2 (Z.leb_gt 25 (cursor_row s1))) by lia. split; [by split|]. done.
Qed.
End Terminal.

(** ** Printed numbers *)

Section Numbers.

Lemma uint_digits_value turns val buf :
  0 <= val < 10 ^ Z.of_nat turns ->
  exists l, uint_digits turns val buf = l ++ buf /\
    Forall (fun c => 48 <= c <= 57) l /\
    forall r, foldl (fun r c => r * 10 + default 0 (digit_of c)) r l = r * 10 ^ zlen l + val.
Proof.
  revert val buf; induction turns as [|turns IH]; intros val buf Hv; cbn [uint_digits].
  - exists []. split; [done|]. split; [done|]. intros r. change (10 ^ Z.of_nat 0) with 1 in Hv. cbn [foldl]. change (10 ^ zlen []) with 1. lia.
  - destruct (Z.ltb_spec 0 val).
    + rewrite Nat2Z.inj_succ, Z.pow_succ_r in Hv by lia.
      destruct (IH (val / 10) ((48 + val mod 10) :: buf)) as (l & E & Hl & Hval); [Z.div_mod_to_equations; lia|].
      pose proof (Z.mod_pos_bound val 10 ltac:(lia)) as Hm.
      exists (l ++ [48 + val mod 10]). split; [by rewrite <- app_assoc|]. split.
      * apply Forall_app. split; [done|]. constructor; [lia|done].
      * intros r. rewrite foldl_app, Hval. cbn [foldl].
        unfold digit_of at 1. rewrite (proj2 (Z.leb_le 48 _)), (proj2 (Z.leb_le _ 57)) by lia. cbn [andb default].
        unfold zlen. rewrite length_app, Nat2Z.inj_add, Z.pow_add_r by (cbn; lia).
        change (10 ^ Z.of_nat (length [48 + val mod 10])) with 10. pose proof (Z.div_mod val 10). cbn [from_option id]. lia.
    + exists []. split; [done|]. split; [done|]. intros r. cbn [foldl]. change (10 ^ zlen []) with 1. lia.
Qed.

Lemma uint_text_value val :
  is_u32 val -> Forall (fun c => 48 <= c <= 57) (uint_text val) /\ numeral_value 10 (uint_text val) = val.
Proof.
  intros Hv. unfold uint_text. destruct (Z.eqb_spec val 0) as [->|]; [by repeat constructor|].
  destruct (uint_digits_value 11 val []) as (l & -> & Hl & Hval); [unfold is_u32 in Hv; cbn; lia|].
  rewrite app_nil_r. split; [done|]. unfold numeral_value. by rewrite Hval.
Qed.

Lemma digit_of_hex d : 0 <= d < 16 -> digit_of (hex_digit d) = Some d.
Proof.
  intros Hd. assert (d ∈ seqZ 0 16) as Hin by (apply elem_of_seqZ; lia). cbv in Hin.
  repeat (apply elem_of_cons in Hin as [->|Hin]; [done|]). by apply not_elem_of_nil in Hin.
Qed.

(** The nibbles of a number from the top, as a number. *)
Lemma hex_text_value n val k :
  0 <= val -> (k <= n)%nat ->
  forall r, foldl (fun r c => r * 16 + default 0 (digit_of c)) r (take k (hex_text n val)) =
    r * 16 ^ Z.of_nat k + val / 16 ^ (Z.of_nat n - Z.of_nat k) mod 16 ^ Z.of_nat k.
Proof.
  intros Hv. induction k as [|k IH]; intros Hk r.
  - cbn [firstn foldl]. change (16 ^ Z.of_nat 0) with 1. rewrite Z.mod_1_r. change (take 0 (hex_text n val)) with (@nil Z). cbn [foldl]. lia.
  - assert (Hn : hex_text n val !! k = Some (hex_digit (Z.land (Z.shiftr val (4 * (Z.of_nat n - 1) - Z.of_nat k * 4)) 0xF)))
      by (unfold hex_text; rewrite list_lookup_fmap, lookup_seq_lt by lia; done).
    rewrite (take_S_r _ _ _ Hn), foldl_app, IH by lia. cbn [foldl].
    change 0xF with (Z.ones 4). rewrite Z.land_ones, Z.shiftr_div_pow2 by lia. change (2 ^ 4) with 16.
    rewrite digit_of_hex by (apply Z.mod_pos_bound; lia). cbn [default from_option id].
    replace (2 ^ (4 * (Z.of_nat n - 1) - Z.of_nat k * 4)) with (16 ^ (Z.of_nat n - Z.of_nat (S k))).
    2: { change 16 with (2 ^ 4). rewrite <- Z.pow_mul_r by lia. f_equal; lia. }
    set (e := Z.of_nat n - Z.of_nat (S k)). replace (Z.of_nat n - Z.of_nat k) with (e + 1) by lia.
    rewrite Nat2Z.inj_succ, (Z.pow_succ_r 16 (Z.of_nat k)), (Z.pow_add_r 16 e 1) by lia. change (16 ^ 1) with 16.
    rewrite <- Z.div_div by lia. set (w := val / 16 ^ e). set (P := 16 ^ Z.of_nat k).
    assert (0 < P) by (unfold P; lia). rewrite (Z.rem_mul_r w 16 P) by lia. lia.
Qed.

Lemma hex_text_spec n val :
  0 <= val < 16 ^ Z.of_nat n -> numeral_value 16 (hex_text n val) = val /\ length (hex_text n val) = n.
Proof.
  intros Hv. assert (Hlen : length (hex_text n val) = n) by (unfold hex_text; by rewrite length_fmap, length_seq).
  split; [|done]. unfold numeral_value. rewrite <- (take_ge (hex_text n val) n) by lia.
  rewrite hex_text_value by lia. rewrite Z.sub_diag, Z.pow_0_r, Z.div_1_r, Z.mod_small by done. lia.
Qed.

Lemma digit_char c : 48 <= c <= 57 -> digit_in 10 c = true.
Proof.
  intros Hc. unfold digit_in, digit_of. rewrite (proj2 (Z.eqb_neq c 0)) by lia.
  rewrite (proj2 (Z.leb_le 48 c)), (proj2 (Z.leb_le c 57)) by lia. cbn [negb andb]. apply Z.ltb_lt. lia.
Qed.

Lemma hex_text_chars n val : Forall (fun c => digit_in 16 c = true) (hex_text n val).
Proof.
  unfold hex_text. apply Forall_fmap, Forall_true. intros i. cbn.
  change 0xF with (Z.ones 4). rewrite Z.land_ones by lia.
  set (d := _ mod 2 ^ 4). assert (Hd : 0 <= d < 16) by (apply Z.mod_pos_bound; lia). clearbody d.
  unfold digit_in. rewrite digit_of_hex by done. rewrite (proj2 (Z.ltb_lt d 16)), andb_true_r by lia.
  unfold hex_digit. apply negb_true_iff, Z.eqb_neq. destruct (Z.ltb_spec d 10); lia.
Qed.
End Numbers.

(** ** Properties *)

(** C30: the console is a terminal.  Whatever is written, the cursor stays on the
    screen and the buffer has its 2000 cells, so no cell outside it is written;
    each character changes the sequence of cells and the cursor as [term_putc]
    says (place, newline, backspace, the scroll at the end), and the serial port
    gets each character, a carriage return before each newline. *)
Theorem console_terminal (str : list Z) s :
  console_ok s ->
  let s' := console_write str s in
  console_ok s' /\ term_of s' = foldl (fun t c => term_putc c t) (term_of s) str /\
  ports s' = if serial_enabled s then reverse (serial_of str) ++ ports s else ports s.
Proof.
  cbv zeta. assert (Hgen : console_ok s -> console_ok (console_write str s) /\
    term_of (console_write str s) = foldl (fun t c => term_putc c t) (term_of s) str /\
    serial_enabled (console_write str s) = serial_enabled s /\
    ports (console_write str s) = if serial_enabled s then reverse (serial_of str) ++ ports s else ports s).
  2: { intros Hok. destruct (Hgen Hok) as (? & ? & _ & ?). done. }
  unfold console_write. revert s; induction str as [|c str IH]; intros s Hok; cbn [foldl].
  - split; [done|]. do 2 (split; [done|]). by destruct (serial_enabled s).
  - destruct (console_putc_spec c s Hok) as (Hok1 & Ht & Hs & Hp).
    destruct (IH (console_putc c s) Hok1) as (Hok2 & Ht2 & Hs2 & Hp2).
    split; [exact Hok2|]. split; [by rewrite Ht2, Ht|]. split; [by rewrite Hs2|].
    rewrite Hp2, Hs, Hp. destruct (serial_enabled s); [|done].
    replace (serial_of (c :: str)) with (serial_of [c] ++ serial_of str)
      by (unfold serial_of; cbn [fmap list_fmap mjoin list_join]; by rewrite app_nil_r).
    by rewrite reverse_app, <- app_assoc.
Qed.

Lemma console_terminal_witness :
  let s := Console true [] (replicate (Z.to_nat 2000) blank) 24 79 in
  console_ok s /\ term_of (console_write [65] s) = term_scroll (zset (replicate (Z.to_nat 2000) blank) 1999 (vga_entry 65 15), 2000).
Proof.
  intros s. assert (Hok : console_ok s) by (split; [done|done|change (VGA_BUFFER s) with (replicate (Z.to_nat 2000) blank); unfold zlen; rewrite length_replicate; exact (Z2Nat.id 2000 ltac:(lia))]).
  split; [exact Hok|]. destruct (console_terminal [65] s Hok) as (_ & Ht & _). exact Ht.
Defined.

(** Printed numbers read back.  For every 32-bit value [print_uint] writes
    decimal digits whose value is the number (the eleven bytes of its buffer are
    enough), [print_hex32] writes 8 and [print_hex64] 16 hexadecimal digits of
    the number; and [strtoul] on that text stored in memory returns the number
    and the end of the text. *)
Theorem print_strtoul (val : Z) (m : mem) (p : Z) (fuel : nat) :
  let reads base l := bytes m p (length l) = l -> ldb m (p + zlen l) = 0 -> (length l < fuel)%nat ->
    strtoul fuel m p base = Some (val, p + zlen l) in
  (is_u32 val -> Forall (fun c => 48 <= c <= 57) (uint_text val) /\ reads 10 (uint_text val)) /\
  (is_u32 val -> length (hex_text 8 val) = 8%nat /\ reads 16 (hex_text 8 val)) /\
  (is_u64 val -> length (hex_text 16 val) = 16%nat /\ reads 16 (hex_text 16 val)).
Proof.
  intros reads.
  assert (Hread : forall base l, Forall (fun c => digit_in base c = true) l -> numeral_value base l = val ->
    is_u64 val -> reads base l).
  { intros base l Hl Hv Hu Hb Hz Hf. unfold strtoul. rewrite <- (u64_small 0) at 1 by done.
    rewrite strtoul_from_spec with (l := l); [|done|done|by rewrite Hz|done].
    fold (numeral_value base l). by rewrite Hv, u64_small. }
  assert (Hu64 : is_u32 val -> is_u64 val) by (unfold is_u32, is_u64; lia).
  split; [|split].
  - intros Hv. destruct (uint_text_value val Hv) as [Hd Hn]. split; [done|]. apply Hread; [|done|auto].
    apply (Forall_impl _ _ _ Hd). apply digit_char.
  - intros Hv. destruct (hex_text_spec 8 val Hv) as [Hn Hl]. split; [done|]. apply Hread; [apply hex_text_chars|done|auto].
  - intros Hv. destruct (hex_text_spec 16 val Hv) as [Hn Hl]. split; [done|]. apply Hread; [apply hex_text_chars|done|auto].
Qed.

Lemma print_strtoul_witness :
  strtoul 5 (store_bytes ∅ 100 [52; 48; 57; 54]) 100 10 = Some (4096, 104).
Proof.
  destruct (print_strtoul 4096 (store_bytes ∅ 100 [52; 48; 57; 54]) 100 5) as (H & _).
  destruct H as [_ H]; [done|]. apply H; [done|done|]. vm_compute. lia.
Defined.
