(* ===== verification/Gdt.v ===== *)
(** kernel/arch/gdt.c, gdt.h: the segment descriptor table and the task state
    segment of the i386 build.

    The table is a list of the packed 8-byte entries, the TSS a packed struct in
    memory at the address [tss_at].  The [seg_] functions read a descriptor the
    way the processor does. *)

From S2P Require Import Prelude Mem.

Abbreviation GDT_ENTRIES := 6.
Abbreviation GDT_KERNEL_CODE_SEG := 0x08.
Abbreviation GDT_KERNEL_DATA_SEG := 0x10.
Abbreviation GDT_USER_CODE_SEG := 0x1B.
Abbreviation GDT_USER_DATA_SEG := 0x23.
Abbreviation GDT_TSS_SEG := 0x28.

Definition GDT_ACCESS_PRESENT : Z := Z.shiftl 1 7.
Definition GDT_ACCESS_RING0 : Z := Z.shiftl 0 5.
Definition GDT_ACCESS_RING3 : Z := Z.shiftl 3 5.
Definition GDT_ACCESS_CODE_DATA : Z := Z.shiftl 1 4.
Definition GDT_ACCESS_EXECUTABLE : Z := Z.shiftl 1 3.
Definition GDT_ACCESS_RW : Z := Z.shiftl 1 1.
Definition GDT_GRAN_4K : Z := Z.shiftl 1 7.
Definition GDT_GRAN_32BIT : Z := Z.shiftl 1 6.
Definition GDT_TSS_TYPE_32 : Z := 0x09.

Record gdt_entry_t := GdtEntry {
  limit_low : Z; base_low : Z; base_mid : Z; access : Z; granularity : Z; base_high : Z
}.
#[export] Instance gdt_entry_inhabited : Inhabited gdt_entry_t := populate (GdtEntry 0 0 0 0 0 0).

(** The TSS is 26 words, the last one two half-words. *)
Abbreviation TSS_esp0 := 4.
Abbreviation TSS_ss0 := 8.
Abbreviation TSS_iomap_base := 102.
Abbreviation TSS_SIZE := 104.

Record gdt_state := GdtState {
  gdt : list gdt_entry_t;
  tss : mem;
  gdtr : Z * Z;                (* limit and base, as loaded *)
  task_register : Z
}.
#[export] Instance gdt_state_eta : Eta gdt_state := fun s =>
  GdtState (gdt s) (tss s) (gdtr s) (task_register s).

Section Gdt.
(** Where the linker puts the table and the TSS. *)
Variables gdt_at tss_at : Z.

Definition gdt_set_entry (index base limit acc gran : Z) (s : gdt_state) : gdt_state :=
  s{{ gdt ::= fun g => zset g index
    (GdtEntry (Z.land limit 0xFFFF) (Z.land base 0xFFFF) (Z.land (Z.shiftr base 16) 0xFF) acc
       (Z.lor (Z.land (Z.shiftr limit 16) 0x0F) (Z.land gran 0xF0)) (Z.land (Z.shiftr base 24) 0xFF)) }}.

Definition tss_set (field v : Z) (n : nat) (s : gdt_state) : gdt_state := s{{ tss ::= fun m => st n m (tss_at + field) v }}.

Definition tss_init (s : gdt_state) : gdt_state :=
  let s := s{{ tss ::= for_range 0 TSS_SIZE (fun i m => stb m (tss_at + i) 0) }} in
  let s := tss_set TSS_ss0 GDT_KERNEL_DATA_SEG 4 s in
  let s := tss_set TSS_esp0 0 4 s in
  let s := tss_set TSS_iomap_base TSS_SIZE 2 s in
  gdt_set_entry 5 tss_at (TSS_SIZE - 1)
    (Z.lor (Z.lor GDT_ACCESS_PRESENT GDT_ACCESS_RING0) GDT_TSS_TYPE_32) GDT_GRAN_32BIT s.

Definition gdt_init (s : gdt_state) : gdt_state :=
  let flat dpl extra := Z.lor (Z.lor (Z.lor GDT_ACCESS_PRESENT dpl) GDT_ACCESS_CODE_DATA) extra in
  let g := Z.lor GDT_GRAN_4K GDT_GRAN_32BIT in
  let s := gdt_set_entry 0 0 0 0 0 s in
  let s := gdt_set_entry 1 0 0xFFFFF (flat GDT_ACCESS_RING0 (Z.lor GDT_ACCESS_EXECUTABLE GDT_ACCESS_RW)) g s in
  let s := gdt_set_entry 2 0 0xFFFFF (flat GDT_ACCESS_RING0 GDT_ACCESS_RW) g s in
  let s := gdt_set_entry 3 0 0xFFFFF (flat GDT_ACCESS_RING3 (Z.lor GDT_ACCESS_EXECUTABLE GDT_ACCESS_RW)) g s in
  let s := gdt_set_entry 4 0 0xFFFFF (flat GDT_ACCESS_RING3 GDT_ACCESS_RW) g s in
  let s := tss_init s in
  s{{ gdtr := (GDT_ENTRIES * 8 - 1, gdt_at); task_register := GDT_TSS_SEG }}.

Definition gdt_set_kernel_stack (stack : Z) (s : gdt_state) : gdt_state := tss_set TSS_esp0 stack 4 s.

Definition tss_esp0 (s : gdt_state) : Z := ld32 (tss s) (tss_at + TSS_esp0).
End Gdt.

(** ** What the processor reads in a descriptor *)

Definition seg_base (e : gdt_entry_t) : Z := base_low e + 0x10000 * base_mid e + 0x1000000 * base_high e.
Definition seg_raw_limit (e : gdt_entry_t) : Z := limit_low e + 0x10000 * (granularity e mod 16).
Definition seg_limit (e : gdt_entry_t) : Z :=
  if Z.testbit (granularity e) 7 then 4096 * seg_raw_limit e + 0xFFF else seg_raw_limit e.
Definition seg_present (e : gdt_entry_t) : bool := Z.testbit (access e) 7.
Definition seg_dpl (e : gdt_entry_t) : Z := access e / 32 mod 4.

Inductive seg_kind := Code | Data | Tss32 | OtherSystem.
#[export] Instance seg_kind_dec : EqDecision seg_kind.
Proof. solve_decision. Defined.
Definition kind_of (e : gdt_entry_t) : seg_kind :=
  if Z.testbit (access e) 4 then (if Z.testbit (access e) 3 then Code else Data)
  else if access e mod 16 =? 9 then Tss32 else OtherSystem.

(** A selector loads the descriptor of its index with its privilege level. *)
Definition selected (g : list gdt_entry_t) (sel : Z) : gdt_entry_t := zget g (sel / 8).
Definition rpl (sel : Z) : Z := sel mod 4.

(** A present descriptor of a 4 GB segment of the kind, at its selector's level. *)
Definition flat_segment (g : list gdt_entry_t) (sel : Z) (k : seg_kind) (level : Z) : Prop :=
  let e := selected g sel in
  seg_present e = true /\ kind_of e = k /\ seg_dpl e = level /\ rpl sel = level /\
  seg_base e = 0 /\ seg_limit e = 0xFFFFFFFF.

Section GdtFacts.
Implicit Types s : gdt_state.

Lemma zlen_set_entry i b l a g s : zlen (gdt (gdt_set_entry i b l a g s)) = zlen (gdt s).
Proof. apply zlen_zset. Qed.

Lemma get_set_entry i j b l a g s :
  0 <= i < zlen (gdt s) -> 0 <= j ->
  zget (gdt (gdt_set_entry i b l a g s)) j =
    if decide (i = j) then
      GdtEntry (Z.land l 0xFFFF) (Z.land b 0xFFFF) (Z.land (Z.shiftr b 16) 0xFF) a
        (Z.lor (Z.land (Z.shiftr l 16) 0x0F) (Z.land g 0xF0)) (Z.land (Z.shiftr b 24) 0xFF)
    else zget (gdt s) j.
Proof.
  intros Hi Hj. change (gdt (gdt_set_entry i b l a g s)) with (zset (gdt s) i
    (GdtEntry (Z.land l 0xFFFF) (Z.land b 0xFFFF) (Z.land (Z.shiftr b 16) 0xFF) a
        (Z.lor (Z.land (Z.shiftr l 16) 0x0F) (Z.land g 0xF0)) (Z.land (Z.shiftr b 24) 0xFF))).
  case_decide as E; [subst; by apply zget_zset_eq|]. apply zget_zset_ne; lia.
Qed.

(** The pieces of a base put together. *)
Lemma base_pieces b :
  is_u32 b -> Z.land b 0xFFFF + 0x10000 * Z.land (Z.shiftr b 16) 0xFF + 0x1000000 * Z.land (Z.shiftr b 24) 0xFF = b.
Proof.
  intros Hb. change 0xFFFF with (Z.ones 16). change 0xFF with (Z.ones 8).
  rewrite !Z.land_ones, !Z.shiftr_div_pow2 by lia.
  change (2 ^ 16) with 0x10000. change (2 ^ 8) with 0x100. change (2 ^ 24) with 0x1000000.
  unfold is_u32 in Hb. Z.div_mod_to_equations. lia.
Qed.

Lemma gran_mod l g : Z.lor (Z.land (Z.shiftr l 16) 0x0F) (Z.land g 0xF0) mod 16 = Z.shiftr l 16 mod 16.
Proof.
  change 16 with (2 ^ 4) at 2 4. rewrite <- !Z.land_ones by lia. rewrite Z.land_lor_distr_l, <- !Z.land_assoc.
  change (Z.land 15 (Z.ones 4)) with (Z.ones 4). change (Z.land 0xF0 (Z.ones 4)) with 0.
  by rewrite Z.land_0_r, Z.lor_0_r.
Qed.

Lemma gran_flag l g : Z.testbit (Z.lor (Z.land (Z.shiftr l 16) 0x0F) (Z.land g 0xF0)) 7 = Z.testbit g 7.
Proof.
  rewrite Z.lor_spec, !Z.land_spec. change (Z.testbit 0x0F 7) with false. change (Z.testbit 0xF0 7) with true.
  by rewrite andb_false_r, andb_true_r.
Qed.

(** The state after [gdt_init]: the five descriptors with constant arguments, and
    the TSS. *)
Lemma gdt_init_table gdt_at tss_at s :
  zlen (gdt s) = 6 ->
  let g := gdt (gdt_init gdt_at tss_at s) in
  zget g 0 = GdtEntry 0 0 0 0 0 0 /\
  zget g 1 = GdtEntry 0xFFFF 0 0 0x9A 0xCF 0 /\ zget g 2 = GdtEntry 0xFFFF 0 0 0x92 0xCF 0 /\
  zget g 3 = GdtEntry 0xFFFF 0 0 0xFA 0xCF 0 /\ zget g 4 = GdtEntry 0xFFFF 0 0 0xF2 0xCF 0 /\
  zget g 5 = GdtEntry (TSS_SIZE - 1) (Z.land tss_at 0xFFFF) (Z.land (Z.shiftr tss_at 16) 0xFF) 0x89 0x40
               (Z.land (Z.shiftr tss_at 24) 0xFF).
Proof.
  intros Hl. cbv zeta. unfold gdt_init. cbv zeta.
  set (s5 := gdt_set_entry 4 _ _ _ _ _).
  assert (H5 : zlen (gdt s5) = 6) by (subst s5; by rewrite !zlen_set_entry).
  unfold tss_init. cbv zeta. set (s6 := s5{{ tss ::= _ }}).
  assert (H6 : gdt s6 = gdt s5) by done. clearbody s6.
  match goal with |- context [zget (gdt ?r) 0] =>
    change (gdt r) with (gdt (gdt_set_entry 5 tss_at (TSS_SIZE - 1)
    (Z.lor (Z.lor GDT_ACCESS_PRESENT GDT_ACCESS_RING0) GDT_TSS_TYPE_32) GDT_GRAN_32BIT s6)) end.
  rewrite !get_set_entry by (rewrite ?H6, ?H5; lia). rewrite H6. subst s5.
  rewrite !decide_False by lia. rewrite !get_set_entry by (rewrite ?zlen_set_entry; lia). done.
Qed.

Lemma tss_init_fields tss_at s :
  let m := tss (tss_init tss_at s) in
  ld32 m (tss_at + TSS_ss0) = GDT_KERNEL_DATA_SEG /\ ld16 m (tss_at + TSS_iomap_base) = TSS_SIZE /\
  ld32 m (tss_at + TSS_esp0) = 0.
Proof.
  cbv zeta. unfold tss_init. cbv zeta. set (s6 := s{{ tss ::= _ }}). clearbody s6.
  match goal with |- context [ld32 ?m _] =>
    change m with (st16 (st32 (st32 (tss s6) (tss_at + TSS_ss0) GDT_KERNEL_DATA_SEG) (tss_at + TSS_esp0) 0)
      (tss_at + TSS_iomap_base) TSS_SIZE) end.
  repeat split; mem_simpl; reflexivity.
Qed.

Lemma gdt_init_rest gdt_at tss_at s :
  let s' := gdt_init gdt_at tss_at s in
  gdtr s' = (47, gdt_at) /\ task_register s' = GDT_TSS_SEG /\
  ld32 (tss s') (tss_at + TSS_ss0) = GDT_KERNEL_DATA_SEG /\ ld16 (tss s') (tss_at + TSS_iomap_base) = TSS_SIZE /\
  tss_esp0 tss_at s' = 0.
Proof.
  cbv zeta. unfold gdt_init. cbv zeta. set (s4 := gdt_set_entry 4 _ _ _ _ _). clearbody s4.
  pose proof (tss_init_fields tss_at s4) as H. cbv zeta in H. unfold tss_esp0. forget (tss_init tss_at s4) as s5.
  split; [done|]. split; [done|]. exact H.
Qed.
End GdtFacts.

(** C28: the segments are what the kernel and its user-mode entry take them for.
    For any address of the TSS, after [gdt_init] on a table of 6 entries: the four
    segment selectors name present 4 GB segments, code and data, at the level in
    the selector (0 for the kernel's, 3 for the user's); the task register names a
    descriptor of a 32-bit TSS that is exactly the bytes of the TSS, whose ring-0
    segment is the kernel's data segment and which has no port map; entry 0 is
    null; and [gdt_set_kernel_stack] changes the ring-0 stack and nothing else. *)
Theorem gdt_segments (gdt_at tss_at stack : Z) (s : gdt_state) :
  is_u32 tss_at -> is_u32 stack -> zlen (gdt s) = 6 ->
  let s' := gdt_init gdt_at tss_at s in
  let g := gdt s' in
  flat_segment g GDT_KERNEL_CODE_SEG Code 0 /\ flat_segment g GDT_KERNEL_DATA_SEG Data 0 /\
  flat_segment g GDT_USER_CODE_SEG Code 3 /\ flat_segment g GDT_USER_DATA_SEG Data 3 /\
  selected g 0 = GdtEntry 0 0 0 0 0 0 /\ gdtr s' = (47, gdt_at) /\
  (let e := selected g (task_register s') in
   seg_present e = true /\ kind_of e = Tss32 /\ seg_dpl e = 0 /\ seg_base e = tss_at /\ seg_limit e = TSS_SIZE - 1) /\
  ld32 (tss s') (tss_at + TSS_ss0) = GDT_KERNEL_DATA_SEG /\
  ld16 (tss s') (tss_at + TSS_iomap_base) = TSS_SIZE /\ tss_esp0 tss_at s' = 0 /\
  (let s2 := gdt_set_kernel_stack tss_at stack s' in
   tss_esp0 tss_at s2 = stack /\ gdt s2 = g /\ gdtr s2 = gdtr s' /\ task_register s2 = task_register s' /\
   within (tss_at + TSS_esp0) (tss_at + TSS_ss0) (tss s') (tss s2)).
Proof.
  intros Ht Hst Hl. pose proof (gdt_init_table gdt_at tss_at s Hl) as HT. pose proof (gdt_init_rest gdt_at tss_at s) as HR.
  cbv zeta in HT, HR |- *. forget (gdt_init gdt_at tss_at s) as s'.
  destruct HT as (H0 & H1 & H2 & H3 & H4 & H5), HR as (R1 & R2 & E1 & E2 & E3). rewrite R1, R2.
  unfold flat_segment, selected, rpl.
  change (0x08 / 8) with 1. change (0x10 / 8) with 2. change (0x1B / 8) with 3. change (0x23 / 8) with 4.
  change (0 / 8) with 0. change (0x28 / 8) with 5. rewrite H0, H1, H2, H3, H4, H5.
  do 6 (split; [done|]). split.
  { cbv zeta. unfold seg_present, kind_of, seg_dpl, seg_base, seg_limit, seg_raw_limit.
    cbn [access granularity base_low base_mid base_high limit_low]. do 3 (split; [done|]).
    split; [by apply base_pieces|done]. }
  split; [exact E1|]. split; [exact E2|]. split; [exact E3|]. split; [|split; [done|split; [exact R1|split; [exact R2|]]]].
  - apply ld_st_eq. unfold is_u32 in Hst. change (0x100 ^ Z.of_nat 4) with 0x100000000. lia.
  - apply within_st; [lia|change (Z.of_nat 4) with 4; lia].
Qed.

Lemma gdt_segments_witness :
  let s := gdt_init 0xC0110000 0xC0110040 (GdtState (replicate 6 (GdtEntry 0 0 0 0 0 0)) ∅ (0, 0) 0) in
  flat_segment (gdt s) GDT_USER_CODE_SEG Code 3 /\
  tss_esp0 0xC0110040 (gdt_set_kernel_stack 0xC0110040 0xC0205000 s) = 0xC0205000.
Proof.
  intros s. destruct (gdt_segments 0xC0110000 0xC0110040 0xC0205000
    (GdtState (replicate 6 (GdtEntry 0 0 0 0 0 0)) ∅ (0, 0) 0)) as (_ & _ & H1 & _ & _ & _ & _ & _ & _ & _ & H2 & _).
  - done.
  - done.
  - done.
  - split; [exact H1|exact H2].
Defined.
