(* ===== verification/Process.v ===== *)
(** kernel/process.h, kernel/arch/switch.s and the scheduler of
    kernel/sched/sched_core.c (i386): process control blocks, the round-robin
    [schedule] and the context switch.  (Creating and destroying processes is
    [UserProcess.v].)

    PCBs and kernel stacks live in the kernel's memory, at the C struct's offsets;
    the [process_list] is the ring of their [next] pointers.  [switch_to] and
    [enter_user_mode] are the instructions of switch.s on the registers and the
    stack.  The addresses the linker chooses (the code [switch_to] returns into,
    the TSS) are parameters. *)

From S2P Require Import Prelude Mem Trace Pmm IpcProto CLib Gdt Vmm.

(** ** process.h *)

Definition process_t : cstruct :=
  [f32 "pid"; f32 "esp"; f32 "cr3"; f32 "kstack_top"; f32 "state"; f32 "prev_state"; f32 "pd_virt";
   f32 "ustack_top"; f32 "tf"; f32 "ticks_remaining"; f32 "quantum_ms"; f32 "mem_pages_used";
   f32 "mem_pages_limit"; f32 "wasm_blob"; f32 "wasm_size"; f32 "next"].

Abbreviation P_pid := 0.
Abbreviation P_esp := 4.
Abbreviation P_cr3 := 8.
Abbreviation P_kstack_top := 12.
Abbreviation P_state := 16.
Abbreviation P_pd_virt := 24.
Abbreviation P_ticks_remaining := 36.
Abbreviation P_quantum_ms := 40.
Abbreviation P_mem_pages_limit := 48.
Abbreviation P_next := 60.
Abbreviation PROCESS_SIZE := 64.

Lemma process_layout :
  sizeof process_t = PROCESS_SIZE /\
  offsets process_t 0 = [P_pid; P_esp; P_cr3; P_kstack_top; P_state; 20; P_pd_virt; 28; 32; P_ticks_remaining;
    P_quantum_ms; 44; P_mem_pages_limit; 52; 56; P_next].
Proof. done. Qed.

Inductive process_state :=
  | PROCESS_STATE_NEW | PROCESS_STATE_READY | PROCESS_STATE_RUNNING | PROCESS_STATE_BLOCKED | PROCESS_STATE_ZOMBIE.
Definition state_code (st : process_state) : Z :=
  match st with
  | PROCESS_STATE_NEW => 0 | PROCESS_STATE_READY => 1 | PROCESS_STATE_RUNNING => 2
  | PROCESS_STATE_BLOCKED => 3 | PROCESS_STATE_ZOMBIE => 4
  end.

(** ** The machine *)

Record cpu := Cpu { r_esp : Z; r_ebp : Z; r_ebx : Z; r_esi : Z; r_edi : Z; r_eip : Z }.
#[export] Instance cpu_eta : Eta cpu := fun c => Cpu (r_esp c) (r_ebp c) (r_ebx c) (r_esi c) (r_edi c) (r_eip c).

Record machine (W : Type) := Machine {
  k_vmm : vmm W;
  k_gdt : gdt_state;
  k_cpu : cpu;
  process_list : Z;
  current_process : Z;
  pid_counter : Z
}.
Arguments Machine {W}.
Arguments k_vmm {W}.
Arguments k_gdt {W}.
Arguments k_cpu {W}.
Arguments process_list {W}.
Arguments current_process {W}.
Arguments pid_counter {W}.
#[export] Instance machine_eta W : Eta (machine W) := fun s =>
  Machine (k_vmm s) (k_gdt s) (k_cpu s) (process_list s) (current_process s) (pid_counter s).

Definition k_mem {W} (s : machine W) : mem := v_mem (k_vmm s).
Definition k_pmm {W} (s : machine W) : pmm W := v_pmm (k_vmm s).
Definition on_vmm {W} (f : vmm W -> vmm W) (s : machine W) : machine W := s{{ k_vmm ::= f }}.
Definition on_mem {W} (f : mem -> mem) (s : machine W) : machine W := on_vmm (fun v => v{{ v_mem ::= f }}) s.
Definition on_pmm {W} (f : pmm W -> pmm W) (s : machine W) : machine W := on_vmm (fun v => v{{ v_pmm ::= f }}) s.

(** The 32-bit word at an address, and the assignment to it. *)
Definition rd {W} (s : machine W) (a : Z) : Z := ld32 (k_mem s) a.
Definition wr {W} (a v : Z) (s : machine W) : machine W := on_mem (fun m => st32 m a v) s.

(** ** arch/switch.s *)

Section Switch.
Context {W : Type}.
Implicit Types s : machine W.
(** The TSS, and the instruction after the call in [switch_to]. *)
Variables tss_at after_call : Z.

Definition esp s : Z := r_esp (k_cpu s).
Definition set_esp (v : Z) s : machine W := s{{ k_cpu ::= fun c => c{{ r_esp := v }} }}.
Definition push (v : Z) s : machine W := let a := esp s -u 4 in wr a v (set_esp a s).
Definition pop s : Z * machine W := (rd s (esp s), set_esp (esp s +u 4) s).

Definition switch_to s : machine W :=
  let c := k_cpu s in
  let s := push (r_edi c) (push (r_esi c) (push (r_ebx c) (push (r_ebp c) s))) in
  let eax := rd s (esp s +u 20) in
  let s := wr (eax +u P_esp) (esp s) s in
  let ecx := rd s (esp s +u 24) in
  let s := set_esp (rd s (ecx +u P_esp)) s in
  let edx := rd s (ecx +u P_cr3) in
  let s := if read_cr3 (k_vmm s) =? edx then s else on_vmm (write_cr3 edx) s in
  let eax := rd s (ecx +u P_kstack_top) in
  let s := push eax (push ecx s) in
  let s := push after_call s in
  let s := s{{ k_gdt ::= gdt_set_kernel_stack tss_at (rd s (esp s +u 4)) }} in
  let '(_, s) := pop s in
  let s := set_esp (esp s +u 4) s in
  let '(_, s) := pop s in
  let '(edi, s) := pop s in
  let '(esi, s) := pop s in
  let '(ebx, s) := pop s in
  let '(ebp, s) := pop s in
  let '(eip, s) := pop s in
  s{{ k_cpu := Cpu (esp s) ebp ebx esi edi eip }}.

(** A C call [switch_to(curr, next)] from code that goes on at [ret]. *)
Definition call_switch_to (ret curr next : Z) s : machine W :=
  switch_to (push ret (push curr (push next s))).

(** What [iret] loads in [enter_user_mode], when the flags were [eflags]. *)
Record user_context := UserContext { u_eip : Z; u_cs : Z; u_eflags : Z; u_esp : Z; u_ss : Z }.
Definition enter_user_mode (eflags : Z) s : user_context * machine W :=
  let ebx := rd s (esp s +u 4) in
  let ecx := rd s (esp s +u 8) in
  let s := push 0x23 s in
  let s := push ecx s in
  let s := push (Z.lor eflags 0x200) s in
  let s := push 0x1B s in
  let s := push ebx s in
  let '(eip, s) := pop s in
  let '(cs, s) := pop s in
  let '(fl, s) := pop s in
  let '(sp, s) := pop s in
  let '(ss, s) := pop s in
  (UserContext eip cs fl sp ss, s).
End Switch.

(** ** sched_core.c: round robin *)

Section Schedule.
Context {W : Type}.
Implicit Types s : machine W.
(** The TSS, the instruction after the call in [switch_to], the one after the
    call in [schedule]. *)
Variables tss_at after_call after_switch : Z.

Definition schedule s : machine W :=
  let cp := current_process s in
  if cp =? 0 then s
  else if 0 <? rd s (cp + P_ticks_remaining) then
    wr (cp + P_ticks_remaining) (rd s (cp + P_ticks_remaining) -u 1) s
  else
    let s := wr (cp + P_ticks_remaining) 5 s in
    let next := rd s (cp + P_next) in
    if next =? 0 then s
    else if next =? cp then s
    else
      let prev := cp in
      let s := s{{ current_process := next }} in
      let s := if rd s (prev + P_state) =? state_code PROCESS_STATE_RUNNING
               then wr (prev + P_state) (state_code PROCESS_STATE_READY) s else s in
      let s := wr (next + P_state) (state_code PROCESS_STATE_RUNNING) s in
      call_switch_to tss_at after_call after_switch prev next s.
End Schedule.


(** ** Registers and stack

    [upd m e s] is [s] with memory [m] and stack pointer [e]; the instructions act
    on that form. *)

Definition upd {W} (m : mem) (e : Z) (s : machine W) : machine W := set_esp e (on_mem (fun _ => m) s).

Section Upd.
Context {W : Type}.
Implicit Types (s : machine W) (m : mem).

Lemma upd_self s : upd (k_mem s) (esp s) s = s.
Proof. by destruct s as [[] ? [] ? ? ?]. Qed.
Lemma esp_upd m e s : esp (upd m e s) = e.
Proof. done. Qed.
Lemma mem_upd m e s : k_mem (upd m e s) = m.
Proof. done. Qed.
Lemma rd_upd m e s a : rd (upd m e s) a = ld32 m a.
Proof. done. Qed.
Lemma wr_upd m e s a v : wr a v (upd m e s) = upd (st32 m a v) e s.
Proof. done. Qed.
Lemma set_upd m e s v : set_esp v (upd m e s) = upd m v s.
Proof. done. Qed.
Lemma push_upd m e s v : 4 <= e < 0x100000000 -> push v (upd m e s) = upd (st32 m (e - 4) v) (e - 4) s.
Proof. intros He. unfold push. cbv zeta. rewrite esp_upd, u32_small by (unfold is_u32; lia). done. Qed.
Lemma pop_upd m e s : 0 <= e < 0xFFFFFFFC -> pop (upd m e s) = (ld32 m e, upd m (e + 4) s).
Proof. intros He. unfold pop. rewrite esp_upd, u32_small by (unfold is_u32; lia). done. Qed.
Lemma cr3_upd m e s x : on_vmm (write_cr3 x) (upd m e s) = upd m e (on_vmm (write_cr3 x) s).
Proof. done. Qed.
Lemma read_cr3_upd m e s : read_cr3 (k_vmm (upd m e s)) = cr3 (k_vmm s).
Proof. done. Qed.
End Upd.

Definition cpu_ok (c : cpu) : Prop :=
  is_u32 (r_esp c) /\ is_u32 (r_ebp c) /\ is_u32 (r_ebx c) /\ is_u32 (r_esi c) /\ is_u32 (r_edi c).

(** The two areas of [n] and [k] bytes do not meet. *)
Definition apart (a n b k : Z) : Prop := a + n <= b \/ b + k <= a.

(** The frame a switched-out thread leaves at [a]: the registers, where it goes on. *)
Definition frame_is (m : mem) (a : Z) (c : cpu) : Prop :=
  ld32 m a = r_edi c /\ ld32 m (a + 4) = r_esi c /\ ld32 m (a + 8) = r_ebx c /\
  ld32 m (a + 12) = r_ebp c /\ ld32 m (a + 16) = r_eip c.

(** The memory once the registers and the stack pointer are saved. *)
Definition saved_mem (m : mem) (c : cpu) (ret curr next : Z) : mem :=
  let e := r_esp c in
  st32 (st32 (st32 (st32 (st32 (st32 (st32 (st32 m (e - 4) next) (e - 8) curr) (e - 12) ret)
    (e - 16) (r_ebp c)) (e - 20) (r_ebx c)) (e - 24) (r_esi c)) (e - 28) (r_edi c))
    (curr + P_esp) (e - 28).

(** The instruction pointer a thread is left with: where the call returns. *)
Definition at_call (c : cpu) (ret : Z) : cpu := c{{ r_esp ::= fun e => e - 8; r_eip := ret }}.

Section SwitchFacts.
Context {W : Type}.
Implicit Types (s : machine W) (m : mem).
Variables tss_at after_call : Z.

(** What a call of [switch_to] needs: room for its 28 bytes below the stack pointer
    and, below the other thread's, for 12 more; both PCBs off the stack. *)
Record switch_ok (s : machine W) (ret curr next : Z) : Prop := {
  so_cpu : cpu_ok (k_cpu s);
  so_esp : 28 <= esp s;
  so_ret : is_u32 ret /\ is_u32 curr /\ is_u32 next;
  so_curr : curr + PROCESS_SIZE <= 0x100000000 /\ apart curr PROCESS_SIZE (esp s - 28) 28;
  so_next : next + PROCESS_SIZE <= 0x100000000 /\ apart next PROCESS_SIZE (esp s - 28) 28;
  so_apart : apart curr PROCESS_SIZE next PROCESS_SIZE;
  so_stack : 12 <= ld32 (k_mem s) (next + P_esp) < 0x100000000 - 20
}.

Lemma saved_frame m c ret curr next :
  cpu_ok c -> is_u32 ret -> is_u32 (r_esp c - 28) -> apart curr PROCESS_SIZE (r_esp c - 28) 28 ->
  frame_is (saved_mem m c ret curr next) (r_esp c - 28) (at_call c ret).
Proof.
  intros (H1 & H2 & H3 & H4 & H5) Hr He Ha. unfold frame_is, saved_mem, at_call, apart in *. cbv zeta.
  cbn [apply_update constant r_edi r_esi r_ebx r_ebp r_eip]. unfold is_u32 in *.
  assert (Hm : forall k, 0 <= k < 28 -> forall m v, k + 4 <= 28 ->
    ld32 (st32 m (curr + P_esp) v) (r_esp c - 28 + k) = ld32 m (r_esp c - 28 + k)).
  { intros k Hk m' v Hk4. apply ld_st_ne. cbn. lia. }
  rewrite <- (Z.add_0_r (r_esp c - 28)) at 1. rewrite !Hm by lia. set (e := r_esp c) in *.
  replace (e - 28 + 0) with (e - 28) by lia. replace (e - 28 + 4) with (e - 24) by lia.
  replace (e - 28 + 8) with (e - 20) by lia. replace (e - 28 + 12) with (e - 16) by lia.
  replace (e - 28 + 16) with (e - 12) by lia.
  repeat split; mem_simpl; done.
Qed.

Lemma saved_within m c ret curr next a :
  (a < r_esp c - 28 \/ r_esp c <= a) -> (a < curr + 4 \/ curr + 8 <= a) ->
  ldb (saved_mem m c ret curr next) a = ldb m a.
Proof. intros H1 H2. unfold saved_mem. cbv zeta. rewrite !ldb_st_ne by (cbn; lia). done. Qed.

Lemma saved_ld m c ret curr next a n :
  apart a (Z.of_nat n) (r_esp c - 28) 28 -> apart a (Z.of_nat n) (curr + 4) 4 ->
  ld n (saved_mem m c ret curr next) a = ld n m a.
Proof.
  unfold apart. intros H1 H2.
  apply (ld_agree (fun b => a <= b < a + Z.of_nat n)); [|done].
  intros b Hb. apply saved_within; lia.
Qed.

(** The state after the switch. *)
Definition switched (s : machine W) (ret curr next : Z) : machine W :=
  let m := saved_mem (k_mem s) (k_cpu s) ret curr next in
  let n := ld32 m (next + P_esp) in
  let m' := st32 (st32 (st32 m (n - 4) next) (n - 8) (ld32 m (next + P_kstack_top))) (n - 12) after_call in
  let s := if cr3 (k_vmm s) =? ld32 m (next + P_cr3) then s else on_vmm (write_cr3 (ld32 m (next + P_cr3))) s in
  let s := s{{ k_gdt ::= gdt_set_kernel_stack tss_at (ld32 m (next + P_kstack_top)) }} in
  (upd m' (n + 20) s){{ k_cpu := Cpu (n + 20) (ld32 m (n + 12)) (ld32 m (n + 8)) (ld32 m (n + 4)) (ld32 m n) (ld32 m (n + 16)) }}.

Lemma call_switch_eq s ret curr next :
  mem_ok (k_mem s) -> switch_ok s ret curr next ->
  call_switch_to tss_at after_call ret curr next s = switched s ret curr next.
Proof.
  intros Hmem [Hc He (Hr & Hcu & Hne) [Hc1 Hc2] [Hn1 Hn2] Hap Hst]. destruct Hc as (H1 & H2 & H3 & H4 & H5).
  unfold call_switch_to. rewrite <- (upd_self s) at 1. set (e := esp s) in *. change (is_u32 e) in H1. unfold is_u32 in *.
  rewrite !push_upd by lia. unfold switch_to. cbv zeta.
  change (k_cpu (upd ?m ?e' s)) with ((k_cpu s){{ r_esp := e' }}).
  cbn [apply_update constant r_ebp r_ebx r_esi r_edi].
  rewrite !push_upd by lia. rewrite !esp_upd, !rd_upd.
  replace (e - 4 - 4) with (e - 8) by lia. replace (e - 8 - 4) with (e - 12) by lia.
  replace (e - 12 - 4) with (e - 16) by lia. replace (e - 16 - 4) with (e - 20) by lia.
  replace (e - 20 - 4) with (e - 24) by lia. replace (e - 24 - 4) with (e - 28) by lia.
  rewrite !(u32_small (e - 28 + _)) by (unfold is_u32; lia).
  match goal with |- context [ld32 ?x (e - 28 + 20)] => set (m7 := x) end.
  assert (Ecurr : ld32 m7 (e - 28 + 20) = curr).
  { replace (e - 28 + 20) with (e - 8) by lia. unfold m7. mem_simpl. done. }
  rewrite Ecurr. rewrite (u32_small (curr + 4)) by (unfold is_u32; lia). rewrite wr_upd.
  change (st32 m7 (curr + 4) (e - 28)) with (saved_mem (k_mem s) (k_cpu s) ret curr next).
  unfold switched. cbv zeta. set (m8 := saved_mem (k_mem s) (k_cpu s) ret curr next).
  assert (Enext : ld32 m8 (e - 28 + 24) = next).
  { unfold apart in Hc2. replace (e - 28 + 24) with (e - 4) by lia. unfold m8, saved_mem. cbv zeta. change (r_esp (k_cpu s)) with e.
    mem_simpl. done. }
  rewrite !rd_upd, !Enext. assert (Hoff : forall o, 0 <= o <= 60 -> next +u o = next + o) by (intros o Ho; apply u32_small; unfold is_u32; lia).
  rewrite !Hoff by lia. rewrite !set_upd, !rd_upd, !read_cr3_upd.
  assert (En : ld32 m8 (next + P_esp) = ld32 (k_mem s) (next + P_esp)).
  { apply saved_ld; unfold apart in *; change (r_esp (k_cpu s)) with e; change (Z.of_nat 4) with 4; lia. }
  rewrite <- En in Hst. set (n := ld32 m8 (next + P_esp)) in *. clearbody n. clear En.
  set (c3 := ld32 m8 (next + P_cr3)). set (s0 := if cr3 (k_vmm s) =? c3 then s else on_vmm (write_cr3 c3) s).
  match goal with |- context [rd ?x (next + P_kstack_top)] =>
    replace x with (upd m8 n s0) by (subst s0; by destruct (cr3 (k_vmm s) =? c3)) end.
  rewrite rd_upd. set (ks := ld32 m8 (next + P_kstack_top)). rewrite !push_upd by lia.
  replace (n - 4 - 4) with (n - 8) by lia. replace (n - 8 - 4) with (n - 12) by lia.
  set (m9 := st32 (st32 (st32 m8 (n - 4) next) (n - 8) ks) (n - 12) after_call).
  rewrite esp_upd, rd_upd. rewrite (u32_small (n - 12 + 4)) by (unfold is_u32; lia).
  assert (Hm8 : mem_ok m8) by (unfold m8, saved_mem; auto 20 with cint).
  assert (Hks : is_u32 ks) by (exact (ld_range 4 m8 (next + P_kstack_top) Hm8)).
  assert (Eks : ld32 m9 (n - 12 + 4) = ks).
  { replace (n - 12 + 4) with (n - 8) by lia. unfold m9, is_u32 in *. mem_simpl. done. }
  rewrite Eks. set (s1 := s0{{ k_gdt ::= gdt_set_kernel_stack tss_at ks }}).
  match goal with |- context [pop ?x] => change x with (upd m9 (n - 12) s1) end.
  assert (Hrest : forall o, 0 <= o -> ld32 m9 (n + o) = ld32 m8 (n + o))
    by (intros o Ho; unfold m9; rewrite !ld_st_ne by (change (Z.of_nat 4) with 4; lia); done).
  rewrite pop_upd by lia. rewrite esp_upd, set_upd, (u32_small (n - 12 + 4 + 4)) by (unfold is_u32; lia).
  rewrite !pop_upd by lia.
  replace (n - 12 + 4 + 4 + 4) with (n + 0) by lia. replace (n + 0 + 4) with (n + 4) by lia.
  replace (n + 4 + 4) with (n + 8) by lia. replace (n + 8 + 4) with (n + 12) by lia.
  replace (n + 12 + 4) with (n + 16) by lia. replace (n + 16 + 4) with (n + 20) by lia.
  rewrite !Hrest by lia. rewrite Z.add_0_r. reflexivity.
Qed.
End SwitchFacts.

Section SwitchUse.
Context {W : Type}.
Implicit Types (s : machine W) (m : mem).
Variables tss_at after_call : Z.

(** The words a switch writes: the frame it leaves, the saved stack pointer, three
    words below the other stack. *)
Lemma switched_ldb s ret curr next a :
  let n := ld32 (saved_mem (k_mem s) (k_cpu s) ret curr next) (next + P_esp) in
  (a < esp s - 28 \/ esp s <= a) -> (a < curr + 4 \/ curr + 8 <= a) -> (a < n - 12 \/ n <= a) ->
  ldb (k_mem (switched tss_at after_call s ret curr next)) a = ldb (k_mem s) a.
Proof.
  intros n H1 H2 H3. unfold switched. cbv zeta. fold n.
  match goal with |- ldb (k_mem ?x) a = _ => change (k_mem x) with
    (st32 (st32 (st32 (saved_mem (k_mem s) (k_cpu s) ret curr next) (n - 4) next) (n - 8)
      (ld32 (saved_mem (k_mem s) (k_cpu s) ret curr next) (next + P_kstack_top))) (n - 12) after_call) end.
  rewrite !ldb_st_ne by (change (Z.of_nat 4) with 4; lia). by apply saved_within.
Qed.

Lemma switched_mem_ok s ret curr next : mem_ok (k_mem s) -> mem_ok (k_mem (switched tss_at after_call s ret curr next)).
Proof.
  intros Hm. unfold switched. cbv zeta.
  match goal with |- mem_ok (k_mem ?x) => change (k_mem x) with
    (st32 (st32 (st32 (saved_mem (k_mem s) (k_cpu s) ret curr next)
      (ld32 (saved_mem (k_mem s) (k_cpu s) ret curr next) (next + P_esp) - 4) next)
      (ld32 (saved_mem (k_mem s) (k_cpu s) ret curr next) (next + P_esp) - 8)
      (ld32 (saved_mem (k_mem s) (k_cpu s) ret curr next) (next + P_kstack_top)))
      (ld32 (saved_mem (k_mem s) (k_cpu s) ret curr next) (next + P_esp) - 12) after_call) end.
  unfold saved_mem. cbv zeta. auto 20 with cint.
Qed.

(** The fields of the PCB switched to are read as they were before the call. *)
Lemma switched_fields s ret curr next o :
  switch_ok s ret curr next -> 0 <= o <= 60 ->
  ld32 (saved_mem (k_mem s) (k_cpu s) ret curr next) (next + o) = ld32 (k_mem s) (next + o).
Proof.
  intros [_ _ _ _ [_ Hn] Ha _] Ho. unfold apart in *.
  apply saved_ld; unfold apart; change (r_esp (k_cpu s)) with (esp s); change (Z.of_nat 4) with 4; lia.
Qed.

Lemma switched_loads s ret curr next :
  mem_ok (k_mem s) -> switch_ok s ret curr next ->
  let s' := switched tss_at after_call s ret curr next in
  cr3 (k_vmm s') = ld32 (k_mem s) (next + P_cr3) /\ tss_esp0 tss_at (k_gdt s') = ld32 (k_mem s) (next + P_kstack_top).
Proof.
  intros Hm Hok. cbv zeta. split.
  - unfold switched. cbv zeta. rewrite !(switched_fields s ret curr next P_cr3) by (done || lia).
    destruct (Z.eqb_spec (cr3 (k_vmm s)) (ld32 (k_mem s) (next + P_cr3))) as [E|E]; [exact E|reflexivity].
  - unfold switched. cbv zeta. rewrite !(switched_fields s ret curr next P_kstack_top) by (done || lia).
    apply (ld_st_eq 4). exact (ld_range 4 (k_mem s) (next + P_kstack_top) Hm).
Qed.

(** Switching to a thread whose frame is intact gives it its registers, its
    directory and its kernel stack, and takes it where it was to go on. *)
Lemma switch_resumes s ret curr next c :
  mem_ok (k_mem s) -> switch_ok s ret curr next ->
  let n := ld32 (k_mem s) (next + P_esp) in
  frame_is (k_mem s) n c -> apart n 20 (esp s - 28) 28 -> apart n 20 (curr + 4) 4 ->
  let s' := call_switch_to tss_at after_call ret curr next s in
  k_cpu s' = c{{ r_esp := n + 20 }} /\ cr3 (k_vmm s') = ld32 (k_mem s) (next + P_cr3) /\
  tss_esp0 tss_at (k_gdt s') = ld32 (k_mem s) (next + P_kstack_top) /\
  (forall k, 20 <= k < 32 -> apart (n + k) 4 (esp s - 28) 28 -> apart (n + k) 4 (curr + 4) 4 ->
     rd s' (n + k) = ld32 (k_mem s) (n + k)).
Proof.
  intros Hm Hok n (F1 & F2 & F3 & F4 & F5) Ha1 Ha2. cbv zeta. rewrite call_switch_eq by done.
  assert (Hn : ld32 (saved_mem (k_mem s) (k_cpu s) ret curr next) (next + P_esp) = n)
    by (by apply switched_fields).
  assert (Hfr : forall k, 0 <= k <= 16 ->
    ld32 (saved_mem (k_mem s) (k_cpu s) ret curr next) (n + k) = ld32 (k_mem s) (n + k)).
  { intros k Hk. unfold apart in *. apply saved_ld; unfold apart; change (r_esp (k_cpu s)) with (esp s);
      change (Z.of_nat 4) with 4; lia. }
  split; [|split; [|split]].
  - unfold switched. cbv zeta. rewrite Hn, !Hfr, F2, F3, F4, F5 by lia. rewrite <- (Z.add_0_r n) at 2.
    rewrite Hfr, Z.add_0_r, F1 by lia. done.
  - by apply switched_loads.
  - by apply switched_loads.
  - intros k Hk Hk1 Hk2. unfold apart in *.
    apply (ld_agree (fun b => n + k <= b < n + k + 4)); [|change (Z.of_nat 4) with 4; lia].
    intros b Hb. apply switched_ldb; rewrite ?Hn; lia.
Qed.
End SwitchUse.

(** ** The ring of processes *)

Section Ring.
Implicit Types (l : list Z) (m : mem).

(** The PCBs [l]: all different, none over another. *)
Record pcbs (l : list Z) : Prop := {
  pb_nodup : NoDup l;
  pb_range : forall p, p ∈ l -> 0 < p /\ p + PROCESS_SIZE <= 0x100000000;
  pb_apart : forall p q, p ∈ l -> q ∈ l -> p <> q -> apart p PROCESS_SIZE q PROCESS_SIZE
}.
Definition in_pcbs (l : list Z) (a : Z) : Prop := exists p, p ∈ l /\ p <= a < p + PROCESS_SIZE.
Definition off_pcbs (l : list Z) (a n : Z) : Prop := forall p, p ∈ l -> apart p PROCESS_SIZE a n.

Lemma pcb_get_set l m p q o1 o2 v :
  pcbs l -> p ∈ l -> q ∈ l -> 0 <= o1 <= 60 -> 0 <= o2 <= 60 -> o1 mod 4 = 0 -> o2 mod 4 = 0 -> is_u32 v ->
  ld32 (st32 m (p + o1) v) (q + o2) = if decide (p = q /\ o1 = o2) then v else ld32 m (q + o2).
Proof.
  intros Hl Hp Hq Ho1 Ho2 Hm1 Hm2 Hv. case_decide as E.
  - destruct E as [-> ->]. apply (ld_st_eq 4). exact Hv.
  - apply ld_st_ne. change (Z.of_nat 4) with 4. destruct (decide (p = q)) as [->|Hne].
    + assert (o1 <> o2) by (intros ->; by apply E). Z.div_mod_to_equations. lia.
    + pose proof (pb_apart _ Hl p q Hp Hq Hne) as Ha. unfold apart in Ha. lia.
Qed.

Lemma pcb_agree l m m' p o :
  agree (in_pcbs l) m m' -> p ∈ l -> 0 <= o <= 60 -> ld32 m' (p + o) = ld32 m (p + o).
Proof.
  intros Ha Hp Ho. apply (ld_agree _ _ _ _ _ Ha). intros b Hb. exists p. split; [done|]. 
  change (Z.of_nat 4) with 4 in Hb. lia.
Qed.

Definition succ l (i : Z) : Z := (i + 1) mod zlen l.

(** What a process that is not running looks like: its quantum is full, and its
    saved stack pointer leaves room off the PCBs. *)
Definition waiting l m (p : Z) : Prop :=
  ld32 m (p + P_state) <> state_code PROCESS_STATE_RUNNING /\ ld32 m (p + P_ticks_remaining) = 5 /\
  12 <= ld32 m (p + P_esp) < 0x100000000 - 20 /\ off_pcbs l (ld32 m (p + P_esp) - 12) 12.

(** The ring after [k] timer ticks from a full quantum of its first process. *)
Record ring_ok {W} (s : machine W) l (k : Z) : Prop := {
  ro_len : 0 < zlen l /\ 0 <= k;
  ro_pcbs : pcbs l;
  ro_next : forall i, 0 <= i < zlen l -> rd s (zget l i + P_next) = zget l (succ l i);
  ro_cur : current_process s = zget l (k / 6 mod zlen l);
  ro_ticks : rd s (current_process s + P_ticks_remaining) = 5 - k mod 6;
  ro_run : rd s (current_process s + P_state) = state_code PROCESS_STATE_RUNNING;
  ro_wait : forall p, p ∈ l -> p <> current_process s -> waiting l (k_mem s) p
}.

(** The running thread has room on its stack, off the PCBs. *)
Definition stack_room {W} l (s : machine W) : Prop :=
  cpu_ok (k_cpu s) /\ 40 <= esp s /\ off_pcbs l (esp s - 40) 40.

Lemma zget_elem l i : 0 <= i < zlen l -> zget l i ∈ l.
Proof.
  intros Hi. unfold zlen in Hi. destruct (lookup_lt_is_Some_2 l (Z.to_nat i)) as [x Hx]; [lia|].
  rewrite (zget_lookup l i x) by (done || lia). by eapply list_elem_of_lookup_2.
Qed.

Lemma zget_inj l i j : NoDup l -> 0 <= i < zlen l -> 0 <= j < zlen l -> zget l i = zget l j -> i = j.
Proof.
  intros Hn Hi Hj E. unfold zlen in *.
  destruct (lookup_lt_is_Some_2 l (Z.to_nat i)) as [x Hx]; [lia|].
  destruct (lookup_lt_is_Some_2 l (Z.to_nat j)) as [y Hy]; [lia|].
  rewrite (zget_lookup l i x), (zget_lookup l j y) in E by (done || lia). subst y.
  pose proof (NoDup_lookup _ _ _ _ Hn Hx Hy). lia.
Qed.

Lemma elem_zget l p : p ∈ l -> exists i, 0 <= i < zlen l /\ zget l i = p.
Proof.
  intros (i & Hi)%list_elem_of_lookup_1. exists (Z.of_nat i). pose proof (lookup_lt_Some _ _ _ Hi). unfold zlen.
  split; [lia|]. apply zget_lookup; [lia|]. by rewrite Nat2Z.id.
Qed.
End Ring.

Section Fair.
Context {W : Type}.
Implicit Types (s : machine W) (l : list Z).
Variables tss_at after_call after_switch : Z.
Hypothesis after_switch_ok : is_u32 after_switch.

Lemma off_mono l a n b k : off_pcbs l a n -> a <= b -> b + k <= a + n -> off_pcbs l b k.
Proof. intros H H1 H2 p Hp. specialize (H p Hp). unfold apart in *. lia. Qed.

Lemma off_ldb l a n b : off_pcbs l a n -> in_pcbs l b -> b < a \/ a + n <= b.
Proof. intros H (p & Hp & Hb). specialize (H p Hp). unfold apart in H. lia. Qed.

Lemma switch_ok_pcbs s l cp nx :
  pcbs l -> cp ∈ l -> nx ∈ l -> cp <> nx -> stack_room l s ->
  12 <= rd s (nx + P_esp) < 0x100000000 - 20 -> switch_ok s after_switch cp nx.
Proof.
  intros Hl Hcp Hnx Hne (Hc & He & Hoff) Hst. destruct (pb_range _ Hl cp Hcp), (pb_range _ Hl nx Hnx).
  pose proof (Hoff cp Hcp) as A1. pose proof (Hoff nx Hnx) as A2. pose proof (pb_apart _ Hl cp nx Hcp Hnx Hne) as A3.
  assert (Hesp : esp s < 0x100000000) by (destruct Hc as [[_ Hc] _]; exact Hc).
  pose proof after_switch_ok as Hao. unfold apart, is_u32 in *. split; try done; unfold apart, is_u32; lia.
Qed.

(** A switch between two PCBs of the ring leaves every PCB word but the saved
    stack pointer. *)
Lemma switch_pcbs s l cp nx q o :
  mem_ok (k_mem s) -> pcbs l -> cp ∈ l -> nx ∈ l -> cp <> nx -> stack_room l s ->
  12 <= rd s (nx + P_esp) < 0x100000000 - 20 -> off_pcbs l (rd s (nx + P_esp) - 12) 12 ->
  let s' := call_switch_to tss_at after_call after_switch cp nx s in
  mem_ok (k_mem s') /\ current_process s' = current_process s /\
  (q ∈ l -> 0 <= o <= 60 -> o mod 4 = 0 ->
   rd s' (q + o) = if decide (q = cp /\ o = P_esp) then esp s - 28 else rd s (q + o)).
Proof.
  intros Hm Hl Hcp Hnx Hne (Hc & He & Hoff) Hst Hso. cbv zeta.
  destruct (pb_range _ Hl cp Hcp), (pb_range _ Hl nx Hnx).
  assert (Hesp : esp s < 0x100000000) by (destruct Hc as [[_ Hc] _]; exact Hc).
  assert (Hok : switch_ok s after_switch cp nx) by (by apply (switch_ok_pcbs s l)).
  rewrite call_switch_eq by done. split; [by apply switched_mem_ok|]. split.
  { unfold switched. cbv zeta. by destruct (_ =? _). }
  intros Hq Ho Ho4. set (n := rd s (nx + P_esp)) in *.
  assert (En : ld32 (saved_mem (k_mem s) (k_cpu s) after_switch cp nx) (nx + P_esp) = n)
    by (by apply switched_fields).
  case_decide as E.
  - destruct E as [-> ->]. unfold rd, switched. cbv zeta. rewrite En.
    match goal with |- ld32 (k_mem ?x) _ = _ => change (k_mem x) with
      (st32 (st32 (st32 (saved_mem (k_mem s) (k_cpu s) after_switch cp nx) (n - 4) nx) (n - 8)
        (ld32 (saved_mem (k_mem s) (k_cpu s) after_switch cp nx) (nx + P_kstack_top))) (n - 12) after_call) end.
    specialize (Hso cp Hcp). unfold apart in Hso.
    rewrite !ld_st_ne by (change (Z.of_nat 4) with 4; lia). unfold saved_mem. cbv zeta.
    apply (ld_st_eq 4). change (r_esp (k_cpu s)) with (esp s). change (0x100 ^ Z.of_nat 4) with 0x100000000. lia.
  - unfold rd. apply (ld_agree (fun b => q + o <= b < q + o + 4)); [|change (Z.of_nat 4) with 4; lia].
    intros b Hb. assert (Hin : in_pcbs l b) by (exists q; split; [done|lia]).
    pose proof (off_ldb _ _ _ _ Hoff Hin). pose proof (off_ldb _ _ _ _ Hso Hin).
    apply switched_ldb; rewrite ?En; [lia| |lia].
    destruct (decide (q = cp)) as [->|Hqc].
    + assert (o <> P_esp) by (intros ->; by apply E). Z.div_mod_to_equations. lia.
    + pose proof (pb_apart _ Hl q cp Hq Hcp Hqc) as Ha. unfold apart in Ha. lia.
Qed.

Lemma waiting_ext l m m' p :
  (forall o, 0 <= o <= 60 -> o mod 4 = 0 -> ld32 m' (p + o) = ld32 m (p + o)) -> waiting l m p -> waiting l m' p.
Proof. intros H. unfold waiting. by rewrite !H by done. Qed.

(** A tick that does not end the quantum. *)
Lemma schedule_counts s l k :
  ring_ok s l k -> mem_ok (k_mem s) -> k mod 6 < 5 ->
  let s' := schedule tss_at after_call after_switch s in ring_ok s' l (k + 1) /\ mem_ok (k_mem s').
Proof.
  intros Hr Hm Hk. pose proof Hr as [[Hlen Hk0] Hl Hnext Hcur Hticks Hrun Hwait].
  pose proof (Z.mod_pos_bound k 6 ltac:(lia)) as Hb.
  assert (Hc : current_process s ∈ l) by (rewrite Hcur; apply zget_elem, Z.mod_pos_bound; lia).
  destruct (pb_range _ Hl _ Hc). cbv zeta. unfold schedule. cbv zeta.
  rewrite (proj2 (Z.eqb_neq (current_process s) 0)), Hticks, (proj2 (Z.ltb_lt 0 _)) by lia.
  rewrite u32_small by (unfold is_u32; lia). set (cp := current_process s) in *.
  assert (Hget : forall q o, q ∈ l -> 0 <= o <= 60 -> o mod 4 = 0 ->
    rd (wr (cp + P_ticks_remaining) (5 - k mod 6 - 1) s) (q + o) =
    if decide (cp = q /\ P_ticks_remaining = o) then 5 - k mod 6 - 1 else rd s (q + o)).
  { intros q o Hq Ho Ho4. apply (pcb_get_set l); try done. unfold is_u32. lia. }
  assert (Hdiv : (k + 1) / 6 = k / 6 /\ (k + 1) mod 6 = k mod 6 + 1) by (Z.div_mod_to_equations; lia).
  destruct Hdiv as [Ed Em]. split; [|by apply mem_ok_st]. split.
  - lia.
  - done.
  - intros i Hi. rewrite Hget by (done || by apply zget_elem). rewrite decide_False by lia. by apply Hnext.
  - by rewrite Ed.
  - change (current_process (wr _ _ s)) with cp. rewrite Hget, decide_True by done. lia.
  - change (current_process (wr _ _ s)) with cp. rewrite Hget, decide_False by (done || lia). exact Hrun.
  - intros p Hp Hne. change (current_process (wr _ _ s)) with cp in Hne. apply (waiting_ext l (k_mem s)); [|by apply Hwait].
    intros o Ho Ho4. pose proof (Hget p o Hp Ho Ho4) as Hg. rewrite decide_False in Hg by (intros [-> _]; done). exact Hg.
Qed.

(** The three PCB words [schedule] writes before it switches. *)
Definition turn_over (cp nx : Z) s : machine W :=
  wr (nx + P_state) (state_code PROCESS_STATE_RUNNING)
    (wr (cp + P_state) (state_code PROCESS_STATE_READY) (wr (cp + P_ticks_remaining) 5 s){{ current_process := nx }}).

Lemma schedule_unfold s :
  let cp := current_process s in
  cp <> 0 -> rd s (cp + P_ticks_remaining) = 0 ->
  let s1 := wr (cp + P_ticks_remaining) 5 s in
  let nx := rd s1 (cp + P_next) in
  nx <> 0 -> rd s1 (cp + P_state) = state_code PROCESS_STATE_RUNNING ->
  schedule tss_at after_call after_switch s =
    if nx =? cp then s1 else call_switch_to tss_at after_call after_switch cp nx (turn_over cp nx s).
Proof.
  intros cp Hcp Ht s1 nx Hnx Hst. unfold schedule. cbv zeta. fold cp.
  rewrite (proj2 (Z.eqb_neq cp 0)), Ht by done. change (0 <? 0) with false. cbv iota. fold s1 nx.
  rewrite (proj2 (Z.eqb_neq nx 0)) by done. destruct (nx =? cp); [done|].
  change (rd s1{{ current_process := nx }} (cp + P_state)) with (rd s1 (cp + P_state)).
  rewrite Hst, Z.eqb_refl. reflexivity.
Qed.

Lemma turn_over_get l cp nx s q o :
  pcbs l -> cp ∈ l -> nx ∈ l -> q ∈ l -> 0 <= o <= 60 -> o mod 4 = 0 ->
  rd (turn_over cp nx s) (q + o) =
    if decide (nx = q /\ P_state = o) then state_code PROCESS_STATE_RUNNING
    else if decide (cp = q /\ P_state = o) then state_code PROCESS_STATE_READY
    else if decide (cp = q /\ P_ticks_remaining = o) then 5 else rd s (q + o).
Proof.
  intros Hl Hcp Hnx Hq Ho Ho4. unfold turn_over.
  change (rd (wr ?a ?v ?x) (q + o)) with (ld32 (st32 (k_mem x) a v) (q + o)).
  rewrite (pcb_get_set l) by done. case_decide; [done|].
  change (k_mem (wr ?a ?v ?x)) with (st32 (k_mem x) a v).
  rewrite (pcb_get_set l) by done. case_decide; [done|].
  change (k_mem (wr ?a ?v s){{ current_process := nx }}) with (st32 (k_mem s) a v).
  by rewrite (pcb_get_set l).
Qed.
End Fair.

Section Fairness.
Context {W : Type}.
Implicit Types (s : machine W) (l : list Z).
Variables tss_at after_call after_switch : Z.
Hypothesis after_switch_ok : is_u32 after_switch.

(** A process that is its own successor gets a new quantum. *)
Lemma sole_ring s s1 l k :
  ring_ok s l k -> k mod 6 = 5 -> zget l (succ l (k / 6 mod zlen l)) = current_process s ->
  current_process s1 = current_process s ->
  (forall q o, q ∈ l -> 0 <= o <= 60 -> o mod 4 = 0 ->
     rd s1 (q + o) = if decide (current_process s = q /\ P_ticks_remaining = o) then 5 else rd s (q + o)) ->
  ring_ok s1 l (k + 1).
Proof.
  intros Hr Hk Ec Ec1 Hget1. pose proof Hr as [[Hlen Hk0] Hl Hnext Hcur Hticks Hrun Hwait].
  assert (Hdiv : (k + 1) / 6 = k / 6 + 1 /\ (k + 1) mod 6 = 0) by (Z.div_mod_to_equations; lia).
  destruct Hdiv as [Ed Em].
  assert (Hc : current_process s ∈ l) by (rewrite Hcur; apply zget_elem, Z.mod_pos_bound; lia).
  assert (Hsi : (k + 1) / 6 mod zlen l = succ l (k / 6 mod zlen l)) by (rewrite Ed; unfold succ; by rewrite Zplus_mod_idemp_l).
  split.
  - lia.
  - exact Hl.
  - intros a Ha. rewrite Hget1 by (done || by apply zget_elem). rewrite decide_False by lia. by apply Hnext.
  - rewrite Hsi. congruence.
  - rewrite Ec1, Hget1, decide_True by done. lia.
  - rewrite Ec1, Hget1, decide_False by (done || lia). exact Hrun.
  - intros p Hp Hne. rewrite Ec1 in Hne. apply (waiting_ext l (k_mem s)); [|by apply Hwait].
    intros o Ho Ho4. pose proof (Hget1 p o Hp Ho Ho4) as Hg. rewrite decide_False in Hg by (intros [E _]; congruence). exact Hg.
Qed.

(** The PCB words once [schedule] has gone from [cp] to [nx]. *)
Definition turn_word (e cp nx q o old : Z) : Z :=
  if decide (q = cp /\ o = P_esp) then e - 28
  else if decide (nx = q /\ P_state = o) then state_code PROCESS_STATE_RUNNING
  else if decide (cp = q /\ P_state = o) then state_code PROCESS_STATE_READY
  else if decide (cp = q /\ P_ticks_remaining = o) then 5 else old.

Lemma turn_over_facts l cp nx s :
  mem_ok (k_mem s) -> stack_room l s ->
  mem_ok (k_mem (turn_over cp nx s)) /\ stack_room l (turn_over cp nx s) /\
  current_process (turn_over cp nx s) = nx /\ esp (turn_over cp nx s) = esp s.
Proof. intros Hm Hr. split; [|done]. unfold turn_over, wr, on_mem. repeat apply mem_ok_st. exact Hm. Qed.

Lemma turn_switch s l cp nx :
  mem_ok (k_mem s) -> pcbs l -> cp ∈ l -> nx ∈ l -> cp <> nx -> stack_room l s -> waiting l (k_mem s) nx ->
  let s3 := call_switch_to tss_at after_call after_switch cp nx (turn_over cp nx s) in
  mem_ok (k_mem s3) /\ current_process s3 = nx /\
  forall q o, q ∈ l -> 0 <= o <= 60 -> o mod 4 = 0 -> rd s3 (q + o) = turn_word (esp s) cp nx q o (rd s (q + o)).
Proof.
  intros Hm Hl Hcp Hnx Hne Hroom (Hw1 & Hw2 & Hw3 & Hw4).
  destruct (turn_over_facts l cp nx s Hm Hroom) as (F1 & F2 & F3 & F4).
  pose proof (turn_over_get l cp nx s) as Hg. forget (turn_over cp nx s) as s2. cbv zeta.
  assert (Esp : rd s2 (nx + P_esp) = rd s (nx + P_esp)) by (rewrite Hg by done; by rewrite !decide_False by lia).
  assert (H3 : 12 <= rd s2 (nx + P_esp) < 0x100000000 - 20) by (rewrite Esp; exact Hw3).
  assert (H4 : off_pcbs l (rd s2 (nx + P_esp) - 12) 12) by (rewrite Esp; exact Hw4).
  pose proof (fun q o => switch_pcbs tss_at after_call after_switch after_switch_ok s2 l cp nx q o
    F1 Hl Hcp Hnx Hne F2 H3 H4) as Hsw. cbv zeta in Hsw.
  destruct (Hsw nx 0) as (A1 & A2 & _). split; [exact A1|]. split; [congruence|].
  intros q o Hq Ho Ho4. destruct (Hsw q o) as (_ & _ & A3). rewrite A3, F4, Hg by done. reflexivity.
Qed.

Lemma turn_loads s l cp nx :
  mem_ok (k_mem s) -> pcbs l -> cp ∈ l -> nx ∈ l -> cp <> nx -> stack_room l s -> waiting l (k_mem s) nx ->
  let s3 := call_switch_to tss_at after_call after_switch cp nx (turn_over cp nx s) in
  cr3 (k_vmm s3) = rd s (nx + P_cr3) /\ tss_esp0 tss_at (k_gdt s3) = rd s (nx + P_kstack_top).
Proof.
  intros Hm Hl Hcp Hnx Hne Hroom (Hw1 & Hw2 & Hw3 & Hw4).
  destruct (turn_over_facts l cp nx s Hm Hroom) as (F1 & F2 & F3 & F4).
  pose proof (turn_over_get l cp nx s) as Hg. forget (turn_over cp nx s) as s2. cbv zeta.
  assert (Hok : switch_ok s2 after_switch cp nx).
  { apply (switch_ok_pcbs after_switch after_switch_ok s2 l); [done..|]. rewrite Hg by done. rewrite !decide_False by lia. exact Hw3. }
  rewrite call_switch_eq by done. destruct (switched_loads tss_at after_call s2 after_switch cp nx F1 Hok) as [-> ->].
  change (ld32 (k_mem s2) ?a) with (rd s2 a). rewrite !Hg by done. by rewrite !decide_False by lia.
Qed.

(** The ring after a turn, from what its words became. *)
Lemma turned_ring s s3 l k :
  ring_ok s l k -> stack_room l s -> k mod 6 = 5 ->
  let nx := zget l (succ l (k / 6 mod zlen l)) in
  nx <> current_process s -> current_process s3 = nx ->
  (forall q o, q ∈ l -> 0 <= o <= 60 -> o mod 4 = 0 ->
     rd s3 (q + o) = turn_word (esp s) (current_process s) nx q o (rd s (q + o))) ->
  ring_ok s3 l (k + 1).
Proof.
  intros Hr (Hcpu & Hesp & Hoff) Hk nx Hne Hc3 Hget. pose proof Hr as [[Hlen Hk0] Hl Hnext Hcur Hticks Hrun Hwait].
  assert (Hdiv : (k + 1) / 6 = k / 6 + 1 /\ (k + 1) mod 6 = 0) by (Z.div_mod_to_equations; lia).
  destruct Hdiv as [Ed Em].
  assert (Hi : 0 <= k / 6 mod zlen l < zlen l) by (apply Z.mod_pos_bound; lia).
  assert (Hc : current_process s ∈ l) by (rewrite Hcur; by apply zget_elem).
  assert (Hn : nx ∈ l) by (apply zget_elem, Z.mod_pos_bound; lia).
  assert (Hsi : (k + 1) / 6 mod zlen l = succ l (k / 6 mod zlen l)) by (rewrite Ed; unfold succ; by rewrite Zplus_mod_idemp_l).
  destruct (Hwait nx Hn Hne) as (Hw1 & Hw2 & Hw3 & Hw4).
  assert (Hu : esp s < 0x100000000) by (destruct Hcpu as [[_ Hu] _]; exact Hu).
  forget (current_process s) as cp. split.
  - lia.
  - exact Hl.
  - intros a Ha. rewrite Hget by (done || by apply zget_elem). unfold turn_word. rewrite !decide_False by lia. by apply Hnext.
  - by rewrite Hsi, Hc3.
  - rewrite Hc3, Hget by done. unfold turn_word. rewrite !decide_False by lia. unfold rd. rewrite Hw2. lia.
  - rewrite Hc3, Hget by done. unfold turn_word. by rewrite decide_False, decide_True by (done || lia).
  - intros p Hp Hpn. rewrite Hc3 in Hpn. unfold waiting. change (ld32 (k_mem s3) ?a) with (rd s3 a).
    rewrite !Hget by done. unfold turn_word. destruct (decide (p = cp)) as [->|Hpc].
    + rewrite (decide_True (P := cp = cp /\ P_esp = P_esp)) by done.
      rewrite !(decide_False (P := nx = cp /\ _)) by (intros [? _]; done).
      rewrite !(decide_False (P := cp = cp /\ _ = P_esp)) by lia.
      rewrite (decide_True (P := cp = cp /\ P_state = P_state)), (decide_True (P := cp = cp /\ P_ticks_remaining = P_ticks_remaining)),
        (decide_False (P := cp = cp /\ P_state = P_ticks_remaining)) by (done || lia).
      split; [done|]. split; [done|]. split; [lia|]. apply (off_mono l (esp s - 40) 40); [done|lia|lia].
    + clearbody nx. rewrite !(decide_False (P := _ = _ /\ _)) by (intros [? _]; congruence). by apply Hwait.
Qed.

(** The last tick of a quantum: the next process of the ring runs. *)
Lemma schedule_turns s l k :
  ring_ok s l k -> mem_ok (k_mem s) -> stack_room l s -> k mod 6 = 5 ->
  let s' := schedule tss_at after_call after_switch s in ring_ok s' l (k + 1) /\ mem_ok (k_mem s').
Proof.
  intros Hr Hm Hroom Hk. pose proof Hr as [[Hlen Hk0] Hl Hnext Hcur Hticks Hrun Hwait].
  set (i := k / 6 mod zlen l) in *. assert (Hi : 0 <= i < zlen l) by (apply Z.mod_pos_bound; lia).
  assert (Hc : current_process s ∈ l) by (rewrite Hcur; by apply zget_elem).
  assert (Hn : zget l (succ l i) ∈ l) by (apply zget_elem, Z.mod_pos_bound; lia).
  destruct (pb_range _ Hl _ Hc), (pb_range _ Hl _ Hn). cbv zeta.
  pose proof (schedule_unfold tss_at after_call after_switch s) as Hu. cbv zeta in Hu.
  assert (Hget1 : forall q o, q ∈ l -> 0 <= o <= 60 -> o mod 4 = 0 ->
    rd (wr (current_process s + P_ticks_remaining) 5 s) (q + o) =
    if decide (current_process s = q /\ P_ticks_remaining = o) then 5 else rd s (q + o))
    by (intros q o Hq Ho Ho4; by apply (pcb_get_set l)).
  assert (Enx : rd (wr (current_process s + P_ticks_remaining) 5 s) (current_process s + P_next) = zget l (succ l i)).
  { rewrite Hget1, decide_False by (done || lia). rewrite Hcur. by apply Hnext. }
  rewrite Enx in Hu. rewrite Hu; [|lia|lia|lia|by rewrite Hget1, decide_False by (done || lia)]. clear Hu.
  destruct (Z.eqb_spec (zget l (succ l i)) (current_process s)) as [Ec|Ec].
  - split; [|by apply mem_ok_st]. by apply (sole_ring s _ l k).
  - destruct (turn_switch s l _ _ Hm Hl Hc Hn (not_eq_sym Ec) Hroom (Hwait _ Hn Ec)) as (A1 & A2 & A3).
    split; [|exact A1]. by apply (turned_ring s _ l k).
Qed.

Lemma schedule_ring s l k :
  ring_ok s l k -> mem_ok (k_mem s) -> stack_room l s ->
  let s' := schedule tss_at after_call after_switch s in ring_ok s' l (k + 1) /\ mem_ok (k_mem s').
Proof.
  intros Hr Hm Hroom. destruct (decide (k mod 6 < 5)); [by apply schedule_counts|].
  apply schedule_turns; [done|done|done|]. pose proof (Z.mod_pos_bound k 6). lia.
Qed.

(** Work between two calls of [schedule]: anything that leaves the PCBs alone and
    the running thread with room on its stack. *)
Definition quiet l s s1 : Prop :=
  current_process s1 = current_process s /\ agree (in_pcbs l) (k_mem s) (k_mem s1) /\ mem_ok (k_mem s1) /\ stack_room l s1.

Inductive tick l : machine W -> machine W -> Prop :=
  | tick_intro s s1 : quiet l s s1 -> tick l s (schedule tss_at after_call after_switch s1).

Lemma ring_quiet s s1 l k : ring_ok s l k -> quiet l s s1 -> ring_ok s1 l k.
Proof.
  intros [[Hlen Hk0] Hl Hnext Hcur Hticks Hrun Hwait] (Ec & Ha & _).
  assert (Hc : current_process s ∈ l) by (rewrite Hcur; apply zget_elem, Z.mod_pos_bound; lia).
  assert (Hg : forall p o, p ∈ l -> 0 <= o <= 60 -> rd s1 (p + o) = rd s (p + o))
    by (intros; by apply (pcb_agree l)).
  split.
  - done.
  - done.
  - intros i Hi. rewrite Hg by (lia || by apply zget_elem). by apply Hnext.
  - congruence.
  - by rewrite Ec, Hg.
  - by rewrite Ec, Hg.
  - intros p Hp Hne. rewrite Ec in Hne. apply (waiting_ext l (k_mem s)); [|by apply Hwait]. intros o Ho _. by apply Hg.
Qed.

Lemma ticks_ring s s' l k n : ring_ok s l k -> nsteps (tick l) n s s' -> ring_ok s' l (k + Z.of_nat n).
Proof.
  intros Hr Hn. revert k Hr. induction Hn as [s|n s1 s2 s3 Ht _ IH]; intros k Hr; [by rewrite Z.add_0_r|].
  destruct Ht as [s1 s2 Hq]. pose proof Hq as (_ & _ & Hm & Hroom).
  destruct (schedule_ring s2 l k (ring_quiet _ _ _ _ Hr Hq) Hm Hroom) as [Hr' _].
  replace (k + Z.of_nat (S n)) with (k + 1 + Z.of_nat n) by lia. by apply IH.
Qed.
End Fairness.

(** ** Words the scheduler leaves alone *)

Section Keeps.
Context {W : Type}.
Implicit Types (s : machine W) (l : list Z).
Variables tss_at after_call after_switch : Z.
Hypothesis after_switch_ok : is_u32 after_switch.

(** The directory and the kernel stack of every process are as before. *)
Definition keeps l s s' : Prop :=
  forall q o, q ∈ l -> o = P_cr3 \/ o = P_kstack_top -> rd s' (q + o) = rd s (q + o).

Lemma schedule_keeps s l k :
  ring_ok s l k -> mem_ok (k_mem s) -> stack_room l s ->
  keeps l s (schedule tss_at after_call after_switch s) /\
  (k mod 6 = 5 -> zget l (succ l (k / 6 mod zlen l)) <> current_process s ->
   let s' := schedule tss_at after_call after_switch s in
   cr3 (k_vmm s') = rd s (zget l (succ l (k / 6 mod zlen l)) + P_cr3) /\
   tss_esp0 tss_at (k_gdt s') = rd s (zget l (succ l (k / 6 mod zlen l)) + P_kstack_top)).
Proof.
  intros Hr Hm Hroom. pose proof Hr as [[Hlen Hk0] Hl Hnext Hcur Hticks Hrun Hwait].
  assert (Hi : 0 <= k / 6 mod zlen l < zlen l) by (apply Z.mod_pos_bound; lia).
  assert (Hc : current_process s ∈ l) by (rewrite Hcur; by apply zget_elem).
  set (nx := zget l (succ l (k / 6 mod zlen l))).
  assert (Hn : nx ∈ l) by (apply zget_elem, Z.mod_pos_bound; lia).
  destruct (pb_range _ Hl _ Hc), (pb_range _ Hl _ Hn). pose proof (Z.mod_pos_bound k 6 ltac:(lia)) as Hb.
  assert (Hget : forall v q o, is_u32 v -> q ∈ l -> o = P_cr3 \/ o = P_kstack_top ->
    rd (wr (current_process s + P_ticks_remaining) v s) (q + o) = rd s (q + o)).
  { intros v q o Hv Hq Ho. etransitivity; [apply (pcb_get_set l); (done || lia || by destruct Ho as [-> | ->])|].
    rewrite decide_False by lia. done. }
  destruct (decide (k mod 6 < 5)) as [Hlt|Hge].
  - split; [|lia]. unfold schedule. cbv zeta.
    rewrite (proj2 (Z.eqb_neq (current_process s) 0)), Hticks, (proj2 (Z.ltb_lt 0 _)) by lia.
    intros q o Hq Ho. apply Hget; [apply is_u32_u32|done|done].
  - assert (Hk : k mod 6 = 5) by lia.
    pose proof (schedule_unfold tss_at after_call after_switch s) as Hu. cbv zeta in Hu.
    assert (Hget1 : forall q o, q ∈ l -> 0 <= o <= 60 -> o mod 4 = 0 ->
      rd (wr (current_process s + P_ticks_remaining) 5 s) (q + o) =
      if decide (current_process s = q /\ P_ticks_remaining = o) then 5 else rd s (q + o))
      by (intros q o Hq Ho Ho4; by apply (pcb_get_set l)).
    assert (Enx : rd (wr (current_process s + P_ticks_remaining) 5 s) (current_process s + P_next) = nx).
    { rewrite Hget1, decide_False by (done || lia). rewrite Hcur. by apply Hnext. }
    rewrite Enx in Hu. rewrite Hu; [|lia|lia|lia|by rewrite Hget1, decide_False by (done || lia)]. clear Hu.
    destruct (Z.eqb_spec nx (current_process s)) as [Ec|Ec].
    + split; [|done]. intros q o Hq Ho. by apply Hget.
    + destruct (turn_switch tss_at after_call after_switch after_switch_ok s l _ _ Hm Hl Hc Hn (not_eq_sym Ec) Hroom (Hwait _ Hn Ec)) as (_ & _ & A3).
      split.
      * intros q o Hq Ho. rewrite A3 by (done || lia || by destruct Ho as [-> | ->]). unfold turn_word. by rewrite !decide_False by lia.
      * intros _ _. exact (turn_loads tss_at after_call after_switch after_switch_ok s l _ _ Hm Hl Hc Hn (not_eq_sym Ec) Hroom (Hwait _ Hn Ec)).
Qed.

Lemma quiet_keeps l s s1 : quiet l s s1 -> keeps l s s1.
Proof. intros (_ & Ha & _) q o Hq Ho. apply (pcb_agree l); [done|done|lia]. Qed.

Lemma ticks_keeps s s' l k n : ring_ok s l k -> nsteps (tick tss_at after_call after_switch l) n s s' -> keeps l s s'.
Proof.
  intros Hr Hn. revert k Hr. induction Hn as [s|n s1 s2 s3 Ht Hn IH]; intros k Hr; [done|].
  assert (Hr2 : ring_ok s2 l (k + 1)) by (apply (ticks_ring tss_at after_call after_switch after_switch_ok s1 s2 l k 1 Hr); by apply nsteps_once).
  destruct Ht as [s1 s2 Hq]. pose proof Hq as (_ & _ & Hm & Hroom).
  destruct (schedule_keeps s2 l k (ring_quiet _ _ _ _ Hr Hq) Hm Hroom) as [Hk _].
  intros q o Hq' Ho. rewrite (IH _ Hr2) by done. rewrite Hk by done. by apply (quiet_keeps l).
Qed.
End Keeps.

(** ** Pages the scheduler leaves alone *)

Section Pages.
Context {W : Type}.
Implicit Types (s : machine W) (l : list Z).
Variables tss_at after_call after_switch : Z.

Lemma pmm_wr a v s : k_pmm (wr a v s) = k_pmm s.
Proof. reflexivity. Qed.
Lemma pmm_set_esp v s : k_pmm (set_esp v s) = k_pmm s.
Proof. reflexivity. Qed.
Lemma pmm_push v s : k_pmm (push v s) = k_pmm s.
Proof. reflexivity. Qed.
Lemma pmm_pop s : k_pmm (snd (pop s)) = k_pmm s.
Proof. reflexivity. Qed.
Lemma pmm_cr3 v s : k_pmm (on_vmm (write_cr3 v) s) = k_pmm s.
Proof. reflexivity. Qed.

Lemma switch_to_pmm s : k_pmm (switch_to tss_at after_call s) = k_pmm s.
Proof.
  unfold switch_to. cbv zeta. set (s1 := set_esp _ (wr _ _ (push _ _))).
  assert (E1 : k_pmm s1 = k_pmm s) by reflexivity. clearbody s1.
  set (s2 := if _ : bool then s1 else _).
  assert (E2 : k_pmm s2 = k_pmm s1) by (unfold s2; by destruct (_ =? _)). clearbody s2.
  etransitivity; [|etransitivity; [exact E2|exact E1]]. reflexivity.
Qed.

(** [schedule] allocates and frees nothing, whatever the state. *)
Lemma schedule_pmm s : k_pmm (schedule tss_at after_call after_switch s) = k_pmm s.
Proof.
  unfold schedule. cbv zeta. destruct (_ =? 0); [done|]. destruct (0 <? _); [done|].
  destruct (_ =? 0); [done|]. destruct (_ =? _); [done|]. unfold call_switch_to.
  rewrite switch_to_pmm, !pmm_push, pmm_wr. by destruct (_ =? _).
Qed.

(** Ticks between which the others' work gives back no page in [own]. *)
Inductive sparing (own : Z -> Prop) l : machine W -> machine W -> Prop :=
  | sparing_intro s s1 :
      quiet l s s1 -> (forall f, own f -> page_free (k_pmm s) f = false -> page_free (k_pmm s1) f = false) ->
      sparing own l s (schedule tss_at after_call after_switch s1).

Lemma sparing_tick own l s s' : sparing own l s s' -> tick tss_at after_call after_switch l s s'.
Proof. intros [s0 s1 Hq _]. by apply tick_intro. Qed.

Lemma sparing_holds own l n s s' :
  nsteps (sparing own l) n s s' -> forall f, own f -> page_free (k_pmm s) f = false -> page_free (k_pmm s') f = false.
Proof.
  induction 1 as [|n s1 s2 s3 Hs _ IH]; [done|]. intros f Hf Hu. apply IH; [done|].
  destruct Hs as [s1 s2 _ Hkeep]. rewrite schedule_pmm. by apply Hkeep.
Qed.
End Pages.

(** ** Properties *)

(** C7: round robin is fair.  Take a ring of processes: the PCBs all different,
    linked by [next] into one cycle, exactly the current one RUNNING with the rest
    of its quantum, every other with a full quantum and a saved stack.  Let
    [schedule] be called [n] times, with anything in between that leaves the PCBs
    alone and room on the running stack.  Then the current process is the one
    [(k + n) / 6] places further on, with [5 - (k + n) mod 6] ticks left, RUNNING,
    every other one is not, and the ring is as it was; so every process of the
    ring runs within [6] ticks times the number of processes. *)
Theorem schedule_fair {W} (tss_at after_call after_switch : Z) (s : machine W) (l : list Z) (k : Z) :
  is_u32 after_switch -> ring_ok s l k ->
  (forall n s', nsteps (tick tss_at after_call after_switch l) n s s' ->
     ring_ok s' l (k + Z.of_nat n) /\
     current_process s' = zget l ((k + Z.of_nat n) / 6 mod zlen l) /\
     rd s' (current_process s' + P_ticks_remaining) = 5 - (k + Z.of_nat n) mod 6 /\
     forall p, p ∈ l -> rd s' (p + P_state) = state_code PROCESS_STATE_RUNNING <-> p = current_process s') /\
  (forall p, p ∈ l -> exists n, Z.of_nat n <= 6 * zlen l /\
     forall s', nsteps (tick tss_at after_call after_switch l) n s s' -> current_process s' = p).
Proof.
  intros Ha Hr. assert (Hrun : forall n s', nsteps (tick tss_at after_call after_switch l) n s s' -> ring_ok s' l (k + Z.of_nat n))
    by (intros n s'; by apply ticks_ring).
  split.
  - intros n s' Hn. pose proof (Hrun n s' Hn) as Hr'. pose proof Hr' as [_ Hl _ Hc Ht Hst Hw].
    split; [done|]. split; [done|]. split; [done|]. intros p Hp. split; [|by intros ->].
    intros Hrn. destruct (decide (p = current_process s')) as [|Hne]; [done|]. by destruct (Hw p Hp Hne).
  - intros p Hp. pose proof Hr as [[Hlen Hk0] _ _ _ _ _ _]. destruct (elem_zget l p Hp) as (i & Hi & <-).
    set (j := (i - k / 6) mod zlen l). assert (Hj : 0 <= j < zlen l) by (apply Z.mod_pos_bound; lia).
    set (n := 6 * (k / 6 + j) - k). assert (Hn0 : - 6 < n <= 6 * zlen l) by (unfold n; Z.div_mod_to_equations; lia).
    exists (Z.to_nat n). split; [lia|]. intros s' Hn. rewrite (ro_cur _ _ _ (Hrun _ _ Hn)). f_equal.
    assert (Ed : (k + Z.of_nat (Z.to_nat n)) / 6 = k / 6 + j) by (unfold n in *; Z.div_mod_to_equations; lia).
    rewrite Ed. unfold j. rewrite Zplus_mod_idemp_r. replace (k / 6 + (i - k / 6)) with i by lia. by apply Z.mod_small.
Qed.

(** Two PCBs in an otherwise empty memory. *)
Definition demo_pcb (p stack state next : Z) (m : mem) : mem :=
  st32 (st32 (st32 (st32 m (p + P_esp) stack) (p + P_state) state) (p + P_ticks_remaining) 5) (p + P_next) next.
Definition demo_mem : mem := demo_pcb 0x2000 0x5000 1 0x1000 (demo_pcb 0x1000 0 2 0x2000 ∅).
Definition demo_machine (p : pmm (list trace_rec)) : machine (list trace_rec) :=
  Machine (Vmm p demo_mem 0 0 []) (GdtState [] ∅ (0, 0) 0) (Cpu 0x4000 1 2 3 4 0) 0x1000 0x1000 1.

Lemma demo_ring p : ring_ok (demo_machine p) [0x1000; 0x2000] 0 /\ stack_room [0x1000; 0x2000] (demo_machine p) /\
  mem_ok (k_mem (demo_machine p)).
Proof.
  assert (Hin : forall q, q ∈ [0x1000; 0x2000] -> q = 0x1000 \/ q = 0x2000)
    by (intros q [->|[->|[]%not_elem_of_nil]%elem_of_cons]%elem_of_cons; [by left|by right]).
  assert (Hm : mem_ok (k_mem (demo_machine p))) by (unfold demo_machine, k_mem, demo_mem, demo_pcb; cbn [v_mem k_vmm]; auto 20 with cint).
  split; [|split; [|exact Hm]].
  - split.
    + done.
    + split; [repeat (apply NoDup_cons; split); [by intros [E|[]%not_elem_of_nil]%elem_of_cons|apply not_elem_of_nil|by apply NoDup_nil]| |].
      * intros q [-> | ->]%Hin; lia.
      * intros q r [-> | ->]%Hin [-> | ->]%Hin Hne; unfold apart; (lia || done).
    + intros i Hi. assert (i = 0 \/ i = 1) as [-> | ->] by (unfold zlen in Hi; cbn in Hi; lia); vm_compute; reflexivity.
    + done.
    + vm_compute. reflexivity.
    + vm_compute. reflexivity.
    + intros q [-> | ->]%Hin Hne; [done|]. split; [vm_compute; discriminate|]. split; [vm_compute; reflexivity|].
      replace (ld32 (k_mem (demo_machine p)) (0x2000 + P_esp)) with 0x5000 by (vm_compute; reflexivity).
      split; [lia|]. intros q [-> | ->]%Hin; unfold apart; lia.
  - split; [repeat split; cbn; lia|]. split; [cbn; lia|]. intros q [-> | ->]%Hin; unfold apart; cbn; lia.
Qed.

(** Ticks with nothing in between. *)
Lemma idle_ticks {W} tss_at after_call after_switch l n (s : machine W) k :
  is_u32 after_switch -> ring_ok s l k -> mem_ok (k_mem s) ->
  (forall i, (i < n)%nat -> stack_room l (Nat.iter i (schedule tss_at after_call after_switch) s)) ->
  nsteps (tick tss_at after_call after_switch l) n s (Nat.iter n (schedule tss_at after_call after_switch) s).
Proof.
  intros Ha Hr Hm Hroom.
  enough (H : nsteps (tick tss_at after_call after_switch l) n s (Nat.iter n (schedule tss_at after_call after_switch) s) /\
    mem_ok (k_mem (Nat.iter n (schedule tss_at after_call after_switch) s))) by apply H.
  induction n as [|n IH]; [by split; [apply nsteps_O|]|].
  destruct IH as [Hn Hmn]; [intros i Hi; apply Hroom; lia|]. specialize (Hroom n ltac:(lia)).
  change (Nat.iter (S n) ?f s) with (f (Nat.iter n f s)). forget (Nat.iter n (schedule tss_at after_call after_switch) s) as t.
  destruct (schedule_ring tss_at after_call after_switch Ha t l _ (ticks_ring _ _ _ Ha s t l k n Hr Hn) Hmn Hroom) as [_ Hm'].
  split; [|exact Hm']. apply (nsteps_r n s t); [exact Hn|]. by apply tick_intro.
Qed.

Lemma schedule_fair_witness :
  let s := Nat.iter 6 (schedule 0 0 0) (demo_machine (pmm_bss [])) in
  current_process s = 0x2000 /\ rd s (0x2000 + P_ticks_remaining) = 5.
Proof.
  destruct (demo_ring (pmm_bss [])) as (Hr & Hroom & Hm).
  destruct (schedule_fair 0 0 0 (demo_machine (pmm_bss [])) [0x1000; 0x2000] 0 ltac:(done) Hr) as [H _].
  destruct (H 6%nat (Nat.iter 6 (schedule 0 0 0) (demo_machine (pmm_bss [])))) as (_ & Ec & Et & _).
  - apply (idle_ticks 0 0 0 _ 6 _ 0); [done|exact Hr|exact Hm|]. intros i Hi.
    destruct Hroom as (Hc & He & Ho). unfold stack_room, esp in *.
    assert (Ek : k_cpu (Nat.iter i (schedule 0 0 0) (demo_machine (pmm_bss []))) = k_cpu (demo_machine (pmm_bss []))).
    { do 6 (destruct i as [|i]; [vm_compute; reflexivity|]). lia. }
    by rewrite Ek.
  - rewrite Ec in Et. split; [exact Ec|exact Et].
Defined.

(** C25: a context switch is undone by the switch back.  When thread A calls
    [switch_to] and, later, some thread switches to A, with A's saved frame and
    PCB untouched meanwhile, then A goes on after its call with the stack
    pointer, EBP, EBX, ESI and EDI it had, in the directory and with the ring-0
    stack of its PCB. *)
Theorem switch_roundtrip {W} (tss_at after_call : Z) (s s2 : machine W) (ret a b ret2 c : Z) :
  mem_ok (k_mem s) -> switch_ok s ret a b ->
  let s1 := call_switch_to tss_at after_call ret a b s in
  apart (ld32 (k_mem s) (b + P_esp) - 12) 12 (esp s - 28) 28 -> apart (ld32 (k_mem s) (b + P_esp) - 12) 12 a 16 ->
  agree (fun x => esp s - 28 <= x < esp s \/ a <= x < a + 16) (k_mem s1) (k_mem s2) ->
  mem_ok (k_mem s2) -> switch_ok s2 ret2 c a ->
  apart (esp s - 28) 20 (esp s2 - 28) 28 -> apart (esp s - 28) 20 (c + 4) 4 ->
  let s3 := call_switch_to tss_at after_call ret2 c a s2 in
  k_cpu s3 = (k_cpu s){{ r_esp := esp s - 8; r_eip := ret }} /\
  cr3 (k_vmm s3) = rd s (a + P_cr3) /\ tss_esp0 tss_at (k_gdt s3) = rd s (a + P_kstack_top).
Proof.
  intros Hm Hok s1 Hb1 Hb2 Hag Hm2 Hok2 Hf Hc. pose proof Hok as [Hcpu He (Hr & Ha & Hb) [Ha1 Ha2] [Hn1 Hn2] Hap Hst].
  unfold s1 in Hag. rewrite call_switch_eq in Hag by done. unfold apart in *.
  set (n := ld32 (saved_mem (k_mem s) (k_cpu s) ret a b) (b + P_esp)).
  assert (En : n = ld32 (k_mem s) (b + P_esp)) by (by apply switched_fields).
  (* what the first switch left where A will look *)
  assert (Hleft : forall x, (forall y, x <= y < x + Z.of_nat 4 -> esp s - 28 <= y < esp s \/ a <= y < a + 16) ->
    ld32 (k_mem s2) x = ld32 (saved_mem (k_mem s) (k_cpu s) ret a b) x).
  { intros x Hx. rewrite (ld_agree _ 4 _ _ x Hag Hx). apply (ld_agree (fun y => x <= y < x + Z.of_nat 4)); [|done].
    intros y Hy. specialize (Hx y Hy). unfold switched. cbv zeta. fold n.
    match goal with |- ldb (k_mem ?z) y = _ => change (k_mem z) with
      (st32 (st32 (st32 (saved_mem (k_mem s) (k_cpu s) ret a b) (n - 4) b) (n - 8)
        (ld32 (saved_mem (k_mem s) (k_cpu s) ret a b) (b + P_kstack_top))) (n - 12) after_call) end.
    change (Z.of_nat 4) with 4 in Hy. rewrite !ldb_st_ne by (change (Z.of_nat 4) with 4; rewrite En; lia). done. }
  assert (Hesp : ld32 (k_mem s2) (a + P_esp) = esp s - 28).
  { rewrite Hleft by (change (Z.of_nat 4) with 4; lia). unfold saved_mem. cbv zeta. apply (ld_st_eq 4).
    change (r_esp (k_cpu s)) with (esp s). change (0x100 ^ Z.of_nat 4) with 0x100000000. destruct Hcpu as [[_ Hu] _]. change (r_esp (k_cpu s)) with (esp s) in Hu. lia. }
  assert (Hfr : frame_is (k_mem s2) (esp s - 28) (at_call (k_cpu s) ret)).
  { assert (H0 : frame_is (saved_mem (k_mem s) (k_cpu s) ret a b) (r_esp (k_cpu s) - 28) (at_call (k_cpu s) ret)).
    { apply saved_frame; [done|done|destruct Hcpu as [[_ Hu] _]; unfold is_u32; change (r_esp (k_cpu s)) with (esp s) in *; lia|]. exact Ha2. }
    change (r_esp (k_cpu s)) with (esp s) in H0. unfold frame_is in *.
    rewrite !Hleft by (change (Z.of_nat 4) with 4; lia). exact H0. }
  pose proof (switch_resumes tss_at after_call s2 ret2 c a (at_call (k_cpu s) ret) Hm2 Hok2) as Hres.
  cbv zeta in Hres. rewrite Hesp in Hres. destruct (Hres Hfr Hf Hc) as (R1 & R2 & R3 & _).
  assert (Hpcb : forall o, o = P_cr3 \/ o = P_kstack_top -> ld32 (k_mem s2) (a + o) = rd s (a + o)).
  { intros o Ho. rewrite Hleft by (change (Z.of_nat 4) with 4; lia). apply saved_ld; unfold apart;
      change (r_esp (k_cpu s)) with (esp s); change (Z.of_nat 4) with 4; lia. }
  split; [|split].
  - rewrite R1. unfold at_call. replace (esp s - 28 + 20) with (esp s - 8) by lia. reflexivity.
  - rewrite R2. apply Hpcb. auto.
  - rewrite R3. apply Hpcb. auto.
Qed.

Lemma switch_roundtrip_witness :
  k_cpu (call_switch_to 0 0 9 0x2000 0x1000 (call_switch_to 0 0 7 0x1000 0x2000 (demo_machine (pmm_bss [])))) =
    Cpu 0x3FF8 1 2 3 4 7.
Proof.
  set (p := pmm_bss []). destruct (demo_ring p) as (_ & _ & Hm).
  set (s1 := call_switch_to 0 0 7 0x1000 0x2000 (demo_machine p)).
  assert (Hok : switch_ok (demo_machine p) 7 0x1000 0x2000).
  { split; try (vm_compute; intuition congruence); unfold apart; cbn; lia. }
  assert (Ec : k_cpu s1 = Cpu 0x5014 0 0 0 0 0) by (vm_compute; reflexivity).
  assert (Eesp : esp s1 = 0x5014) by (unfold esp; by rewrite Ec).
  assert (En : ld32 (k_mem s1) (0x1000 + P_esp) = 0x3FE4) by (vm_compute; reflexivity).
  assert (Hm1 : mem_ok (k_mem s1)) by (unfold s1; rewrite call_switch_eq by done; by apply switched_mem_ok).
  assert (Hok1 : switch_ok s1 9 0x2000 0x1000).
  { split; rewrite ?Ec, ?Eesp, ?En; unfold apart, cpu_ok, is_u32; cbn; lia. }
  destruct (switch_roundtrip 0 0 (demo_machine p) s1 7 0x1000 0x2000 9 0x2000 Hm Hok) as (H & _).
  - unfold apart. vm_compute. intuition congruence.
  - unfold apart. vm_compute. intuition congruence.
  - reflexivity.
  - exact Hm1.
  - exact Hok1.
  - rewrite Eesp. unfold apart. cbn. lia.
  - unfold apart. cbn. lia.
  - exact H.
Defined.
