(* ===== verification/UserProcess.v ===== *)
(** kernel/sched/process.c and the first processes of kernel/sched/sched_core.c
    (i386): creating a process out of three pages (PCB, page directory, kernel
    stack), its first entry to user mode, its destruction, and the two processes
    of [sched_test_rr].

    The address of [enter_user_mode] is a parameter, the pages come from the
    allocator of [Pmm.v] and the directories from [Vmm.v]. *)

From S2P Require Import Prelude Mem Trace Pmm IpcProto CLib Gdt Vmm Process.

(** ** process.c *)

Section Processes.
Context {W : Type} `{Trace W}.
Implicit Types s : machine W.
(** The address of [enter_user_mode]. *)
Variable enter_user_mode_at : Z.

Definition alloc_page s : Z * machine W :=
  let '(a, p) := pmm_alloc_page NUMA_NODE_LOCAL (k_pmm s) in (a, on_pmm (fun _ => p) s).

(** The eight words below [kstack_top], and the stack pointer they leave. *)
Definition trampoline (kstack_top entry_point : Z) (m : mem) : Z * mem :=
  let put v '(sp, m) := let sp := sp -u 4 in (sp, st32 m sp v) in
  put 0 (put 0 (put 0 (put 0 (put enter_user_mode_at (put 0 (put entry_point (put 0xBFFFF000 (kstack_top, m)))))))).

Definition sched_create_user_process (entry_point wasm_blob_phys wasm_size : Z) s : Z * machine W :=
  let '(proc_phys, s) := alloc_page s in
  if proc_phys =? 0 then (0, s)
  else
    let proc := phys_to_virt proc_phys in
    let s := on_mem (memset proc 0 PROCESS_SIZE) s in
    let s := wr (proc + P_pid) (pid_counter s) s in
    let s := s{{ pid_counter ::= fun n => n +u 1 }} in
    let s := wr (proc + P_state) (state_code PROCESS_STATE_NEW) s in
    let '(cr3, v) := vmm_create_user_pd (k_vmm s) in
    let s := wr (proc + P_cr3) cr3 (on_vmm (fun _ => v) s) in
    if rd s (proc + P_cr3) =? 0 then (0, on_pmm (pmm_free_page proc_phys) s)
    else
      let s := wr (proc + P_pd_virt) (phys_to_virt (rd s (proc + P_cr3))) s in
      let '(kstack_phys, s) := alloc_page s in
      if kstack_phys =? 0 then
        let s := on_vmm (vmm_destroy_user_pd (rd s (proc + P_cr3))) s in
        (0, on_pmm (pmm_free_page proc_phys) s)
      else
        let s := wr (proc + P_kstack_top) (phys_to_virt kstack_phys +u 4096) s in
        let current_pd := vmm_get_current_pd (k_vmm s) in
        let s := on_vmm (vmm_switch_pd (rd s (proc + P_cr3))) s in
        let s := on_vmm (vmm_switch_pd current_pd) s in
        let '(sp, m) := trampoline (rd s (proc + P_kstack_top)) entry_point (k_mem s) in
        let s := on_mem (fun _ => m) s in
        let s := wr (proc + P_esp) sp s in
        let s := wr (proc + P_mem_pages_limit) 256 s in
        let s := wr (proc + P_quantum_ms) 50 s in
        let s := wr (proc + P_ticks_remaining) 5 s in
        (proc, s).

Definition sched_destroy_process (proc : Z) s : machine W :=
  if proc =? 0 then s
  else
    let s := if negb (rd s (proc + P_kstack_top) =? 0)
             then on_pmm (pmm_free_page (virt_to_phys (rd s (proc + P_kstack_top) -u 4096))) s else s in
    let s := if negb (rd s (proc + P_cr3) =? 0)
             then on_vmm (vmm_destroy_user_pd (rd s (proc + P_cr3))) s else s in
    on_pmm (pmm_free_page (virt_to_phys proc)) s.

(** ** sched_core.c: the first two processes *)

Definition hello : list Z :=
  [72; 101; 108; 108; 111; 32; 102; 114; 111; 109; 32; 80; 114; 111; 99; 101; 115; 115; 32; 49; 33; 0].
Definition shellcode : list Z :=
  [0xB8; 0x01; 0x00; 0x00; 0x00;  0xBB; 0x00; 0x01; 0x00; 0x40;  0xCD; 0x80;
   0xB8; 0x02; 0x00; 0x00; 0x00;  0xCD; 0x80;  0xEB; 0xEB].

Definition sched_test_rr s : machine W :=
  let '(p_phys, s) := alloc_page s in
  let idle := phys_to_virt p_phys in
  let s := on_mem (memset idle 0 PROCESS_SIZE) s in
  let s := wr (idle + P_pid) 0 s in
  let s := wr (idle + P_state) (state_code PROCESS_STATE_RUNNING) s in
  let s := wr (idle + P_ticks_remaining) 5 s in
  let s := wr (idle + P_next) idle s in
  let s := s{{ process_list := idle; current_process := idle }} in
  let '(code_phys, s) := alloc_page s in
  let user_code := 0x40000000 in
  let code_ptr := phys_to_virt code_phys in
  let s := on_mem (fun m => store_bytes m (code_ptr +u 0x100) hello) s in
  let s := on_mem (fun m => store_bytes m code_ptr shellcode) s in
  let '(proc1, s) := sched_create_user_process user_code 0 0 s in
  if proc1 =? 0 then s
  else
    let current_pd := vmm_get_current_pd (k_vmm s) in
    let s := on_vmm (vmm_switch_pd (rd s (proc1 + P_cr3))) s in
    let s := on_vmm (fun v => snd (vmm_map_page user_code code_phys PTE_USER_RW v)) s in
    let s := on_vmm (vmm_switch_pd current_pd) s in
    let s := wr (proc1 + P_next) (rd s (process_list s + P_next)) s in
    let s := wr (process_list s + P_next) proc1 s in
    wr (proc1 + P_state) (state_code PROCESS_STATE_READY) s.
End Processes.

(** ** Pages *)

Section Pages.
Context {W : Type} `{Trace W}.
Implicit Types (p : pmm W) (s : machine W) (m : mem).

Lemma free_used p f :
  pmm_wf p -> 256 <= f <= highest_page p -> page_free p f = false ->
  let p' := pmm_free_page (4096 * f) p in
  pmm_wf p' /\ highest_page p' = highest_page p /\ free_pages p' = free_pages p + 1 /\
  forall q, page_free p' q = page_free p q || (f =? q).
Proof.
  intros Hw Hr Hf. pose proof (pw_highest _ Hw).
  destruct (node_of_pfn p f Hw Hr) as (i & Hi & Hpi). rewrite <- pfn_addr by lia.
  assert (Hok : client_ok p {[ f ]}) by (split; [done|]; intros q ->%elem_of_singleton; done).
  assert (Hst : pmm_step (p, {[ f ]}) (pmm_free_page (pfn_to_addr f) p, {[ f ]} ∖ {[ f ]}))
    by (apply step_free; by apply elem_of_singleton).
  destruct (pmm_step_ok _ _ _ _ Hok Hst) as (Hok' & Hh & Hc).
  rewrite difference_diag_L, size_empty, size_singleton in Hc.
  cbv zeta. split; [by apply Hok'|]. split; [done|]. split; [lia|].
  intros q. rewrite (pmm_free_page_eq p i f) by done. apply page_free_given. lia.
Qed.

(** Giving back the pages [l], all different and in use. *)
Lemma free_list p l :
  pmm_wf p -> NoDup l -> (forall f, f ∈ l -> 256 <= f <= highest_page p /\ page_free p f = false) ->
  let p' := free_all p ((fun f => 4096 * f) <$> l) in
  pmm_wf p' /\ highest_page p' = highest_page p /\ free_pages p' = free_pages p + zlen l /\
  forall q, page_free p' q = page_free p q || bool_decide (q ∈ l).
Proof.
  revert p; induction l as [|f l IH]; intros p Hw Hnd Hl.
  - cbv zeta. split; [done|]. split; [done|]. split; [unfold zlen; cbn; lia|].
    intros q. rewrite bool_decide_eq_false_2 by apply not_elem_of_nil. by rewrite orb_false_r.
  - apply NoDup_cons in Hnd as [Hf Hnd]. destruct (Hl f) as [Hr Hu]; [by left|].
    destruct (free_used p f Hw Hr Hu) as (Hw1 & Hh1 & Hc1 & Hf1).
    destruct (IH (pmm_free_page (4096 * f) p)) as (Hw2 & Hh2 & Hc2 & Hf2); [done|done| |].
    { intros g Hg. destruct (Hl g) as [Hgr Hgu]; [by right|]. rewrite Hh1. split; [done|].
      rewrite Hf1, Hgu. apply Z.eqb_neq. intros ->. done. }
    cbv zeta. unfold free_all in *. cbn [fmap list_fmap foldl]. split; [done|]. split; [congruence|].
    split; [unfold zlen in *; cbn [length]; lia|]. intros q. rewrite Hf2, Hf1, <- orb_assoc. f_equal.
    destruct (Z.eqb_spec f q) as [->|Hne]; [by rewrite (bool_decide_eq_true_2 (q ∈ q :: l)) by left|].
    cbn [orb]. apply bool_decide_ext. rewrite elem_of_cons. split; [by right|]. by intros [->|?].
Qed.

(** A page of the machine: the address it is taken at, and what that changes. *)
Lemma alloc_page_spec s :
  pmm_wf (k_pmm s) ->
  let '(a, s') := alloc_page s in
  s' = on_pmm (fun _ => k_pmm s') s /\ pmm_wf (k_pmm s') /\ highest_page (k_pmm s') = highest_page (k_pmm s) /\
  (a = 0 /\ (forall q, page_free (k_pmm s') q = page_free (k_pmm s) q) /\
   free_pages (k_pmm s') = free_pages (k_pmm s) /\ (forall q, 0 <= q -> page_free (k_pmm s) q = false) \/
   exists f, a = 4096 * f /\ a <> 0 /\ 256 <= f <= highest_page (k_pmm s) /\ page_free (k_pmm s) f = true /\
     free_pages (k_pmm s') = free_pages (k_pmm s) - 1 /\
     forall q, page_free (k_pmm s') q = page_free (k_pmm s) q && negb (f =? q)).
Proof.
  intros Hw. unfold alloc_page. pose proof (pmm_alloc_page_cases NUMA_NODE_LOCAL (k_pmm s) Hw ltac:(done)) as Hc.
  destruct (pmm_alloc_page NUMA_NODE_LOCAL (k_pmm s)) as [a p]. destruct Hc as (Hp & Hh & Hc).
  change (k_pmm (on_pmm (fun _ => p) s)) with p. split; [done|]. split; [done|]. split; [done|].
  destruct Hc as [(-> & Hb & Hf & Hn)|(f & -> & Hnz & Hr & Hf & Hc & Hq)].
  - left. split; [done|]. split; [|done]. intros q. by apply page_free_ext.
  - right. exists f. pose proof (pw_highest _ Hw). rewrite pfn_addr in * by lia. done.
Qed.

(** A directory and its tables are not touched by writes outside the pages in use,
    nor by writes in other pages. *)
Lemma tables_agree p m m' d fs :
  agree (other_pages p fs) m m' -> tables_ok p m d -> (d ∉ fs) ->
  (forall i, 0 <= i < 1024 -> small m d i = true -> table_of m d i ∉ fs) -> tables_ok p m' d.
Proof.
  intros Ha [Hd Ht Hi] Hdf Htf. assert (He : forall i, 0 <= i < 1024 -> entry m' (frame_at d) i = entry m (frame_at d) i).
  { intros i Hr. apply (ld_agree _ _ _ _ _ Ha). intros b Hb. exists d. change (Z.of_nat 4) with 4 in Hb.
    split; [apply Hd|]. split; [done|]. unfold frame_at in *. lia. }
  assert (Hs : forall i, 0 <= i < 1024 -> small m' d i = small m d i /\ table_of m' d i = table_of m d i)
    by (intros i Hr; unfold small, table_of; by rewrite He).
  split; [done| |].
  - intros i Hr Hsm. destruct (Hs i Hr) as [E1 E2]. rewrite E1 in Hsm. rewrite E2. by apply Ht.
  - intros i j Hi' Hj'. destruct (Hs i Hi') as [-> ->], (Hs j Hj') as [-> ->]. by apply Hi.
Qed.

(** A write in a page that was free. *)
Lemma fresh_agree p f m m' : page_free p f = true -> only_frame f m m' -> agree (other_pages p []) m m'.
Proof.
  intros Hf Ho a (g & Hg & _ & Ha). apply Ho. unfold frame_at in *. intros Hr. assert (g = f) as -> by lia. congruence.
Qed.

Lemma other_mono p p' m m' :
  (forall q, page_free p q = false -> page_free p' q = false) -> agree (other_pages p' []) m m' ->
  agree (other_pages p []) m m'.
Proof. intros Hp Ha a (g & Hg & Hn & Hr). apply Ha. exists g. split; [by apply Hp|done]. Qed.

Lemma used_ld p m m' f o n :
  agree (other_pages p []) m m' -> page_free p f = false -> 0 <= o -> o + Z.of_nat n <= 4096 ->
  ld n m' (frame_at f + o) = ld n m (frame_at f + o).
Proof.
  intros Ha Hf Ho Hn. apply (ld_agree _ _ _ _ _ Ha). intros b Hb. exists f. split; [done|].
  split; [apply not_elem_of_nil|]. unfold frame_at in *. lia.
Qed.

Lemma frame_st f o n v m : 0 <= o -> o + Z.of_nat n <= 4096 -> only_frame f m (st n m (frame_at f + o) v).
Proof. intros Ho Hn. unfold only_frame, frame_at. apply within_st; lia. Qed.

Lemma free_count p : pmm_wf p -> 0 <= free_pages p.
Proof. intros Hw. rewrite (pw_free p Hw). apply pages_free_bounds. pose proof (pw_boundary _ Hw). lia. Qed.

Lemma none_free p : pmm_wf p -> (forall q, 0 <= q -> page_free p q = false) -> free_pages p = 0.
Proof. intros Hw Hn. rewrite (pw_free p Hw). apply count_range_none. intros j Hj. apply Hn. lia. Qed.

(** A new directory takes the page the allocator gives, and no more. *)
Lemma create_pd_pmm (v : vmm W) :
  (fst (vmm_create_user_pd v), v_pmm (snd (vmm_create_user_pd v))) = pmm_alloc_page NUMA_NODE_LOCAL (v_pmm v).
Proof.
  unfold vmm_create_user_pd. destruct (pmm_alloc_page NUMA_NODE_LOCAL (v_pmm v)) as [a p].
  destruct (Z.eqb_spec a 0) as [->|]; done.
Qed.

(** A directory with no tables in its user half gives back its own page only. *)
Lemma empty_user_pages m f :
  0 <= f < PMM_MAX_PAGES -> (forall i, 0 <= i < 768 -> small m f i = false) -> user_pages m (4096 * f) = [].
Proof.
  intros Hf Hs. unfold user_pages, collect. rewrite phys_frame by done. change (Z.to_nat (KERNEL_VBASE_PDE - 0)) with 768%nat.
  assert (Hgen : forall n k, 0 <= k -> k + Z.of_nat n <= 768 ->
    collect_from n k (fun i => let pde := entry m (frame_at f) i in
      if has pde PTE_PRESENT && negb (has pde PTE_PSE) then table_pages m (PTE_ADDR pde) ++ [PTE_ADDR pde] else [])
    = []); [|apply Hgen; lia].
  induction n as [|n IH]; intros k Hk Hn; [done|]. cbn [collect_from]. rewrite IH by lia. rewrite app_nil_r.
  cbv zeta. specialize (Hs k ltac:(lia)). unfold small in Hs. by rewrite Hs.
Qed.

Lemma destroy_empty (v : vmm W) f :
  0 <= f < PMM_MAX_PAGES -> (forall i, 0 <= i < 768 -> small (v_mem v) f i = false) ->
  vmm_destroy_user_pd (4096 * f) v = v{{ v_pmm ::= pmm_free_page (4096 * f) }}.
Proof. intros Hf Hs. rewrite destroy_eq, empty_user_pages by done. reflexivity. Qed.
End Pages.

(** ** The life of a process *)

(** What the kernel needs of its page tables to make a process: the current
    directory and its tables are pages in use, and entry 0 is no page table (the
    boot code maps it with a 4 MB page). *)
Record kernel_ok {W} (s : machine W) (d : Z) : Prop := {
  ko_pmm : pmm_wf (k_pmm s);
  ko_mem : mem_ok (k_mem s);
  ko_pd : current_pd_phys (k_vmm s) = 4096 * d;
  ko_tab : tables_ok (k_pmm s) (k_mem s) d;
  ko_low : small (k_mem s) d 0 = false
}.

(** The eight words of the first kernel stack. *)
Definition first_frame (m : mem) (top entry_point enter : Z) : Prop :=
  frame_is m (top - 32) (Cpu (top - 32) 0 0 0 0 enter) /\
  ld32 m (top - 12) = 0 /\ ld32 m (top - 8) = entry_point /\ ld32 m (top - 4) = 0xBFFFF000.

(** The words of a PCB that creation sets. *)
Definition new_pcb (m : mem) (p pid stack cr3 top : Z) : Prop :=
  ld32 m (p + P_pid) = pid /\ ld32 m (p + P_esp) = stack /\ ld32 m (p + P_cr3) = cr3 /\
  ld32 m (p + P_kstack_top) = top /\ ld32 m (p + P_state) = state_code PROCESS_STATE_NEW /\
  ld32 m (p + P_pd_virt) = phys_to_virt cr3 /\ ld32 m (p + P_ticks_remaining) = 5 /\
  ld32 m (p + P_quantum_ms) = 50 /\ ld32 m (p + P_mem_pages_limit) = 256 /\ ld32 m (p + P_next) = 0.

Section Creation.
Implicit Types (m : mem).
Variable enter_user_mode_at : Z.

Lemma trampoline_eq T e m :
  32 <= T < 0x100000000 ->
  trampoline enter_user_mode_at T e m =
  (T - 32, st32 (st32 (st32 (st32 (st32 (st32 (st32 (st32 m (T - 4) 0xBFFFF000) (T - 8) e) (T - 12) 0)
     (T - 16) enter_user_mode_at) (T - 20) 0) (T - 24) 0) (T - 28) 0) (T - 32) 0).
Proof.
  intros HT. unfold trampoline. cbv zeta. rewrite (u32_small (T - 4)) by (unfold is_u32; lia).
  rewrite (u32_small (T - 4 - 4)) by (unfold is_u32; lia). replace (T - 4 - 4) with (T - 8) by lia.
  rewrite (u32_small (T - 8 - 4)) by (unfold is_u32; lia). replace (T - 8 - 4) with (T - 12) by lia.
  rewrite (u32_small (T - 12 - 4)) by (unfold is_u32; lia). replace (T - 12 - 4) with (T - 16) by lia.
  rewrite (u32_small (T - 16 - 4)) by (unfold is_u32; lia). replace (T - 16 - 4) with (T - 20) by lia.
  rewrite (u32_small (T - 20 - 4)) by (unfold is_u32; lia). replace (T - 20 - 4) with (T - 24) by lia.
  rewrite (u32_small (T - 24 - 4)) by (unfold is_u32; lia). replace (T - 24 - 4) with (T - 28) by lia.
  rewrite (u32_small (T - 28 - 4)) by (unfold is_u32; lia). replace (T - 28 - 4) with (T - 32) by lia. done.
Qed.

(** The trampoline: the frame [switch_to] pops, in the top words of the stack. *)
Lemma trampoline_spec fs e m :
  0 <= fs < PMM_MAX_PAGES -> is_u32 e -> is_u32 enter_user_mode_at -> mem_ok m ->
  let T := frame_at fs + 4096 in
  let '(sp, m') := trampoline enter_user_mode_at T e m in
  sp = T - 32 /\ only_frame fs m m' /\ mem_ok m' /\ first_frame m' T e enter_user_mode_at.
Proof.
  intros Hf He Hen Hm T. assert (HT : 4096 <= T < 0x100000000)
    by (subst T; unfold frame_at, PMM_MAX_PAGES in *; lia).
  rewrite trampoline_eq by lia. split; [done|]. split; [|split; [auto 20 with cint|]].
  - subst T. unfold only_frame, frame_at. repeat (apply within_st_r; [lia|change (Z.of_nat 4) with 4; lia|]). reflexivity.
  - unfold first_frame, frame_is. cbn [r_edi r_esi r_ebx r_ebp r_eip]. unfold is_u32 in He, Hen.
    replace (T - 32 + 4) with (T - 28) by lia. replace (T - 32 + 8) with (T - 24) by lia.
    replace (T - 32 + 12) with (T - 20) by lia. replace (T - 32 + 16) with (T - 16) by lia.
    repeat split; mem_simpl; reflexivity.
Qed.

(** The PCB's words over the phases of creation: [m1] the page cleared, [m2] any
    memory that has the page as [m1] does, [m4] one that has it as [m3] does. *)
Lemma pcb_words f m0 m2 m4 pid cr3 top sp :
  let F := frame_at f in
  let m1 := st32 (st32 (memset F 0 PROCESS_SIZE m0) (F + P_pid) pid) (F + P_state) (state_code PROCESS_STATE_NEW) in
  let m3 := st32 (st32 (st32 m2 (F + P_cr3) cr3) (F + P_pd_virt) (phys_to_virt cr3)) (F + P_kstack_top) top in
  let m5 := st32 (st32 (st32 (st32 m4 (F + P_esp) sp) (F + P_mem_pages_limit) 256) (F + P_quantum_ms) 50)
              (F + P_ticks_remaining) 5 in
  is_u32 pid -> is_u32 cr3 -> is_u32 top -> is_u32 sp ->
  (forall o, 0 <= o <= 60 -> ld32 m2 (F + o) = ld32 m1 (F + o)) ->
  (forall o, 0 <= o <= 60 -> ld32 m4 (F + o) = ld32 m3 (F + o)) ->
  new_pcb m5 F pid sp cr3 top.
Proof.
  intros F m1 m3 m5 Hpid Hcr3 Htop Hsp H2 H4. pose proof (is_u32_u32 (cr3 + KERNEL_VBASE)) as Hv.
  assert (Hz : forall o, 0 <= o <= 60 -> ld32 (memset F 0 PROCESS_SIZE m0) (F + o) = 0).
  { intros o Ho. destruct (memset_spec F 0 PROCESS_SIZE m0 ltac:(lia)) as (_ & _ & Hs).
    cbn [ld]. replace (F + o + 1) with (F + (o + 1)) by lia. replace (F + (o + 1) + 1) with (F + (o + 2)) by lia.
    replace (F + (o + 2) + 1) with (F + (o + 3)) by lia. rewrite !Hs by lia. done. }
  unfold is_u32 in *. unfold new_pcb, m5.
  assert (Ha : forall o n b v m, apart (F + o) 4 (F + b) 4 -> n = 4%nat -> ld n (st32 m (F + b) v) (F + o) = ld32 m (F + o))
    by (unfold apart; intros o n b v m Hab ->; apply ld_st_ne; change (Z.of_nat 4) with 4; lia).
  assert (He : forall o v m, 0 <= v < 0x100000000 -> ld32 (st32 m (F + o) v) (F + o) = v)
    by (intros o v m Hb; apply (ld_st_eq 4); exact Hb).
  repeat match goal with |- _ /\ _ => split end.
  all: repeat first [rewrite He by (unfold phys_to_virt; done || lia) | rewrite Ha by (unfold apart; done || lia)]; try reflexivity.
  all: rewrite H4 by lia; unfold m3;
    repeat first [rewrite He by (unfold phys_to_virt; done || lia) | rewrite Ha by (unfold apart; done || lia)]; try reflexivity.
  all: rewrite H2 by lia; unfold m1;
    repeat first [rewrite He by (done || lia) | rewrite Ha by (unfold apart; done || lia)]; try reflexivity.
  by apply Hz.
Qed.
End Creation.

Section Creating.
Context {W : Type} `{Trace W}.
Implicit Types (s : machine W).
Variable enter_user_mode_at : Z.

(** Everything a call leaves alone but memory, pages and the PID counter. *)
Definition same_machine s s' : Prop :=
  k_gdt s' = k_gdt s /\ k_cpu s' = k_cpu s /\ process_list s' = process_list s /\ current_process s' = current_process s /\
  current_pd_phys (k_vmm s') = current_pd_phys (k_vmm s).

Lemma on_pmm_same s s' f :
  s' = on_pmm f s -> same_machine s s' /\ cr3 (k_vmm s') = cr3 (k_vmm s) /\ k_mem s' = k_mem s /\ pid_counter s' = pid_counter s.
Proof. intros ->. split; [|done]. done. Qed.

(** The allocator of [s'] is that of [s] with the pages [l] gone. *)
Definition pages_taken s s' (l : list Z) : Prop :=
  pmm_wf (k_pmm s') /\ highest_page (k_pmm s') = highest_page (k_pmm s) /\
  free_pages (k_pmm s') = free_pages (k_pmm s) - zlen l /\
  forall q, page_free (k_pmm s') q = page_free (k_pmm s) q && negb (bool_decide (q ∈ l)).

Record created (s s' : machine W) (proc entry_point d fp fd fs : Z) : Prop := {
  cr_pages : NoDup [fp; fd; fs] /\
    forall f, f ∈ [fp; fd; fs] -> page_free (k_pmm s) f = true /\ 256 <= f <= highest_page (k_pmm s);
  cr_taken : pages_taken s s' [fp; fd; fs];
  cr_mem : mem_ok (k_mem s') /\ agree (other_pages (k_pmm s) []) (k_mem s) (k_mem s');
  cr_pcb : proc = frame_at fp /\
    new_pcb (k_mem s') proc (pid_counter s) (frame_at fs + 4096 - 32) (4096 * fd) (frame_at fs + 4096);
  cr_stack : first_frame (k_mem s') (frame_at fs + 4096) entry_point enter_user_mode_at;
  cr_dir : tables_ok (k_pmm s') (k_mem s') fd /\
    forall i, 0 <= i < 1024 -> entry (k_mem s') (frame_at fd) i =
      if decide (i = 0 \/ KERNEL_VBASE_PDE <= i) then entry (k_mem s) (frame_at d) i else 0;
  cr_rest : same_machine s s' /\ cr3 (k_vmm s') = 4096 * d /\ pid_counter s' = pid_counter s +u 1
}.

(** A creation that failed: nothing is taken and no page in use changed. *)
Record undone (s s' : machine W) : Prop := {
  un_taken : pages_taken s s' [];
  un_mem : mem_ok (k_mem s') /\ agree (other_pages (k_pmm s) []) (k_mem s) (k_mem s');
  un_rest : same_machine s s' /\ cr3 (k_vmm s') = cr3 (k_vmm s);
  un_few : free_pages (k_pmm s) < 3
}.

(** The page of the PCB, cleared, with its PID and state. *)
Definition pcb_init (proc pid : Z) (m : mem) : mem :=
  st32 (st32 (memset proc 0 PROCESS_SIZE m) (proc + P_pid) pid) (proc + P_state) (state_code PROCESS_STATE_NEW).

Lemma pcb_init_frame f pid m : only_frame f m (pcb_init (frame_at f) pid m) /\ (mem_ok m -> mem_ok (pcb_init (frame_at f) pid m)).
Proof.
  destruct (memset_spec (frame_at f) 0 PROCESS_SIZE m ltac:(lia)) as (Hw & Hm & _). split.
  - unfold pcb_init. do 2 (apply within_st_r; [lia|unfold frame_at; change (Z.of_nat 4) with 4; lia|]).
    apply (within_mono _ _ (frame_at f) (frame_at f + PROCESS_SIZE)); [lia|unfold frame_at; lia|exact Hw].
  - intros Hok. unfold pcb_init. auto with cint.
Qed.

(** The end of creation, once the three pages are there. *)
Definition finish_process (proc kstack_top entry_point : Z) (m : mem) : mem :=
  let '(sp, m) := trampoline enter_user_mode_at kstack_top entry_point m in
  st32 (st32 (st32 (st32 m (proc + P_esp) sp) (proc + P_mem_pages_limit) 256) (proc + P_quantum_ms) 50)
    (proc + P_ticks_remaining) 5.

Definition set_pd (proc cr3 : Z) (m : mem) : mem :=
  st32 (st32 m (proc + P_cr3) cr3) (proc + P_pd_virt) (phys_to_virt cr3).

(** Creation as its three allocations. *)
Lemma create_unfold e b sz s :
  sched_create_user_process enter_user_mode_at e b sz s =
  let '(proc_phys, s1) := alloc_page s in
  if proc_phys =? 0 then (0, s1)
  else
    let proc := phys_to_virt proc_phys in
    let s1 := (on_mem (pcb_init proc (pid_counter s1)) s1){{ pid_counter ::= fun n => n +u 1 }} in
    let '(pd, v) := vmm_create_user_pd (k_vmm s1) in
    let s2 := on_mem (fun m => st32 m (proc + P_cr3) pd) (on_vmm (fun _ => v) s1) in
    if ld32 (k_mem s2) (proc + P_cr3) =? 0 then (0, on_pmm (pmm_free_page proc_phys) s2)
    else
      let s2 := on_mem (fun m => st32 m (proc + P_pd_virt) (phys_to_virt (ld32 m (proc + P_cr3)))) s2 in
      let '(kstack_phys, s3) := alloc_page s2 in
      if kstack_phys =? 0 then
        (0, on_pmm (pmm_free_page proc_phys) (on_vmm (vmm_destroy_user_pd (ld32 (k_mem s3) (proc + P_cr3))) s3))
      else
        let s3 := on_mem (fun m => st32 m (proc + P_kstack_top) (phys_to_virt kstack_phys +u 4096)) s3 in
        let cur := current_pd_phys (k_vmm s3) in
        let s3 := on_vmm (fun v => vmm_switch_pd cur (vmm_switch_pd (ld32 (k_mem s3) (proc + P_cr3)) v)) s3 in
        (proc, on_mem (fun _ => finish_process proc (ld32 (k_mem s3) (proc + P_kstack_top)) e (k_mem s3)) s3).
Proof.
  unfold sched_create_user_process. destruct (alloc_page s) as [a s1]. destruct (a =? 0); [done|]. cbv zeta.
  match goal with |- (let '(_, _) := vmm_create_user_pd ?x in _) = (let '(_, _) := vmm_create_user_pd ?y in _) =>
    change y with x; destruct (vmm_create_user_pd x) as [pd v] end.
  match goal with |- (if ?x then _ else _) = (if ?y then _ else _) => change y with x; destruct x end; [reflexivity|].
  match goal with |- (let '(_, _) := alloc_page ?x in _) = (let '(_, _) := alloc_page ?y in _) =>
    change y with x; destruct (alloc_page x) as [kp s3] end.
  destruct (kp =? 0); [reflexivity|]. unfold finish_process.
  match goal with |- (let '(_, _) := ?x in _) = (_, on_mem (fun _ => let '(_, _) := ?y in _) _) =>
    change y with x; destruct x as [sp m] end.
  reflexivity.
Qed.
End Creating.

Section CreateFacts.
Context {W : Type} `{Trace W}.
Implicit Types (s : machine W).
Variable enter_user_mode_at : Z.

Lemma taken_app s s1 s2 l1 l2 : pages_taken s s1 l1 -> pages_taken s1 s2 l2 -> pages_taken s s2 (l1 ++ l2).
Proof.
  intros (H1 & H2 & H3 & H4) (G1 & G2 & G3 & G4). split; [done|]. split; [congruence|].
  split; [unfold zlen in *; rewrite length_app; lia|]. intros q. rewrite G4, H4, <- andb_assoc. f_equal.
  rewrite <- negb_orb, <- bool_decide_or. f_equal. apply bool_decide_ext. by rewrite elem_of_app.
Qed.

Lemma taken_mem s s1 s2 l : k_pmm s2 = k_pmm s1 -> pages_taken s s1 l -> pages_taken s s2 l.
Proof. unfold pages_taken. by intros ->. Qed.

Lemma give_back s s1 s2 f l :
  pages_taken s s1 (f :: l) -> page_free (k_pmm s) f = true -> 256 <= f <= highest_page (k_pmm s) -> (f ∉ l) ->
  k_pmm s2 = pmm_free_page (4096 * f) (k_pmm s1) -> pages_taken s s2 l.
Proof.
  intros (H1 & H2 & H3 & H4) Hf Hr Hl E. unfold pages_taken. rewrite E.
  destruct (free_used (k_pmm s1) f H1) as (G1 & G2 & G3 & G4); [by rewrite H2| |].
  { rewrite H4, bool_decide_eq_true_2, andb_false_r by left. done. }
  split; [done|]. split; [congruence|]. split; [unfold zlen in *; cbn [length] in H3; lia|].
  intros q. rewrite G4, H4. destruct (Z.eqb_spec f q) as [->|Hne].
  - rewrite Hf, (bool_decide_eq_false_2 (q ∈ l)) by done. by rewrite orb_true_r.
  - rewrite orb_false_r. do 2 f_equal. apply bool_decide_ext. rewrite elem_of_cons. split; [by intros [->|?]|by right].
Qed.

(** The outcome of an allocation. *)
Definition page_outcome s (a : Z) s' : Prop :=
  a = 0 /\ pages_taken s s' [] /\ free_pages (k_pmm s) = 0 \/
  exists f, a = 4096 * f /\ a <> 0 /\ 256 <= f <= highest_page (k_pmm s) /\ page_free (k_pmm s) f = true /\
    pages_taken s s' [f].

Lemma alloc_outcome s a p s' :
  pmm_wf (k_pmm s) -> pmm_alloc_page NUMA_NODE_LOCAL (k_pmm s) = (a, p) -> k_pmm s' = p -> page_outcome s a s'.
Proof.
  intros Hw E Ep. pose proof (alloc_page_spec s Hw) as Hs. unfold alloc_page in Hs. rewrite E in Hs.
  change (k_pmm (on_pmm (fun _ => p) s)) with p in Hs. rewrite <- Ep in Hs.
  destruct Hs as (_ & Hp & Hh & [(-> & Hq & Hc & Hn)|(f & -> & Hnz & Hr & Hf & Hc & Hq)]).
  - left. split; [done|]. split; [|by apply none_free]. split; [done|]. split; [done|].
    split; [unfold zlen; cbn; lia|]. intros q. rewrite Hq, bool_decide_eq_false_2, andb_true_r; [done|apply not_elem_of_nil].
  - right. exists f. split; [done|]. split; [done|]. split; [done|]. split; [done|]. split; [done|]. split; [done|].
    split; [unfold zlen; cbn; lia|]. intros q. rewrite Hq. f_equal. f_equal.
    destruct (Z.eqb_spec f q) as [->|Hne]; symmetry; [apply bool_decide_eq_true_2; by apply list_elem_of_singleton|].
    apply bool_decide_eq_false_2. intros ->%list_elem_of_singleton. done.
Qed.

Lemma kernel_ok_step s s' d l :
  kernel_ok s d -> pages_taken s s' l -> agree (other_pages (k_pmm s) []) (k_mem s) (k_mem s') -> mem_ok (k_mem s') ->
  current_pd_phys (k_vmm s') = current_pd_phys (k_vmm s) -> kernel_ok s' d.
Proof.
  intros [Hp Hm Hd Ht Hl] (H1 & _ & _ & H4) Ha Hm' Hc. split; [done|done|congruence| |].
  - apply (tables_ok_pmm (k_pmm s)).
    + apply (tables_agree (k_pmm s) (k_mem s) _ d []); [done|done|apply not_elem_of_nil|intros; apply not_elem_of_nil].
    + intros f Hf. by rewrite H4, Hf.
  - unfold small in *. destruct (to_dir _ _ _ Ht) as [_ Hf].
    assert (He : entry (k_mem s') (frame_at d) 0 = entry (k_mem s) (frame_at d) 0)
      by (apply (used_ld (k_pmm s) _ _ d 0 4 Ha Hf); lia).
    by rewrite He.
Qed.

Lemma make_dir_spec s d :
  kernel_ok s d ->
  let '(pd, v) := vmm_create_user_pd (k_vmm s) in
  let s2 := on_vmm (fun _ => v) s in
  page_outcome s pd s2 /\ mem_ok (k_mem s2) /\ agree (other_pages (k_pmm s) []) (k_mem s) (k_mem s2) /\
  cr3 (k_vmm s2) = cr3 (k_vmm s) /\ current_pd_phys (k_vmm s2) = current_pd_phys (k_vmm s) /\
  forall fd, pd = 4096 * fd -> pd <> 0 ->
    tables_ok (k_pmm s2) (k_mem s2) fd /\
    forall i, 0 <= i < 1024 -> entry (k_mem s2) (frame_at fd) i =
      if decide (i = 0 \/ KERNEL_VBASE_PDE <= i) then entry (k_mem s) (frame_at d) i else 0.
Proof.
  intros [Hp Hm Hd Ht Hl]. pose proof (create_user_pd_eq (k_vmm s) d Hp Hm Hd Ht) as Hc.
  pose proof (create_pd_pmm (k_vmm s)) as Ep.
  destruct (vmm_create_user_pd (k_vmm s)) as [pd v]. destruct Hc as (H1 & H2 & H3 & H4 & _ & _ & H7 & H8). cbv zeta.
  change (k_mem (on_vmm (fun _ => v) s)) with (v_mem v). change (k_vmm (on_vmm (fun _ => v) s)) with v.
  change (k_pmm (on_vmm (fun _ => v) s)) with (v_pmm v).
  split; [by apply (alloc_outcome s pd (v_pmm v))|]. do 4 (split; [done|]). intros fd -> Hnz.
  destruct H8 as [[? _]|(f & E & _ & Ht' & _ & He)]; [done|]. assert (f = fd) as -> by lia. done.
Qed.
End CreateFacts.

Section CreateSpec.
Context {W : Type} `{Trace W}.
Implicit Types (s : machine W).
Variable enter_user_mode_at : Z.

Lemma alloc_page_eq s : 
  pmm_wf (k_pmm s) -> page_outcome s (fst (alloc_page s)) (snd (alloc_page s)) /\
  snd (alloc_page s) = on_pmm (fun _ => k_pmm (snd (alloc_page s))) s.
Proof.
  intros Hw. unfold alloc_page. destruct (pmm_alloc_page NUMA_NODE_LOCAL (k_pmm s)) as [a p] eqn:E.
  split; [by apply (alloc_outcome s a p)|done].
Qed.

Lemma not_taken s s' l q : pages_taken s s' l -> page_free (k_pmm s') q = true -> page_free (k_pmm s) q = true /\ (q ∉ l).
Proof.
  intros (_ & _ & _ & Hq) Hf. rewrite Hq in Hf. apply andb_true_iff in Hf as [Hf Hl]. split; [done|].
  by apply negb_true_iff, bool_decide_eq_false in Hl.
Qed.

Lemma still_used s s' l q : pages_taken s s' l -> page_free (k_pmm s) q = false -> page_free (k_pmm s') q = false.
Proof. intros (_ & _ & _ & Hq) Hf. by rewrite Hq, Hf. Qed.

Lemma now_used s s' l q : pages_taken s s' l -> q ∈ l -> page_free (k_pmm s') q = false.
Proof. intros (_ & _ & _ & Hq) Hl. by rewrite Hq, (bool_decide_eq_true_2 (q ∈ l)), andb_false_r. Qed.

(** The last phase, in pages [fp], [fd] and [fs] of a machine whose memory has the
    PCB's page as [pcb_init] left it. *)
Lemma finish_spec m0 m2 fp fd fs pid e :
  NoDup [fp; fd; fs] -> (forall f, f ∈ [fp; fd; fs] -> 0 <= f < PMM_MAX_PAGES) ->
  is_u32 e -> is_u32 pid -> is_u32 enter_user_mode_at -> mem_ok m2 ->
  (forall o, 0 <= o <= 60 -> ld32 m2 (frame_at fp + o) = ld32 (pcb_init (frame_at fp) pid m0) (frame_at fp + o)) ->
  let m3 := st32 (set_pd (frame_at fp) (4096 * fd) m2) (frame_at fp + P_kstack_top) (frame_at fs + 4096) in
  let m5 := finish_process enter_user_mode_at (frame_at fp) (frame_at fs + 4096) e m3 in
  mem_ok m5 /\ (forall a, ~ (frame_at fp <= a < frame_at (fp + 1)) -> ~ (frame_at fs <= a < frame_at (fs + 1)) -> ldb m5 a = ldb m2 a) /\
  new_pcb m5 (frame_at fp) pid (frame_at fs + 4096 - 32) (4096 * fd) (frame_at fs + 4096) /\
  first_frame m5 (frame_at fs + 4096) e enter_user_mode_at.
Proof.
  intros Hnd Hr He Hpid Hen Hm Hpcb m3 m5.
  assert (Hps : fp <> fs) by (intros ->; apply NoDup_cons in Hnd as [Hnd _]; apply Hnd; right; by left).
  assert (Hfp := Hr fp ltac:(by left)). assert (Hfd := Hr fd ltac:(right; by left)).
  assert (Hfs := Hr fs ltac:(right; right; by left)). unfold PMM_MAX_PAGES in *.
  assert (Hm3 : mem_ok m3) by (unfold m3, set_pd; auto with cint).
  assert (Ho3 : only_frame fp m2 m3).
  { unfold m3, set_pd. repeat (apply within_st_r; [lia|unfold frame_at; change (Z.of_nat 4) with 4; lia|]). reflexivity. }
  pose proof (trampoline_spec enter_user_mode_at fs e m3 Hfs He Hen Hm3) as Ht. cbv zeta in Ht.
  unfold m5, finish_process.
  destruct (trampoline enter_user_mode_at (frame_at fs + 4096) e m3) as [sp m4].
  destruct Ht as (-> & Ho4 & Hm4 & Hfr). set (T := frame_at fs + 4096) in *.
  set (m6 := st32 (st32 (st32 (st32 m4 _ _) _ _) _ _) _ _).
  assert (Ho6 : only_frame fp m4 m6).
  { unfold m6. repeat (apply within_st_r; [lia|unfold frame_at; change (Z.of_nat 4) with 4; lia|]). reflexivity. }
  split; [unfold m6; auto with cint|]. split; [|split].
  - intros a H1 H2. rewrite (Ho6 a H1), (Ho4 a H2). by apply Ho3.
  - apply (pcb_words fp m0 m2 m4); try (unfold is_u32, T, frame_at; lia); try done.
    intros o Ho. apply (within_ld _ _ _ _ _ _ Ho4). change (Z.of_nat 4) with 4. unfold frame_at. lia.
  - destruct Hfr as ((F1 & F2 & F3 & F4 & F5) & F6 & F7 & F8).
    assert (Hk : forall k, 4 <= k <= 32 -> ld32 m6 (T - k) = ld32 m4 (T - k)).
    { intros k Hk. apply (within_ld _ _ _ _ _ _ Ho6). change (Z.of_nat 4) with 4. unfold T, frame_at. lia. }
    unfold first_frame, frame_is. replace (T - 32 + 4) with (T - 28) in * by lia. replace (T - 32 + 8) with (T - 24) in * by lia.
    replace (T - 32 + 12) with (T - 20) in * by lia. replace (T - 32 + 16) with (T - 16) in * by lia.
    rewrite !Hk by lia. done.
Qed.
End CreateSpec.

Section CreateMain.
Context {W : Type} `{Trace W}.
Implicit Types (s : machine W).
Variable enter_user_mode_at : Z.
Hypothesis enter_ok : is_u32 enter_user_mode_at.

(** The first phase: a page, and the PCB in it. *)
Lemma pcb_phase s d a s0 :
  kernel_ok s d -> alloc_page s = (a, s0) -> a <> 0 ->
  let s1 := (on_mem (pcb_init (phys_to_virt a) (pid_counter s0)) s0){{ pid_counter ::= fun n => n +u 1 }} in
  exists fp, a = 4096 * fp /\ phys_to_virt a = frame_at fp /\ 256 <= fp <= highest_page (k_pmm s) /\
    page_free (k_pmm s) fp = true /\ pages_taken s s1 [fp] /\ kernel_ok s1 d /\
    k_mem s1 = pcb_init (frame_at fp) (pid_counter s) (k_mem s) /\
    agree (other_pages (k_pmm s) []) (k_mem s) (k_mem s1) /\
    same_machine s s1 /\ cr3 (k_vmm s1) = cr3 (k_vmm s) /\ pid_counter s1 = pid_counter s +u 1.
Proof.
  intros Hk Ea Hnz s1. destruct (alloc_page_eq s (ko_pmm _ _ Hk)) as [Ho Es]. rewrite Ea in Ho, Es. cbn [fst snd] in Ho, Es.
  destruct Ho as [(-> & _)|(fp & -> & _ & Hr & Hf & Ht)]; [done|]. exists fp.
  pose proof (pw_highest _ (ko_pmm _ _ Hk)) as Hh. unfold PMM_MAX_PAGES in Hh.
  assert (Hv : phys_to_virt (4096 * fp) = frame_at fp) by (apply phys_frame; unfold PMM_MAX_PAGES; lia).
  assert (Hm1 : k_mem s1 = pcb_init (frame_at fp) (pid_counter s) (k_mem s)) by (unfold s1; rewrite Hv, Es; done).
  destruct (pcb_init_frame fp (pid_counter s) (k_mem s)) as [Hof Hok].
  assert (Ht1 : pages_taken s s1 [fp]) by exact Ht.
  assert (Ha : agree (other_pages (k_pmm s) []) (k_mem s) (k_mem s1)) by (rewrite Hm1; by apply (fresh_agree (k_pmm s) fp)).
  assert (Hrest : same_machine s s1 /\ cr3 (k_vmm s1) = cr3 (k_vmm s) /\ pid_counter s1 = pid_counter s +u 1)
    by (unfold s1; rewrite Es; done).
  destruct Hrest as (R1 & R2 & R3). do 5 (split; [done|]). split; [|done].
  apply (kernel_ok_step s s1 d [fp]); try done; [|apply R1]. rewrite Hm1. apply Hok, Hk.
Qed.

(** The second phase: the directory. *)
Lemma dir_phase s1 d pd v proc fp :
  kernel_ok s1 d -> vmm_create_user_pd (k_vmm s1) = (pd, v) -> proc = frame_at fp -> 0 <= fp ->
  page_free (k_pmm s1) fp = false ->
  let s2 := on_mem (fun m => st32 m (proc + P_cr3) pd) (on_vmm (fun _ => v) s1) in
  page_outcome s1 pd s2 /\ ld32 (k_mem s2) (proc + P_cr3) = pd /\ mem_ok (k_mem s2) /\
  (forall a, ~ (frame_at fp <= a < frame_at (fp + 1)) -> ldb (k_mem s2) a = ldb (v_mem v) a) /\
  agree (other_pages (k_pmm s1) []) (k_mem s1) (v_mem v) /\ mem_ok (v_mem v) /\
  same_machine s1 s2 /\ cr3 (k_vmm s2) = cr3 (k_vmm s1) /\ pid_counter s2 = pid_counter s1 /\
  k_mem s2 = st32 (v_mem v) (proc + P_cr3) pd /\
  forall fd, pd = 4096 * fd -> pd <> 0 ->
    tables_ok (k_pmm s2) (v_mem v) fd /\
    forall i, 0 <= i < 1024 -> entry (v_mem v) (frame_at fd) i =
      if decide (i = 0 \/ KERNEL_VBASE_PDE <= i) then entry (k_mem s1) (frame_at d) i else 0.
Proof.
  intros Hk Ev -> Hfp Hu s2. pose proof (make_dir_spec s1 d Hk) as Hs. rewrite Ev in Hs. cbv zeta in Hs.
  destruct Hs as (H1 & H2 & H3 & H4 & H5 & H6).
  change (k_mem (on_vmm (fun _ => v) s1)) with (v_mem v) in *. change (k_vmm (on_vmm (fun _ => v) s1)) with v in *.
  assert (Hpd : is_u32 pd).
  { destruct H1 as [(-> & _)|(f & -> & _ & Hr & _)]; [done|]. pose proof (pw_highest _ (ko_pmm _ _ Hk)). unfold is_u32, PMM_MAX_PAGES in *. lia. }
  change (k_mem s2) with (st32 (v_mem v) (frame_at fp + P_cr3) pd).
  split; [exact H1|]. split; [apply (ld_st_eq 4); exact Hpd|]. split; [by apply mem_ok_st|]. split.
  { intros a Ha. apply ldb_st_ne. change (Z.of_nat 4) with 4. unfold frame_at in *. lia. }
  split; [exact H3|]. split; [exact H2|]. split; [by repeat split|]. split; [exact H4|]. split; [done|]. split; [done|]. exact H6.
Qed.
End CreateMain.

Section Create.
Context {W : Type} `{Trace W}.
Implicit Types (s : machine W).
Variable enter_user_mode_at : Z.
Hypothesis enter_ok : is_u32 enter_user_mode_at.

Lemma taken_perm s s' l l' : l ≡ₚ l' -> pages_taken s s' l -> pages_taken s s' l'.
Proof.
  intros Hp (H1 & H2 & H3 & H4). split; [done|]. split; [done|]. split; [unfold zlen in *; by rewrite <- Hp|].
  intros q. rewrite H4. do 2 f_equal. apply bool_decide_ext. by rewrite Hp.
Qed.

Lemma same_trans s1 s2 s3 : same_machine s1 s2 -> same_machine s2 s3 -> same_machine s1 s3.
Proof. unfold same_machine. intros (? & ? & ? & ? & ?) (? & ? & ? & ? & ?). repeat split; congruence. Qed.

(** The state before the kernel stack is allocated. *)
Record half_made (s s2 : machine W) (m0 : mem) (d fp fd : Z) : Prop := {
  hm_pages : page_free (k_pmm s) fp = true /\ page_free (k_pmm s) fd = true /\ fp <> fd /\
    256 <= fp <= highest_page (k_pmm s) /\ 256 <= fd <= highest_page (k_pmm s);
  hm_taken : pages_taken s s2 [fp; fd];
  hm_mem : k_mem s2 = set_pd (frame_at fp) (4096 * fd) m0 /\ mem_ok m0 /\
    agree (other_pages (k_pmm s) []) (k_mem s) m0;
  hm_pcb : forall o, 0 <= o <= 60 ->
    ld32 m0 (frame_at fp + o) = ld32 (pcb_init (frame_at fp) (pid_counter s) (k_mem s)) (frame_at fp + o);
  hm_dir : tables_ok (k_pmm s2) m0 fd /\ forall i, 0 <= i < 1024 -> entry m0 (frame_at fd) i =
      if decide (i = 0 \/ KERNEL_VBASE_PDE <= i) then entry (k_mem s) (frame_at d) i else 0;
  hm_rest : same_machine s s2 /\ cr3 (k_vmm s2) = cr3 (k_vmm s) /\ pid_counter s2 = pid_counter s +u 1
}.

Lemma half_made_intro s d a s0 pd v :
  kernel_ok s d -> alloc_page s = (a, s0) -> a <> 0 ->
  let proc := phys_to_virt a in
  let s1 := (on_mem (pcb_init proc (pid_counter s0)) s0){{ pid_counter ::= fun n => n +u 1 }} in
  vmm_create_user_pd (k_vmm s1) = (pd, v) ->
  let s2 := on_mem (fun m => st32 m (proc + P_cr3) pd) (on_vmm (fun _ => v) s1) in
  ld32 (k_mem s2) (proc + P_cr3) = pd /\
  (pd = 0 -> undone s (on_pmm (pmm_free_page a) s2)) /\
  (pd <> 0 -> exists fp fd, a = 4096 * fp /\ proc = frame_at fp /\ pd = 4096 * fd /\
     half_made s (on_mem (fun m => st32 m (proc + P_pd_virt) (phys_to_virt (ld32 m (proc + P_cr3)))) s2) (v_mem v) d fp fd).
Proof.
  intros Hk Ea Hnz proc s1 Ev s2.
  destruct (pcb_phase s d a s0 Hk Ea Hnz) as (fp & -> & Ep & Hr & Hf & Ht & Hk1 & Em1 & Ha1 & Hs1 & Hc1 & Hpid).
  fold proc in Ep, Ht, Hk1, Em1, Ha1, Hs1, Hc1, Hpid. fold s1 in Ht, Hk1, Em1, Ha1, Hs1, Hc1, Hpid.
  assert (Hu : page_free (k_pmm s1) fp = false) by (apply (now_used s s1 [fp]); [done|by left]).
  destruct (dir_phase s1 d pd v proc fp Hk1 Ev Ep ltac:(lia) Hu)
    as (Ho & Epd & Hm2 & Hag2 & Hagv & Hmv & Hs2 & Hc2 & Hp2 & Em2 & Hdir). fold s2 in Ho, Epd, Hm2, Hag2, Hs2, Hc2, Hp2, Em2, Hdir.
  clearbody s2 s1.
  assert (Hag : agree (other_pages (k_pmm s) []) (k_mem s) (v_mem v)).
  { transitivity (k_mem s1); [done|]. apply (other_mono (k_pmm s) (k_pmm s1)); [|done]. intros q. by apply (still_used s s1 [fp]). }
  split; [done|]. split.
  - intros ->. destruct Ho as [(_ & Ht2 & H0)|(f & ? & Hf0 & _)]; [|lia]. pose proof (taken_app _ _ _ _ _ Ht Ht2) as Ht12.
    split.
    + apply (give_back s s2 _ fp []); [exact Ht12|done|done|apply not_elem_of_nil|done].
    + split; [done|]. transitivity (v_mem v); [done|]. apply (fresh_agree (k_pmm s) fp); [done|]. exact Hag2.
    + split; [exact (same_trans _ _ _ Hs1 Hs2)|exact (eq_trans Hc2 Hc1)].
    + destruct Ht as (_ & _ & Hc & _). unfold zlen in Hc. cbn in Hc. lia.
  - intros Hpd. destruct Ho as [(? & _)|(fd & -> & _ & Hrd & Hfd & Ht2)]; [done|]. exists fp, fd.
    split; [done|]. split; [done|]. split; [done|]. destruct (not_taken s s1 [fp] fd Ht Hfd) as [Hfds Hne].
    destruct (Hdir fd eq_refl Hpd) as [Htab He].
    assert (Hfne : fp <> fd) by (intros ->; apply Hne; by left).
    assert (Hh : highest_page (k_pmm s1) = highest_page (k_pmm s)) by apply Ht.
    split.
    + split; [done|]. split; [done|]. split; [done|]. split; [done|]. by rewrite <- Hh.
    + exact (taken_app _ _ _ _ _ Ht Ht2).
    + split; [|done]. unfold set_pd. change (k_mem (on_mem ?f s2)) with (f (k_mem s2)). cbv beta. rewrite Epd, Em2, Ep. done.
    + intros o Hoo. rewrite <- Em1. apply (used_ld (k_pmm s1)); [done|done|lia|change (Z.of_nat 4) with 4; lia].
    + split; [exact Htab|]. intros i Hi. rewrite He by done. case_decide; [|done].
      destruct (to_dir _ _ _ (ko_tab _ _ Hk)) as [_ Hfd0].
      apply (used_ld (k_pmm s) _ _ d (4 * i) 4 Ha1 Hfd0); [lia|]. change (Z.of_nat 4) with 4. lia.
    + split; [exact (same_trans _ _ _ Hs1 Hs2)|]. split; [rewrite <- Hc1; exact Hc2|]. rewrite <- Hpid. exact Hp2.
Qed.
End Create.

Section CreateEnd.
Context {W : Type} `{Trace W}.
Implicit Types (s : machine W).
Variable enter_user_mode_at : Z.
Hypothesis enter_ok : is_u32 enter_user_mode_at.

Lemma half_made_user s s2 m0 d fp fd :
  kernel_ok s d -> half_made s s2 m0 d fp fd -> 0 <= fp ->
  ld32 (k_mem s2) (frame_at fp + P_cr3) = 4096 * fd /\
  forall i, 0 <= i < 768 -> small (k_mem s2) fd i = false.
Proof.
  intros Hk [(_ & _ & Hne & Hr1 & Hr2) _ (Em & _ & _) _ (_ & He) _] Hfp. pose proof (pw_highest _ (ko_pmm _ _ Hk)) as Hh.
  unfold PMM_MAX_PAGES in Hh. rewrite Em. unfold set_pd. split.
  - rewrite ld_st_ne by (change (Z.of_nat 4) with 4; lia). apply (ld_st_eq 4). change (0x100 ^ Z.of_nat 4) with 0x100000000. lia.
  - intros i Hi. unfold small. rewrite !(only_frame_entry fp m0); try lia.
    + rewrite He by lia. case_decide as Ed; [|done]. destruct Ed as [->|Ed]; [exact (ko_low _ _ Hk)|].
      change KERNEL_VBASE_PDE with 768 in Ed. lia.
    + do 2 (apply within_st_r; [lia|unfold frame_at; change (Z.of_nat 4) with 4; lia|]). reflexivity.
Qed.

(** No page for the kernel stack: all goes back. *)
Lemma stack_fails s s2 m0 d fp fd s3 :
  kernel_ok s d -> half_made s s2 m0 d fp fd -> alloc_page s2 = (0, s3) ->
  undone s (on_pmm (pmm_free_page (4096 * fp))
             (on_vmm (vmm_destroy_user_pd (ld32 (k_mem s3) (frame_at fp + P_cr3))) s3)).
Proof.
  intros Hk Hh Ea. pose proof Hh as [(Hf1 & Hf2 & Hne & Hr1 & Hr2) Ht (Em & Hm0 & Hag) _ _ (Hs & Hc & _)].
  assert (Hw2 : pmm_wf (k_pmm s2)) by apply Ht.
  destruct (alloc_page_eq s2 Hw2) as [Ho Es]. rewrite Ea in Ho, Es. cbn [fst snd] in Ho, Es.
  destruct Ho as [(_ & Ht3 & H0)|(f & _ & ? & _)]; [|done].
  pose proof (pw_highest _ (ko_pmm _ _ Hk)) as Hhp.
  destruct (half_made_user s s2 m0 d fp fd Hk Hh ltac:(lia)) as [Ecr Hsm].
  assert (Emem : k_mem s3 = k_mem s2) by apply (on_pmm_same _ _ _ Es). rewrite Emem, Ecr.
  assert (Ed : vmm_destroy_user_pd (4096 * fd) (k_vmm s3) = (k_vmm s3){{ v_pmm ::= pmm_free_page (4096 * fd) }}).
  { apply destroy_empty; [lia|]. intros i Hi. change (v_mem (k_vmm s3)) with (k_mem s3). rewrite Emem. by apply Hsm. }
  assert (Ht3' : pages_taken s s3 [fd; fp]).
  { apply (taken_perm s s3 [fp; fd]); [apply Permutation_swap|]. exact (taken_app _ _ _ _ _ Ht Ht3). }
  assert (Es4 : on_vmm (vmm_destroy_user_pd (4096 * fd)) s3 = on_pmm (pmm_free_page (4096 * fd)) s3).
  { change (Machine (vmm_destroy_user_pd (4096 * fd) (k_vmm s3)) (k_gdt s3) (k_cpu s3) (process_list s3) (current_process s3)
      (pid_counter s3) = on_pmm (pmm_free_page (4096 * fd)) s3). rewrite Ed. reflexivity. }
  rewrite Es4.
  assert (Hfp : fp ∉ ([] : list Z)) by apply not_elem_of_nil.
  assert (Hfd : fd ∉ [fp]) by (intros E%list_elem_of_singleton; congruence).
  assert (Ht4 : pages_taken s (on_pmm (pmm_free_page (4096 * fd)) s3) [fp])
    by (apply (give_back s s3 _ fd [fp]); done).
  split.
  - by apply (give_back s (on_pmm (pmm_free_page (4096 * fd)) s3) _ fp []).
  - change (k_mem (on_pmm _ (on_pmm _ s3))) with (k_mem s3). rewrite Emem, Em.
    split; [unfold set_pd; auto with cint|]. transitivity m0; [done|].
    apply (fresh_agree (k_pmm s) fp); [done|]. unfold set_pd.
    do 2 (apply within_st_r; [lia|unfold frame_at; change (Z.of_nat 4) with 4; lia|]). reflexivity.
  - destruct (on_pmm_same _ _ _ Es) as (Hs3 & Hc3 & _). split; [exact (same_trans _ _ _ Hs Hs3)|exact (eq_trans Hc3 Hc)].
  - destruct Ht as (_ & _ & Hcount & _). unfold zlen in Hcount. cbn in Hcount. lia.
Qed.

(** All three pages: the process. *)
Lemma stack_made s s2 m0 d fp fd kp s3 e :
  kernel_ok s d -> half_made s s2 m0 d fp fd -> alloc_page s2 = (kp, s3) -> kp <> 0 -> is_u32 e -> is_u32 (pid_counter s) ->
  let proc := frame_at fp in
  let s4 := on_mem (fun m => st32 m (proc + P_kstack_top) (phys_to_virt kp +u 4096)) s3 in
  let cur := current_pd_phys (k_vmm s4) in
  let s5 := on_vmm (fun v => vmm_switch_pd cur (vmm_switch_pd (ld32 (k_mem s4) (proc + P_cr3)) v)) s4 in
  exists fs, created enter_user_mode_at s
    (on_mem (fun _ => finish_process enter_user_mode_at proc (ld32 (k_mem s5) (proc + P_kstack_top)) e (k_mem s5)) s5)
    proc e d fp fd fs.
Proof.
  intros Hk Hh Ea Hnz He Hpid proc s4 cur s5.
  pose proof Hh as [(Hf1 & Hf2 & Hne & Hr1 & Hr2) Ht (Em & Hm0 & Hag) Hpcb (Htab & Hent) (Hs & Hc & Hp)].
  assert (Hw2 : pmm_wf (k_pmm s2)) by apply Ht.
  destruct (alloc_page_eq s2 Hw2) as [Ho Es]. rewrite Ea in Ho, Es. cbn [fst snd] in Ho, Es.
  destruct Ho as [(-> & _)|(fs & -> & _ & Hr3 & Hf3 & Ht3)]; [done|]. exists fs.
  destruct (not_taken s s2 [fp; fd] fs Ht Hf3) as [Hf3s Hn3].
  pose proof (pw_highest _ (ko_pmm _ _ Hk)) as Hhp.
  assert (Hh2 : highest_page (k_pmm s2) = highest_page (k_pmm s)) by apply Ht. rewrite Hh2 in Hr3.
  unfold PMM_MAX_PAGES in Hhp.
  assert (Hnd : NoDup [fp; fd; fs]).
  { repeat (apply NoDup_cons; split); [| | |by apply NoDup_nil].
    - intros [E|[E|E%not_elem_of_nil]%elem_of_cons]%elem_of_cons; [done|subst; apply Hn3; by left|done].
    - intros [E|E%not_elem_of_nil]%elem_of_cons; [subst; apply Hn3; right; by left|done].
    - apply not_elem_of_nil. }
  assert (Hrange : forall f, f ∈ [fp; fd; fs] -> page_free (k_pmm s) f = true /\ 256 <= f <= highest_page (k_pmm s)).
  { intros f [->|[->|[->|E%not_elem_of_nil]%elem_of_cons]%elem_of_cons]%elem_of_cons; done. }
  assert (Etop : phys_to_virt (4096 * fs) +u 4096 = frame_at fs + 4096).
  { rewrite phys_frame by (unfold PMM_MAX_PAGES; lia). apply u32_small. unfold is_u32, frame_at. lia. }
  set (m3 := st32 (set_pd proc (4096 * fd) m0) (proc + P_kstack_top) (frame_at fs + 4096)).
  assert (Em5 : k_mem s5 = m3).
  { change (k_mem s5) with (st32 (k_mem s3) (proc + P_kstack_top) (phys_to_virt (4096 * fs) +u 4096)).
    rewrite Etop. assert (E3 : k_mem s3 = k_mem s2) by apply (on_pmm_same _ _ _ Es). by rewrite E3, Em. }
  assert (Ek : ld32 (k_mem s5) (proc + P_kstack_top) = frame_at fs + 4096).
  { rewrite Em5. unfold m3. apply (ld_st_eq 4). change (0x100 ^ Z.of_nat 4) with 0x100000000. unfold frame_at. lia. }
  rewrite Ek, Em5.
  destruct (finish_spec enter_user_mode_at (k_mem s) m0 fp fd fs (pid_counter s) e Hnd) as (G1 & G2 & G3 & G4); try done.
  { intros f Hf. destruct (Hrange f Hf) as [_ ?]. unfold PMM_MAX_PAGES. lia. }
  fold proc in G1, G2, G3, G4. fold m3 in G1, G2, G3, G4.
  set (m6 := finish_process enter_user_mode_at proc (frame_at fs + 4096) e m3) in *. clearbody m6.
  assert (Hag6 : agree (other_pages (k_pmm s2) [fp]) m0 m6).
  { intros a (g & Hg & Hgn & Ha). apply G2; intros Hb; unfold frame_at in *.
    - assert (g = fp) as -> by lia. apply Hgn. by left.
    - assert (g = fs) as -> by lia. congruence. }
  split.
  - by split.
  - exact (taken_app _ _ _ _ _ Ht Ht3).
  - split; [exact G1|]. transitivity m0; [exact Hag|]. intros a (g & Hg & Hgn & Ha). apply Hag6. exists g.
    split; [by apply (still_used s s2 [fp; fd])|]. split; [|done]. intros ->%list_elem_of_singleton. congruence.
  - by split.
  - exact G4.
  - split.
    + apply (tables_ok_pmm (k_pmm s2)); [|intros f Hf; by apply (still_used s2 s3 [fs])].
      apply (tables_agree _ m0 m6 fd [fp]).
      * exact Hag6.
      * exact Htab.
      * intros E%list_elem_of_singleton. congruence.
      * intros i Hi Hsm E%list_elem_of_singleton. unfold small, table_of in Hsm, E. rewrite Hent in Hsm, E by done.
        case_decide; [|done]. destruct (to_tab _ _ _ (ko_tab _ _ Hk) i Hi Hsm) as (_ & Hu & _). unfold table_of in Hu. rewrite E in Hu. congruence.
    + intros i Hi. rewrite <- Hent by done. apply (ld_agree _ _ _ _ _ Hag6). intros b Hb. change (Z.of_nat 4) with 4 in Hb.
      exists fd. split; [by apply (now_used s s2 [fp; fd]); [|right; left]|]. split; [intros E%list_elem_of_singleton; congruence|].
      unfold frame_at in *. lia.
  - destruct (on_pmm_same _ _ _ Es) as (Hs3 & _ & _ & Hp3). pose proof (same_trans _ _ _ Hs Hs3) as Hs03.
    split; [exact Hs03|]. split; [|exact (eq_trans Hp3 Hp)].
    destruct Hs03 as (_ & _ & _ & _ & Hcur). exact (eq_trans Hcur (ko_pd _ _ Hk)).
Qed.

Lemma create_spec s d e b sz :
  kernel_ok s d -> is_u32 e -> is_u32 (pid_counter s) ->
  let '(proc, s') := sched_create_user_process enter_user_mode_at e b sz s in
  proc = 0 /\ undone s s' \/ exists fp fd fs, created enter_user_mode_at s s' proc e d fp fd fs.
Proof.
  intros Hk He Hpid. rewrite create_unfold. destruct (alloc_page s) as [a s0] eqn:Ea.
  destruct (Z.eqb_spec a 0) as [->|Hnz].
  - left. split; [done|]. destruct (alloc_page_eq s (ko_pmm _ _ Hk)) as [Ho Es]. rewrite Ea in Ho, Es. cbn [fst snd] in Ho, Es.
    destruct Ho as [(_ & Ht & H0)|(f & _ & ? & _)]; [|done]. split.
    + done.
    + rewrite Es. split; [apply Hk|reflexivity].
    + rewrite Es. done.
    + lia.
  - cbv zeta. pose proof (fun pd v => half_made_intro s d a s0 pd v Hk Ea Hnz) as Hhm. cbv zeta in Hhm.
    set (s1 := (on_mem (pcb_init (phys_to_virt a) (pid_counter s0)) s0){{ pid_counter ::= fun n => n +u 1 }}) in *.
    destruct (vmm_create_user_pd (k_vmm s1)) as [pd v]. destruct (Hhm pd v eq_refl) as (Epd & Hfail & Hgo).
    rewrite Epd. destruct (Z.eqb_spec pd 0) as [->|Hpd]; [left; by split; [|apply Hfail]|].
    destruct (Hgo Hpd) as (fp & fd & Ea' & Ep & Epd' & Hh).
    match goal with |- context [alloc_page ?x] => set (s2 := x) in * end.
    destruct (alloc_page s2) as [kp s3] eqn:Ek. rewrite Ep. destruct (Z.eqb_spec kp 0) as [->|Hkp].
    + left. split; [done|]. rewrite Ea'. by apply (stack_fails s s2 (v_mem v) d fp fd).
    + right. destruct (stack_made s s2 (v_mem v) d fp fd kp s3 e Hk Hh Ek Hkp He Hpid) as (fs & Hc).
      exists fp, fd, fs. exact Hc.
Qed.
End CreateEnd.

(** ** Destruction *)

Section Destroy.
Context {W : Type} `{Trace W}.
Implicit Types (s : machine W).

Lemma on_pmm_comp (f g : pmm W -> pmm W) s : on_pmm f (on_pmm g s) = on_pmm (fun p => f (g p)) s.
Proof. reflexivity. Qed.

Lemma on_pmm_ext (f g : pmm W -> pmm W) s : f (k_pmm s) = g (k_pmm s) -> on_pmm f s = on_pmm g s.
Proof.
  intros E. destruct s as [[p m c cu ops] gd cp pl cur pid]. unfold on_pmm, on_vmm.
  cbn [apply_update k_vmm v_pmm k_pmm v_mem cr3 current_pd_phys cpu_ops] in *. change (f p = g p) in E. by rewrite E.
Qed.

Lemma on_destroy s pd :
  on_vmm (vmm_destroy_user_pd pd) s = on_pmm (fun p => free_all p (user_pages (k_mem s) pd ++ [pd])) s.
Proof.
  change (on_vmm (vmm_destroy_user_pd pd) s) with (Machine (vmm_destroy_user_pd pd (k_vmm s))
    (k_gdt s) (k_cpu s) (process_list s) (current_process s) (pid_counter s)). rewrite destroy_eq. reflexivity.
Qed.

(** The pages a process gives back, in order: its kernel stack, what its
    directory's user half holds, the directory, its PCB. *)
Lemma sched_destroy_eq s fp fd fs :
  0 <= fp < PMM_MAX_PAGES -> 0 < fd < PMM_MAX_PAGES -> 0 <= fs < PMM_MAX_PAGES ->
  rd s (frame_at fp + P_kstack_top) = frame_at fs + 4096 -> rd s (frame_at fp + P_cr3) = 4096 * fd ->
  sched_destroy_process (frame_at fp) s =
  on_pmm (fun p => free_all p (4096 * fs :: user_pages (k_mem s) (4096 * fd) ++ [4096 * fd; 4096 * fp])) s.
Proof.
  intros Hp Hd Hs Ek Ec. unfold PMM_MAX_PAGES in *. unfold sched_destroy_process.
  rewrite (proj2 (Z.eqb_neq (frame_at fp) 0)) by (unfold frame_at; lia). cbv zeta.
  rewrite Ek, (proj2 (Z.eqb_neq (frame_at fs + 4096) 0)) by (unfold frame_at; lia). cbn [negb].
  rewrite (u32_small (frame_at fs + 4096 - 4096)) by (unfold is_u32, frame_at; lia).
  assert (Hv : forall f, 0 <= f < 65536 -> virt_to_phys (frame_at f) = 4096 * f).
  { intros f Hf. unfold virt_to_phys, KERNEL_VBASE, frame_at. rewrite u32_small; [lia|]. unfold is_u32. lia. }
  replace (frame_at fs + 4096 - 4096) with (frame_at fs) by lia. rewrite !Hv by lia.
  set (s1 := on_pmm (pmm_free_page (4096 * fs)) s). change (rd s1 (frame_at fp + P_cr3)) with (rd s (frame_at fp + P_cr3)).
  rewrite Ec, (proj2 (Z.eqb_neq (4096 * fd) 0)) by lia. cbn [negb].
  rewrite on_destroy. change (k_mem s1) with (k_mem s). unfold s1. rewrite !on_pmm_comp. apply on_pmm_ext. unfold free_all.
  cbn [foldl]. replace (user_pages (k_mem s) (4096 * fd) ++ [4096 * fd; 4096 * fp]) with
    ((user_pages (k_mem s) (4096 * fd) ++ [4096 * fd]) ++ [4096 * fp]) by (by rewrite <- app_assoc).
  by rewrite (foldl_app _ _ [4096 * fp]).
Qed.

(** The user half of a new directory is empty. *)
Lemma new_user_pages m m0 fd d :
  0 <= fd < PMM_MAX_PAGES -> small m0 d 0 = false ->
  (forall i, 0 <= i < 1024 -> entry m (frame_at fd) i =
     if decide (i = 0 \/ KERNEL_VBASE_PDE <= i) then entry m0 (frame_at d) i else 0) ->
  user_pages m (4096 * fd) = [].
Proof.
  intros Hf Hl He. apply empty_user_pages; [done|]. intros i Hi. unfold small in *. rewrite He by lia.
  case_decide as E; [|done]. destruct E as [->|E]; [done|]. change KERNEL_VBASE_PDE with 768 in E. lia.
Qed.
End Destroy.

(** ** First entry to user mode *)

Lemma enter_user_mode_eq {W} (s : machine W) (eflags : Z) :
  20 <= esp s < 0xFFFFFFF0 -> mem_ok (k_mem s) -> is_u32 eflags ->
  fst (enter_user_mode eflags s) =
    UserContext (rd s (esp s + 4)) GDT_USER_CODE_SEG (Z.lor eflags 0x200) (rd s (esp s + 8)) GDT_USER_DATA_SEG.
Proof.
  intros He Hm Hf. unfold enter_user_mode. cbv zeta.
  rewrite !(u32_small (esp s + _)) by (unfold is_u32; lia).
  pose proof (ld_range 4 (k_mem s) (esp s + 4) Hm) as H4. pose proof (ld_range 4 (k_mem s) (esp s + 8) Hm) as H8.
  change (0x100 ^ Z.of_nat 4) with 0x100000000 in H4, H8.
  assert (Hor : 0 <= Z.lor eflags 0x200 < 0x100000000).
  { unfold is_u32 in Hf. split; [apply Z.lor_nonneg; lia|]. change 0x100000000 with (2 ^ 32).
    destruct (Z.eq_dec (Z.lor eflags 0x200) 0) as [->|Hne]; [lia|].
    apply Z.log2_lt_pow2; [assert (0 <= Z.lor eflags 0x200) by (apply Z.lor_nonneg; lia); lia|].
    rewrite Z.log2_lor by lia. apply Z.max_lub_lt; [|cbn; lia].
    destruct (Z.eq_dec eflags 0) as [->|]; [cbn; lia|]. apply Z.log2_lt_pow2; lia. }
  fold (rd s (esp s + 4)) in H4. fold (rd s (esp s + 8)) in H8.
  forget (rd s (esp s + 4)) as x. forget (rd s (esp s + 8)) as y. forget (Z.lor eflags 0x200) as fl.
  rewrite <- (upd_self s) at 1. set (p := esp s) in *. rewrite !push_upd by lia.
  repeat (rewrite pop_upd by lia; cbv beta iota). cbn [fst].
  replace (p - 4 - 4) with (p - 8) by lia. replace (p - 8 - 4) with (p - 12) by lia.
  replace (p - 12 - 4) with (p - 16) by lia. replace (p - 16 - 4) with (p - 20) by lia.
  replace (p - 20 + 4) with (p - 16) by lia. replace (p - 16 + 4) with (p - 12) by lia.
  replace (p - 12 + 4) with (p - 8) by lia. replace (p - 8 + 4) with (p - 4) by lia.
  f_equal; mem_simpl; reflexivity.
Qed.

(** ** Properties *)

(** C26: processes hold three pages from creation to destruction.  With the
    kernel's tables in order, [sched_create_user_process] returns NULL exactly
    when fewer than three pages are free, and then every page is free that was
    free before and no page in use changed.  Otherwise it takes three pages that
    were free, all different, and writes in no page that was in use: the PCB with
    its PID, state and quantum, a directory that maps the kernel like the current
    one and nothing for the user, and a kernel stack with the eight words of the
    first switch at its top; of the rest of the PCB's page and of the stack nothing
    is said, since the code does not clear them.  The directory in force is the
    current one again.  [sched_destroy_process] gives back the stack, what the user
    half of the directory holds, the directory and the PCB; right after creation
    that restores the allocator. *)
Theorem process_lifecycle {W} `{Trace W} (enter_user_mode_at : Z) (s : machine W) (d entry_point blob size : Z) :
  kernel_ok s d -> is_u32 enter_user_mode_at -> is_u32 entry_point -> is_u32 (pid_counter s) ->
  let '(proc, s') := sched_create_user_process enter_user_mode_at entry_point blob size s in
  proc = 0 /\ undone s s' \/
  exists fp fd fs, created enter_user_mode_at s s' proc entry_point d fp fd fs /\ 3 <= free_pages (k_pmm s) /\
    (forall t, rd t (proc + P_kstack_top) = frame_at fs + 4096 -> rd t (proc + P_cr3) = 4096 * fd ->
       sched_destroy_process proc t =
       on_pmm (fun p => free_all p (4096 * fs :: user_pages (k_mem t) (4096 * fd) ++ [4096 * fd; 4096 * fp])) t) /\
    pages_taken s (sched_destroy_process proc s') [].
Proof.
  intros Hk Hen He Hp. pose proof (create_spec enter_user_mode_at Hen s d entry_point blob size Hk He Hp) as Hc.
  destruct (sched_create_user_process enter_user_mode_at entry_point blob size s) as [proc s'].
  destruct Hc as [?|(fp & fd & fs & Hc)]; [by left|right]. exists fp, fd, fs.
  pose proof Hc as [(Hnd & Hpg) Ht _ (-> & Hpcb) _ (_ & Hent) _]. pose proof (pw_highest _ (ko_pmm _ _ Hk)) as Hh.
  destruct (Hpg fp) as [_ Hr1]; [by left|]. destruct (Hpg fd) as [_ Hr2]; [right; by left|].
  destruct (Hpg fs) as [_ Hr3]; [right; right; by left|].
  assert (Hdes : forall t, rd t (frame_at fp + P_kstack_top) = frame_at fs + 4096 -> rd t (frame_at fp + P_cr3) = 4096 * fd ->
       sched_destroy_process (frame_at fp) t =
       on_pmm (fun p => free_all p (4096 * fs :: user_pages (k_mem t) (4096 * fd) ++ [4096 * fd; 4096 * fp])) t)
    by (intros t Ek Ec; apply sched_destroy_eq; (done || lia)).
  pose proof Ht as (Hw & Hhi & Hcount & Hfree). split; [done|]. split.
  { pose proof (free_count _ Hw). unfold zlen in Hcount. cbn in Hcount. lia. }
  split; [done|]. destruct Hpcb as (_ & _ & Ecr & Eks & _). rewrite (Hdes s' Eks Ecr).
  rewrite (new_user_pages (k_mem s') (k_mem s) fd d) by (lia || apply Hk || done). cbn [app].
  assert (Hperm : [fs; fd; fp] ≡ₚ [fp; fd; fs]) by (apply (Permutation_rev [fs; fd; fp])).
  destruct (free_list (k_pmm s') [fs; fd; fp]) as (G1 & G2 & G3 & G4); [done|by rewrite Hperm| |].
  { intros f Hf. rewrite Hperm in Hf. destruct (Hpg f Hf). rewrite Hhi. split; [done|]. by apply (now_used s s' [fp; fd; fs]). }
  unfold pages_taken. change (k_pmm (on_pmm ?f s')) with (f (k_pmm s')). cbv beta. cbn [fmap list_fmap] in G1, G2, G3, G4.
  split; [exact G1|]. split; [congruence|]. split; [rewrite G3; unfold zlen in *; cbn in *; lia|].
  intros q. rewrite G4, Hfree, (bool_decide_eq_false_2 (q ∈ [])), andb_true_r by apply not_elem_of_nil.
  destruct (decide (q ∈ [fp; fd; fs])) as [Hq|Hq].
  - destruct (Hpg q Hq) as [-> _]. rewrite (bool_decide_eq_true_2 (q ∈ [fs; fd; fp])); [by rewrite orb_true_r|]. by rewrite Hperm.
  - rewrite (bool_decide_eq_false_2 (q ∈ [fp; fd; fs])), (bool_decide_eq_false_2 (q ∈ [fs; fd; fp])) by (done || by rewrite Hperm).
    by rewrite orb_false_r, andb_true_r.
Qed.

(** The first switch to a process enters user mode at its entry point.  When
    a thread switches to a process whose PCB and first stack are as creation left
    them, [switch_to] goes to [enter_user_mode] in the process's directory with
    its kernel stack in the TSS, and the [iret] there loads the entry point, the
    user stack 0xBFFFF000, the user code and data selectors, and the flags with
    interrupts enabled. *)
Theorem process_starts {W} `{Trace W} (tss_at after_call enter_user_mode_at : Z)
    (s s' t : machine W) (proc entry_point d fp fd fs ret curr eflags : Z) :
  kernel_ok s d -> created enter_user_mode_at s s' proc entry_point d fp fd fs ->
  agree (fun a => proc <= a < proc + 16 \/ frame_at fs + 4064 <= a < frame_at fs + 4096) (k_mem s') (k_mem t) ->
  mem_ok (k_mem t) -> switch_ok t ret curr proc -> apart (frame_at fs + 4064) 32 (esp t - 28) 28 ->
  apart (frame_at fs + 4064) 32 (curr + 4) 4 -> is_u32 eflags ->
  let t' := call_switch_to tss_at after_call ret curr proc t in
  r_eip (k_cpu t') = enter_user_mode_at /\ cr3 (k_vmm t') = 4096 * fd /\
  tss_esp0 tss_at (k_gdt t') = frame_at fs + 4096 /\
  fst (enter_user_mode eflags t') =
    UserContext entry_point GDT_USER_CODE_SEG (Z.lor eflags 0x200) 0xBFFFF000 GDT_USER_DATA_SEG.
Proof.
  intros Hk [(_ & Hpg) _ _ (-> & Hpcb) Hst _ _] Hag Hm Hok Ha1 Ha2 Hef t'. pose proof (pw_highest _ (ko_pmm _ _ Hk)) as Hh.
  destruct (Hpg fs) as [_ Hr]; [right; right; by left|]. unfold PMM_MAX_PAGES in Hh.
  destruct Hpcb as (_ & Es & Ec & Ek & _). destruct Hst as ((F1 & F2 & F3 & F4 & F5) & _ & E1 & E2).
  set (T := frame_at fs + 4096) in *. replace (frame_at fs + 4064) with (T - 32) in * by (unfold T; lia).
  assert (HT : 0xC0000000 <= T - 32 /\ T < 0xFFFFFFF0) by (unfold T, frame_at; lia).
  assert (Hl : forall a, frame_at fp <= a <= frame_at fp + 12 \/ T - 32 <= a <= T - 4 -> ld32 (k_mem t) a = ld32 (k_mem s') a).
  { intros a Ha. apply (ld_agree _ _ _ _ _ Hag). change (Z.of_nat 4) with 4. lia. }
  pose proof (switch_resumes tss_at after_call t ret curr (frame_at fp) (Cpu (T - 32) 0 0 0 0 enter_user_mode_at) Hm Hok) as Hr'.
  cbv zeta in Hr'. rewrite (Hl (frame_at fp + P_esp)), Es in Hr' by lia. unfold apart in *.
  destruct Hr' as (R1 & R2 & R3 & R4); [|lia|lia|].
  { unfold frame_is. rewrite !Hl by lia. done. }
  fold t' in R1, R2, R3, R4. split; [by rewrite R1|]. split; [rewrite R2, Hl by lia; exact Ec|].
  split; [rewrite R3, Hl by lia; exact Ek|].
  assert (Hesp : esp t' = T - 12) by (unfold esp; rewrite R1; cbn [apply_update constant r_esp]; lia).
  assert (Hmt : mem_ok (k_mem t')) by (unfold t'; rewrite call_switch_eq by done; by apply switched_mem_ok).
  rewrite enter_user_mode_eq by (rewrite ?Hesp; (done || lia)). rewrite Hesp.
  replace (T - 12 + 4) with (T - 32 + 24) by lia. replace (T - 12 + 8) with (T - 32 + 28) by lia.
  rewrite !R4 by lia. rewrite !Hl by lia. replace (T - 32 + 24) with (T - 8) by lia. replace (T - 32 + 28) with (T - 4) by lia.
  by rewrite E1, E2.
Qed.

(** ** The first two processes *)

Section FirstTwo.
Context {W : Type} `{Trace W}.
Implicit Types (s : machine W).
Variable enter_user_mode_at : Z.
Hypothesis enter_ok : is_u32 enter_user_mode_at.

(** A page taken and written by [g], of a machine that has one. *)
Lemma page_phase s d a s0 (g : mem -> mem) :
  kernel_ok s d -> alloc_page s = (a, s0) -> 0 < free_pages (k_pmm s) ->
  (forall f m, 0 <= f < PMM_MAX_PAGES -> a = 4096 * f -> only_frame f m (g m) /\ (mem_ok m -> mem_ok (g m))) ->
  exists f, a = 4096 * f /\ phys_to_virt a = frame_at f /\ 256 <= f <= highest_page (k_pmm s) /\
    page_free (k_pmm s) f = true /\ pages_taken s (on_mem g s0) [f] /\ kernel_ok (on_mem g s0) d /\
    k_mem (on_mem g s0) = g (k_mem s) /\ same_machine s (on_mem g s0) /\
    cr3 (k_vmm (on_mem g s0)) = cr3 (k_vmm s) /\ pid_counter (on_mem g s0) = pid_counter s.
Proof.
  intros Hk Ea Hpos Hg. destruct (alloc_page_eq s (ko_pmm _ _ Hk)) as [Ho Es]. rewrite Ea in Ho, Es. cbn [fst snd] in Ho, Es.
  destruct Ho as [(_ & _ & ?)|(f & -> & _ & Hr & Hf & Ht)]; [lia|]. exists f.
  pose proof (pw_highest _ (ko_pmm _ _ Hk)) as Hh.
  destruct (on_pmm_same _ _ _ Es) as (Hs & Hc & Hm & Hp). destruct (Hg f (k_mem s) ltac:(lia) eq_refl) as [Hof Hok].
  split; [done|]. split; [apply phys_frame; lia|]. split; [done|]. split; [done|].
  assert (Hm' : k_mem (on_mem g s0) = g (k_mem s)) by (change (k_mem (on_mem g s0)) with (g (k_mem s0)); by rewrite Hm).
  split; [exact Ht|]. split; [|done].
  apply (kernel_ok_step s (on_mem g s0) d [f]); [done|exact Ht|rewrite Hm'; by apply (fresh_agree (k_pmm s) f)|rewrite Hm'; apply Hok, Hk|apply Hs].
Qed.

(** The idle PCB. *)
Definition idle_init (p : Z) (m : mem) : mem :=
  st32 (st32 (st32 (st32 (memset p 0 PROCESS_SIZE m) (p + P_pid) 0) (p + P_state) (state_code PROCESS_STATE_RUNNING))
    (p + P_ticks_remaining) 5) (p + P_next) p.

Definition code_init (p : Z) (m : mem) : mem := store_bytes (store_bytes m (p +u 0x100) hello) p shellcode.

Lemma idle_init_spec f m :
  0 <= f < PMM_MAX_PAGES ->
  only_frame f m (idle_init (frame_at f) m) /\ (mem_ok m -> mem_ok (idle_init (frame_at f) m)) /\
  let w o := ld32 (idle_init (frame_at f) m) (frame_at f + o) in
  w P_cr3 = 0 /\ w P_kstack_top = 0 /\ w P_state = state_code PROCESS_STATE_RUNNING /\
  w P_ticks_remaining = 5 /\ w P_next = frame_at f.
Proof.
  intros Hf. unfold PMM_MAX_PAGES in Hf. destruct (memset_spec (frame_at f) 0 PROCESS_SIZE m ltac:(lia)) as (Hw & Hm & Hs). split; [|split].
  - unfold idle_init. do 4 (apply within_st_r; [lia|unfold frame_at; change (Z.of_nat 4) with 4; lia|]).
    apply (within_mono _ _ (frame_at f) (frame_at f + PROCESS_SIZE)); [lia|unfold frame_at; lia|exact Hw].
  - intros Hok. unfold idle_init. auto 10 with cint.
  - assert (Hz : forall o, 0 <= o <= 60 -> ld32 (memset (frame_at f) 0 PROCESS_SIZE m) (frame_at f + o) = 0).
    { intros o Ho. cbn [ld]. replace (frame_at f + o + 1) with (frame_at f + (o + 1)) by lia.
      replace (frame_at f + (o + 1) + 1) with (frame_at f + (o + 2)) by lia.
      replace (frame_at f + (o + 2) + 1) with (frame_at f + (o + 3)) by lia. rewrite !Hs by lia. done. }
    assert (Hu : 0 <= frame_at f < 0x100000000) by (unfold frame_at; lia).
    unfold idle_init. cbv zeta. cbn [state_code]. repeat match goal with |- _ /\ _ => split end; mem_simpl; try reflexivity; by apply Hz.
Qed.

Lemma store_frame f o l m : 0 <= o -> o + zlen l <= 4096 ->
  only_frame f m (store_bytes m (frame_at f + o) l).
Proof.
  intros Ho Hl a Ha. apply ldb_store_ne. unfold zlen, frame_at in *. lia.
Qed.

Lemma mem_ok_store l m a : mem_ok m -> mem_ok (store_bytes m a l).
Proof. revert m a; induction l as [|x l IH]; intros m a Hm; [done|]. cbn [store_bytes]. by apply IH, mem_ok_stb. Qed.

Lemma code_init_spec f m :
  0 <= f < PMM_MAX_PAGES ->
  only_frame f m (code_init (frame_at f) m) /\ (mem_ok m -> mem_ok (code_init (frame_at f) m)) /\
  bytes (code_init (frame_at f) m) (frame_at f) 21 = shellcode /\
  bytes (code_init (frame_at f) m) (frame_at f + 0x100) 22 = hello.
Proof.
  intros Hf. unfold PMM_MAX_PAGES in Hf. unfold code_init. rewrite (u32_small (frame_at f + 0x100)) by (unfold is_u32, frame_at; lia).
  assert (Hs : forall m, only_frame f m (store_bytes m (frame_at f) shellcode))
    by (intros m'; rewrite <- (Z.add_0_r (frame_at f)); apply store_frame; [lia|done]).
  split; [|split; [|split]].
  - transitivity (store_bytes m (frame_at f + 0x100) hello); [apply store_frame; [lia|done]|apply Hs].
  - intros Hm. by do 2 apply mem_ok_store.
  - apply (bytes_store _ _ shellcode). by repeat constructor.
  - rewrite <- (bytes_store m (frame_at f + 0x100) hello) at 2 by (by repeat constructor).
    unfold bytes. apply list_fmap_ext. intros i k Hk. apply lookup_seq in Hk as [-> Hk]. cbv beta.
    apply ldb_store_ne. right. change (Z.of_nat (length shellcode)) with 21. lia.
Qed.
End FirstTwo.

Section FirstTwoRun.
Context {W : Type} `{Trace W}.
Implicit Types (s : machine W).
Variable enter_user_mode_at : Z.
Hypothesis enter_ok : is_u32 enter_user_mode_at.

(** The state with the idle PCB and the code page. *)
Record idle_and_code (s s2 : machine W) (d fi fc : Z) : Prop := {
  ic_ok : kernel_ok s2 d;
  ic_taken : pages_taken s s2 [fi; fc];
  ic_range : 256 <= fi <= highest_page (k_pmm s) /\ 256 <= fc <= highest_page (k_pmm s) /\ fi <> fc;
  ic_idle : let w o := rd s2 (frame_at fi + o) in
    w P_cr3 = 0 /\ w P_kstack_top = 0 /\ w P_state = state_code PROCESS_STATE_RUNNING /\
    w P_ticks_remaining = 5 /\ w P_next = frame_at fi;
  ic_code : bytes (k_mem s2) (frame_at fc) 21 = shellcode /\ bytes (k_mem s2) (frame_at fc + 0x100) 22 = hello;
  ic_rest : process_list s2 = frame_at fi /\ current_process s2 = frame_at fi /\
    cr3 (k_vmm s2) = cr3 (k_vmm s) /\ pid_counter s2 = pid_counter s
}.

Lemma idle_and_code_made s d a1 s1 a2 s2 :
  kernel_ok s d -> 2 <= free_pages (k_pmm s) -> alloc_page s = (a1, s1) ->
  let i := phys_to_virt a1 in
  alloc_page ((on_mem (idle_init i) s1){{ process_list := i; current_process := i }}) = (a2, s2) ->
  let c := phys_to_virt a2 in
  exists fi fc, a2 = 4096 * fc /\ i = frame_at fi /\ c = frame_at fc /\ idle_and_code s (on_mem (code_init c) s2) d fi fc.
Proof.
  intros Hk Hfree E1 i E2 c.
  pose proof (pw_highest _ (ko_pmm _ _ Hk)) as Hh.
  destruct (page_phase s d a1 s1 (idle_init i) Hk E1) as (fi & -> & Hi & Hr1 & Hf1 & Ht1 & Hk1 & Hm1 & Hs1 & Hc1 & Hp1); [lia| |].
  { intros f m Hf ->. unfold i. rewrite phys_frame by done. destruct (idle_init_spec f m Hf) as (? & ? & _). done. }
  fold i in Hi. destruct (idle_init_spec fi (k_mem s)) as (_ & _ & I3); [lia|].
  set (t1 := (on_mem (idle_init i) s1){{ process_list := i; current_process := i }}) in *.
  assert (Hk1' : kernel_ok t1 d) by (destruct Hk1; by split).
  assert (Ht1' : pages_taken s t1 [fi]) by exact Ht1.
  assert (Hfree1 : 0 < free_pages (k_pmm t1)) by (destruct Ht1' as (_ & _ & Hc & _); change (zlen [fi]) with 1 in Hc; lia).
  assert (Hh1 : highest_page (k_pmm t1) = highest_page (k_pmm s)) by apply Ht1.
  assert (Hm1' : k_mem t1 = idle_init i (k_mem s)) by exact Hm1.
  assert (Hrest : process_list t1 = i /\ current_process t1 = i /\ cr3 (k_vmm t1) = cr3 (k_vmm s) /\ pid_counter t1 = pid_counter s) by done.
  clearbody t1. clear Hk1 Ht1 Hm1 Hs1 Hc1 Hp1.
  destruct (page_phase t1 d a2 s2 (code_init c) Hk1' E2 Hfree1) as (fc & -> & Hc & Hr2 & Hf2 & Ht2 & Hk2 & Hm2 & Hs2 & Hc2 & Hp2).
  { intros f m Hf ->. unfold c. rewrite phys_frame by done. destruct (code_init_spec f m Hf) as (? & ? & _). done. }
  fold c in Hc. destruct (code_init_spec fc (k_mem t1)) as (C1 & _ & C3 & C4); [lia|].
  destruct (not_taken _ _ _ _ Ht1' Hf2) as [_ Hne]. assert (Hne' : fi <> fc) by (intros ->; apply Hne; by left).
  exists fi, fc. split; [done|]. split; [done|]. split; [done|].
  destruct Hrest as (R1 & R2 & R3 & R4), Hs2 as (_ & _ & S1 & S2 & _). split.
  - exact Hk2.
  - exact (taken_app _ _ _ _ _ Ht1' Ht2).
  - rewrite Hh1 in Hr2. done.
  - cbv zeta in I3 |- *. rewrite <- Hi in I3 |- *. rewrite <- Hm1' in I3.
    assert (Hsame : forall o, 0 <= o <= 60 -> rd (on_mem (code_init c) s2) (i + o) = ld32 (k_mem t1) (i + o)).
    { intros o Ho. unfold rd. rewrite Hm2, Hc, Hi. apply (within_ld _ _ _ _ _ _ C1). change (Z.of_nat 4) with 4. unfold frame_at. lia. }
    rewrite !Hsame by lia. exact I3.
  - rewrite Hm2, Hc. done.
  - split; [congruence|]. split; [congruence|]. split; congruence.
Qed.
End FirstTwoRun.

Section CodeMap.
Context {W : Type} `{Trace W}.
Implicit Types (s : machine W).

(** The code page mapped in the directory [fd], which has nothing in its user half. *)
Definition with_code_mapped (fd fc : Z) (s : machine W) : machine W :=
  let current_pd := vmm_get_current_pd (k_vmm s) in
  on_vmm (vmm_switch_pd current_pd)
    (on_vmm (fun v => snd (vmm_map_page 0x40000000 (4096 * fc) PTE_USER_RW v))
      (on_vmm (vmm_switch_pd (4096 * fd)) s)).

Lemma map_phase s fd fc :
  pmm_wf (k_pmm s) -> mem_ok (k_mem s) -> tables_ok (k_pmm s) (k_mem s) fd -> 0 < free_pages (k_pmm s) ->
  0 <= fc < PMM_MAX_PAGES -> (forall i, 0 < i < 768 -> entry (k_mem s) (frame_at fd) i = 0) ->
  let s' := with_code_mapped fd fc s in
  mem_ok (k_mem s') /\ same_machine s s' /\ cr3 (k_vmm s') = current_pd_phys (k_vmm s) /\
  agree (other_pages (k_pmm s) [fd]) (k_mem s) (k_mem s') /\
  exists tb, page_free (k_pmm s) tb = true /\ 0 <= tb < PMM_MAX_PAGES /\
    forall m, agree (fun a => frame_at fd <= a < frame_at (fd + 1) \/ frame_at tb <= a < frame_at (tb + 1)) (k_mem s') m ->
      walk m (4096 * fd) 0x40000000 = Small (4096 * fc + 7) /\ walk m (4096 * fd) 0xBFFFEFFC = Unmapped.
Proof.
  intros Hp Hm Ht Hfree Hfc He. pose proof (to_dir _ _ _ Ht) as [Hd _].
  set (v := vmm_switch_pd (4096 * fd) (k_vmm s)).
  assert (Hw : vmm_wf v fd).
  { split; [exact Hp|exact Hm| |exact Ht]. change (cr3 v) with (4096 * fd). unfold is_u32, PMM_MAX_PAGES in *.
    split; [lia|]. rewrite Z.mul_comm. apply Z.div_mul. lia. }
  assert (Hun : forall va, 0x400000 <= va < 0xC0000000 -> translate v va = Unmapped).
  { intros va Hva. rewrite (translate_eq v fd) by done. unfold walk_at. rewrite phys_frame by done.
    change (v_mem v) with (k_mem s). rewrite He; [done|]. rewrite PDE_INDEX_eq by (unfold is_u32; lia).
    Z.div_mod_to_equations. lia. }
  assert (Hl : is_large (translate v 0x40000000) = false) by (by rewrite Hun by lia).
  pose proof (map_page_eq v fd 0x40000000 (4096 * fc) PTE_USER_RW Hw ltac:(done)
    ltac:(unfold is_u32, PMM_MAX_PAGES in *; lia) ltac:(done) Hl) as Hmap.
  unfold with_code_mapped. cbv zeta.
  set (s' := on_vmm (vmm_switch_pd _) _).
  assert (Ek : k_vmm s' = vmm_switch_pd (current_pd_phys (k_vmm s)) (snd (vmm_map_page 0x40000000 (4096 * fc) PTE_USER_RW v)) /\
    k_gdt s' = k_gdt s /\ k_cpu s' = k_cpu s /\ process_list s' = process_list s /\ current_process s' = current_process s) by done.
  destruct Ek as (Ek & R1 & R2 & R3 & R4). clearbody s'.
  destruct (vmm_map_page 0x40000000 (4096 * fc) PTE_USER_RW v) as [r v5]. cbn [snd] in Ek.
  destruct Hmap as (Hw5 & Ec5 & _ & _ & Hag & Hres).
  assert (Em : k_mem s' = v_mem v5) by (unfold k_mem; rewrite Ek; done).
  destruct Hres as [(-> & _ & Htr & Hnew & Hkeep)|(_ & _ & _ & Hnone)].
  2: { pose proof (none_free _ Hp Hnone). lia. }
  change (PDE_INDEX 0x40000000) with 256 in Hag, Hnew.
  assert (Hsm0 : small (v_mem v) fd 256 = false).
  { unfold small. change (v_mem v) with (k_mem s). by rewrite He by lia. }
  specialize (Hnew Hsm0). change (v_pmm v) with (k_pmm s) in Hnew, Hag. set (tb := table_of (v_mem v5) fd 256) in *.
  pose proof Hw5 as [Hp5 Hm5 _ Ht5].
  rewrite Em. split; [done|]. split; [unfold same_machine; rewrite Ek; done|]. split; [by rewrite Ek|]. split.
  { intros a (g & Hg & Hgn & Ha). apply Hag. exists g. split; [done|]. split; [|done].
    intros [->|[->|[]%not_elem_of_nil]%elem_of_cons]%elem_of_cons; [apply Hgn; by left|congruence]. }
  change (PDE_INDEX 0x40000000) with 256 in Hkeep.
  pose proof (Htr 0x40000000 ltac:(done)) as Hw1. rewrite decide_True in Hw1 by done.
  rewrite (translate_eq v5 fd) in Hw1 by done. change (has PTE_USER_RW PTE_PRESENT) with true in Hw1.
  change (PDE_INDEX 0x40000000) with 256 in Hw1. change (PTE_INDEX 0x40000000) with 0 in Hw1.
  assert (Hsm : small (v_mem v5) fd 256 = true).
  { destruct (small (v_mem v5) fd 256) eqn:E; [done|]. rewrite walk_not_small in Hw1 by done. cbv zeta in Hw1.
    by destruct (has (entry (v_mem v5) (frame_at fd) 256) PTE_PRESENT). }
  destruct (to_tab _ _ _ Ht5 256 ltac:(lia) Hsm) as (Htb & _). pose proof (table_nonneg (v_mem v5) fd 256 Hm5) as Htb0.
  fold tb in Htb, Htb0. exists tb. split; [done|]. split; [lia|]. intros m Hagm.
  assert (Ed : forall i, 0 <= i < 1024 -> entry m (frame_at fd) i = entry (v_mem v5) (frame_at fd) i).
  { intros i Hi. apply (ld_agree _ _ _ _ _ Hagm). change (Z.of_nat 4) with 4. unfold frame_at. lia. }
  assert (Etb : entry m (frame_at tb) 0 = entry (v_mem v5) (frame_at tb) 0).
  { apply (ld_agree _ _ _ _ _ Hagm). change (Z.of_nat 4) with 4. unfold frame_at. lia. }
  unfold walk. change (PDE_INDEX 0x40000000) with 256. change (PTE_INDEX 0x40000000) with 0.
  change (PDE_INDEX 0xBFFFEFFC) with 767. unfold walk_at. rewrite phys_frame, !Ed by (done || lia). split.
  - rewrite (walk_small (v_pmm v5)) in Hw1 by done. cbv zeta in Hw1. fold tb in Hw1.
    rewrite (table_addr (v_pmm v5)) by done. fold tb. rewrite Etb.
    unfold small in Hsm. apply andb_true_iff in Hsm as [-> ->%negb_true_iff]. cbn [negb].
    destruct (has (entry (v_mem v5) (frame_at tb) 0) PTE_PRESENT); [|done]. rewrite Hw1.
    rewrite MAKE_PTE_eq by (done || (unfold is_u32, PMM_MAX_PAGES in *; lia)). change PTE_USER_RW with 7.
    rewrite (Z.mul_comm 4096 fc), Z.div_mul by lia. f_equal. lia.
  - rewrite Hkeep by lia. change (v_mem v) with (k_mem s). by rewrite He by lia.
Qed.
End CodeMap.

Section Linked.
Context {W : Type} `{Trace W}.
Implicit Types (s : machine W).

(** The end of [sched_test_rr]: the new process goes on the ring. *)
Definition linked (F1 F2 : Z) (s : machine W) : machine W :=
  wr (F2 + P_state) (state_code PROCESS_STATE_READY) (wr (F1 + P_next) F2 (wr (F2 + P_next) (rd s (F1 + P_next)) s)).

Lemma sched_test_rr_unfold enter s :
  sched_test_rr enter s =
  let '(p_phys, s1) := alloc_page s in
  let idle := phys_to_virt p_phys in
  let '(code_phys, s2) := alloc_page ((on_mem (idle_init idle) s1){{ process_list := idle; current_process := idle }}) in
  let s2 := on_mem (code_init (phys_to_virt code_phys)) s2 in
  let '(proc1, s3) := sched_create_user_process enter 0x40000000 0 0 s2 in
  if proc1 =? 0 then s3
  else
    let cur := vmm_get_current_pd (k_vmm s3) in
    let s3 := on_vmm (vmm_switch_pd cur) (on_vmm (fun v => snd (vmm_map_page 0x40000000 code_phys PTE_USER_RW v))
                (on_vmm (vmm_switch_pd (rd s3 (proc1 + P_cr3))) s3)) in
    linked (process_list s3) proc1 s3.
Proof.
  unfold sched_test_rr. destruct (alloc_page s) as [a s1]. cbv zeta.
  match goal with |- (let '(_, _) := alloc_page ?x in _) = (let '(_, _) := alloc_page ?y in _) =>
    change x with y; destruct (alloc_page y) as [b s2] end.
  match goal with |- (let '(_, _) := sched_create_user_process _ _ _ _ ?x in _) = (let '(_, _) := sched_create_user_process _ _ _ _ ?y in _) =>
    change x with y; destruct (sched_create_user_process enter 0x40000000 0 0 y) as [c s3] end.
  destruct (c =? 0); [done|]. reflexivity.
Qed.

Lemma two_pcbs fi fp : 0 <= fi < PMM_MAX_PAGES -> 0 <= fp < PMM_MAX_PAGES -> fi <> fp -> pcbs [frame_at fi; frame_at fp].
Proof.
  unfold PMM_MAX_PAGES. intros Hi Hp Hne.
  assert (Hin : forall q, q ∈ [frame_at fi; frame_at fp] -> q = frame_at fi \/ q = frame_at fp)
    by (intros q [->|[->|[]%not_elem_of_nil]%elem_of_cons]%elem_of_cons; [by left|by right]).
  split.
  - repeat (apply NoDup_cons; split); [|apply not_elem_of_nil|by apply NoDup_nil].
    intros E%list_elem_of_singleton. unfold frame_at in E. lia.
  - intros q [-> | ->]%Hin; unfold frame_at; lia.
  - intros q r [-> | ->]%Hin [-> | ->]%Hin Hqr; try done; unfold apart, frame_at; lia.
Qed.

(** A linked pair is a ring at the start of its first quantum. *)
Lemma linked_ring s fi fp fs :
  0 <= fi < PMM_MAX_PAGES -> 0 <= fp < PMM_MAX_PAGES -> 0 <= fs < PMM_MAX_PAGES -> fi <> fp -> fs <> fi -> fs <> fp ->
  let F1 := frame_at fi in let F2 := frame_at fp in
  current_process s = F1 -> rd s (F1 + P_next) = F1 -> rd s (F1 + P_state) = state_code PROCESS_STATE_RUNNING ->
  rd s (F1 + P_ticks_remaining) = 5 -> rd s (F2 + P_ticks_remaining) = 5 ->
  rd s (F2 + P_esp) = frame_at fs + 4096 - 32 ->
  ring_ok (linked F1 F2 s) [F1; F2] 0 /\
  (forall q o, q ∈ [F1; F2] -> o = P_cr3 \/ o = P_kstack_top -> rd (linked F1 F2 s) (q + o) = rd s (q + o)) /\
  (forall a, ~ (F1 <= a < frame_at (fi + 1)) -> ~ (F2 <= a < frame_at (fp + 1)) -> ldb (k_mem (linked F1 F2 s)) a = ldb (k_mem s) a).
Proof.
  intros Hi Hp Hs Hne Hsi Hsp F1 F2 Hc Hn Hst Ht1 Ht2 Hesp.
  pose proof (two_pcbs fi fp Hi Hp Hne) as Hl. fold F1 F2 in Hl.
  assert (HF : F1 <> F2) by (unfold F1, F2, frame_at; lia).
  assert (Hu : 0 < F1 < 0x100000000 - 64 /\ 0 < F2 < 0x100000000 - 64) by (unfold F1, F2, frame_at, PMM_MAX_PAGES in *; lia).
  assert (H1 : F1 ∈ [F1; F2]) by left. assert (H2 : F2 ∈ [F1; F2]) by (right; left).
  assert (Hin : forall q, q ∈ [F1; F2] -> q = F1 \/ q = F2)
    by (intros q [->|[->|[]%not_elem_of_nil]%elem_of_cons]%elem_of_cons; [by left|by right]).
  assert (Hget : forall q o, q ∈ [F1; F2] -> 0 <= o <= 60 -> o mod 4 = 0 ->
    rd (linked F1 F2 s) (q + o) =
      if decide (F2 = q /\ P_state = o) then state_code PROCESS_STATE_READY
      else if decide (F1 = q /\ P_next = o) then F2
      else if decide (F2 = q /\ P_next = o) then F1 else rd s (q + o)).
  { intros q o Hq Ho Ho4. unfold linked. rewrite Hn.
    change (rd (wr ?a ?v ?x) (q + o)) with (ld32 (st32 (k_mem x) a v) (q + o)).
    rewrite (pcb_get_set [F1; F2]) by done. case_decide; [done|].
    change (k_mem (wr ?a ?v ?x)) with (st32 (k_mem x) a v).
    rewrite (pcb_get_set [F1; F2]) by (done || (unfold is_u32; lia)). case_decide; [done|].
    change (k_mem (wr ?a ?v s)) with (st32 (k_mem s) a v).
    rewrite (pcb_get_set [F1; F2]) by (done || (unfold is_u32; lia)). done. }
  split; [|split].
  - split.
    + done.
    + done.
    + intros i Hir. assert (i = 0 \/ i = 1) as [-> | ->] by (unfold zlen in Hir; cbn in Hir; lia).
      * change (zget [F1; F2] 0) with F1. change (zget [F1; F2] (succ [F1; F2] 0)) with F2. rewrite Hget by done.
        rewrite decide_False by lia. by rewrite decide_True by done.
      * change (zget [F1; F2] 1) with F2. change (zget [F1; F2] (succ [F1; F2] 1)) with F1. rewrite Hget by done.
        rewrite !decide_False by lia. by rewrite decide_True by done.
    + exact Hc.
    + change (current_process (linked F1 F2 s)) with (current_process s). rewrite Hc, Hget by done. by rewrite !decide_False by lia.
    + change (current_process (linked F1 F2 s)) with (current_process s). rewrite Hc, Hget by done. by rewrite !decide_False by lia.
    + change (current_process (linked F1 F2 s)) with (current_process s). rewrite Hc. intros q [-> | ->]%Hin Hq; [done|].
      unfold waiting. change (ld32 (k_mem (linked F1 F2 s)) ?a) with (rd (linked F1 F2 s) a). rewrite !Hget by done.
      rewrite (decide_True (P := F2 = F2 /\ P_state = P_state)) by done. rewrite !decide_False by lia. rewrite Hesp, Ht2.
      split; [done|]. split; [done|]. unfold PMM_MAX_PAGES in *. split; [unfold frame_at; lia|].
      intros q [-> | ->]%Hin; unfold apart, F1, F2, frame_at; lia.
  - intros q o Hq Ho. rewrite Hget by (done || lia || by destruct Ho as [-> | ->]). by rewrite !decide_False by lia.
  - intros a Ha1 Ha2. unfold linked. do 3 change (k_mem (wr ?b ?v ?x)) with (st32 (k_mem x) b v).
    unfold F1, F2, frame_at in *. rewrite !ldb_st_ne by (change (Z.of_nat 4) with 4; lia). done.
Qed.
End Linked.

Lemma twelfth_tick {W} tss_at after_call after_switch :
  is_u32 after_switch -> forall (s s' : machine W) p q,
  ring_ok s [p; q] 0 -> nsteps (tick tss_at after_call after_switch [p; q]) 12 s s' -> rd s (p + P_cr3) = 0 ->
  cr3 (k_vmm s') = 0.
Proof.
  intros Hsw s s' p q Hr Hn H0. apply (nsteps_add_inv 11 1) in Hn as (s11 & Hn & H1%nsteps_once_inv).
  pose proof (ticks_ring tss_at after_call after_switch Hsw s s11 _ 0 11 Hr Hn) as Hr11. change (0 + Z.of_nat 11) with 11 in Hr11.
  pose proof (ticks_keeps tss_at after_call after_switch Hsw s s11 _ 0 11 Hr Hn) as Hk.
  destruct H1 as [s1 s2 Hq]. pose proof Hq as (_ & _ & Hm & Hroom).
  pose proof (ring_quiet _ _ _ _ Hr11 Hq) as Hr2.
  destruct (schedule_keeps tss_at after_call after_switch Hsw s2 [p; q] 11 Hr2 Hm Hroom) as [_ Hsw2].
  change (zget [p; q] (succ [p; q] (11 / 6 mod zlen [p; q]))) with p in Hsw2.
  destruct Hsw2 as [-> _]; [done| |].
  - destruct Hr2 as [_ Hl _ Hcur _ _ _]. change (zget [p; q] (11 / 6 mod zlen [p; q])) with q in Hcur. rewrite Hcur.
    destruct Hl as [Hnd _ _]. apply NoDup_cons in Hnd as [Hnd _]. intros ->. apply Hnd. by left.
  - rewrite (quiet_keeps [p; q] s1 s2 Hq) by (by left). rewrite Hk by (by left). done.
Qed.

Section RoundRobin.
Context {W : Type} `{Trace W}.
Implicit Types (s : machine W).

Lemma other_ld p fs m m' f o n :
  agree (other_pages (W := W) p fs) m m' -> page_free p f = false -> f ∉ fs -> 0 <= o -> o + Z.of_nat n <= 4096 ->
  ld n m' (frame_at f + o) = ld n m (frame_at f + o).
Proof.
  intros Ha Hf Hn Ho Hon. apply (ld_agree _ _ _ _ _ Ha). intros b Hb. exists f. split; [done|].
  split; [done|]. unfold frame_at in *. lia.
Qed.

(** The page [f]. *)
Definition in_page (f a : Z) : Prop := frame_at f <= a < frame_at (f + 1).

(** The ring of the idle process and the new one, its code page mapped. *)
Lemma rr_state s fi fp fd fs fc :
  pmm_wf (k_pmm s) -> mem_ok (k_mem s) -> tables_ok (k_pmm s) (k_mem s) fd -> 0 < free_pages (k_pmm s) ->
  (forall f, f ∈ [fi; fp; fs; fc] -> 0 <= f < PMM_MAX_PAGES /\ page_free (k_pmm s) f = false /\ f <> fd) ->
  fi <> fp -> fs <> fi -> fs <> fp -> (forall i, 0 < i < 768 -> entry (k_mem s) (frame_at fd) i = 0) ->
  let F1 := frame_at fi in let F2 := frame_at fp in
  current_process s = F1 -> rd s (F1 + P_next) = F1 -> rd s (F1 + P_state) = state_code PROCESS_STATE_RUNNING ->
  rd s (F1 + P_ticks_remaining) = 5 -> rd s (F2 + P_ticks_remaining) = 5 -> rd s (F2 + P_esp) = frame_at fs + 4096 - 32 ->
  let s' := linked F1 F2 (with_code_mapped fd fc s) in
  ring_ok s' [F1; F2] 0 /\ process_list s' = process_list s /\
  (forall q o, q ∈ [F1; F2] -> o = P_cr3 \/ o = P_kstack_top -> rd s' (q + o) = rd s (q + o)) /\
  (forall f, f ∈ [fs; fc] -> f <> fi -> f <> fp -> agree (in_page f) (k_mem s) (k_mem s')) /\
  walk (k_mem s') (4096 * fd) 0x40000000 = Small (4096 * fc + 7) /\ walk (k_mem s') (4096 * fd) 0xBFFFEFFC = Unmapped.
Proof.
  intros Hp Hm Ht Hfree Hu Hne Hsi Hsp He F1 F2 Hc Hn Hst Ht1 Ht2 Hesp s'.
  destruct (Hu fi) as (Ri & Ui & Di); [by left|]. destruct (Hu fp) as (Rp & Up & Dp); [right; by left|].
  destruct (Hu fs) as (Rs & Us & Ds); [do 2 right; by left|]. destruct (Hu fc) as (Rc & Uc & Dc); [do 3 right; by left|].
  destruct (map_phase s fd fc Hp Hm Ht Hfree Rc He) as (Hm4 & (_ & _ & Hl4 & Hc4 & _) & _ & Hag & tb & Htb & Rtb & Hw).
  unfold s'. forget (with_code_mapped fd fc s) as s4.
  assert (Hld : forall f o n, page_free (k_pmm s) f = false -> f <> fd -> 0 <= o -> o + Z.of_nat n <= 4096 ->
    ld n (k_mem s4) (frame_at f + o) = ld n (k_mem s) (frame_at f + o)).
  { intros f o n Hf Hd Ho Hon. apply (other_ld (k_pmm s) [fd]); [done|done| |done|done]. intros E%list_elem_of_singleton. done. }
  assert (Hrd : forall f o, page_free (k_pmm s) f = false -> f <> fd -> 0 <= o <= 60 -> rd s4 (frame_at f + o) = rd s (frame_at f + o))
    by (intros f o Hf Hd Ho; apply Hld; [done|done|lia|change (Z.of_nat 4) with 4; lia]).
  destruct (linked_ring s4 fi fp fs) as (L1 & L2 & L3); [done..| | | | | | |].
  1: exact (eq_trans Hc4 Hc).
  1-5: (rewrite Hrd by (done || lia)); done.
  fold F1 F2 in L1, L2, L3. split; [exact L1|]. split; [exact Hl4|]. split; [|split].
  - intros q o Hq Ho. rewrite L2 by done.
    assert (Hqq : q = F1 \/ q = F2) by (revert Hq; by intros [->|[->|[]%not_elem_of_nil]%elem_of_cons]%elem_of_cons; [left|right]).
    destruct Hqq as [-> | ->]; apply Hrd; (done || lia).
  - intros f Hf Hfi Hfp a Ha. destruct (Hu f) as (Rf & Uf & Df); [by do 2 right|].
    rewrite L3 by (unfold in_page, frame_at in *; lia). apply Hag. exists f. split; [done|]. split; [|exact Ha].
    intros E%list_elem_of_singleton. done.
  - assert (tb <> fi /\ tb <> fp) as [Hti Htp] by (split; intros ->; congruence).
    apply Hw. intros a Ha. symmetry. symmetry. apply L3; unfold frame_at in *; lia.
Qed.

Lemma first_frame_agree m m' f e enter :
  agree (in_page f) m m' -> 0 <= f -> first_frame m (frame_at f + 4096) e enter -> first_frame m' (frame_at f + 4096) e enter.
Proof.
  intros Ha Hf. assert (Hl : forall a, frame_at f + 4064 <= a <= frame_at f + 4092 -> ld32 m' a = ld32 m a).
  { intros a Hr. apply (ld_agree _ _ _ _ _ Ha). change (Z.of_nat 4) with 4. unfold in_page, frame_at in *. lia. }
  unfold first_frame, frame_is. rewrite !Hl by lia. done.
Qed.

Lemma bytes_agree m m' f o n :
  agree (in_page f) m m' -> 0 <= o -> o + Z.of_nat n <= 4096 -> bytes m' (frame_at f + o) n = bytes m (frame_at f + o) n.
Proof.
  intros Ha Ho Hn. unfold bytes. apply list_fmap_ext. intros i k Hk. apply lookup_seq in Hk as [-> Hk].
  apply Ha. unfold in_page, frame_at in *. lia.
Qed.
End RoundRobin.

Section Setup.
Context {W : Type} `{Trace W}.
Implicit Types (s : machine W).

(** What the two allocations and the creation leave: the pages [fi] (idle PCB),
    [fp] (new PCB), [fd] (directory), [fs] (kernel stack) and [fc] (code). *)
Record rr_pages (s : machine W) (enter fi fp fd fs fc : Z) : Prop := {
  rp_pmm : pmm_wf (k_pmm s) /\ mem_ok (k_mem s) /\ tables_ok (k_pmm s) (k_mem s) fd /\ 0 < free_pages (k_pmm s);
  rp_used : forall f, f ∈ [fi; fp; fs; fc] -> 0 <= f < PMM_MAX_PAGES /\ page_free (k_pmm s) f = false /\ f <> fd;
  rp_diff : fi <> fp /\ fs <> fi /\ fs <> fp /\ fc <> fi /\ fc <> fp;
  rp_dir : forall i, 0 < i < 768 -> entry (k_mem s) (frame_at fd) i = 0;
  rp_ring : process_list s = frame_at fi /\ current_process s = frame_at fi /\ rd s (frame_at fi + P_next) = frame_at fi;
  rp_idle : rd s (frame_at fi + P_state) = state_code PROCESS_STATE_RUNNING /\
    rd s (frame_at fi + P_ticks_remaining) = 5 /\ rd s (frame_at fi + P_cr3) = 0;
  rp_proc : rd s (frame_at fp + P_ticks_remaining) = 5 /\ rd s (frame_at fp + P_esp) = frame_at fs + 4096 - 32 /\
    rd s (frame_at fp + P_cr3) = 4096 * fd /\ rd s (frame_at fp + P_kstack_top) = frame_at fs + 4096;
  rp_stack : first_frame (k_mem s) (frame_at fs + 4096) 0x40000000 enter;
  rp_code : bytes (k_mem s) (frame_at fc) 21 = shellcode /\ bytes (k_mem s) (frame_at fc + 0x100) 22 = hello
}.

Lemma rr_pages_made s t d enter proc e fi fp fd fs fc s0 :
  pmm_wf (k_pmm s0) -> idle_and_code s0 t d fi fc -> created enter t s proc e d fp fd fs ->
  e = 0x40000000 -> 4 <= free_pages (k_pmm t) -> rr_pages s enter fi fp fd fs fc.
Proof.
  intros Hw0 [Hk2 Ht2 (Hri & Hrc & Hne) Hidle (Hcode & Hhello) (Rl & Rc & _ & _)] Hcr -> Hfree.
  pose proof Hcr as [(Hnd & Hpg) Ht3 (Hm3 & Hag3) (-> & Hpcb) Hst (Htab & Hent) ((_ & _ & Sl & Sc & _) & _)].
  assert (Hh2 : highest_page (k_pmm t) = highest_page (k_pmm s0)) by apply Ht2. rewrite Hh2 in Hpg.
  pose proof (pw_highest _ Hw0) as Hh.
  destruct (Hpg fp) as [Hfp Hrp]; [by left|]. destruct (Hpg fd) as [Hfd Hrd]; [right; by left|].
  destruct (Hpg fs) as [Hfs Hrs]; [do 2 right; by left|].
  assert (Hui : page_free (k_pmm t) fi = false) by (apply (now_used s0 t [fi; fc]); [done|by left]).
  assert (Huc : page_free (k_pmm t) fc = false) by (apply (now_used s0 t [fi; fc]); [done|right; by left]).
  assert (Hneq : fi <> fp /\ fi <> fd /\ fi <> fs /\ fc <> fp /\ fc <> fd /\ fc <> fs) by (repeat split; intros ->; congruence).
  destruct Hneq as (N1 & N2 & N3 & N4 & N5 & N6).
  apply NoDup_cons in Hnd as [K1 [K2 _]%NoDup_cons]. rewrite elem_of_cons, list_elem_of_singleton in K1.
  rewrite list_elem_of_singleton in K2.
  assert (Hfi : agree (in_page fi) (k_mem t) (k_mem s) /\ agree (in_page fc) (k_mem t) (k_mem s))
    by (split; intros a Ha; apply Hag3; [exists fi|exists fc]; (split; [done|]); (split; [apply not_elem_of_nil|exact Ha])).
  destruct Hfi as [Hagi Hagc].
  assert (Hi3 : forall o, 0 <= o <= 60 -> rd s (frame_at fi + o) = rd t (frame_at fi + o))
    by (intros o Ho; apply (used_ld (k_pmm t)); [done|done|lia|change (Z.of_nat 4) with 4; lia]).
  destruct Hpcb as (_ & P1 & P2 & P3 & _ & _ & P4 & _), Hidle as (I1 & I2 & I3 & I4 & I5). split.
  - split; [apply Ht3|]. split; [done|]. split; [done|].
    destruct Ht3 as (_ & _ & Hc3 & _). change (zlen [fp; fd; fs]) with 3 in Hc3. lia.
  - intros f [->|[->|[->|[->|[]%not_elem_of_nil]%elem_of_cons]%elem_of_cons]%elem_of_cons]%elem_of_cons;
      (split; [lia|]); (split; [|intros ->; auto]).
    + by apply (still_used t s [fp; fd; fs]).
    + apply (now_used t s [fp; fd; fs]); [done|by left].
    + apply (now_used t s [fp; fd; fs]); [done|do 2 right; by left].
    + by apply (still_used t s [fp; fd; fs]).
  - repeat split; intros ->; auto.
  - intros i Hir. rewrite Hent, decide_False by (change KERNEL_VBASE_PDE with 768; lia). done.
  - rewrite Hi3 by lia. split; [congruence|]. split; [congruence|exact I5].
  - by rewrite !Hi3 by lia.
  - done.
  - exact Hst.
  - rewrite <- (Z.add_0_r (frame_at fc)) at 1. rewrite !(bytes_agree _ _ fc _ _ Hagc), Z.add_0_r by lia. done.
Qed.

Lemma rr_setup enter s d :
  is_u32 enter -> kernel_ok s d -> is_u32 (pid_counter s) -> 6 <= free_pages (k_pmm s) ->
  exists fi fp fd fs fc s3, rr_pages s3 enter fi fp fd fs fc /\
    sched_test_rr enter s = linked (frame_at fi) (frame_at fp) (with_code_mapped fd fc s3).
Proof.
  intros Hen Hk Hpid Hfree. rewrite sched_test_rr_unfold.
  destruct (alloc_page s) as [a1 s1] eqn:E1. cbv zeta.
  match goal with |- context [alloc_page ?x] => destruct (alloc_page x) as [a2 s2] eqn:E2 end.
  destruct (idle_and_code_made s d a1 s1 a2 s2 Hk ltac:(lia) E1 E2) as (fi & fc & -> & Hi & Hc & Hic).
  set (t2 := on_mem (code_init (phys_to_virt (4096 * fc))) s2) in *. clearbody t2.
  assert (Hf2 : free_pages (k_pmm t2) = free_pages (k_pmm s) - 2) by apply (ic_taken _ _ _ _ _ Hic).
  destruct (ic_rest _ _ _ _ _ Hic) as (_ & _ & _ & Rp).
  pose proof (create_spec enter Hen t2 d 0x40000000 0 0 (ic_ok _ _ _ _ _ Hic) ltac:(done) ltac:(by rewrite Rp)) as Hcr.
  destruct (sched_create_user_process enter 0x40000000 0 0 t2) as [proc1 s3].
  destruct Hcr as [(_ & Hun3)|(fp & fd & fs & Hcr)]; [pose proof (un_few _ _ Hun3); lia|].
  pose proof (rr_pages_made s3 t2 d enter proc1 _ fi fp fd fs fc s (ko_pmm _ _ Hk) Hic Hcr eq_refl ltac:(lia)) as Hrr.
  exists fi, fp, fd, fs, fc, s3. split; [exact Hrr|]. destruct (cr_pcb _ _ _ _ _ _ _ _ _ Hcr) as (-> & _).
  destruct (rp_used _ _ _ _ _ _ _ Hrr fp) as [Hrp _]; [right; by left|].
  destruct (Z.eqb_spec (frame_at fp) 0) as [E|_]; [unfold frame_at in E; lia|].
  destruct (rp_proc _ _ _ _ _ _ _ Hrr) as (_ & _ & -> & _). destruct (rp_ring _ _ _ _ _ _ _ Hrr) as (<- & _). reflexivity.
Qed.
End Setup.

(** C27: the first two processes.  With six pages to spare, [sched_test_rr] leaves
    a ring of the idle process, running, and a user process at the start of its
    quantum, so that the two take turns; the user process's directory maps its
    code page (the 21 bytes of the loop and its message) at 0x40000000, its first
    stack enters there.  But nothing is mapped below 0xC0000000 for the stack it
    is given, and the idle process has no directory: the tick that switches back to
    it loads CR3 with 0. *)
Theorem first_processes {W} `{Trace W} (tss_at after_call after_switch enter : Z) (s : machine W) (d : Z) :
  kernel_ok s d -> is_u32 enter -> is_u32 after_switch -> is_u32 (pid_counter s) -> 6 <= free_pages (k_pmm s) ->
  let s' := sched_test_rr enter s in
  exists idle proc1 fc,
    process_list s' = idle /\ ring_ok s' [idle; proc1] 0 /\
    bytes (k_mem s') (frame_at fc) 21 = shellcode /\ bytes (k_mem s') (frame_at fc + 0x100) 22 = hello /\
    walk (k_mem s') (rd s' (proc1 + P_cr3)) 0x40000000 = Small (4096 * fc + 7) /\
    walk (k_mem s') (rd s' (proc1 + P_cr3)) (0xBFFFF000 - 4) = Unmapped /\
    first_frame (k_mem s') (rd s' (proc1 + P_kstack_top)) 0x40000000 enter /\
    rd s' (idle + P_cr3) = 0 /\
    forall s2, nsteps (tick tss_at after_call after_switch [idle; proc1]) 12 s' s2 -> cr3 (k_vmm s2) = 0.
Proof.
  intros Hk Hen Hsw Hpid Hfree s'.
  destruct (rr_setup enter s d Hen Hk Hpid Hfree) as (fi & fp & fd & fs & fc & s3 & Hrr & Es). fold s' in Es. clearbody s'.
  destruct Hrr as [(Hp & Hm & Htab & Hf) Hu (N1 & N2 & N3 & N4 & N5) Hdir (Q1 & Q2 & Q3) (I1 & I2 & I3) (P1 & P2 & P3 & P4) Hst (C1 & C2)].
  destruct (rr_state s3 fi fp fd fs fc) as (R1 & R2 & R3 & R4 & R5 & R6); [done..|]. rewrite <- Es in *.
  exists (frame_at fi), (frame_at fp), fc.
  assert (Q4 : frame_at fi ∈ [frame_at fi; frame_at fp]) by by left.
  assert (Q5 : frame_at fp ∈ [frame_at fi; frame_at fp]) by (right; by left).
  assert (E0 : rd s' (frame_at fi + P_cr3) = 0) by (rewrite R3 by (done || by left); exact I3).
  rewrite (R3 (frame_at fp) P_cr3), P3, (R3 (frame_at fp) P_kstack_top), P4 by (done || (by left) || (by right)).
  assert (Hcb : agree (in_page fc) (k_mem s3) (k_mem s')) by (apply R4; [right; by left|done|done]).
  split; [by rewrite R2|]. split; [exact R1|]. split.
  { rewrite <- (Z.add_0_r (frame_at fc)). by rewrite (bytes_agree _ _ fc 0 21 Hcb), Z.add_0_r by lia. }
  split; [by rewrite (bytes_agree _ _ fc 0x100 22 Hcb) by lia|]. split; [exact R5|]. split; [exact R6|].
  destruct (Hu fs) as (Hfs & _); [do 2 right; by left|].
  split; [apply (first_frame_agree (k_mem s3)); [apply R4; [by left|done|done]|lia|done]|]. split; [exact E0|].
  intros s12 Hn. exact (twelfth_tick tss_at after_call after_switch Hsw s' s12 _ _ R1 Hn E0).
Qed.

(** ** The examples *)

(** A kernel whose directory, page 256, is empty, and whose allocator is that of
    [demo_pmm]. *)
Lemma demo_kernel :
  exists s : machine (list trace_rec), kernel_ok s 256 /\ 6 <= free_pages (k_pmm s) /\ is_u32 (pid_counter s).
Proof.
  destruct (pmm_init_default (W := list trace_rec) ∅ 0x100000 0x200000 [] ltac:(done)) as (p & _ & Hw & Hh & _ & Hf).
  exists (Machine (Vmm p ∅ 0x100000 0x100000 []) (GdtState [] ∅ (0, 0) 0) (Cpu 0x1000 0 0 0 0 0) 0 0 1).
  split; [|split; [|done]].
  - split; [done|apply mem_ok_empty|done| |done]. split.
    + split; [done|]. change (page_free p 256 = false). rewrite Hf by done. vm_compute. reflexivity.
    + intros i _. done.
    + intros i j _ _. done.
  - change (6 <= free_pages p). rewrite (pw_free p Hw), Hh. change (pages_free p 256 (32767 + 1)) with (count_range 256 32768 (page_free p)).
    rewrite (count_range_split 256 1024), (count_range_split 1024 1030 32768), (count_range_all 1024 1030) by (try lia; intros j Hj;
      rewrite Hf by lia; assert (Hj' : j = 1024 \/ j = 1025 \/ j = 1026 \/ j = 1027 \/ j = 1028 \/ j = 1029) by lia;
      destruct Hj' as [->|[->|[->|[->|[-> | ->]]]]]; vm_compute; reflexivity).
    pose proof (count_range_bounds 256 1024 (page_free p)). pose proof (count_range_bounds 1030 32768 (page_free p)). lia.
Qed.

Lemma process_lifecycle_witness :
  exists s : machine (list trace_rec), let '(proc, s') := sched_create_user_process 0x100400 0x40000000 0 0 s in
    proc <> 0 /\ free_pages (k_pmm s') = free_pages (k_pmm s) - 3 /\
    free_pages (k_pmm (sched_destroy_process proc s')) = free_pages (k_pmm s).
Proof.
  destruct demo_kernel as (s & Hk & Hf & Hp). exists s.
  pose proof (process_lifecycle 0x100400 s 256 0x40000000 0 0 Hk ltac:(done) ltac:(done) Hp) as Hc.
  destruct (sched_create_user_process 0x100400 0x40000000 0 0 s) as [proc s'].
  destruct Hc as [(_ & Hu)|(fp & fd & fs & Hc & _ & _ & (_ & _ & Hb & _))]; [pose proof (un_few _ _ Hu); lia|].
  destruct (cr_pcb _ _ _ _ _ _ _ _ _ Hc) as (-> & _). destruct (cr_taken _ _ _ _ _ _ _ _ _ Hc) as (_ & _ & Ht & _).
  destruct (cr_pages _ _ _ _ _ _ _ _ _ Hc) as (_ & Hpg). destruct (Hpg fp) as [_ Hr]; [by left|].
  change (zlen [fp; fd; fs]) with 3 in Ht. change (zlen []) with 0 in Hb.
  split; [unfold frame_at; lia|]. split; [exact Ht|lia].
Defined.

Lemma process_starts_witness :
  exists (s : machine (list trace_rec)) (proc fd : Z),
    let t' := call_switch_to 0 0 7 0x2000 proc s in
    r_eip (k_cpu t') = 0x100400 /\ cr3 (k_vmm t') = 4096 * fd /\
    fst (enter_user_mode 2 t') = UserContext 0x40000000 0x1B 0x202 0xBFFFF000 0x23.
Proof.
  destruct demo_kernel as (s & Hk & Hf & Hp).
  pose proof (create_spec 0x100400 ltac:(done) s 256 0x40000000 0 0 Hk ltac:(done) Hp) as Hc.
  destruct (sched_create_user_process 0x100400 0x40000000 0 0 s) as [proc s'].
  destruct Hc as [(_ & Hu)|(fp & fd & fs & Hc)]; [pose proof (un_few _ _ Hu); lia|].
  pose proof (cr_pcb _ _ _ _ _ _ _ _ _ Hc) as (Ep & _ & Es & _). pose proof (cr_mem _ _ _ _ _ _ _ _ _ Hc) as [Hm _].
  pose proof (cr_pages _ _ _ _ _ _ _ _ _ Hc) as (_ & Hpg). destruct (Hpg fp) as [_ Hr]; [by left|].
  destruct (Hpg fs) as [_ Hrs]; [do 2 right; by left|]. pose proof (pw_highest _ (ko_pmm _ _ Hk)) as Hh. unfold PMM_MAX_PAGES in Hh.
  set (t := s'{{ k_cpu := Cpu 0x1000 0 0 0 0 0 }}). exists t, proc, fd.
  assert (Hok : switch_ok t 7 0x2000 proc).
  { subst proc. split; [repeat split; cbn; lia|cbn; lia| | | | |].
    - unfold is_u32, frame_at. lia.
    - unfold apart. cbn. lia.
    - unfold apart, frame_at. change (esp t) with 0x1000. lia.
    - unfold apart, frame_at. lia.
    - change (k_mem t) with (k_mem s'). rewrite Es. unfold frame_at. lia. }
  destruct (process_starts 0 0 0x100400 s s' t proc 0x40000000 256 fp fd fs 7 0x2000 2 Hk Hc) as (R1 & R2 & _ & R4).
  - reflexivity.
  - exact Hm.
  - exact Hok.
  - unfold apart, frame_at. change (esp t) with 0x1000. lia.
  - unfold apart, frame_at. lia.
  - done.
  - split; [exact R1|]. split; [exact R2|exact R4].
Defined.

Lemma first_processes_witness :
  exists (s : machine (list trace_rec)) idle proc1,
    let s' := sched_test_rr 0x100400 s in
    process_list s' = idle /\ current_process s' = idle /\ rd s' (idle + P_next) = proc1 /\ rd s' (proc1 + P_next) = idle.
Proof.
  destruct demo_kernel as (s & Hk & Hf & Hp).
  destruct (first_processes 0 0 0 0x100400 s 256 Hk ltac:(done) ltac:(done) Hp Hf) as (idle & proc1 & fc & H1 & H2 & _).
  exists s, idle, proc1. destruct H2 as [_ _ Hn Hc _ _ _]. split; [exact H1|]. split; [exact Hc|].
  split; [apply (Hn 0); by split|apply (Hn 1); by split].
Defined.
