(* ===== verification/Episode.v ===== *)
(** kernel/engine/episode.c and kernel/drivers/mock_gpu.c: the tuning engine and
    the device it runs on at boot.

    An episode proposes a clock, applies it, watches the telemetry for a number of
    ticks and keeps the clock or goes back.  The device is reached through the two
    interfaces of include/api (an actuator and a collector, structs of functions),
    here records over a device state [D]; [mock_gpu] implements both.  The specification
    [episode_spec] says in one go what an episode does to the device; ticking the
    state machine does just that. *)

From S2P Require Import Prelude.

(** ** include/api: telemetry and devices *)

Record metric_snapshot_t := MetricSnapshot {
  timestamp : Z;
  gpu_temp_c : Z;
  gpu_util_pct : Z;
  mem_used_mb : Z;
  pcie_bw_mbps : Z;
  ecc_errors : Z;
  pcie_retries : Z;
  xid_errors : Z
}.
#[export] Instance eta_snapshot : Eta metric_snapshot_t := fun m => MetricSnapshot (timestamp m) (gpu_temp_c m)
  (gpu_util_pct m) (mem_used_mb m) (pcie_bw_mbps m) (ecc_errors m) (pcie_retries m) (xid_errors m).

(** A method returns its status and the device it leaves; [get_snapshot] is given
    what the caller's struct held. *)
Record actuator_t (D : Type) := Actuator {
  capabilities : Z;
  set_clock_limit : Z -> D -> Z * D;
  set_power_limit : Z -> D -> Z * D;
  reset_defaults : D -> Z * D
}.
Record collector_t (D : Type) := Collector { get_snapshot : metric_snapshot_t -> D -> Z * metric_snapshot_t * D }.
Arguments set_clock_limit {D}.
Arguments set_power_limit {D}.
Arguments reset_defaults {D}.
Arguments get_snapshot {D}.

Definition ACT_OK : Z := 0.
Definition ACT_CAP_CLOCK_LOCK : Z := 1.
Definition ACT_CAP_POWER_LIMIT : Z := 2.

(** ** mock_gpu.c *)

Record mock_gpu := MockGpu { current_clock : Z; current_power : Z; current_temp : Z; current_util : Z }.
#[export] Instance eta_gpu : Eta mock_gpu := fun g =>
  MockGpu (current_clock g) (current_power g) (current_temp g) (current_util g).

Definition mock_start : mock_gpu := MockGpu 1000 250 65 40.

Definition mock_set_clock (clock_mhz : Z) (g : mock_gpu) : Z * mock_gpu :=
  (ACT_OK, g{{ current_clock := clock_mhz; current_temp ::= fun t => t +u (if 1500 <? clock_mhz then 5 else 1) }}).
Definition mock_set_power (watts : Z) (g : mock_gpu) : Z * mock_gpu := (ACT_OK, g{{ current_power := watts }}).
Definition mock_reset (g : mock_gpu) : Z * mock_gpu :=
  (ACT_OK, g{{ current_clock := 1000; current_power := 250; current_temp := 60 }}).
Definition mock_actuator : actuator_t mock_gpu :=
  Actuator _ (Z.lor ACT_CAP_CLOCK_LOCK ACT_CAP_POWER_LIMIT) mock_set_clock mock_set_power mock_reset.

Definition mock_get_snapshot (out : metric_snapshot_t) (g : mock_gpu) : Z * metric_snapshot_t * mock_gpu :=
  let out := out{{ timestamp := 0; gpu_temp_c := current_temp g; gpu_util_pct := current_util g;
                   ecc_errors := 0; xid_errors := 0 }} in
  let g := if 60 <? current_temp g then g{{ current_temp ::= fun t => t -u 1 }} else g in
  (0, out, g{{ current_util ::= fun u => (u +u 1) mod 100 }}).
Definition mock_collector : collector_t mock_gpu := Collector _ mock_get_snapshot.

Definition actuator_get_default : option (actuator_t mock_gpu) := Some mock_actuator.
Definition collector_get_default : option (collector_t mock_gpu) := Some mock_collector.

(** ** engine/episode.c *)

Inductive episode_state_t :=
  EP_STATE_IDLE | EP_STATE_PROPOSE | EP_STATE_VALIDATE | EP_STATE_APPLY | EP_STATE_MONITOR | EP_STATE_DECIDE
  | EP_STATE_ROLLBACK | EP_STATE_SAFE.
#[export] Instance state_dec : EqDecision episode_state_t.
Proof. solve_decision. Defined.

Record episode_ctx_t := EpisodeCtx {
  episode_id : Z;
  state : episode_state_t;
  monitor_steps_total : Z;
  monitor_steps_done : Z;
  baseline : metric_snapshot_t;
  current_accum : metric_snapshot_t;
  samples : Z;
  start_time : Z;
  end_time : Z;
  proposed_clock : Z;
  original_clock : Z
}.
#[export] Instance eta_ctx : Eta episode_ctx_t := fun e => EpisodeCtx (episode_id e) (state e) (monitor_steps_total e)
  (monitor_steps_done e) (baseline e) (current_accum e) (samples e) (start_time e) (end_time e) (proposed_clock e) (original_clock e).

(** The engine's static variables, and the device. *)
Record engine (D : Type) := Engine { current_episode : episode_ctx_t; episode_active : Z; device : D }.
Arguments Engine {D}.
Arguments current_episode {D}.
Arguments episode_active {D}.
Arguments device {D}.
#[export] Instance eta_engine D : Eta (engine D) := fun s => Engine (current_episode s) (episode_active s) (device s).

Definition episode_init {D} (s : engine D) : engine D :=
  s{{ current_episode ::= fun e => e{{ episode_id := 0; state := EP_STATE_IDLE; samples := 0 }}; episode_active := 0 }}.

Definition check_guardrails (m : metric_snapshot_t) : Z :=
  if 90 <? gpu_temp_c m then 1 else if 0 <? ecc_errors m then 1 else 0.

Definition set_state {D} (st : episode_state_t) (s : engine D) : engine D :=
  s{{ current_episode ::= fun e => e{{ state := st }} }}.

Section Engine.
Context {D : Type}.
Implicit Types (s : engine D) (d : D).
(** What the two getters return, and what the uninitialised struct holds. *)
Variables (act : option (actuator_t D)) (col : option (collector_t D)) (uninit : metric_snapshot_t).

(** [act->set_clock_limit], when there is an actuator. *)
Definition apply_clock (clock : Z) s : engine D :=
  match act with
  | Some a => let '(_, d) := set_clock_limit a clock (device s) in s{{ device := d }}
  | None => s
  end.

(** One call of the collector, accumulated: the state, and whether to roll back. *)
Definition sample s : engine D * bool :=
  match col with
  | None => (s, false)
  | Some c =>
    let '(r, snap, d) := get_snapshot c uninit (device s) in
    let s := s{{ device := d }} in
    if r =? 0 then
      let s := s{{ current_episode ::= fun e => e{{
        current_accum ::= fun a => a{{ gpu_temp_c ::= fun x => x +u gpu_temp_c snap;
                                       gpu_util_pct ::= fun x => x +u gpu_util_pct snap }};
        samples ::= fun n => n +u 1 }} }} in
      (s, negb (check_guardrails snap =? 0))
    else (s, false)
  end.

Definition episode_tick s : engine D :=
  if episode_active s =? 0 then s
  else
    match state (current_episode s) with
    | EP_STATE_PROPOSE => set_state EP_STATE_VALIDATE s
    | EP_STATE_VALIDATE => set_state EP_STATE_APPLY s
    | EP_STATE_APPLY => set_state EP_STATE_MONITOR (apply_clock (proposed_clock (current_episode s)) s)
    | EP_STATE_MONITOR =>
      let '(s, violation) := sample s in
      if violation then set_state EP_STATE_ROLLBACK s
      else
        let s := s{{ current_episode ::= fun e => e{{ monitor_steps_done ::= fun n => n +u 1 }} }} in
        if monitor_steps_total (current_episode s) <=? monitor_steps_done (current_episode s)
        then set_state EP_STATE_DECIDE s else s
    | EP_STATE_DECIDE =>
      let e := current_episode s in
      let avg_util := if 0 <? samples e then gpu_util_pct (current_accum e) / samples e else 0 in
      if 50 <? avg_util then (set_state EP_STATE_IDLE s){{ episode_active := 0 }}
      else set_state EP_STATE_ROLLBACK s
    | EP_STATE_ROLLBACK =>
      let s := apply_clock (original_clock (current_episode s)) s in
      (set_state EP_STATE_IDLE s){{ episode_active := 0 }}
    | EP_STATE_IDLE | EP_STATE_SAFE => s
    end.

Definition episode_propose (clock_mhz duration_steps : Z) s : Z * engine D :=
  if negb (episode_active s =? 0) then (-1, s)
  else
    (0, s{{ current_episode ::= fun e => e{{
          episode_id ::= fun n => n +u 1;
          state := EP_STATE_PROPOSE;
          proposed_clock := clock_mhz;
          original_clock := 1000;
          monitor_steps_total := duration_steps;
          monitor_steps_done := 0;
          current_accum ::= fun a => a{{ gpu_temp_c := 0; gpu_util_pct := 0 }};
          samples := 0 }};
        episode_active := 1 }}).
End Engine.

(** The boot of kmain.c: the engine, and its test episode. *)
Definition boot_engine (e : episode_ctx_t) (active : Z) : engine mock_gpu :=
  snd (episode_propose 1200 500 (episode_init (Engine e active mock_start))).

(** ** The specification *)

Inductive outcome := Promoted | Rejected | Violated.

(** The limits an episode fails fast on. *)
Definition violates (m : metric_snapshot_t) : bool := (90 <? gpu_temp_c m) || (0 <? ecc_errors m).

Section Spec.
Context {D : Type}.
Implicit Types (s : engine D) (d : D).
Variables (act : option (actuator_t D)) (col : option (collector_t D)) (uninit : metric_snapshot_t).

(** The clock set, and the telemetry read when there is any. *)
Definition clocked (clock : Z) d : D :=
  match act with Some a => snd (set_clock_limit a clock d) | None => d end.
Definition telemetry d : option metric_snapshot_t * D :=
  match col with
  | Some c => let '(r, m, d') := get_snapshot c uninit d in (if r =? 0 then Some m else None, d')
  | None => (None, d)
  end.

(** The snapshots of [n] ticks, up to the first that violates a limit: whether one
    does, those read, the device, and the ticks taken. *)
Fixpoint watch (n : nat) d : bool * list metric_snapshot_t * D * nat :=
  match n with
  | O => (false, [], d, O)
  | S n =>
    let '(m, d') := telemetry d in
    if match m with Some m => violates m | None => false end then (true, option_list m, d', 1%nat)
    else let '(v, l, d'', t) := watch n d' in (v, option_list m ++ l, d'', S t)
  end.

Definition total_util (l : list metric_snapshot_t) : Z := foldr (fun m x => gpu_util_pct m + x) 0 l.
(** The mean utilisation, of no snapshot 0. *)
Definition mean_util (l : list metric_snapshot_t) : Z := total_util l / zlen l.

(** An episode at [clock] watched for [steps] ticks: how it ends, what it does to
    the device, and the ticks it takes. *)
Definition episode_spec (clock steps : Z) d : outcome * D * nat :=
  let '(v, l, d, t) := watch (Z.to_nat (Z.max 1 steps)) (clocked clock d) in
  if v then (Violated, clocked 1000 d, (t + 4)%nat)
  else if 50 <? mean_util l then (Promoted, d, (t + 4)%nat)
  else (Rejected, clocked 1000 d, (t + 5)%nat).

(** A device invariant under which the utilisation is a percentage. *)
Record metered (I : D -> Prop) : Prop := {
  met_util : forall d m d', I d -> telemetry d = (Some m, d') -> 0 <= gpu_util_pct m <= 100;
  met_read : forall d, I d -> I (snd (telemetry d));
  met_clock : forall clock d, I d -> I (clocked clock d)
}.

(** [n] ticks. *)
Definition ticks (n : nat) s : engine D := Nat.iter n (episode_tick act col uninit) s.

(** ** The state machine does what the specification says *)

(** The engine in state [st] of an episode at [clock] with [total] ticks to watch,
    [done_] of them done, the snapshots [l] taken. *)
Record at_state s (st : episode_state_t) (clock total done_ : Z) (l : list metric_snapshot_t) d : Prop := {
  as_active : episode_active s = 1;
  as_state : state (current_episode s) = st;
  as_clock : proposed_clock (current_episode s) = clock /\ original_clock (current_episode s) = 1000;
  as_steps : monitor_steps_total (current_episode s) = total /\ monitor_steps_done (current_episode s) = done_;
  as_sum : gpu_util_pct (current_accum (current_episode s)) = total_util l;
  as_samples : samples (current_episode s) = zlen l;
  as_device : device s = d
}.

Definition over s d : Prop :=
  episode_active s = 0 /\ state (current_episode s) = EP_STATE_IDLE /\ device s = d.

Lemma apply_clock_eq clock s :
  apply_clock act clock s = s{{ device := clocked clock (device s) }}.
Proof.
  unfold apply_clock, clocked. destruct act as [a|]; [|by destruct s].
  by destruct (set_clock_limit a clock (device s)).
Qed.

Lemma tick_apply s clock total d :
  at_state s EP_STATE_APPLY clock total 0 [] d -> at_state (episode_tick act col uninit s) EP_STATE_MONITOR clock total 0 [] (clocked clock d).
Proof.
  intros [Ha Hs [Hc Ho] [Ht Hd] Hu Hn Hdev]. unfold episode_tick. rewrite Ha, Hs, apply_clock_eq, Hc, Hdev. by split.
Qed.

Lemma tick_rollback s clock total k l d :
  at_state s EP_STATE_ROLLBACK clock total k l d -> over (episode_tick act col uninit s) (clocked 1000 d).
Proof.
  intros [Ha Hs [Hc Ho] [Ht Hd] Hu Hn Hdev]. unfold episode_tick. rewrite Ha, Hs, apply_clock_eq, Ho, Hdev. by split.
Qed.

Lemma tick_decide s clock total k l d :
  at_state s EP_STATE_DECIDE clock total k l d ->
  if 50 <? mean_util l then over (episode_tick act col uninit s) d else at_state (episode_tick act col uninit s) EP_STATE_ROLLBACK clock total k l d.
Proof.
  intros [Ha Hs Hc Ht Hu Hn Hdev]. unfold episode_tick. rewrite Ha, Hs. cbv zeta. rewrite Hu, Hn.
  replace (if 0 <? zlen l then total_util l / zlen l else 0) with (mean_util l).
  - destruct (50 <? mean_util l); by split.
  - unfold mean_util. destruct l; [reflexivity|]. by rewrite (proj2 (Z.ltb_lt 0 _)) by (unfold zlen; cbn; lia).
Qed.

Lemma telemetry_sample s :
  let '(m, d) := telemetry (device s) in
  sample col uninit s =
    (match m with
     | Some m => (s{{ device := d }}){{ current_episode ::= fun e => e{{
         current_accum ::= fun a => a{{ gpu_temp_c ::= fun x => x +u gpu_temp_c m; gpu_util_pct ::= fun x => x +u gpu_util_pct m }};
         samples ::= fun n => n +u 1 }} }}
     | None => s{{ device := d }}
     end, match m with Some m => violates m | None => false end).
Proof.
  unfold telemetry, sample. destruct col as [c|]; [|by destruct s].
  destruct (get_snapshot c uninit (device s)) as [[r m] d]. destruct (r =? 0); [|done].
  f_equal. unfold check_guardrails, violates. by destruct (90 <? gpu_temp_c m), (0 <? ecc_errors m).
Qed.

Lemma total_util_app l1 l2 : total_util (l1 ++ l2) = total_util l1 + total_util l2.
Proof.
  induction l1 as [|m l IH]; [reflexivity|].
  change (gpu_util_pct m + total_util (l ++ l2) = gpu_util_pct m + total_util l + total_util l2). lia.
Qed.

Variable I : D -> Prop.
Hypothesis metered_ok : metered I.

Lemma sample_at s clock total k l d :
  I d -> 100 * total < 0x100000000 - 100 -> zlen l <= k <= total -> 0 <= total_util l <= 100 * zlen l ->
  at_state s EP_STATE_MONITOR clock total k l d ->
  let '(m, d') := telemetry d in
  let '(s', b) := sample col uninit s in
  b = match m with Some m => violates m | None => false end /\
  at_state s' EP_STATE_MONITOR clock total k (l ++ option_list m) d'.
Proof.
  intros Hb Hfit Hl Hsum [Ha Hs [Hc Ho] [Ht Hd] Hu Hn Hdev].
  pose proof (telemetry_sample s) as Hts. rewrite Hdev in Hts. destruct (telemetry d) as [m d'] eqn:E. rewrite Hts.
  split; [done|]. destruct m as [m|]; cbn [option_list option_rect]; [|rewrite app_nil_r; by split].
  assert (Hm : 0 <= gpu_util_pct m <= 100) by apply (met_util _ metered_ok _ _ _ Hb E).
  assert (Hnn : 0 <= zlen l) by (unfold zlen; lia).
  assert (Hl1 : zlen (l ++ [m]) = zlen l + 1) by (unfold zlen; rewrite length_app; cbn [length]; lia).
  assert (Hu1 : total_util (l ++ [m]) = total_util l + gpu_util_pct m)
    by (rewrite total_util_app; change (total_util [m]) with (gpu_util_pct m + 0); lia).
  split; try done.
  - rewrite Hu1, <- (u32_small (total_util l + gpu_util_pct m)), <- Hu by (unfold is_u32; lia). done.
  - rewrite Hl1, <- (u32_small (zlen l + 1)), <- Hn by (unfold is_u32; lia). done.
Qed.

Lemma tick_monitor s clock total k l d :
  I d -> 100 * total < 0x100000000 - 100 -> 0 <= k -> zlen l <= k <= total ->
  0 <= total_util l <= 100 * zlen l ->
  at_state s EP_STATE_MONITOR clock total k l d ->
  let '(m, d') := telemetry d in
  if match m with Some m => violates m | None => false end
  then at_state (episode_tick act col uninit s) EP_STATE_ROLLBACK clock total k (l ++ option_list m) d'
  else at_state (episode_tick act col uninit s) (if total <=? k + 1 then EP_STATE_DECIDE else EP_STATE_MONITOR) clock total (k + 1)
         (l ++ option_list m) d'.
Proof.
  intros Hb Hfit Hk Hl Hsum Hat. pose proof (sample_at s clock total k l d Hb Hfit Hl Hsum Hat) as Hsa.
  pose proof Hat as [Ha Hs _ _ _ _ _]. unfold episode_tick. rewrite Ha, Hs. change (1 =? 0) with false. cbv iota.
  destruct (telemetry d) as [m d'], (sample col uninit s) as [s' b]. destruct Hsa as (-> & Hat').
  destruct (match m with Some m => violates m | None => false end).
  - destruct Hat' as [Ha' Hs' Hc' Ht' Hu' Hn' Hd']. by split.
  - cbv zeta. set (s3 := s'{{ current_episode ::= _ }}).
    destruct Hat' as [Ha' Hs' Hc' [Ht' Hd'] Hu' Hn' Hdev'].
    assert (E1 : monitor_steps_done (current_episode s3) = k + 1).
    { change (monitor_steps_done (current_episode s') +u 1 = k + 1). rewrite Hd'. apply u32_small. unfold is_u32. lia. }
    change (monitor_steps_total (current_episode s3)) with (monitor_steps_total (current_episode s')). rewrite Ht', E1.
    destruct (total <=? k + 1); by split.
Qed.

(** The monitoring of an episode. *)
Lemma ticks_watch n s clock total k l d :
  I d -> 100 * total < 0x100000000 - 100 -> 0 <= k -> zlen l <= k <= total -> 0 <= total_util l <= 100 * zlen l ->
  Z.max 1 total = k + Z.of_nat n -> at_state s EP_STATE_MONITOR clock total k l d -> (0 < n)%nat ->
  let '(v, l', d', t) := watch n d in
  (1 <= t <= n)%nat /\ (forall j, (j <= t)%nat -> episode_active (ticks j s) = 1) /\
  exists k', at_state (ticks t s) (if v then EP_STATE_ROLLBACK else EP_STATE_DECIDE) clock total k' (l ++ l') d'.
Proof.
  revert s k l d. induction n as [|n IH]; intros s k l d Hb Hfit Hk Hl Hsum Hn Hat Hpos; [lia|].
  pose proof (tick_monitor s clock total k l d Hb Hfit Hk Hl Hsum Hat) as Ht. cbn [watch].
  pose proof (met_read _ metered_ok d Hb) as Hb1. destruct (telemetry d) as [m d1] eqn:Et. cbn [snd] in Hb1. pose proof Hat as [Ha _ _ _ _ _ _].
  assert (Hshift : forall j, ticks (S j) s = ticks j (episode_tick act col uninit s))
    by (intros j; unfold ticks; by rewrite Nat.iter_succ_r).
  destruct (match m with Some m => violates m | None => false end).
  - split; [lia|]. split; [|exists k; exact Ht].
    intros j Hj. destruct j as [|[|j]]; [done| |lia]. apply Ht.
  - destruct (Z.leb_spec total (k + 1)) as [Hle|Hgt].
    + assert (n = O) as -> by lia. cbn [watch]. rewrite app_nil_r. split; [lia|]. split; [|exists (k + 1); exact Ht].
      intros j Hj. destruct j as [|[|j]]; [done| |lia]. apply Ht.
    + assert (Hl1 : zlen (l ++ option_list m) <= k + 1 /\ 0 <= total_util (l ++ option_list m) <= 100 * zlen (l ++ option_list m)).
      { destruct m as [m|]; cbn [option_list option_rect]; [|rewrite app_nil_r; unfold zlen in *; lia].
        rewrite total_util_app. change (total_util [m]) with (gpu_util_pct m + 0). unfold zlen in *. rewrite length_app.
        change (length [m]) with 1%nat. pose proof (met_util _ metered_ok _ _ _ Hb Et). lia. }
      specialize (IH _ (k + 1) (l ++ option_list m) d1 Hb1 Hfit ltac:(lia) ltac:(lia) ltac:(lia) ltac:(lia) Ht ltac:(lia)).
      destruct (watch n d1) as [[[v l'] d2] t]. destruct IH as (Htn & Hact & k' & Hat').
      split; [lia|]. split.
      * intros j Hj. destruct j as [|j]; [done|]. rewrite Hshift. apply Hact. lia.
      * exists k'. rewrite Hshift, app_assoc. exact Hat'.
Qed.
End Spec.

(** ** Any order of proposals and ticks *)

Section Reach.
Context {D : Type}.
Variables (act : option (actuator_t D)) (col : option (collector_t D)) (uninit : metric_snapshot_t).

Inductive engine_step : engine D -> engine D -> Prop :=
  | step_tick s : engine_step s (episode_tick act col uninit s)
  | step_propose s clock steps : engine_step s (snd (episode_propose clock steps s)).

(** Between two steps: the engine is idle or in one of the six states of an
    episode, never SAFE, and an episode goes back to 1000 MHz. *)
Definition engine_inv (s : engine D) : Prop :=
  let e := current_episode s in
  (episode_active s = 0 /\ state e = EP_STATE_IDLE \/
   episode_active s = 1 /\ state e <> EP_STATE_IDLE /\ state e <> EP_STATE_SAFE /\ original_clock e = 1000).

Lemma engine_step_inv s s' : engine_inv s -> engine_step s s' -> engine_inv s'.
Proof.
  intros Hi Hst. destruct Hst as [s|s clock steps].
  - unfold episode_tick. destruct Hi as [[Ha Hs]|(Ha & Hs1 & Hs2 & Ho)]; rewrite Ha; [by left|].
    change (1 =? 0) with false. cbv iota.
    destruct (state (current_episode s)) eqn:Es; try congruence.
    + by right.
    + by right.
    + rewrite apply_clock_eq. by right.
    + assert (Hsm : let s' := fst (sample col uninit s) in episode_active s' = 1 /\ original_clock (current_episode s') = 1000 /\
        state (current_episode s') = EP_STATE_MONITOR).
      { pose proof (telemetry_sample col uninit s) as Hts. destruct (telemetry col uninit (device s)) as [m d]. rewrite Hts.
        by destruct m. }
      destruct (sample col uninit s) as [s' b]. destruct Hsm as (A1 & A2 & A3). cbn [fst] in A1, A2, A3. destruct b; [by right|]. cbv zeta.
      match goal with |- context [if ?c then _ else _] => destruct c end; right; [by split|].
      split; [done|]. change (state (current_episode s') <> EP_STATE_IDLE /\ state (current_episode s') <> EP_STATE_SAFE /\
        original_clock (current_episode s') = 1000). rewrite A3. done.
    + cbv zeta. match goal with |- context [if 50 <? ?c then _ else _] => destruct (50 <? c) end; [by left|by right].
    + by left.
  - unfold episode_propose. destruct (episode_active s =? 0); [by right|exact Hi].
Qed.
End Reach.

Section Run.
Context {D : Type}.
Implicit Types (s : engine D) (d : D).
Variables (act : option (actuator_t D)) (col : option (collector_t D)) (uninit : metric_snapshot_t).

Lemma ticks_add a b s : ticks act col uninit (a + b) s = ticks act col uninit b (ticks act col uninit a s).
Proof. unfold ticks. by rewrite Nat.add_comm, Nat.iter_add. Qed.

(** The three ticks before the monitoring. *)
Lemma ticks_start s clock steps d :
  at_state s EP_STATE_PROPOSE clock steps 0 [] d ->
  at_state (ticks act col uninit 3 s) EP_STATE_MONITOR clock steps 0 [] (clocked act clock d) /\
  forall j, (j <= 3)%nat -> episode_active (ticks act col uninit j s) = 1.
Proof.
  intros Hp. destruct Hp as [Ha Hs Hc Ht Hu Hn Hdev].
  assert (H1 : at_state (ticks act col uninit 1 s) EP_STATE_VALIDATE clock steps 0 [] d).
  { change (ticks act col uninit 1 s) with (episode_tick act col uninit s). unfold episode_tick. rewrite Ha, Hs. by split. }
  assert (H2 : at_state (ticks act col uninit 2 s) EP_STATE_APPLY clock steps 0 [] d).
  { change (ticks act col uninit 2 s) with (episode_tick act col uninit (ticks act col uninit 1 s)).
    destruct H1 as [Ha1 Hs1 Hc1 Ht1 Hu1 Hn1 Hd1]. unfold episode_tick. rewrite Ha1, Hs1. by split. }
  pose proof (tick_apply act col uninit _ _ _ _ H2) as Hm. split; [exact Hm|].
  intros j Hj. destruct j as [|[|[|[|j]]]]; [done|apply H1|apply H2|apply Hm|lia].
Qed.

Lemma ticks_over n s d : over s d -> ticks act col uninit n s = s.
Proof.
  intros Ho. induction n as [|n IH]; [done|].
  change (episode_tick act col uninit (ticks act col uninit n s) = s). rewrite IH. unfold episode_tick. by rewrite (proj1 Ho).
Qed.

(** The engine is busy for [t] ticks, and then is done with the device at [d]. *)
Definition done_after t s d : Prop :=
  (forall j, (j < t)%nat -> let sj := ticks act col uninit j s in
     episode_active sj = 1 /\ forall c n, episode_propose c n sj = (-1, sj)) /\
  (forall j, (t <= j)%nat -> ticks act col uninit j s = ticks act col uninit t s) /\
  over (ticks act col uninit t s) d.

Lemma done_after_intro t s d :
  (forall j, (j < t)%nat -> episode_active (ticks act col uninit j s) = 1) -> over (ticks act col uninit t s) d ->
  done_after t s d.
Proof.
  intros Hj Ho. split; [|split; [|exact Ho]].
  - intros j Hjt. specialize (Hj j Hjt). cbv zeta. split; [done|]. intros c n. unfold episode_propose. by rewrite Hj.
  - intros j Hjt. replace j with (t + (j - t))%nat by lia. rewrite ticks_add. by apply (ticks_over _ _ d).
Qed.
End Run.

(** ** Properties *)



(** The boot episode of kmain.c on the mock device: 500 ticks at 1200 MHz average
    49% and are rejected. *)
Lemma mock_metered u : metered actuator_get_default collector_get_default u (fun g => 0 <= current_util g < 100).
Proof.
  split.
  - intros g m g' Hg. unfold telemetry, collector_get_default, mock_collector. cbn [get_snapshot]. unfold mock_get_snapshot. cbn [Z.eqb].
    intros [= <- _]. cbn [apply_update constant gpu_util_pct]. lia.
  - intros g Hg. unfold telemetry, collector_get_default, mock_collector. cbn [get_snapshot]. unfold mock_get_snapshot. cbn [snd].
    apply Z.mod_pos_bound. lia.
  - intros c g Hg. exact Hg.
Qed.

Definition no_snapshot : metric_snapshot_t := MetricSnapshot 0 0 0 0 0 0 0 0.


(** Between proposals and ticks in any order, the engine stays in an idle or a
    running episode, and it touches the device only there: a step of a reachable
    engine leaves the device alone, or reads one snapshot (while monitoring), or
    sets the clock, to the proposed one when it is applied and to 1000 MHz when it
    is rolled back. *)
Theorem engine_reachable {D} (act : option (actuator_t D)) (col : option (collector_t D)) (uninit : metric_snapshot_t)
    (s0 s s' : engine D) :
  rtc (engine_step act col uninit) (episode_init s0) s -> engine_step act col uninit s s' ->
  engine_inv s' /\
  let e := current_episode s in
  (device s' = device s \/
   episode_active s = 1 /\ state e = EP_STATE_MONITOR /\ device s' = snd (telemetry col uninit (device s)) \/
   episode_active s = 1 /\ state e = EP_STATE_APPLY /\ device s' = clocked act (proposed_clock e) (device s) \/
   episode_active s = 1 /\ state e = EP_STATE_ROLLBACK /\ device s' = clocked act 1000 (device s)).
Proof.
  intros Hr Hst. assert (Hi : engine_inv s).
  { remember (episode_init s0) as s1 eqn:E. assert (H1 : engine_inv s1) by (subst; by left). clear E Hst.
    induction Hr as [s|s s2 s3 Hs _ IH]; [done|]. apply IH. by apply (engine_step_inv act col uninit s). }
  split; [by apply (engine_step_inv act col uninit s)|]. cbv zeta. destruct Hst as [s|s clock steps].
  - unfold episode_tick. destruct Hi as [[Ha Hs]|(Ha & _ & _ & Ho)]; rewrite Ha; [by left|].
    change (1 =? 0) with false. cbv iota. destruct (state (current_episode s)) eqn:Es; try by left.
    + right; right; left. rewrite apply_clock_eq. done.
    + right; left. split; [done|]. split; [done|]. pose proof (telemetry_sample col uninit s) as Hts.
      destruct (telemetry col uninit (device s)) as [m d]. rewrite Hts. cbv zeta.
      destruct m as [m|]; [destruct (violates m)|]; [done| |]; match goal with |- context [if ?c then _ else _] => by destruct c end.
    + left. cbv zeta. match goal with |- context [if 50 <? ?c then _ else _] => by destruct (50 <? c) end.
    + do 3 right. rewrite apply_clock_eq, Ho. done.
  - left. unfold episode_propose. by destruct (negb (episode_active s =? 0)).
Qed.

Lemma engine_reachable_witness :
  let s0 := Engine (EpisodeCtx 0 EP_STATE_SAFE 0 0 no_snapshot no_snapshot 0 0 0 0 0) 7 mock_start in
  let s := snd (episode_propose 1800 1 (episode_init s0)) in
  engine_inv (episode_tick actuator_get_default collector_get_default no_snapshot s).
Proof.
  intros s0 s. destruct (engine_reachable actuator_get_default collector_get_default no_snapshot s0 s
    (episode_tick actuator_get_default collector_get_default no_snapshot s)) as [H _].
  - apply rtc_once. apply step_propose.
  - apply step_tick.
  - exact H.
Defined.
