(* ===== verification/Sched.v ===== *)
(** kernel/sched/sched_core.c: the job runner.  [execute_step] offloads a compute
    step to the other side of the window and waits for its answer, first polling,
    then sleeping between polls; [sched_run_job] runs the ready steps of a job one
    after the other, each in a span of the flight recorder, and checks the time it
    took against the contract.

    This is where the job graph, the flight recorder, the command channel, the
    clock and the timer meet.  There is one time-stamp counter: the recorder holds
    the clock and lends it to the channel.  The rest of the world is two
    parameters: [env], what the other side does to the window during a poll, and
    [wake], what the interrupt that ends a [hlt] does to the timer. *)

From S2P Require Import Prelude Mem KTime Trace Flightrec JobGraph Contracts IpcProto SharedHeap Interrupts Ring Ipc.

Record sched := Sched { sc_recorder : recorder; sc_ipc : ipc }.
#[export] Instance eta_sched : Eta sched := fun s => Sched (sc_recorder s) (sc_ipc s).

(** [sched_job_ctx_t]. *)
Record sched_job_ctx_t := SchedJobCtx { job : job_graph_t; contract : task_contract_t }.

(** What [execute_step] prints. *)
Inductive step_report :=
  | Simulated
  | SendFailed
  | StepComplete (rsp : response) (total_rtt_us server_us transport_us : Z)
  | StepTimeout.

Definition sc_clock (s : sched) : clock := fr_clock (sc_recorder s).
Definition set_clock (c : clock) (s : sched) : sched := s{{ sc_recorder ::= fun r => r{{ fr_clock := c }} }}.
Definition on_recorder (f : recorder -> recorder) (s : sched) : sched := s{{ sc_recorder ::= f }}.

(** The counter, and an operation of the channel. *)
Definition read_tsc (s : sched) : Z * sched := let '(t, c) := rdtsc (sc_clock s) in (t, set_clock c s).
Definition on_ipc {A} (f : ipc -> option (A * ipc)) (s : sched) : option (A * sched) :=
  '(x, i) ← f ((sc_ipc s){{ ip_clock := sc_clock s }});
  Some (x, set_clock (ip_clock i) (s{{ sc_ipc := i }})).

Section Runner.
(** What the other side does during the poll that follows the [n]th reading of the
    counter; what an interrupt does; the wake-ups a sleep may take. *)
Variables (env : nat -> Z -> mem -> mem) (wake : pic -> pic) (naps : nat).

Definition poll (s : sched) : option (option response * sched) :=
  on_ipc (ipc_poll_response (env (reads (sc_clock s)))) s.
Definition sleep_1ms (s : sched) : option sched :=
  p ← pit_sleep_ms wake naps 1 (ip_pic (sc_ipc s));
  Some (s{{ sc_ipc ::= fun i => i{{ ip_pic := p }} }}).

(** The loop that waits for the response. *)
Fixpoint wait_response (fuel : nat) (timeout_ms wait_start : Z) (s : sched) : option (option response * sched) :=
  if timeout_ms <=? 0 then Some (None, s)
  else
    match fuel with
    | O => None
    | S fuel =>
      '(r, s) ← poll s;
      match r with
      | Some rsp => Some (Some rsp, s)
      | None =>
        let '(t, s) := read_tsc s in
        let elapsed := cycles_to_usec (sc_clock s) (u64 (t - wait_start)) in
        if elapsed <? 100000 then wait_response fuel timeout_ms wait_start s
        else s ← sleep_1ms s; wait_response fuel (timeout_ms - 1) wait_start s
      end
    end.

Definition execute_step (fuel : nat) (st : job_step_t) (s : sched) : option (step_report * sched) :=
  match s_type st with
  | STEP_TYPE_COMPUTE =>
    let payload_id := if 0 <? num_inputs st then zget (inputs st) 0 else 0 in
    let '(start_cycles, s) := read_tsc s in
    '(r, s) ← on_ipc (ipc_send CMD_RUN_MODEL payload_id) s;
    if negb (r =? 0) then Some (SendFailed, s)
    else
      let '(wait_start, s) := read_tsc s in
      '(rsp, s) ← wait_response fuel 5000 wait_start s;
      match rsp with
      | Some rsp =>
        let '(end_cycles, s) := read_tsc s in
        let total_rtt_us := cycles_to_usec (sc_clock s) (u64 (end_cycles - start_cycles)) in
        let server_us := rs_timestamp rsp in
        let transport_us := if server_us <? total_rtt_us then total_rtt_us - server_us else 0 in
        Some (StepComplete rsp total_rtt_us server_us transport_us, s)
      | None => Some (StepTimeout, s)
      end
  | _ => Some (Simulated, s)
  end.

(** The check of the contract after a step. *)
Definition check_budget (job_id sid per_step_budget step_duration : Z) (r : recorder) : recorder :=
  if per_step_budget <? step_duration then
    flightrec_log TRACE_EVT_CONTRACT_BUDGET_EXCEED job_id sid (u32 step_duration) r
  else if u64 (per_step_budget * 80) / 100 <? step_duration then
    flightrec_log TRACE_EVT_CONTRACT_BUDGET_WARN job_id sid (u32 step_duration) r
  else r.

(** One step: the span, the work, the check. *)
Definition run_step (fuel : nat) (budget : Z) (j : job_graph_t) (sid : Z) (st : job_step_t) (s : sched) : option sched :=
  let '(span, r) := flightrec_begin_span TRACE_EVT_STEP_START (j_id j) (u32 sid) (sc_recorder s) in
  '(_, s) ← execute_step fuel st (s{{ sc_recorder := r }});
  let s := on_recorder (flightrec_end_span span TRACE_EVT_STEP_END) s in
  let step_duration := flightrec_last_duration (j_id j) (u32 sid) (sc_recorder s) in
  let per_step_budget := budget / num_steps j in
  Some (on_recorder (check_budget (j_id j) (u32 sid) per_step_budget step_duration) s).

Fixpoint run_steps (fuel : nat) (turns : nat) (budget : Z) (j : job_graph_t) (s : sched) : option (job_graph_t * sched) :=
  let sid := job_graph_next_ready j in
  if sid <? 0 then Some (j, s)
  else
    match turns with
    | O => None
    | S turns =>
      match find_step j (u32 sid) with
      | None => Some (j, s)
      | Some k =>
        s ← run_step fuel budget j sid (zget (steps j) k) s;
        run_steps fuel turns budget (job_graph_mark_completed (u32 sid) j) s
      end
    end.

Definition sched_run_job (fuel turns : nat) (ctx : sched_job_ctx_t) (s : sched)
    : option (trace_job_stats_t * job_graph_t * sched) :=
  let j := job ctx in
  let s := on_recorder (flightrec_log TRACE_EVT_JOB_SUBMIT (j_id j) 0 (num_steps j)) s in
  '(j, s) ← run_steps fuel turns (cpu_budget_us (contract ctx)) j s;
  let s := on_recorder (flightrec_log TRACE_EVT_JOB_COMPLETE (j_id j) 0 0) s in
  Some (flightrec_get_job_stats (j_id j) (sc_recorder s), j, s).
End Runner.

(** ** What a job leaves in the recorder *)

(** The events a reader sees, oldest first. *)
Definition rec_trace (r : recorder) : list trace_rec := rec_of <$> contents r.

(** The events of a step that took [d], under a budget. *)
Definition step_events (job_id budget sid d : Z) : list trace_rec :=
  [TraceRec (trace_code TRACE_EVT_STEP_START) job_id sid 0; TraceRec (trace_code TRACE_EVT_STEP_END) job_id sid d] ++
  (if budget <? d then [TraceRec (trace_code TRACE_EVT_CONTRACT_BUDGET_EXCEED) job_id sid d]
   else if u64 (budget * 80) / 100 <? d then [TraceRec (trace_code TRACE_EVT_CONTRACT_BUDGET_WARN) job_id sid d]
   else []).

Lemma lastn_app {A} n (l1 l2 : list A) : lastn n (lastn n l1 ++ l2) = lastn n (l1 ++ l2).
Proof.
  unfold lastn. rewrite !length_app, length_drop. destruct (decide (length l1 <= n)%nat) as [Hle|Hgt].
  - replace (length l1 - n)%nat with 0%nat by lia. cbn [drop]. do 2 f_equal. lia.
  - assert (H : forall a b : list A, length b = n ->
      drop (length (a ++ b) + length l2 - n) ((a ++ b) ++ l2) = drop (length b + length l2 - n) (b ++ l2)).
    { intros a b Hb. rewrite length_app, <- app_assoc, drop_app_ge by lia. f_equal. lia. }
    specialize (H (take (length l1 - n) l1) (drop (length l1 - n) l1)). rewrite take_drop in H.
    rewrite H by (rewrite length_drop; lia). f_equal. rewrite length_drop. lia.
Qed.

Lemma lastn_last {A} n (l : list A) x : lastn (S n) (l ++ [x]) = lastn n l ++ [x].
Proof.
  unfold lastn. rewrite length_app. cbn [length]. rewrite drop_app_le by lia. do 2 f_equal. lia.
Qed.

(** The recorder with room for [n] more events and a free span. *)
Record ready_recorder (n : Z) (r : recorder) : Prop := {
  rr_wf : fr_wf r;
  rr_room : fr_head r + n < 0x100000000;
  rr_slot : is_Some (find_range 0 MAX_ACTIVE_SPANS (fun i => active (zget (spans r) i) =? 0))
}.

Lemma log_trace ty job_id step ex n r :
  ready_recorder n r -> 1 <= n ->
  let r' := flightrec_log ty job_id step ex r in
  ready_recorder (n - 1) r' /\ rec_trace r' = lastn 256 (rec_trace r ++ [TraceRec (trace_code ty) job_id step ex]) /\
  spans r' = spans r.
Proof.
  intros [Hw Hh Hs] Hn. cbv zeta. pose proof (wf_head r Hw). split; [|split].
  - split; [by apply fr_wf_log| |by rewrite log_spans].
    rewrite fr_head_log by apply Hw. rewrite u32_small by (unfold is_u32; lia). lia.
  - apply recent_log; [done|lia].
  - apply log_spans.
Qed.

Lemma ready_clock n c r : ready_recorder n r -> ready_recorder n (r{{ fr_clock := c }}).
Proof. intros [Hw Hh Hs]. split; [by apply fr_wf_set_clock|done|done]. Qed.

Lemma trace_spans c sp r : rec_trace (r{{ fr_clock := c; spans := sp }}) = rec_trace r.
Proof. reflexivity. Qed.
Lemma trace_clock c r : rec_trace (r{{ fr_clock := c }}) = rec_trace r.
Proof. reflexivity. Qed.
Lemma trace_span sp r : rec_trace (r{{ spans := sp }}) = rec_trace r.
Proof. reflexivity. Qed.

(** What a span measures that is opened when the clock is [c0] and closed when it
    is [c], in microseconds. *)
Definition span_us (c0 c : clock) : Z := u32 (cycles_to_usec c (u64 (tsc c (reads c) - tsc c0 (reads c0)))).

(** A step's span: the event of its end carries the time it took, and its slot is
    free again. *)
Lemma span_trace job_id sid n c r :
  ready_recorder n r -> 2 <= n ->
  let '(h, r1) := flightrec_begin_span TRACE_EVT_STEP_START job_id sid r in
  let r2 := flightrec_end_span h TRACE_EVT_STEP_END (r1{{ fr_clock := c }}) in
  let d := span_us (fr_clock r) c in
  flightrec_last_duration job_id sid r2 = d /\ ready_recorder (n - 2) r2 /\
    rec_trace r2 = lastn 256 (rec_trace r ++
      [TraceRec (trace_code TRACE_EVT_STEP_START) job_id sid 0; TraceRec (trace_code TRACE_EVT_STEP_END) job_id sid d]).
Proof.
  intros [Hw Hh [slot Hs]] Hn. pose proof (begin_span_slot TRACE_EVT_STEP_START job_id sid r slot Hw Hs) as Hb.
  assert (Ht1 : let '(_, r1) := flightrec_begin_span TRACE_EVT_STEP_START job_id sid r in
    rec_trace r1 = lastn 256 (rec_trace r ++ [TraceRec (trace_code TRACE_EVT_STEP_START) job_id sid 0])).
  { unfold flightrec_begin_span. rewrite (proj2 (Z.eqb_neq _ 0)) by apply Hw. rewrite Hs.
    destruct (time_cycles (fr_clock r)) as [cyc c1]. set (sp := zset (spans r) slot _).
    assert (Hw' : fr_wf (r{{ fr_clock := c1; spans := sp }})) by (apply fr_wf_set_span; [done|]; unfold sp; rewrite zlen_zset; apply Hw).
    pose proof (recent_log TRACE_EVT_STEP_START job_id sid 0 _ Hw') as E. rewrite <- (trace_spans c1 sp r). apply E.
    change (fr_head r + 1 < 0x100000000). lia. }
  destruct (flightrec_begin_span TRACE_EVT_STEP_START job_id sid r) as [h r1].
  destruct Hb as (-> & Hw1 & Hh1 & Hsp1). pose proof (wf_head r Hw). rewrite u32_small in Hh1 by (unfold is_u32; lia).
  apply find_range_Some in Hs as (Hslot & _ & _). pose proof (wf_spans r Hw) as Hlen. unfold MAX_ACTIVE_SPANS in *.
  set (r1' := r1{{ fr_clock := c }}). cbv zeta.
  assert (Hsl : zget (spans r1') slot = ActiveSpan 1 job_id sid (tsc (fr_clock r) (reads (fr_clock r))) 3).
  { change (spans r1') with (spans r1). rewrite Hsp1. apply zget_zset_eq. lia. }
  unfold flightrec_end_span, MAX_ACTIVE_SPANS. rewrite !(proj2 (Z.eqb_neq _ 0)) by (lia || apply Hw1). cbn [orb].
  unfold int_of_u32. rewrite (proj2 (Z.ltb_lt _ 0x80000000)) by lia. replace (slot + 1 - 1) with slot by lia.
  rewrite (proj2 (Z.ltb_ge slot 0)), (proj2 (Z.leb_gt 16 slot)) by lia. rewrite Hsl. cbn [active orb Z.eqb].
  unfold time_cycles, rdtsc. cbv zeta. cbn [sp_job_id sp_step_id start_cycles].
  set (c1 := (fr_clock r1'){{ reads ::= S }}).
  change (u32 (cycles_to_usec c1 _)) with (span_us (fr_clock r) c). set (d := span_us (fr_clock r) c).
  set (r2 := r1'{{ fr_clock := c1 }}). assert (Hw2 : fr_wf r2) by (by apply fr_wf_set_clock, fr_wf_set_clock).
  assert (Ht2 : rec_trace (flightrec_log TRACE_EVT_STEP_END job_id sid d r2) =
    lastn 256 (rec_trace r1 ++ [TraceRec 4 job_id sid d])).
  { rewrite <- (trace_clock c r1), <- (trace_clock c1). apply (recent_log TRACE_EVT_STEP_END job_id sid d r2 Hw2).
    change (fr_head r1 + 1 < 0x100000000). lia. }
  pose proof (fr_wf_log TRACE_EVT_STEP_END job_id sid d r2 Hw2) as Hw3.
  assert (Hh3 : fr_head (flightrec_log TRACE_EVT_STEP_END job_id sid d r2) = fr_head r + 2).
  { rewrite fr_head_log by apply Hw2. change (fr_head r2) with (fr_head r1). rewrite Hh1. rewrite u32_small by (unfold is_u32; lia). lia. }
  pose proof (log_spans TRACE_EVT_STEP_END job_id sid d r2) as Hsp3.
  forget (flightrec_log TRACE_EVT_STEP_END job_id sid d r2) as r3.
  set (r4 := r3{{ spans := _ }}).
  assert (Hw4 : fr_wf r4).
  { destruct Hw3 as [W1 W2 W3 W4]. split; [done|done| |done]. change (spans r4) with (zset (spans r3) slot ((zget (spans r3) slot){{ active := 0 }})).
    rewrite zlen_zset. exact W3. }
  assert (Hlast : exists l e, contents r4 = l ++ [e] /\ rec_of e = TraceRec 4 job_id sid d).
  { change (contents r4) with (contents r3). unfold rec_trace in Ht2. rewrite (lastn_last 255) in Ht2.
    destruct (contents r3) as [|e3 l0 _] using rev_ind.
    { by apply app_cons_not_nil in Ht2. }
    exists l0, e3. split; [done|]. rewrite fmap_app in Ht2.
    apply app_inj_2 in Ht2 as [_ Ht2]; [|done]. apply (f_equal head) in Ht2. exact (inj Some _ _ Ht2). }
  split; [|split].
  - rewrite last_duration_find by done. destruct Hlast as (l & e & -> & He). rewrite reverse_snoc. cbn [List.find].
    unfold rec_of in He. injection He as E1 E2 E3 E4.
    unfold is_step_end. rewrite E1, E2, E3, !Z.eqb_refl. exact E4.
  - split; [done|change (fr_head r3 + (n - 2) < 0x100000000); lia|].
    apply (find_range_is_Some 0 16 _ slot); [lia|].
    change (spans r4) with (zset (spans r3) slot ((zget (spans r3) slot){{ active := 0 }})).
    rewrite zget_zset_eq; [done|]. rewrite Hsp3. change (spans r2) with (spans r1). rewrite Hsp1, zlen_zset. lia.
  - unfold r4. rewrite trace_span, Ht2, Ht1, lastn_app, <- app_assoc. reflexivity.
Qed.

Lemma trace_short r : fr_wf r -> lastn 256 (rec_trace r ++ []) = rec_trace r.
Proof.
  intros Hw. rewrite app_nil_r, lastn_all; [done|]. pose proof (zlen_contents r Hw) as Hl.
  unfold rec_trace, zlen in *. rewrite length_fmap. lia.
Qed.

(** The contract's check, after a step of duration [d]. *)
Lemma budget_trace job_id sid budget d n r :
  ready_recorder n r -> 1 <= n -> is_u32 d ->
  let r' := check_budget job_id sid budget d r in
  ready_recorder (n - 1) r' /\
  rec_trace r' = lastn 256 (rec_trace r ++
    (if budget <? d then [TraceRec (trace_code TRACE_EVT_CONTRACT_BUDGET_EXCEED) job_id sid d]
     else if u64 (budget * 80) / 100 <? d then [TraceRec (trace_code TRACE_EVT_CONTRACT_BUDGET_WARN) job_id sid d]
     else [])).
Proof.
  intros Hr Hn Hd. unfold check_budget. rewrite (u32_small d) by done.
  destruct (budget <? d); [|destruct (u64 (budget * 80) / 100 <? d)].
  - destruct (log_trace TRACE_EVT_CONTRACT_BUDGET_EXCEED job_id sid d n r Hr Hn) as (H1 & H2 & _). by split.
  - destruct (log_trace TRACE_EVT_CONTRACT_BUDGET_WARN job_id sid d n r Hr Hn) as (H1 & H2 & _). by split.
  - destruct Hr as [Hw Hh Hs]. split; [split; [done|lia|done]|]. by rewrite trace_short.
Qed.

Section RunnerTrace.
Variables (env : nat -> Z -> mem -> mem) (wake : pic -> pic) (naps : nat).

(** Offloading a step moves the clock and no more of the recorder. *)
Definition same_recorder (s s' : sched) : Prop := exists c, sc_recorder s' = (sc_recorder s){{ fr_clock := c }}.

#[local] Instance same_recorder_preorder : PreOrder same_recorder.
Proof.
  split.
  - intros s. exists (fr_clock (sc_recorder s)). by destruct s as [[]].
  - intros s1 s2 s3 [c1 E1] [c2 E2]. exists c2. rewrite E2, E1. by destruct (sc_recorder s1).
Qed.

Lemma read_tsc_recorder s : same_recorder s (snd (read_tsc s)).
Proof. unfold read_tsc. destruct (rdtsc (sc_clock s)) as [t c]. by exists c. Qed.

Lemma on_ipc_recorder {A} (f : ipc -> option (A * ipc)) s x s' : on_ipc f s = Some (x, s') -> same_recorder s s'.
Proof.
  unfold on_ipc. destruct (f _) as [[y i]|]; [|done]. cbn [mbind option_bind]. intros [= _ <-]. by exists (ip_clock i).
Qed.

Lemma sleep_recorder s s' : sleep_1ms wake naps s = Some s' -> same_recorder s s'.
Proof.
  unfold sleep_1ms. destruct (pit_sleep_ms _ _ _ _) as [p|]; [|done]. cbn [mbind option_bind]. intros [= <-].
  exists (fr_clock (sc_recorder s)). by destruct s as [[]].
Qed.

Lemma wait_recorder fuel tmo start s r s' :
  wait_response env wake naps fuel tmo start s = Some (r, s') -> same_recorder s s'.
Proof.
  revert tmo s; induction fuel as [|fuel IH]; intros tmo s; cbn [wait_response];
    (destruct (tmo <=? 0); [by intros [= _ <-]|]); [done|].
  destruct (poll env s) as [[o s1]|] eqn:E1; [|done]. cbn [mbind option_bind].
  pose proof (on_ipc_recorder _ _ _ _ E1) as H1. destruct o as [rsp|]; [by intros [= _ <-]|].
  pose proof (read_tsc_recorder s1) as H2. destruct (read_tsc s1) as [t s2]. cbn [snd] in H2. cbv zeta.
  destruct (_ <? 100000).
  - intros H3. etransitivity; [exact H1|]. etransitivity; [exact H2|]. by apply (IH tmo).
  - destruct (sleep_1ms wake naps s2) as [s3|] eqn:E3; [|done]. cbn [mbind option_bind]. intros H4.
    etransitivity; [exact H1|]. etransitivity; [exact H2|]. etransitivity; [by apply sleep_recorder|]. by apply (IH (tmo - 1)).
Qed.

Lemma execute_recorder fuel st s rep s' :
  execute_step env wake naps fuel st s = Some (rep, s') -> same_recorder s s'.
Proof.
  unfold execute_step. destruct (s_type st); try by intros [= _ <-].
  pose proof (read_tsc_recorder s) as H1. destruct (read_tsc s) as [t s1]. cbn [snd] in H1. cbv zeta.
  destruct (on_ipc _ s1) as [[r s2]|] eqn:E2; [|done]. cbn [mbind option_bind]. pose proof (on_ipc_recorder _ _ _ _ E2) as H2.
  destruct (negb (r =? 0)); [intros [= _ <-]; by transitivity s1|].
  pose proof (read_tsc_recorder s2) as H3. destruct (read_tsc s2) as [t3 s3]. cbn [snd] in H3.
  destruct (wait_response _ _ _ _ _ _ s3) as [[o s4]|] eqn:E4; [|done]. cbn [mbind option_bind].
  pose proof (wait_recorder _ _ _ _ _ _ E4) as H4.
  assert (H14 : same_recorder s s4) by (transitivity s1; [done|]; transitivity s2; [done|]; by transitivity s3).
  destruct o as [rsp|]; [|by intros [= _ <-]].
  pose proof (read_tsc_recorder s4) as H5. destruct (read_tsc s4) as [t5 s5]. cbn [snd] in H5. intros [= _ <-]. by transitivity s4.
Qed.

(** The state in which a step's work is done and its span still open. *)
Definition worked fuel (j : job_graph_t) sid st s : option sched :=
  let '(_, r) := flightrec_begin_span TRACE_EVT_STEP_START (j_id j) (u32 sid) (sc_recorder s) in
  '(_, s) ← execute_step env wake naps fuel st (s{{ sc_recorder := r }});
  Some s.

Lemma run_step_trace fuel budget j sid st s s' n :
  ready_recorder n (sc_recorder s) -> 3 <= n ->
  run_step env wake naps fuel budget j sid st s = Some s' ->
  exists s2, worked fuel j sid st s = Some s2 /\ ready_recorder (n - 3) (sc_recorder s') /\
    rec_trace (sc_recorder s') = lastn 256 (rec_trace (sc_recorder s) ++
      step_events (j_id j) (budget / num_steps j) (u32 sid) (span_us (sc_clock s) (sc_clock s2))).
Proof.
  intros Hr Hn. unfold run_step, worked.
  pose proof (fun c => span_trace (j_id j) (u32 sid) n c (sc_recorder s) Hr ltac:(lia)) as Hsp.
  destruct (flightrec_begin_span TRACE_EVT_STEP_START (j_id j) (u32 sid) (sc_recorder s)) as [span r1].
  destruct (execute_step _ _ _ _ _ _) as [[rep s2]|] eqn:E; [|done]. cbn [mbind option_bind].
  apply execute_recorder in E as [c Ec]. change (sc_recorder (s{{ sc_recorder := r1 }})) with r1 in Ec.
  destruct (Hsp c) as (Hlast & Hr2 & Ht). cbv zeta.
  assert (Ec2 : sc_clock s2 = c) by (unfold sc_clock; by rewrite Ec).
  change (fr_clock (sc_recorder s)) with (sc_clock s) in Hlast, Ht. set (d := span_us (sc_clock s) c) in *.
  change (sc_recorder (on_recorder ?f s2)) with (f (sc_recorder s2)). rewrite Ec, Hlast. intros [= <-].
  destruct (budget_trace (j_id j) (u32 sid) (budget / num_steps j) d (n - 2) _ Hr2 ltac:(lia) (is_u32_u32 _)) as (Hr3 & Ht3).
  exists s2. split; [done|]. rewrite Ec2. fold d. rewrite <- Ec in Hr3, Ht3, Ht.
  change (sc_recorder (on_recorder ?f (on_recorder ?g s2))) with (f (g (sc_recorder s2))).
  split; [by replace (n - 3) with (n - 2 - 1) by lia|]. rewrite Ht3, Ht, lastn_app, <- app_assoc. reflexivity.
Qed.

(** The events of the steps [l] with the durations [ds]. *)
Definition steps_events (job_id budget : Z) (l ds : list Z) : list trace_rec :=
  concat (zip_with (step_events job_id budget) l ds).

Lemma mark_same_id j sid : j_id (job_graph_mark_completed sid j) = j_id j /\ num_steps (job_graph_mark_completed sid j) = num_steps j.
Proof.
  unfold job_graph_mark_completed. destruct (find_step j sid) as [k|]; [|done].
  set (j1 := upd_step k _ j). assert (H1 : j_id j1 = j_id j /\ num_steps j1 = num_steps j) by done. clearbody j1.
  destruct (decide (0 <= num_steps j1)) as [Hn|Hn]; [|by rewrite for_range_empty by lia].
  apply (for_range_ind (fun _ j' => j_id j' = j_id j /\ num_steps j' = num_steps j)); [done|done|].
  intros i j' _ Hj'. unfold refresh_step. destruct (negb _); [done|]. destruct (all_done j' _); done.
Qed.

(** The readings of the counter that bound the work of each step: that of the
    moment its span is opened, and that of the moment its work has returned. *)
Fixpoint step_spans fuel turns budget (j : job_graph_t) s : option (list (nat * nat)) :=
  let sid := job_graph_next_ready j in
  if sid <? 0 then Some []
  else
    match turns with
    | O => None
    | S turns =>
      match find_step j (u32 sid) with
      | None => Some []
      | Some k =>
        s2 ← worked fuel j sid (zget (steps j) k) s;
        s' ← run_step env wake naps fuel budget j sid (zget (steps j) k) s;
        l ← step_spans fuel turns budget (job_graph_mark_completed (u32 sid) j) s';
        Some ((reads (sc_clock s), reads (sc_clock s2)) :: l)
      end
    end.
End RunnerTrace.

(** The time between two readings of a counter, in microseconds. *)
Definition elapsed_us (c : clock) (span : nat * nat) : Z :=
  u32 ((tsc c (snd span) - tsc c (fst span)) / cycles_per_usec c).

(** ** The example *)

(** A job of one compute step and one that depends on it. *)
Definition demo_job : job_graph_t :=
  let j := job_graph_init 7 empty_job in
  let j := snd (job_graph_add_step 1 STEP_TYPE_COMPUTE j) in
  let j := snd (job_graph_add_step 2 STEP_TYPE_IO j) in
  snd (job_graph_add_dep 2 1 j).
Definition demo_ctx : sched_job_ctx_t :=
  SchedJobCtx demo_job (TaskContract 1000 0 0 CONTRACT_PRIORITY_NORMAL 0 0 0 0 0 0 CONTRACT_STATE_OK 7).

(** ** The job ends *)

(** The clock has been read up to [k] more times. *)
Definition advanced (k : Z) (c c' : clock) : Prop :=
  exists n, c' = c{{ reads := n }} /\ (reads c <= n)%nat /\ Z.of_nat n <= Z.of_nat (reads c) + k.

Lemma advanced_refl k c : 0 <= k -> advanced k c c.
Proof. intros Hk. exists (reads c). split; [by destruct c|lia]. Qed.
Lemma advanced_read c : advanced 1 c (snd (rdtsc c)).
Proof. exists (S (reads c)). split; [done|lia]. Qed.
Lemma advanced_trans a b c1 c2 c3 : advanced a c1 c2 -> advanced b c2 c3 -> advanced (a + b) c1 c3.
Proof. intros (n & -> & ? & ?) (m & -> & ? & ?). exists m. cbn in *. split; [done|lia]. Qed.
Lemma advanced_mono a b c1 c2 : advanced a c1 c2 -> a <= b -> advanced b c1 c2.
Proof. intros (n & -> & ? & ?) ?. exists n. split; [done|lia]. Qed.
Lemma advanced_usec c : cycles_per_usec c <> 0 -> advanced 1 c (snd (time_usec c)).
Proof. intros Hc. unfold time_usec. rewrite (proj2 (Z.eqb_neq _ 0)) by done. apply advanced_read. Qed.

(** The counter moves on at every one of the next [k] readings. *)
Definition ticking (k : Z) (c : clock) : Prop :=
  forall n, (reads c <= n)%nat -> Z.of_nat n < Z.of_nat (reads c) + k -> tsc c n < tsc c (S n).

Lemma ticking_advanced a k c c' : advanced a c c' -> ticking k c -> ticking (k - a) c'.
Proof. intros (n & -> & ? & ?) Ht m Hm1 Hm2. cbn in *. apply Ht; lia. Qed.
Lemma ticking_mono a b c : ticking b c -> a <= b -> ticking a c.
Proof. intros Ht Hab n Hn1 Hn2. apply Ht; lia. Qed.

Section Ends.
(** The base of the window, the two parameters, and the timer's rate. *)
Variables (base hz : Z) (env : nat -> Z -> mem -> mem) (wake : pic -> pic) (naps : nat).
(** The other side keeps the rings a valid pair of rings; an interrupt is a timer
    tick; a sleep is long enough for its ticks. *)
Hypothesis env_ok : forall n i m, window_ok base m -> window_ok base (env n i m).
Hypothesis wake_ok : forall p, timer_ticks (wake p) = timer_ticks p +u 1 /\ tick_rate_hz (wake p) = tick_rate_hz p.
Hypothesis naps_ok : Z.max 1 (u32 hz / 1000) <= Z.of_nat naps.

Lemma sleep_loop_ends start ticks k fuel p :
  0 <= k -> ticks < 0x100000000 -> u32 (timer_ticks p - start) = k -> ticks <= k + Z.of_nat fuel ->
  exists p', sleep_loop wake start ticks fuel p = Some p' /\ tick_rate_hz p' = tick_rate_hz p.
Proof.
  revert k p; induction fuel as [|fuel IH]; intros k p Hk Ht Hs Hf; cbn [sleep_loop]; unfold timer_get_ticks; rewrite Hs;
    destruct (Z.ltb_spec k ticks); try (exists p; done); [lia|].
  destruct (wake_ok p) as [Ew Er]. rewrite <- Er. apply (IH (k + 1)); [lia|lia| |lia].
  rewrite Ew. rewrite <- (u32_small (k + 1)) by (unfold is_u32; lia). rewrite <- Hs. clear. cint.
Qed.

Lemma sleep_ends p : tick_rate_hz p = hz -> exists p', pit_sleep_ms wake naps 1 p = Some p' /\ tick_rate_hz p' = hz.
Proof.
  intros Hz. unfold pit_sleep_ms. rewrite Hz. destruct (hz =? 0); [by exists p|]. cbv zeta.
  replace (1 *u hz) with (u32 hz) by (unfold u32; f_equal; lia).
  destruct (sleep_loop_ends (timer_get_ticks p) (if u32 hz / 1000 =? 0 then 1 else u32 hz / 1000) 0 naps p) as (p' & E & Er).
  - lia.
  - pose proof (is_u32_u32 hz). unfold is_u32 in *. destruct (_ =? 0); [lia|]. Z.div_mod_to_equations. lia.
  - unfold timer_get_ticks. by rewrite Z.sub_diag.
  - destruct (Z.eqb_spec (u32 hz / 1000) 0); lia.
  - exists p'. rewrite Er. done.
Qed.

(** What the runner keeps. *)
Record runner_ok (rate : Z) (s : sched) : Prop := {
  ro_ipc : ipc_ok base ((sc_ipc s){{ ip_clock := sc_clock s }});
  ro_rate : cycles_per_usec (sc_clock s) = rate;
  ro_hz : tick_rate_hz (ip_pic (sc_ipc s)) = hz
}.

Lemma runner_clock rate s : runner_ok rate s -> clock_ok (sc_clock s).
Proof. intros [Hi _ _]. apply (io_clock _ _ Hi). Qed.

Lemma runner_rec rate s r k :
  runner_ok rate s -> clock_ok (fr_clock r) -> advanced k (sc_clock s) (fr_clock r) -> runner_ok rate (s{{ sc_recorder := r }}).
Proof.
  intros [[] Hr Hz] Hc (n & E & _). split; [|change (cycles_per_usec (fr_clock r) = rate); by rewrite E|done].
  by split.
Qed.

Lemma read_tsc_ok rate s :
  runner_ok rate s -> runner_ok rate (snd (read_tsc s)) /\ fst (read_tsc s) = tsc (sc_clock s) (reads (sc_clock s)) /\
  sc_clock (snd (read_tsc s)) = snd (rdtsc (sc_clock s)).
Proof.
  intros Hr. unfold read_tsc, rdtsc. split; [|done].
  apply (runner_rec rate s _ 1 Hr); [|apply advanced_read]. apply (clock_ok_read (sc_clock s)), (runner_clock _ _ Hr).
Qed.

Lemma poll_keeps e i r i' :
  ipc_poll_response e i = Some (r, i') -> ip_clock i' = ip_clock i /\ ip_pic i' = ip_pic i.
Proof.
  unfold ipc_poll_response. destruct (_ || _); [intros [= _ <-]; done|]. cbv zeta.
  generalize (spin_wait e (rsp_ring i) POLL_SPINS 0). intros g.
  destruct (_ =? _); [intros [= _ <-]; done|]. destruct (_ =? 0); [done|]. intros [= _ <-]. done.
Qed.

Lemma poll_ends e i :
  (forall k m, window_ok base m -> window_ok base (e k m)) -> ipc_ok base i ->
  exists r i', ipc_poll_response e i = Some (r, i') /\ ipc_ok base i' /\ ip_clock i' = ip_clock i /\ ip_pic i' = ip_pic i.
Proof.
  intros He Hi. pose proof (io_win _ _ Hi) as Hw.
  assert (Hsp : forall n k m, window_ok base m -> window_ok base (spin_wait e (rsp_ring i) n k m)).
  { induction n as [|n IH]; intros k m Hm; [done|]. cbn [spin_wait]. destruct (negb _); [done|]. by apply IH, He. }
  set (i1 := on_win (spin_wait e (rsp_ring i) POLL_SPINS 0) i).
  assert (Hi1 : ipc_ok base i1) by (destruct Hi; split; try done; by apply Hsp).
  destruct (ipc_poll_spec base i1 Hi1) as (r & i' & E & Hok & _).
  assert (Eq : ipc_poll_response e i = ipc_poll_response (fun _ m => m) i1).
  { unfold ipc_poll_response. pose proof (io_base _ _ Hi). change (rsp_ring i1) with (rsp_ring i).
    rewrite (io_rsp _ _ Hi), (wn_rsp_magic _ _ Hw), (wn_rsp_magic _ _ (io_win _ _ Hi1)).
    rewrite (proj2 (Z.eqb_neq _ 0)) by lia. rewrite Z.eqb_refl. cbn [negb orb]. rewrite <- (io_rsp _ _ Hi). fold i1.
    assert (Es : on_win (spin_wait (fun _ m => m) (rsp_ring i) POLL_SPINS 0) i1 = i1).
    { clearbody i1. destruct i1 as [hp]; unfold on_win. cbn -[spin_wait POLL_SPINS]. destruct hp.
      cbn -[spin_wait POLL_SPINS]. by rewrite spin_idle. }
    by rewrite Es. }
  exists r, i'. rewrite Eq. split; [exact E|]. split; [exact Hok|].
  rewrite <- Eq in E. exact (poll_keeps e i r i' E).
Qed.

Lemma poll_runner rate s :
  runner_ok rate s -> exists r s', poll env s = Some (r, s') /\ runner_ok rate s' /\ sc_clock s' = sc_clock s.
Proof.
  intros [Hi Hr Hz]. unfold poll, on_ipc.
  destruct (poll_ends (env (reads (sc_clock s))) _ (env_ok _) Hi) as (r & i' & -> & Hok & Ec & Ep).
  cbn [mbind option_bind]. exists r, (set_clock (ip_clock i') (s{{ sc_ipc := i' }})). split; [done|].
  change (ip_clock i' = sc_clock s) in Ec. change (ip_pic i' = ip_pic (sc_ipc s)) in Ep.
  split; [|exact Ec]. split; [|change (cycles_per_usec (ip_clock i') = rate); by rewrite Ec|change (tick_rate_hz (ip_pic i') = hz); by rewrite Ep].
  change (ipc_ok base (i'{{ ip_clock := ip_clock i' }})). apply ipc_ok_clock; [done|apply (io_clock _ _ Hok)].
Qed.

Lemma sleep_runner rate s :
  runner_ok rate s -> exists s', sleep_1ms wake naps s = Some s' /\ runner_ok rate s' /\ sc_clock s' = sc_clock s.
Proof.
  intros [Hi Hr Hz]. unfold sleep_1ms. destruct (sleep_ends _ Hz) as (p & -> & Ep). cbn [mbind option_bind].
  eexists. split; [reflexivity|]. split; [|done]. split; [by destruct Hi|done|done].
Qed.

(** What is left of the wait: naps, and cycles of the first 100 ms. *)
Definition spin_left (rate start : Z) (c : clock) : Z := Z.max 0 (100000 * rate - (tsc c (reads c) - start)).

Lemma elapsed_spec rate c start :
  clock_ok c -> cycles_per_usec c = rate -> 0 <= start <= tsc c (reads c) ->
  (cycles_to_usec c (u64 (tsc c (reads c) - start)) <? 100000) = (tsc c (reads c) - start <? 100000 * rate).
Proof.
  intros [Hm Hr _] Ec Hs. pose proof (Hm (reads c) (reads c) (le_n _)). unfold cycles_to_usec.
  rewrite (proj2 (Z.eqb_neq _ 0)), Ec by lia. rewrite u64_small by (unfold is_u64; lia). rewrite Ec in Hr.
  destruct (Z.ltb_spec (tsc c (reads c) - start) (100000 * rate)) as [Hc|Hc].
  - apply Z.ltb_lt. apply Z.div_lt_upper_bound; lia.
  - apply Z.ltb_ge. apply Z.div_le_lower_bound; lia.
Qed.

Lemma wait_ends rate fuel tmo start s :
  runner_ok rate s -> 0 <= start <= tsc (sc_clock s) (reads (sc_clock s)) -> 0 <= tmo ->
  ticking (tmo + spin_left rate start (sc_clock s)) (sc_clock s) ->
  tmo + spin_left rate start (sc_clock s) <= Z.of_nat fuel ->
  exists r s', wait_response env wake naps fuel tmo start s = Some (r, s') /\ runner_ok rate s' /\
    advanced (tmo + spin_left rate start (sc_clock s)) (sc_clock s) (sc_clock s').
Proof.
  revert tmo s; induction fuel as [|fuel IH]; intros tmo s Hok Hst Htmo Htk Hf; cbn [wait_response].
  - assert (tmo = 0 /\ spin_left rate start (sc_clock s) = 0) as [-> ->] by (unfold spin_left in *; lia).
    exists None, s. split; [done|]. split; [done|]. by apply advanced_refl.
  - destruct (Z.leb_spec tmo 0).
    { exists None, s. split; [done|]. split; [done|]. apply advanced_refl. unfold spin_left. lia. }
    destruct (poll_runner rate s Hok) as (r & s1 & -> & Hok1 & Ec1). cbn [mbind option_bind].
    destruct r as [rsp|].
    { exists (Some rsp), s1. split; [done|]. split; [done|]. rewrite Ec1. apply advanced_refl. unfold spin_left. lia. }
    destruct (read_tsc_ok rate s1 Hok1) as (Hok2 & Et & Ec2).
    destruct (read_tsc s1) as [t s2]. cbn [fst snd] in *. subst t. cbv zeta. rewrite Ec1 in *.
    pose proof (runner_clock _ _ Hok) as Hck. pose proof (ro_rate _ _ Hok) as Hrate.
    set (c := sc_clock s) in *.
    assert (Hel : cycles_to_usec (sc_clock s2) (u64 (tsc c (reads c) - start)) = cycles_to_usec c (u64 (tsc c (reads c) - start)))
      by (rewrite Ec2; reflexivity).
    rewrite Hel, (elapsed_spec rate) by done.
    assert (Hlt : tsc c (reads c) < tsc c (S (reads c))) by (apply Htk; [lia|unfold spin_left; lia]).
    assert (Hnow : tsc (sc_clock s2) (reads (sc_clock s2)) = tsc c (S (reads c))) by (rewrite Ec2; reflexivity).
    assert (Hadv : advanced 1 c (sc_clock s2)) by (rewrite Ec2; apply advanced_read).
    destruct (Z.ltb_spec (tsc c (reads c) - start) (100000 * rate)) as [Hsp|Hsp].
    + assert (Hdec : spin_left rate start (sc_clock s2) + 1 <= spin_left rate start c) by (unfold spin_left; rewrite Hnow; lia).
      destruct (IH tmo s2 Hok2) as (r & s' & -> & Hok' & Ha'); [lia|lia| |lia|].
      { apply (ticking_mono _ (tmo + spin_left rate start c - 1)); [|lia]. by apply (ticking_advanced 1 _ c). }
      exists r, s'. split; [done|]. split; [done|].
      apply (advanced_mono (1 + (tmo + spin_left rate start (sc_clock s2)))); [by apply (advanced_trans _ _ _ (sc_clock s2))|lia].
    + destruct (sleep_runner rate s2 Hok2) as (s3 & -> & Hok3 & Ec3). cbn [mbind option_bind].
      assert (Hle : spin_left rate start (sc_clock s2) <= spin_left rate start c) by (unfold spin_left; rewrite Hnow; lia).
      rewrite <- Ec3 in Hnow, Hadv, Hle.
      destruct (IH (tmo - 1) s3 Hok3) as (r & s' & -> & Hok' & Ha'); [lia|lia| |lia|].
      { apply (ticking_mono _ (tmo + spin_left rate start c - 1)); [|lia]. by apply (ticking_advanced 1 _ c). }
      exists r, s'. split; [done|]. split; [done|].
      apply (advanced_mono (1 + (tmo - 1 + spin_left rate start (sc_clock s3)))); [by apply (advanced_trans _ _ _ (sc_clock s3))|lia].
Qed.

Lemma send_runner rate s cmd payload :
  runner_ok rate s -> is_u16 cmd -> is_u32 payload ->
  exists r s', on_ipc (ipc_send cmd payload) s = Some (r, s') /\ runner_ok rate s' /\ advanced 1 (sc_clock s) (sc_clock s').
Proof.
  intros [Hi Hr Hz] Hc Hp. unfold on_ipc, ipc_send.
  destruct (ipc_send_spec base _ cmd payload 0 Hi Hc Hp ltac:(done)) as (r & i' & E & Hok & _). rewrite E. cbn [mbind option_bind].
  assert (Hadv : advanced 1 (sc_clock s) (ip_clock i') /\ ip_pic i' = ip_pic (sc_ipc s)).
  { unfold ipc_send_flags in E. cbv zeta in E. destruct (_ =? 0) in E; [injection E as _ <-; split; [by apply advanced_refl|done]|].
    destruct (_ =? 0) in E; [done|]. destruct (_ =? _) in E; [injection E as _ <-; split; [by apply advanced_refl|done]|].
    change (ip_clock ((sc_ipc s){{ ip_clock := sc_clock s }})) with (sc_clock s) in E.
    pose proof (advanced_usec (sc_clock s)) as Ha. rewrite Hr in Ha.
    pose proof (ck_rate _ (io_clock _ _ Hi)) as Hrt. change (0 < cycles_per_usec (sc_clock s) < 0x100000000) in Hrt. rewrite Hr in Hrt.
    specialize (Ha ltac:(lia)). destruct (time_usec (sc_clock s)) as [now c]. injection E as _ <-. done. }
  destruct Hadv as [Hadv Ep]. exists r, (set_clock (ip_clock i') (s{{ sc_ipc := i' }})). split; [done|].
  split; [|exact Hadv]. split.
  - change (ipc_ok base (i'{{ ip_clock := ip_clock i' }})). apply ipc_ok_clock; [done|apply (io_clock _ _ Hok)].
  - destruct Hadv as (n & En & _). change (cycles_per_usec (ip_clock i') = rate). by rewrite En.
  - change (tick_rate_hz (ip_pic i') = hz). by rewrite Ep.
Qed.

(** The readings of the counter a step may take. *)
Definition step_cost (rate : Z) : Z := 5013 + 100000 * rate.

Lemma execute_ends rate fuel st s :
  runner_ok rate s -> is_u32 (zget (inputs st) 0) -> ticking (step_cost rate - 8) (sc_clock s) ->
  5000 + 100000 * rate <= Z.of_nat fuel ->
  exists rep s', execute_step env wake naps fuel st s = Some (rep, s') /\ runner_ok rate s' /\
    advanced (step_cost rate - 8) (sc_clock s) (sc_clock s').
Proof.
  intros Hok Hin Htk Hf. pose proof (ck_rate _ (runner_clock _ _ Hok)) as Hrt. rewrite (ro_rate _ _ Hok) in Hrt.
  unfold execute_step, step_cost in *. destruct (s_type st).
  2-4: exists Simulated, s; split; [done|]; split; [done|]; apply advanced_refl; lia.
  destruct (read_tsc_ok rate s Hok) as (Hok1 & _ & Ec1). destruct (read_tsc s) as [t s1]. cbn [fst snd] in *. cbv zeta.
  assert (Ha1 : advanced 1 (sc_clock s) (sc_clock s1)) by (rewrite Ec1; apply advanced_read).
  destruct (send_runner rate s1 CMD_RUN_MODEL (if 0 <? num_inputs st then zget (inputs st) 0 else 0) Hok1) as (r & s2 & -> & Hok2 & Ha2);
    [done|by destruct (0 <? num_inputs st)|]. cbn [mbind option_bind].
  pose proof (advanced_trans _ _ _ _ _ Ha1 Ha2) as Ha12.
  destruct (negb (r =? 0)); [exists SendFailed, s2; split; [done|]; split; [done|]; apply (advanced_mono _ _ _ _ Ha12); lia|].
  destruct (read_tsc_ok rate s2 Hok2) as (Hok3 & Et3 & Ec3). destruct (read_tsc s2) as [t3 s3]. cbn [fst snd] in *.
  assert (Ha3 : advanced 1 (sc_clock s2) (sc_clock s3)) by (rewrite Ec3; apply advanced_read).
  pose proof (advanced_trans _ _ _ _ _ Ha12 Ha3) as Ha13.
  pose proof (ck_tsc _ (runner_clock _ _ Hok2) (reads (sc_clock s2)) (S (reads (sc_clock s2)))) as Hmono.
  assert (Hnow : tsc (sc_clock s3) (reads (sc_clock s3)) = tsc (sc_clock s2) (S (reads (sc_clock s2)))) by (rewrite Ec3; reflexivity).
  assert (Hleft : 0 <= spin_left rate t3 (sc_clock s3) <= 100000 * rate) by (unfold spin_left; rewrite Hnow, Et3; lia).
  destruct (wait_ends rate fuel 5000 t3 s3 Hok3) as (o & s4 & -> & Hok4 & Ha4); [rewrite Hnow, Et3; lia|lia| |lia|].
  { apply (ticking_mono _ (5013 + 100000 * rate - 8 - (1 + 1 + 1))); [|lia]. by apply (ticking_advanced _ _ (sc_clock s)). }
  cbn [mbind option_bind]. pose proof (advanced_trans _ _ _ _ _ Ha13 Ha4) as Ha14.
  destruct o as [rsp|]; [|exists StepTimeout, s4; split; [done|]; split; [done|]; apply (advanced_mono _ _ _ _ Ha14); lia].
  destruct (read_tsc_ok rate s4 Hok4) as (Hok5 & _ & Ec5). destruct (read_tsc s4) as [t5 s5]. cbn [fst snd] in *.
  eexists _, s5. split; [reflexivity|]. split; [done|]. rewrite Ec5.
  apply (advanced_mono _ _ _ _ (advanced_trans _ _ _ _ _ Ha14 (advanced_read _))). lia.
Qed.
End Ends.

Section RecorderClock.
Implicit Types r : recorder.

(** The recorder reads the clock at most [k] times. *)
Definition clocked (k : Z) r r' : Prop := clock_ok (fr_clock r) -> clock_ok (fr_clock r') /\ advanced k (fr_clock r) (fr_clock r').

Lemma log_clocked ty job_id step ex r : clocked 2 r (flightrec_log ty job_id step ex r).
Proof.
  intros Hc. unfold flightrec_log. destruct (initialized r =? 0); [split; [done|apply advanced_refl; lia]|]. cbv zeta.
  assert (H0 : cycles_per_usec (fr_clock r) <> 0) by (pose proof (ck_rate _ Hc); lia).
  unfold time_cycles. pose proof (advanced_read (fr_clock r)) as H1. pose proof (clock_ok_read _ Hc) as Hc1.
  assert (H2 : cycles_per_usec (snd (rdtsc (fr_clock r))) <> 0) by exact H0.
  destruct (rdtsc (fr_clock r)) as [t c1]. cbn [snd] in *.
  pose proof (advanced_usec c1 H2) as H3. pose proof (clock_ok_usec _ Hc1) as Hc2.
  destruct (time_usec c1) as [u c2]. cbn [snd] in *. split; [exact Hc2|]. exact (advanced_trans 1 1 _ _ _ H1 H3).
Qed.

Lemma begin_clocked ty job_id step r : clocked 3 r (snd (flightrec_begin_span ty job_id step r)).
Proof.
  intros Hc. unfold flightrec_begin_span. destruct (initialized r =? 0); [split; [done|apply advanced_refl; lia]|].
  destruct (find_range _ _ _) as [slot|].
  - unfold time_cycles. pose proof (advanced_read (fr_clock r)) as H1. pose proof (clock_ok_read _ Hc) as Hc1.
    destruct (rdtsc (fr_clock r)) as [t c1]. cbn [snd] in *. cbv zeta. set (r1 := r{{ fr_clock := c1; spans := _ }}).
    destruct (log_clocked ty job_id step 0 r1 Hc1) as [H2 H3]. split; [exact H2|].
    exact (advanced_trans 1 2 _ (fr_clock r1) _ H1 H3).
  - destruct (log_clocked TRACE_EVT_CONTRACT_VIOLATION job_id step 0xDEAD r Hc) as [H2 H3]. split; [exact H2|].
    apply (advanced_mono _ _ _ _ H3). lia.
Qed.

Lemma end_clocked h ty r : clocked 3 r (flightrec_end_span h ty r).
Proof.
  intros Hc. unfold flightrec_end_span. destruct (_ || _); [split; [done|apply advanced_refl; lia]|]. cbv zeta.
  destruct (_ || _); [split; [done|apply advanced_refl; lia]|].
  unfold time_cycles. pose proof (advanced_read (fr_clock r)) as H1. pose proof (clock_ok_read _ Hc) as Hc1.
  destruct (rdtsc (fr_clock r)) as [t c1]. cbn [snd] in *.
  match goal with |- context [flightrec_log ty ?a ?b ?d ?x] => destruct (log_clocked ty a b d x Hc1) as [H2 H3];
    set (r2 := flightrec_log ty a b d x) in *; assert (H4 : advanced 1 (fr_clock r) (fr_clock x)) by exact H1 end.
  split; [exact H2|]. exact (advanced_trans 1 2 _ _ _ H4 H3).
Qed.

Lemma budget_clocked job_id sid b d r : clocked 2 r (check_budget job_id sid b d r).
Proof.
  unfold check_budget. destruct (b <? d); [apply log_clocked|]. destruct (_ <? d); [apply log_clocked|].
  intros Hc. split; [done|apply advanced_refl; lia].
Qed.
End RecorderClock.

Lemma span_elapsed c0 c k :
  clock_ok c0 -> advanced k c0 c -> span_us c0 c = elapsed_us c0 (reads c0, reads c).
Proof.
  intros Hc (n & -> & Hn & _). pose proof (ck_tsc _ Hc) as Hm. pose proof (Hm (reads c0) n Hn). pose proof (ck_rate _ Hc).
  unfold span_us, elapsed_us, cycles_to_usec. cbn [tsc reads cycles_per_usec fst snd]. 
  change (cycles_per_usec (c0{{ reads := n }})) with (cycles_per_usec c0). rewrite (proj2 (Z.eqb_neq _ 0)) by lia.
  change (tsc (c0{{ reads := n }})) with (tsc c0). change (reads (c0{{ reads := n }})) with n.
  rewrite u64_small by (pose proof (Hm n n (le_n _)); pose proof (Hm (reads c0) (reads c0) (le_n _)); unfold is_u64; lia). done.
Qed.

Lemma elapsed_advanced c c' k : advanced k c c' -> elapsed_us c' = elapsed_us c.
Proof. by intros (n & -> & _). Qed.

Section JobEnds.
Variables (base hz : Z) (env : nat -> Z -> mem -> mem) (wake : pic -> pic) (naps : nat).
Hypothesis env_ok : forall n i m, window_ok base m -> window_ok base (env n i m).
Hypothesis wake_ok : forall p, timer_ticks (wake p) = timer_ticks p +u 1 /\ tick_rate_hz (wake p) = tick_rate_hz p.
Hypothesis naps_ok : Z.max 1 (u32 hz / 1000) <= Z.of_nat naps.

Lemma on_recorder_ok rate s f k :
  runner_ok base hz rate s -> clocked k (sc_recorder s) (f (sc_recorder s)) ->
  runner_ok base hz rate (on_recorder f s) /\ advanced k (sc_clock s) (sc_clock (on_recorder f s)).
Proof.
  intros Hok Hf. destruct (Hf (runner_clock _ _ _ _ Hok)) as [Hc Ha]. split; [|exact Ha].
  exact (runner_rec base hz rate s (f (sc_recorder s)) k Hok Hc Ha).
Qed.

Lemma run_step_ends rate fuel budget j sid st s :
  runner_ok base hz rate s -> is_u32 (zget (inputs st) 0) -> ticking (step_cost rate) (sc_clock s) ->
  5000 + 100000 * rate <= Z.of_nat fuel ->
  exists s', run_step env wake naps fuel budget j sid st s = Some s' /\ runner_ok base hz rate s' /\
    advanced (step_cost rate) (sc_clock s) (sc_clock s').
Proof.
  intros Hok Hin Htk Hf. unfold run_step.
  pose proof (begin_clocked TRACE_EVT_STEP_START (j_id j) (u32 sid) (sc_recorder s)) as Hb.
  destruct (flightrec_begin_span TRACE_EVT_STEP_START (j_id j) (u32 sid) (sc_recorder s)) as [span r1]. cbn [snd] in Hb.
  destruct (on_recorder_ok rate s (fun _ => r1) 3 Hok Hb) as [Hok1 Ha1].
  change (s{{ sc_recorder := r1 }}) with (on_recorder (fun _ => r1) s). forget (on_recorder (fun _ => r1) s) as s1.
  destruct (execute_ends base hz env wake naps env_ok wake_ok naps_ok rate fuel st s1 Hok1 Hin) as (rep & s2 & -> & Hok2 & Ha2); [|done|].
  { apply (ticking_mono _ (step_cost rate - 3)); [|lia]. by apply (ticking_advanced _ _ (sc_clock s)). }
  cbn [mbind option_bind]. cbv zeta.
  destruct (on_recorder_ok rate s2 _ 3 Hok2 (end_clocked span TRACE_EVT_STEP_END _)) as [Hok3 Ha3].
  forget (on_recorder (flightrec_end_span span TRACE_EVT_STEP_END) s2) as s3.
  destruct (on_recorder_ok rate s3 (check_budget (j_id j) (u32 sid) (budget / num_steps j)
    (flightrec_last_duration (j_id j) (u32 sid) (sc_recorder s3))) 2 Hok3 (budget_clocked _ _ _ _ _)) as [Hok4 Ha4].
  eexists. split; [reflexivity|]. split; [exact Hok4|].
  apply (advanced_mono _ _ _ _ (advanced_trans _ _ _ _ _ (advanced_trans _ _ _ _ _ (advanced_trans _ _ _ _ _ Ha1 Ha2) Ha3) Ha4)). lia.
Qed.

(** The tensor ids a step can send are 32-bit words. *)
Definition inputs_u32 (j : job_graph_t) : Prop := forall i, is_u32 (zget (inputs (zget (steps j) i)) 0).

Lemma upd_inputs k f j :
  (forall st, inputs (f st) = inputs st) -> inputs_u32 j -> inputs_u32 (upd_step k f j).
Proof.
  intros Hf Hj i. unfold upd_step. cbn [steps apply_update].
  change (is_u32 (zget (inputs (zget (zset (steps j) k (f (zget (steps j) k))) i)) 0)).
  unfold zget at 2, zset. destruct (decide (Z.to_nat k = Z.to_nat i)) as [E|E].
  - rewrite <- E. destruct (decide (Z.to_nat k < length (steps j))%nat).
    + rewrite list_lookup_total_insert_eq by done. rewrite Hf. apply Hj.
    + rewrite list_insert_ge by lia. apply (Hj k).
  - rewrite list_lookup_total_insert_ne by done. apply Hj.
Qed.

Lemma mark_inputs sid j : inputs_u32 j -> inputs_u32 (job_graph_mark_completed sid j).
Proof.
  intros Hj. unfold job_graph_mark_completed. destruct (find_step j sid) as [k|]; [|done]. cbv zeta.
  set (j1 := upd_step k _ j). assert (H1 : inputs_u32 j1) by (by apply upd_inputs). clearbody j1.
  destruct (decide (0 <= num_steps j1)) as [Hn|Hn]; [|by rewrite for_range_empty by lia].
  apply (for_range_ind (fun _ j' => inputs_u32 j')); [done|done|].
  intros i j' _ Hj'. unfold refresh_step. destruct (negb _); [done|]. destruct (all_done j' _); [|done]. by apply upd_inputs.
Qed.

Lemma run_steps_ends rate fuel turns budget j s l j' :
  runner_ok base hz rate s -> inputs_u32 j -> run_loop turns j = Some (l, j') ->
  ticking (step_cost rate * Z.of_nat turns) (sc_clock s) -> 5000 + 100000 * rate <= Z.of_nat fuel ->
  exists s', run_steps env wake naps fuel turns budget j s = Some (j', s') /\ runner_ok base hz rate s'.
Proof.
  revert j s l; induction turns as [|turns IH]; intros j s l Hok Hin; cbn [run_loop run_steps];
    destruct (job_graph_next_ready j <? 0); try (intros [= _ <-] _ _; by exists s).
  destruct (find_step j (u32 (job_graph_next_ready j))) as [k|]; [|intros [= _ <-] _ _; by exists s].
  destruct (run_loop turns _) as [[l1 j1]|] eqn:E; [|done]. cbn [mbind option_bind]. intros [= _ ->] Htk Hf.
  pose proof (ck_rate _ (runner_clock _ _ _ _ Hok)) as Hrt. rewrite (ro_rate _ _ _ _ Hok) in Hrt.
  destruct (run_step_ends rate fuel budget j (job_graph_next_ready j) (zget (steps j) k) s Hok (Hin k)) as (s1 & -> & Hok1 & Ha1);
    [|done|].
  { apply (ticking_mono _ _ _ Htk). unfold step_cost. nia. }
  cbn [mbind option_bind]. apply (IH _ s1 l1 Hok1); [by apply mark_inputs|exact E| |done].
  replace (step_cost rate * Z.of_nat turns) with (step_cost rate * Z.of_nat (S turns) - step_cost rate) by lia.
  by apply (ticking_advanced _ _ (sc_clock s)).
Qed.
(** ** What a run records *)

Lemma worked_ends rate fuel j sid st s :
  runner_ok base hz rate s -> is_u32 (zget (inputs st) 0) -> ticking (step_cost rate) (sc_clock s) ->
  5000 + 100000 * rate <= Z.of_nat fuel ->
  exists s2, worked env wake naps fuel j sid st s = Some s2 /\ advanced (step_cost rate) (sc_clock s) (sc_clock s2).
Proof.
  intros Hok Hin Htk Hf. unfold worked.
  pose proof (begin_clocked TRACE_EVT_STEP_START (j_id j) (u32 sid) (sc_recorder s)) as Hb.
  destruct (flightrec_begin_span TRACE_EVT_STEP_START (j_id j) (u32 sid) (sc_recorder s)) as [span r1]. cbn [snd] in Hb.
  destruct (on_recorder_ok rate s (fun _ => r1) 3 Hok Hb) as [Hok1 Ha1].
  change (s{{ sc_recorder := r1 }}) with (on_recorder (fun _ => r1) s). forget (on_recorder (fun _ => r1) s) as s1.
  destruct (execute_ends base hz env wake naps env_ok wake_ok naps_ok rate fuel st s1 Hok1 Hin) as (rep & s2 & -> & Hok2 & Ha2); [|done|].
  { apply (ticking_mono _ (step_cost rate - 3)); [|lia]. by apply (ticking_advanced _ _ (sc_clock s)). }
  exists s2. split; [done|]. apply (advanced_mono _ _ _ _ (advanced_trans _ _ _ _ _ Ha1 Ha2)). lia.
Qed.

(** The story of a job's steps. *)
Record story fuel turns budget j j' s s' (l : list Z) n : Prop := {
  st_ok : exists spans, step_spans env wake naps fuel turns budget j s = Some spans /\ length spans = length l /\
    rec_trace (sc_recorder s') = lastn 256 (rec_trace (sc_recorder s) ++
      steps_events (j_id j) (budget / num_steps j) (u32 <$> l) (elapsed_us (sc_clock s) <$> spans));
  st_len : (length l <= turns)%nat;
  st_id : j_id j' = j_id j;
  st_ready : ready_recorder (n - 3 * zlen l) (sc_recorder s')
}.

Lemma no_story fuel turns budget j s n :
  step_spans env wake naps fuel turns budget j s = Some [] -> ready_recorder n (sc_recorder s) ->
  story fuel turns budget j j s s [] n.
Proof.
  intros E Hr. split; [|cbn; lia|done|change (zlen []) with 0; by replace (n - 3 * 0) with n by lia].
  exists []. split; [exact E|]. split; [done|]. change (steps_events _ _ _ _) with (@nil trace_rec).
  by rewrite trace_short by apply Hr.
Qed.

Lemma run_steps_story rate fuel turns budget j s l j' n :
  runner_ok base hz rate s -> inputs_u32 j -> run_loop turns j = Some (l, j') ->
  ticking (step_cost rate * Z.of_nat turns) (sc_clock s) -> 5000 + 100000 * rate <= Z.of_nat fuel ->
  ready_recorder n (sc_recorder s) -> 3 * Z.of_nat turns <= n ->
  exists s', run_steps env wake naps fuel turns budget j s = Some (j', s') /\ runner_ok base hz rate s' /\
    story fuel turns budget j j' s s' l n.
Proof.
  revert j s l n; induction turns as [|turns IH]; intros j s l n Hok Hin; cbn [run_loop run_steps];
    destruct (job_graph_next_ready j <? 0) eqn:En;
    try (intros [= <- <-] _ _ Hr _; exists s; split; [done|]; split; [done|]; apply no_story; [cbn [step_spans]; by rewrite En|done]).
  { done. }
  destruct (find_step j (u32 (job_graph_next_ready j))) as [k|] eqn:Ek.
  2: { intros [= <- <-] _ _ Hr _; exists s; split; [done|]; split; [done|]; apply no_story; [cbn [step_spans]; by rewrite En, Ek|done]. }
  destruct (run_loop turns _) as [[l1 j1]|] eqn:E; [|done]. cbn [mbind option_bind]. intros [= <- ->] Htk Hf Hr Hn.
  pose proof (ck_rate _ (runner_clock _ _ _ _ Hok)) as Hrt. rewrite (ro_rate _ _ _ _ Hok) in Hrt.
  assert (Htk1 : ticking (step_cost rate) (sc_clock s)) by (apply (ticking_mono _ _ _ Htk); unfold step_cost; nia).
  set (sid := job_graph_next_ready j) in *. set (st := zget (steps j) k) in *.
  destruct (run_step_ends rate fuel budget j sid st s Hok (Hin k) Htk1 Hf) as (s1 & E1 & Hok1 & Ha1).
  destruct (worked_ends rate fuel j sid st s Hok (Hin k) Htk1 Hf) as (s2 & E2 & Ha2).
  destruct (run_step_trace env wake naps fuel budget j sid st s s1 n Hr ltac:(lia) E1) as (s2' & E2' & Hr1 & Ht1).
  rewrite E2 in E2'. injection E2' as <-. rewrite (span_elapsed _ _ _ (runner_clock _ _ _ _ Hok) Ha2) in Ht1.
  destruct (mark_same_id j (u32 sid)) as [Ej Enum].
  destruct (IH (job_graph_mark_completed (u32 sid) j) s1 l1 (n - 3) Hok1) as (s' & Es & Hok' & [(spans & Hsp & Hlen & Ht) Hl Hid Hrd]);
    [by apply mark_inputs|exact E| |done|done|lia|].
  { replace (step_cost rate * Z.of_nat turns) with (step_cost rate * Z.of_nat (S turns) - step_cost rate) by lia.
    by apply (ticking_advanced _ _ (sc_clock s)). }
  rewrite E1. cbn [mbind option_bind]. exists s'. split; [exact Es|]. split; [done|].
  rewrite Ej, Enum, (elapsed_advanced _ _ _ Ha1) in Ht. split.
  - exists ((reads (sc_clock s), reads (sc_clock s2)) :: spans). cbn [step_spans]. fold sid. rewrite En, Ek. fold st.
    rewrite E2. cbn [mbind option_bind]. rewrite E1. cbn [mbind option_bind]. rewrite Hsp. split; [done|].
    split; [cbn [length]; lia|]. rewrite Ht, Ht1, lastn_app, <- app_assoc. reflexivity.
  - cbn [length]. lia.
  - by rewrite Hid.
  - unfold zlen in *. cbn [length]. by replace (n - 3 * Z.of_nat (S (length l1))) with (n - 3 - 3 * Z.of_nat (length l1)) by lia.
Qed.
End JobEnds.

(** C8: a job leaves its story in the recorder and its graph completed in order.
    Under the conditions of the termination theorem below (an other side that leaves
    two valid rings, a clock that moves on, a timer that ticks, enough fuel), and
    when the recorder has a free span and room for 98 events before its counter
    wraps, [sched_run_job] returns, having run the steps of the job in the order of
    the job graph's own loop.  What a reader sees then is what was there, the
    submission with the number of steps, for each step its start, its end and the
    budget event its duration calls for (exceeded, or over 80%), and the completion,
    cut to the last 256 events.  A step's duration is the time on the counter, in
    microseconds and in 32 bits, between the reading taken when its span is opened
    and the one taken when its work has returned. *)
Theorem sched_job_recorded (base hz rate : Z) (env : nat -> Z -> mem -> mem) (wake : pic -> pic) (naps fuel : nat)
    (ctx : sched_job_ctx_t) (s : sched) :
  (forall n i m, window_ok base m -> window_ok base (env n i m)) ->
  (forall p, timer_ticks (wake p) = timer_ticks p +u 1 /\ tick_rate_hz (wake p) = tick_rate_hz p) ->
  Z.max 1 (u32 hz / 1000) <= Z.of_nat naps -> 5000 + 100000 * rate <= Z.of_nat fuel ->
  job_wf (job ctx) -> inputs_u32 (job ctx) -> runner_ok base hz rate s ->
  ticking (step_cost rate * 32 + 2) (sc_clock s) -> ready_recorder 98 (sc_recorder s) ->
  let submitted := on_recorder (flightrec_log TRACE_EVT_JOB_SUBMIT (j_id (job ctx)) 0 (num_steps (job ctx))) s in
  let budget := cpu_budget_us (contract ctx) in
  exists stats j' s' l spans, sched_run_job env wake naps fuel 32 ctx s = Some (stats, j', s') /\
    run_loop 32 (job ctx) = Some (l, j') /\
    step_spans env wake naps fuel 32 budget (job ctx) submitted = Some spans /\ length spans = length l /\
    rec_trace (sc_recorder s') = lastn 256 (rec_trace (sc_recorder s) ++
      TraceRec (trace_code TRACE_EVT_JOB_SUBMIT) (j_id (job ctx)) 0 (num_steps (job ctx)) ::
      steps_events (j_id (job ctx)) (budget / num_steps (job ctx)) (u32 <$> l) (elapsed_us (sc_clock s) <$> spans) ++
      [TraceRec (trace_code TRACE_EVT_JOB_COMPLETE) (j_id (job ctx)) 0 0]).
Proof.
  intros He Hwk Hn Hf Hj Hin Hok Htk Hr s1 budget. destruct (run_loop_ok 32 (job ctx) Hj) as (l & j' & E & _).
  { unfold todo. pose proof (count_range_bounds 0 (num_steps (job ctx)) (fun i => completed (step_at (job ctx) i) =? 0)).
    pose proof (jw_num _ Hj). unfold MAX_JOB_STEPS in *. lia. }
  destruct (log_trace TRACE_EVT_JOB_SUBMIT (j_id (job ctx)) 0 (num_steps (job ctx)) 98 _ Hr ltac:(lia)) as (Hr1 & Ht1 & _).
  destruct (on_recorder_ok base hz rate s _ 2 Hok (log_clocked TRACE_EVT_JOB_SUBMIT (j_id (job ctx)) 0 (num_steps (job ctx)) _)) as [Hok1 Ha1].
  unfold sched_run_job. change (flightrec_log TRACE_EVT_JOB_SUBMIT (j_id (job ctx)) 0 (num_steps (job ctx)) (sc_recorder s))
    with (sc_recorder s1) in Hr1, Ht1. fold s1 in Hok1, Ha1 |- *. fold budget. clearbody s1.
  destruct (run_steps_story base hz env wake naps He Hwk Hn rate fuel 32 budget (job ctx) s1 l j' 97 Hok1 Hin E)
    as (s2 & -> & Hok2 & [(spans & Hsp & Hlen & Ht2) Hl Hid Hr2]); [|done|done|lia|].
  { replace (step_cost rate * Z.of_nat 32) with (step_cost rate * 32 + 2 - 2) by lia. by apply (ticking_advanced _ _ (sc_clock s)). }
  cbn [mbind option_bind]. eexists _, j', _, l, spans. split; [reflexivity|]. split; [done|]. split; [done|]. split; [done|].
  destruct (log_trace TRACE_EVT_JOB_COMPLETE (j_id j') 0 0 _ _ Hr2 ltac:(unfold zlen; lia)) as (_ & Ht3 & _).
  change (sc_recorder (on_recorder ?f s2)) with (f (sc_recorder s2)).
  rewrite Ht3, Ht2, Ht1, Hid, (elapsed_advanced _ _ _ Ha1), !lastn_app, <- !app_assoc, lastn_app, <- !app_assoc. done.
Qed.

(** C9: a job always ends.  Whatever the other side of the window does, as long as
    it leaves two valid rings, and whether or not it ever answers, [sched_run_job]
    on a well-formed job returns, with the job graph completed as its own loop
    completes it: no step waits longer than 100 ms of polling and 5000 naps of a
    millisecond.  The clock must move on between two readings of the counter, an
    interrupt must count a timer tick, and a nap must be allowed the wake-ups it
    needs. *)
Theorem sched_job_ends (base hz rate : Z) (env : nat -> Z -> mem -> mem) (wake : pic -> pic) (naps fuel : nat)
    (ctx : sched_job_ctx_t) (s : sched) :
  (forall n i m, window_ok base m -> window_ok base (env n i m)) ->
  (forall p, timer_ticks (wake p) = timer_ticks p +u 1 /\ tick_rate_hz (wake p) = tick_rate_hz p) ->
  Z.max 1 (u32 hz / 1000) <= Z.of_nat naps -> 5000 + 100000 * rate <= Z.of_nat fuel ->
  job_wf (job ctx) -> inputs_u32 (job ctx) -> runner_ok base hz rate s ->
  ticking (step_cost rate * 32 + 2) (sc_clock s) ->
  exists stats l j' s', sched_run_job env wake naps fuel 32 ctx s = Some (stats, j', s') /\
    run_loop 32 (job ctx) = Some (l, j') /\ runner_ok base hz rate s'.
Proof.
  intros He Hwk Hn Hf Hj Hin Hok Htk. destruct (run_loop_ok 32 (job ctx) Hj) as (l & j' & E & _).
  { unfold todo. pose proof (count_range_bounds 0 (num_steps (job ctx)) (fun i => completed (step_at (job ctx) i) =? 0)).
    pose proof (jw_num _ Hj). unfold MAX_JOB_STEPS in *. lia. }
  unfold sched_run_job.
  destruct (on_recorder_ok base hz rate s _ 2 Hok (log_clocked TRACE_EVT_JOB_SUBMIT (j_id (job ctx)) 0 (num_steps (job ctx)) _)) as [Hok1 Ha1].
  forget (on_recorder (flightrec_log TRACE_EVT_JOB_SUBMIT (j_id (job ctx)) 0 (num_steps (job ctx))) s) as s1.
  destruct (run_steps_ends base hz env wake naps He Hwk Hn rate fuel 32 (cpu_budget_us (contract ctx)) (job ctx) s1 l j' Hok1 Hin E)
    as (s2 & -> & Hok2); [|done|].
  { replace (step_cost rate * Z.of_nat 32) with (step_cost rate * 32 + 2 - 2) by lia. by apply (ticking_advanced _ _ (sc_clock s)). }
  cbn [mbind option_bind].
  destruct (on_recorder_ok base hz rate s2 _ 2 Hok2 (log_clocked TRACE_EVT_JOB_COMPLETE (j_id j') 0 0 _)) as [Hok3 _].
  eexists _, l, j', _. split; [reflexivity|]. split; [done|]. exact Hok3.
Qed.

(** A counter that moves on at every reading for long enough, a timer at 100 Hz, and
    an other side that never answers. *)
Definition slow_clock : clock := Clock (fun n => 1000 * Z.min 10000000000 (Z.of_nat n)) 0 0 1000 0.
Definition quiet_sched : sched :=
  Sched (flightrec_init (recorder_bss slow_clock))
    (ipc_init 0xC0100000 0x100000 11 (ipc_bss (heap_bss ∅) slow_clock (demo_pic{{ tick_rate_hz := 100 }}))).
Definition diamond_ctx : sched_job_ctx_t := SchedJobCtx diamond (contract demo_ctx).

Lemma slow_clock_ok : clock_ok slow_clock.
Proof.
  assert (Ht : forall i, tsc slow_clock i = 1000 * Z.min 10000000000 (Z.of_nat i)) by reflexivity.
  split; [|cbn; lia|cbn; lia]. intros i j Hij. rewrite !Ht. lia.
Qed.

Lemma quiet_clock : sc_clock quiet_sched = slow_clock{{ reads := reads (sc_clock quiet_sched) }} /\ (reads (sc_clock quiet_sched) <= 9)%nat.
Proof. split; [reflexivity|vm_compute; lia]. Qed.

Lemma slow_ticking : ticking (step_cost 1000 * 32 + 2) (sc_clock quiet_sched).
Proof.
  destruct quiet_clock as [E Hr]. rewrite E. forget (reads (sc_clock quiet_sched)) as k. intros n _ Hn. unfold step_cost in Hn.
  change (Z.of_nat n < Z.of_nat k + ((5013 + 100000 * 1000) * 32 + 2)) in Hn.
  change (1000 * Z.min 10000000000 (Z.of_nat n) < 1000 * Z.min 10000000000 (Z.of_nat (S n))). lia.
Qed.

Lemma inputs_u32_list j : Forall (fun st => is_u32 (zget (inputs st) 0)) (steps j) -> inputs_u32 j.
Proof.
  intros Hj i. unfold zget at 2. destruct (decide (Z.to_nat i < length (steps j))%nat) as [Hi|Hi].
  - by apply (Forall_lookup_total_1 (fun st => is_u32 (zget (inputs st) 0))).
  - rewrite list_lookup_total_alt, lookup_ge_None_2 by lia. done.
Qed.

Lemma quiet_runner_ok : runner_ok 0x100000 100 1000 quiet_sched.
Proof.
  destruct (ipc_init_ok 0xC0100000 0x100000 11 (ipc_bss (heap_bss ∅) slow_clock (demo_pic{{ tick_rate_hz := 100 }}))) as (Hk & _);
    [lia|exact mem_ok_empty|reflexivity|exact slow_clock_ok|].
  split; [|reflexivity|].
  - apply ipc_ok_clock; [exact Hk|]. destruct quiet_clock as [E _]. rewrite E. forget (reads (sc_clock quiet_sched)) as k. destruct slow_clock_ok as [? ? ?]. split; [done|done|]. change (0 <= 0 <= 1000 * Z.min 10000000000 (Z.of_nat k)). lia.
  - unfold quiet_sched. cbn [sc_ipc]. rewrite ipc_init_pic by lia. reflexivity.
Qed.

Lemma sched_job_ends_witness :
  exists fuel stats l j' s', sched_run_job (fun _ _ m => m) (fun p => p{{ timer_ticks ::= fun t => t +u 1 }}) 1 fuel 32 diamond_ctx quiet_sched
    = Some (stats, j', s') /\ run_loop 32 diamond = Some (l, j') /\ runner_ok 0x100000 100 1000 s'.
Proof.
  exists (Z.to_nat (5000 + 100000 * 1000)).
  apply (sched_job_ends 0x100000 100 1000); [done|done|vm_compute; discriminate| |exact (proj1 diamond_wf)| |exact quiet_runner_ok|exact slow_ticking].
  - rewrite Z2Nat.id by lia. lia.
  - apply inputs_u32_list. assert (H : Forall is_u32 ((fun st => zget (inputs st) 0) <$> steps diamond)).
    { replace ((fun st => zget (inputs st) 0) <$> steps diamond) with (replicate 32 0) by (vm_compute; reflexivity).
      by apply Forall_replicate. }
    rewrite Forall_fmap in H. exact H.
Defined.

(** The recorder of the quiet machine is fresh. *)
Lemma quiet_ready : ready_recorder 98 (sc_recorder quiet_sched).
Proof. split; [|vm_compute; reflexivity|vm_compute; by eexists]. by apply fr_wf_init. Qed.

Lemma diamond_inputs : inputs_u32 (job diamond_ctx).
Proof.
  apply inputs_u32_list. assert (H : Forall is_u32 ((fun st => zget (inputs st) 0) <$> steps diamond)).
  { replace ((fun st => zget (inputs st) 0) <$> steps diamond) with (replicate 32 0) by (vm_compute; reflexivity).
    by apply Forall_replicate. }
  rewrite Forall_fmap in H. exact H.
Qed.

Lemma sched_job_recorded_witness :
  exists fuel stats j' s' spans, sched_run_job (fun _ _ m => m) (fun p => p{{ timer_ticks ::= fun t => t +u 1 }}) 1 fuel 32 diamond_ctx quiet_sched
    = Some (stats, j', s') /\ length spans = 4%nat /\
    rec_trace (sc_recorder s') = lastn 256 (rec_trace (sc_recorder quiet_sched) ++
      TraceRec (trace_code TRACE_EVT_JOB_SUBMIT) (j_id (job diamond_ctx)) 0 (num_steps (job diamond_ctx)) ::
      steps_events (j_id (job diamond_ctx)) (cpu_budget_us (contract diamond_ctx) / num_steps (job diamond_ctx))
        (u32 <$> [1; 2; 3; 4]) (elapsed_us (sc_clock quiet_sched) <$> spans) ++
      [TraceRec (trace_code TRACE_EVT_JOB_COMPLETE) (j_id (job diamond_ctx)) 0 0]).
Proof.
  exists (Z.to_nat (5000 + 100000 * 1000)).
  destruct (sched_job_recorded 0x100000 100 1000 (fun _ _ m => m) (fun p => p{{ timer_ticks ::= fun t => t +u 1 }}) 1
    (Z.to_nat (5000 + 100000 * 1000)) diamond_ctx quiet_sched) as (stats & j' & s' & l & spans & E1 & E2 & _ & E4 & E5);
    [done|done|vm_compute; discriminate|rewrite Z2Nat.id by lia; lia|exact (proj1 diamond_wf)|exact diamond_inputs|
     exact quiet_runner_ok|exact slow_ticking|exact quiet_ready|].
  assert (El : l = [1; 2; 3; 4]).
  { transitivity (from_option fst [] (run_loop 32 (job diamond_ctx))); [by rewrite E2|vm_compute; reflexivity]. }
  rewrite El in E4, E5. exists stats, j', s', spans. split; [exact E1|]. split; [exact E4|exact E5].
Defined.
