(* ===== verification/Keyboard.v ===== *)
(** kernel/arch/keyboard.c and scancodes.h: the keyboard's interrupt handler, its
    character buffer and the two calls that read it.

    Port 0x60 is hardware: [keys] lists the bytes it returns, in order.  A [char]
    is its code.  The buffer is a ring of 128 cells that holds up to 127
    characters; the theorems treat it as that bounded queue, and show that the
    translation undoes a US keyboard. *)

From S2P Require Import Prelude Interrupts.

Definition KB_BUF_SIZE : Z := 128.

(** scancodes.h. *)
Definition scancode_map : list Z :=
  [0; 27; 49; 50; 51; 52; 53; 54; 55; 56; 57; 48; 45; 61; 8;
   9; 113; 119; 101; 114; 116; 121; 117; 105; 111; 112; 91; 93; 10;
   0; 97; 115; 100; 102; 103; 104; 106; 107; 108; 59; 39; 96;
   0; 92; 122; 120; 99; 118; 98; 110; 109; 44; 46; 47; 0;
   42; 0; 32; 0].
Definition scancode_map_shift : list Z :=
  [0; 27; 33; 64; 35; 36; 37; 94; 38; 42; 40; 41;
   95; 43; 8; 9; 81; 87; 69; 82; 84; 89; 85; 73;
   79; 80; 123; 125; 10; 0; 65; 83; 68; 70; 71; 72;
   74; 75; 76; 58; 34; 126; 0; 124; 90; 88; 67; 86;
   66; 78; 77; 60; 62; 63; 0; 42; 0; 32; 0].

Record keyboard := Keyboard {
  kb_buffer : list Z;
  kb_head : Z;
  kb_tail : Z;
  shift_pressed : Z;
  keys : nat -> Z;        (* the bytes port 0x60 returns, in order *)
  key_reads : nat         (* how many were read *)
}.
#[export] Instance eta_keyboard : Eta keyboard := fun k =>
  Keyboard (kb_buffer k) (kb_head k) (kb_tail k) (shift_pressed k) (keys k) (key_reads k).

(** [inb(0x60)]. *)
Definition read_key (k : keyboard) : Z * keyboard := (u8 (keys k (key_reads k)), k{{ key_reads ::= S }}).

Definition is_shift (scancode : Z) : bool := (scancode =? 0x2A) || (scancode =? 0x36).

(** The character of a key, 0 for none. *)
Definition key_char (shift scancode : Z) : Z :=
  if scancode <? zlen scancode_map then
    if negb (shift =? 0) then zget scancode_map_shift scancode else zget scancode_map scancode
  else 0.

(** A character that finds no room is dropped. *)
Definition kb_push (c : Z) (k : keyboard) : keyboard :=
  if c =? 0 then k
  else
    let next := (kb_head k + 1) mod KB_BUF_SIZE in
    if next =? kb_tail k then k
    else k{{ kb_buffer ::= fun l => zset l (kb_head k) c; kb_head := next }}.

Definition on_key (scancode : Z) (k : keyboard) : keyboard :=
  if negb (Z.land scancode 0x80 =? 0) then
    if is_shift (Z.land scancode 0x7F) then k{{ shift_pressed := 0 }} else k
  else if is_shift scancode then k{{ shift_pressed := 1 }}
  else kb_push (key_char (shift_pressed k) scancode) k.

Definition keyboard_handler (k : keyboard) : keyboard := let '(scancode, k) := read_key k in on_key scancode k.

(** [handler] is the address of [keyboard_handler]. *)
Definition keyboard_init (handler : Z) (p : pic) : pic := pic_unmask_irq 1 (irq_register_handler 1 handler p).

Definition tc_has_input (k : keyboard) : Z := Z.b2z (negb (kb_head k =? kb_tail k)).

(** Each [hlt] ends with an interrupt; [wake] is what its handler did. *)
Fixpoint tc_getchar (wake : keyboard -> keyboard) (fuel : nat) (k : keyboard) : option (Z * keyboard) :=
  if kb_head k =? kb_tail k then
    match fuel with
    | O => None
    | S fuel => tc_getchar wake fuel (wake k)
    end
  else Some (zget (kb_buffer k) (kb_tail k), k{{ kb_tail ::= fun t => (t + 1) mod KB_BUF_SIZE }}).

(** ** The buffer as a queue *)

Definition kb_count (k : keyboard) : Z := (kb_head k - kb_tail k) mod KB_BUF_SIZE.

(** The characters not read yet, the oldest first. *)
Definition typed (k : keyboard) : list Z :=
  (fun i => zget (kb_buffer k) ((kb_tail k + Z.of_nat i) mod KB_BUF_SIZE)) <$> seq 0 (Z.to_nat (kb_count k)).

Record kb_ok (k : keyboard) : Prop := {
  kb_len : zlen (kb_buffer k) = KB_BUF_SIZE;
  kb_h : 0 <= kb_head k < KB_BUF_SIZE;
  kb_t : 0 <= kb_tail k < KB_BUF_SIZE
}.

(** Adding to a queue of 127 places. *)
Definition enqueue (c : Z) (q : list Z) : list Z := if (c =? 0) || (127 <=? zlen q) then q else q ++ [c].

Lemma zlen_typed k : zlen (typed k) = kb_count k.
Proof.
  unfold typed, zlen. rewrite length_fmap, length_seq. pose proof (Z.mod_pos_bound (kb_head k - kb_tail k) 128).
  unfold kb_count, KB_BUF_SIZE in *. lia.
Qed.

Lemma next_full k : kb_ok k -> ((kb_head k + 1) mod KB_BUF_SIZE =? kb_tail k) = (127 <=? kb_count k).
Proof.
  intros [_ Hh Ht]. unfold kb_count, KB_BUF_SIZE in *.
  destruct (Z.eqb_spec ((kb_head k + 1) mod 128) (kb_tail k)), (Z.leb_spec 127 ((kb_head k - kb_tail k) mod 128)); try done;
    exfalso; Z.div_mod_to_equations; lia.
Qed.

Lemma kb_push_queue c k : kb_ok k -> kb_ok (kb_push c k) /\ typed (kb_push c k) = enqueue c (typed k).
Proof.
  intros Hk. unfold kb_push, enqueue. rewrite zlen_typed, next_full by done. destruct (c =? 0); [done|].
  cbn [orb]. destruct (Z.leb_spec 127 (kb_count k)) as [Hf|Hf]; [done|]. destruct Hk as [Hl Hh Ht].
  unfold KB_BUF_SIZE in *. pose proof (Z.mod_pos_bound (kb_head k + 1) 128 ltac:(lia)) as Hm.
  split; [split; [change (zlen (zset (kb_buffer k) (kb_head k) c) = 128); by rewrite zlen_zset|exact Hm|exact Ht]|].
  unfold typed at 1. set (k' := k{{ kb_buffer ::= _; kb_head := _ }}).
  assert (Hc : kb_count k' = kb_count k + 1).
  { change (kb_count k') with (((kb_head k + 1) mod 128 - kb_tail k) mod 128). unfold kb_count, KB_BUF_SIZE in *.
    clear k' Hm. Z.div_mod_to_equations. lia. }
  rewrite Hc. replace (Z.to_nat (kb_count k + 1)) with (S (Z.to_nat (kb_count k)))
    by (unfold kb_count, KB_BUF_SIZE in *; pose proof (Z.mod_pos_bound (kb_head k - kb_tail k) 128); lia).
  rewrite seq_S, fmap_app. cbn [fmap list_fmap].
  change (kb_buffer k') with (zset (kb_buffer k) (kb_head k) c). change (kb_tail k') with (kb_tail k).
  assert (Hcnt : 0 <= kb_count k < 127) by (unfold kb_count, KB_BUF_SIZE in *; pose proof (Z.mod_pos_bound (kb_head k - kb_tail k) 128); lia).
  f_equal.
  - apply list_fmap_ext. intros i x Hx. apply lookup_seq in Hx as [-> Hi]. pose proof (Z.mod_pos_bound (kb_tail k + Z.of_nat (0 + i)) 128 ltac:(lia)).
    apply zget_zset_ne; [lia|unfold KB_BUF_SIZE; lia|]. unfold kb_count, KB_BUF_SIZE in *. clear Hc k' Hm. Z.div_mod_to_equations. lia.
  - f_equal. rewrite Nat2Z.inj_add, Z2Nat.id by lia. replace ((kb_tail k + (Z.of_nat 0 + kb_count k)) mod KB_BUF_SIZE) with (kb_head k).
    + apply zget_zset_eq. lia.
    + unfold kb_count, KB_BUF_SIZE in *. clear Hc k' Hm. Z.div_mod_to_equations. lia.
Qed.

Lemma kb_count_range k : 0 <= kb_count k < 128.
Proof. unfold kb_count, KB_BUF_SIZE. apply Z.mod_pos_bound. lia. Qed.

Lemma kb_count_empty k : kb_ok k -> (kb_head k =? kb_tail k) = (kb_count k =? 0).
Proof.
  intros [_ Hh Ht]. unfold kb_count, KB_BUF_SIZE in *.
  destruct (Z.eqb_spec (kb_head k) (kb_tail k)), (Z.eqb_spec ((kb_head k - kb_tail k) mod 128) 0); try done; exfalso; Z.div_mod_to_equations; lia.
Qed.

Lemma typed_nil k : kb_ok k -> (kb_head k =? kb_tail k) = true <-> typed k = [].
Proof.
  intros Hk. rewrite (kb_count_empty k Hk), Z.eqb_eq, <- zlen_typed. unfold zlen. split; intros H.
  - apply nil_length_inv. lia.
  - by rewrite H.
Qed.

Definition kb_pop (k : keyboard) : keyboard := k{{ kb_tail ::= fun t => (t + 1) mod KB_BUF_SIZE }}.

Lemma kb_pop_queue k c q :
  kb_ok k -> typed k = c :: q ->
  kb_ok (kb_pop k) /\ zget (kb_buffer k) (kb_tail k) = c /\ typed (kb_pop k) = q.
Proof.
  intros [Hl Hh Ht] Hq. unfold KB_BUF_SIZE in *. pose proof (Z.mod_pos_bound (kb_tail k + 1) 128 ltac:(lia)) as Hm.
  assert (Hn : 0 < kb_count k) by (rewrite <- zlen_typed, Hq; unfold zlen; cbn; lia).
  assert (Hc : kb_count (kb_pop k) = kb_count k - 1).
  { change (kb_count (kb_pop k)) with ((kb_head k - (kb_tail k + 1) mod 128) mod 128).
    unfold kb_count, KB_BUF_SIZE in *. clear Hm. Z.div_mod_to_equations. lia. }
  split; [by split|]. unfold typed in Hq |- *. rewrite Hc.
  replace (Z.to_nat (kb_count k)) with (S (Z.to_nat (kb_count k - 1))) in Hq by lia.
  cbn [seq fmap list_fmap] in Hq. injection Hq as <- <-. split.
  - rewrite Z.add_0_r. unfold KB_BUF_SIZE. by rewrite Z.mod_small by lia.
  - rewrite <- (fmap_S_seq 0), <- list_fmap_compose. apply list_fmap_ext. intros i x _. unfold compose.
    change (kb_buffer (kb_pop k)) with (kb_buffer k). change (kb_tail (kb_pop k)) with ((kb_tail k + 1) mod 128). f_equal.
    unfold KB_BUF_SIZE. rewrite Zplus_mod_idemp_l. f_equal. lia.
Qed.

(** Reading takes the oldest character. *)
Lemma tc_getchar_queue wake fuel k c q :
  kb_ok k -> typed k = c :: q ->
  tc_getchar wake fuel k = Some (c, kb_pop k) /\ kb_ok (kb_pop k) /\ typed (kb_pop k) = q.
Proof.
  intros Hk Hq. destruct (kb_pop_queue k c q Hk Hq) as (Hk' & Hc & Hq'). split; [|done].
  assert (Hne : (kb_head k =? kb_tail k) = false) by (apply not_true_iff_false; by rewrite (typed_nil k Hk), Hq).
  destruct fuel; cbn [tc_getchar]; by rewrite Hne, Hc.
Qed.

(** ** Typing *)

(** A US keyboard in scancode set 1: the rows with the code of their first key, what
    their keys type and what they type with a shift key held. *)
Definition ascii (s : String.string) : list Z := (fun c => Z.of_N (Ascii.N_of_ascii c)) <$> String.list_ascii_of_string s.
Definition us_keyboard : list (Z * list Z * list Z) :=
  [(0x02, ascii "1234567890-=", ascii "!@#$%^&*()_+");
   (0x10, ascii "qwertyuiop[]", ascii "QWERTYUIOP{}");
   (0x1E, ascii "asdfghjkl;'`", ascii "ASDFGHJKL:" ++ [34; 126]);
   (0x2B, ascii "\zxcvbnm,./", ascii "|ZXCVBNM<>?");
   (0x39, ascii " ", []);
   (0x0E, [8; 9], []);     (* backspace, tab *)
   (0x1C, [10], [])].      (* enter *)

(** The characters with their key: its code, and whether shift is held. *)
Definition row_keys (row : Z * list Z * list Z) : list (Z * (Z * bool)) :=
  let '(code, plain, shifted) := row in
  imap (fun i c => (c, (code + Z.of_nat i, false))) plain ++ imap (fun i c => (c, (code + Z.of_nat i, true))) shifted.
Definition us_keys : list (Z * (Z * bool)) := concat (row_keys <$> us_keyboard).
Definition find_key (c : Z) : option (Z * bool) := snd <$> List.find (fun e => fst e =? c) us_keys.
Definition typable (c : Z) : bool := if find_key c is Some _ then true else false.

(** The scancodes of typing a character: keys go down and up again. *)
Definition strokes (c : Z) : list Z :=
  match find_key c with
  | Some (k, false) => [k; 0x80 + k]
  | Some (k, true) => [0x2A; k; 0x80 + k; 0x80 + 0x2A]
  | None => []
  end.

(** The keyboard after [n] interrupts. *)
Definition interrupts (n : nat) (k : keyboard) : keyboard := Nat.iter n keyboard_handler k.

(** The next bytes of the port. *)
Definition sends (k : keyboard) (l : list Z) : Prop := forall i x, l !! i = Some x -> keys k (key_reads k + i)%nat = x.

(** Every key of the table types its character in the driver's maps. *)
Lemma us_keys_translate :
  Forall (fun '(c, (k, b)) => is_u8 k /\ k < 0x80 /\ is_shift k = false /\ key_char (Z.b2z b) k = c /\ 0 < c) us_keys.
Proof. apply Forall_forall. intros [c [k b]] Hin. repeat (apply elem_of_cons in Hin as [[= -> -> ->]|Hin]; [by vm_compute|]). by apply elem_of_nil in Hin. Qed.

Lemma find_key_translates c k b :
  find_key c = Some (k, b) -> is_u8 k /\ k < 0x80 /\ is_shift k = false /\ key_char (Z.b2z b) k = c /\ 0 < c.
Proof.
  unfold find_key. destruct (List.find _ us_keys) as [[c' kb]|] eqn:E; [|done]. intros [= ->].
  apply List.find_some in E as [Hin Ec]. apply Z.eqb_eq in Ec as <-.
  pose proof us_keys_translate as Ht. rewrite List.Forall_forall in Ht. exact (Ht _ Hin).
Qed.

Lemma high_bit x : is_u8 x -> (Z.land x 0x80 =? 0) = (x <? 0x80) /\ Z.land x 0x7F = x mod 0x80.
Proof.
  intros Hx. split; [|exact (Z.land_ones x 7 ltac:(lia))].
  assert (H : Forall (fun x => (Z.land x 0x80 =? 0) = (x <? 0x80)) (seqZ 0 256)) by (vm_compute; repeat constructor).
  apply (proj1 (Forall_forall _ _) H). apply elem_of_seqZ. unfold is_u8 in Hx. lia.
Qed.

Lemma on_key_down x k : is_u8 x -> x < 0x80 -> is_shift x = false -> on_key x k = kb_push (key_char (shift_pressed k) x) k.
Proof.
  intros Hx Hl Hs. unfold on_key. destruct (high_bit x Hx) as [-> _]. rewrite (proj2 (Z.ltb_lt _ _) Hl). cbn [negb]. by rewrite Hs.
Qed.

Lemma on_key_up x k : is_u8 x -> x < 0x80 -> is_shift x = false -> on_key (0x80 + x) k = k.
Proof.
  intros Hx Hl Hs. unfold is_u8 in Hx. unfold on_key. destruct (high_bit (0x80 + x)) as [-> ->]; [unfold is_u8; lia|].
  rewrite (proj2 (Z.ltb_ge (0x80 + x) 0x80)) by lia. cbn [negb].
  replace ((0x80 + x) mod 0x80) with x by (Z.div_mod_to_equations; lia). by rewrite Hs.
Qed.

(** The driver's view of the machine: buffered text, shift key, bytes to come. *)
Record kb_state (k : keyboard) (q : list Z) (shift : Z) (l : list Z) : Prop := {
  ks_ok : kb_ok k;
  ks_typed : typed k = q;
  ks_shift : shift_pressed k = shift;
  ks_sends : sends k l
}.

Lemma handler_key k q shift x l :
  kb_state k q shift (x :: l) -> is_u8 x ->
  exists k0, keyboard_handler k = on_key x k0 /\ kb_state k0 q shift l.
Proof.
  intros [Hk Hq Hs Hl] Hx. exists (k{{ key_reads ::= S }}). split.
  - unfold keyboard_handler, read_key. specialize (Hl 0%nat x eq_refl). rewrite Nat.add_0_r in Hl. by rewrite Hl, u8_small.
  - split; [by destruct Hk|exact Hq|exact Hs|]. intros i y Hi. specialize (Hl (S i) y Hi). rewrite <- Hl.
    change (keys (k{{ key_reads ::= S }})) with (keys k). change (key_reads (k{{ key_reads ::= S }})) with (S (key_reads k)). f_equal. lia.
Qed.

Lemma state_set_shift k q shift l v : kb_state k q shift l -> kb_state (k{{ shift_pressed := v }}) q v l.
Proof. intros [Hk Hq Hs Hl]. split; [by destruct Hk|exact Hq|done|exact Hl]. Qed.

Lemma state_push k q shift l c : kb_state k q shift l -> kb_state (kb_push c k) (enqueue c q) shift l.
Proof.
  intros [Hk Hq Hs Hl]. destruct (kb_push_queue c k Hk) as [Hk' Hq']. subst q. split; [done|done| |].
  - unfold kb_push. repeat case_match; exact Hs.
  - unfold kb_push. repeat case_match; exact Hl.
Qed.

(** One character: the strokes of its key leave it in the buffer. *)
Lemma strokes_type k q c l :
  kb_state k q 0 (strokes c ++ l) -> typable c = true ->
  kb_state (interrupts (length (strokes c)) k) (enqueue c q) 0 l.
Proof.
  unfold typable, strokes. destruct (find_key c) as [[x b]|] eqn:E; [|done]. intros Hst _.
  destruct (find_key_translates c x b E) as (Hx & Hl & Hs & Hc & _). unfold is_u8 in Hx.
  assert (Hx' : is_u8 (0x80 + x)) by (unfold is_u8; lia).
  destruct b; cbn [app length] in Hst |- *; unfold interrupts; rewrite !Nat.iter_succ_r; cbn [Nat.iter].
  - destruct (handler_key _ _ _ _ _ Hst) as (k1 & -> & H1); [done|]. change (on_key 0x2A k1) with (k1{{ shift_pressed := 1 }}).
    apply (state_set_shift _ _ _ _ 1) in H1. destruct (handler_key _ _ _ _ _ H1) as (k2 & -> & H2); [done|].
    rewrite on_key_down, (ks_shift _ _ _ _ H2) by done. cbn [Z.b2z] in Hc. rewrite Hc. apply (state_push _ _ _ _ c) in H2.
    destruct (handler_key _ _ _ _ _ H2) as (k3 & -> & H3); [done|]. rewrite on_key_up by done.
    destruct (handler_key _ _ _ _ _ H3) as (k4 & -> & H4); [done|].
    change (on_key (0x80 + 0x2A) k4) with (k4{{ shift_pressed := 0 }}). by apply (state_set_shift _ _ _ _ 0) in H4.
  - destruct (handler_key _ _ _ _ _ Hst) as (k1 & -> & H1); [done|].
    rewrite on_key_down, (ks_shift _ _ _ _ H1) by done. cbn [Z.b2z] in Hc. rewrite Hc. apply (state_push _ _ _ _ c) in H1.
    destruct (handler_key _ _ _ _ _ H1) as (k2 & -> & H2); [done|]. by rewrite on_key_up by done.
Qed.

Lemma enqueue_take c q : 0 < c -> zlen q <= 127 -> enqueue c q = take 127 (q ++ [c]).
Proof.
  intros Hc Hq. unfold enqueue, zlen in *. rewrite (proj2 (Z.eqb_neq c 0)) by lia. cbn [orb].
  destruct (Z.leb_spec 127 (Z.of_nat (length q))); rewrite ?take_app_length' by lia; [done|].
  rewrite take_ge by (rewrite length_app; cbn; lia). done.
Qed.

Lemma take_take_app {A} n (l1 l2 : list A) : take n (take n l1 ++ l2) = take n (l1 ++ l2).
Proof.
  destruct (decide (length l1 <= n)%nat); [by rewrite (take_ge l1) by lia|].
  rewrite !take_app, length_take, take_take, !Nat.min_l by lia. do 2 f_equal. lia.
Qed.

Lemma text_types text k q rest :
  Forall (fun c => typable c = true) text -> zlen q <= 127 -> kb_state k q 0 (concat (strokes <$> text) ++ rest) ->
  kb_state (interrupts (length (concat (strokes <$> text))) k) (take 127 (q ++ text)) 0 rest.
Proof.
  intros Ht. revert k q; induction Ht as [|c text Hc _ IH]; intros k q Hq Hst.
  - rewrite app_nil_r, take_ge by (unfold zlen in Hq; lia). exact Hst.
  - cbn [fmap list_fmap concat] in Hst |- *. rewrite <- app_assoc in Hst. apply strokes_type in Hst; [|done].
    rewrite length_app, Nat.add_comm. unfold interrupts. rewrite Nat.iter_add. fold (interrupts (length (strokes c)) k).
    assert (Hpos : 0 < c). { unfold typable in Hc. destruct (find_key c) as [[x b]|] eqn:E; [|done]. by apply find_key_translates in E as (_ & _ & _ & _ & ?). }
    rewrite (enqueue_take c q Hpos Hq) in Hst. apply IH in Hst; [|unfold zlen; rewrite length_take; lia].
    rewrite take_take_app, <- app_assoc in Hst. exact Hst.
Qed.

Lemma keys_typable : Forall (fun c => typable c = true) (seqZ 32 95 ++ [8; 9; 10]).
Proof. vm_compute. repeat constructor. Qed.

(** C13: typing a text puts it in the keyboard buffer.  When the bytes port 0x60
    returns are those a US keyboard sends for a text (keys going down and up, shift
    held where the character needs it), the interrupts leave the text behind what
    was typed before, as far as 127 characters have room, and the shift key
    released; [tc_getchar] then reads it back character by character.  Every
    printable ASCII character, space, tab, backspace and enter has a key. *)
Theorem keyboard_types (k : keyboard) (text : list Z) (wake : keyboard -> keyboard) (fuel : nat) :
  kb_ok k -> shift_pressed k = 0 -> Forall (fun c => typable c = true) text ->
  sends k (concat (strokes <$> text)) ->
  let k' := interrupts (length (concat (strokes <$> text))) k in
  kb_ok k' /\ shift_pressed k' = 0 /\ typed k' = take 127 (typed k ++ text) /\
  (forall c q, typed k' = c :: q -> exists k'', tc_getchar wake fuel k' = Some (c, k'') /\ kb_ok k'' /\ typed k'' = q) /\
  (forall c, 32 <= c < 127 \/ c ∈ [8; 9; 10] -> typable c = true).
Proof.
  intros Hk Hs Ht Hl. destruct (text_types text k (typed k) []) as [Hk' Hq' Hs' _]; [done| | |].
  - rewrite zlen_typed. pose proof (kb_count_range k). lia.
  - split; [done..|by rewrite app_nil_r].
  - cbv zeta. split; [done|]. split; [done|]. split; [done|]. split.
    + intros c q E. exists (kb_pop (interrupts (length (concat (strokes <$> text))) k)). by apply tc_getchar_queue.
    + intros c Hc. apply (proj1 (Forall_forall _ _) keys_typable), elem_of_app. destruct Hc; [left; apply elem_of_seqZ; lia|by right].
Qed.

(** Typing "Hi" and enter, at power on. *)
Definition demo_keys (codes : list Z) : keyboard := Keyboard (repeat 0 128) 0 0 0 (fun i => zget codes (Z.of_nat i)) 0.
Lemma keyboard_types_witness :
  let codes := [0x2A; 0x23; 0xA3; 0xAA; 0x17; 0x97; 0x1C; 0x9C] in
  typed (interrupts 8 (demo_keys codes)) = [72; 105; 10].
Proof.
  intros codes.
  destruct (keyboard_types (demo_keys codes) [72; 105; 10] (fun k => k) 0) as (_ & _ & H & _).
  - by split.
  - done.
  - repeat constructor.
  - intros i x Hi. do 8 (destruct i as [|i]; [by injection Hi as <-|]). done.
  - exact H.
Defined.
