(* ===== verification/Inject.v ===== *)
(** tools/bridge/inject.c, the program that plays the kernel's side of the
    window from Linux: it maps the window, sets up what carries no magic yet, and
    runs the one command of its command line.

    What a run prints is the value [report]; the window is the memory it shares
    with the kernel and the bridge, [base] the address the mapping has there.
    [clock_gettime] is read once at most: [ts] is what it returns.  The program
    is proved to do to the window what the kernel's own operations do to it. *)

From S2P Require Import Prelude Mem IpcProto Trace KTime Bitmap SharedHeap Interrupts Ring CLib Keyboard Ipc.

(** ** The operations *)

Definition inject_time_usec (ts : Z * Z) : Z :=
  let '(sec, nsec) := ts in u64 (u64 (u64 sec * 1000000) + u64 (nsec / 1000)).

(** One ring of [init_rings]. *)
Definition inject_init_ring (r magic : Z) (m : mem) : mem :=
  if ring_magic m r =? magic then m
  else
    let m := st32 m (r + RING_magic) magic in
    let m := st32 m (r + RING_head) 0 in
    let m := st32 m (r + RING_tail) 0 in
    st32 m (r + RING_size) IPC_RING_SIZE.

Definition inject_init_doorbell (db : Z) (m : mem) : mem :=
  if ld32 m (db + DB_magic) =? IPC_DOORBELL_MAGIC then m else init_doorbell db m.

Definition inject_init_rings (base : Z) (m : mem) : mem :=
  let m := inject_init_ring (base + IPC_CMD_RING_OFFSET) IPC_MAGIC m in
  let m := inject_init_ring (base + IPC_RSP_RING_OFFSET) IPC_RSP_MAGIC m in
  inject_init_doorbell (base + IPC_DOORBELL_OFFSET) m.

(** [None] is the fault of [% cmd_ring->size]. *)
Definition send_packet (ts : Z * Z) (base cmd payload : Z) (m : mem) : option (Z * mem) :=
  let r := base + IPC_CMD_RING_OFFSET in
  let db := base + IPC_DOORBELL_OFFSET in
  if ring_size m r =? 0 then None
  else
    let head := ring_head m r in
    let next_head := ring_next m r head in
    if next_head =? ring_tail m r then Some (-1, m)
    else
      let m := write_packet (ring_slot ENTRY_SIZE r head) (Packet cmd 0 payload (inject_time_usec ts)) m in
      let m := st32 m (r + RING_head) next_head in
      if (db =? 0) || negb (ld32 m (db + DB_magic) =? IPC_DOORBELL_MAGIC) then Some (0, m)
      else Some (0, ring_cmd_doorbell db next_head m).

Definition poll_response (base : Z) (m : mem) : option (option response * mem) :=
  let r := base + IPC_RSP_RING_OFFSET in
  if ring_head m r =? ring_tail m r then Some (None, m)
  else if ring_size m r =? 0 then None
  else
    let tail := ring_tail m r in
    let rsp := read_response m (ring_slot ENTRY_SIZE r tail) in
    Some (Some rsp, st32 m (r + RING_tail) (ring_next m r tail)).

(** What [print_status] prints of a ring. *)
Record ring_status := RingStatus { rst_magic : Z; rst_head : Z; rst_tail : Z; rst_size : Z; rst_pending : Z }.

Definition pending (m : mem) (r : Z) : Z :=
  if ring_tail m r <=? ring_head m r then ring_head m r -u ring_tail m r
  else u32 (ring_size m r -u ring_tail m r + ring_head m r).
Definition status_of (m : mem) (r : Z) : ring_status :=
  RingStatus (ring_magic m r) (ring_head m r) (ring_tail m r) (ring_size m r) (pending m r).

(** The doorbell's part: its magic, the two triples and whether interrupts are on. *)
Record doorbell_status := DoorbellStatus {
  dst_magic : Z; dst_cmd : Z * Z * Z; dst_rsp : Z * Z * Z; dst_rsp_irq : bool
}.
Definition doorbell_of (m : mem) (db : Z) : doorbell_status :=
  DoorbellStatus (ld32 m (db + DB_magic))
    (ld32 m (db + DB_cmd_doorbell), ld32 m (db + DB_cmd_writes), ld32 m (db + DB_cmd_irq_count))
    (ld32 m (db + DB_rsp_doorbell), ld32 m (db + DB_rsp_writes), ld32 m (db + DB_rsp_irq_count))
    (negb (Z.land (ld32 m (db + DB_rsp_flags)) DOORBELL_FLAG_IRQ_ENABLED =? 0)).

Definition print_status (base : Z) (m : mem) : ring_status * ring_status * doorbell_status :=
  (status_of m (base + IPC_CMD_RING_OFFSET), status_of m (base + IPC_RSP_RING_OFFSET),
   doorbell_of m (base + IPC_DOORBELL_OFFSET)).

Definition reset (base : Z) (m : mem) : mem :=
  let cmd := base + IPC_CMD_RING_OFFSET in
  let rsp := base + IPC_RSP_RING_OFFSET in
  let m := st32 m (cmd + RING_magic) IPC_MAGIC in
  let m := st32 m (cmd + RING_head) 0 in
  let m := st32 m (cmd + RING_tail) 0 in
  let m := st32 m (cmd + RING_size) IPC_RING_SIZE in
  let m := st32 m (rsp + RING_magic) IPC_RSP_MAGIC in
  let m := st32 m (rsp + RING_head) 0 in
  let m := st32 m (rsp + RING_tail) 0 in
  let m := st32 m (rsp + RING_size) IPC_RING_SIZE in
  init_doorbell (base + IPC_DOORBELL_OFFSET) m.

(** ** The command line

    [strtoul(s, NULL, 0)] of the C library: blanks, a sign, a prefix that gives
    the base, the longest run of its digits, [ULONG_MAX] when the number is out
    of range. *)

Definition is_space (c : Z) : bool := (c =? 32) || (9 <=? c) && (c <=? 13).

Fixpoint skip_blanks (s : list Z) : list Z :=
  match s with
  | c :: s' => if is_space c then skip_blanks s' else s
  | [] => []
  end.

Fixpoint digits (base acc : Z) (s : list Z) : Z :=
  match s with
  | [] => acc
  | c :: s => match digit_of c with
              | Some d => if d <? base then digits base (acc * base + d) s else acc
              | None => acc
              end
  end.

Definition prefixed (s : list Z) : Z :=
  match s with
  | 48 :: x :: h :: s =>
      if ((x =? 120) || (x =? 88)) && digit_in 16 h then digits 16 0 (h :: s)
      else digits 8 0 (x :: h :: s)
  | 48 :: s => digits 8 0 s
  | _ => digits 10 0 s
  end.

Definition strtoul0 (s : list Z) : Z :=
  let '(neg, s) := match skip_blanks s with
                   | 45 :: s => (true, s)
                   | 43 :: s => (false, s)
                   | s => (false, s)
                   end in
  let v := prefixed s in
  if 0xFFFFFFFFFFFFFFFF <? v then 0xFFFFFFFFFFFFFFFF else if neg then u64 (- v) else v.

(** What a run prints. *)
Inductive report :=
| Usage | CannotMap | Sent (cmd payload : Z) | CommandRingFull | NoResponse | Received (r : response)
| Status (s : ring_status * ring_status * doorbell_status) | ResetDone | Unknown (cmd : list Z).

Definition do_send (ts : Z * Z) (base cmd payload : Z) (m : mem) : option (Z * report * mem) :=
  '(rc, m) ← send_packet ts base cmd payload m;
  Some (0, if rc =? 0 then Sent cmd payload else CommandRingFull, m).

(** [argv] without the program's name; [mapped] is where [open], [ftruncate] and
    [mmap] put the window, [None] when one of them fails. *)
Definition main (ts : Z * Z) (mapped : option Z) (argv : list (list Z)) (m : mem)
  : option (Z * report * mem) :=
  match argv with
  | [] => Some (1, Usage, m)
  | cmd :: args =>
    match mapped with
    | None => Some (1, CannotMap, m)
    | Some base =>
        let m := inject_init_rings base m in
        let payload := match args with arg :: _ => u32 (strtoul0 arg) | [] => 0 end in
        if bool_decide (cmd = ascii "ping") then do_send ts base CMD_PING payload m
        else if bool_decide (cmd = ascii "print") then do_send ts base CMD_PRINT payload m
        else if bool_decide (cmd = ascii "model") then do_send ts base CMD_RUN_MODEL payload m
        else if bool_decide (cmd = ascii "status") then Some (0, Status (print_status base m), m)
        else if bool_decide (cmd = ascii "poll") then
          '(r, m) ← poll_response base m;
          Some (0, match r with Some rsp => Received rsp | None => NoResponse end, m)
        else if bool_decide (cmd = ascii "reset") then Some (0, ResetDone, reset base m)
        else Some (1, Unknown cmd, m)
    end
  end.

(** ** The window the program leaves *)

Section Ready.
Context (base : Z) (m : mem).
Local Abbreviation cmd := (base + IPC_CMD_RING_OFFSET).
Local Abbreviation rsp := (base + IPC_RSP_RING_OFFSET).

(** A window in use is left alone. *)
Lemma inject_init_ok : window_ok base m -> inject_init_rings base m = m.
Proof using.
  intros Hok. unfold inject_init_rings, inject_init_ring, inject_init_doorbell.
  by rewrite (wn_cmd_magic _ _ Hok), Z.eqb_refl, (wn_rsp_magic _ _ Hok), Z.eqb_refl,
    (wn_db_magic _ _ Hok), Z.eqb_refl.
Qed.

(** Both rings with their header written and zero indices, and a doorbell. *)
Lemma window_empty :
  mem_ok m ->
  (forall r g, (r, g) = (cmd, IPC_MAGIC) \/ (r, g) = (rsp, IPC_RSP_MAGIC) ->
    ring_magic m r = g /\ ring_head m r = 0 /\ ring_tail m r = 0 /\ ring_size m r = IPC_RING_SIZE) ->
  ld32 m (base + IPC_DOORBELL_OFFSET + DB_magic) = IPC_DOORBELL_MAGIC ->
  window_has base m [] [].
Proof using.
  intros Hm Hr Hd.
  destruct (Hr _ _ (or_introl eq_refl)) as (C1 & C2 & C3 & C4).
  destruct (Hr _ _ (or_intror eq_refl)) as (R1 & R2 & R3 & R4).
  assert (Hw : window_ok base m) by (split; try done; (split; [done|lia|lia])).
  split; [done|]. split.
  - apply (ring_empty ENTRY_SIZE IPC_RING_SIZE _ ltac:(lia) read_packet m (wn_cmd _ _ Hw)). lia.
  - apply (ring_empty ENTRY_SIZE IPC_RING_SIZE _ ltac:(lia) read_response m (wn_rsp _ _ Hw)). lia.
Qed.
End Ready.

Lemma reset_has base m :
  mem_ok m -> window_has base (reset base m) [] [] /\
  within base (base + IPC_HEAP_CTL_OFFSET) m (reset base m).
Proof.
  intros Hm. split.
  - apply window_empty.
    + by repeat apply mem_ok_st.
    + intros r g [[= -> ->]|[= -> ->]];
        unfold ring_head, ring_tail, ring_size, ring_magic, reset, init_doorbell;
        (split; [|split; [|split]]); mem_simpl; reflexivity.
    + unfold reset, init_doorbell. mem_simpl. reflexivity.
  - unfold reset, init_doorbell.
    repeat (apply within_st_r; [lia|change (Z.of_nat 4) with 4; lia|]). done.
Qed.

(** A window with none of the three magics is set up as by [reset]. *)
Lemma inject_init_fresh base m :
  ring_magic m (base + IPC_CMD_RING_OFFSET) <> IPC_MAGIC ->
  ring_magic m (base + IPC_RSP_RING_OFFSET) <> IPC_RSP_MAGIC ->
  ld32 m (base + IPC_DOORBELL_OFFSET + DB_magic) <> IPC_DOORBELL_MAGIC ->
  inject_init_rings base m = reset base m.
Proof.
  intros Hc Hr Hd. unfold inject_init_rings.
  unfold inject_init_ring at 2. rewrite (proj2 (Z.eqb_neq _ _) Hc). cbv zeta.
  unfold inject_init_ring. unfold ring_magic in Hr |- *. do 4 rewrite ld_st_ne by lia.
  rewrite (proj2 (Z.eqb_neq _ _) Hr). cbv zeta. unfold inject_init_doorbell.
  do 8 rewrite ld_st_ne by lia. rewrite (proj2 (Z.eqb_neq _ _) Hd). reflexivity.
Qed.

(** What setting up touches. *)
Lemma inject_init_within base m :
  mem_ok m -> mem_ok (inject_init_rings base m) /\
  within base (base + IPC_HEAP_CTL_OFFSET) m (inject_init_rings base m).
Proof.
  intros Hm.
  assert (Hr : forall r g m, base <= r -> r + 0x20 <= base + IPC_HEAP_CTL_OFFSET -> mem_ok m ->
    mem_ok (inject_init_ring r g m) /\
    within base (base + IPC_HEAP_CTL_OFFSET) m (inject_init_ring r g m)).
  { intros r g m0 H1 H2 Hm0. unfold inject_init_ring. destruct (_ =? _); [done|].
    split; [by repeat apply mem_ok_st|].
    repeat (apply within_st_r; [lia|change (Z.of_nat 4) with 4; lia|]). done. }
  unfold inject_init_rings.
  destruct (Hr (base + IPC_CMD_RING_OFFSET) IPC_MAGIC m) as [M1 W1]; [lia|lia|done|].
  destruct (Hr (base + IPC_RSP_RING_OFFSET) IPC_RSP_MAGIC _ ltac:(lia) ltac:(lia) M1) as [M2 W2].
  set (m2 := inject_init_ring _ _ _) in *. unfold inject_init_doorbell.
  destruct (_ =? _); [split; [done|by etransitivity]|]. unfold init_doorbell.
  split; [by repeat apply mem_ok_st|].
  repeat (apply within_st_r; [lia|change (Z.of_nat 4) with 4; lia|]). by etransitivity.
Qed.

(** What [print_status] calls pending is the length of the queue. *)
Lemma pending_count r m :
  ring_ok IPC_RING_SIZE r m -> pending m r = ring_count IPC_RING_SIZE r m.
Proof.
  intros [Hs Hh Ht]. unfold pending, ring_count. rewrite Hs, mod_diff by done.
  destruct (Z.leb_spec (ring_tail m r) (ring_head m r)); [apply u32_small; cint|].
  unfold u32. rewrite Zplus_mod_idemp_l, Z.mod_small by lia. lia.
Qed.

Lemma pending_queues base m :
  window_ok base m ->
  pending m (base + IPC_CMD_RING_OFFSET) = zlen (cmd_queue base m) /\
  pending m (base + IPC_RSP_RING_OFFSET) = zlen (rsp_queue base m).
Proof.
  intros Hok. unfold zlen, cmd_queue, rsp_queue. rewrite !length_ring_queue.
  rewrite !pending_count by apply Hok. rewrite !Z2Nat.id; [done| |];
    apply ring_count_range; lia.
Qed.

(** ** The kernel's side *)

(** [send_packet] is [ipc_send] on the same window at the same time. *)
Lemma send_packet_send base s ts cmd payload rc s' :
  ipc_ok base s -> inject_time_usec ts = fst (time_usec (ip_clock s)) ->
  ipc_send cmd payload s = Some (rc, s') ->
  send_packet ts base cmd payload (win s) = Some (rc, win s').
Proof.
  intros Hok Ht. pose proof (io_base _ _ Hok) as Hb. pose proof (io_win _ _ Hok) as Hw.
  unfold ipc_send, ipc_send_flags, send_packet.
  rewrite (io_cmd _ _ Hok), (proj2 (Z.eqb_neq (base + IPC_CMD_RING_OFFSET) 0)) by lia.
  rewrite (ring_size_nonzero _ _ (wn_cmd _ _ Hw)). cbv zeta.
  set (r := base + IPC_CMD_RING_OFFSET) in *. pose proof (wn_cmd _ _ Hw) as Hr. fold r in Hr.
  destruct (_ =? ring_tail _ _); [by intros [= <- <-]|].
  rewrite Ht. destruct (time_usec (ip_clock s)) as [now c]. cbn [fst]. intros [= <- <-].
  set (p := Packet cmd 0 payload now). set (a := ring_slot ENTRY_SIZE r (ring_head (win s) r)).
  set (m1 := write_packet a p (win s)). set (m2 := st32 m1 _ _).
  assert (Hd : ld32 m2 (base + IPC_DOORBELL_OFFSET + DB_magic) = IPC_DOORBELL_MAGIC).
  { pose proof (slot_range r (ring_head (win s) r) (rk_head _ _ _ Hr)) as Hs. fold a in Hs.
    unfold m2. rewrite ld_st_ne by (subst r; lia).
    etransitivity; [eapply (within_ld 4); [apply (write_packet_within a p (win s))|]|exact (wn_db_magic _ _ Hw)].
    change (Z.of_nat 4) with 4. subst r. lia. }
  rewrite Hd, (proj2 (Z.eqb_neq (base + IPC_DOORBELL_OFFSET) 0)) by lia.
  rewrite Z.eqb_refl. cbn [negb orb]. rewrite (io_db _ _ Hok). reflexivity.
Qed.

(** [poll_response] is [ipc_poll_response] with nobody else at the window. *)
Lemma poll_response_poll base s r s' :
  ipc_ok base s -> ipc_poll_response (fun _ m => m) s = Some (r, s') ->
  poll_response base (win s) = Some (r, win s').
Proof.
  intros Hok. unfold ipc_poll_response. pose proof (io_win _ _ Hok) as Hw.
  pose proof (io_base _ _ Hok). rewrite (io_rsp _ _ Hok), (wn_rsp_magic _ _ Hw).
  rewrite (proj2 (Z.eqb_neq _ 0)) by lia. rewrite Z.eqb_refl. cbn [negb orb]. cbv zeta.
  set (r0 := base + IPC_RSP_RING_OFFSET).
  assert (Es : on_win (spin_wait (fun _ m => m) r0 POLL_SPINS 0) s = s).
  { destruct s as [hp]; unfold on_win. cbn -[spin_wait POLL_SPINS]. destruct hp.
    cbn -[spin_wait POLL_SPINS]. by rewrite spin_idle. }
  rewrite Es. clear Es. unfold poll_response. cbv zeta. fold r0.
  destruct (ring_head (win s) r0 =? ring_tail (win s) r0).
  { intros E. injection E as <- <-. reflexivity. }
  destruct (ring_size (win s) r0 =? 0); [discriminate|].
  intros E. injection E as <- <-. reflexivity.
Qed.

Definition argument (args : list (list Z)) : Z :=
  match args with arg :: _ => u32 (strtoul0 arg) | [] => 0 end.

(** The three commands that send. *)
Inductive send_command : list Z -> Z -> Prop :=
| SendPing : send_command (ascii "ping") CMD_PING
| SendPrint : send_command (ascii "print") CMD_PRINT
| SendModel : send_command (ascii "model") CMD_RUN_MODEL.

Lemma main_sends ts base w cmd args m :
  send_command w cmd ->
  main ts (Some base) (w :: args) m = do_send ts base cmd (argument args) (inject_init_rings base m).
Proof. intros []; reflexivity. Qed.

Definition known : list (list Z) :=
  [ascii "ping"; ascii "print"; ascii "model"; ascii "status"; ascii "poll"; ascii "reset"].

Lemma main_unknown ts base args m w :
  w ∉ known -> main ts (Some base) (w :: args) m = Some (1, Unknown w, inject_init_rings base m).
Proof.
  unfold known. rewrite !not_elem_of_cons. intros (H1 & H2 & H3 & H4 & H5 & H6 & _).
  unfold main. by rewrite !bool_decide_false.
Qed.

Lemma argument_u32 args : is_u32 (argument args).
Proof. destruct args; [done|]. apply is_u32_u32. Qed.

(** C22: on a window the kernel has set up, the injector is the kernel: [ping],
    [print] and [model] do to the window what [ipc_send] with the command and the
    argument does at the same time, and report a full ring exactly when
    [ipc_send] fails; [poll] takes and shows the response [ipc_poll_response]
    takes; the kernel's invariant holds of what they leave. *)
Theorem inject_plays_kernel (base : Z) (s : ipc) (ts : Z * Z) (args : list (list Z)) :
  ipc_ok base s -> inject_time_usec ts = fst (time_usec (ip_clock s)) ->
  (forall w cmd, send_command w cmd ->
    exists rc s', ipc_send cmd (argument args) s = Some (rc, s') /\ ipc_ok base s' /\
      (rc = -1 /\ zlen (cmds base s) = 1023 \/
       rc = 0 /\ zlen (cmds base s) <> 1023) /\
      main ts (Some base) (w :: args) (win s) =
        Some (0, if rc =? 0 then Sent cmd (argument args) else CommandRingFull, win s')) /\
  exists r s', ipc_poll_response (fun _ m => m) s = Some (r, s') /\ ipc_ok base s' /\
    rsps base s = option_list r ++ rsps base s' /\
    main ts (Some base) (ascii "poll" :: args) (win s) =
      Some (0, match r with Some rsp => Received rsp | None => NoResponse end, win s').
Proof.
  intros Hok Ht. pose proof (inject_init_ok base (win s) (io_win _ _ Hok)) as Ei. split.
  - intros w cmd Hs.
    assert (Hc : is_u16 cmd) by (destruct Hs; unfold is_u16; lia).
    destruct (ipc_send_spec base s cmd (argument args) 0 Hok Hc (argument_u32 args) ltac:(done))
      as (rc & s' & E & Hok' & _ & Hcase).
    exists rc, s'. split; [exact E|]. split; [done|].
    split; [destruct Hcase as [(Hl & -> & _)|(Hl & -> & _)]; [by left|by right]|].
    rewrite (main_sends ts base w cmd args (win s) Hs), Ei. unfold do_send.
    by rewrite (send_packet_send base s ts cmd (argument args) rc s' Hok Ht E).
  - destruct (ipc_poll_spec base s Hok) as (r & s' & E & Hok' & _ & _ & Er & _).
    exists r, s'. split; [exact E|]. split; [done|]. split; [exact Er|].
    change (main ts (Some base) (ascii "poll" :: args) (win s)) with
      ('(r, m) ← poll_response base (inject_init_rings base (win s));
       Some (0, match r with Some rsp => Received rsp | None => NoResponse end, m)).
    by rewrite Ei, (poll_response_poll base s r s' Hok E).
Qed.

(** The window as the kernel leaves it at boot, and the time it reads first. *)
Lemma inject_plays_kernel_witness :
  let s := ipc_init 0xC0101000 0xE0000000 10 demo_ipc in
  exists s', ipc_send CMD_PRINT 255 s = Some (0, s') /\
    main (0, 0) (Some 0xE0000000) [ascii "print"; ascii "0xfF"] (win s) =
      Some (0, Sent CMD_PRINT 255, win s').
Proof.
  intros s.
  destruct (ipc_init_ok 0xC0101000 0xE0000000 10 demo_ipc) as (Hok & _ & Ec & _);
    [lia|apply mem_ok_empty|reflexivity|exact demo_clock_ok|].
  destruct (inject_plays_kernel 0xE0000000 s (0, 0) [ascii "0xfF"] Hok eq_refl) as [H _].
  destruct (H _ _ SendPrint) as (rc & s' & E & _ & [[_ El]|[-> _]] & Em).
  - unfold s in El. rewrite Ec in El. discriminate El.
  - exists s'. split; [exact E|exact Em].
Defined.

(** The injector on any window.  [reset] leaves two empty rings and a
    doorbell whatever was there, and touches nothing from the heap on; a window
    with none of the three magics is set up the same way by every command; on a
    window in use [status] changes nothing and the pending counts it prints are
    the lengths of the queues; a command line it does not know, an empty one and
    a window that cannot be mapped end with exit code 1. *)
Theorem inject_window (base : Z) (m : mem) (ts : Z * Z) (args : list (list Z)) :
  mem_ok m ->
  (exists m', main ts (Some base) (ascii "reset" :: args) m = Some (0, ResetDone, m') /\
    m' = reset base (inject_init_rings base m) /\ window_has base m' [] [] /\
    within base (base + IPC_HEAP_CTL_OFFSET) m m') /\
  (ring_magic m (base + IPC_CMD_RING_OFFSET) <> IPC_MAGIC ->
   ring_magic m (base + IPC_RSP_RING_OFFSET) <> IPC_RSP_MAGIC ->
   ld32 m (base + IPC_DOORBELL_OFFSET + DB_magic) <> IPC_DOORBELL_MAGIC ->
   window_has base (inject_init_rings base m) [] []) /\
  (window_ok base m ->
   exists c r d, main ts (Some base) (ascii "status" :: args) m = Some (0, Status (c, r, d), m) /\
     rst_pending c = zlen (cmd_queue base m) /\ rst_pending r = zlen (rsp_queue base m)) /\
  main ts (Some base) [] m = Some (1, Usage, m) /\
  main ts None (ascii "ping" :: args) m = Some (1, CannotMap, m) /\
  (forall w, w ∉ known -> main ts (Some base) (w :: args) m = Some (1, Unknown w, inject_init_rings base m)).
Proof.
  intros Hm. destruct (inject_init_within base m Hm) as [Hm1 Hw1].
  split; [|split; [|split; [|split; [|split; [|exact (main_unknown ts base args m)]]]]].
  - exists (reset base (inject_init_rings base m)). split; [reflexivity|]. split; [done|].
    destruct (reset_has base _ Hm1) as [H1 H2]. split; [exact H1|]. by etransitivity.
  - intros Hc Hr Hd. rewrite (inject_init_fresh base m Hc Hr Hd). apply (reset_has base m Hm).
  - intros Hok. destruct (pending_queues base m Hok) as [E1 E2].
    exists (status_of m (base + IPC_CMD_RING_OFFSET)), (status_of m (base + IPC_RSP_RING_OFFSET)),
      (doorbell_of m (base + IPC_DOORBELL_OFFSET)). split; [|split; [exact E1|exact E2]].
    change (main ts (Some base) (ascii "status" :: args) m) with
      (Some (0, Status (print_status base (inject_init_rings base m)), inject_init_rings base m)).
    by rewrite (inject_init_ok base m Hok).
  - reflexivity.
  - reflexivity.
Qed.

Lemma inject_window_witness :
  main (0, 0) (Some 0x1000) [ascii "ping"; ascii "017"] ∅ =
    send_packet (0, 0) 0x1000 CMD_PING 15 (reset 0x1000 ∅) ≫= (fun '(_, m) => Some (0, Sent CMD_PING 15, m)) /\
  window_has 0x1000 (inject_init_rings 0x1000 ∅) [] [].
Proof.
  split.
  - vm_compute. reflexivity.
  - apply (inject_window 0x1000 ∅ (0, 0) []); [apply mem_ok_empty|vm_compute; discriminate..].
Defined.
