(* ===== verification/Shell.v ===== *)
(** kernel/shell.c: the kernel's command line, over the keyboard, the console and
    the command channel.

    [cmd_buf] is an array of 128 characters and strings are pointers into it; a
    pointer is here the list of the cells from it to the end of the array, so that
    reading past the array gives [None].  [sh_out] is what the shell itself writes,
    in order; what the channel's functions print in between is not modelled.  One
    turn of the loop is what happens between two [hlt]s, where the interrupts come.

    The theorems: no history of turns and key presses leaves the buffer or faults;
    the shell is a line editor; and a line typed at the keyboard does what its
    command says, down to the packet in the command ring. *)

From S2P Require Import Prelude Mem KTime IpcProto SharedHeap Interrupts Ring Ipc Keyboard.

Inductive out_op := Putc (c : Z) | Cls | IpcDump.

Record shell := Shell {
  sh_kbd : keyboard;
  sh_ipc : ipc;
  sh_out : list out_op;
  cmd_buf : list Z;
  cmd_len : Z
}.
#[export] Instance eta_shell : Eta shell := fun s => Shell (sh_kbd s) (sh_ipc s) (sh_out s) (cmd_buf s) (cmd_len s).

Definition write (l : list out_op) (s : shell) : shell := s{{ sh_out ::= fun o => o ++ l }}.
Definition console_write (str : list Z) : shell -> shell := write (Putc <$> str).
Definition newline : list Z := [10].

Definition shell_prompt : shell -> shell := console_write (newline ++ ascii "ZE> ").

(** [char *]: what is left of the array. *)
Fixpoint strncmp (n : nat) (s1 s2 : list Z) : option Z :=
  match n with
  | O => Some 0
  | S n =>
    c1 ← head s1; c2 ← head s2;
    if (c1 =? 0) || (c2 =? 0) || negb (c1 =? c2) then Some (c1 - c2) else strncmp n (tail s1) (tail s2)
  end.
Fixpoint skip_spaces (s : list Z) : option (list Z) :=
  match s with
  | [] => None
  | c :: s' => if c =? 32 then skip_spaces s' else Some s
  end.
(** The characters up to the NUL. *)
Fixpoint c_string (s : list Z) : option (list Z) :=
  match s with
  | [] => None
  | c :: s => if c =? 0 then Some [] else l ← c_string s; Some (c :: l)
  end.
Definition literal (s : String.string) : list Z := ascii s ++ [0].
Definition line (s : String.string) : list Z := ascii s ++ newline.

Definition help_text : list Z :=
  line "Available commands:" ++ line "  help    - Show this message" ++ line "  cls     - Clear screen" ++
  line "  ping    - Send IPC PING to Bridge" ++ line "  model <id> - Send IPC RUN_MODEL (id=0-9)" ++
  line "  ipc     - Show IPC debug stats".

(** [ipc_send], and what the shell says of it. *)
Definition send_command (cmd payload : Z) (sent failed : list Z) (s : shell) : option shell :=
  '(r, i) ← ipc_send cmd payload (sh_ipc s);
  let s := s{{ sh_ipc := i }} in
  Some (console_write (if r =? 0 then sent else failed) s).

(** [cmd + 5]. *)
Definition run_model (cmd : list Z) (s : shell) : option shell :=
  arg ← skip_spaces (drop 5 cmd);
  c ← head arg;
  if (48 <=? c) && (c <=? 57) then
    let model_id := c - 48 in
    let s := console_write (ascii "Running Model ID: ") s in
    let s := console_write [c] s in
    let s := console_write (line "...") s in
    send_command 0x0004 model_id (line "Request sent.") (line "Failed.") s
  else Some (console_write (line "Usage: model <id> (0-9)") s).

Definition dispatch (cmd : list Z) (s : shell) : option shell :=
  is_help ← strncmp 4 cmd (literal "help");
  if is_help =? 0 then Some (console_write help_text s)
  else is_cls ← strncmp 3 cmd (literal "cls");
  if is_cls =? 0 then Some (write [Cls] s)
  else is_ping ← strncmp 4 cmd (literal "ping");
  if is_ping =? 0 then
    send_command 0x0001 0 (line "Sent.") (line "Failed to send (ring full?).") (console_write (line "Sending CMD_PING...") s)
  else is_ipc ← strncmp 3 cmd (literal "ipc");
  if is_ipc =? 0 then Some (write [IpcDump] s)
  else is_model ← strncmp 5 cmd (literal "model");
  if is_model =? 0 then run_model cmd s
  else
    text ← c_string cmd;
    Some (console_write newline (console_write text (console_write (ascii "Unknown command: ") s))).

Definition run_command (s : shell) : option shell :=
  if cmd_len s =? 0 then Some s
  else
    cmd ← skip_spaces (cmd_buf s);
    c ← head cmd;
    if c =? 0 then Some s else dispatch cmd s.

(** What one character does. *)
Definition shell_char (c : Z) (s : shell) : option shell :=
  if c =? 10 then
    let s := write [Putc 10] s in
    let s := s{{ cmd_buf ::= fun b => zset b (cmd_len s) 0 }} in
    s ← run_command s;
    Some (shell_prompt (s{{ cmd_len := 0 }}))
  else if c =? 8 then
    if 0 <? cmd_len s then Some (write [Putc 8] (s{{ cmd_len ::= fun n => n - 1 }})) else Some s
  else if cmd_len s <? 127 then
    let s := s{{ cmd_buf ::= fun b => zset b (cmd_len s) c; cmd_len ::= fun n => n + 1 }} in
    Some (write [Putc c] s)
  else Some s.

(** The body of the loop, up to [hlt].  [env] is what the other side of the window
    does during a poll. *)
Definition shell_turn (env : Z -> mem -> mem) (fuel : nat) (s : shell) : option shell :=
  i ← ipc_consume_one (sh_ipc s);
  '(_, i) ← drain env fuel i;
  let s := s{{ sh_ipc := i }} in
  if negb (tc_has_input (sh_kbd s) =? 0) then
    '(c, k) ← tc_getchar (fun k => k) 0 (sh_kbd s);
    shell_char c (s{{ sh_kbd := k }})
  else Some s.

(** [shell_start], before its loop. *)
Definition shell_begin (s : shell) : shell :=
  shell_prompt (console_write (newline ++ line "ZENEDGE Kernel Shell (ksh)" ++ line "Type 'help' for commands.") s).

Fixpoint shell_turns (env : Z -> mem -> mem) (fuel n : nat) (s : shell) : option shell :=
  match n with
  | O => Some s
  | S n => s ← shell_turn env fuel s; shell_turns env fuel n s
  end.

(** ** The channel's part of a turn *)

(** What the loop over the responses reads in a turn: status, command and result. *)
Definition turn_reads (fuel : nat) (s : shell) : option (list (Z * Z * Z)) :=
  i ← ipc_consume_one (sh_ipc s);
  r ← drain (fun _ m => m) fuel i;
  Some (map (fun r => (rs_status r, rs_orig_cmd r, rs_result r)) (fst r)).

(** The oldest command gone and answered, every response read. *)
Lemma channel_turn base fuel s :
  ipc_ok base s -> (1023 <= fuel)%nat ->
  exists i s', ipc_consume_one s = Some i /\ drain (fun _ m => m) fuel i = Some (rsps base i, s') /\ ipc_ok base s' /\
    same_heap base s s' /\ cmds base s' = tail (cmds base s) /\ rsps base s' = [] /\
    (rsps base s = [] -> map (fun r => (rs_status r, rs_orig_cmd r, rs_result r)) (rsps base i)
       = map (fun p => (RSP_OK, pk_cmd p, MOCK_RESULT)) (option_list (head (cmds base s)))).
Proof.
  intros Hok Hf. destruct (ipc_consume_spec base s Hok) as (i & E1 & Hok1 & S1 & E2 & E6).
  destruct (drain_spec base fuel i Hok1) as (s' & E3 & Hok2 & S2 & E4 & E5).
  { unfold rsps, rsp_queue. rewrite length_ring_queue.
    pose proof (ring_count_range IPC_RING_SIZE (base + IPC_RSP_RING_OFFSET) ltac:(lia) (win i)). lia. }
  exists i, s'. split; [done|]. split; [done|]. split; [done|]. split; [by transitivity i|].
  split; [by rewrite E4|]. split; [done|]. intros E0. rewrite E6, E0. by destruct (cmds base s).
Qed.

(** ** The commands *)

(** What a line means: its first word, after spaces, by prefix and in this order. *)
Inductive command :=
  | CNothing | CHelp | CCls | CPing | CIpc | CModel (model_id : Z) | CModelUsage | CUnknown (text : list Z).

Fixpoint trim (l : list Z) : list Z :=
  match l with
  | c :: l' => if c =? 32 then trim l' else l
  | [] => []
  end.
Definition digit (l : list Z) : option Z :=
  match l with
  | c :: _ => if (48 <=? c) && (c <=? 57) then Some (c - 48) else None
  | [] => None
  end.
Definition starts (w : String.string) (l : list Z) : bool := bool_decide (ascii w `prefix_of` l).

Definition parse (l : list Z) : command :=
  let t := trim l in
  if bool_decide (t = []) then CNothing
  else if starts "help" t then CHelp
  else if starts "cls" t then CCls
  else if starts "ping" t then CPing
  else if starts "ipc" t then CIpc
  else if starts "model" t then
    match digit (trim (drop 5 t)) with Some d => CModel d | None => CModelUsage end
  else CUnknown t.

(** The output of a command whose packet, if it has one, was sent. *)
Definition said (c : command) : list out_op :=
  match c with
  | CNothing => []
  | CHelp => Putc <$> help_text
  | CCls => [Cls]
  | CPing => Putc <$> (line "Sending CMD_PING..." ++ line "Sent.")
  | CIpc => [IpcDump]
  | CModel d => Putc <$> (ascii "Running Model ID: " ++ [48 + d] ++ line "..." ++ line "Request sent.")
  | CModelUsage => Putc <$> line "Usage: model <id> (0-9)"
  | CUnknown t => Putc <$> (ascii "Unknown command: " ++ t ++ newline)
  end.
(** The packet it sends: command word and payload. *)
Definition asks (c : command) : option (Z * Z) :=
  match c with CPing => Some (CMD_PING, 0) | CModel d => Some (0x0004, d) | _ => None end.

Section Strings.
Variable r : list Z.

Lemma skip_spaces_trim l : 0 ∉ l -> skip_spaces (l ++ 0 :: r) = Some (trim l ++ 0 :: r).
Proof.
  induction l as [|c l IH]; intros H0; [done|]. apply not_elem_of_cons in H0 as [_ H0].
  cbn [app skip_spaces trim]. destruct (c =? 32); [by apply IH|done].
Qed.

Lemma trim_no_nul l : 0 ∉ l -> 0 ∉ trim l.
Proof.
  induction l as [|c l IH]; intros H0; [done|]. cbn [trim]. destruct (c =? 32); [|done].
  apply IH. by apply not_elem_of_cons in H0 as [_ H0].
Qed.

Lemma c_string_app l : 0 ∉ l -> c_string (l ++ 0 :: r) = Some l.
Proof.
  induction l as [|c l IH]; intros H0; [done|]. apply not_elem_of_cons in H0 as [Hc H0].
  cbn [app c_string]. rewrite (proj2 (Z.eqb_neq c 0)) by done. by rewrite IH.
Qed.

(** [strncmp] with the length of a literal tests for it as a prefix. *)
Lemma strncmp_prefix w l :
  0 ∉ l -> 0 ∉ w -> exists d, strncmp (length w) (l ++ 0 :: r) (w ++ [0]) = Some d /\ (d =? 0) = bool_decide (w `prefix_of` l).
Proof.
  revert l; induction w as [|x w IH]; intros l Hl Hw.
  - exists 0. split; [done|]. symmetry. apply bool_decide_eq_true, prefix_nil.
  - apply not_elem_of_cons in Hw as [Hx Hw]. destruct l as [|c l]; cbn [length strncmp app head mbind option_bind].
    + cbn [orb]. exists (0 - x). split; [done|]. rewrite (proj2 (Z.eqb_neq (0 - x) 0)) by lia.
      symmetry. apply bool_decide_eq_false. apply prefix_nil_not.
    + apply not_elem_of_cons in Hl as [Hc Hl]. rewrite (proj2 (Z.eqb_neq c 0)), (proj2 (Z.eqb_neq x 0)) by done. cbn [orb tail].
      destruct (Z.eqb_spec c x) as [->|Hne]; cbn [negb].
      * destruct (IH l Hl Hw) as (d & -> & Ed). exists d. split; [done|]. rewrite Ed. apply bool_decide_ext. split.
        -- apply prefix_cons.
        -- apply prefix_cons_inv_2.
      * exists (c - x). split; [done|]. rewrite (proj2 (Z.eqb_neq (c - x) 0)) by lia.
        symmetry. apply bool_decide_eq_false. intros Hp. by apply prefix_cons_inv_1 in Hp.
Qed.
End Strings.

(** What one character does to a line being edited, and to the screen. *)
Definition prompt : list out_op := Putc <$> (newline ++ ascii "ZE> ").
Definition edit (l : list Z) (c : Z) : list Z :=
  if c =? 10 then [] else if c =? 8 then removelast l else if zlen l <? 127 then l ++ [c] else l.
Definition echo (l : list Z) (c : Z) : list out_op :=
  if c =? 10 then [Putc 10] ++ said (parse l) ++ prompt
  else if c =? 8 then if zlen l =? 0 then [] else [Putc 8]
  else if zlen l <? 127 then [Putc c] else [].
Definition request (l : list Z) (c : Z) : option (Z * Z) := if c =? 10 then asks (parse l) else None.

Definition sh_line (s : shell) : list Z := take (Z.to_nat (cmd_len s)) (cmd_buf s).

Section Shell.
Context (base : Z).

Record shell_ok (s : shell) : Prop := {
  so_ipc : ipc_ok base (sh_ipc s);
  so_kbd : kb_ok (sh_kbd s);
  so_typed : 0 ∉ typed (sh_kbd s);
  so_buf : zlen (cmd_buf s) = 128;
  so_len : 0 <= cmd_len s <= 127;
  so_line : 0 ∉ sh_line s
}.

(** The packets of a request made in state [s]. *)
Definition packets (i : ipc) (a : option (Z * Z)) : list packet :=
  match a with
  | Some (cmd, payload) => [Packet cmd 0 payload (fst (time_usec (ip_clock i)))]
  | None => []
  end.

(** Output and at most one packet, and nothing else. *)
Record does (out : list out_op) (a : option (Z * Z)) (s s' : shell) : Prop := {
  dd_out : sh_out s' = sh_out s ++ out;
  dd_kbd : sh_kbd s' = sh_kbd s;
  dd_buf : cmd_buf s' = cmd_buf s;
  dd_len : cmd_len s' = cmd_len s;
  dd_ok : ipc_ok base (sh_ipc s');
  dd_heap : same_heap base (sh_ipc s) (sh_ipc s');
  dd_rsps : rsps base (sh_ipc s') = rsps base (sh_ipc s);
  dd_cmds : cmds base (sh_ipc s') = cmds base (sh_ipc s) ++ packets (sh_ipc s) a
}.

Lemma does_write l s : ipc_ok base (sh_ipc s) -> does l None s (write l s).
Proof. intros H. split; try done. by rewrite app_nil_r. Qed.

Lemma does_before l out a s s' : does out a (write l s) s' -> does (l ++ out) a s s'.
Proof. intros []. split; try done. by rewrite app_assoc. Qed.

Lemma does_send cmd payload sent failed s :
  ipc_ok base (sh_ipc s) -> zlen (cmds base (sh_ipc s)) <> 1023 -> is_u16 cmd -> is_u32 payload ->
  exists s', send_command cmd payload sent failed s = Some s' /\ does (Putc <$> sent) (Some (cmd, payload)) s s'.
Proof.
  intros Hok Hn Hc Hp. unfold send_command, ipc_send.
  destruct (ipc_send_spec base (sh_ipc s) cmd payload 0 Hok Hc Hp ltac:(done)) as (r & i & -> & Hok' & Hh & [(E & _)|(_ & -> & Ec & Er)]); [lia|].
  cbn [mbind option_bind]. rewrite Z.eqb_refl. eexists. split; [reflexivity|]. by split.
Qed.

Lemma parse_digit_range l d : digit l = Some d -> 0 <= d <= 9.
Proof.
  destruct l as [|c l]; [done|]. cbn [digit]. destruct (Z.leb_spec 48 c), (Z.leb_spec c 57); cbn [andb]; intros [= <-]; lia.
Qed.

Lemma run_model_spec u r s :
  ipc_ok base (sh_ipc s) -> zlen (cmds base (sh_ipc s)) <> 1023 -> 0 ∉ u ->
  let c := match digit (trim u) with Some d => CModel d | None => CModelUsage end in
  exists s', run_model (ascii "model" ++ u ++ 0 :: r) s = Some s' /\ does (said c) (asks c) s s'.
Proof.
  intros Hok Hn H0. unfold run_model. change (drop 5 (ascii "model" ++ u ++ 0 :: r)) with (u ++ 0 :: r).
  rewrite skip_spaces_trim by done. cbn [mbind option_bind]. destruct (trim u) as [|c t]; cbn [app head mbind option_bind digit].
  - eexists. split; [reflexivity|]. by apply does_write.
  - destruct ((48 <=? c) && (c <=? 57)) eqn:Ed.
    + apply andb_true_iff in Ed as [E1%Z.leb_le E2%Z.leb_le].
      set (s1 := console_write (line "...") (console_write [c] (console_write (ascii "Running Model ID: ") s))).
      destruct (does_send 0x0004 (c - 48) (line "Request sent.") (line "Failed.") s1) as (s' & E & Hd); [done|done|done|unfold is_u32; lia|].
      exists s'. split; [exact E|]. cbn [said asks]. replace (48 + (c - 48)) with c by lia.
      do 3 (rewrite fmap_app; apply does_before). exact Hd.
    + eexists. split; [reflexivity|]. by apply does_write.
Qed.

(** The test of the dispatcher for one word, and the cases of its outcome. *)
Lemma strncmp_word w t r :
  0 ∉ t -> forallb (fun c => negb (c =? 0)) (ascii w) = true ->
  exists d, strncmp (length (ascii w)) (t ++ 0 :: r) (literal w) = Some d /\ (d =? 0) = starts w t.
Proof.
  intros Ht Hw. apply strncmp_prefix; [done|]. intros Hin%list_elem_of_In. rewrite forallb_forall in Hw. by specialize (Hw 0 Hin).
Qed.

Ltac compare_word w t r Ht :=
  let d := fresh "d" in let E := fresh "E" in let Ed := fresh "Ed" in
  destruct (strncmp_word w t r Ht eq_refl) as (d & E & Ed);
  let n := eval vm_compute in (length (ascii w)) in
  change (length (ascii w)) with n in E; rewrite E; clear E; cbn [mbind option_bind]; rewrite Ed; clear Ed;
  let Hword := fresh "Hword" in destruct (starts w t) eqn:Hword; [|clear Hword].

Lemma dispatch_spec l r s :
  ipc_ok base (sh_ipc s) -> zlen (cmds base (sh_ipc s)) <> 1023 -> 0 ∉ l -> trim l <> [] ->
  exists s', dispatch (trim l ++ 0 :: r) s = Some s' /\ does (said (parse l)) (asks (parse l)) s s'.
Proof.
  intros Hok Hn H0 Hne. unfold dispatch, parse. rewrite bool_decide_eq_false_2 by done.
  pose proof (trim_no_nul l H0) as Ht. forget (trim l) as t.
  compare_word "help"%string t r Ht; [eexists; split; [reflexivity|]; by apply does_write|].
  compare_word "cls"%string t r Ht; [eexists; split; [reflexivity|]; by apply does_write|].
  compare_word "ping"%string t r Ht.
  { destruct (does_send 0x0001 0 (line "Sent.") (line "Failed to send (ring full?).") (console_write (line "Sending CMD_PING...") s))
      as (s' & E' & Hd); [done|done|done|done|]. exists s'. split; [exact E'|]. cbn [said asks]. rewrite fmap_app. by apply does_before. }
  compare_word "ipc"%string t r Ht; [eexists; split; [reflexivity|]; by apply does_write|].
  compare_word "model"%string t r Ht.
  - apply bool_decide_eq_true in Hword as [u ->]. rewrite <- app_assoc. apply run_model_spec; [done|done|].
    intros Hin. apply Ht, elem_of_app. by right.
  - rewrite c_string_app by done. cbn [mbind option_bind]. eexists. split; [reflexivity|]. cbn [said asks].
    rewrite !fmap_app. apply does_before, does_before. by apply does_write.
Qed.

Lemma does_refl s : ipc_ok base (sh_ipc s) -> does [] None s s.
Proof. intros H. split; try done; by rewrite app_nil_r. Qed.

Lemma run_command_spec l r s :
  ipc_ok base (sh_ipc s) -> zlen (cmds base (sh_ipc s)) <> 1023 -> 0 ∉ l -> cmd_buf s = l ++ 0 :: r -> cmd_len s = zlen l ->
  exists s', run_command s = Some s' /\ does (said (parse l)) (asks (parse l)) s s'.
Proof.
  intros Hok Hn H0 Hb Hl. unfold run_command. rewrite Hb, Hl.
  destruct l as [|c l']; [by exists s; split; [|apply does_refl]|]. set (l := c :: l') in *.
  rewrite (proj2 (Z.eqb_neq (zlen l) 0)) by (unfold l, zlen; cbn; lia). rewrite skip_spaces_trim by done. cbn [mbind option_bind].
  pose proof (trim_no_nul l H0) as Ht. destruct (trim l) as [|x t] eqn:Et.
  - cbn [app head mbind option_bind]. exists s. split; [done|]. unfold parse. rewrite Et. by apply does_refl.
  - cbn [app head mbind option_bind]. apply not_elem_of_cons in Ht as [Hx _]. rewrite (proj2 (Z.eqb_neq x 0)) by done.
    destruct (dispatch_spec l r s Hok Hn H0) as (s' & E & Hd); [by rewrite Et|]. exists s'. split; [|exact Hd]. by rewrite Et in E.
Qed.

(** The buffer around the line. *)
Lemma line_store s n c :
  zlen (cmd_buf s) = 128 -> cmd_len s = n -> 0 <= n <= 127 ->
  exists r, zset (cmd_buf s) n c = sh_line s ++ c :: r.
Proof.
  intros Hb <- Hn. unfold sh_line, zset, zlen in *. exists (drop (S (Z.to_nat (cmd_len s))) (cmd_buf s)).
  rewrite insert_take_drop by lia. done.
Qed.

Lemma line_length s : shell_ok s -> zlen (sh_line s) = cmd_len s.
Proof. intros [_ _ _ Hb Hl _]. unfold sh_line, zlen in *. rewrite length_take. lia. Qed.

(** One character. *)
Lemma shell_char_spec c s :
  shell_ok s -> c <> 0 -> zlen (cmds base (sh_ipc s)) <> 1023 ->
  exists s', shell_char c s = Some s' /\ shell_ok s' /\ sh_kbd s' = sh_kbd s /\ sh_line s' = edit (sh_line s) c /\
    sh_out s' = sh_out s ++ echo (sh_line s) c /\ rsps base (sh_ipc s') = rsps base (sh_ipc s) /\
    cmds base (sh_ipc s') = cmds base (sh_ipc s) ++ packets (sh_ipc s) (request (sh_line s) c).
Proof.
  intros Hs Hc Hn. pose proof (line_length s Hs) as Hlen. pose proof Hs as [Hi Hk Ht Hb Hl H0]. unfold shell_char, edit, echo, request. rewrite Hlen.
  destruct (Z.eqb_spec c 10) as [->|H10].
  - destruct (line_store s (cmd_len s) 0 Hb eq_refl Hl) as [r Er].
    set (s1 := (write [Putc 10] s){{ cmd_buf ::= fun b => zset b (cmd_len (write [Putc 10] s)) 0 }}).
    destruct (run_command_spec (sh_line s) r s1) as (s2 & -> & []); [done|done|done|exact Er|by rewrite Hlen|].
    cbn [mbind option_bind]. eexists. split; [reflexivity|]. split; [|split; [|split; [|split; [|split]]]].
    + split; [done|change (kb_ok (sh_kbd s2)); by rewrite dd_kbd0|change (0 ∉ typed (sh_kbd s2)); by rewrite dd_kbd0| |cbn; lia|apply not_elem_of_nil].
      change (zlen (cmd_buf s2) = 128). rewrite dd_buf0. change (cmd_buf s1) with (zset (cmd_buf s) (cmd_len s) 0). by rewrite zlen_zset.
    + exact dd_kbd0.
    + reflexivity.
    + change (sh_out s2 ++ prompt = sh_out s ++ [Putc 10] ++ said (parse (sh_line s)) ++ prompt). rewrite dd_out0.
      change (sh_out s1) with (sh_out s ++ [Putc 10]). by rewrite <- !app_assoc.
    + exact dd_rsps0.
    + exact dd_cmds0.
  - destruct (Z.eqb_spec c 8) as [->|H8].
    + destruct (Z.ltb_spec 0 (cmd_len s)) as [Hp|Hp].
      * set (s1 := write [Putc 8] (s{{ cmd_len ::= fun n => n - 1 }})).
        assert (El : sh_line s1 = removelast (sh_line s)).
        { change (sh_line s1) with (take (Z.to_nat (cmd_len s - 1)) (cmd_buf s)). unfold sh_line. unfold zlen in Hb.
          rewrite removelast_firstn_len, length_take, take_take. f_equal. lia. }
        exists s1. split; [done|]. split; [|split; [done|split; [done|split; [|split; [done|by rewrite app_nil_r]]]]].
        -- split; [done|done|done|done|change (0 <= cmd_len s - 1 <= 127); lia|]. change (0 ∉ sh_line s1). rewrite El.
           intros Hin. apply H0. rewrite <- (firstn_skipn (pred (length (sh_line s))) (sh_line s)), <- removelast_firstn_len. apply elem_of_app. by left.
        -- by rewrite (proj2 (Z.eqb_neq (cmd_len s) 0)) by lia.
      * exists s. assert (E0 : cmd_len s = 0) by lia. rewrite E0, Z.eqb_refl, !app_nil_r. do 3 (split; [done|]).
        split; [|done]. unfold sh_line. by rewrite E0.
    + destruct (Z.ltb_spec (cmd_len s) 127) as [Hp|Hp]; [|exists s; rewrite !app_nil_r; done].
      set (s1 := write [Putc c] (s{{ cmd_buf ::= fun b => zset b (cmd_len s) c; cmd_len ::= fun n => n + 1 }})).
      assert (El : sh_line s1 = sh_line s ++ [c]).
      { change (sh_line s1) with (take (Z.to_nat (cmd_len s + 1)) (zset (cmd_buf s) (cmd_len s) c)).
        destruct (line_store s (cmd_len s) c Hb eq_refl Hl) as [r ->]. unfold zlen in Hlen.
        rewrite (cons_middle c (sh_line s) r), app_assoc, take_app_length' by (rewrite length_app; cbn; lia). done. }
      exists s1. split; [done|]. split; [|split; [done|split; [done|split; [done|split; [done|by rewrite app_nil_r]]]]].
      split; [done|done|done|change (zlen (zset (cmd_buf s) (cmd_len s) c) = 128); by rewrite zlen_zset|change (0 <= cmd_len s + 1 <= 127); lia|].
      change (0 ∉ sh_line s1). rewrite El. intros [?|E%list_elem_of_singleton]%elem_of_app; [by apply H0|by subst c].
Qed.

(** ** Turns *)

(** The command word and payload of the packets waiting in the command ring. *)
Definition asked (s : shell) : list (Z * Z) := (fun p => (pk_cmd p, pk_payload p)) <$> cmds base (sh_ipc s).

Abbreviation turn fuel := (shell_turn (fun _ m => m) fuel).

Lemma shell_turn_spec fuel s :
  shell_ok s -> (1023 <= fuel)%nat ->
  exists s', turn fuel s = Some s' /\ shell_ok s' /\ rsps base (sh_ipc s') = [] /\
    match typed (sh_kbd s) with
    | [] => sh_kbd s' = sh_kbd s /\ sh_line s' = sh_line s /\ sh_out s' = sh_out s /\ asked s' = tail (asked s)
    | c :: q => typed (sh_kbd s') = q /\ sh_line s' = edit (sh_line s) c /\ sh_out s' = sh_out s ++ echo (sh_line s) c /\
                asked s' = tail (asked s) ++ option_list (request (sh_line s) c)
    end.
Proof.
  intros Hs Hf. pose proof Hs as [Hi Hk Ht Hb Hl H0]. unfold shell_turn.
  destruct (channel_turn base fuel (sh_ipc s) Hi Hf) as (i & i' & -> & E & Hi' & _ & Ec & Er & _). cbn [mbind option_bind].
  rewrite E. cbn [mbind option_bind]. set (s1 := s{{ sh_ipc := i' }}).
  assert (Hs1 : shell_ok s1) by (by split).
  assert (Htl : (fun p => (pk_cmd p, pk_payload p)) <$> cmds base i' = tail (asked s)).
  { rewrite Ec. unfold asked. by destruct (cmds base (sh_ipc s)). }
  change (sh_kbd s1) with (sh_kbd s). unfold tc_has_input. pose proof (typed_nil (sh_kbd s) Hk) as Hnil.
  destruct (typed (sh_kbd s)) as [|c q] eqn:Eq.
  - rewrite (proj2 Hnil eq_refl). cbn [negb Z.b2z Z.eqb]. exists s1. done.
  - destruct (kb_head (sh_kbd s) =? kb_tail (sh_kbd s)); [discriminate (proj1 Hnil eq_refl)|]. cbn [negb Z.b2z Z.eqb].
    destruct (tc_getchar_queue (fun k => k) 0 (sh_kbd s) c q Hk Eq) as (-> & Hk2 & Eq2). cbn [mbind option_bind].
    apply not_elem_of_cons in Ht as [Hc Hq]. set (s2 := s1{{ sh_kbd := kb_pop (sh_kbd s) }}).
    assert (Hs2 : shell_ok s2).
    { split; [done|exact Hk2|change (0 ∉ typed (kb_pop (sh_kbd s))); by rewrite Eq2|done|done|done]. }
    destruct (shell_char_spec c s2 Hs2) as (s' & -> & Hs' & Ek & El & Eo & Er' & Ec'); [done| |].
    { change (cmds base (sh_ipc s2)) with (cmds base i'). rewrite Ec. unfold cmds, cmd_queue, zlen.
      pose proof (ring_count_range IPC_RING_SIZE (base + IPC_CMD_RING_OFFSET) ltac:(lia) (win (sh_ipc s))).
      pose proof (length_ring_queue ENTRY_SIZE IPC_RING_SIZE (base + IPC_CMD_RING_OFFSET) read_packet (win (sh_ipc s))) as Hlen.
      destruct (ring_queue _ _ _ _ _) as [|p ps]; cbn [tail length] in *; lia. }
    exists s'. split; [done|]. split; [done|]. split; [by rewrite Er'|]. split; [by rewrite Ek|]. split; [done|]. split; [done|].
    unfold asked. rewrite Ec', fmap_app. change (cmds base (sh_ipc s2)) with (cmds base i'). rewrite Htl. f_equal.
    change (sh_line s2) with (sh_line s). by destruct (request (sh_line s) c) as [[cmd payload]|].
Qed.

(** What a line editor shows for a sequence of characters. *)
Fixpoint output (l : list Z) (cs : list Z) : list out_op :=
  match cs with
  | [] => []
  | c :: cs => echo l c ++ output (edit l c) cs
  end.

Lemma output_app l cs1 cs2 : output l (cs1 ++ cs2) = output l cs1 ++ output (foldl edit l cs1) cs2.
Proof. revert l; induction cs1 as [|c cs1 IH]; intros l; [done|]. cbn [app output foldl]. by rewrite IH, <- app_assoc. Qed.

(** An interrupt of the keyboard only adds to what was typed. *)
Lemma keyboard_handler_typed k :
  kb_ok k -> 0 ∉ typed k ->
  kb_ok (keyboard_handler k) /\ 0 ∉ typed (keyboard_handler k) /\ exists new, typed (keyboard_handler k) = typed k ++ new.
Proof.
  intros Hk H0. unfold keyboard_handler, read_key. set (k1 := k{{ key_reads ::= S }}).
  assert (Hk1 : kb_ok k1) by (by destruct Hk). change (typed k) with (typed k1) in *. clearbody k1. unfold on_key.
  assert (Hsame : forall v, kb_ok (k1{{ shift_pressed := v }}) /\ 0 ∉ typed (k1{{ shift_pressed := v }}) /\
    exists new, typed (k1{{ shift_pressed := v }}) = typed k1 ++ new).
  { intros v. split; [by destruct Hk1|]. split; [exact H0|]. exists []. by rewrite app_nil_r. }
  assert (Hnone : kb_ok k1 /\ 0 ∉ typed k1 /\ exists new, typed k1 = typed k1 ++ new) by (repeat (split; [done|]); exists []; by rewrite app_nil_r).
  destruct (negb _); [destruct (is_shift _); [apply Hsame|exact Hnone]|]. destruct (is_shift _); [apply Hsame|].
  forget (key_char (shift_pressed k1) (u8 (keys k (key_reads k)))) as c. destruct (kb_push_queue c k1 Hk1) as [Hk2 Eq]. split; [done|]. rewrite Eq. unfold enqueue.
  destruct (Z.eqb_spec c 0); [exact (proj2 Hnone)|]. destruct (_ <=? _); [exact (proj2 Hnone)|]. cbn [orb]. split; [|by eexists].
  intros [?|E%list_elem_of_singleton]%elem_of_app; [done|by subst c].
Qed.

(** The machine: turns of the loop, and interrupts of the keyboard between them. *)
Inductive event := Turn | Key.
Fixpoint shell_run (fuel : nat) (evs : list event) (s : shell) : option shell :=
  match evs with
  | [] => Some s
  | Turn :: evs => s ← turn fuel s; shell_run fuel evs s
  | Key :: evs => shell_run fuel evs (s{{ sh_kbd ::= keyboard_handler }})
  end.
End Shell.

(** C12: the shell is a line editor and never faults.  Whatever the order of the
    turns of its loop and of the keyboard's interrupts, and whatever the keys, the
    buffer is never read or written outside, no line is left without its NUL, and
    the loop over the responses ends.  What the shell consumed is a prefix of what
    was typed, in order; the line is what an editor makes of those characters
    (backspace drops the last, enter starts again, a character past the 127th is
    ignored), and the output is the echo of each character and, after each enter,
    that of the command on the line. *)
Theorem shell_edits (base : Z) (fuel : nat) (evs : list event) (s : shell) :
  shell_ok base s -> (1023 <= fuel)%nat ->
  exists s' cs new, shell_run fuel evs s = Some s' /\ shell_ok base s' /\
    cs ++ typed (sh_kbd s') = typed (sh_kbd s) ++ new /\
    sh_line s' = foldl edit (sh_line s) cs /\ sh_out s' = sh_out s ++ output (sh_line s) cs.
Proof.
  intros Hs Hf. revert s Hs; induction evs as [|[] evs IH]; intros s Hs; cbn [shell_run].
  - exists s, [], []. rewrite !app_nil_r. done.
  - destruct (shell_turn_spec base fuel s Hs Hf) as (s1 & -> & Hs1 & _ & Hc). cbn [mbind option_bind].
    destruct (IH s1 Hs1) as (s' & cs & new & -> & Hs' & Ek & El & Eo). destruct (typed (sh_kbd s)) as [|c q] eqn:Eq.
    + destruct Hc as (E1 & E2 & E3 & _). exists s', cs, new. rewrite E1, Eq in Ek. rewrite E2 in El, Eo. rewrite E3 in Eo. done.
    + destruct Hc as (E1 & E2 & E3 & _). exists s', (c :: cs), new. rewrite E1 in Ek. rewrite E2 in El, Eo. rewrite E3 in Eo.
      split; [done|]. split; [done|]. split; [cbn; by rewrite Ek|]. split; [done|]. by rewrite Eo, <- app_assoc.
  - destruct (keyboard_handler_typed (sh_kbd s)) as (Hk1 & H1 & new1 & E1); [apply Hs|apply Hs|].
    destruct (IH (s{{ sh_kbd ::= keyboard_handler }})) as (s' & cs & new & -> & Hs' & Ek & El & Eo); [by destruct Hs|].
    exists s', cs, (new1 ++ new). split; [done|]. split; [done|]. split; [|done].
    rewrite Ek, app_assoc. f_equal. exact E1.
Qed.

(** A line being typed: plain characters, as long as they fit. *)
Definition plain (l : list Z) : Prop := Forall (fun c => c <> 8 /\ c <> 10) l.

Lemma plain_line l text :
  plain text -> zlen (l ++ text) <= 127 -> foldl edit l text = l ++ text /\ output l text = Putc <$> text.
Proof.
  intros Ht. revert l; induction Ht as [|c text [H8 H10] _ IH]; intros l Hl; [by rewrite app_nil_r|].
  cbn [foldl output fmap list_fmap]. unfold zlen in *. rewrite length_app in Hl. cbn [length] in Hl.
  assert (Ee : edit l c = l ++ [c] /\ echo l c = [Putc c]).
  { unfold edit, echo. rewrite (proj2 (Z.eqb_neq c 10)), (proj2 (Z.eqb_neq c 8)), (proj2 (Z.ltb_lt (zlen l) 127)) by (done || unfold zlen; lia). done. }
  destruct Ee as [-> ->]. destruct (IH (l ++ [c])) as [-> ->]; [rewrite !length_app; cbn [length]; lia|]. by rewrite <- app_assoc.
Qed.

Lemma drop_tail {A} n (l : list A) : drop n (tail l) = drop (S n) l.
Proof. destruct l; [apply drop_nil|done]. Qed.
Lemma tail_drop {A} n (l : list A) : tail (drop n l) = drop (S n) l.
Proof. revert l; induction n as [|n IH]; intros [|x l]; try done. exact (IH l). Qed.

(** Turns that read plain characters. *)
Lemma plain_turns base fuel text q s :
  shell_ok base s -> (1023 <= fuel)%nat -> typed (sh_kbd s) = text ++ q -> plain text -> zlen (sh_line s ++ text) <= 127 ->
  exists s', shell_turns (fun _ m => m) fuel (length text) s = Some s' /\ shell_ok base s' /\ typed (sh_kbd s') = q /\
    sh_line s' = sh_line s ++ text /\ sh_out s' = sh_out s ++ (Putc <$> text) /\ asked base s' = drop (length text) (asked base s).
Proof.
  intros Hs Hf Hq Ht. revert s Hs Hq; induction Ht as [|c text [H8 H10] Ht IH]; intros s Hs Hq Hl; cbn [length shell_turns].
  - exists s. rewrite !app_nil_r. done.
  - destruct (shell_turn_spec base fuel s Hs Hf) as (s1 & -> & Hs1 & _ & Hc). cbn [mbind option_bind]. rewrite Hq in Hc. cbn [app] in Hc.
    destruct Hc as (E1 & E2 & E3 & E4). destruct (plain_line (sh_line s) [c]) as [El Eo]; [by constructor| |].
    { unfold zlen in *. rewrite length_app in *. cbn [length] in *. lia. }
    cbn [foldl output] in El, Eo. rewrite El in E2. rewrite app_nil_r in Eo. rewrite Eo in E3.
    unfold request in E4. rewrite (proj2 (Z.eqb_neq c 10)), app_nil_r in E4 by done.
    destruct (IH s1 Hs1 E1) as (s' & -> & Hs' & Eq' & El' & Eo' & Ea'); [by rewrite E2, <- app_assoc|].
    exists s'. split; [done|]. split; [done|]. split; [done|]. rewrite El', E2, Eo', E3, Ea', E4, <- !app_assoc. split; [done|]. split; [done|].
    apply drop_tail.
Qed.

Lemma shell_turns_snoc env fuel n s : shell_turns env fuel (S n) s = s ← shell_turns env fuel n s; shell_turn env fuel s.
Proof.
  revert s; induction n as [|n IH]; intros s; [cbn [shell_turns mbind option_bind]; destruct (shell_turn env fuel s); reflexivity|].
  cbn [shell_turns]. destruct (shell_turn env fuel s) as [s1|]; [|done]. cbn [mbind option_bind]. rewrite <- IH. reflexivity.
Qed.

(** A turn reads the answer to the oldest command, and to nothing else. *)
Lemma turn_reads_oldest base fuel s :
  shell_ok base s -> (1023 <= fuel)%nat -> rsps base (sh_ipc s) = [] ->
  turn_reads fuel s = Some (map (fun c => (RSP_OK, fst c, MOCK_RESULT)) (option_list (head (asked base s)))).
Proof.
  intros Hs Hf Hr. unfold turn_reads.
  destruct (channel_turn base fuel (sh_ipc s) (so_ipc _ _ Hs) Hf) as (i & i' & -> & E & _ & _ & _ & _ & Ea).
  cbn [mbind option_bind]. rewrite E. cbn [mbind option_bind fst]. rewrite (Ea Hr). unfold asked.
  by destruct (cmds base (sh_ipc s)).
Qed.

(** Turns take the commands one by one, whatever is typed meanwhile. *)
Lemma turns_asked base fuel n s :
  shell_ok base s -> (1023 <= fuel)%nat -> rsps base (sh_ipc s) = [] -> (n <= length (asked base s))%nat ->
  exists s' new, shell_turns (fun _ m => m) fuel n s = Some s' /\ shell_ok base s' /\ rsps base (sh_ipc s') = [] /\
    asked base s' = drop n (asked base s) ++ new.
Proof.
  intros Hs Hf. revert s Hs; induction n as [|n IH]; intros s Hs Hr Hn; cbn [shell_turns].
  { exists s, []. by rewrite drop_0, app_nil_r. }
  destruct (shell_turn_spec base fuel s Hs Hf) as (s1 & -> & Hs1 & Hr1 & Hc). cbn [mbind option_bind].
  assert (Ha : exists new, asked base s1 = tail (asked base s) ++ new).
  { destruct (typed (sh_kbd s)) as [|c q]; [exists []; rewrite app_nil_r|eexists]; apply Hc. }
  destruct Ha as [new Ha]. assert (Hl : length (tail (asked base s)) = pred (length (asked base s)))
    by (by destruct (asked base s)).
  destruct (IH s1 Hs1 Hr1) as (s' & more & -> & Hs' & Hr' & Ea'); [rewrite Ha, length_app; lia|].
  exists s', (new ++ more). split; [done|]. split; [done|]. split; [done|].
  rewrite Ea', Ha, drop_app_le, drop_tail, app_assoc by lia. done.
Qed.

(** C11: a typed line is run.  When a prompt stands and the keyboard buffer holds a
    text without backspaces and an enter, one turn per character shows the text and
    then what its command says, ready for the next line; the command is found by
    the prefix of the first word.  The packet a command asks for is in the command
    ring then, behind those the turns did not consume.  After as many more turns as
    there are such older commands, whatever is typed meanwhile, it is the oldest,
    and the turn after that takes it, reads exactly one response, the mock
    consumer's answer to it, and leaves the response ring empty.  [ping] sends
    [CMD_PING] and [model d] sends the digit [d], under the command word 4, which no
    part of the protocol defines.  The other side of the window is silent. *)
Theorem shell_runs_line (base : Z) (fuel : nat) (s : shell) (text q : list Z) :
  shell_ok base s -> (1023 <= fuel)%nat -> sh_line s = [] -> typed (sh_kbd s) = text ++ [10] ++ q -> plain text ->
  let old := drop (S (length text)) (asked base s) in
  exists s', shell_turns (fun _ m => m) fuel (S (length text)) s = Some s' /\ shell_ok base s' /\
    sh_line s' = [] /\ typed (sh_kbd s') = q /\ rsps base (sh_ipc s') = [] /\
    sh_out s' = sh_out s ++ (Putc <$> text) ++ [Putc 10] ++ said (parse text) ++ prompt /\
    asked base s' = old ++ option_list (asks (parse text)) /\
    forall c, asks (parse text) = Some c ->
    exists s1 more, shell_turns (fun _ m => m) fuel (length old) s' = Some s1 /\ asked base s1 = c :: more /\
      turn_reads fuel s1 = Some [(RSP_OK, fst c, MOCK_RESULT)] /\
      exists s2 new, shell_turn (fun _ m => m) fuel s1 = Some s2 /\ asked base s2 = more ++ new /\
        rsps base (sh_ipc s2) = [].
Proof.
  intros Hs Hf Hl Hq Ht old. assert (Hlen : zlen text <= 127).
  { pose proof (zlen_typed (sh_kbd s)) as Hz. pose proof (kb_count_range (sh_kbd s)). rewrite Hq in Hz. unfold zlen in *. rewrite length_app in Hz. lia. }
  destruct (plain_turns base fuel text ([10] ++ q) s Hs Hf Hq Ht) as (s1 & E & Hs1 & Eq1 & El1 & Eo1 & Ea1); [by rewrite Hl|].
  rewrite shell_turns_snoc, E. cbn [mbind option_bind].
  destruct (shell_turn_spec base fuel s1 Hs1 Hf) as (s2 & -> & Hs2 & Er2 & Hc). rewrite Eq1 in Hc. cbn [app] in Hc.
  destruct Hc as (Eq2 & El2 & Eo2 & Ea2). rewrite Hl in El1. cbn [app] in El1. rewrite El1 in *.
  assert (Ea : asked base s2 = old ++ option_list (asks (parse text))).
  { rewrite Ea2, Ea1. unfold request, old. cbn [Z.eqb Pos.eqb]. f_equal. apply tail_drop. }
  exists s2. split; [done|]. split; [done|]. split; [done|]. split; [done|]. split; [done|].
  split; [rewrite Eo2, Eo1, <- app_assoc; reflexivity|]. split; [exact Ea|]. intros c Hask.
  destruct (turns_asked base fuel (length old) s2 Hs2 Hf Er2) as (s3 & new & -> & Hs3 & Er3 & Ea3);
    [rewrite Ea, length_app; lia|].
  rewrite Ea, Hask, drop_app_length in Ea3. cbn [option_list app] in Ea3.
  exists s3, new. split; [done|]. split; [done|].
  split; [by rewrite (turn_reads_oldest base fuel s3 Hs3 Hf Er3), Ea3|].
  destruct (shell_turn_spec base fuel s3 Hs3 Hf) as (s4 & -> & _ & Er4 & Hc). rewrite Ea3 in Hc. cbn [tail] in Hc.
  destruct (typed (sh_kbd s3)) as [|x y]; [exists s4, []; rewrite app_nil_r|eexists s4, _]; (split; [done|]); split; (apply Hc || done).
Qed.

(** ** The example: [ping] and enter, typed at power on *)

Definition ping_codes : list Z := concat (strokes <$> line "ping").
Definition demo_shell (k : keyboard) : shell := Shell k (ipc_init 0xC0101000 0xE0000000 0 demo_ipc) [] (repeat 0 128) 0.
Definition demo_typed : keyboard := interrupts (length ping_codes) (demo_keys ping_codes).

Lemma demo_shell_ok k : kb_ok k -> 0 ∉ typed k -> shell_ok 0xE0000000 (demo_shell k) /\ asked 0xE0000000 (demo_shell k) = [].
Proof.
  intros Hk H0. destruct (ipc_init_ok 0xC0101000 0xE0000000 0 demo_ipc) as (Hi & _ & Hc & _);
    [lia|exact mem_ok_empty|reflexivity|exact demo_clock_ok|].
  split.
  - split; [exact Hi|exact Hk|exact H0|reflexivity|cbn; lia|apply not_elem_of_nil].
  - unfold asked. change (sh_ipc (demo_shell k)) with (ipc_init 0xC0101000 0xE0000000 0 demo_ipc). by rewrite Hc.
Qed.

Lemma shell_edits_witness :
  exists s' cs new, shell_run 1023 [Turn; Key; Key; Turn; Key; Turn] (demo_shell (demo_keys ping_codes)) = Some s' /\
    shell_ok 0xE0000000 s' /\ cs ++ typed (sh_kbd s') = new /\ sh_line s' = foldl edit [] cs.
Proof.
  destruct (demo_shell_ok (demo_keys ping_codes)) as [Hs _]; [by split|apply not_elem_of_nil|].
  destruct (shell_edits 0xE0000000 1023 [Turn; Key; Key; Turn; Key; Turn] _ Hs ltac:(lia)) as (s' & cs & new & H1 & H2 & H3 & H4 & _).
  exists s', cs, new. split; [exact H1|]. split; [exact H2|]. split; [exact H3|exact H4].
Defined.

Lemma shell_runs_line_witness :
  typed demo_typed = line "ping" /\
  exists s', shell_turns (fun _ m => m) 1023 5 (demo_shell demo_typed) = Some s' /\ shell_ok 0xE0000000 s' /\
    sh_out s' = (Putc <$> ascii "ping") ++ [Putc 10] ++ said CPing ++ prompt /\ asked 0xE0000000 s' = [(CMD_PING, 0)] /\
    turn_reads 1023 s' = Some [(RSP_OK, CMD_PING, MOCK_RESULT)].
Proof.
  assert (Ht : typed demo_typed = line "ping") by (vm_compute; reflexivity). split; [exact Ht|].
  destruct (demo_shell_ok demo_typed) as [Hs Ha].
  { split; [vm_compute; reflexivity|split; [by vm_compute|by vm_compute]|split; [by vm_compute|by vm_compute]]. }
  { rewrite Ht. apply not_elem_of_cons; split; [done|]. repeat (apply not_elem_of_cons; split; [done|]). apply not_elem_of_nil. }
  destruct (shell_runs_line 0xE0000000 1023 (demo_shell demo_typed) (ascii "ping") [] Hs ltac:(lia) eq_refl Ht) as (s' & H1 & H2 & _ & _ & _ & H3 & H4 & H5).
  { repeat constructor; discriminate. }
  exists s'. split; [exact H1|]. split; [exact H2|]. split; [exact H3|]. rewrite Ha in H4, H5. split; [exact H4|].
  destruct (H5 (CMD_PING, 0) eq_refl) as (s1 & more & E1 & _ & E2 & _). cbn [drop length shell_turns] in E1.
  injection E1 as ->. exact E2.
Defined.
