(* ===== verification/Pci.v ===== *)
(** kernel/arch/pci.c: configuration space, the scan for devices, base address
    registers and message-signalled interrupts.

    The host bridge is hardware: [PortIO] is what [outl] and [inl] do to a machine
    [H], and [ConfigMechanism] is the documented behaviour of configuration
    mechanism 1 behind ports 0xCF8 and 0xCFC, over a space of 32-bit registers per
    function; what a register keeps of a write is the device's ([keeps]).  [sim] is
    such a machine.  Operations return what the code prints or stores.

    The theorems: the scan finds the first function with the ids; sizing a base
    address register gives base and size and leaves the space as it was; and the
    walk of the capability list programs the first MSI capability, or, when the
    list is a cycle without one, never ends. *)

From S2P Require Import Prelude.

Class PortIO (H : Type) := {
  outl : Z -> Z -> H -> H;
  inl : Z -> H -> Z * H
}.

Definition PCI_CONFIG_ADDRESS : Z := 0xCF8.
Definition PCI_CONFIG_DATA : Z := 0xCFC.
Definition PCI_REGISTER_STATUS : Z := 0x06.
Definition PCI_REGISTER_BAR0 : Z := 0x10.
Definition PCI_CAP_ID_MSI : Z := 0x05.

(** [pci_device_t], as far as [pci_find_device] fills it in. *)
Record pci_device_t := PciDevice { bus : Z; slot : Z; func : Z; vendor_id : Z; device_id : Z }.

(** The line [pci_check_device] prints. *)
Record pci_report := PciReport { pr_vendor : Z; pr_device : Z; pr_bus : Z; pr_slot : Z; pr_func : Z; pr_class : Z }.

(** ** The driver *)

Section Driver.
Context {H : Type} `{PortIO H}.
Implicit Types h : H.

Definition config_address (bus slot func offset : Z) : Z :=
  Z.lor (Z.lor (Z.lor (Z.lor (Z.shiftl bus 16) (Z.shiftl slot 11)) (Z.shiftl func 8)) (Z.land offset 0xFC)) 0x80000000.

Definition pci_read_config_32 (bus slot func offset : Z) h : Z * H :=
  inl PCI_CONFIG_DATA (outl PCI_CONFIG_ADDRESS (config_address bus slot func offset) h).
Definition pci_write_config_32 (bus slot func offset val : Z) h : H :=
  outl PCI_CONFIG_DATA val (outl PCI_CONFIG_ADDRESS (config_address bus slot func offset) h).

Definition pci_check_device (bus slot func : Z) h : list pci_report * H :=
  let '(id_reg, h) := pci_read_config_32 bus slot func 0x00 h in
  let vendor := Z.land id_reg 0xFFFF in
  if vendor =? 0xFFFF then ([], h)
  else
    let device := Z.land (Z.shiftr id_reg 16) 0xFFFF in
    let '(class_reg, h) := pci_read_config_32 bus slot func 0x08 h in
    let class_code := Z.land (Z.shiftr class_reg 24) 0xFF in
    ([PciReport vendor device bus slot func class_code], h).

(** [pci_init]: functions 1 to 7 of a slot, then its slots. *)
Definition scan_func (slot func : Z) (s : list pci_report * H) : list pci_report * H :=
  let '(l, h) := s in
  let '(id_reg, h) := pci_read_config_32 0 slot func 0x00 h in
  if negb (Z.land id_reg 0xFFFF =? 0xFFFF) then
    let '(r, h) := pci_check_device 0 slot func h in (l ++ r, h)
  else (l, h).
Definition scan_slot (slot : Z) (s : list pci_report * H) : list pci_report * H :=
  let '(l, h) := s in
  let '(r, h) := pci_check_device 0 slot 0 h in
  for_range 1 8 (scan_func slot) (l ++ r, h).
Definition pci_init h : list pci_report * H := for_range 0 32 scan_slot ([], h).

(** [pci_find_device]: the functions of a slot, then the slots; the first match. *)
Fixpoint find_func (n : nat) (slot func vendor device : Z) h : option pci_device_t * H :=
  match n with
  | O => (None, h)
  | S n =>
    let '(id_reg, h) := pci_read_config_32 0 slot func 0x00 h in
    if (Z.land id_reg 0xFFFF =? vendor) && (Z.land (Z.shiftr id_reg 16) 0xFFFF =? device)
    then (Some (PciDevice 0 slot func vendor device), h)
    else find_func n slot (func + 1) vendor device h
  end.
Fixpoint find_slot (n : nat) (slot vendor device : Z) h : option pci_device_t * H :=
  match n with
  | O => (None, h)
  | S n =>
    let '(r, h) := find_func 8 slot 0 vendor device h in
    match r with
    | Some d => (Some d, h)
    | None => find_slot n (slot + 1) vendor device h
    end
  end.
Definition pci_find_device (vendor device : Z) h : option pci_device_t * H := find_slot 32 0 vendor device h.

(** The base address and the size. *)
Definition pci_get_bar (dev : pci_device_t) (bar_index : Z) h : Z * Z * H :=
  let offset := u8 (PCI_REGISTER_BAR0 + bar_index * 4) in
  let '(orig_val, h) := pci_read_config_32 (bus dev) (slot dev) (func dev) offset h in
  let h := pci_write_config_32 (bus dev) (slot dev) (func dev) offset 0xFFFFFFFF h in
  let '(size_encoded, h) := pci_read_config_32 (bus dev) (slot dev) (func dev) offset h in
  let h := pci_write_config_32 (bus dev) (slot dev) (func dev) offset orig_val h in
  let size_mask := u32 (Z.lnot (Z.land size_encoded 0xFFFFFFF0)) +u 1 in
  (Z.land orig_val 0xFFFFFFF0, size_mask, h).

(** The capability is at [cap_ptr]; what is written there. *)
Definition cap_write (dev : pci_device_t) (off v : Z) h : H := pci_write_config_32 (bus dev) (slot dev) (func dev) (u8 off) v h.
Definition program_msi (dev : pci_device_t) (vector dest_id cap_ptr cap_hdr : Z) h : H :=
  let msi_ctl := u16 (Z.shiftr cap_hdr 16) in
  let addr := Z.lor 0xFEE00000 (Z.shiftl dest_id 12) in
  let h := cap_write dev (cap_ptr + 4) addr h in
  let is_64bit := Z.land msi_ctl 0x0080 in
  let h := if negb (is_64bit =? 0) then cap_write dev (cap_ptr + 12) vector (cap_write dev (cap_ptr + 8) 0 h)
           else cap_write dev (cap_ptr + 8) vector h in
  let msi_ctl := Z.lor msi_ctl 0x1 in
  let cap_hdr := Z.lor (Z.land cap_hdr 0xFFFF) (Z.shiftl msi_ctl 16) in
  cap_write dev cap_ptr cap_hdr h.

Fixpoint walk_caps (fuel : nat) (dev : pci_device_t) (vector dest_id cap_ptr : Z) h : option (Z * H) :=
  if cap_ptr =? 0 then Some (-1, h)
  else
    match fuel with
    | O => None
    | S fuel =>
      let '(cap_hdr, h) := pci_read_config_32 (bus dev) (slot dev) (func dev) cap_ptr h in
      let cap_id := Z.land cap_hdr 0xFF in
      let next_cap := Z.land (Z.shiftr cap_hdr 8) 0xFF in
      if cap_id =? PCI_CAP_ID_MSI then Some (0, program_msi dev vector dest_id cap_ptr cap_hdr h)
      else walk_caps fuel dev vector dest_id next_cap h
    end.

Definition pci_enable_msi (fuel : nat) (dev : pci_device_t) (vector dest_id : Z) h : option (Z * H) :=
  let '(v, h) := pci_read_config_32 (bus dev) (slot dev) (func dev) PCI_REGISTER_STATUS h in
  let status := u8 (Z.shiftr v 16) in
  if Z.land status 0x10 =? 0 then Some (-1, h)
  else
    let '(v, h) := pci_read_config_32 (bus dev) (slot dev) (func dev) 0x34 h in
    walk_caps fuel dev vector dest_id (Z.land v 0xFF) h.
End Driver.

(** ** The host bridge *)

(** The number of a function: bus, slot and function in bits 8, 3 and 0. *)
Definition fn_number (bus slot func : Z) : Z := 256 * bus + 8 * slot + func.
(** A register: its offset in the function's space. *)
Definition register (off : Z) : Z := 4 * (off / 4).
Definition address_of (fn reg : Z) : Z := 0x80000000 + 256 * fn + reg.

Class ConfigMechanism (H : Type) `{PortIO H} := {
  space : H -> Z -> Z -> Z;              (* function, register *)
  keeps : Z -> Z -> Z -> Z -> Z;         (* function, register, its word, what is written *)
  space_u32 h fn reg : is_u32 (space h fn reg);
  config_read h fn reg :
    is_u16 fn -> 0 <= reg < 0x100 -> reg mod 4 = 0 ->
    let '(v, h') := inl 0xCFC (outl 0xCF8 (address_of fn reg) h) in
    v = space h fn reg /\ (forall f r, space h' f r = space h f r);
  config_write h fn reg v :
    is_u16 fn -> 0 <= reg < 0x100 -> reg mod 4 = 0 -> is_u32 v ->
    let h' := outl 0xCFC v (outl 0xCF8 (address_of fn reg) h) in
    forall f r, space h' f r = if decide (f = fn /\ r = reg) then keeps fn reg (space h fn reg) v else space h f r
}.

(** ** Words and bits *)

Lemma land_shift a b k : 0 <= k -> 0 <= b < 2 ^ k -> Z.land (Z.shiftl a k) b = 0.
Proof.
  intros Hk Hb. apply Z.bits_inj'. intros n Hn. rewrite Z.land_spec, Z.bits_0, Z.shiftl_spec by lia.
  destruct (Z.ltb_spec n k); [by rewrite (Z.testbit_neg_r a) by lia|].
  rewrite <- (Z.mod_small b (2 ^ k)) by done. rewrite Z.mod_pow2_bits_high by lia. apply andb_false_r.
Qed.

Lemma lor_shift a b k : 0 <= k -> 0 <= b < 2 ^ k -> Z.lor (Z.shiftl a k) b = 2 ^ k * a + b.
Proof.
  intros Hk Hb. pose proof (land_shift a b k Hk Hb) as E. rewrite <- Z.lxor_lor, <- Z.add_nocarry_lxor, Z.shiftl_mul_pow2 by done. lia.
Qed.

(** Clearing the low [k] bits of a word. *)
Lemma land_high x k : is_u32 x -> 0 <= k < 32 -> Z.land x (Z.ldiff (Z.ones 32) (Z.ones k)) = 2 ^ k * (x / 2 ^ k).
Proof.
  intros Hx Hk. rewrite Z.ldiff_land, Z.land_assoc, Z.land_ones by lia. unfold is_u32 in Hx.
  rewrite (Z.mod_small x) by (cbn; lia). rewrite <- Z.ldiff_land, Z.ldiff_ones_r by lia.
  rewrite Z.shiftl_mul_pow2, Z.shiftr_div_pow2 by lia. lia.
Qed.

Lemma land_high4 x : is_u32 x -> Z.land x 0xFFFFFFF0 = 16 * (x / 16).
Proof. intros Hx. exact (land_high x 4 Hx ltac:(lia)). Qed.

Lemma land_register off : is_u8 off -> Z.land off 0xFC = register off.
Proof.
  intros Hx. assert (H : Forall (fun x => Z.land x 0xFC = register x) (seqZ 0 256)) by (vm_compute; repeat constructor).
  apply (proj1 (Forall_forall _ _) H). apply elem_of_seqZ. unfold is_u8 in Hx. lia.
Qed.

Lemma register_range off : is_u8 off -> 0 <= register off < 0x100 /\ register off mod 4 = 0.
Proof. unfold is_u8, register. intros. Z.div_mod_to_equations. lia. Qed.

(** A bit of a field. *)
Lemma field_bit x s w k : 0 <= s -> 0 <= k < w -> (Z.land (Z.shiftr x s mod 2 ^ w) (2 ^ k) =? 0) = negb (Z.testbit x (s + k)).
Proof.
  intros Hs Hk. assert (E : Z.land (Z.shiftr x s mod 2 ^ w) (2 ^ k) = if Z.testbit x (s + k) then 2 ^ k else 0).
  { rewrite <- Z.land_ones by lia. apply Z.bits_inj'. intros n Hn. rewrite !Z.land_spec. destruct (Z.eq_dec n k) as [->|Hne].
    - rewrite Z.shiftr_spec, Z.ones_spec_low, andb_true_r, (Z.add_comm k s) by lia. destruct (Z.testbit x (s + k)); by rewrite ?Z.bits_0.
    - rewrite Z.pow2_bits_false, andb_false_r by lia. destruct (Z.testbit x (s + k)); [by rewrite Z.pow2_bits_false by lia|by rewrite Z.bits_0]. }
  rewrite E. destruct (Z.testbit x (s + k)); [|done]. apply Z.eqb_neq. pose proof (Z.pow_pos_nonneg 2 k). lia.
Qed.

(** The halves of an id register. *)
Lemma id_match v vendor device :
  is_u32 v -> is_u16 vendor -> is_u16 device ->
  (Z.land v 0xFFFF =? vendor) && (Z.land (Z.shiftr v 16) 0xFFFF =? device) = (v =? vendor + 0x10000 * device).
Proof.
  intros Hv Hve Hde. unfold is_u32, is_u16 in *. change 0xFFFF with (Z.ones 16). rewrite !Z.land_ones, Z.shiftr_div_pow2 by lia.
  change (2 ^ 16) with 0x10000. rewrite (Z.mod_small (v / 0x10000)) by (Z.div_mod_to_equations; lia).
  destruct (Z.eqb_spec (v mod 0x10000) vendor), (Z.eqb_spec (v / 0x10000) device), (Z.eqb_spec v (vendor + 0x10000 * device)); try done;
    exfalso; Z.div_mod_to_equations; lia.
Qed.

(** ** Configuration space through the driver *)

Section Space.
Context {H : Type} `{ConfigMechanism H}.
Implicit Types h : H.

(** The configuration space has not changed. *)
Definition same_space h h' : Prop := forall f r, space h' f r = space h f r.
#[export] Instance same_space_equiv : Equivalence same_space.
Proof.
  split; [done|by intros h1 h2 E f r|]. intros h1 h2 h3 E1 E2 f r. by rewrite E2.
Qed.

(** A bus, slot and function. *)
Definition fn_ok (bus slot func : Z) : Prop := is_u8 bus /\ 0 <= slot < 32 /\ 0 <= func < 8.

Lemma fn_number_u16 b s f : fn_ok b s f -> is_u16 (fn_number b s f).
Proof. unfold fn_ok, is_u8, is_u16, fn_number. lia. Qed.

Lemma config_address_eq b s f off :
  fn_ok b s f -> is_u8 off -> config_address b s f off = address_of (fn_number b s f) (register off).
Proof.
  intros (Hb & Hs & Hf) Ho. pose proof (register_range off Ho) as Hr. unfold config_address, is_u8 in *. rewrite (land_register off Ho).
  rewrite <- !Z.lor_assoc, (Z.lor_comm (register off)), !Z.lor_assoc, (Z.lor_comm _ 0x80000000), <- !Z.lor_assoc.
  rewrite (lor_shift f (register off) 8) by (cbn; lia). rewrite (lor_shift s _ 11) by (cbn; lia). rewrite (lor_shift b _ 16) by (cbn; lia).
  change 0x80000000 with (Z.shiftl 1 31). rewrite lor_shift by (cbn; lia). unfold address_of, fn_number. cbn [Z.pow Z.pow_pos Pos.iter Z.mul Pos.mul]. lia.
Qed.

Lemma read_config b s f off h :
  fn_ok b s f -> is_u8 off ->
  let '(v, h') := pci_read_config_32 b s f off h in v = space h (fn_number b s f) (register off) /\ same_space h h'.
Proof.
  intros Hf Ho. unfold pci_read_config_32. rewrite config_address_eq by done.
  destruct (register_range off Ho) as [Hr Hm]. pose proof (config_read h (fn_number b s f) (register off) (fn_number_u16 _ _ _ Hf) Hr Hm) as E.
  unfold PCI_CONFIG_DATA, PCI_CONFIG_ADDRESS. destruct (inl _ _) as [v h']. exact E.
Qed.

Lemma write_config b s f off v h :
  fn_ok b s f -> is_u8 off -> is_u32 v ->
  forall f' r, space (pci_write_config_32 b s f off v h) f' r =
    if decide (f' = fn_number b s f /\ r = register off)
    then keeps (fn_number b s f) (register off) (space h (fn_number b s f) (register off)) v else space h f' r.
Proof.
  intros Hf Ho Hv f' r. unfold pci_write_config_32. rewrite config_address_eq by done.
  destruct (register_range off Ho) as [Hr Hm].
  exact (config_write h (fn_number b s f) (register off) v (fn_number_u16 _ _ _ Hf) Hr Hm Hv f' r).
Qed.

(** ** The scan *)

(** The function number [n] of bus 0 has these ids. *)
Definition has_ids h (vendor device n : Z) : Prop := space h n 0 = vendor + 0x10000 * device.

Lemma has_ids_same vendor device n h h' : same_space h h' -> has_ids h' vendor device n <-> has_ids h vendor device n.
Proof. intros E. unfold has_ids. by rewrite E. Qed.

Lemma find_func_spec n slot func vendor device h :
  0 <= slot < 32 -> 0 <= func -> func + Z.of_nat n <= 8 -> is_u16 vendor -> is_u16 device ->
  let '(r, h') := find_func n slot func vendor device h in
  same_space h h' /\
  match r with
  | Some d => exists f, d = PciDevice 0 slot f vendor device /\ func <= f < func + Z.of_nat n /\ has_ids h vendor device (8 * slot + f) /\
                forall f', func <= f' < f -> ~ has_ids h vendor device (8 * slot + f')
  | None => forall f', func <= f' < func + Z.of_nat n -> ~ has_ids h vendor device (8 * slot + f')
  end.
Proof.
  intros Hs. revert func h; induction n as [|n IH]; intros func h Hf Hn Hv Hd; cbn [find_func].
  - split; [done|]. lia.
  - pose proof (read_config 0 slot func 0 h ltac:(unfold fn_ok, is_u8; lia) ltac:(done)) as E.
    destruct (pci_read_config_32 0 slot func 0 h) as [v h1]. destruct E as [-> Es]. change (register 0) with 0.
    rewrite id_match by (done || apply space_u32). replace (fn_number 0 slot func) with (8 * slot + func) by (unfold fn_number; lia).
    destruct (Z.eqb_spec (space h (8 * slot + func) 0) (vendor + 0x10000 * device)) as [Ei|Ei].
    + split; [done|]. exists func. split; [done|]. split; [lia|]. split; [done|]. lia.
    + specialize (IH (func + 1) h1 ltac:(lia) ltac:(lia) Hv Hd). destruct (find_func _ _ _ _ _ _) as [r h'].
      destruct IH as [Es' IH]. split; [by transitivity h1|].
      assert (Hne : forall f', func <= f' < func + 1 -> ~ has_ids h vendor device (8 * slot + f')) by (intros f' ?; by replace f' with func by lia).
      destruct r as [d|].
      * destruct IH as (f & E1 & E2 & E3 & E4). exists f. split; [done|]. split; [lia|]. split; [by apply (has_ids_same _ _ _ h h1)|].
        intros f' Hf'. destruct (decide (f' < func + 1)); [apply Hne; lia|]. rewrite <- (has_ids_same _ _ _ h h1) by done. apply E4. lia.
      * intros f' Hf'. destruct (decide (f' < func + 1)); [apply Hne; lia|]. rewrite <- (has_ids_same _ _ _ h h1) by done. apply IH. lia.
Qed.

Lemma find_slot_spec n slot vendor device h :
  0 <= slot -> slot + Z.of_nat n <= 32 -> is_u16 vendor -> is_u16 device ->
  let '(r, h') := find_slot n slot vendor device h in
  same_space h h' /\
  match r with
  | Some d => exists s f, d = PciDevice 0 s f vendor device /\ slot <= s < slot + Z.of_nat n /\ 0 <= f < 8 /\ has_ids h vendor device (8 * s + f) /\
                forall i, 8 * slot <= i < 8 * s + f -> ~ has_ids h vendor device i
  | None => forall i, 8 * slot <= i < 8 * (slot + Z.of_nat n) -> ~ has_ids h vendor device i
  end.
Proof.
  revert slot h; induction n as [|n IH]; intros slot h Hs Hn Hv Hd; cbn [find_slot].
  - split; [done|]. lia.
  - pose proof (find_func_spec 8 slot 0 vendor device h ltac:(lia) ltac:(lia) ltac:(lia) Hv Hd) as E.
    destruct (find_func 8 slot 0 vendor device h) as [[d|] h1]; destruct E as [Es E].
    + destruct E as (f & E1 & E2 & E3 & E4). split; [done|]. exists slot, f. split; [done|]. split; [lia|]. split; [lia|]. split; [done|].
      intros i Hi. replace i with (8 * slot + (i - 8 * slot)) by lia. apply E4. lia.
    + specialize (IH (slot + 1) h1 ltac:(lia) ltac:(lia) Hv Hd). destruct (find_slot _ _ _ _ _) as [r h'].
      destruct IH as [Es' IH]. split; [by transitivity h1|].
      assert (Hne : forall i, 8 * slot <= i < 8 * (slot + 1) -> ~ has_ids h vendor device i).
      { intros i Hi. replace i with (8 * slot + (i - 8 * slot)) by lia. apply E. lia. }
      destruct r as [d|].
      * destruct IH as (s & f & E1 & E2 & E3 & E4 & E5). exists s, f. split; [done|]. split; [lia|]. split; [lia|].
        split; [by apply (has_ids_same _ _ _ h h1)|]. intros i Hi.
        destruct (decide (i < 8 * (slot + 1))); [apply Hne; lia|]. rewrite <- (has_ids_same _ _ _ h h1) by done. apply E5. lia.
      * intros i Hi. destruct (decide (i < 8 * (slot + 1))); [apply Hne; lia|]. rewrite <- (has_ids_same _ _ _ h h1) by done. apply IH. lia.
Qed.
End Space.

(** The scan finds the first device.  [pci_find_device] looks at all eight
    functions of the 32 slots of bus 0 and returns the first, in that order, with
    the vendor and device ids; it returns nothing exactly when no function has them.
    The configuration space is as before. *)
Theorem pci_find_first {H} `{ConfigMechanism H} (h : H) (vendor device : Z) :
  is_u16 vendor -> is_u16 device ->
  let '(r, h') := pci_find_device vendor device h in
  same_space h h' /\
  match r with
  | Some d => exists s f, d = PciDevice 0 s f vendor device /\ 0 <= s < 32 /\ 0 <= f < 8 /\ has_ids h vendor device (8 * s + f) /\
                forall i, 0 <= i < 8 * s + f -> ~ has_ids h vendor device i
  | None => forall i, 0 <= i < 256 -> ~ has_ids h vendor device i
  end.
Proof. intros Hv Hd. exact (find_slot_spec 32 0 vendor device h ltac:(lia) ltac:(lia) Hv Hd). Qed.

(** ** Base address registers *)

(** A register for a memory region of [2 ^ k] bytes: the address bits can be written,
    the low bits give the type and cannot. *)
Definition memory_bar {H} `{ConfigMechanism H} (k fn reg : Z) : Prop :=
  4 <= k < 32 /\ forall old v, is_u32 v -> keeps (H := H) fn reg old v = 2 ^ k * (v / 2 ^ k) + old mod 16.
(** A register that is not implemented. *)
Definition no_bar {H} `{ConfigMechanism H} (fn reg : Z) : Prop := forall old v, keeps (H := H) fn reg old v = 0.

Definition dev_ok (d : pci_device_t) : Prop := fn_ok (bus d) (slot d) (func d).
Definition dev_fn (d : pci_device_t) : Z := fn_number (bus d) (slot d) (func d).

(** What the registers read back during the sizing. *)
Lemma get_bar_steps {H} `{ConfigMechanism H} (h : H) (d : pci_device_t) (i : Z) :
  dev_ok d -> 0 <= i < 6 ->
  let reg := PCI_REGISTER_BAR0 + 4 * i in
  let orig := space h (dev_fn d) reg in
  let probe := keeps (H := H) (dev_fn d) reg orig 0xFFFFFFFF in
  let '(base, size, h') := pci_get_bar d i h in
  base = Z.land orig 0xFFFFFFF0 /\ size = u32 (Z.lnot (Z.land probe 0xFFFFFFF0)) +u 1 /\
  forall f r, space h' f r = if decide (f = dev_fn d /\ r = reg) then keeps (H := H) (dev_fn d) reg probe orig else space h f r.
Proof.
  intros Hd Hi reg orig probe. unfold PCI_REGISTER_BAR0 in reg.
  assert (Ho : is_u8 reg /\ register reg = reg).
  { unfold reg, is_u8, register. split; [lia|]. replace (16 + 4 * i) with ((4 + i) * 4) by lia. rewrite Z.div_mul by lia. lia. }
  destruct Ho as [Ho Er]. unfold pci_get_bar. replace (u8 (PCI_REGISTER_BAR0 + i * 4)) with reg
    by (unfold PCI_REGISTER_BAR0, reg in *; rewrite u8_small by (unfold is_u8 in *; lia); lia).
  pose proof (read_config _ _ _ reg h Hd Ho) as E1. destruct (pci_read_config_32 _ _ _ _ h) as [v h1]. destruct E1 as [E1 S1].
  rewrite Er in E1. fold (dev_fn d) in E1. fold orig in E1. subst v.
  pose proof (write_config _ _ _ reg 0xFFFFFFFF h1 Hd Ho ltac:(done)) as W1. rewrite Er in W1. fold (dev_fn d) in W1.
  cbv zeta. forget (pci_write_config_32 (bus d) (slot d) (func d) reg 0xFFFFFFFF h1) as h2.
  pose proof (read_config _ _ _ reg h2 Hd Ho) as E2. destruct (pci_read_config_32 _ _ _ _ h2) as [v h3]. destruct E2 as [E2 S2].
  rewrite Er in E2. fold (dev_fn d) in E2. rewrite W1, decide_True, S1 in E2 by done. fold orig in E2. fold probe in E2. subst v.
  pose proof (write_config _ _ _ reg orig h3 Hd Ho ltac:(apply space_u32)) as W2. rewrite Er in W2. fold (dev_fn d) in W2.
  split; [done|]. split; [done|]. intros f r. rewrite W2, !S2, !W1. rewrite (decide_True (P := dev_fn d = dev_fn d /\ reg = reg)) by done.
  rewrite S1. destruct (decide _); [done|]. apply S1.
Qed.

(** Probing the register of a memory region with all ones reads back its size and type. *)
Lemma memory_bar_probe {H} `{ConfigMechanism H} (k a t fn reg : Z) :
  memory_bar (H := H) k fn reg -> 0 <= t < 16 -> is_u32 (2 ^ k * a + t) ->
  let probe := keeps (H := H) fn reg (2 ^ k * a + t) 0xFFFFFFFF in
  probe = 0x100000000 - 2 ^ k + t /\ Z.land (2 ^ k * a + t) 0xFFFFFFF0 = 2 ^ k * a /\
  u32 (Z.lnot (Z.land probe 0xFFFFFFF0)) +u 1 = 2 ^ k /\ keeps (H := H) fn reg probe (2 ^ k * a + t) = 2 ^ k * a + t.
Proof.
  intros [Hk Hkeep] Ht Hu. pose proof (Z.pow_le_mono_r 2 4 k ltac:(lia) ltac:(lia)) as Hp. change (2 ^ 4) with 16 in Hp.
  assert (H16 : 2 ^ k = 16 * 2 ^ (k - 4)) by (change 16 with (2 ^ 4); rewrite <- Z.pow_add_r by lia; f_equal; lia).
  assert (H32 : 0x100000000 = 2 ^ k * 2 ^ (32 - k)) by (rewrite <- Z.pow_add_r by lia; change 0x100000000 with (2 ^ 32); f_equal; lia).
  assert (Hk32 : 2 ^ k < 0x100000000) by (change 0x100000000 with (2 ^ 32); apply Z.pow_lt_mono_r; lia).
  assert (Hmod : forall b, (2 ^ k * b + t) mod 16 = t) by (intros b; rewrite H16, <- Z.mul_assoc, Z.add_comm, Z.mul_comm, Z.mod_add by lia; by apply Z.mod_small).
  assert (Hdiv : forall b, (2 ^ k * b + t) / 16 = 2 ^ (k - 4) * b) by (intros b; symmetry; apply (Z.div_unique _ _ _ t); [lia|rewrite H16; ring]).
  assert (Hq : 0xFFFFFFFF / 2 ^ k = 2 ^ (32 - k) - 1).
  { symmetry. apply (Z.div_unique _ _ _ (2 ^ k - 1)); [lia|]. change 0xFFFFFFFF with (0x100000000 - 1). rewrite H32. ring. }
  intros probe. assert (Epr : probe = 2 ^ k * (2 ^ (32 - k) - 1) + t) by (unfold probe; by rewrite Hkeep, Hq, Hmod).
  clearbody probe. subst probe. assert (Hpu : is_u32 (2 ^ k * (2 ^ (32 - k) - 1) + t)) by (unfold is_u32 in *; nia).
  rewrite !land_high4, !Hdiv by done. split; [rewrite H32; ring|]. split; [rewrite H16; ring|]. split.
  - replace (16 * (2 ^ (k - 4) * (2 ^ (32 - k) - 1))) with (0x100000000 - 2 ^ k) by (rewrite H32, H16; ring).
    unfold u32, Z.lnot. Z.div_mod_to_equations. lia.
  - rewrite Hkeep, Hmod by done. f_equal. f_equal. symmetry. apply (Z.div_unique _ _ _ t); lia.
Qed.

(** Sizing the register of a memory region. *)
Lemma get_bar_memory {H} `{ConfigMechanism H} (h : H) (d : pci_device_t) (i k a t : Z) :
  dev_ok d -> 0 <= i < 6 -> memory_bar (H := H) k (dev_fn d) (PCI_REGISTER_BAR0 + 4 * i) ->
  space h (dev_fn d) (PCI_REGISTER_BAR0 + 4 * i) = 2 ^ k * a + t -> 0 <= t < 16 ->
  exists h', pci_get_bar d i h = (2 ^ k * a, 2 ^ k, h') /\ same_space h h'.
Proof.
  intros Hd Hi Hb Eo Ht. pose proof (get_bar_steps h d i Hd Hi) as E. cbv zeta in E. pose proof (space_u32 h (dev_fn d) (PCI_REGISTER_BAR0 + 4 * i)) as Hu.
  destruct (pci_get_bar d i h) as [[base size] h']. rewrite Eo in *. destruct (memory_bar_probe k a t _ _ Hb Ht Hu) as (_ & E1 & E2 & E3).
  destruct E as (-> & -> & Es). rewrite E1, E2. exists h'. split; [done|]. intros f r. rewrite Es, E3.
  destruct (decide _) as [[-> ->]|]; done.
Qed.

(** Sizing a base address register.  For a register of a memory region of a
    power of two of at least 16 bytes, holding a base aligned to it and its type
    bits, [pci_get_bar] returns base and size and leaves the configuration space as
    it found it, though it writes the register twice.  For a register that is not
    implemented it returns size 0. *)
Theorem pci_bar_size {H} `{ConfigMechanism H} (h : H) (d : pci_device_t) (i : Z) :
  dev_ok d -> 0 <= i < 6 ->
  let reg := PCI_REGISTER_BAR0 + 4 * i in
  let '(base, size, h') := pci_get_bar d i h in
  (forall k a t, memory_bar (H := H) k (dev_fn d) reg -> space h (dev_fn d) reg = 2 ^ k * a + t -> 0 <= t < 16 ->
     base = 2 ^ k * a /\ size = 2 ^ k /\ same_space h h') /\
  (no_bar (H := H) (dev_fn d) reg -> space h (dev_fn d) reg = 0 -> base = 0 /\ size = 0 /\ same_space h h').
Proof.
  intros Hd Hi reg. destruct (pci_get_bar d i h) as [[base size] h'] eqn:Eb. split.
  - intros k a t Hb Eo Ht. destruct (get_bar_memory h d i k a t Hd Hi Hb Eo Ht) as (h2 & E & Hs). rewrite E in Eb. by injection Eb as <- <- <-.
  - intros Hno E0. pose proof (get_bar_steps h d i Hd Hi) as E. cbv zeta in E. rewrite Eb in E. fold reg in E. destruct E as (-> & -> & Es).
    rewrite !Hno, E0. split; [done|]. split; [done|]. intros f r. rewrite Es. destruct (decide _) as [[-> ->]|]; [|done]. by rewrite Hno, E0.
Qed.

(** ** The capability list *)

Section Capabilities.
Context {H : Type} `{ConfigMechanism H}.
Implicit Types (h : H) (d : pci_device_t).

(** The header word at a pointer, its id and its link. *)
Definition cap_word h d (p : Z) : Z := space h (dev_fn d) (register p).
Definition cap_id h d (p : Z) : Z := Z.land (cap_word h d p) 0xFF.
Definition cap_next h d (p : Z) : Z := Z.land (Z.shiftr (cap_word h d p) 8) 0xFF.

(** The list from a pointer on, as far as the driver follows it: up to its end, or to
    the first MSI capability. *)
Inductive cap_list h d : Z -> list Z -> option Z -> Prop :=
  | caps_end : cap_list h d 0 [] None
  | caps_msi p : p <> 0 -> cap_id h d p = PCI_CAP_ID_MSI -> cap_list h d p [p] (Some p)
  | caps_next p l r :
      p <> 0 -> cap_id h d p <> PCI_CAP_ID_MSI -> cap_list h d (cap_next h d p) l r -> cap_list h d p (p :: l) r.

(** The driver goes on past [p]. *)
Definition passes h d (p : Z) : Prop := p <> 0 /\ cap_id h d p <> PCI_CAP_ID_MSI.
Definition nth_cap h d (n : nat) (p : Z) : Z := Nat.iter n (cap_next h d) p.

#[local] Instance passes_dec h d p : Decision (passes h d p).
Proof. unfold passes. apply _. Defined.

Lemma cap_next_u8 h d p : is_u8 (cap_next h d p).
Proof. unfold cap_next, is_u8. change 0xFF with (Z.ones 8). rewrite Z.land_ones by lia. apply Z.mod_pos_bound. lia. Qed.

Lemma same_caps h h' d p : same_space h h' -> cap_word h' d p = cap_word h d p.
Proof. intros E. apply E. Qed.

Lemma cap_list_same h h' d p l r : same_space h h' -> cap_list h d p l r -> cap_list h' d p l r.
Proof.
  intros E. pose proof (fun q => same_caps h h' d q E) as Ew. induction 1 as [|p Hp Hid|p l r Hp Hid _ IH].
  - constructor.
  - apply caps_msi; [done|]. unfold cap_id. by rewrite Ew.
  - apply caps_next; [done|unfold cap_id; by rewrite Ew|]. unfold cap_next in *. by rewrite Ew.
Qed.

(** A list has no pointer twice, so at most 255 of them. *)
Lemma cap_list_det h d p l r l' r' : cap_list h d p l r -> cap_list h d p l' r' -> l = l'.
Proof.
  intros Hl. revert l' r'. induction Hl as [|p Hp Hid|p l r Hp Hid _ IH]; intros l' r' Hl'; inversion Hl'; subst; try done.
  f_equal. by eapply IH.
Qed.

Lemma cap_list_suffix h d p l r q : cap_list h d p l r -> q ∈ l -> exists l', cap_list h d q l' r /\ (length l' <= length l)%nat.
Proof.
  induction 1 as [|p Hp Hid|p l r Hp Hid Hl IH]; intros Hq.
  - by apply elem_of_nil in Hq.
  - apply list_elem_of_singleton in Hq as ->. exists [p]. split; [by apply caps_msi|done].
  - apply elem_of_cons in Hq as [->|Hq]; [exists (p :: l); split; [by apply caps_next|done]|].
    destruct (IH Hq) as (l' & Hl' & Hlen). exists l'. split; [done|]. cbn [length]. lia.
Qed.

Lemma cap_list_nodup h d p l r : is_u8 p -> cap_list h d p l r -> NoDup l /\ Forall (fun q => q ∈ seqZ 1 255) l.
Proof.
  intros Hu Hl. induction Hl as [|p Hp Hid|p l r Hp Hid Hl IH].
  - split; constructor.
  - split; [apply NoDup_singleton|]. constructor; [|done]. apply elem_of_seqZ. unfold is_u8 in Hu. lia.
  - destruct (IH (cap_next_u8 h d p)) as [Hn Hr]. split.
    + constructor; [|done]. intros Hin. destruct (cap_list_suffix _ _ _ _ _ _ Hl Hin) as (l' & Hl' & Hlen).
      pose proof (cap_list_det _ _ _ _ _ _ _ (caps_next h d p l r Hp Hid Hl) Hl') as E. apply (f_equal length) in E. cbn in E. lia.
    + constructor; [|done]. apply elem_of_seqZ. unfold is_u8 in Hu. lia.
Qed.

Lemma nodup_caps (l : list Z) : NoDup l -> Forall (fun q => q ∈ seqZ 1 255) l -> (length l <= 255)%nat.
Proof.
  intros Hn Hr. change 255%nat with (length (seqZ 1 255)). apply submseteq_length, NoDup_submseteq; [done|].
  intros x Hx. by apply (proj1 (Forall_forall _ _) Hr).
Qed.

(** Either the list ends, or the driver passes every pointer it meets: 256 that it
    passes cannot all differ, and from a repetition on it goes round. *)
Lemma nth_cap_add h d m n p : nth_cap h d (m + n) p = nth_cap h d m (nth_cap h d n p).
Proof. apply Nat.iter_add. Qed.

Lemma nth_cap_u8 h d n p : is_u8 p -> is_u8 (nth_cap h d n p).
Proof. intros Hp. destruct n; [done|]. apply cap_next_u8. Qed.

Lemma passes_forever h d p :
  is_u8 p -> (forall n, (n < 256)%nat -> passes h d (nth_cap h d n p)) -> forall n, passes h d (nth_cap h d n p).
Proof.
  intros Hu Hp n. apply dec_stable. intros Hn. revert n Hn.
  assert (Hmin : forall n, ~ passes h d (nth_cap h d n p) -> False).
  2: { exact Hmin. }
  induction n as [n IH] using lt_wf_ind. intros Hn.
  assert (Hd : NoDup ((fun i => nth_cap h d i p) <$> seq 0 256)).
  { apply NoDup_fmap_2_strong; [|apply NoDup_seq]. intros i j Hi%elem_of_seq Hj%elem_of_seq E.
    destruct (decide (n < 256)%nat); [by destruct Hn; apply Hp|].
    assert (Hback : forall a b, (a < b)%nat -> (b < 256)%nat -> nth_cap h d a p = nth_cap h d b p -> False).
    { intros a b Hab Hb Eab. apply (IH (n - (b - a))%nat); [lia|]. intros Hp'. apply Hn.
      replace n with ((n - b) + b)%nat by lia. rewrite nth_cap_add, <- Eab, <- nth_cap_add.
      by replace (n - b + a)%nat with (n - (b - a))%nat by lia. }
    destruct (Nat.lt_trichotomy i j) as [?|[?|?]]; [|done|]; exfalso; [by apply (Hback i j); [|lia|]|by apply (Hback j i); [|lia|]]. }
  apply (nodup_caps _) in Hd; [rewrite length_fmap, length_seq in Hd; lia|].
  apply Forall_forall. intros x (i & -> & Hi%elem_of_seq)%list_elem_of_fmap. apply elem_of_seqZ.
  pose proof (nth_cap_u8 h d i p Hu) as Hx. destruct (Hp i ltac:(lia)) as [Hz _]. unfold is_u8 in Hx. lia.
Qed.

Lemma cap_list_or_forever h d p : is_u8 p -> (exists l r, cap_list h d p l r) \/ forall n, passes h d (nth_cap h d n p).
Proof.
  intros Hu. assert (Hn : forall n q, (exists l r, cap_list h d q l r) \/ forall i, (i < n)%nat -> passes h d (nth_cap h d i q)).
  { induction n as [|n IH]; intros q; [right; lia|]. destruct (decide (passes h d q)) as [[Hz Hid]|Hq].
    - destruct (IH (cap_next h d q)) as [(l & r & Hl)|Hi].
      + left. exists (q :: l), r. by apply caps_next.
      + right. intros [|i] Hlt; [done|]. unfold nth_cap. rewrite Nat.iter_succ_r. apply Hi. lia.
    - left. destruct (decide (q = 0)) as [->|Hz]; [exists [], None; constructor|]. exists [q], (Some q).
      apply caps_msi; [done|]. apply dec_stable. intros Hid. by apply Hq. }
  destruct (Hn 256%nat p) as [Hl|Hp]; [by left|right]. by apply passes_forever.
Qed.
End Capabilities.

(** ** Message-signalled interrupts *)

Section Msi.
Context {H : Type} `{ConfigMechanism H}.
Implicit Types (h : H) (d : pci_device_t).

(** The capability at [q], programmed for a vector and a local APIC: address, data and
    the enable bit, each as the device keeps it, and nothing else. *)
Record programmed h h' d (q vector dest : Z) : Prop := {
  pg_address : space h' (dev_fn d) (q + 4) = keeps (H := H) (dev_fn d) (q + 4) (space h (dev_fn d) (q + 4)) (0xFEE00000 + 0x1000 * dest);
  pg_data : let data := q + (if Z.testbit (cap_word h d q) 23 then 12 else 8) in
    space h' (dev_fn d) data = keeps (H := H) (dev_fn d) data (space h (dev_fn d) data) vector;
  pg_upper : Z.testbit (cap_word h d q) 23 = true ->
    space h' (dev_fn d) (q + 8) = keeps (H := H) (dev_fn d) (q + 8) (space h (dev_fn d) (q + 8)) 0;
  pg_enable : space h' (dev_fn d) q = keeps (H := H) (dev_fn d) q (cap_word h d q) (Z.lor (cap_word h d q) 0x10000);
  pg_rest : forall f r,
    f <> dev_fn d \/ r <> q /\ r <> q + 4 /\ r <> q + 8 /\ (r <> q + 12 \/ Z.testbit (cap_word h d q) 23 = false) ->
    space h' f r = space h f r
}.

Lemma programmed_same h1 h1' h2 h2' d q vector dest :
  same_space h1 h2 -> same_space h1' h2' -> programmed h1 h1' d q vector dest -> programmed h2 h2' d q vector dest.
Proof.
  intros S S' [A B C D E]. pose proof (same_caps h1 h2 d q S) as Ec.
  assert (Es : forall x, space h2 (dev_fn d) x = space h1 (dev_fn d) x /\ space h2' (dev_fn d) x = space h1' (dev_fn d) x)
    by (intros x; split; [apply S|apply S']).
  split; rewrite ?Ec; cbv zeta in *.
  - by rewrite !(proj1 (Es _)), (proj2 (Es _)).
  - by rewrite !(proj1 (Es _)), (proj2 (Es _)).
  - by rewrite !(proj1 (Es _)), (proj2 (Es _)).
  - by rewrite (proj2 (Es _)).
  - intros f x Hx. rewrite (S' f x), (S f x). by apply E.
Qed.

Lemma enable_bit x : is_u32 x -> Z.lor (Z.land x 0xFFFF) (Z.shiftl (Z.lor (u16 (Z.shiftr x 16)) 1) 16) = Z.lor x 0x10000.
Proof.
  intros Hx. unfold u16. change 0x10000 with (2 ^ 16) at 1. change 0xFFFF with (Z.ones 16). rewrite <- Z.land_ones by lia.
  apply Z.bits_inj'. intros n Hn. rewrite !Z.lor_spec, Z.land_spec, Z.shiftl_spec by lia.
  destruct (Z.ltb_spec n 16).
  - rewrite (Z.testbit_neg_r _ (n - 16)), Z.ones_spec_low, andb_true_r, orb_false_r by lia.
    change 0x10000 with (2 ^ 16). by rewrite Z.pow2_bits_false, orb_false_r by lia.
  - rewrite Z.ones_spec_high, andb_false_r by lia. cbn [orb]. rewrite Z.lor_spec, Z.land_spec, Z.shiftr_spec by lia.
    replace (n - 16 + 16) with n by lia. change 0x10000 with (Z.shiftl 1 16). rewrite Z.shiftl_spec by lia. f_equal.
    destruct (Z.ltb_spec n 32); [rewrite Z.ones_spec_low by lia; apply andb_true_r|].
    rewrite Z.ones_spec_high, andb_false_r by lia. unfold is_u32 in Hx. rewrite <- (Z.mod_small x (2 ^ 32)) by (cbn; lia).
    by rewrite Z.mod_pow2_bits_high by lia.
Qed.

Lemma write_at d off v h :
  dev_ok d -> 0 <= off < 0x100 -> off mod 4 = 0 -> is_u32 v ->
  forall f r, space (cap_write d off v h) f r =
    if decide (f = dev_fn d /\ r = off) then keeps (H := H) (dev_fn d) off (space h (dev_fn d) off) v else space h f r.
Proof.
  intros Hd Ho Hm Hv f r. assert (Hu : is_u8 off) by exact Ho. unfold cap_write. rewrite u8_small by done.
  assert (Er : register off = off) by (unfold register; Z.div_mod_to_equations; lia).
  pose proof (write_config (bus d) (slot d) (func d) off v h Hd Hu Hv f r) as E. by rewrite Er in E.
Qed.

Lemma program_msi_spec d vector dest q h h2 :
  dev_ok d -> is_u8 vector -> is_u8 dest -> 0 <= q <= 0xF0 -> q mod 4 = 0 -> same_space h h2 ->
  programmed h (program_msi d vector dest q (cap_word h d q) h2) d q vector dest.
Proof.
  intros Hd Hv Hde Hq Hm Hs. assert (Er : register q = q) by (unfold register; Z.div_mod_to_equations; lia).
  assert (Hw : is_u32 (cap_word h d q)) by apply space_u32.
  assert (Ha : Z.lor 0xFEE00000 (Z.shiftl dest 12) = 0xFEE00000 + 0x1000 * dest).
  { unfold is_u8 in Hde. rewrite (Z.shiftl_mul_pow2 dest) by lia. change 0xFEE00000 with (Z.shiftl 0xFEE 20).
    rewrite lor_shift by (change (2 ^ 20) with 0x100000; change (2 ^ 12) with 0x1000; lia). change (2 ^ 20 * 0xFEE) with 0xFEE00000.
    change (2 ^ 12) with 0x1000. change (Z.shiftl 0xFEE 20) with 0xFEE00000. lia. }
  assert (Hadd : forall k, k mod 4 = 0 -> (q + k) mod 4 = 0) by (intros k Hk; Z.div_mod_to_equations; lia).
  assert (Hlor : is_u32 (Z.lor (cap_word h d q) 0x10000)).
  { unfold is_u32 in *. split; [apply Z.lor_nonneg; lia|]. change 0x100000000 with (2 ^ 32). apply Z.log2_lt_cancel. rewrite Z.log2_lor by lia.
    change (Z.log2 (2 ^ 32)) with 32. apply Z.max_lub_lt; [|done]. destruct (Z.eq_dec (cap_word h d q) 0) as [->|]; [done|]. apply Z.log2_lt_pow2; lia. }
  unfold program_msi. rewrite enable_bit, Ha by done.
  assert (H64 : (Z.land (u16 (Z.shiftr (cap_word h d q) 16)) 0x80 =? 0) = negb (Z.testbit (cap_word h d q) 23)) by exact (field_bit (cap_word h d q) 16 16 7 ltac:(lia) ltac:(lia)).
  rewrite H64, negb_involutive.
  assert (Hsp : forall f r, space h2 f r = space h f r) by exact Hs.
  assert (Hval : is_u32 (0xFEE00000 + 0x1000 * dest) /\ is_u32 vector) by (unfold is_u8, is_u32 in *; lia). destruct Hval as [Hav Hvv].
  assert (Hwr : forall k v h f r, 0 <= k <= 12 -> k mod 4 = 0 -> is_u32 v -> space (cap_write d (q + k) v h) f r =
    if decide (f = dev_fn d /\ r = q + k) then keeps (H := H) (dev_fn d) (q + k) (space h (dev_fn d) (q + k)) v else space h f r).
  { intros k v h0 f r Hk Hkm Hv0. apply write_at; [done|lia|by apply Hadd|done]. }
  assert (Hw0 : forall v h f r, is_u32 v -> space (cap_write d q v h) f r =
    if decide (f = dev_fn d /\ r = q) then keeps (H := H) (dev_fn d) q (space h (dev_fn d) q) v else space h f r).
  { intros v h0 f r Hv0. apply write_at; [done|lia|done|done]. }
  assert (Ew : space h (dev_fn d) q = cap_word h d q) by (unfold cap_word; by rewrite Er).
  cbv zeta. destruct (Z.testbit (cap_word h d q) 23) eqn:E64.
  all: split; rewrite ?E64; cbv zeta; try intros f r Hfr; try done; try intros _.
  all: rewrite Hw0 by done; rewrite ?(Hwr 12), ?(Hwr 8), ?(Hwr 4) by (done || lia).
  all: repeat case_decide; try lia; rewrite ?Hsp, ?Ew; try done; destruct_and?; intuition (lia || discriminate).
Qed.

(** The walk, in a machine whose space is [h]'s. *)
Lemma walk_list h d vector dest p l r h1 fuel :
  dev_ok d -> is_u8 p -> cap_list h d p l r -> same_space h h1 -> (length l <= fuel)%nat ->
  exists h', match r with
    | None => walk_caps fuel d vector dest p h1 = Some (-1, h') /\ same_space h h'
    | Some q => is_u8 q /\ exists h2, same_space h h2 /\ h' = program_msi d vector dest q (cap_word h d q) h2 /\
        walk_caps fuel d vector dest p h1 = Some (0, h')
    end.
Proof.
  intros Hd Hu Hl. revert h1 fuel. induction Hl as [|p Hp Hid|p l r Hp Hid Hl IH]; intros h1 fuel Hs Hf.
  - exists h1. by destruct fuel.
  - destruct fuel as [|fuel]; [cbn in Hf; lia|]. cbn [walk_caps]. rewrite (proj2 (Z.eqb_neq p 0)) by done.
    pose proof (read_config _ _ _ p h1 Hd Hu) as E. destruct (pci_read_config_32 _ _ _ _ h1) as [v h2]. destruct E as [-> E].
    fold (dev_fn d). rewrite (Hs (dev_fn d) (register p)). fold (cap_word h d p). fold (cap_id h d p). rewrite Hid, Z.eqb_refl.
    eexists. split; [done|]. exists h2. split; [by transitivity h1|]. done.
  - destruct fuel as [|fuel]; [cbn in Hf; lia|]. cbn [walk_caps]. rewrite (proj2 (Z.eqb_neq p 0)) by done.
    pose proof (read_config _ _ _ p h1 Hd Hu) as E. destruct (pci_read_config_32 _ _ _ _ h1) as [v h2]. destruct E as [-> E].
    fold (dev_fn d). rewrite (Hs (dev_fn d) (register p)). fold (cap_word h d p). fold (cap_id h d p). fold (cap_next h d p).
    rewrite (proj2 (Z.eqb_neq _ _)) by done. apply (IH (cap_next_u8 h d p) h2 fuel); [by transitivity h1|cbn in Hf; lia].
Qed.

Lemma walk_forever h d vector dest p h1 fuel :
  dev_ok d -> is_u8 p -> (forall n, passes h d (nth_cap h d n p)) -> same_space h h1 -> walk_caps fuel d vector dest p h1 = None.
Proof.
  intros Hd. revert p h1; induction fuel as [|fuel IH]; intros p h1 Hu Hp Hs; destruct (Hp 0%nat) as [H00 Hid]; cbn in H00, Hid; cbn [walk_caps];
    rewrite (proj2 (Z.eqb_neq p 0)) by done; [done|].
  pose proof (read_config _ _ _ p h1 Hd Hu) as E. destruct (pci_read_config_32 _ _ _ _ h1) as [v h2]. destruct E as [-> E].
  fold (dev_fn d). rewrite (Hs (dev_fn d) (register p)). fold (cap_word h d p). fold (cap_id h d p). fold (cap_next h d p).
  rewrite (proj2 (Z.eqb_neq _ _)) by done. apply IH; [apply cap_next_u8| |by transitivity h1].
  intros n. specialize (Hp (S n)). unfold nth_cap in *. by rewrite Nat.iter_succ_r in Hp.
Qed.
End Msi.

(** The head of a device's capability list, and whether it has one. *)
Definition first_cap {H} `{ConfigMechanism H} (h : H) (d : pci_device_t) : Z := Z.land (space h (dev_fn d) 0x34) 0xFF.
Definition lists_caps {H} `{ConfigMechanism H} (h : H) (d : pci_device_t) : bool := Z.testbit (space h (dev_fn d) 0x04) 20.

Lemma first_cap_u8 {H} `{ConfigMechanism H} (h : H) (d : pci_device_t) : is_u8 (first_cap h d).
Proof. unfold first_cap, is_u8. change 0xFF with (Z.ones 8). rewrite Z.land_ones by lia. apply Z.mod_pos_bound. lia. Qed.

(** The two reads before the walk. *)
Lemma enable_msi_walk {H} `{ConfigMechanism H} (h : H) (d : pci_device_t) (vector dest : Z) (fuel : nat) :
  dev_ok d -> exists h1, same_space h h1 /\
    pci_enable_msi fuel d vector dest h = if lists_caps h d then walk_caps fuel d vector dest (first_cap h d) h1 else Some (-1, h1).
Proof.
  intros Hd. pose proof (read_config _ _ _ PCI_REGISTER_STATUS h Hd ltac:(done)) as E1. change (register PCI_REGISTER_STATUS) with 0x04 in E1. fold (dev_fn d) in E1.
  assert (Hbit : forall x, (Z.land (u8 (Z.shiftr x 16)) 0x10 =? 0) = negb (Z.testbit x 20)) by (intros x; exact (field_bit x 16 8 4 ltac:(lia) ltac:(lia))).
  unfold pci_enable_msi. destruct (pci_read_config_32 _ _ _ PCI_REGISTER_STATUS h) as [v1 h1]. destruct E1 as [-> S1]. rewrite Hbit.
  fold (lists_caps h d). pose proof (read_config _ _ _ 0x34 h1 Hd ltac:(done)) as E2. change (register 0x34) with 0x34 in E2. fold (dev_fn d) in E2.
  destruct (pci_read_config_32 _ _ _ 0x34 h1) as [v2 h2]. destruct E2 as [-> S2]. rewrite (S1 (dev_fn d) 0x34). fold (first_cap h d).
  destruct (lists_caps h d); [exists h2; split; [by transitivity h1|done]|by exists h1].
Qed.

Lemma cap_list_short {H} `{ConfigMechanism H} (h : H) (d : pci_device_t) l r : cap_list h d (first_cap h d) l r -> (length l <= 255)%nat.
Proof. intros Hl. destruct (cap_list_nodup _ _ _ _ _ (first_cap_u8 h d) Hl). by apply nodup_caps. Qed.

(** C16: enabling message-signalled interrupts.  Without a capability list, or with a
    list that ends and holds no MSI capability, [pci_enable_msi] fails and has
    written nothing.  When the list reaches an MSI capability, the first of them at a
    pointer that is a multiple of 4 and at most 0xF0, that one is programmed with the
    address of the local APIC and the vector, at the place the 64-bit flag says, and
    enabled; no other register is written, the fourth of the capability only when it
    is a 64-bit one.  In these cases 255 turns are enough.  When the list neither
    ends nor reaches an MSI capability, and so runs in a circle, the call never
    returns.  Of an MSI capability at an unaligned pointer or past 0xF0 nothing is
    said. *)
Theorem pci_msi {H} `{ConfigMechanism H} (h : H) (d : pci_device_t) (vector dest : Z) :
  dev_ok d -> is_u8 vector -> is_u8 dest ->
  (lists_caps h d = false -> forall fuel, exists h', pci_enable_msi fuel d vector dest h = Some (-1, h') /\ same_space h h') /\
  (lists_caps h d = true ->
     (forall l fuel, cap_list h d (first_cap h d) l None -> (255 <= fuel)%nat ->
        exists h', pci_enable_msi fuel d vector dest h = Some (-1, h') /\ same_space h h') /\
     (forall l q fuel, cap_list h d (first_cap h d) l (Some q) -> q mod 4 = 0 -> q <= 0xF0 -> (255 <= fuel)%nat ->
        exists h', pci_enable_msi fuel d vector dest h = Some (0, h') /\ programmed h h' d q vector dest) /\
     ((forall l r, ~ cap_list h d (first_cap h d) l r) -> forall fuel, pci_enable_msi fuel d vector dest h = None)).
Proof.
  intros Hd Hv Hde. pose proof (first_cap_u8 h d) as Hu. split; [|intros Hc; split; [|split]].
  - intros Hc fuel. destruct (enable_msi_walk h d vector dest fuel Hd) as (h1 & Hs & E). rewrite Hc in E. by exists h1.
  - intros l fuel Hl Hf. pose proof (cap_list_short h d _ _ Hl). destruct (enable_msi_walk h d vector dest fuel Hd) as (h1 & Hs & E). rewrite Hc in E. rewrite E.
    apply (walk_list h d vector dest _ l None h1 fuel Hd Hu Hl Hs). lia.
  - intros l q fuel Hl Hm Hq Hf. pose proof (cap_list_short h d _ _ Hl). destruct (enable_msi_walk h d vector dest fuel Hd) as (h1 & Hs & E). rewrite Hc in E. rewrite E.
    destruct (walk_list h d vector dest _ l (Some q) h1 fuel Hd Hu Hl Hs ltac:(lia)) as (h' & Hqu & h3 & S3 & -> & Ew).
    eexists. split; [exact Ew|]. apply program_msi_spec; try done. unfold is_u8 in Hqu. lia.
  - intros Hno fuel. destruct (enable_msi_walk h d vector dest fuel Hd) as (h1 & Hs & E). rewrite Hc in E. rewrite E.
    apply (walk_forever h d); [done|done| |done].
    destruct (cap_list_or_forever h d (first_cap h d) Hu) as [(l & r & Hl)|Hp]; [by destruct (Hno l r)|done].
Qed.

(** ** A machine *)

(** A host bridge over a space of registers, each with its own writable bits. *)

Section Sim.
Variable kept_by : Z -> Z -> Z -> Z -> Z.

Record bridge := HostBridge { latch : Z; registers : Z -> Z -> Z }.
Definition latched_fn (s : bridge) : Z := (latch s - 0x80000000) / 256.
Definition latched_reg (s : bridge) : Z := latch s mod 256.

#[export] Instance bridge_ports : PortIO bridge := {
  outl port v s :=
    if port =? 0xCF8 then HostBridge v (registers s)
    else HostBridge (latch s) (fun f r =>
      if decide (f = latched_fn s /\ r = latched_reg s)
      then kept_by (latched_fn s) (latched_reg s) (u32 (registers s (latched_fn s) (latched_reg s))) v else registers s f r);
  inl port s := (u32 (registers s (latched_fn s) (latched_reg s)), s)
}.

Lemma latched_address fn reg : is_u16 fn -> 0 <= reg < 0x100 -> (address_of fn reg - 0x80000000) / 256 = fn /\ address_of fn reg mod 256 = reg.
Proof. unfold address_of, is_u16. intros. Z.div_mod_to_equations. lia. Qed.

#[export, refine] Instance bridge_mechanism : ConfigMechanism bridge := {
  space s f r := u32 (registers s f r);
  keeps f r old v := u32 (kept_by f r old v)
}.
Proof.
  - intros. apply is_u32_u32.
  - intros s fn reg Hf Hr _. destruct (latched_address fn reg Hf Hr) as [E1 E2].
    change (outl 0xCF8 (address_of fn reg) s) with (HostBridge (address_of fn reg) (registers s)).
    cbn [inl bridge_ports]. unfold latched_fn, latched_reg. cbn [latch registers]. by rewrite E1, E2.
  - intros s fn reg v Hf Hr _ _ h' f r. destruct (latched_address fn reg Hf Hr) as [E1 E2]. subst h'.
    change (outl 0xCF8 (address_of fn reg) s) with (HostBridge (address_of fn reg) (registers s)).
    cbn [outl bridge_ports registers]. change (0xCFC =? 0xCF8) with false. cbn [registers]. unfold latched_fn, latched_reg. cbn [latch registers].
    rewrite E1, E2. by destruct (decide _).
Defined.
End Sim.

(** An ivshmem device in slot 3: registers of 256 bytes behind BAR0, 1 MB of memory behind
    BAR2, and a 64-bit MSI capability behind another one. *)
Definition demo_kept (f r old v : Z) : Z :=
  if (f =? 24) && (r =? 0x10) then 2 ^ 8 * (v / 2 ^ 8) + old mod 16
  else if (f =? 24) && (r =? 0x18) then 2 ^ 20 * (v / 2 ^ 20) + old mod 16
  else if r =? 0 then old else v.
Definition demo_registers (f r : Z) : Z :=
  if negb (f =? 24) then 0xFFFFFFFF
  else if r =? 0x00 then 0x11101AF4
  else if r =? 0x04 then 0x00100000
  else if r =? 0x10 then 0xFEB01000
  else if r =? 0x18 then 0xFE80000C
  else if r =? 0x34 then 0x40
  else if r =? 0x40 then 0x00006010
  else if r =? 0x60 then 0x00800005
  else 0.
Definition demo_bridge : bridge := HostBridge 0 demo_registers.
#[local] Instance demo_ports : PortIO bridge := bridge_ports demo_kept.
#[local] Instance demo_mechanism : ConfigMechanism bridge := bridge_mechanism demo_kept.
Definition demo_dev : pci_device_t := PciDevice 0 3 0 0x1AF4 0x1110.

Lemma demo_dev_ok : dev_ok demo_dev.
Proof. unfold dev_ok, fn_ok, is_u8. cbn. lia. Qed.

Lemma pci_find_first_witness : exists h', pci_find_device 0x1AF4 0x1110 demo_bridge = (Some demo_dev, h') /\ same_space demo_bridge h'.
Proof.
  assert (E : fst (pci_find_device 0x1AF4 0x1110 demo_bridge) = Some demo_dev) by (vm_compute; reflexivity).
  pose proof (pci_find_first demo_bridge 0x1AF4 0x1110 ltac:(done) ltac:(done)) as Ht.
  destruct (pci_find_device 0x1AF4 0x1110 demo_bridge) as [r h']. destruct Ht as [Hs _]. exists h'. split; [|exact Hs]. by rewrite <- E.
Defined.

Lemma pci_bar_size_witness : exists h', pci_get_bar demo_dev 2 demo_bridge = (0xFE800000, 0x100000, h') /\ same_space demo_bridge h'.
Proof.
  pose proof (pci_bar_size demo_bridge demo_dev 2 demo_dev_ok ltac:(lia)) as Ht.
  destruct (pci_get_bar demo_dev 2 demo_bridge) as [[base size] h']. destruct Ht as [Ht _].
  destruct (Ht 20 0xFE8 0xC) as (-> & -> & Hs); [|reflexivity|lia|by exists h'].
  split; [lia|]. intros old v Hv. change (u32 (2 ^ 20 * (v / 2 ^ 20) + old mod 16) = 2 ^ 20 * (v / 2 ^ 20) + old mod 16).
  apply u32_small. unfold is_u32 in *. change (2 ^ 20) with 0x100000. Z.div_mod_to_equations. lia.
Defined.

Lemma pci_msi_witness :
  exists h', pci_enable_msi 255 demo_dev 50 1 demo_bridge = Some (0, h') /\ programmed demo_bridge h' demo_dev 0x60 50 1.
Proof.
  destruct (pci_msi demo_bridge demo_dev 50 1 demo_dev_ok ltac:(done) ltac:(done)) as [_ Ht].
  destruct (Ht ltac:(vm_compute; reflexivity)) as (_ & Hq & _).
  apply (Hq [0x40; 0x60] 0x60 255%nat); [|done|lia|lia].
  apply caps_next; [done|vm_compute; discriminate|]. apply caps_msi; [done|]. by vm_compute.
Defined.
