(* ===== verification/Ivshmem.v ===== *)
(** kernel/drivers/ivshmem.c, with the local APIC of arch/x86_64/apic.c and the two
    platforms it is built for: finding the shared-memory device, mapping its memory
    and setting up its interrupt.

    The driver meets the machine through three interfaces: ports ([PortIO], of Pci),
    device memory ([Mmio]: a load or store of a word at an address) and the platform
    ([Platform]: mapping pages, the handler of a vector, the mask of a line).  The
    i386 kernel implements the platform with its virtual memory and interrupt
    controllers; the x86_64 kernel with the stubs of arch/x86_64/stubs.c, which do
    nothing.  Function pointers are addresses, 0 for NULL.

    The theorems: a plain device's memory is found and mapped at 0xE0000000; a
    doorbell device gets its vector and identity mapping. *)

From S2P Require Import Prelude Mem Trace Interrupts Pmm Vmm Pci.

Class Mmio (M : Type) := {
  rd32 : Z -> M -> Z * M;
  wr32 : Z -> Z -> M -> M
}.

Class Platform (P : Type) := {
  map_range : Z -> Z -> Z -> Z -> P -> Z * P;   (* virtual, physical, size, flags *)
  set_vector : Z -> Z -> P -> P;                (* vector, handler *)
  unmask_irq : Z -> P -> P
}.

(** ** The platforms *)

Record i386 (W : Type) := I386 { pf_vmm : vmm W; pf_pic : pic; pf_idt : idt_state }.
Arguments I386 {W}.
Arguments pf_vmm {W}.
Arguments pf_pic {W}.
Arguments pf_idt {W}.
#[export] Instance eta_i386 W : Eta (i386 W) := fun p => I386 (pf_vmm p) (pf_pic p) (pf_idt p).

#[export] Instance i386_platform {W} `{Trace W} : Platform (i386 W) := {
  map_range va pa size flags p := let '(r, v) := vmm_map_range va pa size flags (pf_vmm p) in (r, p{{ pf_vmm := v }});
  set_vector vector handler p := p{{ pf_idt ::= idt_register_handler vector handler }};
  unmask_irq irq p := p{{ pf_pic ::= pic_unmask_irq irq }}
}.

(** stubs.c. *)
Definition stub_map_range (v p len flags : Z) : Z := 0.
#[export] Instance x86_64_platform : Platform unit := {
  map_range v p len flags s := (stub_map_range v p len flags, s);
  set_vector _ _ s := s;
  unmask_irq _ s := s
}.

(** ** arch/x86_64/apic.c *)

Definition LAPIC_ID : Z := 0x020.
Definition LAPIC_EOI : Z := 0x0B0.
Definition LAPIC_SVR : Z := 0x0F0.
Definition APIC_SVR_ENABLE : Z := 0x100.
Definition IA32_APIC_BASE_MSR_ENABLE : Z := 0x800.

Section Lapic.
Context {M : Type} `{Mmio M}.
Variable lapic_base : Z.

Definition lapic_read (reg : Z) : M -> Z * M := rd32 (lapic_base + reg).
Definition lapic_write (reg value : Z) : M -> M := wr32 (lapic_base + reg) value.
Definition lapic_eoi : M -> M := lapic_write LAPIC_EOI 0.
Definition lapic_get_id (m : M) : Z * M :=
  let '(v, m) := lapic_read LAPIC_ID m in (Z.land (Z.shiftr v 24) 0xFF, m).
End Lapic.

(** The base register's value gives the new [lapic_base] and what is written back to it. *)
Definition lapic_init {M} `{Mmio M} (apic_msr : Z) (m : M) : Z * Z * M :=
  let phys_base := Z.land apic_msr 0xFFFFF000 in
  let msr := Z.lor apic_msr IA32_APIC_BASE_MSR_ENABLE in
  let m := lapic_write phys_base LAPIC_SVR (Z.lor 0xFF APIC_SVR_ENABLE) m in
  let '(_, m) := lapic_get_id phys_base m in
  (phys_base, msr, m).

(** ** The driver *)

Definition IVSHMEM_VENDOR_ID : Z := 0x1AF4.
Definition IVSHMEM_DEVICE_ID : Z := 0x1110.
Definition IVSHMEM_VIRT_START : Z := 0xE0000000.
Definition IVSHMEM_MMR_VIRT : Z := 0xE1000000.
Definition IVSHMEM_REG_INTRMASK : Z := 0x00.
Definition IVSHMEM_REG_INTRSTATUS : Z := 0x04.
Definition IVSHMEM_REG_IVPOSITION : Z := 0x08.
Definition IVSHMEM_REG_DOORBELL : Z := 0x0C.

Record ivshmem (H P M : Type) := Ivshmem {
  iv_host : H;
  iv_plat : P;
  iv_mmio : M;
  ivshmem_phys_base : Z;
  ivshmem_size : Z;
  ivshmem_virt_base : Z;
  ivshmem_irq : Z;
  ivshmem_use_msi : Z;
  ivshmem_mmr_base : Z;
  ivshmem_mmr_size : Z;
  ivshmem_callback : Z
}.
Arguments Ivshmem {H P M}.
Arguments iv_host {H P M}.
Arguments iv_plat {H P M}.
Arguments iv_mmio {H P M}.
Arguments ivshmem_phys_base {H P M}.
Arguments ivshmem_size {H P M}.
Arguments ivshmem_virt_base {H P M}.
Arguments ivshmem_irq {H P M}.
Arguments ivshmem_use_msi {H P M}.
Arguments ivshmem_mmr_base {H P M}.
Arguments ivshmem_mmr_size {H P M}.
Arguments ivshmem_callback {H P M}.
#[export] Instance eta_ivshmem H P M : Eta (ivshmem H P M) := fun s =>
  Ivshmem (iv_host s) (iv_plat s) (iv_mmio s) (ivshmem_phys_base s) (ivshmem_size s) (ivshmem_virt_base s) (ivshmem_irq s)
    (ivshmem_use_msi s) (ivshmem_mmr_base s) (ivshmem_mmr_size s) (ivshmem_callback s).

Section Driver.
Context {H P M : Type} `{PortIO H} `{Platform P} `{Mmio M}.
(** The local APIC, and the address of [ivshmem_isr_handler]. *)
Variables (lapic_base isr : Z).
Implicit Types s : ivshmem H P M.

Definition store (a v : Z) s : ivshmem H P M := s{{ iv_mmio ::= wr32 a v }}.
Definition load (a : Z) s : Z * ivshmem H P M := let '(v, m) := rd32 a (iv_mmio s) in (v, s{{ iv_mmio := m }}).
Definition map_pages_at (va pa size flags : Z) s : Z * ivshmem H P M :=
  let '(r, p) := map_range va pa size flags (iv_plat s) in (r, s{{ iv_plat := p }}).
Definition read_config_of (d : pci_device_t) (off : Z) s : Z * ivshmem H P M :=
  let '(v, h) := pci_read_config_32 (bus d) (slot d) (func d) off (iv_host s) in (v, s{{ iv_host := h }}).
Definition write_config_of (d : pci_device_t) (off v : Z) s : ivshmem H P M :=
  s{{ iv_host ::= pci_write_config_32 (bus d) (slot d) (func d) off v }}.

(** The callback that is called, if any. *)
Definition ivshmem_isr_handler s : option Z * ivshmem H P M :=
  let s := if negb (ivshmem_mmr_base s =? 0) then snd (load (ivshmem_mmr_base s + IVSHMEM_REG_INTRSTATUS) s) else s in
  let called := if ivshmem_callback s =? 0 then None else Some (ivshmem_callback s) in
  (called, if negb (ivshmem_use_msi s =? 0) then s{{ iv_mmio ::= lapic_eoi lapic_base }} else s).
Definition ivshmem_set_callback (cb : Z) s : ivshmem H P M := s{{ ivshmem_callback := cb }}.

(** The test of the mapped memory. *)
Definition memory_test s : ivshmem H P M :=
  let s := store (ivshmem_virt_base s) 0xCAFEBABE s in
  let '(v, s) := load (ivshmem_virt_base s) s in
  if v =? 0xCAFEBABE then store (ivshmem_virt_base s) 0 s else snd (load (ivshmem_virt_base s) s).

(** ivshmem-plain: BAR0 is the memory. *)
Definition attach_plain (bar0 bar0_size : Z) s : ivshmem H P M :=
  let s := s{{ ivshmem_mmr_base := 0; ivshmem_mmr_size := 0; ivshmem_phys_base := bar0; ivshmem_size := bar0_size }} in
  let '(r, s) := map_pages_at IVSHMEM_VIRT_START (ivshmem_phys_base s) (ivshmem_size s) 0x13 s in
  if negb (r =? 0) then s
  else memory_test (s{{ ivshmem_virt_base := IVSHMEM_VIRT_START }}).

(** ivshmem-doorbell: BAR0 is its registers. *)
Definition attach_mmr (bar0 bar0_size : Z) s : ivshmem H P M :=
  if negb (bar0 =? 0) && (0 <? bar0_size) then
    let '(r, s) := map_pages_at IVSHMEM_MMR_VIRT bar0 bar0_size (Z.lor (Z.lor 0x1 0x2) 0x10) s in
    if r =? 0 then
      store (IVSHMEM_MMR_VIRT + IVSHMEM_REG_INTRMASK) 0 (s{{ ivshmem_mmr_base := IVSHMEM_MMR_VIRT; ivshmem_mmr_size := bar0_size }})
    else s
  else s.

Definition try_msi (fuel : nat) (d : pci_device_t) s : option (ivshmem H P M) :=
  let '(id, m) := lapic_get_id lapic_base (iv_mmio s) in
  let s := s{{ iv_mmio := m }} in
  '(r, h) ← pci_enable_msi fuel d 50 (u8 id) (iv_host s);
  let s := s{{ iv_host := h }} in
  Some (if r =? 0 then s{{ iv_plat ::= set_vector 50 isr; ivshmem_irq := 50; ivshmem_use_msi := 1 }}
        else s{{ ivshmem_irq := 0; ivshmem_use_msi := 0 }}).

Definition legacy_irq (d : pci_device_t) s : ivshmem H P M :=
  if ivshmem_irq s =? 0 then
    let '(irq_reg, s) := read_config_of d 0x3C s in
    let s := s{{ ivshmem_irq := Z.land irq_reg 0xFF }} in
    let irq := ivshmem_irq s in
    if (0 <? irq) && (irq <? 16) && negb (irq =? 0xFF) then
      s{{ iv_plat ::= fun p => unmask_irq irq (set_vector (32 + irq) isr p) }}
    else s
  else s.

Definition fix_bar2 (d : pci_device_t) s : ivshmem H P M :=
  let s := write_config_of d 0x18 0xA0000000 s in
  let s := write_config_of d 0x1C 0 s in
  let '(_, s) := read_config_of d 0x18 s in
  let '(cmd, s) := read_config_of d 0x04 s in
  write_config_of d 0x04 (Z.lor cmd 0x06) s.

Definition attach_bar2 (d : pci_device_t) s : ivshmem H P M :=
  let '(bar2, size_mask, h) := pci_get_bar d 2 (iv_host s) in
  let s := s{{ iv_host := h }} in
  let '(bar2, s) := if bar2 =? 0 then (0xA0000000, fix_bar2 d s) else (bar2, s) in
  let s := s{{ ivshmem_phys_base := bar2; ivshmem_size := size_mask }} in
  let s := s{{ ivshmem_virt_base := ivshmem_phys_base s }} in
  snd (map_pages_at (ivshmem_virt_base s) (ivshmem_phys_base s) (ivshmem_size s) 0x03 s).

(** [None]: the walk of the capability list does not end. *)
Definition ivshmem_init (fuel : nat) s : option (ivshmem H P M) :=
  let '(found, h) := pci_find_device IVSHMEM_VENDOR_ID IVSHMEM_DEVICE_ID (iv_host s) in
  let s := s{{ iv_host := h }} in
  match found with
  | None => Some s
  | Some d =>
    let '(bar0, bar0_size, h) := pci_get_bar d 0 (iv_host s) in
    let s := s{{ iv_host := h }} in
    if 4096 <=? bar0_size then Some (attach_plain bar0 bar0_size s)
    else
      let s := attach_mmr bar0 bar0_size s in
      s ← try_msi fuel d s;
      Some (attach_bar2 d (legacy_irq d s))
  end.

Definition ivshmem_get_shared_memory s : Z := ivshmem_virt_base s.
Definition ivshmem_get_size s : Z := ivshmem_size s.
Definition ivshmem_get_irq s : Z := ivshmem_irq s.
Definition ivshmem_get_peer_id s : Z * ivshmem H P M :=
  if ivshmem_mmr_base s =? 0 then (0, s) else load (ivshmem_mmr_base s + IVSHMEM_REG_IVPOSITION) s.
Definition ivshmem_ring_doorbell (peer_id vector : Z) s : ivshmem H P M :=
  if ivshmem_mmr_base s =? 0 then s
  else store (ivshmem_mmr_base s + IVSHMEM_REG_DOORBELL) (Z.lor (u32 (Z.shiftl peer_id 16)) (Z.land vector 0xFFFF)) s.
Definition ivshmem_has_doorbell s : Z := Z.b2z (negb (ivshmem_mmr_base s =? 0)).
End Driver.

(** ** A plain device under i386 *)

Section Plain.
Context {H : Type} `{ConfigMechanism H} {P : Type} `{Platform P} {M : Type} `{Mmio M}.
Context (lapic_base isr : Z).
Implicit Types s : ivshmem H P M.

(** The memory of the window answers like memory. *)
Definition ram_at (a : Z) : Prop := forall v (m : M), is_u32 v -> fst (rd32 a (wr32 a v m)) = v.
(** A word written, read back and cleared. *)
Definition tested (a : Z) (m : M) : M := wr32 a 0 (snd (rd32 a (wr32 a 0xCAFEBABE m))).

Lemma memory_test_ram s :
  ram_at (ivshmem_virt_base s) -> memory_test s = s{{ iv_mmio ::= tested (ivshmem_virt_base s) }}.
Proof.
  intros Hr. unfold memory_test, load, store. cbn [iv_mmio ivshmem_virt_base].
  pose proof (Hr 0xCAFEBABE (iv_mmio s) ltac:(done)) as E.
  change (iv_mmio (s{{ iv_mmio ::= wr32 (ivshmem_virt_base s) 0xCAFEBABE }})) with (wr32 (ivshmem_virt_base s) 0xCAFEBABE (iv_mmio s)).
  change (ivshmem_virt_base (s{{ iv_mmio ::= wr32 (ivshmem_virt_base s) 0xCAFEBABE }})) with (ivshmem_virt_base s).
  unfold tested. destruct s as [h p m]. cbn [iv_mmio ivshmem_virt_base] in *. cbn. cbn in E.
  destruct (rd32 _ _) as [x m1]. cbn in E |- *. by subst x.
Qed.

(** What the device's registers say: the first function with the ids, a memory region of
    [2 ^ k] bytes at [base] behind BAR0. *)
Record plain_device (h : H) (d : pci_device_t) (k base t : Z) : Prop := {
  pd_found : fst (pci_find_device IVSHMEM_VENDOR_ID IVSHMEM_DEVICE_ID h) = Some d;
  pd_bar : memory_bar (H := H) k (dev_fn d) PCI_REGISTER_BAR0;
  pd_value : space h (dev_fn d) PCI_REGISTER_BAR0 = base + t;
  pd_base : 0 <= t < 16 /\ base mod 2 ^ k = 0
}.

Lemma found_dev_ok h vendor device d :
  is_u16 vendor -> is_u16 device -> fst (pci_find_device vendor device h) = Some d ->
  dev_ok d /\ exists h', pci_find_device vendor device h = (Some d, h') /\ same_space h h'.
Proof.
  intros Hv Hd Hf. pose proof (find_slot_spec 32 0 vendor device h ltac:(lia) ltac:(lia) Hv Hd) as E. fold (pci_find_device vendor device h) in E.
  destruct (pci_find_device vendor device h) as [r h']. cbn [fst] in Hf. subst r. destruct E as [Es (s & f & -> & Hs & Hf & _)].
  split; [|by exists h']. unfold dev_ok, fn_ok, is_u8. cbn [bus slot func]. lia.
Qed.

(** The driver on a plain device, before the mapping. *)
Lemma init_plain fuel s d k base t :
  plain_device (iv_host s) d k base t -> 12 <= k < 32 ->
  exists h, same_space (iv_host s) h /\ ivshmem_init lapic_base isr fuel s = Some (attach_plain base (2 ^ k) (s{{ iv_host := h }})).
Proof.
  intros [Hf Hb Hv [Ht Hm]] Hk. destruct (found_dev_ok (iv_host s) IVSHMEM_VENDOR_ID IVSHMEM_DEVICE_ID d ltac:(done) ltac:(done) Hf) as (Hd & h1 & E1 & S1).
  unfold ivshmem_init. rewrite E1. cbv zeta. change (iv_host (s{{ iv_host := h1 }})) with h1.
  destruct (get_bar_memory h1 d 0 k (base / 2 ^ k) t Hd ltac:(lia) Hb) as (h2 & E2 & S2); [|done|].
  { change (PCI_REGISTER_BAR0 + 4 * 0) with PCI_REGISTER_BAR0. rewrite S1, Hv. f_equal. pose proof (Z.div_mod base (2 ^ k)). lia. }
  assert (Eb : 2 ^ k * (base / 2 ^ k) = base) by (pose proof (Z.div_mod base (2 ^ k)); lia). rewrite Eb in E2. rewrite E2.
  pose proof (Z.pow_le_mono_r 2 12 k ltac:(lia) ltac:(lia)) as Hp. change (2 ^ 12) with 4096 in Hp.
  rewrite (proj2 (Z.leb_le 4096 (2 ^ k))) by lia. exists h2. split; [by transitivity h1|done].
Qed.

Lemma bar_range h d k base t : plain_device h d k base t -> 12 <= k < 32 -> 0 <= base /\ base mod 4096 = 0 /\ base + 2 ^ k <= 0x100000000.
Proof.
  intros [_ _ Hv [Ht Hm]] Hk. pose proof (space_u32 h (dev_fn d) PCI_REGISTER_BAR0) as Hu. rewrite Hv in Hu. unfold is_u32 in Hu.
  assert (H12 : 2 ^ k = 4096 * 2 ^ (k - 12)) by (change 4096 with (2 ^ 12); rewrite <- Z.pow_add_r by lia; f_equal; lia).
  assert (H32 : 0x100000000 = 2 ^ k * 2 ^ (32 - k)) by (rewrite <- Z.pow_add_r by lia; change 0x100000000 with (2 ^ 32); f_equal; lia).
  pose proof (Z.pow_pos_nonneg 2 k ltac:(lia) ltac:(lia)) as Hp. pose proof (Z.div_mod base (2 ^ k) ltac:(lia)) as Eb. rewrite Hm in Eb.
  set (q := base / 2 ^ k) in *. clearbody q.
  assert (Hb0 : 0 <= base) by nia. split; [done|]. split.
  - rewrite Eb, H12, Z.add_0_r, <- Z.mul_assoc, Z.mul_comm. apply Z.mod_mul. lia.
  - assert (q < 2 ^ (32 - k)) by nia. nia.
Qed.
End Plain.

(** C14: attaching a plain device.  When the first function with the ids of ivshmem has
    a memory region of 4 KB to 256 MB behind BAR0, [ivshmem_init] of the i386 kernel
    leaves the configuration space and the interrupts alone and either fails for
    lack of pages for the tables, without offering a window, or offers 0xE0000000:
    from there on the region is mapped page by page, uncached and writable, and its
    first word, which the driver tests, is left 0. *)
Theorem ivshmem_plain {H} `{ConfigMechanism H} {W} `{Trace W} {M} `{Mmio M} (lapic_base isr : Z) (fuel : nat)
    (s : ivshmem H (i386 W) M) (d : pci_device_t) (k base t : Z) :
  plain_device (iv_host s) d k base t -> 12 <= k <= 28 -> vmm_ok (pf_vmm (iv_plat s)) ->
  (forall i, 0 <= i < 2 ^ (k - 12) -> is_large (translate (pf_vmm (iv_plat s)) (0xE0000000 + 4096 * i)) = false) ->
  ram_at (M := M) 0xE0000000 ->
  exists s', ivshmem_init lapic_base isr fuel s = Some s' /\ same_space (iv_host s) (iv_host s') /\
    vmm_ok (pf_vmm (iv_plat s')) /\ pf_pic (iv_plat s') = pf_pic (iv_plat s) /\ pf_idt (iv_plat s') = pf_idt (iv_plat s) /\
    ivshmem_get_irq s' = ivshmem_get_irq s /\ ivshmem_has_doorbell s' = 0 /\ ivshmem_get_size s' = 2 ^ k /\
    ((ivshmem_get_shared_memory s' = 0xE0000000 /\ iv_mmio s' = tested 0xE0000000 (iv_mmio s) /\
      forall va, is_u32 va -> translate (pf_vmm (iv_plat s')) va =
        if decide (0xE0000000 <= va < 0xE0000000 + 2 ^ k)
        then Small (MAKE_PTE (base + 4096 * ((va - 0xE0000000) / 4096)) 0x13) else translate (pf_vmm (iv_plat s)) va) \/
     (ivshmem_get_shared_memory s' = ivshmem_get_shared_memory s /\ iv_mmio s' = iv_mmio s /\
      forall f, 0 <= f -> page_free (v_pmm (pf_vmm (iv_plat s'))) f = false)).
Proof.
  intros Hp Hk Hv Hl Hram. destruct (init_plain lapic_base isr fuel s d k base t Hp ltac:(lia)) as (h & Hs & E). rewrite E.
  destruct (bar_range _ _ _ _ _ Hp ltac:(lia)) as (Hb0 & Hbm & Hbr). eexists. split; [reflexivity|].
  assert (H12 : 2 ^ k = 4096 * 2 ^ (k - 12)) by (change 4096 with (2 ^ 12); rewrite <- Z.pow_add_r by lia; f_equal; lia).
  assert (Hmax : 2 ^ k <= 0x10000000) by (change 0x10000000 with (2 ^ 28); apply Z.pow_le_mono_r; lia).
  pose proof (Z.pow_pos_nonneg 2 (k - 12) ltac:(lia) ltac:(lia)) as Hn.
  pose proof (map_range_pages (pf_vmm (iv_plat s)) 0xE0000000 base (2 ^ (k - 12)) 0x13 Hv ltac:(lia) eq_refl Hb0 Hbm Hn
    ltac:(lia) ltac:(lia) ltac:(lia) ltac:(lia) eq_refl Hl) as Hmap. rewrite <- H12 in Hmap.
  unfold attach_plain, map_pages_at. cbv zeta. cbn [iv_plat ivshmem_phys_base ivshmem_size map_range i386_platform].
  match goal with |- context [vmm_map_range ?a ?b ?c ?f ?v] => change (vmm_map_range a b c f v) with (vmm_map_range 0xE0000000 base (2 ^ k) 0x13 (pf_vmm (iv_plat s))) end.
  destruct (vmm_map_range 0xE0000000 base (2 ^ k) 0x13 (pf_vmm (iv_plat s))) as [r v]. destruct Hmap as (Hv' & _ & Hc).
  destruct Hc as [(-> & Ht)|(-> & Hfree)].
  - change (negb (0 =? 0)) with false. cbv iota. rewrite memory_test_ram by done. split; [exact Hs|]. split; [exact Hv'|].
    do 5 (split; [done|]). left. split; [done|]. split; [done|]. exact Ht.
  - change (negb (-1 =? 0)) with true. cbv iota. split; [exact Hs|]. split; [exact Hv'|]. do 5 (split; [done|]). right. done.
Qed.

(** ** A doorbell device *)

Section Doorbell.
Context {H : Type} `{ConfigMechanism H} {P : Type} `{Platform P} {M : Type} `{Mmio M}.
Context (lapic_base isr : Z).
Implicit Types s : ivshmem H P M.

(** The first MSI capability, if the device has one. *)
Definition msi_cap (h : H) (d : pci_device_t) (r : option Z) : Prop :=
  if lists_caps h d then exists l, cap_list h d (first_cap h d) l r else r = None.

(** The registers below the capabilities. *)
Definition same_header (h h' : H) : Prop := forall f r, r < 0x40 -> space h' f r = space h f r.

(** The MSI capability, if there is one, is programmed, and nothing else written. *)
Definition msi_set (h h' : H) (d : pci_device_t) (r : option Z) (vector dest : Z) : Prop :=
  match r with Some q => programmed h h' d q vector dest | None => same_space h h' end.

Lemma msi_set_same (h1 h1' h2 h2' : H) d r vector dest :
  same_space h1 h2 -> same_space h1' h2' -> msi_set h1 h1' d r vector dest -> msi_set h2 h2' d r vector dest.
Proof.
  intros S S'. destruct r as [q|]; cbn [msi_set]; [by apply programmed_same|].
  intros S1 f x. rewrite (S' f x), (S1 f x). symmetry. apply S.
Qed.

Lemma enable_msi_header (h : H) (d : pci_device_t) (vector dest : Z) (r : option Z) (fuel : nat) :
  dev_ok d -> is_u8 vector -> is_u8 dest -> msi_cap h d r -> (forall q, r = Some q -> q mod 4 = 0 /\ 0x40 <= q <= 0xF0) -> (255 <= fuel)%nat ->
  exists h', pci_enable_msi fuel d vector dest h = Some (match r with Some _ => 0 | None => -1 end, h') /\ same_header h h' /\
    msi_set h h' d r vector dest.
Proof.
  intros Hd Hv Hde Hc Hq Hf. destruct (enable_msi_walk h d vector dest fuel Hd) as (h1 & Hs & E). rewrite E. unfold msi_cap in Hc.
  destruct (lists_caps h d); [|subst r; exists h1; split; [done|]; split; [intros f x _; apply Hs|exact Hs]]. destruct Hc as [l Hl].
  pose proof (cap_list_short h d _ _ Hl) as Hlen.
  destruct (walk_list h d vector dest _ l r h1 fuel Hd (first_cap_u8 h d) Hl Hs ltac:(lia)) as (h' & Hw). destruct r as [q|].
  - destruct Hw as (_ & h2 & S2 & -> & Ew). destruct (Hq q eq_refl) as [Hm Hr]. eexists. split; [exact Ew|].
    pose proof (program_msi_spec d vector dest q h h2 Hd Hv Hde ltac:(lia) Hm S2) as Hp.
    split; [|exact Hp]. intros f x Hx. apply (pg_rest _ _ _ _ _ _ Hp). lia.
  - destruct Hw as [Ew S2]. exists h'. split; [exact Ew|]. split; [|exact S2]. intros f x _. apply S2.
Qed.

(** What each part does to the platform, and which line the device got. *)
Definition mmr_platform (bar0 size : Z) (p : P) : P :=
  if bar0 =? 0 then p else snd (map_range IVSHMEM_MMR_VIRT bar0 size 0x13 p).
Definition device_irq (h : H) (d : pci_device_t) (r : option Z) : Z :=
  match r with Some _ => 50 | None => Z.land (space h (dev_fn d) 0x3C) 0xFF end.
Definition irq_platform (r : option Z) (irq : Z) (p : P) : P :=
  match r with
  | Some _ => set_vector 50 isr p
  | None => if (0 <? irq) && (irq <? 16) then unmask_irq irq (set_vector (32 + irq) isr p) else p
  end.

Lemma attach_mmr_spec bar0 size s :
  0 < size -> let s' := attach_mmr bar0 size s in iv_host s' = iv_host s /\ iv_plat s' = mmr_platform bar0 size (iv_plat s).
Proof.
  intros Hsz. cbv zeta. unfold attach_mmr, mmr_platform. rewrite (proj2 (Z.ltb_lt 0 size)) by done. rewrite andb_true_r.
  destruct (bar0 =? 0); [done|]. cbn [negb]. unfold map_pages_at. change (Z.lor (Z.lor 1 2) 16) with 0x13.
  destruct (map_range IVSHMEM_MMR_VIRT bar0 size 0x13 (iv_plat s)) as [r p]. by destruct (r =? 0).
Qed.

Lemma attach_mmr_mmio bar0 size s s' :
  iv_plat s' = iv_plat s -> iv_mmio s' = iv_mmio s -> iv_mmio (attach_mmr bar0 size s') = iv_mmio (attach_mmr bar0 size s).
Proof.
  intros Ep Em. unfold attach_mmr, map_pages_at. rewrite Ep. destruct (_ && _); [|done].
  destruct (map_range _ _ _ _ _) as [r p]. destruct (r =? 0); [|done]. destruct s, s'. cbn in *. by subst.
Qed.

Lemma setup_irq_spec fuel d r s :
  dev_ok d -> msi_cap (iv_host s) d r -> (forall q, r = Some q -> q mod 4 = 0 /\ 0x40 <= q <= 0xF0) -> (255 <= fuel)%nat ->
  exists s1, try_msi lapic_base isr fuel d s = Some s1 /\ let s' := legacy_irq isr d s1 in
    same_header (iv_host s) (iv_host s') /\
    msi_set (iv_host s) (iv_host s') d r 50 (u8 (fst (lapic_get_id lapic_base (iv_mmio s)))) /\
    ivshmem_irq s' = device_irq (iv_host s) d r /\
    iv_plat s' = irq_platform r (device_irq (iv_host s) d r) (iv_plat s) /\
    ivshmem_use_msi s' = match r with Some _ => 1 | None => 0 end.
Proof.
  intros Hd Hc Hq Hf. unfold try_msi. destruct (lapic_get_id lapic_base (iv_mmio s)) as [id m].
  change (iv_host (s{{ iv_mmio := m }})) with (iv_host s).
  destruct (enable_msi_header (iv_host s) d 50 (u8 id) r fuel Hd ltac:(done) ltac:(apply is_u8_u8) Hc Hq Hf) as (h & -> & Hs & Hms).
  cbn [mbind option_bind fst]. eexists. split; [reflexivity|]. destruct r as [q|]; [done|].
  change (-1 =? 0) with false. cbv iota zeta. unfold legacy_irq. cbn [ivshmem_irq]. change (ivshmem_irq _ =? 0) with true. cbv iota.
  unfold read_config_of. pose proof (read_config _ _ _ 0x3C h Hd ltac:(done)) as E. change (register 0x3C) with 0x3C in E. fold (dev_fn d) in E.
  match goal with |- context [pci_read_config_32 ?a ?b ?c ?o ?x] => change x with h end.
  destruct (pci_read_config_32 _ _ _ _ h) as [v h2]. destruct E as [-> S2]. rewrite (Hs (dev_fn d) 0x3C) by lia.
  unfold device_irq, irq_platform. set (irq := Z.land (space (iv_host s) (dev_fn d) 0x3C) 0xFF).
  cbn [ivshmem_irq]. match goal with |- context [(0 <? ?x) && (?x <? 16) && negb (?x =? 255)] => change x with irq end.
  assert (Hs2 : same_header (iv_host s) h2) by (intros f x Hx; rewrite (S2 f x); by apply Hs).
  assert (Hm2 : same_space (iv_host s) h2) by (by transitivity h). cbn [msi_set].
  destruct (Z.ltb_spec 0 irq), (Z.ltb_spec irq 16); cbn [andb]; try done.
  rewrite (proj2 (Z.eqb_neq irq 255)) by lia. done.
Qed.

Lemma attach_bar2_spec d k a t s :
  dev_ok d -> memory_bar (H := H) k (dev_fn d) 0x18 -> space (iv_host s) (dev_fn d) 0x18 = 2 ^ k * a + t -> 0 <= t < 16 -> 2 ^ k * a <> 0 ->
  let base := 2 ^ k * a in
  let s' := attach_bar2 d s in
  same_space (iv_host s) (iv_host s') /\ ivshmem_virt_base s' = base /\ ivshmem_phys_base s' = base /\ ivshmem_size s' = 2 ^ k /\
  iv_plat s' = snd (map_range base base (2 ^ k) 0x03 (iv_plat s)) /\ ivshmem_irq s' = ivshmem_irq s /\ ivshmem_use_msi s' = ivshmem_use_msi s.
Proof.
  intros Hd Hb Hv Ht Hne. cbv zeta. unfold attach_bar2.
  destruct (get_bar_memory (iv_host s) d 2 k a t Hd ltac:(lia) Hb Hv Ht) as (h & -> & Hs).
  rewrite (proj2 (Z.eqb_neq (2 ^ k * a) 0)) by done. unfold map_pages_at. cbn [iv_plat ivshmem_virt_base ivshmem_phys_base ivshmem_size].
  match goal with |- context [map_range ?x ?y ?z 3 ?p] => change (map_range x y z 3 p) with (map_range (2 ^ k * a) (2 ^ k * a) (2 ^ k) 3 (iv_plat s)) end.
  by destruct (map_range (2 ^ k * a) (2 ^ k * a) (2 ^ k) 3 (iv_plat s)) as [r p].
Qed.
End Doorbell.


(** ** The examples *)

(** Device memory that is plain memory. *)
#[export] Instance mem_mmio : Mmio mem := { rd32 a m := (ld32 m a, m); wr32 a v m := st32 m a v }.

Lemma mem_ram a : ram_at (M := mem) a.
Proof. intros v m Hv. change (ld32 (st32 m a v) a = v). apply ld_st_eq. unfold is_u32 in Hv. cbn. lia. Qed.

Definition power_on {H P M} (h : H) (p : P) (m : M) : ivshmem H P M := Ivshmem h p m 0 0 0 0 0 0 0 0.

Definition plain_kept (f r old v : Z) : Z := if (f =? 24) && (r =? 0x10) then 2 ^ 20 * (v / 2 ^ 20) + old mod 16 else if r =? 0 then old else v.
Definition plain_registers (f r : Z) : Z :=
  if negb (f =? 24) then 0xFFFFFFFF else if r =? 0x00 then 0x11101AF4 else if r =? 0x10 then 0xFE800008 else 0.
Definition plain_bridge : bridge := HostBridge 0 plain_registers.

Lemma region_20 old v : is_u32 v -> u32 (2 ^ 20 * (v / 2 ^ 20) + old mod 16) = 2 ^ 20 * (v / 2 ^ 20) + old mod 16.
Proof. intros Hv. apply u32_small. unfold is_u32 in *. change (2 ^ 20) with 0x100000. Z.div_mod_to_equations. lia. Qed.
Lemma region_8 old v : is_u32 v -> u32 (2 ^ 8 * (v / 2 ^ 8) + old mod 16) = 2 ^ 8 * (v / 2 ^ 8) + old mod 16.
Proof. intros Hv. apply u32_small. unfold is_u32 in *. change (2 ^ 8) with 0x100. Z.div_mod_to_equations. lia. Qed.

Section PlainExample.
#[local] Instance plain_ports : PortIO bridge := bridge_ports plain_kept.
#[local] Instance plain_mechanism : ConfigMechanism bridge := bridge_mechanism plain_kept.

Lemma plain_example : plain_device plain_bridge demo_dev 20 0xFE800000 8.
Proof.
  split; [vm_compute; reflexivity| |vm_compute; reflexivity|split; [lia|vm_compute; reflexivity]].
  split; [lia|]. intros old v Hv. exact (region_20 old v Hv).
Qed.
End PlainExample.

Lemma ivshmem_plain_witness :
  exists (v : vmm (list trace_rec)) s', vmm_ok v /\
    @ivshmem_init bridge (i386 (list trace_rec)) mem (bridge_ports plain_kept) _ _ 0 0 255 (power_on plain_bridge (I386 v (Pic demo_8259 [] (replicate 16 0) 0 0) (IdtState [] [] 0 false)) ∅) = Some s' /\
    ivshmem_get_size s' = 0x100000.
Proof.
  destruct demo_vmm as (v & Hv & _ & _ & _ & Hm). set (s := power_on plain_bridge (I386 v (Pic demo_8259 [] (replicate 16 0) 0 0) (IdtState [] [] 0 false)) (∅ : mem)).
  destruct (@ivshmem_plain bridge (bridge_ports plain_kept) (bridge_mechanism plain_kept) (list trace_rec) _ mem _ 0 0 255%nat s demo_dev 20 0xFE800000 8)
    as (s' & E & _ & _ & _ & _ & _ & _ & Hs & _); [exact plain_example|lia|exact Hv| |apply mem_ram|].
  - intros i _. unfold translate. cbn [s iv_plat power_on pf_vmm]. by rewrite Hm.
  - exists v, s'. split; [exact Hv|]. split; [exact E|exact Hs].
Defined.

