(* ===== verification/Syscall.v ===== *)
(** kernel/arch/syscall.c: the system calls of vector 0x80 (i386).

    The state joins the kernel's machine (memory, directory, processes) with the
    shared heap, the descriptor table and the static [next_map_addr] of
    [sys_map_tensor]; [sy_out] is what the calls write on the console.  A handler
    returns to its caller, spins in [sys_exit]'s loop, or takes a page fault in the
    kernel ([Faulted]).  A byte of a user string is read through the translation in
    force: from RAM as the kernel maps it, or from a [device].

    The theorems: a tensor's blob appears in the user's space, at its offset in the
    page; [sys_log] prints whatever is mapped at the pointer; a process that exits
    keeps its turns. *)

From S2P Require Import Prelude Mem Trace Bitmap Interrupts IpcProto SharedHeap Pmm Vmm Console Gdt Process Keyboard.

(** [interrupt_frame_t] of arch/idt.h: the offsets of the registers. *)
Definition interrupt_frame_t : cstruct :=
  [f32 "ds"; f32 "edi"; f32 "esi"; f32 "ebp"; f32 "esp_dummy"; f32 "ebx"; f32 "edx"; f32 "ecx"; f32 "eax";
   f32 "int_no"; f32 "err_code"; f32 "eip"; f32 "cs"; f32 "eflags"; f32 "user_esp"; f32 "user_ss"].
Abbreviation F_ebx := 20.
Abbreviation F_eax := 32.

Lemma frame_layout :
  sizeof interrupt_frame_t = 64 /\ zget (offsets interrupt_frame_t 0) 5 = F_ebx /\ zget (offsets interrupt_frame_t 0) 8 = F_eax.
Proof. done. Qed.

Record sys (W : Type) := Sys {
  sy_heap : heap;
  sy_machine : machine W;
  sy_idt : idt_state;
  next_map_addr : Z;
  sy_out : list Z
}.
Arguments Sys {W}.
Arguments sy_heap {W}.
Arguments sy_machine {W}.
Arguments sy_idt {W}.
Arguments next_map_addr {W}.
Arguments sy_out {W}.
#[export] Instance sys_eta W : Eta (sys W) := fun s =>
  Sys (sy_heap s) (sy_machine s) (sy_idt s) (next_map_addr s) (sy_out s).

(** At boot the static holds its initialiser. *)
Definition sys_boot {W} (h : heap) (m : machine W) (d : idt_state) : sys W := Sys h m d 0x80000000 [].

Definition sy_vmm {W} (s : sys W) : vmm W := k_vmm (sy_machine s).
Definition say {W} (l : list Z) (s : sys W) : sys W := s{{ sy_out ::= fun o => o ++ l }}.

Inductive outcome (W : Type) :=
  | Returned (s : sys W)
  | Spinning (s : sys W)
  | Faulted (s : sys W).
Arguments Returned {W}.
Arguments Spinning {W}.
Arguments Faulted {W}.

Section Syscalls.
Context {W : Type} `{Trace W}.
Implicit Types s : sys W.
(** Physical memory that is not RAM; the addresses [schedule] returns to; the
    address of [syscall_handler]. *)
Variable device : Z -> Z.
Variables tss_at after_call after_switch syscall_handler_at : Z.

Definition phys_byte (pa : Z) s : Z :=
  if pa <? PAGE_SIZE * PMM_MAX_PAGES then ldb (k_mem (sy_machine s)) (phys_to_virt pa) else device pa.

(** A byte loaded by the processor; [None] is a page fault. *)
Definition byte_at (va : Z) s : option Z :=
  match translate (sy_vmm s) va with
  | Unmapped => None
  | Small pte => Some (phys_byte (PTE_ADDR pte + va mod 0x1000) s)
  | Large pde => Some (phys_byte (Z.land pde 0xFFC00000 + va mod 0x400000) s)
  end.

(** The characters [console_write] loads from a pointer, and whether it reaches the
    NUL before a page fault. *)
Fixpoint read_string (fuel : nat) (p : Z) s : option (list Z * bool) :=
  match fuel with
  | O => None
  | S fuel =>
    match byte_at p s with
    | None => Some ([], false)
    | Some c => if c =? 0 then Some ([], true) else '(l, ok) ← read_string fuel (p +u 1) s; Some (c :: l, ok)
    end
  end.

Definition sys_map_tensor (blob_id : Z) s : option (Z * sys W) :=
  '(phys_addr, h) ← heap_get_blob_phys (fun va => vmm_virt_to_phys va (sy_vmm s)) blob_id (sy_heap s);
  let s := s{{ sy_heap := h }} in
  if phys_addr =? 0 then Some (0, say (ascii "[syscall] map_tensor: invalid blob" ++ [10]) s)
  else
    '(size, h) ← heap_get_blob_size blob_id (sy_heap s);
    let s := s{{ sy_heap := h }} in
    let vaddr := next_map_addr s in
    let '(r, v) := vmm_map_range vaddr phys_addr size 0x07 (sy_vmm s) in
    let s := s{{ sy_machine ::= on_vmm (fun _ => v) }} in
    if negb (r =? 0) then Some (0, say (ascii "[syscall] map_tensor: map failed" ++ [10]) s)
    else
      let pages := (size +u PAGE_SIZE -u 1) / PAGE_SIZE in
      let s := s{{ next_map_addr ::= fun a => a +u (pages *u PAGE_SIZE) }} in
      Some (vaddr, say (ascii "[syscall] mapped blob " ++ uint_text blob_id ++ ascii " to " ++ [48; 120] ++ hex_text 8 vaddr ++ [10]) s).

Definition sys_yield s : sys W := s{{ sy_machine ::= schedule tss_at after_call after_switch }}.

(** [sys_exit] enters its loop, whose turns are [sys_yield]'s. *)
Definition sys_exit (status : Z) s : outcome W :=
  Spinning (say (ascii "[syscall] sys_exit called. Terminating process." ++ [10]) s).

Definition sys_log (fuel : nat) (msg : Z) s : option (outcome W) :=
  '(l, ok) ← read_string fuel msg s;
  let s := say l (say (ascii "[USER] ") s) in
  Some (if ok : bool then Returned (say [10] s) else Faulted s).

Definition syscall_handler (fuel : nat) (frame : Z) s : option (outcome W) :=
  let syscall_num := rd (sy_machine s) (frame + F_eax) in
  let ebx := rd (sy_machine s) (frame + F_ebx) in
  if syscall_num =? 0 then Some (sys_exit ebx s)
  else if syscall_num =? 1 then sys_log fuel ebx s
  else if syscall_num =? 2 then Some (Returned (sys_yield s))
  else if syscall_num =? 3 then
    '(r, s) ← sys_map_tensor (u16 ebx) s;
    Some (Returned s{{ sy_machine ::= wr (frame + F_eax) r }})
  else Some (Returned (say [10] (say (ascii "[syscall] unknown syscall: ") s))).

Definition syscall_init s : sys W :=
  let s := say (ascii "[syscall] registering syscall handler on vector 128" ++ [10]) s in
  s{{ sy_idt ::= idt_register_handler INT_SYSCALL syscall_handler_at }}.
End Syscalls.

(** ** A tensor in the user's space *)

Lemma small_pte pa flags :
  is_u32 pa -> 0 <= flags < 4096 ->
  4096 * (MAKE_PTE pa flags / 4096) = 4096 * (pa / 4096) /\ PTE_ADDR (MAKE_PTE pa flags) = 4096 * (pa / 4096).
Proof.
  intros Hp Hf. assert (E : MAKE_PTE pa flags = 4096 * (pa / 4096) + flags) by (by apply MAKE_PTE_eq).
  rewrite E. assert (Hu : is_u32 (4096 * (pa / 4096) + flags)) by (unfold is_u32 in *; Z.div_mod_to_equations; lia).
  rewrite PTE_ADDR_eq by done.
  replace (4096 * (pa / 4096) + flags) with (flags + pa / 4096 * 4096) by lia. rewrite Z.div_add by lia. rewrite (Z.div_small flags) by lia. lia.
Qed.

(** Where a live blob's data lies in the heap. *)
Definition data_at (e : blob_entry) : Z := be_offset e + SIZEOF_heap_blob_t.

Lemma data_in_heap h e :
  heap_ok h -> live h e -> let size := blob_size_of h (heap_data h + be_offset e) in
  0 < heap_data h /\ 0 <= data_at e /\ data_at e mod 64 = 32 /\ 0 <= size /\ data_at e + size <= IPC_HEAP_DATA_SIZE /\ data_at e < IPC_HEAP_DATA_SIZE.
Proof.
  intros Hh He. cbv zeta. assert (Heo : entry_ok h e) by by apply live_ok.
  destruct (e_off h e Heo) as [Ho1 Ho2], (e_blocks h e Heo). pose proof (ok_ctl h Hh). pose proof (ok_data h Hh).
  destruct (heap_lookup_live h e Hh He) as (_ & _ & _ & _ & Hfit).
  assert (0 <= blob_size_of h (heap_data h + be_offset e)) by (apply (ld_range 4); apply (ok_mem h Hh)).
  unfold data_at. change SIZEOF_heap_blob_t with 32 in *. change HEAP_BLOCK_SIZE with 64 in *.
  change HEAP_MAX_BLOCKS with (IPC_HEAP_DATA_SIZE / 64) in *. change IPC_HEAP_DATA_SIZE with 0xED000 in *.
  change (0xED000 / 64) with 15168 in *.
  assert (Hm : (be_offset e + 32) mod 64 = 32) by (rewrite Ho2; Z.div_mod_to_equations; lia). lia.
Qed.

Section MapTensor.
Context {W : Type} `{Trace W}.
Implicit Types s : sys W.
Variable device : Z -> Z.

(** The heap's data is a device's memory, pages from [w] on, in small pages. *)
Record window (h : heap) (v : vmm W) (w flags : Z) : Prop := {
  wn_page : w mod 4096 = 0 /\ heap_data h mod 4096 = 0;
  wn_room : PAGE_SIZE * PMM_MAX_PAGES <= w /\ w + IPC_HEAP_DATA_SIZE <= 0x100000000 /\ heap_data h + IPC_HEAP_DATA_SIZE <= 0x100000000;
  wn_flags : 0 <= flags < 4096;
  wn_map : forall x, 0 <= x < IPC_HEAP_DATA_SIZE -> translate v (heap_data h + x) = Small (MAKE_PTE (w + x) flags);
  wn_bytes : forall x, 0 <= x < IPC_HEAP_DATA_SIZE -> device (w + x) = ldb (shm h) (heap_data h + x)
}.

Lemma blob_phys h (v : vmm W) w flags e :
  heap_ok h -> live h e -> vmm_ok v -> window h v w flags ->
  heap_get_blob_phys (fun va => vmm_virt_to_phys va v) (be_blob_id e) h = Some (w + data_at e, h).
Proof.
  intros Hh He Hv [[Hw Hd] (Hr1 & Hr2 & Hr3) Hf Hmap _]. assert (Heo : entry_ok h e) by by apply live_ok.
  destruct (data_in_heap h e Hh He) as (Hp0 & Hd0 & _ & _ & _ & Hdi). destruct (e_off h e Heo) as [Ho1 Ho2].
  unfold heap_get_blob_phys. rewrite heap_get_live by done. cbn [mbind option_bind].
  change HEAP_BLOCK_SIZE with 64 in Ho2. replace (heap_data h + be_offset e =? 0) with false by lia.
  rewrite (e_data h e Heo). fold (data_at e). change (PAGE_SIZE * PMM_MAX_PAGES) with 0x10000000 in Hr1.
  assert (Hu : is_u32 (heap_data h + data_at e) /\ is_u32 (w + data_at e)) by (unfold is_u32; lia). destruct Hu as [Hu Hu'].
  rewrite u32_small by done. rewrite (virt_to_phys_eq v (cr3 v / 4096)) by (done || by rewrite Hmap).
  rewrite Hmap by done. destruct (small_pte (w + data_at e) flags Hu' Hf) as [-> _].
  do 2 f_equal. clear - Hw Hd. Z.div_mod_to_equations; lia.
Qed.

(** A byte of device memory behind a page the kernel mapped. *)
Lemma byte_mapped s va p x :
  is_u32 va -> va mod 4096 = x mod 4096 -> 4096 * (p / 4096) + x mod 4096 = x -> PAGE_SIZE * PMM_MAX_PAGES <= x -> is_u32 p ->
  translate (sy_vmm s) va = Small (MAKE_PTE p 7) -> byte_at device va s = Some (device x).
Proof.
  intros Hva Em Ex Hx Hp Ht. unfold byte_at. rewrite Ht. destruct (small_pte p 7 Hp ltac:(lia)) as [_ ->].
  change 0x1000 with 4096. rewrite Em, Ex. unfold phys_byte. by rewrite (proj2 (Z.ltb_ge _ _)).
Qed.

(** A range given pages of device memory shows its bytes. *)
Lemma range_bytes s (v : vmm W) va p n :
  is_u32 p -> 0 <= va -> va mod 4096 = 0 -> va + 4096 * n <= 0x100000000 -> 4096 * (p / 4096) + 4096 * n <= 0x100000000 ->
  PAGE_SIZE * PMM_MAX_PAGES <= p ->
  (forall va', is_u32 va' -> translate (sy_vmm s) va' =
    if decide (va <= va' < va + 4096 * n) then Small (MAKE_PTE (4096 * (p / 4096) + 4096 * ((va' - va) / 4096)) 7) else translate v va') ->
  forall i, 0 <= i -> p mod 4096 + i < 4096 * n -> byte_at device (va + p mod 4096 + i) s = Some (device (p + i)).
Proof.
  intros Hp Hva Hm Hr Hr' Hpr Ht i Hi Hin. assert (Hb : 0 <= p mod 4096 < 4096) by (apply Z.mod_pos_bound; lia).
  set (y := p mod 4096 + i). assert (Ep : p = 4096 * (p / 4096) + p mod 4096) by (apply Z.div_mod; lia).
  assert (Hy : 0 <= y < 4096 * n) by (unfold y; lia). replace (va + p mod 4096 + i) with (va + y) by (unfold y; lia).
  assert (Ex : p + i = 4096 * (p / 4096) + y) by (unfold y; lia). unfold is_u32 in Hp.
  assert (Hyd : y = 4096 * (y / 4096) + y mod 4096) by (apply Z.div_mod; lia). pose proof (Z.mod_pos_bound y 4096 ltac:(lia)).
  change (PAGE_SIZE * PMM_MAX_PAGES) with 0x10000000 in Hpr.
  apply (byte_mapped s _ (4096 * (p / 4096) + 4096 * (y / 4096))).
  - unfold is_u32. lia.
  - rewrite Ex. clear - Hm. Z.div_mod_to_equations; lia.
  - rewrite Ex. clear - Hyd. Z.div_mod_to_equations; lia.
  - change (PAGE_SIZE * PMM_MAX_PAGES) with 0x10000000. unfold y in *. lia.
  - unfold is_u32. lia.
  - rewrite Ht by (unfold is_u32; lia). rewrite decide_True by lia. do 5 f_equal. lia.
Qed.
End MapTensor.

Section MapTensorRun.
Context {W : Type} `{Trace W}.
Implicit Types s : sys W.
Variable device : Z -> Z.

Definition same_sys s s' : Prop := sy_heap s' = sy_heap s /\ sy_idt s' = sy_idt s /\
  sy_machine s' = on_vmm (fun _ => sy_vmm s') (sy_machine s).

(** The pages a call gives the process: the number the size asks for, from the page
    of the data. *)
Definition tensor_pages (h : heap) (e : blob_entry) : Z := (blob_size_of h (heap_data h + be_offset e) + 4095) / 4096.

Lemma map_tensor_run s e w flags :
  let h := sy_heap s in
  let n := tensor_pages h e in
  let va := next_map_addr s in
  let pa := w + data_at e in
  heap_ok h -> live h e -> vmm_ok (sy_vmm s) -> window device h (sy_vmm s) w flags ->
  is_u32 va -> va mod 4096 = 0 -> va + 4096 * n <= 0x100000000 -> 4096 * (pa / 4096) + 4096 * n <= 0x100000000 ->
  (forall k, 0 <= k < n -> is_large (translate (sy_vmm s) (va + 4096 * k)) = false) ->
  exists r s', sys_map_tensor (be_blob_id e) s = Some (r, s') /\ same_sys s s' /\ vmm_ok (sy_vmm s') /\
    exists k, (forall va', is_u32 va' -> translate (sy_vmm s') va' =
      if decide (va <= va' < va + 4096 * k) then Small (MAKE_PTE (4096 * (pa / 4096) + 4096 * ((va' - va) / 4096)) 7)
      else translate (sy_vmm s) va') /\
    (r = va /\ k = n /\ next_map_addr s' = u32 (va + 4096 * n) \/
     r = 0 /\ 0 <= k < n /\ next_map_addr s' = va /\ forall f, 0 <= f -> page_free (v_pmm (sy_vmm s')) f = false).
Proof.
  intros h n va pa Hh He Hv Hw Hva Hm Hr Hr' Hl. pose proof (data_in_heap h e Hh He) as Hd. cbv zeta in Hd. destruct Hd as (Hh0 & Hd0 & _ & Hs0 & Hs & Hdi).
  destruct (wn_room _ _ _ _ _ Hw) as (Hr1 & Hr2 & _). change (PAGE_SIZE * PMM_MAX_PAGES) with 0x10000000 in Hr1.
  set (size := blob_size_of h (heap_data h + be_offset e)) in *.
  assert (Hsz : size <= 0xED000) by (change IPC_HEAP_DATA_SIZE with 0xED000 in Hs; lia).
  assert (Hpu : is_u32 pa) by (unfold is_u32, pa; lia).
  assert (Hn : n = (size + 4095) / 4096) by done. assert (Hn0 : 0 <= n) by (rewrite Hn; apply Z.div_pos; lia).
  unfold sys_map_tensor. change (sy_heap s) with h. rewrite (blob_phys device h (sy_vmm s) w flags e) by done. fold pa. cbn [mbind option_bind].
  change (s{{ sy_heap := h }}) with (Sys h (sy_machine s) (sy_idt s) (next_map_addr s) (sy_out s)).
  replace (Sys h (sy_machine s) (sy_idt s) (next_map_addr s) (sy_out s)) with s by (by destruct s).
  cbv zeta. rewrite (proj2 (Z.eqb_neq pa 0)) by (unfold pa; lia).
  destruct (heap_lookup_live h e Hh He) as (_ & _ & Hgs & _ & _). fold size in Hgs. change (sy_heap s) with h. rewrite Hgs. cbn [mbind option_bind].
  change (s{{ sy_heap := h }}) with (Sys h (sy_machine s) (sy_idt s) (next_map_addr s) (sy_out s)).
  replace (Sys h (sy_machine s) (sy_idt s) (next_map_addr s) (sy_out s)) with s by (by destruct s). fold va.
  pose proof (map_range_eq (sy_vmm s) va pa size 7) as E. cbv zeta in E. rewrite <- Hn in E.
  replace (4096 * (va / 4096)) with va in E by (clear - Hm; Z.div_mod_to_equations; lia).
  specialize (E Hv Hva Hpu ltac:(lia) Hr Hr' ltac:(lia) eq_refl Hl).
  assert (Ep : (size +u PAGE_SIZE -u 1) / PAGE_SIZE = n).
  { change PAGE_SIZE with 4096. rewrite (u32_small (size + 4096)) by (unfold is_u32; lia). rewrite u32_small by (unfold is_u32; lia).
    rewrite Hn. f_equal. lia. }
  destruct (vmm_map_range va pa size 7 (sy_vmm s)) as [r v]. destruct E as (Hw' & _ & k & Hk & Ht). rewrite Ep.
  destruct Hk as [[-> ->]|(-> & Hk & Hf)].
  - change (negb (0 =? 0)) with false. cbv iota. eexists _, _. split; [done|]. split; [done|]. split; [exact Hw'|]. exists n.
    split; [exact Ht|]. left. split; [done|]. split; [done|]. change PAGE_SIZE with 4096. rewrite (u32_small (n * 4096)).
    + change (next_map_addr _) with (va +u n * 4096). f_equal. lia.
    + unfold is_u32. rewrite Hn. Z.div_mod_to_equations. lia.
  - change (negb (-1 =? 0)) with true. cbv iota. eexists _, _. split; [done|]. split; [done|]. split; [exact Hw'|]. exists k.
    split; [exact Ht|]. by right.
Qed.
End MapTensorRun.

(** ** Strings and exits *)

Section Strings.
Context {W : Type} `{Trace W}.
Implicit Types s : sys W.
Variable device : Z -> Z.

(** The text [l] is mapped at [p]; it ends in a NUL, or ([ok] false) at a page that
    is not mapped. *)
Fixpoint text_at (l : list Z) (ok : bool) (p : Z) s : Prop :=
  match l with
  | [] => byte_at device p s = if ok then Some 0 else None
  | c :: l => byte_at device p s = Some c /\ c <> 0 /\ text_at l ok (p +u 1) s
  end.

Lemma read_string_text l ok p s fuel : text_at l ok p s -> (length l < fuel)%nat -> read_string device fuel p s = Some (l, ok).
Proof.
  revert p fuel; induction l as [|c l IH]; intros p [|fuel] Ht Hf; cbn [length] in Hf; try lia; cbn [text_at read_string] in *.
  - rewrite Ht. by destruct ok.
  - destruct Ht as (-> & Hc & Ht). rewrite (proj2 (Z.eqb_neq c 0)) by done. by rewrite (IH _ fuel Ht) by lia.
Qed.
End Strings.

Lemma idt_init_handlers isr irq d : zlen (handlers (idt_init isr irq d)) = zlen (handlers d).
Proof.
  assert (Hset : forall lo hi (f : Z -> Z) attr d0, lo <= hi ->
    handlers (for_range lo hi (fun i => idt_set_entry i (f i) GDT_KERNEL_CODE_SEG attr) d0) = handlers d0).
  { intros lo hi f attr d0 Hle. apply (for_range_ind (fun _ d' => handlers d' = handlers d0)); [exact Hle|reflexivity|].
    intros j d' _ E. exact E. }
  assert (Hrest : forall i h sel attr d0, handlers ((idt_set_entry i h sel attr d0){{ loaded := true }}) = handlers d0) by done.
  unfold idt_init. cbv zeta. rewrite Hrest, (Hset 32 48 (fun i => irq (i - 32))), (Hset 0 32 isr) by lia.
  apply (for_range_ind (fun _ d' => zlen (handlers d') = zlen (handlers d))); [done|done|].
  intros i d' _ E. rewrite <- E. apply zlen_zset.
Qed.

(** ** Properties *)

(** C17: [sys_map_tensor] puts a blob's data in the process's space.  For a live blob
    of a well-formed heap whose window the kernel maps in small pages, and free
    room at the page [next_map_addr], the call maps the pages its size asks for, each
    by a table entry for its frame with the flags present, writable and user and no
    others, and advances [next_map_addr] by as many; nothing else is translated
    differently and the heap is as it was.  Byte [i] of the data is then
    at the returned address plus the data's offset in its page plus [i], up to the
    end of those pages.  That offset is never 0, so the address returned is never
    that of the data, and the pages are those of the size alone.  Or no page is
    left for a page table: the call returns 0 and does not advance, though some
    pages may be mapped. *)
Theorem map_tensor_maps {W} `{Trace W} (device : Z -> Z) (s : sys W) (e : blob_entry) (w flags : Z) :
  let h := sy_heap s in
  let n := tensor_pages h e in
  let va := next_map_addr s in
  let off := (w + data_at e) mod 4096 in
  let data := heap_data h + data_at e in
  heap_ok h -> live h e -> vmm_ok (sy_vmm s) -> window device h (sy_vmm s) w flags ->
  is_u32 va -> va mod 4096 = 0 -> va + 4096 * n <= 0x100000000 -> w + data_at e + 4096 * n <= 0x100000000 ->
  (forall k, 0 <= k < n -> is_large (translate (sy_vmm s) (va + 4096 * k)) = false) ->
  off mod 64 = 32 /\
  exists r s', sys_map_tensor (be_blob_id e) s = Some (r, s') /\ same_sys s s' /\ vmm_ok (sy_vmm s') /\
    (r = va /\ next_map_addr s' = u32 (va + 4096 * n) /\
     (forall a, is_u32 a -> ~ va <= a < va + 4096 * n -> translate (sy_vmm s') a = translate (sy_vmm s) a) /\
     (forall k, 0 <= k < n ->
        translate (sy_vmm s') (va + 4096 * k) = Small (MAKE_PTE (4096 * ((w + data_at e) / 4096 + k)) PTE_USER_RW)) /\
     (forall i, 0 <= i -> off + i < 4096 * n -> data_at e + i < IPC_HEAP_DATA_SIZE ->
        byte_at device (va + off + i) s' = Some (ldb (shm h) (data + i))) \/
     r = 0 /\ next_map_addr s' = va /\ (forall a, is_u32 a -> ~ va <= a < va + 4096 * n -> translate (sy_vmm s') a = translate (sy_vmm s) a) /\
     forall f, 0 <= f -> page_free (v_pmm (sy_vmm s')) f = false).
Proof.
  intros h n va off data Hh He Hv Hw Hva Hm Hr Hr' Hl. pose proof (data_in_heap h e Hh He) as Hd. cbv zeta in Hd. destruct Hd as (_ & Hd0 & Hd64 & _ & _ & Hdi).
  destruct (wn_room _ _ _ _ _ Hw) as (Hr1 & Hr2 & _). destruct (wn_page _ _ _ _ _ Hw) as [Hw0 _].
  assert (Hpu : is_u32 (w + data_at e)) by (change (PAGE_SIZE * PMM_MAX_PAGES) with 0x10000000 in Hr1; unfold is_u32; lia).
  assert (Hpr : 4096 * ((w + data_at e) / 4096) <= w + data_at e) by (Z.div_mod_to_equations; lia).
  split; [unfold off; clear - Hw0 Hd64; Z.div_mod_to_equations; lia|].
  destruct (map_tensor_run device s e w flags Hh He Hv Hw Hva Hm Hr ltac:(fold h n; lia) Hl) as (r & s' & Er & Hs & Hv' & k & Ht & Hc).
  exists r, s'. split; [exact Er|]. split; [exact Hs|]. split; [exact Hv'|]. fold h n va in Hc, Ht. destruct Hc as [(-> & -> & Hn)|(-> & Hk & Hn & Hf)]; [left|right].
  - split; [done|]. split; [done|]. split; [intros a Ha Ho; by rewrite Ht, decide_False|].
    split.
    { intros k Hk. rewrite Ht by (unfold is_u32 in *; lia). rewrite decide_True by lia.
      replace (va + 4096 * k - va) with (k * 4096) by lia. rewrite Z.div_mul by lia. change PTE_USER_RW with 7.
      do 2 f_equal. lia. }
    intros i Hi Hin Hie.
    rewrite (range_bytes device s' (sy_vmm s) va (w + data_at e) n Hpu); [|unfold is_u32 in *; lia..|exact Ht|done|exact Hin].
    unfold data. replace (heap_data h + data_at e + i) with (heap_data h + (data_at e + i)) by lia.
    rewrite <- (wn_bytes _ _ _ _ _ Hw) by lia. by rewrite Z.add_assoc.
  - split; [done|]. split; [done|]. split; [|exact Hf]. intros a Ha Ho. rewrite Ht, decide_False by (done || lia). done.
Qed.

(** The system call gate and [sys_log].  After [idt_init] and [syscall_init] the
    handler of vector 0x80 is [syscall_handler].  Call 1 prints the characters at the pointer in EBX
    up to the first NUL, whatever memory they are in, the kernel's included; at a
    page that is not mapped it prints those before it and the kernel faults.  A
    number above 3 changes nothing but the console. *)
Theorem syscall_log_prints {W} `{Trace W} (device : Z -> Z) (tss_at after_call after_switch handler_at : Z)
  (isr irq : Z -> Z) (s : sys W) (fuel : nat) (frame p : Z) (l : list Z) (ok : bool) :
  zlen (handlers (sy_idt s)) = IDT_ENTRIES -> handler_at <> 0 ->
  isr_handler INT_SYSCALL (sy_idt (syscall_init handler_at s{{ sy_idt ::= idt_init isr irq }})) = IsrCall handler_at /\
  (rd (sy_machine s) (frame + F_eax) = 1 -> rd (sy_machine s) (frame + F_ebx) = p -> text_at device l ok p s -> (length l < fuel)%nat ->
   let said := sy_out s ++ ascii "[USER] " ++ l in
   syscall_handler device tss_at after_call after_switch fuel frame s =
     Some (if ok then Returned s{{ sy_out := said ++ [10] }} else Faulted s{{ sy_out := said }})) /\
  (3 < rd (sy_machine s) (frame + F_eax) ->
   syscall_handler device tss_at after_call after_switch fuel frame s =
     Some (Returned s{{ sy_out := sy_out s ++ ascii "[syscall] unknown syscall: " ++ [10] }})).
Proof.
  intros Hh Hne. split; [|split].
  - unfold isr_handler. set (d := sy_idt _). assert (E : handlers d = zset (handlers (idt_init isr irq (sy_idt s))) INT_SYSCALL handler_at) by done.
    rewrite E, zget_zset_eq by (rewrite idt_init_handlers, Hh; done). by rewrite (proj2 (Z.eqb_neq _ _)).
  - intros E1 E2 Ht Hf said. unfold syscall_handler. rewrite E1, E2. cbn [Z.eqb Pos.eqb]. unfold sys_log. rewrite (read_string_text device l ok p s fuel Ht Hf).
    cbn [mbind option_bind]. unfold said, say. destruct s as [h m d a o]. cbn. destruct ok; cbn; by rewrite <- ?app_assoc.
  - intros Hn. unfold syscall_handler. rewrite !(proj2 (Z.eqb_neq _ _)) by lia. unfold say. destruct s as [h m d a o]. cbn. by rewrite <- app_assoc.
Qed.

(** C18: a process that exits goes on.  [sys_exit] changes the console only and then
    calls [schedule] for ever.  In a ring of processes the exited one stays in the
    ring through any number of ticks, RUNNING exactly when it is its turn, and after
    every [6] ticks times the number of processes it is current again, as often as
    one likes.  Its pages are never given back: [schedule] gives back no page in any
    state, so whatever pages of its are in use at the exit stay in use through any
    number of ticks, as long as the work of the others between the ticks spares
    them. *)
Theorem exit_keeps_turns {W} `{Trace W} (device : Z -> Z) (tss_at after_call after_switch : Z) (s : sys W) (fuel : nat) (frame k : Z) (l : list Z) :
  is_u32 after_switch -> ring_ok (sy_machine s) l k -> rd (sy_machine s) (frame + F_eax) = 0 ->
  let p := current_process (sy_machine s) in
  exists s1, syscall_handler device tss_at after_call after_switch fuel frame s = Some (Spinning s1) /\ sy_machine s1 = sy_machine s /\
  (stack_room l (sy_machine s1) -> mem_ok (k_mem (sy_machine s1)) ->
   tick tss_at after_call after_switch l (sy_machine s1) (sy_machine (sys_yield tss_at after_call after_switch s1))) /\
  (forall n m, nsteps (tick tss_at after_call after_switch l) n (sy_machine s1) m ->
     ring_ok m l (k + Z.of_nat n) /\ p ∈ l /\
     (rd m (p + P_state) = state_code PROCESS_STATE_RUNNING <-> current_process m = p)) /\
  (forall m : machine W, k_pmm (schedule tss_at after_call after_switch m) = k_pmm m) /\
  (forall own n m, nsteps (sparing tss_at after_call after_switch own l) n (sy_machine s1) m ->
     nsteps (tick tss_at after_call after_switch l) n (sy_machine s1) m /\
     forall f, own f -> page_free (k_pmm (sy_machine s)) f = false -> page_free (k_pmm m) f = false) /\
  (forall j m, nsteps (tick tss_at after_call after_switch l) (6 * length l * j) (sy_machine s1) m ->
     current_process m = p /\ rd m (p + P_state) = state_code PROCESS_STATE_RUNNING).
Proof.
  intros Ha Hr E0 p. eexists. split; [unfold syscall_handler; rewrite E0; done|].
  match goal with |- sy_machine ?x = _ /\ _ => set (s1 := x) end.
  assert (Em : sy_machine s1 = sy_machine s) by done. clearbody s1. rewrite Em. split; [done|].
  split; [|split; [|split; [|split]]].
  - intros Hroom Hm. change (tick tss_at after_call after_switch l (sy_machine s) (schedule tss_at after_call after_switch (sy_machine s1))). rewrite Em. by apply tick_intro.
  - intros n m Hn. pose proof (ticks_ring tss_at after_call after_switch Ha (sy_machine s) _ _ _ _ Hr Hn) as Hm.
    assert (Hp : p ∈ l) by (unfold p; rewrite (ro_cur _ _ _ Hr); apply zget_elem, Z.mod_pos_bound; apply (ro_len _ _ _ Hr)).
    split; [exact Hm|]. split; [exact Hp|]. split.
    + intros Ep. destruct (decide (current_process m = p)) as [|Hne]; [done|].
      destruct (ro_wait _ _ _ Hm p Hp (not_eq_sym Hne)) as [Hs _]. by destruct Hs.
    + intros <-. apply (ro_run _ _ _ Hm).
  - intros m. apply schedule_pmm.
  - intros own n m Hn. split; [|by eapply sparing_holds].
    clear -Hn. induction Hn as [|n s1 s2 s3 Hs _ IH]; [constructor|]. econstructor; [by eapply sparing_tick|exact IH].
  - intros j m Hn. pose proof (ticks_ring tss_at after_call after_switch Ha _ _ l k _ Hr Hn) as Hm. pose proof Hr as [[Hlen Hk] _ _ Hc _ _ _].
    assert (E : current_process m = p).
    { unfold p. rewrite (ro_cur _ _ _ Hm), Hc. f_equal. unfold zlen in *.
      replace (k + Z.of_nat (6 * length l * j)) with (k + Z.of_nat (length l) * Z.of_nat j * 6) by lia.
      rewrite Z.div_add by lia. replace (k / 6 + Z.of_nat (length l) * Z.of_nat j) with (k / 6 + Z.of_nat j * Z.of_nat (length l)) by lia.
      apply Z.mod_add. lia. }
    split; [exact E|]. rewrite <- E. apply (ro_run _ _ _ Hm).
Qed.

(** A process's first and second blobs: of 100 bytes and of 4064, 192 bytes on, in
    the window at 0xE0000000. *)
Definition demo_blobs : heap :=
  snd (heap_alloc 4064 BLOB_TYPE_TENSOR (snd (heap_alloc 100 BLOB_TYPE_TENSOR (heap_init 0xE0010100 (heap_bss ∅))))).
Definition demo_blob : blob_entry := BlobEntry 2 192 64.

Lemma demo_blobs_ok : heap_ok demo_blobs /\ live demo_blobs demo_blob /\ heap_data demo_blobs = 0xE0011000.
Proof.
  assert (H0 : heap_ok (heap_init 0xE0010100 (heap_bss ∅))) by (apply heap_init_ok; [lia|apply mem_ok_empty|reflexivity]).
  split; [|split; [|vm_compute; reflexivity]].
  - apply alloc_heap_ok; [apply alloc_heap_ok; [exact H0|..]|..]; try (vm_compute; reflexivity); try lia; unfold is_u8; by vm_compute.
  - exists 1. split; vm_compute; done.
Qed.

(** A directory in page 1 whose tables in pages 2 and 3 are for the window and for
    the process's space. *)
Definition demo_tables : mem :=
  set_entry (frame_at 1) 512 0x3007 (set_entry (frame_at 1) 896 0x2007
    (for_range 0 256 (fun i m => set_entry (frame_at 2) i (MAKE_PTE (0xFE000000 + 4096 * i) 0x13) m) ∅)).

Lemma demo_tables_entries :
  mem_ok demo_tables /\
  (forall i, 0 <= i < 1024 -> entry demo_tables (frame_at 1) i = if decide (i = 512) then 0x3007 else if decide (i = 896) then 0x2007 else 0) /\
  (forall j, 0 <= j < 1024 -> entry demo_tables (frame_at 2) j = if decide (0 <= j < 256) then MAKE_PTE (0xFE000000 + 4096 * j) 0x13 else 0).
Proof.
  destruct (fill_entries 2 0 256 (fun i _ => MAKE_PTE (0xFE000000 + 4096 * i) 0x13) ∅) as (Ho & Hm & He); [lia|lia| |].
  { intros i m' Hi _. split; [|done]. rewrite MAKE_PTE_eq by (unfold is_u32; lia). unfold is_u32. Z.div_mod_to_equations. lia. }
  unfold demo_tables. set (m := for_range 0 256 _ ∅) in *. split; [|split].
  - do 2 apply mem_ok_st. apply Hm, mem_ok_empty.
  - intros i Hi. rewrite !entry_set by done. rewrite (only_frame_entry 2 ∅ m 1 i Ho) by done.
    repeat case_decide; try lia; done.
  - intros j Hj. rewrite !entry_set by done. rewrite !decide_False by lia. by apply He.
Qed.

Lemma demo_translation (p : pmm (list trace_rec)) m :
  pmm_wf p -> page_free p 1 = false -> page_free p 2 = false -> page_free p 3 = false -> mem_ok m ->
  (forall i, 0 <= i < 1024 -> entry m (frame_at 1) i = if decide (i = 512) then 0x3007 else if decide (i = 896) then 0x2007 else 0) ->
  (forall j, 0 <= j < 1024 -> entry m (frame_at 2) j = if decide (0 <= j < 256) then MAKE_PTE (0xFE000000 + 4096 * j) 0x13 else 0) ->
  let v := Vmm p m 4096 4096 [] in
  vmm_ok v /\ forall x, 0 <= x < 0x100000 -> translate v (0xE0000000 + x) = Small (MAKE_PTE (0xFE000000 + x) 0x13).
Proof.
  intros Hp H1 H2 H3 Hm Hd Ht.
  assert (Hsm : forall i, 0 <= i < 1024 -> small m 1 i = true -> i = 512 /\ table_of m 1 i = 3 \/ i = 896 /\ table_of m 1 i = 2).
  { intros i Hi. unfold small, table_of. rewrite Hd by done. repeat case_decide; subst; [by left|by right|done]. }
  assert (Hok : vmm_ok (Vmm p m 4096 4096 [])).
  { split; [done|done|by split|]. change (cr3 _ / 4096) with 1. cbn [v_mem v_pmm]. split.
    - done.
    - intros i Hi Hs. destruct (Hsm i Hi Hs) as [(_ & ->)|(_ & ->)]; done.
    - intros i j Hi Hj Hsi Hsj. destruct (Hsm i Hi Hsi) as [(-> & ->)|(-> & ->)], (Hsm j Hj Hsj) as [(-> & ->)|(-> & ->)]; done. }
  split; [exact Hok|]. intros x Hx.
  assert (Hu : is_u32 (0xE0000000 + x)) by (unfold is_u32; lia). 
  rewrite (translate_eq _ 1) by exact Hok. unfold walk_at. cbn [v_mem]. change (phys_to_virt (4096 * 1)) with (frame_at 1).
  rewrite PDE_INDEX_eq by done. replace ((0xE0000000 + x) / 0x400000) with 896 by (Z.div_mod_to_equations; lia).
  rewrite Hd by done. rewrite decide_False, decide_True by done. change (phys_to_virt (PTE_ADDR 0x2007)) with (frame_at 2).
  rewrite PTE_INDEX_eq. replace ((0xE0000000 + x) / 4096 mod 1024) with (x / 4096) by (Z.div_mod_to_equations; lia).
  rewrite Ht by (Z.div_mod_to_equations; lia). rewrite decide_True by (Z.div_mod_to_equations; lia).
  change (negb (has 0x2007 PTE_PRESENT)) with false. change (has 0x2007 PTE_PSE) with false. cbv iota.
  change PTE_PRESENT with (2 ^ 0). rewrite has_make by (unfold is_u32; lia || (Z.div_mod_to_equations; lia)).
  change (has 0x13 (2 ^ 0)) with true. cbv iota. f_equal. rewrite !MAKE_PTE_eq by (unfold is_u32; Z.div_mod_to_equations; lia).
  f_equal. clear - Hx. Z.div_mod_to_equations; lia.
Qed.

Definition demo_device (pa : Z) : Z := ldb (shm demo_blobs) (0xE0011000 + (pa - 0xFE011000)).

Lemma demo_window (v : vmm (list trace_rec)) :
  (forall x, 0 <= x < 0x100000 -> translate v (0xE0000000 + x) = Small (MAKE_PTE (0xFE000000 + x) 0x13)) ->
  window demo_device demo_blobs v 0xFE011000 0x13.
Proof.
  intros Hv. destruct demo_blobs_ok as (_ & _ & Eh). unfold demo_device. forget demo_blobs as h.
  split; rewrite ?Eh; [done|done|done| |].
  - intros x Hx. change IPC_HEAP_DATA_SIZE with 0xED000 in Hx. replace (0xE0011000 + x) with (0xE0000000 + (0x11000 + x)) by lia.
    replace (0xFE011000 + x) with (0xFE000000 + (0x11000 + x)) by lia. apply Hv. lia.
  - intros x Hx. f_equal. lia.
Qed.

Lemma map_tensor_maps_witness :
  exists (s s' : sys (list trace_rec)), sys_map_tensor 2 s = Some (0x80000000, s') /\
    byte_at demo_device 0x800000E0 s' = Some (ldb (shm demo_blobs) 0xE00110E0) /\
    byte_at demo_device 0x80001000 s' = None.
Proof.
  destruct demo_pmm as (p & _ & Hp & _ & _). destruct demo_tables_entries as (Hm & Hd & Ht).
  assert (Hlow : forall f, 0 <= f < 256 -> page_free p f = false).
  { intros f Hf. destruct (page_free p f) eqn:E; [|done]. pose proof (pw_out p Hp f ltac:(lia) E). lia. }
  destruct (demo_translation p demo_tables Hp (Hlow 1 ltac:(lia)) (Hlow 2 ltac:(lia)) (Hlow 3 ltac:(lia)) Hm Hd Ht) as [Hv Hw].
  set (v := Vmm p demo_tables 4096 4096 []) in *. clear Hm Hd Ht.
  set (s := sys_boot demo_blobs (Machine v (GdtState [] ∅ (0, 0) 0) (Cpu 0 0 0 0 0 0) 0 0 1) (IdtState [] [] 0 false)).
  destruct demo_blobs_ok as (Hh & He & Eh).
  assert (En : tensor_pages demo_blobs demo_blob = 1) by (vm_compute; reflexivity).
  assert (Er : fst <$> sys_map_tensor 2 s = Some 0x80000000) by (vm_compute; reflexivity).
  assert (Hl : is_large (translate v (0x80000000 + 4096 * 0)) = false) by (vm_compute; reflexivity).
  assert (Hn : translate v 0x80001000 = Unmapped) by (vm_compute; reflexivity).
  assert (Enx : next_map_addr s = 0x80000000) by reflexivity. assert (Ehp : sy_heap s = demo_blobs) by reflexivity.
  assert (Evm : sy_vmm s = v) by reflexivity. clearbody s v.
  pose proof (map_tensor_maps demo_device s demo_blob 0xFE011000 0x13) as T. cbv zeta in T. rewrite Ehp, Evm, Enx, En, Eh in T.
  pose proof (demo_window v Hw) as Hwin. forget demo_device as dev. forget demo_blobs as h.
  destruct T as (_ & r & s' & E & _ & _ & Hc); [exact Hh|exact He|exact Hv|exact Hwin|unfold is_u32; lia|reflexivity|lia|vm_compute; discriminate| |].
  - intros k Hk. replace k with 0 by lia. exact Hl.
  - change (be_blob_id demo_blob) with 2 in E. rewrite E in Er. injection Er as ->.
    destruct Hc as [(_ & _ & Ho & _ & Hb)|(Hz & _)]; [|discriminate Hz]. exists s, s'. split; [exact E|]. split.
    + exact (Hb 0 ltac:(lia) ltac:(vm_compute; reflexivity) ltac:(vm_compute; reflexivity)).
    + unfold byte_at. rewrite (Ho 0x80001000); [by rewrite Hn|unfold is_u32; lia|lia].
Defined.

(** A text in low memory behind a 4 MB page, and a frame that asks to log it. *)
Definition demo_text_mem : mem :=
  store_bytes (st32 (st32 (st32 ∅ 0xC0001000 0x83) (0x7000 + F_eax) 1) (0x7000 + F_ebx) 0x5000) 0xC0005000 (ascii "hi" ++ [0]).

Lemma syscall_log_prints_witness :
  let s := sys_boot demo_blobs (Machine (Vmm (pmm_bss []) demo_text_mem 4096 4096 []) (GdtState [] ∅ (0, 0) 0) (Cpu 0 0 0 0 0 0) 0 0 1)
             (IdtState [] (replicate 256 0) 0 false) in
  syscall_handler (fun _ => 0) 0 0 0 3 0x7000 s = Some (Returned s{{ sy_out := ascii "[USER] hi" ++ [10] }}).
Proof.
  intros s. destruct (syscall_log_prints (fun _ => 0) 0 0 0 9 (fun _ => 0) (fun _ => 0) s 3 0x7000 0x5000 (ascii "hi") true) as (_ & Hl & _).
  - done.
  - done.
  - refine (Hl _ _ _ _).
    + vm_compute. reflexivity.
    + vm_compute. reflexivity.
    + repeat split; vm_compute; (reflexivity || discriminate).
    + cbn. lia.
Defined.

Lemma exit_keeps_turns_witness :
  let s := sys_boot demo_blobs (demo_machine (pmm_bss [])) (IdtState [] [] 0 false) in
  exists s1, syscall_handler (fun _ => 0) 0 0 0 3 0x7000 s = Some (Spinning s1) /\
    current_process (sy_machine s1) = 0x1000 /\ rd (sy_machine (sys_yield 0 0 0 s1)) (0x1000 + P_ticks_remaining) = 4.
Proof.
  intros s. destruct (demo_ring (pmm_bss [])) as (Hr & Hroom & Hm).
  destruct (exit_keeps_turns (fun _ => 0) 0 0 0 s 3 0x7000 0 [0x1000; 0x2000] ltac:(done) Hr) as (s1 & E & Em & Ht & Hn & _).
  - vm_compute. reflexivity.
  - exists s1. split; [exact E|]. split; [by rewrite Em|]. rewrite Em in Ht. specialize (Ht Hroom Hm). rewrite <- Em in Ht.
    destruct (Hn 1%nat _ (nsteps_once _ _ Ht)) as [Hr1 _]. pose proof (ro_ticks _ _ _ Hr1) as Et. pose proof (ro_cur _ _ _ Hr1) as Ec. rewrite Ec in Et.
    exact Et.
Defined.
