(* ===== verification/Boot.v ===== *)
(** kernel/kmain.c: the boot of the x86_64 kernel, from [kmain64] to its main loop.

    The architecture's initialisations are the stubs of arch/x86_64/stubs.c, so the
    platform of the ivshmem driver has no state and the interrupt controllers that
    [ipc_init] would program stay as they are ([on_stubs]).  The driver's memory is the
    window [ipc_init] works in.  The console is left out.

    The theorem: with a plain ivshmem device the boot comes up with the channel of
    Ipc, a heap that the mesh table has spoilt, and an episode that the main loop
    takes back after 505 turns. *)

From S2P Require Import Prelude Mem Trace KTime Bitmap Pmm IpcProto SharedHeap Interrupts Ring Ipc Episode Pci Ivshmem.

Record kernel (H W : Type) := Kernel {
  kn_iv : ivshmem H unit mem;
  kn_pmm : pmm W;
  kn_ipc : ipc;
  kn_engine : engine mock_gpu
}.
Arguments Kernel {H W}.
Arguments kn_iv {H W}.
Arguments kn_pmm {H W}.
Arguments kn_ipc {H W}.
Arguments kn_engine {H W}.
#[export] Instance kernel_eta H W : Eta (kernel H W) := fun k => Kernel (kn_iv k) (kn_pmm k) (kn_ipc k) (kn_engine k).

(** [irq_register_handler] and [pic_unmask_irq] do nothing. *)
Definition on_stubs (f : ipc -> ipc) (s : ipc) : ipc := (f s){{ ip_pic := ip_pic s }}.

Section Boot.
Context {H : Type} `{PortIO H} {W : Type} `{Trace W}.
Implicit Types k : kernel H W.
(** The linker's symbols, the local APIC and the addresses of the handlers. *)
Variables kernel_start kernel_end lapic_base isr irq_handler : Z.
(** What the collector's uninitialised struct holds. *)
Variable uninit : metric_snapshot_t.

(** [fuel] bounds the walk of the device's capabilities. *)
Definition kmain64 (fuel : nat) k : option (kernel H W) :=
  p ← pmm_init ∅ kernel_start kernel_end None (kn_pmm k);
  let iv := (kn_iv k){{ iv_host ::= fun h => snd (pci_init h) }} in
  iv ← ivshmem_init lapic_base isr fuel iv;
  let k := k{{ kn_pmm := p; kn_iv := iv }} in
  let shmem_base := ivshmem_get_shared_memory iv in
  let irq := ivshmem_get_irq iv in
  if shmem_base =? 0 then Some k
  else
    let s := (kn_ipc k){{ ip_heap ::= fun h => h{{ shm := iv_mmio iv }} }} in
    let s := on_stubs (ipc_init irq_handler shmem_base irq) s in
    let s := ipc_mesh_init s in
    let e := episode_init (kn_engine k) in
    let '(_, e) := episode_propose 1200 500 e in
    Some (k{{ kn_ipc := s; kn_engine := e }}).

(** One turn of the main loop. *)
Definition kmain64_turn k : kernel H W :=
  k{{ kn_engine ::= episode_tick actuator_get_default collector_get_default uninit }}.
End Boot.

(** ** The scan of the bus leaves the registers alone *)

Section Scan.
Context {H : Type} `{ConfigMechanism H}.
Implicit Types h : H.

Lemma check_device_space b s f h : fn_ok b s f -> same_space h (snd (pci_check_device b s f h)).
Proof.
  intros Hf. unfold pci_check_device. pose proof (read_config b s f 0 h Hf ltac:(done)) as E1.
  destruct (pci_read_config_32 b s f 0 h) as [v h1]. destruct E1 as [_ S1]. destruct (_ =? 0xFFFF); [exact S1|].
  pose proof (read_config b s f 8 h1 Hf ltac:(done)) as E2. destruct (pci_read_config_32 b s f 8 h1) as [w h2]. destruct E2 as [_ S2].
  by transitivity h1.
Qed.

Lemma scan_func_space s f l h : fn_ok 0 s f -> same_space h (snd (scan_func s f (l, h))).
Proof.
  intros Hf. unfold scan_func. pose proof (read_config 0 s f 0 h Hf ltac:(done)) as E1.
  destruct (pci_read_config_32 0 s f 0 h) as [v h1]. destruct E1 as [_ S1]. destruct (negb _); [|exact S1].
  pose proof (check_device_space 0 s f h1 Hf) as S2. destruct (pci_check_device 0 s f h1) as [r h2]. by transitivity h1.
Qed.

Lemma scan_slot_space s l h : 0 <= s < 32 -> same_space h (snd (scan_slot s (l, h))).
Proof.
  intros Hs. unfold scan_slot. assert (Hok : forall f, 0 <= f < 8 -> fn_ok 0 s f) by (unfold fn_ok, is_u8; lia).
  pose proof (check_device_space 0 s 0 h (Hok 0 ltac:(lia))) as S1. destruct (pci_check_device 0 s 0 h) as [r h1]. cbn [snd] in S1.
  apply (for_range_ind (fun _ x => same_space h (snd x))); [lia|exact S1|].
  intros f [l' h'] Hf Hi. cbn [snd] in Hi. transitivity h'; [exact Hi|]. apply scan_func_space, Hok. lia.
Qed.

Lemma pci_init_space h : same_space h (snd (pci_init h)).
Proof.
  unfold pci_init. apply (for_range_ind (fun _ x => same_space h (snd x))); [lia|done|].
  intros s [l h'] Hs Hi. cbn [snd] in Hi. transitivity h'; [exact Hi|]. by apply scan_slot_space.
Qed.

(** The first match is the same over the same registers. *)
Lemma find_device_same h h' vendor device :
  is_u16 vendor -> is_u16 device -> same_space h h' -> fst (pci_find_device vendor device h') = fst (pci_find_device vendor device h).
Proof.
  intros Hv Hd Hs. pose proof (find_slot_spec 32 0 vendor device h ltac:(lia) ltac:(lia) Hv Hd) as E.
  pose proof (find_slot_spec 32 0 vendor device h' ltac:(lia) ltac:(lia) Hv Hd) as E'.
  fold (pci_find_device vendor device h) in E. fold (pci_find_device vendor device h') in E'.
  destruct (pci_find_device vendor device h) as [r h1], (pci_find_device vendor device h') as [r' h1']. destruct E as [_ E], E' as [_ E'].
  cbn [fst]. destruct r as [d|], r' as [d'|]; [| | |done].
  - destruct E as (s & f & -> & Hs1 & Hf1 & Hi1 & Hn1), E' as (s' & f' & -> & Hs2 & Hf2 & Hi2 & Hn2).
    apply (has_ids_same _ _ _ h h' Hs) in Hi2.
    destruct (Z.lt_trichotomy (8 * s + f) (8 * s' + f')) as [Hlt|[Heq|Hgt]].
    + destruct (Hn2 (8 * s + f)); [lia|]. by apply (has_ids_same _ _ _ h h' Hs).
    + assert (s = s' /\ f = f') as [-> ->] by lia. done.
    + by destruct (Hn1 (8 * s' + f')); [lia|].
  - destruct E as (s & f & -> & Hs1 & Hf1 & Hi1 & _). destruct (E' (8 * s + f)); [lia|]. by apply (has_ids_same _ _ _ h h' Hs).
  - destruct E' as (s & f & -> & Hs1 & Hf1 & Hi1 & _). destruct (E (8 * s + f)); [lia|]. by apply (has_ids_same _ _ _ h h' Hs).
Qed.

Lemma plain_device_same h h' d kk base t : same_space h h' -> plain_device h d kk base t -> plain_device h' d kk base t.
Proof.
  intros Hs [Hf Hb Hv Hm]. split; [|exact Hb|by rewrite Hs|exact Hm]. by rewrite (find_device_same h h').
Qed.
End Scan.

(** ** The window and the episode *)

Lemma ipc_ok_pic base s p : ipc_ok base s -> ipc_ok base s{{ ip_pic := p }}.
Proof. by intros []. Qed.

Lemma mesh_init_pic s : ip_pic (ipc_mesh_init s) = ip_pic s.
Proof. unfold ipc_mesh_init. destruct (_ =? 0); [done|]. cbv zeta. by destruct (find_range _ _ _). Qed.

(** [ipc_init] and [ipc_mesh_init] in a window. *)
Lemma channel_up handler base irq s :
  0 < base -> mem_ok (win s) -> zlen (blob_table (ip_heap s)) = MAX_BLOBS -> clock_ok (ip_clock s) ->
  let s' := ipc_mesh_init (on_stubs (ipc_init handler base irq) s) in
  ipc_ok base s' /\ cmds base s' = [] /\ rsps base s' = [] /\ local_node_id s' = 0 /\ ip_pic s' = ip_pic s /\
  blk_free (ip_heap s') mesh_block = false /\ (forall e, ~ live (ip_heap s') e) /\ ~ heap_ok (ip_heap s').
Proof.
  intros Hb Hm Hl Hc s'. destruct (ipc_init_ok handler base irq s Hb Hm Hl Hc) as (Hok & Hh & Ec & Er).
  set (s1 := on_stubs (ipc_init handler base irq) s) in *.
  assert (Eh : ip_heap s1 = ip_heap (ipc_init handler base irq s)) by done.
  assert (Hok1 : ipc_ok base s1) by (by apply ipc_ok_pic).
  assert (Hf : forall b, 0 <= b < HEAP_MAX_BLOCKS -> blk_free (ip_heap s1) b = true).
  { intros b Hbb. rewrite Eh, (init_heap_eq handler base irq s) by done. by apply init4_free. }
  rewrite <- Eh in Hh.
  destruct (mesh_init_breaks_heap base s1 Hok1 Hh (Hf mesh_block ltac:(unfold mesh_block; lia))) as (B1 & B2 & B3 & B4 & _ & B6 & B7 & B8 & B9).
  fold s' in B1, B2, B3, B4, B6, B7, B8, B9. split; [exact B1|]. split; [by rewrite B3|]. split; [by rewrite B4|]. split; [exact B2|].
  split; [exact (mesh_init_pic s1)|]. split; [exact B6|]. split; [|exact B9].
  intros e He%B7. destruct Hh as [Hhok _]. pose proof (live_ok _ _ Hhok He) as Heo.
  destruct (e_off _ _ Heo), (e_blocks _ _ Heo). pose proof (e_used _ _ Heo (be_start e) ltac:(unfold covers; lia)) as Hu.
  rewrite Hf in Hu by lia. discriminate Hu.
Qed.

(** The episode the boot proposes, turn by turn. *)
Lemma boot_episode uninit e :
  let s := snd (episode_propose 1200 500 (episode_init (Engine e 0 mock_start))) in
  let n j := Nat.iter j (episode_tick actuator_get_default collector_get_default uninit) s in
  current_clock (device (n 3%nat)) = 1200 /\ episode_active (n 504%nat) = 1 /\
  episode_active (n 505%nat) = 0 /\ state (current_episode (n 505%nat)) = EP_STATE_IDLE /\ current_clock (device (n 505%nat)) = 1000.
Proof.
  destruct e, uninit. vm_compute. done.
Qed.

(** The driver on the stubs' platform: the address is the one it asked for. *)
Lemma attach_plain_stubs {H} `{PortIO H} (base size : Z) (s : ivshmem H unit mem) :
  let s' := attach_plain base size s in
  iv_host s' = iv_host s /\ ivshmem_get_shared_memory s' = 0xE0000000 /\ ivshmem_get_size s' = size /\
  iv_mmio s' = tested 0xE0000000 (iv_mmio s).
Proof.
  intros s'. set (s1 := s{{ ivshmem_mmr_base := 0; ivshmem_mmr_size := 0; ivshmem_phys_base := base; ivshmem_size := size; iv_plat := tt;
    ivshmem_virt_base := IVSHMEM_VIRT_START }}).
  assert (E : s' = memory_test s1) by (destruct s as [h [] m]; reflexivity).
  rewrite E, memory_test_ram by apply mem_ram. by destruct s.
Qed.

Lemma tested_mem_ok a m : mem_ok m -> mem_ok (tested a m).
Proof. intros Hm. unfold tested. cbn [wr32 rd32 mem_mmio snd]. by do 2 apply mem_ok_st. Qed.

(** ** The boot *)

(** C19: the boot of the x86_64 kernel on a plain ivshmem device.  From cleared static
    variables, [kmain64] finds the device, takes 0xE0000000 for its memory and brings
    up, in whatever memory is there, the channel of both rings, empty and well formed;
    the allocator of pages owns the default map; no interrupt is programmed.  But
    [ipc_mesh_init] has spoilt the heap: a block is in use that no blob owns, on every
    such boot.  The tuning engine then runs the boot's episode: the clock is 1200 MHz
    after three turns of the main loop, and after turn 505, the first that ends the
    episode, the engine is idle and the clock back at 1000. *)
Theorem boot_plain {H} `{ConfigMechanism H} {W} `{Trace W} (kernel_start kernel_end lapic_base isr irq_handler : Z) (uninit : metric_snapshot_t)
    (fuel : nat) (k : kernel H W) (d : pci_device_t) (kk base t : Z) (w : W) (e : episode_ctx_t) :
  0 <= kernel_start -> plain_device (iv_host (kn_iv k)) d kk base t -> 12 <= kk < 32 -> mem_ok (iv_mmio (kn_iv k)) ->
  zlen (blob_table (ip_heap (kn_ipc k))) = MAX_BLOBS -> clock_ok (ip_clock (kn_ipc k)) ->
  kn_pmm k = pmm_bss w -> kn_engine k = Engine e 0 mock_start ->
  exists k', kmain64 kernel_start kernel_end lapic_base isr irq_handler fuel k = Some k' /\
    same_space (iv_host (kn_iv k)) (iv_host (kn_iv k')) /\ pmm_wf (kn_pmm k') /\ highest_page (kn_pmm k') = 32767 /\
    ivshmem_get_shared_memory (kn_iv k') = 0xE0000000 /\ ivshmem_get_size (kn_iv k') = 2 ^ kk /\
    ipc_ok 0xE0000000 (kn_ipc k') /\ cmds 0xE0000000 (kn_ipc k') = [] /\ rsps 0xE0000000 (kn_ipc k') = [] /\
    ip_pic (kn_ipc k') = ip_pic (kn_ipc k) /\ local_node_id (kn_ipc k') = 0 /\
    blk_free (ip_heap (kn_ipc k')) mesh_block = false /\ (forall x, ~ live (ip_heap (kn_ipc k')) x) /\ ~ heap_ok (ip_heap (kn_ipc k')) /\
    let turn j := kn_engine (Nat.iter j (kmain64_turn uninit) k') in
    current_clock (device (turn 3%nat)) = 1200 /\ episode_active (turn 504%nat) = 1 /\
    episode_active (turn 505%nat) = 0 /\ state (current_episode (turn 505%nat)) = EP_STATE_IDLE /\ current_clock (device (turn 505%nat)) = 1000.
Proof.
  intros Hks Hp Hkk Hm Hl Hc Ep Ee. unfold kmain64. rewrite Ep.
  destruct (pmm_init_default ∅ kernel_start kernel_end w Hks) as (p & -> & Hpw & Hph & _). cbn [mbind option_bind].
  set (iv0 := (kn_iv k){{ iv_host ::= fun h => snd (pci_init h) }}).
  assert (S0 : same_space (iv_host (kn_iv k)) (iv_host iv0)) by apply pci_init_space.
  destruct (init_plain lapic_base isr fuel iv0 d kk base t (plain_device_same _ _ _ _ _ _ S0 Hp) Hkk) as (h & S1 & E1). rewrite E1.
  cbn [mbind option_bind]. destruct (attach_plain_stubs base (2 ^ kk) (iv0{{ iv_host := h }})) as (A1 & A2 & A3 & A4). clear E1.
  set (iv1 := attach_plain base (2 ^ kk) (iv0{{ iv_host := h }})) in *. clearbody iv1. rewrite A2. cbv zeta.
  change (0xE0000000 =? 0) with false. cbv iota.
  set (s := (kn_ipc k{{ kn_pmm := p; kn_iv := iv1 }}){{ ip_heap ::= fun h => h{{ shm := iv_mmio iv1 }} }}).
  assert (Hwin : mem_ok (win s)).
  { change (win s) with (iv_mmio iv1). rewrite A4. apply tested_mem_ok. exact Hm. }
  destruct (channel_up irq_handler 0xE0000000 (ivshmem_get_irq iv1) s ltac:(lia) Hwin Hl Hc) as (C1 & C2 & C3 & C4 & C5 & C6 & C7 & C8).
  destruct (boot_episode uninit e) as (D1 & D2 & D3 & D4 & D5).
  change (kn_engine k{{ kn_pmm := p; kn_iv := iv1 }}) with (kn_engine k). rewrite Ee.
  destruct (episode_propose 1200 500 (episode_init (Engine e 0 mock_start))) as [r en]. cbn [snd] in D1, D2, D3, D4, D5.
  forget (ipc_mesh_init (on_stubs (ipc_init irq_handler 0xE0000000 (ivshmem_get_irq iv1)) s)) as s'.
  eexists. split; [reflexivity|]. set (k' := _{{ kn_ipc := s'; kn_engine := en }}).
  change (kn_iv k') with iv1. change (kn_ipc k') with s'. change (kn_pmm k') with p.
  split; [rewrite A1; by transitivity (iv_host iv0)|]. do 4 (split; [done|]). do 3 (split; [done|]). split; [exact C5|]. do 4 (split; [done|]).
  assert (Et : forall j, kn_engine (Nat.iter j (kmain64_turn uninit) k') = Nat.iter j (episode_tick actuator_get_default collector_get_default uninit) en).
  { intros j. change en with (kn_engine k'). clearbody k'. induction j as [|j IH]; [done|]. cbn [Nat.iter nat_rect]. 
    change (kn_engine (kmain64_turn uninit ?x)) with (episode_tick actuator_get_default collector_get_default uninit (kn_engine x)). by f_equal. }
  cbv beta. rewrite !Et. done.
Qed.

Lemma boot_plain_witness :
  exists k', @kmain64 bridge (bridge_ports plain_kept) (list trace_rec) _ 0x100000 0x200000 0xFEE00000 0 0 255
      (Kernel (power_on plain_bridge tt ∅) (pmm_bss []) (ipc_bss (heap_bss ∅) demo_clock demo_pic)
         (Engine (EpisodeCtx 0 EP_STATE_IDLE 0 0 no_snapshot no_snapshot 0 0 0 0 0) 0 mock_start)) = Some k' /\
    ipc_ok 0xE0000000 (kn_ipc k') /\ ~ heap_ok (ip_heap (kn_ipc k')).
Proof.
  destruct (@boot_plain bridge (bridge_ports plain_kept) (bridge_mechanism plain_kept) (list trace_rec) _ 0x100000 0x200000 0xFEE00000 0 0 no_snapshot 255
    (Kernel (power_on plain_bridge tt ∅) (pmm_bss []) (ipc_bss (heap_bss ∅) demo_clock demo_pic)
       (Engine (EpisodeCtx 0 EP_STATE_IDLE 0 0 no_snapshot no_snapshot 0 0 0 0 0) 0 mock_start)) demo_dev 20 0xFE800000 8 []
    (EpisodeCtx 0 EP_STATE_IDLE 0 0 no_snapshot no_snapshot 0 0 0 0 0)) as (k' & E & _ & _ & _ & _ & _ & Hok & _ & _ & _ & _ & _ & _ & Hh & _).
  - lia.
  - exact plain_example.
  - lia.
  - exact mem_ok_empty.
  - reflexivity.
  - exact demo_clock_ok.
  - reflexivity.
  - reflexivity.
  - exists k'. split; [exact E|]. split; [exact Hok|exact Hh].
Defined.
