(* ===== verification/KAlloc.v ===== *)
(** The interface of an allocator, and its implementation by kernel/mm/kheap.c.

    A client sees a memory, [k_alloc] and [k_free], and the payloads it holds
    ([held]: address and capacity).  The laws say that payloads are disjoint, that
    allocating and freeing leave the bytes of the others alone, and that writing
    inside a payload breaks nothing.  [kheap_allocator] discharges them from the
    block list of Kheap. *)

From S2P Require Import Prelude Mem Kheap.

Class Allocator (K : Type) := {
  memory : K -> mem;
  set_memory : mem -> K -> K;
  k_alloc : Z -> K -> option (Z * K);
  k_free : Z -> K -> option K;
  held : K -> list (Z * Z) -> Prop
}.

(** The bytes of the payloads in [L]. *)
Definition inside (L : list (Z * Z)) (a : Z) : Prop := exists p c, (p, c) ∈ L /\ p <= a < p + c.

Class AllocatorLaws (K : Type) `{Allocator K} := {
  memory_set m k : memory (set_memory m k) = m;
  held_range k p c L : held k ((p, c) :: L) ->
    0 < p /\ 0 < c /\ p + c < 0x10000000000000000 /\ forall a, p <= a < p + c -> ~ inside L a;
  alloc_law k L n : held k L -> 0 < n < 0x100000000 ->
    exists p k', k_alloc n k = Some (p, k') /\
      (p = 0 /\ k' = k \/
       p <> 0 /\ (exists c, n <= c /\ held k' ((p, c) :: L)) /\ agree (inside L) (memory k) (memory k'));
  free_law k p c L : held k ((p, c) :: L) ->
    exists k', k_free p k = Some k' /\ held k' L /\ agree (inside L) (memory k) (memory k');
  write_law k p c L m : held k ((p, c) :: L) -> within p (p + c) (memory k) m -> held (set_memory m k) ((p, c) :: L);
  swap_law k x y L : held k (x :: y :: L) -> held k (y :: x :: L)
}.

(** ** kheap.c *)

(** The payloads of the used blocks laid out from [a]. *)
Fixpoint live_of (a : Z) (l : list block) : list (Z * Z) :=
  match l with
  | [] => []
  | x :: l => (if bfree x then [] else [(a + HDR, bsize x)]) ++ live_of (a + HDR + bsize x) l
  end.
Definition nonempty (x : block) : Prop := bfree x = false -> 0 < bsize x.
Definition kheap_held (h : kheap) (L : list (Z * Z)) : Prop :=
  exists l, kheap_ok h l /\ Forall nonempty l /\ Permutation L (live_of (heap_base h) l).

#[export] Instance kheap_allocator : Allocator kheap := {
  memory := kmem;
  set_memory m h := h{{ kmem := m }};
  k_alloc := kmalloc;
  k_free := kfree;
  held := kheap_held
}.

Lemma live_app a l1 l2 : live_of a (l1 ++ l2) = live_of a l1 ++ live_of (end_of a l1) l2.
Proof. revert a; induction l1 as [|x l1 IH]; intros a; cbn [live_of app end_of]; [done|]. by rewrite IH, app_assoc. Qed.

Lemma live_free a l : all_free l -> live_of a l = [].
Proof. intros Hl; revert a; induction Hl as [|x l Hx Hl IH]; intros a; cbn [live_of]; [done|]. by rewrite Hx, IH. Qed.

Lemma live_elem a l p c :
  (p, c) ∈ live_of a l -> exists l1 x l2, l = l1 ++ x :: l2 /\ bfree x = false /\ p = end_of a l1 + HDR /\ c = bsize x.
Proof.
  revert a; induction l as [|x l IH]; intros a; cbn [live_of]; [by intros ?%not_elem_of_nil|].
  intros [Hx|Hl]%elem_of_app.
  - destruct (bfree x) eqn:Ef; [by apply not_elem_of_nil in Hx|]. apply list_elem_of_singleton in Hx. injection Hx as -> ->.
    by exists [], x, l.
  - destruct (IH _ Hl) as (l1 & y & l2 & -> & Hy & -> & ->). by exists (x :: l1), y, l2.
Qed.

Lemma inside_owned a l b : inside (live_of a l) b <-> owned a l b.
Proof.
  split.
  - intros (p & c & Hin & Hb). destruct (live_elem a l p c Hin) as (l1 & x & l2 & -> & Hx & -> & ->).
    apply owned_app. right. apply owned_cons. left. split; [done|lia].
  - revert a; induction l as [|x l IH]; intros a.
    + intros (l1 & y & l3 & E & _). by destruct l1.
    + intros [[Hx Hb]|Ho]%owned_cons; cbn [live_of].
      * rewrite Hx. exists (a + HDR), (bsize x). split; [by left|lia].
      * destruct (IH _ Ho) as (p & c & Hin & Hb). exists p, c. split; [|done]. apply elem_of_app. by right.
Qed.

Lemma inside_perm L L' a : Permutation L L' -> inside L a <-> inside L' a.
Proof. intros HP. unfold inside. by setoid_rewrite HP. Qed.

(** A held payload is a block of the list. *)
Lemma held_block h p c L :
  kheap_held h ((p, c) :: L) -> exists l1 x l2, kheap_ok h (l1 ++ x :: l2) /\ Forall nonempty (l1 ++ x :: l2) /\
    bfree x = false /\ p = end_of (heap_base h) l1 + HDR /\ c = bsize x /\
    Permutation L (live_of (heap_base h) l1 ++ live_of (end_of (heap_base h) l1 + HDR + bsize x) l2).
Proof.
  intros (l & Hok & Hne & HP). assert (Hin : (p, c) ∈ live_of (heap_base h) l) by (rewrite <- HP; by left).
  destruct (live_elem _ _ _ _ Hin) as (l1 & x & l2 & -> & Hx & Ep & Ec). exists l1, x, l2. do 5 (split; [done|]).
  rewrite live_app in HP. cbn [live_of] in HP. rewrite Hx, <- Ep, <- Ec in HP. cbn [app] in HP.
  rewrite <- Ep, <- Ec. by apply (Permutation_cons_app_inv _ _ HP).
Qed.

Lemma nonempty_taken x want : bfree x = true -> 0 < want <= bsize x -> Forall nonempty (taken x want).
Proof. intros Hx Hw. unfold taken, nonempty. destruct (_ <=? _); repeat constructor; cbn; (done || lia). Qed.

(** Memory changed inside a used payload. *)
Lemma write_block h l1 x l2 m :
  let p := end_of (heap_base h) l1 + HDR in
  kheap_wf h (l1 ++ x :: l2) -> within p (p + bsize x) (kmem h) m -> kheap_wf h{{ kmem := m }} (l1 ++ x :: l2).
Proof.
  intros p Hwf Hw. destruct (at_bounds h l1 x l2 Hwf) as (Hb & _ & Hx & _). pose proof Hwf as [K1 K2 K3 K4 K5 K6]. split; try done.
  change (seg m 0 (heap_base h) (l1 ++ x :: l2) 0). apply seg_app in K4 as [S1 S2]. apply seg_app.
  destruct S2 as (Hh & Hs & S2). split; [|split; [|split; [exact Hs|]]].
  - eapply seg_within; [exact Hw|unfold p; lia|exact S1].
  - eapply header_within; [exact Hw|unfold p; lia|exact Hh].
  - eapply seg_within; [exact Hw|unfold p; lia|exact S2].
Qed.

Lemma kheap_range h p c L :
  kheap_held h ((p, c) :: L) -> 0 < p /\ 0 < c /\ p + c < 0x10000000000000000 /\ forall a, p <= a < p + c -> ~ inside L a.
Proof.
  intros (l1 & x & l2 & [Hwf Hco] & Hne & Hx & -> & -> & HP)%held_block. destruct (at_bounds h l1 x l2 Hwf) as (Hb & _ & Hx0 & He & Ht).
  destruct (at_sizes h l1 x l2 Hwf) as [S1 S2].
  apply Forall_app in Hne as [_ [Hnx _]%Forall_cons]. specialize (Hnx Hx). assert (0 <= zlen l2) by (unfold zlen; lia).
  split; [lia|]. split; [done|]. split; [lia|]. intros a Ha Hi. apply (inside_perm _ _ _ HP) in Hi.
  destruct Hi as (q & d & [Hin|Hin]%elem_of_app & Hr).
  - assert (Ho : owned (heap_base h) l1 a) by (apply inside_owned; by exists q, d). apply owned_bounds in Ho; [lia|done].
  - assert (Ho : owned (end_of (heap_base h) l1 + HDR + bsize x) l2 a) by (apply inside_owned; by exists q, d). apply owned_bounds in Ho; [lia|done].
Qed.

Lemma kheap_alloc h L n :
  kheap_held h L -> 0 < n < 0x100000000 ->
  exists p h', kmalloc n h = Some (p, h') /\
    (p = 0 /\ h' = h \/
     p <> 0 /\ (exists c, n <= c /\ kheap_held h' ((p, c) :: L)) /\ agree (inside L) (kmem h) (kmem h')).
Proof.
  intros (l & Hok & Hne & HP) Hn. destruct (kmalloc_eq h l n Hok ltac:(lia) ltac:(lia)) as [[_ E]|(l1 & x & l2 & -> & _ & Hx & Hle & E)].
  { exists 0, h. split; [exact E|by left]. }
  set (want := (n + 15) / 16 * 16) in *. assert (Hw : n <= want /\ want mod 16 = 0) by (unfold want; Z.div_mod_to_equations; lia).
  pose proof Hok as [Hwf _]. destruct (at_bounds h l1 x l2 Hwf) as (Hb & _).
  destruct (kmalloc_take h l1 x l2 want Hok Hx ltac:(lia) ltac:(lia)) as (Hok' & (_ & Eb & _) & Ha).
  cbv zeta in E. set (h' := set32 _ _ 0 _) in *. clearbody h'. eexists _, h'. split; [exact E|right]. split; [lia|].
  assert (Et : exists y r, taken x want = y :: r /\ bfree y = false /\ n <= bsize y /\ all_free r).
  { unfold taken. destruct (_ <=? _); eexists _, _; (split; [done|]); cbn; (split; [done|]); (split; [lia|]); by repeat constructor. }
  destruct Et as (y & r & Et & Hy & Hc & Hr). split.
  - exists (bsize y). split; [done|]. exists (l1 ++ taken x want ++ l2). split; [exact Hok'|]. split.
    + apply Forall_app in Hne as [N1 [_ N2]%Forall_cons]. apply Forall_app. split; [done|]. apply Forall_app. split; [|done].
      apply nonempty_taken; [done|lia].
    + rewrite Eb, HP, Et, !live_app. cbn [live_of app end_of]. rewrite Hx, Hy. cbn [app]. rewrite (live_free _ r Hr). cbn [app].
      assert (El : end_of (end_of (heap_base h) l1 + HDR + bsize y) r = end_of (heap_base h) l1 + HDR + bsize x).
      { unfold taken in Et. destruct (_ <=? _); injection Et as <- <-; cbn; lia. }
      rewrite El. apply Permutation_middle.
  - intros a Hi. apply Ha. apply inside_owned. by apply (inside_perm _ _ _ HP).
Qed.

Lemma kheap_free h p c L :
  kheap_held h ((p, c) :: L) -> exists h', kfree p h = Some h' /\ kheap_held h' L /\ agree (inside L) (kmem h) (kmem h').
Proof.
  intros (l1 & x & l2 & Hok & Hne & Hx & -> & -> & HP)%held_block.
  assert (Hx0 : 0 < bsize x) by (apply Forall_app in Hne as [_ [Hnx _]%Forall_cons]; by apply Hnx).
  assert (Hin : forall a, inside L a -> owned (heap_base h) (l1 ++ Block (bsize x) true :: l2) a).
  { intros a Ha. apply (inside_perm _ _ _ HP) in Ha. apply inside_owned. rewrite live_app. exact Ha. }
  destruct (free_suffix l1) as (l0 & zs & -> & Hz & H0), (free_prefix l2) as (ys & l3 & -> & Hy & H3).
  destruct (kfree_spec h l0 zs x ys l3 Hok Hx0 Hx Hz H0 Hy H3) as (h' & E & Hok' & (_ & Eb & _) & Ha).
  exists h'. split; [exact E|]. split.
  - eexists. split; [exact Hok'|]. split.
    + apply Forall_app in Hne as [[N0 _]%Forall_app [_ [_ N3]%Forall_app]%Forall_cons]. apply Forall_app. split; [done|].
      constructor; [|done]. intros Hf. discriminate Hf.
    + rewrite Eb, HP, !live_app, (live_free _ zs Hz), (live_free _ ys Hy), app_nil_r. cbn [live_of app bfree end_of bsize].
      assert (El : end_of (end_of (heap_base h) (l0 ++ zs) + HDR + bsize x) ys = end_of (heap_base h) l0 + HDR + (end_of 0 (zs ++ x :: ys) - HDR)).
      { rewrite !end_of_app. cbn [end_of]. rewrite (end_of_shift _ zs), (end_of_shift _ ys), (end_of_shift (end_of 0 zs + _ + _) ys). lia. }
      by rewrite El.
  - intros a Hi. apply Ha. by apply Hin.
Qed.

#[export, refine] Instance kheap_laws : AllocatorLaws kheap := {}.
Proof.
  - done.
  - exact kheap_range.
  - exact kheap_alloc.
  - exact kheap_free.
  - intros h p c L m Hh Hw. destruct (held_block _ _ _ _ Hh) as (l1 & x & l2 & [Hwf Hco] & Hne & Hx & -> & -> & HP).
    exists (l1 ++ x :: l2). split; [split; [by apply write_block|done]|]. split; [done|]. rewrite HP, live_app. cbn [live_of]. rewrite Hx.
    apply Permutation_middle.
  - intros h x y L (l & Hok & Hne & HP). exists l. split; [done|]. split; [done|]. rewrite <- HP. apply perm_swap.
Defined.

(** A heap of one free block holds nothing. *)
Lemma kheap_held_fresh h n : kheap_ok h [Block n true] -> held h [].
Proof. intros Hok. exists [Block n true]. split; [done|]. split; [|done]. repeat constructor. intros Hf. discriminate Hf. Qed.
