(* ===== verification/Infer.v ===== *)
(** kernel/wasm_loader.c, math_vec_dot of kernel/lib/math.c and
    kernel/wasm/host_funcs.c: the linear policy the kernel runs on a model's weights,
    and what it checks of a WebAssembly guest's pointers.

    The weights are copied from a blob of the shared heap into the kernel's heap,
    which is any allocator with the laws of KAlloc.  A float is its 32-bit word and
    the machine's two operations on them are an interface ([Float32]), implemented
    here by the standard's binary32.  A pointer to floats is the list of the words
    there.  Addresses wrap at [modulus] (2^32 or 2^64).  The interpreter itself, in
    lib/wasm3, is third-party code and not modelled; the calls that run it are in
    Agent.

    The theorems: an inference is the dot product with the weights of the blob, as
    they were when first used; a guest's print reads inside its memory only. *)

From Stdlib Require Import Floats.SpecFloat.
From S2P Require Import Prelude Mem Bitmap IpcProto SharedHeap Console Keyboard Kheap KAlloc.

(** ** Floats *)

Class Float32 := { fmul : Z -> Z -> Z; fadd : Z -> Z -> Z }.

(** Binary32 of the standard: words and values. *)
Definition float_of_word (w : Z) : spec_float :=
  let s := Z.testbit w 31 in
  let e := Z.land (Z.shiftr w 23) 0xFF in
  let m := Z.land w 0x7FFFFF in
  if e =? 0xFF then (if m =? 0 then S754_infinity s else S754_nan)
  else if e =? 0 then (match m with Zpos p => S754_finite s p (-149) | _ => S754_zero s end)
  else match m + 0x800000 with Zpos p => S754_finite s p (e - 150) | _ => S754_nan end.
Definition sign_word (s : bool) : Z := if s then 0x80000000 else 0.
Definition word_of_float (f : spec_float) : Z :=
  match f with
  | S754_zero s => sign_word s
  | S754_infinity s => sign_word s + 0x7F800000
  | S754_nan => 0x7FC00000
  | S754_finite s m e => sign_word s + (if Zpos m <? 0x800000 then Zpos m else 0x800000 * (e + 150) + (Zpos m - 0x800000))
  end.
#[export] Instance binary32 : Float32 := {
  fmul a b := word_of_float (SFmul 24 128 (float_of_word a) (float_of_word b));
  fadd a b := word_of_float (SFadd 24 128 (float_of_word a) (float_of_word b))
}.

Example float_one_plus_two : fadd 0x3F800000 0x40000000 = 0x40400000. Proof. vm_compute. reflexivity. Qed.
Example float_product : fmul 0x40400000 0xBF000000 = 0xBFC00000. Proof. vm_compute. reflexivity. Qed.

(** ** The loader's state *)

Record wasm (K : Type) := Wasm {
  ws_heap : heap;                    (* ipc/heap.c *)
  ws_k : K;                          (* the kernel's heap *)
  g_last_obs : option (list Z);
  g_last_obs_len : Z;
  g_cached_model_id : Z;
  g_cached_weights : Z;
  g_cached_weights_len : Z
}.
Arguments Wasm {K}.
Arguments ws_heap {K}.
Arguments ws_k {K}.
Arguments g_last_obs {K}.
Arguments g_last_obs_len {K}.
Arguments g_cached_model_id {K}.
Arguments g_cached_weights {K}.
Arguments g_cached_weights_len {K}.
#[export] Instance wasm_eta K : Eta (wasm K) := fun s =>
  Wasm (ws_heap s) (ws_k s) (g_last_obs s) (g_last_obs_len s) (g_cached_model_id s) (g_cached_weights s) (g_cached_weights_len s).

Definition wasm_bss {K} (h : heap) (k : K) : wasm K := Wasm h k None 0 0 0 0.

Section Infer.
Context {K : Type} `{Allocator K} `{Float32}.
Implicit Types s : wasm K.

(** [buf[i] = src[i]] for [len] floats, from the window into the kernel's memory. *)
Definition copy_floats (src_mem : mem) (buf src len : Z) (m : mem) : mem :=
  for_range 0 len (fun i m => st32 m (buf + 4 * i) (ld32 src_mem (src + 4 * i))) m.

(** The end of [wasm_load_model_weights]: a buffer, the copy, the old buffer given back. *)
Definition copy_weights (src len model_id : Z) s : option (Z * wasm K) :=
  '(buf, k) ← k_alloc (len * 4) (ws_k s);
  let s := s{{ ws_k := k }} in
  if buf =? 0 then Some (-1, s)
  else
    let s := s{{ ws_k ::= fun k => set_memory (copy_floats (shm (ws_heap s)) buf src len (memory k)) k }} in
    k ← (if g_cached_weights s =? 0 then Some (ws_k s) else k_free (g_cached_weights s) (ws_k s));
    let s := s{{ ws_k := k }} in
    Some (0, s{{ g_cached_weights := buf; g_cached_weights_len := len; g_cached_model_id := model_id }}).

(** [None]: a walk of one of the heaps does not end. *)
Definition wasm_load_model_weights (model_id : Z) s : option (Z * wasm K) :=
  if model_id =? 0 then Some (-1, s)
  else if (g_cached_model_id s =? model_id) && negb (g_cached_weights s =? 0) && (0 <? g_cached_weights_len s) then Some (0, s)
  else
    '(size, h) ← heap_get_blob_size (u16 model_id) (ws_heap s);
    let s := s{{ ws_heap := h }} in
    if (size =? 0) || negb (size mod 4 =? 0) then Some (-1, s)
    else
      let len := size / 4 in
      '(src, h) ← heap_get_data (u16 model_id) (ws_heap s);
      let s := s{{ ws_heap := h }} in
      if src =? 0 then Some (-1, s) else copy_weights src len model_id s.

(** [b] is read from memory. *)
Definition math_vec_dot (a : list Z) (b : Z -> Z) (n : Z) : Z :=
  for_range 0 n (fun i sum => fadd sum (fmul (zget a i) (b i))) 0.

Definition is_positive (u : Z) : bool := (Z.land u 0x80000000 =? 0) && negb (Z.land u 0x7FFFFFFF =? 0).

(** The status and the action. *)
Definition zenedge_infer_action (obs : option (list Z)) (obs_len model_id : Z) s : option (Z * Z * wasm K) :=
  match obs with
  | None => Some (-1, 0, s)
  | Some obs =>
    if obs_len =? 0 then Some (-1, 0, s)
    else
      '(r, s) ← wasm_load_model_weights model_id s;
      if negb (r =? 0) then Some (-1, 0, s)
      else
        let n := if g_cached_weights_len s <? obs_len then g_cached_weights_len s else obs_len in
        if n =? 0 then Some (-1, 0, s)
        else
          let score := math_vec_dot obs (fun i => ld32 (memory (ws_k s)) (g_cached_weights s + 4 * i)) n in
          Some (0, Z.b2z (is_positive score), s)
  end.

Definition kernel_infer_action (obs : option (list Z)) (obs_len model_id : Z) s : option (Z * wasm K) :=
  '(r, action, s) ← zenedge_infer_action obs obs_len model_id s;
  Some (if negb (r =? 0) then -1 else action, s).

(** The host's import: the guest's [tensor_id] is an [int32_t]. *)
Definition m3_zenedge_inference (tensor_id : Z) s : option (Z * wasm K) :=
  match g_last_obs s with
  | None => Some (0, s)
  | Some obs =>
    if g_last_obs_len s =? 0 then Some (0, s)
    else
      '(r, action, s) ← zenedge_infer_action (Some obs) (g_last_obs_len s) (u32 tensor_id) s;
      Some (if negb (r =? 0) then 0 else action, s)
  end.

(** The id and the length go where the caller asks. *)
Definition wasm_get_profile s : Z * Z * Z :=
  (g_cached_model_id s, if 0xFFFF <? g_cached_weights_len s then 0xFFFF else u16 (g_cached_weights_len s), g_cached_weights s).
End Infer.

(** ** The guest's memory *)

Inductive host_result := Success (out : list Z) | TrapOutOfBounds (out : list Z) | TrapAbort (out : list Z).

(** A NUL-terminated buffer that holds [l], as [console_write] prints it. *)
Fixpoint until_nul (l : list Z) : list Z :=
  match l with
  | [] => []
  | c :: l => if c =? 0 then [] else c :: until_nul l
  end.

Section Guest.
Variable modulus : Z.
Definition wrap (x : Z) : Z := x mod modulus.

Definition WASM_PRINT_MAX_BYTES : Z := 512.

(** The memory's address (0: none) and size. *)
Definition wasm_mem_span_ok (base mem_size p len : Z) : Z :=
  if base =? 0 then 0
  else
    let end_ := wrap (base + mem_size) in
    let b := wrap (p + len) in
    if b <? p then 0 else if p <? base then 0 else if end_ <? b then 0 else 1.

(** Chunks of 63 characters. *)
Fixpoint print_chunks (fuel : nat) (m : mem) (ptr i len : Z) : option (list Z) :=
  if i <? len then
    match fuel with
    | O => None
    | S fuel =>
      let n := if 63 <? len -u i then 63 else len -u i in
      rest ← print_chunks fuel m ptr (i +u n) len;
      Some (until_nul (bytes m (ptr + i) (Z.to_nat n)) ++ rest)
    end
  else Some [].

(** [off] is the guest's pointer. *)
Definition m3_zenedge_print (fuel : nat) (m : mem) (base mem_size off len : Z) : option host_result :=
  let ptr := wrap (base + off) in
  let len := if WASM_PRINT_MAX_BYTES <? len then WASM_PRINT_MAX_BYTES else len in
  if wasm_mem_span_ok base mem_size ptr len =? 0 then Some (TrapOutOfBounds (ascii "[wasm] print OOB" ++ [10]))
  else
    text ← print_chunks fuel m ptr 0 len;
    Some (Success (ascii "[wasm] " ++ text ++ [10])).

Definition m3_zenedge_log_int (val : Z) : host_result := Success (ascii "[wasm] log_int: " ++ uint_text (u32 val) ++ [10]).
Definition m3_zenedge_abort (line col : Z) : host_result :=
  TrapAbort (ascii "[wasm] abort at " ++ uint_text line ++ ascii ":" ++ uint_text col ++ [10]).

(** The shared window's address and size are the driver's. *)
Definition m3_zenedge_accelerate (window shm_size ptr size : Z) : Z :=
  if (window =? 0) || (shm_size =? 0) then 0
  else
    let end_ := wrap (window + shm_size) in
    let q := wrap (ptr + size) in
    if q <? ptr then 0 else if (ptr <? window) || (end_ <? q) then 0 else 1.
End Guest.

(** ** Loading weights *)

Lemma copy_floats_spec src_mem buf src len m :
  0 <= len -> mem_ok src_mem ->
  within buf (buf + 4 * len) m (copy_floats src_mem buf src len m) /\
  forall i, 0 <= i < len -> ld32 (copy_floats src_mem buf src len m) (buf + 4 * i) = ld32 src_mem (src + 4 * i).
Proof.
  intros Hlen Hm. apply (for_range_ind (fun j m' => within buf (buf + 4 * len) m m' /\
    forall i, 0 <= i < j -> ld32 m' (buf + 4 * i) = ld32 src_mem (src + 4 * i))).
  - lia.
  - split; [done|lia].
  - intros j m' Hj [Hw He]. split.
    + apply within_st_r; [lia|change (Z.of_nat 4) with 4; lia|done].
    + intros i Hi. destruct (Z.eq_dec i j) as [->|Hne].
      * apply ld_st_eq. pose proof (ld_range 4 src_mem (src + 4 * j) Hm) as Hr. exact Hr.
      * rewrite ld_st_ne by (change (Z.of_nat 4) with 4; lia). apply He. lia.
Qed.

(** A lookup changes the table of blobs only. *)
Lemma heap_get_blob_keeps id h blob h' : heap_get_blob id h = Some (blob, h') -> shm h' = shm h.
Proof.
  unfold heap_get_blob. destruct (_ || _); [by intros [= <- <-]|]. destruct (find_range _ _ _); [by intros [= <- <-]|].
  destruct (scan_heap _ _ _ _) as [[o|]|]; [|by intros [= <- <-]|discriminate]. cbn [mbind option_bind]. intros [= <- <-].
  unfold add_blob. by destruct (_ <? _).
Qed.
Lemma heap_get_data_keeps id h p h' : heap_get_data id h = Some (p, h') -> shm h' = shm h.
Proof.
  unfold heap_get_data. destruct (heap_get_blob id h) as [[b h1]|] eqn:E; [|discriminate]. cbn [mbind option_bind].
  apply heap_get_blob_keeps in E. by destruct (b =? 0); intros [= <- <-].
Qed.
Lemma heap_get_blob_size_keeps id h size h' :
  heap_get_blob_size id h = Some (size, h') -> shm h' = shm h /\ (mem_ok (shm h) -> 0 <= size < 0x100000000).
Proof.
  unfold heap_get_blob_size. destruct (heap_get_blob id h) as [[b h1]|] eqn:E; [|discriminate]. cbn [mbind option_bind].
  apply heap_get_blob_keeps in E. destruct (b =? 0); intros [= <- <-]; (split; [done|]); intros Hm; [lia|].
  rewrite <- E in Hm. exact (ld_range 4 _ _ Hm).
Qed.

Section Dot.
Context `{Float32}.
Lemma dot_ext a b b' n : (forall i, 0 <= i < n -> b i = b' i) -> math_vec_dot a b n = math_vec_dot a b' n.
Proof. intros Hb. apply for_range_ext. intros i x Hi. by rewrite Hb. Qed.
End Dot.

Section Load.
Context {K : Type} `{AllocatorLaws K} `{Float32}.
Implicit Types (s : wasm K) (L : list (Z * Z)).

(** The cached weights are a payload of the kernel's heap; [L] are the payloads
    others hold. *)
Definition cache_ok s L : Prop :=
  (g_cached_weights s = 0 /\ held (ws_k s) L) \/
  exists c, held (ws_k s) ((g_cached_weights s, c) :: L) /\ 0 < g_cached_weights_len s /\ 4 * g_cached_weights_len s <= c.
Record wasm_ok s L : Prop := {
  wo_heap : heap_ok (ws_heap s);
  wo_cache : cache_ok s L
}.

Definition weights s : list Z :=
  (fun i => ld32 (memory (ws_k s)) (g_cached_weights s + 4 * i)) <$> seqZ 0 (g_cached_weights_len s).

(** The floats of a blob. *)
Definition blob_floats (h : heap) (e : blob_entry) : list Z :=
  let blob := heap_data h + be_offset e in
  (fun i => ld32 (shm h) (blob + SIZEOF_heap_blob_t + 4 * i)) <$> seqZ 0 (blob_size_of h blob / 4).

Lemma zget_seqZ (f : Z -> Z) n i : 0 <= i < n -> zget (f <$> seqZ 0 n) i = f i.
Proof.
  intros Hi. apply zget_lookup; [lia|]. rewrite list_lookup_fmap, lookup_seqZ_lt by lia. cbn. do 2 f_equal. lia.
Qed.

(** A payload taken and filled with floats. *)
Lemma alloc_copy k L src_mem src len :
  held k L -> 0 < len -> 4 * len < 0x100000000 -> mem_ok src_mem ->
  exists buf k', k_alloc (len * 4) k = Some (buf, k') /\
    (buf = 0 /\ k' = k \/
     buf <> 0 /\ let k2 := set_memory (copy_floats src_mem buf src len (memory k')) k' in
       (exists c, 4 * len <= c /\ held k2 ((buf, c) :: L)) /\ agree (inside L) (memory k) (memory k2) /\
       forall i, 0 <= i < len -> ld32 (memory k2) (buf + 4 * i) = ld32 src_mem (src + 4 * i)).
Proof.
  intros Hh Hl Hl4 Hm. destruct (alloc_law k L (len * 4) Hh ltac:(lia)) as (buf & k' & E & Hc). exists buf, k'. split; [exact E|].
  destruct Hc as [?|(Hb & (c & Hc & Hh') & Ha)]; [by left|right]. split; [done|]. cbv zeta. rewrite memory_set.
  destruct (copy_floats_spec src_mem buf src len (memory k') ltac:(lia) Hm) as [Hw Hv].
  destruct (held_range _ _ _ _ Hh') as (_ & _ & _ & Hout). split; [|split; [|exact Hv]].
  - exists c. split; [lia|]. apply write_law; [exact Hh'|]. eapply within_mono; [| |exact Hw]; lia.
  - transitivity (memory k'); [exact Ha|]. intros a Hi. apply (within_ldb _ _ _ _ _ Hw).
    destruct (decide (a < buf)); [by left|right]. destruct (decide (buf + 4 * len <= a)); [done|]. by destruct (Hout a ltac:(lia)).
Qed.

Lemma inside_tail x L a : inside L a -> inside (x :: L) a.
Proof. intros (p & c & Hin & Ha). exists p, c. split; [by right|done]. Qed.

(** The words of a payload are kept when its bytes are. *)
Lemma agree_words L p c len m m' :
  agree (inside ((p, c) :: L)) m m' -> 4 * len <= c -> forall i, 0 <= i < len -> ld32 m' (p + 4 * i) = ld32 m (p + 4 * i).
Proof.
  intros Ha Hc i Hi. apply (ld_agree _ 4 _ _ _ Ha). intros y Hy. change (Z.of_nat 4) with 4 in Hy. exists p, c. split; [by left|lia].
Qed.

(** A failed copy changes nothing; a successful one puts the floats at [src] in
    the cache. *)
Lemma copy_weights_spec s L src len id :
  cache_ok s L -> mem_ok (shm (ws_heap s)) -> 0 < len -> 4 * len < 0x100000000 ->
  exists r s', copy_weights src len id s = Some (r, s') /\ ws_heap s' = ws_heap s /\ cache_ok s' L /\
    agree (inside L) (memory (ws_k s)) (memory (ws_k s')) /\ g_last_obs s' = g_last_obs s /\ g_last_obs_len s' = g_last_obs_len s /\
    (r = -1 /\ s' = s \/
     r = 0 /\ g_cached_model_id s' = id /\ g_cached_weights_len s' = len /\ g_cached_weights s' <> 0 /\
     forall i, 0 <= i < len -> ld32 (memory (ws_k s')) (g_cached_weights s' + 4 * i) = ld32 (shm (ws_heap s)) (src + 4 * i)).
Proof.
  intros Hc Hm Hl0 Hfit. unfold copy_weights. destruct s as [h k lo lol cid cw cwl].
  cbn [ws_heap ws_k g_cached_weights g_cached_weights_len] in *. destruct Hc as [[Ecw Hc]|(c0 & Hc & Hwl & Hcap)];
    cbn [ws_heap ws_k g_cached_weights g_cached_weights_len] in *; [subst cw|].
  - destruct (alloc_copy k L (shm h) src len Hc Hl0 Hfit Hm) as (buf & k' & Ea & Hcase). rewrite Ea. cbn [mbind option_bind].
    destruct Hcase as [[-> ->]|(Hb & (c & Hcc & Hh2) & Hag & Hv)].
    + eexists _, _. split; [reflexivity|]. split; [done|]. split; [by left|]. do 3 (split; [done|]). by left.
    + rewrite (proj2 (Z.eqb_neq buf 0)) by done. exists 0, (Wasm h (set_memory (copy_floats (shm h) buf src len (memory k')) k') lo lol id buf len).
      split; [reflexivity|]. split; [done|]. split; [right; by exists c|]. split; [exact Hag|]. do 2 (split; [done|]). right.
      do 4 (split; [done|]). exact Hv.
  - destruct (held_range _ _ _ _ Hc) as (Hcw & _).
    destruct (alloc_copy k ((cw, c0) :: L) (shm h) src len Hc Hl0 Hfit Hm) as (buf & k' & Ea & Hcase). rewrite Ea. cbn [mbind option_bind].
    destruct Hcase as [[-> ->]|(Hb & (c & Hcc & Hh2) & Hag & Hv)].
    + eexists _, _. split; [reflexivity|]. split; [done|]. split; [right; by exists c0|]. do 3 (split; [done|]). by left.
    + rewrite (proj2 (Z.eqb_neq buf 0)) by done.
      destruct (free_law _ _ _ _ (swap_law _ _ _ _ Hh2)) as (k3 & Ef & Hh3 & Hag3).
      exists 0, (Wasm h k3 lo lol id buf len). split.
      { set (k2 := set_memory _ k') in *.
        enough (E : (k ← (if cw =? 0 then Some k2 else k_free cw k2); Some (0, Wasm h k lo lol id buf len)) = Some (0, Wasm h k3 lo lol id buf len)) by exact E.
        by rewrite (proj2 (Z.eqb_neq cw 0)), Ef by lia. }
      split; [done|]. split; [right; by exists c|]. split; [|do 2 (split; [done|]); right].
      * etransitivity; [|intros a Ha; apply Hag3; apply inside_tail, Ha]. intros a Ha. apply Hag. by apply inside_tail.
      * do 4 (split; [done|]). intros i Hi. cbn [ws_k g_cached_weights]. rewrite (agree_words L buf c len _ _ Hag3) by lia. apply Hv. lia.
Qed.

Lemma load_weights s L e id :
  wasm_ok s L -> live (ws_heap s) e -> u16 id = be_blob_id e -> id <> 0 ->
  let size := blob_size_of (ws_heap s) (heap_data (ws_heap s) + be_offset e) in
  0 < size -> size mod 4 = 0 -> g_cached_model_id s <> id \/ g_cached_weights s = 0 ->
  exists r s', wasm_load_model_weights id s = Some (r, s') /\ ws_heap s' = ws_heap s /\ wasm_ok s' L /\
    agree (inside L) (memory (ws_k s)) (memory (ws_k s')) /\
    (r = -1 /\ s' = s \/
     r = 0 /\ g_cached_model_id s' = id /\ g_cached_weights_len s' = size / 4 /\ g_cached_weights s' <> 0 /\
     weights s' = blob_floats (ws_heap s) e).
Proof.
  intros Hok He Eid Hid size Hs0 Hs4 Hmiss. pose proof Hok as [Hh Hc]. destruct (heap_lookup_live _ _ Hh He) as (_ & Hgd & Hgs & Hlo & Hhi).
  fold size in Hgs, Hhi. pose proof (ok_ctl _ Hh). pose proof (ok_data _ Hh). pose proof (ok_mem _ Hh) as Hm.
  unfold wasm_load_model_weights. rewrite (proj2 (Z.eqb_neq id 0)) by done.
  assert (Eh : (g_cached_model_id s =? id) && negb (g_cached_weights s =? 0) && (0 <? g_cached_weights_len s) = false).
  { destruct Hmiss as [Hne| ->]; [by rewrite (proj2 (Z.eqb_neq _ _) Hne)|]. by rewrite andb_false_r. }
  rewrite Eh, Eid, Hgs. cbn [mbind option_bind]. rewrite (proj2 (Z.eqb_neq size 0)), Hs4 by lia. cbv zeta. cbn [Z.eqb negb orb].
  assert (Es : s{{ ws_heap := ws_heap s }} = s) by (by destruct s). rewrite Es, Hgd. cbn [mbind option_bind]. rewrite Es.
  set (src := heap_data (ws_heap s) + be_offset e + SIZEOF_heap_blob_t) in *.
  rewrite (proj2 (Z.eqb_neq src 0)) by (unfold src; lia).
  assert (Hlen : 0 < size / 4 /\ size / 4 * 4 = size) by (Z.div_mod_to_equations; lia). destruct Hlen as [Hl0 Hl4].
  assert (Hfit : 4 * (size / 4) < 0x100000000) by (change IPC_HEAP_DATA_SIZE with 0xED000 in Hhi; unfold src in *; lia).
  destruct (copy_weights_spec s L src (size / 4) id Hc Hm Hl0 Hfit) as (r & s' & E & E1 & Hc' & Ha & _ & _ & Hcase).
  exists r, s'. split; [exact E|]. split; [exact E1|]. split; [split; [by rewrite E1|exact Hc']|]. split; [exact Ha|].
  destruct Hcase as [?|(-> & E2 & E3 & E4 & Hv)]; [by left|right]. do 4 (split; [done|]).
  unfold weights, blob_floats. rewrite E3. apply list_fmap_ext. intros i x Hx.
  apply lookup_seqZ in Hx as [-> Hx]. fold size in Hx. apply Hv. lia.
Qed.

(** Whatever blob a guest names: the window, the other payloads and the
    observation are kept. *)
Lemma load_keeps s L id r s' :
  cache_ok s L -> mem_ok (shm (ws_heap s)) -> wasm_load_model_weights id s = Some (r, s') ->
  cache_ok s' L /\ shm (ws_heap s') = shm (ws_heap s) /\ agree (inside L) (memory (ws_k s)) (memory (ws_k s')) /\
  g_last_obs s' = g_last_obs s /\ g_last_obs_len s' = g_last_obs_len s.
Proof.
  intros Hc Hm. unfold wasm_load_model_weights. destruct (id =? 0); [by intros [= <- <-]|].
  destruct (_ && _ && _); [by intros [= <- <-]|].
  destruct (heap_get_blob_size (u16 id) (ws_heap s)) as [[size h1]|] eqn:E1; [|discriminate]. cbn [mbind option_bind].
  pose proof (heap_get_blob_size_keeps _ _ _ _ E1) as [Em1 Hsz]. specialize (Hsz Hm).
  destruct ((size =? 0) || negb (size mod 4 =? 0)) eqn:Ez; [by intros [= <- <-]|].
  apply orb_false_elim in Ez as [Hz0%Z.eqb_neq Hz4%negb_false_iff%Z.eqb_eq].
  change (ws_heap s{{ ws_heap := h1 }}) with h1.
  destruct (heap_get_data (u16 id) h1) as [[src h2]|] eqn:E2; [|discriminate]. cbn [mbind option_bind].
  pose proof (heap_get_data_keeps _ _ _ _ E2) as Em2.
  set (s2 := s{{ ws_heap := h1 }}{{ ws_heap := h2 }}).
  assert (Hc2 : cache_ok s2 L) by exact Hc.
  assert (Em : shm (ws_heap s2) = shm (ws_heap s)) by (etransitivity; [exact Em2|exact Em1]).
  destruct (src =? 0); [by intros [= <- <-]|]. intros E.
  destruct (copy_weights_spec s2 L src (size / 4) id Hc2) as (r' & s3 & E' & Eh & Hc' & Ha & Eo & El & _).
  - by rewrite Em.
  - Z.div_mod_to_equations; lia.
  - Z.div_mod_to_equations; lia.
  - rewrite E in E'. injection E' as <- <-. split; [exact Hc'|]. split; [by rewrite Eh|]. split; [exact Ha|]. by split.
Qed.
End Load.

(** ** A guest's pointers *)

Lemma until_nul_id l : Forall (fun c => c <> 0) l -> until_nul l = l.
Proof. induction 1 as [|c l Hc _ IH]; [done|]. cbn [until_nul]. by rewrite (proj2 (Z.eqb_neq c 0)), IH. Qed.

(** The text in chunks of 63, each cut at its first NUL. *)
Fixpoint chunked (n : nat) (l : list Z) : list Z :=
  match n with
  | O => []
  | S n => match l with [] => [] | _ => until_nul (take 63 l) ++ chunked n (drop 63 l) end
  end.

Lemma chunked_plain n l : (length l <= 63 * n)%nat -> Forall (fun c => c <> 0) l -> chunked n l = l.
Proof.
  revert l; induction n as [|n IH]; intros l Hn Hl; cbn [chunked]; [by destruct l; [|cbn in Hn; lia]|].
  destruct l as [|c l]; [done|]. set (l' := c :: l) in *. rewrite until_nul_id by by apply Forall_take.
  rewrite IH by (rewrite ?length_drop; (lia || by apply Forall_drop)). apply take_drop.
Qed.

Lemma bytes_take m a n j : (j <= n)%nat -> take j (bytes m a n) = bytes m a j.
Proof.
  intros Hj. unfold bytes. rewrite <- fmap_take. f_equal. replace n with (j + (n - j))%nat by lia. rewrite seq_app. by rewrite take_app_length' by by rewrite length_seq.
Qed.

Lemma bytes_drop m a n j : (j <= n)%nat -> drop j (bytes m a n) = bytes m (a + Z.of_nat j) (n - j).
Proof.
  intros Hj. unfold bytes. rewrite <- fmap_drop. replace n with (j + (n - j))%nat at 1 by lia. rewrite seq_app, drop_app_length' by by rewrite length_seq.
  apply list_eq. intros i. rewrite !list_lookup_fmap. destruct (decide (i < n - j)%nat).
  - rewrite !lookup_seq_lt by done. cbn. do 2 f_equal. lia.
  - by rewrite !lookup_seq_ge by lia.
Qed.

Lemma print_chunks_eq fuel m ptr i len :
  0 <= i <= len -> len <= 512 -> (len - i <= 63 * Z.of_nat fuel) ->
  print_chunks fuel m ptr i len = Some (chunked fuel (bytes m (ptr + i) (Z.to_nat (len - i)))).
Proof.
  revert i; induction fuel as [|fuel IH]; intros i Hi Hl Hf; cbn [print_chunks chunked].
  - by rewrite (proj2 (Z.ltb_ge i len)) by lia.
  - destruct (Z.ltb_spec i len) as [Hlt|Hge].
    + rewrite (u32_small (len - i)) by (unfold is_u32; lia). set (l := bytes m (ptr + i) (Z.to_nat (len - i))).
      assert (Hl0 : l <> []) by (intros E; apply (f_equal length) in E; unfold l in E; rewrite length_bytes in E; cbn in E; lia).
      set (n := if 63 <? len - i then 63 else len - i). assert (Hn : 0 < n <= 63 /\ n <= len - i /\ (n = 63 \/ n = len - i)).
      { unfold n. destruct (Z.ltb_spec 63 (len - i)); lia. }
      clearbody n. rewrite (u32_small (i + n)) by (unfold is_u32; lia). rewrite IH by lia. cbn [mbind option_bind].
      assert (E : take 63 l = bytes m (ptr + i) (Z.to_nat n) /\ drop 63 l = bytes m (ptr + (i + n)) (Z.to_nat (len - (i + n)))).
      { unfold l. destruct (decide (n = 63)) as [->|Hne].
        - rewrite bytes_take, bytes_drop by lia. split; [done|]. f_equal; lia.
        - assert (n = len - i) as -> by lia. rewrite take_ge, drop_ge by (rewrite length_bytes; lia). split; [done|].
          by replace (Z.to_nat (len - (i + (len - i)))) with O by lia. }
      destruct E as [-> ->]. by destruct l.
    + replace (Z.to_nat (len - i)) with O by lia. done.
Qed.

Section Span.
Variable modulus : Z.
Implicit Types base size p len : Z.

(** The check in integers that do not wrap. *)
Lemma span_exact base size p len :
  0 < base -> 0 <= size -> base + size < modulus -> 0 <= p < modulus -> 0 <= len < modulus ->
  wasm_mem_span_ok modulus base size p len = if decide (base <= p /\ p + len <= base + size) then 1 else 0.
Proof.
  intros Hb Hs Ht Hp Hl. unfold wasm_mem_span_ok, wrap. rewrite (proj2 (Z.eqb_neq base 0)), (Z.mod_small (base + size)) by lia. cbv zeta.
  destruct (Z.lt_ge_cases (p + len) modulus) as [Hlt|Hge].
  - rewrite Z.mod_small by lia. rewrite (proj2 (Z.ltb_ge (p + len) p)) by lia.
    destruct (Z.ltb_spec p base); [by rewrite decide_False by lia|]. destruct (Z.ltb_spec (base + size) (p + len)); [by rewrite decide_False by lia|by rewrite decide_True by lia].
  - assert (E : (p + len) mod modulus = p + len - modulus) by (symmetry; apply (Z.mod_unique _ _ 1); lia).
    rewrite E, (proj2 (Z.ltb_lt (p + len - modulus) p)) by lia. by rewrite decide_False by lia.
Qed.

Lemma accelerate_exact window size p len :
  0 < window -> 0 < size -> window + size < modulus -> 0 <= p < modulus -> 0 <= len < modulus ->
  m3_zenedge_accelerate modulus window size p len = if decide (window <= p /\ p + len <= window + size) then 1 else 0.
Proof.
  intros Hb Hs Ht Hp Hl. rewrite <- span_exact by lia. unfold m3_zenedge_accelerate, wasm_mem_span_ok.
  rewrite !(proj2 (Z.eqb_neq _ 0)) by lia. cbv zeta. destruct (wrap modulus (p + len) <? p); [done|]. by destruct (p <? window).
Qed.
End Span.

(** ** Properties *)

(** C20: an inference is the dot product with the weights of the model's blob.  When
    the weights are not cached, [kernel_infer_action] on a live blob of whole floats
    copies them into the kernel's heap, gives the old copy back, and returns whether
    the product of the observation with as many weights as there are of both is
    positive; nobody else's memory changes, and the shared heap is as it was.  Or
    the kernel's heap has no room, -1 is returned and nothing changes.  From then on
    the same model id gives the same answer whatever becomes of the shared heap. *)
Theorem infer_uses_blob {K} `{AllocatorLaws K} `{Float32} (s : wasm K) (L : list (Z * Z)) (e : blob_entry) (id n : Z) (obs : list Z) :
  let h := ws_heap s in
  let size := blob_size_of h (heap_data h + be_offset e) in
  wasm_ok s L -> live h e -> u16 id = be_blob_id e -> id <> 0 -> 0 < size -> size mod 4 = 0 -> 0 < n ->
  g_cached_model_id s <> id \/ g_cached_weights s = 0 ->
  exists r s', kernel_infer_action (Some obs) n id s = Some (r, s') /\ ws_heap s' = h /\ wasm_ok s' L /\
    agree (inside L) (memory (ws_k s)) (memory (ws_k s')) /\
    (r = -1 /\ s' = s \/
     r = Z.b2z (is_positive (math_vec_dot obs (zget (blob_floats h e)) (Z.min n (size / 4)))) /\
     wasm_get_profile s' = (id, Z.min 0xFFFF (size / 4), g_cached_weights s') /\ weights s' = blob_floats h e /\
     forall h2, kernel_infer_action (Some obs) n id s'{{ ws_heap := h2 }} = Some (r, s'{{ ws_heap := h2 }})).
Proof.
  intros h size Hok He Eid Hid Hs0 Hs4 Hn Hmiss.
  destruct (load_weights s L e id Hok He Eid Hid Hs0 Hs4 Hmiss) as (r & s' & E & Eh & Hok' & Ha & Hc). fold h size in Eh, Hc.
  assert (Hhit : forall h2, g_cached_model_id s' = id -> g_cached_weights s' <> 0 -> 0 < g_cached_weights_len s' ->
    wasm_load_model_weights id s'{{ ws_heap := h2 }} = Some (0, s'{{ ws_heap := h2 }})).
  { intros h2 E1 E2 E3. unfold wasm_load_model_weights. rewrite (proj2 (Z.eqb_neq id 0)) by done.
    change (g_cached_model_id s'{{ ws_heap := h2 }}) with (g_cached_model_id s'). change (g_cached_weights s'{{ ws_heap := h2 }}) with (g_cached_weights s').
    change (g_cached_weights_len s'{{ ws_heap := h2 }}) with (g_cached_weights_len s').
    by rewrite E1, Z.eqb_refl, (proj2 (Z.eqb_neq _ _) E2), (proj2 (Z.ltb_lt _ _) E3). }
  destruct Hc as [[-> ->]|(-> & E1 & E2 & E3 & Ew)].
  - exists (-1), s. unfold kernel_infer_action, zenedge_infer_action. rewrite (proj2 (Z.eqb_neq n 0)), E by lia. do 3 (split; [done|]). split; [done|by left].
  - assert (Hl : 0 < size / 4) by (Z.div_mod_to_equations; lia).
    assert (Hrun : forall h2, (forall z, wasm_load_model_weights id z = Some (0, s'{{ ws_heap := h2 }}) ->
      kernel_infer_action (Some obs) n id z = Some (Z.b2z (is_positive (math_vec_dot obs (zget (blob_floats h e)) (Z.min n (size / 4)))), s'{{ ws_heap := h2 }}))).
    { intros h2 z Ez. unfold kernel_infer_action, zenedge_infer_action. rewrite (proj2 (Z.eqb_neq n 0)), Ez by lia. cbn [mbind option_bind negb Z.eqb].
      change (g_cached_weights_len s'{{ ws_heap := h2 }}) with (g_cached_weights_len s'). rewrite E2.
      replace (if size / 4 <? n then size / 4 else n) with (Z.min n (size / 4)) by (destruct (Z.ltb_spec (size / 4) n); lia).
      rewrite (proj2 (Z.eqb_neq (Z.min n (size / 4)) 0)) by lia. cbv zeta. cbn [mbind option_bind negb Z.eqb].
      do 4 f_equal. apply dot_ext. intros i Hi. rewrite <- Ew. unfold weights. by rewrite zget_seqZ by (rewrite E2; lia). }
    assert (Es : s'{{ ws_heap := h }} = s') by (rewrite <- Eh; by destruct s').
    eexists _, s'. split; [rewrite <- Es in E |- *; exact (Hrun h s E)|]. split; [done|]. split; [done|]. split; [done|]. right. split; [done|].
    split; [|split; [exact Ew|]].
    + unfold wasm_get_profile. rewrite E1, E2. do 2 f_equal. destruct (Z.ltb_spec 0xFFFF (size / 4)); [lia|]. rewrite u16_small by (unfold is_u16; lia). lia.
    + intros h2. apply Hrun. apply Hhit; [done|done|lia].
Qed.

(** C21: a guest's pointers are checked exactly.  For a guest's memory that does not
    wrap around the address space, [print] of any 32-bit offset and length prints
    when the first 512 bytes asked for are inside the memory, and otherwise traps
    without reading; what it prints are those bytes, in chunks of 63 each cut at its
    first NUL, so all of them when none is NUL.  [zenedge_accelerate] says whether
    its range is inside the shared window.  No sum that wraps passes either check. *)
Theorem guest_pointers_checked (modulus : Z) (m : mem) (base size off len : Z) :
  0 < base -> 0 < size -> base + size < modulus -> 0x100000000 <= modulus -> is_u32 off -> is_u32 len ->
  (let n := Z.min len 512 in
   let data := bytes m (base + off) (Z.to_nat n) in
   m3_zenedge_print modulus 9 m base size off len =
     Some (if decide (off + n <= size) then Success (ascii "[wasm] " ++ chunked 9 data ++ [10]) else TrapOutOfBounds (ascii "[wasm] print OOB" ++ [10])) /\
   (Forall (fun c => c <> 0) data -> chunked 9 data = data)) /\
  m3_zenedge_accelerate modulus base size off len = (if decide (base <= off /\ off + len <= base + size) then 1 else 0).
Proof.
  intros Hb Hs Ht Hm Ho Hl. unfold is_u32 in Ho, Hl. split; [split|].
  - unfold m3_zenedge_print, WASM_PRINT_MAX_BYTES. replace (if 512 <? len then 512 else len) with (Z.min len 512) by (destruct (Z.ltb_spec 512 len); lia). cbv zeta.
    set (n := Z.min len 512). assert (Hn : 0 <= n <= 512) by lia. clearbody n. unfold wrap at 1 2.
    assert (Hw : 0 <= (base + off) mod modulus < modulus) by (apply Z.mod_pos_bound; lia).
    rewrite span_exact by lia. destruct (Z.lt_ge_cases (base + off) modulus) as [Hlt|Hge].
    + rewrite Z.mod_small by lia. destruct (decide (off + n <= size)) as [Hin|Hout].
      * rewrite decide_True by lia. cbn [Z.eqb]. rewrite print_chunks_eq by lia. rewrite Z.add_0_r, Z.sub_0_r. reflexivity.
      * by rewrite decide_False by lia.
    + assert (E : (base + off) mod modulus = base + off - modulus) by (symmetry; apply (Z.mod_unique _ _ 1); lia). rewrite E.
      rewrite !decide_False by lia. done.
  - intros Hd. apply chunked_plain; [rewrite length_bytes; lia|exact Hd].
  - by apply accelerate_exact; lia.
Qed.

(** A model of two weights, 1 and 2. *)
Definition with_weights (h : heap) : heap := h{{ shm := st32 (st32 (shm h) 0x11020 0x3F800000) 0x11024 0x40000000 }}.
Definition demo_model : heap := with_weights (snd (heap_alloc 8 BLOB_TYPE_TENSOR demo_heap)).

Lemma weights_agree m a : a < 0x11020 \/ 0x11028 <= a -> ldb (st32 (st32 m 0x11020 0x3F800000) 0x11024 0x40000000) a = ldb m a.
Proof. intros Ha. by rewrite !ldb_st_ne by (change (Z.of_nat 4) with 4; lia). Qed.

Lemma with_weights_ok h :
  heap_ok h -> live h (BlobEntry 1 0 1) -> heap_data h = 0x11000 -> heap_ok (with_weights h) /\ live (with_weights h) (BlobEntry 1 0 1).
Proof.
  intros Hok Hl Ed. split; [|exact Hl]. apply payload_ok with (e := BlobEntry 1 0 1); [exact Hok|exact Hl| |].
  - apply mem_ok_st, mem_ok_st. exact (ok_mem h Hok).
  - intros a Hna. apply weights_agree. destruct (decide (a < 0x11020)); [by left|]. destruct (decide (0x11028 <= a)); [by right|]. destruct Hna.
    unfold payload, be_start. rewrite Ed. change (be_offset (BlobEntry 1 0 1)) with 0. change (be_blocks (BlobEntry 1 0 1)) with 1.
    change (0 / HEAP_BLOCK_SIZE) with 0. lia.
Qed.
Lemma demo_model_ok : heap_ok demo_model /\ live demo_model (BlobEntry 1 0 1).
Proof.
  assert (Hok : heap_ok (snd (heap_alloc 8 BLOB_TYPE_TENSOR demo_heap)))
    by (apply alloc_heap_ok; [exact demo_heap_ok|vm_compute; reflexivity|vm_compute; reflexivity|lia|lia|unfold is_u8; by vm_compute]).
  assert (Hl : live (snd (heap_alloc 8 BLOB_TYPE_TENSOR demo_heap)) (BlobEntry 1 0 1)) by (exists 0; split; vm_compute; done).
  assert (Ed : heap_data (snd (heap_alloc 8 BLOB_TYPE_TENSOR demo_heap)) = 0x11000) by (vm_compute; reflexivity).
  exact (with_weights_ok _ Hok Hl Ed).
Qed.

Lemma infer_uses_blob_witness :
  exists s', kernel_infer_action (Some [0x40400000; 0xBF800000]) 2 1 (wasm_bss demo_model witness_heap) = Some (1, s') /\
    kernel_infer_action (Some [0x40400000; 0xBF800000]) 2 1 s'{{ ws_heap := heap_bss ∅ }} = Some (1, s'{{ ws_heap := heap_bss ∅ }}).
Proof.
  destruct demo_model_ok as [Hh He]. destruct witness_heap_ok as (Hk & _).
  assert (Hok : wasm_ok (wasm_bss demo_model witness_heap) []).
  { pose proof (kheap_held_fresh _ _ Hk) as Hheld. clear - Hh Hheld. forget demo_model as h. forget witness_heap as k. split; [exact Hh|left]. by split. }
  assert (Er : fst <$> kernel_infer_action (Some [0x40400000; 0xBF800000]) 2 1 (wasm_bss demo_model witness_heap) = Some 1) by (vm_compute; reflexivity).
  destruct (infer_uses_blob (wasm_bss demo_model witness_heap) [] (BlobEntry 1 0 1) 1 2 [0x40400000; 0xBF800000]) as (r & s' & E & _ & _ & _ & Hc).
  - exact Hok.
  - exact He.
  - reflexivity.
  - lia.
  - vm_compute. reflexivity.
  - vm_compute. reflexivity.
  - lia.
  - by right.
  - rewrite E in Er. injection Er as ->. destruct Hc as [[Hr _]|(_ & _ & _ & Hh2)]; [discriminate Hr|]. exists s'. split; [exact E|]. exact (Hh2 (heap_bss ∅)).
Defined.

Lemma guest_pointers_checked_witness :
  let m := store_bytes ∅ 0x1010 (ascii "hi") in
  m3_zenedge_print 0x100000000 9 m 0x1000 0x10000 16 2 = Some (Success (ascii "[wasm] hi" ++ [10])) /\
  m3_zenedge_print 0x100000000 9 m 0x1000 0x10000 0xFFFFFFFF 2 = Some (TrapOutOfBounds (ascii "[wasm] print OOB" ++ [10])).
Proof.
  cbv zeta. set (m := store_bytes ∅ 0x1010 (ascii "hi")).
  destruct (guest_pointers_checked 0x100000000 m 0x1000 0x10000 16 2) as [[E _] _]; [lia|lia|lia|lia|done|done|].
  destruct (guest_pointers_checked 0x100000000 m 0x1000 0x10000 0xFFFFFFFF 2) as [[E2 _] _]; [lia|lia|lia|lia|done|done|].
  split; [|etransitivity; [exact E2|reflexivity]]. etransitivity; [exact E|]. vm_compute. reflexivity.
Defined.
