(* ===== verification/Agent.v ===== *)
(** kernel/wasm_loader.c, the public calls: running a WebAssembly module
    ([wasm_run_bytes]) and an agent ([wasm_run_agent]) on the interpreter.

    The interpreter is the third-party code of lib/wasm3, which the Makefile builds
    on the kernel's own heap.  Nothing is assumed of it: a run of the loader is a
    tree of calls ([prog]), and an [interpreter] is any function that answers them
    from a state of its own, which holds whatever its calls change, the kernel's
    heap included; a call, or the guest inside it, may never return.  Handles are
    addresses, 0 for NULL; a result is a message or none.

    The specification is the protocol of the header wasm3.h, as a state machine over
    the calls ([allowed], [after]): who owns runtimes and modules, what may be called
    on what, and where the loader may write.  The theorems: whatever the interpreter
    answers, the loader obeys it, and every path gives back what it was given, except
    the failed load of an agent. *)

From S2P Require Import Prelude Mem Keyboard Infer.

(** ** Calls *)

Inductive import := LogInt | Print | AbortCall | Inference | Accelerate.
#[export] Instance import_eq_dec : EqDecision import.
Proof. solve_decision. Defined.

(** A function of the host: its name in a module, its signature and its code. *)
Record link := Link { ln_module : String.string; ln_name : String.string; ln_signature : String.string; ln_import : import }.
#[export] Instance link_eq_dec : EqDecision link.
Proof. solve_decision. Defined.

(** [M3Result]: none, or a message. *)
Definition m3_result : Type := option (list Z).

(** What the loader does outside its own variables: the calls of wasm3.h, and
    [console_write], the words it stores in the guest's memory, and the observation
    it notes for the inference. *)
Inductive m3_call :=
| NewEnvironment
| NewRuntime (env stack : Z)
| SetMemoryLimit (rt limit : Z)
| ParseModule (env : Z) (code : list Z) (size : Z)
| LoadModule (rt md : Z)
| FreeModule (md : Z)
| FreeRuntime (rt : Z)
| LinkRawFunction (md : Z) (ln : link)
| FindFunction (rt : Z) (name : String.string)
| GetMemory (rt : Z)
| CallV (f : Z) (args : list Z)
| GetResultsV (f : Z)
| ConsoleWrite (text : list Z)
| StoreWord (a w : Z)
| NoteObservation (obs : list Z) (obs_len : Z).

(** A handle; a handle beside a result; the memory's address and size. *)
Definition answer (c : m3_call) : Type :=
  match c with
  | NewEnvironment | NewRuntime _ _ => Z
  | ParseModule _ _ _ | FindFunction _ _ => m3_result * Z
  | LoadModule _ _ | LinkRawFunction _ _ | CallV _ _ => m3_result
  | GetMemory _ => Z * Z
  | GetResultsV _ => option Z
  | _ => unit
  end.

Inductive prog (A : Type) :=
| Ret (a : A)
| Do (c : m3_call) (k : answer c -> prog A).
Arguments Ret {A}.
Arguments Do {A}.

Definition call (c : m3_call) : prog (answer c) := Do c Ret.
#[export] Instance prog_ret : MRet prog := @Ret.
#[export] Instance prog_bind : MBind prog := fun A B f =>
  fix bind p := match p with Ret a => f a | Do c k => Do c (fun r => bind (k r)) end.

(** What happened: a call with its answer, or one that never returned. *)
Inductive event :=
| Returned (c : m3_call) (r : answer c)
| Never (c : m3_call).
Definition call_of (e : event) : m3_call := match e with Returned c _ => c | Never c => c end.

(** Any interpreter, with its state. *)
Definition interpreter (W : Type) : Type := forall c, W -> option (answer c * W).

Fixpoint run {W A} (I : interpreter W) (p : prog A) (w : W) : list event * option (A * W) :=
  match p with
  | Ret a => ([], Some (a, w))
  | Do c k =>
      match I c w with
      | None => ([Never c], None)
      | Some (r, w) => let '(tr, out) := run I (k r) w in (Returned c r :: tr, out)
      end
  end.

(** ** The loader *)

Definition WASM_STACK_SIZE : Z := 16384.
Definition WASM_MEMORY_LIMIT_PAGES : Z := 16.
Definition WASM_MEMORY_LIMIT_BYTES : Z := WASM_MEMORY_LIMIT_PAGES *u 65536.

Definition say (text : list Z) : prog unit := call (ConsoleWrite text).

(** The result and [g_env]. *)
Definition wasm_env_init_once (g_env : Z) : prog (Z * Z) :=
  if negb (g_env =? 0) then mret (0, g_env)
  else
    say (ascii "[wasm] Initializing wasm3 environment..." ++ [10]);;
    g_env ← call NewEnvironment;
    if g_env =? 0 then say (ascii "[wasm] m3_NewEnvironment failed" ++ [10]);; mret (-1, g_env)
    else mret (0, g_env).

(** The message of an error. *)
Definition say_error (what : String.string) (err : list Z) : prog unit := say (ascii what);; say err;; say [10].
(** The message, the runtime freed, -1 returned. *)
Definition give_up_run (what : String.string) (err : list Z) (rt : Z) : prog Z :=
  say_error what err;; call (FreeRuntime rt);; mret (-1).

(** The results of linking are not looked at. *)
Fixpoint link_all (md : Z) (l : list link) : prog unit :=
  match l with
  | [] => mret tt
  | ln :: l => call (LinkRawFunction md ln);; link_all md l
  end.

Definition bytes_links : list link :=
  [Link "env" "log_int" "v(i)" LogInt; Link "env" "print" "v(*i)" Print; Link "env" "abort" "v(**ii)" AbortCall;
   Link "env" "zenedge_accelerate" "i(ii)" Accelerate].
Definition agent_links : list link :=
  [Link "env" "log_int" "v(i)" LogInt; Link "env" "print" "v(*i)" Print; Link "env" "abort" "v(**ii)" AbortCall;
   Link "env" "zenedge_inference" "i(i)" Inference; Link "env" "zenedge_accelerate" "i(ii)" Accelerate].

(** From the module linked to the end of [wasm_run_bytes]. *)
Definition run_start (rt : Z) : prog Z :=
  '(res, f) ← call (FindFunction rt "start");
  '(res, f) ← match (res : m3_result) with
              | Some _ => call (FindFunction rt "_start")
              | None => mret (res, f)
              end;
  match (res : m3_result) with
  | Some err => give_up_run "[wasm] FindFunction failed: " err rt
  | None =>
      res ← call (CallV f []);
      match (res : m3_result) with
      | Some err => give_up_run "[wasm] Run Error: " err rt
      | None => call (FreeRuntime rt);; mret 0
      end
  end.

(** From the environment to the end of [wasm_run_bytes]. *)
Definition run_module (env : Z) (code : list Z) (size : Z) : prog Z :=
  rt ← call (NewRuntime env WASM_STACK_SIZE);
  if rt =? 0 then say (ascii "[wasm] m3_NewRuntime failed" ++ [10]);; mret (-1)
  else
    call (SetMemoryLimit rt WASM_MEMORY_LIMIT_BYTES);;
    '(res, md) ← call (ParseModule env code (u32 size));
    match (res : m3_result) with
    | Some err => give_up_run "[wasm] Parse Error: " err rt
    | None =>
        res ← call (LoadModule rt md);
        match (res : m3_result) with
        | Some err => say_error "[wasm] Load Error: " err;; call (FreeModule md);; call (FreeRuntime rt);; mret (-1)
        | None => link_all md bytes_links;; run_start rt
        end
    end.

(** The result and [g_env]. *)
Definition wasm_run_bytes (code : option (list Z)) (size g_env : Z) : prog (Z * Z) :=
  match code with
  | None => mret (-1, g_env)
  | Some code =>
      if size =? 0 then mret (-1, g_env)
      else
        '(r, g_env) ← wasm_env_init_once g_env;
        if negb (r =? 0) then mret (-1, g_env)
        else
          r ← run_module g_env code size;
          mret (r, g_env)
  end.

(** The words of [l] stored from [p], one assignment each. *)
Fixpoint store_words (p : Z) (l : list Z) : prog unit :=
  match l with
  | [] => mret tt
  | x :: l => call (StoreWord p x);; store_words (p + 4) l
  end.

Section Agent.
Variable modulus : Z.

(** The observation's words, the first [obs_len] at its pointer. *)
Definition words_of (obs : list Z) (obs_len : Z) : list Z := zget obs <$> seqZ 0 obs_len.

(** From the module linked to the end of [wasm_run_agent].  [size_t] wraps at
    [modulus]. *)
Definition agent_step (rt : Z) (obs : list Z) (obs_len model_id : Z) : prog Z :=
  '(res, f) ← call (FindFunction rt "agent_step");
  match (res : m3_result) with
  | Some err => give_up_run "[wasm] agent_step not found: " err rt
  | None =>
      let input_offset := 1024 in
      '(mem, mem_size) ← call (GetMemory rt);
      if (mem =? 0) || (mem_size <? wrap modulus (input_offset + wrap modulus (obs_len * 4))) then
        say (ascii "[wasm] OOM for input" ++ [10]);; call (FreeRuntime rt);; mret (-1)
      else
        store_words (mem + input_offset) (words_of obs obs_len);;
        call (NoteObservation obs obs_len);;
        res ← call (CallV f [input_offset; u32 obs_len; model_id]);
        match (res : m3_result) with
        | Some err => give_up_run "[wasm] agent step error: " err rt
        | None =>
            action ← call (GetResultsV f);
            call (FreeRuntime rt);; mret (int_of_u32 (default 0 action))
        end
  end.

(** From the environment to the end of [wasm_run_agent]. *)
Definition run_agent (env : Z) (code : list Z) (size : Z) (obs : list Z) (obs_len model_id : Z) : prog Z :=
  rt ← call (NewRuntime env WASM_STACK_SIZE);
  if rt =? 0 then mret (-1)
  else
    call (SetMemoryLimit rt WASM_MEMORY_LIMIT_BYTES);;
    '(res, md) ← call (ParseModule env code (u32 size));
    match (res : m3_result) with
    | Some err => give_up_run "[wasm] Parse failed: " err rt
    | None =>
        res ← call (LoadModule rt md);
        match (res : m3_result) with
        | Some err => give_up_run "[wasm] Load failed: " err rt
        | None => link_all md agent_links;; agent_step rt obs obs_len model_id
        end
    end.

(** The result and [g_env]. *)
Definition wasm_run_agent (code : option (list Z)) (size : Z) (obs : list Z) (obs_len model_id g_env : Z) : prog (Z * Z) :=
  match code with
  | None => mret (-1, g_env)
  | Some code =>
      if size =? 0 then mret (-1, g_env)
      else
        '(r, g_env) ← wasm_env_init_once g_env;
        if negb (r =? 0) then mret (-1, g_env)
        else
          r ← run_agent g_env code size obs obs_len model_id;
          mret (r, g_env)
  end.
End Agent.

(** ** The protocol of wasm3.h *)

(** What the loader holds: the environment (0: none), its runtimes, the limits it
    set, the modules it parsed and still owns, those that a runtime owns, the
    runtimes that may have run their start function, the functions found and those
    that returned, and the memories it may write (runtime, address and size). *)
Record holds := Holds {
  h_env : Z;
  h_runtimes : list Z;
  h_limited : list (Z * Z);
  h_parsed : list Z;
  h_loaded : list (Z * Z);
  h_started : list Z;
  h_found : list (Z * Z);
  h_called : list (Z * Z);
  h_memory : list (Z * Z * Z)
}.
#[export] Instance holds_eta : Eta holds := fun h =>
  Holds (h_env h) (h_runtimes h) (h_limited h) (h_parsed h) (h_loaded h) (h_started h) (h_found h) (h_called h) (h_memory h).

(** Nothing but the environment. *)
Definition holding (env : Z) : holds := Holds env [] [] [] [] [] [] [] [].

Definition has (x : Z) (l : list Z) : bool := existsb (Z.eqb x) l.
Definition without (x : Z) (l : list Z) : list Z := List.filter (fun y => negb (x =? y)) l.
Definition not_of {A} (owner : A -> Z) (x : Z) (l : list A) : list A := List.filter (fun y => negb (x =? owner y)) l.

(** When a call may be made: on an environment, a runtime or a function that lives;
    a module is loaded once, into a runtime with the memory limit; it is freed by the
    loader only when no runtime owns it, and linked before a function is looked up,
    which may run its start function; results are those of a call that returned; and
    the loader writes inside the memory it asked for. *)
Definition allowed (h : holds) (c : m3_call) : bool :=
  match c with
  | NewEnvironment => h_env h =? 0
  | NewRuntime e _ | ParseModule e _ _ => negb (e =? 0) && (e =? h_env h)
  | SetMemoryLimit rt _ | GetMemory rt | FindFunction rt _ | FreeRuntime rt => has rt (h_runtimes h)
  | LoadModule rt md =>
      has rt (h_runtimes h) && has md (h_parsed h) &&
      existsb (fun x => (rt =? fst x) && (snd x =? WASM_MEMORY_LIMIT_BYTES)) (h_limited h)
  | FreeModule md => has md (h_parsed h)
  | LinkRawFunction md _ => existsb (fun x => (md =? fst x) && negb (has (snd x) (h_started h))) (h_loaded h)
  | CallV f _ => existsb (fun x => f =? fst x) (h_found h)
  | GetResultsV f => existsb (fun x => f =? fst x) (h_called h)
  | StoreWord a _ => existsb (fun '(_, base, size) => (base <=? a) && (a + 4 <=? base + size)) (h_memory h)
  | ConsoleWrite _ | NoteObservation _ _ => true
  end.

(** A call that may run a guest, or load one, may move its memory. *)
Definition after (h : holds) (c : m3_call) : answer c -> holds :=
  match c with
  | NewEnvironment => fun e => h{{ h_env := e }}
  | NewRuntime _ _ => fun rt => if rt =? 0 then h else h{{ h_runtimes ::= cons rt }}
  | SetMemoryLimit rt n => fun _ => h{{ h_limited ::= cons (rt, n) }}
  | ParseModule _ _ _ => fun r => match r with (None, md) => h{{ h_parsed ::= cons md }} | _ => h end
  | LoadModule rt md => fun res =>
      match res with
      | None => h{{ h_memory := []; h_parsed ::= without md; h_loaded ::= cons (md, rt) }}
      | Some _ => h{{ h_memory := [] }}
      end
  | FreeModule md => fun _ => h{{ h_parsed ::= without md }}
  | FreeRuntime rt => fun _ =>
      Holds (h_env h) (without rt (h_runtimes h)) (not_of fst rt (h_limited h)) (h_parsed h) (not_of snd rt (h_loaded h))
        (without rt (h_started h)) (not_of snd rt (h_found h)) (not_of snd rt (h_called h)) (not_of (fun x => fst (fst x)) rt (h_memory h))
  | FindFunction rt _ => fun r =>
      let h := h{{ h_memory := []; h_started ::= cons rt }} in
      match r with (None, f) => h{{ h_found ::= cons (f, rt) }} | _ => h end
  | GetMemory rt => fun r => if fst r =? 0 then h else h{{ h_memory ::= cons (rt, fst r, snd r) }}
  | CallV f _ => fun res =>
      let h := h{{ h_memory := [] }} in
      match res with None => h{{ h_called ::= app (List.filter (fun x => f =? fst x) (h_found h)) }} | Some _ => h end
  | _ => fun _ => h
  end.

(** The calls of a run in order: what is held at the end, if each was allowed. *)
Fixpoint obeys (h : holds) (tr : list event) : option holds :=
  match tr with
  | [] => Some h
  | Returned c r :: tr => if allowed h c then obeys (after h c r) tr else None
  | Never c :: _ => if allowed h c then Some h else None
  end.

(** What a run did: functions linked, modules loaded, lookups, the memory, words
    stored, the observation noted, guests called and results read. *)
Record seen := Seen {
  s_linked : list link;
  s_loads : list (Z * m3_result);
  s_lookups : list (String.string * m3_result * Z);
  s_memory : option (Z * Z);
  s_stored : list (Z * Z);
  s_noted : option (list Z * Z);
  s_guests : list (Z * list Z * m3_result);
  s_results : list (option Z)
}.
#[export] Instance seen_eta : Eta seen := fun s =>
  Seen (s_linked s) (s_loads s) (s_lookups s) (s_memory s) (s_stored s) (s_noted s) (s_guests s) (s_results s).
Definition nothing : seen := Seen [] [] [] None [] None [] [].

Definition see (s : seen) (c : m3_call) : answer c -> seen :=
  match c with
  | LinkRawFunction _ ln => fun _ => s{{ s_linked ::= fun l => l ++ [ln] }}
  | LoadModule _ md => fun res => s{{ s_loads ::= fun l => l ++ [(md, res)] }}
  | FindFunction _ name => fun r => s{{ s_lookups ::= fun l => l ++ [(name, fst r, snd r)] }}
  | GetMemory _ => fun r => s{{ s_memory := Some r }}
  | StoreWord a w => fun _ => s{{ s_stored ::= fun l => l ++ [(a, w)] }}
  | NoteObservation obs n => fun _ => s{{ s_noted := Some (obs, n) }}
  | CallV f args => fun res => s{{ s_guests ::= fun l => l ++ [(f, args, res)] }}
  | GetResultsV _ => fun r => s{{ s_results ::= fun l => l ++ [r] }}
  | _ => fun _ => s
  end.
Definition see_event (s : seen) (e : event) : seen := match e with Returned c r => see s c r | Never _ => s end.
Definition seen_in (tr : list event) : seen := foldl see_event nothing tr.

(** A guest runs inside these. *)
Definition runs_guest (c : m3_call) : bool := match c with FindFunction _ _ | CallV _ _ => true | _ => false end.

(** ** Reasoning about runs *)

Section Safe.
(** [N]: what must have happened before a call is made. *)
Variable N : m3_call -> seen -> Prop.

(** A program that is allowed every call it makes, whatever the answers. *)
Fixpoint safe {A} (p : prog A) (h : holds) (s : seen) (Q : A -> holds -> seen -> Prop) : Prop :=
  match p with
  | Ret a => Q a h s
  | Do c k => allowed h c = true /\ N c s /\ forall r, safe (k r) (after h c r) (see s c r) Q
  end.

Lemma safe_bind {A B} (p : prog A) (f : A -> prog B) h s Q :
  safe p h s (fun a h s => safe (f a) h s Q) -> safe (p ≫= f) h s Q.
Proof.
  revert h s; induction p as [a|c k IH]; intros h s; [done|]. intros (Ha & Hn & Hk). split; [done|]. split; [done|].
  intros r. by apply IH, Hk.
Qed.

Lemma safe_call {A} c (k : answer c -> prog A) h s Q :
  allowed h c = true -> N c s -> (forall r, safe (k r) (after h c r) (see s c r) Q) -> safe (call c ≫= k) h s Q.
Proof. done. Qed.

Lemma run_safe {W A} (I : interpreter W) (p : prog A) h s Q w :
  safe p h s Q ->
  let '(tr, out) := run I p w in
  exists h', obeys h tr = Some h' /\
    (forall tr1 e tr2, tr = tr1 ++ e :: tr2 -> N (call_of e) (foldl see_event s tr1)) /\
    match out with Some (a, _) => Q a h' (foldl see_event s tr) | None => True end.
Proof.
  revert h s w; induction p as [a|c k IH]; intros h s w.
  - intros HQ. exists h. split; [done|]. split; [|done]. by intros [].
  - intros (Ha & Hn & Hk). cbn [run]. destruct (I c w) as [[r w']|].
    + specialize (IH r _ _ w' (Hk r)). destruct (run I (k r) w') as [tr out]. destruct IH as (h' & Ho & Hb & HQ).
      exists h'. split; [cbn [obeys]; by rewrite Ha|]. split; [|exact HQ].
      intros [|e1 tr1] e tr2 E; injection E as <- E; [exact Hn|exact (Hb tr1 e tr2 E)].
    + exists h. split; [cbn [obeys]; by rewrite Ha|]. split; [|done]. intros [|e1 [|e2 tr1]] e tr2 E; [|discriminate E..]. injection E as <- _. exact Hn.
Qed.
End Safe.

(** A run ends when every call of it does. *)
Lemma run_ends {W A} (I : interpreter W) (p : prog A) w : (forall c w, I c w <> None) -> snd (run I p w) <> None.
Proof.
  intros HI. revert w; induction p as [a|c k IH]; intros w; cbn [run]; [done|].
  specialize (HI c w). destruct (I c w) as [[r w']|]; [|done]. specialize (IH r w'). by destruct (run I (k r) w').
Qed.

(** ** The paths of the loader *)

Section Paths.
Variable N : m3_call -> seen -> Prop.
Hypothesis quiet : forall c s, runs_guest c = false -> N c s.

Lemma safe_quiet {A} c (k : answer c -> prog A) h s Q :
  runs_guest c = false -> allowed h c = true -> (forall r, safe N (k r) (after h c r) (see s c r) Q) -> safe N (call c ≫= k) h s Q.
Proof using quiet. intros Hc Ha Hk. apply safe_call; [done|by apply quiet|done]. Qed.

Lemma safe_say {A} text (k : unit -> prog A) h s Q : safe N (k tt) h s Q -> safe N (say text ≫= k) h s Q.
Proof using quiet. intros Hk. apply safe_quiet; [done..|]. by intros []. Qed.

Lemma safe_say_error {A} what err (k : unit -> prog A) h s Q : safe N (k tt) h s Q -> safe N (say_error what err ≫= k) h s Q.
Proof using quiet. intros Hk. apply safe_bind. unfold say_error. do 2 apply safe_say. split; [done|]. split; [by apply quiet|]. by intros []. Qed.

(** The end of every path with a runtime. *)
Lemma safe_free_runtime {A} rt (a : A) h s (Q : A -> holds -> seen -> Prop) :
  has rt (h_runtimes h) = true -> Q a (after h (FreeRuntime rt) tt) s -> safe N (call (FreeRuntime rt);; mret a) h s Q.
Proof using quiet. intros Ha HQ. apply safe_quiet; [done..|]. by intros []. Qed.

Lemma safe_give_up what err rt h s (Q : Z -> holds -> seen -> Prop) :
  has rt (h_runtimes h) = true -> Q (-1) (after h (FreeRuntime rt) tt) s -> safe N (give_up_run what err rt) h s Q.
Proof using quiet. intros Ha HQ. unfold give_up_run. apply safe_say_error. by apply safe_free_runtime. Qed.

Lemma safe_env {A} (k : Z * Z -> prog A) g_env s Q :
  (forall r g, r = 0 /\ g <> 0 \/ r = -1 -> safe N (k (r, g)) (holding g) s Q) ->
  safe N (wasm_env_init_once g_env ≫= k) (holding g_env) s Q.
Proof using quiet.
  intros Hk. unfold wasm_env_init_once. destruct (Z.eqb_spec g_env 0) as [->|Hg]; cbn [negb]; [|by apply Hk; left].
  apply safe_bind, safe_say, safe_quiet; [done..|]. intros e. change (after (holding 0) NewEnvironment e) with (holding e).
  destruct (Z.eqb_spec e 0) as [->|He]; [|by apply Hk; left]. apply safe_say. apply Hk. by right.
Qed.

Lemma safe_link_all {A} md rt l (k : unit -> prog A) h s Q :
  h_loaded h = [(md, rt)] -> h_started h = [] -> safe N (k tt) h s{{ s_linked ::= fun l' => l' ++ l }} Q ->
  safe N (link_all md l ≫= k) h s Q.
Proof using quiet.
  intros Hl Hst Hk. apply safe_bind.
  revert s Hk; induction l as [|ln l IH]; intros s Hk; cbn [link_all].
  - destruct s. cbn in Hk. rewrite app_nil_r in Hk. exact Hk.
  - apply safe_quiet; [done| |].
    { cbn [allowed]. rewrite Hl, Hst. cbn. by rewrite Z.eqb_refl. }
    intros r. apply (IH (see s (LinkRawFunction md ln) r)). destruct s as [l0 ? ? ? ? ? ? ?]. cbn in Hk |- *. by rewrite <- app_assoc.
Qed.

(** Addresses and words. *)
Fixpoint words_at (p : Z) (l : list Z) : list (Z * Z) :=
  match l with
  | [] => []
  | x :: l => (p, x) :: words_at (p + 4) l
  end.

Lemma safe_store_words {A} rt base size p l (k : unit -> prog A) h s Q :
  h_memory h = [(rt, base, size)] -> base <= p -> p + 4 * zlen l <= base + size ->
  safe N (k tt) h s{{ s_stored ::= fun l' => l' ++ words_at p l }} Q -> safe N (store_words p l ≫= k) h s Q.
Proof using quiet.
  intros Hm Hp Hl Hk. apply safe_bind. revert p s Hp Hl Hk; induction l as [|x l IH]; intros p s Hp Hl Hk; cbn [store_words].
  - destruct s. cbn in Hk. rewrite app_nil_r in Hk. exact Hk.
  - unfold zlen in *. cbn [length] in Hl. apply safe_quiet; [done| |].
    { cbn [allowed]. rewrite Hm. cbn [existsb]. rewrite !(proj2 (Z.leb_le _ _)) by lia. done. }
    intros r. apply (IH (p + 4) (see s (StoreWord p x) r)); [lia|lia|]. destruct s. cbn in Hk |- *. by rewrite <- app_assoc.
Qed.
End Paths.

(** [wasm_run_bytes]: the result, what is held and what was done. *)
Definition bytes_ended (r : Z) (s : seen) : Prop :=
  r = 0 /\ (exists name f l, s_lookups s = l ++ [(name, None, f)] /\ (name = "start" \/ name = "_start")%string /\ s_guests s = [(f, [], None)]) \/
  r = -1 /\ (s_guests s = [] \/ exists f err, s_guests s = [(f, [], Some err)]).
Definition bytes_claim (c : m3_call) (s : seen) : Prop := runs_guest c = true -> s_linked s = bytes_links.

Lemma bytes_quiet c s : runs_guest c = false -> bytes_claim c s.
Proof. intros Hc Hr. by rewrite Hc in Hr. Qed.

(** A runtime with a module in it, and whatever was looked up. *)
Definition running (env rt md : Z) (started : list Z) (found called : list (Z * Z)) (memory : list (Z * Z * Z)) : holds :=
  Holds env [rt] [(rt, WASM_MEMORY_LIMIT_BYTES)] [] [(md, rt)] started found called memory.

Lemma has_self rt l : has rt (rt :: l) = true.
Proof. cbn. by rewrite Z.eqb_refl. Qed.
Lemma without_self rt l : without rt (rt :: l) = without rt l.
Proof. cbn. by rewrite Z.eqb_refl. Qed.
Lemma not_of_one {A} (owner : A -> Z) rt x : owner x = rt -> not_of owner rt [x] = [].
Proof. intros <-. cbn. by rewrite Z.eqb_refl. Qed.

(** A freed runtime takes all it owns. *)
Lemma after_free env rt md started found called memory :
  without rt started = [] -> not_of snd rt found = [] -> not_of snd rt called = [] -> not_of (fun x => fst (fst x)) rt memory = [] ->
  after (running env rt md started found called memory) (FreeRuntime rt) tt = holding env.
Proof.
  intros E1 E2 E3 E4. change (Holds env (without rt [rt]) (not_of fst rt [(rt, WASM_MEMORY_LIMIT_BYTES)]) []
    (not_of snd rt [(md, rt)]) (without rt started) (not_of snd rt found) (not_of snd rt called)
    (not_of (fun x => fst (fst x)) rt memory) = holding env).
  by rewrite E1, E2, E3, E4, without_self, !not_of_one.
Qed.

Lemma after_call env rt md started f args memory :
  after (running env rt md started [(f, rt)] [] memory) (CallV f args) None = running env rt md started [(f, rt)] [(f, rt)] [].
Proof. cbn. by rewrite Z.eqb_refl. Qed.

(** Side conditions on what a runtime owns. *)
Ltac owned := first [reflexivity | assumption | by apply has_self | by rewrite ?without_self | by apply not_of_one].

Lemma safe_run_start env rt md s (Q : Z -> holds -> seen -> Prop) :
  s_linked s = bytes_links -> s_guests s = [] ->
  (forall r s', bytes_ended r s' -> Q r (holding env) s') ->
  safe bytes_claim (run_start rt) (running env rt md [] [] [] []) s Q.
Proof.
  intros Hl Hg HQ. unfold run_start.
  assert (Hrun : forall started l name f s', without rt started = [] -> s_linked s' = bytes_links -> s_guests s' = [] ->
    s_lookups s' = l ++ [(name, None, f)] -> (name = "start" \/ name = "_start")%string ->
    safe bytes_claim (res ← call (CallV f []); match (res : m3_result) with
      | Some err => give_up_run "[wasm] Run Error: " err rt
      | None => call (FreeRuntime rt);; mret 0 end) (running env rt md started [(f, rt)] [] []) s' Q).
  { intros started l name f s' Hst Hl' Hg' Ef Hn. apply safe_call; [cbn; by rewrite Z.eqb_refl|by intros _|]. intros [err|].
    - apply (safe_give_up _ bytes_quiet); [owned|].
      change (after _ (CallV f []) _) with (running env rt md started [(f, rt)] [] []). rewrite after_free by owned. apply HQ. right. split; [done|].
      right. exists f, err. cbn. by rewrite Hg'.
    - apply (safe_free_runtime _ bytes_quiet); rewrite after_call; [owned|]. rewrite after_free by owned.
      apply HQ. left. split; [done|]. exists name, f, l. cbn. by rewrite Hg'. }
  apply safe_call; [owned|by intros _|]. intros [[err|] f].
  - change (after _ (FindFunction rt "start") _) with (running env rt md [rt] [] [] []).
    apply safe_bind, safe_call; [owned|by intros _|]. intros [[err2|] f2].
    + change (after _ (FindFunction rt "_start") _) with (running env rt md [rt; rt] [] [] []).
      apply (safe_give_up _ bytes_quiet); [owned|]. rewrite after_free by owned. apply HQ. right. split; [done|]. by left.
    + eapply (Hrun [rt; rt] _ "_start"%string f2); [owned|done|done|reflexivity|by right].
  - eapply (Hrun [rt] _ "start"%string f); [owned|done|done|reflexivity|by left].
Qed.

(** What both calls do between the environment and the module's links. *)
Lemma safe_opening N env (no_runtime : prog Z) (parse_error : list Z -> Z -> prog Z) (load_error : list Z -> Z -> Z -> prog Z)
    (body : Z -> Z -> prog Z) code size (Q : Z -> holds -> seen -> Prop) :
  (forall c s, runs_guest c = false -> N c s) -> env <> 0 ->
  safe N no_runtime (holding env) nothing Q ->
  (forall err rt, safe N (parse_error err rt) (Holds env [rt] [(rt, WASM_MEMORY_LIMIT_BYTES)] [] [] [] [] [] []) nothing Q) ->
  (forall err rt md, safe N (load_error err rt md) (Holds env [rt] [(rt, WASM_MEMORY_LIMIT_BYTES)] [md] [] [] [] [] [])
    nothing{{ s_loads := [(md, Some err)] }} Q) ->
  (forall rt md, safe N (body rt md) (running env rt md [] [] [] []) nothing{{ s_loads := [(md, None)] }} Q) ->
  safe N (rt ← call (NewRuntime env WASM_STACK_SIZE);
    if rt =? 0 then no_runtime
    else
      call (SetMemoryLimit rt WASM_MEMORY_LIMIT_BYTES);;
      '(res, md) ← call (ParseModule env code (u32 size));
      match (res : m3_result) with
      | Some err => parse_error err rt
      | None =>
          res ← call (LoadModule rt md);
          match (res : m3_result) with
          | Some err => load_error err rt md
          | None => body rt md
          end
      end) (holding env) nothing Q.
Proof.
  intros HN He Hno Hparse Hload Hbody. pose proof (proj2 (Z.eqb_neq env 0) He) as He'.
  apply (safe_quiet _ HN); [done|cbn; by rewrite He', Z.eqb_refl|]. intros rt. cbn [after]. destruct (rt =? 0); [exact Hno|].
  apply (safe_quiet _ HN); [done|owned|]. intros []. apply (safe_quiet _ HN); [done|cbn; by rewrite He', Z.eqb_refl|].
  intros [[err|] md]; [exact (Hparse err rt)|].
  apply (safe_quiet _ HN); [done|cbn; by rewrite !Z.eqb_refl|]. intros [err|]; [exact (Hload err rt md)|].
  change (safe N (body rt md) (running env rt md [] [] [] []){{ h_parsed := without md [md] }} nothing{{ s_loads := [(md, None)] }} Q).
  rewrite without_self. exact (Hbody rt md).
Qed.

Lemma safe_run_module env code size (Q : Z -> holds -> seen -> Prop) :
  env <> 0 -> (forall r s', bytes_ended r s' -> Q r (holding env) s') -> safe bytes_claim (run_module env code size) (holding env) nothing Q.
Proof.
  intros He HQ. assert (Hfail : forall s, s_guests s = [] -> bytes_ended (-1) s) by (intros s Hs; right; split; [done|by left]).
  assert (Hfree : forall rt, after (Holds env [rt] [(rt, WASM_MEMORY_LIMIT_BYTES)] [] [] [] [] [] []) (FreeRuntime rt) tt = holding env)
    by (intros rt; cbn; by rewrite Z.eqb_refl).
  apply (safe_opening _ _ _ (give_up_run _)
    (fun err rt md => say_error "[wasm] Load Error: " err;; call (FreeModule md);; call (FreeRuntime rt);; mret (-1))
    (fun rt md => link_all md bytes_links;; run_start rt)); [exact bytes_quiet|done|..].
  - apply (safe_say _ bytes_quiet). by apply HQ, Hfail.
  - intros err rt. apply (safe_give_up _ bytes_quiet); [owned|]. rewrite Hfree. by apply HQ, Hfail.
  - intros err rt md. apply (safe_say_error _ bytes_quiet), (safe_quiet _ bytes_quiet); [done|owned|]. intros [].
    apply (safe_free_runtime _ bytes_quiet); [owned|]. cbn [after]. 
    change (Q (-1) (Holds env (without rt [rt]) (not_of fst rt [(rt, WASM_MEMORY_LIMIT_BYTES)]) (without md [md]) [] [] [] [] [])
      nothing{{ s_loads := [(md, Some err)] }}).
    rewrite !without_self, not_of_one by done. by apply HQ, Hfail.
  - intros rt md. apply (safe_link_all _ bytes_quiet md rt); [done..|]. by apply safe_run_start.
Qed.

(** [wasm_run_agent]. *)
Definition action_of (results : list (option Z)) : Z :=
  match results with [r] => int_of_u32 (default 0 r) | _ => 0 end.
(** The module that is neither loaded nor freed. *)
Definition left_behind (s : seen) : list Z := match s_loads s with [(md, Some _)] => [md] | _ => [] end.

Section AgentPaths.
Variables (modulus : Z) (obs : list Z) (obs_len model_id : Z).
Hypothesis Hlen : 0 <= obs_len.
Hypothesis Hfit : 1024 + 4 * obs_len < modulus.

Definition agent_ended (r : Z) (s : seen) : Prop :=
  match s_guests s with
  | [] => r = -1
  | [(_, _, Some _)] => r = -1
  | [(_, _, None)] => length (s_results s) = 1%nat /\ r = action_of (s_results s)
  | _ => False
  end.
Definition agent_claim (c : m3_call) (s : seen) : Prop :=
  (runs_guest c = true -> s_linked s = agent_links) /\
  match c with
  | CallV _ args => args = [1024; u32 obs_len; model_id] /\ s_noted s = Some (obs, obs_len) /\
      exists base size, s_memory s = Some (base, size) /\ s_stored s = words_at (base + 1024) (words_of obs obs_len)
  | _ => True
  end.

Lemma agent_quiet c s : runs_guest c = false -> agent_claim c s.
Proof using. intros Hc. split; [intros Hr; by rewrite Hc in Hr|]. by destruct c. Qed.

Lemma safe_agent_step env rt md s (Q : Z -> holds -> seen -> Prop) :
  s_linked s = agent_links -> s_guests s = [] -> s_stored s = [] -> s_results s = [] ->
  (forall r s', s_loads s' = s_loads s -> agent_ended r s' -> Q r (holding env) s') ->
  safe agent_claim (agent_step modulus rt obs obs_len model_id) (running env rt md [] [] [] []) s Q.
Proof using Hlen Hfit.
  intros Hl Hg Hs Hr HQ. unfold agent_step. apply safe_call; [owned|done|]. intros [[err|] f].
  { change (after _ (FindFunction rt "agent_step") _) with (running env rt md [rt] [] [] []).
    apply (safe_give_up _ agent_quiet); [owned|]. rewrite after_free by owned. apply HQ; [done|]. unfold agent_ended. cbn. by rewrite Hg. }
  change (after _ (FindFunction rt "agent_step") _) with (running env rt md [rt] [(f, rt)] [] []).
  apply (safe_quiet _ agent_quiet); [done|owned|]. intros [base size].
  destruct (Z.eqb_spec base 0) as [->|Hb]; cbn [orb].
  { change (after _ (GetMemory rt) _) with (running env rt md [rt] [(f, rt)] [] []).
    apply (safe_say _ agent_quiet), (safe_free_runtime _ agent_quiet); [owned|].
    rewrite after_free by owned. apply HQ; [done|]. unfold agent_ended. cbn. by rewrite Hg. }
  cbn [after fst]. rewrite (proj2 (Z.eqb_neq base 0)) by done.
  change ((running env rt md [rt] [(f, rt)] [] []){{ h_memory ::= _ }}) with (running env rt md [rt] [(f, rt)] [] [(rt, base, size)]).
  assert (Ew : wrap modulus (1024 + wrap modulus (obs_len * 4)) = 1024 + 4 * obs_len)
    by (unfold wrap; rewrite (Z.mod_small (obs_len * 4)), Z.mod_small; lia). rewrite Ew.
  destruct (Z.ltb_spec size (1024 + 4 * obs_len)) as [Hsz|Hsz].
  { apply (safe_say _ agent_quiet), (safe_free_runtime _ agent_quiet); [owned|].
    rewrite after_free by owned. apply HQ; [done|]. unfold agent_ended. cbn. by rewrite Hg. }
  assert (Hw : zlen (words_of obs obs_len) = obs_len) by (unfold zlen, words_of; rewrite length_fmap, length_seqZ; lia).
  apply (safe_store_words _ agent_quiet rt base size); [done|lia|lia|].
  apply (safe_quiet _ agent_quiet); [done..|]. intros [].
  apply safe_call; [cbn; by rewrite Z.eqb_refl| |].
  { split; [by intros _|]. split; [done|]. split; [done|]. exists base, size. split; [done|]. cbn. by rewrite Hs. }
  intros [err|].
  - apply (safe_give_up _ agent_quiet); [owned|].
    change (after (after _ (NoteObservation _ _) _) _ _) with (running env rt md [rt] [(f, rt)] [] []).
    rewrite after_free by owned. apply HQ; [done|]. unfold agent_ended. cbn. by rewrite Hg.
  - change (after _ (NoteObservation _ _) _) with (running env rt md [rt] [(f, rt)] [] [(rt, base, size)]). rewrite after_call.
    apply (safe_quiet _ agent_quiet); [done|cbn; by rewrite Z.eqb_refl|]. intros a. cbn [after].
    apply (safe_free_runtime _ agent_quiet); [owned|]. rewrite after_free by owned. apply HQ; [done|]. unfold agent_ended. cbn. by rewrite Hg, Hr.
Qed.
End AgentPaths.

Lemma safe_run_agent modulus env code size obs obs_len model_id (Q : Z -> holds -> seen -> Prop) :
  env <> 0 -> 0 <= obs_len -> 1024 + 4 * obs_len < modulus ->
  (forall r s', agent_ended r s' -> Q r (holding env){{ h_parsed := left_behind s' }} s') ->
  safe (agent_claim obs obs_len model_id) (run_agent modulus env code size obs obs_len model_id) (holding env) nothing Q.
Proof.
  intros He Hlen Hfit HQ. pose proof (agent_quiet obs obs_len model_id) as Hquiet.
  assert (Hfree : forall rt l, after (Holds env [rt] [(rt, WASM_MEMORY_LIMIT_BYTES)] l [] [] [] [] []) (FreeRuntime rt) tt = (holding env){{ h_parsed := l }})
    by (intros rt l; cbn; by rewrite Z.eqb_refl).
  apply (safe_opening _ _ _ (give_up_run _) (fun err rt _ => give_up_run _ err rt)
    (fun rt md => link_all md agent_links;; agent_step modulus rt obs obs_len model_id)); [exact Hquiet|done|..].
  - by apply (HQ (-1) nothing).
  - intros err rt. apply (safe_give_up _ Hquiet); [owned|]. rewrite Hfree. by apply (HQ (-1) nothing).
  - intros err rt md. apply (safe_give_up _ Hquiet); [owned|]. rewrite Hfree. pose proof (HQ (-1) nothing{{ s_loads := [(md, Some err)] }} eq_refl) as Hq. exact Hq.
  - intros rt md. apply (safe_link_all _ Hquiet md rt); [done..|]. apply safe_agent_step; [done..|].
    intros r s' El Hr. specialize (HQ r s' Hr). unfold left_behind in HQ. rewrite El in HQ. exact HQ.
Qed.

(** ** Properties *)

(** C23: running a module obeys the protocol of wasm3.h, whatever the interpreter
    answers, and whatever its calls do to its state and the kernel's heap.  Every
    call made is allowed when it is made, also in a run in which a guest never
    returns; no guest runs before the four functions of [wasm_run_bytes], the
    inference not among them, are linked, and no others are.  A run ends when its
    calls do, with 0 when "start", or else "_start", was found and returned without a
    message, and with -1 in every other case; and then nothing is held but the
    environment: the runtime is freed on every path, and so is a module that could
    not be loaded. *)
Theorem run_bytes_protocol {W} (I : interpreter W) (w : W) (code : option (list Z)) (size g_env : Z) :
  let '(tr, out) := run I (wasm_run_bytes code size g_env) w in
  ((forall c w, I c w <> None) -> out <> None) /\
  exists h, obeys (holding g_env) tr = Some h /\
    (forall tr1 e tr2, tr = tr1 ++ e :: tr2 -> runs_guest (call_of e) = true -> s_linked (seen_in tr1) = bytes_links) /\
    match out with
    | None => True
    | Some (r, g_env', _) => h = holding g_env' /\ bytes_ended r (seen_in tr)
    end.
Proof.
  set (Q := fun (a : Z * Z) h s => h = holding (snd a) /\ bytes_ended (fst a) s).
  assert (Hs : safe bytes_claim (wasm_run_bytes code size g_env) (holding g_env) nothing Q).
  { assert (Hno : forall g, Q (-1, g) (holding g) nothing) by (intros g; split; [done|right; split; [done|by left]]).
    unfold wasm_run_bytes. destruct code as [code|]; [|apply Hno]. destruct (size =? 0); [apply Hno|].
    apply (safe_env _ bytes_quiet). intros r g [[-> Hg]| ->]; cbn [Z.eqb negb]; [|apply Hno].
    apply safe_bind, safe_run_module; [done|]. intros r s' Hr. by split. }
  pose proof (run_ends I (wasm_run_bytes code size g_env) w) as Hend.
  apply (run_safe _ I _ _ _ _ w) in Hs. destruct (run I _ w) as [tr out]. split; [exact Hend|].
  destruct Hs as (h & Ho & Hb & HQ). exists h. split; [done|]. split; [exact Hb|]. by destruct out as [[[r g] w']|].
Qed.

(** C24: running an agent obeys the protocol of wasm3.h, whatever the interpreter
    answers, for an observation whose end does not wrap around [size_t].  Every call
    and every store is allowed: the loader writes only inside the memory the
    interpreter gave it, before a guest can move it.  The guest is called once, with
    the offset 1024, the length and the model, when its five functions are linked,
    the words of the observation are at that offset and the observation is noted.
    The result is what the guest returned, or -1 with a message or no call.  At the
    end nothing is held but the environment, and a module that could not be loaded:
    it is left behind. *)
Theorem run_agent_protocol {W} (I : interpreter W) (w : W) (modulus : Z) (code : option (list Z)) (size : Z)
    (obs : list Z) (obs_len model_id g_env : Z) :
  0 <= obs_len -> 1024 + 4 * obs_len < modulus ->
  let '(tr, out) := run I (wasm_run_agent modulus code size obs obs_len model_id g_env) w in
  ((forall c w, I c w <> None) -> out <> None) /\
  exists h, obeys (holding g_env) tr = Some h /\
    (forall tr1 e tr2, tr = tr1 ++ e :: tr2 -> agent_claim obs obs_len model_id (call_of e) (seen_in tr1)) /\
    match out with
    | None => True
    | Some (r, g_env', _) => h = (holding g_env'){{ h_parsed := left_behind (seen_in tr) }} /\ agent_ended r (seen_in tr)
    end.
Proof.
  intros Hlen Hfit. pose proof (agent_quiet obs obs_len model_id) as Hquiet.
  set (Q := fun (a : Z * Z) h s => h = (holding (snd a)){{ h_parsed := left_behind s }} /\ agent_ended (fst a) s).
  assert (Hs : safe (agent_claim obs obs_len model_id) (wasm_run_agent modulus code size obs obs_len model_id g_env) (holding g_env) nothing Q).
  { unfold wasm_run_agent. destruct code as [code|]; [|done]. destruct (size =? 0); [done|].
    apply (safe_env _ Hquiet). intros r g [[-> Hg]| ->]; cbn [Z.eqb negb]; [|done].
    apply safe_bind, safe_run_agent; [done..|]. intros r s' Hr. by split. }
  pose proof (run_ends I (wasm_run_agent modulus code size obs obs_len model_id g_env) w) as Hend.
  apply (run_safe _ I _ _ _ _ w) in Hs. destruct (run I _ w) as [tr out]. split; [exact Hend|].
  destruct Hs as (h & Ho & Hb & HQ). exists h. split; [done|]. split; [exact Hb|]. by destruct out as [[[r g] w']|].
Qed.

(** ** An interpreter

    A module is a byte 0 and then 1 (does not load) or anything else, n (returns
    n).  Its state is the number of handles given and the
    module's byte. *)
Definition toy (c : m3_call) : Z * Z -> option (answer c * (Z * Z)) :=
  fun '(n, b) =>
  match c return option (answer c * (Z * Z)) with
  | NewEnvironment | NewRuntime _ _ => Some (n + 1, (n + 1, b))
  | ParseModule _ code _ =>
      match code with
      | 0 :: x :: _ => Some ((None, n + 1), (n + 1, x))
      | _ => Some ((Some (ascii "malformed Wasm binary"), 0), (n, b))
      end
  | LoadModule _ _ => Some (if b =? 1 then Some (ascii "out of memory") else None, (n, b))
  | FindFunction _ _ => Some ((None, n + 1), (n + 1, b))
  | LinkRawFunction _ _ | CallV _ _ => Some (None, (n, b))
  | GetMemory _ => Some ((0x100000, 0x10000), (n, b))
  | GetResultsV _ => Some (Some b, (n, b))
  | _ => Some (tt, (n, b))
  end.

Lemma run_bytes_protocol_witness :
  let '(tr, out) := run toy (wasm_run_bytes (Some [0; 2]) 2 0) (0, 0) in
  let '(tr1, out1) := run toy (wasm_run_bytes (Some [0; 1]) 2 0) (0, 0) in
  out = Some (0, 1, (4, 2)) /\ obeys (holding 0) tr = Some (holding 1) /\ s_guests (seen_in tr) = [(4, [], None)] /\
  out1 = Some (-1, 1, (3, 1)) /\ obeys (holding 0) tr1 = Some (holding 1).
Proof.
  pose proof (run_bytes_protocol toy (0, 0) (Some [0; 2]) 2 0) as H.
  pose proof (run_bytes_protocol toy (0, 0) (Some [0; 1]) 2 0) as H1.
  vm_compute in H, H1 |- *. destruct H as (_ & h & Ho & _ & Hr & _), H1 as (_ & h1 & Ho1 & _ & Hr1 & _). subst h h1.
  split; [reflexivity|]. split; [exact Ho|]. do 2 (split; [reflexivity|]). exact Ho1.
Defined.

Lemma run_agent_protocol_witness :
  let '(tr, out) := run toy (wasm_run_agent 0x100000000 (Some [0; 7]) 2 [0x40400000; 0xBF800000] 2 1 0) (0, 0) in
  let '(tr1, out1) := run toy (wasm_run_agent 0x100000000 (Some [0; 1]) 2 [0x40400000; 0xBF800000] 2 1 0) (0, 0) in
  out = Some (7, 1, (4, 7)) /\ obeys (holding 0) tr = Some (holding 1) /\
  s_stored (seen_in tr) = [(0x100400, 0x40400000); (0x100404, 0xBF800000)] /\ s_guests (seen_in tr) = [(4, [1024; 2; 1], None)] /\
  out1 = Some (-1, 1, (3, 1)) /\ obeys (holding 0) tr1 = Some (holding 1){{ h_parsed := [3] }}.
Proof.
  pose proof (run_agent_protocol toy (0, 0) 0x100000000 (Some [0; 7]) 2 [0x40400000; 0xBF800000] 2 1 0 ltac:(lia) ltac:(lia)) as H.
  pose proof (run_agent_protocol toy (0, 0) 0x100000000 (Some [0; 1]) 2 [0x40400000; 0xBF800000] 2 1 0 ltac:(lia) ltac:(lia)) as H1.
  vm_compute in H, H1 |- *. destruct H as (_ & h & Ho & _ & Hr & _), H1 as (_ & h1 & Ho1 & _ & Hr1 & _). subst h h1.
  do 5 (split; [first [reflexivity|exact Ho]|]). exact Ho1.
Defined.
